(* ===== verification/_CoqProject ===== *)
-Q . S2P
Prelude.v
Sha256.v
Base64Url.v
JsTime.v
JsValue.v
ValueObjects.v
MerkleLog.v
Hashes.v
Limits.v
WitnessCore.v
Fulfillment.v
Quota.v
AppendState.v
AppendEval.v
SnapshotBinding.v
AppendSamples.v
SnapshotRows.v
Fanout.v
PolicyProof.v
CursorCodec.v
CanonicalJson.v
AuthorityValues.v
AuthorityFinality.v
AuthorityDigests.v
AuthorityGenerations.v
AuthorityDecisions.v
AuthorityChallenges.v
AuthorityDevices.v
AuthorityPurchases.v
AuthorityRefunds.v
AuthorityEvidence.v
AuthorityRevocations.v
StrictJson.v
Envelopes.v
SyncPage.v
SyncReplay.v
Idempotency.v
Relay.v
DevStore.v
