(* ===== verification/Prelude.v ===== *)
(** * Juicebox Messaging: a verification library

    The repository is a messaging service for projects and their customers: an
    end-to-end encrypted log per conversation, an append service that charges
    quotas, an independent witness that cosigns append-only logs, and a
    purchase-support product on top.  This library models the parts of the
    TypeScript under [src/] that decide what is accepted, hashed, charged,
    witnessed and shown, as executable functions, and proves what makes them
    correct.

    ** Parts and files

    - [Prelude] (this file): calls that may throw ([result], [exn]), numbers,
      strings of code units, bytes, code-unit order, and the tactics
      [inv_result], [split_orb] and [bsimp] the other files share.
    - [Sha256]: the class of hash functions with 32-byte digests (a parameter
      of every model that hashes, since [node:crypto] is not part of the
      repository), its instance by the published standard for evaluation, a
      short checksum with the same interface for evaluating long records, and
      [collision], in which every theorem about hashes is phrased.
    - [Base64Url], [JsTime], [JsValue]: what the code uses of JavaScript:
      base64url text, [Date.parse] and [toISOString] on the proleptic
      calendar, and the shape of an [unknown] value (prototypes, property
      descriptors, holes in arrays).
    - [ValueObjects]: [production/delivery/valueObjects.ts], the parsers of
      branded values, each with what it accepts.
    - [MerkleLog]: [production/witness/merkleLog.ts], tree hashes, proof
      generation and the two iterative verifiers.
    - [Hashes]: [production/delivery/hashes.ts], length prefixing, leaf hashes,
      the head chain and checkpoint digests.
    - [Limits]: [production/delivery/limits.ts], the limits manifest and the
      page arithmetic.
    - [WitnessCore]: [production/witness/witnessCore.ts] over the tables of
      [witness/migrations]: the database is a record of row lists with the
      unique constraints of the schema, every operation passes it explicitly,
      and [step] and [reachable] are the serialised transactions.
    - [Fulfillment]: [domain/model.ts] and [domain/fulfillment.ts], the
      reduction of an authenticated transcript to a fulfilment view.
    - [Quota], [AppendState], [AppendEval], [SnapshotBinding]:
      [production/delivery/state.ts].  [Quota] has the quota rows, capacity
      deltas, reservations and their conversion; [AppendState] the locked rows,
      their parsers, the snapshot and its digests; [AppendEval] the append
      decision, the transition validators and the pending expiry;
      [SnapshotBinding] what the digests bind.  [AppendSamples] is a worked
      append on which those theorems are exercised; [SnapshotRows] reads a
      snapshot back from the object that carries its rows.
    - [PolicyProof] and [Fanout], also of [state.ts]: policy-head proofs and
      the refresh of a snapshot by one, and the recipients an append is fanned
      out to, with the digests and the evidence of the plan.
    - [CursorCodec]: [production/delivery/conversationCursorCodec.ts] and the
      cursor context and claims of [production/delivery/sync.ts]; AES-256-GCM is
      the class [AesGcm] with the laws of an authenticated cipher.
    - [CanonicalJson]: the two canonical serialisers
      ([production/authority/digests.ts],
      [production/delivery/policyHeadIssuance.ts]) and the digests over them.
    - [AuthorityValues], [AuthorityFinality], [AuthorityGenerations],
      [AuthorityDecisions], [AuthorityChallenges], [AuthorityDevices],
      [AuthorityPurchases], [AuthorityRefunds], [AuthorityEvidence],
      [AuthorityRevocations]: the wallet authority of
      [production/authority/].  Value objects ([valueObjects.ts]); block
      anchors, canonicality and wallet signatures ([finality.ts],
      [signatures.ts]); transition cursors, generations and the scans that
      append them, and then the evidence behind a generation and the staff
      delegations ([delegations.ts]); the retirement of a generation
      ([revocations.ts]); gate requests, decisions and the chain of audit
      records ([decisions.ts]); the challenges a wallet signs to enrol a device
      ([challenges.ts]) and the enrolment itself, with the verdicts of its
      verifiers ([devices.ts]); the chain evidence of a purchase and the signed
      refund ledger beside it ([purchases.ts]), whose registries of trusted
      objects are an explicit state with a step relation.  [AuthorityDigests] is what their digests determine:
      [same_json] relates values with one canonical text, and its lemmas
      recover the fields.
    - [StrictJson]: the strict readers without duplicate keys of
      [production/delivery/envelopes.ts] and [sync.ts], one definition with the
      bounds as parameters.
    - [Envelopes]: the rest of [envelopes.ts], append bodies and stored
      envelopes; [Idempotency]: [production/delivery/idempotency.ts].
    - [SyncPage] and [SyncReplay], of [production/delivery/sync.ts]: the
      verification of a page of a conversation against the anchor it was asked
      from, its loop over the events as a fold over an explicit loop state, and
      the replay of the policy transitions inside a page.
    - [Relay]: [production/relay/relayFormat.ts].
    - [DevStore]: [server/dev-messaging/store.ts], the SQLite store as a record
      of tables with operations that read and change it, and [reachable] its
      histories.

    The append evaluation calls the quota and digest functions, which call the
    hashing and value-object layers; the witness core calls the Merkle log and
    the checkpoint digests.  In the authority, scans build generations, losses
    and verified roots are the evidence a generation is activated by, and
    revocations retire one; an enrolment answers a wallet challenge and a
    possession challenge of one device; a refund lookup starts from a verified
    purchase; a decision cites such evidence by digest and is
    released only behind its audit record; all of them compare canonical digests.
    A page is made of the stored envelopes and head hashes of the append side,
    its cursor claims and limits are those of the codec and the manifest, and
    the replay request is built from a verified page.

    ** What the theorems show

    - Merkle proofs: the generated proofs verify, and verified proofs mean
      membership or extension, up to an exhibited collision; an example
      records that the consistency verifier does not check node lengths.
    - Witness: in every reachable database checkpoints are consistent, no size
      is signed twice with different roots, positions are contiguous, receipts
      are permanent, honest extensions are witnessed, and every answer of every
      operation means what it says; one theorem records that chain extensions
      are not authenticated.
    - Hashes: leaf hashes, checkpoint digests, reservation ids, scope hashes
      and snapshot digests determine what was hashed, up to a collision.
    - Append: the decision is total on parsed rows and allows exactly the
      authorized appends that fit; its effect, the accepted transitions and the
      pending expiry are exact.
    - Quotas: over any interleaving of reservations and settlements a row
      counts what was finalized, reserves what is live and respects its limits;
      live reservations can always be settled, and only once.
    - Policy proofs and snapshots: a proof is accepted exactly when it matches
      its expectation, its window and the statuses of its purpose; a snapshot
      refreshed by one is not refused for a policy reason while the proof
      lasts; a snapshot object parses to the rows it carries.
    - Fan-out: the plan lists exactly the other installations of the locked
      roster that are active and unexpired, and the conversation's own hashes
      determine it, up to a collision.
    - Authority: over any sequence of accepted scans the history of a project
      has no gaps and appears in finalized order; a scan appends only behind
      what was scanned, from pinned sources; a generation
      activated by an accepted loss is the disabled successor of the one that was
      lost, and the history accepts it exactly when the evidence is new;
      signatures and anchors are about what was
      asked and meet the provider quorum; delegations are alive and bounded;
      revocations retire the exact generation in causal order.  One theorem
      records that the first scan is not bound to its project.
    - Decisions: an eligible decision is backed by current evidence of every
      required kind for its subject, resource and policy, with a lease no
      longer than that evidence; what is released is recorded, or says that
      the audit store failed; two chains of audit records with one head have
      the same records, up to a collision.
    - Challenges: what the wallet signs is exactly the terms of the challenge, up
      to a collision, whether it signs text or typed data: every field and the
      keys of the device, but not the expiry of the key package nor, as typed
      data, the account, on examples of which two challenges have one digest.  A
      challenge is usable only inside its window, by its winning claim and for
      the terms the enrolment expects.
    - Devices: a claimed pair of challenges is the expected pair, open when
      claimed and now; an enrolled device has the keys the wallet challenge
      names, a credential of at most thirty days, and four verdicts that say
      "verified", on its signature, possession, key package and directory entry,
      each about exactly this enrolment.  The digest of a possession challenge
      determines the challenge.
    - Purchases: a verified purchase rests on a final receipt with the claimed
      logs, from the trusted contracts, for the claimed customer, and a tier
      purchase on one call with one child call.
    - Refunds: whatever the sequence of calls, a purchase is cleared only behind
      a fresh head that extends what was observed and that a verified verdict of
      the bundle attributes to the expected signer, with no entry or a dispute
      resolved for it; a closed refund is final, up to a
      collision.
    - Fulfilment: replays change nothing, shipping is terminal, and every part
      of the view is grounded in an authorized event.
    - Cursors: an issued cursor decodes to its claims under its own context and
      is refused under any other, every token gets exactly one of two answers;
      one theorem records that the clear key id is not authenticated.
    - JSON: the strict reader always answers, what it accepts has no duplicate
      keys and respects its bounds, and it reads back what a printer wrote; the
      canonical text determines the value, whatever the order of its keys.
    - Envelopes: stored envelopes that parse chain their heads, so that equal
      final heads mean equal transcripts up to a collision; append bodies are
      read back from their canonical text; replays are classified exactly.
    - Synchronisation: a verified page extends its anchor without a gap, inside
      the membership window and the bounds of the manifest, to the signed and
      witnessed head of its snapshot; two reads that end with one signed head
      contain the same envelopes, however they were paged, up to a collision;
      and accepted replay evidence means that no application message of the page
      follows a policy cutoff and only commits clear one.
    - Development store: in every history rooms keep their contract,
      invitations are used once, sending is idempotent, reading page by page
      ends with the whole log, and rooms are invisible to strangers.
    - Limits: the manifest parser returns exactly the limits its record holds,
      each under its own key and its own ceiling, and only when the largest page
      fits the response bound.

    ** Conventions

    Error messages are display text and are dropped; the error class is kept.
    Object literals are evaluated in the order of the source, so the first
    failing field decides the error.  63-bit counters are decimal strings, as
    in the source, with [BigInt] as their value and overflow written out.
    Prepared objects compared with [JSON.stringify] have the same keys in the
    same order and string leaves, so they are compared structurally.  Fields
    whose type is one literal have no component in the records.  JavaScript
    strings are modelled on code units below 256.  An object of the model keeps
    its keys in the order they were written; JavaScript enumerates those that
    spell an array index first, on which no modelled code depends.  The
    development store counts the bytes of a ciphertext where SQLite's [length]
    would stop at a NUL, which the base64url its handlers admit does not hold.

    Values passed between parsers may be arrays with holes, which JSON has not;
    they are modelled wherever the code would let one through.
    [String.prototype.localeCompare] is a parameter where only the code's own
    identifiers fix the order, and the order of code units on UUIDs.

    Fuel: [merkleRoot], [inclusionProof] and [subProof] recurse on halves of
    the list with the list's length as fuel, which [splitPoint] keeps strictly
    decreasing; the verifiers loop over the proof.  The verifiers shift 32-bit
    integers, hence the bound of 2^31 leaves.  The strict JSON reader takes two
    units of fuel per code unit, enough because a value and the separator
    behind it each consume one ([parse_terminates]).

    ** Not modelled

    Of [sync.ts], the calls of its ports (cursor codec, signature, policy, MLS and
    witness verification) and the assembly of their evidence; the delivery
    service, PostgreSQL stores, HTTP, chain reads, the
    embed protocol, the user interface and the Rust crates.  Signatures, the
    clock, random numbers, URL parsing ([UrlParser]) and PostgreSQL casts are
    parameters or left to the platform. *)

From stdpp Require Import base list strings gmap.
From Stdlib Require Import ZArith Lia Ascii.
From Stdlib Require String.
From Stdlib Require Strings.Byte.
From Stdlib Require Export Sorting.Sorted.

#[global] Open Scope Z_scope.

(** ** Results: code that may throw *)

(** The error classes thrown by the modelled code.  Messages are display text
    and are not part of the model; the class and, for the development lab, the
    machine-readable code and HTTP status are. *)
Inductive exn :=
| DeliveryValidationError
| DeliveryStateValidationError
| DeliveryEnvelopeValidationError
| IdempotencyValidationError
| AuthorityValidationError
| ConversationSyncValidationError
| DecodedConversationCursorBindingError
| ConversationHistoryRetentionError
| DeliveryServiceValidationError
| SyntaxError
| RangeError
| TypeError
| GenericError
| DevMessagingError (code : string) (status : Z).

#[export] Instance exn_eq_dec : EqDecision exn.
Proof. solve_decision. Defined.

(** A call returns a value or throws. *)
Inductive result (A : Type) :=
| Ok (a : A)
| Throw (e : exn).
Arguments Ok {A} _.
Arguments Throw {A} _.

#[export] Instance result_ret : MRet result := @Ok.
#[export] Instance result_bind : MBind result := λ A B f m,
  match m with Ok a => f a | Throw e => Throw e end.
#[export] Instance result_fmap : FMap result := λ A B f m,
  match m with Ok a => Ok (f a) | Throw e => Throw e end.

(** [if (b) throw e;] *)
Definition throw_if (b : bool) (e : exn) : result unit :=
  if b then Throw e else Ok ().

(** [xs.map(f)] for an [f] that may throw: left to right, first throw wins. *)
Fixpoint mapR {A B} (f : A → result B) (xs : list A) : result (list B) :=
  match xs with
  | [] => Ok []
  | x :: xs => y ← f x; ys ← mapR f xs; Ok (y :: ys)
  end.

Lemma bind_Ok {A B} (m : result A) (f : A → result B) b :
  m ≫= f = Ok b ↔ ∃ a, m = Ok a ∧ f a = Ok b.
Proof. destruct m; cbn; split; [eauto | by intros (? & [= ->] & ?) | done | by intros (? & ? & _)]. Qed.

Lemma throw_if_Ok b e u : throw_if b e = Ok u ↔ b = false.
Proof. destruct b, u; cbn; split; congruence. Qed.

Lemma mapR_Ok {A B} (f : A → result B) xs ys :
  mapR f xs = Ok ys ↔ Forall2 (λ x y, f x = Ok y) xs ys.
Proof.
  revert ys; induction xs as [|x xs IH]; intros ys; cbn.
  - split; [intros [= <-]; constructor | by inversion 1].
  - rewrite bind_Ok. split.
    + intros (y & Hy & (ys' & Hys & [= <-])%bind_Ok).
      constructor; [done | by apply IH].
    + inversion 1 as [|? y ? ys' Hy Hys]; subst. exists y; split; [done|].
      apply bind_Ok. exists ys'; split; [by apply IH | done].
Qed.

Lemma mapR_map {A B} (f : A → result B) g xs :
  Forall (λ x, f x = Ok (g x)) xs → mapR f xs = Ok (map g xs).
Proof. induction 1 as [|x xs Hx _ IH]; cbn; [done|]. by rewrite Hx; cbn; rewrite IH. Qed.

(** Inverts every successful monadic call among the hypotheses. *)
Ltac inv_result :=
  repeat match goal with
  | H : _ ≫= _ = Ok _ |- _ =>
      let a := fresh "x" in let Ha := fresh "Hx" in
      apply bind_Ok in H as (a & Ha & H)
  | H : throw_if _ _ = Ok _ |- _ => apply throw_if_Ok in H
  | H : Ok _ = Ok _ |- _ => injection H as H
  | H : Throw _ = Ok _ |- _ => discriminate H
  | H : () = _ |- _ => clear H
  | H : mret _ = Ok _ |- _ => cbn in H
  end.

(** Splits a [||] chain that evaluated to [false]. *)
Ltac split_orb :=
  repeat match goal with
  | H : (_ || _) = false |- _ =>
      let H' := fresh H in apply orb_false_iff in H as [H H']
  | H : (_ && _) = true |- _ =>
      let H' := fresh H in apply andb_true_iff in H as [H H']
  | H : negb _ = false |- _ => apply negb_false_iff in H
  | H : negb _ = true |- _ => apply negb_true_iff in H
  end.

(** [split_orb], and reads off every decided proposition. *)
Ltac bsimp :=
  split_orb;
  repeat match goal with
  | H : bool_decide _ = true |- _ => apply bool_decide_eq_true in H
  | H : bool_decide _ = false |- _ => apply bool_decide_eq_false in H
  end.

Create HintDb jb.

(** ** Numbers *)

(** A JavaScript [number]: integral values are kept exactly, everything else
    (fractions, NaN, infinities) is one class. *)
Inductive jsnum := NInt (z : Z) | NOther.

Definition MAX_SAFE_INTEGER : Z := 2 ^ 53 - 1.

(** [Number.isSafeInteger]. *)
Definition isSafeInteger (n : jsnum) : bool :=
  match n with NInt z => Z.abs z <=? MAX_SAFE_INTEGER | NOther => false end.

Definition UINT63_MAX : Z := 2 ^ 63 - 1.

(** The 32-bit signed conversion applied by JavaScript's bitwise operators. *)
Definition toInt32 (z : Z) : Z :=
  let w := z mod 2 ^ 32 in if w <? 2 ^ 31 then w else w - 2 ^ 32.

(** [a >> 1]. *)
Definition shr1 (z : Z) : Z := Z.shiftr (toInt32 z) 1.

Lemma shr1_small z : 0 <= z < 2 ^ 31 → shr1 z = z / 2.
Proof.
  intros H. unfold shr1, toInt32. rewrite Z.mod_small by lia.
  destruct (z <? 2 ^ 31) eqn:E; [|lia].
  rewrite Z.shiftr_div_pow2 by lia. done.
Qed.

(** ** Strings and bytes *)

(** A JavaScript string is a sequence of code units; the model has the code
    units below 256 (Latin-1), one [ascii] each.  Bytes are [byte]s. *)
Abbreviation byte := Init.Byte.byte.
Abbreviation bytes := (list byte).

#[export] Instance byte_eq_dec : EqDecision byte := Byte.byte_eq_dec.

Definition chars (s : string) : list ascii := String.list_ascii_of_string s.
Definition code (c : ascii) : Z := Z.of_N (N_of_ascii c).
Definition strlen (s : string) : Z := Z.of_nat (String.length s).

Lemma chars_inj s t : chars s = chars t → s = t.
Proof.
  intros H. rewrite <- (String.string_of_list_ascii_of_string s),
    <- (String.string_of_list_ascii_of_string t). by unfold chars in H; rewrite H.
Qed.

Lemma length_chars s : length (chars s) = String.length s.
Proof. induction s; cbn; auto. Qed.

Lemma chars_app s t : chars (s +:+ t) = chars s ++ chars t.
Proof.
  induction s as [|c s IH]; [done|].
  change (c :: chars (s +:+ t) = c :: (chars s ++ chars t)). by rewrite IH.
Qed.

Lemma chars_of_list l : chars (String.string_of_list_ascii l) = l.
Proof. apply String.list_ascii_of_string_of_list_ascii. Qed.

Definition in_range (lo hi : Z) (c : ascii) : bool := (lo <=? code c) && (code c <=? hi).
Definition is_digit (c : ascii) : bool := in_range 48 57 c.
Definition is_lower (c : ascii) : bool := in_range 97 122 c.
Definition is_upper (c : ascii) : bool := in_range 65 90 c.
Definition is_hex (c : ascii) : bool := is_digit c || in_range 97 102 c.
Definition is_hex_ci (c : ascii) : bool := is_hex c || in_range 65 70 c.

(** A fixed-width regular expression: one character class per position. *)
Fixpoint match_classes (ps : list (ascii → bool)) (cs : list ascii) : bool :=
  match ps, cs with
  | [], [] => true
  | p :: ps, c :: cs => p c && match_classes ps cs
  | _, _ => false
  end.

(** JavaScript [<] on strings: code-unit lexicographic order. *)
Fixpoint str_ltb (s t : list ascii) : bool :=
  match s, t with
  | [], _ :: _ => true
  | _, [] => false
  | a :: s, b :: t => (code a <? code b) || ((code a =? code b) && str_ltb s t)
  end.
Definition slt (s t : string) : bool := str_ltb (chars s) (chars t).
Definition sle (s t : string) : bool := negb (slt t s).

Lemma code_inj a b : code a = code b → a = b.
Proof.
  unfold code. intros H. apply N2Z.inj in H.
  by rewrite <- (ascii_N_embedding a), <- (ascii_N_embedding b), H.
Qed.

Lemma code_bound c : 0 <= code c < 256.
Proof.
  unfold code. pose proof (N_ascii_bounded c). lia.
Qed.

Lemma str_ltb_irrefl s : str_ltb s s = false.
Proof. induction s as [|c s IH]; [done|]. cbn. rewrite IH, Z.ltb_irrefl. by destruct (_ =? _). Qed.
Lemma str_ltb_trans s t u : str_ltb s t = true → str_ltb t u = true → str_ltb s u = true.
Proof.
  revert t u. induction s as [|a s IH]; intros [|b t] [|c u]; cbn; try done.
  intros [Hab|[Hab Hs]%andb_true_iff]%orb_true_iff [Hbc|[Hbc Ht]%andb_true_iff]%orb_true_iff;
    apply orb_true_iff; [left; lia..|].
  right. rewrite (IH _ _ Hs Ht). lia.
Qed.
Lemma str_ltb_total s t : str_ltb s t = true ∨ s = t ∨ str_ltb t s = true.
Proof.
  revert t. induction s as [|a s IH]; intros [|b t]; cbn; auto.
  destruct (Z.lt_trichotomy (code a) (code b)) as [H|[H|H]].
  - left. destruct (Z.ltb_spec (code a) (code b)); [done|lia].
  - apply code_inj in H as ->. rewrite Z.ltb_irrefl, Z.eqb_refl. cbn.
    destruct (IH t) as [?|[->|?]]; auto.
  - right; right. destruct (Z.ltb_spec (code b) (code a)); [done|lia].
Qed.

(** [sle] is a total order. *)
Lemma sle_trans s t u : sle s t = true → sle t u = true → sle s u = true.
Proof.
  unfold sle, slt. rewrite !negb_true_iff. intros H1 H2.
  destruct (str_ltb (chars u) (chars s)) eqn:E; [|done].
  destruct (str_ltb_total (chars s) (chars t)) as [Hst|[Hst|Hst]].
  - pose proof (str_ltb_trans _ _ _ E Hst). congruence.
  - rewrite Hst in E. congruence.
  - congruence.
Qed.

Lemma sle_false s t : sle s t = false → sle t s = true.
Proof.
  unfold sle, slt. rewrite negb_false_iff. intros H.
  destruct (str_ltb (chars s) (chars t)) eqn:E; [|done].
  pose proof (str_ltb_trans _ _ _ H E) as HX. by rewrite str_ltb_irrefl in HX.
Qed.

Lemma sle_antisym s t : sle s t = true → sle t s = true → s = t.
Proof.
  unfold sle, slt. rewrite !negb_true_iff. intros H1 H2.
  destruct (str_ltb_total (chars s) (chars t)) as [H|[H|H]]; [congruence|by apply chars_inj|congruence].
Qed.

Definition byte_of_Z (z : Z) : byte :=
  match Byte.of_N (Z.to_N (z mod 256)) with Some b => b | None => Byte.x00 end.
Definition Z_of_byte (b : byte) : Z := Z.of_N (Byte.to_N b).

Lemma Z_of_byte_bound b : 0 <= Z_of_byte b < 256.
Proof. unfold Z_of_byte. pose proof (Byte.to_N_bounded b). lia. Qed.

Lemma byte_of_Z_of_byte b : byte_of_Z (Z_of_byte b) = b.
Proof.
  unfold byte_of_Z. rewrite Z.mod_small by apply Z_of_byte_bound.
  unfold Z_of_byte. rewrite N2Z.id, Byte.of_to_N. done.
Qed.

Lemma Z_of_byte_of_Z z : Z_of_byte (byte_of_Z z) = z mod 256.
Proof.
  unfold byte_of_Z. pose proof (Z.mod_pos_bound z 256 ltac:(lia)) as Hb.
  destruct (Byte.of_N _) as [b|] eqn:E.
  - unfold Z_of_byte. apply Byte.to_of_N in E. rewrite E. lia.
  - apply Byte.of_N_None_iff in E. lia.
Qed.

Lemma Z_of_byte_inj a b : Z_of_byte a = Z_of_byte b → a = b.
Proof.
  intros H. by rewrite <- (byte_of_Z_of_byte a), <- (byte_of_Z_of_byte b), H.
Qed.

(** [Buffer.from(s, "utf8")] on the modelled code units. *)
Definition utf8_char (c : ascii) : bytes :=
  let z := code c in
  if z <? 128 then [byte_of_Z z]
  else [byte_of_Z (Z.lor 192 (Z.shiftr z 6)); byte_of_Z (Z.lor 128 (Z.land z 63))].
Definition utf8 (s : string) : bytes := flat_map utf8_char (chars s).

(** ** Sorting by a comparison *)

Fixpoint insert_by {A} (le : A → A → bool) (x : A) (xs : list A) : list A :=
  match xs with
  | [] => [x]
  | y :: ys => if le x y then x :: xs else y :: insert_by le x ys
  end.
Definition sort_by {A} (le : A → A → bool) : list A → list A := foldr (insert_by le) [].

Lemma insert_by_perm {A} (le : A → A → bool) x xs : insert_by le x xs ≡ₚ x :: xs.
Proof.
  induction xs as [|y ys IH]; cbn; [done|]. destruct (le x y); [done|]. rewrite IH. by constructor.
Qed.

Lemma sort_by_perm {A} (le : A → A → bool) xs : sort_by le xs ≡ₚ xs.
Proof. induction xs as [|x xs IH]; cbn; [done|]. by rewrite insert_by_perm, IH. Qed.

(** Sorting by a key without repetition orders the keys strictly. *)
Lemma sort_by_strict {A} (key : A → string) xs :
  NoDup (map key xs) →
  StronglySorted (λ s t, slt s t = true) (map key (sort_by (λ x y, sle (key x) (key y)) xs)).
Proof.
  induction xs as [|x xs IH]; cbn; [constructor|]. intros [Hn HN]%NoDup_cons. specialize (IH HN).
  assert (Hx : key x ∉ map key (sort_by (λ x y, sle (key x) (key y)) xs)).
  { rewrite (sort_by_perm _ xs). done. }
  revert IH Hx. generalize (sort_by (λ x y, sle (key x) (key y)) xs). clear.
  induction l as [|y ys IH]; cbn; [repeat constructor|]. inversion 1 as [|? ? HS HF]; subst.
  intros [Hne Hx]%not_elem_of_cons. destruct (sle (key x) (key y)) eqn:E; cbn.
  - assert (Hlt : slt (key x) (key y) = true).
    { unfold sle, slt in *. apply negb_true_iff in E.
      destruct (str_ltb_total (chars (key x)) (chars (key y))) as [H'|[H'%chars_inj|H']]; congruence. }
    constructor; [done|]. constructor; [done|]. eapply Forall_impl; [exact HF|].
    intros z Hz. cbn in *. unfold slt in *. by eapply str_ltb_trans.
  - constructor; [by apply IH|]. rewrite (insert_by_perm _ x ys). cbn. constructor; [|done].
    unfold sle in E. by apply negb_false_iff in E.
Qed.

Lemma strict_sorted_NoDup (xs : list string) : StronglySorted (λ s t, slt s t = true) xs → NoDup xs.
Proof.
  induction 1 as [|x xs _ IH HF]; constructor; [|done]. intros Hin.
  rewrite Forall_forall in HF. specialize (HF x Hin). unfold slt in HF. by rewrite str_ltb_irrefl in HF.
Qed.

(** A strictly sorted list is sorted already. *)
Lemma sort_by_id {A} (key : A → string) xs :
  StronglySorted (λ s t, slt s t = true) (map key xs) → sort_by (λ x y, sle (key x) (key y)) xs = xs.
Proof.
  induction xs as [|x xs IH]; cbn; [done|]. inversion 1 as [|? ? HS HF]; subst. rewrite IH by done.
  destruct xs as [|y ys]; [done|]. cbn in *. apply Forall_cons in HF as [Hxy _].
  assert (sle (key x) (key y) = true) as ->; [|done]. unfold sle, slt in *. apply negb_true_iff.
  apply not_true_iff_false. intros H'. pose proof (str_ltb_trans _ _ _ Hxy H') as HX.
  by rewrite str_ltb_irrefl in HX.
Qed.

(** A list of blocks of one size is read back block by block. *)
Lemma flat_map_inj {A B} (f : A → list B) n (P : A → Prop) xs ys :
  (∀ x, length (f x) = S n) → (∀ x y, P x → P y → f x = f y → x = y) →
  Forall P xs → Forall P ys → flat_map f xs = flat_map f ys → xs = ys.
Proof.
  intros HL HI HX. revert ys. induction HX as [|x xs Px _ IH]; intros ys HY HE.
  - destruct HY as [|y ys Py _]; [done|]. apply (f_equal length) in HE. cbn in HE.
    rewrite length_app, HL in HE. done.
  - destruct HY as [|y ys Py HY]; apply (f_equal id) in HE; cbn in HE.
    + apply (f_equal length) in HE. rewrite length_app, HL in HE. done.
    + apply app_inj_1 in HE as [E HE]; [|by rewrite !HL]. f_equal; [by apply HI|by apply IH].
Qed.
