(* ===== verification/Sha256.v ===== *)
(** * The hash interface and SHA-256

    Every digest of the system is Node's SHA-256.  The components are written
    against the interface [Sha256] (a function on byte strings with 32-byte
    results); [fips_sha256] is the FIPS 180-4 function, which implements the
    interface and lets every digest be evaluated; [checksum_digest] is a short
    checksum with the same interface for evaluating large records. *)

From stdpp Require Import base list strings.
From Stdlib Require Import ZArith Lia.
From S2P Require Import Prelude.

Class Sha256 := {
  sha256 : bytes → bytes;
  sha256_length : ∀ x, length (sha256 x) = 32%nat;
}.

(** ** FIPS 180-4 *)

Module Fips.

Definition w32 (z : Z) : Z := Z.land z 4294967295.
Definition add32 (a b : Z) : Z := w32 (a + b).
Definition rotr (n a : Z) : Z := Z.lor (Z.shiftr a n) (w32 (Z.shiftl a (32 - n))).
Definition Ch (x y z : Z) : Z := Z.lxor (Z.land x y) (Z.land (Z.lxor x 4294967295) z).
Definition Maj (x y z : Z) : Z := Z.lxor (Z.lxor (Z.land x y) (Z.land x z)) (Z.land y z).
Definition S0 (x : Z) : Z := Z.lxor (Z.lxor (rotr 2 x) (rotr 13 x)) (rotr 22 x).
Definition S1 (x : Z) : Z := Z.lxor (Z.lxor (rotr 6 x) (rotr 11 x)) (rotr 25 x).
Definition s0 (x : Z) : Z := Z.lxor (Z.lxor (rotr 7 x) (rotr 18 x)) (Z.shiftr x 3).
Definition s1 (x : Z) : Z := Z.lxor (Z.lxor (rotr 17 x) (rotr 19 x)) (Z.shiftr x 10).

(** The constants come from the fractional parts of the roots of the first
    primes: cube roots for the rounds, square roots for the initial state. *)
Definition is_prime (n : nat) : bool :=
  forallb (λ d, negb (Nat.eqb (n mod d) 0)) (seq 2 (n - 2)).
Definition primes : list Z :=
  Eval vm_compute in map Z.of_nat (List.filter is_prime (seq 2 310)).
Fixpoint cbrt (bit : nat) (n r : Z) : Z :=
  match bit with
  | O => r
  | S bit => let r' := r + 2 ^ Z.of_nat bit in cbrt bit n (if r' * r' * r' <=? n then r' else r)
  end.
Definition K : list Z := Eval vm_compute in map (λ p, w32 (cbrt 36 (Z.shiftl p 96) 0)) primes.

(** The eight working variables. *)
Record regs := Regs { ra : Z; rb : Z; rc : Z; rd : Z; re : Z; rf : Z; rg : Z; rh : Z }.

Definition H0 : regs := Eval vm_compute in
  let h i := w32 (Z.sqrt (Z.shiftl (nth i primes 0) 64)) in
  Regs (h 0%nat) (h 1%nat) (h 2%nat) (h 3%nat) (h 4%nat) (h 5%nat) (h 6%nat) (h 7%nat).

Definition round (r : regs) (k w : Z) : regs :=
  let t1 := w32 (rh r + S1 (re r) + Ch (re r) (rf r) (rg r) + k + w) in
  let t2 := add32 (S0 (ra r)) (Maj (ra r) (rb r) (rc r)) in
  Regs (add32 t1 t2) (ra r) (rb r) (rc r) (add32 (rd r) t1) (re r) (rf r) (rg r).

(** Runs the rounds with a sliding window of sixteen schedule words. *)
Fixpoint rounds (ks : list Z) (win : list Z) (r : regs) : regs :=
  match ks, win with
  | k :: ks, w :: rest =>
      let w16 := w32 (s1 (nth 13 rest 0) + nth 8 rest 0 + s0 (nth 0 rest 0) + w) in
      rounds ks (rest ++ [w16]) (round r k w)
  | _, _ => r
  end.

Definition compress (r : regs) (block : list Z) : regs :=
  let s := rounds K block r in
  Regs (add32 (ra r) (ra s)) (add32 (rb r) (rb s)) (add32 (rc r) (rc s)) (add32 (rd r) (rd s))
       (add32 (re r) (re s)) (add32 (rf r) (rf s)) (add32 (rg r) (rg s)) (add32 (rh r) (rh s)).

Fixpoint be (n : nat) (z : Z) : bytes :=
  match n with O => [] | S n => be n (Z.shiftr z 8) ++ [byte_of_Z z] end.

Fixpoint words (bs : bytes) : list Z :=
  match bs with
  | a :: b :: c :: d :: rest =>
      Z_of_byte a * 16777216 + Z_of_byte b * 65536 + Z_of_byte c * 256 + Z_of_byte d :: words rest
  | _ => []
  end.

Definition padded (bs : bytes) : bytes :=
  let n := length bs in
  let zeros := ((119 - n mod 64) mod 64)%nat in
  bs ++ [Byte.x80] ++ repeat Byte.x00 zeros ++ be 8 (8 * Z.of_nat n).

Fixpoint blocks (fuel : nat) (ws : list Z) (r : regs) : regs :=
  match fuel, ws with
  | S fuel, _ :: _ => blocks fuel (drop 16 ws) (compress r (take 16 ws))
  | _, _ => r
  end.

Definition hash (bs : bytes) : bytes :=
  let p := padded bs in
  let r := blocks (length p / 64)%nat (words p) H0 in
  be 4 (ra r) ++ be 4 (rb r) ++ be 4 (rc r) ++ be 4 (rd r)
  ++ be 4 (re r) ++ be 4 (rf r) ++ be 4 (rg r) ++ be 4 (rh r).

Lemma length_be n z : length (be n z) = n.
Proof. revert z; induction n; intros z; cbn; [done|]. rewrite length_app, IHn. cbn. lia. Qed.

Lemma length_hash bs : length (hash bs) = 32%nat.
Proof. unfold hash. by rewrite !length_app, !length_be. Qed.

End Fips.

#[local] Instance fips_sha256 : Sha256 := {|
  sha256 := Fips.hash;
  sha256_length := Fips.length_hash;
|}.

(** A 32-byte checksum, the second implementation of the interface.  Records of
    many kilobytes are evaluated with it: the parsers and folds are those of
    the model, and only the digest function is exchanged. *)
Definition checksum (bs : bytes) : bytes :=
  Fips.be 32 (foldl (λ h b, Z.land (h * 33 + Z_of_byte b) 4294967295) 5381 bs).

Lemma length_checksum bs : length (checksum bs) = 32%nat.
Proof. apply Fips.length_be. Qed.

#[local] Instance checksum_digest : Sha256 := {|
  sha256 := checksum;
  sha256_length := length_checksum;
|}.

(** The FIPS test vector for ["abc"]. *)
Example fips_abc :
  foldl (λ n b, n * 256 + Z_of_byte b) 0 (Fips.hash (utf8 "abc"))
  = 0xba7816bf8f01cfea414140de5dae2223b00361a396177a9cb410ff61f20015ad.
Proof. vm_compute. reflexivity. Qed.

(** Two different inputs with one digest, one from each list. *)
Definition collision `{Sha256} (xs ys : list bytes) : Prop :=
  ∃ x y, x ∈ xs ∧ y ∈ ys ∧ x ≠ y ∧ sha256 x = sha256 y.

Lemma collision_mono `{Sha256} xs ys xs' ys' :
  xs ⊆ xs' → ys ⊆ ys' → collision xs ys → collision xs' ys'.
Proof. intros Hx Hy (x & y & ? & ? & ?). exists x, y. auto. Qed.
