(* ===== verification/Base64Url.v ===== *)
(** * Unpadded base64url, as Node's [Buffer] encodes and decodes it

    [toString("base64url")] and [Buffer.from(s, "base64url")]: bytes are split
    into sextets, three bytes to four characters, with a two- or
    three-character tail.  The decoder is total: it skips characters outside
    the alphabet, stops at padding, and drops a dangling sextet. *)

From stdpp Require Import base list strings.
From Stdlib Require Import ZArith Lia Ascii.
From S2P Require Import Prelude.

Ltac Zify.zify_post_hook ::= Z.div_mod_to_equations.

(** ** Bytes to sextets and back *)

Fixpoint sextets (bs : list Z) : list Z :=
  match bs with
  | a :: b :: c :: rest =>
      a / 4 :: (a mod 4) * 16 + b / 16 :: (b mod 16) * 4 + c / 64 :: c mod 64 :: sextets rest
  | [a; b] => [a / 4; (a mod 4) * 16 + b / 16; (b mod 16) * 4]
  | [a] => [a / 4; (a mod 4) * 16]
  | [] => []
  end.

Fixpoint unsextets (ss : list Z) : list Z :=
  match ss with
  | s :: t :: u :: v :: rest =>
      s * 4 + t / 16 :: (t mod 16) * 16 + u / 4 :: (u mod 4) * 64 + v :: unsextets rest
  | [s; t; u] => [s * 4 + t / 16; (t mod 16) * 16 + u / 4]
  | [s; t] => [s * 4 + t / 16]
  | _ => []
  end.

(** ** Characters *)

Definition BASE64URL_ALPHABET : string :=
  "ABCDEFGHIJKLMNOPQRSTUVWXYZabcdefghijklmnopqrstuvwxyz0123456789-_".

Definition sextet_char (z : Z) : ascii :=
  nth (Z.to_nat z) (chars BASE64URL_ALPHABET) "A"%char.

(** [BASE64URL_ALPHABET.indexOf(c)], [-1] when absent. *)
Definition alphabet_index (c : ascii) : Z :=
  if is_upper c then code c - 65
  else if is_lower c then code c - 71
  else if is_digit c then code c + 4
  else if code c =? 45 then 62
  else if code c =? 95 then 63
  else -1.

(** The decoder also takes the ordinary base64 spellings of 62 and 63. *)
Definition decode_char (c : ascii) : Z :=
  if code c =? 43 then 62 else if code c =? 47 then 63 else alphabet_index c.

Fixpoint char_sextets (cs : list ascii) : list Z :=
  match cs with
  | [] => []
  | c :: cs =>
      if code c =? 61 then []
      else if decode_char c <? 0 then char_sextets cs
      else decode_char c :: char_sextets cs
  end.

(** [Buffer.from(bs).toString("base64url")]. *)
Definition base64url_encode (bs : bytes) : string :=
  String.string_of_list_ascii (map sextet_char (sextets (map Z_of_byte bs))).

(** [Buffer.from(s, "base64url")]. *)
Definition base64url_decode (s : string) : bytes :=
  map byte_of_Z (unsextets (char_sextets (chars s))).

Arguments sextet_char : simpl never.
Arguments alphabet_index : simpl never.
Arguments decode_char : simpl never.

(** ** The two directions *)

Definition is_u8 (z : Z) : Prop := 0 <= z < 256.
Definition is_u6 (z : Z) : Prop := 0 <= z < 64.

(** Induction three (or four) elements at a time. *)
Lemma list_ind3 {A} (P : list A → Prop) :
  P [] → (∀ a, P [a]) → (∀ a b, P [a; b]) →
  (∀ a b c l, P l → P (a :: b :: c :: l)) → ∀ l, P l.
Proof.
  intros H0 H1 H2 H3. fix IH 1.
  intros [|a [|b [|c l]]]; [done | apply H1 | apply H2 | apply H3, IH].
Qed.

Lemma list_ind4 {A} (P : list A → Prop) :
  P [] → (∀ a, P [a]) → (∀ a b, P [a; b]) → (∀ a b c, P [a; b; c]) →
  (∀ a b c d l, P l → P (a :: b :: c :: d :: l)) → ∀ l, P l.
Proof.
  intros H0 H1 H2 H3 H4. fix IH 1.
  intros [|a [|b [|c [|d l]]]]; [done | apply H1 | apply H2 | apply H3 | apply H4, IH].
Qed.

Lemma unsextets_sextets bs : Forall is_u8 bs → unsextets (sextets bs) = bs.
Proof.
  unfold is_u8. induction bs as [|a|a b|a b c l IH] using list_ind3;
    rewrite ?Forall_cons; intros H; cbn -[Z.div Z.modulo Z.mul Z.add].
  - done.
  - f_equal; lia.
  - f_equal; [lia|]. f_equal; lia.
  - rewrite IH by tauto. repeat (f_equal; [lia|]). f_equal; lia.
Qed.

(** The tail bits a canonical encoding leaves zero. *)
Definition tail_bits_zero (ss : list Z) : Prop :=
  ((length ss mod 4 = 1)%nat → False) ∧
  ((length ss mod 4 = 2)%nat → Z.land (List.last ss 0) 15 = 0) ∧
  ((length ss mod 4 = 3)%nat → Z.land (List.last ss 0) 3 = 0).

Lemma land_ones_mod a n m : 0 <= n → m = Z.ones n → Z.land a m = a mod 2 ^ n.
Proof. intros ? ->. by apply Z.land_ones. Qed.

Lemma sextets_unsextets ss :
  Forall is_u6 ss → tail_bits_zero ss → sextets (unsextets ss) = ss.
Proof.
  unfold is_u6, tail_bits_zero.
  rewrite (land_ones_mod _ 4 15), (land_ones_mod _ 2 3) by done.
  change (2 ^ 4) with 16. change (2 ^ 2) with 4.
  induction ss as [|a|a b|a b c|a b c d l IH] using list_ind4;
    rewrite ?Forall_cons; intros H (T1 & T2 & T3);
    cbn -[Z.div Z.modulo Z.mul Z.add Nat.modulo] in *.
  - done.
  - destruct (T1 eq_refl).
  - specialize (T2 eq_refl). f_equal; [lia|]. f_equal; lia.
  - specialize (T3 eq_refl). repeat (f_equal; [lia|]). f_equal; lia.
  - assert (HM : (S (S (S (S (length l)))) mod 4 = length l mod 4)%nat).
    { rewrite <- (Nat.Div0.mod_add (length l) 1 4). f_equal. lia. }
    rewrite HM in *.
    rewrite IH; [repeat (f_equal; [lia|]); f_equal; lia | tauto |].
    split; [done|]. destruct l; [split; intros HX; cbn in HX; lia|]. done.
Qed.

Lemma sextets_u6 bs : Forall is_u8 bs → Forall is_u6 (sextets bs).
Proof.
  unfold is_u8, is_u6. induction bs as [|a|a b|a b c l IH] using list_ind3;
    rewrite ?Forall_cons; intros H; cbn -[Z.div Z.modulo Z.mul Z.add];
    repeat (apply Forall_cons; split; [lia|]); try constructor. apply IH; tauto.
Qed.

Lemma Forall_u8_bytes (bs : bytes) : Forall is_u8 (map Z_of_byte bs).
Proof. induction bs; constructor; [apply Z_of_byte_bound | done]. Qed.

Lemma map_byte_of_Z (bs : bytes) : map byte_of_Z (map Z_of_byte bs) = bs.
Proof. induction bs as [|b bs IH]; cbn; [done|]. by rewrite byte_of_Z_of_byte, IH. Qed.

Lemma sextet_char_table :
  forallb (λ n, let z := Z.of_nat n in
    (alphabet_index (sextet_char z) =? z) && (decode_char (sextet_char z) =? z)
    && negb (code (sextet_char z) =? 61)) (seq 0 64) = true.
Proof. vm_compute. reflexivity. Qed.

Lemma sextet_char_spec z :
  is_u6 z →
  alphabet_index (sextet_char z) = z ∧ decode_char (sextet_char z) = z ∧
  code (sextet_char z) ≠ 61.
Proof.
  unfold is_u6. intros Hz. pose proof sextet_char_table as T.
  rewrite forallb_forall in T. specialize (T (Z.to_nat z)).
  rewrite Z2Nat.id in T by lia. cbv zeta in T.
  rewrite !andb_true_iff, negb_true_iff, !Z.eqb_eq, Z.eqb_neq in T.
  destruct T as [[??]?]; [apply in_seq; lia|]. done.
Qed.

Lemma char_sextets_map ss : Forall is_u6 ss → char_sextets (map sextet_char ss) = ss.
Proof.
  induction 1 as [|z ss Hz _ IH]; cbn; [done|].
  destruct (sextet_char_spec z Hz) as (_ & -> & ?).
  destruct (Z.eqb_spec (code (sextet_char z)) 61); [done|].
  unfold is_u6 in Hz. destruct (Z.ltb_spec z 0); [lia|]. by rewrite IH.
Qed.

(** Every character of the alphabet is the character of its index. *)
Lemma alphabet_table :
  forallb (λ n, let c := ascii_of_nat n in
    let z := alphabet_index c in
    (z <? 0) || ((z <? 64) && (code (sextet_char z) =? code c) &&
                 (decode_char c =? z) && negb (code c =? 61))) (seq 0 256) = true.
Proof. vm_compute. reflexivity. Qed.

Lemma alphabet_index_spec c :
  0 <= alphabet_index c →
  is_u6 (alphabet_index c) ∧ sextet_char (alphabet_index c) = c ∧
  decode_char c = alphabet_index c ∧ code c ≠ 61.
Proof.
  intros Hc. pose proof alphabet_table as T.
  rewrite forallb_forall in T. specialize (T (nat_of_ascii c)).
  cbv zeta in T. rewrite ascii_nat_embedding in T.
  rewrite orb_true_iff, !andb_true_iff, negb_true_iff, !Z.eqb_eq, Z.eqb_neq, !Z.ltb_lt in T.
  destruct T as [?|[[[??]?]?]]; [|lia|].
  { apply in_seq. pose proof (nat_ascii_bounded c). lia. }
  split; [unfold is_u6; lia|]. split; [by apply code_inj | done].
Qed.

Lemma char_sextets_alphabet cs :
  Forall (λ c, 0 <= alphabet_index c) cs →
  char_sextets cs = map alphabet_index cs.
Proof.
  induction 1 as [|c cs Hc _ IH]; cbn; [done|].
  destruct (alphabet_index_spec c Hc) as (_ & _ & -> & ?).
  destruct (Z.eqb_spec (code c) 61); [done|].
  destruct (Z.ltb_spec (alphabet_index c) 0); [lia|]. by rewrite IH.
Qed.

(** Decoding an encoding gives the bytes back. *)
Lemma base64url_decode_encode bs : base64url_decode (base64url_encode bs) = bs.
Proof.
  unfold base64url_decode, base64url_encode. rewrite chars_of_list.
  rewrite char_sextets_map by apply sextets_u6, Forall_u8_bytes.
  rewrite unsextets_sextets by apply Forall_u8_bytes. apply map_byte_of_Z.
Qed.

Lemma base64url_encode_inj a b : base64url_encode a = base64url_encode b → a = b.
Proof.
  intros H. by rewrite <- (base64url_decode_encode a), <- (base64url_decode_encode b), H.
Qed.

(** Encoding a decoding gives back a string over the alphabet whose tail bits
    are zero. *)
Lemma base64url_encode_decode s :
  Forall (λ c, 0 <= alphabet_index c) (chars s) →
  tail_bits_zero (map alphabet_index (chars s)) →
  base64url_encode (base64url_decode s) = s.
Proof.
  intros Ha Ht. apply chars_inj.
  unfold base64url_decode, base64url_encode. rewrite chars_of_list.
  rewrite char_sextets_alphabet by done.
  assert (H6 : Forall is_u6 (map alphabet_index (chars s))).
  { apply Forall_map. eapply Forall_impl; [exact Ha|]. intros c ?. by apply alphabet_index_spec. }
  set (us := unsextets _).
  assert (H8 : Forall is_u8 us).
  { subst us. clear Ht Ha. revert H6. generalize (map alphabet_index (chars s)).
    unfold is_u6, is_u8. intros l. induction l as [|a|a b|a b c|a b c d l IH] using list_ind4;
      rewrite ?Forall_cons; intros H; cbn -[Z.div Z.modulo Z.mul Z.add];
      repeat (apply Forall_cons; split; [lia|]); try constructor. apply IH; tauto. }
  assert (HM : map Z_of_byte (map byte_of_Z us) = us).
  { clear -H8. induction H8 as [|z l Hz _ IH]; cbn; [done|].
    rewrite Z_of_byte_of_Z, IH. unfold is_u8 in Hz. f_equal. apply Z.mod_small. lia. }
  rewrite HM. subst us. rewrite sextets_unsextets by done.
  clear -Ha. induction Ha as [|c cs Hc _ IH]; cbn; [done|].
  rewrite IH. f_equal. by apply alphabet_index_spec.
Qed.

(** ** Lengths *)

Lemma length_sextets bs : Z.of_nat (length (sextets bs)) = (Z.of_nat (length bs) * 4 + 2) / 3.
Proof.
  induction bs as [|a|a b|a b c l IH] using list_ind3;
    cbn -[Z.div Z.modulo Z.mul Z.add Z.of_nat]; try done. lia.
Qed.

(** [ceil(4n/3)] characters for [n] bytes. *)
Lemma length_base64url_encode bs :
  strlen (base64url_encode bs) = (Z.of_nat (length bs) * 4 + 2) / 3.
Proof.
  unfold strlen. rewrite <- length_chars. unfold base64url_encode.
  rewrite chars_of_list, length_map, length_sextets, length_map. done.
Qed.

Lemma base64url_encode_alphabet bs :
  Forall (λ c, 0 <= alphabet_index c) (chars (base64url_encode bs)).
Proof.
  unfold base64url_encode. rewrite chars_of_list, Forall_map.
  eapply Forall_impl; [apply sextets_u6, Forall_u8_bytes|].
  intros z Hz. destruct (sextet_char_spec z Hz) as (-> & _). unfold is_u6 in Hz. cbn. lia.
Qed.

Lemma sextets_tail_bits bs : Forall is_u8 bs → tail_bits_zero (sextets bs).
Proof.
  unfold is_u8, tail_bits_zero.
  rewrite (land_ones_mod _ 4 15), (land_ones_mod _ 2 3) by done.
  change (2 ^ 4) with 16. change (2 ^ 2) with 4.
  induction bs as [|a|a b|a b c l IH] using list_ind3;
    rewrite ?Forall_cons; intros H; cbn -[Z.div Z.modulo Z.mul Z.add Nat.modulo].
  - by repeat split.
  - repeat split; try done. intros. lia.
  - repeat split; try done. intros. lia.
  - assert (HM : (S (S (S (S (length (sextets l))))) mod 4 = length (sextets l) mod 4)%nat).
    { rewrite <- (Nat.Div0.mod_add (length (sextets l)) 1 4). f_equal. lia. }
    rewrite HM. destruct IH as (I1 & I2 & I3); [tauto|].
    destruct (sextets l) as [|s ss]; [repeat split; done|]. done.
Qed.

Lemma base64url_encode_tail_bits bs :
  tail_bits_zero (map alphabet_index (chars (base64url_encode bs))).
Proof.
  unfold base64url_encode. rewrite chars_of_list, map_map.
  assert (HM : map (λ z, alphabet_index (sextet_char z)) (sextets (map Z_of_byte bs))
               = sextets (map Z_of_byte bs)).
  { pose proof (sextets_u6 _ (Forall_u8_bytes bs)) as H6.
    induction H6 as [|z l Hz _ IH]; cbn; [done|]. rewrite IH. f_equal. by apply sextet_char_spec. }
  rewrite HM. apply sextets_tail_bits, Forall_u8_bytes.
Qed.

(** Canonical strings with the same bytes are the same string. *)
Lemma base64url_decode_inj s t :
  base64url_encode (base64url_decode s) = s → base64url_encode (base64url_decode t) = t →
  base64url_decode s = base64url_decode t → s = t.
Proof. intros Hs Ht H. by rewrite <- Hs, <- Ht, H. Qed.
