(* ===== verification/JsTime.v ===== *)
(** * JavaScript instants: [Date.parse], [Date.prototype.toISOString]

    The ECMAScript calendar functions, used by the wire timestamps
    ([YYYY-MM-DDTHH:mm:ss.sssZ]) of the delivery service.  The main result is
    that on canonical timestamps the code-unit order the code compares with
    ([<=], [>]) is the chronological order. *)

From stdpp Require Import base list strings.
From Stdlib Require Import ZArith Lia Ascii.
From S2P Require Import Prelude.

Ltac Zify.zify_post_hook ::= Z.div_mod_to_equations.

(** ** Calendar *)

Definition isLeapYear (y : Z) : bool :=
  (y mod 4 =? 0) && (negb (y mod 100 =? 0) || (y mod 400 =? 0)).

Definition leap (y : Z) : Z := if isLeapYear y then 1 else 0.

Definition DayFromYear (y : Z) : Z :=
  365 * (y - 1970) + (y - 1969) / 4 - (y - 1901) / 100 + (y - 1601) / 400.

(** Days before month [m] (1 to 13) of a year with [l] leap days. *)
Definition daysBefore (l m : Z) : Z :=
  if m <=? 1 then 0 else if m =? 2 then 31
  else l + (if m =? 3 then 59 else if m =? 4 then 90 else if m =? 5 then 120
       else if m =? 6 then 151 else if m =? 7 then 181 else if m =? 8 then 212
       else if m =? 9 then 243 else if m =? 10 then 273 else if m =? 11 then 304
       else if m =? 12 then 334 else 365).

Definition MakeDay (y m d : Z) : Z := DayFromYear y + daysBefore (leap y) m + d - 1.

Definition YearFromDay (day : Z) : Z :=
  let y := day * 400 / 146097 + 1970 in
  if day <? DayFromYear y then y - 1
  else if DayFromYear (y + 1) <=? day then y + 1 else y.

(** [MonthFromTime] of a day within its year. *)
Definition MonthFromDay (l k : Z) : Z :=
  if k <? 31 then 1 else if k <? 59 + l then 2 else if k <? 90 + l then 3
  else if k <? 120 + l then 4 else if k <? 151 + l then 5 else if k <? 181 + l then 6
  else if k <? 212 + l then 7 else if k <? 243 + l then 8 else if k <? 273 + l then 9
  else if k <? 304 + l then 10 else if k <? 334 + l then 11 else 12.

(** The broken-down fields of an instant. *)
Record fields := Fields {
  f_year : Z; f_month : Z; f_day : Z; f_hour : Z; f_minute : Z; f_second : Z; f_milli : Z }.

#[export] Instance fields_eq_dec : EqDecision fields.
Proof. solve_decision. Defined.

Definition msPerDay : Z := 86400000.

Definition MakeDate (f : fields) : Z :=
  MakeDay (f_year f) (f_month f) (f_day f) * msPerDay
  + f_hour f * 3600000 + f_minute f * 60000 + f_second f * 1000 + f_milli f.

Definition fieldsOf (t : Z) : fields :=
  let day := t / msPerDay in
  let ms := t mod msPerDay in
  let y := YearFromDay day in
  let k := day - DayFromYear y in
  let m := MonthFromDay (leap y) k in
  Fields y m (k - daysBefore (leap y) m + 1)
    (ms / 3600000) (ms / 60000 mod 60) (ms / 1000 mod 60) (ms mod 1000).

(** ** Text *)

Definition digit_char (d : Z) : ascii := ascii_of_N (Z.to_N (48 + d)).
Definition digit_val (c : ascii) : Z := code c - 48.

(** [n] in exactly [w] decimal digits. *)
Fixpoint pad (w : nat) (n : Z) : list ascii :=
  match w with
  | O => []
  | S w => pad w (n / 10) ++ [digit_char (n mod 10)]
  end.

Definition num (cs : list ascii) : Z := fold_left (λ acc c, acc * 10 + digit_val c) cs 0.

Arguments num : simpl never.

Definition render (f : fields) : list ascii :=
  pad 4 (f_year f) ++ "-"%char :: pad 2 (f_month f) ++ "-"%char :: pad 2 (f_day f)
  ++ "T"%char :: pad 2 (f_hour f) ++ ":"%char :: pad 2 (f_minute f)
  ++ ":"%char :: pad 2 (f_second f) ++ "."%char :: pad 3 (f_milli f) ++ ["Z"%char].

(** [new Date(t).toISOString()]: a year outside 0 to 9999 has a sign and six
    digits. *)
Definition toISOString (t : Z) : string :=
  let f := fieldsOf t in
  let y := f_year f in
  String.string_of_list_ascii
    (if (0 <=? y) && (y <=? 9999) then render f
     else (if y <? 0 then "-"%char else "+"%char) :: pad 2 (Z.abs y / 10000) ++ render f).

Definition is_char (c d : ascii) : bool := code c =? code d.

Definition RFC3339_MILLISECONDS : list (ascii → bool) :=
  [is_digit; is_digit; is_digit; is_digit; is_char "-"%char; is_digit; is_digit;
   is_char "-"%char; is_digit; is_digit; is_char "T"%char; is_digit; is_digit;
   is_char ":"%char; is_digit; is_digit; is_char ":"%char; is_digit; is_digit;
   is_char "."%char; is_digit; is_digit; is_digit; is_char "Z"%char].

(** The fields written in a string of the wire format. *)
Definition readFields (cs : list ascii) : fields :=
  Fields (num (take 4 cs)) (num (take 2 (drop 5 cs))) (num (take 2 (drop 8 cs)))
    (num (take 2 (drop 11 cs))) (num (take 2 (drop 14 cs))) (num (take 2 (drop 17 cs)))
    (num (take 3 (drop 20 cs))).

(** ECMAScript's bounds on the format's fields; [24:00:00.000] is the end of
    the day. *)
Definition inBounds (f : fields) : bool :=
  (1 <=? f_month f) && (f_month f <=? 12) && (1 <=? f_day f) && (f_day f <=? 31)
  && (((f_hour f <=? 23) && (f_minute f <=? 59) && (f_second f <=? 59))
      || ((f_hour f =? 24) && (f_minute f =? 0) && (f_second f =? 0) && (f_milli f =? 0))).

(** [Date.parse(s)] on the wire format; [None] is NaN. *)
Definition dateParse (s : string) : option Z :=
  let cs := chars s in
  if match_classes RFC3339_MILLISECONDS cs
  then let f := readFields cs in if inBounds f then Some (MakeDate f) else None
  else None.

(** [Date.parse] where the code has already validated the string. *)
Definition Date_parse (s : string) : Z := default 0 (dateParse s).

(** ** The calendar functions are inverse *)

Lemma leap_cases y : leap y = 0 ∨ leap y = 1.
Proof. unfold leap. destruct (isLeapYear y); auto. Qed.

Lemma DayFromYear_succ y : DayFromYear (y + 1) = DayFromYear y + 365 + leap y.
Proof.
  unfold leap, isLeapYear, DayFromYear.
  destruct (Z.eqb_spec (y mod 4) 0), (Z.eqb_spec (y mod 100) 0), (Z.eqb_spec (y mod 400) 0);
    cbn; lia.
Qed.

Lemma DayFromYear_mono y y' : y <= y' → DayFromYear y + 365 * (y' - y) <= DayFromYear y'.
Proof. unfold DayFromYear. lia. Qed.

Lemma YearFromDay_spec day :
  DayFromYear (YearFromDay day) <= day < DayFromYear (YearFromDay day + 1).
Proof.
  unfold YearFromDay. set (y := day * 400 / 146097 + 1970).
  assert (DayFromYear (y - 1) <= day < DayFromYear (y + 2)) as Hb.
  { subst y. unfold DayFromYear. lia. }
  destruct (Z.ltb_spec day (DayFromYear y)).
  { replace (y - 1 + 1) with y by lia. lia. }
  destruct (Z.leb_spec (DayFromYear (y + 1)) day); [|lia].
  replace (y + 1 + 1) with (y + 2) by lia. lia.
Qed.

(** A day that exists in the calendar and a time of day. *)
Definition valid_fields (f : fields) : Prop :=
  1 <= f_month f <= 12 ∧
  1 <= f_day f <= daysBefore (leap (f_year f)) (f_month f + 1)
                  - daysBefore (leap (f_year f)) (f_month f) ∧
  0 <= f_hour f <= 23 ∧ 0 <= f_minute f <= 59 ∧ 0 <= f_second f <= 59 ∧ 0 <= f_milli f <= 999.

Ltac month_cases m :=
  let H := fresh in
  assert (m = 1 ∨ m = 2 ∨ m = 3 ∨ m = 4 ∨ m = 5 ∨ m = 6 ∨ m = 7 ∨ m = 8 ∨ m = 9 ∨ m = 10
          ∨ m = 11 ∨ m = 12) as H by lia;
  repeat destruct H as [H|H]; subst m.

(** Evaluates comparisons of constants in the goal. *)
Ltac zconst :=
  repeat match goal with
  | |- context [Z.leb ?a ?b] =>
      let c := eval vm_compute in (Z.leb a b) in
      match c with true => idtac | false => idtac end; change (Z.leb a b) with c
  | |- context [Z.eqb ?a ?b] =>
      let c := eval vm_compute in (Z.eqb a b) in
      match c with true => idtac | false => idtac end; change (Z.eqb a b) with c
  end; cbv iota.

Lemma daysBefore_mono l m m' :
  0 <= l <= 1 → 1 <= m → m < m' → m' <= 12 → daysBefore l (m + 1) <= daysBefore l m'.
Proof. intros ????. unfold daysBefore. month_cases m; month_cases m'; zconst; lia. Qed.

Lemma daysBefore_bound l m : 0 <= l <= 1 → 1 <= m <= 12 → 0 <= daysBefore l m.
Proof. intros ??. unfold daysBefore. month_cases m; zconst; lia. Qed.

Lemma daysBefore_end l m :
  0 <= l <= 1 → 1 <= m <= 12 → daysBefore l (m + 1) <= 365 + l.
Proof. intros ??. unfold daysBefore. month_cases m; zconst; lia. Qed.

Lemma MonthFromDay_spec l k :
  0 <= l <= 1 → 0 <= k < 365 + l →
  1 <= MonthFromDay l k <= 12 ∧
  daysBefore l (MonthFromDay l k) <= k < daysBefore l (MonthFromDay l k + 1).
Proof.
  intros ??. unfold MonthFromDay.
  repeat match goal with |- context [k <? ?b] => destruct (Z.ltb_spec k b) end;
    unfold daysBefore; zconst; lia.
Qed.

Lemma valid_day_bound f : valid_fields f → 1 <= f_day f <= 31.
Proof.
  intros (Hm & Hd & _). pose proof (leap_cases (f_year f)) as HL. revert Hm Hd HL.
  generalize (f_month f) (f_day f) (leap (f_year f)). intros m d l Hm. unfold daysBefore.
  month_cases m; zconst; lia.
Qed.

Lemma fieldsOf_valid t : valid_fields (fieldsOf t).
Proof.
  pose proof (YearFromDay_spec (t / msPerDay)) as HY.
  rewrite DayFromYear_succ in HY. pose proof (leap_cases (YearFromDay (t / msPerDay))) as HL.
  unfold fieldsOf, valid_fields; cbn [f_year f_month f_day f_hour f_minute f_second f_milli].
  set (y := YearFromDay _) in *. set (k := t / msPerDay - DayFromYear y) in *.
  destruct (MonthFromDay_spec (leap y) k) as [Hm Hk]; [lia | lia |].
  unfold msPerDay in *. repeat split; try lia.
Qed.

Lemma MakeDate_fieldsOf t : MakeDate (fieldsOf t) = t.
Proof.
  unfold MakeDate, fieldsOf, MakeDay, msPerDay;
    cbn [f_year f_month f_day f_hour f_minute f_second f_milli]. lia.
Qed.

(** Lexicographic order of the fields. *)
Definition fields_lt (f g : fields) : Prop :=
  f_year f < f_year g ∨ f_year f = f_year g ∧ (f_month f < f_month g ∨
  f_month f = f_month g ∧ (f_day f < f_day g ∨ f_day f = f_day g ∧ (f_hour f < f_hour g ∨
  f_hour f = f_hour g ∧ (f_minute f < f_minute g ∨ f_minute f = f_minute g ∧
  (f_second f < f_second g ∨ f_second f = f_second g ∧ f_milli f < f_milli g))))).

Lemma MakeDay_lt f g :
  valid_fields f → valid_fields g →
  f_year f < f_year g ∨ f_year f = f_year g ∧ (f_month f < f_month g ∨
  f_month f = f_month g ∧ f_day f < f_day g) →
  MakeDay (f_year f) (f_month f) (f_day f) < MakeDay (f_year g) (f_month g) (f_day g).
Proof.
  intros (Hm & Hd & _) (Hm' & Hd' & _) Hlt. unfold MakeDay.
  pose proof (leap_cases (f_year f)). pose proof (leap_cases (f_year g)).
  destruct Hlt as [Hy|[Hy [Hmm|[Hmm Hdd]]]].
  - pose proof (daysBefore_end (leap (f_year f)) (f_month f) ltac:(lia) Hm).
    pose proof (daysBefore_bound (leap (f_year g)) (f_month g) ltac:(lia) Hm').
    pose proof (DayFromYear_succ (f_year f)).
    pose proof (DayFromYear_mono (f_year f + 1) (f_year g) ltac:(lia)). lia.
  - rewrite <- Hy in *.
    pose proof (daysBefore_mono (leap (f_year f)) (f_month f) (f_month g)
      ltac:(lia) ltac:(lia) Hmm ltac:(lia)). lia.
  - rewrite <- Hy, <- Hmm. lia.
Qed.

Lemma MakeDate_lt f g :
  valid_fields f → valid_fields g → fields_lt f g → MakeDate f < MakeDate g.
Proof.
  intros Hf Hg Hlt. pose proof (MakeDay_lt f g Hf Hg) as HD.
  destruct Hf as (_ & _ & ? & ? & ? & ?), Hg as (_ & _ & ? & ? & ? & ?).
  unfold MakeDate, msPerDay in *.
  destruct Hlt as [Hl|(E1 & [Hl|(E2 & [Hl|(E3 & Hl)])])];
    [specialize (HD ltac:(lia)); lia..|].
  rewrite E1, E2, E3. lia.
Qed.

Lemma fields_lt_total f g : fields_lt f g ∨ f = g ∨ fields_lt g f.
Proof.
  destruct f as [a b c d e h i], g as [a' b' c' d' e' h' i']. unfold fields_lt; cbn.
  destruct (Z.lt_trichotomy a a') as [?|[->|?]]; [tauto| |tauto].
  destruct (Z.lt_trichotomy b b') as [?|[->|?]]; [tauto| |tauto].
  destruct (Z.lt_trichotomy c c') as [?|[->|?]]; [tauto| |tauto].
  destruct (Z.lt_trichotomy d d') as [?|[->|?]]; [tauto| |tauto].
  destruct (Z.lt_trichotomy e e') as [?|[->|?]]; [tauto| |tauto].
  destruct (Z.lt_trichotomy h h') as [?|[->|?]]; [tauto| |tauto].
  destruct (Z.lt_trichotomy i i') as [?|[->|?]]; [tauto|tauto|tauto].
Qed.

Lemma MakeDate_lt_iff f g :
  valid_fields f → valid_fields g → MakeDate f < MakeDate g ↔ fields_lt f g.
Proof.
  intros Hf Hg. split; [|by apply MakeDate_lt].
  intros Hlt. destruct (fields_lt_total f g) as [?|[->|Hgt]]; [done|lia|].
  apply MakeDate_lt in Hgt; [lia|done|done].
Qed.

Lemma MakeDate_inj f g :
  valid_fields f → valid_fields g → MakeDate f = MakeDate g → f = g.
Proof.
  intros Hf Hg Heq. destruct (fields_lt_total f g) as [Hlt|[->|Hgt]]; [|done|].
  - apply MakeDate_lt in Hlt; [lia|done|done].
  - apply MakeDate_lt in Hgt; [lia|done|done].
Qed.

Lemma fieldsOf_MakeDate f : valid_fields f → fieldsOf (MakeDate f) = f.
Proof.
  intros Hf. apply MakeDate_inj; [apply fieldsOf_valid | done | apply MakeDate_fieldsOf].
Qed.

(** ** Text: fixed-width decimals order like their values *)

Lemma str_ltb_app s s' t t' :
  length s = length s' →
  str_ltb (s ++ t) (s' ++ t') =
    (str_ltb s s' || (bool_decide (s = s') && str_ltb t t')).
Proof.
  revert s'. induction s as [|a s IH]; intros [|b s'] Hl; try discriminate Hl; cbn.
  - done.
  - rewrite IH by (cbn in Hl; lia).
    destruct (Z.ltb_spec (code a) (code b)) as [|]; [done|].
    destruct (Z.eqb_spec (code a) (code b)) as [E|E]; cbn.
    + apply code_inj in E as ->. f_equal. f_equal.
      apply bool_decide_ext. split; [congruence | by intros [= ->]].
    + rewrite bool_decide_eq_false_2; [done|]. congruence.
Qed.

Lemma length_pad w n : length (pad w n) = w.
Proof. revert n; induction w; intros n; cbn; [done|]. rewrite length_app, IHw. cbn. lia. Qed.

Lemma code_digit_char d : 0 <= d < 10 → code (digit_char d) = 48 + d.
Proof.
  intros H. unfold code, digit_char. rewrite N_ascii_embedding by lia. lia.
Qed.

Lemma pad_inj w n n' :
  0 <= n < 10 ^ Z.of_nat w → 0 <= n' < 10 ^ Z.of_nat w → pad w n = pad w n' → n = n'.
Proof.
  revert n n'. induction w as [|w IH]; intros n n' Hn Hn' Heq.
  { cbn in *. lia. }
  rewrite Nat2Z.inj_succ, Z.pow_succ_r in * by lia. cbn in Heq.
  apply app_inj_tail in Heq as [Heq Hd].
  apply IH in Heq; [|lia|lia].
  assert (code (digit_char (n mod 10)) = code (digit_char (n' mod 10))) as Hc by by rewrite Hd.
  rewrite !code_digit_char in Hc by lia. lia.
Qed.

Lemma str_ltb_pad w n n' :
  0 <= n < 10 ^ Z.of_nat w → 0 <= n' < 10 ^ Z.of_nat w →
  str_ltb (pad w n) (pad w n') = (n <? n').
Proof.
  revert n n'. induction w as [|w IH]; intros n n' Hn Hn'.
  { cbn in *. symmetry. apply Z.ltb_ge. lia. }
  rewrite Nat2Z.inj_succ, Z.pow_succ_r in * by lia. cbn.
  rewrite str_ltb_app by by rewrite !length_pad.
  rewrite IH by lia. cbn. rewrite !code_digit_char by lia.
  destruct (Z.ltb_spec (n / 10) (n' / 10)); cbn.
  { symmetry. apply Z.ltb_lt. lia. }
  case_bool_decide as E; cbn.
  - apply pad_inj in E; [|lia|lia].
    destruct (Z.ltb_spec (48 + n mod 10) (48 + n' mod 10)), (Z.ltb_spec n n'); cbn; try done; try lia.
  - symmetry. apply Z.ltb_ge. assert (n / 10 ≠ n' / 10) by congruence. lia.
Qed.

(** One field, then a separator, then the rest. *)
Lemma str_ltb_field w n n' c t t' :
  0 <= n < 10 ^ Z.of_nat w → 0 <= n' < 10 ^ Z.of_nat w →
  str_ltb (pad w n ++ c :: t) (pad w n' ++ c :: t') = true ↔
  n < n' ∨ n = n' ∧ str_ltb t t' = true.
Proof.
  intros Hn Hn'. rewrite str_ltb_app by by rewrite !length_pad.
  rewrite str_ltb_pad by done. rewrite orb_true_iff, andb_true_iff, Z.ltb_lt.
  rewrite bool_decide_eq_true. cbn. rewrite Z.ltb_irrefl, Z.eqb_refl. cbn.
  split; (intros [?|[E ?]]; [by left|right]).
  - split; [by apply (pad_inj w) | done].
  - by subst.
Qed.

Definition wide_fields (f : fields) : Prop := valid_fields f ∧ 0 <= f_year f <= 9999.

Lemma render_lt f g :
  wide_fields f → wide_fields g → str_ltb (render f) (render g) = true ↔ fields_lt f g.
Proof.
  intros [Hf Hyf] [Hg Hyg]. unfold render, fields_lt.
  pose proof (valid_day_bound f Hf). pose proof (valid_day_bound g Hg).
  destruct Hf as (? & ? & ? & ? & ? & ?), Hg as (? & ? & ? & ? & ? & ?).
  rewrite (str_ltb_field 4), (str_ltb_field 2), (str_ltb_field 2), (str_ltb_field 2),
    (str_ltb_field 2), (str_ltb_field 2), (str_ltb_field 3 _ _ "Z"%char [] []) by (cbn; lia).
  cbn. intuition congruence.
Qed.

(** ** Canonical timestamps *)

(** The timestamps [parseRfc3339Millis] accepts: the wire format, a finite
    instant, and equal to its own [toISOString]. *)
Definition canonicalInstant (s : string) : bool :=
  match_classes RFC3339_MILLISECONDS (chars s) &&
  match dateParse s with
  | Some t => bool_decide (toISOString t = s)
  | None => false
  end.

Lemma match_classes_length ps cs : match_classes ps cs = true → length cs = length ps.
Proof.
  revert cs. induction ps as [|p ps IH]; intros [|c cs]; cbn; try done.
  intros [_ H]%andb_true_iff. by rewrite (IH cs).
Qed.

Lemma length_render f : length (render f) = 24%nat.
Proof. reflexivity. Qed.

Lemma canonicalInstant_fields s :
  canonicalInstant s = true →
  ∃ f, wide_fields f ∧ chars s = render f ∧ dateParse s = Some (MakeDate f).
Proof.
  unfold canonicalInstant. intros [Hm Ht]%andb_true_iff.
  destruct (dateParse s) as [t|] eqn:E; [|done]. apply bool_decide_eq_true in Ht.
  assert (HL : length (chars s) = 24%nat) by by apply match_classes_length in Hm.
  exists (fieldsOf t). rewrite MakeDate_fieldsOf. revert HL. rewrite <- Ht.
  unfold toISOString. rewrite chars_of_list.
  destruct ((0 <=? f_year (fieldsOf t)) && (f_year (fieldsOf t) <=? 9999)) eqn:Ey.
  - intros _. split_and!; [|done|done]. split; [apply fieldsOf_valid|]. lia.
  - intros HL. discriminate HL.
Qed.

(** On canonical timestamps the comparison of strings is the comparison of
    instants. *)
Lemma slt_canonicalInstant s t :
  canonicalInstant s = true → canonicalInstant t = true →
  slt s t = (Date_parse s <? Date_parse t).
Proof.
  intros (f & Hf & Hs & Ps)%canonicalInstant_fields (g & Hg & Ht & Pt)%canonicalInstant_fields.
  unfold slt, Date_parse. rewrite Hs, Ht, Ps, Pt. cbn [from_option id].
  apply eq_true_iff_eq. rewrite render_lt, Z.ltb_lt by done.
  symmetry. apply MakeDate_lt_iff; [apply Hf | apply Hg].
Qed.

Lemma sle_canonicalInstant s t :
  canonicalInstant s = true → canonicalInstant t = true →
  sle s t = (Date_parse s <=? Date_parse t).
Proof. intros Hs Ht. unfold sle. rewrite slt_canonicalInstant by done. lia. Qed.

Lemma canonicalInstant_inj s t :
  canonicalInstant s = true → canonicalInstant t = true →
  Date_parse s = Date_parse t → s = t.
Proof.
  intros (f & Hf & Hs & Ps)%canonicalInstant_fields (g & Hg & Ht & Pt)%canonicalInstant_fields.
  unfold Date_parse. rewrite Ps, Pt. cbn [from_option id]. intros Heq.
  apply MakeDate_inj in Heq; [|apply Hf|apply Hg]. apply chars_inj. congruence.
Qed.

Lemma num_app cs c : num (cs ++ [c]) = num cs * 10 + digit_val c.
Proof. unfold num. by rewrite fold_left_app. Qed.

Lemma num_pad w n : 0 <= n < 10 ^ Z.of_nat w → num (pad w n) = n.
Proof.
  revert n. induction w as [|w IH]; intros n Hn; [unfold num; cbn in *; lia|].
  rewrite Nat2Z.inj_succ, Z.pow_succ_r in Hn by lia. cbn [pad].
  rewrite num_app, IH by lia. unfold digit_val. rewrite code_digit_char by lia. lia.
Qed.

Lemma is_digit_char d : 0 <= d < 10 → is_digit (digit_char d) = true.
Proof. intros H. unfold is_digit, in_range. rewrite code_digit_char by done. lia. Qed.

Lemma pad_digits w n : Forall (λ c, is_digit c = true) (pad w n).
Proof.
  revert n. induction w as [|w IH]; intros n; cbn; [constructor|].
  apply Forall_app; split; [apply IH|]. constructor; [|constructor].
  apply is_digit_char. lia.
Qed.

Lemma match_classes_app ps qs cs ds :
  length cs = length ps →
  match_classes (ps ++ qs) (cs ++ ds) = match_classes ps cs && match_classes qs ds.
Proof.
  revert cs. induction ps as [|p ps IH]; intros [|c cs] Hl; try discriminate Hl; cbn; [done|].
  rewrite IH by (cbn in Hl; lia). by rewrite andb_assoc.
Qed.

Lemma match_digits w n : match_classes (repeat is_digit w) (pad w n) = true.
Proof.
  pose proof (pad_digits w n) as H. pose proof (length_pad w n) as HL.
  revert H HL. generalize (pad w n). intros l. revert l.
  induction w as [|w IH]; intros [|c l] H HL; try discriminate HL; cbn; [done|].
  apply Forall_cons in H as [-> H]. apply IH; [done | cbn in HL; lia].
Qed.

(** The classes of one field and its separator match it. *)
Lemma match_field w n c qs ds :
  match_classes qs ds = true →
  match_classes (repeat is_digit w ++ is_char c :: qs) (pad w n ++ c :: ds) = true.
Proof.
  intros H. rewrite match_classes_app by by rewrite length_pad, repeat_length.
  rewrite match_digits. cbn. unfold is_char. by rewrite Z.eqb_refl.
Qed.

Lemma match_render f : match_classes RFC3339_MILLISECONDS (render f) = true.
Proof.
  unfold render.
  apply (match_field 4), (match_field 2), (match_field 2), (match_field 2), (match_field 2),
    (match_field 2), (match_field 3 _ "Z"%char [] []). done.
Qed.

Lemma readFields_render f : wide_fields f → readFields (render f) = f.
Proof.
  intros [Hv Hy]. pose proof (valid_day_bound f Hv).
  destruct Hv as (? & ? & ? & ? & ? & ?). destruct f as [y m d h mi se ms]; cbn in *.
  unfold readFields. f_equal.
  - apply (num_pad 4). cbn; lia.
  - apply (num_pad 2). cbn; lia.
  - apply (num_pad 2). cbn; lia.
  - apply (num_pad 2). cbn; lia.
  - apply (num_pad 2). cbn; lia.
  - apply (num_pad 2). cbn; lia.
  - apply (num_pad 3). cbn; lia.
Qed.

(** Rendering a representable instant gives a canonical timestamp of it. *)
Lemma toISOString_canonical t :
  0 <= f_year (fieldsOf t) <= 9999 →
  canonicalInstant (toISOString t) = true ∧ dateParse (toISOString t) = Some t.
Proof.
  intros Hy. pose proof (fieldsOf_valid t) as Hv.
  assert (Hw : wide_fields (fieldsOf t)) by by split.
  assert (Hs : toISOString t = String.string_of_list_ascii (render (fieldsOf t))).
  { unfold toISOString. destruct ((0 <=? _) && _) eqn:E; [done|lia]. }
  assert (Hp : dateParse (toISOString t) = Some t).
  { unfold dateParse. rewrite Hs, chars_of_list, match_render, readFields_render by done.
    assert (inBounds (fieldsOf t) = true) as ->.
    { pose proof (valid_day_bound _ Hv). destruct Hv as (? & ? & ? & ? & ? & ?).
      unfold inBounds. lia. }
    by rewrite MakeDate_fieldsOf. }
  split; [|done]. unfold canonicalInstant. rewrite Hp, bool_decide_eq_true_2 by done.
  by rewrite Hs, chars_of_list, match_render.
Qed.

Lemma dateParse_canonical s :
  canonicalInstant s = true → dateParse s = Some (Date_parse s) ∧ toISOString (Date_parse s) = s.
Proof.
  unfold canonicalInstant, Date_parse. intros [_ H]%andb_true_iff.
  destruct (dateParse s); [|done]. by apply bool_decide_eq_true in H.
Qed.

(** Instants between two canonical timestamps have canonical timestamps. *)
Lemma toISOString_between a b t :
  canonicalInstant a = true → canonicalInstant b = true → Date_parse a <= t <= Date_parse b →
  canonicalInstant (toISOString t) = true ∧ Date_parse (toISOString t) = t.
Proof.
  intros (f & [Hf Yf] & _ & Pf)%canonicalInstant_fields (g & [Hg Yg] & _ & Pg)%canonicalInstant_fields.
  unfold Date_parse at 1 2. rewrite Pf, Pg. cbn [from_option id]. intros [Ha Hb].
  rewrite <- (MakeDate_fieldsOf t) in Ha, Hb. pose proof (fieldsOf_valid t) as Hv.
  assert (f_year f <= f_year (fieldsOf t) <= f_year g).
  { split; apply Z.nlt_ge; intros HY.
    - assert (fields_lt (fieldsOf t) f) as HF%MakeDate_lt_iff by (unfold fields_lt; lia); [lia|done..].
    - assert (fields_lt g (fieldsOf t)) as HF%MakeDate_lt_iff by (unfold fields_lt; lia); [lia|done..]. }
  destruct (toISOString_canonical t) as [HC HP]; [lia|]. split; [done|].
  unfold Date_parse. by rewrite HP.
Qed.
