(* ===== verification/JsValue.v ===== *)
(** * JavaScript values as the parsers see them

    The [unknown] that a parser receives: primitives, arrays (with their
    prototype, their holes and the number of extra own keys), byte arrays and
    objects as lists of own properties with their descriptors. *)

From stdpp Require Import base list strings.
From Stdlib Require Import ZArith Lia Ascii.
From S2P Require Import Prelude.

Inductive proto := ObjectPrototype | NullPrototype | ArrayPrototype | OtherPrototype.

Inductive propkey := KString (s : string) | KSymbol (n : nat).

#[export] Instance proto_eq_dec : EqDecision proto.
Proof. solve_decision. Defined.
#[export] Instance propkey_eq_dec : EqDecision propkey.
Proof. solve_decision. Defined.

(** [VBytes] is an intrinsic [Uint8Array] or [Buffer] over a fixed, unshared
    buffer with no overriding own property; any other view is an object.  A
    [None] element of an array is a hole; [extra] counts own keys other than
    the indices and [length]. *)
#[warnings="-register-all"]
Inductive unknown :=
| VUndefined
| VNull
| VBool (b : bool)
| VNumber (n : jsnum)
| VBigInt (z : Z)
| VString (s : string)
| VSymbol (n : nat)
| VFunction
| VBytes (bs : bytes)
| VArray (p : proto) (elems : list (option unknown)) (extra : nat)
| VObject (p : proto) (props : list (propkey * propdesc))
with propdesc :=
| DData (v : unknown) (enumerable : bool)
| DAccessor (enumerable : bool).

(** [===] and [!==] at a type with decidable equality. *)
Declare Scope js_scope.
Delimit Scope js_scope with js.
Notation "a === b" := (bool_decide (a = b)) (at level 70, no associativity) : js_scope.
Notation "a !== b" := (negb (bool_decide (a = b))) (at level 70, no associativity) : js_scope.
#[global] Open Scope js_scope.

Definition propkey_eqb (k k' : propkey) : bool :=
  match k, k' with
  | KString s, KString t => String.eqb s t
  | KSymbol n, KSymbol m => Nat.eqb n m
  | _, _ => false
  end.

Lemma propkey_eqb_eq k k' : propkey_eqb k k' = true ↔ k = k'.
Proof.
  destruct k, k'; cbn; try (split; [discriminate | congruence]).
  - rewrite String.eqb_eq. split; congruence.
  - rewrite Nat.eqb_eq. split; congruence.
Qed.

Abbreviation record := (list (propkey * propdesc)).

(** [Object.getOwnPropertyDescriptors(value)[key]]. *)
Definition descriptor (r : record) (k : string) : option propdesc :=
  snd <$> List.find (λ p, propkey_eqb p.1 (KString k)) r.

(** [record[key]] on a record of data properties. *)
Definition get (r : record) (k : string) : unknown :=
  match descriptor r k with Some (DData v _) => v | _ => VUndefined end.
Notation "r .[ k ]" := (get r k) (at level 1, k at level 200, format "r .[ k ]") : js_scope.

Definition isUndefined (v : unknown) : bool :=
  match v with VUndefined => true | _ => false end.
Definition isNull (v : unknown) : bool :=
  match v with VNull => true | _ => false end.

(** [v === "literal"]. *)
Definition isString (v : unknown) (s : string) : bool :=
  match v with VString t => t === s | _ => false end.

Lemma isString_eq v s : isString v s = true ↔ v = VString s.
Proof.
  unfold isString. destruct v; try (split; discriminate). rewrite bool_decide_eq_true.
  split; congruence.
Qed.

(** An object literal: enumerable data properties in order. *)
Definition obj (fields : list (string * unknown)) : unknown :=
  VObject ObjectPrototype (map (λ '(k, v), (KString k, DData v true)) fields).

(** An array literal. *)
Definition arr (vs : list unknown) : unknown := VArray ArrayPrototype (map Some vs) 0.

Definition nullable {A} (f : A → unknown) (o : option A) : unknown :=
  match o with Some a => f a | None => VNull end.

(** [Reflect.ownKeys(array).length]: the indices present, [length] and the
    extra keys. *)
Definition ownKeysCount (elems : list (option unknown)) (extra : nat) : nat :=
  length (omap id elems) + 1 + extra.

(** [value.map(f)]: holes stay holes. *)
Definition mapArray {A} (f : unknown → result A) (elems : list (option unknown)) :
  result (list (option A)) :=
  mapR (λ o, match o with Some v => Some <$> f v | None => Ok None end) elems.

(** [new Set(xs).size !== xs.length]. *)
Definition hasDuplicates (xs : list (option string)) : bool := negb (bool_decide (NoDup xs)).

Lemma get_obj_nth fields k v i :
  NoDup (fields.*1) → fields !! i = Some (k, v) →
  get (map (λ '(k, v), (KString k, DData v true)) fields) k = v.
Proof.
  revert i. induction fields as [|[k' v'] fields IH]; intros [|i]; cbn; try done.
  - intros _ [= -> ->]. unfold get, descriptor. cbn. by rewrite String.eqb_refl.
  - intros [Hn Hd]%NoDup_cons Hi. unfold get, descriptor. cbn.
    destruct (String.eqb_spec k' k) as [->|_]; [|by apply (IH i)].
    exfalso. apply Hn. apply list_elem_of_fmap. exists (k, v).
    split; [done|]. by eapply list_elem_of_lookup_2.
Qed.
