(* ===== verification/ValueObjects.v ===== *)
(** * Delivery value objects ([src/production/delivery/valueObjects.ts])

    The strict wire parsers of the delivery service: exact data records,
    UUIDs, canonical uint63 decimals, canonical base64url, millisecond
    timestamps, conversation ETags and envelope senders. *)

From stdpp Require Import base list strings.
From Stdlib Require Import ZArith Lia Ascii.
From S2P Require Import Prelude Base64Url JsTime JsValue.

Ltac Zify.zify_post_hook ::= Z.div_mod_to_equations.

(** ** Brands: compile-time names for validated strings *)

Abbreviation UuidV4 := string (only parsing).
Abbreviation UuidV7 := string (only parsing).
Abbreviation AccountId := string (only parsing).
Abbreviation AttachmentId := string (only parsing).
Abbreviation ConversationId := string (only parsing).
Abbreviation CredentialId := string (only parsing).
Abbreviation EnvelopeId := string (only parsing).
Abbreviation InstallationId := string (only parsing).
Abbreviation PolicyHeadId := string (only parsing).
Abbreviation WitnessCheckpointId := string (only parsing).
Abbreviation IdempotencyKey := string (only parsing).
Abbreviation Hash32 := string (only parsing).
Abbreviation Fingerprint32 := string (only parsing).
Abbreviation Uint63String := string (only parsing).
Abbreviation Rfc3339Millis := string (only parsing).
Abbreviation ConversationEtag := string (only parsing).
Abbreviation SigningKeyId := string (only parsing).
Abbreviation ReleaseProfileId := string (only parsing).

Definition API_V1_MEDIA_TYPE : string := "application/vnd.juicebox.messaging.v1+json".
Definition MLS_PUBLIC_MESSAGE_MEDIA_TYPE : string :=
  "application/vnd.juicebox.messaging.mls-public-message".
Definition MLS_PRIVATE_MESSAGE_MEDIA_TYPE : string :=
  "application/vnd.juicebox.messaging.mls-private-message".
Definition ZERO_HASH32 : Hash32 := "AAAAAAAAAAAAAAAAAAAAAAAAAAAAAAAAAAAAAAAAAAA".
Definition DEFAULT_MAX_BASE64URL_BYTES : Z := 8 * 1024 * 1024.
Definition MAX_INTRINSIC_COPY_BYTES : Z := 4294967295.

(** [throw invalid(...)]. *)
Definition invalid {A} : result A := Throw DeliveryValidationError.
Definition require (b : bool) : result unit := throw_if (negb b) DeliveryValidationError.

(** ** Exact data records *)

Definition expectExactRecord (value : unknown) (keys : list string) : result record :=
  match value with
  | VObject p r =>
      require ((p === ObjectPrototype) || (p === NullPrototype));;
      let ownKeys := map fst r in
      throw_if (negb (Nat.eqb (length ownKeys) (length keys))
                || existsb (λ k, negb (existsb (λ k', propkey_eqb k (KString k')) keys)) ownKeys
                || existsb (λ k, negb (existsb (propkey_eqb (KString k)) ownKeys)) keys)
        DeliveryValidationError;;
      throw_if (existsb (λ k,
        match descriptor r k with
        | Some (DData v true) => isUndefined v
        | _ => true
        end) keys) DeliveryValidationError;;
      Ok r
  | _ => invalid
  end.

Definition expectPlainDataRecord (value : unknown) : result record :=
  match value with
  | VObject p r =>
      require ((p === ObjectPrototype) || (p === NullPrototype));;
      throw_if (existsb (λ '(k, d),
        match k, d with
        | KString _, DData _ true => false
        | _, _ => true
        end) r) DeliveryValidationError;;
      Ok r
  | _ => invalid
  end.

(** ** UUIDs *)

Definition hexes (n : nat) : list (ascii → bool) := repeat is_hex n.
Definition is_variant (c : ascii) : bool :=
  is_char c "8"%char || is_char c "9"%char || is_char c "a"%char || is_char c "b"%char.
Definition uuid_pattern (version : ascii) : list (ascii → bool) :=
  hexes 8 ++ [is_char "-"%char] ++ hexes 4 ++ [is_char "-"%char] ++ is_char version :: hexes 3
  ++ [is_char "-"%char] ++ is_variant :: hexes 3 ++ [is_char "-"%char] ++ hexes 12.
Definition UUID_V4 : list (ascii → bool) := uuid_pattern "4"%char.
Definition UUID_V7 : list (ascii → bool) := uuid_pattern "7"%char.
Definition UUID_SHAPED : list (ascii → bool) :=
  let h n := repeat is_hex_ci n in
  h 8%nat ++ [is_char "-"%char] ++ h 4%nat ++ [is_char "-"%char] ++ h 4%nat
  ++ [is_char "-"%char] ++ h 4%nat ++ [is_char "-"%char] ++ h 12%nat.

Definition matches (ps : list (ascii → bool)) (s : string) : bool := match_classes ps (chars s).

Definition parseUuid (value : unknown) (pattern : list (ascii → bool)) : result string :=
  match value with
  | VString s => require (matches pattern s);; Ok s
  | _ => invalid
  end.
Definition parseUuidV4 (value : unknown) : result UuidV4 := parseUuid value UUID_V4.
Definition parseUuidV7 (value : unknown) : result UuidV7 := parseUuid value UUID_V7.
Definition parseAccountId : unknown → result AccountId := parseUuidV4.
Definition parseAttachmentId : unknown → result AttachmentId := parseUuidV4.
Definition parseConversationId : unknown → result ConversationId := parseUuidV4.
Definition parseCredentialId : unknown → result CredentialId := parseUuidV4.
Definition parseEnvelopeId : unknown → result EnvelopeId := parseUuidV4.
Definition parseInstallationId : unknown → result InstallationId := parseUuidV4.
Definition parsePolicyHeadId : unknown → result PolicyHeadId := parseUuidV4.
Definition parseWitnessCheckpointId : unknown → result WitnessCheckpointId := parseUuidV4.
Definition parseMembershipIntentId : unknown → result string := parseUuidV7.
Definition parseProposalId : unknown → result string := parseUuidV7.
Definition parseRequestId : unknown → result string := parseUuidV7.

(** ** Canonical uint63 decimals *)

(** [BigInt(s)] on a string of decimal digits. *)
Definition BigInt (s : string) : Z := num (chars s).

(** The decimal digits of a non-negative integer. *)
Fixpoint dec (fuel : nat) (n : Z) : list ascii :=
  match fuel with
  | O => []
  | S fuel =>
      (if n <? 10 then [] else dec fuel (n / 10)) ++ [digit_char (n mod 10)]
  end.

(** [z.toString(10)]. *)
Definition decimal (z : Z) : string :=
  let digits n := dec (S (Z.to_nat (Z.log2 n))) n in
  String.string_of_list_ascii (if z <? 0 then "-"%char :: digits (- z) else digits z).

(** The [UINT63] pattern: zero, or digits with no leading zero. *)
Definition UINT63 (cs : list ascii) : bool :=
  match cs with
  | [] => false
  | c :: rest =>
      is_digit c && forallb is_digit rest
      && (negb (code c =? 48) || match rest with [] => true | _ => false end)
  end.

Definition parseUint63String_in (value : unknown) (minimum maximum : Z) : result Uint63String :=
  match value with
  | VString s =>
      require (UINT63 (chars s));;
      throw_if ((19 <? strlen s) || (UINT63_MAX <? BigInt s)) DeliveryValidationError;;
      throw_if ((minimum <? 0) || (UINT63_MAX <? maximum) || (maximum <? minimum))
        DeliveryValidationError;;
      throw_if ((BigInt s <? minimum) || (maximum <? BigInt s)) DeliveryValidationError;;
      Ok s
  | _ => invalid
  end.

Definition parseUint63String (value : unknown) : result Uint63String :=
  parseUint63String_in value 0 UINT63_MAX.

Definition parsePositiveUint63String (value : unknown) : result Uint63String :=
  parsed ← parseUint63String value;
  throw_if (parsed === "0") DeliveryValidationError;; Ok parsed.

Definition parseUint63BigInt (value : unknown) : result Z :=
  match value with
  | VBigInt z => throw_if ((z <? 0) || (UINT63_MAX <? z)) DeliveryValidationError;; Ok z
  | _ => invalid
  end.

Definition uint63ToBigInt (value : Uint63String) : result Z :=
  s ← parseUint63String (VString value); Ok (BigInt s).

Definition uint63FromBigInt (value : Z) : result Uint63String :=
  z ← parseUint63BigInt (VBigInt value); Ok (decimal z).

(** ** Timestamps, ETags and key identifiers *)

Definition parseRfc3339Millis (value : unknown) : result Rfc3339Millis :=
  match value with
  | VString s =>
      require (matches RFC3339_MILLISECONDS s);;
      match dateParse s with
      | None => invalid
      | Some instant => throw_if (toISOString instant !== s) DeliveryValidationError;; Ok s
      end
  | _ => invalid
  end.

Definition DQUOTE : ascii := ascii_of_nat 34.

(** The longest prefix of digits, and the rest. *)
Fixpoint span_digits (cs : list ascii) : list ascii * list ascii :=
  match cs with
  | c :: cs' =>
      if is_digit c then let '(d, r) := span_digits cs' in (c :: d, r) else ([], cs)
  | [] => ([], [])
  end.

(** The two capture groups of [CONVERSATION_ETAG], a quoted [e..-r..] of two
    canonical decimals. *)
Definition matchConversationEtag (cs : list ascii) : option (list ascii * list ascii) :=
  match cs with
  | q :: e :: rest =>
      if is_char q DQUOTE && is_char e "e"%char then
        let '(epoch, rest) := span_digits rest in
        match rest with
        | d :: r :: rest =>
            if is_char d "-"%char && is_char r "r"%char then
              let '(roster, rest) := span_digits rest in
              match rest with
              | [q] => if is_char q DQUOTE && UINT63 epoch && UINT63 roster
                       then Some (epoch, roster) else None
              | _ => None
              end
            else None
        | _ => None
        end
      else None
  | _ => None
  end.

Definition parseConversationEtag (value : unknown) : result ConversationEtag :=
  match value with
  | VString s =>
      match matchConversationEtag (chars s) with
      | None => invalid
      | Some (epoch, roster) =>
          parseUint63String (VString (String.string_of_list_ascii epoch));;
          parseUint63String (VString (String.string_of_list_ascii roster));;
          Ok s
      end
  | _ => invalid
  end.

Definition etag_text (epoch rosterVersion : list ascii) : string :=
  String.string_of_list_ascii
    (DQUOTE :: "e"%char :: epoch ++ "-"%char :: "r"%char :: rosterVersion ++ [DQUOTE]).

Definition formatConversationEtag (epoch rosterVersion : Uint63String) : result ConversationEtag :=
  e ← parseUint63String (VString epoch);
  r ← parseUint63String (VString rosterVersion);
  Ok (etag_text (chars e) (chars r)).

(** [[a-z0-9][a-z0-9._-]{0,63}]. *)
Definition is_label_start (c : ascii) : bool := is_lower c || is_digit c.
Definition is_label_char (c : ascii) : bool :=
  is_label_start c || is_char c "."%char || is_char c "_"%char || is_char c "-"%char.
Definition LABEL_64 (s : string) : bool :=
  match chars s with
  | [] => false
  | c :: rest => is_label_start c && forallb is_label_char rest && (Z.of_nat (length rest) <=? 63)
  end.

Definition parseSigningKeyId (value : unknown) : result SigningKeyId :=
  match value with VString s => require (LABEL_64 s);; Ok s | _ => invalid end.
Definition parseReleaseProfileId (value : unknown) : result ReleaseProfileId :=
  match value with VString s => require (LABEL_64 s);; Ok s | _ => invalid end.

(** ** Canonical base64url *)

Definition validateByteBounds (minBytes maxBytes : Z) : result unit :=
  throw_if ((minBytes <? 0) || (maxBytes <? minBytes) || (DEFAULT_MAX_BASE64URL_BYTES <? maxBytes))
    DeliveryValidationError.

Definition BASE64URL (cs : list ascii) : bool :=
  match cs with [] => false | _ => forallb (λ c, 0 <=? alphabet_index c) cs end.

Definition parseCanonicalBase64Url (value : unknown) (minBytes maxBytes : Z) : result string :=
  validateByteBounds minBytes maxBytes;;
  match value with
  | VString s =>
      require (BASE64URL (chars s));;
      let remainder := strlen s mod 4 in
      let lastValue := alphabet_index (List.last (chars s) " "%char) in
      throw_if ((remainder =? 1)
                || ((remainder =? 2) && negb (Z.land lastValue 15 =? 0))
                || ((remainder =? 3) && negb (Z.land lastValue 3 =? 0))) DeliveryValidationError;;
      let maximumEncodedLength := (maxBytes * 4 + 2) / 3 in
      throw_if (maximumEncodedLength <? strlen s) DeliveryValidationError;;
      let decoded := base64url_decode s in
      let byteLength := Z.of_nat (length decoded) in
      throw_if ((byteLength <? minBytes) || (maxBytes <? byteLength)
                || (base64url_encode decoded !== s)) DeliveryValidationError;;
      Ok s
  | _ => invalid
  end.

(** A fresh copy of an intrinsic byte array within its bound. *)
Definition copyBytes (value : unknown) (maxBytes : Z) : result bytes :=
  throw_if ((maxBytes <? 0) || (MAX_INTRINSIC_COPY_BYTES <? maxBytes)) DeliveryValidationError;;
  match value with
  | VBytes bs => throw_if (maxBytes <? Z.of_nat (length bs)) DeliveryValidationError;; Ok bs
  | _ => invalid
  end.

Definition parseCanonicalBase64UrlBytes (value : unknown) (minBytes maxBytes : Z) : result bytes :=
  parsed ← parseCanonicalBase64Url value minBytes maxBytes;
  copyBytes (VBytes (base64url_decode parsed)) maxBytes.

Definition decodeCanonicalBase64Url (value : string) : result bytes :=
  parseCanonicalBase64UrlBytes (VString value) 1 DEFAULT_MAX_BASE64URL_BYTES.

Definition parseHash32 (value : unknown) : result Hash32 := parseCanonicalBase64Url value 32 32.
Definition parseFingerprint32 (value : unknown) : result Fingerprint32 :=
  parseCanonicalBase64Url value 32 32.
Definition parseRaw32 (value : unknown) : result string := parseCanonicalBase64Url value 32 32.
Definition parseEd25519Signature (value : unknown) : result string :=
  parseCanonicalBase64Url value 64 64.
Definition decodeHash32 (value : Hash32) : result bytes :=
  parseCanonicalBase64UrlBytes (VString value) 32 32.
Definition decodeFingerprint32 (value : Fingerprint32) : result bytes :=
  parseCanonicalBase64UrlBytes (VString value) 32 32.

Definition parseIdempotencyKey (value : unknown) : result IdempotencyKey :=
  match value with
  | VString s =>
      if matches UUID_V7 s then Ok s
      else throw_if (matches UUID_SHAPED s) DeliveryValidationError;;
           parseCanonicalBase64Url value 16 64
  | _ => parseCanonicalBase64Url value 16 64
  end.

(** ** Envelope tags and senders *)

Inductive EnvelopeClass := external_proposal | mls_commit | application.
Inductive EnvelopeContentType := mls_public_message | mls_private_message.

Inductive EnvelopeSender :=
| InstallationSender (accountId : AccountId) (installationId : InstallationId)
| EntitlementSignerSender (credentialId : CredentialId) (fingerprint : Fingerprint32)
    (signerGeneration : Uint63String).

#[export] Instance EnvelopeClass_eq_dec : EqDecision EnvelopeClass.
Proof. solve_decision. Defined.
#[export] Instance EnvelopeContentType_eq_dec : EqDecision EnvelopeContentType.
Proof. solve_decision. Defined.
#[export] Instance EnvelopeSender_eq_dec : EqDecision EnvelopeSender.
Proof. solve_decision. Defined.

Definition envelopeClass_string (c : EnvelopeClass) : string :=
  match c with
  | external_proposal => "external_proposal"
  | mls_commit => "mls_commit"
  | application => "application"
  end.
Definition contentType_string (c : EnvelopeContentType) : string :=
  match c with
  | mls_public_message => MLS_PUBLIC_MESSAGE_MEDIA_TYPE
  | mls_private_message => MLS_PRIVATE_MESSAGE_MEDIA_TYPE
  end.
Definition sender_type (s : EnvelopeSender) : string :=
  match s with
  | InstallationSender _ _ => "installation"
  | EntitlementSignerSender _ _ _ => "entitlement_signer"
  end.

(** One of a list of string literals, as the value of the union they form. *)
Definition literal_of {A} (str : A → string) (allowed : list A) (value : unknown) : option A :=
  List.find (λ a, isString value (str a)) allowed.

Definition parseEnvelopeClass (value : unknown) : result EnvelopeClass :=
  match literal_of envelopeClass_string [external_proposal; mls_commit; application] value with
  | Some c => Ok c
  | None => invalid
  end.
Definition parseEnvelopeContentType (value : unknown) : result EnvelopeContentType :=
  match literal_of contentType_string [mls_public_message; mls_private_message] value with
  | Some c => Ok c
  | None => invalid
  end.

Definition parseEnvelopeSender (value : unknown) : result EnvelopeSender :=
  discriminated ← expectPlainDataRecord value;
  let type := discriminated.["type"] in
  if isString type "installation" then
    record ← expectExactRecord value ["type"; "accountId"; "installationId"];
    accountId ← parseAccountId record.["accountId"];
    installationId ← parseInstallationId record.["installationId"];
    Ok (InstallationSender accountId installationId)
  else if isString type "entitlement_signer" then
    record ← expectExactRecord value ["type"; "credentialId"; "fingerprint"; "signerGeneration"];
    signerGeneration ← parsePositiveUint63String record.["signerGeneration"];
    credentialId ← parseCredentialId record.["credentialId"];
    fingerprint ← parseFingerprint32 record.["fingerprint"];
    Ok (EntitlementSignerSender credentialId fingerprint signerGeneration)
  else invalid.

(** The object a sender is on the wire. *)
Definition sender_obj (s : EnvelopeSender) : unknown :=
  match s with
  | InstallationSender a i =>
      obj [("type", VString "installation"); ("accountId", VString a); ("installationId", VString i)]
  | EntitlementSignerSender c f g =>
      obj [("type", VString "entitlement_signer"); ("credentialId", VString c);
           ("fingerprint", VString f); ("signerGeneration", VString g)]
  end.

(** ** What the brands mean *)

Definition is_uuid4 (s : string) : bool := matches UUID_V4 s.
Definition is_uint63 (s : string) : bool := UINT63 (chars s) && (BigInt s <=? UINT63_MAX).
Definition is_positive_uint63 (s : string) : bool := is_uint63 s && (s !== "0").
Definition is_base64url (minBytes maxBytes : Z) (s : string) : bool :=
  BASE64URL (chars s) && (base64url_encode (base64url_decode s) === s)
  && (minBytes <=? Z.of_nat (length (base64url_decode s)))
  && (Z.of_nat (length (base64url_decode s)) <=? maxBytes).
Definition is_hash32 (s : string) : bool := is_base64url 32 32 s.
Definition is_etag (s : string) : bool :=
  match matchConversationEtag (chars s) with
  | Some (e, r) => (num e <=? UINT63_MAX) && (num r <=? UINT63_MAX)
  | None => false
  end.

(** *** Decimals *)

Lemma digit_val_bound c : is_digit c = true → 0 <= digit_val c < 10.
Proof. unfold is_digit, in_range, digit_val. lia. Qed.

Lemma num_lower cs : forallb is_digit cs = true → 0 <= num cs.
Proof.
  induction cs as [|c cs IH] using rev_ind; [done|].
  rewrite forallb_app, andb_true_iff. cbn. rewrite andb_true_r. intros [H Hc].
  rewrite num_app. pose proof (digit_val_bound c Hc). specialize (IH H). lia.
Qed.

Lemma UINT63_digits cs : UINT63 cs = true → forallb is_digit cs = true.
Proof. destruct cs as [|c cs]; cbn; [done|]. intros H. split_orb. by rewrite H, H1. Qed.

Lemma num_head d cs :
  is_digit d = true → code d ≠ 48 → forallb is_digit cs = true → 1 <= num (d :: cs).
Proof.
  intros Hd H48. induction cs as [|x cs IH] using rev_ind.
  - unfold num; cbn. unfold is_digit, in_range, digit_val in *. lia.
  - rewrite forallb_app, andb_true_iff. cbn. rewrite andb_true_r. intros [Hcs Hx].
    change (d :: cs ++ [x]) with ((d :: cs) ++ [x]). rewrite num_app.
    pose proof (digit_val_bound x Hx). specialize (IH Hcs). lia.
Qed.

(** Dropping the last digit of a canonical decimal of two digits or more. *)
Lemma UINT63_snoc cs c :
  cs ≠ [] → UINT63 (cs ++ [c]) = true ↔ UINT63 cs = true ∧ is_digit c = true ∧ 1 <= num cs.
Proof.
  destruct cs as [|d cs]; [done|]. intros _. cbn [UINT63 app].
  rewrite forallb_app. cbn [forallb]. rewrite andb_true_r.
  rewrite !andb_true_iff, !orb_true_iff, negb_true_iff, Z.eqb_neq.
  split.
  - intros [(Hd & (Hcs & Hc)) H]. assert (code d ≠ 48) by (by destruct H as [H|H]; [|destruct cs]).
    pose proof (num_head d cs Hd H0 Hcs). tauto.
  - intros ([[Hd Hcs] H] & Hc & HN). split; [tauto|]. left.
    destruct H as [H|H]; [done|]. destruct cs; [|done].
    unfold num in HN. cbn in HN. unfold digit_val in HN. lia.
Qed.

Lemma dec_canonical cs f :
  UINT63 cs = true → (0 < f)%nat → num cs < 10 ^ Z.of_nat f → dec f (num cs) = cs.
Proof.
  revert f. induction cs as [|c cs IH] using rev_ind; [done|]. intros [|f] Hc Hpos Hf; [lia|].
  rewrite Nat2Z.inj_succ, Z.pow_succ_r in Hf by lia. cbn [dec].
  assert (Hcd : is_digit c = true).
  { apply UINT63_digits in Hc. rewrite forallb_app in Hc. cbn in Hc.
    by rewrite andb_true_r, andb_true_iff in Hc; destruct Hc. }
  pose proof (digit_val_bound c Hcd) as Hb. rewrite num_app in *.
  assert (Hdig : digit_char ((num cs * 10 + digit_val c) mod 10) = c).
  { apply code_inj. replace ((num cs * 10 + digit_val c) mod 10) with (digit_val c) by lia.
    rewrite code_digit_char by done. unfold digit_val. lia. }
  rewrite Hdig. f_equal.
  destruct cs as [|d cs].
  - change (num []) with 0 in *. destruct (Z.ltb_spec (0 * 10 + digit_val c) 10); [done|lia].
  - apply UINT63_snoc in Hc as (Hc & _ & HN); [|done].
    destruct (Z.ltb_spec (num (d :: cs) * 10 + digit_val c) 10); [lia|].
    replace ((num (d :: cs) * 10 + digit_val c) / 10) with (num (d :: cs)) by lia.
    destruct f as [|f]; [change (10 ^ Z.of_nat 0) with 1 in Hf; lia|].
    apply IH; [done|lia|lia].
Qed.

Lemma dec_spec f n :
  0 <= n < 10 ^ Z.of_nat f → (0 < f)%nat → UINT63 (dec f n) = true ∧ num (dec f n) = n.
Proof.
  revert n. induction f as [|f IH]; intros n Hn Hf; [lia|].
  rewrite Nat2Z.inj_succ, Z.pow_succ_r in Hn by lia. cbn [dec].
  pose proof (is_digit_char (n mod 10) ltac:(lia)) as Hd.
  assert (Hdv : digit_val (digit_char (n mod 10)) = n mod 10).
  { unfold digit_val. rewrite code_digit_char; lia. }
  destruct (Z.ltb_spec n 10) as [Hlt|Hge].
  - rewrite app_nil_l. split; [cbn; by rewrite Hd, orb_true_r|].
    unfold num; cbn. rewrite Hdv. lia.
  - destruct f as [|f]; [change (10 ^ Z.of_nat 0) with 1 in Hn; lia|].
    destruct (IH (n / 10)) as [HU HN]; [lia|lia|].
    rewrite num_app, HN, Hdv. split; [|lia].
    apply UINT63_snoc; [by destruct (dec (S f) (n / 10)) eqn:E; [discriminate HU|]|].
    split_and!; [done|done|lia].
Qed.

Lemma log2_fuel n : 0 <= n → n < 10 ^ Z.of_nat (S (Z.to_nat (Z.log2 n))).
Proof.
  intros Hn. destruct (Z.eq_dec n 0) as [->|Hne]; [done|].
  pose proof (Z.log2_spec n ltac:(lia)) as [_ H]. pose proof (Z.log2_nonneg n).
  rewrite Nat2Z.inj_succ, Z2Nat.id by lia.
  eapply Z.lt_le_trans; [exact H|]. apply Z.pow_le_mono_l. lia.
Qed.

Lemma decimal_spec n :
  0 <= n → UINT63 (chars (decimal n)) = true ∧ BigInt (decimal n) = n.
Proof.
  intros Hn. unfold BigInt, decimal. destruct (Z.ltb_spec n 0); [lia|]. rewrite chars_of_list.
  apply dec_spec; [|lia]. split; [done|by apply log2_fuel].
Qed.

Lemma BigInt_nonneg s : UINT63 (chars s) = true → 0 <= BigInt s.
Proof. intros H. by apply num_lower, UINT63_digits. Qed.

Lemma decimal_BigInt s : UINT63 (chars s) = true → decimal (BigInt s) = s.
Proof.
  intros H. pose proof (BigInt_nonneg s H). apply chars_inj.
  unfold decimal. destruct (Z.ltb_spec (BigInt s) 0); [lia|]. rewrite chars_of_list.
  unfold BigInt. apply dec_canonical; [done|lia|]. by apply log2_fuel.
Qed.

Lemma decimal_inj n m : 0 <= n → 0 <= m → decimal n = decimal m → n = m.
Proof.
  intros Hn Hm H. destruct (decimal_spec n Hn) as [_ <-]. destruct (decimal_spec m Hm) as [_ <-].
  by rewrite H.
Qed.

Lemma is_uint63_decimal n : 0 <= n <= UINT63_MAX → is_uint63 (decimal n) = true.
Proof.
  intros H. destruct (decimal_spec n ltac:(lia)) as [HU HB].
  unfold is_uint63. rewrite HU, HB. lia.
Qed.

Lemma is_uint63_bound s : is_uint63 s = true → 0 <= BigInt s <= UINT63_MAX.
Proof. unfold is_uint63. intros H. split_orb. pose proof (BigInt_nonneg s H). lia. Qed.

Lemma is_uint63_inj s t :
  is_uint63 s = true → is_uint63 t = true → BigInt s = BigInt t → s = t.
Proof.
  unfold is_uint63. intros [Hs _]%andb_true_iff [Ht _]%andb_true_iff H.
  by rewrite <- (decimal_BigInt s), <- (decimal_BigInt t), H.
Qed.

(** A canonical decimal longer than nineteen digits is above the ceiling. *)
Lemma UINT63_long cs : UINT63 cs = true → (1 < length cs)%nat →
  10 ^ Z.of_nat (length cs - 1) <= num cs.
Proof.
  induction cs as [|c cs IH] using rev_ind; [done|]. intros Hc Hl.
  rewrite length_app in *. cbn in Hl. apply UINT63_snoc in Hc as (Hc & Hd & HN);
    [|intros ->; cbn in Hl; lia].
  rewrite num_app. pose proof (digit_val_bound c Hd).
  destruct (Nat.eq_dec (length cs) 1) as [E|E].
  - rewrite E. cbn. change (10 ^ Z.of_nat 1) with 10. lia.
  - specialize (IH Hc ltac:(lia)).
    replace (length cs + length [c] - 1)%nat with (S (length cs - 1)) by (cbn; lia).
    rewrite Nat2Z.inj_succ, Z.pow_succ_r by lia. lia.
Qed.

Lemma parseUint63String_Ok v s :
  parseUint63String v = Ok s ↔ v = VString s ∧ is_uint63 s = true.
Proof.
  unfold parseUint63String, parseUint63String_in, is_uint63, require. split.
  - intros H. destruct v; try discriminate H. inv_result. subst. split_orb.
    rewrite Hx. split; [done|lia].
  - intros [-> H]. split_orb. rewrite H. cbn -[UINT63_MAX].
    pose proof (BigInt_nonneg s H).
    destruct (Z.ltb_spec 19 (strlen s)) as [HL|HL].
    { exfalso. unfold strlen in HL. rewrite <- length_chars in HL.
      pose proof (UINT63_long (chars s) H ltac:(lia)) as HB. fold (BigInt s) in HB.
      assert (10 ^ 19 <= 10 ^ Z.of_nat (length (chars s) - 1)).
      { apply Z.pow_le_mono_r; lia. }
      unfold UINT63_MAX in *. lia. }
    destruct (Z.ltb_spec UINT63_MAX (BigInt s)); [lia|]. cbn -[UINT63_MAX].
    destruct (Z.ltb_spec (BigInt s) 0); [lia|]. done.
Qed.

Lemma require_Ok b u : require b = Ok u ↔ b = true.
Proof. unfold require. rewrite throw_if_Ok. by destruct b. Qed.

Lemma parseUuid_Ok v p s : parseUuid v p = Ok s ↔ v = VString s ∧ matches p s = true.
Proof.
  unfold parseUuid. split.
  - destruct v; try discriminate. intros H. inv_result. apply require_Ok in Hx. by subst.
  - intros [-> H]. unfold require. by rewrite H.
Qed.

Lemma parseUuidV4_Ok v s : parseUuidV4 v = Ok s ↔ v = VString s ∧ is_uuid4 s = true.
Proof. apply parseUuid_Ok. Qed.

Lemma parsePositiveUint63String_Ok v s :
  parsePositiveUint63String v = Ok s ↔ v = VString s ∧ is_positive_uint63 s = true.
Proof.
  unfold parsePositiveUint63String, is_positive_uint63. rewrite andb_true_iff. split.
  - intros H. inv_result. subst. apply parseUint63String_Ok in Hx as [-> ->].
    by rewrite Hx0.
  - intros (-> & H & H0). rewrite (proj2 (parseUint63String_Ok _ s)) by done. cbn.
    apply negb_true_iff in H0. by rewrite H0.
Qed.

Lemma is_positive_uint63_bound s :
  is_positive_uint63 s = true → is_uint63 s = true ∧ 1 <= BigInt s <= UINT63_MAX.
Proof.
  unfold is_positive_uint63. intros [H H0]%andb_true_iff. split; [done|].
  pose proof (is_uint63_bound s H). enough (BigInt s ≠ 0) by lia. intros E.
  apply negb_true_iff, bool_decide_eq_false in H0. apply H0.
  by apply is_uint63_inj.
Qed.

Lemma parseRfc3339Millis_Ok v s :
  parseRfc3339Millis v = Ok s ↔ v = VString s ∧ canonicalInstant s = true.
Proof.
  unfold parseRfc3339Millis, canonicalInstant, matches. split.
  - destruct v; try discriminate. intros H. inv_result. apply require_Ok in Hx.
    destruct (dateParse s0) eqn:E; [|discriminate]. inv_result. subst. rewrite Hx, E.
    split; [done|]. by destruct (bool_decide _).
  - intros [-> H]. split_orb. unfold require. rewrite H. cbn.
    destruct (dateParse s); [|done]. by rewrite H0.
Qed.

Lemma parseSigningKeyId_Ok v s :
  parseSigningKeyId v = Ok s ↔ v = VString s ∧ LABEL_64 s = true.
Proof.
  unfold parseSigningKeyId. split.
  - destruct v; try discriminate. intros H. inv_result. apply require_Ok in Hx. by subst.
  - intros [-> H]. unfold require. by rewrite H.
Qed.

(** *** ETags *)

Lemma span_digits_spec ds rest :
  forallb is_digit ds = true →
  match rest with c :: _ => is_digit c = false | [] => True end →
  span_digits (ds ++ rest) = (ds, rest).
Proof.
  intros Hd Hr. induction ds as [|d ds IH]; cbn in *.
  - destruct rest as [|c rest]; cbn; [done|]. by rewrite Hr.
  - apply andb_true_iff in Hd as [-> Hd]. by rewrite IH.
Qed.

Lemma span_digits_app cs ds rest :
  span_digits cs = (ds, rest) → cs = ds ++ rest ∧ forallb is_digit ds = true.
Proof.
  revert ds rest. induction cs as [|c cs IH]; intros ds rest; cbn.
  - by intros [= <- <-].
  - destruct (is_digit c) eqn:E; [|by intros [= <- <-]].
    destruct (span_digits cs) as [d r]. intros [= <- <-].
    destruct (IH d r eq_refl) as [-> Hd]. cbn. by rewrite E, Hd.
Qed.

Lemma is_char_eq c d : is_char c d = true ↔ c = d.
Proof. unfold is_char. rewrite Z.eqb_eq. split; [apply code_inj | by intros ->]. Qed.

Lemma matchConversationEtag_spec cs e r :
  matchConversationEtag cs = Some (e, r) ↔
  cs = DQUOTE :: "e"%char :: e ++ "-"%char :: "r"%char :: r ++ [DQUOTE]
  ∧ UINT63 e = true ∧ UINT63 r = true.
Proof.
  split.
  - unfold matchConversationEtag. intros H.
    destruct cs as [|q [|c cs]]; try done.
    destruct (is_char q DQUOTE && is_char c "e"%char) eqn:E1; [|done].
    destruct (span_digits cs) as [e' [|d [|r0 cs']]] eqn:E2; try done.
    destruct (is_char d "-"%char && is_char r0 "r"%char) eqn:E3; [|done].
    destruct (span_digits cs') as [r' [|q' [|]]] eqn:E4; try done.
    destruct (is_char q' DQUOTE && UINT63 e' && UINT63 r') eqn:E5; [|done].
    injection H as <- <-. split_orb. rewrite !is_char_eq in *. subst.
    apply span_digits_app in E2 as [-> _]. apply span_digits_app in E4 as [-> _]. done.
  - intros (-> & He & Hr). cbn -[DQUOTE span_digits].
    rewrite span_digits_spec by (done || by apply UINT63_digits).
    cbn -[DQUOTE span_digits].
    rewrite span_digits_spec by (done || by apply UINT63_digits). cbn -[DQUOTE].
    by rewrite He, Hr.
Qed.

Lemma parse_digits_Ok e :
  UINT63 e = true →
  (∃ s, parseUint63String (VString (String.string_of_list_ascii e)) = Ok s) ↔ num e <= UINT63_MAX.
Proof.
  intros He. split.
  - intros [s [[= <-] H]%parseUint63String_Ok].
    unfold is_uint63, BigInt in H. rewrite chars_of_list in H. lia.
  - intros Hm. eexists. apply parseUint63String_Ok. split; [done|].
    unfold is_uint63, BigInt. rewrite chars_of_list, He. lia.
Qed.

Lemma parseConversationEtag_Ok v s :
  parseConversationEtag v = Ok s ↔ v = VString s ∧ is_etag s = true.
Proof.
  unfold parseConversationEtag, is_etag. split.
  - destruct v; try discriminate. destruct (matchConversationEtag _) as [[e r]|] eqn:E; [|discriminate].
    intros H. inv_result. subst. rewrite E.
    apply matchConversationEtag_spec in E as (_ & He & Hr).
    pose proof (proj1 (parse_digits_Ok e He) ltac:(eauto)).
    pose proof (proj1 (parse_digits_Ok r Hr) ltac:(eauto)). split; [done|lia].
  - intros [-> H]. destruct (matchConversationEtag _) as [[e r]|] eqn:E; [|done].
    apply matchConversationEtag_spec in E as (_ & He & Hr).
    destruct (proj2 (parse_digits_Ok e He) ltac:(lia)) as [? ->].
    destruct (proj2 (parse_digits_Ok r Hr) ltac:(lia)) as [? ->]. done.
Qed.

(** *** Base64url *)

Lemma BASE64URL_Forall cs :
  BASE64URL cs = true ↔ cs ≠ [] ∧ Forall (λ c, 0 <= alphabet_index c) cs.
Proof.
  unfold BASE64URL. destruct cs as [|c cs]; [by split; [|intros [? _]]|].
  rewrite forallb_forall, Forall_forall. split.
  - intros H. split; [done|]. intros x Hx. apply Z.leb_le, H. by apply list_elem_of_In.
  - intros [_ H] x Hx. apply Z.leb_le, H. by apply list_elem_of_In.
Qed.

Lemma last_map {A B} (f : A → B) l d e : l ≠ [] → List.last (map f l) e = f (List.last l d).
Proof.
  induction l as [|a l IH]; [done|]. intros _. destruct l as [|b l]; [done|].
  cbn [map List.last] in *. by apply IH.
Qed.

(** The tail check of the parser is [tail_bits_zero]. *)
Lemma tail_check s :
  s ≠ "" →
  (strlen s mod 4 =? 1)
  || ((strlen s mod 4 =? 2) && negb (Z.land (alphabet_index (List.last (chars s) " "%char)) 15 =? 0))
  || ((strlen s mod 4 =? 3) && negb (Z.land (alphabet_index (List.last (chars s) " "%char)) 3 =? 0))
  = false ↔ tail_bits_zero (map alphabet_index (chars s)).
Proof.
  intros Hs. unfold tail_bits_zero, strlen. rewrite <- length_chars.
  rewrite (last_map alphabet_index (chars s) " "%char 0) by by destruct s.
  rewrite length_map. set (l := alphabet_index _). set (n := length (chars s)).
  assert (HM : ∀ k : Z, 0 <= k → (Z.of_nat n mod 4 =? k) = true ↔ (n mod 4 = Z.to_nat k)%nat).
  { intros k Hk. rewrite Z.eqb_eq. pose proof (Nat2Z.inj_mod n 4) as HX.
    change (Z.of_nat 4) with 4 in HX. lia. }
  rewrite !orb_false_iff, !andb_false_iff, !negb_false_iff, !Z.eqb_eq.
  rewrite <- !not_true_iff_false, !HM by lia. cbn.
  destruct (decide (n mod 4 = 1)%nat), (decide (n mod 4 = 2)%nat), (decide (n mod 4 = 3)%nat);
    intuition lia.
Qed.

Lemma parseCanonicalBase64Url_Ok v a b s :
  0 <= a <= b → b <= DEFAULT_MAX_BASE64URL_BYTES →
  parseCanonicalBase64Url v a b = Ok s ↔ v = VString s ∧ is_base64url a b s = true.
Proof.
  intros Hab Hb. unfold parseCanonicalBase64Url, validateByteBounds, is_base64url.
  destruct ((a <? 0) || (b <? a) || (DEFAULT_MAX_BASE64URL_BYTES <? b)) eqn:EB; [lia|].
  cbn [throw_if mbind result_bind]. split.
  - destruct v; try discriminate. intros H. inv_result. subst. apply require_Ok in Hx.
    split_orb. rewrite Hx. cbn [andb]. split; [done|].
    destruct (bool_decide _); [|done]. cbn [andb]. lia.
  - intros [-> H]. split_orb. apply bool_decide_eq_true in H2.
    unfold require. rewrite H. cbn [throw_if mbind result_bind negb].
    assert (Hs : s ≠ "") by by destruct s.
    rewrite (proj2 (tail_check s Hs)).
    2:{ rewrite <- H2. apply base64url_encode_tail_bits. }
    cbn [throw_if mbind result_bind].
    assert (strlen s <= (b * 4 + 2) / 3) as HL.
    { rewrite <- H2. rewrite length_base64url_encode. lia. }
    destruct (Z.ltb_spec ((b * 4 + 2) / 3) (strlen s)); [lia|]. cbn [throw_if mbind result_bind].
    rewrite bool_decide_eq_true_2 by done. cbn [negb]. rewrite orb_false_r.
    destruct ((_ <? a) || (b <? _)) eqn:E; [lia|]. done.
Qed.

Lemma parseHash32_Ok v s : parseHash32 v = Ok s ↔ v = VString s ∧ is_hash32 s = true.
Proof. apply parseCanonicalBase64Url_Ok; unfold DEFAULT_MAX_BASE64URL_BYTES; lia. Qed.

Lemma is_base64url_decode a b s :
  is_base64url a b s = true →
  base64url_encode (base64url_decode s) = s ∧ a <= Z.of_nat (length (base64url_decode s)) <= b.
Proof. unfold is_base64url. intros H. split_orb. apply bool_decide_eq_true in H2. split; [done|lia]. Qed.

Lemma is_base64url_encode a b bs :
  a <= Z.of_nat (length bs) <= b → bs ≠ [] → is_base64url a b (base64url_encode bs) = true.
Proof.
  intros Hl Hne. unfold is_base64url. rewrite base64url_decode_encode.
  rewrite bool_decide_eq_true_2 by done.
  rewrite (proj2 (BASE64URL_Forall _)); [lia|].
  split; [|apply base64url_encode_alphabet]. intros E.
  apply (f_equal length) in E. rewrite length_chars in E.
  pose proof (length_base64url_encode bs) as HL. unfold strlen in HL. rewrite E in HL.
  destruct bs; [done|]. cbn in HL. lia.
Qed.

Lemma is_hash32_encode bs : length bs = 32%nat → is_hash32 (base64url_encode bs) = true.
Proof. intros H. apply is_base64url_encode; [lia|]. by intros ->. Qed.

Lemma decodeHash32_Ok s : is_hash32 s = true → decodeHash32 s = Ok (base64url_decode s).
Proof.
  intros H. pose proof (is_base64url_decode 32 32 s H) as [_ HL].
  unfold decodeHash32, parseCanonicalBase64UrlBytes. fold (parseHash32 (VString s)).
  rewrite (proj2 (parseHash32_Ok (VString s) s)) by done. cbn [mbind result_bind].
  unfold copyBytes. cbn [throw_if mbind result_bind orb].
  change ((32 <? 0) || (MAX_INTRINSIC_COPY_BYTES <? 32)) with false.
  cbn [throw_if mbind result_bind]. destruct (Z.ltb_spec 32 (Z.of_nat (length (base64url_decode s)))); [lia|]. done.
Qed.

Lemma decodeHash32_length s bs : decodeHash32 s = Ok bs → length bs = 32%nat.
Proof.
  unfold decodeHash32, parseCanonicalBase64UrlBytes. intros H. inv_result.
  assert (Hh : parseHash32 (VString s) = Ok x) by done.
  apply parseHash32_Ok in Hh as [_ Hh]. pose proof (is_base64url_decode 32 32 x Hh) as [_ HL].
  unfold copyBytes in H. inv_result. subst. lia.
Qed.

(** Canonical hashes with the same bytes are the same string. *)
Lemma is_hash32_inj s t :
  is_hash32 s = true → is_hash32 t = true → base64url_decode s = base64url_decode t → s = t.
Proof.
  intros [Hs _]%is_base64url_decode [Ht _]%is_base64url_decode H.
  by apply base64url_decode_inj.
Qed.

Lemma decodeHash32_is_hash32 s bs : decodeHash32 s = Ok bs → is_hash32 s = true.
Proof.
  unfold decodeHash32, parseCanonicalBase64UrlBytes. intros H. inv_result.
  assert (Hh : parseHash32 (VString s) = Ok x) by done.
  by apply parseHash32_Ok in Hh as [[= <-] Hh].
Qed.

Lemma decodeHash32_inj s t bs :
  decodeHash32 s = Ok bs → decodeHash32 t = Ok bs → s = t.
Proof.
  intros Hs Ht. pose proof (decodeHash32_is_hash32 s bs Hs). pose proof (decodeHash32_is_hash32 t bs Ht).
  rewrite decodeHash32_Ok in Hs, Ht by done. injection Hs as <-. injection Ht as Ht.
  by apply is_hash32_inj.
Qed.

(** *** Records *)

Lemma existsb_false {A} (f : A → bool) l : existsb f l = false ↔ Forall (λ x, f x = false) l.
Proof.
  induction l as [|x l IH]; cbn; [split; [constructor | done]|].
  by rewrite orb_false_iff, Forall_cons, IH.
Qed.

(** An object literal whose keys are exactly [keys] is an exact record. *)
Lemma expectExactRecord_obj fields keys :
  fields.*1 = keys → NoDup keys → Forall (λ p, isUndefined p.2 = false) fields →
  expectExactRecord (obj fields) keys
    = Ok (map (λ '(k, v), (KString k, DData v true)) fields).
Proof.
  intros <- Hnd Hu. unfold expectExactRecord, obj, require. cbn [throw_if mbind result_bind].
  rewrite bool_decide_eq_true_2 by done. cbn [orb negb throw_if mbind result_bind].
  set (r := map _ fields).
  assert (Hfst : map fst r = map KString (fields.*1)).
  { subst r. clear. induction fields as [|[k v] fs IH]; cbn; [done|]. by rewrite IH. }
  rewrite Hfst, length_map, Nat.eqb_refl. cbn [negb orb].
  rewrite (proj2 (existsb_false _ (map KString _))).
  2:{ apply Forall_map, Forall_forall. intros k Hk. cbn. apply negb_false_iff.
      apply existsb_exists. exists k. split; [by apply list_elem_of_In|]. apply String.eqb_refl. }
  rewrite (proj2 (existsb_false (λ k, negb _) (fields.*1))).
  2:{ apply Forall_forall. intros k Hk. apply negb_false_iff, existsb_exists.
      exists (KString k). split; [|apply String.eqb_refl].
      by apply in_map, list_elem_of_In. }
  cbn [orb throw_if mbind result_bind].
  rewrite (proj2 (existsb_false _ _)); [done|].
  apply Forall_forall. intros k Hk. apply list_elem_of_lookup_1 in Hk as [i Hi].
  rewrite list_lookup_fmap in Hi. destruct (fields !! i) as [[k' v]|] eqn:E; [|done].
  injection Hi as <-. assert (HG := get_obj_nth fields k' v i Hnd E). fold r in HG.
  assert (HD : descriptor r k' = Some (DData v true)).
  { clear -Hnd E. subst r. revert i E. induction fields as [|[k v'] fs IH]; intros [|i] E; try done.
    - injection E as -> ->. unfold descriptor. cbn. by rewrite String.eqb_refl.
    - apply NoDup_cons in Hnd as [Hn Hd]. unfold descriptor. cbn.
      destruct (String.eqb_spec k k') as [->|_]; [|by eapply IH].
      exfalso. apply Hn. apply list_elem_of_fmap. exists (k', v).
      split; [done|]. by eapply list_elem_of_lookup_2. }
  rewrite HD. eapply Forall_lookup_1 in Hu; [|exact E]. done.
Qed.

Lemma existsb_Permutation {A} (f : A → bool) l l' : l ≡ₚ l' → existsb f l = existsb f l'.
Proof.
  intros HP. apply eq_true_iff_eq. rewrite !existsb_exists.
  setoid_rewrite <- list_elem_of_In. by setoid_rewrite HP.
Qed.

(** The order in which the keys of an exact record are listed is immaterial. *)
Lemma expectExactRecord_perm v keys keys' :
  keys ≡ₚ keys' → expectExactRecord v keys = expectExactRecord v keys'.
Proof.
  intros HP. unfold expectExactRecord. destruct v as [| | | | | | | | | |p r]; try done.
  rewrite (Permutation_length HP).
  rewrite !(existsb_Permutation _ _ _ HP).
  assert (HE : existsb (λ k, negb (existsb (λ k', propkey_eqb k (KString k')) keys)) (map fst r)
    = existsb (λ k, negb (existsb (λ k', propkey_eqb k (KString k')) keys')) (map fst r)).
  { induction (map fst r) as [|k ks IH]; [done|]. cbn. by rewrite IH, (existsb_Permutation _ _ _ HP). }
  by rewrite HE.
Qed.

(** What an accepted record is: a plain object with exactly the named keys,
    each an enumerable, defined data property. *)
Lemma expectExactRecord_Ok v keys r :
  expectExactRecord v keys = Ok r →
  ∃ p, v = VObject p r ∧ (p = ObjectPrototype ∨ p = NullPrototype) ∧
    length r = length keys ∧
    (∀ k, In k (map fst r) ↔ ∃ s, k = KString s ∧ In s keys) ∧
    (∀ s, In s keys → ∃ x, descriptor r s = Some (DData x true) ∧ x ≠ VUndefined).
Proof.
  unfold expectExactRecord. destruct v as [| | | | | | | | | |p props]; try discriminate.
  intros H. inv_result. subst. apply require_Ok in Hx. exists p.
  apply orb_true_iff in Hx. rewrite !bool_decide_eq_true in Hx.
  apply orb_false_iff in Hx0 as [Hx0 Hk]. apply orb_false_iff in Hx0 as [Hl Ho].
  apply negb_false_iff, Nat.eqb_eq in Hl. rewrite length_map in Hl.
  apply existsb_false in Ho, Hk, Hx1. rewrite Forall_forall in Ho.
  rewrite Forall_forall in Hk. rewrite Forall_forall in Hx1.
  split_and!; [done|done|done| |].
  - intros k. split.
    + intros Hin. apply list_elem_of_In in Hin. specialize (Ho k Hin).
      apply negb_false_iff, existsb_exists in Ho as (s & Hs & E).
      apply propkey_eqb_eq in E as ->. eauto.
    + intros (s & -> & Hs). apply list_elem_of_In in Hs. specialize (Hk s Hs).
      apply negb_false_iff, existsb_exists in Hk as (k & Hin & E).
      apply propkey_eqb_eq in E as <-. done.
  - intros s Hs. apply list_elem_of_In in Hs. specialize (Hx1 s Hs). cbn in Hx1.
    destruct (descriptor r s) as [[w []|]|]; try discriminate Hx1.
    exists w. split; [done|]. by intros ->.
Qed.

Lemma nodup_keys (keys : list string) : bool_decide (NoDup keys) = true → NoDup keys.
Proof. apply bool_decide_eq_true_1. Qed.

(** *** Senders *)

Definition valid_sender (s : EnvelopeSender) : bool :=
  match s with
  | InstallationSender a i => is_uuid4 a && is_uuid4 i
  | EntitlementSignerSender c f g => is_uuid4 c && is_hash32 f && is_positive_uint63 g
  end.

Lemma parseEnvelopeSender_valid v s : parseEnvelopeSender v = Ok s → valid_sender s = true.
Proof.
  unfold parseEnvelopeSender. intros H. inv_result.
  destruct (isString _ "installation"); [|destruct (isString _ "entitlement_signer"); [|discriminate]];
    inv_result; subst; cbn [valid_sender].
  - apply parseUuidV4_Ok in Hx1 as [_ ->], Hx2 as [_ ->]. done.
  - apply parsePositiveUint63String_Ok in Hx1 as [_ ->]. apply parseUuidV4_Ok in Hx2 as [_ ->].
    apply parseHash32_Ok in Hx3 as [_ ->]. done.
Qed.

Lemma expectPlainDataRecord_obj fields :
  expectPlainDataRecord (obj fields) = Ok (map (λ '(k, v), (KString k, DData v true)) fields).
Proof.
  unfold expectPlainDataRecord, obj. cbn [throw_if require mbind result_bind].
  rewrite (proj2 (existsb_false _ _)); [done|]. apply Forall_map, Forall_forall. by intros [] _.
Qed.

Lemma parseEnvelopeSender_obj s :
  valid_sender s = true → parseEnvelopeSender (sender_obj s) = Ok s.
Proof.
  destruct s as [a i|c f g]; cbn [valid_sender]; intros H; split_orb; unfold parseEnvelopeSender, sender_obj;
    rewrite expectPlainDataRecord_obj; cbn [mbind result_bind].
  - rewrite expectExactRecord_obj; [|done|by apply nodup_keys|by repeat constructor].
    cbn -[parseAccountId parseInstallationId].
    rewrite (proj2 (parseUuidV4_Ok (VString a) a) ltac:(done) : parseAccountId _ = _).
    by rewrite (proj2 (parseUuidV4_Ok (VString i) i) ltac:(done) : parseInstallationId _ = _).
  - change (isString _ "installation") with false. cbv iota.
    change (isString _ "entitlement_signer") with true. cbv iota.
    rewrite expectExactRecord_obj; [|done|by apply nodup_keys|by repeat constructor].
    cbn -[parseCredentialId parsePositiveUint63String parseFingerprint32].
    rewrite (proj2 (parsePositiveUint63String_Ok (VString g) g)) by done.
    rewrite (proj2 (parseUuidV4_Ok (VString c) c) ltac:(done) : parseCredentialId _ = _).
    change (parseFingerprint32 (VString f)) with (parseHash32 (VString f)).
    by rewrite (proj2 (parseHash32_Ok (VString f) f)) by done.
Qed.

(** The parsers are reasoned about through the lemmas above. *)
#[global] Arguments parseUuidV4 : simpl never.
#[global] Arguments parseUuidV7 : simpl never.
#[global] Arguments parseUint63String : simpl never.
#[global] Arguments parsePositiveUint63String : simpl never.
#[global] Arguments parseRfc3339Millis : simpl never.
#[global] Arguments parseConversationEtag : simpl never.
#[global] Arguments parseSigningKeyId : simpl never.
#[global] Arguments parseReleaseProfileId : simpl never.
#[global] Arguments parseCanonicalBase64Url : simpl never.
#[global] Arguments parseHash32 : simpl never.
#[global] Arguments parseFingerprint32 : simpl never.
#[global] Arguments decodeHash32 : simpl never.
#[global] Arguments parseIdempotencyKey : simpl never.
#[global] Arguments parseEnvelopeClass : simpl never.
#[global] Arguments parseEnvelopeContentType : simpl never.
#[global] Arguments parseEnvelopeSender : simpl never.
#[global] Arguments expectExactRecord : simpl never.
#[global] Arguments parseConversationId : simpl never.
#[global] Arguments parseAccountId : simpl never.
#[global] Arguments parseInstallationId : simpl never.
#[global] Arguments parseCredentialId : simpl never.
#[global] Arguments parseEnvelopeId : simpl never.
#[global] Arguments is_uuid4 : simpl never.
#[global] Arguments is_uint63 : simpl never.
#[global] Arguments is_positive_uint63 : simpl never.
#[global] Arguments is_hash32 : simpl never.
#[global] Arguments canonicalInstant : simpl never.
#[global] Arguments BigInt : simpl never.
#[global] Arguments decimal : simpl never.

(** Runs every parser whose argument is known to carry its brand. *)
Ltac run_parsers :=
  cbn;
  unfold parseConversationId, parseAccountId, parseInstallationId, parseCredentialId, parseEnvelopeId in *;
  repeat (match goal with
  | H : is_uuid4 ?s = true |- context [parseUuidV4 (VString ?s)] =>
      rewrite (proj2 (parseUuidV4_Ok (VString s) s) (conj eq_refl H))
  | H : is_uint63 ?s = true |- context [parseUint63String (VString ?s)] =>
      rewrite (proj2 (parseUint63String_Ok (VString s) s) (conj eq_refl H))
  | H : is_positive_uint63 ?s = true |- context [parsePositiveUint63String (VString ?s)] =>
      rewrite (proj2 (parsePositiveUint63String_Ok (VString s) s) (conj eq_refl H))
  | H : is_hash32 ?s = true |- context [parseHash32 (VString ?s)] =>
      rewrite (proj2 (parseHash32_Ok (VString s) s) (conj eq_refl H))
  | H : is_hash32 ?s = true |- context [decodeHash32 ?s] => rewrite (decodeHash32_Ok s H)
  | H : canonicalInstant ?s = true |- context [parseRfc3339Millis (VString ?s)] =>
      rewrite (proj2 (parseRfc3339Millis_Ok (VString s) s) (conj eq_refl H))
  | H : LABEL_64 ?s = true |- context [parseSigningKeyId (VString ?s)] =>
      rewrite (proj2 (parseSigningKeyId_Ok (VString s) s) (conj eq_refl H))
  | H : valid_sender ?s = true |- context [parseEnvelopeSender (sender_obj ?s)] =>
      rewrite (parseEnvelopeSender_obj s H)
  end; cbn).

Lemma parseEnvelopeContentType_Ok v c :
  parseEnvelopeContentType v = Ok c ↔ v = VString (contentType_string c).
Proof.
  split; [|intros ->; by destruct c]. unfold parseEnvelopeContentType.
  destruct (literal_of _ _ _) as [c'|] eqn:E; [|done]. intros [= ->].
  unfold literal_of in E. apply List.find_some in E as [_ E]. unfold isString in E.
  destruct v; try done. apply bool_decide_eq_true in E. by subst.
Qed.

Lemma parseEd25519Signature_Ok v s :
  parseEd25519Signature v = Ok s ↔ v = VString s ∧ is_base64url 64 64 s = true.
Proof. apply parseCanonicalBase64Url_Ok; unfold DEFAULT_MAX_BASE64URL_BYTES; lia. Qed.

Lemma parseCanonicalBase64UrlBytes_Ok v a b bs :
  0 <= a <= b → b <= DEFAULT_MAX_BASE64URL_BYTES →
  parseCanonicalBase64UrlBytes v a b = Ok bs ↔
  ∃ s, v = VString s ∧ is_base64url a b s = true ∧ bs = base64url_decode s.
Proof.
  intros Hab Hb. unfold parseCanonicalBase64UrlBytes. rewrite bind_Ok.
  setoid_rewrite (λ x, parseCanonicalBase64Url_Ok v a b x Hab Hb).
  unfold copyBytes, MAX_INTRINSIC_COPY_BYTES. unfold DEFAULT_MAX_BASE64URL_BYTES in Hb.
  assert (E : (b <? 0) || (4294967295 <? b) = false) by lia. rewrite E. cbn [throw_if mbind result_bind].
  split.
  - intros (s & [Hv Hs] & H). exists s. split_and!; [done|done|]. by inv_result.
  - intros (s & Hv & Hs & ->). exists s. split; [done|].
    apply is_base64url_decode in Hs as [_ HL].
    by rewrite (proj2 (Z.ltb_ge _ _)) by lia.
Qed.

#[global] Arguments parseCanonicalBase64UrlBytes : simpl never.
#[global] Arguments parseEd25519Signature : simpl never.
#[global] Arguments is_base64url : simpl never.
#[global] Arguments is_etag : simpl never.

(** Reads off every accepted field its text and its brand. *)
Ltac read_brands :=
  unfold parseConversationId, parseAccountId, parseInstallationId, parseCredentialId, parseEnvelopeId,
    parsePolicyHeadId, parseAttachmentId, parseWitnessCheckpointId, parseFingerprint32 in *;
  fold parseHash32 in *;
  repeat match goal with
  | H : parseUuidV4 _ = Ok _ |- _ => apply parseUuidV4_Ok in H as [? H]
  | H : parseUint63String _ = Ok _ |- _ => apply parseUint63String_Ok in H as [? H]
  | H : parsePositiveUint63String _ = Ok _ |- _ => apply parsePositiveUint63String_Ok in H as [? H]
  | H : parseHash32 _ = Ok _ |- _ => apply parseHash32_Ok in H as [? H]
  | H : parseRfc3339Millis _ = Ok _ |- _ => apply parseRfc3339Millis_Ok in H as [? H]
  | H : parseSigningKeyId _ = Ok _ |- _ => apply parseSigningKeyId_Ok in H as [? H]
  | H : parseEd25519Signature _ = Ok _ |- _ => apply parseEd25519Signature_Ok in H as [? H]
  | H : parseConversationEtag _ = Ok _ |- _ => apply parseConversationEtag_Ok in H as [? H]
  | H : parseEnvelopeContentType _ = Ok _ |- _ => apply parseEnvelopeContentType_Ok in H
  end.

(** Runs the parsers on fields known to carry their brand. *)
Ltac accept_brands :=
  unfold parseConversationId, parseAccountId, parseInstallationId, parseCredentialId, parseEnvelopeId,
    parsePolicyHeadId, parseAttachmentId, parseWitnessCheckpointId, parseFingerprint32;
  repeat (first
    [ rewrite (proj2 (parseUuidV4_Ok (VString _) _)) by (by split)
    | rewrite (proj2 (parseUint63String_Ok (VString _) _)) by (by split)
    | rewrite (proj2 (parsePositiveUint63String_Ok (VString _) _)) by (by split)
    | rewrite (proj2 (parseHash32_Ok (VString _) _)) by (by split)
    | rewrite (proj2 (parseRfc3339Millis_Ok (VString _) _)) by (by split)
    | rewrite (proj2 (parseSigningKeyId_Ok (VString _) _)) by (by split)
    | rewrite (proj2 (parseEd25519Signature_Ok (VString _) _)) by (by split)
    | rewrite (proj2 (parseConversationEtag_Ok (VString _) _)) by (by split)
    | rewrite (proj2 (parseEnvelopeContentType_Ok (VString _) _)) by done
    | rewrite parseEnvelopeSender_obj by done ];
    cbn [mbind result_bind throw_if]).

(** The fields of a record, one by one. *)
Definition reads (r : record) (fields : list (string * unknown)) : Prop :=
  Forall (λ '(k, v), r.[k] = v) fields.

Lemma reads_obj fields :
  NoDup (fields.*1) → reads (map (λ '(k, v), (KString k, DData v true)) fields) fields.
Proof.
  intros HN. apply Forall_forall. intros [k v] Hin.
  apply list_elem_of_lookup_1 in Hin as [i Hi]. by eapply get_obj_nth.
Qed.

(** An object literal is an exact record of its keys in any order. *)
Lemma expectExactRecord_reads fields keys :
  fields.*1 ≡ₚ keys → NoDup keys → Forall (λ p, isUndefined p.2 = false) fields →
  ∃ r, expectExactRecord (obj fields) keys = Ok r ∧ reads r fields.
Proof.
  intros HP HN HU. assert (NoDup fields.*1) by by rewrite HP.
  eexists. split; [|by apply reads_obj].
  rewrite <- (expectExactRecord_perm _ _ _ HP). by apply expectExactRecord_obj.
Qed.
