(* ===== verification/MerkleLog.v ===== *)
(** * The RFC 6962 Merkle log ([src/production/witness/merkleLog.ts])

    Roots, inclusion (audit path) proofs and consistency proofs over a list of
    leaf hashes, and the two iterative verifiers.  The generators recurse on
    the list with the list's length as fuel ([*_eq] below are their recursion
    equations, so the fuel is always enough); the verifiers are the loops of
    the source, with JavaScript's 32-bit [>>]. *)

From stdpp Require Import base list sets strings.
From Stdlib Require Import ZArith Lia.
From S2P Require Import Prelude Sha256.

Ltac Zify.zify_post_hook ::= Z.to_euclidean_division_equations.

(** ** The split point *)

(** [while (k * 2 < n) k *= 2]. *)
Fixpoint splitLoop (fuel : nat) (k n : Z) : Z :=
  match fuel with
  | O => k
  | S fuel => if k * 2 <? n then splitLoop fuel (k * 2) n else k
  end.

Definition splitPoint (n : Z) : Z := splitLoop (S (Z.to_nat (Z.log2 n))) 1 n.

Section MerkleLog.
Context `{SHA : Sha256}.

Definition leafHash (payload : bytes) : bytes := sha256 (Byte.x00 :: payload).
Definition nodeHash (left right : bytes) : bytes := sha256 (Byte.x01 :: left ++ right).

Definition size (leafHashes : list bytes) : Z := Z.of_nat (length leafHashes).
Definition slice_to (k : Z) (l : list bytes) : list bytes := take (Z.to_nat k) l.
Definition slice_from (k : Z) (l : list bytes) : list bytes := drop (Z.to_nat k) l.

(** ** Generators *)

Fixpoint merkleRoot_fuel (fuel : nat) (leafHashes : list bytes) : bytes :=
  match fuel, leafHashes with
  | _, [] => sha256 []
  | _, [leaf] => leaf
  | O, _ => []
  | S fuel, _ =>
      let k := splitPoint (size leafHashes) in
      nodeHash (merkleRoot_fuel fuel (slice_to k leafHashes))
               (merkleRoot_fuel fuel (slice_from k leafHashes))
  end.
Definition merkleRoot (leafHashes : list bytes) : bytes :=
  merkleRoot_fuel (length leafHashes) leafHashes.

Fixpoint inclusionProof_fuel (fuel : nat) (leafHashes : list bytes) (index : Z) :
  result (list bytes) :=
  if (index <? 0) || (size leafHashes <=? index) then Throw RangeError
  else if size leafHashes =? 1 then Ok []
  else match fuel with
  | O => Throw RangeError
  | S fuel =>
      let k := splitPoint (size leafHashes) in
      if index <? k then
        path ← inclusionProof_fuel fuel (slice_to k leafHashes) index;
        Ok (path ++ [merkleRoot (slice_from k leafHashes)])
      else
        path ← inclusionProof_fuel fuel (slice_from k leafHashes) (index - k);
        Ok (path ++ [merkleRoot (slice_to k leafHashes)])
  end.
Definition inclusionProof (leafHashes : list bytes) (index : Z) : result (list bytes) :=
  inclusionProof_fuel (length leafHashes) leafHashes index.

Fixpoint subProof_fuel (fuel : nat) (leafHashes : list bytes) (m : Z) (complete : bool) :
  result (list bytes) :=
  let n := size leafHashes in
  if m =? n then Ok (if complete then [] else [merkleRoot leafHashes])
  else match fuel with
  | O => Throw RangeError
  | S fuel =>
      let k := splitPoint n in
      if m <=? k then
        path ← subProof_fuel fuel (slice_to k leafHashes) m complete;
        Ok (path ++ [merkleRoot (slice_from k leafHashes)])
      else
        path ← subProof_fuel fuel (slice_from k leafHashes) (m - k) false;
        Ok (path ++ [merkleRoot (slice_to k leafHashes)])
  end.
Definition subProof (leafHashes : list bytes) (m : Z) (complete : bool) : result (list bytes) :=
  subProof_fuel (length leafHashes) leafHashes m complete.

Definition consistencyProof (leafHashes : list bytes) (oldSize : Z) : result (list bytes) :=
  let newSize := size leafHashes in
  if (oldSize <? 1) || (newSize <? oldSize) then Throw RangeError
  else if oldSize =? newSize then Ok []
  else subProof leafHashes oldSize true.

(** ** Verifiers *)

(** [while (fn % 2 === 0 && fn !== 0) { fn >>= 1; sn >>= 1 }].  A shift leaves
    a 32-bit value, so the loop runs at most 33 times. *)
Fixpoint shiftEven (fuel : nat) (fn sn : Z) : Z * Z :=
  match fuel with
  | O => (fn, sn)
  | S fuel =>
      if (Z.rem fn 2 =? 0) && negb (fn =? 0) then shiftEven fuel (shr1 fn) (shr1 sn) else (fn, sn)
  end.

(** One sibling of the inclusion loop; [None] is the early [return false]. *)
Definition inclusionStep (st : Z * Z * bytes) (sibling : bytes) : option (Z * Z * bytes) :=
  let '(fn, sn, hash) := st in
  if sn =? 0 then None
  else if (Z.rem fn 2 =? 1) || (fn =? sn) then
    let hash := nodeHash sibling hash in
    let '(fn, sn) := if Z.rem fn 2 =? 0 then shiftEven 64 fn sn else (fn, sn) in
    Some (shr1 fn, shr1 sn, hash)
  else Some (shr1 fn, shr1 sn, nodeHash hash sibling).

Fixpoint inclusionLoop (proof : list bytes) (st : Z * Z * bytes) : option (Z * Z * bytes) :=
  match proof with
  | [] => Some st
  | sibling :: rest =>
      match inclusionStep st sibling with
      | Some st' => inclusionLoop rest st'
      | None => None
      end
  end.

Definition verifyInclusion (leaf : bytes) (index treeSize : Z) (proof : list bytes)
    (expectedRoot : bytes) : bool :=
  if (index <? 0) || (treeSize <=? index) then false
  else match inclusionLoop proof (index, treeSize - 1, leaf) with
  | None => false
  | Some (_, sn, hash) => (sn =? 0) && bool_decide (hash = expectedRoot)
  end.

(** [while (node % 2 === 1) { node >>= 1; lastNode >>= 1 }]. *)
Fixpoint shiftOdd (fuel : nat) (node lastNode : Z) : Z * Z :=
  match fuel with
  | O => (node, lastNode)
  | S fuel =>
      if Z.rem node 2 =? 1 then shiftOdd fuel (shr1 node) (shr1 lastNode) else (node, lastNode)
  end.

Definition consistencyStep (st : Z * Z * bytes * bytes) (sibling : bytes) :
  option (Z * Z * bytes * bytes) :=
  let '(node, lastNode, oldHash, newHash) := st in
  if lastNode =? 0 then None
  else if (Z.rem node 2 =? 1) || (node =? lastNode) then
    let oldHash := nodeHash sibling oldHash in
    let newHash := nodeHash sibling newHash in
    let '(node, lastNode) :=
      if Z.rem node 2 =? 0 then shiftEven 64 node lastNode else (node, lastNode) in
    Some (shr1 node, shr1 lastNode, oldHash, newHash)
  else Some (shr1 node, shr1 lastNode, oldHash, nodeHash newHash sibling).

Fixpoint consistencyLoop (path : list bytes) (st : Z * Z * bytes * bytes) :
  option (Z * Z * bytes * bytes) :=
  match path with
  | [] => Some st
  | sibling :: rest =>
      match consistencyStep st sibling with
      | Some st' => consistencyLoop rest st'
      | None => None
      end
  end.

Definition verifyConsistency (oldSize : Z) (oldRoot : bytes) (newSize : Z) (newRoot : bytes)
    (proof : list bytes) : bool :=
  if (oldSize <? 1) || (newSize <? oldSize) then false
  else if oldSize =? newSize then
    bool_decide (proof = []) && bool_decide (oldRoot = newRoot)
  else
    let '(node, lastNode) := shiftOdd 64 (oldSize - 1) (newSize - 1) in
    let seeded :=
      if 0 <? node then
        match proof with [] => None | seed :: path => Some (seed, path) end
      else Some (oldRoot, proof) in
    match seeded with
    | None => false
    | Some (hash, path) =>
        match consistencyLoop path (node, lastNode, hash, hash) with
        | None => false
        | Some (_, lastNode, oldHash, newHash) =>
            (lastNode =? 0) && bool_decide (oldHash = oldRoot) && bool_decide (newHash = newRoot)
        end
    end.


(** ** Navigation shared by the two verifiers *)

(** Whether the sibling goes on the left, and where the loop goes next. *)
Definition side (fn sn : Z) : bool := (Z.rem fn 2 =? 1) || (fn =? sn).
Definition next (fn sn : Z) : Z * Z :=
  let '(f, s) := if side fn sn && (Z.rem fn 2 =? 0) then shiftEven 64 fn sn else (fn, sn) in
  (shr1 f, shr1 s).

Section Loop.
Context {A : Type} (upd : bool → bytes → A → A).

(** Both verifier loops, over any accumulator. *)
Fixpoint navLoop (path : list bytes) (fn sn : Z) (a : A) : option (Z * A) :=
  match path with
  | [] => Some (sn, a)
  | x :: rest =>
      if sn =? 0 then None
      else navLoop rest (next fn sn).1 (next fn sn).2 (upd (side fn sn) x a)
  end.

Definition accepts (path : list bytes) (fn sn : Z) (a r : A) : Prop :=
  navLoop path fn sn a = Some (0, r).

(** The path from a subtree up to the root of a tree of [n] leaves: [base]
    tells where it starts, [b] is the exponent of each split. *)
Inductive climb (base : Z → Z → Prop) : Z → Z → list bytes → A → A → Prop :=
| climb_base i n a : base i n → climb base i n [] a a
| climb_left i n b p x a r :
    ¬ base i n → 0 <= b → 2 ^ b < n <= 2 ^ (b + 1) → 0 <= i < 2 ^ b →
    climb base i (2 ^ b) p a r → climb base i n (p ++ [x]) a (upd false x r)
| climb_right i n b p x a r :
    ¬ base i n → 0 <= b → 2 ^ b < n <= 2 ^ (b + 1) → 2 ^ b <= i < n →
    climb base (i - 2 ^ b) (n - 2 ^ b) p a r → climb base i n (p ++ [x]) a (upd true x r).

(** *** A subtree's run inside the run of its parent *)

(** [sim right f' s' f s]: the loop at [(f, s)] in the parent is the loop at
    [(f', s')] in its right (left) subtree. *)
Inductive sim : bool → Z → Z → Z → Z → Prop :=
| sim_right c f s : 0 <= c → 0 <= f <= s → s < 2 ^ c → s + 2 ^ c < 2 ^ 31 →
    sim true f s (f + 2 ^ c) (s + 2 ^ c)
| sim_left c f s : 0 <= c → 0 <= f <= 2 ^ c - 1 → 2 ^ c <= s < 2 ^ (c + 1) → s < 2 ^ 31 →
    sim false f (2 ^ c - 1) f s.

End Loop.

Lemma pow2_pos c : 0 <= c → 0 < 2 ^ c.
Proof. intros. by apply Z.pow_pos_nonneg. Qed.

Lemma pow2_succ c : 1 <= c → 2 ^ c = 2 * 2 ^ (c - 1).
Proof. intros. rewrite <- Z.pow_succ_r by lia. f_equal. lia. Qed.

Lemma pow2_ge_1 c x : 0 <= c → 1 <= x < 2 ^ c → 1 <= c.
Proof. intros ? H. destruct (Z.eq_dec c 0) as [->|]; [cbn in H; lia|lia]. Qed.

(** Shifting out trailing zeros of equal positions commutes with the subtree
    offset. *)
Lemma shiftEven_offset fuel x c :
  0 <= c → 1 <= x < 2 ^ c → x + 2 ^ c < 2 ^ 31 → x < 2 ^ Z.of_nat fuel →
  ∃ y c', shiftEven fuel x x = (y, y) ∧
    shiftEven fuel (x + 2 ^ c) (x + 2 ^ c) = (y + 2 ^ c', y + 2 ^ c') ∧
    0 <= c' ∧ 1 <= y < 2 ^ c' ∧ y + 2 ^ c' < 2 ^ 31.
Proof.
  revert x c. induction fuel as [|fuel IH]; intros x c Hc Hx H31 Hf.
  { change (2 ^ Z.of_nat 0) with 1 in Hf. lia. }
  pose proof (pow2_ge_1 c x Hc Hx) as Hc1. pose proof (pow2_succ c Hc1) as HP.
  rewrite Nat2Z.inj_succ, Z.pow_succ_r in Hf by lia. cbn [shiftEven].
  destruct (Z.eqb_spec (Z.rem x 2) 0) as [He|Ho]; cbn [andb].
  - destruct (Z.eqb_spec x 0); [lia|]. cbn [negb].
    destruct (Z.eqb_spec (Z.rem (x + 2 ^ c) 2) 0); [|lia].
    destruct (Z.eqb_spec (x + 2 ^ c) 0); [lia|]. cbn [andb negb].
    rewrite !shr1_small by lia.
    replace ((x + 2 ^ c) / 2) with (x / 2 + 2 ^ (c - 1)) by lia.
    apply IH; lia.
  - destruct (Z.eqb_spec (Z.rem (x + 2 ^ c) 2) 0); [lia|]. cbn [andb].
    exists x, c. repeat split; lia.
Qed.

Lemma shiftEven_pow2 fuel c :
  0 <= c < Z.of_nat fuel → 2 ^ c < 2 ^ 31 → shiftEven fuel (2 ^ c) (2 ^ c) = (1, 1).
Proof.
  revert c. induction fuel as [|fuel IH]; intros c Hc H31; [lia|]. cbn [shiftEven].
  destruct (Z.eq_dec c 0) as [->|Hne]; [done|].
  pose proof (pow2_succ c ltac:(lia)) as HP. pose proof (pow2_pos (c - 1) ltac:(lia)).
  destruct (Z.eqb_spec (Z.rem (2 ^ c) 2) 0); [|lia].
  destruct (Z.eqb_spec (2 ^ c) 0); [lia|]. cbn [andb negb].
  rewrite shr1_small by lia. replace (2 ^ c / 2) with (2 ^ (c - 1)) by lia. apply IH; lia.
Qed.

Lemma pow2_lt_31 c : 0 <= c → 2 ^ c < 2 ^ 31 → c < 31.
Proof. intros H. by apply Z.pow_lt_mono_r_iff. Qed.

Lemma sim_step right f' s' f s :
  sim right f' s' f s → s' ≠ 0 →
  side f' s' = side f s ∧ s ≠ 0 ∧
  sim right (next f' s').1 (next f' s').2 (next f s).1 (next f s).2.
Proof.
  intros Hs Hne. destruct Hs as [c f s Hc Hf Hs H31|c f s Hc Hf Hs H31].
  - pose proof (pow2_ge_1 c s Hc ltac:(lia)) as Hc1. pose proof (pow2_succ c Hc1) as HP.
    pose proof (pow2_pos (c - 1) ltac:(lia)).
    unfold next, side.
    assert ((Z.rem (f + 2 ^ c) 2 =? 1) = (Z.rem f 2 =? 1)) as -> by lia.
    assert ((f + 2 ^ c =? s + 2 ^ c) = (f =? s)) as -> by lia.
    assert ((Z.rem (f + 2 ^ c) 2 =? 0) = (Z.rem f 2 =? 0)) as -> by lia.
    split; [done|]. split; [lia|].
    destruct (((Z.rem f 2 =? 1) || (f =? s)) && (Z.rem f 2 =? 0)) eqn:E.
    + assert (f = s) as -> by lia.
      pose proof (pow2_lt_31 c Hc ltac:(lia)).
      destruct (shiftEven_offset 64 s c) as (y & c' & -> & -> & Hc' & Hy & Hy31); [lia..| |].
      { eapply Z.lt_trans; [apply Hs|]. apply Z.pow_lt_mono_r; lia. }
      pose proof (pow2_ge_1 c' y Hc' Hy) as Hc1'. pose proof (pow2_succ c' Hc1') as HP'.
      cbn [fst snd]. rewrite !shr1_small by lia.
      replace ((y + 2 ^ c') / 2) with (y / 2 + 2 ^ (c' - 1)) by lia. constructor; lia.
    + cbn [fst snd]. rewrite !shr1_small by lia.
      replace ((f + 2 ^ c) / 2) with (f / 2 + 2 ^ (c - 1)) by lia.
      replace ((s + 2 ^ c) / 2) with (s / 2 + 2 ^ (c - 1)) by lia. constructor; lia.
  - destruct (Z.eq_dec c 0) as [->|Hc0]; [cbn in Hne; lia|].
    pose proof (pow2_succ c ltac:(lia)) as HP. pose proof (pow2_succ (c + 1) ltac:(lia)) as HP1.
    replace (c + 1 - 1) with c in HP1 by lia. pose proof (pow2_pos (c - 1) ltac:(lia)).
    unfold next, side.
    assert ((f =? s) = false) as -> by lia. rewrite orb_false_r.
    assert ((Z.rem f 2 =? 1) || (f =? 2 ^ c - 1) = (Z.rem f 2 =? 1)) as -> by lia.
    split; [done|]. split; [lia|].
    assert ((Z.rem f 2 =? 1) && (Z.rem f 2 =? 0) = false) as -> by lia.
    cbn [fst snd]. rewrite !shr1_small by lia.
    replace ((2 ^ c - 1) / 2) with (2 ^ (c - 1) - 1) by lia.
    constructor; [lia|lia| |lia]. replace (c - 1 + 1) with c by lia. lia.
Qed.

Lemma sim_last right f' f s :
  sim right f' 0 f s → s ≠ 0 ∧ side f s = right ∧ next f s = (0, 0).
Proof.
  intros Hs. remember 0 as z eqn:Hz. destruct Hs as [c f s Hc Hf Hs H31|c f s Hc Hf Hs H31]; subst.
  - assert (f = 0) as -> by lia. rewrite !Z.add_0_l in *.
    pose proof (pow2_pos c Hc). pose proof (pow2_lt_31 c Hc H31).
    split; [lia|]. unfold next, side. rewrite Z.eqb_refl, orb_true_r. split; [done|]. cbn [andb].
    destruct (Z.eqb_spec (Z.rem (2 ^ c) 2) 0) as [He|Ho].
    + by rewrite shiftEven_pow2 by lia.
    + destruct (Z.eq_dec c 0) as [->|Hne]; [done|].
      pose proof (pow2_succ c ltac:(lia)). lia.
  - assert (c = 0) as ->.
    { destruct (Z.eq_dec c 0); [done|]. pose proof (pow2_succ c ltac:(lia)).
      pose proof (pow2_pos (c - 1) ltac:(lia)). lia. }
    assert (f = 0) as -> by lia. cbn in Hs. assert (s = 1) as -> by lia. done.
Qed.

Lemma navLoop_sim {A} (upd : bool → bytes → A → A) right p x a r f' s' f s :
  sim right f' s' f s →
  accepts upd (p ++ [x]) f s a r ↔ ∃ r', accepts upd p f' s' a r' ∧ r = upd right x r'.
Proof.
  unfold accepts. revert a f' s' f s. induction p as [|y p IH]; intros a f' s' f s Hsim; cbn [app navLoop].
  - destruct (Z.eq_dec s' 0) as [->|Hne].
    + destruct (sim_last _ _ _ _ Hsim) as (Hs & -> & ->).
      destruct (Z.eqb_spec s 0); [done|]. cbn. split.
      * intros [= <-]. eauto.
      * by intros (r' & [= <-] & ->).
    + destruct (sim_step _ _ _ _ _ Hsim Hne) as (_ & Hs & Hsim').
      destruct (Z.eqb_spec s 0); [done|]. split.
      * intros [= E _]. exfalso.
        inversion Hsim' as [c ?? Hc ?? ? E1|c ?? Hc ?? ? E1]; subst; pose proof (pow2_pos c Hc); lia.
      * intros (r' & [= -> _] & _). done.
  - destruct (Z.eq_dec s' 0) as [->|Hne].
    + destruct (sim_last _ _ _ _ Hsim) as (Hs & _ & ->).
      destruct (Z.eqb_spec s 0); [done|]. cbn [fst snd].
      split; [destruct p; discriminate | by intros (? & ? & _)].
    + destruct (sim_step _ _ _ _ _ Hsim Hne) as (-> & Hs & Hsim').
      destruct (Z.eqb_spec s 0), (Z.eqb_spec s' 0); try done. by apply IH.
Qed.

(** *** Acceptance is climbing *)

(** Every size above one has exactly one split. *)
Lemma split_exists n : 2 <= n → ∃ b, 0 <= b ∧ 2 ^ b < n <= 2 ^ (b + 1).
Proof.
  intros Hn. exists (Z.log2 (n - 1)). pose proof (Z.log2_spec (n - 1) ltac:(lia)) as [H1 H2].
  rewrite <- Z.add_1_r in H2. split; [apply Z.log2_nonneg | lia].
Qed.

Lemma split_unique n b b' :
  0 <= b → 0 <= b' → 2 ^ b < n <= 2 ^ (b + 1) → 2 ^ b' < n <= 2 ^ (b' + 1) → b = b'.
Proof.
  intros Hb Hb' H H'.
  assert (b < b' + 1) by (apply (Z.pow_lt_mono_r_iff 2); lia).
  assert (b' < b + 1) by (apply (Z.pow_lt_mono_r_iff 2); lia). lia.
Qed.

Section Acceptance.
Context {A : Type} (upd : bool → bytes → A → A).

Lemma climb_snoc_inv base i n p x a r :
  climb upd base i n (p ++ [x]) a r →
  ∃ b r', ¬ base i n ∧ 0 <= b ∧ 2 ^ b < n <= 2 ^ (b + 1) ∧
    ((0 <= i < 2 ^ b ∧ climb upd base i (2 ^ b) p a r' ∧ r = upd false x r') ∨
     (2 ^ b <= i < n ∧ climb upd base (i - 2 ^ b) (n - 2 ^ b) p a r' ∧ r = upd true x r')).
Proof.
  intros Hc. remember (p ++ [x]) as q eqn:Hq.
  destruct Hc as [|i n b q y a r ???? Hc|i n b q y a r ???? Hc]; [by destruct p|..];
    apply app_inj_tail in Hq as [-> ->]; exists b, r; tauto.
Qed.

Lemma climb_nil_inv base i n a r : climb upd base i n [] a r → base i n ∧ r = a.
Proof.
  intros Hc. remember [] as q eqn:Hq.
  destruct Hc as [|? ? ? q|? ? ? q]; [done|by destruct q..].
Qed.

(** Shared induction: a start position that is finished exactly on the base
    and simulates the subtree's start otherwise. *)
Lemma accepts_climb (base dom : Z → Z → Prop) (start : Z → Z → Z * Z) :
  (∀ i n, dom i n → 0 <= i < n) →
  (∀ i n, base i n ∨ ¬ base i n) →
  (∀ i n, dom i n → base i n → start i n = (0, 0)) →
  (∀ i n, dom i n → ¬ base i n → 2 <= n) →
  (∀ i n b, dom i n → ¬ base i n → 0 <= b → 2 ^ b < n <= 2 ^ (b + 1) → i < 2 ^ b →
     dom i (2 ^ b) ∧
     sim false (start i (2 ^ b)).1 (start i (2 ^ b)).2 (start i n).1 (start i n).2) →
  (∀ i n b, dom i n → ¬ base i n → 0 <= b → 2 ^ b < n <= 2 ^ (b + 1) → 2 ^ b <= i →
     dom (i - 2 ^ b) (n - 2 ^ b) ∧
     sim true (start (i - 2 ^ b) (n - 2 ^ b)).1 (start (i - 2 ^ b) (n - 2 ^ b)).2
       (start i n).1 (start i n).2) →
  ∀ i n p a r, dom i n →
    accepts upd p (start i n).1 (start i n).2 a r ↔ climb upd base i n p a r.
Proof.
  intros Hrange Hdec Hbase Htwo Hleft Hright i n.
  assert (∃ N, n <= Z.of_nat N) as [N HN] by (exists (Z.to_nat n); lia). revert i n HN.
  induction N as [N IH] using lt_wf_ind. intros i n HN p a r Hd.
  destruct (Hdec i n) as [Hb|Hnb].
  { rewrite (Hbase i n Hd Hb). unfold accepts. cbn [fst snd]. split.
    - destruct p; cbn; [|done]. intros [= <-]. by constructor.
    - destruct p as [|x p _] using rev_ind.
      + by intros [_ ->]%climb_nil_inv.
      + by intros (? & ? & ? & _)%climb_snoc_inv. }
  destruct (split_exists n (Htwo i n Hd Hnb)) as (b & Hb0 & Hb).
  pose proof (pow2_pos b Hb0) as Hpos.
  destruct (Z.lt_ge_cases i (2 ^ b)) as [Hlt|Hge].
  - destruct (Hleft i n b Hd Hnb Hb0 Hb Hlt) as [Hd' Hs].
    destruct p as [|x p _] using rev_ind.
    { split; [|by intros [? _]%climb_nil_inv].
      unfold accepts; cbn. intros [= E _].
      inversion Hs; subst; lia. }
    rewrite (navLoop_sim upd _ _ _ _ _ _ _ _ _ Hs). split.
    + intros (r' & Ha & ->). eapply (climb_left upd base i n b); [done|done|done| |].
      { specialize (Hrange _ _ Hd). lia. }
      apply (IH (Z.to_nat (2 ^ b))); [lia|lia|done|done].
    + intros (b' & r' & _ & Hb0' & Hb' & Hc)%climb_snoc_inv.
      pose proof (split_unique n b b' Hb0 Hb0' Hb Hb') as <-.
      destruct Hc as [(? & Hc & ->)|(? & Hc & ->)]; [|lia].
      exists r'. split; [|done]. apply (IH (Z.to_nat (2 ^ b))); [lia|lia|done|done].
  - destruct (Hright i n b Hd Hnb Hb0 Hb Hge) as [Hd' Hs].
    destruct p as [|x p _] using rev_ind.
    { split; [|by intros [? _]%climb_nil_inv].
      unfold accepts; cbn. intros [= E _].
      inversion Hs; subst; pose proof (pow2_pos c ltac:(lia)); lia. }
    rewrite (navLoop_sim upd _ _ _ _ _ _ _ _ _ Hs). split.
    + intros (r' & Ha & ->). eapply (climb_right upd base i n b); [done|done|done| |].
      { specialize (Hrange _ _ Hd). lia. }
      apply (IH (Z.to_nat (n - 2 ^ b))); [lia|lia|done|done].
    + intros (b' & r' & _ & Hb0' & Hb' & Hc)%climb_snoc_inv.
      pose proof (split_unique n b b' Hb0 Hb0' Hb Hb') as <-.
      destruct Hc as [(? & Hc & ->)|(? & Hc & ->)]; [lia|].
      exists r'. split; [|done]. apply (IH (Z.to_nat (n - 2 ^ b))); [lia|lia|done|done].
Qed.

(** Inclusion paths start at a leaf. *)
Definition at_leaf (i n : Z) : Prop := n = 1.

Lemma accepts_inclusion i n p a r :
  0 <= i < n → n <= 2 ^ 31 →
  accepts upd p i (n - 1) a r ↔ climb upd at_leaf i n p a r.
Proof.
  intros Hi Hn.
  apply (accepts_climb at_leaf (λ i n, 0 <= i < n ∧ n <= 2 ^ 31) (λ i n, (i, n - 1)));
    unfold at_leaf; [tauto| | | | | |done].
  - intros ? m. destruct (Z.eq_dec m 1); auto.
  - intros j m [Hj _] ->. f_equal; lia.
  - intros. lia.
  - intros j m b [Hj Hm] Hne Hb0 Hb Hlt. cbn. split; [lia|].
    constructor; [done|lia| |lia]. lia.
  - intros j m b [Hj Hm] Hne Hb0 Hb Hge. cbn. split; [lia|].
    replace j with (j - 2 ^ b + 2 ^ b) at 2 by lia.
    replace (m - 1) with (m - 2 ^ b - 1 + 2 ^ b) by lia.
    rewrite (Z.pow_add_r 2 b 1) in Hb by lia. constructor; lia.
Qed.

(** Consistency paths start at the complete subtree that ends the old tree. *)
Definition at_complete (i n : Z) : Prop := i = n - 1 ∧ ∃ c, 0 <= c ∧ n = 2 ^ c.

Lemma shiftOdd_left fuel i c s :
  0 <= c → 0 <= i <= 2 ^ c - 1 → 2 ^ c <= s < 2 ^ (c + 1) → s < 2 ^ 31 →
  sim false (shiftOdd fuel i (2 ^ c - 1)).1 (shiftOdd fuel i (2 ^ c - 1)).2
    (shiftOdd fuel i s).1 (shiftOdd fuel i s).2.
Proof.
  revert i c s. induction fuel as [|fuel IH]; intros i c s Hc Hi Hs H31; cbn [shiftOdd].
  { by constructor. }
  destruct (Z.eqb_spec (Z.rem i 2) 1) as [Ho|]; [|by constructor].
  assert (1 <= c). { apply (pow2_ge_1 c i); lia. }
  pose proof (pow2_succ c ltac:(lia)) as HP. pose proof (pow2_succ (c + 1) ltac:(lia)) as HP1.
  replace (c + 1 - 1) with c in HP1 by lia.
  rewrite !shr1_small by lia. replace ((2 ^ c - 1) / 2) with (2 ^ (c - 1) - 1) by lia.
  apply IH; [lia|lia| |lia]. replace (c - 1 + 1) with c by lia. lia.
Qed.

Lemma shiftOdd_right fuel i c l :
  0 <= c → 0 <= i < l → l < 2 ^ c → l + 2 ^ c < 2 ^ 31 →
  sim true (shiftOdd fuel i l).1 (shiftOdd fuel i l).2
    (shiftOdd fuel (i + 2 ^ c) (l + 2 ^ c)).1 (shiftOdd fuel (i + 2 ^ c) (l + 2 ^ c)).2.
Proof.
  revert i c l. induction fuel as [|fuel IH]; intros i c l Hc Hi Hl H31; cbn [shiftOdd].
  { cbn [fst snd]. constructor; lia. }
  pose proof (pow2_ge_1 c l Hc ltac:(lia)) as Hc1. pose proof (pow2_succ c Hc1) as HP.
  pose proof (pow2_pos (c - 1) ltac:(lia)).
  assert ((Z.rem (i + 2 ^ c) 2 =? 1) = (Z.rem i 2 =? 1)) as -> by lia.
  destruct (Z.eqb_spec (Z.rem i 2) 1) as [Ho|]; [|cbn [fst snd]; constructor; lia].
  rewrite !shr1_small by lia.
  replace ((i + 2 ^ c) / 2) with (i / 2 + 2 ^ (c - 1)) by lia.
  replace ((l + 2 ^ c) / 2) with (l / 2 + 2 ^ (c - 1)) by lia.
  apply IH; lia.
Qed.

Lemma shiftOdd_complete fuel c :
  0 <= c <= Z.of_nat fuel → 2 ^ c <= 2 ^ 31 → shiftOdd fuel (2 ^ c - 1) (2 ^ c - 1) = (0, 0).
Proof.
  revert c. induction fuel as [|fuel IH]; intros c Hc H31.
  { assert (c = 0) as -> by lia. done. }
  cbn [shiftOdd]. destruct (Z.eq_dec c 0) as [->|Hne]; [done|].
  pose proof (pow2_succ c ltac:(lia)) as HP. pose proof (pow2_pos (c - 1) ltac:(lia)).
  destruct (Z.eqb_spec (Z.rem (2 ^ c - 1) 2) 1); [|lia].
  rewrite shr1_small by lia. replace ((2 ^ c - 1) / 2) with (2 ^ (c - 1) - 1) by lia.
  apply IH; lia.
Qed.

Lemma at_complete_dec i n : at_complete i n ∨ ¬ at_complete i n.
Proof.
  destruct (Z.eq_dec i (n - 1)) as [->|]; [|right; by intros [? _]].
  destruct (Z.eq_dec n (2 ^ Z.log2 n)) as [E|E].
  - left. split; [done|]. exists (Z.log2 n). split; [apply Z.log2_nonneg|done].
  - right. intros [_ (c & Hc & ->)]. apply E. by rewrite Z.log2_pow2.
Qed.

Lemma accepts_consistency i n p a r :
  0 <= i < n → n <= 2 ^ 31 → (i < n - 1 ∨ at_complete i n) →
  accepts upd p (shiftOdd 64 i (n - 1)).1 (shiftOdd 64 i (n - 1)).2 a r
  ↔ climb upd at_complete i n p a r.
Proof.
  intros Hi Hn Hc.
  apply (accepts_climb at_complete
    (λ i n, (0 <= i < n ∧ n <= 2 ^ 31) ∧ (i < n - 1 ∨ at_complete i n))
    (λ i n, shiftOdd 64 i (n - 1))); [tauto|apply at_complete_dec| | | | |tauto].
  - intros j m [[Hj Hm] _] (-> & c & Hc0 & ->).
    assert (c <= 31) by (apply (Z.pow_le_mono_r_iff 2); lia).
    apply shiftOdd_complete; lia.
  - intros j m [Hj [?|?]] ?; [lia|done].
  - intros j m b [[Hj Hm] Hd] Hnb Hb0 Hb Hlt. split.
    + split; [lia|]. destruct (Z.eq_dec j (2 ^ b - 1)) as [->|]; [|left; lia].
      right. split; [done|]. by exists b.
    + apply shiftOdd_left; lia.
  - intros j m b [[Hj Hm] [Hd|?]] Hnb Hb0 Hb Hge; [|done]. split; [lia|].
    rewrite (Z.pow_add_r 2 b 1) in Hb by lia.
    replace j with (j - 2 ^ b + 2 ^ b) at 3 4 by lia.
    replace (m - 1) with (m - 2 ^ b - 1 + 2 ^ b) by lia.
    apply shiftOdd_right; lia.
Qed.

End Acceptance.

(** ** Recursion equations of the generators *)

Lemma splitLoop_spec fuel j n :
  0 <= j → 2 ^ j < n → n <= 2 ^ (j + Z.of_nat fuel) →
  ∃ b, 0 <= b ∧ splitLoop fuel (2 ^ j) n = 2 ^ b ∧ 2 ^ b < n <= 2 ^ (b + 1).
Proof.
  revert j. induction fuel as [|fuel IH]; intros j Hj Hlt Hle.
  { rewrite Z.add_0_r in Hle. lia. }
  cbn [splitLoop]. replace (2 ^ j * 2) with (2 ^ (j + 1)) by (rewrite Z.pow_add_r; lia).
  destruct (Z.ltb_spec (2 ^ (j + 1)) n).
  - apply IH; [lia|lia|]. by replace (j + 1 + Z.of_nat fuel) with (j + Z.of_nat (S fuel)) by lia.
  - exists j. repeat split; lia.
Qed.

Lemma splitPoint_spec n :
  2 <= n → ∃ b, 0 <= b ∧ splitPoint n = 2 ^ b ∧ 2 ^ b < n <= 2 ^ (b + 1).
Proof.
  intros Hn. unfold splitPoint. pose proof (Z.log2_spec n ltac:(lia)) as [_ H].
  pose proof (Z.log2_nonneg n). change 1 with (2 ^ 0) at 1.
  apply splitLoop_spec; [lia|cbn; lia|].
  rewrite Nat2Z.inj_succ, Z2Nat.id by lia. rewrite Z.add_0_l. lia.
Qed.

Lemma size_slice_to k l : 0 <= k <= size l → size (slice_to k l) = k.
Proof. unfold size, slice_to. rewrite length_take. lia. Qed.

Lemma size_slice_from k l : 0 <= k <= size l → size (slice_from k l) = size l - k.
Proof. unfold size, slice_from. rewrite length_drop. lia. Qed.

Lemma slice_app k l : slice_to k l ++ slice_from k l = l.
Proof. apply take_drop. Qed.

Lemma merkleRoot_fuel_irrel f g l :
  (length l <= f)%nat → (length l <= g)%nat → merkleRoot_fuel f l = merkleRoot_fuel g l.
Proof.
  revert g l. induction f as [|f IH]; intros g l Hf Hg.
  { destruct l; [by destruct g|cbn in Hf; lia]. }
  destruct l as [|a [|b l]]; [by destruct g|by destruct g|].
  destruct g as [|g]; [cbn in Hg; lia|]. cbn [merkleRoot_fuel].
  set (D := a :: b :: l) in *.
  assert (HD : 2 <= size D) by (unfold size, D; cbn; lia).
  destruct (splitPoint_spec (size D) HD) as (c & Hc & -> & Hb). pose proof (pow2_pos c Hc).
  pose proof (size_slice_to (2 ^ c) D ltac:(lia)). pose proof (size_slice_from (2 ^ c) D ltac:(lia)).
  unfold size in *. f_equal; apply IH; lia.
Qed.

Lemma merkleRoot_one x : merkleRoot [x] = x.
Proof. done. Qed.

Lemma merkleRoot_fuel_S f x y l :
  let D := x :: y :: l in
  merkleRoot_fuel (S f) D = nodeHash (merkleRoot_fuel f (slice_to (splitPoint (size D)) D))
                                     (merkleRoot_fuel f (slice_from (splitPoint (size D)) D)).
Proof. done. Qed.

(** The root of two leaves or more is the node over its two halves. *)
Lemma merkleRoot_eq l b :
  0 <= b → 2 ^ b < size l <= 2 ^ (b + 1) →
  merkleRoot l = nodeHash (merkleRoot (slice_to (2 ^ b) l)) (merkleRoot (slice_from (2 ^ b) l)).
Proof.
  intros Hb0 Hb. pose proof (pow2_pos b Hb0).
  destruct (splitPoint_spec (size l) ltac:(lia)) as (c & Hc & Hk & Hcb).
  pose proof (split_unique _ b c Hb0 Hc Hb Hcb) as <-.
  unfold merkleRoot at 1. destruct l as [|x [|y l]]; [unfold size in Hb; cbn in Hb; lia..|].
  change (length (x :: y :: l)) with (S (S (length l))). rewrite merkleRoot_fuel_S. cbv zeta.
  rewrite Hk. set (D := x :: y :: l) in *.
  pose proof (size_slice_to (2 ^ b) D ltac:(lia)). pose proof (size_slice_from (2 ^ b) D ltac:(lia)).
  assert (length D = S (S (length l))) by done. unfold size in *.
  unfold merkleRoot. f_equal; apply merkleRoot_fuel_irrel; lia.
Qed.

(** ** The verifiers as climbs *)

Definition updInclusion (right : bool) (x h : bytes) : bytes :=
  if right then nodeHash x h else nodeHash h x.
Definition updConsistency (right : bool) (x : bytes) (h : bytes * bytes) : bytes * bytes :=
  if right then (nodeHash x h.1, nodeHash x h.2) else (h.1, nodeHash h.2 x).

Lemma inclusionLoop_nav p fn sn h :
  option_map (λ '(_, s, r), (s, r)) (inclusionLoop p (fn, sn, h)) = navLoop updInclusion p fn sn h.
Proof.
  revert fn sn h. induction p as [|x p IH]; intros fn sn h; [done|].
  cbn [inclusionLoop inclusionStep navLoop]. destruct (sn =? 0); [done|].
  unfold next. fold (side fn sn). destruct (side fn sn); cbn [andb].
  - destruct (if Z.rem fn 2 =? 0 then _ else _) as [f s]. by rewrite IH.
  - by rewrite IH.
Qed.

Lemma consistencyLoop_nav p fn sn o n :
  option_map (λ '(_, s, r, q), (s, (r, q))) (consistencyLoop p (fn, sn, o, n))
  = navLoop updConsistency p fn sn (o, n).
Proof.
  revert fn sn o n. induction p as [|x p IH]; intros fn sn o n; [done|].
  cbn [consistencyLoop consistencyStep navLoop]. destruct (sn =? 0); [done|].
  unfold next. fold (side fn sn). destruct (side fn sn); cbn [andb].
  - destruct (if Z.rem fn 2 =? 0 then _ else _) as [f s]. by rewrite IH.
  - by rewrite IH.
Qed.

Lemma verifyInclusion_climb leaf i n p root :
  0 <= i < n → n <= 2 ^ 31 →
  verifyInclusion leaf i n p root = true ↔ climb updInclusion at_leaf i n p leaf root.
Proof.
  intros Hi Hn. rewrite <- accepts_inclusion by done. unfold verifyInclusion, accepts.
  rewrite <- inclusionLoop_nav. destruct ((i <? 0) || (n <=? i)) eqn:E; [lia|].
  destruct (inclusionLoop p (i, n - 1, leaf)) as [[[f s] h]|]; cbn; [|by split].
  rewrite andb_true_iff, Z.eqb_eq, bool_decide_eq_true. split; [by intros [-> ->]|by intros [= -> ->]].
Qed.

(** ** Generated proofs climb *)

Lemma slice_to_lookup k l i :
  0 <= i < k → slice_to k l !! Z.to_nat i = l !! Z.to_nat i.
Proof. intros H. unfold slice_to. rewrite lookup_take_lt by lia. done. Qed.

Lemma slice_from_lookup k l i :
  0 <= k <= i → slice_from k l !! Z.to_nat (i - k) = l !! Z.to_nat i.
Proof. intros H. unfold slice_from. rewrite lookup_drop. f_equal. lia. Qed.

Lemma slice_to_slice_to k m l : 0 <= k <= m → slice_to k (slice_to m l) = slice_to k l.
Proof. intros H. unfold slice_to. rewrite take_take. f_equal. lia. Qed.

Lemma slice_from_slice_to k m l :
  0 <= k <= m → slice_from k (slice_to m l) = slice_to (m - k) (slice_from k l).
Proof.
  intros H. unfold slice_from, slice_to. rewrite skipn_firstn_comm. f_equal. lia.
Qed.

Lemma slice_to_all l : slice_to (size l) l = l.
Proof. unfold slice_to, size. rewrite Nat2Z.id. by apply take_ge. Qed.

Lemma inclusionProof_climb f D i leaf :
  (length D <= f)%nat → 0 <= i → D !! Z.to_nat i = Some leaf →
  ∃ p, inclusionProof_fuel f D i = Ok p ∧
       climb updInclusion at_leaf i (size D) p leaf (merkleRoot D).
Proof.
  revert D i. induction f as [|f IH]; intros D i Hf Hi Hl.
  { destruct D; [done|cbn in Hf; lia]. }
  pose proof (lookup_lt_Some _ _ _ Hl) as Hlt. cbn [inclusionProof_fuel].
  destruct ((i <? 0) || (size D <=? i)) eqn:E; [unfold size in E; lia|].
  destruct (Z.eqb_spec (size D) 1) as [E1|E1].
  { exists []. split; [done|]. destruct D as [|x [|]]; [done| |unfold size in E1; simpl length in E1; lia].
    assert (i = 0) as -> by (simpl length in Hlt; lia). injection Hl as ->.
    by constructor. }
  assert (HD : 2 <= size D) by (unfold size in *; lia).
  destruct (splitPoint_spec (size D) HD) as (b & Hb0 & -> & Hb). pose proof (pow2_pos b Hb0).
  pose proof (size_slice_to (2 ^ b) D ltac:(lia)) as HT.
  pose proof (size_slice_from (2 ^ b) D ltac:(lia)) as HF.
  rewrite (merkleRoot_eq D b Hb0 Hb).
  destruct (Z.ltb_spec i (2 ^ b)) as [Hlb|Hge].
  - destruct (IH (slice_to (2 ^ b) D) i) as (p & -> & Hc).
    { unfold size in *. lia. } { done. } { by rewrite slice_to_lookup. }
    eexists. split; [done|]. rewrite HT in Hc.
    apply (climb_left updInclusion at_leaf i (size D) b); [done|done|done|lia|done].
  - destruct (IH (slice_from (2 ^ b) D) (i - 2 ^ b)) as (p & -> & Hc).
    { unfold size in *. lia. } { lia. } { by rewrite slice_from_lookup by lia. }
    eexists. split; [done|]. rewrite HF in Hc.
    apply (climb_right updInclusion at_leaf i (size D) b); [done|done|done|lia|done].
Qed.

Definition is_pow2 (m : Z) : Prop := ∃ c, 0 <= c ∧ m = 2 ^ c.

(** What a consistency path proves: the pair of roots it climbs to. *)
Definition consistent_climb (D : list bytes) (m : Z) (p : list bytes) (seed : bytes) : Prop :=
  climb updConsistency at_complete (m - 1) (size D) p (seed, seed)
    (merkleRoot (slice_to m D), merkleRoot D).

(** Both ways of descending. *)
Lemma consistent_climb_left D m b p x seed :
  0 <= b → 2 ^ b < size D <= 2 ^ (b + 1) → 1 <= m <= 2 ^ b → x = merkleRoot (slice_from (2 ^ b) D) →
  consistent_climb (slice_to (2 ^ b) D) m p seed → consistent_climb D m (p ++ [x]) seed.
Proof.
  intros Hb0 Hb Hm -> Hc. unfold consistent_climb in *. pose proof (pow2_pos b Hb0).
  rewrite size_slice_to, slice_to_slice_to in Hc by lia. rewrite (merkleRoot_eq D b Hb0 Hb).
  refine (climb_left updConsistency at_complete (m - 1) (size D) b p _ _ (_, _) _ Hb0 Hb _ Hc); [|lia].
  intros [HE _]. lia.
Qed.

Lemma consistent_climb_right D m b p x seed :
  0 <= b → 2 ^ b < size D <= 2 ^ (b + 1) → 2 ^ b < m < size D → x = merkleRoot (slice_to (2 ^ b) D) →
  consistent_climb (slice_from (2 ^ b) D) (m - 2 ^ b) p seed → consistent_climb D m (p ++ [x]) seed.
Proof.
  intros Hb0 Hb Hm -> Hc. unfold consistent_climb in *. pose proof (pow2_pos b Hb0).
  rewrite size_slice_from in Hc by lia. rewrite (merkleRoot_eq D b Hb0 Hb).
  rewrite (merkleRoot_eq (slice_to m D) b Hb0) by (rewrite size_slice_to; lia).
  rewrite slice_to_slice_to, slice_from_slice_to by lia.
  replace (m - 2 ^ b - 1) with (m - 1 - 2 ^ b) in Hc by lia.
  refine (climb_right updConsistency at_complete (m - 1) (size D) b p _ _ (_, _) _ Hb0 Hb _ Hc); [|lia].
  intros [HE _]. lia.
Qed.

Lemma subProof_false_climb f D m :
  (length D <= f)%nat → 1 <= m <= size D → (m < size D ∨ is_pow2 m) →
  ∃ seed p, subProof_fuel f D m false = Ok (seed :: p) ∧ consistent_climb D m p seed.
Proof.
  revert D m. induction f as [|f IH]; intros D m Hf Hm Hc.
  { unfold size in Hm. lia. }
  cbn [subProof_fuel]. destruct (Z.eqb_spec m (size D)) as [->|Hne].
  { eexists _, []. split; [done|]. unfold consistent_climb. rewrite slice_to_all.
    constructor. split; [done|]. destruct Hc; [lia|done]. }
  assert (Hlt : m < size D) by lia.
  destruct (splitPoint_spec (size D) ltac:(lia)) as (b & Hb0 & -> & Hb). pose proof (pow2_pos b Hb0).
  pose proof (size_slice_to (2 ^ b) D ltac:(lia)) as HT.
  pose proof (size_slice_from (2 ^ b) D ltac:(lia)) as HF.
  destruct (Z.leb_spec m (2 ^ b)) as [Hle|Hgt].
  - destruct (IH (slice_to (2 ^ b) D) m) as (seed & p & -> & Hs).
    { unfold size in *. lia. } { lia. }
    { destruct (Z.eq_dec m (2 ^ b)) as [->|]; [right; by exists b|left; lia]. }
    eexists seed, _. split; [done|]. eapply (consistent_climb_left D m b); [done|done|lia|done|done].
  - destruct (IH (slice_from (2 ^ b) D) (m - 2 ^ b)) as (seed & p & -> & Hs).
    { unfold size in *. lia. } { lia. } { left. lia. }
    eexists seed, _. split; [done|]. eapply (consistent_climb_right D m b); [done|done|lia|done|done].
Qed.

Lemma subProof_true_climb f D m :
  (length D <= f)%nat → 1 <= m <= size D → (m < size D ∨ is_pow2 m) →
  (is_pow2 m → ∃ p, subProof_fuel f D m true = Ok p ∧ consistent_climb D m p (merkleRoot (slice_to m D)))
  ∧ (¬ is_pow2 m → ∃ seed p, subProof_fuel f D m true = Ok (seed :: p) ∧ consistent_climb D m p seed).
Proof.
  revert D m. induction f as [|f IH]; intros D m Hf Hm Hc.
  { unfold size in Hm. lia. }
  cbn [subProof_fuel]. destruct (Z.eqb_spec m (size D)) as [->|Hne].
  { assert (is_pow2 (size D)) as Hp by (destruct Hc; [lia|done]). split; [|done]. intros _.
    eexists []. split; [done|]. unfold consistent_climb. rewrite slice_to_all.
    by constructor. }
  assert (Hlt : m < size D) by lia.
  destruct (splitPoint_spec (size D) ltac:(lia)) as (b & Hb0 & -> & Hb). pose proof (pow2_pos b Hb0).
  pose proof (size_slice_to (2 ^ b) D ltac:(lia)) as HT.
  pose proof (size_slice_from (2 ^ b) D ltac:(lia)) as HF.
  destruct (Z.leb_spec m (2 ^ b)) as [Hle|Hgt].
  - destruct (IH (slice_to (2 ^ b) D) m) as [IHt IHf].
    { unfold size in *. lia. } { lia. }
    { destruct (Z.eq_dec m (2 ^ b)) as [->|]; [right; by exists b|left; lia]. }
    rewrite slice_to_slice_to in IHt by lia. split.
    + intros (p & -> & Hs)%IHt. eexists. split; [done|]. eapply (consistent_climb_left D m b); [done|done|lia|done|done].
    + intros (seed & p & -> & Hs)%IHf. eexists seed, _. split; [done|].
      eapply (consistent_climb_left D m b); [done|done|lia|done|done].
  - split.
    + intros (c & Hc0 & ->). exfalso.
      assert (b < c) by (apply (Z.pow_lt_mono_r_iff 2); lia).
      assert (2 ^ (b + 1) <= 2 ^ c) by (apply Z.pow_le_mono_r; lia). lia.
    + intros _. destruct (subProof_false_climb f (slice_from (2 ^ b) D) (m - 2 ^ b))
        as (seed & p & -> & Hs).
      { unfold size in *. lia. } { lia. } { left. lia. }
      eexists seed, _. split; [done|]. eapply (consistent_climb_right D m b); [done|done|lia|done|done].
Qed.

(** The seed is taken from the proof exactly when the old size is not a power
    of two. *)
Lemma shiftOdd_zero fuel i l :
  0 <= i < 2 ^ 31 → i < 2 ^ Z.of_nat fuel →
  0 <= (shiftOdd fuel i l).1 ∧ ((shiftOdd fuel i l).1 = 0 ↔ is_pow2 (i + 1)).
Proof.
  revert i l. induction fuel as [|fuel IH]; intros i l Hi Hf.
  { change (2 ^ Z.of_nat 0) with 1 in Hf. assert (i = 0) as -> by lia. cbn.
    split; [lia|]. split; [|done]. intros _. by exists 0. }
  rewrite Nat2Z.inj_succ, Z.pow_succ_r in Hf by lia. cbn [shiftOdd].
  destruct (Z.eqb_spec (Z.rem i 2) 1) as [Ho|He].
  - rewrite shr1_small by lia. destruct (IH (i / 2) (shr1 l)) as [H0 H1]; [lia|lia|].
    split; [done|]. rewrite H1. split; intros (c & Hc & E).
    + exists (c + 1). split; [lia|]. rewrite Z.pow_add_r by lia. lia.
    + exists (c - 1). destruct (Z.eq_dec c 0) as [->|]; [cbn in E; lia|].
      rewrite (pow2_succ c) in E by lia. split; lia.
  - cbn [fst]. split; [lia|]. split; [intros ->; by exists 0|].
    intros (c & Hc & E). destruct (Z.eq_dec c 0) as [->|]; [cbn in E; lia|].
    rewrite (pow2_succ c) in E by lia. lia.
Qed.


(** The seed and the path the verifier climbs from. *)
Definition seeded (oldSize : Z) (oldRoot : bytes) (proof : list bytes) (seed : bytes)
    (path : list bytes) : Prop :=
  (is_pow2 oldSize ∧ seed = oldRoot ∧ path = proof) ∨
  (¬ is_pow2 oldSize ∧ proof = seed :: path).

Lemma verifyConsistency_climb m n old new p :
  1 <= m < n → n <= 2 ^ 31 →
  verifyConsistency m old n new p = true ↔
  ∃ seed path, seeded m old p seed path ∧
    climb updConsistency at_complete (m - 1) n path (seed, seed) (old, new).
Proof.
  intros Hm Hn. unfold verifyConsistency.
  destruct ((m <? 1) || (n <? m)) eqn:E; [lia|]. destruct (Z.eqb_spec m n); [lia|].
  destruct (shiftOdd_zero 64 (m - 1) (n - 1)) as [H0 Hz]; [lia..|].
  replace (m - 1 + 1) with m in Hz by lia.
  assert (Hloop : ∀ path h,
    match consistencyLoop path ((shiftOdd 64 (m - 1) (n - 1)).1, (shiftOdd 64 (m - 1) (n - 1)).2, h, h) with
    | None => false
    | Some (_, lastNode, oldHash, newHash) =>
        (lastNode =? 0) && bool_decide (oldHash = old) && bool_decide (newHash = new)
    end = true ↔ climb updConsistency at_complete (m - 1) n path (h, h) (old, new)).
  { intros path h. rewrite <- accepts_consistency by lia. unfold accepts.
    rewrite <- consistencyLoop_nav.
    destruct (consistencyLoop _ _) as [[[[f s] o] q]|]; cbn; [|by split].
    rewrite !andb_true_iff, Z.eqb_eq, !bool_decide_eq_true.
    split; [by intros [[-> ->] ->]|by intros [= -> -> ->]]. }
  unfold seeded. destruct (shiftOdd 64 (m - 1) (n - 1)) as [node last]. cbn [fst snd] in *.
  destruct (Z.ltb_spec 0 node).
  - assert (¬ is_pow2 m) by (intros ?%Hz; lia). destruct p as [|seed path].
    + split; [done|]. by intros (? & ? & [[? _]|[_ ?]] & _).
    + rewrite Hloop. split; [intros; exists seed, path; auto|].
      by intros (? & ? & [[? _]|[_ [= -> ->]]] & ?).
  - assert (is_pow2 m) by (apply Hz; lia). rewrite Hloop.
    split; [intros; exists old, p; auto|]. by intros (? & ? & [(_ & -> & ->)|[? _]] & ?).
Qed.

(** ** Completeness *)

Lemma inclusionProof_accepted D i leaf :
  0 <= i → size D <= 2 ^ 31 → D !! Z.to_nat i = Some leaf →
  ∃ p, inclusionProof D i = Ok p ∧ verifyInclusion leaf i (size D) p (merkleRoot D) = true.
Proof.
  intros Hi Hn Hl. pose proof (lookup_lt_Some _ _ _ Hl).
  destruct (inclusionProof_climb (length D) D i leaf) as (p & Hp & Hc); [done..|].
  exists p. split; [done|]. apply verifyInclusion_climb; [unfold size; lia|done|done].
Qed.

(** C36: The generator answers every index of every log of at most 2^31 leaves
    (the verifier shifts 32-bit integers) with a proof the verifier accepts
    for that leaf, and throws exactly on an index outside the log. *)
Theorem verifyInclusion_complete D i :
  size D <= 2 ^ 31 →
  match inclusionProof D i with
  | Ok p => ∃ leaf, 0 <= i ∧ D !! Z.to_nat i = Some leaf ∧
              verifyInclusion leaf i (size D) p (merkleRoot D) = true
  | Throw e => e = RangeError ∧ (i < 0 ∨ size D <= i)
  end.
Proof.
  intros Hn. destruct (decide (0 <= i < size D)) as [Hi|Hi].
  - destruct (lookup_lt_is_Some_2 D (Z.to_nat i)) as [leaf Hl]; [unfold size in Hi; lia|].
    destruct (inclusionProof_accepted D i leaf) as (p & -> & Hv); [lia|done|done|].
    exists leaf. split_and!; [lia|done|done].
  - unfold inclusionProof. assert ((i <? 0) || (size D <=? i) = true) as E by lia.
    destruct (length D); cbn [inclusionProof_fuel]; rewrite E; split; [done|lia|done|lia].
Qed.

Lemma consistencyProof_accepted D m :
  1 <= m <= size D → size D <= 2 ^ 31 →
  ∃ p, consistencyProof D m = Ok p ∧
    verifyConsistency m (merkleRoot (slice_to m D)) (size D) (merkleRoot D) p = true.
Proof.
  intros Hm Hn. unfold consistencyProof.
  destruct ((m <? 1) || (size D <? m)) eqn:E; [lia|]. destruct (Z.eqb_spec m (size D)) as [->|].
  { exists []. split; [done|]. unfold verifyConsistency. rewrite E, Z.eqb_refl, slice_to_all.
    by rewrite !bool_decide_eq_true_2. }
  destruct (subProof_true_climb (length D) D m) as [Ht Hf]; [done|done|left; lia|].
  destruct (at_complete_dec (m - 1) m) as [[_ Hp]|Hp].
  - destruct (Ht Hp) as (p & Hs & Hc). exists p. split; [done|].
    apply verifyConsistency_climb; [lia|done|]. eexists _, _. split; [left; eauto|done].
  - assert (¬ is_pow2 m) as Hnp by (intros ?; apply Hp; by split).
    destruct (Hf Hnp) as (seed & p & Hs & Hc). exists (seed :: p). split; [done|].
    apply verifyConsistency_climb; [lia|done|]. eexists _, _. split; [right; eauto|done].
Qed.

(** The generator answers every old size of every log of at most 2^31 leaves
    with a proof the verifier accepts for the two roots, and throws exactly on
    a size outside the log. *)
Theorem verifyConsistency_complete D m :
  size D <= 2 ^ 31 →
  match consistencyProof D m with
  | Ok p => 1 <= m <= size D ∧
      verifyConsistency m (merkleRoot (slice_to m D)) (size D) (merkleRoot D) p = true
  | Throw e => e = RangeError ∧ (m < 1 ∨ size D < m)
  end.
Proof.
  intros Hn. destruct (decide (1 <= m <= size D)) as [Hm|Hm].
  - by destruct (consistencyProof_accepted D m) as (p & -> & Hv).
  - unfold consistencyProof. destruct ((m <? 1) || (size D <? m)) eqn:E; [|lia]. split; [done|lia].
Qed.

(** ** Soundness *)

Definition hash_sized (h : bytes) : Prop := length h = 32%nat.

(** The inputs hashed while computing a root. *)
Fixpoint rootPreimages_fuel (fuel : nat) (l : list bytes) : list bytes :=
  match fuel, l with
  | _, [] => [[]]
  | _, [_] => []
  | O, _ => []
  | S fuel, _ =>
      let k := splitPoint (size l) in
      (Byte.x01 :: merkleRoot (slice_to k l) ++ merkleRoot (slice_from k l))
        :: rootPreimages_fuel fuel (slice_to k l) ++ rootPreimages_fuel fuel (slice_from k l)
  end.
Definition rootPreimages (l : list bytes) : list bytes := rootPreimages_fuel (length l) l.

(** The verifier loops with the list of inputs they hash. *)
Definition preInclusion (right : bool) (x h : bytes) : list bytes :=
  if right then [Byte.x01 :: x ++ h] else [Byte.x01 :: h ++ x].
Definition preConsistency (right : bool) (x : bytes) (h : bytes * bytes) : list bytes :=
  if right then [Byte.x01 :: x ++ h.2; Byte.x01 :: x ++ h.1] else [Byte.x01 :: h.2 ++ x].

Definition traced {A} (upd : bool → bytes → A → A) (pre : bool → bytes → A → list bytes)
    (right : bool) (x : bytes) (a : A * list bytes) : A * list bytes :=
  (upd right x a.1, pre right x a.1 ++ a.2).

Definition inclusionPreimages (leaf : bytes) (index treeSize : Z) (proof : list bytes) : list bytes :=
  match navLoop (traced updInclusion preInclusion) proof index (treeSize - 1) (leaf, []) with
  | Some (_, (_, t)) => t
  | None => []
  end.

Definition consistencyPreimages (oldSize newSize : Z) (oldRoot : bytes) (proof : list bytes) : list bytes :=
  let '(node, lastNode) := shiftOdd 64 (oldSize - 1) (newSize - 1) in
  let '(hash, path) :=
    if 0 <? node then (default [] (head proof), tail proof) else (oldRoot, proof) in
  match navLoop (traced updConsistency preConsistency) path node lastNode (hash, hash, []) with
  | Some (_, (_, t)) => t
  | None => []
  end.

Lemma rootPreimages_fuel_irrel f g l :
  (length l <= f)%nat → (length l <= g)%nat → rootPreimages_fuel f l = rootPreimages_fuel g l.
Proof.
  revert g l. induction f as [|f IH]; intros g l Hf Hg.
  { destruct l; [by destruct g|cbn in Hf; lia]. }
  destruct l as [|a [|b l]]; [by destruct g|by destruct g|].
  destruct g as [|g]; [cbn in Hg; lia|]. cbn [rootPreimages_fuel].
  set (D := a :: b :: l) in *.
  assert (HD : 2 <= size D) by (unfold size, D; cbn; lia).
  destruct (splitPoint_spec (size D) HD) as (c & Hc & -> & Hb). pose proof (pow2_pos c Hc).
  pose proof (size_slice_to (2 ^ c) D ltac:(lia)). pose proof (size_slice_from (2 ^ c) D ltac:(lia)).
  unfold size in *. do 2 f_equal; apply IH; lia.
Qed.

Lemma rootPreimages_fuel_S f x y l :
  let D := x :: y :: l in let k := splitPoint (size D) in
  rootPreimages_fuel (S f) D =
    (Byte.x01 :: merkleRoot (slice_to k D) ++ merkleRoot (slice_from k D))
      :: rootPreimages_fuel f (slice_to k D) ++ rootPreimages_fuel f (slice_from k D).
Proof. done. Qed.

Lemma rootPreimages_eq l b :
  0 <= b → 2 ^ b < size l <= 2 ^ (b + 1) →
  rootPreimages l =
    (Byte.x01 :: merkleRoot (slice_to (2 ^ b) l) ++ merkleRoot (slice_from (2 ^ b) l))
      :: rootPreimages (slice_to (2 ^ b) l) ++ rootPreimages (slice_from (2 ^ b) l).
Proof.
  intros Hb0 Hb. pose proof (pow2_pos b Hb0).
  destruct (splitPoint_spec (size l) ltac:(lia)) as (c & Hc & Hk & Hcb).
  pose proof (split_unique _ b c Hb0 Hc Hb Hcb) as <-.
  unfold rootPreimages at 1. destruct l as [|x [|y l]]; [unfold size in Hb; cbn in Hb; lia..|].
  change (length (x :: y :: l)) with (S (S (length l))). rewrite rootPreimages_fuel_S. cbv zeta.
  rewrite Hk. set (D := x :: y :: l) in *.
  pose proof (size_slice_to (2 ^ b) D ltac:(lia)). pose proof (size_slice_from (2 ^ b) D ltac:(lia)).
  assert (length D = S (S (length l))) by done. unfold size in *.
  unfold rootPreimages. do 2 f_equal; apply rootPreimages_fuel_irrel; lia.
Qed.

Lemma nodeHash_sized l r : hash_sized (nodeHash l r).
Proof. apply sha256_length. Qed.

Lemma merkleRoot_sized D : Forall hash_sized D → hash_sized (merkleRoot D).
Proof.
  destruct D as [|x [|y l]]; intros H.
  - apply sha256_length.
  - by inversion H.
  - unfold merkleRoot. change (length (x :: y :: l)) with (S (S (length l))).
    rewrite merkleRoot_fuel_S. apply nodeHash_sized.
Qed.

Lemma slice_sized k D :
  Forall hash_sized D → Forall hash_sized (slice_to k D) ∧ Forall hash_sized (slice_from k D).
Proof. intros. unfold slice_to, slice_from. split; [by apply Forall_take|by apply Forall_drop]. Qed.

(** A node hash that equals the root of a log splits as the log does, unless
    it collides with it. *)
Lemma nodeHash_root D b l r :
  0 <= b → 2 ^ b < size D <= 2 ^ (b + 1) → Forall hash_sized D →
  (hash_sized l ∨ hash_sized r) → nodeHash l r = merkleRoot D →
  (l = merkleRoot (slice_to (2 ^ b) D) ∧ r = merkleRoot (slice_from (2 ^ b) D)) ∨
  collision [Byte.x01 :: l ++ r] (rootPreimages D).
Proof.
  intros Hb0 Hb HD Hs HE. rewrite (merkleRoot_eq D b Hb0 Hb) in HE.
  destruct (slice_sized (2 ^ b) D HD) as [HT%merkleRoot_sized HF%merkleRoot_sized].
  rewrite (rootPreimages_eq D b Hb0 Hb).
  set (L := merkleRoot (slice_to (2 ^ b) D)) in *. set (R := merkleRoot (slice_from (2 ^ b) D)) in *.
  destruct (decide (l ++ r = L ++ R)) as [E|Hne].
  - left. destruct Hs as [Hs|Hs]; [apply app_inj_1 in E|apply app_inj_2 in E];
      unfold hash_sized in *; auto; congruence.
  - right. eexists _, _. split; [by left|]. split; [by left|]. split; [|done]. congruence.
Qed.

Lemma rootPreimages_slices D b :
  0 <= b → 2 ^ b < size D <= 2 ^ (b + 1) →
  rootPreimages (slice_to (2 ^ b) D) ⊆ rootPreimages D ∧
  rootPreimages (slice_from (2 ^ b) D) ⊆ rootPreimages D.
Proof.
  intros Hb0 Hb. rewrite (rootPreimages_eq D b Hb0 Hb).
  split; intros y Hy; right; apply elem_of_app; auto.
Qed.


Lemma climb_inv {A} (upd : bool → bytes → A → A) (P : A → Prop) base i n p a r :
  (∀ right x a, P a → P (upd right x a)) → climb upd base i n p a r → P a → P r.
Proof. intros Hu Hc. induction Hc; auto. Qed.

Lemma collision_app_l xs xs' ys : collision xs' ys → collision (xs ++ xs') ys.
Proof. apply collision_mono; set_solver. Qed.

Lemma collision_head x xs ys : collision [x] ys → collision (x :: xs) ys.
Proof. apply collision_mono; [|done]. intros y ->%list_elem_of_singleton. by left. Qed.

Lemma inclusion_sound i n p a r :
  climb (traced updInclusion preInclusion) at_leaf i n p a r → hash_sized a.1 →
  ∀ D, size D = n → 0 <= i < n → Forall hash_sized D → r.1 = merkleRoot D →
  D !! Z.to_nat i = Some a.1 ∨ collision r.2 (rootPreimages D).
Proof.
  intros Hc Hl. assert (Hsz : ∀ right x (a : bytes * list bytes), hash_sized a.1 →
      hash_sized (traced updInclusion preInclusion right x a).1)
    by (intros [] ???; apply nodeHash_sized).
  induction Hc as [i n a Hb|i n b p x a r ? Hb0 Hb Hi Hc IH|i n b p x a r ? Hb0 Hb Hi Hc IH];
    intros D Hn Hin HD Hr.
  { left. unfold at_leaf in Hb. rewrite Hb in Hn, Hin. unfold size in Hn.
    destruct D as [|y [|]]; simpl length in Hn; try lia.
    assert (i = 0) as -> by lia. cbn. by rewrite Hr. }
  all: subst n; pose proof (pow2_pos b Hb0);
    destruct (rootPreimages_slices D b Hb0 Hb) as [Hs1 Hs2]; destruct (slice_sized (2 ^ b) D HD) as [HT HF];
    pose proof (climb_inv _ (λ a, hash_sized a.1) _ _ _ _ _ _ Hsz Hc Hl) as Hr'.
  - destruct (nodeHash_root D b r.1 x) as [[E1 E2]|Hcol]; [done|done|done|by left|done| |].
    + destruct (IH Hl (slice_to (2 ^ b) D)) as [Hk|Hk]; [rewrite size_slice_to; lia|done|done|done|..].
      * left. by rewrite slice_to_lookup in Hk.
      * right. apply collision_app_l. by eapply collision_mono, Hk.
    + right. by apply collision_head.
  - destruct (nodeHash_root D b x r.1) as [[E1 E2]|Hcol]; [done|done|done|by right|done| |].
    + destruct (IH Hl (slice_from (2 ^ b) D)) as [Hk|Hk]; [rewrite size_slice_from; lia|lia|done|done|..].
      * left. by rewrite slice_from_lookup in Hk by lia.
      * right. apply collision_app_l. by eapply collision_mono, Hk.
    + right. by apply collision_head.
Qed.

Lemma consistency_sound i n p a r :
  climb (traced updConsistency preConsistency) at_complete i n p a r → hash_sized a.1.2 → a.1.1 = a.1.2 →
  ∀ D, size D = n → 0 <= i < n → Forall hash_sized D → r.1.2 = merkleRoot D →
  r.1.1 = merkleRoot (slice_to (i + 1) D) ∨ collision r.2 (rootPreimages D).
Proof.
  intros Hc Hl Heq. assert (Hsz : ∀ right x (a : bytes * bytes * list bytes), hash_sized a.1.2 →
      hash_sized (traced updConsistency preConsistency right x a).1.2)
    by (intros [] ???; apply nodeHash_sized).
  induction Hc as [i n a [-> _]|i n b p x a r ? Hb0 Hb Hi Hc IH|i n b p x a r ? Hb0 Hb Hi Hc IH];
    intros D Hn Hin HD Hr.
  { left. replace (n - 1 + 1) with (size D) by lia. by rewrite slice_to_all, Heq. }
  all: subst n; pose proof (pow2_pos b Hb0);
    destruct (rootPreimages_slices D b Hb0 Hb) as [Hs1 Hs2]; destruct (slice_sized (2 ^ b) D HD) as [HT HF];
    pose proof (climb_inv _ (λ a, hash_sized a.1.2) _ _ _ _ _ _ Hsz Hc Hl) as Hr'.
  - destruct (nodeHash_root D b r.1.2 x) as [[E1 E2]|Hcol]; [done|done|done|by left|done| |].
    + destruct (IH Hl Heq (slice_to (2 ^ b) D)) as [Hk|Hk]; [rewrite size_slice_to; lia|done|done|done|..].
      * left. rewrite slice_to_slice_to in Hk by lia. done.
      * right. apply collision_app_l. by eapply collision_mono, Hk.
    + right. by apply collision_head.
  - destruct (nodeHash_root D b x r.1.2) as [[E1 E2]|Hcol]; [done|done|done|by right|done| |].
    + destruct (IH Hl Heq (slice_from (2 ^ b) D)) as [Hk|Hk]; [rewrite size_slice_from; lia|lia|done|done|..].
      * left. cbn. rewrite (merkleRoot_eq (slice_to (i + 1) D) b Hb0) by (rewrite size_slice_to; lia).
        rewrite slice_to_slice_to, slice_from_slice_to by lia. rewrite <- E1, Hk.
        do 3 f_equal. lia.
      * right. apply collision_app_l. by eapply collision_mono, Hk.
    + right. by apply collision_head.
Qed.

(** Tracing does not change a run. *)
Lemma navLoop_traced {A} (upd : bool → bytes → A → A) pre p fn sn a t :
  option_map (λ r, (r.1, r.2.1)) (navLoop (traced upd pre) p fn sn (a, t)) = navLoop upd p fn sn a.
Proof.
  revert fn sn a t. induction p as [|x p IH]; intros fn sn a t; [done|]. cbn [navLoop].
  destruct (sn =? 0); [done|]. unfold traced at 2. cbn [fst snd]. apply IH.
Qed.

Lemma accepts_traced {A} (upd : bool → bytes → A → A) pre p fn sn a r :
  accepts upd p fn sn a r →
  ∃ t, accepts (traced upd pre) p fn sn (a, []) (r, t).
Proof.
  unfold accepts. rewrite <- (navLoop_traced upd pre p fn sn a []).
  destruct (navLoop _ _ _ _ _) as [[s [r' t]]|]; [|done]. cbn. intros [= -> ->]. by exists t.
Qed.

(** C11: An accepted inclusion proof shows the leaf is the log's leaf at that
    index, or exhibits two inputs, one hashed by the verifier and one by the
    log, with the same digest. *)
Theorem verifyInclusion_sound D i leaf p :
  size D <= 2 ^ 31 → Forall hash_sized D → hash_sized leaf →
  verifyInclusion leaf i (size D) p (merkleRoot D) = true →
  D !! Z.to_nat i = Some leaf ∨
  collision (inclusionPreimages leaf i (size D) p) (rootPreimages D).
Proof.
  intros Hn HD Hl Hv. destruct ((i <? 0) || (size D <=? i)) eqn:E.
  { unfold verifyInclusion in Hv. by rewrite E in Hv. }
  apply verifyInclusion_climb in Hv; [|lia|done].
  apply accepts_inclusion, (accepts_traced _ preInclusion) in Hv as (t & Ht); [|lia|done].
  assert (inclusionPreimages leaf i (size D) p = t) as ->.
  { unfold inclusionPreimages. unfold accepts in Ht. by rewrite Ht. }
  apply accepts_inclusion in Ht; [|lia|done].
  by apply (inclusion_sound _ _ _ _ _ Ht); [|lia|lia| |].
Qed.

(** C12: An accepted consistency proof whose nodes are digests shows that the old
    root is the root of the log's first leaves, or exhibits two inputs, one
    hashed by the verifier and one by the log, with the same digest. *)
Theorem verifyConsistency_sound D m old p :
  size D <= 2 ^ 31 → Forall hash_sized D → Forall hash_sized p → hash_sized old →
  verifyConsistency m old (size D) (merkleRoot D) p = true →
  old = merkleRoot (slice_to m D) ∨
  collision (consistencyPreimages m (size D) old p) (rootPreimages D).
Proof.
  intros Hn HD Hp Ho Hv. destruct (decide (1 <= m < size D)) as [Hm|Hm]; last first.
  { left. unfold verifyConsistency in Hv.
    destruct ((m <? 1) || (size D <? m)) eqn:E; [done|]. assert (m = size D) as -> by lia.
    rewrite Z.eqb_refl, andb_true_iff, !bool_decide_eq_true in Hv. rewrite slice_to_all. tauto. }
  apply verifyConsistency_climb in Hv as (seed & path & Hs & Hc); [|done..].
  assert (Hsz : hash_sized seed).
  { destruct Hs as [(_ & -> & _)|(_ & ->)]; [done|]. by inversion Hp. }
  apply accepts_consistency, (accepts_traced _ preConsistency) in Hc as (t & Ht); [|lia..].
  assert (consistencyPreimages m (size D) old p = t) as ->.
  { unfold consistencyPreimages. destruct (shiftOdd_zero 64 (m - 1) (size D - 1)) as [H0 Hz]; [lia..|].
    replace (m - 1 + 1) with m in Hz by lia. unfold accepts in Ht.
    destruct (shiftOdd 64 (m - 1) (size D - 1)) as [node last]. cbn [fst snd] in *.
    destruct (Z.ltb_spec 0 node).
    - destruct Hs as [(?%Hz & _)|(_ & ->)]; [lia|]. cbn. by rewrite Ht.
    - destruct Hs as [(_ & -> & ->)|(Hnp & _)]; [by rewrite Ht|]. destruct Hnp. apply Hz. lia. }
  apply accepts_consistency in Ht; [|lia..].
  replace m with (m - 1 + 1) by lia.
  by apply (consistency_sound _ _ _ _ _ Ht); [| |lia|lia| |].
Qed.

End MerkleLog.

(** ** Evaluations *)

Definition leafOf (b : Byte.byte) : bytes := repeat b 32.
Definition log4 : list bytes := [leafOf Byte.x0a; leafOf Byte.x0b; leafOf Byte.x0c; leafOf Byte.x0d].

Lemma log4_sized : Forall hash_sized log4.
Proof. by repeat constructor. Qed.

(** The verifier compares digests and never lengths, so a proof whose seed is
    33 bytes, moving one byte of the last leaf into the old subtree, is accepted
    for a root that the three-leaf log never had. *)
Example verifyConsistency_oversized_seed :
  let seed := leafOf Byte.x0c ++ [Byte.x0d] in
  let left := @merkleRoot fips_sha256 (slice_to 2 log4) in
  let forged := @nodeHash fips_sha256 left seed in
  @verifyConsistency fips_sha256 3 forged 4 (@merkleRoot fips_sha256 log4)
    [seed; repeat Byte.x0d 31; left] = true
  ∧ forged ≠ @merkleRoot fips_sha256 (slice_to 3 log4).
Proof. vm_compute. split; [reflexivity|discriminate]. Qed.

Lemma verifyInclusion_complete_witness :
  match @inclusionProof fips_sha256 log4 2 with
  | Ok p => ∃ leaf, 0 <= 2 ∧ log4 !! 2%nat = Some leaf ∧
              @verifyInclusion fips_sha256 leaf 2 4 p (@merkleRoot fips_sha256 log4) = true
  | Throw e => e = RangeError ∧ (2 < 0 ∨ 4 <= 2)
  end.
Proof. apply (@verifyInclusion_complete fips_sha256 log4 2). by vm_compute. Defined.

Lemma verifyConsistency_complete_witness :
  match @consistencyProof fips_sha256 log4 3 with
  | Ok p => 1 <= 3 <= 4 ∧
      @verifyConsistency fips_sha256 3 (@merkleRoot fips_sha256 (slice_to 3 log4)) 4
        (@merkleRoot fips_sha256 log4) p = true
  | Throw e => e = RangeError ∧ (3 < 1 ∨ 4 < 3)
  end.
Proof. apply (@verifyConsistency_complete fips_sha256 log4 3). by vm_compute. Defined.

(** The sibling path of the third leaf of [log4]. *)
Definition path3 : list bytes := [leafOf Byte.x0d; @merkleRoot fips_sha256 (slice_to 2 log4)].

Lemma verifyInclusion_sound_witness :
  log4 !! 2%nat = Some (leafOf Byte.x0c) ∨
  @collision fips_sha256 (@inclusionPreimages fips_sha256 (leafOf Byte.x0c) 2 4 path3)
    (@rootPreimages fips_sha256 log4).
Proof.
  apply (@verifyInclusion_sound fips_sha256 log4 2 (leafOf Byte.x0c) path3);
    [by vm_compute|exact log4_sized|reflexivity|by vm_compute].
Defined.

Lemma verifyConsistency_sound_witness :
  @merkleRoot fips_sha256 (slice_to 3 log4) = @merkleRoot fips_sha256 (slice_to 3 log4) ∨
  @collision fips_sha256
    (@consistencyPreimages fips_sha256 3 4 (@merkleRoot fips_sha256 (slice_to 3 log4))
       (leafOf Byte.x0c :: path3)) (@rootPreimages fips_sha256 log4).
Proof.
  apply (@verifyConsistency_sound fips_sha256 log4 3
           (@merkleRoot fips_sha256 (slice_to 3 log4)) (leafOf Byte.x0c :: path3));
    [by vm_compute|exact log4_sized|by repeat constructor|by apply sha256_length|by vm_compute].
Defined.
