(* ===== verification/Hashes.v ===== *)
(** * Domain-separated hashes ([src/production/delivery/hashes.ts])

    Length-prefixed canonical encodings, envelope leaf hashes, the log-head
    hash chain and the delivery checkpoint digest, over the [Sha256]
    interface.  The compute functions take the [unknown] object their callers
    pass and re-parse it, as the source does. *)

From stdpp Require Import base list strings.
From Stdlib Require Import ZArith Lia Ascii.
From S2P Require Import Prelude Sha256 Base64Url JsTime JsValue ValueObjects.

Definition ENVELOPE_LEAF_HASH_DOMAIN : string := "jb-msg-envelope-leaf/v1".
Definition LOG_HEAD_HASH_DOMAIN : string := "jb-msg-log-head/v1".
Definition DELIVERY_LOG_CHECKPOINT_DIGEST_DOMAIN : string := "jb-msg-delivery-log-checkpoint/v1".
Definition EXTERNAL_PROPOSAL_HASH_DOMAIN : string := "jb-msg-external-proposal/v1".
Definition U32_MAX : Z := 4294967295.

Record EnvelopeLeafInput := {
  leaf_conversationId : ConversationId;
  leaf_position : Uint63String;
  leaf_envelopeId : EnvelopeId;
  leaf_envelopeClass : EnvelopeClass;
  leaf_sender : EnvelopeSender;
  leaf_epoch : Uint63String;
  leaf_rosterVersion : Uint63String;
  leaf_contentType : EnvelopeContentType;
  leaf_envelopeSha256 : Hash32;
  leaf_receivedAt : Rfc3339Millis;
}.

Record DeliveryLogCheckpointInput := {
  ckpt_conversationId : ConversationId;
  ckpt_position : Uint63String;
  ckpt_previousHeadHash : Hash32;
  ckpt_headHash : Hash32;
  ckpt_signingKeyId : SigningKeyId;
}.

(** ** Byte encodings *)

Definition encodeU32Be (value : Z) : result bytes :=
  throw_if ((value <? 0) || (U32_MAX <? value)) DeliveryValidationError;;
  Ok [byte_of_Z (Z.land (Z.shiftr value 24) 255); byte_of_Z (Z.land (Z.shiftr value 16) 255);
      byte_of_Z (Z.land (Z.shiftr value 8) 255); byte_of_Z (Z.land value 255)].

Definition byteLength (bs : bytes) : Z := Z.of_nat (length bs).

Definition concatenateBytes (values : list bytes) : result bytes :=
  copies ← mapR (λ value, copyBytes (VBytes value) U32_MAX) values;
  let totalLength := foldl (λ total value, total + byteLength value) 0 copies in
  throw_if (negb (isSafeInteger (NInt totalLength)) || (U32_MAX <? totalLength))
    DeliveryValidationError;;
  Ok (concat copies).

(** [copyBytes] with its default bound. *)
Definition ownBytes (value : bytes) : result bytes :=
  copyBytes (VBytes value) DEFAULT_MAX_BASE64URL_BYTES.

(** The local [utf8] helper: encode, then copy. *)
Definition utf8Bytes (value : string) : result bytes := ownBytes (utf8 value).

Definition lengthPrefix (value : bytes) : result bytes :=
  bytes ← ownBytes value;
  prefix ← encodeU32Be (byteLength bytes);
  concatenateBytes [prefix; bytes].

Definition canonicalLengthPrefixed (values : list bytes) : result bytes :=
  prefixed ← mapR lengthPrefix values;
  concatenateBytes prefixed.

(** ** Envelope leaves *)

Definition requireClassSenderAndMediaType (envelopeClass : EnvelopeClass)
    (sender : EnvelopeSender) (contentType : EnvelopeContentType) : result unit :=
  if envelopeClass === external_proposal then
    throw_if ((sender_type sender !== "entitlement_signer") || (contentType !== mls_public_message))
      DeliveryValidationError
  else if envelopeClass === mls_commit then
    throw_if ((sender_type sender !== "installation") || (contentType !== mls_public_message))
      DeliveryValidationError
  else
    throw_if ((sender_type sender !== "installation") || (contentType !== mls_private_message))
      DeliveryValidationError.

Definition parseEnvelopeLeafInput (value : unknown) : result EnvelopeLeafInput :=
  record ← expectExactRecord value
    ["conversationId"; "position"; "envelopeId"; "envelopeClass"; "sender"; "epoch";
     "rosterVersion"; "contentType"; "envelopeSha256"; "receivedAt"];
  envelopeClass ← parseEnvelopeClass record.["envelopeClass"];
  contentType ← parseEnvelopeContentType record.["contentType"];
  sender ← parseEnvelopeSender record.["sender"];
  requireClassSenderAndMediaType envelopeClass sender contentType;;
  conversationId ← parseConversationId record.["conversationId"];
  position ← parsePositiveUint63String record.["position"];
  envelopeId ← parseEnvelopeId record.["envelopeId"];
  epoch ← parseUint63String record.["epoch"];
  rosterVersion ← parseUint63String record.["rosterVersion"];
  envelopeSha256 ← parseHash32 record.["envelopeSha256"];
  receivedAt ← parseRfc3339Millis record.["receivedAt"];
  Ok {| leaf_conversationId := conversationId; leaf_position := position;
        leaf_envelopeId := envelopeId; leaf_envelopeClass := envelopeClass;
        leaf_sender := sender; leaf_epoch := epoch; leaf_rosterVersion := rosterVersion;
        leaf_contentType := contentType; leaf_envelopeSha256 := envelopeSha256;
        leaf_receivedAt := receivedAt |}.

(** The object a parsed leaf input is. *)
Definition leaf_obj (l : EnvelopeLeafInput) : unknown :=
  obj [("conversationId", VString (leaf_conversationId l)); ("position", VString (leaf_position l));
       ("envelopeId", VString (leaf_envelopeId l));
       ("envelopeClass", VString (envelopeClass_string (leaf_envelopeClass l)));
       ("sender", sender_obj (leaf_sender l)); ("epoch", VString (leaf_epoch l));
       ("rosterVersion", VString (leaf_rosterVersion l));
       ("contentType", VString (contentType_string (leaf_contentType l)));
       ("envelopeSha256", VString (leaf_envelopeSha256 l));
       ("receivedAt", VString (leaf_receivedAt l))].

Definition encodeEntitlementSignerFields (credentialId : CredentialId)
    (fingerprint : Fingerprint32) (signerGeneration : Uint63String) : result bytes :=
  c ← parseCredentialId (VString credentialId); c' ← utf8Bytes c;
  f ← decodeFingerprint32 fingerprint;
  g ← parsePositiveUint63String (VString signerGeneration); g' ← utf8Bytes g;
  canonicalLengthPrefixed [c'; f; g'].

Definition encodeEnvelopeSenderFields (sender : EnvelopeSender) : result bytes :=
  parsed ← parseEnvelopeSender (sender_obj sender);
  match parsed with
  | InstallationSender accountId installationId =>
      a ← utf8Bytes accountId; i ← utf8Bytes installationId;
      canonicalLengthPrefixed [a; i]
  | EntitlementSignerSender credentialId fingerprint signerGeneration =>
      encodeEntitlementSignerFields credentialId fingerprint signerGeneration
  end.

Section Hashes.
Context `{SHA : Sha256}.

Definition sha256Bytes (values : list bytes) : result Hash32 :=
  copies ← mapR ownBytes values;
  parseHash32 (VString (base64url_encode (sha256 (concat copies)))).

Definition computeEnvelopeSha256 (envelopeBytes : bytes) : result Hash32 :=
  copy ← ownBytes envelopeBytes; sha256Bytes [copy].

Definition computeEnvelopeLeafHash (input : unknown) : result Hash32 :=
  parsed ← parseEnvelopeLeafInput input;
  domain ← utf8Bytes ENVELOPE_LEAF_HASH_DOMAIN;
  conversationId ← utf8Bytes (leaf_conversationId parsed);
  position ← utf8Bytes (leaf_position parsed);
  envelopeId ← utf8Bytes (leaf_envelopeId parsed);
  envelopeClass ← utf8Bytes (envelopeClass_string (leaf_envelopeClass parsed));
  senderType ← utf8Bytes (sender_type (leaf_sender parsed));
  senderFields ← encodeEnvelopeSenderFields (leaf_sender parsed);
  epoch ← utf8Bytes (leaf_epoch parsed);
  rosterVersion ← utf8Bytes (leaf_rosterVersion parsed);
  contentType ← utf8Bytes (contentType_string (leaf_contentType parsed));
  envelopeSha256 ← decodeHash32 (leaf_envelopeSha256 parsed);
  receivedAt ← utf8Bytes (leaf_receivedAt parsed);
  body ← canonicalLengthPrefixed
    [conversationId; position; envelopeId; envelopeClass; senderType; senderFields; epoch;
     rosterVersion; contentType; envelopeSha256; receivedAt];
  sha256Bytes [domain; body].

Definition computeExternalProposalHash (publicMessage : bytes)
    (authorizationRecordHash : Hash32) : result Hash32 :=
  domain ← utf8Bytes EXTERNAL_PROPOSAL_HASH_DOMAIN;
  message ← ownBytes publicMessage;
  prefixed ← lengthPrefix message;
  hash ← parseHash32 (VString authorizationRecordHash);
  raw ← decodeHash32 hash;
  sha256Bytes [domain; prefixed; raw].

(** ** Log heads and checkpoints *)

Definition computeLogHeadHash (previousHeadHash leafHash : Hash32) : result Hash32 :=
  previous ← parseHash32 (VString previousHeadHash);
  leaf ← parseHash32 (VString leafHash);
  domain ← utf8Bytes LOG_HEAD_HASH_DOMAIN;
  previousRaw ← decodeHash32 previous;
  leafRaw ← decodeHash32 leaf;
  sha256Bytes [domain; previousRaw; leafRaw].

Definition parseDeliveryLogCheckpointInput (value : unknown) : result DeliveryLogCheckpointInput :=
  record ← expectExactRecord value
    ["conversationId"; "position"; "previousHeadHash"; "headHash"; "signingKeyId"];
  conversationId ← parseConversationId record.["conversationId"];
  position ← parsePositiveUint63String record.["position"];
  previousHeadHash ← parseHash32 record.["previousHeadHash"];
  headHash ← parseHash32 record.["headHash"];
  signingKeyId ← parseSigningKeyId record.["signingKeyId"];
  throw_if ((position === "1") && (previousHeadHash !== ZERO_HASH32)) DeliveryValidationError;;
  throw_if ((position !== "1") && (previousHeadHash === ZERO_HASH32)) DeliveryValidationError;;
  Ok {| ckpt_conversationId := conversationId; ckpt_position := position;
        ckpt_previousHeadHash := previousHeadHash; ckpt_headHash := headHash;
        ckpt_signingKeyId := signingKeyId |}.

Definition computeDeliveryLogCheckpointDigest (input : unknown) : result Hash32 :=
  parsed ← parseDeliveryLogCheckpointInput input;
  domain ← utf8Bytes DELIVERY_LOG_CHECKPOINT_DIGEST_DOMAIN;
  conversationId ← utf8Bytes (ckpt_conversationId parsed);
  position ← utf8Bytes (ckpt_position parsed);
  previousHeadHash ← decodeHash32 (ckpt_previousHeadHash parsed);
  headHash ← decodeHash32 (ckpt_headHash parsed);
  signingKeyId ← utf8Bytes (ckpt_signingKeyId parsed);
  body ← canonicalLengthPrefixed
    [conversationId; position; previousHeadHash; headHash; signingKeyId];
  sha256Bytes [domain; body].

End Hashes.

(** ** The encodings as functions *)

(** [u32be] and a length-prefixed item, without the bound checks. *)
Definition u32be (n : Z) : bytes :=
  [byte_of_Z (Z.land (Z.shiftr n 24) 255); byte_of_Z (Z.land (Z.shiftr n 16) 255);
   byte_of_Z (Z.land (Z.shiftr n 8) 255); byte_of_Z (Z.land n 255)].
Definition lp (bs : bytes) : bytes := u32be (byteLength bs) ++ bs.
Definition lps (items : list bytes) : bytes := concat (map lp items).

Definition be32 (bs : bytes) : Z := foldl (λ acc b, acc * 256 + Z_of_byte b) 0 bs.

Lemma be32_u32be n : 0 <= n <= U32_MAX → be32 (u32be n) = n.
Proof.
  unfold U32_MAX. intros H. unfold be32, u32be. cbn [foldl]. rewrite !Z_of_byte_of_Z.
  rewrite !(land_ones_mod _ 8 255) by done. rewrite !Z.shiftr_div_pow2 by lia.
  change (2 ^ 8) with 256. change (2 ^ 16) with 65536. change (2 ^ 24) with 16777216.
  rewrite !Z.mod_mod by lia.
  pose proof (Z.div_mod n 256 ltac:(lia)). pose proof (Z.div_mod (n / 256) 256 ltac:(lia)).
  pose proof (Z.div_mod (n / 65536) 256 ltac:(lia)).
  replace (n / 65536) with (n / 256 / 256) in * by (rewrite Z.div_div; [done|lia..]).
  replace (n / 16777216) with (n / 256 / 256 / 256) in * by (rewrite !Z.div_div; [done|lia..]).
  rewrite (Z.mod_small (n / 256 / 256 / 256) 256).
  2:{ rewrite !Z.div_div by lia. split; [apply Z.div_pos; lia|].
      apply Z.div_lt_upper_bound; lia. }
  lia.
Qed.

Definition fits (bound : Z) (bs : bytes) : Prop := byteLength bs <= bound.

Lemma ownBytes_eq bs : fits DEFAULT_MAX_BASE64URL_BYTES bs → ownBytes bs = Ok bs.
Proof.
  unfold fits, ownBytes, copyBytes. intros H.
  change ((_ <? 0) || (_ <? _)) with false. cbn [throw_if mbind result_bind].
  destruct (Z.ltb_spec DEFAULT_MAX_BASE64URL_BYTES (Z.of_nat (length bs))); [|done].
  unfold byteLength in H. lia.
Qed.

Lemma copyBytes_inv bs m b : copyBytes (VBytes bs) m = Ok b → b = bs ∧ fits m bs.
Proof.
  unfold copyBytes, fits, byteLength. intros H. inv_result. subst. split; [done|lia].
Qed.

Lemma ownBytes_inv bs b : ownBytes bs = Ok b → b = bs ∧ fits DEFAULT_MAX_BASE64URL_BYTES bs.
Proof. apply copyBytes_inv. Qed.

Lemma mapR_copyBytes_inv m bs b :
  mapR (λ v, copyBytes (VBytes v) m) bs = Ok b → b = bs ∧ Forall (fits m) bs.
Proof.
  intros H%mapR_Ok. induction H as [|x y bs b [-> Hf]%copyBytes_inv _ [-> IH]]; auto.
Qed.

Lemma total_concat l z :
  foldl (λ total value, total + byteLength value) z l = z + byteLength (concat l).
Proof.
  revert z. induction l as [|x l IH]; intros z; cbn; [unfold byteLength; cbn; lia|].
  rewrite IH. unfold byteLength. rewrite length_app. lia.
Qed.

Lemma concatenateBytes_inv l b : concatenateBytes l = Ok b → b = concat l ∧ fits U32_MAX b.
Proof.
  unfold concatenateBytes. intros H. inv_result. subst. apply mapR_copyBytes_inv in Hx as [-> _].
  rewrite total_concat in Hx0. split_orb. split; [done|]. unfold fits. lia.
Qed.

Lemma concat_fits m l x : fits m (concat l) → x ∈ l → fits m x.
Proof.
  unfold fits, byteLength. intros H Hin. induction Hin as [x l|x y l _ IH]; cbn in H;
    rewrite length_app in H; [lia|]. apply IH. lia.
Qed.

Lemma concatenateBytes_eq l : fits U32_MAX (concat l) → concatenateBytes l = Ok (concat l).
Proof.
  intros H. unfold concatenateBytes.
  rewrite (mapR_map _ id), map_id; last first.
  { apply Forall_forall. intros x Hx. unfold copyBytes.
    change ((_ <? 0) || (_ <? _)) with false. cbn [throw_if mbind result_bind].
    pose proof (concat_fits _ _ _ H Hx) as Hf. unfold fits, byteLength in Hf.
    destruct (Z.ltb_spec U32_MAX (Z.of_nat (length x))); [lia|done]. }
  cbn [mbind result_bind]. rewrite total_concat. unfold fits, U32_MAX in *.
  assert (Hs : isSafeInteger (NInt (0 + byteLength (concat l))) = true).
  { unfold isSafeInteger, MAX_SAFE_INTEGER, byteLength in *. lia. }
  rewrite Hs. destruct (Z.ltb_spec 4294967295 (0 + byteLength (concat l))); [lia|done].
Qed.

Lemma byteLength_app a b : byteLength (a ++ b) = byteLength a + byteLength b.
Proof. unfold byteLength. rewrite length_app. lia. Qed.

Lemma byteLength_nonneg bs : 0 <= byteLength bs.
Proof. unfold byteLength. lia. Qed.

Lemma encodeU32Be_eq n : 0 <= n <= U32_MAX → encodeU32Be n = Ok (u32be n).
Proof. intros H. unfold encodeU32Be. destruct ((n <? 0) || (U32_MAX <? n)) eqn:E; [lia|done]. Qed.

Lemma lengthPrefix_inv v b :
  lengthPrefix v = Ok b → b = lp v ∧ fits DEFAULT_MAX_BASE64URL_BYTES v.
Proof.
  unfold lengthPrefix. intros H. inv_result. apply ownBytes_inv in Hx as [-> Hf].
  pose proof (byteLength_nonneg v). rewrite encodeU32Be_eq in Hx0.
  2:{ unfold fits, DEFAULT_MAX_BASE64URL_BYTES, U32_MAX in *. lia. }
  injection Hx0 as <-. apply concatenateBytes_inv in H as [-> _]. cbn [concat].
  by rewrite app_nil_r.
Qed.

Lemma lengthPrefix_eq v : fits DEFAULT_MAX_BASE64URL_BYTES v → lengthPrefix v = Ok (lp v).
Proof.
  intros Hf. unfold lengthPrefix. rewrite ownBytes_eq by done. cbn [mbind result_bind].
  pose proof (byteLength_nonneg v). unfold fits, DEFAULT_MAX_BASE64URL_BYTES in Hf.
  rewrite encodeU32Be_eq by (unfold U32_MAX; lia). cbn [mbind result_bind].
  rewrite concatenateBytes_eq; cbn [concat]; rewrite app_nil_r; [done|].
  unfold fits, byteLength, U32_MAX in *. rewrite length_app. simpl length. lia.
Qed.

Lemma canonicalLengthPrefixed_inv vs b :
  canonicalLengthPrefixed vs = Ok b →
  b = lps vs ∧ Forall (fits DEFAULT_MAX_BASE64URL_BYTES) vs.
Proof.
  unfold canonicalLengthPrefixed. intros H. inv_result. apply concatenateBytes_inv in H as [-> _].
  apply mapR_Ok in Hx. unfold lps.
  induction Hx as [|v w vs ws [-> Hf]%lengthPrefix_inv _ [E IH]]; [done|]. cbn. by rewrite E; auto.
Qed.

Lemma canonicalLengthPrefixed_eq vs :
  Forall (fits DEFAULT_MAX_BASE64URL_BYTES) vs → fits U32_MAX (lps vs) →
  canonicalLengthPrefixed vs = Ok (lps vs).
Proof.
  intros Hv Hl. unfold canonicalLengthPrefixed. rewrite (mapR_map _ lp).
  2:{ eapply Forall_impl; [exact Hv|]. apply lengthPrefix_eq. }
  cbn [mbind result_bind]. by apply concatenateBytes_eq.
Qed.

Lemma lp_app_inj x y s t :
  fits U32_MAX x → fits U32_MAX y → lp x ++ s = lp y ++ t → x = y ∧ s = t.
Proof.
  unfold fits. intros Hx Hy H. unfold lp in H. rewrite <- !app_assoc in H.
  pose proof (byteLength_nonneg x). pose proof (byteLength_nonneg y).
  apply app_inj_1 in H as [E H]; [|done].
  apply (f_equal be32) in E. rewrite !be32_u32be in E by lia.
  apply app_inj_1 in H; [done|]. unfold byteLength in E. lia.
Qed.

Lemma lps_inj xs ys :
  Forall (fits U32_MAX) xs → Forall (fits U32_MAX) ys → lps xs = lps ys → xs = ys.
Proof.
  intros Hx. revert ys. induction Hx as [|x xs Hx _ IH]; intros ys Hy H.
  - destruct ys; [done|discriminate H].
  - destruct Hy as [|y ys Hy Hys]; [discriminate H|]. cbn in H.
    apply lp_app_inj in H as [-> H]; [|done..]. f_equal. by apply IH.
Qed.

Lemma fits_u32 l : Forall (fits DEFAULT_MAX_BASE64URL_BYTES) l → Forall (fits U32_MAX) l.
Proof.
  intros H. eapply Forall_impl; [exact H|]. intros x. unfold fits, U32_MAX, DEFAULT_MAX_BASE64URL_BYTES. lia.
Qed.

(** Length prefixing is injective on lists of byte strings: no two field lists
    share an encoding. *)
Theorem canonicalLengthPrefixed_injective xs ys b :
  canonicalLengthPrefixed xs = Ok b → canonicalLengthPrefixed ys = Ok b → xs = ys.
Proof.
  intros [-> Hx%fits_u32]%canonicalLengthPrefixed_inv [E Hy%fits_u32]%canonicalLengthPrefixed_inv.
  by apply lps_inj.
Qed.

(** ** Strings as bytes *)

Definition utf8_head (bs : bytes) : option (ascii * bytes) :=
  match bs with
  | [] => None
  | b :: rest =>
      if Z_of_byte b <? 128 then Some (ascii_of_N (Z.to_N (Z_of_byte b)), rest)
      else match rest with
           | [] => None
           | c :: rest =>
               Some (ascii_of_N (Z.to_N ((Z_of_byte b - 192) * 64 + (Z_of_byte c - 128))), rest)
           end
  end.

Lemma utf8_head_char c t : utf8_head (utf8_char c ++ t) = Some (c, t).
Proof. destruct c as [[] [] [] [] [] [] [] []]; vm_compute; reflexivity. Qed.

Lemma utf8_inj s t : utf8 s = utf8 t → s = t.
Proof.
  intros H. apply chars_inj. unfold utf8 in H. revert H. generalize (chars s), (chars t).
  intros l. induction l as [|c l IH]; intros [|d m] H; cbn in H; [done|..].
  - apply (f_equal utf8_head) in H. by rewrite utf8_head_char in H.
  - apply (f_equal utf8_head) in H. by rewrite utf8_head_char in H.
  - apply (f_equal utf8_head) in H. rewrite !utf8_head_char in H. injection H as -> H.
    f_equal. by apply IH.
Qed.

Lemma utf8_length s : byteLength (utf8 s) <= 2 * strlen s.
Proof.
  unfold strlen. rewrite <- length_chars. unfold utf8, byteLength.
  induction (chars s) as [|c l IH]; cbn; [lia|]. rewrite length_app.
  assert (length (utf8_char c) <= 2)%nat.
  { unfold utf8_char. destruct (code c <? 128); cbn; lia. } lia.
Qed.

Lemma utf8Bytes_inv s b : utf8Bytes s = Ok b → b = utf8 s.
Proof. by intros [-> _]%ownBytes_inv. Qed.

(** The strings of parsed fields are short. *)
Definition short (s : string) : Prop := strlen s <= 64.

Lemma short_utf8_fits s : short s → fits 128 (utf8 s).
Proof. unfold short, fits. pose proof (utf8_length s). lia. Qed.

Lemma fits_mono m n bs : m <= n → fits m bs → fits n bs.
Proof. unfold fits. lia. Qed.

Lemma utf8Bytes_eq s : short s → utf8Bytes s = Ok (utf8 s).
Proof.
  intros H%short_utf8_fits. apply ownBytes_eq. eapply fits_mono; [|exact H].
  unfold DEFAULT_MAX_BASE64URL_BYTES. lia.
Qed.

Lemma is_uuid4_short s : is_uuid4 s = true → short s.
Proof.
  unfold is_uuid4, matches, short, strlen. intros H%match_classes_length.
  rewrite length_chars in H. rewrite H. vm_compute. discriminate.
Qed.

Lemma is_uint63_short s : is_uint63 s = true → short s.
Proof.
  intros H. assert (HP : parseUint63String (VString s) = Ok s) by by apply parseUint63String_Ok.
  unfold parseUint63String, parseUint63String_in in HP. inv_result. split_orb.
  unfold short. lia.
Qed.

Lemma is_positive_uint63_short s : is_positive_uint63 s = true → short s.
Proof. unfold is_positive_uint63. intros [H _]%andb_true_iff. by apply is_uint63_short. Qed.

Lemma canonicalInstant_short s : canonicalInstant s = true → short s.
Proof.
  unfold canonicalInstant, short, strlen. intros [H%match_classes_length _]%andb_true_iff.
  rewrite length_chars in H. rewrite H. vm_compute. discriminate.
Qed.

(** ** What the hashes bind *)

Definition coherent (c : EnvelopeClass) (s : EnvelopeSender) (t : EnvelopeContentType) : bool :=
  match c, s, t with
  | external_proposal, EntitlementSignerSender _ _ _, mls_public_message => true
  | mls_commit, InstallationSender _ _, mls_public_message => true
  | application, InstallationSender _ _, mls_private_message => true
  | _, _, _ => false
  end.

Lemma requireClassSenderAndMediaType_spec c s t :
  requireClassSenderAndMediaType c s t
  = if coherent c s t then Ok () else Throw DeliveryValidationError.
Proof. by destruct c, s, t. Qed.

Definition valid_leaf (l : EnvelopeLeafInput) : bool :=
  is_uuid4 (leaf_conversationId l) && is_positive_uint63 (leaf_position l)
  && is_uuid4 (leaf_envelopeId l) && valid_sender (leaf_sender l)
  && is_uint63 (leaf_epoch l) && is_uint63 (leaf_rosterVersion l)
  && is_hash32 (leaf_envelopeSha256 l) && canonicalInstant (leaf_receivedAt l)
  && coherent (leaf_envelopeClass l) (leaf_sender l) (leaf_contentType l).

Lemma parseEnvelopeLeafInput_valid v l : parseEnvelopeLeafInput v = Ok l → valid_leaf l = true.
Proof.
  unfold parseEnvelopeLeafInput. intros H. inv_result. subst. unfold valid_leaf.
  cbn [leaf_conversationId leaf_position leaf_envelopeId leaf_sender leaf_epoch leaf_rosterVersion
       leaf_envelopeSha256 leaf_receivedAt leaf_envelopeClass leaf_contentType].
  apply parseEnvelopeSender_valid in Hx2 as ->. rewrite requireClassSenderAndMediaType_spec in Hx3.
  destruct (coherent _ _ _); [|discriminate].
  apply parseUuidV4_Ok in Hx4 as [_ ->], Hx6 as [_ ->].
  apply parsePositiveUint63String_Ok in Hx5 as [_ ->].
  apply parseUint63String_Ok in Hx7 as [_ ->], Hx8 as [_ ->].
  apply parseHash32_Ok in Hx9 as [_ ->]. apply parseRfc3339Millis_Ok in Hx10 as [_ ->]. done.
Qed.

Lemma parseEnvelopeClass_string c : parseEnvelopeClass (VString (envelopeClass_string c)) = Ok c.
Proof. by destruct c. Qed.
Lemma parseEnvelopeContentType_string c :
  parseEnvelopeContentType (VString (contentType_string c)) = Ok c.
Proof. by destruct c. Qed.

(** Every valid leaf input survives the round trip through its object. *)
Lemma parseEnvelopeLeafInput_obj l :
  valid_leaf l = true → parseEnvelopeLeafInput (leaf_obj l) = Ok l.
Proof.
  unfold valid_leaf. intros H. split_orb. unfold parseEnvelopeLeafInput, leaf_obj.
  rewrite expectExactRecord_obj;
    [|done|by apply nodup_keys|by repeat constructor; destruct (leaf_sender l)].
  cbn. rewrite parseEnvelopeClass_string, parseEnvelopeContentType_string. cbn.
  run_parsers. rewrite requireClassSenderAndMediaType_spec, H0. run_parsers. by destruct l.
Qed.

(** The preimages the hashes are taken of. *)
Definition senderItems (s : EnvelopeSender) : list bytes :=
  match s with
  | InstallationSender a i => [utf8 a; utf8 i]
  | EntitlementSignerSender c f g => [utf8 c; base64url_decode f; utf8 g]
  end.
Definition leafItems (l : EnvelopeLeafInput) : list bytes :=
  [utf8 (leaf_conversationId l); utf8 (leaf_position l); utf8 (leaf_envelopeId l);
   utf8 (envelopeClass_string (leaf_envelopeClass l)); utf8 (sender_type (leaf_sender l));
   lps (senderItems (leaf_sender l)); utf8 (leaf_epoch l); utf8 (leaf_rosterVersion l);
   utf8 (contentType_string (leaf_contentType l)); base64url_decode (leaf_envelopeSha256 l);
   utf8 (leaf_receivedAt l)].
Definition leafPreimage (l : EnvelopeLeafInput) : bytes :=
  utf8 ENVELOPE_LEAF_HASH_DOMAIN ++ lps (leafItems l).
Definition logHeadPreimage (previous leaf : Hash32) : bytes :=
  utf8 LOG_HEAD_HASH_DOMAIN ++ base64url_decode previous ++ base64url_decode leaf.
Definition checkpointItems (c : DeliveryLogCheckpointInput) : list bytes :=
  [utf8 (ckpt_conversationId c); utf8 (ckpt_position c);
   base64url_decode (ckpt_previousHeadHash c); base64url_decode (ckpt_headHash c);
   utf8 (ckpt_signingKeyId c)].
Definition checkpointPreimage (c : DeliveryLogCheckpointInput) : bytes :=
  utf8 DELIVERY_LOG_CHECKPOINT_DIGEST_DOMAIN ++ lps (checkpointItems c).

Lemma is_hash32_fits s : is_hash32 s = true → fits 128 (base64url_decode s).
Proof. intros [_ H]%is_base64url_decode. unfold fits, byteLength. lia. Qed.

Lemma lps_length items m :
  Forall (fits m) items → byteLength (lps items) <= (m + 4) * Z.of_nat (length items).
Proof.
  unfold fits, byteLength, lps. induction 1 as [|x l Hx _ IH]; cbn; [lia|].
  rewrite length_app. simpl length. unfold byteLength in *. lia.
Qed.

(** Items of at most 1,024 bytes, at most sixteen of them, always encode. *)
Lemma canonicalLengthPrefixed_small items :
  Forall (fits 1024) items → (length items <= 16)%nat →
  canonicalLengthPrefixed items = Ok (lps items) ∧ byteLength (lps items) <= 16448.
Proof.
  intros Hf Hl. pose proof (lps_length items 1024 Hf) as HL. split; [|lia].
  apply canonicalLengthPrefixed_eq.
  - eapply Forall_impl; [exact Hf|]. intros x. apply fits_mono. unfold DEFAULT_MAX_BASE64URL_BYTES. lia.
  - unfold fits, U32_MAX. lia.
Qed.

Lemma short_fits s : short s → fits 1024 (utf8 s).
Proof. intros H%short_utf8_fits. by eapply fits_mono, H. Qed.
Lemma hash32_fits s : is_hash32 s = true → fits 1024 (base64url_decode s).
Proof. intros H%is_hash32_fits. by eapply fits_mono, H. Qed.
#[export] Hint Resolve short_fits hash32_fits is_uuid4_short is_uint63_short
  is_positive_uint63_short canonicalInstant_short : jb.

Lemma senderItems_fits s :
  valid_sender s = true → Forall (fits 1024) (senderItems s) ∧ byteLength (lps (senderItems s)) <= 1024.
Proof.
  intros H. assert (Hf : Forall (fits 128) (senderItems s)).
  { destruct s; cbn in H; split_orb; repeat constructor; first
      [apply short_utf8_fits; eauto with jb | by apply is_hash32_fits]. }
  split.
  - eapply Forall_impl; [exact Hf|]. intros x. apply fits_mono. lia.
  - pose proof (lps_length _ _ Hf). destruct s; simpl length in *; lia.
Qed.

#[global] Arguments canonicalLengthPrefixed : simpl never.
#[global] Arguments lps : simpl never.
#[global] Arguments utf8Bytes : simpl never.
#[global] Arguments utf8 : simpl never.
#[global] Arguments sha256Bytes {_} : simpl never.

(** Runs the parsers and the string encodings of short strings. *)
Ltac encode_utf8 := run_parsers; repeat (rewrite utf8Bytes_eq by eauto with jb; run_parsers).

Lemma encodeEnvelopeSenderFields_eq s :
  valid_sender s = true → encodeEnvelopeSenderFields s = Ok (lps (senderItems s)).
Proof.
  intros H. destruct (senderItems_fits s H) as [Hf _]. unfold encodeEnvelopeSenderFields.
  run_parsers. destruct s as [a i|c f g]; cbn in H; split_orb.
  - encode_utf8.
    by apply canonicalLengthPrefixed_small; [|cbn; lia].
  - unfold encodeEntitlementSignerFields. run_parsers.
    change (decodeFingerprint32 f) with (decodeHash32 f). encode_utf8.
    by apply canonicalLengthPrefixed_small; [|cbn; lia].
Qed.

Section Binding.
Context `{SHA : Sha256}.

Lemma sha256Bytes_inv vs h :
  sha256Bytes vs = Ok h → h = base64url_encode (sha256 (concat vs)).
Proof.
  unfold sha256Bytes. intros H. inv_result. apply mapR_copyBytes_inv in Hx as [-> _].
  by apply parseHash32_Ok in H as [[= ->] _].
Qed.

Lemma sha256Bytes_eq vs :
  Forall (fits DEFAULT_MAX_BASE64URL_BYTES) vs →
  sha256Bytes vs = Ok (base64url_encode (sha256 (concat vs))).
Proof.
  intros H. unfold sha256Bytes. rewrite (mapR_map _ id), map_id; last first.
  { eapply Forall_impl; [exact H|]. intros x Hx. by apply ownBytes_eq. }
  cbn. apply parseHash32_Ok. split; [done|]. apply is_hash32_encode, sha256_length.
Qed.

Lemma digest_inj x y :
  base64url_encode (sha256 x) = base64url_encode (sha256 y) → x = y ∨ collision [x] [y].
Proof.
  intros H%base64url_encode_inj. destruct (decide (x = y)) as [->|Hne]; [by left|right].
  exists x, y. repeat split; [by left|by left|done|done].
Qed.

(** A domain-separated, length-prefixed digest determines its fields. *)
Lemma prefixedDigest_inj domain xs ys b c h :
  canonicalLengthPrefixed xs = Ok b → canonicalLengthPrefixed ys = Ok c →
  sha256Bytes [domain; b] = Ok h → sha256Bytes [domain; c] = Ok h →
  xs = ys ∨ collision [domain ++ lps xs] [domain ++ lps ys].
Proof.
  intros [-> Hx%fits_u32]%canonicalLengthPrefixed_inv [-> Hy%fits_u32]%canonicalLengthPrefixed_inv
    ->%sha256Bytes_inv E%sha256Bytes_inv.
  cbn in E. rewrite !app_nil_r in E. apply digest_inj in E as [E|E]; [left|by right].
  apply app_inj_1 in E as [_ E]; [|done]. by apply lps_inj.
Qed.

Lemma leafItems_fits l : valid_leaf l = true → Forall (fits 1024) (leafItems l).
Proof.
  unfold valid_leaf. intros H. split_orb. destruct (senderItems_fits _ H5) as [_ Hs].
  repeat constructor; eauto with jb.
  - destruct (leaf_envelopeClass l); by vm_compute.
  - destruct (leaf_sender l); by vm_compute.
  - destruct (leaf_contentType l); by vm_compute.
Qed.

Lemma computeEnvelopeLeafHash_eq v l :
  parseEnvelopeLeafInput v = Ok l →
  computeEnvelopeLeafHash v = Ok (base64url_encode (sha256 (leafPreimage l))).
Proof.
  intros HP. pose proof (parseEnvelopeLeafInput_valid v l HP) as HV.
  pose proof (leafItems_fits l HV) as Hf.
  destruct (canonicalLengthPrefixed_small _ Hf) as [HC HL]; [cbn; lia|].
  unfold valid_leaf in HV. split_orb.
  assert (short (envelopeClass_string (leaf_envelopeClass l))) by (by destruct (leaf_envelopeClass l); vm_compute).
  assert (short (sender_type (leaf_sender l))) by (by destruct (leaf_sender l); vm_compute).
  assert (short (contentType_string (leaf_contentType l))) by (by destruct (leaf_contentType l); vm_compute).
  assert (short ENVELOPE_LEAF_HASH_DOMAIN) by by vm_compute.
  unfold computeEnvelopeLeafHash. rewrite HP. encode_utf8.
  rewrite encodeEnvelopeSenderFields_eq by done. cbn.
  change (canonicalLengthPrefixed _) with (canonicalLengthPrefixed (leafItems l)). rewrite HC. cbn.
  rewrite sha256Bytes_eq; [cbn; by rewrite app_nil_r|].
  assert (fits 1024 (utf8 ENVELOPE_LEAF_HASH_DOMAIN)) by by vm_compute.
  repeat constructor; unfold fits, DEFAULT_MAX_BASE64URL_BYTES in *; lia.
Qed.


Lemma envelopeClass_string_inj c c' : envelopeClass_string c = envelopeClass_string c' → c = c'.
Proof. by destruct c, c'. Qed.
Lemma contentType_string_inj c c' : contentType_string c = contentType_string c' → c = c'.
Proof. by destruct c, c'. Qed.

Lemma fits_1024_u32 l : Forall (fits 1024) l → Forall (fits U32_MAX) l.
Proof. intros H. eapply Forall_impl; [exact H|]. intros x. apply fits_mono. by vm_compute. Qed.

Lemma senderItems_inj s s' :
  valid_sender s = true → valid_sender s' = true →
  sender_type s = sender_type s' → lps (senderItems s) = lps (senderItems s') → s = s'.
Proof.
  intros Hs Hs' Ht Hl. apply lps_inj in Hl.
  2,3: by apply fits_1024_u32, senderItems_fits.
  destruct s, s'; try discriminate Ht; cbn in Hs, Hs', Hl; split_orb; injection Hl as;
    f_equal; first [by apply utf8_inj | by apply is_hash32_inj].
Qed.

Lemma leafPreimage_inj l l' :
  valid_leaf l = true → valid_leaf l' = true → leafPreimage l = leafPreimage l' → l = l'.
Proof.
  intros HV HV' H%app_inj_1; [|done]. destruct H as [_ H].
  apply lps_inj in H; [|by apply fits_1024_u32, leafItems_fits..].
  injection H as Hc Hp He Hcl Hst Hsf Hep Hrv Hct Hh Ht.
  unfold valid_leaf in *. split_orb.
  apply utf8_inj in Hc, Hp, He, Hcl, Hst, Hep, Hrv, Hct, Ht.
  apply envelopeClass_string_inj in Hcl. apply contentType_string_inj in Hct.
  apply is_hash32_inj in Hh; [|done..]. apply senderItems_inj in Hsf; [|done..].
  destruct l, l'; cbn in *. congruence.
Qed.

(** The leaf hash binds every field of the leaf: inputs with one leaf hash
    parse to the same leaf, or their two preimages are a SHA-256 collision. *)
Theorem computeEnvelopeLeafHash_binding v w h :
  computeEnvelopeLeafHash v = Ok h → computeEnvelopeLeafHash w = Ok h →
  ∃ l l', parseEnvelopeLeafInput v = Ok l ∧ parseEnvelopeLeafInput w = Ok l' ∧
    (l = l' ∨ collision [leafPreimage l] [leafPreimage l']).
Proof.
  intros Hv Hw. destruct (parseEnvelopeLeafInput v) as [l|] eqn:Ev.
  2:{ unfold computeEnvelopeLeafHash in Hv. rewrite Ev in Hv. discriminate. }
  destruct (parseEnvelopeLeafInput w) as [l'|] eqn:Ew.
  2:{ unfold computeEnvelopeLeafHash in Hw. rewrite Ew in Hw. discriminate. }
  exists l, l'. split_and!; [done..|].
  rewrite (computeEnvelopeLeafHash_eq v l Ev) in Hv. rewrite (computeEnvelopeLeafHash_eq w l' Ew) in Hw.
  rewrite <- Hv in Hw. injection Hw as Hw. symmetry in Hw. apply digest_inj in Hw as [Hw|Hc]; [left|by right].
  by apply leafPreimage_inj; [eapply parseEnvelopeLeafInput_valid..|].
Qed.

(** *** The head chain *)

Lemma computeLogHeadHash_eq p l :
  is_hash32 p = true → is_hash32 l = true →
  computeLogHeadHash p l = Ok (base64url_encode (sha256 (logHeadPreimage p l))).
Proof.
  intros Hp Hl. unfold computeLogHeadHash.
  assert (short LOG_HEAD_HASH_DOMAIN) by by vm_compute. encode_utf8.
  pose proof (is_hash32_fits p Hp). pose proof (is_hash32_fits l Hl).
  rewrite sha256Bytes_eq; [cbn; by rewrite app_nil_r|].
  assert (fits 128 (utf8 LOG_HEAD_HASH_DOMAIN)) by by vm_compute.
  repeat constructor; unfold fits, DEFAULT_MAX_BASE64URL_BYTES in *; lia.
Qed.

Lemma computeLogHeadHash_inv p l h :
  computeLogHeadHash p l = Ok h →
  is_hash32 p = true ∧ is_hash32 l = true ∧ is_hash32 h = true ∧
  h = base64url_encode (sha256 (logHeadPreimage p l)).
Proof.
  intros H. assert (is_hash32 p = true ∧ is_hash32 l = true) as [Hp Hl].
  { unfold computeLogHeadHash in H. inv_result. apply parseHash32_Ok in Hx as [[= ->] ->].
    by apply parseHash32_Ok in Hx0 as [[= ->] ->]. }
  rewrite computeLogHeadHash_eq in H by done. injection H as <-.
  repeat split; try done. apply is_hash32_encode, sha256_length.
Qed.

(** The head after appending leaves to a head, and the inputs hashed. *)
Fixpoint logHead (previous : Hash32) (leaves : list Hash32) : result Hash32 :=
  match leaves with
  | [] => Ok previous
  | leaf :: rest => head ← computeLogHeadHash previous leaf; logHead head rest
  end.
Fixpoint logHeadPreimages (previous : Hash32) (leaves : list Hash32) : list bytes :=
  match leaves with
  | [] => []
  | leaf :: rest =>
      logHeadPreimage previous leaf
        :: logHeadPreimages (base64url_encode (sha256 (logHeadPreimage previous leaf))) rest
  end.

Lemma logHead_app p ls ls' h : logHead p ls = Ok h → logHead p (ls ++ ls') = logHead h ls'.
Proof.
  revert p. induction ls as [|l ls IH]; intros p H; cbn in *; [by injection H as ->|].
  destruct (computeLogHeadHash p l); [|done]. by apply IH.
Qed.

Lemma logHeadPreimage_inj p l p' l' :
  is_hash32 p = true → is_hash32 l = true → is_hash32 p' = true → is_hash32 l' = true →
  logHeadPreimage p l = logHeadPreimage p' l' → p = p' ∧ l = l'.
Proof.
  intros Hp Hl Hp' Hl' H%app_inj_1; [|done]. destruct H as [_ H].
  pose proof (is_base64url_decode _ _ _ Hp) as [_ Lp]. pose proof (is_base64url_decode _ _ _ Hp') as [_ Lp'].
  apply app_inj_1 in H as [H1 H2]; [|lia]. split; by apply is_hash32_inj.
Qed.

(** A head binds the whole history: equal heads after equally many leaves
    mean equal starts and equal leaves, or an explicit collision. *)
Lemma logHead_binding ls ls' p p' h :
  length ls = length ls' → logHead p ls = Ok h → logHead p' ls' = Ok h →
  (p = p' ∧ ls = ls') ∨ collision (logHeadPreimages p ls) (logHeadPreimages p' ls').
Proof.
  revert ls' p p'. induction ls as [|l ls IH]; intros [|l' ls'] p p' Hlen H H'; try discriminate Hlen.
  { left. cbn in H, H'. split; congruence. }
  cbn in H, H', Hlen. inv_result.
  apply computeLogHeadHash_inv in Hx as (Hp & Hl & _ & ->), Hx0 as (Hp' & Hl' & _ & ->).
  destruct (IH ls' _ _ ltac:(lia) H H') as [[E ->]|Hc].
  - apply digest_inj in E as [E|Hc].
    + left. apply logHeadPreimage_inj in E as [-> ->]; done.
    + right. eapply collision_mono, Hc; intros ? ->%list_elem_of_singleton; by left.
  - right. eapply collision_mono, Hc; intros ? ?; by right.
Qed.


(** *** Checkpoints *)

Definition valid_checkpoint (c : DeliveryLogCheckpointInput) : bool :=
  is_uuid4 (ckpt_conversationId c) && is_positive_uint63 (ckpt_position c)
  && is_hash32 (ckpt_previousHeadHash c) && is_hash32 (ckpt_headHash c)
  && LABEL_64 (ckpt_signingKeyId c)
  && Bool.eqb (ckpt_position c === "1") (ckpt_previousHeadHash c === ZERO_HASH32).

Lemma parseDeliveryLogCheckpointInput_valid v c :
  parseDeliveryLogCheckpointInput v = Ok c → valid_checkpoint c = true.
Proof.
  unfold parseDeliveryLogCheckpointInput. intros H. inv_result. subst. unfold valid_checkpoint. cbn.
  apply parseUuidV4_Ok in Hx0 as [_ ->]. apply parsePositiveUint63String_Ok in Hx1 as [_ ->].
  apply parseHash32_Ok in Hx2 as [_ ->], Hx3 as [_ ->]. apply parseSigningKeyId_Ok in Hx4 as [_ ->].
  by destruct (_ === "1"), (_ === ZERO_HASH32).
Qed.

Lemma LABEL_64_short s : LABEL_64 s = true → short s.
Proof.
  unfold LABEL_64, short, strlen. rewrite <- length_chars. destruct (chars s); [done|].
  intros H. split_orb. simpl length. lia.
Qed.
#[local] Hint Resolve LABEL_64_short : jb.

Lemma checkpointItems_fits c : valid_checkpoint c = true → Forall (fits 1024) (checkpointItems c).
Proof. unfold valid_checkpoint. intros H. split_orb. repeat constructor; eauto with jb. Qed.

Lemma computeDeliveryLogCheckpointDigest_eq v c :
  parseDeliveryLogCheckpointInput v = Ok c →
  computeDeliveryLogCheckpointDigest v = Ok (base64url_encode (sha256 (checkpointPreimage c))).
Proof.
  intros HP. pose proof (parseDeliveryLogCheckpointInput_valid v c HP) as HV.
  pose proof (checkpointItems_fits c HV) as Hf.
  destruct (canonicalLengthPrefixed_small _ Hf) as [HC HL]; [cbn; lia|].
  unfold valid_checkpoint in HV. split_orb.
  assert (short DELIVERY_LOG_CHECKPOINT_DIGEST_DOMAIN) by by vm_compute.
  unfold computeDeliveryLogCheckpointDigest. rewrite HP. encode_utf8.
  change (canonicalLengthPrefixed _) with (canonicalLengthPrefixed (checkpointItems c)). rewrite HC. cbn.
  rewrite sha256Bytes_eq; [cbn; by rewrite app_nil_r|].
  assert (fits 128 (utf8 DELIVERY_LOG_CHECKPOINT_DIGEST_DOMAIN)) by by vm_compute.
  repeat constructor; unfold fits, DEFAULT_MAX_BASE64URL_BYTES in *; lia.
Qed.

Lemma checkpointPreimage_inj c c' :
  valid_checkpoint c = true → valid_checkpoint c' = true →
  checkpointPreimage c = checkpointPreimage c' → c = c'.
Proof.
  intros HV HV' H%app_inj_1; [|done]. destruct H as [_ H].
  apply lps_inj in H; [|by apply fits_1024_u32, checkpointItems_fits..].
  injection H as Hc Hp Hph Hh Hk. unfold valid_checkpoint in *. split_orb.
  apply utf8_inj in Hc, Hp, Hk. apply is_hash32_inj in Hph, Hh; [|done..].
  destruct c, c'; cbn in *. congruence.
Qed.

Lemma computeDeliveryLogCheckpointDigest_binding v w d :
  computeDeliveryLogCheckpointDigest v = Ok d → computeDeliveryLogCheckpointDigest w = Ok d →
  ∃ c c', parseDeliveryLogCheckpointInput v = Ok c ∧ parseDeliveryLogCheckpointInput w = Ok c' ∧
    (c = c' ∨ collision [checkpointPreimage c] [checkpointPreimage c']).
Proof.
  intros Hv Hw. destruct (parseDeliveryLogCheckpointInput v) as [c|] eqn:Ev.
  2:{ unfold computeDeliveryLogCheckpointDigest in Hv. rewrite Ev in Hv. discriminate. }
  destruct (parseDeliveryLogCheckpointInput w) as [c'|] eqn:Ew.
  2:{ unfold computeDeliveryLogCheckpointDigest in Hw. rewrite Ew in Hw. discriminate. }
  exists c, c'. split_and!; [done..|].
  rewrite (computeDeliveryLogCheckpointDigest_eq v c Ev) in Hv.
  rewrite (computeDeliveryLogCheckpointDigest_eq w c' Ew) in Hw.
  rewrite <- Hv in Hw. injection Hw as Hw. symmetry in Hw.
  apply digest_inj in Hw as [Hw|Hc]; [left|by right].
  by apply checkpointPreimage_inj; [eapply parseDeliveryLogCheckpointInput_valid..|].
Qed.

(** The checkpoint input of a conversation whose log holds [ls], then [l]. *)
Definition checkpointInputOf (conversationId key previous head : string) (n : Z) : unknown :=
  obj [("conversationId", VString conversationId); ("position", VString (decimal n));
       ("previousHeadHash", VString previous); ("headHash", VString head);
       ("signingKeyId", VString key)].

Lemma parse_checkpointInputOf conv key prev head n c :
  parseDeliveryLogCheckpointInput (checkpointInputOf conv key prev head n) = Ok c →
  c = {| ckpt_conversationId := conv; ckpt_position := decimal n; ckpt_previousHeadHash := prev;
         ckpt_headHash := head; ckpt_signingKeyId := key |}.
Proof.
  unfold parseDeliveryLogCheckpointInput, checkpointInputOf.
  rewrite expectExactRecord_obj; [|done|by apply nodup_keys|by repeat constructor].
  cbn. intros H. inv_result. subst.
  apply parseUuidV4_Ok in Hx as [[= <-] _]. apply parsePositiveUint63String_Ok in Hx0 as [[= <-] _].
  apply parseHash32_Ok in Hx1 as [[= <-] _], Hx2 as [[= <-] _].
  by apply parseSigningKeyId_Ok in Hx3 as [[= <-] _].
Qed.

(** One signed digest stands for one history: if the checkpoint digests of
    two conversation logs, each rebuilt from the zero head, agree, then the
    conversations, the positions and every leaf agree, unless the digests or
    the head chains exhibit a SHA-256 collision. *)
Theorem checkpointDigest_binds_history conv conv' key key' ls l ls' l' prev prev' head head' d :
  logHead ZERO_HASH32 ls = Ok prev → computeLogHeadHash prev l = Ok head →
  logHead ZERO_HASH32 ls' = Ok prev' → computeLogHeadHash prev' l' = Ok head' →
  let v := checkpointInputOf conv key prev head (Z.of_nat (length ls) + 1) in
  let v' := checkpointInputOf conv' key' prev' head' (Z.of_nat (length ls') + 1) in
  computeDeliveryLogCheckpointDigest v = Ok d → computeDeliveryLogCheckpointDigest v' = Ok d →
  (conv = conv' ∧ ls ++ [l] = ls' ++ [l']) ∨
  (∃ c c', parseDeliveryLogCheckpointInput v = Ok c ∧ parseDeliveryLogCheckpointInput v' = Ok c' ∧
     collision [checkpointPreimage c] [checkpointPreimage c']) ∨
  collision (logHeadPreimages ZERO_HASH32 (ls ++ [l])) (logHeadPreimages ZERO_HASH32 (ls' ++ [l'])).
Proof.
  intros Hp Hh Hp' Hh' v v' Hd Hd'.
  destruct (computeDeliveryLogCheckpointDigest_binding _ _ _ Hd Hd') as (c & c' & Hc & Hc' & [E|Hcol]);
    [|right; left; eauto].
  apply parse_checkpointInputOf in Hc as ->, Hc' as ->.
  injection E as -> E -> -> ->. apply decimal_inj in E; [|lia..].
  destruct (logHead_binding (ls ++ [l]) (ls' ++ [l']) ZERO_HASH32 ZERO_HASH32 head') as [[_ ->]|Hcol].
  - rewrite !length_app. cbn. lia.
  - by rewrite (logHead_app _ _ _ _ Hp); cbn; rewrite Hh.
  - by rewrite (logHead_app _ _ _ _ Hp'); cbn; rewrite Hh'.
  - by left.
  - by right; right.
Qed.

End Binding.

(** ** Evaluations *)

Definition sample_conversation : string := "a1b2c3d4-0000-4000-8000-000000000001".
Definition sample_leaf : EnvelopeLeafInput := {|
  leaf_conversationId := sample_conversation; leaf_position := "1";
  leaf_envelopeId := "a1b2c3d4-0000-4000-8000-000000000002"; leaf_envelopeClass := application;
  leaf_sender := InstallationSender "a1b2c3d4-0000-4000-8000-000000000003"
                   "a1b2c3d4-0000-4000-8000-000000000004";
  leaf_epoch := "0"; leaf_rosterVersion := "1"; leaf_contentType := mls_private_message;
  leaf_envelopeSha256 := ZERO_HASH32; leaf_receivedAt := "2026-07-19T00:00:00.000Z" |}.

Definition valueOf {A} (d : A) (r : result A) : A := match r with Ok a => a | Throw _ => d end.
Definition sample_hash : Hash32 :=
  Eval vm_compute in valueOf "" (@computeEnvelopeLeafHash fips_sha256 (leaf_obj sample_leaf)).

Lemma canonicalLengthPrefixed_injective_witness :
  canonicalLengthPrefixed [[Byte.x61]; []] = Ok (lps [[Byte.x61]; []]) ∧
  [[Byte.x61]; []] = ([[Byte.x61]; []] : list bytes).
Proof.
  split; [by vm_compute|].
  apply (canonicalLengthPrefixed_injective _ _ (lps [[Byte.x61]; []])); by vm_compute.
Defined.

Lemma computeEnvelopeLeafHash_binding_witness :
  ∃ l l', parseEnvelopeLeafInput (leaf_obj sample_leaf) = Ok l ∧
    parseEnvelopeLeafInput (leaf_obj sample_leaf) = Ok l' ∧
    (l = l' ∨ @collision fips_sha256 [leafPreimage l] [leafPreimage l']).
Proof. apply (@computeEnvelopeLeafHash_binding fips_sha256 _ _ sample_hash); by vm_compute. Defined.

Definition sample_head : Hash32 :=
  Eval vm_compute in valueOf "" (@computeLogHeadHash fips_sha256 ZERO_HASH32 sample_hash).
Definition sample_checkpoint : unknown :=
  checkpointInputOf sample_conversation "key-1" ZERO_HASH32 sample_head 1.
Definition sample_digest : Hash32 :=
  Eval vm_compute in valueOf "" (@computeDeliveryLogCheckpointDigest fips_sha256 sample_checkpoint).

Lemma checkpointDigest_binds_history_witness :
  (sample_conversation = sample_conversation ∧ [] ++ [sample_hash] = [] ++ [sample_hash]) ∨
  (∃ c c', parseDeliveryLogCheckpointInput sample_checkpoint = Ok c ∧
     parseDeliveryLogCheckpointInput sample_checkpoint = Ok c' ∧
     @collision fips_sha256 [checkpointPreimage c] [checkpointPreimage c']) ∨
  @collision fips_sha256 (@logHeadPreimages fips_sha256 ZERO_HASH32 ([] ++ [sample_hash]))
    (@logHeadPreimages fips_sha256 ZERO_HASH32 ([] ++ [sample_hash])).
Proof.
  apply (@checkpointDigest_binds_history fips_sha256 sample_conversation sample_conversation
    "key-1" "key-1" [] sample_hash [] sample_hash ZERO_HASH32 ZERO_HASH32 sample_head sample_head
    sample_digest); by vm_compute.
Defined.
