(* ===== verification/Limits.v ===== *)
(** * Signed delivery limits ([src/production/delivery/limits.ts])

    The exact limits record of the release manifest, its reviewed ceilings and
    the arithmetic that makes a maximum page fit its serialized bound. *)

From stdpp Require Import base list strings.
From Stdlib Require Import ZArith Lia.
From S2P Require Import Prelude Base64Url JsTime JsValue ValueObjects.

Definition DELIVERY_EVENT_JSON_METADATA_OVERHEAD_BYTES : Z := 4096.
Definition DELIVERY_PAGE_JSON_FIXED_OVERHEAD_BYTES : Z := 4096.
Definition DELIVERY_CURSOR_MIN_CHARACTERS : Z := 43.

Definition DELIVERY_LIMIT_KEYS : list string := [
  "applicationCiphertextDecodedMaxBytes"; "externalProposalDecodedMaxBytes";
  "mlsCommitDecodedMaxBytes"; "welcomeDecodedMaxBytes"; "pageDecodedArtifactsMaxBytes";
  "pageSerializedResponseMaxBytes"; "conversationEventsMaxPerPage"; "mailboxEntriesMaxPerPage";
  "conversationRecipientInstallationsMax"; "cursorMaxCharacters"; "attachmentsMaxPerEnvelope"].

Record DeliveryLimits := {
  applicationCiphertextDecodedMaxBytes : Uint63String;
  externalProposalDecodedMaxBytes : Uint63String;
  mlsCommitDecodedMaxBytes : Uint63String;
  welcomeDecodedMaxBytes : Uint63String;
  pageDecodedArtifactsMaxBytes : Uint63String;
  pageSerializedResponseMaxBytes : Uint63String;
  conversationEventsMaxPerPage : Uint63String;
  mailboxEntriesMaxPerPage : Uint63String;
  conversationRecipientInstallationsMax : Uint63String;
  cursorMaxCharacters : Uint63String;
  attachmentsMaxPerEnvelope : Uint63String;
}.

Definition DELIVERY_TESTED_CEILINGS (key : string) : Uint63String :=
  if key === "applicationCiphertextDecodedMaxBytes" then "65536"
  else if key === "externalProposalDecodedMaxBytes" then "262144"
  else if key === "mlsCommitDecodedMaxBytes" then "524288"
  else if key === "welcomeDecodedMaxBytes" then "262144"
  else if key === "pageDecodedArtifactsMaxBytes" then "4194304"
  else if key === "pageSerializedResponseMaxBytes" then "8388608"
  else if key === "conversationEventsMaxPerPage" then "500"
  else if key === "mailboxEntriesMaxPerPage" then "100"
  else if key === "conversationRecipientInstallationsMax" then "2500"
  else if key === "cursorMaxCharacters" then "1024"
  else "10".

Definition requirePositive (value : Uint63String) : result unit :=
  throw_if (value === "0") DeliveryValidationError.

Definition maxBigInt (first second third : Z) : Z :=
  if second <? first then (if third <? first then first else third)
  else if third <? second then second else third.
Definition maxTwoBigInts (first second : Z) : Z := if second <? first then first else second.

Definition assertUint63BigInt (value : Z) : result unit :=
  throw_if ((value <? 0) || (UINT63_MAX <? value)) DeliveryValidationError.

Definition canonicalBase64UrlEncodedLength (decodedBytes : Z) : result Z :=
  assertUint63BigInt decodedBytes;;
  let encoded := Z.quot (decodedBytes * 4 + 2) 3 in
  throw_if (UINT63_MAX <? encoded) DeliveryValidationError;;
  Ok encoded.

Definition minimumSerializedDeliveryPageBytes (decodedArtifactBytes maximumPageItems : Z) : result Z :=
  assertUint63BigInt decodedArtifactBytes;;
  assertUint63BigInt maximumPageItems;;
  encoded ← canonicalBase64UrlEncodedLength decodedArtifactBytes;
  let result := encoded + DELIVERY_PAGE_JSON_FIXED_OVERHEAD_BYTES
                + DELIVERY_EVENT_JSON_METADATA_OVERHEAD_BYTES * maximumPageItems in
  throw_if (UINT63_MAX <? result) DeliveryValidationError;;
  Ok result.

(** One iteration of the key loop. *)
Definition parseLimit (record : record) (key : string) : result Uint63String :=
  limit ← parseUint63String record.[key];
  throw_if (BigInt (DELIVERY_TESTED_CEILINGS key) <? BigInt limit) DeliveryValidationError;;
  Ok limit.

(** The loop stores each parsed value under its key. *)
Definition limitsOf (parsed : list Uint63String) : DeliveryLimits :=
  let field i := default "" (parsed !! i) in
  {| applicationCiphertextDecodedMaxBytes := field 0%nat;
     externalProposalDecodedMaxBytes := field 1%nat;
     mlsCommitDecodedMaxBytes := field 2%nat;
     welcomeDecodedMaxBytes := field 3%nat;
     pageDecodedArtifactsMaxBytes := field 4%nat;
     pageSerializedResponseMaxBytes := field 5%nat;
     conversationEventsMaxPerPage := field 6%nat;
     mailboxEntriesMaxPerPage := field 7%nat;
     conversationRecipientInstallationsMax := field 8%nat;
     cursorMaxCharacters := field 9%nat;
     attachmentsMaxPerEnvelope := field 10%nat |}.

Definition parseDeliveryLimits (value : unknown) : result DeliveryLimits :=
  record ← expectExactRecord value DELIVERY_LIMIT_KEYS;
  values ← mapR (parseLimit record) DELIVERY_LIMIT_KEYS;
  let parsed := limitsOf values in
  requirePositive (pageDecodedArtifactsMaxBytes parsed);;
  requirePositive (pageSerializedResponseMaxBytes parsed);;
  requirePositive (conversationEventsMaxPerPage parsed);;
  requirePositive (mailboxEntriesMaxPerPage parsed);;
  requirePositive (conversationRecipientInstallationsMax parsed);;
  throw_if (BigInt (cursorMaxCharacters parsed) <? DELIVERY_CURSOR_MIN_CHARACTERS)
    DeliveryValidationError;;
  let decodedPage := BigInt (pageDecodedArtifactsMaxBytes parsed) in
  let largestSingleArtifact :=
    maxBigInt (BigInt (applicationCiphertextDecodedMaxBytes parsed))
      (BigInt (externalProposalDecodedMaxBytes parsed))
      (BigInt (mlsCommitDecodedMaxBytes parsed) + BigInt (welcomeDecodedMaxBytes parsed)) in
  throw_if (decodedPage <? largestSingleArtifact) DeliveryValidationError;;
  let maximumPageItems :=
    maxTwoBigInts (BigInt (conversationEventsMaxPerPage parsed))
      (BigInt (mailboxEntriesMaxPerPage parsed)) in
  minimumSerializedPageBytes ← minimumSerializedDeliveryPageBytes decodedPage maximumPageItems;
  throw_if (BigInt (pageSerializedResponseMaxBytes parsed) <? minimumSerializedPageBytes)
    DeliveryValidationError;;
  Ok parsed.

(** ** Correctness *)

Definition limits_list (l : DeliveryLimits) : list Uint63String :=
  [applicationCiphertextDecodedMaxBytes l; externalProposalDecodedMaxBytes l;
   mlsCommitDecodedMaxBytes l; welcomeDecodedMaxBytes l; pageDecodedArtifactsMaxBytes l;
   pageSerializedResponseMaxBytes l; conversationEventsMaxPerPage l; mailboxEntriesMaxPerPage l;
   conversationRecipientInstallationsMax l; cursorMaxCharacters l; attachmentsMaxPerEnvelope l].
Definition limits_obj (l : DeliveryLimits) : unknown :=
  obj (zip DELIVERY_LIMIT_KEYS (map VString (limits_list l))).

(** What a manifest must satisfy. *)
Definition valid_limits (l : DeliveryLimits) : Prop :=
  Forall2 (λ key s, is_uint63 s = true ∧ BigInt s <= BigInt (DELIVERY_TESTED_CEILINGS key))
    DELIVERY_LIMIT_KEYS (limits_list l) ∧
  1 <= BigInt (pageDecodedArtifactsMaxBytes l) ∧ 1 <= BigInt (pageSerializedResponseMaxBytes l) ∧
  1 <= BigInt (conversationEventsMaxPerPage l) ∧ 1 <= BigInt (mailboxEntriesMaxPerPage l) ∧
  1 <= BigInt (conversationRecipientInstallationsMax l) ∧
  43 <= BigInt (cursorMaxCharacters l) ∧
  BigInt (applicationCiphertextDecodedMaxBytes l) <= BigInt (pageDecodedArtifactsMaxBytes l) ∧
  BigInt (externalProposalDecodedMaxBytes l) <= BigInt (pageDecodedArtifactsMaxBytes l) ∧
  BigInt (mlsCommitDecodedMaxBytes l) + BigInt (welcomeDecodedMaxBytes l)
    <= BigInt (pageDecodedArtifactsMaxBytes l) ∧
  (BigInt (pageDecodedArtifactsMaxBytes l) * 4 + 2) / 3 + 4096
    + 4096 * Z.max (BigInt (conversationEventsMaxPerPage l)) (BigInt (mailboxEntriesMaxPerPage l))
    <= BigInt (pageSerializedResponseMaxBytes l).

Lemma parseLimit_Ok r key s :
  parseLimit r key = Ok s ↔
  r.[key] = VString s ∧ is_uint63 s = true ∧ BigInt s <= BigInt (DELIVERY_TESTED_CEILINGS key).
Proof.
  unfold parseLimit. split.
  - intros H. inv_result. subst. apply parseUint63String_Ok in Hx as [-> ?]. repeat split; [done|lia].
  - intros (-> & Hs & Hc). run_parsers. destruct (Z.ltb_spec (BigInt (DELIVERY_TESTED_CEILINGS key)) (BigInt s)); [lia|done].
Qed.

Lemma requirePositive_Ok s u :
  is_uint63 s = true → requirePositive s = Ok u ↔ 1 <= BigInt s.
Proof.
  intros Hs. unfold requirePositive. rewrite throw_if_Ok, bool_decide_eq_false.
  pose proof (is_uint63_bound s Hs). split.
  - intros Hne. enough (BigInt s ≠ 0) by lia. intros E. apply Hne. by apply is_uint63_inj.
  - by intros H1 ->.
Qed.

Lemma canonicalBase64UrlEncodedLength_Ok n z :
  canonicalBase64UrlEncodedLength n = Ok z ↔
  0 <= n ∧ (n * 4 + 2) / 3 <= UINT63_MAX ∧ z = (n * 4 + 2) / 3.
Proof.
  unfold canonicalBase64UrlEncodedLength, assertUint63BigInt, UINT63_MAX. split.
  - intros H. inv_result. subst. split_orb. rewrite Z.quot_div_nonneg in * by lia. lia.
  - intros (H0 & H1 & ->). rewrite Z.quot_div_nonneg by lia.
    destruct ((n <? 0) || _) eqn:E; [lia|]. cbn.
    destruct (Z.ltb_spec (2 ^ 63 - 1) ((n * 4 + 2) / 3)); [lia|done].
Qed.

(** [canonicalBase64UrlEncodedLength] is the length of the encoding that
    [Buffer] produces, for every byte string. *)
Theorem encodedLength_is_base64url bs z :
  canonicalBase64UrlEncodedLength (Z.of_nat (length bs)) = Ok z →
  strlen (base64url_encode bs) = z.
Proof.
  rewrite canonicalBase64UrlEncodedLength_Ok, length_base64url_encode. lia.
Qed.

Lemma limitsOf_list l : limitsOf (limits_list l) = l.
Proof. by destruct l. Qed.

Lemma maxBigInt_max a b c : maxBigInt a b c = Z.max a (Z.max b c).
Proof. unfold maxBigInt. destruct (Z.ltb_spec b a), (Z.ltb_spec c a), (Z.ltb_spec c b); lia. Qed.
Lemma maxTwoBigInts_max a b : maxTwoBigInts a b = Z.max a b.
Proof. unfold maxTwoBigInts. destruct (Z.ltb_spec b a); lia. Qed.

Lemma minimumSerialized_Ok n m z :
  0 <= m <= UINT63_MAX →
  minimumSerializedDeliveryPageBytes n m = Ok z ↔
  0 <= n ∧ (n * 4 + 2) / 3 + 4096 + 4096 * m <= UINT63_MAX ∧ z = (n * 4 + 2) / 3 + 4096 + 4096 * m.
Proof.
  unfold minimumSerializedDeliveryPageBytes, assertUint63BigInt,
    DELIVERY_PAGE_JSON_FIXED_OVERHEAD_BYTES, DELIVERY_EVENT_JSON_METADATA_OVERHEAD_BYTES.
  intros Hm. split.
  - intros H. inv_result. subst. apply canonicalBase64UrlEncodedLength_Ok in Hx1 as (? & ? & ->). lia.
  - intros (H0 & H1 & ->).
    destruct ((n <? 0) || (UINT63_MAX <? n)) eqn:E; [lia|]. cbn [throw_if mbind result_bind].
    destruct ((m <? 0) || (UINT63_MAX <? m)) eqn:E'; [lia|]. cbn [throw_if mbind result_bind].
    rewrite (proj2 (canonicalBase64UrlEncodedLength_Ok n ((n * 4 + 2) / 3))) by lia.
    cbn [mbind result_bind]. destruct (Z.ltb_spec UINT63_MAX ((n * 4 + 2) / 3 + 4096 + 4096 * m)); [lia|done].
Qed.

(** The checks after the key loop are exactly the manifest conditions. *)
Lemma manifest_checks l :
  Forall (λ s, is_uint63 s = true) (limits_list l) →
  ((requirePositive (pageDecodedArtifactsMaxBytes l);;
    requirePositive (pageSerializedResponseMaxBytes l);;
    requirePositive (conversationEventsMaxPerPage l);;
    requirePositive (mailboxEntriesMaxPerPage l);;
    requirePositive (conversationRecipientInstallationsMax l);;
    throw_if (BigInt (cursorMaxCharacters l) <? DELIVERY_CURSOR_MIN_CHARACTERS)
      DeliveryValidationError;;
    throw_if (BigInt (pageDecodedArtifactsMaxBytes l) <?
      maxBigInt (BigInt (applicationCiphertextDecodedMaxBytes l))
        (BigInt (externalProposalDecodedMaxBytes l))
        (BigInt (mlsCommitDecodedMaxBytes l) + BigInt (welcomeDecodedMaxBytes l)))
      DeliveryValidationError;;
    minimum ← minimumSerializedDeliveryPageBytes (BigInt (pageDecodedArtifactsMaxBytes l))
      (maxTwoBigInts (BigInt (conversationEventsMaxPerPage l)) (BigInt (mailboxEntriesMaxPerPage l)));
    throw_if (BigInt (pageSerializedResponseMaxBytes l) <? minimum) DeliveryValidationError;;
    Ok l) = Ok l) ↔
  (1 <= BigInt (pageDecodedArtifactsMaxBytes l) ∧ 1 <= BigInt (pageSerializedResponseMaxBytes l) ∧
   1 <= BigInt (conversationEventsMaxPerPage l) ∧ 1 <= BigInt (mailboxEntriesMaxPerPage l) ∧
   1 <= BigInt (conversationRecipientInstallationsMax l) ∧
   43 <= BigInt (cursorMaxCharacters l) ∧
   BigInt (applicationCiphertextDecodedMaxBytes l) <= BigInt (pageDecodedArtifactsMaxBytes l) ∧
   BigInt (externalProposalDecodedMaxBytes l) <= BigInt (pageDecodedArtifactsMaxBytes l) ∧
   BigInt (mlsCommitDecodedMaxBytes l) + BigInt (welcomeDecodedMaxBytes l)
     <= BigInt (pageDecodedArtifactsMaxBytes l) ∧
   (BigInt (pageDecodedArtifactsMaxBytes l) * 4 + 2) / 3 + 4096
     + 4096 * Z.max (BigInt (conversationEventsMaxPerPage l)) (BigInt (mailboxEntriesMaxPerPage l))
     <= BigInt (pageSerializedResponseMaxBytes l)).
Proof.
  intros HF. unfold limits_list in HF. rewrite !Forall_cons in HF.
  destruct HF as (_ & _ & _ & _ & Hd & Hs & He & Hm & Hr & Hc & _).
  pose proof (is_uint63_bound _ Hd). pose proof (is_uint63_bound _ Hs).
  pose proof (is_uint63_bound _ He). pose proof (is_uint63_bound _ Hm).
  rewrite maxBigInt_max, maxTwoBigInts_max. unfold DELIVERY_CURSOR_MIN_CHARACTERS. split.
  - intros HE. inv_result.
    repeat match goal with H : requirePositive _ = _ |- _ => apply requirePositive_Ok in H; [|done] end.
    match goal with H : minimumSerializedDeliveryPageBytes _ _ = _ |- _ =>
      apply minimumSerialized_Ok in H as (? & ? & ->); [|lia] end. lia.
  - intros (K1 & K2 & K3 & K4 & K5 & K6 & K7 & K8 & K9 & K10).
    assert (HP : ∀ s, is_uint63 s = true → 1 <= BigInt s → requirePositive s = Ok ())
      by (intros; by apply requirePositive_Ok).
    rewrite !HP by done. cbn [mbind result_bind].
    destruct (Z.ltb_spec (BigInt (cursorMaxCharacters l)) 43); [lia|]. cbn [throw_if mbind result_bind].
    match goal with |- context [throw_if (?a <? ?b)] => destruct (Z.ltb_spec a b); [lia|] end.
    cbn [throw_if mbind result_bind].
    set (m := Z.max _ _) in *. set (n := BigInt (pageDecodedArtifactsMaxBytes l)) in *.
    rewrite (proj2 (minimumSerialized_Ok n m ((n * 4 + 2) / 3 + 4096 + 4096 * m) ltac:(lia))) by lia.
    cbn [mbind result_bind].
    match goal with |- context [throw_if (?a <? ?b)] => destruct (Z.ltb_spec a b); [lia|done] end.
Qed.

(** *** The record *)

(** The own properties of an object literal. *)
Definition properties (fields : list (string * unknown)) : record :=
  map (λ '(k, v), (KString k, DData v true)) fields.

Lemma descriptor_elem (r : record) k d : NoDup (map fst r) → descriptor r k = Some d ↔ (KString k, d) ∈ r.
Proof.
  unfold descriptor. induction r as [|[k' d'] r IH]; cbn; [intros _; split; [done|by intros ?%elem_of_nil]|].
  intros [HN HD]%NoDup_cons. destruct (propkey_eqb k' (KString k)) eqn:E.
  - apply propkey_eqb_eq in E as ->. cbn. split; [intros [= ->]; left|].
    intros [[= ->]|Hin]%elem_of_cons; [done|]. destruct HN. by exact (list_elem_of_fmap_2 fst _ _ Hin).
  - rewrite IH by done. split; [by right|]. intros [[= <- <-]|Hin]%elem_of_cons; [|done].
    by rewrite (proj2 (propkey_eqb_eq (KString k) (KString k)) eq_refl) in E.
Qed.

Lemma properties_keys keys vs :
  length vs = length keys → map fst (properties (zip keys vs)) = map KString keys.
Proof.
  unfold properties. revert vs. induction keys as [|k keys IH]; intros [|v vs] HL; try done.
  cbn. f_equal. apply IH. by injection HL.
Qed.

(** What makes an object the exact record of some fields: a plain object whose
    own properties are, in any order, those, enumerable. *)
Definition exact_record (v : unknown) (fields : list (string * unknown)) : Prop :=
  ∃ p r, v = VObject p r ∧ (p = ObjectPrototype ∨ p = NullPrototype) ∧ r ≡ₚ properties fields.

Lemma exact_record_reads p r keys vs :
  NoDup keys → length vs = length keys → Forall (λ x, x ≠ VUndefined) vs →
  (p = ObjectPrototype ∨ p = NullPrototype) → r ≡ₚ properties (zip keys vs) →
  expectExactRecord (VObject p r) keys = Ok r ∧ Forall2 (λ k x, r.[k] = x) keys vs.
Proof.
  intros HN HL HU HP HR. pose proof (properties_keys keys vs HL) as HK.
  assert (HKR : map fst r ≡ₚ map KString keys) by by rewrite HR, HK.
  assert (HNR : NoDup (map fst r)).
  { rewrite HKR. apply NoDup_fmap_2; [by intros ? ? [= ->]|done]. }
  assert (HF : Forall2 (λ k x, descriptor r k = Some (DData x true)) keys vs).
  { apply Forall2_same_length_lookup_2; [done|]. intros i k x Hk Hx.
    apply descriptor_elem; [done|]. rewrite HR. apply list_elem_of_fmap. exists (k, x). split; [done|].
    apply (list_elem_of_lookup_2 _ i). apply lookup_zip_with_Some. by exists k, x. }
  split; [|eapply Forall2_impl; [exact HF|]; intros k x Hk; unfold get; by rewrite Hk].
  unfold expectExactRecord, require. assert (HPP : (p === ObjectPrototype) || (p === NullPrototype) = true).
  { apply orb_true_iff. rewrite !bool_decide_eq_true. exact HP. }
  rewrite HPP. cbn [negb throw_if mbind result_bind].
  rewrite !length_map, (Permutation_length HR). unfold properties at 1.
  rewrite length_map, length_zip_with, HL, Nat.min_id, Nat.eqb_refl. cbn [negb orb].
  rewrite (existsb_Permutation _ _ _ HKR), (proj2 (existsb_false _ (map KString keys))).
  2:{ apply Forall_map, Forall_forall. intros k Hk. apply negb_false_iff, existsb_exists.
      exists k. split; [by apply list_elem_of_In|apply String.eqb_refl]. }
  rewrite (proj2 (existsb_false (λ k, negb _) keys)).
  2:{ apply Forall_forall. intros k Hk. apply negb_false_iff. rewrite (existsb_Permutation _ _ _ HKR).
      apply existsb_exists. exists (KString k). split; [by apply in_map, list_elem_of_In|apply String.eqb_refl]. }
  cbn [orb throw_if mbind result_bind]. rewrite (proj2 (existsb_false _ _)); [done|].
  apply Forall_forall. intros k [i Hi]%list_elem_of_lookup_1.
  destruct (Forall2_lookup_l _ _ _ _ _ HF Hi) as (x & Hx & ->).
  eapply Forall_lookup_1 in HU; [|exact Hx]. by destruct x.
Qed.

Lemma expectExactRecord_exact v keys r vs :
  NoDup keys → expectExactRecord v keys = Ok r → Forall2 (λ k x, r.[k] = x) keys vs →
  exact_record v (zip keys vs).
Proof.
  intros HN (p & -> & HP & HL & HK & HD)%expectExactRecord_Ok HF. exists p, r. split; [done|]. split; [done|].
  assert (HKR : map KString keys ≡ₚ map fst r).
  { apply submseteq_length_Permutation; [|by rewrite !length_map, HL].
    apply NoDup_submseteq; [apply NoDup_fmap_2; [by intros ? ? [= ->]|done]|].
    intros k (s & -> & Hs)%list_elem_of_fmap. apply list_elem_of_In, HK. exists s. by rewrite <- list_elem_of_In. }
  assert (HNR : NoDup (map fst r)).
  { rewrite <- HKR. apply NoDup_fmap_2; [by intros ? ? [= ->]|done]. }
  symmetry. apply submseteq_length_Permutation.
  - apply NoDup_submseteq.
    { apply (NoDup_fmap_1 fst). change (NoDup (map fst (properties (zip keys vs)))).
      rewrite properties_keys by (by apply Forall2_length in HF). by rewrite HKR. }
    intros [k d] ([s x] & [= -> ->] & (i & Hi)%list_elem_of_lookup_1)%list_elem_of_fmap.
    apply lookup_zip_with_Some in Hi as (? & ? & [= <- <-] & Hs & Hx).
    apply descriptor_elem; [done|]. pose proof (Forall2_lookup_lr _ _ _ _ _ _ HF Hs Hx) as HG.
    destruct (HD s) as (y & Hy & _); [by apply list_elem_of_In; eapply list_elem_of_lookup_2|].
    unfold get in HG. rewrite Hy in *. by subst.
  - unfold properties. rewrite length_map, length_zip_with. apply Forall2_length in HF. lia.
Qed.

Lemma limit_keys_nodup : NoDup DELIVERY_LIMIT_KEYS.
Proof. apply nodup_keys. reflexivity. Qed.

Lemma valid_uint63 l : valid_limits l → Forall (λ s, is_uint63 s = true) (limits_list l).
Proof. intros [HF _]. clear -HF. induction HF as [|???? []]; auto. Qed.

(** The record of the limits [l]: each value under its own key. *)
Definition limits_record (v : unknown) (l : DeliveryLimits) : Prop :=
  exact_record v (zip DELIVERY_LIMIT_KEYS (map VString (limits_list l))).

Lemma parseDeliveryLimits_record v l : parseDeliveryLimits v = Ok l → limits_record v l ∧ valid_limits l.
Proof.
  unfold parseDeliveryLimits. intros H. apply bind_Ok in H as (r & HX & H).
  apply bind_Ok in H as (vs & Hvs & H). apply mapR_Ok in Hvs.
  assert (limits_list (limitsOf vs) = vs) as HE.
  { apply Forall2_length in Hvs as HL. clear -HL.
    do 11 (destruct vs as [|? vs]; [discriminate HL|]). by destruct vs. }
  assert (l = limitsOf vs) as -> by (clear -H; by inv_result).
  split.
  { unfold limits_record. rewrite HE. eapply expectExactRecord_exact; [apply limit_keys_nodup|exact HX|].
    apply Forall2_fmap_r. eapply Forall2_impl; [exact Hvs|]. intros k s Hk. cbn in Hk. by apply parseLimit_Ok in Hk as (? & _). }
  assert (HF : Forall2 (λ key s, is_uint63 s = true ∧ BigInt s <= BigInt (DELIVERY_TESTED_CEILINGS key))
    DELIVERY_LIMIT_KEYS vs).
  { eapply Forall2_impl; [exact Hvs|]. intros k s Hk. cbn in Hk. by apply parseLimit_Ok in Hk as (_ & ?). }
  split; [by rewrite HE|]. apply manifest_checks; [|exact H].
  rewrite HE. clear -HF. induction HF as [|???? []]; auto.
Qed.

Lemma parseDeliveryLimits_valid v l : parseDeliveryLimits v = Ok l → valid_limits l.
Proof. by intros [_ HV]%parseDeliveryLimits_record. Qed.

Lemma parseDeliveryLimits_complete v l : limits_record v l → valid_limits l → parseDeliveryLimits v = Ok l.
Proof.
  intros (p & r & -> & HP & HR) HV. pose proof (valid_uint63 _ HV) as HU. destruct HV as [HF HM].
  destruct (exact_record_reads p r _ (map VString (limits_list l)) limit_keys_nodup eq_refl (ltac:(by apply Forall_map, Forall_forall)) HP HR) as [HX HG].
  unfold parseDeliveryLimits. rewrite HX. cbn [mbind result_bind].
  rewrite (proj2 (mapR_Ok _ _ (limits_list l))).
  { cbn [mbind result_bind]. rewrite limitsOf_list. by apply manifest_checks. }
  apply Forall2_fmap_r in HG. apply Forall2_same_length_lookup_2; [by eapply Forall2_length|].
  intros i k s Hk Hs. apply parseLimit_Ok. split; [exact (Forall2_lookup_lr _ _ _ _ _ _ HG Hk Hs)|].
  exact (Forall2_lookup_lr _ _ _ _ _ _ HF Hk Hs).
Qed.

(** C38: The manifest parser returns the limits [l] on exactly the values that are
    their record, a plain object whose own properties are the eleven limits, each
    value a string under its own key and nothing else, in any order, where each
    value is canonical and at most the ceiling of its key and together they
    satisfy the page conditions; on any other value it throws. *)
Theorem parseDeliveryLimits_spec v l :
  parseDeliveryLimits v = Ok l ↔ limits_record v l ∧ valid_limits l.
Proof.
  split; [apply parseDeliveryLimits_record|]. intros [HR HV]. by apply parseDeliveryLimits_complete.
Qed.

(** Rounding each artifact up separately costs at most one character per
    artifact. *)
Lemma encoded_sum arts :
  sum_list_with (λ a, Z.to_nat (strlen (base64url_encode a))) arts
  = Z.to_nat (foldr (λ a acc, (Z.of_nat (length a) * 4 + 2) / 3 + acc) 0 arts) ∧
  0 <= foldr (λ a acc, (Z.of_nat (length a) * 4 + 2) / 3 + acc) 0 arts ∧
  3 * foldr (λ a acc, (Z.of_nat (length a) * 4 + 2) / 3 + acc) 0 arts
    <= 4 * Z.of_nat (sum_list_with length arts) + 2 * Z.of_nat (length arts).
Proof.
  induction arts as [|a arts (IH1 & IH2 & IH3)]; cbn; [lia|].
  rewrite length_base64url_encode, IH1.
  pose proof (Z.mul_div_le (Z.of_nat (length a) * 4 + 2) 3 ltac:(lia)).
  pose proof (Z.div_pos (Z.of_nat (length a) * 4 + 2) 3 ltac:(lia) ltac:(lia)). lia.
Qed.

(** A page within its limits fits its serialized bound: whatever artifacts
    fill the decoded budget, at most one or two per item, their base64url
    text, the fixed framing and 4,094 bytes of metadata per item stay within
    [pageSerializedResponseMaxBytes]. *)
Theorem maximum_page_fits v l (arts : list bytes) (items : Z) :
  parseDeliveryLimits v = Ok l →
  Z.of_nat (sum_list_with length arts) <= BigInt (pageDecodedArtifactsMaxBytes l) →
  Z.of_nat (length arts) <= 2 * items →
  items <= Z.max (BigInt (conversationEventsMaxPerPage l)) (BigInt (mailboxEntriesMaxPerPage l)) →
  Z.of_nat (sum_list_with (λ a, Z.to_nat (strlen (base64url_encode a))) arts) + 4096 + 4094 * items
    <= BigInt (pageSerializedResponseMaxBytes l).
Proof.
  intros (_ & _ & _ & _ & _ & _ & _ & _ & _ & _ & HP)%parseDeliveryLimits_valid Hb Hn Hi.
  destruct (encoded_sum arts) as (-> & H0 & H1). rewrite Z2Nat.id by done.
  pose proof (Z.div_mod (BigInt (pageDecodedArtifactsMaxBytes l) * 4 + 2) 3 ltac:(lia)).
  pose proof (Z.mod_pos_bound (BigInt (pageDecodedArtifactsMaxBytes l) * 4 + 2) 3 ltac:(lia)). lia.
Qed.

(** ** Evaluations *)

Definition reviewed_limits : DeliveryLimits := limitsOf
  ["65536"; "262144"; "524288"; "262144"; "1048576"; "8388608"; "500"; "100"; "2500"; "1024"; "10"].

(** The order of the keys is immaterial; a further key, a value under the wrong key
    or one above the ceiling of its key is not. *)
Definition reviewed_fields : list (string * unknown) := zip DELIVERY_LIMIT_KEYS (map VString (limits_list reviewed_limits)).
Example reviewed_limits_any_order : parseDeliveryLimits (obj (rev reviewed_fields)) = Ok reviewed_limits.
Proof. reflexivity. Qed.
Example reviewed_limits_no_more :
  parseDeliveryLimits (obj (reviewed_fields ++ [("roomMembersMax", VString "10")])) = invalid ∧
  parseDeliveryLimits (obj (zip DELIVERY_LIMIT_KEYS (map VString (rev (limits_list reviewed_limits))))) = invalid.
Proof. split; reflexivity. Qed.

Lemma encodedLength_is_base64url_witness : strlen (base64url_encode (repeat Byte.x41 32)) = 43.
Proof. apply encodedLength_is_base64url. reflexivity. Defined.

Lemma maximum_page_fits_witness :
  Z.of_nat (sum_list_with (λ a, Z.to_nat (strlen (base64url_encode a))) [repeat Byte.x41 32]) + 4096 + 4094 * 1
    <= BigInt (pageSerializedResponseMaxBytes reviewed_limits).
Proof.
  apply (maximum_page_fits (limits_obj reviewed_limits) reviewed_limits [repeat Byte.x41 32] 1);
    by vm_compute.
Defined.
