(* ===== verification/WitnessCore.v ===== *)
(** * The transparency witness ([src/production/witness/witnessCore.ts])

    The witness's own database (tables and constraints of
    [witness/migrations/0001_witness_baseline.sql]) as a record of row lists,
    and one definition per operation of [createWitnessCore].  An operation runs
    in one transaction: it returns a value with the new database, or throws
    and leaves the database as it was.  Writers of a namespace are serialized
    by the row lock they take first, so a history is a sequence of operations.

    What the code calls and does not define is a parameter: the signer, Node's
    Ed25519 verification, Postgres's casts from text, the database clock (a
    millisecond instant per call) and random bytes. *)

From stdpp Require Import base list sets strings relations.
From Stdlib Require Import ZArith Lia Ascii.
From S2P Require Import Prelude Sha256 Base64Url JsTime JsValue ValueObjects MerkleLog Hashes.

Definition WITNESS_CHECKPOINT_DOMAIN : string := "jb-msg-witness-checkpoint/v1".
Definition ZERO_HASH_32 : bytes := repeat Byte.x00 32.

Inductive WitnessNamespace := delivery | policy | directory.

#[export] Instance WitnessNamespace_eq_dec : EqDecision WitnessNamespace.
Proof. solve_decision. Defined.

Definition namespace_string (ns : WitnessNamespace) : string :=
  match ns with delivery => "delivery" | policy => "policy" | directory => "directory" end.

Record WitnessCheckpoint := {
  checkpointId : string;
  namespace : WitnessNamespace;
  treeSize : string;
  rootHash : string;
  witnessKeyId : string;
  witnessSignature : string;
  witnessedAt : string;
}.

Inductive DeliveryExtensionResult :=
| DeliveryWitnessed (receipt : WitnessCheckpoint)
| DeliveryEquivocation (position witnessedHeadHash submittedHeadHash : string)
| DeliveryRejected (reasonCode : string).

Inductive ChainExtensionResult :=
| ChainWitnessed (receipt : WitnessCheckpoint)
| ChainEquivocation (expectedPreviousCheckpointId submittedPreviousCheckpointId : option string)
| ChainRejected (reasonCode : string).

(** ** The database *)

Record leafRow := {
  lf_namespace : WitnessNamespace;
  lf_index : Z;
  lf_payload : bytes;
  lf_hash : bytes;
  lf_appendedAt : Z;
}.
Record checkpointRow := {
  cp_id : string;
  cp_namespace : WitnessNamespace;
  cp_size : Z;
  cp_root : bytes;
  cp_keyId : string;
  cp_signature : bytes;
  cp_at : Z;
}.
Record headRow := {
  hd_conversation : string;
  hd_position : Z;
  hd_hash : bytes;
  hd_index : Z;
}.
Record keyRow := {
  key_id : string;
  key_public : bytes;
  key_validFrom : Z;
  key_validUntil : Z;
}.
Record gossipRow := {
  gr_id : string;
  gr_conversation : string;
  gr_position : Z;
  gr_head : bytes;
  gr_checkpoint : string;
  gr_splitView : bool;
  gr_at : Z;
}.

Record db := Db {
  witness_leaves : list leafRow;
  witness_checkpoints : list checkpointRow;
  witness_delivery_heads : list headRow;
  (** [last_upstream_checkpoint_id] and [updated_at] of the three rows. *)
  witness_chain_heads : WitnessNamespace → option string * Z;
  witness_submitter_keys : list keyRow;
  witness_gossip_reports : list gossipRow;
}.

(** [ORDER BY key], ascending. *)
Fixpoint insert_by {A} (key : A → Z) (x : A) (l : list A) : list A :=
  match l with
  | [] => [x]
  | y :: l' => if key x <=? key y then x :: l else y :: insert_by key x l'
  end.
Definition order_by {A} (key : A → Z) (l : list A) : list A := foldr (insert_by key) [] l.

Definition BIGINT_MAX : Z := 9223372036854775807.
Definition in_namespace {A} (f : A → WitnessNamespace) (ns : WitnessNamespace) (l : list A) : list A :=
  List.filter (λ r, f r === ns) l.

(** A row that violates a constraint makes the INSERT throw. *)
Definition insert_leaf (r : leafRow) (d : db) : result db :=
  throw_if ((BIGINT_MAX <? lf_index r) || (lf_index r <? 0)
            || (4096 <? byteLength (lf_payload r)) || negb (byteLength (lf_hash r) =? 32)
            || existsb (λ r', (lf_namespace r' === lf_namespace r) && (lf_index r' =? lf_index r))
                 (witness_leaves d)) GenericError;;
  Ok (Db (witness_leaves d ++ [r]) (witness_checkpoints d) (witness_delivery_heads d)
        (witness_chain_heads d) (witness_submitter_keys d) (witness_gossip_reports d)).

Definition insert_checkpoint (r : checkpointRow) (d : db) : result db :=
  throw_if ((BIGINT_MAX <? cp_size r) || (cp_size r <? 1) || negb (byteLength (cp_root r) =? 32)
            || (byteLength (utf8 (cp_keyId r)) <? 1) || (64 <? byteLength (utf8 (cp_keyId r)))
            || negb (byteLength (cp_signature r) =? 64)
            || existsb (λ r', (cp_id r' === cp_id r)
                              || ((cp_namespace r' === cp_namespace r) && (cp_size r' =? cp_size r)))
                 (witness_checkpoints d)) GenericError;;
  Ok (Db (witness_leaves d) (witness_checkpoints d ++ [r]) (witness_delivery_heads d)
        (witness_chain_heads d) (witness_submitter_keys d) (witness_gossip_reports d)).

Definition insert_head (r : headRow) (d : db) : result db :=
  throw_if ((BIGINT_MAX <? hd_position r) || (hd_position r <? 1) || negb (byteLength (hd_hash r) =? 32)
            || existsb (λ r', (hd_conversation r' === hd_conversation r)
                              && (hd_position r' =? hd_position r)) (witness_delivery_heads d))
    GenericError;;
  Ok (Db (witness_leaves d) (witness_checkpoints d) (witness_delivery_heads d ++ [r])
        (witness_chain_heads d) (witness_submitter_keys d) (witness_gossip_reports d)).

Definition insert_gossip (r : gossipRow) (d : db) : result db :=
  throw_if ((BIGINT_MAX <? gr_position r) || (gr_position r <? 1) || negb (byteLength (gr_head r) =? 32)
            || existsb (λ r', gr_id r' === gr_id r) (witness_gossip_reports d)) GenericError;;
  Ok (Db (witness_leaves d) (witness_checkpoints d) (witness_delivery_heads d)
        (witness_chain_heads d) (witness_submitter_keys d) (witness_gossip_reports d ++ [r])).

Definition set_chain_head (ns : WitnessNamespace) (id : string) (at_ : Z) (d : db) : db :=
  Db (witness_leaves d) (witness_checkpoints d) (witness_delivery_heads d)
    (λ ns', if ns' === ns then (Some id, at_) else witness_chain_heads d ns')
    (witness_submitter_keys d) (witness_gossip_reports d).

(** ** Encodings *)

Definition lengthPrefixed (value : bytes) : result bytes :=
  throw_if (U32_MAX <? byteLength value) RangeError;;
  Ok (u32be (byteLength value) ++ value).

Definition b64 (value : bytes) : string := base64url_encode value.

Definition hex_char (n : Z) : ascii :=
  if n <? 10 then ascii_of_N (Z.to_N (48 + n)) else ascii_of_N (Z.to_N (87 + n)).
Definition hex (bs : bytes) : list ascii :=
  flat_map (λ b, [hex_char (Z.shiftr (Z_of_byte b) 4); hex_char (Z.land (Z_of_byte b) 15)]) bs.

(** [bytes] is the result of [randomBytes(16)]. *)
Definition uuidV4 (bytes : bytes) : string :=
  let nth i := default Byte.x00 (bytes !! i) in
  let bytes := <[6%nat := byte_of_Z (Z.lor (Z.land (Z_of_byte (nth 6%nat)) 15) 64)]> bytes in
  let bytes := <[8%nat := byte_of_Z (Z.lor (Z.land (Z_of_byte (nth 8%nat)) 63) 128)]> bytes in
  let h := hex bytes in
  let slice a b := firstn (b - a) (skipn a h) in
  String.string_of_list_ascii
    (slice 0 8 ++ "-"%char :: slice 8 12 ++ "-"%char :: slice 12 16 ++ "-"%char
     :: slice 16 20 ++ "-"%char :: skipn 20 h)%nat.

(** ** Operations *)

(** What the core is created with. *)
Class WitnessContext := {
  signer_witnessKeyId : string;
  signer_sign : bytes → bytes;
  verifyEd25519 : bytes → bytes → bytes → bool;
  pg_timestamptz : string → option Z;
  pg_uuid : string → option string;
  pg_bigint : string → option Z;
}.

(** The instant and the random bytes of one call. *)
Record env := { env_now : Z; env_random : bytes }.

Record DeliveryInput := {
  in_conversationId : string;
  in_position : string;
  in_previousHeadHash : string;
  in_headHash : string;
  in_signingKeyId : string;
  in_signature : string;
  in_checkpointReceivedAt : string;
}.
Record ChainInput := {
  ch_checkpointId : string;
  ch_treeSize : string;
  ch_rootHash : string;
  ch_previousCheckpointId : option string;
  ch_signerKeyId : string;
}.
Record GossipInput := {
  go_conversationId : string;
  go_position : string;
  go_headHash : string;
  go_witnessCheckpointId : string;
}.

Section Core.
Context `{SHA : Sha256} `{CTX : WitnessContext}.

Definition cast {A} (o : option A) : result A :=
  match o with Some a => Ok a | None => Throw GenericError end.

Definition computeWitnessCheckpointDigest (ns checkpointId treeSize : string) (rootHash : bytes)
    (keyId at_ : string) : result bytes :=
  n ← lengthPrefixed (utf8 ns);
  c ← lengthPrefixed (utf8 checkpointId);
  t ← lengthPrefixed (utf8 treeSize);
  r ← lengthPrefixed rootHash;
  k ← lengthPrefixed (utf8 keyId);
  w ← lengthPrefixed (utf8 at_);
  Ok (sha256 (utf8 WITNESS_CHECKPOINT_DOMAIN ++ n ++ c ++ t ++ r ++ k ++ w)).

Definition loadLeafHashes (d : db) (ns : WitnessNamespace) (limit : option Z) : list bytes :=
  let rows := in_namespace lf_namespace ns (witness_leaves d) in
  let rows :=
    match limit with
    | None => rows
    | Some limit => List.filter (λ r, lf_index r <? limit) rows
    end in
  map lf_hash (order_by lf_index rows).

Definition checkpointFromRow (row : checkpointRow) : WitnessCheckpoint := {|
  checkpointId := cp_id row; namespace := cp_namespace row; treeSize := decimal (cp_size row);
  rootHash := b64 (cp_root row); witnessKeyId := cp_keyId row;
  witnessSignature := b64 (cp_signature row); witnessedAt := toISOString (cp_at row) |}.

Definition appendAndCheckpoint (e : env) (ns : WitnessNamespace) (leafPayload : bytes) (d : db) :
  result (WitnessCheckpoint * Z * db) :=
  let existing := loadLeafHashes d ns None in
  let treeIndex := size existing in
  let hash := leafHash leafPayload in
  d ← insert_leaf {| lf_namespace := ns; lf_index := treeIndex; lf_payload := leafPayload;
                     lf_hash := hash; lf_appendedAt := env_now e |} d;
  let treeSize := treeIndex + 1 in
  let rootHash := merkleRoot (existing ++ [hash]) in
  let checkpointId := uuidV4 (env_random e) in
  digest ← computeWitnessCheckpointDigest (namespace_string ns) checkpointId (decimal treeSize)
             rootHash signer_witnessKeyId (toISOString (env_now e));
  let signature := signer_sign digest in
  d ← insert_checkpoint {| cp_id := checkpointId; cp_namespace := ns; cp_size := treeSize;
                           cp_root := rootHash; cp_keyId := signer_witnessKeyId;
                           cp_signature := signature; cp_at := env_now e |} d;
  Ok ({| checkpointId := checkpointId; namespace := ns; treeSize := decimal treeSize;
         rootHash := b64 rootHash; witnessKeyId := signer_witnessKeyId;
         witnessSignature := b64 signature; witnessedAt := toISOString (env_now e) |}, treeIndex, d).

Definition heads_at (d : db) (conversationId : string) (position : Z) : list headRow :=
  List.filter (λ r, (hd_conversation r === conversationId) && (hd_position r =? position))
    (witness_delivery_heads d).

Definition deliveryPayload (i : DeliveryInput) : result bytes :=
  c ← lengthPrefixed (utf8 (in_conversationId i));
  p ← lengthPrefixed (utf8 (in_position i));
  v ← lengthPrefixed (base64url_decode (in_previousHeadHash i));
  h ← lengthPrefixed (base64url_decode (in_headHash i));
  k ← lengthPrefixed (utf8 (in_signingKeyId i));
  Ok (c ++ p ++ v ++ h ++ k).

Definition checkpointInput (i : DeliveryInput) : unknown :=
  obj [("conversationId", VString (in_conversationId i)); ("position", VString (in_position i));
       ("previousHeadHash", VString (in_previousHeadHash i)); ("headHash", VString (in_headHash i));
       ("signingKeyId", VString (in_signingKeyId i))].

Definition extendDelivery (e : env) (input : DeliveryInput) (d : db) :
  result (DeliveryExtensionResult * db) :=
  receivedAt ← cast (pg_timestamptz (in_checkpointReceivedAt input));
  let submitterKeys := List.filter (λ k, (key_id k === in_signingKeyId input)
      && (key_validFrom k <=? receivedAt) && (receivedAt <? key_validUntil k))
    (witness_submitter_keys d) in
  match submitterKeys with
  | [key] =>
      digest ← computeDeliveryLogCheckpointDigest (checkpointInput input);
      if negb (verifyEd25519 (key_public key) (base64url_decode digest)
                 (base64url_decode (in_signature input)))
      then Ok (DeliveryRejected "submitter-signature-invalid", d)
      else
      let position := BigInt (in_position input) in
      match heads_at d (in_conversationId input) position with
      | [existing] =>
          let witnessedHead := b64 (hd_hash existing) in
          if witnessedHead === in_headHash input then Ok (DeliveryRejected "already-witnessed", d)
          else Ok (DeliveryEquivocation (in_position input) witnessedHead (in_headHash input), d)
      | _ =>
          let expectedPrevious :=
            if position =? 1 then Some ZERO_HASH_32
            else match heads_at d (in_conversationId input) (position - 1) with
                 | [previous] => Some (hd_hash previous)
                 | _ => None
                 end in
          if bool_decide (expectedPrevious = Some (base64url_decode (in_previousHeadHash input))) then
            leafPayload ← deliveryPayload input;
            '(receipt, treeIndex, d) ← appendAndCheckpoint e delivery leafPayload d;
            d ← insert_head {| hd_conversation := in_conversationId input; hd_position := position;
                               hd_hash := base64url_decode (in_headHash input);
                               hd_index := treeIndex |} d;
            Ok (DeliveryWitnessed receipt, d)
          else Ok (DeliveryRejected "not-an-extension", d)
      end
  | _ => Ok (DeliveryRejected "submitter-key-unknown", d)
  end.

Definition chainPayload (i : ChainInput) : result bytes :=
  c ← lengthPrefixed (utf8 (ch_checkpointId i));
  t ← lengthPrefixed (utf8 (ch_treeSize i));
  r ← lengthPrefixed (base64url_decode (ch_rootHash i));
  p ← lengthPrefixed (utf8 (default "" (ch_previousCheckpointId i)));
  k ← lengthPrefixed (utf8 (ch_signerKeyId i));
  Ok (c ++ t ++ r ++ p ++ k).

Definition extendChain (e : env) (ns : WitnessNamespace) (input : ChainInput) (d : db) :
  result (ChainExtensionResult * db) :=
  let last := fst (witness_chain_heads d ns) in
  if last !== ch_previousCheckpointId input then
    Ok (ChainEquivocation last (ch_previousCheckpointId input), d)
  else
    leafPayload ← chainPayload input;
    '(receipt, _, d) ← appendAndCheckpoint e ns leafPayload d;
    id ← cast (pg_uuid (ch_checkpointId input));
    Ok (ChainWitnessed receipt, set_chain_head ns id (env_now e) d).

Definition readCheckpoint (checkpointId : string) (d : db) : result (option WitnessCheckpoint) :=
  id ← cast (pg_uuid checkpointId);
  Ok match List.filter (λ r, cp_id r === id) (witness_checkpoints d) with
     | [row] => Some (checkpointFromRow row)
     | _ => None
     end.

(** [ORDER BY tree_size DESC LIMIT 1]. *)
Definition latestCheckpoint (ns : WitnessNamespace) (d : db) : option WitnessCheckpoint :=
  checkpointFromRow <$> last (order_by cp_size (in_namespace cp_namespace ns (witness_checkpoints d))).

(** Tree sizes and indices as the bigints the code converts its arguments to. *)
Definition proveConsistency (ns : WitnessNamespace) (from to : Z) (d : db) :
  result (option (list string)) :=
  if (from <? 1) || (to <? from) then Ok None
  else
    let hashes := loadLeafHashes d ns (Some to) in
    if negb (size hashes =? to) then Ok None
    else proof ← consistencyProof hashes from; Ok (Some (map b64 proof)).

Definition proveInclusion (ns : WitnessNamespace) (index size_ : Z) (d : db) :
  result (option (list string)) :=
  if (index <? 0) || (size_ <=? index) then Ok None
  else
    let hashes := loadLeafHashes d ns (Some size_) in
    if negb (size hashes =? size_) then Ok None
    else proof ← inclusionProof hashes index; Ok (Some (map b64 proof)).

Definition reportGossip (e : env) (input : GossipInput) (d : db) : result (bool * db) :=
  conversationId ← cast (pg_uuid (go_conversationId input));
  position ← cast (pg_bigint (go_position input));
  let splitView :=
    match heads_at d conversationId position with
    | [] => true
    | row :: _ => b64 (hd_hash row) !== go_headHash input
    end in
  witnessCheckpointId ← cast (pg_uuid (go_witnessCheckpointId input));
  d ← insert_gossip {| gr_id := uuidV4 (env_random e); gr_conversation := conversationId;
                       gr_position := position; gr_head := base64url_decode (go_headHash input);
                       gr_checkpoint := witnessCheckpointId; gr_splitView := splitView;
                       gr_at := env_now e |} d;
  Ok (splitView, d).

Definition splitViewCount (d : db) : Z :=
  Z.of_nat (length (List.filter gr_splitView (witness_gossip_reports d))).

(** ** Histories *)

(** The migration's database. *)
Definition init (t0 : Z) : db := Db [] [] [] (λ _, (None, t0)) [] [].

(** Any submitter key registration by the operator's script. *)
Definition with_keys (keys : list keyRow) (d : db) : db :=
  Db (witness_leaves d) (witness_checkpoints d) (witness_delivery_heads d)
    (witness_chain_heads d) keys (witness_gossip_reports d).

Inductive step : db → db → Prop :=
| step_delivery e i d r d' : extendDelivery e i d = Ok (r, d') → step d d'
| step_chain e ns i d r d' : ns ≠ delivery → extendChain e ns i d = Ok (r, d') → step d d'
| step_gossip e i d r d' : reportGossip e i d = Ok (r, d') → step d d'
| step_keys keys d : step d (with_keys keys d).

Inductive reachable (t0 : Z) : db → Prop :=
| reach_init : reachable t0 (init t0)
| reach_step d d' : reachable t0 d → step d d' → reachable t0 d'.

End Core.

(** ** Tables whose key is the row number *)

Definition numbered {A} (key : A → Z) (a : nat) (l : list A) : Prop :=
  map key l = map Z.of_nat (seq a (length l)).

Lemma numbered_cons {A} (key : A → Z) a x l :
  numbered key a (x :: l) ↔ key x = Z.of_nat a ∧ numbered key (S a) l.
Proof. unfold numbered. cbn. split; [by intros [= ? ?] | by intros [-> ->]]. Qed.

Lemma numbered_app {A} (key : A → Z) a l x :
  numbered key a l → key x = Z.of_nat (a + length l) → numbered key a (l ++ [x]).
Proof.
  unfold numbered. intros H Hx. rewrite length_app, map_app, H. cbn [length map].
  rewrite seq_app, map_app. cbn. by rewrite Hx.
Qed.

Lemma numbered_lookup {A} (key : A → Z) a l i x :
  numbered key a l → l !! i = Some x → key x = Z.of_nat (a + i).
Proof.
  revert a i. induction l as [|y l IH]; intros a i; [done|].
  intros [Hy Hl]%numbered_cons. destruct i as [|i]; cbn.
  - intros [= ->]. rewrite Hy. f_equal. lia.
  - intros Hi. rewrite (IH _ _ Hl Hi). f_equal. lia.
Qed.

Lemma order_by_numbered {A} (key : A → Z) a l : numbered key a l → order_by key l = l.
Proof.
  revert a. induction l as [|x l IH]; intros a; [done|]. intros [Hx Hl]%numbered_cons.
  cbn. fold (order_by key l). rewrite (IH _ Hl). destruct l as [|y l]; [done|].
  apply numbered_cons in Hl as [Hy _]. cbn. destruct (Z.leb_spec (key x) (key y)); [done|lia].
Qed.

Lemma filter_numbered {A} (key : A → Z) a l lim :
  numbered key a l →
  List.filter (λ r, key r <? lim) l = take (Z.to_nat (lim - Z.of_nat a)) l.
Proof.
  revert a. induction l as [|x l IH]; intros a; [by rewrite take_nil|]. intros [Hx Hl]%numbered_cons.
  cbn. rewrite (IH _ Hl), Hx. destruct (Z.ltb_spec (Z.of_nat a) lim).
  - replace (Z.to_nat (lim - Z.of_nat a)) with (S (Z.to_nat (lim - Z.of_nat (S a)))) by lia. done.
  - replace (Z.to_nat (lim - Z.of_nat a)) with 0%nat by lia.
    by replace (Z.to_nat (lim - Z.of_nat (S a))) with 0%nat by lia.
Qed.

Lemma filter_numbered_eq {A} (key : A → Z) a l k :
  numbered key a l →
  List.filter (λ r, key r =? k) l
  = if Z.of_nat a <=? k then option_list (l !! Z.to_nat (k - Z.of_nat a)) else [].
Proof.
  revert a. induction l as [|x l IH]; intros a; [by destruct (_ <=? _)|]. intros [Hx Hl]%numbered_cons.
  cbn. rewrite (IH _ Hl), Hx.
  destruct (Z.eqb_spec (Z.of_nat a) k) as [<-|Hne].
  - rewrite Z.leb_refl, Z.sub_diag. cbn. destruct (Z.leb_spec (Z.of_nat (S a)) (Z.of_nat a)); [lia|done].
  - destruct (Z.leb_spec (Z.of_nat a) k), (Z.leb_spec (Z.of_nat (S a)) k); try lia; [|done].
    replace (Z.to_nat (k - Z.of_nat a)) with (S (Z.to_nat (k - Z.of_nat (S a)))) by lia. done.
Qed.

Lemma in_namespace_snoc {A} (f : A → WitnessNamespace) ns l x :
  in_namespace f ns (l ++ [x]) = in_namespace f ns l ++ (if decide (f x = ns) then [x] else []).
Proof. unfold in_namespace. rewrite List.filter_app. cbn. case_bool_decide; by case_decide. Qed.

Lemma elem_in_namespace {A} (f : A → WitnessNamespace) ns l x :
  x ∈ in_namespace f ns l ↔ x ∈ l ∧ f x = ns.
Proof.
  unfold in_namespace. rewrite !list_elem_of_In, filter_In, bool_decide_eq_true. done.
Qed.

(** ** Generated identifiers *)

Lemma hex_byte b :
  is_hex (hex_char (Z.shiftr (Z_of_byte b) 4)) = true ∧ is_hex (hex_char (Z.land (Z_of_byte b) 15)) = true.
Proof. by destruct b. Qed.
Lemma hex_version b :
  let c := byte_of_Z (Z.lor (Z.land (Z_of_byte b) 15) 64) in
  hex_char (Z.shiftr (Z_of_byte c) 4) = "4"%char ∧ is_hex (hex_char (Z.land (Z_of_byte c) 15)) = true.
Proof. by destruct b. Qed.
Lemma hex_variant b :
  let c := byte_of_Z (Z.lor (Z.land (Z_of_byte b) 63) 128) in
  is_variant (hex_char (Z.shiftr (Z_of_byte c) 4)) = true ∧ is_hex (hex_char (Z.land (Z_of_byte c) 15)) = true.
Proof. by destruct b. Qed.

Lemma uuidV4_is_uuid4 bs : length bs = 16%nat → is_uuid4 (uuidV4 bs) = true.
Proof.
  intros H. do 16 (destruct bs as [|? bs]; [discriminate H|]). destruct bs; [|discriminate H].
  unfold is_uuid4, matches, uuidV4. rewrite chars_of_list.
  cbn -[is_hex hex_char Z.lor Z.land Z.shiftr byte_of_Z Z_of_byte is_variant is_char].
  rewrite !(proj1 (hex_version _)), !(proj2 (hex_version _)), !(proj1 (hex_variant _)), !(proj2 (hex_variant _)).
  by rewrite !(proj1 (hex_byte _)), !(proj2 (hex_byte _)).
Qed.

Section Facts.
Context `{SHA : Sha256} `{CTX : WitnessContext}.

(** ** The invariant *)

Definition rows (d : db) (ns : WitnessNamespace) : list leafRow :=
  in_namespace lf_namespace ns (witness_leaves d).
Definition hashes (d : db) (ns : WitnessNamespace) : list bytes := map lf_hash (rows d ns).
Definition conversation_heads (d : db) (conv : string) : list headRow :=
  List.filter (λ h, hd_conversation h === conv) (witness_delivery_heads d).

(** The head a submission must name as its predecessor. *)
Definition previous_head (hs : list headRow) (conv : string) (position : Z) (prev : bytes) : Prop :=
  (position = 1 ∧ prev = ZERO_HASH_32) ∨
  (∃ h, h ∈ hs ∧ hd_conversation h = conv ∧ hd_position h = position - 1 ∧ hd_hash h = prev).

(** A head row records the submission that the leaf at its index encodes. *)
Definition records (d : db) (h : headRow) (row : leafRow) : Prop :=
  ∃ i, deliveryPayload i = Ok (lf_payload row) ∧ in_conversationId i = hd_conversation h ∧
    BigInt (in_position i) = hd_position h ∧ base64url_decode (in_headHash i) = hd_hash h ∧
    previous_head (witness_delivery_heads d) (hd_conversation h) (hd_position h)
      (base64url_decode (in_previousHeadHash i)).

(** Each namespace's leaves are numbered from zero, its checkpoints count them
    one by one, and each root is the root of that many leaves. *)
Record log_inv (d : db) : Prop := {
  inv_index : ∀ ns, numbered lf_index 0 (rows d ns);
  inv_hash : Forall (λ r, lf_hash r = leafHash (lf_payload r)) (witness_leaves d);
  inv_size : ∀ ns, numbered cp_size 1 (in_namespace cp_namespace ns (witness_checkpoints d));
  inv_count : ∀ ns, length (in_namespace cp_namespace ns (witness_checkpoints d)) = length (rows d ns);
  inv_root : Forall (λ c, cp_root c = merkleRoot (slice_to (cp_size c) (hashes d (cp_namespace c))))
    (witness_checkpoints d);
  inv_ids : NoDup (map cp_id (witness_checkpoints d));
}.

(** Each conversation's witnessed positions are exactly 1, 2, ..., n; head row
    number i records delivery leaf number i. *)
Record heads_inv (d : db) : Prop := {
  inv_position : ∀ conv, numbered hd_position 1 (conversation_heads d conv);
  inv_head_index : numbered hd_index 0 (witness_delivery_heads d);
  inv_head : Forall2 (records d) (witness_delivery_heads d) (rows d delivery);
}.

Definition winv (d : db) : Prop := log_inv d ∧ heads_inv d.

Lemma loadLeafHashes_all d ns : log_inv d → loadLeafHashes d ns None = hashes d ns.
Proof. intros Hd. unfold loadLeafHashes. by rewrite (order_by_numbered _ 0) by apply inv_index, Hd. Qed.

Lemma numbered_take {A} (key : A → Z) a l n : numbered key a l → numbered key a (take n l).
Proof.
  revert a n. induction l as [|x l IH]; intros a n; [by rewrite take_nil|].
  intros [Hx Hl]%numbered_cons. destruct n; [done|]. cbn. apply numbered_cons. auto.
Qed.

Lemma loadLeafHashes_limit d ns n :
  log_inv d → loadLeafHashes d ns (Some n) = slice_to n (hashes d ns).
Proof.
  intros Hd. unfold loadLeafHashes. fold (rows d ns).
  rewrite (filter_numbered _ 0) by apply inv_index, Hd. rewrite Z.sub_0_r.
  rewrite (order_by_numbered _ 0) by apply numbered_take, inv_index, Hd.
  unfold hashes, slice_to. by rewrite firstn_map.
Qed.

Lemma hashes_length d ns : size (hashes d ns) = Z.of_nat (length (rows d ns)).
Proof. unfold size, hashes. by rewrite length_map. Qed.

Lemma hashes_sized d ns : log_inv d → Forall hash_sized (hashes d ns).
Proof.
  intros Hd. apply Forall_map, Forall_forall. intros r [Hr _]%elem_in_namespace. cbn.
  pose proof (inv_hash d Hd) as HF. rewrite Forall_forall in HF. unfold hash_sized. rewrite (HF r Hr).
  apply sha256_length.
Qed.

Lemma init_inv t0 : winv (init t0).
Proof. by repeat split; repeat constructor; intros; cbn. Qed.


(** ** Appending *)

Definition append_leaf (d : db) (r : leafRow) (c : checkpointRow) : db :=
  Db (witness_leaves d ++ [r]) (witness_checkpoints d ++ [c]) (witness_delivery_heads d)
    (witness_chain_heads d) (witness_submitter_keys d) (witness_gossip_reports d).

Lemma appendAndCheckpoint_spec e ns pl d rc idx d' :
  log_inv d → appendAndCheckpoint e ns pl d = Ok (rc, idx, d') →
  ∃ r c, d' = append_leaf d r c ∧ rc = checkpointFromRow c ∧
    lf_namespace r = ns ∧ lf_index r = idx ∧ idx = Z.of_nat (length (rows d ns)) ∧
    lf_payload r = pl ∧ lf_hash r = leafHash pl ∧
    cp_namespace c = ns ∧ cp_size c = idx + 1 ∧ cp_root c = merkleRoot (hashes d ns ++ [leafHash pl]) ∧
    cp_id c = uuidV4 (env_random e) ∧ Forall (λ c', cp_id c' ≠ cp_id c) (witness_checkpoints d).
Proof.
  intros Hd. unfold appendAndCheckpoint, insert_leaf, insert_checkpoint.
  rewrite loadLeafHashes_all, hashes_length by done. intros H.
  apply bind_Ok in H as (d1 & H1 & H). apply bind_Ok in H1 as (_ & _ & [= <-]).
  apply bind_Ok in H as (dg & _ & H). apply bind_Ok in H as (d2 & H2 & H).
  apply bind_Ok in H2 as (? & HC & [= <-]). injection H as <- <- <-. apply throw_if_Ok in HC.
  eexists _, _. split; [reflexivity|]. split_and!; try reflexivity.
  apply orb_false_iff in HC as [_ HC]. cbn [witness_checkpoints] in HC.
  apply existsb_false in HC. eapply Forall_impl; [exact HC|]. intros c' Hc. cbn in Hc |- *.
  apply orb_false_iff in Hc as [Hc _]. by apply bool_decide_eq_false in Hc.
Qed.

Lemma rows_append d r c ns :
  rows (append_leaf d r c) ns = rows d ns ++ (if decide (lf_namespace r = ns) then [r] else []).
Proof. apply in_namespace_snoc. Qed.

Lemma hashes_append d r c ns :
  hashes (append_leaf d r c) ns
  = hashes d ns ++ (if decide (lf_namespace r = ns) then [lf_hash r] else []).
Proof. unfold hashes. rewrite rows_append, map_app. by case_decide. Qed.

Lemma checkpoint_size_bound d c :
  log_inv d → c ∈ witness_checkpoints d →
  1 <= cp_size c <= Z.of_nat (length (rows d (cp_namespace c))).
Proof.
  intros Hd Hc. assert (Hin : c ∈ in_namespace cp_namespace (cp_namespace c) (witness_checkpoints d))
    by by apply elem_in_namespace.
  apply list_elem_of_lookup_1 in Hin as [i Hi].
  rewrite (numbered_lookup _ _ _ _ _ (inv_size d Hd (cp_namespace c)) Hi).
  apply lookup_lt_Some in Hi. rewrite (inv_count d Hd) in Hi. lia.
Qed.

Lemma slice_to_app k (l l' : list bytes) : k <= size l → slice_to k (l ++ l') = slice_to k l.
Proof. unfold slice_to, size. intros H. rewrite take_app_le; [done|lia]. Qed.

Lemma append_log_inv d r c :
  log_inv d → lf_index r = Z.of_nat (length (rows d (lf_namespace r))) →
  lf_hash r = leafHash (lf_payload r) → cp_namespace c = lf_namespace r →
  cp_size c = lf_index r + 1 →
  cp_root c = merkleRoot (hashes d (lf_namespace r) ++ [lf_hash r]) →
  Forall (λ c', cp_id c' ≠ cp_id c) (witness_checkpoints d) →
  log_inv (append_leaf d r c).
Proof.
  intros Hd Hi Hh Hn Hs Hr Hid. split.
  - intros ns. rewrite rows_append. case_decide as E; [subst ns|rewrite app_nil_r; apply inv_index, Hd].
    apply numbered_app; [apply inv_index, Hd|]. by rewrite Hi.
  - apply Forall_app. split; [apply inv_hash, Hd|by constructor].
  - intros ns. cbn [append_leaf witness_checkpoints]. rewrite in_namespace_snoc, Hn.
    case_decide as E; [subst ns|rewrite app_nil_r; apply inv_size, Hd].
    apply numbered_app; [apply inv_size, Hd|]. rewrite (inv_count d Hd), Hs, Hi. lia.
  - intros ns. rewrite rows_append. cbn [append_leaf witness_checkpoints]. rewrite in_namespace_snoc, Hn, !length_app, (inv_count d Hd).
    by case_decide.
  - apply Forall_app. split.
    + pose proof (inv_root d Hd) as HF. rewrite Forall_forall in HF |- *. intros c' Hc'.
      rewrite (HF c' Hc'), hashes_append, slice_to_app; [done|].
      rewrite hashes_length. pose proof (checkpoint_size_bound d c' Hd Hc'). lia.
    + constructor; [|constructor]. rewrite Hn, hashes_append, decide_True by done.
      rewrite Hr. f_equal. unfold slice_to. rewrite take_ge; [done|].
      rewrite length_app. unfold hashes. rewrite length_map. cbn. lia.
  - cbn. rewrite map_app. apply NoDup_app. split_and!; [apply inv_ids, Hd| |apply NoDup_singleton].
    intros x (c' & -> & Hc')%list_elem_of_fmap Hx%list_elem_of_singleton.
    rewrite Forall_forall in Hid. by apply (Hid c').
Qed.

Lemma records_mono d d' h row :
  witness_delivery_heads d ⊆ witness_delivery_heads d' → records d h row → records d' h row.
Proof.
  intros Hs (i & ? & ? & ? & ? & [?|(h' & ? & ?)]); exists i; split_and!; try done; [by left|].
  right. exists h'. auto.
Qed.


(** ** Delivery heads *)

Lemma heads_at_eq d conv pos :
  heads_inv d →
  heads_at d conv pos
  = if 1 <=? pos then option_list (conversation_heads d conv !! Z.to_nat (pos - 1)) else [].
Proof.
  intros Hd. change 1 with (Z.of_nat 1). rewrite <- (filter_numbered_eq hd_position 1) by apply inv_position, Hd.
  unfold heads_at, conversation_heads. clear. induction (witness_delivery_heads d) as [|h l IH]; [done|].
  cbn. destruct (hd_conversation h === conv); cbn; [|done]. destruct (hd_position h =? pos); by rewrite IH.
Qed.

Lemma heads_at_elem d conv pos h :
  h ∈ heads_at d conv pos → h ∈ witness_delivery_heads d ∧ hd_conversation h = conv ∧ hd_position h = pos.
Proof.
  unfold heads_at. rewrite list_elem_of_In, filter_In, <- list_elem_of_In.
  intros [? [H1%bool_decide_eq_true H2]%andb_true_iff]. repeat split; [done..|lia].
Qed.

Lemma heads_at_intro d conv pos h :
  h ∈ witness_delivery_heads d → hd_conversation h = conv → hd_position h = pos → h ∈ heads_at d conv pos.
Proof.
  intros Hin Hc Hp. unfold heads_at. rewrite list_elem_of_In, filter_In, <- list_elem_of_In.
  split; [done|]. rewrite bool_decide_eq_true_2 by done. lia.
Qed.

Definition add_head (d : db) (h : headRow) : db :=
  Db (witness_leaves d) (witness_checkpoints d) (witness_delivery_heads d ++ [h])
    (witness_chain_heads d) (witness_submitter_keys d) (witness_gossip_reports d).

(** The state after a witnessed submission. *)
Definition witnessed_delivery (e : env) (i : DeliveryInput) (d : db) (r : leafRow) (c : checkpointRow)
    (h : headRow) (d' : db) : Prop :=
  d' = add_head (append_leaf d r c) h ∧
  lf_namespace r = delivery ∧ lf_index r = Z.of_nat (length (rows d delivery)) ∧
  deliveryPayload i = Ok (lf_payload r) ∧ lf_hash r = leafHash (lf_payload r) ∧
  cp_namespace c = delivery ∧ cp_size c = lf_index r + 1 ∧
  cp_root c = merkleRoot (hashes d delivery ++ [lf_hash r]) ∧
  Forall (λ c', cp_id c' ≠ cp_id c) (witness_checkpoints d) ∧
  h = {| hd_conversation := in_conversationId i; hd_position := BigInt (in_position i);
         hd_hash := base64url_decode (in_headHash i); hd_index := lf_index r |} ∧
  BigInt (in_position i) = Z.of_nat (length (conversation_heads d (in_conversationId i))) + 1 ∧
  previous_head (witness_delivery_heads d) (in_conversationId i) (BigInt (in_position i))
    (base64url_decode (in_previousHeadHash i)) ∧
  cp_id c = uuidV4 (env_random e).

(** The submitter key and signature checks that precede any answer about
    heads. *)
Definition authenticated (i : DeliveryInput) (d : db) : Prop :=
  ∃ at_ key digest, pg_timestamptz (in_checkpointReceivedAt i) = Some at_ ∧
    key ∈ witness_submitter_keys d ∧ key_id key = in_signingKeyId i ∧
    key_validFrom key <= at_ < key_validUntil key ∧
    computeDeliveryLogCheckpointDigest (checkpointInput i) = Ok digest ∧
    verifyEd25519 (key_public key) (base64url_decode digest) (base64url_decode (in_signature i)) = true.

Lemma checkpointInput_position i digest :
  computeDeliveryLogCheckpointDigest (checkpointInput i) = Ok digest →
  is_positive_uint63 (in_position i) = true ∧ is_hash32 (in_headHash i) = true ∧
  is_hash32 (in_previousHeadHash i) = true ∧ is_uuid4 (in_conversationId i) = true ∧
  LABEL_64 (in_signingKeyId i) = true.
Proof.
  intros H. unfold computeDeliveryLogCheckpointDigest in H. apply bind_Ok in H as (c & Hc & _).
  unfold parseDeliveryLogCheckpointInput, checkpointInput in Hc.
  rewrite expectExactRecord_obj in Hc; [|done|by apply nodup_keys|by repeat constructor].
  cbn in Hc. inv_result. apply parseUuidV4_Ok in Hx as [[= <-] ?].
  apply parsePositiveUint63String_Ok in Hx0 as [[= <-] ?].
  apply parseHash32_Ok in Hx1 as [[= <-] ?], Hx2 as [[= <-] ?].
  by apply parseSigningKeyId_Ok in Hx3 as [[= <-] ?].
Qed.

Lemma exactly_next d conv pos prev :
  heads_inv d → 1 <= pos <= UINT63_MAX →
  (length (conversation_heads d conv) <= Z.to_nat (pos - 1))%nat →
  (if pos =? 1 then Some ZERO_HASH_32
   else match heads_at d conv (pos - 1) with [p] => Some (hd_hash p) | _ => None end) = Some prev →
  pos = Z.of_nat (length (conversation_heads d conv)) + 1 ∧
  previous_head (witness_delivery_heads d) conv pos prev.
Proof.
  intros Hh Hpos EL HP. destruct (Z.eqb_spec pos 1) as [E1|E1].
  - injection HP as HP. split; [lia|left; done].
  - destruct (heads_at d conv (pos - 1)) as [|p [|]] eqn:EP; try discriminate HP.
    injection HP as HP. destruct (heads_at_elem d conv (pos - 1) p) as (? & ? & ?); [rewrite EP; by left|].
    split; [|right; eauto]. rewrite heads_at_eq in EP by done. destruct (Z.leb_spec 1 (pos - 1)); [|lia].
    destruct (_ !! _) eqn:EL'; [|done]. apply lookup_lt_Some in EL'. lia.
Qed.

Lemma extendDelivery_cases e i d r d' :
  winv d → extendDelivery e i d = Ok (r, d') →
  (∃ reason, r = DeliveryRejected reason ∧ d' = d) ∨
  (authenticated i d ∧ d' = d ∧ ∃ h, h ∈ witness_delivery_heads d ∧
     hd_conversation h = in_conversationId i ∧ hd_position h = BigInt (in_position i) ∧
     b64 (hd_hash h) ≠ in_headHash i ∧
     r = DeliveryEquivocation (in_position i) (b64 (hd_hash h)) (in_headHash i)) ∨
  (authenticated i d ∧ ∃ row c h, r = DeliveryWitnessed (checkpointFromRow c) ∧
     witnessed_delivery e i d row c h d').
Proof.
  intros [Hl Hh]. unfold extendDelivery. intros H. apply bind_Ok in H as (at_ & Hat & H).
  destruct (pg_timestamptz _) as [t|] eqn:Et; [|discriminate]. injection Hat as ->.
  destruct (List.filter _ (witness_submitter_keys d)) as [|key [|]] eqn:EK;
    [by injection H as <- <-; left; eauto| |by injection H as <- <-; left; eauto].
  assert (HK : In key [key]) by by left. rewrite <- EK in HK.
  apply filter_In in HK as [HK1 HK2]. split_orb. apply bool_decide_eq_true in HK2.
  apply bind_Ok in H as (dg & Hdg & H). destruct (verifyEd25519 _ _ _) eqn:EV; cbn [negb] in H;
    [|by injection H as <- <-; left; eauto].
  assert (HA : authenticated i d).
  { exists at_, key, dg. rewrite list_elem_of_In. split_and!; try done; lia. }
  destruct (checkpointInput_position i dg Hdg) as (Hpos & _).
  apply is_positive_uint63_bound in Hpos as [_ Hpos]. set (pos := BigInt (in_position i)) in *.
  destruct (heads_at d (in_conversationId i) pos) as [|h0 hs] eqn:EH; last first.
  { assert (Hn := heads_at_eq d (in_conversationId i) pos Hh). rewrite EH in Hn.
    destruct (1 <=? pos); [|done]. destruct (_ !! _); [|done]. injection Hn as <- ->.
    destruct (heads_at_elem d (in_conversationId i) pos h0) as (? & ? & ?); [rewrite EH; by left|].
    case_bool_decide; injection H as <- <-; [by left; eauto|]. right; left. eauto 10. }
  rewrite heads_at_eq in EH by done. destruct (Z.leb_spec 1 pos); [|lia].
  destruct (conversation_heads d (in_conversationId i) !! Z.to_nat (pos - 1)) eqn:EL; [done|].
  apply lookup_ge_None in EL. case_bool_decide as HP; [|injection H as <- <-; left; eauto].
  right; right. split; [done|].
  pose proof (exactly_next d _ _ _ Hh Hpos EL HP) as HN.
  apply bind_Ok in H as (pl & Hpl & H). apply bind_Ok in H as ([[rc idx] d1] & Ha & H).
  apply appendAndCheckpoint_spec in Ha as (row & c & -> & -> & ? & ? & ? & ? & ? & ? & ? & ? & ? & ?); [|done].
  apply bind_Ok in H as (d2 & Hi & [= <- <-]). unfold insert_head in Hi.
  apply bind_Ok in Hi as (_ & _ & [= <-]). exists row, c. eexists. split; [reflexivity|].
  unfold witnessed_delivery. destruct HN as [HN1 HN2]. split_and!; try reflexivity; try done; try congruence.
  f_equal. congruence.
Qed.


Lemma conversation_heads_snoc d h conv :
  conversation_heads (add_head d h) conv
  = conversation_heads d conv ++ (if decide (hd_conversation h = conv) then [h] else []).
Proof.
  unfold conversation_heads. cbn [add_head witness_delivery_heads]. rewrite List.filter_app. cbn.
  case_bool_decide; by case_decide.
Qed.

Lemma witnessed_delivery_inv e i d r c h d' : winv d → witnessed_delivery e i d r c h d' → winv d'.
Proof.
  intros [Hl Hh] (-> & Hn & Hi & Hp & Hhash & Hcn & Hcs & Hcr & Hid & -> & Hpos & Hprev & _).
  assert (Hl' : log_inv (append_leaf d r c)).
  { apply append_log_inv; try done; by rewrite Hn. }
  split; [by destruct Hl'|]. split.
  - intros conv. rewrite conversation_heads_snoc. cbn.
    case_decide as E; [subst conv|rewrite app_nil_r; apply inv_position, Hh].
    apply numbered_app; [apply inv_position, Hh|]. cbn. rewrite Hpos.
    unfold conversation_heads. cbn. lia.
  - cbn. apply numbered_app; [apply inv_head_index, Hh|]. cbn. rewrite Hi.
    by rewrite (Forall2_length _ _ _ (inv_head d Hh)).
  - change (rows (add_head _ _) delivery) with (rows (append_leaf d r c) delivery).
    rewrite rows_append, decide_True by done. cbn [add_head append_leaf witness_delivery_heads].
    assert (Hsub : witness_delivery_heads d ⊆ witness_delivery_heads d ++
      [{| hd_conversation := in_conversationId i; hd_position := BigInt (in_position i);
          hd_hash := base64url_decode (in_headHash i); hd_index := lf_index r |}]) by set_solver.
    apply Forall2_app.
    + eapply Forall2_impl; [apply inv_head, Hh|]. intros h' row. by apply records_mono.
    + constructor; [|constructor]. exists i. split_and!; [done..|]. cbn.
      destruct Hprev as [?|(h' & ? & ?)]; [by left|right; exists h'; auto].
Qed.

Lemma extendChain_cases e ns i d r d' :
  log_inv d → extendChain e ns i d = Ok (r, d') →
  (d' = d ∧ fst (witness_chain_heads d ns) ≠ ch_previousCheckpointId i ∧
   r = ChainEquivocation (fst (witness_chain_heads d ns)) (ch_previousCheckpointId i)) ∨
  (∃ row c id, r = ChainWitnessed (checkpointFromRow c) ∧
     d' = set_chain_head ns id (env_now e) (append_leaf d row c) ∧
     fst (witness_chain_heads d ns) = ch_previousCheckpointId i ∧
     pg_uuid (ch_checkpointId i) = Some id ∧ chainPayload i = Ok (lf_payload row) ∧
     lf_namespace row = ns ∧ lf_index row = Z.of_nat (length (rows d ns)) ∧
     lf_hash row = leafHash (lf_payload row) ∧ cp_namespace c = ns ∧
     cp_size c = lf_index row + 1 ∧ cp_root c = merkleRoot (hashes d ns ++ [lf_hash row]) ∧
     Forall (λ c', cp_id c' ≠ cp_id c) (witness_checkpoints d)).
Proof.
  intros Hl. unfold extendChain. intros H. case_bool_decide as E; cbn [negb] in H; last first.
  { injection H as <- <-. by left. }
  right. apply bind_Ok in H as (pl & Hpl & H). apply bind_Ok in H as ([[rc idx] d1] & Ha & H).
  apply appendAndCheckpoint_spec in Ha as (row & c & -> & -> & ? & ? & ? & ? & ? & ? & ? & ? & ? & ?); [|done].
  apply bind_Ok in H as (id & Hid & [= <- <-]). destruct (pg_uuid _) as [u|]; [|discriminate].
  injection Hid as ->. exists row, c, id. split_and!; try done; congruence.
Qed.

Lemma chain_inv d row c ns id at_ :
  winv d → ns ≠ delivery → lf_namespace row = ns → log_inv (append_leaf d row c) →
  winv (set_chain_head ns id at_ (append_leaf d row c)).
Proof.
  intros [Hl Hh] Hns Hn Hl'. split; [by destruct Hl'|]. split; [exact (inv_position d Hh)|exact (inv_head_index d Hh)|].
  change (rows (set_chain_head _ _ _ _) delivery) with (rows (append_leaf d row c) delivery).
  rewrite rows_append, decide_False, app_nil_r by congruence. exact (inv_head d Hh).
Qed.

Lemma reportGossip_cases e i d b d' :
  reportGossip e i d = Ok (b, d') →
  ∃ g, d' = Db (witness_leaves d) (witness_checkpoints d) (witness_delivery_heads d)
    (witness_chain_heads d) (witness_submitter_keys d) (witness_gossip_reports d ++ [g]) ∧
    gr_splitView g = b ∧ pg_uuid (go_conversationId i) = Some (gr_conversation g) ∧
    pg_bigint (go_position i) = Some (gr_position g) ∧
    (b = false ↔ ∃ h t, heads_at d (gr_conversation g) (gr_position g) = h :: t ∧ b64 (hd_hash h) = go_headHash i).
Proof.
  unfold reportGossip. intros H. apply bind_Ok in H as (u & Hu & H). apply bind_Ok in H as (p & Hp & H).
  apply bind_Ok in H as (w & _ & H). apply bind_Ok in H as (d2 & Hi & [= <- <-]).
  unfold insert_gossip in Hi. apply bind_Ok in Hi as (_ & _ & [= <-]).
  eexists. split; [reflexivity|]. cbn. split; [done|].
  destruct (pg_uuid _); [|discriminate]. injection Hu as ->.
  destruct (pg_bigint _); [|discriminate]. injection Hp as ->. split_and!; [done..|].
  destruct (heads_at d u p) as [|h t]; [split; [done|by intros (? & ? & ? & _)]|].
  rewrite negb_false_iff, bool_decide_eq_true. split; [eauto|by intros (? & ? & [= <- <-] & ?)].
Qed.

Lemma step_inv d d' : winv d → step d d' → winv d'.
Proof.
  intros Hd Hs. destruct Hs as [e i d r d' H|e ns i d r d' Hns H|e i d r d' H|keys d].
  - apply extendDelivery_cases in H as [(? & _ & ->)|[(_ & -> & _)|(_ & row & c & h & _ & Hw)]]; try done.
    by eapply witnessed_delivery_inv.
  - apply extendChain_cases in H as [(-> & _)|(row & c & id & _ & -> & _ & _ & _ & Hn & ? & ? & ? & ? & ? & ?)];
      [done| |apply Hd].
    apply chain_inv; [done..|]. apply append_log_inv; try done; [apply Hd|congruence..].
  - apply reportGossip_cases in H as (g & -> & _). destruct Hd as [[] []]. by split; split.
  - destruct Hd as [[] []]. by split; split.
Qed.


Lemma reachable_inv t0 d : reachable t0 d → winv d.
Proof. induction 1; [apply init_inv|by eapply step_inv]. Qed.

(** ** Nothing is ever rewritten *)

(** What a later database keeps of an earlier one. *)
Definition extends (d d' : db) : Prop :=
  (∀ ns, hashes d ns `prefix_of` hashes d' ns) ∧
  witness_leaves d `prefix_of` witness_leaves d' ∧
  witness_checkpoints d `prefix_of` witness_checkpoints d' ∧
  witness_delivery_heads d `prefix_of` witness_delivery_heads d'.

#[export] Instance extends_preorder : PreOrder extends.
Proof.
  split.
  - intros d. by repeat split.
  - intros d1 d2 d3 (H1 & H2 & H3 & H4) (K1 & K2 & K3 & K4). split_and!; [intros ns; transitivity (hashes d2 ns); auto|by transitivity (witness_leaves d2)
      |by transitivity (witness_checkpoints d2)|by transitivity (witness_delivery_heads d2)].
Qed.

Lemma append_extends d r c : extends d (append_leaf d r c).
Proof.
  split_and!; [|by eexists|by eexists|done]. intros ns. rewrite hashes_append. by eexists.
Qed.

Lemma step_extends d d' : winv d → step d d' → extends d d'.
Proof.
  intros Hd Hs. destruct Hs as [e i d r d' H|e ns i d r d' Hns H|e i d r d' H|keys d].
  - apply extendDelivery_cases in H as [(? & _ & ->)|[(_ & -> & _)|(_ & row & c & h & _ & (-> & _))]]; try done.
    transitivity (append_leaf d row c); [apply append_extends|]. repeat split; try done. by eexists.
  - apply extendChain_cases in H as [(-> & _)|(row & c & id & _ & -> & _)]; [done| |apply Hd].
    transitivity (append_leaf d row c); [apply append_extends|]. by repeat split.
  - apply reportGossip_cases in H as (g & -> & _). by repeat split.
  - by repeat split.
Qed.

Lemma rtc_extends d d' : winv d → rtc step d d' → winv d' ∧ extends d d'.
Proof.
  intros Hd Hs. induction Hs as [d|d1 d2 d3 H12 _ IH]; [done|].
  destruct IH as [Hd3 H23]; [by eapply step_inv|]. split; [done|].
  transitivity d2; [by apply step_extends|done].
Qed.

(** ** Checkpoints of one log *)

(** The checkpoint of a given size is the row of that number. *)
Lemma checkpoint_unique d c c' :
  log_inv d → c ∈ witness_checkpoints d → c' ∈ witness_checkpoints d →
  cp_namespace c = cp_namespace c' → cp_size c = cp_size c' → c = c'.
Proof.
  intros Hd Hc Hc' Hn Hs.
  assert (Hin : c ∈ in_namespace cp_namespace (cp_namespace c) (witness_checkpoints d))
    by by apply elem_in_namespace.
  assert (Hin' : c' ∈ in_namespace cp_namespace (cp_namespace c) (witness_checkpoints d))
    by by apply elem_in_namespace.
  apply list_elem_of_lookup_1 in Hin as [i Hi], Hin' as [j Hj].
  pose proof (numbered_lookup _ _ _ _ _ (inv_size d Hd (cp_namespace c)) Hi).
  pose proof (numbered_lookup _ _ _ _ _ (inv_size d Hd (cp_namespace c)) Hj).
  assert (i = j) as <- by lia. congruence.
Qed.

Lemma checkpoint_root d c :
  log_inv d → c ∈ witness_checkpoints d →
  cp_root c = merkleRoot (slice_to (cp_size c) (hashes d (cp_namespace c))).
Proof. intros Hd Hc. pose proof (inv_root d Hd) as HF. rewrite Forall_forall in HF. by apply HF. Qed.

Lemma map_b64_decode p : map base64url_decode (map b64 p) = p.
Proof. rewrite map_map. rewrite <- (map_id p) at 2. apply map_ext. apply base64url_decode_encode. Qed.

(** C2: Any two checkpoints the witness ever issued for a namespace are linked by
    the consistency proof it serves, which the public verifier accepts. *)
Theorem witness_consistency t0 d c c' :
  reachable t0 d → c ∈ witness_checkpoints d → c' ∈ witness_checkpoints d →
  cp_namespace c = cp_namespace c' → cp_size c <= cp_size c' → cp_size c' <= 2 ^ 31 →
  ∃ proof, proveConsistency (cp_namespace c) (cp_size c) (cp_size c') d = Ok (Some proof) ∧
    verifyConsistency (cp_size c) (cp_root c) (cp_size c') (cp_root c')
      (map base64url_decode proof) = true.
Proof.
  intros [Hd _]%reachable_inv Hc Hc' Hn Hle H31.
  pose proof (checkpoint_size_bound d c Hd Hc). pose proof (checkpoint_size_bound d c' Hd Hc') as Hb.
  set (D := slice_to (cp_size c') (hashes d (cp_namespace c'))).
  assert (HD : size D = cp_size c').
  { unfold D. rewrite size_slice_to; [done|]. rewrite hashes_length. lia. }
  destruct (consistencyProof_accepted D (cp_size c)) as (p & Hp & Hv); [lia|lia|].
  exists (map b64 p). unfold proveConsistency.
  destruct ((cp_size c <? 1) || (cp_size c' <? cp_size c)) eqn:E; [lia|].
  rewrite loadLeafHashes_limit, Hn by done. fold D. rewrite HD, Z.eqb_refl. cbn [negb].
  rewrite Hp. split; [done|]. rewrite map_b64_decode, (checkpoint_root d c Hd Hc), (checkpoint_root d c' Hd Hc').
  rewrite HD in Hv. fold D. rewrite Hn. unfold D in Hv at 1. by rewrite slice_to_slice_to in Hv by lia.
Qed.

(** C3: A checkpoint issued at any time is never contradicted: after any further
    operations, a checkpoint of the same namespace and size is the same row,
    and the current log still has the issued root at that size. *)
Theorem witness_no_equivocation t0 d d' c c' :
  reachable t0 d → rtc step d d' → c ∈ witness_checkpoints d → c' ∈ witness_checkpoints d' →
  cp_namespace c = cp_namespace c' → cp_size c = cp_size c' →
  c = c' ∧ cp_root c = merkleRoot (slice_to (cp_size c) (hashes d' (cp_namespace c))).
Proof.
  intros Hd%reachable_inv Hs Hc Hc' Hn Hsz. apply rtc_extends in Hs as [[Hd' _] (_ & _ & Hcp & _)]; [|done].
  assert (Hin : c ∈ witness_checkpoints d').
  { destruct Hcp as [k ->]. apply elem_of_app. by left. }
  split; [by apply (checkpoint_unique d')|by apply checkpoint_root].
Qed.


(** Per conversation, the witnessed positions are 1, 2, ..., n without gaps or
    repetition, and every head after the first was submitted as the successor
    of the head witnessed at the position before it. *)
Theorem witness_positions_contiguous t0 d conv :
  reachable t0 d →
  map hd_position (conversation_heads d conv)
    = map Z.of_nat (seq 1 (length (conversation_heads d conv))) ∧
  (∀ h, h ∈ conversation_heads d conv → ∃ i,
     in_conversationId i = conv ∧ BigInt (in_position i) = hd_position h ∧
     base64url_decode (in_headHash i) = hd_hash h ∧
     previous_head (witness_delivery_heads d) conv (hd_position h)
       (base64url_decode (in_previousHeadHash i))).
Proof.
  intros [_ Hd]%reachable_inv. split; [apply inv_position, Hd|]. intros h Hh.
  unfold conversation_heads in Hh. rewrite list_elem_of_In, filter_In, <- list_elem_of_In in Hh.
  destruct Hh as [Hh <-%bool_decide_eq_true]. apply list_elem_of_lookup_1 in Hh as [k Hk].
  destruct (Forall2_lookup_l _ _ _ _ _ (inv_head d Hd) Hk) as (row & _ & i & ? & ? & ? & ? & ?).
  exists i. auto.
Qed.

(** Every witnessed head is provably in every later checkpoint of the delivery
    log: the leaf that encodes its submission is served with an inclusion
    proof that the public verifier accepts. *)
Theorem witness_inclusion t0 d h c :
  reachable t0 d → h ∈ witness_delivery_heads d → c ∈ witness_checkpoints d →
  cp_namespace c = delivery → hd_index h < cp_size c → cp_size c <= 2 ^ 31 →
  ∃ i payload proof,
    deliveryPayload i = Ok payload ∧ in_conversationId i = hd_conversation h ∧
    BigInt (in_position i) = hd_position h ∧ base64url_decode (in_headHash i) = hd_hash h ∧
    proveInclusion delivery (hd_index h) (cp_size c) d = Ok (Some proof) ∧
    verifyInclusion (leafHash payload) (hd_index h) (cp_size c) (map base64url_decode proof)
      (cp_root c) = true.
Proof.
  intros [Hd Hhd]%reachable_inv Hh Hc Hn Hlt H31. apply list_elem_of_lookup_1 in Hh as [k Hk].
  pose proof (numbered_lookup _ _ _ _ _ (inv_head_index d Hhd) Hk) as Hidx. cbn in Hidx.
  destruct (Forall2_lookup_l _ _ _ _ _ (inv_head d Hhd) Hk) as (row & Hrow & i & ? & ? & ? & ? & ?).
  pose proof (checkpoint_size_bound d c Hd Hc) as Hb. rewrite Hn in Hb.
  set (D := slice_to (cp_size c) (hashes d delivery)).
  assert (HD : size D = cp_size c).
  { unfold D. rewrite size_slice_to; [done|]. rewrite hashes_length. lia. }
  assert (HL : D !! Z.to_nat (hd_index h) = Some (leafHash (lf_payload row))).
  { unfold D. rewrite slice_to_lookup by lia. rewrite Hidx, Nat2Z.id. unfold hashes.
    rewrite list_lookup_fmap, Hrow. cbn. f_equal. pose proof (inv_hash d Hd) as HF.
    rewrite Forall_forall in HF. apply HF. apply list_elem_of_lookup_2, elem_in_namespace in Hrow. apply Hrow. }
  destruct (inclusionProof_accepted D (hd_index h) _ ltac:(lia) ltac:(lia) HL) as (p & Hp & Hv).
  exists i, (lf_payload row), (map b64 p). split_and!; try done.
  - unfold proveInclusion. destruct ((hd_index h <? 0) || (cp_size c <=? hd_index h)) eqn:E; [lia|].
    rewrite loadLeafHashes_limit by done. fold D. rewrite HD, Z.eqb_refl. cbn [negb]. by rewrite Hp.
  - rewrite map_b64_decode, (checkpoint_root d c Hd Hc), Hn. fold D. by rewrite HD in Hv.
Qed.

(** C14: What each answer of [extendDelivery] means.  Only a witnessed submission
    changes the database: it was signed by a registered key, is exactly the
    next position of its conversation and names the witnessed previous head.
    An equivocation answer carries the stored head that differs from the
    submitted one. *)
Theorem extendDelivery_correct t0 e i d r d' :
  reachable t0 d → extendDelivery e i d = Ok (r, d') →
  match r with
  | DeliveryRejected _ => d' = d
  | DeliveryEquivocation position witnessed submitted =>
      d' = d ∧ authenticated i d ∧ position = in_position i ∧ submitted = in_headHash i ∧
      witnessed ≠ submitted ∧
      ∃ h, h ∈ witness_delivery_heads d ∧ hd_conversation h = in_conversationId i ∧
        hd_position h = BigInt (in_position i) ∧ witnessed = b64 (hd_hash h)
  | DeliveryWitnessed receipt =>
      authenticated i d ∧
      BigInt (in_position i) = Z.of_nat (length (conversation_heads d (in_conversationId i))) + 1 ∧
      previous_head (witness_delivery_heads d) (in_conversationId i) (BigInt (in_position i))
        (base64url_decode (in_previousHeadHash i)) ∧
      (∃ payload, deliveryPayload i = Ok payload ∧
         hashes d' delivery = hashes d delivery ++ [leafHash payload]) ∧
      treeSize receipt = decimal (size (hashes d' delivery)) ∧
      rootHash receipt = b64 (merkleRoot (hashes d' delivery)) ∧
      (∃ h, witness_delivery_heads d' = witness_delivery_heads d ++ [h] ∧
         hd_conversation h = in_conversationId i ∧ hd_position h = BigInt (in_position i) ∧
         b64 (hd_hash h) = in_headHash i)
  end.
Proof.
  intros Hd%reachable_inv H.
  destruct (extendDelivery_cases _ _ _ _ _ Hd H)
    as [(? & -> & ->)|[(HA & -> & h & ? & ? & ? & ? & ->)|(HA & row & c & h & -> & Hw)]]; [done|by eauto 10|].
  destruct HA as (at_ & key & dg & HA). destruct Hw as (-> & Hn & Hi & Hp & Hhash & Hcn & Hcs & Hcr & _ & -> & Hpos & Hprev & _).
  assert (HH : hashes (add_head (append_leaf d row c)
     {| hd_conversation := in_conversationId i; hd_position := BigInt (in_position i);
        hd_hash := base64url_decode (in_headHash i); hd_index := lf_index row |}) delivery
     = hashes d delivery ++ [leafHash (lf_payload row)]).
  { change (hashes (add_head ?x _) ?n) with (hashes x n). rewrite hashes_append, decide_True by done.
    by rewrite Hhash. }
  split_and!; [by exists at_, key, dg|done|done|by eauto| | |].
  - cbn [checkpointFromRow treeSize]. rewrite HH, Hcs, Hi. unfold size, hashes.
    rewrite length_app, length_map. cbn [length]. f_equal. lia.
  - cbn [checkpointFromRow rootHash]. by rewrite HH, Hcr, Hhash.
  - eexists. split; [reflexivity|]. cbn. split_and!; [done..|].
    destruct HA as (_ & _ & _ & _ & Hdg & _). apply checkpointInput_position in Hdg as (_ & Hh & _).
    by apply is_base64url_decode in Hh as [? _].
Qed.


(** ** Progress *)

Lemma lengthPrefixed_eq bs : fits 1024 bs → lengthPrefixed bs = Ok (lp bs).
Proof.
  unfold fits, lengthPrefixed, U32_MAX. intros H.
  destruct (Z.ltb_spec 4294967295 (byteLength bs)); [lia|done].
Qed.

Lemma byteLength_lp bs : byteLength (lp bs) = 4 + byteLength bs.
Proof. unfold lp. by rewrite byteLength_app. Qed.

(** Every authenticated submission has a leaf payload within the column's
    bound. *)
Lemma deliveryPayload_fits i digest :
  computeDeliveryLogCheckpointDigest (checkpointInput i) = Ok digest →
  ∃ payload, deliveryPayload i = Ok payload ∧ byteLength payload <= 4096.
Proof.
  intros (Hp & Hh & Hv & Hc & Hk)%checkpointInput_position. unfold deliveryPayload.
  pose proof (short_utf8_fits _ (is_uuid4_short _ Hc)) as F1.
  pose proof (short_utf8_fits _ (is_positive_uint63_short _ Hp)) as F2.
  pose proof (short_utf8_fits _ (LABEL_64_short _ Hk)) as F3.
  pose proof (is_hash32_fits _ Hh) as F4. pose proof (is_hash32_fits _ Hv) as F5.
  rewrite !lengthPrefixed_eq by (unfold fits in *; lia). cbn [mbind result_bind].
  eexists. split; [done|]. rewrite !byteLength_app, !byteLength_lp. unfold fits in *. lia.
Qed.

Lemma toISOString_length t : byteLength (utf8 (toISOString t)) <= 54.
Proof.
  pose proof (utf8_length (toISOString t)) as H. unfold strlen in H. rewrite <- length_chars in H.
  enough (length (chars (toISOString t)) <= 27)%nat by lia.
  unfold toISOString. rewrite chars_of_list. destruct (_ && _); [rewrite length_render; lia|].
  cbn [length]. rewrite length_app, length_pad, length_render. lia.
Qed.

(** What the deployment guarantees: the signer's signatures are 64 bytes (as
    Ed25519's are) and its key identifier fits the column. *)
Definition signer_ok : Prop :=
  (∀ m, byteLength (signer_sign m) = 64) ∧ 1 <= byteLength (utf8 signer_witnessKeyId) <= 64.

(** The random identifier of a call is a fresh one. *)
Definition fresh_id (e : env) (d : db) : Prop :=
  length (env_random e) = 16%nat ∧
  Forall (λ c, cp_id c ≠ uuidV4 (env_random e)) (witness_checkpoints d).

Lemma existsb_false_intro {A} (f : A → bool) l : (∀ x, x ∈ l → f x = false) → existsb f l = false.
Proof. intros H. by apply existsb_false, Forall_forall. Qed.

Lemma insert_leaf_ok d ns pl at_ :
  log_inv d → byteLength pl <= 4096 → size (hashes d ns) < BIGINT_MAX →
  let r := {| lf_namespace := ns; lf_index := size (hashes d ns); lf_payload := pl;
              lf_hash := leafHash pl; lf_appendedAt := at_ |} in
  insert_leaf r d = Ok (Db (witness_leaves d ++ [r]) (witness_checkpoints d) (witness_delivery_heads d)
    (witness_chain_heads d) (witness_submitter_keys d) (witness_gossip_reports d)).
Proof.
  intros Hd Hp Hs r. subst r. unfold insert_leaf. cbn [lf_index lf_payload lf_hash lf_namespace].
  assert (Hh : byteLength (leafHash pl) = 32) by (unfold byteLength, leafHash; by rewrite sha256_length).
  assert (0 <= size (hashes d ns)) by (unfold size; lia).
  rewrite existsb_false_intro.
  - destruct (_ || false) eqn:E; [lia|done].
  - intros r' Hr'. apply andb_false_iff. destruct (decide (lf_namespace r' = ns)) as [E|E];
      [right|left; by apply bool_decide_eq_false_2].
    assert (Hin : r' ∈ rows d ns) by by apply elem_in_namespace.
    apply list_elem_of_lookup_1 in Hin as [k Hk].
    rewrite (numbered_lookup _ _ _ _ _ (inv_index d Hd ns) Hk). apply lookup_lt_Some in Hk.
    rewrite hashes_length. apply Z.eqb_neq. cbn. lia.
Qed.

Lemma insert_checkpoint_ok d c :
  1 <= cp_size c <= BIGINT_MAX → byteLength (cp_root c) = 32 →
  1 <= byteLength (utf8 (cp_keyId c)) <= 64 → byteLength (cp_signature c) = 64 →
  Forall (λ c', cp_id c' ≠ cp_id c) (witness_checkpoints d) →
  (∀ c', c' ∈ witness_checkpoints d → cp_namespace c' = cp_namespace c → cp_size c' ≠ cp_size c) →
  insert_checkpoint c d = Ok (Db (witness_leaves d) (witness_checkpoints d ++ [c]) (witness_delivery_heads d)
    (witness_chain_heads d) (witness_submitter_keys d) (witness_gossip_reports d)).
Proof.
  intros Hs Hr Hk Hsig Hid Hu. unfold insert_checkpoint. rewrite existsb_false_intro.
  - destruct (_ || false) eqn:E; [lia|done].
  - intros c' Hc'. rewrite Forall_forall in Hid. rewrite bool_decide_eq_false_2 by by apply Hid.
    cbn [orb]. apply andb_false_iff. destruct (decide (cp_namespace c' = cp_namespace c)) as [E|E];
      [right|left; by apply bool_decide_eq_false_2]. apply Z.eqb_neq. auto.
Qed.

Lemma namespace_short ns : short (namespace_string ns).
Proof. by destruct ns; vm_compute. Qed.

Lemma computeWitnessCheckpointDigest_ok ns id n root at_ :
  short id → 0 <= n <= UINT63_MAX → byteLength root = 32 →
  byteLength (utf8 signer_witnessKeyId) <= 64 →
  ∃ digest, computeWitnessCheckpointDigest (namespace_string ns) id (decimal n) root
    signer_witnessKeyId (toISOString at_) = Ok digest.
Proof.
  intros Hid Hn Hr Hk. unfold computeWitnessCheckpointDigest.
  pose proof (toISOString_length at_).
  rewrite (lengthPrefixed_eq (utf8 (namespace_string ns))) by apply short_fits, namespace_short.
  rewrite (lengthPrefixed_eq (utf8 id)) by by apply short_fits.
  rewrite (lengthPrefixed_eq (utf8 (decimal n))) by by apply short_fits, is_uint63_short, is_uint63_decimal.
  rewrite !lengthPrefixed_eq by (unfold fits; lia). by eexists.
Qed.

Lemma appendAndCheckpoint_ok e ns pl d :
  log_inv d → signer_ok → fresh_id e d → byteLength pl <= 4096 →
  size (hashes d ns) < BIGINT_MAX → ∃ rc idx d', appendAndCheckpoint e ns pl d = Ok (rc, idx, d').
Proof.
  intros Hd [Hsig Hkey] [Hrand Hid] Hp Hs. unfold appendAndCheckpoint.
  rewrite loadLeafHashes_all by done. rewrite insert_leaf_ok by done. cbn [mbind result_bind].
  assert (Hroot : byteLength (merkleRoot (hashes d ns ++ [leafHash pl])) = 32).
  { unfold byteLength. rewrite merkleRoot_sized; [done|]. apply Forall_app. split; [by apply hashes_sized|].
    constructor; [apply sha256_length|done]. }
  assert (0 <= size (hashes d ns)) by (unfold size; lia).
  destruct (computeWitnessCheckpointDigest_ok ns (uuidV4 (env_random e)) (size (hashes d ns) + 1)
    (merkleRoot (hashes d ns ++ [leafHash pl])) (env_now e)) as [dg Hdg].
  { by apply is_uuid4_short, uuidV4_is_uuid4. } { unfold BIGINT_MAX, UINT63_MAX in *. lia. } { done. } { lia. }
  rewrite Hdg. cbn [mbind result_bind]. rewrite insert_checkpoint_ok;
    cbn [cp_size cp_root cp_keyId cp_signature cp_id cp_namespace witness_checkpoints]; try done.
  - by eexists _, _, _.
  - lia.
  - intros c' Hc' <-. pose proof (checkpoint_size_bound d c' Hd Hc'). rewrite hashes_length. lia.
Qed.

Lemma heads_at_previous d conv pos prev :
  heads_inv d → previous_head (witness_delivery_heads d) conv pos prev →
  (if pos =? 1 then Some ZERO_HASH_32
   else match heads_at d conv (pos - 1) with [p] => Some (hd_hash p) | _ => None end) = Some prev.
Proof.
  intros Hh Hp. destruct (Z.eqb_spec pos 1) as [->|Hne].
  - destruct Hp as [[_ ->]|(h & Hin & Hc & Hpos & _)]; [done|].
    assert (Hm : h ∈ heads_at d conv (1 - 1)).
    { by apply heads_at_intro. }
    rewrite heads_at_eq in Hm by done. inversion Hm.
  - destruct Hp as [[? _]|(h & Hin & Hc & Hpos & <-)]; [done|].
    assert (Hm : h ∈ heads_at d conv (pos - 1)).
    { by apply heads_at_intro. }
    rewrite heads_at_eq in * by done. destruct (1 <=? pos - 1); [|inversion Hm].
    destruct (conversation_heads d conv !! _); [|inversion Hm].
    apply list_elem_of_singleton in Hm as ->. done.
Qed.

(** Keys registered for a submission at its receipt time. *)
Definition submitter_keys (i : DeliveryInput) (at_ : Z) (d : db) : list keyRow :=
  List.filter (λ k, (key_id k === in_signingKeyId i) && (key_validFrom k <=? at_)
    && (at_ <? key_validUntil k)) (witness_submitter_keys d).

(** Honest submitters make progress: an authenticated submission that is the
    exact successor of its conversation's last witnessed head is witnessed. *)
Theorem extendDelivery_progress t0 e i d at_ key digest :
  reachable t0 d → signer_ok → fresh_id e d → size (hashes d delivery) < BIGINT_MAX →
  pg_timestamptz (in_checkpointReceivedAt i) = Some at_ → submitter_keys i at_ d = [key] →
  computeDeliveryLogCheckpointDigest (checkpointInput i) = Ok digest →
  verifyEd25519 (key_public key) (base64url_decode digest) (base64url_decode (in_signature i)) = true →
  BigInt (in_position i) = Z.of_nat (length (conversation_heads d (in_conversationId i))) + 1 →
  previous_head (witness_delivery_heads d) (in_conversationId i) (BigInt (in_position i))
    (base64url_decode (in_previousHeadHash i)) →
  ∃ receipt d', extendDelivery e i d = Ok (DeliveryWitnessed receipt, d').
Proof.
  intros [Hd Hh]%reachable_inv Hsig Hfresh Hs Hat Hkey Hdg Hv Hpos Hprev.
  unfold extendDelivery. rewrite Hat. cbn [cast mbind result_bind]. unfold submitter_keys in Hkey.
  rewrite Hkey, Hdg. cbn [mbind result_bind]. rewrite Hv. cbn [negb].
  destruct (checkpointInput_position i digest Hdg) as (Hp & Hhead & _).
  apply is_positive_uint63_bound in Hp as [_ Hp].
  assert (HN : heads_at d (in_conversationId i) (BigInt (in_position i)) = []).
  { rewrite heads_at_eq by done. destruct (1 <=? _); [|done]. rewrite lookup_ge_None_2; [done|lia]. }
  rewrite HN, (heads_at_previous _ _ _ _ Hh Hprev), bool_decide_eq_true_2 by done.
  destruct (deliveryPayload_fits i digest Hdg) as (pl & -> & Hpl). cbn [mbind result_bind].
  destruct (appendAndCheckpoint_ok e delivery pl d) as (rc & idx & d' & Ha); [done..|].
  rewrite Ha. cbn [mbind result_bind].
  apply appendAndCheckpoint_spec in Ha as (r & c & -> & _); [|done].
  unfold insert_head. cbn [hd_position hd_hash hd_conversation append_leaf witness_delivery_heads].
  apply is_base64url_decode in Hhead as [_ Hhead]. rewrite existsb_false_intro.
  - destruct (_ || false) eqn:E; [unfold byteLength, BIGINT_MAX, UINT63_MAX in *; lia|]. by eexists _, _.
  - intros h Hin. apply andb_false_iff. destruct (decide (hd_conversation h = in_conversationId i));
      [right|left; by apply bool_decide_eq_false_2].
    apply Z.eqb_neq. intros E. assert (Hm : h ∈ heads_at d (in_conversationId i) (BigInt (in_position i))).
    { by apply heads_at_intro. }
    rewrite HN in Hm. inversion Hm.
Qed.


(** ** Receipts *)

Lemma extendDelivery_id e i d receipt d' :
  winv d → extendDelivery e i d = Ok (DeliveryWitnessed receipt, d') →
  ∃ c, receipt = checkpointFromRow c ∧ c ∈ witness_checkpoints d' ∧ cp_id c = uuidV4 (env_random e).
Proof.
  intros Hd H. destruct (extendDelivery_cases _ _ _ _ _ Hd H)
    as [(? & ? & _)|[(_ & _ & h & _ & _ & _ & _ & ?)|(_ & row & c & h & [= ->] & Hw)]]; [done..|].
  exists c. destruct Hw as (-> & _ & _ & _ & _ & _ & _ & _ & _ & _ & _ & _ & Hid).
  split_and!; [done| |done]. cbn. apply elem_of_app. right. by left.
Qed.


Lemma readCheckpoint_row d c :
  log_inv d → c ∈ witness_checkpoints d → pg_uuid (cp_id c) = Some (cp_id c) →
  readCheckpoint (cp_id c) d = Ok (Some (checkpointFromRow c)).
Proof.
  intros Hd Hc Hu. unfold readCheckpoint. rewrite Hu. cbn [cast mbind result_bind].
  pose proof (inv_ids d Hd) as Hnd. revert Hc Hnd. clear. generalize (witness_checkpoints d).
  intros l Hc Hnd. assert (List.filter (λ r, cp_id r === cp_id c) l = [c]) as ->; [|done].
  induction l as [|x l IH]; [inversion Hc|]. cbn in Hnd |- *. apply NoDup_cons in Hnd as [Hx Hnd].
  assert (Hl : ∀ y, y ∈ l → cp_id y ≠ cp_id x).
  { intros y Hy E. apply Hx. rewrite <- E. by apply (list_elem_of_fmap_2 cp_id). }
  apply elem_of_cons in Hc as [->|Hc].
  - rewrite bool_decide_eq_true_2 by done. f_equal.
    rewrite (List.filter_ext_in _ (λ _, false)); [clear; by induction l|].
    intros y Hy%list_elem_of_In. by apply bool_decide_eq_false_2, Hl.
  - rewrite bool_decide_eq_false_2; [by apply IH|]. intros E. by apply (Hl c).
Qed.

(** A receipt is permanent: whatever happens after a submission is witnessed,
    reading its checkpoint returns the receipt that was issued. *)
Theorem receipt_permanent t0 e i d receipt d' d'' :
  (∀ s, is_uuid4 s = true → pg_uuid s = Some s) → length (env_random e) = 16%nat →
  reachable t0 d → extendDelivery e i d = Ok (DeliveryWitnessed receipt, d') → rtc step d' d'' →
  readCheckpoint (checkpointId receipt) d'' = Ok (Some receipt).
Proof.
  intros Hpg Hrand Hd%reachable_inv H Hs.
  assert (Hd' : winv d') by (by eapply step_inv; [|eapply step_delivery]).
  destruct (rtc_extends _ _ Hd' Hs) as [[Hl _] (_ & _ & Hcp & _)].
  destruct (extendDelivery_id _ _ _ _ _ Hd H) as (c & -> & Hin & Hid).
  apply readCheckpoint_row; [done| |].
  - destruct Hcp as [k ->]. apply elem_of_app. by left.
  - rewrite Hid. by apply Hpg, uuidV4_is_uuid4.
Qed.

(** ** The policy and directory chains *)

(** What each answer of [extendChain] means: it appends exactly when the
    submission names the last accepted upstream checkpoint, and otherwise
    returns both references and changes nothing. *)
Theorem extendChain_correct t0 e ns i d r d' :
  reachable t0 d → extendChain e ns i d = Ok (r, d') →
  match r with
  | ChainWitnessed receipt =>
      fst (witness_chain_heads d ns) = ch_previousCheckpointId i ∧
      (∃ id, pg_uuid (ch_checkpointId i) = Some id ∧
         ∀ ns', fst (witness_chain_heads d' ns') =
                if decide (ns' = ns) then Some id else fst (witness_chain_heads d ns')) ∧
      (∃ payload, chainPayload i = Ok payload ∧
         hashes d' ns = hashes d ns ++ [leafHash payload]) ∧
      (∀ ns', ns' ≠ ns → hashes d' ns' = hashes d ns') ∧
      rootHash receipt = b64 (merkleRoot (hashes d' ns)) ∧
      treeSize receipt = decimal (size (hashes d' ns))
  | ChainEquivocation expected submitted =>
      d' = d ∧ expected = fst (witness_chain_heads d ns) ∧ submitted = ch_previousCheckpointId i ∧
      expected ≠ submitted
  | ChainRejected _ => False
  end.
Proof.
  intros [Hl _]%reachable_inv H.
  destruct (extendChain_cases _ _ _ _ _ _ Hl H)
    as [(-> & ? & ->)|(row & c & id & -> & -> & ? & ? & ? & Hn & Hi & Hh & ? & Hs & Hr & _)]; [done|].
  assert (HH : ∀ n, hashes (set_chain_head ns id (env_now e) (append_leaf d row c)) n
    = hashes d n ++ (if decide (lf_namespace row = n) then [lf_hash row] else [])) by apply hashes_append.
  rewrite !(HH ns), decide_True by done. split_and!; [done| |by rewrite Hh; eauto| | |].
  - exists id. split; [done|]. intros ns'. cbn. case_bool_decide; by case_decide.
  - intros ns' Hne. rewrite HH, decide_False, app_nil_r by congruence. done.
  - cbn. by rewrite Hr.
  - cbn. rewrite Hs, Hi. unfold size, hashes. rewrite length_app, length_map. cbn [length]. f_equal. lia.
Qed.

(** ** Gossip *)

(** A gossiped head is a split view exactly when it is not the head witnessed
    at that position, and each split view adds one to the alert count. *)
Theorem reportGossip_correct t0 e i d splitView d' :
  reachable t0 d → reportGossip e i d = Ok (splitView, d') →
  ∃ conv pos, pg_uuid (go_conversationId i) = Some conv ∧ pg_bigint (go_position i) = Some pos ∧
    (splitView = false ↔ ∃ h, h ∈ witness_delivery_heads d ∧ hd_conversation h = conv ∧
       hd_position h = pos ∧ b64 (hd_hash h) = go_headHash i) ∧
    splitViewCount d' = splitViewCount d + (if splitView then 1 else 0) ∧
    witness_delivery_heads d' = witness_delivery_heads d.
Proof.
  intros [_ Hh]%reachable_inv (g & -> & Hb & Hu & Hp & Hiff)%reportGossip_cases.
  exists (gr_conversation g), (gr_position g). split_and!; [done|done| | |done].
  - rewrite Hiff. split.
    + intros (h & t & E & Heq). exists h. assert (Hin : h ∈ heads_at d (gr_conversation g) (gr_position g))
        by (rewrite E; by left). apply heads_at_elem in Hin as (? & ? & ?). auto.
    + intros (h & Hin & Hc & Hpos & Heq). exists h, []. split; [|done].
      assert (Hm : h ∈ heads_at d (gr_conversation g) (gr_position g)).
      { by apply heads_at_intro. }
      rewrite heads_at_eq in Hm |- * by done. destruct (1 <=? gr_position g); [|inversion Hm].
      destruct (conversation_heads d _ !! _); [|inversion Hm]. by apply list_elem_of_singleton in Hm as ->.
  - unfold splitViewCount. cbn [witness_gossip_reports]. rewrite List.filter_app, length_app. cbn.
    rewrite Hb. destruct splitView; cbn; lia.
Qed.

End Facts.

(** ** Evaluations *)

#[local] Existing Instance fips_sha256.

(** A deployment with concrete stand-ins: a signature is the key and the
    message, casts accept the canonical forms. *)
#[local] Instance sample_context : WitnessContext := {|
  signer_witnessKeyId := "witness-1";
  signer_sign := λ _, repeat Byte.x05 64;
  verifyEd25519 := λ key message signature, signature === key ++ message;
  pg_timestamptz := dateParse;
  pg_uuid := λ s, if is_uuid4 s then Some s else None;
  pg_bigint := λ s, if is_uint63 s then Some (BigInt s) else None |}.

Definition sample_key : keyRow := {|
  key_id := "key-1"; key_public := repeat Byte.x07 32; key_validFrom := 0;
  key_validUntil := 4000000000000 |}.
Definition sample_now : string := "2026-07-19T00:00:00.000Z".

Definition unsigned (position previous head : string) : DeliveryInput := {|
  in_conversationId := sample_conversation; in_position := position; in_previousHeadHash := previous;
  in_headHash := head; in_signingKeyId := "key-1"; in_signature := "";
  in_checkpointReceivedAt := sample_now |}.
Definition signed (i : DeliveryInput) : DeliveryInput := {|
  in_conversationId := in_conversationId i; in_position := in_position i;
  in_previousHeadHash := in_previousHeadHash i; in_headHash := in_headHash i;
  in_signingKeyId := in_signingKeyId i;
  in_signature := b64 (key_public sample_key ++ base64url_decode
    (valueOf "" (computeDeliveryLogCheckpointDigest (checkpointInput i))));
  in_checkpointReceivedAt := in_checkpointReceivedAt i |}.

Definition input1 : DeliveryInput := Eval vm_compute in signed (unsigned "1" ZERO_HASH32 sample_hash).
Definition input2 : DeliveryInput := Eval vm_compute in signed (unsigned "2" sample_hash sample_head).
Definition fork2 : DeliveryInput := Eval vm_compute in signed (unsigned "2" sample_hash sample_hash).
Definition env1 : env := {| env_now := 1784419200000; env_random := repeat Byte.x11 16 |}.
Definition env2 : env := {| env_now := 1784419201000; env_random := repeat Byte.x22 16 |}.
Definition env3 : env := {| env_now := 1784419202000; env_random := repeat Byte.x33 16 |}.

Definition run {A} (dflt : A) (r : result (A * db)) (d : db) : A * db := valueOf (dflt, d) r.
Definition db0 : db := with_keys [sample_key] (init 0).
Definition db1 : db := (run (DeliveryRejected "") (extendDelivery env1 input1 db0) db0).2.
Definition db2 : db := (run (DeliveryRejected "") (extendDelivery env2 input2 db1) db1).2.

Definition is_witnessed (r : result (DeliveryExtensionResult * db)) : bool :=
  match r with Ok (DeliveryWitnessed _, _) => true | _ => false end.

(** Both submissions are witnessed; a fork at position two is an equivocation. *)
Example sample_history :
  is_witnessed (extendDelivery env1 input1 db0) = true ∧
  is_witnessed (extendDelivery env2 input2 db1) = true ∧
  (run (DeliveryRejected "") (extendDelivery env3 fork2 db2) db2).1
    = DeliveryEquivocation "2" sample_head sample_hash.
Proof. by vm_compute. Qed.

Lemma witnessed_next e i d :
  is_witnessed (extendDelivery e i d) = true →
  ∃ rc, extendDelivery e i d = Ok (DeliveryWitnessed rc, (run (DeliveryRejected "") (extendDelivery e i d) d).2).
Proof. destruct (extendDelivery e i d) as [[[] ?]|]; try done. by eexists. Qed.

Lemma db0_reachable : reachable 0 db0.
Proof. eapply reach_step; [apply reach_init|apply step_keys]. Qed.
Lemma db1_reachable : reachable 0 db1.
Proof.
  destruct (witnessed_next env1 input1 db0) as [rc H]; [by vm_compute|].
  eapply reach_step; [apply db0_reachable|]. eapply step_delivery, H.
Qed.
Lemma db2_reachable : reachable 0 db2.
Proof.
  destruct (witnessed_next env2 input2 db1) as [rc H]; [by vm_compute|].
  eapply reach_step; [apply db1_reachable|]. eapply step_delivery, H.
Qed.

Definition the_checkpoint (i : nat) : checkpointRow :=
  default {| cp_id := ""; cp_namespace := delivery; cp_size := 0; cp_root := []; cp_keyId := "";
             cp_signature := []; cp_at := 0 |} (witness_checkpoints db2 !! i).
Lemma the_checkpoint_in i : (i < 2)%nat → the_checkpoint i ∈ witness_checkpoints db2.
Proof.
  intros Hi. unfold the_checkpoint. destruct (witness_checkpoints db2 !! i) eqn:E.
  - by eapply list_elem_of_lookup_2.
  - apply lookup_ge_None in E. assert (length (witness_checkpoints db2) = 2%nat) by by vm_compute. lia.
Qed.

Lemma witness_consistency_witness :
  ∃ proof, proveConsistency delivery 1 2 db2 = Ok (Some proof) ∧
    verifyConsistency 1 (cp_root (the_checkpoint 0)) 2 (cp_root (the_checkpoint 1))
      (map base64url_decode proof) = true.
Proof.
  apply (witness_consistency 0 db2 (the_checkpoint 0) (the_checkpoint 1));
    [exact db2_reachable|apply the_checkpoint_in; lia|apply the_checkpoint_in; lia|by vm_compute..].
Defined.

Lemma witness_no_equivocation_witness :
  the_checkpoint 1 = the_checkpoint 1 ∧
  cp_root (the_checkpoint 1) = merkleRoot (slice_to 2 (hashes db2 delivery)).
Proof.
  apply (witness_no_equivocation 0 db2 db2 (the_checkpoint 1) (the_checkpoint 1));
    [exact db2_reachable|constructor|apply the_checkpoint_in; lia|apply the_checkpoint_in; lia|reflexivity..].
Defined.

Lemma witness_positions_contiguous_witness :
  map hd_position (conversation_heads db2 sample_conversation) = [1; 2].
Proof.
  rewrite (proj1 (witness_positions_contiguous 0 db2 sample_conversation db2_reachable)). by vm_compute.
Defined.

Definition the_head : headRow :=
  default {| hd_conversation := ""; hd_position := 0; hd_hash := []; hd_index := 0 |}
    (witness_delivery_heads db2 !! 0%nat).

Lemma witness_inclusion_witness :
  ∃ i payload proof,
    deliveryPayload i = Ok payload ∧ in_conversationId i = hd_conversation the_head ∧
    BigInt (in_position i) = hd_position the_head ∧ base64url_decode (in_headHash i) = hd_hash the_head ∧
    proveInclusion delivery (hd_index the_head) (cp_size (the_checkpoint 1)) db2 = Ok (Some proof) ∧
    verifyInclusion (leafHash payload) (hd_index the_head) (cp_size (the_checkpoint 1))
      (map base64url_decode proof) (cp_root (the_checkpoint 1)) = true.
Proof.
  apply (witness_inclusion 0 db2 the_head (the_checkpoint 1));
    [exact db2_reachable| |apply the_checkpoint_in; lia|by vm_compute..].
  apply (list_elem_of_lookup_2 _ 0%nat). by vm_compute.
Defined.

Lemma extendDelivery_correct_witness :
  ∃ r d', extendDelivery env3 fork2 db2 = Ok (r, d') ∧ d' = db2 ∧
    r = DeliveryEquivocation "2" sample_head sample_hash.
Proof.
  assert (H : extendDelivery env3 fork2 db2
    = Ok (DeliveryEquivocation "2" sample_head sample_hash, (run (DeliveryRejected "") (extendDelivery env3 fork2 db2) db2).2)).
  { by vm_compute. }
  pose proof (extendDelivery_correct 0 env3 fork2 db2 _ _ db2_reachable H) as (HE & _).
  eexists _, _. split; [exact H|]. split; [exact HE|reflexivity].
Defined.

Lemma extendDelivery_progress_witness :
  ∃ receipt d', extendDelivery env2 input2 db1 = Ok (DeliveryWitnessed receipt, d').
Proof.
  apply (extendDelivery_progress 0 env2 input2 db1 1784419200000 sample_key
    (valueOf "" (computeDeliveryLogCheckpointDigest (checkpointInput input2))));
    [exact db1_reachable| | |by vm_compute..|].
  - split; [done|]. vm_compute. split; discriminate.
  - split; [done|]. apply (bool_decide_eq_true_1 _). by vm_compute.
  - right. exists the_head. split; [|by vm_compute].
    apply (list_elem_of_lookup_2 _ 0%nat). by vm_compute.
Defined.

Lemma receipt_permanent_witness :
  ∃ receipt d', extendDelivery env2 input2 db1 = Ok (DeliveryWitnessed receipt, d') ∧
    readCheckpoint (checkpointId receipt) d' = Ok (Some receipt).
Proof.
  destruct (witnessed_next env2 input2 db1) as [rc H]; [by vm_compute|]. exists rc. eexists.
  split; [exact H|]. eapply (receipt_permanent 0 env2 input2 db1);
    [|reflexivity|exact db1_reachable|exact H|constructor].
  intros s Hs. cbn. by rewrite Hs.
Defined.

Definition chain1 : ChainInput := {|
  ch_checkpointId := "a1b2c3d4-0000-4000-8000-00000000000a"; ch_treeSize := "1";
  ch_rootHash := ZERO_HASH32; ch_previousCheckpointId := None; ch_signerKeyId := "any" |}.

Definition chain_witnessed (r : result (ChainExtensionResult * db)) : bool :=
  match r with Ok (ChainWitnessed _, _) => true | _ => false end.

Lemma extendChain_correct_witness :
  ∃ receipt d', extendChain env1 policy chain1 db0 = Ok (ChainWitnessed receipt, d') ∧
    rootHash receipt = b64 (merkleRoot (hashes d' policy)).
Proof.
  assert (HW : chain_witnessed (extendChain env1 policy chain1 db0) = true) by by vm_compute.
  destruct (extendChain env1 policy chain1 db0) as [[[rc| |] d']|] eqn:H; try discriminate HW.
  pose proof (extendChain_correct 0 env1 policy chain1 db0 _ d' db0_reachable H) as HC.
  exists rc, d'. split; [reflexivity|]. apply HC.
Defined.

(** The comment on [createWitnessCore] has the witness verify the submitter's
    signature before cosigning; [extendChain] takes no signature, and cosigns
    for a witness that has no registered key at all. *)
Theorem extendChain_unauthenticated :
  witness_submitter_keys (init 0) = [] ∧
  chain_witnessed (extendChain env1 policy chain1 (init 0)) = true.
Proof. by vm_compute. Qed.

Definition gossip1 : GossipInput := {|
  go_conversationId := sample_conversation; go_position := "2"; go_headHash := sample_hash;
  go_witnessCheckpointId := "a1b2c3d4-0000-4000-8000-00000000000b" |}.

Definition gossip_split (r : result (bool * db)) : bool :=
  match r with Ok (b, _) => b | Throw _ => false end.

Lemma reportGossip_correct_witness :
  ∃ d', reportGossip env3 gossip1 db2 = Ok (true, d') ∧ splitViewCount d' = splitViewCount db2 + 1.
Proof.
  assert (HS : gossip_split (reportGossip env3 gossip1 db2) = true) by by vm_compute.
  destruct (reportGossip env3 gossip1 db2) as [[b d']|] eqn:H; [|discriminate HS].
  destruct (reportGossip_correct 0 env3 gossip1 db2 b d' db2_reachable H) as (c & p & _ & _ & _ & HC & _).
  cbn in HS. subst b. exists d'. split; [reflexivity|exact HC].
Defined.
