(* ===== verification/Fulfillment.v ===== *)
(** * Fulfillment over an authenticated transcript
      ([src/domain/model.ts], [src/domain/fulfillment.ts])

    The support-event types, role authorization, replay filtering, recipient
    rosters and the fulfillment reducer.  Numbers of decrypted payloads are
    [jsnum]s, so that [Number.isSafeInteger] is a real check. *)

From stdpp Require Import base list strings sorting.
From Stdlib Require Import ZArith Lia Ascii.
From S2P Require Import Prelude JsValue.

(** ** The model *)

Record ShippingAddress := {
  recipientName : string;
  line1 : string;
  line2 : string;
  city : string;
  region : string;
  postalCode : string;
  country : string;
  deliveryNote : string;
}.

(** ["customer"] or ["project-staff"]; the checks compare strings. *)
Abbreviation AuthenticatedParticipantRole := string (only parsing).

Record RecipientDeviceMetadata := {
  dev_participantId : string;
  dev_deviceId : string;
  dev_deviceFingerprint : string;
  dev_displayName : string;
  dev_role : AuthenticatedParticipantRole;
}.

(** A binding, or the richer snapshot: [devices] is [None] when the property
    is absent and [Some None] when it is present and not an array. *)
Record RecipientRosterBinding := {
  rosterVersion : string;
  mlsEpoch : jsnum;
  recipientDeviceFingerprints : list string;
  devices : option (option (list RecipientDeviceMetadata));
}.

Inductive FulfillmentStatus := status_preparing | status_shipped.

Record ShippingAddressEvent := {
  sa_id : string;
  sa_createdAt : string;
  sa_addressId : string;
  sa_version : jsnum;
  sa_address : ShippingAddress;
  sa_approvedRoster : RecipientRosterBinding;
}.
Record ShippingAddressCorrectionEvent := {
  sc_id : string;
  sc_createdAt : string;
  sc_correctionId : string;
  sc_correctionVersion : jsnum;
  sc_shippedAddressId : string;
  sc_shippedAddressVersion : jsnum;
  sc_address : ShippingAddress;
  sc_approvedRoster : RecipientRosterBinding;
}.
Record FulfillmentStatusEvent := {
  fs_id : string;
  fs_createdAt : string;
  fs_status : FulfillmentStatus;
  fs_addressId : string;
  fs_addressVersion : jsnum;
}.
Record TrackingEvent := {
  tr_id : string;
  tr_createdAt : string;
  tr_carrier : string;
  tr_trackingCode : string;
  tr_addressId : string;
  tr_addressVersion : jsnum;
}.

Inductive SupportEvent :=
| TextEvent (id createdAt body : string)
| AddressRequestEvent (id createdAt reason : string)
| EShippingAddress (event : ShippingAddressEvent)
| EShippingAddressCorrection (event : ShippingAddressCorrectionEvent)
| AddressAcknowledgedEvent (id createdAt addressId : string) (addressVersion : jsnum)
| EFulfillmentStatus (event : FulfillmentStatusEvent)
| ETracking (event : TrackingEvent).

Definition event_id (e : SupportEvent) : string :=
  match e with
  | TextEvent id _ _ | AddressRequestEvent id _ _ | AddressAcknowledgedEvent id _ _ _ => id
  | EShippingAddress e => sa_id e
  | EShippingAddressCorrection e => sc_id e
  | EFulfillmentStatus e => fs_id e
  | ETracking e => tr_id e
  end.

Record RoleCredential := {
  credentialId : string;
  role : AuthenticatedParticipantRole;
  subjectParticipantId : string;
  subjectDeviceId : string;
  issuedAt : string;
}.
Record AuthenticatedEventMetadata := {
  participantId : string;
  deviceId : string;
  deviceFingerprint : string;
  roleCredential : RoleCredential;
}.
Record AuthenticatedSupportEvent := {
  event : SupportEvent;
  authenticated : AuthenticatedEventMetadata;
}.

Inductive FulfillmentStage := address_needed | ready_to_fulfill | preparing | shipped.

Record FulfillmentView := {
  stage : FulfillmentStage;
  addressEvent : option ShippingAddressEvent;
  acknowledged : bool;
  statusEvent : option FulfillmentStatusEvent;
  trackingEvent : option TrackingEvent;
  addressCorrectionEvent : option ShippingAddressCorrectionEvent;
}.

(** ** JavaScript operations used here *)

(** [Boolean(s)] on a string. *)
Definition truthy (s : string) : bool := s !== "".

(** [a === b] on numbers (the values compared are integers or never equal). *)
Definition num_eq (a b : jsnum) : bool :=
  match a, b with NInt x, NInt y => x =? y | _, _ => false end.
(** [a + 1] on a number below 2^53. *)
Definition num_succ (a : jsnum) : jsnum :=
  match a with NInt x => NInt (x + 1) | NOther => NOther end.

(** [String.prototype.trim] on Latin-1 text. *)
Definition is_ws (c : ascii) : bool := in_range 9 13 c || (code c =? 32) || (code c =? 160).
Fixpoint drop_ws (cs : list ascii) : list ascii :=
  match cs with c :: cs' => if is_ws c then drop_ws cs' else cs | [] => [] end.
Definition trim (s : string) : string :=
  String.string_of_list_ascii (rev (drop_ws (rev (drop_ws (chars s))))).

(** [new Set(xs).size === xs.length]. *)
Definition all_distinct (xs : list string) : bool := bool_decide (NoDup xs).

(** [[...xs].sort()]: by code units. *)
Definition sle_rel (s t : string) : Prop := sle s t = true.
#[export] Instance sle_rel_dec : RelDecision sle_rel.
Proof. intros s t. unfold sle_rel. apply _. Defined.
Definition sort (xs : list string) : list string := merge_sort sle_rel xs.

(** ** Authorization *)

Definition canRoleEmitEvent (role : AuthenticatedParticipantRole) (event : SupportEvent) : bool :=
  match event with
  | TextEvent _ _ _ => (role === "customer") || (role === "project-staff")
  | EShippingAddress _ | EShippingAddressCorrection _ => role === "customer"
  | AddressRequestEvent _ _ _ | AddressAcknowledgedEvent _ _ _ _ | EFulfillmentStatus _ | ETracking _ =>
      role === "project-staff"
  end.

Definition isAuthorizedSupportEvent (entry : AuthenticatedSupportEvent) : bool :=
  let a := authenticated entry in
  let c := roleCredential a in
  if negb (truthy (participantId a)) || negb (truthy (deviceId a))
     || negb (truthy (deviceFingerprint a)) || negb (truthy (credentialId c))
     || (subjectParticipantId c !== participantId a) || (subjectDeviceId c !== deviceId a)
  then false
  else canRoleEmitEvent (role c) (event entry).

(** The loop with its set of seen identifiers. *)
Fixpoint authorizedLoop (seen : list string) (events : list AuthenticatedSupportEvent) :
  list AuthenticatedSupportEvent :=
  match events with
  | [] => []
  | entry :: rest =>
      let eventId := trim (event_id (event entry)) in
      if negb (truthy eventId) || negb (isAuthorizedSupportEvent entry) || bool_decide (eventId ∈ seen)
      then authorizedLoop seen rest
      else entry :: authorizedLoop (eventId :: seen) rest
  end.
Definition authorizedSupportEvents (events : list AuthenticatedSupportEvent) :
  list AuthenticatedSupportEvent := authorizedLoop [] events.

Definition eventViewerRole (e : AuthenticatedSupportEvent) : string :=
  if role (roleCredential (authenticated e)) === "customer" then "customer" else "project".

(** ** Rosters *)

Definition hasValidRosterBindingFields (binding : RecipientRosterBinding) : bool :=
  truthy (rosterVersion binding)
  && isSafeInteger (mlsEpoch binding)
  && match mlsEpoch binding with NInt z => 0 <=? z | NOther => false end
  && negb (Nat.eqb (length (recipientDeviceFingerprints binding)) 0)
  && forallb truthy (recipientDeviceFingerprints binding)
  && all_distinct (recipientDeviceFingerprints binding).

Definition sameFingerprintSet (left right : list string) : bool :=
  if negb (Nat.eqb (length left) (length right)) then false
  else forallb (λ p, p.1 === p.2) (zip (sort left) (sort right)).

Definition isValidRosterSnapshot (roster : RecipientRosterBinding) : bool :=
  match devices roster with
  | Some (Some ds) =>
      if negb (hasValidRosterBindingFields roster) then false
      else
        let deviceIds := map dev_deviceId ds in
        let deviceFingerprints := map dev_deviceFingerprint ds in
        if Nat.eqb (length ds) 0
           || existsb (λ d, negb (truthy (dev_participantId d)) || negb (truthy (dev_deviceId d))
                 || negb (truthy (dev_deviceFingerprint d)) || negb (truthy (dev_displayName d))
                 || ((dev_role d !== "customer") && (dev_role d !== "project-staff"))) ds
           || negb (all_distinct deviceIds) || negb (all_distinct deviceFingerprints)
        then false
        else sameFingerprintSet deviceFingerprints (recipientDeviceFingerprints roster)
  | _ => false
  end.

Definition isValidRosterBinding (binding : RecipientRosterBinding) : bool :=
  if negb (hasValidRosterBindingFields binding) then false
  else match devices binding with
       | Some _ => isValidRosterSnapshot binding
       | None => true
       end.

Definition rosterBindingFromSnapshot (roster : RecipientRosterBinding) :
  result RecipientRosterBinding :=
  throw_if (negb (isValidRosterSnapshot roster)) GenericError;;
  Ok {| rosterVersion := rosterVersion roster; mlsEpoch := mlsEpoch roster;
        recipientDeviceFingerprints := recipientDeviceFingerprints roster; devices := None |}.

Definition rosterBindingsEqual (left right : RecipientRosterBinding) : bool :=
  if negb (isValidRosterBinding left) || negb (isValidRosterBinding right)
     || (rosterVersion left !== rosterVersion right)
     || negb (num_eq (mlsEpoch left) (mlsEpoch right))
     || negb (Nat.eqb (length (recipientDeviceFingerprints left))
                      (length (recipientDeviceFingerprints right)))
  then false
  else sameFingerprintSet (recipientDeviceFingerprints left) (recipientDeviceFingerprints right).

(** ** The reducer *)

(** The five [let] variables of [deriveFulfillment]. *)
Record fstate := FState {
  st_address : option ShippingAddressEvent;
  st_acknowledged : bool;
  st_status : option FulfillmentStatusEvent;
  st_tracking : option TrackingEvent;
  st_correction : option ShippingAddressCorrectionEvent;
}.

Definition fstate0 : fstate := FState None false None None None.

(** [statusEvent?.status === s]. *)
Definition status_is (s : FulfillmentStatus) (o : option FulfillmentStatusEvent) : bool :=
  match o, s with
  | Some e, status_shipped => match fs_status e with status_shipped => true | _ => false end
  | Some e, status_preparing => match fs_status e with status_preparing => true | _ => false end
  | None, _ => false
  end.

(** The switch of the loop body. *)
Definition reduce (s : fstate) (event : SupportEvent) : fstate :=
  match event with
  | EShippingAddress e =>
      let expectedVersion :=
        match st_address s with Some a => num_succ (sa_version a) | None => NInt 1 end in
      if status_is status_shipped (st_status s) || negb (isValidRosterBinding (sa_approvedRoster e))
         || negb (isSafeInteger (sa_version e)) || negb (truthy (sa_addressId e))
         || negb (num_eq (sa_version e) expectedVersion)
      then s
      else if match st_address s with Some a => sa_addressId e !== sa_addressId a | None => false end
      then s
      else FState (Some e) false None None (st_correction s)
  | AddressAcknowledgedEvent _ _ addressId addressVersion =>
      match st_address s with
      | Some a =>
          if negb (status_is status_shipped (st_status s)) && (addressId === sa_addressId a)
             && num_eq addressVersion (sa_version a)
          then FState (st_address s) true (st_status s) (st_tracking s) (st_correction s)
          else s
      | None => s
      end
  | EFulfillmentStatus e =>
      match st_address s with
      | None => s
      | Some a =>
          if negb (st_acknowledged s) || (fs_addressId e !== sa_addressId a)
             || negb (num_eq (fs_addressVersion e) (sa_version a))
             || status_is status_shipped (st_status s)
          then s
          else match fs_status e with
               | status_preparing =>
                   match st_status s with
                   | None => FState (st_address s) (st_acknowledged s) (Some e) (st_tracking s) (st_correction s)
                   | Some _ => s
                   end
               | status_shipped =>
                   if status_is status_preparing (st_status s)
                   then FState (st_address s) (st_acknowledged s) (Some e) (st_tracking s) (st_correction s)
                   else s
               end
      end
  | ETracking e =>
      match st_address s with
      | Some a =>
          if (status_is status_preparing (st_status s) || status_is status_shipped (st_status s))
             && (tr_addressId e === sa_addressId a) && num_eq (tr_addressVersion e) (sa_version a)
          then FState (st_address s) (st_acknowledged s) (st_status s) (Some e) (st_correction s)
          else s
      | None => s
      end
  | EShippingAddressCorrection e =>
      let expectedCorrectionVersion :=
        match st_correction s with Some c => num_succ (sc_correctionVersion c) | None => NInt 1 end in
      match st_address s with
      | None => s
      | Some a =>
          if negb (status_is status_shipped (st_status s))
             || negb (isValidRosterBinding (sc_approvedRoster e))
             || (sc_shippedAddressId e !== sa_addressId a)
             || negb (num_eq (sc_shippedAddressVersion e) (sa_version a))
             || negb (isSafeInteger (sc_correctionVersion e)) || negb (truthy (sc_correctionId e))
             || negb (num_eq (sc_correctionVersion e) expectedCorrectionVersion)
          then s
          else if match st_correction s with
                  | Some c => sc_correctionId e !== sc_correctionId c
                  | None => false
                  end
          then s
          else FState (st_address s) (st_acknowledged s) (st_status s) (st_tracking s) (Some e)
      end
  | TextEvent _ _ _ | AddressRequestEvent _ _ _ => s
  end.

(** The returned view. *)
Definition view (s : fstate) : FulfillmentView :=
  match st_address s with
  | None =>
      {| stage := address_needed; addressEvent := None; acknowledged := false; statusEvent := None;
         trackingEvent := None; addressCorrectionEvent := None |}
  | Some a =>
      if status_is status_shipped (st_status s) then
        {| stage := shipped; addressEvent := Some a; acknowledged := st_acknowledged s;
           statusEvent := st_status s; trackingEvent := st_tracking s;
           addressCorrectionEvent := st_correction s |}
      else if status_is status_preparing (st_status s) then
        {| stage := preparing; addressEvent := Some a; acknowledged := st_acknowledged s;
           statusEvent := st_status s; trackingEvent := st_tracking s;
           addressCorrectionEvent := None |}
      else
        {| stage := ready_to_fulfill; addressEvent := Some a; acknowledged := st_acknowledged s;
           statusEvent := None; trackingEvent := None; addressCorrectionEvent := None |}
  end.

Definition reduceEntries (entries : list AuthenticatedSupportEvent) : fstate :=
  foldl (λ s entry, reduce s (event entry)) fstate0 (authorizedSupportEvents entries).

Definition deriveFulfillment (entries : list AuthenticatedSupportEvent) : FulfillmentView :=
  view (reduceEntries entries).

Definition latestAddressEvent (events : list AuthenticatedSupportEvent) : option ShippingAddressEvent :=
  addressEvent (deriveFulfillment events).

(** ** Addresses and labels *)

Record AddressValidation := {
  valid : bool;
  errors : list (string * string);
}.

Definition validateShippingAddress (address : ShippingAddress) : AddressValidation :=
  let required := [("recipientName", recipientName address); ("line1", line1 address);
                   ("city", city address); ("country", country address)] in
  let errors := omap (λ '(field, v), if truthy (trim v) then None else Some (field, "Required")) required in
  let errors :=
    if 240 <? strlen (deliveryNote address)
    then errors ++ [("deliveryNote", "Keep delivery instructions under 240 characters")]
    else errors in
  {| valid := Nat.eqb (length errors) 0; errors := errors |}.

(** [xs.filter(Boolean).join(sep)]. *)
Definition joinNonEmpty (sep : string) (xs : list string) : string :=
  String.concat sep (List.filter truthy xs).

Definition NEWLINE : string := String.String (ascii_of_nat 10) String.EmptyString.

Definition addressToMultiline (address : ShippingAddress) : string :=
  let locality := joinNonEmpty ", " [city address; region address] in
  let localityAndPostalCode := joinNonEmpty " " [locality; postalCode address] in
  joinNonEmpty NEWLINE
    [recipientName address; line1 address; line2 address; localityAndPostalCode; country address;
     if truthy (deliveryNote address) then "Delivery note: " +:+ deliveryNote address else ""].

Definition stageLabel (s : FulfillmentStage) : string :=
  match s with
  | address_needed => "Address needed"
  | ready_to_fulfill => "Ready to fulfill"
  | preparing => "Preparing"
  | shipped => "Shipped"
  end.

(** ** Replays *)

Definition entry_id (e : AuthenticatedSupportEvent) : string := trim (event_id (event e)).
Definition admissible (e : AuthenticatedSupportEvent) : bool :=
  truthy (entry_id e) && isAuthorizedSupportEvent e.

Lemma authorizedLoop_cons seen e rest :
  authorizedLoop seen (e :: rest) =
  if admissible e && negb (bool_decide (entry_id e ∈ seen))
  then e :: authorizedLoop (entry_id e :: seen) rest else authorizedLoop seen rest.
Proof.
  cbn. unfold admissible. fold (entry_id e).
  by destruct (truthy (entry_id e)), (isAuthorizedSupportEvent e), (bool_decide _).
Qed.

Lemma authorizedLoop_app seen a b :
  authorizedLoop seen (a ++ b)
  = authorizedLoop seen a ++ authorizedLoop (rev (map entry_id (authorizedLoop seen a)) ++ seen) b.
Proof.
  revert seen. induction a as [|e a IH]; intros seen; [done|]. cbn [app]. rewrite !authorizedLoop_cons.
  destruct (admissible e && _); [|by apply IH]. cbn. rewrite IH. by rewrite <- app_assoc.
Qed.

Lemma authorizedLoop_elem seen es e :
  e ∈ authorizedLoop seen es → e ∈ es ∧ admissible e = true ∧ entry_id e ∉ seen.
Proof.
  revert seen. induction es as [|x es IH]; intros seen; [intros H; inversion H|].
  rewrite authorizedLoop_cons. destruct (admissible x && _) eqn:E.
  - split_orb. apply bool_decide_eq_false in E0. intros [->|H]%elem_of_cons; [split; [by left|done]|].
    destruct (IH _ H) as (? & ? & Hn). split; [by right|]. split; [done|]. intros ?. apply Hn. by right.
  - intros H. destruct (IH _ H) as (? & ?). split; [by right|done].
Qed.

(** Later entries whose identifiers were already reduced, or that are not
    admissible, are skipped. *)
Lemma authorizedLoop_skip seen es :
  Forall (λ e, admissible e = false ∨ entry_id e ∈ seen) es → authorizedLoop seen es = [].
Proof.
  induction 1 as [|e es He _ IH]; [done|]. rewrite authorizedLoop_cons.
  destruct He as [->|He]; [done|]. rewrite (bool_decide_eq_true_2 (entry_id e ∈ seen)) by done.
  by rewrite andb_false_r.
Qed.

Lemma authorizedLoop_covers seen es e :
  e ∈ es → admissible e = true → entry_id e ∈ rev (map entry_id (authorizedLoop seen es)) ++ seen.
Proof.
  revert seen. induction es as [|x es IH]; intros seen He Ha; [inversion He|].
  rewrite authorizedLoop_cons. apply elem_of_cons in He as [<-|He].
  - rewrite Ha. cbn [andb]. case_bool_decide as E; cbn [negb].
    + apply elem_of_app. by right.
    + cbn. apply elem_of_app. left. apply elem_of_app. right. by left.
  - destruct (admissible x && _).
    + cbn. specialize (IH (entry_id x :: seen) He Ha). rewrite <- app_assoc. exact IH.
    + by apply IH.
Qed.

(** C15: Transcript replays are idempotent: appending any redelivery of entries of
    the transcript, in any order and number, together with any unauthorized
    entries, changes nothing in the derived view. *)
Theorem deriveFulfillment_replay es es' :
  (∀ e, e ∈ es' → e ∈ es ∨ isAuthorizedSupportEvent e = false) →
  deriveFulfillment (es ++ es') = deriveFulfillment es.
Proof.
  intros H. unfold deriveFulfillment, reduceEntries, authorizedSupportEvents.
  rewrite authorizedLoop_app, (authorizedLoop_skip _ es'), app_nil_r; [done|].
  apply Forall_forall. intros e He. destruct (admissible e) eqn:E; [right|by left].
  destruct (H e He) as [Hin|Hf]; [by apply authorizedLoop_covers|].
  unfold admissible in E. split_orb. congruence.
Qed.

(** A conflicting payload under an identifier already reduced is ignored: the
    first authorized occurrence wins. *)
Theorem first_occurrence_wins es e e' :
  e ∈ es → admissible e = true → entry_id e' = entry_id e →
  deriveFulfillment (es ++ [e']) = deriveFulfillment es.
Proof.
  intros He Ha Hid. unfold deriveFulfillment, reduceEntries, authorizedSupportEvents.
  rewrite authorizedLoop_app, (authorizedLoop_skip _ [e']), app_nil_r; [done|].
  apply Forall_singleton. right. rewrite Hid. by apply authorizedLoop_covers.
Qed.

(** ** The transition graph *)

Lemma reduce_shipped s e :
  status_is status_shipped (st_status s) = true →
  st_address (reduce s e) = st_address s ∧ st_acknowledged (reduce s e) = st_acknowledged s ∧
  st_status (reduce s e) = st_status s.
Proof.
  intros H. destruct e as [| |a|c|? ? i v|f|t]; cbn [reduce]; rewrite ?H, ?orb_true_r; try done;
    destruct (st_address s) eqn:E; rewrite ?orb_true_r; try done; repeat case_match; cbn; auto.
Qed.

Lemma fold_shipped l s :
  status_is status_shipped (st_status s) = true →
  let s' := foldl (λ s e, reduce s (event e)) s l in
  st_address s' = st_address s ∧ st_acknowledged s' = st_acknowledged s ∧ st_status s' = st_status s.
Proof.
  revert s. induction l as [|e l IH]; intros s Hs; [done|]. cbn.
  destruct (reduce_shipped s (event e) Hs) as (Ha & Hk & Ht).
  destruct (IH (reduce s (event e))) as (? & ? & ?); [by rewrite Ht|]. split_and!; congruence.
Qed.

Lemma reduceEntries_app es es' :
  ∃ l, reduceEntries (es ++ es') = foldl (λ s e, reduce s (event e)) (reduceEntries es) l.
Proof.
  unfold reduceEntries, authorizedSupportEvents. rewrite authorizedLoop_app, foldl_app. by eexists.
Qed.

Lemma view_shipped s :
  stage (view s) = shipped ↔ st_address s ≠ None ∧ status_is status_shipped (st_status s) = true.
Proof.
  unfold view. destruct (st_address s); [|cbn; intuition congruence].
  destruct (status_is status_shipped _); [cbn; intuition congruence|].
  destruct (status_is status_preparing _); cbn; intuition congruence.
Qed.

(** [shipped] is terminal: whatever follows a shipped transcript, the order
    stays shipped, to the same address, acknowledged by the same rule and with
    the same status event. *)
Theorem shipped_is_terminal es es' :
  stage (deriveFulfillment es) = shipped →
  stage (deriveFulfillment (es ++ es')) = shipped ∧
  addressEvent (deriveFulfillment (es ++ es')) = addressEvent (deriveFulfillment es) ∧
  acknowledged (deriveFulfillment (es ++ es')) = acknowledged (deriveFulfillment es) ∧
  statusEvent (deriveFulfillment (es ++ es')) = statusEvent (deriveFulfillment es).
Proof.
  unfold deriveFulfillment. intros [Ha Hs]%view_shipped. destruct (reduceEntries_app es es') as [l ->].
  destruct (fold_shipped l _ Hs) as (Ha' & Hk' & Hs'). set (s' := foldl _ _ l) in *.
  unfold view. rewrite Ha', Hs', Hk'. destruct (st_address (reduceEntries es)); [|done]. by rewrite Hs.
Qed.

(** ** What a derived view is grounded in *)

Definition address_of (e : SupportEvent) : option ShippingAddressEvent :=
  match e with EShippingAddress a => Some a | _ => None end.

(** The address versions that led to [a]: 1, 2, ..., its own version, all of
    one address identifier, in transcript order. *)
Definition address_history (l : list SupportEvent) (a : ShippingAddressEvent) : Prop :=
  ∃ v versions, sa_version a = NInt v ∧ 1 <= v <= MAX_SAFE_INTEGER ∧
    versions `sublist_of` omap address_of l ∧
    map sa_version versions = map (λ n, NInt (Z.of_nat n)) (seq 1 (Z.to_nat v)) ∧
    Forall (λ b, sa_addressId b = sa_addressId a ∧ isValidRosterBinding (sa_approvedRoster b) = true) versions ∧
    last versions = Some a.

(** An acknowledgement of exactly this address version. *)
Definition acknowledged_in (l : list SupportEvent) (a : ShippingAddressEvent) : Prop :=
  ∃ id at_, AddressAcknowledgedEvent id at_ (sa_addressId a) (sa_version a) ∈ l.

Definition status_for (l : list SupportEvent) (a : ShippingAddressEvent) (s : FulfillmentStatus)
    (f : FulfillmentStatusEvent) : Prop :=
  EFulfillmentStatus f ∈ l ∧ fs_status f = s ∧ fs_addressId f = sa_addressId a ∧
  fs_addressVersion f = sa_version a.

Record grounded (l : list SupportEvent) (s : fstate) : Prop := {
  g_address a : st_address s = Some a → address_history l a;
  g_none : st_address s = None → s = fstate0;
  g_ack : st_acknowledged s = true → ∃ a, st_address s = Some a ∧ acknowledged_in l a;
  g_status f : st_status s = Some f → st_acknowledged s = true ∧ ∃ a, st_address s = Some a ∧
    status_for l a (fs_status f) f ∧ (∃ p, status_for l a status_preparing p);
  g_tracking t : st_tracking s = Some t → ∃ a f, st_address s = Some a ∧ st_status s = Some f ∧
    ETracking t ∈ l ∧ tr_addressId t = sa_addressId a ∧ tr_addressVersion t = sa_version a;
  g_correction c : st_correction s = Some c → ∃ a, st_address s = Some a ∧
    status_is status_shipped (st_status s) = true ∧
    EShippingAddressCorrection c ∈ l ∧ sc_shippedAddressId c = sa_addressId a ∧
    sc_shippedAddressVersion c = sa_version a ∧
    isValidRosterBinding (sc_approvedRoster c) = true;
}.

Lemma num_eq_true a b : num_eq a b = true ↔ a = b ∧ a ≠ NOther.
Proof.
  destruct a, b; cbn; try (split; [done|by intros [? ?]]).
  rewrite Z.eqb_eq. split; [by intros ->|by intros [[= ->] _]].
Qed.

Ltac num_eqs := repeat match goal with
  | H : num_eq _ _ = true |- _ => apply num_eq_true in H as [H _]
  end.

Lemma address_history_mono l e a : address_history l a → address_history (l ++ [e]) a.
Proof.
  intros (v & vs & ? & ? & Hs & ?). exists v, vs. split_and!; try tauto.
  rewrite omap_app. by apply sublist_inserts_r.
Qed.

Lemma acknowledged_in_mono l e a : acknowledged_in l a → acknowledged_in (l ++ [e]) a.
Proof. intros (i & t & ?). exists i, t. apply elem_of_app. by left. Qed.

Lemma status_for_mono l e a s f : status_for l a s f → status_for (l ++ [e]) a s f.
Proof. intros (? & ?). split; [apply elem_of_app; by left|done]. Qed.

Lemma elem_snoc {A} (l : list A) x : x ∈ l ++ [x].
Proof. apply elem_of_app. right. by left. Qed.

#[local] Hint Resolve address_history_mono acknowledged_in_mono status_for_mono elem_snoc : jb.

Lemma grounded_mono l e s : grounded l s → grounded (l ++ [e]) s.
Proof.
  intros [H1 H2 H3 H4 H5 H6]. split.
  - eauto with jb.
  - done.
  - intros (a & ? & ?)%H3. eauto with jb.
  - intros f (? & a & ? & ? & p & ?)%H4. split; [done|]. exists a. eauto 6 with jb.
  - intros t (a & f & ? & ? & ? & ?)%H5. exists a, f. split_and!; try tauto. apply elem_of_app. by left.
  - intros c (a & ? & ? & ? & ?)%H6. exists a. split_and!; try tauto. apply elem_of_app. by left.
Qed.

Lemma address_history_first l e :
  isValidRosterBinding (sa_approvedRoster e) = true → sa_version e = NInt 1 →
  address_history (l ++ [EShippingAddress e]) e.
Proof.
  intros Hr Hv. exists 1, [e]. split_and!; [done|done|done| |cbn; by rewrite Hv|by repeat constructor|done].
  rewrite omap_app. cbn. by apply sublist_inserts_l.
Qed.

Lemma address_history_next l a e :
  address_history l a → isValidRosterBinding (sa_approvedRoster e) = true →
  isSafeInteger (sa_version e) = true → sa_addressId e = sa_addressId a →
  num_eq (sa_version e) (num_succ (sa_version a)) = true →
  address_history (l ++ [EShippingAddress e]) e.
Proof.
  intros (v & vs & Hv & Hb & Hs & Hm & Hf & Hl) Hr Hi Hid [He _]%num_eq_true.
  rewrite Hv in He. cbn in He. exists (v + 1), (vs ++ [e]).
  rewrite He in Hi. cbn in Hi. split_and!; [done|lia|lia| | | |by rewrite last_snoc].
  - rewrite omap_app. by apply sublist_app.
  - rewrite map_app, Hm. cbn. rewrite He.
    replace (Z.to_nat (v + 1)) with (Z.to_nat v + 1)%nat by lia. rewrite seq_app, map_app. cbn.
    do 3 f_equal. lia.
  - apply Forall_app. split; [|by repeat constructor].
    eapply Forall_impl; [exact Hf|]. intros b [? ?]. split; [congruence|done].
Qed.

Lemma grounded_address l oa ak os ot oc e :
  grounded l (FState oa ak os ot oc) →
  grounded (l ++ [EShippingAddress e]) (reduce (FState oa ak os ot oc) (EShippingAddress e)).
Proof.
  intros Hg. pose proof (grounded_mono l (EShippingAddress e) _ Hg) as HG.
  destruct Hg as [H1 H2 _ _ _ H6]. cbn in H1, H2, H6. cbn [reduce st_address st_status st_correction].
  destruct (_ || negb (num_eq _ _)) eqn:E; [exact HG|]. bsimp.
  destruct oa as [a|].
  - case_bool_decide as Eid; cbn [negb]; [|exact HG]. split; cbn; try done.
    + intros a' [= <-]. by apply (address_history_next l a); [apply H1|..].
    + intros c Hc. destruct (H6 c Hc) as (? & _ & Hsh & _). congruence.
  - injection (H2 eq_refl) as -> -> -> ->. split; cbn; try done.
    intros a' [= <-]. num_eqs. by apply address_history_first.
Qed.

Lemma grounded_correction l oa ak os ot oc e :
  grounded l (FState oa ak os ot oc) →
  grounded (l ++ [EShippingAddressCorrection e])
    (reduce (FState oa ak os ot oc) (EShippingAddressCorrection e)).
Proof.
  intros Hg. pose proof (grounded_mono l (EShippingAddressCorrection e) _ Hg) as HG.
  cbn [reduce st_address st_status st_correction]. destruct oa as [a|]; [|exact HG].
  set (next := match oc with Some c => num_succ (sc_correctionVersion c) | None => NInt 1 end).
  destruct (_ || negb (num_eq (sc_correctionVersion e) next)) eqn:E; [exact HG|].
  destruct (match oc with Some c => sc_correctionId e !== sc_correctionId c | None => false end);
    [exact HG|]. bsimp. num_eqs. destruct HG as [G1 G2 G3 G4 G5 G6]. split; cbn in *; try done.
  intros c [= <-]. exists a. split_and!; auto with jb.
Qed.

Lemma grounded_ack l oa ak os ot oc i t ad v :
  grounded l (FState oa ak os ot oc) →
  grounded (l ++ [AddressAcknowledgedEvent i t ad v])
    (reduce (FState oa ak os ot oc) (AddressAcknowledgedEvent i t ad v)).
Proof.
  intros Hg. pose proof (grounded_mono l (AddressAcknowledgedEvent i t ad v) _ Hg) as HG.
  cbn [reduce st_address st_status st_correction st_tracking]. destruct oa as [a|]; [|exact HG].
  destruct (_ && num_eq _ _) eqn:E; [|exact HG]. bsimp. num_eqs. subst ad v.
  destruct HG as [G1 G2 G3 G4 G5 G6]. split; cbn in *; try done.
  - intros _. exists a. split; [done|]. exists i, t. apply elem_snoc.
  - intros f Hf. split; [done|]. by apply G4.
Qed.

Lemma grounded_status l oa ak os ot oc e :
  grounded l (FState oa ak os ot oc) →
  grounded (l ++ [EFulfillmentStatus e]) (reduce (FState oa ak os ot oc) (EFulfillmentStatus e)).
Proof.
  intros Hg. pose proof (grounded_mono l (EFulfillmentStatus e) _ Hg) as HG.
  cbn [reduce st_address st_status st_correction st_tracking st_acknowledged].
  destruct oa as [a|]; [|exact HG]. destruct (_ || status_is status_shipped _) eqn:E; [exact HG|].
  bsimp. num_eqs. subst ak.
  assert (Hself : status_for (l ++ [EFulfillmentStatus e]) a (fs_status e) e) by (split; auto with jb).
  destruct (fs_status e) eqn:ES.
  - destruct os as [p|]; [exact HG|]. destruct HG as [G1 G2 G3 G4 G5 G6]. split; cbn in *; try done.
    + intros f [= <-]. rewrite ES. split; [done|]. exists a. split; [done|]. split; [done|by exists e].
    + intros tr Htr. by destruct (G5 tr Htr) as (? & ? & ? & ? & _).
    + intros c Hc. by destruct (G6 c Hc) as (? & ? & ? & _).
  - destruct (status_is status_preparing os) eqn:EP; [|exact HG].
    destruct os as [p|]; [|done]. destruct HG as [G1 G2 G3 G4 G5 G6]. split; cbn in *; try done.
    + intros f [= <-]. rewrite ES. split; [done|]. destruct (G4 p eq_refl) as (_ & a' & [= <-] & _ & Hp).
      by exists a.
    + intros tr Htr. destruct (G5 tr Htr) as (a' & p' & ? & ? & ?). by exists a', e.
    + intros c Hc. destruct (G6 c Hc) as (a' & ? & Hs' & ?). by destruct (fs_status p).
Qed.

Lemma grounded_tracking l oa ak os ot oc e :
  grounded l (FState oa ak os ot oc) →
  grounded (l ++ [ETracking e]) (reduce (FState oa ak os ot oc) (ETracking e)).
Proof.
  intros Hg. pose proof (grounded_mono l (ETracking e) _ Hg) as HG.
  cbn [reduce st_address st_status st_correction st_acknowledged]. destruct oa as [a|]; [|exact HG].
  destruct (_ && num_eq _ _) eqn:E; [|exact HG]. bsimp. num_eqs.
  destruct HG as [G1 G2 G3 G4 G5 G6]. split; cbn in *; try done.
  intros t [= <-]. destruct os as [f|]; [|done]. exists a, f. split_and!; auto with jb.
Qed.

Lemma grounded_reduce l s e : grounded l s → grounded (l ++ [e]) (reduce s e).
Proof.
  destruct s, e; intros Hg; [by apply grounded_mono..|by apply grounded_address|by apply grounded_correction
    |by apply grounded_ack|by apply grounded_status|by apply grounded_tracking].
Qed.

Lemma grounded_entries es :
  grounded (map event (authorizedSupportEvents es)) (reduceEntries es).
Proof.
  unfold reduceEntries. induction (authorizedSupportEvents es) as [|e l IH] using rev_ind.
  - by split.
  - rewrite foldl_app, map_app. by apply grounded_reduce.
Qed.

(** The reduced events: the authorized entries of the transcript, at most one
    per trimmed identifier, each emitted under a role allowed to emit it. *)
Theorem authorizedSupportEvents_spec es :
  authorizedSupportEvents es `sublist_of` es ∧
  NoDup (map entry_id (authorizedSupportEvents es)) ∧
  (∀ e, e ∈ authorizedSupportEvents es →
     isAuthorizedSupportEvent e = true ∧ entry_id e ≠ "" ∧
     canRoleEmitEvent (role (roleCredential (authenticated e))) (event e) = true) ∧
  (∀ e, e ∈ es → isAuthorizedSupportEvent e = true → entry_id e ≠ "" →
     entry_id e ∈ map entry_id (authorizedSupportEvents es)).
Proof.
  unfold authorizedSupportEvents. split_and!.
  - generalize (@nil string). induction es as [|e es IH]; intros seen; [done|].
    rewrite authorizedLoop_cons. destruct (_ && _); [by apply sublist_skip|by apply sublist_cons].
  - generalize (@nil string). induction es as [|e es IH]; intros seen; [constructor|].
    rewrite authorizedLoop_cons. destruct (_ && _); [|done]. cbn. constructor; [|done].
    intros (x & Hx & Hin)%list_elem_of_fmap. apply authorizedLoop_elem in Hin as (_ & _ & Hn).
    apply Hn. rewrite Hx. by left.
  - intros e (_ & Ha & _)%authorizedLoop_elem. unfold admissible, truthy in Ha. bsimp.
    split_and!; [done|done|]. unfold isAuthorizedSupportEvent in Ha0. by destruct (_ || _) in Ha0.
  - intros e He Ha Hid. assert (Hadm : admissible e = true).
    { unfold admissible, truthy. rewrite Ha, bool_decide_eq_false_2 by done. done. }
    pose proof (authorizedLoop_covers [] es e He Hadm) as H. rewrite app_nil_r in H.
    apply list_elem_of_In in H. rewrite <- in_rev in H. by apply list_elem_of_In.
Qed.

(** What every stage of a derived view rests on, in the authorized events of
    the transcript: consecutive address versions from 1 under valid rosters,
    an acknowledgement of exactly that version before any status, [preparing]
    before [shipped], tracking for that version, and corrections only after
    shipping. *)
Theorem deriveFulfillment_grounded es :
  let l := map event (authorizedSupportEvents es) in
  let v := deriveFulfillment es in
  match stage v with
  | address_needed => addressEvent v = None ∧ acknowledged v = false ∧ statusEvent v = None
  | ready_to_fulfill =>
      ∃ a, addressEvent v = Some a ∧ address_history l a ∧ statusEvent v = None ∧
        trackingEvent v = None ∧ addressCorrectionEvent v = None ∧
        (acknowledged v = true → acknowledged_in l a)
  | preparing =>
      ∃ a f, addressEvent v = Some a ∧ statusEvent v = Some f ∧ address_history l a ∧
        acknowledged v = true ∧ acknowledged_in l a ∧ status_for l a status_preparing f ∧
        addressCorrectionEvent v = None
  | shipped =>
      ∃ a f p, addressEvent v = Some a ∧ statusEvent v = Some f ∧ address_history l a ∧
        acknowledged v = true ∧ acknowledged_in l a ∧
        status_for l a status_shipped f ∧ status_for l a status_preparing p ∧
        (∀ c, addressCorrectionEvent v = Some c → EShippingAddressCorrection c ∈ l ∧
           sc_shippedAddressId c = sa_addressId a ∧ sc_shippedAddressVersion c = sa_version a)
  end ∧
  (∀ t, trackingEvent v = Some t → ∃ a, addressEvent v = Some a ∧ ETracking t ∈ l ∧
     tr_addressId t = sa_addressId a ∧ tr_addressVersion t = sa_version a).
Proof.
  intros l v. destruct (grounded_entries es) as [H1 H2 H3 H4 H5 H6]. fold l in H1, H3, H4, H5, H6.
  subst v. unfold deriveFulfillment. destruct (reduceEntries es) as [oa ak os ot oc]. cbn in H1, H2, H3, H4, H5, H6.
  unfold view. cbn. destruct oa as [a|]; [|done]. specialize (H1 a eq_refl).
  assert (HT : ∀ t, ot = Some t → ∃ a', Some a = Some a' ∧ ETracking t ∈ l ∧
    tr_addressId t = sa_addressId a' ∧ tr_addressVersion t = sa_version a').
  { intros t (a' & f & ? & _ & ? & ? & ?)%H5. eauto. }
  assert (HA : ak = true → acknowledged_in l a) by by intros (a' & [= <-] & ?)%H3.
  destruct os as [f|]; cbn; [|split; [exists a; auto 10|done]].
  destruct (H4 f eq_refl) as (-> & a' & [= <-] & Hf & p & Hp).
  destruct (fs_status f); cbn; (split; [|exact HT]).
  - exists a, f. auto 10.
  - exists a, f, p. split_and!; auto. intros c (a' & [= <-] & _ & ? & ? & ? & _)%H6. auto.
Qed.

(** ** Rosters *)

#[local] Instance sle_transitive : Transitive sle_rel.
Proof. exact sle_trans. Qed.
#[local] Instance sle_total : Total sle_rel.
Proof.
  intros s t. unfold sle_rel. destruct (sle s t) eqn:E; [by left|right]. by apply sle_false.
Qed.
#[local] Instance sle_antisymm : AntiSymm (=) sle_rel.
Proof. exact sle_antisym. Qed.

Lemma sort_perm xs ys : sort xs = sort ys ↔ xs ≡ₚ ys.
Proof.
  split.
  - intros H. rewrite <- (merge_sort_Permutation sle_rel xs), <- (merge_sort_Permutation sle_rel ys).
    unfold sort in H. by rewrite H.
  - intros H. apply (Sorted_unique sle_rel).
    + apply (Sorted_merge_sort sle_rel).
    + apply (Sorted_merge_sort sle_rel).
    + unfold sort. by rewrite !merge_sort_Permutation.
Qed.

Lemma forallb_zip_eq (xs ys : list string) :
  length xs = length ys → forallb (λ p, p.1 === p.2) (zip xs ys) = true ↔ xs = ys.
Proof.
  revert ys. induction xs as [|x xs IH]; intros [|y ys] H; try discriminate H; [done|]. cbn.
  rewrite andb_true_iff, bool_decide_eq_true, IH by (cbn in H; lia). split; [by intros [-> ->]|by intros [= -> ->]].
Qed.

Lemma sameFingerprintSet_spec xs ys : sameFingerprintSet xs ys = true ↔ xs ≡ₚ ys.
Proof.
  unfold sameFingerprintSet. destruct (Nat.eqb_spec (length xs) (length ys)) as [E|E]; cbn [negb].
  - rewrite forallb_zip_eq; [apply sort_perm|]. unfold sort. by rewrite !merge_sort_Permutation.
  - split; [done|]. by intros H%Permutation_length.
Qed.

Lemma isValidRosterBinding_fields b :
  isValidRosterBinding b = true →
  hasValidRosterBindingFields b = true ∧ NoDup (recipientDeviceFingerprints b) ∧ mlsEpoch b ≠ NOther.
Proof.
  unfold isValidRosterBinding. destruct (hasValidRosterBindingFields b) eqn:E; [|done]. intros _.
  unfold hasValidRosterBindingFields, all_distinct in E. bsimp. split_and!; [done|done|].
  intros H. by rewrite H in E4.
Qed.

(** Two rosters are equal exactly when both are valid, name one version and
    epoch, and approve the same set of device fingerprints in any order. *)
Theorem rosterBindingsEqual_spec l r :
  rosterBindingsEqual l r = true ↔
  isValidRosterBinding l = true ∧ isValidRosterBinding r = true ∧
  rosterVersion l = rosterVersion r ∧ mlsEpoch l = mlsEpoch r ∧
  recipientDeviceFingerprints l ≡ₚ recipientDeviceFingerprints r.
Proof.
  unfold rosterBindingsEqual. split.
  - destruct (_ || negb (Nat.eqb _ _)) eqn:E; [done|]. intros H%sameFingerprintSet_spec. bsimp. num_eqs. auto.
  - intros (Hl & Hr & Hv & He & Hp). rewrite Hl, Hr, bool_decide_eq_true_2 by done.
    rewrite (proj2 (num_eq_true (mlsEpoch l) (mlsEpoch r)))
      by (split; [done|by apply isValidRosterBinding_fields]).
    rewrite (Permutation_length Hp), Nat.eqb_refl. cbn [negb orb]. by apply sameFingerprintSet_spec.
Qed.

(** A valid snapshot lists exactly one device per approved fingerprint, and
    the binding taken from it is valid and equal to it. *)
Theorem rosterBindingFromSnapshot_correct roster :
  match rosterBindingFromSnapshot roster with
  | Ok b =>
      isValidRosterBinding b = true ∧ rosterBindingsEqual b roster = true ∧
      ∃ ds, devices roster = Some (Some ds) ∧ NoDup (map dev_deviceId ds) ∧
        map dev_deviceFingerprint ds ≡ₚ recipientDeviceFingerprints roster
  | Throw e => e = GenericError ∧ isValidRosterSnapshot roster = false
  end.
Proof.
  unfold rosterBindingFromSnapshot. destruct (isValidRosterSnapshot roster) eqn:E; [|done]. cbn [negb throw_if mbind result_bind].
  pose proof E as HS. unfold isValidRosterSnapshot in E. destruct (devices roster) as [[ds|]|] eqn:ED; try done.
  destruct (hasValidRosterBindingFields roster) eqn:EF; [|done]. cbn [negb] in E.
  destruct (_ || negb (all_distinct (map dev_deviceFingerprint ds))) eqn:EK; [done|].
  apply sameFingerprintSet_spec in E. unfold all_distinct in EK. bsimp.
  set (b := {| rosterVersion := rosterVersion roster |}).
  assert (Hb : isValidRosterBinding b = true).
  { unfold isValidRosterBinding. cbn [devices b].
    assert (hasValidRosterBindingFields b = true) as -> by exact EF. done. }
  split_and!; [done| |by eauto].
  apply rosterBindingsEqual_spec. split_and!; try done. unfold isValidRosterBinding. by rewrite EF, ED.
Qed.

(** ** Address validation *)

Lemma omap_nil {A B} (f : A → option B) l : omap f l = [] ↔ Forall (λ x, f x = None) l.
Proof.
  induction l as [|x l IH]; cbn; [by split|]. rewrite Forall_cons, <- IH.
  destruct (f x); split; [done|by intros [? _]|done|by intros [_ ?]].
Qed.

(** An address is valid exactly when its four required fields are not blank
    and the delivery note has at most 240 characters. *)
Theorem validateShippingAddress_spec a :
  valid (validateShippingAddress a) = true ↔
  trim (recipientName a) ≠ "" ∧ trim (line1 a) ≠ "" ∧ trim (city a) ≠ "" ∧ trim (country a) ≠ "" ∧
  strlen (deliveryNote a) <= 240.
Proof.
  unfold validateShippingAddress. cbn [valid]. rewrite Nat.eqb_eq, length_zero_iff_nil.
  set (req := omap _ _).
  assert (Hreq : req = [] ↔ trim (recipientName a) ≠ "" ∧ trim (line1 a) ≠ "" ∧ trim (city a) ≠ "" ∧ trim (country a) ≠ "").
  { unfold req. rewrite omap_nil, !Forall_cons. unfold truthy.
    assert (Ht : ∀ s (f : string), (if s !== "" then None else Some (f, "Required")) = None ↔ s ≠ "").
    { intros s f. case_bool_decide; cbn; split; done. }
    rewrite !Ht. intuition. }
  destruct (Z.ltb_spec 240 (strlen (deliveryNote a))).
  - split; [by intros [_ ?]%app_eq_nil|]. intros (_ & _ & _ & _ & ?). lia.
  - rewrite Hreq. intuition.
Qed.

(** ** Evaluations *)

Definition sample_address : ShippingAddress := {|
  recipientName := "Ada"; line1 := "1 Main St"; line2 := ""; city := "Lisbon"; region := "";
  postalCode := "1000"; country := "PT"; deliveryNote := "" |}.
Definition sample_device : RecipientDeviceMetadata := {|
  dev_participantId := "p1"; dev_deviceId := "d1"; dev_deviceFingerprint := "fp1";
  dev_displayName := "Phone"; dev_role := "project-staff" |}.
Definition sample_roster : RecipientRosterBinding := {|
  rosterVersion := "3"; mlsEpoch := NInt 7; recipientDeviceFingerprints := ["fp2"; "fp1"];
  devices := None |}.
Definition sample_snapshot : RecipientRosterBinding := {|
  rosterVersion := "3"; mlsEpoch := NInt 7; recipientDeviceFingerprints := ["fp1"];
  devices := Some (Some [sample_device]) |}.

Definition by_role (r : string) (e : SupportEvent) : AuthenticatedSupportEvent := {|
  event := e; authenticated := {| participantId := "p"; deviceId := "d"; deviceFingerprint := "f";
    roleCredential := {| credentialId := "c"; role := r; subjectParticipantId := "p";
                         subjectDeviceId := "d"; issuedAt := "t" |} |} |}.
Definition address_event (id : string) (v : Z) : SupportEvent := EShippingAddress {|
  sa_id := id; sa_createdAt := "t"; sa_addressId := "A"; sa_version := NInt v;
  sa_address := sample_address; sa_approvedRoster := sample_roster |}.
Definition status_event (id : string) (s : FulfillmentStatus) (v : Z) : SupportEvent :=
  EFulfillmentStatus {| fs_id := id; fs_createdAt := "t"; fs_status := s; fs_addressId := "A";
                        fs_addressVersion := NInt v |}.

Definition sample_transcript : list AuthenticatedSupportEvent := [
  by_role "customer" (address_event "1" 1); by_role "customer" (address_event "2" 2);
  by_role "project-staff" (AddressAcknowledgedEvent "3" "t" "A" (NInt 2));
  by_role "customer" (status_event "4" status_shipped 2);
  by_role "project-staff" (status_event "5" status_preparing 2);
  by_role "project-staff" (status_event "6" status_shipped 2)].

Example sample_shipped : stage (deriveFulfillment sample_transcript) = shipped.
Proof. by vm_compute. Qed.
Example sample_stages :
  map (λ n, stage (deriveFulfillment (take n sample_transcript))) [0; 1; 3; 4; 5]%nat
  = [address_needed; ready_to_fulfill; ready_to_fulfill; ready_to_fulfill; preparing].
Proof. by vm_compute. Qed.

Lemma shipped_is_terminal_witness :
  stage (deriveFulfillment (sample_transcript ++ [by_role "customer" (address_event "7" 3)])) = shipped.
Proof. by apply (shipped_is_terminal sample_transcript); vm_compute. Defined.

Lemma deriveFulfillment_replay_witness :
  deriveFulfillment (sample_transcript ++ sample_transcript) = deriveFulfillment sample_transcript.
Proof. apply deriveFulfillment_replay. intros e He. left. exact He. Defined.

Lemma first_occurrence_wins_witness :
  deriveFulfillment (sample_transcript ++ [by_role "customer" (address_event " 6 " 9)])
  = deriveFulfillment sample_transcript.
Proof.
  apply (first_occurrence_wins sample_transcript
           (by_role "project-staff" (status_event "6" status_shipped 2))); [|by vm_compute..].
  unfold sample_transcript. do 5 right. left.
Defined.
