(* ===== verification/Quota.v ===== *)
(** * Append quotas ([src/production/delivery/state.ts], quota rows)

    The five quota counters of an append, the capacity deltas an allowed
    append reserves, reservations bound to one pending append and their
    conversion (finalize or release), with their parsers and identifiers. *)

From stdpp Require Import base list strings relations.
From Stdlib Require Import ZArith Lia Ascii.
From S2P Require Import Prelude Sha256 Base64Url JsTime JsValue ValueObjects Hashes.

Definition APPLICATION_APPEND_QUOTA_SCOPE_HASH_DOMAIN : string :=
  "jb-msg-application-append-quota-scope/v1".
Definition APPLICATION_APPEND_QUOTA_POLICY_DIGEST_DOMAIN : string :=
  "jb-msg-application-append-quota-policy/v1".
Definition APPLICATION_APPEND_QUOTA_RESERVATION_ID_DOMAIN : string :=
  "jb-msg-application-append-quota-reservation-id/v1".
Definition APPLICATION_APPEND_QUOTA_RESERVATION_SET_DIGEST_DOMAIN : string :=
  "jb-msg-application-append-quota-reservation-set/v1".

(** [throw invalid(...)] of this module. *)
Definition invalidState {A} : result A := Throw DeliveryStateValidationError.

(** ** String-literal unions *)

(** A union of string literals: its members in order and their spelling. *)
Class Literal (A : Type) := {
  lit : A → string;
  lits : list A;
}.

Definition parseOneOf {A} `{Literal A} (value : unknown) : result A :=
  match literal_of lit lits value with Some a => Ok a | None => invalidState end.

Inductive ApplicationAppendQuotaScope :=
| scope_installation | scope_account | scope_project | scope_conversation | scope_tenant.
#[export] Instance scope_eq_dec : EqDecision ApplicationAppendQuotaScope.
Proof. solve_decision. Defined.

Definition APPLICATION_APPEND_QUOTA_SCOPES : list ApplicationAppendQuotaScope :=
  [scope_installation; scope_account; scope_project; scope_conversation; scope_tenant].
#[export] Instance scope_literal : Literal ApplicationAppendQuotaScope := {|
  lit s := match s with
           | scope_installation => "installation" | scope_account => "account"
           | scope_project => "project" | scope_conversation => "conversation"
           | scope_tenant => "tenant" end;
  lits := APPLICATION_APPEND_QUOTA_SCOPES |}.

Inductive ReservationState := live | consumed | released.
#[export] Instance ReservationState_eq_dec : EqDecision ReservationState.
Proof. solve_decision. Defined.
#[export] Instance ReservationState_literal : Literal ReservationState := {|
  lit s := match s with live => "live" | consumed => "consumed" | released => "released" end;
  lits := [live; consumed; released] |}.

(** ** Rows *)

Record LockedQuotaCounter := {
  q_scope : ApplicationAppendQuotaScope;
  q_scopeHash : Hash32;
  q_quotaName : string;
  q_windowStartedAt : Rfc3339Millis;
  q_windowSeconds : Uint63String;
  q_operationCount : Uint63String;
  q_byteCount : Uint63String;
  q_reservedOperationCount : Uint63String;
  q_reservedByteCount : Uint63String;
  q_rowVersion : Uint63String;
  q_operationLimit : Uint63String;
  q_byteLimit : Uint63String;
}.
#[export] Instance LockedQuotaCounter_eq_dec : EqDecision LockedQuotaCounter.
Proof. solve_decision. Defined.

Record ApplicationAppendQuotaCapacityDelta := {
  d_scope : ApplicationAppendQuotaScope;
  d_scopeHash : Hash32;
  d_quotaName : string;
  d_windowStartedAt : Rfc3339Millis;
  d_windowSeconds : Uint63String;
  d_reservationOperationCount : Uint63String;
  d_reservationByteCount : Uint63String;
  d_rowVersionBefore : Uint63String;
  d_rowVersionAfter : Uint63String;
}.
#[export] Instance Delta_eq_dec : EqDecision ApplicationAppendQuotaCapacityDelta.
Proof. solve_decision. Defined.

Record ApplicationAppendQuotaCapacityReservation := {
  r_delta : ApplicationAppendQuotaCapacityDelta;
  r_reservationId : Hash32;
  r_pendingPreparationDigest : Hash32;
  r_fenceGeneration : Uint63String;
  r_fenceTokenHash : Hash32;
  r_state : ReservationState;
}.
#[export] Instance Reservation_eq_dec : EqDecision ApplicationAppendQuotaCapacityReservation.
Proof. solve_decision. Defined.

Record ExpectedAppendQuotaIdentity := {
  b_scope : ApplicationAppendQuotaScope;
  b_scopeHash : Hash32;
  b_quotaName : string;
  b_windowStartedAt : Rfc3339Millis;
  b_windowSeconds : Uint63String;
  b_operationLimit : Uint63String;
  b_byteLimit : Uint63String;
}.
#[export] Instance Identity_eq_dec : EqDecision ExpectedAppendQuotaIdentity.
Proof. solve_decision. Defined.

Inductive ApplicationAppendRejectionReason :=
| conversation_not_active | conversation_state_invalid | conversation_state_changed
| sender_membership_inactive | sender_credential_mismatch | sender_credential_inactive
| sender_credential_expired | send_grant_invalid | policy_head_not_current
| policy_head_not_witnessed | policy_head_expired | mandatory_proposal_pending
| removal_pending | counter_exhausted | quota_exceeded.

(** ** Small parsers and arithmetic *)

Definition parsePositiveUint63 (value : unknown) : result Uint63String :=
  parsed ← parseUint63String value;
  throw_if (parsed === "0") DeliveryStateValidationError;; Ok parsed.

Definition parseNonZeroHash32 (value : unknown) : result Hash32 :=
  parsed ← parseHash32 value;
  throw_if (parsed === ZERO_HASH32) DeliveryStateValidationError;; Ok parsed.

(** [/^[a-z0-9][a-z0-9._-]{0,63}$/] is [LABEL_64]. *)
Definition parseQuotaName (value : unknown) : result string :=
  match value with
  | VString s => throw_if (negb (LABEL_64 s)) DeliveryStateValidationError;; Ok s
  | _ => invalidState
  end.

Definition addUint63 (value : Uint63String) (increment : Z) : option Uint63String :=
  let result := BigInt value + increment in
  if (result <? 0) || (UINT63_MAX <? result) then None else Some (decimal result).
Definition subtractUint63 (value decrement : Uint63String) : option Uint63String :=
  addUint63 value (- BigInt decrement).

(** An intrinsic array of exactly five own elements (a hole may hide behind an
    extra key, as in the source). *)
Definition expectFive (value : unknown) : result (list (option unknown)) :=
  match value with
  | VArray p elems extra =>
      throw_if ((p !== ArrayPrototype) || negb (Nat.eqb (length elems) 5)
                || negb (Nat.eqb (ownKeysCount elems extra) (length elems + 1)))
        DeliveryStateValidationError;;
      Ok elems
  | _ => invalidState
  end.

(** [new Set(rows.map(({ scope }) => scope))] covers the five scopes. *)
Definition scopesComplete (scopes : list (option ApplicationAppendQuotaScope)) : bool :=
  Nat.eqb (length (remove_dups scopes)) 5
  && forallb (λ s, bool_decide (Some s ∈ scopes)) APPLICATION_APPEND_QUOTA_SCOPES.

(** [rows.find(row => row.scope === scope)] over an array; a hole in front of
    the match makes the predicate throw a [TypeError]. *)
Fixpoint findScope {A} (scopeOf : A → ApplicationAppendQuotaScope)
    (scope : ApplicationAppendQuotaScope) (rows : list (option A)) : result A :=
  match rows with
  | [] => Throw TypeError
  | None :: _ => Throw TypeError
  | Some r :: rest => if scopeOf r === scope then Ok r else findScope scopeOf scope rest
  end.
Definition inScopeOrder {A} (scopeOf : A → ApplicationAppendQuotaScope) (rows : list (option A)) :
  result (list A) := mapR (λ s, findScope scopeOf s rows) APPLICATION_APPEND_QUOTA_SCOPES.

(** ** Parsers *)

Definition parseLockedQuotaCounter (entry : unknown) : result LockedQuotaCounter :=
  record ← expectExactRecord entry
    ["scope"; "scopeHash"; "quotaName"; "windowStartedAt"; "windowSeconds"; "operationCount";
     "byteCount"; "reservedOperationCount"; "reservedByteCount"; "rowVersion"; "operationLimit";
     "byteLimit"];
  scope ← parseOneOf record.["scope"];
  scopeHash ← parseHash32 record.["scopeHash"];
  quotaName ← parseQuotaName record.["quotaName"];
  windowStartedAt ← parseRfc3339Millis record.["windowStartedAt"];
  windowSeconds ← parsePositiveUint63 record.["windowSeconds"];
  operationCount ← parseUint63String record.["operationCount"];
  byteCount ← parseUint63String record.["byteCount"];
  reservedOperationCount ← parseUint63String record.["reservedOperationCount"];
  reservedByteCount ← parseUint63String record.["reservedByteCount"];
  rowVersion ← parseUint63String record.["rowVersion"];
  operationLimit ← parseUint63String record.["operationLimit"];
  byteLimit ← parseUint63String record.["byteLimit"];
  throw_if ((BigInt operationLimit <? BigInt operationCount + BigInt reservedOperationCount)
            || (BigInt byteLimit <? BigInt byteCount + BigInt reservedByteCount))
    DeliveryStateValidationError;;
  Ok {| q_scope := scope; q_scopeHash := scopeHash; q_quotaName := quotaName;
        q_windowStartedAt := windowStartedAt; q_windowSeconds := windowSeconds;
        q_operationCount := operationCount; q_byteCount := byteCount;
        q_reservedOperationCount := reservedOperationCount;
        q_reservedByteCount := reservedByteCount; q_rowVersion := rowVersion;
        q_operationLimit := operationLimit; q_byteLimit := byteLimit |}.

Definition parseLockedQuotaCounters (value : unknown) : result (list LockedQuotaCounter) :=
  elems ← expectFive value;
  quotas ← mapArray parseLockedQuotaCounter elems;
  throw_if (negb (scopesComplete (map (option_map q_scope) quotas))) DeliveryStateValidationError;;
  inScopeOrder q_scope quotas.

Definition parseQuotaCapacityDeltaRecord (value : unknown) : result ApplicationAppendQuotaCapacityDelta :=
  record ← expectExactRecord value
    ["scope"; "scopeHash"; "quotaName"; "windowStartedAt"; "windowSeconds";
     "reservationOperationCount"; "reservationByteCount"; "rowVersionBefore"; "rowVersionAfter"];
  rowVersionBefore ← parseUint63String record.["rowVersionBefore"];
  rowVersionAfter ← parseUint63String record.["rowVersionAfter"];
  throw_if (negb (isString record.["reservationOperationCount"] "1")
            || (addUint63 rowVersionBefore 1 !== Some rowVersionAfter))
    DeliveryStateValidationError;;
  scope ← parseOneOf record.["scope"];
  scopeHash ← parseHash32 record.["scopeHash"];
  quotaName ← parseQuotaName record.["quotaName"];
  windowStartedAt ← parseRfc3339Millis record.["windowStartedAt"];
  windowSeconds ← parsePositiveUint63 record.["windowSeconds"];
  reservationByteCount ← parseUint63String record.["reservationByteCount"];
  Ok {| d_scope := scope; d_scopeHash := scopeHash; d_quotaName := quotaName;
        d_windowStartedAt := windowStartedAt; d_windowSeconds := windowSeconds;
        d_reservationOperationCount := "1"; d_reservationByteCount := reservationByteCount;
        d_rowVersionBefore := rowVersionBefore; d_rowVersionAfter := rowVersionAfter |}.

Definition parseApplicationAppendQuotaCapacityDeltas (value : unknown) :
  result (list ApplicationAppendQuotaCapacityDelta) :=
  elems ← expectFive value;
  parsed ← mapArray parseQuotaCapacityDeltaRecord elems;
  throw_if (negb (scopesComplete (map (option_map d_scope) parsed))) DeliveryStateValidationError;;
  inScopeOrder d_scope parsed.

Definition parseExpectedQuotaIdentity (entry : unknown) : result ExpectedAppendQuotaIdentity :=
  record ← expectExactRecord entry
    ["scope"; "scopeHash"; "quotaName"; "windowStartedAt"; "windowSeconds"; "operationLimit";
     "byteLimit"];
  scope ← parseOneOf record.["scope"];
  scopeHash ← parseHash32 record.["scopeHash"];
  quotaName ← parseQuotaName record.["quotaName"];
  windowStartedAt ← parseRfc3339Millis record.["windowStartedAt"];
  windowSeconds ← parsePositiveUint63 record.["windowSeconds"];
  operationLimit ← parseUint63String record.["operationLimit"];
  byteLimit ← parseUint63String record.["byteLimit"];
  Ok {| b_scope := scope; b_scopeHash := scopeHash; b_quotaName := quotaName;
        b_windowStartedAt := windowStartedAt; b_windowSeconds := windowSeconds;
        b_operationLimit := operationLimit; b_byteLimit := byteLimit |}.

(** The compound keys repeat the scope, so they are five exactly when the
    whole rows are. *)
Definition parseExpectedQuotaIdentities (value : unknown) : result (list ExpectedAppendQuotaIdentity) :=
  elems ← expectFive value;
  parsed ← mapArray parseExpectedQuotaIdentity elems;
  throw_if (negb (Nat.eqb (length (remove_dups (map (option_map b_scope) parsed))) 5)
            || negb (Nat.eqb (length (remove_dups parsed)) 5)) DeliveryStateValidationError;;
  inScopeOrder b_scope parsed.

Definition assertQuotaBindingsMatchCounters (bindings : list ExpectedAppendQuotaIdentity)
    (counters : list LockedQuotaCounter) : result unit :=
  throw_if (negb (forallb (λ scope,
    match List.find (λ b, b_scope b === scope) bindings,
          List.find (λ q, q_scope q === scope) counters with
    | Some b, Some q =>
        (b_scopeHash b === q_scopeHash q) && (b_quotaName b === q_quotaName q)
        && (b_windowStartedAt b === q_windowStartedAt q)
        && (b_windowSeconds b === q_windowSeconds q)
        && (b_operationLimit b === q_operationLimit q) && (b_byteLimit b === q_byteLimit q)
    | _, _ => false
    end) APPLICATION_APPEND_QUOTA_SCOPES)) DeliveryStateValidationError.

(** BigInt division truncates toward zero; a zero duration throws. *)
Definition isWithinQuotaWindow (quota : LockedQuotaCounter) (now : Rfc3339Millis) : bool :=
  let nowMilliseconds := Date_parse now in
  let startsAt := Date_parse (q_windowStartedAt quota) in
  let duration := BigInt (q_windowSeconds quota) * 1000 in
  let expectedStart := Z.quot nowMilliseconds duration * duration in
  (startsAt =? expectedStart) && (nowMilliseconds <? startsAt + duration).

(** ** Reserving capacity *)

(** One iteration of the quota loop of [evaluateLockedApplicationAppend]. *)
Definition reserveQuota (quotaBindings : list ExpectedAppendQuotaIdentity)
    (totalChargedBytes : Z) (now : Rfc3339Millis) (quota : LockedQuotaCounter) :
  ApplicationAppendRejectionReason + (ApplicationAppendQuotaCapacityDelta * LockedQuotaCounter) :=
  match List.find (λ b, b_scope b === q_scope quota) quotaBindings with
  | None => inl quota_exceeded
  | Some expectedQuota =>
      if (b_scopeHash expectedQuota !== q_scopeHash quota)
         || (b_quotaName expectedQuota !== q_quotaName quota)
         || (b_windowStartedAt expectedQuota !== q_windowStartedAt quota)
         || (b_windowSeconds expectedQuota !== q_windowSeconds quota)
         || negb (isWithinQuotaWindow quota now)
      then inl quota_exceeded
      else
        match addUint63 (q_operationCount quota) 1, addUint63 (q_byteCount quota) totalChargedBytes,
              addUint63 (q_reservedOperationCount quota) 1,
              addUint63 (q_reservedByteCount quota) totalChargedBytes,
              addUint63 (q_rowVersion quota) 1 with
        | Some _, Some _, Some reservedOperationCount, Some reservedByteCount, Some rowVersionAfter =>
            if (BigInt (q_operationLimit quota) <?
                  BigInt (q_operationCount quota) + BigInt reservedOperationCount)
               || (BigInt (q_byteLimit quota) <? BigInt (q_byteCount quota) + BigInt reservedByteCount)
            then inl quota_exceeded
            else inr
              ({| d_scope := q_scope quota; d_scopeHash := q_scopeHash quota;
                  d_quotaName := q_quotaName quota; d_windowStartedAt := q_windowStartedAt quota;
                  d_windowSeconds := q_windowSeconds quota; d_reservationOperationCount := "1";
                  d_reservationByteCount := decimal totalChargedBytes;
                  d_rowVersionBefore := q_rowVersion quota; d_rowVersionAfter := rowVersionAfter |},
               {| q_scope := q_scope quota; q_scopeHash := q_scopeHash quota;
                  q_quotaName := q_quotaName quota; q_windowStartedAt := q_windowStartedAt quota;
                  q_windowSeconds := q_windowSeconds quota;
                  q_operationCount := q_operationCount quota; q_byteCount := q_byteCount quota;
                  q_reservedOperationCount := reservedOperationCount;
                  q_reservedByteCount := reservedByteCount; q_rowVersion := rowVersionAfter;
                  q_operationLimit := q_operationLimit quota; q_byteLimit := q_byteLimit quota |})
        | _, _, _, _, _ => inl counter_exhausted
        end
  end.

Fixpoint reserveQuotas (quotaBindings : list ExpectedAppendQuotaIdentity) (totalChargedBytes : Z)
    (now : Rfc3339Millis) (quotas : list LockedQuotaCounter) :
  ApplicationAppendRejectionReason
  + (list ApplicationAppendQuotaCapacityDelta * list LockedQuotaCounter) :=
  match quotas with
  | [] => inr ([], [])
  | quota :: rest =>
      match reserveQuota quotaBindings totalChargedBytes now quota with
      | inl reason => inl reason
      | inr (delta, post) =>
          match reserveQuotas quotaBindings totalChargedBytes now rest with
          | inl reason => inl reason
          | inr (deltas, posts) => inr (delta :: deltas, post :: posts)
          end
      end
  end.

(** ** Rows as objects *)

Definition quota_obj (q : LockedQuotaCounter) : unknown :=
  obj [("scope", VString (lit (q_scope q))); ("scopeHash", VString (q_scopeHash q));
       ("quotaName", VString (q_quotaName q)); ("windowStartedAt", VString (q_windowStartedAt q));
       ("windowSeconds", VString (q_windowSeconds q));
       ("operationCount", VString (q_operationCount q)); ("byteCount", VString (q_byteCount q));
       ("reservedOperationCount", VString (q_reservedOperationCount q));
       ("reservedByteCount", VString (q_reservedByteCount q));
       ("rowVersion", VString (q_rowVersion q)); ("operationLimit", VString (q_operationLimit q));
       ("byteLimit", VString (q_byteLimit q))].
Definition delta_fields (d : ApplicationAppendQuotaCapacityDelta) : list (string * unknown) :=
  [("scope", VString (lit (d_scope d))); ("scopeHash", VString (d_scopeHash d));
   ("quotaName", VString (d_quotaName d)); ("windowStartedAt", VString (d_windowStartedAt d));
   ("windowSeconds", VString (d_windowSeconds d));
   ("reservationOperationCount", VString (d_reservationOperationCount d));
   ("reservationByteCount", VString (d_reservationByteCount d));
   ("rowVersionBefore", VString (d_rowVersionBefore d));
   ("rowVersionAfter", VString (d_rowVersionAfter d))].
Definition delta_obj (d : ApplicationAppendQuotaCapacityDelta) : unknown := obj (delta_fields d).
Definition reservation_obj (r : ApplicationAppendQuotaCapacityReservation) : unknown :=
  obj (delta_fields (r_delta r) ++
    [("reservationId", VString (r_reservationId r));
     ("pendingPreparationDigest", VString (r_pendingPreparationDigest r));
     ("fenceGeneration", VString (r_fenceGeneration r));
     ("fenceTokenHash", VString (r_fenceTokenHash r)); ("state", VString (lit (r_state r)))]).

(** ** Reservations *)

Section Reservations.
Context `{SHA : Sha256}.

Definition computeApplicationAppendQuotaReservationId (pendingPreparationDigest : unknown)
    (fenceGeneration fenceTokenHash : unknown) (delta : ApplicationAppendQuotaCapacityDelta) :
  result Hash32 :=
  p ← parseHash32 pendingPreparationDigest; p ← decodeHash32 p;
  g ← parsePositiveUint63 fenceGeneration;
  t ← parseNonZeroHash32 fenceTokenHash; t ← decodeHash32 t;
  h ← decodeHash32 (d_scopeHash delta);
  body ← canonicalLengthPrefixed
    [p; utf8 g; t; utf8 (lit (d_scope delta)); h; utf8 (d_quotaName delta);
     utf8 (d_windowStartedAt delta); utf8 (d_windowSeconds delta);
     utf8 (d_reservationOperationCount delta); utf8 (d_reservationByteCount delta);
     utf8 (d_rowVersionBefore delta); utf8 (d_rowVersionAfter delta)];
  sha256Bytes [utf8 APPLICATION_APPEND_QUOTA_RESERVATION_ID_DOMAIN; body].

Definition bindApplicationAppendQuotaCapacityReservations (deltas pendingPreparationDigest
    fenceGeneration fenceTokenHash : unknown) :
  result (list ApplicationAppendQuotaCapacityReservation) :=
  deltas ← parseApplicationAppendQuotaCapacityDeltas deltas;
  pendingPreparationDigest ← parseHash32 pendingPreparationDigest;
  fenceGeneration ← parsePositiveUint63 fenceGeneration;
  fenceTokenHash ← parseNonZeroHash32 fenceTokenHash;
  mapR (λ delta,
    reservationId ← computeApplicationAppendQuotaReservationId (VString pendingPreparationDigest)
      (VString fenceGeneration) (VString fenceTokenHash) delta;
    Ok {| r_delta := delta; r_reservationId := reservationId;
          r_pendingPreparationDigest := pendingPreparationDigest;
          r_fenceGeneration := fenceGeneration; r_fenceTokenHash := fenceTokenHash;
          r_state := live |}) deltas.

Definition parseReservation (entry : unknown) : result ApplicationAppendQuotaCapacityReservation :=
  record ← expectExactRecord entry
    ["scope"; "scopeHash"; "quotaName"; "windowStartedAt"; "windowSeconds";
     "reservationOperationCount"; "reservationByteCount"; "rowVersionBefore"; "rowVersionAfter";
     "reservationId"; "pendingPreparationDigest"; "fenceGeneration"; "fenceTokenHash"; "state"];
  delta ← parseQuotaCapacityDeltaRecord (obj
    [("scope", record.["scope"]); ("scopeHash", record.["scopeHash"]);
     ("quotaName", record.["quotaName"]); ("windowStartedAt", record.["windowStartedAt"]);
     ("windowSeconds", record.["windowSeconds"]);
     ("reservationOperationCount", record.["reservationOperationCount"]);
     ("reservationByteCount", record.["reservationByteCount"]);
     ("rowVersionBefore", record.["rowVersionBefore"]);
     ("rowVersionAfter", record.["rowVersionAfter"])]);
  pendingPreparationDigest ← parseHash32 record.["pendingPreparationDigest"];
  fenceGeneration ← parsePositiveUint63 record.["fenceGeneration"];
  fenceTokenHash ← parseNonZeroHash32 record.["fenceTokenHash"];
  reservationId ← parseNonZeroHash32 record.["reservationId"];
  state ← parseOneOf record.["state"];
  expected ← computeApplicationAppendQuotaReservationId (VString pendingPreparationDigest)
    (VString fenceGeneration) (VString fenceTokenHash) delta;
  throw_if (reservationId !== expected) DeliveryStateValidationError;;
  Ok {| r_delta := delta; r_reservationId := reservationId;
        r_pendingPreparationDigest := pendingPreparationDigest;
        r_fenceGeneration := fenceGeneration; r_fenceTokenHash := fenceTokenHash;
        r_state := state |}.

Definition r_scope (r : ApplicationAppendQuotaCapacityReservation) : ApplicationAppendQuotaScope :=
  d_scope (r_delta r).

(** [filter] skips holes. *)
Definition parseApplicationAppendQuotaCapacityReservations (value : unknown) :
  result (list ApplicationAppendQuotaCapacityReservation) :=
  elems ← expectFive value;
  parsed ← mapArray parseReservation elems;
  ordered ← mapR (λ scope,
    match List.filter (λ r, r_scope r === scope) (omap id parsed) with
    | [r] => Ok r
    | _ => invalidState
    end) APPLICATION_APPEND_QUOTA_SCOPES;
  throw_if (negb (Nat.eqb (length (remove_dups (map r_reservationId ordered))) (length ordered)))
    DeliveryStateValidationError;;
  Ok ordered.

Definition computeApplicationAppendQuotaReservationSetDigest (value : unknown) : result Hash32 :=
  reservations ← parseApplicationAppendQuotaCapacityReservations value;
  fields ← mapR (λ r, id ← decodeHash32 (r_reservationId r);
                      Ok [id; utf8 (lit (r_scope r)); utf8 (lit (r_state r))]) reservations;
  body ← canonicalLengthPrefixed (concat fields);
  sha256Bytes [utf8 APPLICATION_APPEND_QUOTA_RESERVATION_SET_DIGEST_DOMAIN; body].

Definition computeApplicationAppendQuotaPolicyDigest (value : unknown) : result Hash32 :=
  bindings ← parseExpectedQuotaIdentities value;
  body ← canonicalLengthPrefixed (flat_map (λ b,
    [utf8 (lit (b_scope b)); utf8 (b_quotaName b); utf8 (b_windowSeconds b);
     utf8 (b_operationLimit b); utf8 (b_byteLimit b)]) bindings);
  sha256Bytes [utf8 APPLICATION_APPEND_QUOTA_POLICY_DIGEST_DOMAIN; body].

(** ** Converting reservations *)

Inductive ConversionMode := finalize | release.

(** The row a live reservation leaves behind. *)
Definition convertQuota (mode : ConversionMode)
    (reservations : list ApplicationAppendQuotaCapacityReservation) (quota : LockedQuotaCounter) :
  result LockedQuotaCounter :=
  match List.find (λ r, r_scope r === q_scope quota) reservations with
  | None => Throw TypeError
  | Some reservation =>
      let d := r_delta reservation in
      throw_if ((d_scopeHash d !== q_scopeHash quota) || (d_quotaName d !== q_quotaName quota)
                || (d_windowStartedAt d !== q_windowStartedAt quota)
                || (d_windowSeconds d !== q_windowSeconds quota)
                || (BigInt (q_rowVersion quota) <? BigInt (d_rowVersionAfter d))
                || (BigInt (q_reservedOperationCount quota) <? BigInt (d_reservationOperationCount d))
                || (BigInt (q_reservedByteCount quota) <? BigInt (d_reservationByteCount d)))
        DeliveryStateValidationError;;
      let operationCount :=
        match mode with
        | finalize => addUint63 (q_operationCount quota) (BigInt (d_reservationOperationCount d))
        | release => Some (q_operationCount quota)
        end in
      let byteCount :=
        match mode with
        | finalize => addUint63 (q_byteCount quota) (BigInt (d_reservationByteCount d))
        | release => Some (q_byteCount quota)
        end in
      match addUint63 (q_rowVersion quota) 1,
            subtractUint63 (q_reservedOperationCount quota) (d_reservationOperationCount d),
            subtractUint63 (q_reservedByteCount quota) (d_reservationByteCount d),
            operationCount, byteCount with
      | Some rowVersion, Some reservedOperationCount, Some reservedByteCount,
        Some operationCount, Some byteCount =>
          throw_if ((BigInt (q_operationLimit quota) <?
                       BigInt operationCount + BigInt reservedOperationCount)
                    || (BigInt (q_byteLimit quota) <? BigInt byteCount + BigInt reservedByteCount))
            DeliveryStateValidationError;;
          Ok {| q_scope := q_scope quota; q_scopeHash := q_scopeHash quota;
                q_quotaName := q_quotaName quota; q_windowStartedAt := q_windowStartedAt quota;
                q_windowSeconds := q_windowSeconds quota; q_operationCount := operationCount;
                q_byteCount := byteCount; q_reservedOperationCount := reservedOperationCount;
                q_reservedByteCount := reservedByteCount; q_rowVersion := rowVersion;
                q_operationLimit := q_operationLimit quota; q_byteLimit := q_byteLimit quota |}
      | _, _, _, _, _ => invalidState
      end
  end.

Definition with_state (s : ReservationState) (r : ApplicationAppendQuotaCapacityReservation) :
  ApplicationAppendQuotaCapacityReservation := {|
  r_delta := r_delta r; r_reservationId := r_reservationId r;
  r_pendingPreparationDigest := r_pendingPreparationDigest r;
  r_fenceGeneration := r_fenceGeneration r; r_fenceTokenHash := r_fenceTokenHash r;
  r_state := s |}.

(** Prepared rows are compared with [JSON.stringify]: objects with the same
    keys in the same order and string values, so structurally. *)
Definition validateQuotaCapacityConversion (mode : ConversionMode)
    (currentQuotas currentCapacityReservations pendingPreparationDigest fenceGeneration
     fenceTokenHash preparedFinalQuotas preparedFinalReservations : unknown) :
  result (list LockedQuotaCounter * list ApplicationAppendQuotaCapacityReservation) :=
  current ← parseLockedQuotaCounters currentQuotas;
  reservations ← parseApplicationAppendQuotaCapacityReservations currentCapacityReservations;
  pendingPreparationDigest ← parseHash32 pendingPreparationDigest;
  fenceGeneration ← parsePositiveUint63 fenceGeneration;
  fenceTokenHash ← parseNonZeroHash32 fenceTokenHash;
  throw_if (existsb (λ r, (r_state r !== live)
      || (r_pendingPreparationDigest r !== pendingPreparationDigest)
      || (r_fenceGeneration r !== fenceGeneration)
      || (r_fenceTokenHash r !== fenceTokenHash)) reservations) DeliveryStateValidationError;;
  expected ← mapR (convertQuota mode reservations) current;
  prepared ← parseLockedQuotaCounters preparedFinalQuotas;
  preparedReservations ← parseApplicationAppendQuotaCapacityReservations preparedFinalReservations;
  let terminal := match mode with finalize => consumed | release => released end in
  throw_if (prepared !== expected) DeliveryStateValidationError;;
  throw_if (preparedReservations !== map (with_state terminal) reservations)
    DeliveryStateValidationError;;
  Ok (prepared, preparedReservations).

Definition validateLockedApplicationAppendQuotaFinalizationTransition :=
  validateQuotaCapacityConversion finalize.
Definition validateLockedApplicationAppendQuotaReleaseTransition :=
  validateQuotaCapacityConversion release.

End Reservations.

(** ** Arithmetic of counters *)

Lemma addUint63_Some s n t :
  addUint63 s n = Some t →
  is_uint63 t = true ∧ BigInt t = BigInt s + n ∧ 0 <= BigInt s + n <= UINT63_MAX.
Proof.
  unfold addUint63. destruct (_ || _) eqn:E; [done|]. intros [= <-].
  assert (0 <= BigInt s + n <= UINT63_MAX) by lia.
  split_and!; [by apply is_uint63_decimal|apply decimal_spec; lia|lia|lia].
Qed.

Lemma addUint63_ok s n : 0 <= BigInt s + n <= UINT63_MAX → addUint63 s n = Some (decimal (BigInt s + n)).
Proof. intros H. unfold addUint63. destruct (_ || _) eqn:E; [lia|done]. Qed.

Lemma parsePositiveUint63_Ok v s : parsePositiveUint63 v = Ok s ↔ v = VString s ∧ is_positive_uint63 s = true.
Proof.
  unfold parsePositiveUint63, is_positive_uint63. split.
  - intros H. inv_result. subst. apply parseUint63String_Ok in Hx as [-> ->]. by rewrite Hx0.
  - intros [-> H]. bsimp. run_parsers. by rewrite bool_decide_eq_false_2.
Qed.

Lemma parseQuotaName_Ok v s : parseQuotaName v = Ok s ↔ v = VString s ∧ LABEL_64 s = true.
Proof.
  unfold parseQuotaName. split.
  - destruct v; try discriminate. intros H. inv_result. subst. by apply negb_false_iff in Hx.
  - intros [-> H]. by rewrite H.
Qed.

Lemma parseNonZeroHash32_Ok v s :
  parseNonZeroHash32 v = Ok s ↔ v = VString s ∧ is_hash32 s = true ∧ s ≠ ZERO_HASH32.
Proof.
  unfold parseNonZeroHash32. split.
  - intros H. inv_result. subst. apply parseHash32_Ok in Hx as [-> ?]. by apply bool_decide_eq_false in Hx0.
  - intros (-> & H & Hne). run_parsers. by rewrite bool_decide_eq_false_2.
Qed.

(** *** Well-formed rows *)

Definition quota_brands (q : LockedQuotaCounter) : bool :=
  is_hash32 (q_scopeHash q) && LABEL_64 (q_quotaName q) && canonicalInstant (q_windowStartedAt q)
  && is_positive_uint63 (q_windowSeconds q) && is_uint63 (q_operationCount q) && is_uint63 (q_byteCount q)
  && is_uint63 (q_reservedOperationCount q) && is_uint63 (q_reservedByteCount q)
  && is_uint63 (q_rowVersion q) && is_uint63 (q_operationLimit q) && is_uint63 (q_byteLimit q).

(** Proves a conjunction of brands from the brands at hand. *)
Ltac brands := repeat match goal with H : ?b = true |- _ => rewrite H; clear H end.

(** Counted plus reserved capacity never exceeds the limit. *)
Definition within_limits (q : LockedQuotaCounter) : Prop :=
  BigInt (q_operationCount q) + BigInt (q_reservedOperationCount q) <= BigInt (q_operationLimit q) ∧
  BigInt (q_byteCount q) + BigInt (q_reservedByteCount q) <= BigInt (q_byteLimit q).

Definition valid_quota (q : LockedQuotaCounter) : Prop := quota_brands q = true ∧ within_limits q.

(** The identity of a row, which no operation changes. *)
Definition quota_identity (q : LockedQuotaCounter) :=
  (q_scope q, q_scopeHash q, q_quotaName q, q_windowStartedAt q, q_windowSeconds q,
   q_operationLimit q, q_byteLimit q).
Definition delta_for (q : LockedQuotaCounter) (d : ApplicationAppendQuotaCapacityDelta) : Prop :=
  d_scope d = q_scope q ∧ d_scopeHash d = q_scopeHash q ∧ d_quotaName d = q_quotaName q ∧
  d_windowStartedAt d = q_windowStartedAt q ∧ d_windowSeconds d = q_windowSeconds q ∧
  d_reservationOperationCount d = "1" ∧ is_uint63 (d_reservationByteCount d) = true.

(** *** Reserving *)

Lemma reserveQuota_spec bindings total now q d q' :
  valid_quota q → 0 <= total → reserveQuota bindings total now q = inr (d, q') →
  valid_quota q' ∧ quota_identity q' = quota_identity q ∧ delta_for q d ∧
  BigInt (d_reservationByteCount d) = total ∧
  d_rowVersionBefore d = q_rowVersion q ∧ d_rowVersionAfter d = q_rowVersion q' ∧
  BigInt (q_rowVersion q') = BigInt (q_rowVersion q) + 1 ∧
  q_operationCount q' = q_operationCount q ∧ q_byteCount q' = q_byteCount q ∧
  BigInt (q_reservedOperationCount q') = BigInt (q_reservedOperationCount q) + 1 ∧
  BigInt (q_reservedByteCount q') = BigInt (q_reservedByteCount q) + total ∧
  isWithinQuotaWindow q now = true.
Proof.
  intros [Hb [Ho Hy]] Ht. unfold reserveQuota. destruct (List.find _ bindings) as [b|]; [|done].
  destruct (_ || negb (isWithinQuotaWindow q now)) eqn:E; [done|].
  destruct (addUint63 (q_operationCount q) 1) eqn:E1; [|done].
  destruct (addUint63 (q_byteCount q) total) eqn:E2; [|done].
  destruct (addUint63 (q_reservedOperationCount q) 1) as [ro|] eqn:E3; [|done].
  destruct (addUint63 (q_reservedByteCount q) total) as [rb|] eqn:E4; [|done].
  destruct (addUint63 (q_rowVersion q) 1) as [rv|] eqn:E5; [|done].
  destruct (_ || (BigInt (q_byteLimit q) <? _)) eqn:E6; [done|]. intros [= <- <-]. bsimp.
  apply addUint63_Some in E1 as (_ & _ & ?), E2 as (_ & _ & ?), E3 as (? & ? & ?), E4 as (? & ? & ?),
    E5 as (? & ? & ?).
  unfold quota_brands in Hb. bsimp. pose proof (is_uint63_bound (q_byteCount q) ltac:(done)).
  assert (Htot : 0 <= total <= UINT63_MAX) by lia.
  split_and!; cbn; try done; try lia.
  - unfold valid_quota, quota_brands, within_limits. cbn. split; [|lia].
    by brands.
  - repeat split. cbn. by apply is_uint63_decimal.
  - apply decimal_spec. lia.
Qed.

Lemma reserveQuotas_spec bindings total now qs ds qs' :
  reserveQuotas bindings total now qs = inr (ds, qs') →
  Forall2 (λ q p, reserveQuota bindings total now q = inr p) qs (zip ds qs') ∧
  length ds = length qs ∧ length qs' = length qs.
Proof.
  revert ds qs'. induction qs as [|q qs IH]; intros ds qs'; cbn; [by intros [= <- <-]|].
  destruct (reserveQuota _ _ _ q) as [|[d q']] eqn:E; [done|].
  destruct (reserveQuotas _ _ _ qs) as [|[ds' qs'']] eqn:E'; [done|]. intros [= <- <-].
  destruct (IH _ _ eq_refl) as (? & ? & ?). cbn. split_and!; [by constructor|lia|lia].
Qed.

(** *** Converting *)

(** How a conversion changes a row: the reservation leaves the reserved
    columns, and a finalized one enters the counted columns. *)
Definition converted (mode : ConversionMode) (d : ApplicationAppendQuotaCapacityDelta)
    (q q' : LockedQuotaCounter) : Prop :=
  BigInt (q_rowVersion q') = BigInt (q_rowVersion q) + 1 ∧
  BigInt (q_reservedOperationCount q') = BigInt (q_reservedOperationCount q) - 1 ∧
  BigInt (q_reservedByteCount q')
    = BigInt (q_reservedByteCount q) - BigInt (d_reservationByteCount d) ∧
  match mode with
  | finalize => BigInt (q_operationCount q') = BigInt (q_operationCount q) + 1 ∧
      BigInt (q_byteCount q') = BigInt (q_byteCount q) + BigInt (d_reservationByteCount d)
  | release => q_operationCount q' = q_operationCount q ∧ q_byteCount q' = q_byteCount q
  end.

Lemma convertQuota_spec mode rs r q q' :
  valid_quota q → List.find (λ r, r_scope r === q_scope q) rs = Some r →
  is_uint63 (d_reservationByteCount (r_delta r)) = true →
  d_reservationOperationCount (r_delta r) = "1" →
  convertQuota mode rs q = Ok q' →
  valid_quota q' ∧ quota_identity q' = quota_identity q ∧ converted mode (r_delta r) q q'.
Proof.
  intros [Hb [Ho Hy]] EF Hu H1. unfold convertQuota. rewrite EF. intros H.
  apply bind_Ok in H as (? & _ & H).
  destruct (addUint63 (q_rowVersion q) 1) as [rv|] eqn:E1; [|done].
  unfold subtractUint63 in H. rewrite H1 in H. change (- BigInt "1") with (-1) in H.
  change (BigInt "1") with 1 in H.
  destruct (addUint63 (q_reservedOperationCount q) (-1)) as [ro|] eqn:E2; [|done].
  destruct (addUint63 (q_reservedByteCount q) _) as [rb|] eqn:E3; [|done].
  unfold quota_brands in Hb. bsimp.
  apply addUint63_Some in E1 as (? & ? & ?), E2 as (? & ? & ?), E3 as (? & ? & ?).
  unfold converted. destruct mode.
  - destruct (addUint63 (q_operationCount q) 1) as [oc|] eqn:E4; [|done].
    destruct (addUint63 (q_byteCount q) _) as [bc|] eqn:E5; [|done].
    apply addUint63_Some in E4 as (? & ? & ?), E5 as (? & ? & ?). inv_result. subst.
    unfold valid_quota, quota_brands, within_limits. cbn. split_and!; try done; try lia. by brands.
  - inv_result. subst. unfold valid_quota, quota_brands, within_limits. cbn.
    split_and!; try done; try lia. by brands.
Qed.

Lemma convertQuota_ok mode rs r q :
  valid_quota q → List.find (λ r, r_scope r === q_scope q) rs = Some r → delta_for q (r_delta r) →
  BigInt (d_rowVersionAfter (r_delta r)) <= BigInt (q_rowVersion q) < UINT63_MAX →
  1 <= BigInt (q_reservedOperationCount q) →
  BigInt (d_reservationByteCount (r_delta r)) <= BigInt (q_reservedByteCount q) →
  ∃ q', convertQuota mode rs q = Ok q'.
Proof.
  intros [Hb [Ho Hy]] EF (? & Hh & Hn & Hw & Hws & H1 & Hu) Hv Hops Hbytes. unfold convertQuota.
  rewrite EF, H1, Hh, Hn, Hw, Hws. change (BigInt "1") with 1.
  unfold quota_brands in Hb. bsimp. repeat match goal with H : is_uint63 _ = true |- _ => apply is_uint63_bound in H end.
  rewrite !bool_decide_eq_true_2 by done. cbn [negb orb].
  rewrite (proj2 (Z.ltb_ge _ _)) by lia. rewrite (proj2 (Z.ltb_ge _ _)) by lia.
  rewrite (proj2 (Z.ltb_ge _ _)) by lia. cbn [orb throw_if mbind result_bind].
  unfold subtractUint63. change (- BigInt "1") with (-1).
  rewrite (addUint63_ok (q_rowVersion q)), (addUint63_ok (q_reservedOperationCount q)),
    (addUint63_ok (q_reservedByteCount q)) by lia.
  destruct mode; [rewrite !addUint63_ok by lia|]; rewrite !(λ n H, proj2 (decimal_spec n H)) by lia;
    rewrite (proj2 (Z.ltb_ge _ _)) by lia; rewrite (proj2 (Z.ltb_ge _ _)) by lia; eexists; reflexivity.
Qed.

(** ** What the parsers accept *)

Lemma parseOneOf_Ok {A} `{Literal A} v (a : A) :
  parseOneOf v = Ok a → v = VString (lit a) ∧ a ∈ lits.
Proof.
  unfold parseOneOf, literal_of. destruct (List.find _ lits) as [a'|] eqn:E; [|done]. intros [= <-].
  apply find_some in E as [Hin Hs]. split; [|by apply list_elem_of_In].
  destruct v; try done. apply bool_decide_eq_true in Hs. by subst.
Qed.

Lemma parseOneOf_scope (s : ApplicationAppendQuotaScope) : parseOneOf (VString (lit s)) = Ok s.
Proof. by destruct s. Qed.
Lemma parseOneOf_reservationState (s : ReservationState) : parseOneOf (VString (lit s)) = Ok s.
Proof. by destruct s. Qed.

Lemma expectFive_Ok v elems : expectFive v = Ok elems → length elems = 5%nat.
Proof. destruct v; try discriminate. unfold expectFive. intros H. inv_result. subst. bsimp. by apply Nat.eqb_eq. Qed.

Lemma mapArray_in {A} (f : unknown → result A) elems rows a :
  mapArray f elems = Ok rows → Some a ∈ rows → ∃ v, Some v ∈ elems ∧ f v = Ok a.
Proof.
  unfold mapArray. rewrite mapR_Ok. induction 1 as [|o b elems rows Ho _ IH]; [by intros ?%elem_of_nil|].
  intros [<-|Hin]%elem_of_cons.
  - destruct o as [v|]; [|done]. exists v. split; [constructor|].
    destruct (f v) eqn:E; cbn in Ho; [|done]. congruence.
  - destruct (IH Hin) as (v & ? & ?). exists v. split; [by constructor|done].
Qed.

Lemma findScope_Ok {A} (scopeOf : A → ApplicationAppendQuotaScope) scope rows a :
  findScope scopeOf scope rows = Ok a → scopeOf a = scope ∧ Some a ∈ rows.
Proof.
  induction rows as [|[r|] rows IH]; cbn; try done. case_bool_decide as E.
  - intros [= <-]. split; [done|constructor].
  - intros [-> Hin]%IH. split; [done|by constructor].
Qed.

(** Rows put in scope order: one per scope, each an input row. *)
Lemma inScopeOrder_Ok {A} (scopeOf : A → ApplicationAppendQuotaScope) rows ordered :
  inScopeOrder scopeOf rows = Ok ordered →
  map scopeOf ordered = APPLICATION_APPEND_QUOTA_SCOPES ∧ ∀ a, a ∈ ordered → Some a ∈ rows.
Proof.
  unfold inScopeOrder. rewrite mapR_Ok. generalize APPLICATION_APPEND_QUOTA_SCOPES as scopes.
  induction 1 as [|s a ss ordered [Hs Hin]%findScope_Ok _ [IH1 IH2]]; cbn.
  - split; [done|]. by intros a ?%elem_of_nil.
  - split; [by rewrite Hs, IH1|]. intros b [->|Hb]%elem_of_cons; [done|by apply IH2].
Qed.

Lemma mapArray_Some {A} (f : unknown → result A) vs xs :
  Forall2 (λ v x, f v = Ok x) vs xs → mapArray f (map Some vs) = Ok (map Some xs).
Proof.
  intros H. apply mapR_Ok. induction H as [|v x vs xs Hv _ IH]; cbn; constructor; [|done]. by rewrite Hv.
Qed.

Lemma ownKeysCount_arr (vs : list unknown) : ownKeysCount (map Some vs) 0 = (length (map Some vs) + 1)%nat.
Proof.
  unfold ownKeysCount. rewrite length_map. induction vs as [|v vs IH]; [done|]. cbn in *. lia.
Qed.

(** Reads the brand off every accepted field. *)
Ltac parsed := repeat match goal with
  | H : parseUint63String _ = Ok _ |- _ => apply parseUint63String_Ok in H as [_ H]
  | H : parsePositiveUint63 _ = Ok _ |- _ => apply parsePositiveUint63_Ok in H as [_ H]
  | H : parseHash32 _ = Ok _ |- _ => apply parseHash32_Ok in H as [_ H]
  | H : parseRfc3339Millis _ = Ok _ |- _ => apply parseRfc3339Millis_Ok in H as [_ H]
  | H : parseQuotaName _ = Ok _ |- _ => apply parseQuotaName_Ok in H as [_ H]
  end.

Lemma parseLockedQuotaCounter_valid v q : parseLockedQuotaCounter v = Ok q → valid_quota q.
Proof.
  unfold parseLockedQuotaCounter. intros H. inv_result. subst.
  parsed. bsimp.
  unfold valid_quota, quota_brands, within_limits; cbn. split; [by brands|lia].
Qed.

(** What [parseQuotaCapacityDeltaRecord] guarantees of a delta. *)
Definition valid_delta (d : ApplicationAppendQuotaCapacityDelta) : Prop :=
  is_hash32 (d_scopeHash d) = true ∧ LABEL_64 (d_quotaName d) = true ∧
  canonicalInstant (d_windowStartedAt d) = true ∧ is_positive_uint63 (d_windowSeconds d) = true ∧
  d_reservationOperationCount d = "1" ∧ is_uint63 (d_reservationByteCount d) = true ∧
  is_uint63 (d_rowVersionBefore d) = true ∧ is_uint63 (d_rowVersionAfter d) = true ∧
  BigInt (d_rowVersionAfter d) = BigInt (d_rowVersionBefore d) + 1.

Lemma parseQuotaCapacityDeltaRecord_valid v d : parseQuotaCapacityDeltaRecord v = Ok d → valid_delta d.
Proof.
  unfold parseQuotaCapacityDeltaRecord. intros H. inv_result. subst. bsimp.
  match goal with H : addUint63 _ _ = Some _ |- _ => apply addUint63_Some in H as (_ & ? & _) end.
  parsed.
  unfold valid_delta; cbn. by split_and!.
Qed.

Lemma parseLockedQuotaCounters_valid v qs :
  parseLockedQuotaCounters v = Ok qs →
  map q_scope qs = APPLICATION_APPEND_QUOTA_SCOPES ∧ Forall valid_quota qs.
Proof.
  unfold parseLockedQuotaCounters. intros H. inv_result.
  apply inScopeOrder_Ok in H as [Hs Hin]. split; [done|]. apply Forall_forall. intros q Hq.
  destruct (mapArray_in _ _ _ q Hx0 (Hin q Hq)) as (u & _ & Hu). by eapply parseLockedQuotaCounter_valid.
Qed.

(** ** A row over its lifetime *)

(** One quota row with the reservations that are still live on it and those
    that were finalized. *)
Record Ledger := {
  row : LockedQuotaCounter;
  outstanding : list ApplicationAppendQuotaCapacityDelta;
  charged : list ApplicationAppendQuotaCapacityDelta;
}.

(** Appends reserve, and their reservations are finalized or released in any
    order; a conversion finds its reservation by the row's scope. *)
Inductive quota_step : Ledger → Ledger → Prop :=
| step_reserve bindings total now q d q' out ch :
    0 <= total → reserveQuota bindings total now q = inr (d, q') →
    quota_step {| row := q; outstanding := out; charged := ch |}
               {| row := q'; outstanding := d :: out; charged := ch |}
| step_finalize rs r q q' out out' ch :
    List.find (λ r, r_scope r === q_scope q) rs = Some r →
    convertQuota finalize rs q = Ok q' →
    quota_step {| row := q; outstanding := out ++ r_delta r :: out'; charged := ch |}
               {| row := q'; outstanding := out ++ out'; charged := r_delta r :: ch |}
| step_release rs r q q' out out' ch :
    List.find (λ r, r_scope r === q_scope q) rs = Some r →
    convertQuota release rs q = Ok q' →
    quota_step {| row := q; outstanding := out ++ r_delta r :: out'; charged := ch |}
               {| row := q'; outstanding := out ++ out'; charged := ch |}.

Fixpoint bytesOf (ds : list ApplicationAppendQuotaCapacityDelta) : Z :=
  match ds with [] => 0 | d :: ds => BigInt (d_reservationByteCount d) + bytesOf ds end.

Lemma bytesOf_app ds es : bytesOf (ds ++ es) = bytesOf ds + bytesOf es.
Proof. induction ds as [|d ds IH]; cbn [app bytesOf]; lia. Qed.

(** The row's columns are the ledger's sums. *)
Record ledger_inv (q0 : LockedQuotaCounter) (s : Ledger) : Prop := {
  inv_valid : valid_quota (row s);
  inv_identity : quota_identity (row s) = quota_identity q0;
  inv_live : Forall (λ d, delta_for q0 d ∧
    BigInt (d_rowVersionAfter d) <= BigInt (q_rowVersion (row s))) (outstanding s);
  inv_reserved : BigInt (q_reservedOperationCount (row s)) = Z.of_nat (length (outstanding s)) ∧
    BigInt (q_reservedByteCount (row s)) = bytesOf (outstanding s);
  inv_counted : BigInt (q_operationCount (row s))
      = BigInt (q_operationCount q0) + Z.of_nat (length (charged s)) ∧
    BigInt (q_byteCount (row s)) = BigInt (q_byteCount q0) + bytesOf (charged s);
}.

Lemma delta_for_identity q q0 d :
  quota_identity q = quota_identity q0 → delta_for q d ↔ delta_for q0 d.
Proof. unfold quota_identity, delta_for. intros [= E1 E2 E3 E4 E5 _ _]. by rewrite E1, E2, E3, E4, E5. Qed.

Lemma ledger_init q0 :
  valid_quota q0 → q_reservedOperationCount q0 = "0" → q_reservedByteCount q0 = "0" →
  ledger_inv q0 {| row := q0; outstanding := []; charged := [] |}.
Proof. intros Hv H1 H2. split; cbn; try done; rewrite ?H1, ?H2; [done|lia]. Qed.

(** A reservation in the ledger can always be converted, and the conversion is exact. *)
Lemma ledger_converted mode q0 q rs r q' out out' ch :
  ledger_inv q0 {| row := q; outstanding := out ++ r_delta r :: out'; charged := ch |} →
  List.find (λ r, r_scope r === q_scope q) rs = Some r → convertQuota mode rs q = Ok q' →
  ledger_inv q0 {| row := q'; outstanding := out ++ out';
                   charged := match mode with finalize => r_delta r :: ch | release => ch end |}.
Proof.
  intros [Hv Hi Hl [Hr1 Hr2] [Hc1 Hc2]] EF HC. cbn in *.
  apply Forall_app in Hl as [Hl1 Hl2]. apply Forall_cons in Hl2 as [[Hd Hver] Hl2].
  destruct (convertQuota_spec mode rs r q q' Hv EF) as (Hv' & Hi' & Hrv & Hro & Hrb & Hm);
    [by apply Hd|by apply Hd|done|].
  rewrite length_app in Hr1. rewrite bytesOf_app in Hr2. cbn in Hr1, Hr2.
  split; cbn; rewrite ?length_app, ?bytesOf_app; [done|congruence| |lia|].
  - apply Forall_app. split; (eapply Forall_impl; [eassumption|]); cbn; intros d [? ?]; split; [done|lia|done|lia].
  - destruct mode; cbn; [lia|]. destruct Hm as [-> ->]. lia.
Qed.

Lemma ledger_step q0 s s' : quota_step s s' → ledger_inv q0 s → ledger_inv q0 s'.
Proof.
  intros [bindings total now q d q' out ch Ht HR|rs r q q' out out' ch EF HC|rs r q q' out out' ch EF HC] Hinv.
  - destruct Hinv as [Hv Hi Hl [Hr1 Hr2] [Hc1 Hc2]]. cbn in *.
    destruct (reserveQuota_spec _ _ _ _ _ _ Hv Ht HR)
      as (Hv' & Hi' & Hd & Hb & _ & Ha & Hrv & Ho & Hy & Hro & Hrb & _).
    split; cbn [row outstanding charged length]; [done|congruence| | |by rewrite Ho, Hy].
    + constructor; [split; [by eapply delta_for_identity|rewrite Ha; lia]|].
      eapply Forall_impl; [exact Hl|]. intros ? [? ?]. split; [done|lia].
    + cbn. lia.
  - exact (ledger_converted finalize q0 q rs r q' out out' ch Hinv EF HC).
  - exact (ledger_converted release q0 q rs r q' out out' ch Hinv EF HC).
Qed.

Lemma ledger_invariant q0 s :
  valid_quota q0 → q_reservedOperationCount q0 = "0" → q_reservedByteCount q0 = "0" →
  rtc quota_step {| row := q0; outstanding := []; charged := [] |} s → ledger_inv q0 s.
Proof.
  intros H1 H2 H3 Hr. pose proof (ledger_init q0 H1 H2 H3) as Hi. clear H1 H2 H3.
  revert Hi. generalize ({| row := q0; outstanding := []; charged := [] |}) Hr. clear Hr.
  induction 1 as [|x y z Hs _ IH]; [done|]. intros Hi. by eapply IH, ledger_step.
Qed.

Lemma bytesOf_nonneg ds : Forall (λ d, is_uint63 (d_reservationByteCount d) = true) ds → 0 <= bytesOf ds.
Proof. induction 1 as [|d ds Hd _ IH]; cbn; [lia|]. apply is_uint63_bound in Hd. lia. Qed.

(** C4: Whatever order appends reserve, finalize and release in, a quota row that
    starts with nothing reserved counts exactly what was finalized, reserves
    exactly what is still live, and counted plus reserved capacity never
    exceeds the row's limits, which never change. *)
Theorem quota_ledger_exact (q0 : LockedQuotaCounter) (s : Ledger) :
  valid_quota q0 → q_reservedOperationCount q0 = "0" → q_reservedByteCount q0 = "0" →
  rtc quota_step {| row := q0; outstanding := []; charged := [] |} s →
  BigInt (q_operationCount (row s)) = BigInt (q_operationCount q0) + Z.of_nat (length (charged s)) ∧
  BigInt (q_byteCount (row s)) = BigInt (q_byteCount q0) + bytesOf (charged s) ∧
  BigInt (q_reservedOperationCount (row s)) = Z.of_nat (length (outstanding s)) ∧
  BigInt (q_reservedByteCount (row s)) = bytesOf (outstanding s) ∧
  BigInt (q_operationCount (row s)) + BigInt (q_reservedOperationCount (row s))
    <= BigInt (q_operationLimit q0) ∧
  BigInt (q_byteCount (row s)) + BigInt (q_reservedByteCount (row s)) <= BigInt (q_byteLimit q0) ∧
  quota_identity (row s) = quota_identity q0.
Proof.
  intros H1 H2 H3 Hr. destruct (ledger_invariant q0 s H1 H2 H3 Hr) as [[_ [Hw1 Hw2]] Hi _ [? ?] [? ?]].
  unfold quota_identity in Hi. injection Hi as ? ? ? ? ? Ho Hb. rewrite Ho in Hw1. rewrite Hb in Hw2.
  split_and!; try done. unfold quota_identity. congruence.
Qed.

(** C34: A live reservation can always be settled: as long as the row version has
    not run out, finalizing and releasing it both succeed. *)
Theorem quota_conversion_progress (q0 : LockedQuotaCounter) (s : Ledger) (mode : ConversionMode)
    (rs : list ApplicationAppendQuotaCapacityReservation)
    (r : ApplicationAppendQuotaCapacityReservation) :
  valid_quota q0 → q_reservedOperationCount q0 = "0" → q_reservedByteCount q0 = "0" →
  rtc quota_step {| row := q0; outstanding := []; charged := [] |} s →
  r_delta r ∈ outstanding s → List.find (λ r, r_scope r === q_scope (row s)) rs = Some r →
  BigInt (q_rowVersion (row s)) < UINT63_MAX →
  ∃ q', convertQuota mode rs (row s) = Ok q' ∧ converted mode (r_delta r) (row s) q'.
Proof.
  intros H1 H2 H3 Hr Hin EF HV. destruct (ledger_invariant q0 s H1 H2 H3 Hr) as [Hv Hi Hl [Hr1 Hr2] _].
  destruct (proj1 (Forall_forall _ _) Hl _ Hin) as [Hd Hver].
  assert (Hu : Forall (λ d, is_uint63 (d_reservationByteCount d) = true) (outstanding s)).
  { eapply Forall_impl; [exact Hl|]. intros d [Hd' _]. apply Hd'. }
  apply list_elem_of_split in Hin as (l1 & l2 & E). rewrite E in *.
  apply Forall_app in Hu as [Hu1 [Hu Hu2]%Forall_cons].
  rewrite bytesOf_app in Hr2. cbn in Hr2.
  pose proof (bytesOf_nonneg _ Hu1). pose proof (bytesOf_nonneg _ Hu2).
  rewrite length_app in Hr1. cbn in Hr1.
  destruct (convertQuota_ok mode rs r (row s) Hv EF) as [q' Hq']; [by eapply delta_for_identity|lia..|].
  exists q'. split; [done|]. eapply convertQuota_spec; try done; apply Hd.
Qed.

Section Settlement.
Context `{SHA : Sha256}.

(** ** Reservations are bound to one pending append *)

(** The fields hashed into a reservation id. *)
Definition reservationItems (p g t : string) (d : ApplicationAppendQuotaCapacityDelta) : list bytes :=
  [base64url_decode p; utf8 g; base64url_decode t; utf8 (lit (d_scope d));
   base64url_decode (d_scopeHash d); utf8 (d_quotaName d); utf8 (d_windowStartedAt d);
   utf8 (d_windowSeconds d); utf8 (d_reservationOperationCount d);
   utf8 (d_reservationByteCount d); utf8 (d_rowVersionBefore d); utf8 (d_rowVersionAfter d)].
Definition reservationPreimage (p g t : string) (d : ApplicationAppendQuotaCapacityDelta) : bytes :=
  utf8 APPLICATION_APPEND_QUOTA_RESERVATION_ID_DOMAIN ++ lps (reservationItems p g t d).

Lemma scope_lit_inj (s s' : ApplicationAppendQuotaScope) : lit s = lit s' → s = s'.
Proof. by destruct s, s'. Qed.

Lemma reservationItems_inj p g t d p' g' t' d' :
  is_hash32 p = true → is_hash32 t = true → is_hash32 (d_scopeHash d) = true →
  is_hash32 p' = true → is_hash32 t' = true → is_hash32 (d_scopeHash d') = true →
  reservationItems p g t d = reservationItems p' g' t' d' → p = p' ∧ g = g' ∧ t = t' ∧ d = d'.
Proof.
  intros ? ? ? ? ? ? [= Hp Hg Ht Hs Hh Hn Hw Hws Ho Hb Hv Hv'].
  apply is_hash32_inj in Hp, Ht, Hh; [|done..].
  apply utf8_inj in Hg, Hs, Hn, Hw, Hws, Ho, Hb, Hv, Hv'. apply scope_lit_inj in Hs.
  destruct d, d'; cbn in *. by subst.
Qed.

Lemma reservationId_inv v1 v2 v3 d h :
  computeApplicationAppendQuotaReservationId v1 v2 v3 d = Ok h →
  ∃ p g t b, v1 = VString p ∧ v2 = VString g ∧ v3 = VString t ∧
    is_hash32 p = true ∧ is_hash32 t = true ∧ is_hash32 (d_scopeHash d) = true ∧
    canonicalLengthPrefixed (reservationItems p g t d) = Ok b ∧
    sha256Bytes [utf8 APPLICATION_APPEND_QUOTA_RESERVATION_ID_DOMAIN; b] = Ok h.
Proof.
  unfold computeApplicationAppendQuotaReservationId. intros H. inv_result.
  apply parseHash32_Ok in Hx as [-> Hp]. apply parsePositiveUint63_Ok in Hx1 as [-> Hg].
  apply parseNonZeroHash32_Ok in Hx2 as (-> & Ht & _).
  pose proof (decodeHash32_is_hash32 _ _ Hx4) as Hh.
  rewrite decodeHash32_Ok in Hx0, Hx3, Hx4 by done. injection Hx0 as <-. injection Hx3 as <-.
  injection Hx4 as <-. repeat eexists; eauto.
Qed.

(** A reservation id belongs to one pending append, one fence and one capacity
    delta: equal ids have equal owners and deltas, or exhibit a collision. *)
Theorem reservationId_binding (p g t p' g' t' : string)
    (d d' : ApplicationAppendQuotaCapacityDelta) (h : Hash32) :
  computeApplicationAppendQuotaReservationId (VString p) (VString g) (VString t) d = Ok h →
  computeApplicationAppendQuotaReservationId (VString p') (VString g') (VString t') d' = Ok h →
  (p = p' ∧ g = g' ∧ t = t' ∧ d = d') ∨
  collision [reservationPreimage p g t d] [reservationPreimage p' g' t' d'].
Proof.
  intros (? & ? & ? & b & [= <-] & [= <-] & [= <-] & ? & ? & ? & Hb & Hh)%reservationId_inv
    (? & ? & ? & b' & [= <-] & [= <-] & [= <-] & ? & ? & ? & Hb' & Hh')%reservationId_inv.
  destruct (prefixedDigest_inj _ _ _ _ _ _ Hb Hb' Hh Hh') as [E|Hc]; [left|by right].
  by apply reservationItems_inj in E as (-> & -> & -> & ->).
Qed.

(** ** Settling the reservations of one append *)

Lemma parseReservation_valid v r :
  parseReservation v = Ok r → valid_delta (r_delta r).
Proof. unfold parseReservation. intros H. inv_result. subst. by eapply parseQuotaCapacityDeltaRecord_valid. Qed.

Lemma parseReservations_valid v rs :
  parseApplicationAppendQuotaCapacityReservations v = Ok rs →
  map r_scope rs = APPLICATION_APPEND_QUOTA_SCOPES ∧ Forall (λ r, valid_delta (r_delta r)) rs.
Proof.
  unfold parseApplicationAppendQuotaCapacityReservations. intros H. inv_result. subst.
  apply mapR_Ok in Hx1. clear Hx2. revert Hx1. generalize APPLICATION_APPEND_QUOTA_SCOPES as ss.
  induction 1 as [|s r ss rs Hr _ [IH1 IH2]]; [done|].
  destruct (List.filter _ _) as [|r' [|]] eqn:EF; try discriminate Hr. injection Hr as ->.
  assert (Hin : In r [r]) by by left. rewrite <- EF in Hin. apply filter_In in Hin as [Hin Hs].
  apply bool_decide_eq_true in Hs. cbn. split; [by rewrite Hs, IH1|]. constructor; [|done].
  apply list_elem_of_In, list_elem_of_omap in Hin as (o & Ho & Hid). unfold id in Hid. subst o.
  destruct (mapArray_in _ _ _ _ Hx0 Ho) as (u & _ & Hu). by eapply parseReservation_valid.
Qed.

(** With one row per scope, finding by scope finds the row at the same place. *)
Lemma find_same_place rs qs i r (q : LockedQuotaCounter) :
  map r_scope rs = APPLICATION_APPEND_QUOTA_SCOPES → map q_scope qs = APPLICATION_APPEND_QUOTA_SCOPES →
  rs !! i = Some r → qs !! i = Some q → List.find (λ r, r_scope r === q_scope q) rs = Some r.
Proof.
  intros Hr Hq Hi Hj.
  assert (Hs : r_scope r = q_scope q).
  { pose proof (list_lookup_fmap r_scope rs i) as Er. pose proof (list_lookup_fmap q_scope qs i) as Eq.
    change (r_scope <$> rs) with (map r_scope rs) in Er. change (q_scope <$> qs) with (map q_scope qs) in Eq.
    rewrite Hr, Hi in Er. rewrite Hq, Hj, Er in Eq. by injection Eq. }
  rewrite <- Hs. clear Hs Hj Hq q qs.
  assert (Hd : NoDup (map r_scope rs)) by (rewrite Hr; apply (bool_decide_unpack _); by vm_compute).
  clear Hr. revert i Hi. induction rs as [|r' rs IH]; intros [|i]; cbn; try done.
  - intros [= ->]. by rewrite bool_decide_eq_true_2.
  - intros Hi. cbn in Hd. apply NoDup_cons in Hd as [Hn Hd]. rewrite bool_decide_eq_false_2.
    { by apply (IH Hd i). }
    intros E. apply Hn. rewrite E. apply (list_elem_of_fmap_2 r_scope), (list_elem_of_lookup_2 _ i), Hi.
Qed.

Lemma convertQuota_delta_for mode rs r q q' :
  List.find (λ r, r_scope r === q_scope q) rs = Some r → valid_delta (r_delta r) →
  convertQuota mode rs q = Ok q' → delta_for q (r_delta r).
Proof.
  intros EF (_ & _ & _ & _ & H1 & Hu & _). unfold convertQuota. rewrite EF.
  intros H. apply bind_Ok in H as (? & Hc & _). inv_result. bsimp.
  apply find_some in EF as [_ Hs%bool_decide_eq_true]. by unfold delta_for.
Qed.

(** The terminal state of a settled reservation. *)
Definition terminal (mode : ConversionMode) : ReservationState :=
  match mode with finalize => consumed | release => released end.

Lemma validateQuotaCapacityConversion_inv mode vq vr vp vg vt wq wr qs' rs' :
  validateQuotaCapacityConversion mode vq vr vp vg vt wq wr = Ok (qs', rs') →
  ∃ qs rs, parseLockedQuotaCounters vq = Ok qs ∧
    parseApplicationAppendQuotaCapacityReservations vr = Ok rs ∧
    (∀ r, r ∈ rs → r_state r = live ∧ vp = VString (r_pendingPreparationDigest r) ∧
       vg = VString (r_fenceGeneration r) ∧ vt = VString (r_fenceTokenHash r)) ∧
    mapR (convertQuota mode rs) qs = Ok qs' ∧
    parseApplicationAppendQuotaCapacityReservations wr = Ok rs' ∧
    rs' = map (with_state (terminal mode)) rs.
Proof.
  unfold validateQuotaCapacityConversion. intros H. inv_result. bsimp. exists x, x0.
  apply parseHash32_Ok in Hx1 as [-> _]. apply parsePositiveUint63_Ok in Hx2 as [-> _].
  apply parseNonZeroHash32_Ok in Hx3 as (-> & _). subst.
  split_and!; try done.
  intros r Hr. apply existsb_false in Hx4. rewrite Forall_forall in Hx4. specialize (Hx4 r Hr). cbn in Hx4. bsimp.
  split_and!; congruence.
Qed.

(** An accepted settlement moves exactly the reserved capacity: every
    reservation was live and owned by the caller's pending append and fence,
    only its state changes, and the row of each scope gives up the reserved
    amounts, charging them exactly when the append is finalized; limits and
    identity stay, and the rows stay within their limits. *)
Theorem validateQuotaCapacityConversion_sound (mode : ConversionMode)
    (currentQuotas currentReservations pendingDigest fenceGeneration fenceTokenHash
     preparedQuotas preparedReservations : unknown)
    (qs' : list LockedQuotaCounter) (rs' : list ApplicationAppendQuotaCapacityReservation) :
  validateQuotaCapacityConversion mode currentQuotas currentReservations pendingDigest
    fenceGeneration fenceTokenHash preparedQuotas preparedReservations = Ok (qs', rs') →
  ∃ qs rs, parseLockedQuotaCounters currentQuotas = Ok qs ∧
    parseApplicationAppendQuotaCapacityReservations currentReservations = Ok rs ∧
    (∀ r, r ∈ rs → r_state r = live ∧ pendingDigest = VString (r_pendingPreparationDigest r) ∧
       fenceGeneration = VString (r_fenceGeneration r) ∧
       fenceTokenHash = VString (r_fenceTokenHash r)) ∧
    rs' = map (with_state (terminal mode)) rs ∧
    length qs = 5%nat ∧ length qs' = 5%nat ∧ length rs = 5%nat ∧
    ∀ i q r q', qs !! i = Some q → rs !! i = Some r → qs' !! i = Some q' →
      delta_for q (r_delta r) ∧ converted mode (r_delta r) q q' ∧
      valid_quota q' ∧ quota_identity q' = quota_identity q.
Proof.
  intros (qs & rs & Hq & Hr & Hown & Hm & _ & ->)%validateQuotaCapacityConversion_inv.
  exists qs, rs. destruct (parseLockedQuotaCounters_valid _ _ Hq) as [Hqs Hqv].
  destruct (parseReservations_valid _ _ Hr) as [Hrs Hrv]. apply mapR_Ok in Hm.
  pose proof (f_equal length Hqs) as HL1. pose proof (f_equal length Hrs) as HL2.
  rewrite length_map in HL1, HL2. cbn in HL1, HL2. pose proof (Forall2_length _ _ _ Hm).
  split_and!; try done; try congruence. intros i q r q' Hi Hj Hk.
  pose proof (find_same_place _ _ _ _ _ Hrs Hqs Hj Hi) as EF.
  pose proof (Forall_lookup_1 _ _ _ _ Hrv Hj) as Hd. cbn in Hd.
  pose proof (Forall2_lookup_lr _ _ _ _ _ _ Hm Hi Hk) as HC. cbn in HC.
  destruct (convertQuota_spec mode rs r q q') as (? & ? & ?); try done; try apply Hd.
  { by apply (Forall_lookup_1 _ _ _ _ Hqv Hi). }
  split_and!; try done. by eapply convertQuota_delta_for.
Qed.

(** A reservation settles once: the reservations an accepted settlement leaves
    behind are refused by every later settlement, of either kind. *)
Theorem reservation_settles_once (mode mode' : ConversionMode)
    (vq vr vp vg vt wq wr vq' vp' vg' vt' wq' wr' : unknown)
    (out : list LockedQuotaCounter * list ApplicationAppendQuotaCapacityReservation) :
  validateQuotaCapacityConversion mode vq vr vp vg vt wq wr = Ok out →
  ∀ out', validateQuotaCapacityConversion mode' vq' wr vp' vg' vt' wq' wr' ≠ Ok out'.
Proof.
  destruct out as [qs rs']. intros (_ & rs & _ & Hr & _ & _ & Hw & ->)%validateQuotaCapacityConversion_inv.
  intros [qs'' rs''] (_ & rs2 & _ & Hw2 & Hown & _)%validateQuotaCapacityConversion_inv.
  rewrite Hw in Hw2. injection Hw2 as <-.
  destruct (parseReservations_valid _ _ Hr) as [Hs _].
  destruct rs as [|r rs]; [discriminate Hs|].
  destruct (Hown (with_state (terminal mode) r)) as [Hl _]; [by constructor|]. by destruct mode.
Qed.
End Settlement.

(** ** Witnesses *)

Definition sample_now : string := "2024-01-01T12:00:00.000Z".
Definition sample_quota (scope : ApplicationAppendQuotaScope) : LockedQuotaCounter := {|
  q_scope := scope; q_scopeHash := sample_hash; q_quotaName := "append.daily";
  q_windowStartedAt := "2024-01-01T00:00:00.000Z"; q_windowSeconds := "86400";
  q_operationCount := "7"; q_byteCount := "900"; q_reservedOperationCount := "0";
  q_reservedByteCount := "0"; q_rowVersion := "3"; q_operationLimit := "100";
  q_byteLimit := "100000" |}.
Definition sample_binding (scope : ApplicationAppendQuotaScope) : ExpectedAppendQuotaIdentity := {|
  b_scope := scope; b_scopeHash := sample_hash; b_quotaName := "append.daily";
  b_windowStartedAt := "2024-01-01T00:00:00.000Z"; b_windowSeconds := "86400";
  b_operationLimit := "100"; b_byteLimit := "100000" |}.
Definition sample_quotas : list LockedQuotaCounter := map sample_quota APPLICATION_APPEND_QUOTA_SCOPES.
Definition sample_bindings : list ExpectedAppendQuotaIdentity :=
  map sample_binding APPLICATION_APPEND_QUOTA_SCOPES.

(** The rows and deltas after an append of 512 bytes. *)
Definition sample_reserved :
    list ApplicationAppendQuotaCapacityDelta * list LockedQuotaCounter :=
  Eval vm_compute in
    match reserveQuotas sample_bindings 512 sample_now sample_quotas with
    | inr p => p | inl _ => ([], []) end.
Definition sample_reservations : list ApplicationAppendQuotaCapacityReservation :=
  Eval vm_compute in
    valueOf [] (@bindApplicationAppendQuotaCapacityReservations fips_sha256
      (arr (map delta_obj (fst sample_reserved))) (VString sample_hash) (VString "1")
      (VString sample_head)).
Definition sample_delta : ApplicationAppendQuotaCapacityDelta :=
  Eval vm_compute in
    match fst sample_reserved with d :: _ => d | [] => {|
      d_scope := scope_tenant; d_scopeHash := ""; d_quotaName := ""; d_windowStartedAt := "";
      d_windowSeconds := ""; d_reservationOperationCount := ""; d_reservationByteCount := "";
      d_rowVersionBefore := ""; d_rowVersionAfter := "" |} end.
Definition sample_reserved_row : LockedQuotaCounter :=
  Eval vm_compute in nth 0 (snd sample_reserved) (sample_quota scope_installation).
Definition sample_reservation : ApplicationAppendQuotaCapacityReservation := {|
  r_delta := sample_delta; r_reservationId := sample_hash; r_pendingPreparationDigest := sample_hash;
  r_fenceGeneration := "1"; r_fenceTokenHash := sample_head; r_state := live |}.

(** The rows after that append is settled. *)
Definition sample_settled (mode : ConversionMode) : list LockedQuotaCounter :=
  valueOf [] (mapR (convertQuota mode sample_reservations) (snd sample_reserved)).

Lemma sample_release :
  @validateQuotaCapacityConversion fips_sha256 release (arr (map quota_obj (snd sample_reserved)))
    (arr (map reservation_obj sample_reservations)) (VString sample_hash) (VString "1")
    (VString sample_head) (arr (map quota_obj (sample_settled release)))
    (arr (map reservation_obj (map (with_state released) sample_reservations)))
  = Ok (sample_settled release, map (with_state released) sample_reservations).
Proof. vm_compute. reflexivity. Qed.

Lemma sample_quota_valid : valid_quota (sample_quota scope_installation).
Proof. split; [by vm_compute|]. unfold within_limits. split; apply Z.leb_le; by vm_compute. Qed.

Lemma sample_reserve_step :
  rtc quota_step
    {| row := sample_quota scope_installation; outstanding := []; charged := [] |}
    {| row := sample_reserved_row; outstanding := [sample_delta]; charged := [] |}.
Proof. apply rtc_once, (step_reserve sample_bindings 512 sample_now); [lia|by vm_compute]. Qed.

Lemma quota_ledger_exact_witness :
  rtc quota_step
    {| row := sample_quota scope_installation; outstanding := []; charged := [] |}
    {| row := sample_reserved_row; outstanding := [sample_delta]; charged := [] |} ∧
  BigInt (q_reservedByteCount sample_reserved_row) = bytesOf [sample_delta].
Proof.
  split; [exact sample_reserve_step|].
  apply (quota_ledger_exact (sample_quota scope_installation)
    {| row := sample_reserved_row; outstanding := [sample_delta]; charged := [] |});
    [exact sample_quota_valid|reflexivity|reflexivity|exact sample_reserve_step].
Defined.

Lemma quota_conversion_progress_witness :
  ∃ q', convertQuota finalize [sample_reservation] sample_reserved_row = Ok q' ∧
        converted finalize sample_delta sample_reserved_row q'.
Proof.
  apply (quota_conversion_progress (sample_quota scope_installation)
    {| row := sample_reserved_row; outstanding := [sample_delta]; charged := [] |} finalize
    [sample_reservation] sample_reservation);
    [exact sample_quota_valid|reflexivity|reflexivity|exact sample_reserve_step
    |apply list_elem_of_singleton; reflexivity|by vm_compute|apply Z.ltb_lt; by vm_compute].
Defined.

Lemma reservationId_binding_witness :
  (sample_hash = sample_hash ∧ "1" = "1" ∧ sample_head = sample_head ∧ sample_delta = sample_delta) ∨
  @collision fips_sha256 [reservationPreimage sample_hash "1" sample_head sample_delta]
    [reservationPreimage sample_hash "1" sample_head sample_delta].
Proof.
  apply (@reservationId_binding fips_sha256 sample_hash "1" sample_head sample_hash "1" sample_head
    sample_delta sample_delta
    (valueOf "" (@computeApplicationAppendQuotaReservationId fips_sha256 (VString sample_hash)
      (VString "1") (VString sample_head) sample_delta))); by vm_compute.
Defined.

Lemma validateQuotaCapacityConversion_sound_witness :
  ∃ qs rs, parseLockedQuotaCounters (arr (map quota_obj (snd sample_reserved))) = Ok qs ∧
    @parseApplicationAppendQuotaCapacityReservations fips_sha256
      (arr (map reservation_obj sample_reservations)) = Ok rs ∧
    map (with_state consumed) sample_reservations = map (with_state consumed) rs.
Proof.
  destruct (@validateQuotaCapacityConversion_sound fips_sha256 finalize
    (arr (map quota_obj (snd sample_reserved))) (arr (map reservation_obj sample_reservations))
    (VString sample_hash) (VString "1") (VString sample_head)
    (arr (map quota_obj (sample_settled finalize)))
    (arr (map reservation_obj (map (with_state consumed) sample_reservations)))
    (sample_settled finalize) (map (with_state consumed) sample_reservations))
    as (qs & rs & Hq & Hr & _ & Hs & _); [by vm_compute|].
  exists qs, rs. exact (conj Hq (conj Hr Hs)).
Defined.

Lemma reservation_settles_once_witness :
  @validateQuotaCapacityConversion fips_sha256 finalize (arr (map quota_obj (sample_settled release)))
    (arr (map reservation_obj (map (with_state released) sample_reservations)))
    (VString sample_hash) (VString "1") (VString sample_head)
    (arr (map quota_obj (sample_settled finalize)))
    (arr (map reservation_obj (map (with_state consumed) sample_reservations)))
    ≠ Ok (sample_settled finalize, []).
Proof.
  exact (@reservation_settles_once fips_sha256 release finalize
    _ _ _ _ _ _ _ _ _ _ _ _ _ _ sample_release (sample_settled finalize, [])).
Defined.
