(* ===== verification/AppendState.v ===== *)
(** * Locked append state ([src/production/delivery/state.ts])

    The rows read under lock for one application append: conversation,
    sender membership, send grant, witnessed policy head, usage and quotas;
    the expectation a caller signs; their parsers and digests. *)

From stdpp Require Import base list strings.
From Stdlib Require Import ZArith Lia Ascii.
From S2P Require Import Prelude Sha256 Base64Url JsTime JsValue ValueObjects Hashes Limits Quota.

Definition LOCKED_APPLICATION_APPEND_SNAPSHOT_DIGEST_DOMAIN : string :=
  "jb-msg-locked-application-append-snapshot/v1".
Definition POLICY_HEAD_PROOF_EVIDENCE_DIGEST_DOMAIN : string :=
  "jb-msg-policy-head-proof-evidence/v1".
Definition DELIVERY_LIMITS_DIGEST_DOMAIN : string := "jb-msg-delivery-limits/v1".
Definition CONVERSATION_SEND_GRANT_EVIDENCE_DIGEST_DOMAIN : string :=
  "jb-msg-conversation-send-grant-evidence/v1".
Definition DELIVERY_MANDATORY_PROPOSALS_MAX : Z := 100.

(** ** Enumerations *)

Inductive DeliveryConversationState := | cs_provisioning | cs_active | cs_membership_pending | cs_suspended | cs_closing | cs_closed | cs_retention_expired | cs_purged.
#[export] Instance DeliveryConversationState_eq_dec : EqDecision DeliveryConversationState.
Proof. solve_decision. Defined.
#[export] Instance DeliveryConversationState_literal : Literal DeliveryConversationState := {|
  lit x := match x with
           | cs_provisioning => "provisioning" | cs_active => "active"
           | cs_membership_pending => "membership_pending" | cs_suspended => "suspended"
           | cs_closing => "closing" | cs_closed => "closed"
           | cs_retention_expired => "retention_expired" | cs_purged => "purged" end;
  lits := [ cs_provisioning; cs_active; cs_membership_pending; cs_suspended; cs_closing; cs_closed;
           cs_retention_expired; cs_purged] |}.

Inductive ConversationKind := | purchase_support | announcement | community.
#[export] Instance ConversationKind_eq_dec : EqDecision ConversationKind.
Proof. solve_decision. Defined.
#[export] Instance ConversationKind_literal : Literal ConversationKind := {|
  lit x := match x with
           | purchase_support => "purchase_support" | announcement => "announcement"
           | community => "community" end;
  lits := [ purchase_support; announcement; community] |}.

Inductive InstallationState := | inst_active | inst_suspended | inst_revoked.
#[export] Instance InstallationState_eq_dec : EqDecision InstallationState.
Proof. solve_decision. Defined.
#[export] Instance InstallationState_literal : Literal InstallationState := {|
  lit x := match x with
           | inst_active => "active" | inst_suspended => "suspended" | inst_revoked => "revoked" end;
  lits := [ inst_active; inst_suspended; inst_revoked] |}.

Inductive CredentialState := | cred_active | cred_suspended | cred_revoked | cred_superseded.
#[export] Instance CredentialState_eq_dec : EqDecision CredentialState.
Proof. solve_decision. Defined.
#[export] Instance CredentialState_literal : Literal CredentialState := {|
  lit x := match x with
           | cred_active => "active" | cred_suspended => "suspended" | cred_revoked => "revoked"
           | cred_superseded => "superseded" end;
  lits := [ cred_active; cred_suspended; cred_revoked; cred_superseded] |}.

Inductive ConversationSendRole := | customer | project_staff | publisher | subscriber | member | moderator.
#[export] Instance ConversationSendRole_eq_dec : EqDecision ConversationSendRole.
Proof. solve_decision. Defined.
#[export] Instance ConversationSendRole_literal : Literal ConversationSendRole := {|
  lit x := match x with
           | customer => "customer" | project_staff => "project-staff" | publisher => "publisher"
           | subscriber => "subscriber" | member => "member" | moderator => "moderator" end;
  lits := [ customer; project_staff; publisher; subscriber; member; moderator] |}.

Inductive SendGrantState := | sg_active | sg_suspended | sg_revoked | sg_expired.
#[export] Instance SendGrantState_eq_dec : EqDecision SendGrantState.
Proof. solve_decision. Defined.
#[export] Instance SendGrantState_literal : Literal SendGrantState := {|
  lit x := match x with
           | sg_active => "active" | sg_suspended => "suspended" | sg_revoked => "revoked"
           | sg_expired => "expired" end;
  lits := [ sg_active; sg_suspended; sg_revoked; sg_expired] |}.

Inductive WitnessState := | ws_verified | ws_missing | ws_inconsistent | ws_stale.
#[export] Instance WitnessState_eq_dec : EqDecision WitnessState.
Proof. solve_decision. Defined.
#[export] Instance WitnessState_literal : Literal WitnessState := {|
  lit x := match x with
           | ws_verified => "verified" | ws_missing => "missing" | ws_inconsistent => "inconsistent"
           | ws_stale => "stale" end;
  lits := [ ws_verified; ws_missing; ws_inconsistent; ws_stale] |}.

(** ** Rows

    A field whose type is a single literal ([capability], the [verified]
    statuses) carries no information and has no component here; the parsers
    and digests spell it out. *)

Record LockedConversationState := {
  c_realmId : string; c_conversationId : ConversationId; c_projectScopeId : string;
  c_tenantScopeId : string; c_kind : ConversationKind; c_generation : Uint63String;
  c_releaseProfileId : ReleaseProfileId; c_deliveryLimitsDigest : Hash32;
  c_releaseTrustRootDigest : Hash32; c_quotaPolicyDigest : Hash32; c_groupIdHash : Hash32;
  c_state : DeliveryConversationState; c_etag : ConversationEtag; c_epoch : Uint63String;
  c_rosterVersion : Uint63String; c_rosterHash : Hash32; c_recipientSetVersion : Uint63String;
  c_recipientSetHash : Hash32; c_confirmedTranscriptHash : Hash32; c_lastPosition : Uint63String;
  c_currentLogHeadHash : Hash32; c_currentPolicyHeadSequence : Uint63String;
  c_currentPolicyHeadHash : Hash32;
}.
#[export] Instance LockedConversationState_eq_dec : EqDecision LockedConversationState.
Proof. solve_decision. Defined.

Record LockedSenderMembership := {
  m_conversationId : ConversationId; m_accountId : AccountId; m_installationId : InstallationId;
  m_credentialId : CredentialId; m_credentialFingerprint : Fingerprint32;
  m_credentialRevocationVersion : Uint63String; m_installationState : InstallationState;
  m_credentialState : CredentialState; m_credentialExpiresAt : Rfc3339Millis;
  m_joinedPosition : Uint63String; m_removedPosition : option Uint63String;
}.
#[export] Instance LockedSenderMembership_eq_dec : EqDecision LockedSenderMembership.
Proof. solve_decision. Defined.

Record LockedConversationSendGrant := {
  g_conversationId : ConversationId; g_installationId : InstallationId;
  g_credentialId : CredentialId; g_conversationKind : ConversationKind;
  g_conversationGeneration : Uint63String; g_role : ConversationSendRole;
  g_roleCredentialId : CredentialId; g_roleCredentialFingerprint : Fingerprint32;
  g_roleCredentialSubjectAccountId : AccountId;
  g_roleCredentialSubjectInstallationId : InstallationId; g_roleCredentialValidFrom : Rfc3339Millis;
  g_roleCredentialValidUntil : Rfc3339Millis; g_state : SendGrantState;
  g_policyRevision : Uint63String; g_policyHeadSequence : Uint63String; g_policyHeadHash : Hash32;
  g_expiresAt : Rfc3339Millis; g_grantEvidenceDigest : Hash32;
  g_grantInclusionEvidenceDigest : Hash32;
}.
#[export] Instance LockedConversationSendGrant_eq_dec : EqDecision LockedConversationSendGrant.
Proof. solve_decision. Defined.

Record LockedWitnessedPolicyHead := {
  p_policyHeadId : PolicyHeadId; p_conversationId : ConversationId;
  p_policyHeadSequence : Uint63String; p_policyHeadHash : Hash32;
  p_deliveryLogPosition : Uint63String; p_deliveryLogHeadHash : Hash32;
  p_evaluationLogPosition : Uint63String; p_evaluationLogHeadHash : Hash32; p_epoch : Uint63String;
  p_rosterVersion : Uint63String; p_confirmedTranscriptHash : Hash32;
  p_policyRevision : Uint63String; p_signedBodySha256 : Hash32; p_signerKeyId : SigningKeyId;
  p_signatureSha256 : Hash32; p_witnessEvidenceDigest : Hash32; p_proofEvidenceDigest : Hash32;
  p_policyConsistencyEvidenceDigest : Hash32; p_proofVerifiedAt : Rfc3339Millis;
  p_issuedAt : Rfc3339Millis; p_expiresAt : Rfc3339Millis; p_witnessState : WitnessState;
  p_witnessCheckpointId : option WitnessCheckpointId; p_witnessedPolicyHeadHash : option Hash32;
  p_mandatoryProposalCount : Uint63String; p_mandatoryProposalSetHash : Hash32;
  p_authorizedSendGrantSetHash : Hash32; p_selectedSendGrantEvidenceDigest : Hash32;
  p_selectedSendGrantInclusionEvidenceDigest : Hash32; p_authorizedQuotaPolicyDigest : Hash32;
  p_priorPolicyHeadSequence : Uint63String; p_priorPolicyHeadHash : Hash32;
  p_priorPolicyWitnessCheckpointId : WitnessCheckpointId;
  p_priorPolicyWitnessEvidenceDigest : Hash32;
}.
#[export] Instance LockedWitnessedPolicyHead_eq_dec : EqDecision LockedWitnessedPolicyHead.
Proof. solve_decision. Defined.

Record LockedConversationUsage := {
  u_conversationId : ConversationId; u_envelopeCount : Uint63String; u_envelopeBytes : Uint63String;
  u_attachmentBytes : Uint63String; u_envelopeCountLimit : Uint63String;
  u_envelopeBytesLimit : Uint63String; u_attachmentBytesLimit : Uint63String;
}.
#[export] Instance LockedConversationUsage_eq_dec : EqDecision LockedConversationUsage.
Proof. solve_decision. Defined.

Record LockedApplicationAppendSnapshot := {
  conversation : LockedConversationState;
  membership : LockedSenderMembership;
  policyHead : LockedWitnessedPolicyHead;
  sendGrant : LockedConversationSendGrant;
  pendingRemovalCount : Uint63String;
  usage : LockedConversationUsage;
  quotaBindings : list ExpectedAppendQuotaIdentity;
  quotas : list LockedQuotaCounter;
}.

Record ApplicationAppendExpectation := {
  e_realmId : string; e_conversationId : ConversationId; e_accountId : AccountId;
  e_installationId : InstallationId; e_credentialId : CredentialId;
  e_credentialFingerprint : Fingerprint32; e_credentialRevocationVersion : Uint63String;
  e_releaseProfileId : ReleaseProfileId; e_expectedDeliveryLimitsDigest : Hash32;
  e_expectedQuotaPolicyDigest : Hash32; e_expectedProjectScopeId : string;
  e_expectedTenantScopeId : string; e_expectedGroupIdHash : Hash32; e_ifMatch : ConversationEtag;
  e_expectedEpoch : Uint63String; e_expectedRosterVersion : Uint63String;
  e_expectedConfirmedTranscriptHash : Hash32; e_policyHeadId : PolicyHeadId;
  e_policyHeadSequence : Uint63String; e_policyHeadHash : Hash32;
  e_policyEvaluationLogPosition : Uint63String; e_policyEvaluationLogHeadHash : Hash32;
  e_envelopeByteLength : Uint63String; e_attachmentByteLength : Uint63String;
}.
#[export] Instance ApplicationAppendExpectation_eq_dec : EqDecision ApplicationAppendExpectation.
Proof. solve_decision. Defined.

(** ** Small parsers *)

Definition parsePolicyRealmId (value : unknown) : result string :=
  match value with
  | VString s => throw_if (negb (LABEL_64 s)) DeliveryStateValidationError;; Ok s
  | _ => invalidState
  end.

(** [/^[A-Za-z0-9][A-Za-z0-9:._-]{0,127}$/]. *)
Definition is_subject_start (c : ascii) : bool := is_upper c || is_lower c || is_digit c.
Definition is_subject_char (c : ascii) : bool :=
  is_subject_start c || is_char c ":"%char || is_char c "."%char || is_char c "_"%char
  || is_char c "-"%char.
Definition SUBJECT_ID (s : string) : bool :=
  match chars s with
  | [] => false
  | c :: rest => is_subject_start c && forallb is_subject_char rest && (Z.of_nat (length rest) <=? 127)
  end.

Definition parseScopeSubjectId (value : unknown) : result string :=
  match value with
  | VString s => throw_if (negb (SUBJECT_ID s)) DeliveryStateValidationError;; Ok s
  | _ => invalidState
  end.

Definition parseMandatoryProposalCount (value : unknown) : result Uint63String :=
  parsed ← parseUint63String value;
  throw_if (DELIVERY_MANDATORY_PROPOSALS_MAX <? BigInt parsed) DeliveryStateValidationError;;
  Ok parsed.

(** [value === null ? null : parse(value)]. *)
Definition parseNullable {A} (parse : unknown → result A) (value : unknown) : result (option A) :=
  if isNull value then Ok None else Some <$> parse value.

(** ** Row parsers *)

Definition parseLockedConversationState (value : unknown) : result LockedConversationState :=
  record ← expectExactRecord value
    [ "realmId"; "conversationId"; "projectScopeId"; "tenantScopeId"; "kind"; "generation";
     "releaseProfileId"; "deliveryLimitsDigest"; "releaseTrustRootDigest"; "quotaPolicyDigest";
     "groupIdHash"; "state"; "etag"; "epoch"; "rosterVersion"; "rosterHash"; "recipientSetVersion";
     "recipientSetHash"; "confirmedTranscriptHash"; "lastPosition"; "currentLogHeadHash";
     "currentPolicyHeadSequence"; "currentPolicyHeadHash"];
  state ← parseOneOf record.["state"];
  realmId ← parsePolicyRealmId record.["realmId"];
  conversationId ← parseConversationId record.["conversationId"];
  projectScopeId ← parseScopeSubjectId record.["projectScopeId"];
  tenantScopeId ← parseScopeSubjectId record.["tenantScopeId"];
  kind ← parseOneOf record.["kind"];
  generation ← parsePositiveUint63 record.["generation"];
  releaseProfileId ← parseReleaseProfileId record.["releaseProfileId"];
  deliveryLimitsDigest ← parseHash32 record.["deliveryLimitsDigest"];
  releaseTrustRootDigest ← parseHash32 record.["releaseTrustRootDigest"];
  quotaPolicyDigest ← parseHash32 record.["quotaPolicyDigest"];
  groupIdHash ← parseHash32 record.["groupIdHash"];
  etag ← parseConversationEtag record.["etag"];
  epoch ← parseUint63String record.["epoch"];
  rosterVersion ← parseUint63String record.["rosterVersion"];
  rosterHash ← parseHash32 record.["rosterHash"];
  recipientSetVersion ← parseUint63String record.["recipientSetVersion"];
  recipientSetHash ← parseHash32 record.["recipientSetHash"];
  confirmedTranscriptHash ← parseHash32 record.["confirmedTranscriptHash"];
  lastPosition ← parseUint63String record.["lastPosition"];
  currentLogHeadHash ← parseHash32 record.["currentLogHeadHash"];
  currentPolicyHeadSequence ← parseUint63String record.["currentPolicyHeadSequence"];
  currentPolicyHeadHash ← parseHash32 record.["currentPolicyHeadHash"];
  Ok {| c_realmId := realmId; c_conversationId := conversationId;
        c_projectScopeId := projectScopeId; c_tenantScopeId := tenantScopeId; c_kind := kind;
        c_generation := generation; c_releaseProfileId := releaseProfileId;
        c_deliveryLimitsDigest := deliveryLimitsDigest;
        c_releaseTrustRootDigest := releaseTrustRootDigest;
        c_quotaPolicyDigest := quotaPolicyDigest; c_groupIdHash := groupIdHash; c_state := state;
        c_etag := etag; c_epoch := epoch; c_rosterVersion := rosterVersion;
        c_rosterHash := rosterHash; c_recipientSetVersion := recipientSetVersion;
        c_recipientSetHash := recipientSetHash;
        c_confirmedTranscriptHash := confirmedTranscriptHash; c_lastPosition := lastPosition;
        c_currentLogHeadHash := currentLogHeadHash;
        c_currentPolicyHeadSequence := currentPolicyHeadSequence;
        c_currentPolicyHeadHash := currentPolicyHeadHash |}.

Definition parseLockedSenderMembership (value : unknown) : result LockedSenderMembership :=
  record ← expectExactRecord value
    [ "conversationId"; "accountId"; "installationId"; "credentialId"; "credentialFingerprint";
     "credentialRevocationVersion"; "installationState"; "credentialState"; "credentialExpiresAt";
     "joinedPosition"; "removedPosition"];
  conversationId ← parseConversationId record.["conversationId"];
  accountId ← parseAccountId record.["accountId"];
  installationId ← parseInstallationId record.["installationId"];
  credentialId ← parseCredentialId record.["credentialId"];
  credentialFingerprint ← parseFingerprint32 record.["credentialFingerprint"];
  credentialRevocationVersion ← parseUint63String record.["credentialRevocationVersion"];
  installationState ← parseOneOf record.["installationState"];
  credentialState ← parseOneOf record.["credentialState"];
  credentialExpiresAt ← parseRfc3339Millis record.["credentialExpiresAt"];
  joinedPosition ← parsePositiveUint63 record.["joinedPosition"];
  removedPosition ← parseNullable parsePositiveUint63 record.["removedPosition"];
  Ok {| m_conversationId := conversationId; m_accountId := accountId;
        m_installationId := installationId; m_credentialId := credentialId;
        m_credentialFingerprint := credentialFingerprint;
        m_credentialRevocationVersion := credentialRevocationVersion;
        m_installationState := installationState; m_credentialState := credentialState;
        m_credentialExpiresAt := credentialExpiresAt; m_joinedPosition := joinedPosition;
        m_removedPosition := removedPosition |}.

Definition parseLockedConversationSendGrant (value : unknown) : result LockedConversationSendGrant :=
  record ← expectExactRecord value
    [ "conversationId"; "installationId"; "credentialId"; "conversationKind";
     "conversationGeneration"; "role"; "roleCredentialId"; "roleCredentialFingerprint";
     "roleCredentialSubjectAccountId"; "roleCredentialSubjectInstallationId";
     "roleCredentialValidFrom"; "roleCredentialValidUntil"; "capability"; "state"; "policyRevision";
     "policyHeadSequence"; "policyHeadHash"; "expiresAt"; "grantEvidenceDigest";
     "grantInclusionEvidenceDigest"];
  throw_if (negb (isString record.["capability"] "send_application")) DeliveryStateValidationError;;
  conversationId ← parseConversationId record.["conversationId"];
  installationId ← parseInstallationId record.["installationId"];
  credentialId ← parseCredentialId record.["credentialId"];
  conversationKind ← parseOneOf record.["conversationKind"];
  conversationGeneration ← parsePositiveUint63 record.["conversationGeneration"];
  role ← parseOneOf record.["role"];
  roleCredentialId ← parseCredentialId record.["roleCredentialId"];
  roleCredentialFingerprint ← parseFingerprint32 record.["roleCredentialFingerprint"];
  roleCredentialSubjectAccountId ← parseAccountId record.["roleCredentialSubjectAccountId"];
  roleCredentialSubjectInstallationId ← parseInstallationId record.["roleCredentialSubjectInstallationId"];
  roleCredentialValidFrom ← parseRfc3339Millis record.["roleCredentialValidFrom"];
  roleCredentialValidUntil ← parseRfc3339Millis record.["roleCredentialValidUntil"];
  state ← parseOneOf record.["state"];
  policyRevision ← parsePositiveUint63 record.["policyRevision"];
  policyHeadSequence ← parsePositiveUint63 record.["policyHeadSequence"];
  policyHeadHash ← parseHash32 record.["policyHeadHash"];
  expiresAt ← parseRfc3339Millis record.["expiresAt"];
  grantEvidenceDigest ← parseHash32 record.["grantEvidenceDigest"];
  grantInclusionEvidenceDigest ← parseHash32 record.["grantInclusionEvidenceDigest"];
  Ok {| g_conversationId := conversationId; g_installationId := installationId;
        g_credentialId := credentialId; g_conversationKind := conversationKind;
        g_conversationGeneration := conversationGeneration; g_role := role;
        g_roleCredentialId := roleCredentialId;
        g_roleCredentialFingerprint := roleCredentialFingerprint;
        g_roleCredentialSubjectAccountId := roleCredentialSubjectAccountId;
        g_roleCredentialSubjectInstallationId := roleCredentialSubjectInstallationId;
        g_roleCredentialValidFrom := roleCredentialValidFrom;
        g_roleCredentialValidUntil := roleCredentialValidUntil; g_state := state;
        g_policyRevision := policyRevision; g_policyHeadSequence := policyHeadSequence;
        g_policyHeadHash := policyHeadHash; g_expiresAt := expiresAt;
        g_grantEvidenceDigest := grantEvidenceDigest;
        g_grantInclusionEvidenceDigest := grantInclusionEvidenceDigest |}.

Definition parseLockedWitnessedPolicyHead (value : unknown) : result LockedWitnessedPolicyHead :=
  record ← expectExactRecord value
    [ "policyHeadId"; "conversationId"; "policyHeadSequence"; "policyHeadHash";
     "deliveryLogPosition"; "deliveryLogHeadHash"; "evaluationLogPosition"; "evaluationLogHeadHash";
     "epoch"; "rosterVersion"; "confirmedTranscriptHash"; "policyRevision"; "signedBodySha256";
     "signerKeyId"; "signatureSha256"; "witnessEvidenceDigest"; "proofEvidenceDigest";
     "policyConsistencyEvidenceDigest"; "proofVerifiedAt"; "issuedAt"; "expiresAt"; "witnessState";
     "witnessCheckpointId"; "witnessedPolicyHeadHash"; "mandatoryProposalCount";
     "mandatoryProposalSetHash"; "authorizedSendGrantSetHash"; "selectedSendGrantEvidenceDigest";
     "selectedSendGrantInclusionEvidenceDigest"; "authorizedQuotaPolicyDigest";
     "priorPolicyHeadSequence"; "priorPolicyHeadHash"; "priorPolicyWitnessCheckpointId";
     "priorPolicyWitnessEvidenceDigest"];
  witnessState ← parseOneOf record.["witnessState"];
  witnessCheckpointId ← parseNullable parseWitnessCheckpointId record.["witnessCheckpointId"];
  witnessedPolicyHeadHash ← parseNullable parseHash32 record.["witnessedPolicyHeadHash"];
  throw_if ((witnessState === ws_verified)
            && (bool_decide (witnessCheckpointId = None) || bool_decide (witnessedPolicyHeadHash = None)))
    DeliveryStateValidationError;;
  throw_if ((witnessState !== ws_verified)
            && (bool_decide (witnessCheckpointId ≠ None) || bool_decide (witnessedPolicyHeadHash ≠ None)))
    DeliveryStateValidationError;;
  issuedAt ← parseRfc3339Millis record.["issuedAt"];
  expiresAt ← parseRfc3339Millis record.["expiresAt"];
  proofVerifiedAt ← parseRfc3339Millis record.["proofVerifiedAt"];
  throw_if (sle expiresAt issuedAt || (300000 <? Date_parse expiresAt - Date_parse issuedAt)
            || slt proofVerifiedAt issuedAt || sle expiresAt proofVerifiedAt)
    DeliveryStateValidationError;;
  policyHeadId ← parsePolicyHeadId record.["policyHeadId"];
  conversationId ← parseConversationId record.["conversationId"];
  policyHeadSequence ← parsePositiveUint63 record.["policyHeadSequence"];
  policyHeadHash ← parseHash32 record.["policyHeadHash"];
  deliveryLogPosition ← parseUint63String record.["deliveryLogPosition"];
  deliveryLogHeadHash ← parseHash32 record.["deliveryLogHeadHash"];
  evaluationLogPosition ← parseUint63String record.["evaluationLogPosition"];
  evaluationLogHeadHash ← parseHash32 record.["evaluationLogHeadHash"];
  epoch ← parseUint63String record.["epoch"];
  rosterVersion ← parseUint63String record.["rosterVersion"];
  confirmedTranscriptHash ← parseHash32 record.["confirmedTranscriptHash"];
  policyRevision ← parsePositiveUint63 record.["policyRevision"];
  signedBodySha256 ← parseHash32 record.["signedBodySha256"];
  signerKeyId ← parseSigningKeyId record.["signerKeyId"];
  signatureSha256 ← parseHash32 record.["signatureSha256"];
  witnessEvidenceDigest ← parseHash32 record.["witnessEvidenceDigest"];
  proofEvidenceDigest ← parseHash32 record.["proofEvidenceDigest"];
  policyConsistencyEvidenceDigest ← parseHash32 record.["policyConsistencyEvidenceDigest"];
  mandatoryProposalCount ← parseMandatoryProposalCount record.["mandatoryProposalCount"];
  mandatoryProposalSetHash ← parseHash32 record.["mandatoryProposalSetHash"];
  authorizedSendGrantSetHash ← parseHash32 record.["authorizedSendGrantSetHash"];
  selectedSendGrantEvidenceDigest ← parseHash32 record.["selectedSendGrantEvidenceDigest"];
  selectedSendGrantInclusionEvidenceDigest ← parseHash32 record.["selectedSendGrantInclusionEvidenceDigest"];
  authorizedQuotaPolicyDigest ← parseHash32 record.["authorizedQuotaPolicyDigest"];
  priorPolicyHeadSequence ← parseUint63String record.["priorPolicyHeadSequence"];
  priorPolicyHeadHash ← parseHash32 record.["priorPolicyHeadHash"];
  priorPolicyWitnessCheckpointId ← parseWitnessCheckpointId record.["priorPolicyWitnessCheckpointId"];
  priorPolicyWitnessEvidenceDigest ← parseHash32 record.["priorPolicyWitnessEvidenceDigest"];
  Ok {| p_policyHeadId := policyHeadId; p_conversationId := conversationId;
        p_policyHeadSequence := policyHeadSequence; p_policyHeadHash := policyHeadHash;
        p_deliveryLogPosition := deliveryLogPosition; p_deliveryLogHeadHash := deliveryLogHeadHash;
        p_evaluationLogPosition := evaluationLogPosition;
        p_evaluationLogHeadHash := evaluationLogHeadHash; p_epoch := epoch;
        p_rosterVersion := rosterVersion; p_confirmedTranscriptHash := confirmedTranscriptHash;
        p_policyRevision := policyRevision; p_signedBodySha256 := signedBodySha256;
        p_signerKeyId := signerKeyId; p_signatureSha256 := signatureSha256;
        p_witnessEvidenceDigest := witnessEvidenceDigest;
        p_proofEvidenceDigest := proofEvidenceDigest;
        p_policyConsistencyEvidenceDigest := policyConsistencyEvidenceDigest;
        p_proofVerifiedAt := proofVerifiedAt; p_issuedAt := issuedAt; p_expiresAt := expiresAt;
        p_witnessState := witnessState; p_witnessCheckpointId := witnessCheckpointId;
        p_witnessedPolicyHeadHash := witnessedPolicyHeadHash;
        p_mandatoryProposalCount := mandatoryProposalCount;
        p_mandatoryProposalSetHash := mandatoryProposalSetHash;
        p_authorizedSendGrantSetHash := authorizedSendGrantSetHash;
        p_selectedSendGrantEvidenceDigest := selectedSendGrantEvidenceDigest;
        p_selectedSendGrantInclusionEvidenceDigest := selectedSendGrantInclusionEvidenceDigest;
        p_authorizedQuotaPolicyDigest := authorizedQuotaPolicyDigest;
        p_priorPolicyHeadSequence := priorPolicyHeadSequence;
        p_priorPolicyHeadHash := priorPolicyHeadHash;
        p_priorPolicyWitnessCheckpointId := priorPolicyWitnessCheckpointId;
        p_priorPolicyWitnessEvidenceDigest := priorPolicyWitnessEvidenceDigest |}.

Definition parseLockedConversationUsage (value : unknown) : result LockedConversationUsage :=
  record ← expectExactRecord value
    [ "conversationId"; "envelopeCount"; "envelopeBytes"; "attachmentBytes"; "envelopeCountLimit";
     "envelopeBytesLimit"; "attachmentBytesLimit"];
  conversationId ← parseConversationId record.["conversationId"];
  envelopeCount ← parseUint63String record.["envelopeCount"];
  envelopeBytes ← parseUint63String record.["envelopeBytes"];
  attachmentBytes ← parseUint63String record.["attachmentBytes"];
  envelopeCountLimit ← parseUint63String record.["envelopeCountLimit"];
  envelopeBytesLimit ← parseUint63String record.["envelopeBytesLimit"];
  attachmentBytesLimit ← parseUint63String record.["attachmentBytesLimit"];
  throw_if ((BigInt envelopeCountLimit <? BigInt envelopeCount)
            || (BigInt envelopeBytesLimit <? BigInt envelopeBytes)
            || (BigInt attachmentBytesLimit <? BigInt attachmentBytes))
    DeliveryStateValidationError;;
  Ok {| u_conversationId := conversationId; u_envelopeCount := envelopeCount;
        u_envelopeBytes := envelopeBytes; u_attachmentBytes := attachmentBytes;
        u_envelopeCountLimit := envelopeCountLimit; u_envelopeBytesLimit := envelopeBytesLimit;
        u_attachmentBytesLimit := attachmentBytesLimit |}.

Definition parseApplicationAppendExpectation (value : unknown) : result ApplicationAppendExpectation :=
  record ← expectExactRecord value
    [ "realmId"; "conversationId"; "accountId"; "installationId"; "credentialId";
     "credentialFingerprint"; "credentialRevocationVersion"; "releaseProfileId";
     "expectedDeliveryLimitsDigest"; "expectedQuotaPolicyDigest"; "expectedProjectScopeId";
     "expectedTenantScopeId"; "expectedGroupIdHash"; "ifMatch"; "expectedEpoch";
     "expectedRosterVersion"; "expectedConfirmedTranscriptHash"; "policyHeadId";
     "policyHeadSequence"; "policyHeadHash"; "policyEvaluationLogPosition";
     "policyEvaluationLogHeadHash"; "envelopeByteLength"; "attachmentByteLength"];
  envelopeByteLength ← parsePositiveUint63 record.["envelopeByteLength"];
  realmId ← parsePolicyRealmId record.["realmId"];
  conversationId ← parseConversationId record.["conversationId"];
  accountId ← parseAccountId record.["accountId"];
  installationId ← parseInstallationId record.["installationId"];
  credentialId ← parseCredentialId record.["credentialId"];
  credentialFingerprint ← parseFingerprint32 record.["credentialFingerprint"];
  credentialRevocationVersion ← parseUint63String record.["credentialRevocationVersion"];
  releaseProfileId ← parseReleaseProfileId record.["releaseProfileId"];
  expectedDeliveryLimitsDigest ← parseHash32 record.["expectedDeliveryLimitsDigest"];
  expectedQuotaPolicyDigest ← parseHash32 record.["expectedQuotaPolicyDigest"];
  expectedProjectScopeId ← parseScopeSubjectId record.["expectedProjectScopeId"];
  expectedTenantScopeId ← parseScopeSubjectId record.["expectedTenantScopeId"];
  expectedGroupIdHash ← parseHash32 record.["expectedGroupIdHash"];
  ifMatch ← parseConversationEtag record.["ifMatch"];
  expectedEpoch ← parseUint63String record.["expectedEpoch"];
  expectedRosterVersion ← parseUint63String record.["expectedRosterVersion"];
  expectedConfirmedTranscriptHash ← parseHash32 record.["expectedConfirmedTranscriptHash"];
  policyHeadId ← parsePolicyHeadId record.["policyHeadId"];
  policyHeadSequence ← parseUint63String record.["policyHeadSequence"];
  policyHeadHash ← parseNonZeroHash32 record.["policyHeadHash"];
  policyEvaluationLogPosition ← parseUint63String record.["policyEvaluationLogPosition"];
  policyEvaluationLogHeadHash ← parseHash32 record.["policyEvaluationLogHeadHash"];
  attachmentByteLength ← parseUint63String record.["attachmentByteLength"];
  Ok {| e_realmId := realmId; e_conversationId := conversationId; e_accountId := accountId;
        e_installationId := installationId; e_credentialId := credentialId;
        e_credentialFingerprint := credentialFingerprint;
        e_credentialRevocationVersion := credentialRevocationVersion;
        e_releaseProfileId := releaseProfileId;
        e_expectedDeliveryLimitsDigest := expectedDeliveryLimitsDigest;
        e_expectedQuotaPolicyDigest := expectedQuotaPolicyDigest;
        e_expectedProjectScopeId := expectedProjectScopeId;
        e_expectedTenantScopeId := expectedTenantScopeId;
        e_expectedGroupIdHash := expectedGroupIdHash; e_ifMatch := ifMatch;
        e_expectedEpoch := expectedEpoch; e_expectedRosterVersion := expectedRosterVersion;
        e_expectedConfirmedTranscriptHash := expectedConfirmedTranscriptHash;
        e_policyHeadId := policyHeadId; e_policyHeadSequence := policyHeadSequence;
        e_policyHeadHash := policyHeadHash;
        e_policyEvaluationLogPosition := policyEvaluationLogPosition;
        e_policyEvaluationLogHeadHash := policyEvaluationLogHeadHash;
        e_envelopeByteLength := envelopeByteLength; e_attachmentByteLength := attachmentByteLength |}.

(** ** Rows as values *)

Definition conversation_obj (x : LockedConversationState) : unknown :=
  obj [ ("realmId", VString (c_realmId x)); ("conversationId", VString (c_conversationId x));
       ("projectScopeId", VString (c_projectScopeId x));
       ("tenantScopeId", VString (c_tenantScopeId x)); ("kind", VString (lit (c_kind x)));
       ("generation", VString (c_generation x));
       ("releaseProfileId", VString (c_releaseProfileId x));
       ("deliveryLimitsDigest", VString (c_deliveryLimitsDigest x));
       ("releaseTrustRootDigest", VString (c_releaseTrustRootDigest x));
       ("quotaPolicyDigest", VString (c_quotaPolicyDigest x));
       ("groupIdHash", VString (c_groupIdHash x)); ("state", VString (lit (c_state x)));
       ("etag", VString (c_etag x)); ("epoch", VString (c_epoch x));
       ("rosterVersion", VString (c_rosterVersion x)); ("rosterHash", VString (c_rosterHash x));
       ("recipientSetVersion", VString (c_recipientSetVersion x));
       ("recipientSetHash", VString (c_recipientSetHash x));
       ("confirmedTranscriptHash", VString (c_confirmedTranscriptHash x));
       ("lastPosition", VString (c_lastPosition x));
       ("currentLogHeadHash", VString (c_currentLogHeadHash x));
       ("currentPolicyHeadSequence", VString (c_currentPolicyHeadSequence x));
       ("currentPolicyHeadHash", VString (c_currentPolicyHeadHash x))].

Definition membership_obj (x : LockedSenderMembership) : unknown :=
  obj [ ("conversationId", VString (m_conversationId x)); ("accountId", VString (m_accountId x));
       ("installationId", VString (m_installationId x));
       ("credentialId", VString (m_credentialId x));
       ("credentialFingerprint", VString (m_credentialFingerprint x));
       ("credentialRevocationVersion", VString (m_credentialRevocationVersion x));
       ("installationState", VString (lit (m_installationState x)));
       ("credentialState", VString (lit (m_credentialState x)));
       ("credentialExpiresAt", VString (m_credentialExpiresAt x));
       ("joinedPosition", VString (m_joinedPosition x));
       ("removedPosition", nullable VString (m_removedPosition x))].

Definition sendGrant_obj (x : LockedConversationSendGrant) : unknown :=
  obj [ ("conversationId", VString (g_conversationId x));
       ("installationId", VString (g_installationId x));
       ("credentialId", VString (g_credentialId x));
       ("conversationKind", VString (lit (g_conversationKind x)));
       ("conversationGeneration", VString (g_conversationGeneration x));
       ("role", VString (lit (g_role x))); ("roleCredentialId", VString (g_roleCredentialId x));
       ("roleCredentialFingerprint", VString (g_roleCredentialFingerprint x));
       ("roleCredentialSubjectAccountId", VString (g_roleCredentialSubjectAccountId x));
       ("roleCredentialSubjectInstallationId", VString (g_roleCredentialSubjectInstallationId x));
       ("roleCredentialValidFrom", VString (g_roleCredentialValidFrom x));
       ("roleCredentialValidUntil", VString (g_roleCredentialValidUntil x));
       ("capability", VString "send_application"); ("state", VString (lit (g_state x)));
       ("policyRevision", VString (g_policyRevision x));
       ("policyHeadSequence", VString (g_policyHeadSequence x));
       ("policyHeadHash", VString (g_policyHeadHash x)); ("expiresAt", VString (g_expiresAt x));
       ("grantEvidenceDigest", VString (g_grantEvidenceDigest x));
       ("grantInclusionEvidenceDigest", VString (g_grantInclusionEvidenceDigest x))].

Definition policyHead_obj (x : LockedWitnessedPolicyHead) : unknown :=
  obj [ ("policyHeadId", VString (p_policyHeadId x));
       ("conversationId", VString (p_conversationId x));
       ("policyHeadSequence", VString (p_policyHeadSequence x));
       ("policyHeadHash", VString (p_policyHeadHash x));
       ("deliveryLogPosition", VString (p_deliveryLogPosition x));
       ("deliveryLogHeadHash", VString (p_deliveryLogHeadHash x));
       ("evaluationLogPosition", VString (p_evaluationLogPosition x));
       ("evaluationLogHeadHash", VString (p_evaluationLogHeadHash x));
       ("epoch", VString (p_epoch x)); ("rosterVersion", VString (p_rosterVersion x));
       ("confirmedTranscriptHash", VString (p_confirmedTranscriptHash x));
       ("policyRevision", VString (p_policyRevision x));
       ("signedBodySha256", VString (p_signedBodySha256 x));
       ("signerKeyId", VString (p_signerKeyId x));
       ("signatureSha256", VString (p_signatureSha256 x));
       ("witnessEvidenceDigest", VString (p_witnessEvidenceDigest x));
       ("proofEvidenceDigest", VString (p_proofEvidenceDigest x));
       ("policyConsistencyEvidenceDigest", VString (p_policyConsistencyEvidenceDigest x));
       ("proofVerifiedAt", VString (p_proofVerifiedAt x)); ("issuedAt", VString (p_issuedAt x));
       ("expiresAt", VString (p_expiresAt x)); ("witnessState", VString (lit (p_witnessState x)));
       ("witnessCheckpointId", nullable VString (p_witnessCheckpointId x));
       ("witnessedPolicyHeadHash", nullable VString (p_witnessedPolicyHeadHash x));
       ("mandatoryProposalCount", VString (p_mandatoryProposalCount x));
       ("mandatoryProposalSetHash", VString (p_mandatoryProposalSetHash x));
       ("authorizedSendGrantSetHash", VString (p_authorizedSendGrantSetHash x));
       ("selectedSendGrantEvidenceDigest", VString (p_selectedSendGrantEvidenceDigest x));
       ("selectedSendGrantInclusionEvidenceDigest", VString (p_selectedSendGrantInclusionEvidenceDigest x));
       ("authorizedQuotaPolicyDigest", VString (p_authorizedQuotaPolicyDigest x));
       ("priorPolicyHeadSequence", VString (p_priorPolicyHeadSequence x));
       ("priorPolicyHeadHash", VString (p_priorPolicyHeadHash x));
       ("priorPolicyWitnessCheckpointId", VString (p_priorPolicyWitnessCheckpointId x));
       ("priorPolicyWitnessEvidenceDigest", VString (p_priorPolicyWitnessEvidenceDigest x))].

Definition usage_obj (x : LockedConversationUsage) : unknown :=
  obj [ ("conversationId", VString (u_conversationId x));
       ("envelopeCount", VString (u_envelopeCount x));
       ("envelopeBytes", VString (u_envelopeBytes x));
       ("attachmentBytes", VString (u_attachmentBytes x));
       ("envelopeCountLimit", VString (u_envelopeCountLimit x));
       ("envelopeBytesLimit", VString (u_envelopeBytesLimit x));
       ("attachmentBytesLimit", VString (u_attachmentBytesLimit x))].

Definition expectation_obj (x : ApplicationAppendExpectation) : unknown :=
  obj [ ("realmId", VString (e_realmId x)); ("conversationId", VString (e_conversationId x));
       ("accountId", VString (e_accountId x)); ("installationId", VString (e_installationId x));
       ("credentialId", VString (e_credentialId x));
       ("credentialFingerprint", VString (e_credentialFingerprint x));
       ("credentialRevocationVersion", VString (e_credentialRevocationVersion x));
       ("releaseProfileId", VString (e_releaseProfileId x));
       ("expectedDeliveryLimitsDigest", VString (e_expectedDeliveryLimitsDigest x));
       ("expectedQuotaPolicyDigest", VString (e_expectedQuotaPolicyDigest x));
       ("expectedProjectScopeId", VString (e_expectedProjectScopeId x));
       ("expectedTenantScopeId", VString (e_expectedTenantScopeId x));
       ("expectedGroupIdHash", VString (e_expectedGroupIdHash x));
       ("ifMatch", VString (e_ifMatch x)); ("expectedEpoch", VString (e_expectedEpoch x));
       ("expectedRosterVersion", VString (e_expectedRosterVersion x));
       ("expectedConfirmedTranscriptHash", VString (e_expectedConfirmedTranscriptHash x));
       ("policyHeadId", VString (e_policyHeadId x));
       ("policyHeadSequence", VString (e_policyHeadSequence x));
       ("policyHeadHash", VString (e_policyHeadHash x));
       ("policyEvaluationLogPosition", VString (e_policyEvaluationLogPosition x));
       ("policyEvaluationLogHeadHash", VString (e_policyEvaluationLogHeadHash x));
       ("envelopeByteLength", VString (e_envelopeByteLength x));
       ("attachmentByteLength", VString (e_attachmentByteLength x))].

Definition binding_obj (b : ExpectedAppendQuotaIdentity) : unknown :=
  obj [("scope", VString (lit (b_scope b))); ("scopeHash", VString (b_scopeHash b));
       ("quotaName", VString (b_quotaName b)); ("windowStartedAt", VString (b_windowStartedAt b));
       ("windowSeconds", VString (b_windowSeconds b));
       ("operationLimit", VString (b_operationLimit b)); ("byteLimit", VString (b_byteLimit b))].
Definition snapshot_obj (s : LockedApplicationAppendSnapshot) : unknown :=
  obj [("conversation", conversation_obj (conversation s)); ("membership", membership_obj (membership s));
       ("policyHead", policyHead_obj (policyHead s)); ("sendGrant", sendGrant_obj (sendGrant s));
       ("pendingRemovalCount", VString (pendingRemovalCount s)); ("usage", usage_obj (usage s));
       ("quotaBindings", arr (map binding_obj (quotaBindings s)));
       ("quotas", arr (map quota_obj (quotas s)))].

(** ** Policy-head proofs *)

Inductive ProofPurpose := | append_authorization | historical_page.
#[export] Instance ProofPurpose_eq_dec : EqDecision ProofPurpose.
Proof. solve_decision. Defined.
#[export] Instance ProofPurpose_literal : Literal ProofPurpose := {|
  lit x := match x with
           | append_authorization => "append-authorization" | historical_page => "historical-page" end;
  lits := [ append_authorization; historical_page] |}.

Inductive FreshnessStatus := | fresh_ | historical_.
#[export] Instance FreshnessStatus_eq_dec : EqDecision FreshnessStatus.
Proof. solve_decision. Defined.
#[export] Instance FreshnessStatus_literal : Literal FreshnessStatus := {|
  lit x := match x with
           | fresh_ => "fresh" | historical_ => "historical" end;
  lits := [ fresh_; historical_] |}.

Inductive CurrentStatus := | current_ | page_exact.
#[export] Instance CurrentStatus_eq_dec : EqDecision CurrentStatus.
Proof. solve_decision. Defined.
#[export] Instance CurrentStatus_literal : Literal CurrentStatus := {|
  lit x := match x with
           | current_ => "current" | page_exact => "page-exact" end;
  lits := [ current_; page_exact] |}.

Inductive SendGrantInclusionStatus := | inclusion_verified | inclusion_not_requested.
#[export] Instance SendGrantInclusionStatus_eq_dec : EqDecision SendGrantInclusionStatus.
Proof. solve_decision. Defined.
#[export] Instance SendGrantInclusionStatus_literal : Literal SendGrantInclusionStatus := {|
  lit x := match x with
           | inclusion_verified => "verified" | inclusion_not_requested => "not-requested" end;
  lits := [ inclusion_verified; inclusion_not_requested] |}.

Record PolicyHeadProofExpectation := {
  x_realmId : string; x_conversationGeneration : Uint63String; x_releaseTrustRootDigest : Hash32;
  x_purpose : ProofPurpose; x_releaseProfileId : ReleaseProfileId; x_deliveryLimitsDigest : Hash32;
  x_conversationId : ConversationId; x_policyHeadId : PolicyHeadId;
  x_policyHeadSequence : Uint63String; x_policyHeadHash : Hash32;
  x_deliveryLogPosition : Uint63String; x_deliveryLogHeadHash : Hash32;
  x_evaluationLogPosition : Uint63String; x_evaluationLogHeadHash : Hash32; x_epoch : Uint63String;
  x_rosterVersion : Uint63String; x_confirmedTranscriptHash : Hash32;
  x_policyRevision : Uint63String; x_mandatoryProposalCount : Uint63String;
  x_mandatoryProposalSetHash : Hash32; x_authorizedSendGrantSetHash : Hash32;
  x_selectedSendGrantEvidenceDigest : Hash32; x_selectedSendGrantInclusionEvidenceDigest : Hash32;
  x_authorizedQuotaPolicyDigest : Hash32; x_priorPolicyHeadSequence : Uint63String;
  x_priorPolicyHeadHash : Hash32; x_priorPolicyWitnessCheckpointId : WitnessCheckpointId;
  x_priorPolicyWitnessEvidenceDigest : Hash32; x_verifiedAt : Rfc3339Millis;
}.
#[export] Instance PolicyHeadProofExpectation_eq_dec : EqDecision PolicyHeadProofExpectation.
Proof. solve_decision. Defined.

(** The evidence without its own digest. *)
Record PolicyHeadProofBody := {
  k_expectation : PolicyHeadProofExpectation;
  k_signedBodySha256 : Hash32; k_signerKeyId : SigningKeyId; k_signatureSha256 : Hash32;
  k_witnessCheckpointId : WitnessCheckpointId; k_witnessedPolicyHeadHash : Hash32;
  k_witnessEvidenceDigest : Hash32; k_issuedAt : Rfc3339Millis; k_expiresAt : Rfc3339Millis;
  k_freshnessStatus : FreshnessStatus; k_currentStatus : CurrentStatus;
  k_sendGrantInclusionStatus : SendGrantInclusionStatus; k_policyConsistencyEvidenceDigest : Hash32;
}.
#[export] Instance PolicyHeadProofBody_eq_dec : EqDecision PolicyHeadProofBody.
Proof. solve_decision. Defined.

Record PolicyHeadProofEvidence := {
  ev_body : PolicyHeadProofBody;
  ev_evidenceDigest : Hash32;
}.

(** ** Digests

    The encoders of the fields run in order, and any of them may throw. *)

Section Digests.
Context `{SHA : Sha256}.

Definition fieldsDigest (domain : string) (fields : list (result bytes)) : result Hash32 :=
  items ← mapR id fields;
  body ← canonicalLengthPrefixed items;
  sha256Bytes [utf8 domain; body].

Definition encodeNullableText (value : option string) : result bytes :=
  match value with
  | None => canonicalLengthPrefixed [utf8 "absent"]
  | Some s => canonicalLengthPrefixed [utf8 "present"; utf8 s]
  end.
Definition encodeNullableHash (value : option Hash32) : result bytes :=
  match value with
  | None => canonicalLengthPrefixed [utf8 "absent"]
  | Some s => bs ← decodeHash32 s; canonicalLengthPrefixed [utf8 "present"; bs]
  end.

Definition computeDeliveryLimitsDigest (value : unknown) : result Hash32 :=
  limits ← parseDeliveryLimits value;
  fieldsDigest DELIVERY_LIMITS_DIGEST_DOMAIN
    (flat_map (λ '(key, v), [Ok (utf8 key); Ok (utf8 v)])
       (zip DELIVERY_LIMIT_KEYS (limits_list limits))).

Definition computeApplicationAppendQuotaScopeHash (realmId scope subjectId : unknown) : result Hash32 :=
  fieldsDigest APPLICATION_APPEND_QUOTA_SCOPE_HASH_DOMAIN
    [utf8 <$> parsePolicyRealmId realmId;
     (λ s : ApplicationAppendQuotaScope, utf8 (lit s)) <$> parseOneOf scope;
     utf8 <$> parseScopeSubjectId subjectId].

Definition computeConversationSendGrantEvidenceDigest (value : LockedConversationSendGrant) : result Hash32 :=
  fieldsDigest CONVERSATION_SEND_GRANT_EVIDENCE_DIGEST_DOMAIN
    [ Ok (utf8 (g_conversationId value)); Ok (utf8 (g_installationId value));
     Ok (utf8 (g_credentialId value)); Ok (utf8 (lit (g_conversationKind value)));
     Ok (utf8 (g_conversationGeneration value)); Ok (utf8 (lit (g_role value)));
     Ok (utf8 (g_roleCredentialId value)); decodeFingerprint32 (g_roleCredentialFingerprint value);
     Ok (utf8 (g_roleCredentialSubjectAccountId value));
     Ok (utf8 (g_roleCredentialSubjectInstallationId value));
     Ok (utf8 (g_roleCredentialValidFrom value)); Ok (utf8 (g_roleCredentialValidUntil value));
     Ok (utf8 "send_application"); Ok (utf8 (lit (g_state value)));
     Ok (utf8 (g_policyRevision value)); Ok (utf8 (g_policyHeadSequence value));
     decodeHash32 (g_policyHeadHash value); Ok (utf8 (g_expiresAt value))].

Definition proofFields (input : PolicyHeadProofBody) : list (result bytes) :=
  let x := k_expectation input in
    [ Ok (utf8 (x_realmId x)); Ok (utf8 (x_conversationGeneration x));
     decodeHash32 (x_releaseTrustRootDigest x); Ok (utf8 (x_releaseProfileId x));
     decodeHash32 (x_deliveryLimitsDigest x); Ok (utf8 (lit (x_purpose x)));
     Ok (utf8 (x_conversationId x)); Ok (utf8 (x_policyHeadId x));
     Ok (utf8 (x_policyHeadSequence x)); decodeHash32 (x_policyHeadHash x);
     Ok (utf8 (x_deliveryLogPosition x)); decodeHash32 (x_deliveryLogHeadHash x);
     Ok (utf8 (x_evaluationLogPosition x)); decodeHash32 (x_evaluationLogHeadHash x);
     Ok (utf8 (x_epoch x)); Ok (utf8 (x_rosterVersion x));
     decodeHash32 (x_confirmedTranscriptHash x); Ok (utf8 (x_policyRevision x));
     Ok (utf8 (x_mandatoryProposalCount x)); decodeHash32 (x_mandatoryProposalSetHash x);
     decodeHash32 (x_authorizedSendGrantSetHash x);
     decodeHash32 (x_selectedSendGrantEvidenceDigest x);
     decodeHash32 (x_selectedSendGrantInclusionEvidenceDigest x);
     decodeHash32 (x_authorizedQuotaPolicyDigest x); Ok (utf8 (x_priorPolicyHeadSequence x));
     decodeHash32 (x_priorPolicyHeadHash x); Ok (utf8 (x_priorPolicyWitnessCheckpointId x));
     decodeHash32 (x_priorPolicyWitnessEvidenceDigest x); decodeHash32 (k_signedBodySha256 input);
     Ok (utf8 (k_signerKeyId input)); decodeHash32 (k_signatureSha256 input);
     Ok (utf8 (k_witnessCheckpointId input)); decodeHash32 (k_witnessedPolicyHeadHash input);
     decodeHash32 (k_witnessEvidenceDigest input); Ok (utf8 (k_issuedAt input));
     Ok (utf8 (k_expiresAt input)); Ok (utf8 (x_verifiedAt x)); Ok (utf8 "verified");
     Ok (utf8 "valid-for-checkpoint"); Ok (utf8 "verified");
     Ok (utf8 (lit (k_freshnessStatus input))); Ok (utf8 (lit (k_currentStatus input)));
     Ok (utf8 "verified"); decodeHash32 (k_policyConsistencyEvidenceDigest input);
     Ok (utf8 (lit (k_sendGrantInclusionStatus input)))].

Definition computePolicyHeadProofEvidenceDigest (input : PolicyHeadProofBody) : result Hash32 :=
  fieldsDigest POLICY_HEAD_PROOF_EVIDENCE_DIGEST_DOMAIN (proofFields input).

(** The proof a verified policy head stands for. *)
Definition lockedProofBody (c : LockedConversationState) (p : LockedWitnessedPolicyHead)
    (witnessCheckpointId witnessedPolicyHeadHash : string) : PolicyHeadProofBody := {|
  k_expectation := {|
    x_realmId := c_realmId c; x_conversationGeneration := c_generation c;
    x_releaseTrustRootDigest := c_releaseTrustRootDigest c; x_purpose := append_authorization;
    x_releaseProfileId := c_releaseProfileId c; x_deliveryLimitsDigest := c_deliveryLimitsDigest c;
    x_conversationId := p_conversationId p; x_policyHeadId := p_policyHeadId p;
    x_policyHeadSequence := p_policyHeadSequence p; x_policyHeadHash := p_policyHeadHash p;
    x_deliveryLogPosition := p_deliveryLogPosition p;
    x_deliveryLogHeadHash := p_deliveryLogHeadHash p;
    x_evaluationLogPosition := p_evaluationLogPosition p;
    x_evaluationLogHeadHash := p_evaluationLogHeadHash p; x_epoch := p_epoch p;
    x_rosterVersion := p_rosterVersion p; x_confirmedTranscriptHash := p_confirmedTranscriptHash p;
    x_policyRevision := p_policyRevision p; x_mandatoryProposalCount := p_mandatoryProposalCount p;
    x_mandatoryProposalSetHash := p_mandatoryProposalSetHash p;
    x_authorizedSendGrantSetHash := p_authorizedSendGrantSetHash p;
    x_selectedSendGrantEvidenceDigest := p_selectedSendGrantEvidenceDigest p;
    x_selectedSendGrantInclusionEvidenceDigest := p_selectedSendGrantInclusionEvidenceDigest p;
    x_authorizedQuotaPolicyDigest := p_authorizedQuotaPolicyDigest p;
    x_priorPolicyHeadSequence := p_priorPolicyHeadSequence p;
    x_priorPolicyHeadHash := p_priorPolicyHeadHash p;
    x_priorPolicyWitnessCheckpointId := p_priorPolicyWitnessCheckpointId p;
    x_priorPolicyWitnessEvidenceDigest := p_priorPolicyWitnessEvidenceDigest p;
    x_verifiedAt := p_proofVerifiedAt p |};
  k_signedBodySha256 := p_signedBodySha256 p; k_signerKeyId := p_signerKeyId p;
  k_signatureSha256 := p_signatureSha256 p; k_witnessCheckpointId := witnessCheckpointId;
  k_witnessedPolicyHeadHash := witnessedPolicyHeadHash;
  k_witnessEvidenceDigest := p_witnessEvidenceDigest p; k_issuedAt := p_issuedAt p;
  k_expiresAt := p_expiresAt p; k_freshnessStatus := fresh_; k_currentStatus := current_;
  k_sendGrantInclusionStatus := inclusion_verified;
  k_policyConsistencyEvidenceDigest := p_policyConsistencyEvidenceDigest p |}.

Definition roleMaySend (kind : ConversationKind) (role : ConversationSendRole) : bool :=
  match kind with
  | purchase_support => (role === customer) || (role === project_staff)
  | announcement => role === publisher
  | community => (role === member) || (role === moderator)
  end.

Definition quotaSubjectId (conversation : LockedConversationState)
    (membership : LockedSenderMembership) (scope : ApplicationAppendQuotaScope) : string :=
  match scope with
  | scope_installation => m_installationId membership
  | scope_account => m_accountId membership
  | scope_project => c_projectScopeId conversation
  | scope_conversation => c_conversationId conversation
  | scope_tenant => c_tenantScopeId conversation
  end.

(** [for (const x of xs) body(x)] with a body that may throw. *)
Definition forEach {A} (body : A → result unit) (xs : list A) : result unit :=
  mapR body xs;; Ok ().

(** [(a === "0") !== (h === ZERO_HASH32)]. *)
Definition anchorMismatch (position : Uint63String) (head : Hash32) : bool :=
  negb (Bool.eqb (position === "0") (head === ZERO_HASH32)).

(** The checks across rows of [parseLockedApplicationAppendSnapshot]. *)
Definition checkSnapshot (conversation : LockedConversationState) (membership : LockedSenderMembership)
    (policyHead : LockedWitnessedPolicyHead) (sendGrant : LockedConversationSendGrant)
    (usage : LockedConversationUsage) (quotaBindings : list ExpectedAppendQuotaIdentity)
    (quotas : list LockedQuotaCounter) : result unit :=
  throw_if ((m_conversationId membership !== c_conversationId conversation)
            || (p_conversationId policyHead !== c_conversationId conversation)
            || (g_conversationId sendGrant !== c_conversationId conversation)
            || (u_conversationId usage !== c_conversationId conversation))
    DeliveryStateValidationError;;
  throw_if (anchorMismatch (c_lastPosition conversation) (c_currentLogHeadHash conversation))
    DeliveryStateValidationError;;
  throw_if ((BigInt (c_lastPosition conversation) <? BigInt (p_deliveryLogPosition policyHead))
            || anchorMismatch (p_deliveryLogPosition policyHead) (p_deliveryLogHeadHash policyHead))
    DeliveryStateValidationError;;
  throw_if ((BigInt (c_lastPosition conversation) <? BigInt (p_evaluationLogPosition policyHead))
            || (BigInt (p_evaluationLogPosition policyHead) <? BigInt (p_deliveryLogPosition policyHead))
            || anchorMismatch (p_evaluationLogPosition policyHead) (p_evaluationLogHeadHash policyHead))
    DeliveryStateValidationError;;
  match p_witnessState policyHead, p_witnessCheckpointId policyHead, p_witnessedPolicyHeadHash policyHead with
  | ws_verified, Some checkpoint, Some witnessed =>
      digest ← computePolicyHeadProofEvidenceDigest
        (lockedProofBody conversation policyHead checkpoint witnessed);
      throw_if (p_proofEvidenceDigest policyHead !== digest) DeliveryStateValidationError
  | ws_verified, _, _ => Throw TypeError (* the row parser rules it out *)
  | _, _, _ => Ok ()
  end;;
  assertQuotaBindingsMatchCounters quotaBindings quotas;;
  forEach (λ binding,
    hash ← computeApplicationAppendQuotaScopeHash (VString (c_realmId conversation))
      (VString (lit (b_scope binding)))
      (VString (quotaSubjectId conversation membership (b_scope binding)));
    throw_if (b_scopeHash binding !== hash) DeliveryStateValidationError) quotaBindings;;
  policy ← computeApplicationAppendQuotaPolicyDigest (arr (map binding_obj quotaBindings));
  throw_if (policy !== c_quotaPolicyDigest conversation) DeliveryStateValidationError;;
  grant ← computeConversationSendGrantEvidenceDigest sendGrant;
  throw_if ((g_grantEvidenceDigest sendGrant !== grant)
            || (p_selectedSendGrantEvidenceDigest policyHead !== g_grantEvidenceDigest sendGrant)
            || (p_selectedSendGrantInclusionEvidenceDigest policyHead
                  !== g_grantInclusionEvidenceDigest sendGrant)
            || (p_authorizedQuotaPolicyDigest policyHead !== c_quotaPolicyDigest conversation))
    DeliveryStateValidationError.

Definition parseLockedApplicationAppendSnapshot (value : unknown) :
  result LockedApplicationAppendSnapshot :=
  record ← expectExactRecord value
    ["conversation"; "membership"; "policyHead"; "sendGrant"; "pendingRemovalCount"; "usage";
     "quotaBindings"; "quotas"];
  conversation ← parseLockedConversationState record.["conversation"];
  membership ← parseLockedSenderMembership record.["membership"];
  policyHead ← parseLockedWitnessedPolicyHead record.["policyHead"];
  sendGrant ← parseLockedConversationSendGrant record.["sendGrant"];
  pendingRemovalCount ← parseUint63String record.["pendingRemovalCount"];
  usage ← parseLockedConversationUsage record.["usage"];
  quotaBindings ← parseExpectedQuotaIdentities record.["quotaBindings"];
  quotas ← parseLockedQuotaCounters record.["quotas"];
  checkSnapshot conversation membership policyHead sendGrant usage quotaBindings quotas;;
  Ok {| conversation := conversation; membership := membership; policyHead := policyHead;
        sendGrant := sendGrant; pendingRemovalCount := pendingRemovalCount; usage := usage;
        quotaBindings := quotaBindings; quotas := quotas |}.

(** The fields of [computeLockedApplicationAppendSnapshotDigest], row by row. *)
Definition conversationFields (x : LockedConversationState) : list (result bytes) :=
  [ Ok (utf8 (c_realmId x)); Ok (utf8 (c_conversationId x)); Ok (utf8 (c_projectScopeId x));
   Ok (utf8 (c_tenantScopeId x)); Ok (utf8 (lit (c_kind x))); Ok (utf8 (c_generation x));
   Ok (utf8 (c_releaseProfileId x)); decodeHash32 (c_deliveryLimitsDigest x);
   decodeHash32 (c_releaseTrustRootDigest x); decodeHash32 (c_quotaPolicyDigest x);
   decodeHash32 (c_groupIdHash x); Ok (utf8 (lit (c_state x))); Ok (utf8 (c_etag x));
   Ok (utf8 (c_epoch x)); Ok (utf8 (c_rosterVersion x)); decodeHash32 (c_rosterHash x);
   Ok (utf8 (c_recipientSetVersion x)); decodeHash32 (c_recipientSetHash x);
   decodeHash32 (c_confirmedTranscriptHash x); Ok (utf8 (c_lastPosition x));
   decodeHash32 (c_currentLogHeadHash x); Ok (utf8 (c_currentPolicyHeadSequence x));
   decodeHash32 (c_currentPolicyHeadHash x)].
Definition membershipFields (x : LockedSenderMembership) : list (result bytes) :=
  [ Ok (utf8 (m_conversationId x)); Ok (utf8 (m_accountId x)); Ok (utf8 (m_installationId x));
   Ok (utf8 (m_credentialId x)); decodeFingerprint32 (m_credentialFingerprint x);
   Ok (utf8 (m_credentialRevocationVersion x)); Ok (utf8 (lit (m_installationState x)));
   Ok (utf8 (lit (m_credentialState x))); Ok (utf8 (m_credentialExpiresAt x));
   Ok (utf8 (m_joinedPosition x)); encodeNullableText (m_removedPosition x)].
Definition policyHeadFields (x : LockedWitnessedPolicyHead) : list (result bytes) :=
  [ Ok (utf8 (p_policyHeadId x)); Ok (utf8 (p_conversationId x));
   Ok (utf8 (p_policyHeadSequence x)); decodeHash32 (p_policyHeadHash x);
   Ok (utf8 (p_deliveryLogPosition x)); decodeHash32 (p_deliveryLogHeadHash x);
   Ok (utf8 (p_evaluationLogPosition x)); decodeHash32 (p_evaluationLogHeadHash x);
   Ok (utf8 (p_epoch x)); Ok (utf8 (p_rosterVersion x)); decodeHash32 (p_confirmedTranscriptHash x);
   Ok (utf8 (p_policyRevision x)); decodeHash32 (p_signedBodySha256 x); Ok (utf8 (p_signerKeyId x));
   decodeHash32 (p_signatureSha256 x); decodeHash32 (p_witnessEvidenceDigest x);
   decodeHash32 (p_proofEvidenceDigest x); decodeHash32 (p_policyConsistencyEvidenceDigest x);
   Ok (utf8 (p_proofVerifiedAt x)); Ok (utf8 (p_issuedAt x)); Ok (utf8 (p_expiresAt x));
   Ok (utf8 (lit (p_witnessState x))); encodeNullableText (p_witnessCheckpointId x);
   encodeNullableHash (p_witnessedPolicyHeadHash x); Ok (utf8 (p_mandatoryProposalCount x));
   decodeHash32 (p_mandatoryProposalSetHash x); decodeHash32 (p_authorizedSendGrantSetHash x);
   decodeHash32 (p_selectedSendGrantEvidenceDigest x);
   decodeHash32 (p_selectedSendGrantInclusionEvidenceDigest x);
   decodeHash32 (p_authorizedQuotaPolicyDigest x); Ok (utf8 (p_priorPolicyHeadSequence x));
   decodeHash32 (p_priorPolicyHeadHash x); Ok (utf8 (p_priorPolicyWitnessCheckpointId x));
   decodeHash32 (p_priorPolicyWitnessEvidenceDigest x)].
Definition sendGrantFields (x : LockedConversationSendGrant) : list (result bytes) :=
  [ Ok (utf8 (g_conversationId x)); Ok (utf8 (g_installationId x)); Ok (utf8 (g_credentialId x));
   Ok (utf8 (lit (g_conversationKind x))); Ok (utf8 (g_conversationGeneration x));
   Ok (utf8 (lit (g_role x))); Ok (utf8 (g_roleCredentialId x));
   decodeFingerprint32 (g_roleCredentialFingerprint x);
   Ok (utf8 (g_roleCredentialSubjectAccountId x));
   Ok (utf8 (g_roleCredentialSubjectInstallationId x)); Ok (utf8 (g_roleCredentialValidFrom x));
   Ok (utf8 (g_roleCredentialValidUntil x)); Ok (utf8 "send_application");
   Ok (utf8 (lit (g_state x))); Ok (utf8 (g_policyRevision x)); Ok (utf8 (g_policyHeadSequence x));
   decodeHash32 (g_policyHeadHash x); Ok (utf8 (g_expiresAt x));
   decodeHash32 (g_grantEvidenceDigest x); decodeHash32 (g_grantInclusionEvidenceDigest x)].
Definition usageFields (x : LockedConversationUsage) : list (result bytes) :=
  [ Ok (utf8 (u_conversationId x)); Ok (utf8 (u_envelopeCount x)); Ok (utf8 (u_envelopeBytes x));
   Ok (utf8 (u_attachmentBytes x)); Ok (utf8 (u_envelopeCountLimit x));
   Ok (utf8 (u_envelopeBytesLimit x)); Ok (utf8 (u_attachmentBytesLimit x))].
Definition bindingFields (x : ExpectedAppendQuotaIdentity) : list (result bytes) :=
  [ Ok (utf8 (lit (b_scope x))); decodeHash32 (b_scopeHash x); Ok (utf8 (b_quotaName x));
   Ok (utf8 (b_windowStartedAt x)); Ok (utf8 (b_windowSeconds x)); Ok (utf8 (b_operationLimit x));
   Ok (utf8 (b_byteLimit x))].
Definition quotaFields (x : LockedQuotaCounter) : list (result bytes) :=
  [ Ok (utf8 (lit (q_scope x))); decodeHash32 (q_scopeHash x); Ok (utf8 (q_quotaName x));
   Ok (utf8 (q_windowStartedAt x)); Ok (utf8 (q_windowSeconds x)); Ok (utf8 (q_operationCount x));
   Ok (utf8 (q_byteCount x)); Ok (utf8 (q_reservedOperationCount x));
   Ok (utf8 (q_reservedByteCount x)); Ok (utf8 (q_rowVersion x)); Ok (utf8 (q_operationLimit x));
   Ok (utf8 (q_byteLimit x))].
Definition snapshotFields (s : LockedApplicationAppendSnapshot) : list (result bytes) :=
  conversationFields (conversation s) ++ membershipFields (membership s)
  ++ policyHeadFields (policyHead s) ++ sendGrantFields (sendGrant s)
  ++ [Ok (utf8 (pendingRemovalCount s))] ++ usageFields (usage s)
  ++ flat_map bindingFields (quotaBindings s) ++ flat_map quotaFields (quotas s).

Definition computeLockedApplicationAppendSnapshotDigest (value : unknown) : result Hash32 :=
  snapshot ← parseLockedApplicationAppendSnapshot value;
  fieldsDigest LOCKED_APPLICATION_APPEND_SNAPSHOT_DIGEST_DOMAIN (snapshotFields snapshot).

End Digests.

(** ** What the row parsers accept *)

Definition is_nonzero_hash32 (s : string) : bool := is_hash32 s && (s !== ZERO_HASH32).
Definition is_mandatory_count (s : string) : bool :=
  is_uint63 s && (BigInt s <=? DELIVERY_MANDATORY_PROPOSALS_MAX).
Definition optionb {A} (p : A → bool) (o : option A) : bool :=
  match o with Some a => p a | None => true end.

Definition valid_conversation (x : LockedConversationState) : bool :=
  LABEL_64 (c_realmId x) && is_uuid4 (c_conversationId x) && SUBJECT_ID (c_projectScopeId x)
  && SUBJECT_ID (c_tenantScopeId x) && is_positive_uint63 (c_generation x)
  && LABEL_64 (c_releaseProfileId x) && is_hash32 (c_deliveryLimitsDigest x)
  && is_hash32 (c_releaseTrustRootDigest x) && is_hash32 (c_quotaPolicyDigest x)
  && is_hash32 (c_groupIdHash x) && is_etag (c_etag x) && is_uint63 (c_epoch x)
  && is_uint63 (c_rosterVersion x) && is_hash32 (c_rosterHash x)
  && is_uint63 (c_recipientSetVersion x) && is_hash32 (c_recipientSetHash x)
  && is_hash32 (c_confirmedTranscriptHash x) && is_uint63 (c_lastPosition x)
  && is_hash32 (c_currentLogHeadHash x) && is_uint63 (c_currentPolicyHeadSequence x)
  && is_hash32 (c_currentPolicyHeadHash x).

Definition valid_membership (x : LockedSenderMembership) : bool :=
  is_uuid4 (m_conversationId x) && is_uuid4 (m_accountId x) && is_uuid4 (m_installationId x)
  && is_uuid4 (m_credentialId x) && is_hash32 (m_credentialFingerprint x)
  && is_uint63 (m_credentialRevocationVersion x) && canonicalInstant (m_credentialExpiresAt x)
  && is_positive_uint63 (m_joinedPosition x) && optionb is_positive_uint63 (m_removedPosition x).

Definition valid_sendGrant (x : LockedConversationSendGrant) : bool :=
  is_uuid4 (g_conversationId x) && is_uuid4 (g_installationId x) && is_uuid4 (g_credentialId x)
  && is_positive_uint63 (g_conversationGeneration x) && is_uuid4 (g_roleCredentialId x)
  && is_hash32 (g_roleCredentialFingerprint x) && is_uuid4 (g_roleCredentialSubjectAccountId x)
  && is_uuid4 (g_roleCredentialSubjectInstallationId x)
  && canonicalInstant (g_roleCredentialValidFrom x)
  && canonicalInstant (g_roleCredentialValidUntil x) && is_positive_uint63 (g_policyRevision x)
  && is_positive_uint63 (g_policyHeadSequence x) && is_hash32 (g_policyHeadHash x)
  && canonicalInstant (g_expiresAt x) && is_hash32 (g_grantEvidenceDigest x)
  && is_hash32 (g_grantInclusionEvidenceDigest x).

(** A verified head has both witness bindings and any other head has none. *)
Definition witness_complete (x : LockedWitnessedPolicyHead) : bool :=
  match p_witnessState x, p_witnessCheckpointId x, p_witnessedPolicyHeadHash x with
  | ws_verified, Some _, Some _ => true
  | ws_verified, _, _ => false
  | _, None, None => true
  | _, _, _ => false
  end.
Definition valid_policyHead (x : LockedWitnessedPolicyHead) : bool :=
  is_uuid4 (p_policyHeadId x) && is_uuid4 (p_conversationId x)
  && is_positive_uint63 (p_policyHeadSequence x) && is_hash32 (p_policyHeadHash x)
  && is_uint63 (p_deliveryLogPosition x) && is_hash32 (p_deliveryLogHeadHash x)
  && is_uint63 (p_evaluationLogPosition x) && is_hash32 (p_evaluationLogHeadHash x)
  && is_uint63 (p_epoch x) && is_uint63 (p_rosterVersion x)
  && is_hash32 (p_confirmedTranscriptHash x) && is_positive_uint63 (p_policyRevision x)
  && is_hash32 (p_signedBodySha256 x) && LABEL_64 (p_signerKeyId x)
  && is_hash32 (p_signatureSha256 x) && is_hash32 (p_witnessEvidenceDigest x)
  && is_hash32 (p_proofEvidenceDigest x) && is_hash32 (p_policyConsistencyEvidenceDigest x)
  && canonicalInstant (p_proofVerifiedAt x) && canonicalInstant (p_issuedAt x)
  && canonicalInstant (p_expiresAt x) && optionb is_uuid4 (p_witnessCheckpointId x)
  && optionb is_hash32 (p_witnessedPolicyHeadHash x)
  && is_mandatory_count (p_mandatoryProposalCount x) && is_hash32 (p_mandatoryProposalSetHash x)
  && is_hash32 (p_authorizedSendGrantSetHash x) && is_hash32 (p_selectedSendGrantEvidenceDigest x)
  && is_hash32 (p_selectedSendGrantInclusionEvidenceDigest x)
  && is_hash32 (p_authorizedQuotaPolicyDigest x) && is_uint63 (p_priorPolicyHeadSequence x)
  && is_hash32 (p_priorPolicyHeadHash x) && is_uuid4 (p_priorPolicyWitnessCheckpointId x)
  && is_hash32 (p_priorPolicyWitnessEvidenceDigest x) && slt (p_issuedAt x) (p_expiresAt x)
  && (Date_parse (p_expiresAt x) - Date_parse (p_issuedAt x) <=? 300000)
  && sle (p_issuedAt x) (p_proofVerifiedAt x) && slt (p_proofVerifiedAt x) (p_expiresAt x)
  && witness_complete x.

Definition valid_usage (x : LockedConversationUsage) : bool :=
  is_uuid4 (u_conversationId x) && is_uint63 (u_envelopeCount x) && is_uint63 (u_envelopeBytes x)
  && is_uint63 (u_attachmentBytes x) && is_uint63 (u_envelopeCountLimit x)
  && is_uint63 (u_envelopeBytesLimit x) && is_uint63 (u_attachmentBytesLimit x)
  && (BigInt (u_envelopeCount x) <=? BigInt (u_envelopeCountLimit x))
  && (BigInt (u_envelopeBytes x) <=? BigInt (u_envelopeBytesLimit x))
  && (BigInt (u_attachmentBytes x) <=? BigInt (u_attachmentBytesLimit x)).

Definition valid_expectation (x : ApplicationAppendExpectation) : bool :=
  LABEL_64 (e_realmId x) && is_uuid4 (e_conversationId x) && is_uuid4 (e_accountId x)
  && is_uuid4 (e_installationId x) && is_uuid4 (e_credentialId x)
  && is_hash32 (e_credentialFingerprint x) && is_uint63 (e_credentialRevocationVersion x)
  && LABEL_64 (e_releaseProfileId x) && is_hash32 (e_expectedDeliveryLimitsDigest x)
  && is_hash32 (e_expectedQuotaPolicyDigest x) && SUBJECT_ID (e_expectedProjectScopeId x)
  && SUBJECT_ID (e_expectedTenantScopeId x) && is_hash32 (e_expectedGroupIdHash x)
  && is_etag (e_ifMatch x) && is_uint63 (e_expectedEpoch x) && is_uint63 (e_expectedRosterVersion x)
  && is_hash32 (e_expectedConfirmedTranscriptHash x) && is_uuid4 (e_policyHeadId x)
  && is_uint63 (e_policyHeadSequence x) && is_nonzero_hash32 (e_policyHeadHash x)
  && is_uint63 (e_policyEvaluationLogPosition x) && is_hash32 (e_policyEvaluationLogHeadHash x)
  && is_positive_uint63 (e_envelopeByteLength x) && is_uint63 (e_attachmentByteLength x).

Lemma parsePolicyRealmId_Ok v s : parsePolicyRealmId v = Ok s ↔ v = VString s ∧ LABEL_64 s = true.
Proof.
  unfold parsePolicyRealmId. split.
  - destruct v; try discriminate. intros H. inv_result. subst. by apply negb_false_iff in Hx.
  - intros [-> H]. by rewrite H.
Qed.

Lemma parseScopeSubjectId_Ok v s : parseScopeSubjectId v = Ok s ↔ v = VString s ∧ SUBJECT_ID s = true.
Proof.
  unfold parseScopeSubjectId. split.
  - destruct v; try discriminate. intros H. inv_result. subst. by apply negb_false_iff in Hx.
  - intros [-> H]. by rewrite H.
Qed.

Lemma parseReleaseProfileId_Ok v s :
  parseReleaseProfileId v = Ok s ↔ v = VString s ∧ LABEL_64 s = true.
Proof. apply parseSigningKeyId_Ok. Qed.

Lemma parseMandatoryProposalCount_Ok v s :
  parseMandatoryProposalCount v = Ok s ↔ v = VString s ∧ is_mandatory_count s = true.
Proof.
  unfold parseMandatoryProposalCount, is_mandatory_count. split.
  - intros H. inv_result. subst. apply parseUint63String_Ok in Hx as [-> ->]. split; [done|]. cbn. lia.
  - intros [-> [H H']%andb_true_iff]. rewrite (proj2 (parseUint63String_Ok _ s)) by done.
    cbn [mbind result_bind]. by rewrite (proj2 (Z.ltb_ge _ _)) by lia.
Qed.

Lemma parseNonZero_Ok v s : parseNonZeroHash32 v = Ok s ↔ v = VString s ∧ is_nonzero_hash32 s = true.
Proof.
  rewrite parseNonZeroHash32_Ok. unfold is_nonzero_hash32. rewrite andb_true_iff, negb_true_iff, bool_decide_eq_false.
  done.
Qed.

Lemma parseNullable_Ok parse p v o :
  (∀ v s, parse v = Ok s ↔ v = VString s ∧ p s = true) →
  parseNullable parse v = Ok o ↔ v = nullable VString o ∧ optionb p o = true.
Proof.
  intros Hp. unfold parseNullable. split.
  - destruct (isNull v) eqn:E; [intros [= <-]; by destruct v|].
    destruct (parse v) as [s|] eqn:E'; cbn; [|done]. intros [= <-]. by apply Hp.
  - intros [-> H]. destruct o as [s|]; [|done]. cbn in *. by rewrite (proj2 (Hp (VString s) s)).
Qed.

(** Reads the brand off every accepted field of a row. *)
Ltac row_parsed :=
  unfold parseConversationId, parseAccountId, parseInstallationId, parseCredentialId,
    parsePolicyHeadId, parseWitnessCheckpointId in *;
  repeat match goal with
  | H : parseUint63String _ = Ok _ |- _ => apply parseUint63String_Ok in H as [_ H]
  | H : parsePositiveUint63 _ = Ok _ |- _ => apply parsePositiveUint63_Ok in H as [_ H]
  | H : parseHash32 _ = Ok _ |- _ => apply parseHash32_Ok in H as [_ H]
  | H : parseNonZeroHash32 _ = Ok _ |- _ => apply parseNonZero_Ok in H as [_ H]
  | H : parseFingerprint32 _ = Ok _ |- _ => apply parseHash32_Ok in H as [_ H]
  | H : parseUuidV4 _ = Ok _ |- _ => apply parseUuidV4_Ok in H as [_ H]
  | H : parseRfc3339Millis _ = Ok _ |- _ => apply parseRfc3339Millis_Ok in H as [_ H]
  | H : parsePolicyRealmId _ = Ok _ |- _ => apply parsePolicyRealmId_Ok in H as [_ H]
  | H : parseScopeSubjectId _ = Ok _ |- _ => apply parseScopeSubjectId_Ok in H as [_ H]
  | H : parseReleaseProfileId _ = Ok _ |- _ => apply parseReleaseProfileId_Ok in H as [_ H]
  | H : parseSigningKeyId _ = Ok _ |- _ => apply parseSigningKeyId_Ok in H as [_ H]
  | H : parseConversationEtag _ = Ok _ |- _ => apply parseConversationEtag_Ok in H as [_ H]
  | H : parseMandatoryProposalCount _ = Ok _ |- _ => apply parseMandatoryProposalCount_Ok in H as [_ H]
  | H : parseNullable parsePositiveUint63 _ = Ok _ |- _ =>
      apply (parseNullable_Ok _ _ _ _ parsePositiveUint63_Ok) in H as [_ H]
  | H : parseNullable parseUuidV4 _ = Ok _ |- _ =>
      apply (parseNullable_Ok _ _ _ _ parseUuidV4_Ok) in H as [_ H]
  | H : parseNullable parseHash32 _ = Ok _ |- _ =>
      apply (parseNullable_Ok _ _ _ _ parseHash32_Ok) in H as [_ H]
  end.

Lemma parseLockedConversationState_valid v x :
  parseLockedConversationState v = Ok x → valid_conversation x = true.
Proof.
  unfold parseLockedConversationState. intros H. inv_result. subst. row_parsed.
  unfold valid_conversation; cbn. by brands.
Qed.

Lemma parseLockedSenderMembership_valid v x :
  parseLockedSenderMembership v = Ok x → valid_membership x = true.
Proof.
  unfold parseLockedSenderMembership. intros H. inv_result. subst. row_parsed.
  unfold valid_membership; cbn. by brands.
Qed.

Lemma parseLockedConversationSendGrant_valid v x :
  parseLockedConversationSendGrant v = Ok x → valid_sendGrant x = true.
Proof.
  unfold parseLockedConversationSendGrant. intros H. inv_result. subst. row_parsed.
  unfold valid_sendGrant; cbn. by brands.
Qed.

Lemma parseLockedConversationUsage_valid v x :
  parseLockedConversationUsage v = Ok x → valid_usage x = true.
Proof.
  unfold parseLockedConversationUsage. intros H. inv_result. subst. bsimp. row_parsed.
  unfold valid_usage; cbn. rewrite !Z.ltb_ge in *.
  repeat match goal with H : _ <= _ |- _ => apply Z.leb_le in H end. by brands.
Qed.

Lemma parseApplicationAppendExpectation_valid v x :
  parseApplicationAppendExpectation v = Ok x → valid_expectation x = true.
Proof.
  unfold parseApplicationAppendExpectation. intros H. inv_result. subst. row_parsed.
  unfold valid_expectation; cbn. by brands.
Qed.

#[global] Arguments slt : simpl never.
#[global] Arguments sle : simpl never.

Lemma witness_bindings_complete (state : WitnessState) (checkpoint witnessed : option string) :
  (state === ws_verified) && (bool_decide (checkpoint = None) || bool_decide (witnessed = None)) = false →
  (state !== ws_verified) && (bool_decide (checkpoint ≠ None) || bool_decide (witnessed ≠ None)) = false →
  match state, checkpoint, witnessed with
  | ws_verified, Some _, Some _ => true
  | ws_verified, _, _ => false
  | _, None, None => true
  | _, _, _ => false
  end = true.
Proof. by destruct state, checkpoint, witnessed. Qed.

Lemma parseLockedWitnessedPolicyHead_valid v x :
  parseLockedWitnessedPolicyHead v = Ok x → valid_policyHead x = true.
Proof.
  unfold parseLockedWitnessedPolicyHead. intros H. inv_result. subst.
  match goal with H : _ && _ = false, H' : _ && _ = false |- _ =>
    pose proof (witness_bindings_complete _ _ _ H' H) as Hw; clear H H' end.
  unfold sle in *. bsimp. row_parsed. unfold valid_policyHead, witness_complete, sle; cbn. brands.
  match goal with H : (_ <? _) = false |- _ => apply Z.ltb_ge, Z.leb_le in H; rewrite H; clear H end.
  match goal with H : slt _ _ = false |- _ => by rewrite H end.
Qed.

Ltac run_row_parsers :=
  unfold parseConversationId, parseAccountId, parseInstallationId, parseCredentialId,
    parsePolicyHeadId, parseWitnessCheckpointId in *;
  change parseFingerprint32 with parseHash32;
  repeat (match goal with
  | H : is_positive_uint63 ?s = true |- context [parsePositiveUint63 (VString ?s)] =>
      rewrite (proj2 (parsePositiveUint63_Ok (VString s) s) (conj eq_refl H))
  | H : LABEL_64 ?s = true |- context [parsePolicyRealmId (VString ?s)] =>
      rewrite (proj2 (parsePolicyRealmId_Ok (VString s) s) (conj eq_refl H))
  | H : LABEL_64 ?s = true |- context [parseReleaseProfileId (VString ?s)] =>
      rewrite (proj2 (parseReleaseProfileId_Ok (VString s) s) (conj eq_refl H))
  | H : SUBJECT_ID ?s = true |- context [parseScopeSubjectId (VString ?s)] =>
      rewrite (proj2 (parseScopeSubjectId_Ok (VString s) s) (conj eq_refl H))
  | H : is_etag ?s = true |- context [parseConversationEtag (VString ?s)] =>
      rewrite (proj2 (parseConversationEtag_Ok (VString s) s) (conj eq_refl H))
  | H : is_uuid4 ?s = true |- context [parseUuidV4 (VString ?s)] =>
      rewrite (proj2 (parseUuidV4_Ok (VString s) s) (conj eq_refl H))
  | H : is_uint63 ?s = true |- context [parseUint63String (VString ?s)] =>
      rewrite (proj2 (parseUint63String_Ok (VString s) s) (conj eq_refl H))
  | H : is_hash32 ?s = true |- context [parseHash32 (VString ?s)] =>
      rewrite (proj2 (parseHash32_Ok (VString s) s) (conj eq_refl H))
  end; cbn [mbind result_bind]).

(** Reads the fields of an object literal. *)
Ltac read_fields :=
  repeat match goal with |- context [get ?r ?k] =>
    let v := eval cbv [get descriptor map] in (get r k) in
    let v := eval cbn -[lit] in v in change (get r k) with v end.

Lemma parseOneOf_lit (s : DeliveryConversationState) : parseOneOf (VString (lit s)) = Ok s.
Proof. by destruct s. Qed.
Lemma parseOneOf_kind (s : ConversationKind) : parseOneOf (VString (lit s)) = Ok s.
Proof. by destruct s. Qed.

Lemma parseOneOf_credential (s : CredentialState) : parseOneOf (VString (lit s)) = Ok s.
Proof. by destruct s. Qed.
Lemma parseOneOf_installation (s : InstallationState) : parseOneOf (VString (lit s)) = Ok s.
Proof. by destruct s. Qed.

Lemma parseOneOf_role (s : ConversationSendRole) : parseOneOf (VString (lit s)) = Ok s.
Proof. by destruct s. Qed.
Lemma parseOneOf_grant (s : SendGrantState) : parseOneOf (VString (lit s)) = Ok s.
Proof. by destruct s. Qed.
Lemma parseOneOf_witness (s : WitnessState) : parseOneOf (VString (lit s)) = Ok s.
Proof. by destruct s. Qed.

Lemma parseLockedConversationState_obj x :
  valid_conversation x = true → parseLockedConversationState (conversation_obj x) = Ok x.
Proof.
  unfold valid_conversation. intros H. bsimp. unfold parseLockedConversationState, conversation_obj.
  rewrite expectExactRecord_obj; [|reflexivity|by apply (bool_decide_unpack _); vm_compute|by repeat constructor].
  cbn [mbind result_bind].
  read_fields.
  rewrite parseOneOf_lit, parseOneOf_kind. cbn [mbind result_bind]. run_row_parsers.
  by destruct x.
Qed.

(** ** Snapshots *)

Definition valid_binding (b : ExpectedAppendQuotaIdentity) : bool :=
  is_hash32 (b_scopeHash b) && LABEL_64 (b_quotaName b) && canonicalInstant (b_windowStartedAt b)
  && is_positive_uint63 (b_windowSeconds b) && is_uint63 (b_operationLimit b)
  && is_uint63 (b_byteLimit b).

Lemma parseExpectedQuotaIdentity_valid v b : parseExpectedQuotaIdentity v = Ok b → valid_binding b = true.
Proof.
  unfold parseExpectedQuotaIdentity. intros H. inv_result. subst. parsed.
  unfold valid_binding; cbn. by brands.
Qed.

Lemma parseExpectedQuotaIdentities_valid v bs :
  parseExpectedQuotaIdentities v = Ok bs →
  map b_scope bs = APPLICATION_APPEND_QUOTA_SCOPES ∧ Forall (λ b, valid_binding b = true) bs.
Proof.
  unfold parseExpectedQuotaIdentities. intros H. inv_result.
  apply inScopeOrder_Ok in H as [Hs Hin]. split; [done|]. apply Forall_forall. intros b Hb.
  destruct (mapArray_in _ _ _ b Hx0 (Hin b Hb)) as (u & _ & Hu). by eapply parseExpectedQuotaIdentity_valid.
Qed.

(** Every row of a parsed snapshot is well formed. *)
Record valid_rows (s : LockedApplicationAppendSnapshot) : Prop := {
  vr_conversation : valid_conversation (conversation s) = true;
  vr_membership : valid_membership (membership s) = true;
  vr_policyHead : valid_policyHead (policyHead s) = true;
  vr_sendGrant : valid_sendGrant (sendGrant s) = true;
  vr_removals : is_uint63 (pendingRemovalCount s) = true;
  vr_usage : valid_usage (usage s) = true;
  vr_bindings : map b_scope (quotaBindings s) = APPLICATION_APPEND_QUOTA_SCOPES ∧
                Forall (λ b, valid_binding b = true) (quotaBindings s);
  vr_quotas : map q_scope (quotas s) = APPLICATION_APPEND_QUOTA_SCOPES ∧
              Forall valid_quota (quotas s);
}.

Section Snapshots.
Context `{SHA : Sha256}.

Lemma parseLockedApplicationAppendSnapshot_inv v s :
  parseLockedApplicationAppendSnapshot v = Ok s →
  valid_rows s ∧
  checkSnapshot (conversation s) (membership s) (policyHead s) (sendGrant s) (usage s)
    (quotaBindings s) (quotas s) = Ok ().
Proof.
  unfold parseLockedApplicationAppendSnapshot. intros H. inv_result. subst. split.
  - split; cbn;
      eauto using parseLockedConversationState_valid, parseLockedSenderMembership_valid,
        parseLockedWitnessedPolicyHead_valid, parseLockedConversationSendGrant_valid,
        parseLockedConversationUsage_valid, parseExpectedQuotaIdentities_valid,
        parseLockedQuotaCounters_valid.
    match goal with H : parseUint63String _ = Ok _ |- _ => apply parseUint63String_Ok in H as [_ ?] end. done.
  - by match goal with H : checkSnapshot _ _ _ _ _ _ _ = Ok ?u |- _ => destruct u end.
Qed.

Lemma forEach_Ok {A} (f : A → result unit) xs u : forEach f xs = Ok u → Forall (λ x, f x = Ok ()) xs.
Proof.
  unfold forEach. intros H. inv_result. apply mapR_Ok in Hx.
  induction Hx as [|a [] xs ys Ha _ IH]; constructor; auto.
Qed.

(** What the checks across rows establish. *)
Record linked (s : LockedApplicationAppendSnapshot) : Prop := {
  lk_conversation :
    m_conversationId (membership s) = c_conversationId (conversation s) ∧
    p_conversationId (policyHead s) = c_conversationId (conversation s) ∧
    g_conversationId (sendGrant s) = c_conversationId (conversation s) ∧
    u_conversationId (usage s) = c_conversationId (conversation s);
  lk_anchors :
    (c_lastPosition (conversation s) = "0" ↔ c_currentLogHeadHash (conversation s) = ZERO_HASH32) ∧
    BigInt (p_deliveryLogPosition (policyHead s))
      <= BigInt (p_evaluationLogPosition (policyHead s))
      <= BigInt (c_lastPosition (conversation s));
  lk_proof : p_witnessState (policyHead s) = ws_verified →
    ∃ checkpoint witnessed, p_witnessCheckpointId (policyHead s) = Some checkpoint ∧
      p_witnessedPolicyHeadHash (policyHead s) = Some witnessed ∧
      computePolicyHeadProofEvidenceDigest
        (lockedProofBody (conversation s) (policyHead s) checkpoint witnessed)
      = Ok (p_proofEvidenceDigest (policyHead s));
  lk_quotas : ∀ q, q ∈ quotas s →
    computeApplicationAppendQuotaScopeHash (VString (c_realmId (conversation s)))
      (VString (lit (q_scope q)))
      (VString (quotaSubjectId (conversation s) (membership s) (q_scope q)))
    = Ok (q_scopeHash q);
  lk_policy : computeApplicationAppendQuotaPolicyDigest (arr (map binding_obj (quotaBindings s)))
    = Ok (c_quotaPolicyDigest (conversation s)) ∧
    p_authorizedQuotaPolicyDigest (policyHead s) = c_quotaPolicyDigest (conversation s);
  lk_grant : computeConversationSendGrantEvidenceDigest (sendGrant s)
    = Ok (g_grantEvidenceDigest (sendGrant s)) ∧
    p_selectedSendGrantEvidenceDigest (policyHead s) = g_grantEvidenceDigest (sendGrant s) ∧
    p_selectedSendGrantInclusionEvidenceDigest (policyHead s)
      = g_grantInclusionEvidenceDigest (sendGrant s);
}.

Lemma anchorMismatch_false p h : anchorMismatch p h = false ↔ (p = "0" ↔ h = ZERO_HASH32).
Proof.
  unfold anchorMismatch. rewrite negb_false_iff, Bool.eqb_true_iff.
  do 2 case_bool_decide; intuition congruence.
Qed.

(** A row is found by its scope when scopes are distinct. *)
Lemma find_unique_scope {A} (scopeOf : A → ApplicationAppendQuotaScope) rows a :
  NoDup (map scopeOf rows) → a ∈ rows → List.find (λ r, scopeOf r === scopeOf a) rows = Some a.
Proof.
  intros Hd Ha. induction rows as [|r rows IH]; [by apply elem_of_nil in Ha|]. cbn in *.
  apply NoDup_cons in Hd as [Hn Hd]. apply elem_of_cons in Ha as [->|Ha]; [by rewrite bool_decide_eq_true_2|].
  rewrite bool_decide_eq_false_2; [by apply IH|]. intros E. apply Hn. rewrite E.
  by apply (list_elem_of_fmap_2 scopeOf).
Qed.

Lemma assertQuotaBindingsMatchCounters_Ok bs qs u q :
  map q_scope qs = APPLICATION_APPEND_QUOTA_SCOPES → q ∈ qs →
  assertQuotaBindingsMatchCounters bs qs = Ok u →
  ∃ b, b ∈ bs ∧ b_scope b = q_scope q ∧ b_scopeHash b = q_scopeHash q ∧ b_quotaName b = q_quotaName q ∧
    b_windowStartedAt b = q_windowStartedAt q ∧ b_windowSeconds b = q_windowSeconds q ∧
    b_operationLimit b = q_operationLimit q ∧ b_byteLimit b = q_byteLimit q.
Proof.
  intros Hs Hq H. unfold assertQuotaBindingsMatchCounters in H. inv_result. bsimp.
  rewrite forallb_forall in H. specialize (H (q_scope q)).
  assert (HF : List.find (λ q', q_scope q' === q_scope q) qs = Some q).
  { apply find_unique_scope; [|done]. rewrite Hs. apply (bool_decide_unpack _); by vm_compute. }
  rewrite HF in H. destruct (List.find _ bs) as [b|] eqn:EB.
  - apply find_some in EB as [Hb%list_elem_of_In Hsc%bool_decide_eq_true].
    specialize (H ltac:(destruct (q_scope q); cbn; tauto)). bsimp. by exists b.
  - exfalso. discriminate H. destruct (q_scope q); cbn; tauto.
Qed.

Lemma parseLockedApplicationAppendSnapshot_linked v s :
  parseLockedApplicationAppendSnapshot v = Ok s → linked s.
Proof.
  intros [[_ _ Hp _ _ _ Hb [Hqs _]] HC]%parseLockedApplicationAppendSnapshot_inv.
  unfold checkSnapshot in HC. inv_result. bsimp. rewrite !anchorMismatch_false in *.
  match goal with H : forEach _ _ = _ |- _ => apply forEach_Ok in H; rename H into HF end.
  rewrite !Z.ltb_ge in *. split.
  - done.
  - done.
  - intros Hv. rewrite Hv in *. unfold valid_policyHead, witness_complete in Hp. bsimp.
    destruct (p_witnessCheckpointId _) as [c|], (p_witnessedPolicyHeadHash _) as [w|]; try done.
    exists c, w. split_and!; [done..|]. inv_result. bsimp. congruence.
  - intros q Hq.
    match goal with H : assertQuotaBindingsMatchCounters _ _ = _ |- _ =>
      destruct (assertQuotaBindingsMatchCounters_Ok _ _ _ q Hqs Hq H) as (b & Hin & Es & Eh & _) end.
    pose proof (proj1 (Forall_forall _ _) HF b Hin) as Hbq. cbv beta in Hbq. inv_result. bsimp.
    rewrite Es in *. congruence.
  - split; congruence.
  - split_and!; congruence.
Qed.
End Snapshots.
