(* ===== verification/AppendEval.v ===== *)
(** * Evaluating an append ([src/production/delivery/state.ts])

    [evaluateLockedApplicationAppend] decides, from the rows read under lock,
    whether one application envelope may be appended; the transition
    validators recompute it before a reservation plan is accepted; the pending
    intent's expiry is the least of its bounds. *)

From stdpp Require Import base list strings.
From Stdlib Require Import ZArith Lia Ascii.
From S2P Require Import Prelude Sha256 Base64Url JsTime JsValue ValueObjects Hashes Limits Quota AppendState.

Definition APPLICATION_APPEND_PENDING_MAX_TTL_MILLISECONDS : Z := 30000.
Definition APPLICATION_APPEND_ADMISSION_MAX_AGE_MILLISECONDS : Z := 15000.

Inductive LockedApplicationAppendDecision :=
| allowed (nextPosition : Uint63String) (nextUsage : LockedConversationUsage)
    (quotaCapacityDeltas : list ApplicationAppendQuotaCapacityDelta)
    (postReservationQuotas : list LockedQuotaCounter)
| rejected (reasonCode : ApplicationAppendRejectionReason).

Definition reject (r : ApplicationAppendRejectionReason) : result LockedApplicationAppendDecision :=
  Ok (rejected r).

Section Evaluation.
Context `{SHA : Sha256}.

Definition evaluateLockedApplicationAppend (snapshot : LockedApplicationAppendSnapshot)
    (expectation : ApplicationAppendExpectation) (now : Rfc3339Millis) :
  result LockedApplicationAppendDecision :=
  let c := conversation snapshot in
  let m := membership snapshot in
  let p := policyHead snapshot in
  let u := usage snapshot in
  let g := sendGrant snapshot in
  let e := expectation in
  if c_state c !== cs_active then reject conversation_not_active else
  let canonicalEtag := etag_text (chars (c_epoch c)) (chars (c_rosterVersion c)) in
  if c_etag c !== canonicalEtag then reject conversation_state_invalid else
  if (e_realmId e !== c_realmId c) || (e_conversationId e !== c_conversationId c)
     || (e_releaseProfileId e !== c_releaseProfileId c)
     || (e_expectedDeliveryLimitsDigest e !== c_deliveryLimitsDigest c)
     || (e_expectedQuotaPolicyDigest e !== c_quotaPolicyDigest c)
     || (e_expectedProjectScopeId e !== c_projectScopeId c)
     || (e_expectedTenantScopeId e !== c_tenantScopeId c)
     || (e_expectedGroupIdHash e !== c_groupIdHash c)
     || (e_ifMatch e !== c_etag c) || (e_expectedEpoch e !== c_epoch c)
     || (e_expectedRosterVersion e !== c_rosterVersion c)
     || (e_expectedConfirmedTranscriptHash e !== c_confirmedTranscriptHash c)
  then reject conversation_state_changed else
  if (m_conversationId m !== c_conversationId c) || bool_decide (m_removedPosition m ≠ None)
     || (BigInt (c_lastPosition c) <? BigInt (m_joinedPosition m))
  then reject sender_membership_inactive else
  if (e_accountId e !== m_accountId m) || (e_installationId e !== m_installationId m)
     || (e_credentialId e !== m_credentialId m)
     || (e_credentialFingerprint e !== m_credentialFingerprint m)
     || (e_credentialRevocationVersion e !== m_credentialRevocationVersion m)
  then reject sender_credential_mismatch else
  if (m_installationState m !== inst_active) || (m_credentialState m !== cred_active)
  then reject sender_credential_inactive else
  if sle (m_credentialExpiresAt m) now then reject sender_credential_expired else
  if (g_conversationId g !== c_conversationId c) || (g_installationId g !== m_installationId m)
     || (g_credentialId g !== m_credentialId m)
     || (g_roleCredentialSubjectAccountId g !== m_accountId m)
     || (g_roleCredentialSubjectInstallationId g !== m_installationId m)
     || slt now (g_roleCredentialValidFrom g) || sle (g_roleCredentialValidUntil g) now
     || sle (g_roleCredentialValidUntil g) (g_roleCredentialValidFrom g)
  then reject send_grant_invalid else
  evidence ← computeConversationSendGrantEvidenceDigest g;
  if (g_grantEvidenceDigest g !== evidence) || (g_conversationKind g !== c_kind c)
     || (g_conversationGeneration g !== c_generation c) || (g_state g !== sg_active)
     || sle (g_expiresAt g) now || negb (roleMaySend (c_kind c) (g_role g))
  then reject send_grant_invalid else
  if (p_conversationId p !== c_conversationId c) || (p_policyHeadId p !== e_policyHeadId e)
     || (p_policyHeadSequence p !== e_policyHeadSequence e)
     || (p_policyHeadHash p !== e_policyHeadHash e)
     || (p_policyHeadSequence p !== c_currentPolicyHeadSequence c)
     || (p_policyHeadHash p !== c_currentPolicyHeadHash c)
     || (e_policyEvaluationLogPosition e !== c_lastPosition c)
     || (e_policyEvaluationLogHeadHash e !== c_currentLogHeadHash c)
     || (p_evaluationLogPosition p !== e_policyEvaluationLogPosition e)
     || (p_evaluationLogHeadHash p !== e_policyEvaluationLogHeadHash e)
     || (p_epoch p !== c_epoch c) || (p_rosterVersion p !== c_rosterVersion c)
     || (p_confirmedTranscriptHash p !== c_confirmedTranscriptHash c)
  then reject policy_head_not_current else
  if (p_witnessState p !== ws_verified) || bool_decide (p_witnessCheckpointId p = None)
     || (p_witnessedPolicyHeadHash p !== Some (p_policyHeadHash p))
  then reject policy_head_not_witnessed else
  if slt now (p_issuedAt p) || slt now (p_proofVerifiedAt p) || sle (p_expiresAt p) now
  then reject policy_head_expired else
  if (g_policyRevision g !== p_policyRevision p) || (g_policyHeadSequence g !== p_policyHeadSequence p)
     || (g_policyHeadHash g !== p_policyHeadHash p)
     || (p_selectedSendGrantEvidenceDigest p !== g_grantEvidenceDigest g)
     || (p_selectedSendGrantInclusionEvidenceDigest p !== g_grantInclusionEvidenceDigest g)
     || (p_authorizedQuotaPolicyDigest p !== c_quotaPolicyDigest c)
  then reject send_grant_invalid else
  if p_mandatoryProposalCount p !== "0" then reject mandatory_proposal_pending else
  if pendingRemovalCount snapshot !== "0" then reject removal_pending else
  let envelopeBytes := BigInt (e_envelopeByteLength e) in
  let attachmentBytes := BigInt (e_attachmentByteLength e) in
  let totalChargedBytes := envelopeBytes + attachmentBytes in
  match addUint63 (c_lastPosition c) 1, addUint63 (u_envelopeCount u) 1,
        addUint63 (u_envelopeBytes u) envelopeBytes,
        addUint63 (u_attachmentBytes u) attachmentBytes with
  | Some nextPosition, Some nextEnvelopeCount, Some nextEnvelopeBytes, Some nextAttachmentBytes =>
      if (BigInt (u_envelopeCountLimit u) <? BigInt nextEnvelopeCount)
         || (BigInt (u_envelopeBytesLimit u) <? BigInt nextEnvelopeBytes)
         || (BigInt (u_attachmentBytesLimit u) <? BigInt nextAttachmentBytes)
      then reject quota_exceeded else
      match reserveQuotas (quotaBindings snapshot) totalChargedBytes now (quotas snapshot) with
      | inl reason => reject reason
      | inr (quotaCapacityDeltas, postReservationQuotas) =>
          Ok (allowed nextPosition
                {| u_conversationId := u_conversationId u; u_envelopeCount := nextEnvelopeCount;
                   u_envelopeBytes := nextEnvelopeBytes; u_attachmentBytes := nextAttachmentBytes;
                   u_envelopeCountLimit := u_envelopeCountLimit u;
                   u_envelopeBytesLimit := u_envelopeBytesLimit u;
                   u_attachmentBytesLimit := u_attachmentBytesLimit u |}
                quotaCapacityDeltas postReservationQuotas)
      end
  | _, _, _, _ => reject counter_exhausted
  end.

Definition with_position (position : Uint63String) (head : Hash32) (c : LockedConversationState) :
  LockedConversationState := {|
  c_realmId := c_realmId c; c_conversationId := c_conversationId c;
  c_projectScopeId := c_projectScopeId c; c_tenantScopeId := c_tenantScopeId c; c_kind := c_kind c;
  c_generation := c_generation c; c_releaseProfileId := c_releaseProfileId c;
  c_deliveryLimitsDigest := c_deliveryLimitsDigest c;
  c_releaseTrustRootDigest := c_releaseTrustRootDigest c;
  c_quotaPolicyDigest := c_quotaPolicyDigest c; c_groupIdHash := c_groupIdHash c;
  c_state := c_state c; c_etag := c_etag c; c_epoch := c_epoch c;
  c_rosterVersion := c_rosterVersion c; c_rosterHash := c_rosterHash c;
  c_recipientSetVersion := c_recipientSetVersion c; c_recipientSetHash := c_recipientSetHash c;
  c_confirmedTranscriptHash := c_confirmedTranscriptHash c; c_lastPosition := position;
  c_currentLogHeadHash := head; c_currentPolicyHeadSequence := c_currentPolicyHeadSequence c;
  c_currentPolicyHeadHash := c_currentPolicyHeadHash c |}.

Definition validateLockedApplicationAppendStateTransition (priorSnapshot expectation
    authoritativeReceivedAt nextHeadHash preparedNextConversation preparedNextUsage
    quotaCapacityReservations : unknown) :
  result (LockedConversationState * LockedConversationUsage
          * list ApplicationAppendQuotaCapacityReservation) :=
  prior ← parseLockedApplicationAppendSnapshot priorSnapshot;
  expectation ← parseApplicationAppendExpectation expectation;
  authoritativeReceivedAt ← parseRfc3339Millis authoritativeReceivedAt;
  nextHeadHash ← parseHash32 nextHeadHash;
  throw_if (nextHeadHash === ZERO_HASH32) DeliveryStateValidationError;;
  decision ← evaluateLockedApplicationAppend prior expectation authoritativeReceivedAt;
  match decision with
  | rejected _ => invalidState
  | allowed nextPosition nextUsage quotaCapacityDeltas _ =>
      expectedConversation ← parseLockedConversationState
        (conversation_obj (with_position nextPosition nextHeadHash (conversation prior)));
      preparedConversation ← parseLockedConversationState preparedNextConversation;
      preparedUsage ← parseLockedConversationUsage preparedNextUsage;
      reservations ← parseApplicationAppendQuotaCapacityReservations quotaCapacityReservations;
      throw_if ((preparedConversation !== expectedConversation) || (preparedUsage !== nextUsage)
                || existsb (λ r, r_state r !== live) reservations
                || (map r_delta reservations !== quotaCapacityDeltas))
        DeliveryStateValidationError;;
      Ok (preparedConversation, preparedUsage, reservations)
  end.

Definition parseLockedApplicationAppendCommitProjection (value : unknown) :
  result (LockedConversationState * LockedConversationUsage
          * list ApplicationAppendQuotaCapacityReservation) :=
  record ← expectExactRecord value ["conversation"; "usage"; "quotaCapacityReservations"];
  conversation ← parseLockedConversationState record.["conversation"];
  usage ← parseLockedConversationUsage record.["usage"];
  quotaCapacityReservations ← parseApplicationAppendQuotaCapacityReservations
    record.["quotaCapacityReservations"];
  Ok (conversation, usage, quotaCapacityReservations).

Definition validateLockedApplicationAppendQuotaReservationTransition (priorSnapshot expectation
    authoritativeReceivedAt quotaCapacityReservations preparedPostReservationQuotas : unknown) :
  result (list LockedQuotaCounter) :=
  prior ← parseLockedApplicationAppendSnapshot priorSnapshot;
  expectation ← parseApplicationAppendExpectation expectation;
  at_ ← parseRfc3339Millis authoritativeReceivedAt;
  decision ← evaluateLockedApplicationAppend prior expectation at_;
  match decision with
  | rejected _ => invalidState
  | allowed _ _ quotaCapacityDeltas postReservationQuotas =>
      reservations ← parseApplicationAppendQuotaCapacityReservations quotaCapacityReservations;
      prepared ← parseLockedQuotaCounters preparedPostReservationQuotas;
      throw_if (existsb (λ r, r_state r !== live) reservations
                || (map r_delta reservations !== quotaCapacityDeltas)
                || (prepared !== postReservationQuotas)) DeliveryStateValidationError;;
      Ok prepared
  end.

(** ** The pending intent's expiry *)

Definition computeApplicationAppendPendingExpiresAt (snapshot admissionStartedAt
    authoritativeReceivedAt activeSigningKeyValidUntil : unknown) : result Rfc3339Millis :=
  snapshot ← parseLockedApplicationAppendSnapshot snapshot;
  admissionStartedAt ← parseRfc3339Millis admissionStartedAt;
  receivedAt ← parseRfc3339Millis authoritativeReceivedAt;
  signingKeyValidUntil ← parseRfc3339Millis activeSigningKeyValidUntil;
  let admissionMilliseconds := Date_parse admissionStartedAt in
  let receivedMilliseconds := Date_parse receivedAt in
  throw_if ((receivedMilliseconds <? admissionMilliseconds)
            || (APPLICATION_APPEND_ADMISSION_MAX_AGE_MILLISECONDS
                  <? receivedMilliseconds - admissionMilliseconds)) DeliveryStateValidationError;;
  let first := receivedMilliseconds + APPLICATION_APPEND_PENDING_MAX_TTL_MILLISECONDS in
  let rest := [Date_parse (p_expiresAt (policyHead snapshot));
    Date_parse (m_credentialExpiresAt (membership snapshot));
    Date_parse (g_expiresAt (sendGrant snapshot));
    Date_parse (g_roleCredentialValidUntil (sendGrant snapshot));
    Date_parse signingKeyValidUntil]
    ++ map (λ q, Date_parse (q_windowStartedAt q) + BigInt (q_windowSeconds q) * 1000)
         (quotas snapshot) in
  throw_if (existsb (λ bound, bound <=? receivedMilliseconds) (first :: rest))
    DeliveryStateValidationError;;
  let expiresAtMilliseconds := foldl (λ left right, if left <? right then left else right) first rest in
  parseRfc3339Millis (VString (toISOString expiresAtMilliseconds)).

End Evaluation.

(** ** What an allowed append requires *)

(** Authority of the sender at the instant [t]: what has to hold beyond the
    links between rows that parsing a snapshot establishes. *)
Record authorized (s : LockedApplicationAppendSnapshot) (e : ApplicationAppendExpectation) (t : Z) :
  Prop := {
  (* the conversation is open and its entity tag names its epoch and roster *)
  au_active : c_state (conversation s) = cs_active;
  au_etag : c_etag (conversation s)
    = etag_text (chars (c_epoch (conversation s))) (chars (c_rosterVersion (conversation s)));
  (* the caller named exactly the state that is locked *)
  au_state : let c := conversation s in
    (e_realmId e, e_conversationId e, e_releaseProfileId e, e_expectedDeliveryLimitsDigest e,
     e_expectedQuotaPolicyDigest e, e_expectedProjectScopeId e, e_expectedTenantScopeId e,
     e_expectedGroupIdHash e, e_ifMatch e, e_expectedEpoch e, e_expectedRosterVersion e,
     e_expectedConfirmedTranscriptHash e)
    = (c_realmId c, c_conversationId c, c_releaseProfileId c, c_deliveryLimitsDigest c,
       c_quotaPolicyDigest c, c_projectScopeId c, c_tenantScopeId c, c_groupIdHash c, c_etag c,
       c_epoch c, c_rosterVersion c, c_confirmedTranscriptHash c);
  (* the sender is a member, and was before the log's last entry *)
  au_member : m_removedPosition (membership s) = None ∧
    BigInt (m_joinedPosition (membership s)) <= BigInt (c_lastPosition (conversation s));
  (* the sender's credential is the member's, active and unexpired *)
  au_credential : let m := membership s in
    (e_accountId e, e_installationId e, e_credentialId e, e_credentialFingerprint e,
     e_credentialRevocationVersion e)
    = (m_accountId m, m_installationId m, m_credentialId m, m_credentialFingerprint m,
       m_credentialRevocationVersion m) ∧
    m_installationState m = inst_active ∧ m_credentialState m = cred_active ∧
    t < Date_parse (m_credentialExpiresAt m);
  (* the grant was issued to that credential, for this conversation, and is live *)
  au_grant : let g := sendGrant s in let m := membership s in let c := conversation s in
    (g_installationId g, g_credentialId g, g_roleCredentialSubjectAccountId g,
     g_roleCredentialSubjectInstallationId g, g_conversationKind g, g_conversationGeneration g)
    = (m_installationId m, m_credentialId m, m_accountId m, m_installationId m, c_kind c,
       c_generation c) ∧
    Date_parse (g_roleCredentialValidFrom g) <= t < Date_parse (g_roleCredentialValidUntil g) ∧
    g_state g = sg_active ∧ t < Date_parse (g_expiresAt g) ∧
    roleMaySend (c_kind c) (g_role g) = true;
  (* the policy head is the conversation's current one, evaluated at the log's head *)
  au_policy : let p := policyHead s in let c := conversation s in
    (p_policyHeadId p, p_policyHeadSequence p, p_policyHeadHash p)
    = (e_policyHeadId e, e_policyHeadSequence e, e_policyHeadHash e) ∧
    (p_policyHeadSequence p, p_policyHeadHash p)
    = (c_currentPolicyHeadSequence c, c_currentPolicyHeadHash c) ∧
    (e_policyEvaluationLogPosition e, e_policyEvaluationLogHeadHash e)
    = (c_lastPosition c, c_currentLogHeadHash c) ∧
    (p_evaluationLogPosition p, p_evaluationLogHeadHash p, p_epoch p, p_rosterVersion p,
     p_confirmedTranscriptHash p)
    = (c_lastPosition c, c_currentLogHeadHash c, c_epoch c, c_rosterVersion c,
       c_confirmedTranscriptHash c);
  (* an independent witness vouches for that very head, and the proof is fresh *)
  au_witness : let p := policyHead s in
    p_witnessState p = ws_verified ∧ p_witnessedPolicyHeadHash p = Some (p_policyHeadHash p) ∧
    Date_parse (p_issuedAt p) <= t ∧ Date_parse (p_proofVerifiedAt p) <= t < Date_parse (p_expiresAt p);
  (* the grant belongs to that policy head *)
  au_revision : let g := sendGrant s in let p := policyHead s in
    (g_policyRevision g, g_policyHeadSequence g, g_policyHeadHash g)
    = (p_policyRevision p, p_policyHeadSequence p, p_policyHeadHash p);
  (* nothing must be committed first *)
  au_queue : p_mandatoryProposalCount (policyHead s) = "0" ∧ pendingRemovalCount s = "0";
}.

Definition charge (e : ApplicationAppendExpectation) : Z :=
  BigInt (e_envelopeByteLength e) + BigInt (e_attachmentByteLength e).

(** Room for the append in the log, the usage row and one quota row. *)
Definition row_room (e : ApplicationAppendExpectation) (now : Rfc3339Millis) (q : LockedQuotaCounter) :
  Prop :=
  isWithinQuotaWindow q now = true ∧ BigInt (q_rowVersion q) < UINT63_MAX ∧
  BigInt (q_operationCount q) + BigInt (q_reservedOperationCount q) + 1 <= BigInt (q_operationLimit q) ∧
  BigInt (q_byteCount q) + BigInt (q_reservedByteCount q) + charge e <= BigInt (q_byteLimit q).
Definition has_room (s : LockedApplicationAppendSnapshot) (e : ApplicationAppendExpectation)
    (now : Rfc3339Millis) : Prop :=
  let u := usage s in
  BigInt (c_lastPosition (conversation s)) < UINT63_MAX ∧
  BigInt (u_envelopeCount u) + 1 <= BigInt (u_envelopeCountLimit u) ∧
  BigInt (u_envelopeBytes u) + BigInt (e_envelopeByteLength e) <= BigInt (u_envelopeBytesLimit u) ∧
  BigInt (u_attachmentBytes u) + BigInt (e_attachmentByteLength e)
    <= BigInt (u_attachmentBytesLimit u) ∧
  Forall (row_room e now) (quotas s).

(** *** Reserving succeeds exactly when there is room *)

Lemma find_binding bs (q : LockedQuotaCounter) qs u :
  map q_scope qs = APPLICATION_APPEND_QUOTA_SCOPES → map b_scope bs = APPLICATION_APPEND_QUOTA_SCOPES →
  assertQuotaBindingsMatchCounters bs qs = Ok u → q ∈ qs →
  ∃ b, List.find (λ b, b_scope b === q_scope q) bs = Some b ∧ b_scopeHash b = q_scopeHash q ∧
    b_quotaName b = q_quotaName q ∧ b_windowStartedAt b = q_windowStartedAt q ∧
    b_windowSeconds b = q_windowSeconds q.
Proof.
  intros Hs Hb Hassert Hq.
  destruct (assertQuotaBindingsMatchCounters_Ok _ _ _ q Hs Hq Hassert)
    as (b & Hin & Es & Eh & En & Ew & Ews & _).
  exists b. split_and!; try done. rewrite <- Es.
  apply (find_unique_scope b_scope); [|done]. rewrite Hb. apply (bool_decide_unpack _); by vm_compute.
Qed.

Lemma reserveQuota_ok bindings now e q :
  valid_quota q → 0 <= charge e →
  (∃ b, List.find (λ b, b_scope b === q_scope q) bindings = Some b ∧ b_scopeHash b = q_scopeHash q ∧
    b_quotaName b = q_quotaName q ∧ b_windowStartedAt b = q_windowStartedAt q ∧
    b_windowSeconds b = q_windowSeconds q) →
  (∃ p, reserveQuota bindings (charge e) now q = inr p) ↔ row_room e now q.
Proof.
  intros [Hb [Ho Hy]] Hc (b & HF & Eh & En & Ew & Ews). unfold reserveQuota, row_room. rewrite HF, Eh, En, Ew, Ews.
  rewrite !(bool_decide_eq_true_2 (_ = _)) by done. cbn [negb orb].
  unfold quota_brands in Hb. bsimp.
  repeat match goal with H : is_uint63 _ = true |- _ => apply is_uint63_bound in H end.
  destruct (isWithinQuotaWindow q now); cbn [negb]; [|split; [by intros [? ?]|by intros [? _]]].
  split.
  - intros [p H]. destruct (addUint63 (q_operationCount q) 1) eqn:E1; [|done].
    destruct (addUint63 (q_byteCount q) (charge e)) eqn:E2; [|done].
    destruct (addUint63 (q_reservedOperationCount q) 1) eqn:E3; [|done].
    destruct (addUint63 (q_reservedByteCount q) (charge e)) eqn:E4; [|done].
    destruct (addUint63 (q_rowVersion q) 1) eqn:E5; [|done].
    destruct (_ || _) eqn:E6; [done|]. bsimp.
    apply addUint63_Some in E1 as (_ & _ & ?), E2 as (_ & _ & ?), E3 as (? & ? & ?), E4 as (? & ? & ?),
      E5 as (? & ? & ?). split_and!; [done|lia..].
  - intros (_ & Hv & H1 & H2). rewrite !addUint63_ok by lia.
    rewrite !(λ n H, proj2 (decimal_spec n H)) by lia.
    rewrite (proj2 (Z.ltb_ge _ _)) by lia. rewrite (proj2 (Z.ltb_ge _ _)) by lia. eexists; reflexivity.
Qed.

Lemma reserveQuotas_ok bindings total now qs :
  (∃ p, reserveQuotas bindings total now qs = inr p) ↔
  Forall (λ q, ∃ p, reserveQuota bindings total now q = inr p) qs.
Proof.
  induction qs as [|q qs IH]; cbn.
  - split; [constructor|]. eexists; reflexivity.
  - rewrite Forall_cons, <- IH. destruct (reserveQuota _ _ _ q) as [|[d q']].
    { split; [by intros [? ?]|by intros [[? ?] _]]. }
    destruct (reserveQuotas _ _ _ qs) as [|[ds qs']].
    { split; [by intros [? ?]|by intros [_ [? ?]]]. }
    split; intros _; [split|]; eexists; reflexivity.
Qed.

(** *** The decision *)

(** Takes the branch in which a rejection test is false. *)
Ltac pass_test :=
  match goal with
  | H : (if ?b then reject _ else _) = Ok (allowed _ _ _ _) |- _ =>
      let E := fresh "E" in destruct b eqn:E; [discriminate H|]
  end.

Ltac refute_test :=
  repeat match goal with
  | |- (_ || _) = false => apply orb_false_iff; split
  | |- negb (bool_decide _) = false => apply negb_false_iff, bool_decide_eq_true_2
  | |- bool_decide _ = false => apply bool_decide_eq_false_2
  | |- negb _ = false => apply negb_false_iff
  end.

Section Decision.
Context `{SHA : Sha256}.
Context (s : LockedApplicationAppendSnapshot) (e : ApplicationAppendExpectation) (now : Rfc3339Millis).
Context (HR : valid_rows s) (HL : linked s) (HE : valid_expectation e = true)
  (HN : canonicalInstant now = true).
Context (HA : assertQuotaBindingsMatchCounters (quotaBindings s) (quotas s) = Ok ()).

(** The instants of the rows are canonical, so comparing strings is comparing times. *)
Lemma row_instants :
  Forall (λ i, canonicalInstant i = true)
    [m_credentialExpiresAt (membership s); g_roleCredentialValidFrom (sendGrant s);
     g_roleCredentialValidUntil (sendGrant s); g_expiresAt (sendGrant s);
     p_issuedAt (policyHead s); p_proofVerifiedAt (policyHead s); p_expiresAt (policyHead s)].
Proof.
  destruct HR as [_ Hm Hp Hg _ _ _ _].
  unfold valid_membership in Hm. unfold valid_policyHead in Hp. unfold valid_sendGrant in Hg. bsimp.
  repeat constructor; assumption.
Qed.

Lemma charge_nonneg : 0 < charge e.
Proof.
  unfold valid_expectation in HE. bsimp. unfold charge.
  match goal with H : is_positive_uint63 _ = true |- _ => apply is_positive_uint63_bound in H as [_ H] end.
  match goal with H : is_uint63 (e_attachmentByteLength e) = true |- _ => apply is_uint63_bound in H end. lia.
Qed.

Lemma allowed_inv pos u ds qs :
  evaluateLockedApplicationAppend s e now = Ok (allowed pos u ds qs) →
  authorized s e (Date_parse now) ∧
  addUint63 (c_lastPosition (conversation s)) 1 = Some pos ∧
  addUint63 (u_envelopeCount (usage s)) 1 = Some (u_envelopeCount u) ∧
  addUint63 (u_envelopeBytes (usage s)) (BigInt (e_envelopeByteLength e)) = Some (u_envelopeBytes u) ∧
  addUint63 (u_attachmentBytes (usage s)) (BigInt (e_attachmentByteLength e)) = Some (u_attachmentBytes u) ∧
  BigInt (u_envelopeCount u) <= BigInt (u_envelopeCountLimit u) ∧
  BigInt (u_envelopeBytes u) <= BigInt (u_envelopeBytesLimit u) ∧
  BigInt (u_attachmentBytes u) <= BigInt (u_attachmentBytesLimit u) ∧
  (u_conversationId u, u_envelopeCountLimit u, u_envelopeBytesLimit u, u_attachmentBytesLimit u)
  = (u_conversationId (usage s), u_envelopeCountLimit (usage s), u_envelopeBytesLimit (usage s),
     u_attachmentBytesLimit (usage s)) ∧
  reserveQuotas (quotaBindings s) (charge e) now (quotas s) = inr (ds, qs).
Proof.
  intros H. unfold evaluateLockedApplicationAppend in H. cbv zeta in H. do 8 pass_test.
  apply bind_Ok in H as (evidence & Hev & H). do 7 pass_test.
  destruct (addUint63 (c_lastPosition _) 1) as [pos'|] eqn:A1; [|discriminate H].
  destruct (addUint63 (u_envelopeCount _) 1) as [n1|] eqn:A2; [|discriminate H].
  destruct (addUint63 (u_envelopeBytes _) _) as [n2|] eqn:A3; [|discriminate H].
  destruct (addUint63 (u_attachmentBytes _) _) as [n3|] eqn:A4; [|discriminate H].
  pass_test. destruct (reserveQuotas _ _ _ _) as [|[ds' qs']] eqn:ER; [discriminate H|].
  injection H as -> <- -> ->. pose proof row_instants as HI. rewrite !Forall_cons in HI. destruct_and! HI.
  split; [|cbn; bsimp; rewrite !Z.ltb_ge in *; split_and!; done].
  rewrite ?sle_canonicalInstant, ?slt_canonicalInstant in * by done. bsimp. rewrite ?Z.leb_gt, ?Z.ltb_ge in *.
  split; cbv zeta; split_and?; congruence || done || lia || by apply dec_stable.
Qed.

Lemma allowed_intro :
  authorized s e (Date_parse now) → has_room s e now →
  ∃ pos u ds qs, evaluateLockedApplicationAppend s e now = Ok (allowed pos u ds qs).
Proof.
  intros [? ? [=] [? ?] ([=] & ? & ? & ?) ([=] & ? & ? & ? & ?) ([=] & [=] & [=] & [=]) (? & ? & ? & ?) [=] [? ?]]
    (Hp & Hu1 & Hu2 & Hu3 & Hq).
  pose proof row_instants as HI. rewrite !Forall_cons in HI. destruct_and! HI.
  destruct HL as [(? & ? & ? & ?) _ Hproof _ [_ ?] (Hg & ? & ?)]. destruct (Hproof ltac:(done)) as (ck & w & Hck & _).
  unfold evaluateLockedApplicationAppend. cbv zeta. rewrite Hg. cbn [mbind result_bind].
  rewrite ?sle_canonicalInstant, ?slt_canonicalInstant by done.
  repeat match goal with
  | |- context [if ?b then reject _ else _] =>
      lazymatch b with
      | context [addUint63] => fail
      | _ => replace b with false by (symmetry; refute_test; congruence || lia)
      end
  end.
  destruct HR as [Hc _ _ _ _ Hu [Hbs _] [Hqs Hqv]]. unfold valid_conversation in Hc. unfold valid_usage in Hu.
  pose proof HE as HE'. unfold valid_expectation in HE'. bsimp.
  repeat match goal with
  | H : is_uint63 _ = true |- _ => apply is_uint63_bound in H
  | H : is_positive_uint63 _ = true |- _ => apply is_positive_uint63_bound in H as [_ H]
  end.
  rewrite !addUint63_ok by lia. rewrite !(λ n H, proj2 (decimal_spec n H)) by lia.
  match goal with |- context [if ?b then reject _ else _] => replace b with false by (symmetry; refute_test; lia) end.
  fold (charge e).
  destruct (proj2 (reserveQuotas_ok (quotaBindings s) (charge e) now (quotas s))) as [[ds qs] HRQ].
  { apply Forall_forall. intros q Hin. pose proof charge_nonneg. apply (reserveQuota_ok _ now e q).
    - by apply (proj1 (Forall_forall _ _) Hqv).
    - lia.
    - by eapply find_binding.
    - by apply (proj1 (Forall_forall _ _) Hq). }
  rewrite HRQ. do 4 eexists. reflexivity.
Qed.

Lemma allowed_room pos u ds qs :
  evaluateLockedApplicationAppend s e now = Ok (allowed pos u ds qs) → has_room s e now.
Proof.
  intros (_ & Hp & H1 & H2 & H3 & L1 & L2 & L3 & [= _ E1 E2 E3] & HRQ)%allowed_inv.
  rewrite E1 in L1. rewrite E2 in L2. rewrite E3 in L3.
  apply addUint63_Some in Hp as (_ & _ & ?), H1 as (_ & ? & ?), H2 as (_ & ? & ?), H3 as (_ & ? & ?).
  destruct HR as [_ _ _ _ _ _ [Hbs _] [Hqs Hqv]].
  assert (HF : ∃ p, reserveQuotas (quotaBindings s) (charge e) now (quotas s) = inr p) by eauto.
  apply reserveQuotas_ok in HF. split_and!; [lia..|]. apply Forall_forall. intros q Hq.
  pose proof charge_nonneg. apply (reserveQuota_ok (quotaBindings s) now e q).
  - by apply (proj1 (Forall_forall _ _) Hqv).
  - lia.
  - by eapply find_binding.
  - by apply (proj1 (Forall_forall _ _) HF).
Qed.

(** The evaluation never throws on parsed rows. *)
Lemma evaluate_total : ∃ d, evaluateLockedApplicationAppend s e now = Ok d.
Proof.
  unfold evaluateLockedApplicationAppend, reject. cbv zeta. destruct HL as [_ _ _ _ _ (Hg & _)].
  rewrite Hg. cbn [mbind result_bind].
  repeat case_match; eexists; reflexivity.
Qed.
End Decision.

Section Append.
Context `{SHA : Sha256}.

Lemma parsed_snapshot v s :
  parseLockedApplicationAppendSnapshot v = Ok s →
  valid_rows s ∧ linked s ∧ assertQuotaBindingsMatchCounters (quotaBindings s) (quotas s) = Ok ().
Proof.
  intros H. pose proof (parseLockedApplicationAppendSnapshot_linked v s H).
  destruct (parseLockedApplicationAppendSnapshot_inv v s H) as [? HC]. split_and!; try done.
  unfold checkSnapshot in HC. inv_result.
  by match goal with H : assertQuotaBindingsMatchCounters _ _ = Ok ?u |- _ => destruct u end.
Qed.

(** C1: An append is allowed exactly when the sender is authorized at that instant
    and there is room for it: on rows and an expectation that parse, the
    evaluation always decides, and it allows if and only if the conversation is
    active and in the expected state, the sender is a current member whose
    active, unexpired credential holds a live send grant for a role that may
    send, under the current, witnessed and fresh policy head, with no mandatory
    proposal or removal pending, and log, usage and all five quota rows have
    room for the charge. *)
Theorem evaluate_allowed_iff (v w : unknown) (s : LockedApplicationAppendSnapshot)
    (e : ApplicationAppendExpectation) (now : Rfc3339Millis) :
  parseLockedApplicationAppendSnapshot v = Ok s → parseApplicationAppendExpectation w = Ok e →
  canonicalInstant now = true →
  (∃ d, evaluateLockedApplicationAppend s e now = Ok d) ∧
  ((∃ pos u ds qs, evaluateLockedApplicationAppend s e now = Ok (allowed pos u ds qs)) ↔
   authorized s e (Date_parse now) ∧ has_room s e now).
Proof.
  intros (HR & HL & HA)%parsed_snapshot HE%parseApplicationAppendExpectation_valid HN.
  split; [by apply evaluate_total|]. split.
  - intros (pos & u & ds & qs & H). split; [by eapply allowed_inv|by eapply allowed_room].
  - intros [H1 H2]. by apply allowed_intro.
Qed.

(** What one allowed append changes: the position is the next one, the usage
    row counts one envelope and its bytes and stays within its limits, and each
    quota row reserves one operation and the charged bytes under its delta,
    keeping its identity, its counted columns and its limits. *)
Theorem allowed_effect (v w : unknown) (s : LockedApplicationAppendSnapshot)
    (e : ApplicationAppendExpectation) (now pos : string) (u : LockedConversationUsage)
    (ds : list ApplicationAppendQuotaCapacityDelta) (qs : list LockedQuotaCounter) :
  parseLockedApplicationAppendSnapshot v = Ok s → parseApplicationAppendExpectation w = Ok e →
  canonicalInstant now = true →
  evaluateLockedApplicationAppend s e now = Ok (allowed pos u ds qs) →
  BigInt pos = BigInt (c_lastPosition (conversation s)) + 1 ∧
  BigInt (u_envelopeCount u) = BigInt (u_envelopeCount (usage s)) + 1 ∧
  BigInt (u_envelopeBytes u) = BigInt (u_envelopeBytes (usage s)) + BigInt (e_envelopeByteLength e) ∧
  BigInt (u_attachmentBytes u)
    = BigInt (u_attachmentBytes (usage s)) + BigInt (e_attachmentByteLength e) ∧
  valid_usage u = true ∧ length ds = 5%nat ∧ length qs = 5%nat ∧
  ∀ i q d q', quotas s !! i = Some q → ds !! i = Some d → qs !! i = Some q' →
    valid_quota q' ∧ quota_identity q' = quota_identity q ∧ delta_for q d ∧
    BigInt (d_reservationByteCount d) = charge e ∧
    q_operationCount q' = q_operationCount q ∧ q_byteCount q' = q_byteCount q ∧
    BigInt (q_reservedOperationCount q') = BigInt (q_reservedOperationCount q) + 1 ∧
    BigInt (q_reservedByteCount q') = BigInt (q_reservedByteCount q) + charge e.
Proof.
  intros (HR & HL & HA)%parsed_snapshot HE%parseApplicationAppendExpectation_valid HN H.
  pose proof (charge_nonneg e HE) as Hch.
  apply allowed_inv in H as (_ & Hp & H1 & H2 & H3 & L1 & L2 & L3 & [= E0 E1 E2 E3] & HRQ); [|done..].
  apply addUint63_Some in Hp as (_ & ? & _), H1 as (? & ? & _), H2 as (? & ? & _), H3 as (? & ? & _).
  destruct HR as [_ _ _ _ _ Hu _ [Hqs Hqv]].
  apply reserveQuotas_spec in HRQ as (HF & HLd & HLq).
  assert (HL5 : length (quotas s) = 5%nat).
  { rewrite <- (length_map q_scope), Hqs. reflexivity. }
  split_and!; try done; try congruence.
  - unfold valid_usage in *. bsimp. rewrite E0, E1, E2, E3 in *. brands.
    by rewrite !(proj2 (Z.leb_le _ _)) by done.
  - intros i q d q' Hi Hd Hq'.
    assert (Hz : zip ds qs !! i = Some (d, q')) by (apply lookup_zip_Some; done).
    pose proof (Forall2_lookup_lr _ _ _ _ _ _ HF Hi Hz) as Hres. cbn in Hres.
    destruct (reserveQuota_spec _ (charge e) _ _ _ _ (Forall_lookup_1 _ _ _ _ Hqv Hi) ltac:(lia) Hres)
      as (? & ? & ? & ? & _ & _ & _ & ? & ? & ? & ? & _). done.
Qed.

(** C16: The only legal state transition: an accepted plan comes from an allowed
    append of the prior snapshot at the authoritative time; it moves the
    conversation to the next position with the given non-zero head and changes
    nothing else of it, and it carries one live reservation per quota row. *)
Theorem stateTransition_sound (prior expectation receivedAt nextHead preparedConversation
    preparedUsage reservations : unknown) (c' : LockedConversationState)
    (u' : LockedConversationUsage) (rs : list ApplicationAppendQuotaCapacityReservation) :
  validateLockedApplicationAppendStateTransition prior expectation receivedAt nextHead
    preparedConversation preparedUsage reservations = Ok (c', u', rs) →
  ∃ s e now head pos ds qs,
    parseLockedApplicationAppendSnapshot prior = Ok s ∧
    parseApplicationAppendExpectation expectation = Ok e ∧ receivedAt = VString now ∧
    nextHead = VString head ∧ head ≠ ZERO_HASH32 ∧
    evaluateLockedApplicationAppend s e now = Ok (allowed pos u' ds qs) ∧
    authorized s e (Date_parse now) ∧ has_room s e now ∧
    c' = with_position pos head (conversation s) ∧
    BigInt (c_lastPosition c') = BigInt (c_lastPosition (conversation s)) + 1 ∧
    map r_delta rs = ds ∧ Forall (λ r, r_state r = live) rs ∧
    map r_scope rs = APPLICATION_APPEND_QUOTA_SCOPES.
Proof.
  unfold validateLockedApplicationAppendStateTransition. intros H.
  apply bind_Ok in H as (s & Hs & H). apply bind_Ok in H as (e & He & H).
  apply bind_Ok in H as (now & Hn & H). apply bind_Ok in H as (head & Hh & H).
  apply bind_Ok in H as (? & Hz & H). apply bind_Ok in H as (d & Hd & H).
  destruct d as [pos nu ds qs|]; [|discriminate H].
  apply parseRfc3339Millis_Ok in Hn as [-> Hn]. apply parseHash32_Ok in Hh as [-> Hh].
  destruct (parsed_snapshot _ _ Hs) as (HR & HL & HA).
  pose proof (parseApplicationAppendExpectation_valid _ _ He) as HE.
  destruct (allowed_inv s e now HR Hn pos nu ds qs Hd) as (HAuth & Hp & _).
  pose proof (allowed_room s e now HR HE Hn HA pos nu ds qs Hd) as HRoom.
  apply addUint63_Some in Hp as (Hpu & Hpos & _).
  assert (HV : valid_conversation (with_position pos head (conversation s)) = true).
  { destruct HR as [Hc _ _ _ _ _ _ _]. unfold valid_conversation in *. bsimp. cbn. by brands. }
  rewrite (parseLockedConversationState_obj _ HV) in H. cbn [mbind result_bind] in H. inv_result. bsimp.
  exists s, e, now, head, pos, ds, qs. subst.
  match goal with H : parseApplicationAppendQuotaCapacityReservations _ = Ok _ |- _ =>
    apply parseReservations_valid in H as [Hsc _] end.
  split_and!; try done.
  match goal with H : existsb _ _ = false |- _ => apply existsb_false in H;
    eapply Forall_impl; [exact H|] end.
  intros r Hr. cbn in Hr. by bsimp.
Qed.
End Append.

(** ** The pending intent's lifetime *)

Section Pending.
Context `{SHA : Sha256}.

(** The bounds on a pending intent, in milliseconds. *)
Definition pendingBounds (s : LockedApplicationAppendSnapshot) (received : Z) (signingKey : Z) : list Z :=
  received + 30000 :: Date_parse (p_expiresAt (policyHead s))
  :: Date_parse (m_credentialExpiresAt (membership s)) :: Date_parse (g_expiresAt (sendGrant s))
  :: Date_parse (g_roleCredentialValidUntil (sendGrant s)) :: signingKey
  :: map (λ q, Date_parse (q_windowStartedAt q) + BigInt (q_windowSeconds q) * 1000) (quotas s).

Lemma foldl_min (zs : list Z) z :
  let m := foldl (λ l r, if l <? r then l else r) z zs in m ∈ z :: zs ∧ Forall (Z.le m) (z :: zs).
Proof.
  cbv zeta. revert z. induction zs as [|y zs IH]; intros z; cbn.
  - split; [constructor|]. repeat constructor. lia.
  - destruct (IH (if z <? y then z else y)) as [Hin Hall].
    apply Forall_cons in Hall as [H1 H2].
    destruct (Z.ltb_spec z y); (split; [|repeat constructor; [lia|lia|done]]);
      rewrite !elem_of_cons in *; tauto.
Qed.

(** A pending append lives strictly past its receipt, at most thirty seconds,
    and never past the policy head, the sender's credential, the grant, the role
    credential, the signing key or any quota window; its expiry is exactly the
    least of those bounds, and admission was at most fifteen seconds before. *)
Theorem pendingExpiry_spec (snapshot admission received signingKey : unknown) (x : Rfc3339Millis) :
  computeApplicationAppendPendingExpiresAt snapshot admission received signingKey = Ok x →
  ∃ s a r k, parseLockedApplicationAppendSnapshot snapshot = Ok s ∧ admission = VString a ∧
    received = VString r ∧ signingKey = VString k ∧
    0 <= Date_parse r - Date_parse a <= 15000 ∧
    Date_parse r < Date_parse x ∧
    Date_parse x ∈ pendingBounds s (Date_parse r) (Date_parse k) ∧
    Forall (Z.le (Date_parse x)) (pendingBounds s (Date_parse r) (Date_parse k)).
Proof.
  unfold computeApplicationAppendPendingExpiresAt. intros H. cbv zeta in H.
  apply bind_Ok in H as (s & Hs & H). apply bind_Ok in H as (a & Ha & H).
  apply bind_Ok in H as (r & Hr & H). apply bind_Ok in H as (k & Hk & H).
  apply bind_Ok in H as (? & H1 & H). apply bind_Ok in H as (? & H2 & H).
  apply throw_if_Ok in H1, H2. apply existsb_false in H2.
  apply parseRfc3339Millis_Ok in Ha as [-> Ha], Hr as [-> Hr], Hk as [-> Hk].
  match type of H with context [foldl ?f ?z ?zs] =>
    pose proof (foldl_min zs z) as [Hin Hall]; revert Hin Hall H; cbv zeta;
    generalize (foldl f z zs); intros m Hin Hall H end.
  apply parseRfc3339Millis_Ok in H as [[= <-] Hx].
  assert (Hlow : Date_parse r < m).
  { rewrite Forall_forall in H2. specialize (H2 m Hin). cbv beta in H2. lia. }
  assert (Hp : m <= Date_parse (p_expiresAt (policyHead s))).
  { rewrite Forall_forall in Hall. apply Hall, elem_of_cons. right. apply elem_of_cons. by left. }
  destruct (parsed_snapshot _ _ Hs) as ([_ _ HP _ _ _ _ _] & _).
  unfold valid_policyHead in HP. bsimp.
  destruct (toISOString_between r (p_expiresAt (policyHead s)) m) as [_ Hm]; [done|done|lia|].
  exists s, a, r, k. rewrite Hm. rewrite !Z.ltb_ge in *.
  unfold APPLICATION_APPEND_ADMISSION_MAX_AGE_MILLISECONDS in *.
  split_and!; try done; try lia.
Qed.
End Pending.
