(* ===== verification/SnapshotBinding.v ===== *)
(** * Snapshot digests bind snapshots ([src/production/delivery/state.ts])

    [computeLockedApplicationAppendSnapshotDigest] fences the step from
    preflight to reservation: equal digests mean equal snapshots, or a SHA-256
    collision.  Quota scope hashes likewise identify the charged subject. *)

From stdpp Require Import base list strings.
From Stdlib Require Import ZArith Lia Ascii.
From S2P Require Import Prelude Sha256 Base64Url JsTime JsValue ValueObjects Hashes Limits Quota AppendState.

(** ** Field lists *)

Section Fields.
Context `{SHA : Sha256}.

Lemma mapR_id_Ok {A} (fields : list (result A)) items :
  mapR id fields = Ok items → fields = map Ok items.
Proof. rewrite mapR_Ok. induction 1 as [|x y xs ys Hx _ IH]; cbn; [done|]. unfold id in Hx. by rewrite Hx, IH. Qed.

(** The preimage of a digest of fields. *)
Definition fieldsPreimage (domain : string) (fields : list (result bytes)) : bytes :=
  utf8 domain ++ match mapR id fields with Ok items => lps items | Throw _ => [] end.

Lemma fieldsDigest_inj domain fs fs' h :
  fieldsDigest domain fs = Ok h → fieldsDigest domain fs' = Ok h →
  fs = fs' ∨ collision [fieldsPreimage domain fs] [fieldsPreimage domain fs'].
Proof.
  unfold fieldsDigest, fieldsPreimage. intros H H'.
  destruct (mapR id fs) as [items|] eqn:E; [|discriminate H].
  destruct (mapR id fs') as [items'|] eqn:E'; [|discriminate H'].
  cbn [mbind result_bind] in H, H'. apply bind_Ok in H as (b & Hb & H), H' as (b' & Hb' & H').
  destruct (prefixedDigest_inj _ _ _ _ _ _ Hb Hb' H H') as [->|Hc]; [left|by right].
  by rewrite (mapR_id_Ok _ _ E), (mapR_id_Ok _ _ E').
Qed.
Lemma fieldsDigest_hash domain fs h : fieldsDigest domain fs = Ok h → is_hash32 h = true.
Proof. unfold fieldsDigest. intros H. inv_result. apply sha256Bytes_inv in H as ->. apply is_hash32_encode, sha256_length. Qed.

End Fields.

Lemma decodeHash32_eq_inj a b :
  is_hash32 a = true → is_hash32 b = true → decodeHash32 a = decodeHash32 b → a = b.
Proof.
  intros Ha Hb H. rewrite !decodeHash32_Ok in H by done. injection H as H. by apply is_hash32_inj.
Qed.

Lemma decodeFingerprint32_eq_inj a b :
  is_hash32 a = true → is_hash32 b = true → decodeFingerprint32 a = decodeFingerprint32 b → a = b.
Proof. apply decodeHash32_eq_inj. Qed.

Lemma prefixed_eq_inj (xs ys : list bytes) :
  Forall (fits 1024) xs → Forall (fits 1024) ys → (length xs <= 16)%nat → (length ys <= 16)%nat →
  canonicalLengthPrefixed xs = canonicalLengthPrefixed ys → xs = ys.
Proof.
  intros Hx Hy Lx Ly H. destruct (canonicalLengthPrefixed_small xs Hx Lx) as [Ex _].
  destruct (canonicalLengthPrefixed_small ys Hy Ly) as [Ey _]. rewrite Ex, Ey in H.
  injection H as H. apply lps_inj; [by apply fits_1024_u32..|done].
Qed.

(** "absent" and "present" share no encoding. *)
Lemma encodeNullableText_inj o o' :
  optionb (λ s, bool_decide (short s)) o = true → optionb (λ s, bool_decide (short s)) o' = true →
  encodeNullableText o = encodeNullableText o' → o = o'.
Proof.
  assert (HA : fits 1024 (utf8 "absent")) by by vm_compute.
  assert (HP : fits 1024 (utf8 "present")) by by vm_compute.
  destruct o as [s|], o' as [s'|]; cbn; intros Hs Hs' H; bsimp; try done;
    apply prefixed_eq_inj in H; eauto with jb; try (cbn; lia).
  - injection H as H. by apply utf8_inj in H as ->.
  - discriminate H.
  - discriminate H.
Qed.

Lemma encodeNullableHash_inj o o' :
  optionb is_hash32 o = true → optionb is_hash32 o' = true →
  encodeNullableHash o = encodeNullableHash o' → o = o'.
Proof.
  assert (HA : fits 1024 (utf8 "absent")) by by vm_compute.
  assert (HP : fits 1024 (utf8 "present")) by by vm_compute.
  destruct o as [s|], o' as [s'|]; cbn; intros Hs Hs' H; rewrite ?decodeHash32_Ok in H by done;
    cbn [mbind result_bind] in H; try done; apply prefixed_eq_inj in H; eauto with jb; try (cbn; lia).
  - injection H as H. by apply is_hash32_inj in H as ->.
  - discriminate H.
  - discriminate H.
Qed.

(** ** Rows *)

Class LiteralInj (A : Type) `{Literal A} := lit_inj : ∀ a b : A, lit a = lit b → a = b.
#[export] Instance kind_inj : LiteralInj ConversationKind. Proof. by intros [] []. Qed.
#[export] Instance convstate_inj : LiteralInj DeliveryConversationState. Proof. by intros [] []. Qed.
#[export] Instance inststate_inj : LiteralInj InstallationState. Proof. by intros [] []. Qed.
#[export] Instance credstate_inj : LiteralInj CredentialState. Proof. by intros [] []. Qed.
#[export] Instance role_inj : LiteralInj ConversationSendRole. Proof. by intros [] []. Qed.
#[export] Instance grantstate_inj : LiteralInj SendGrantState. Proof. by intros [] []. Qed.
#[export] Instance witnessstate_inj : LiteralInj WitnessState. Proof. by intros [] []. Qed.
#[export] Instance quotascope_inj : LiteralInj ApplicationAppendQuotaScope. Proof. by intros [] []. Qed.

Lemma optionb_short (o : option string) :
  optionb is_positive_uint63 o = true ∨ optionb is_uuid4 o = true →
  optionb (λ s, bool_decide (short s)) o = true.
Proof.
  destruct o as [s|]; [|done]. cbn. rewrite bool_decide_eq_true.
  intros [H|H]; [by apply is_positive_uint63_short|by apply is_uuid4_short].
Qed.

(** Reads off an equation between field lists field by field. *)
Ltac fields_inj :=
  repeat match goal with
  | H : utf8 _ = utf8 _ |- _ => apply utf8_inj in H
  | H : decodeHash32 _ = decodeHash32 _ |- _ => apply decodeHash32_eq_inj in H; [|done..]
  | H : decodeFingerprint32 _ = decodeFingerprint32 _ |- _ =>
      apply decodeFingerprint32_eq_inj in H; [|done..]
  | H : encodeNullableHash _ = encodeNullableHash _ |- _ => apply encodeNullableHash_inj in H; [|done..]
  | H : encodeNullableText _ = encodeNullableText _ |- _ =>
      apply encodeNullableText_inj in H; [|apply optionb_short; tauto..]
  | H : match ?a with _ => _ end = match ?b with _ => _ end |- _ =>
      change (lit a = lit b) in H; apply lit_inj in H
  end.

Lemma conversationFields_inj x y :
  valid_conversation x = true → valid_conversation y = true →
  conversationFields x = conversationFields y → x = y.
Proof.
  unfold valid_conversation, conversationFields. intros Hx Hy H. bsimp. injection H. clear H. intros.
  fields_inj. destruct x, y; cbn in *; by subst.
Qed.

Lemma membershipFields_inj x y :
  valid_membership x = true → valid_membership y = true →
  membershipFields x = membershipFields y → x = y.
Proof.
  unfold valid_membership, membershipFields. intros Hx Hy H. bsimp. injection H. clear H. intros.
  fields_inj. destruct x, y; cbn in *; by subst.
Qed.

Lemma sendGrantFields_inj x y :
  valid_sendGrant x = true → valid_sendGrant y = true →
  sendGrantFields x = sendGrantFields y → x = y.
Proof.
  unfold valid_sendGrant, sendGrantFields. intros Hx Hy H. bsimp. injection H. clear H. intros.
  fields_inj. destruct x, y; cbn in *; by subst.
Qed.

Lemma policyHeadFields_inj x y :
  valid_policyHead x = true → valid_policyHead y = true →
  policyHeadFields x = policyHeadFields y → x = y.
Proof.
  unfold valid_policyHead, policyHeadFields. intros Hx Hy H. bsimp. injection H. clear H. intros.
  fields_inj. destruct x, y; cbn in *; by subst.
Qed.

Lemma usageFields_inj x y : usageFields x = usageFields y → x = y.
Proof. unfold usageFields. intros H. injection H. clear H. intros. fields_inj. destruct x, y; cbn in *; by subst. Qed.

Lemma bindingFields_inj x y :
  valid_binding x = true → valid_binding y = true → bindingFields x = bindingFields y → x = y.
Proof.
  unfold valid_binding, bindingFields. intros Hx Hy H. bsimp. injection H. clear H. intros.
  fields_inj. destruct x, y; cbn in *; by subst.
Qed.

Lemma quotaFields_inj x y : valid_quota x → valid_quota y → quotaFields x = quotaFields y → x = y.
Proof.
  unfold valid_quota, quota_brands, quotaFields. intros [Hx _] [Hy _] H. bsimp. injection H. clear H. intros.
  fields_inj. destruct x, y; cbn in *; by subst.
Qed.

(** Blocks of one length are recovered from their concatenation. *)
Lemma blocks_inj {A B} (f : A → list B) (P : A → Prop) n xs ys :
  (∀ x, length (f x) = n) → (∀ x y, P x → P y → f x = f y → x = y) →
  Forall P xs → Forall P ys → length xs = length ys → flat_map f xs = flat_map f ys → xs = ys.
Proof.
  intros Hn Hf Hx. revert ys. induction Hx as [|x xs Hx _ IH]; intros [|y ys] Hy HL H; try done.
  apply Forall_cons in Hy as [Hy Hys]. cbn in H. apply app_inj_1 in H as [H1 H2]; [|by rewrite !Hn].
  f_equal; [by apply Hf|]. apply IH; [done|by injection HL|done].
Qed.

Lemma blocks_length {A B} (f : A → list B) n xs :
  (∀ x, length (f x) = n) → length (flat_map f xs) = (n * length xs)%nat.
Proof. intros Hn. induction xs as [|x xs IH]; cbn; [lia|]. rewrite length_app, Hn, IH. lia. Qed.

Lemma snapshotFields_inj s s' : valid_rows s → valid_rows s' → snapshotFields s = snapshotFields s' → s = s'.
Proof.
  intros [V1 V2 V3 V4 V5 V6 [V7 W7] [V8 W8]] [V1' V2' V3' V4' V5' V6' [V7' W7'] [V8' W8']] H.
  assert (HB : length (quotaBindings s) = length (quotaBindings s')).
  { by rewrite <- (length_map b_scope), V7, <- V7', length_map. }
  assert (HQ : length (quotas s) = length (quotas s')).
  { by rewrite <- (length_map q_scope), V8, <- V8', length_map. }
  unfold snapshotFields in H.
  apply app_inj_1 in H as [H1 H]; [|done]. apply app_inj_1 in H as [H2 H]; [|done].
  apply app_inj_1 in H as [H3 H]; [|done]. apply app_inj_1 in H as [H4 H]; [|done].
  apply app_inj_1 in H as [H5 H]; [|done]. apply app_inj_1 in H as [H6 H]; [|done].
  apply app_inj_1 in H as [H7 H8]; [|by rewrite !(blocks_length bindingFields 7), HB].
  apply conversationFields_inj in H1; [|done..]. apply membershipFields_inj in H2; [|done..].
  apply policyHeadFields_inj in H3; [|done..]. apply sendGrantFields_inj in H4; [|done..].
  injection H5 as H5%utf8_inj. apply usageFields_inj in H6.
  apply (blocks_inj bindingFields (λ b, valid_binding b = true) 7) in H7;
    [|done|apply bindingFields_inj|done|done|done].
  apply (blocks_inj quotaFields valid_quota 12) in H8; [|done|apply quotaFields_inj|done|done|done].
  destruct s, s'; cbn in *. congruence.
Qed.

(** ** Binding *)

Section Binding.
Context `{SHA : Sha256}.

(** C37: The snapshot digest is a sound compare-and-swap fence: two snapshots with
    one digest are the same snapshot, every row and every field, or their
    encodings are a SHA-256 collision. *)
Theorem snapshotDigest_binding (v w : unknown) (h : Hash32) :
  computeLockedApplicationAppendSnapshotDigest v = Ok h →
  computeLockedApplicationAppendSnapshotDigest w = Ok h →
  ∃ s s', parseLockedApplicationAppendSnapshot v = Ok s ∧
    parseLockedApplicationAppendSnapshot w = Ok s' ∧
    (s = s' ∨
     collision [fieldsPreimage LOCKED_APPLICATION_APPEND_SNAPSHOT_DIGEST_DOMAIN (snapshotFields s)]
       [fieldsPreimage LOCKED_APPLICATION_APPEND_SNAPSHOT_DIGEST_DOMAIN (snapshotFields s')]).
Proof.
  unfold computeLockedApplicationAppendSnapshotDigest.
  intros (s & Hs & Hd)%bind_Ok (s' & Hs' & Hd')%bind_Ok. exists s, s'. split_and!; [done..|].
  destruct (fieldsDigest_inj _ _ _ _ Hd Hd') as [E|Hc]; [left|by right].
  apply snapshotFields_inj; [by eapply parseLockedApplicationAppendSnapshot_inv..|done].
Qed.

Lemma scopeHash_inj r s i r' s' i' h :
  computeApplicationAppendQuotaScopeHash (VString r) (VString (lit (s : ApplicationAppendQuotaScope)))
    (VString i) = Ok h →
  computeApplicationAppendQuotaScopeHash (VString r') (VString (lit (s' : ApplicationAppendQuotaScope)))
    (VString i') = Ok h →
  (r = r' ∧ s = s' ∧ i = i') ∨
  collision [utf8 APPLICATION_APPEND_QUOTA_SCOPE_HASH_DOMAIN ++ lps [utf8 r; utf8 (lit s); utf8 i]]
    [utf8 APPLICATION_APPEND_QUOTA_SCOPE_HASH_DOMAIN ++ lps [utf8 r'; utf8 (lit s'); utf8 i']].
Proof.
  unfold computeApplicationAppendQuotaScopeHash, fieldsDigest. rewrite !parseOneOf_scope.
  intros H H'. cbn [mapR id fmap result_fmap mbind result_bind] in H, H'. unfold id in H, H'.
  destruct (parsePolicyRealmId (VString r)) as [a|] eqn:E1; [|discriminate H].
  destruct (parseScopeSubjectId (VString i)) as [b|] eqn:E2; [|discriminate H].
  destruct (parsePolicyRealmId (VString r')) as [a'|] eqn:E1'; [|discriminate H'].
  destruct (parseScopeSubjectId (VString i')) as [b'|] eqn:E2'; [|discriminate H'].
  apply parsePolicyRealmId_Ok in E1 as [[= <-] _], E1' as [[= <-] _].
  apply parseScopeSubjectId_Ok in E2 as [[= <-] _], E2' as [[= <-] _].
  cbn [mbind result_bind fmap result_fmap] in H, H'. inv_result.
  match goal with
  | Hb : canonicalLengthPrefixed [utf8 r; _; _] = Ok _, Hb' : canonicalLengthPrefixed [utf8 r'; _; _] = Ok _ |- _ =>
      destruct (prefixedDigest_inj _ _ _ _ _ _ Hb Hb' H H') as [E|Hc]
  end; [left|by right].
  injection E as E1 E2 E3. apply utf8_inj in E1, E2, E3. by apply scope_lit_inj in E2.
Qed.

(** No quota is charged to a stranger: in parsed snapshots, quota rows with the
    same scope hash meter the same realm, scope and subject, or exhibit a
    SHA-256 collision. *)
Theorem quotaRow_subject (v w : unknown) (s s' : LockedApplicationAppendSnapshot)
    (q q' : LockedQuotaCounter) :
  parseLockedApplicationAppendSnapshot v = Ok s → parseLockedApplicationAppendSnapshot w = Ok s' →
  q ∈ quotas s → q' ∈ quotas s' → q_scopeHash q = q_scopeHash q' →
  let subject s q := quotaSubjectId (conversation s) (membership s) (q_scope q) in
  (c_realmId (conversation s) = c_realmId (conversation s') ∧ q_scope q = q_scope q' ∧
   subject s q = subject s' q') ∨
  collision
    [utf8 APPLICATION_APPEND_QUOTA_SCOPE_HASH_DOMAIN
     ++ lps [utf8 (c_realmId (conversation s)); utf8 (lit (q_scope q)); utf8 (subject s q)]]
    [utf8 APPLICATION_APPEND_QUOTA_SCOPE_HASH_DOMAIN
     ++ lps [utf8 (c_realmId (conversation s')); utf8 (lit (q_scope q')); utf8 (subject s' q')]].
Proof.
  intros HL%parseLockedApplicationAppendSnapshot_linked HL'%parseLockedApplicationAppendSnapshot_linked
    Hq Hq' E. cbv zeta.
  pose proof (lk_quotas s HL q Hq) as H. pose proof (lk_quotas s' HL' q' Hq') as H'.
  rewrite <- E in H'. by apply (scopeHash_inj _ _ _ _ _ _ _ H H').
Qed.
End Binding.
