(* ===== verification/AppendSamples.v ===== *)
(** * A worked append

    Concrete locked rows with consistent digests, on which the theorems about
    evaluation, transitions, expiry and digests are exercised. *)

From stdpp Require Import base list strings.
From Stdlib Require Import ZArith Lia Ascii.
From S2P Require Import Prelude Sha256 Base64Url JsTime JsValue ValueObjects Hashes Limits Quota AppendState AppendEval SnapshotBinding.

#[local] Existing Instance fips_sha256.

Definition account_id : string := "a1b2c3d4-0000-4000-8000-000000000002".
Definition installation_id : string := "a1b2c3d4-0000-4000-8000-000000000003".
Definition credential_id : string := "a1b2c3d4-0000-4000-8000-000000000004".
Definition policy_head_id : string := "a1b2c3d4-0000-4000-8000-000000000005".
Definition checkpoint_id : string := "a1b2c3d4-0000-4000-8000-000000000006".

Definition subject_of (scope : ApplicationAppendQuotaScope) : string :=
  match scope with
  | scope_installation => installation_id | scope_account => account_id
  | scope_project => "project:7" | scope_conversation => sample_conversation
  | scope_tenant => "tenant:1"
  end.
Definition scope_hash (scope : ApplicationAppendQuotaScope) : Hash32 :=
  valueOf "" (computeApplicationAppendQuotaScopeHash (VString "realm-1") (VString (lit scope))
    (VString (subject_of scope))).
Definition binding_of (scope : ApplicationAppendQuotaScope) : ExpectedAppendQuotaIdentity := {|
  b_scope := scope; b_scopeHash := scope_hash scope; b_quotaName := "append.daily";
  b_windowStartedAt := "2024-01-01T00:00:00.000Z"; b_windowSeconds := "86400";
  b_operationLimit := "100"; b_byteLimit := "100000" |}.
Definition quota_of (scope : ApplicationAppendQuotaScope) : LockedQuotaCounter := {|
  q_scope := scope; q_scopeHash := scope_hash scope; q_quotaName := "append.daily";
  q_windowStartedAt := "2024-01-01T00:00:00.000Z"; q_windowSeconds := "86400";
  q_operationCount := "7"; q_byteCount := "900"; q_reservedOperationCount := "1";
  q_reservedByteCount := "64"; q_rowVersion := "9"; q_operationLimit := "100";
  q_byteLimit := "100000" |}.
Definition bindings : list ExpectedAppendQuotaIdentity :=
  Eval vm_compute in map binding_of APPLICATION_APPEND_QUOTA_SCOPES.
Definition rows : list LockedQuotaCounter :=
  Eval vm_compute in map quota_of APPLICATION_APPEND_QUOTA_SCOPES.
Definition quota_policy : Hash32 :=
  Eval vm_compute in
    valueOf "" (computeApplicationAppendQuotaPolicyDigest (arr (map binding_obj bindings))).

Definition sample_state : LockedConversationState := {|
  c_realmId := "realm-1"; c_conversationId := sample_conversation; c_projectScopeId := "project:7";
  c_tenantScopeId := "tenant:1"; c_kind := community; c_generation := "1";
  c_releaseProfileId := "release-1"; c_deliveryLimitsDigest := sample_hash;
  c_releaseTrustRootDigest := sample_hash; c_quotaPolicyDigest := quota_policy;
  c_groupIdHash := sample_hash; c_state := cs_active; c_etag := etag_text (chars "3") (chars "3");
  c_epoch := "3"; c_rosterVersion := "3"; c_rosterHash := sample_hash; c_recipientSetVersion := "3";
  c_recipientSetHash := sample_hash; c_confirmedTranscriptHash := sample_hash;
  c_lastPosition := "41"; c_currentLogHeadHash := sample_head; c_currentPolicyHeadSequence := "3";
  c_currentPolicyHeadHash := sample_hash |}.
Definition sample_membership : LockedSenderMembership := {|
  m_conversationId := sample_conversation; m_accountId := account_id;
  m_installationId := installation_id; m_credentialId := credential_id;
  m_credentialFingerprint := sample_hash; m_credentialRevocationVersion := "3";
  m_installationState := inst_active; m_credentialState := cred_active;
  m_credentialExpiresAt := "2024-06-01T00:00:00.000Z"; m_joinedPosition := "5";
  m_removedPosition := None |}.
Definition grant_draft : LockedConversationSendGrant := {|
  g_conversationId := sample_conversation; g_installationId := installation_id;
  g_credentialId := credential_id; g_conversationKind := community; g_conversationGeneration := "1";
  g_role := member; g_roleCredentialId := credential_id; g_roleCredentialFingerprint := sample_hash;
  g_roleCredentialSubjectAccountId := account_id;
  g_roleCredentialSubjectInstallationId := installation_id;
  g_roleCredentialValidFrom := "2023-01-01T00:00:00.000Z";
  g_roleCredentialValidUntil := "2025-01-01T00:00:00.000Z"; g_state := sg_active;
  g_policyRevision := "3"; g_policyHeadSequence := "3"; g_policyHeadHash := sample_hash;
  g_expiresAt := "2024-02-01T00:00:00.000Z"; g_grantEvidenceDigest := sample_hash;
  g_grantInclusionEvidenceDigest := sample_hash |}.
Definition grant_digest : Hash32 :=
  Eval vm_compute in valueOf "" (computeConversationSendGrantEvidenceDigest grant_draft).
Definition sample_grant : LockedConversationSendGrant := {|
  g_conversationId := sample_conversation; g_installationId := installation_id;
  g_credentialId := credential_id; g_conversationKind := community; g_conversationGeneration := "1";
  g_role := member; g_roleCredentialId := credential_id; g_roleCredentialFingerprint := sample_hash;
  g_roleCredentialSubjectAccountId := account_id;
  g_roleCredentialSubjectInstallationId := installation_id;
  g_roleCredentialValidFrom := "2023-01-01T00:00:00.000Z";
  g_roleCredentialValidUntil := "2025-01-01T00:00:00.000Z"; g_state := sg_active;
  g_policyRevision := "3"; g_policyHeadSequence := "3"; g_policyHeadHash := sample_hash;
  g_expiresAt := "2024-02-01T00:00:00.000Z"; g_grantEvidenceDigest := grant_digest;
  g_grantInclusionEvidenceDigest := sample_hash |}.
Definition head_draft : LockedWitnessedPolicyHead := {|
  p_policyHeadId := policy_head_id; p_conversationId := sample_conversation;
  p_policyHeadSequence := "3"; p_policyHeadHash := sample_hash; p_deliveryLogPosition := "3";
  p_deliveryLogHeadHash := sample_hash; p_evaluationLogPosition := "41";
  p_evaluationLogHeadHash := sample_head; p_epoch := "3"; p_rosterVersion := "3";
  p_confirmedTranscriptHash := sample_hash; p_policyRevision := "3";
  p_signedBodySha256 := sample_hash; p_signerKeyId := "key-1"; p_signatureSha256 := sample_hash;
  p_witnessEvidenceDigest := sample_hash; p_proofEvidenceDigest := sample_hash;
  p_policyConsistencyEvidenceDigest := sample_hash; p_proofVerifiedAt := "2024-01-01T11:59:30.000Z";
  p_issuedAt := "2024-01-01T11:59:00.000Z"; p_expiresAt := "2024-01-01T12:03:00.000Z";
  p_witnessState := ws_verified; p_witnessCheckpointId := Some checkpoint_id;
  p_witnessedPolicyHeadHash := Some sample_hash; p_mandatoryProposalCount := "0";
  p_mandatoryProposalSetHash := sample_hash; p_authorizedSendGrantSetHash := sample_hash;
  p_selectedSendGrantEvidenceDigest := grant_digest;
  p_selectedSendGrantInclusionEvidenceDigest := sample_hash;
  p_authorizedQuotaPolicyDigest := quota_policy; p_priorPolicyHeadSequence := "3";
  p_priorPolicyHeadHash := sample_hash; p_priorPolicyWitnessCheckpointId := checkpoint_id;
  p_priorPolicyWitnessEvidenceDigest := sample_hash |}.
Definition proof_digest : Hash32 :=
  Eval vm_compute in valueOf "" (computePolicyHeadProofEvidenceDigest
    (lockedProofBody sample_state head_draft checkpoint_id sample_hash)).
Definition sample_policyHead : LockedWitnessedPolicyHead := {|
  p_policyHeadId := policy_head_id; p_conversationId := sample_conversation;
  p_policyHeadSequence := "3"; p_policyHeadHash := sample_hash; p_deliveryLogPosition := "3";
  p_deliveryLogHeadHash := sample_hash; p_evaluationLogPosition := "41";
  p_evaluationLogHeadHash := sample_head; p_epoch := "3"; p_rosterVersion := "3";
  p_confirmedTranscriptHash := sample_hash; p_policyRevision := "3";
  p_signedBodySha256 := sample_hash; p_signerKeyId := "key-1"; p_signatureSha256 := sample_hash;
  p_witnessEvidenceDigest := sample_hash; p_proofEvidenceDigest := proof_digest;
  p_policyConsistencyEvidenceDigest := sample_hash; p_proofVerifiedAt := "2024-01-01T11:59:30.000Z";
  p_issuedAt := "2024-01-01T11:59:00.000Z"; p_expiresAt := "2024-01-01T12:03:00.000Z";
  p_witnessState := ws_verified; p_witnessCheckpointId := Some checkpoint_id;
  p_witnessedPolicyHeadHash := Some sample_hash; p_mandatoryProposalCount := "0";
  p_mandatoryProposalSetHash := sample_hash; p_authorizedSendGrantSetHash := sample_hash;
  p_selectedSendGrantEvidenceDigest := grant_digest;
  p_selectedSendGrantInclusionEvidenceDigest := sample_hash;
  p_authorizedQuotaPolicyDigest := quota_policy; p_priorPolicyHeadSequence := "3";
  p_priorPolicyHeadHash := sample_hash; p_priorPolicyWitnessCheckpointId := checkpoint_id;
  p_priorPolicyWitnessEvidenceDigest := sample_hash |}.
Definition sample_usage : LockedConversationUsage := {|
  u_conversationId := sample_conversation; u_envelopeCount := "41"; u_envelopeBytes := "20000";
  u_attachmentBytes := "0"; u_envelopeCountLimit := "1000"; u_envelopeBytesLimit := "1000000";
  u_attachmentBytesLimit := "1000000" |}.
Definition sample_expectation : ApplicationAppendExpectation := {|
  e_realmId := "realm-1"; e_conversationId := sample_conversation; e_accountId := account_id;
  e_installationId := installation_id; e_credentialId := credential_id;
  e_credentialFingerprint := sample_hash; e_credentialRevocationVersion := "3";
  e_releaseProfileId := "release-1"; e_expectedDeliveryLimitsDigest := sample_hash;
  e_expectedQuotaPolicyDigest := quota_policy; e_expectedProjectScopeId := "project:7";
  e_expectedTenantScopeId := "tenant:1"; e_expectedGroupIdHash := sample_hash;
  e_ifMatch := etag_text (chars "3") (chars "3"); e_expectedEpoch := "3";
  e_expectedRosterVersion := "3"; e_expectedConfirmedTranscriptHash := sample_hash;
  e_policyHeadId := policy_head_id; e_policyHeadSequence := "3"; e_policyHeadHash := sample_hash;
  e_policyEvaluationLogPosition := "41"; e_policyEvaluationLogHeadHash := sample_head;
  e_envelopeByteLength := "512"; e_attachmentByteLength := "0" |}.

Definition sample_snapshot : LockedApplicationAppendSnapshot := {|
  conversation := sample_state; membership := sample_membership; policyHead := sample_policyHead;
  sendGrant := sample_grant; pendingRemovalCount := "0"; usage := sample_usage;
  quotaBindings := bindings; quotas := rows |}.

Lemma sample_snapshot_parses :
  parseLockedApplicationAppendSnapshot (snapshot_obj sample_snapshot) = Ok sample_snapshot.
Proof. vm_compute. reflexivity. Qed.

Lemma sample_expectation_parses :
  parseApplicationAppendExpectation (expectation_obj sample_expectation) = Ok sample_expectation.
Proof. vm_compute. reflexivity. Qed.
(** The decision on the sample. *)
Definition sample_decision : LockedApplicationAppendDecision :=
  Eval vm_compute in
    valueOf (rejected quota_exceeded)
      (evaluateLockedApplicationAppend sample_snapshot sample_expectation sample_now).
Definition next_usage : LockedConversationUsage :=
  match sample_decision with allowed _ u _ _ => u | rejected _ => sample_usage end.
Definition next_deltas : list ApplicationAppendQuotaCapacityDelta :=
  Eval vm_compute in match sample_decision with allowed _ _ ds _ => ds | rejected _ => [] end.
Definition next_rows : list LockedQuotaCounter :=
  match sample_decision with allowed _ _ _ qs => qs | rejected _ => [] end.
Definition next_state : LockedConversationState := with_position "42" sample_hash sample_state.
Definition next_reservations : list ApplicationAppendQuotaCapacityReservation :=
  Eval vm_compute in
    valueOf [] (bindApplicationAppendQuotaCapacityReservations (arr (map delta_obj next_deltas))
      (VString sample_hash) (VString "1") (VString sample_head)).

Lemma sample_allowed :
  evaluateLockedApplicationAppend sample_snapshot sample_expectation sample_now
  = Ok (allowed "42" next_usage next_deltas next_rows).
Proof. vm_compute. reflexivity. Qed.

Lemma evaluate_allowed_iff_witness :
  authorized sample_snapshot sample_expectation (Date_parse sample_now) ∧
  has_room sample_snapshot sample_expectation sample_now.
Proof.
  destruct (evaluate_allowed_iff (snapshot_obj sample_snapshot) (expectation_obj sample_expectation)
    sample_snapshot sample_expectation sample_now) as [_ H];
    [exact sample_snapshot_parses|exact sample_expectation_parses|by vm_compute|].
  apply H. exists "42", next_usage, next_deltas, next_rows. exact sample_allowed.
Defined.

Lemma allowed_effect_witness :
  BigInt "42" = BigInt (c_lastPosition (conversation sample_snapshot)) + 1 ∧
  valid_usage next_usage = true ∧ length next_deltas = 5%nat.
Proof.
  destruct (allowed_effect (snapshot_obj sample_snapshot) (expectation_obj sample_expectation)
    sample_snapshot sample_expectation sample_now "42" next_usage next_deltas next_rows)
    as (Hp & _ & _ & _ & Hu & Hd & _);
    [exact sample_snapshot_parses|exact sample_expectation_parses|by vm_compute|exact sample_allowed|].
  exact (conj Hp (conj Hu Hd)).
Defined.

Lemma stateTransition_sound_witness :
  ∃ s e now head pos ds qs,
    parseLockedApplicationAppendSnapshot (snapshot_obj sample_snapshot) = Ok s ∧
    evaluateLockedApplicationAppend s e now = Ok (allowed pos next_usage ds qs) ∧
    next_state = with_position pos head (conversation s) ∧ map r_delta next_reservations = ds.
Proof.
  destruct (stateTransition_sound (snapshot_obj sample_snapshot) (expectation_obj sample_expectation)
    (VString sample_now) (VString sample_hash) (conversation_obj next_state) (usage_obj next_usage)
    (arr (map reservation_obj next_reservations)) next_state next_usage next_reservations)
    as (s & e & now & head & pos & ds & qs & Hs & _ & _ & _ & _ & Hd & _ & _ & Hc & _ & Hr & _);
    [vm_compute; reflexivity|].
  exists s, e, now, head, pos, ds, qs. exact (conj Hs (conj Hd (conj Hc Hr))).
Defined.

Lemma pendingExpiry_spec_witness :
  Forall (Z.le (Date_parse "2024-01-01T12:00:30.000Z"))
    (pendingBounds sample_snapshot (Date_parse sample_now) (Date_parse "2024-06-01T00:00:00.000Z")).
Proof.
  destruct (pendingExpiry_spec (snapshot_obj sample_snapshot) (VString "2024-01-01T11:59:50.000Z")
    (VString sample_now) (VString "2024-06-01T00:00:00.000Z") "2024-01-01T12:00:30.000Z")
    as (s & a & r & k & Hs & [= <-] & [= <-] & [= <-] & _ & _ & _ & H); [vm_compute; reflexivity|].
  rewrite sample_snapshot_parses in Hs. injection Hs as <-. exact H.
Defined.

Lemma snapshotDigest_binding_witness :
  ∃ s s', parseLockedApplicationAppendSnapshot (snapshot_obj sample_snapshot) = Ok s ∧
    parseLockedApplicationAppendSnapshot (snapshot_obj sample_snapshot) = Ok s' ∧
    (s = s' ∨
     collision [fieldsPreimage LOCKED_APPLICATION_APPEND_SNAPSHOT_DIGEST_DOMAIN (snapshotFields s)]
       [fieldsPreimage LOCKED_APPLICATION_APPEND_SNAPSHOT_DIGEST_DOMAIN (snapshotFields s')]).
Proof.
  apply (snapshotDigest_binding _ _
    (valueOf "" (computeLockedApplicationAppendSnapshotDigest (snapshot_obj sample_snapshot))));
    vm_compute; reflexivity.
Defined.

Lemma quotaRow_subject_witness :
  c_realmId (conversation sample_snapshot) = c_realmId (conversation sample_snapshot) ∨
  ∃ xs ys, collision xs ys.
Proof.
  destruct (quotaRow_subject (snapshot_obj sample_snapshot) (snapshot_obj sample_snapshot)
    sample_snapshot sample_snapshot (quota_of scope_tenant) (quota_of scope_tenant))
    as [[H _]|H];
    [exact sample_snapshot_parses|exact sample_snapshot_parses
    |apply (bool_decide_unpack _); vm_compute; exact I|apply (bool_decide_unpack _); vm_compute; exact I
    |reflexivity|left; exact H|right; do 2 eexists; exact H].
Defined.
