(* ===== verification/SnapshotRows.v ===== *)
(** * Snapshots read back ([src/production/delivery/state.ts])

    The digests and validators parse rows they were given as objects again.
    Every parsed row, written out as the object the code builds, parses to
    itself; so does a snapshot, with all its cross-checks. *)

From stdpp Require Import base list strings.
From Stdlib Require Import ZArith Lia Ascii.
From S2P Require Import Prelude Sha256 Base64Url JsTime JsValue ValueObjects Hashes Limits Quota AppendState AppendSamples.

(** ** One row *)

Ltac read_row_rest :=
  repeat (progress (cbn [mbind result_bind]; run_row_parsers;
    rewrite ?(λ s H, proj2 (parseRfc3339Millis_Ok (VString s) s) (conj eq_refl H)) by assumption;
    cbn [mbind result_bind])).

(** Opens an object literal and runs the parsers whose inputs are branded. *)
Ltac read_row :=
  rewrite expectExactRecord_obj; [|reflexivity|by apply (bool_decide_unpack _); vm_compute|by repeat constructor];
  cbn [mbind result_bind]; read_fields;
  rewrite ?parseOneOf_lit, ?parseOneOf_kind, ?parseOneOf_credential, ?parseOneOf_installation,
    ?parseOneOf_role, ?parseOneOf_grant, ?parseOneOf_witness, ?parseOneOf_scope;
  cbn [mbind result_bind]; read_row_rest.

Lemma parseLockedSenderMembership_obj x :
  valid_membership x = true → parseLockedSenderMembership (membership_obj x) = Ok x.
Proof.
  unfold valid_membership. intros H. bsimp. unfold parseLockedSenderMembership, membership_obj.
  rewrite expectExactRecord_obj; [|reflexivity|by apply (bool_decide_unpack _); vm_compute|
    repeat constructor; by destruct (m_removedPosition x)].
  cbn [mbind result_bind]. read_fields. rewrite parseOneOf_credential, parseOneOf_installation.
  run_row_parsers. rewrite (proj2 (parseRfc3339Millis_Ok (VString _) _)) by done. run_row_parsers.
  rewrite (proj2 (parseNullable_Ok _ _ _ (m_removedPosition x) parsePositiveUint63_Ok)) by done. by destruct x.
Qed.

Lemma parseLockedConversationSendGrant_obj x :
  valid_sendGrant x = true → parseLockedConversationSendGrant (sendGrant_obj x) = Ok x.
Proof.
  unfold valid_sendGrant. intros H. bsimp. unfold parseLockedConversationSendGrant, sendGrant_obj.
  read_row. cbn [isString]. rewrite (bool_decide_eq_true_2 (_ = _)) by done.
  cbn [negb throw_if mbind result_bind]. run_row_parsers.
  by destruct x.
Qed.

Lemma parseLockedConversationUsage_obj x :
  valid_usage x = true → parseLockedConversationUsage (usage_obj x) = Ok x.
Proof.
  unfold valid_usage. intros H. bsimp. unfold parseLockedConversationUsage, usage_obj. read_row.
  rewrite !(proj2 (Z.ltb_ge _ _)) by lia. by destruct x.
Qed.

Lemma parseLockedWitnessedPolicyHead_obj x :
  valid_policyHead x = true → parseLockedWitnessedPolicyHead (policyHead_obj x) = Ok x.
Proof.
  unfold valid_policyHead, sle. intros H. bsimp. unfold parseLockedWitnessedPolicyHead, policyHead_obj.
  rewrite expectExactRecord_obj; [|reflexivity|by apply (bool_decide_unpack _); vm_compute|
    repeat constructor; (by destruct (p_witnessCheckpointId x)) || (by destruct (p_witnessedPolicyHeadHash x))].
  cbn [mbind result_bind]. read_fields. rewrite parseOneOf_witness. cbn [mbind result_bind].
  rewrite (proj2 (parseNullable_Ok parseWitnessCheckpointId _ _ (p_witnessCheckpointId x) parseUuidV4_Ok)) by done.
  rewrite (proj2 (parseNullable_Ok _ _ _ (p_witnessedPolicyHeadHash x) parseHash32_Ok)) by done.
  cbn [mbind result_bind].
  match goal with |- context [throw_if ?b _] => assert (b = false) as -> end.
  { unfold witness_complete in *. by destruct (p_witnessState x), (p_witnessCheckpointId x), (p_witnessedPolicyHeadHash x). }
  cbn [throw_if mbind result_bind].
  match goal with |- context [throw_if ?b _] => assert (b = false) as -> end.
  { unfold witness_complete in *. by destruct (p_witnessState x), (p_witnessCheckpointId x), (p_witnessedPolicyHeadHash x). }
  cbn [throw_if mbind result_bind]. rewrite !(proj2 (parseRfc3339Millis_Ok (VString _) _)) by done.
  cbn [mbind result_bind]. unfold sle. rewrite H4, H2, H1, (proj2 (Z.ltb_ge _ _)) by by apply Z.leb_le.
  cbn [negb orb throw_if mbind result_bind]. run_row_parsers.
  rewrite (proj2 (parseSigningKeyId_Ok (VString _) _)) by done. run_row_parsers.
  rewrite (proj2 (parseMandatoryProposalCount_Ok (VString _) (p_mandatoryProposalCount _))) by done.
  run_row_parsers. by destruct x.
Qed.

(** ** The five rows of a list *)

Lemma five_rows {A} (scopeOf : A → ApplicationAppendQuotaScope) (rows : list A) :
  map scopeOf rows = APPLICATION_APPEND_QUOTA_SCOPES →
  ∃ a b c d e, rows = [a; b; c; d; e] ∧ scopeOf a = scope_installation ∧ scopeOf b = scope_account ∧
    scopeOf c = scope_project ∧ scopeOf d = scope_conversation ∧ scopeOf e = scope_tenant.
Proof.
  intros H. destruct rows as [|a [|b [|c [|d [|e [|? ?]]]]]]; try discriminate.
  injection H as ? ? ? ? ?. by exists a, b, c, d, e.
Qed.

(** Rows already in scope order are kept. *)
Lemma inScopeOrder_sorted {A} (scopeOf : A → ApplicationAppendQuotaScope) (rows : list A) :
  map scopeOf rows = APPLICATION_APPEND_QUOTA_SCOPES → inScopeOrder scopeOf (map Some rows) = Ok rows.
Proof.
  intros (a & b & c & d & e & -> & Ha & Hb & Hc & Hd & He)%five_rows.
  unfold inScopeOrder. cbn. by rewrite Ha, Hb, Hc, Hd, He.
Qed.

Lemma scopesComplete_sorted {A} (scopeOf : A → ApplicationAppendQuotaScope) (rows : list A) :
  map scopeOf rows = APPLICATION_APPEND_QUOTA_SCOPES →
  map (option_map scopeOf) (map Some rows) = map Some APPLICATION_APPEND_QUOTA_SCOPES.
Proof. intros <-. by rewrite !map_map. Qed.

Lemma expectFive_arr (vs : list unknown) : length vs = 5%nat → expectFive (arr vs) = Ok (map Some vs).
Proof.
  intros H. unfold expectFive, arr. rewrite ownKeysCount_arr, Nat.eqb_refl, length_map, H.
  by rewrite bool_decide_eq_true_2.
Qed.

Lemma parseExpectedQuotaIdentity_obj b :
  valid_binding b = true → parseExpectedQuotaIdentity (binding_obj b) = Ok b.
Proof.
  unfold valid_binding. intros H. bsimp. unfold parseExpectedQuotaIdentity, binding_obj. read_row.
  rewrite (proj2 (parseQuotaName_Ok (VString _) (b_quotaName b))) by done. read_row_rest. by destruct b.
Qed.

Lemma parseLockedQuotaCounter_obj q : valid_quota q → parseLockedQuotaCounter (quota_obj q) = Ok q.
Proof.
  unfold valid_quota, quota_brands, within_limits. intros [H [? ?]]. bsimp.
  unfold parseLockedQuotaCounter, quota_obj. read_row.
  rewrite (proj2 (parseQuotaName_Ok (VString _) (q_quotaName q))) by done. read_row_rest.
  rewrite !(proj2 (Z.ltb_ge _ _)) by lia. by destruct q.
Qed.

Lemma remove_dups_NoDup_length {A} `{EqDecision A} (xs : list A) : NoDup xs → length (remove_dups xs) = length xs.
Proof.
  intros H. apply Permutation_length, NoDup_Permutation; [apply NoDup_remove_dups|done|apply elem_of_remove_dups].
Qed.

Lemma parseExpectedQuotaIdentities_arr bs :
  map b_scope bs = APPLICATION_APPEND_QUOTA_SCOPES → Forall (λ b, valid_binding b = true) bs →
  parseExpectedQuotaIdentities (arr (map binding_obj bs)) = Ok bs.
Proof.
  intros HS HV. assert (HL : length bs = 5%nat) by (rewrite <- (length_map b_scope), HS; done).
  unfold parseExpectedQuotaIdentities. rewrite expectFive_arr by by rewrite length_map. cbn [mbind result_bind].
  rewrite (mapArray_Some _ _ bs).
  2:{ clear -HV. induction HV; cbn; constructor; [by apply parseExpectedQuotaIdentity_obj|done]. }
  cbn [mbind result_bind]. rewrite (scopesComplete_sorted b_scope) by done.
  rewrite (remove_dups_NoDup_length (map Some bs)).
  2:{ apply (NoDup_fmap_1 (option_map b_scope)). change (NoDup (map (option_map b_scope) (map Some bs))).
      rewrite (scopesComplete_sorted b_scope) by done. apply (bool_decide_unpack _); by vm_compute. }
  rewrite length_map, HL. change (negb (Nat.eqb _ 5) || negb (Nat.eqb 5 5)) with false.
  cbn [throw_if mbind result_bind]. by apply inScopeOrder_sorted.
Qed.

Lemma parseLockedQuotaCounters_arr qs :
  map q_scope qs = APPLICATION_APPEND_QUOTA_SCOPES → Forall valid_quota qs →
  parseLockedQuotaCounters (arr (map quota_obj qs)) = Ok qs.
Proof.
  intros HS HV. assert (HL : length qs = 5%nat) by (rewrite <- (length_map q_scope), HS; done).
  unfold parseLockedQuotaCounters. rewrite expectFive_arr by by rewrite length_map. cbn [mbind result_bind].
  rewrite (mapArray_Some _ _ qs).
  2:{ clear -HV. induction HV; cbn; constructor; [by apply parseLockedQuotaCounter_obj|done]. }
  cbn [mbind result_bind]. rewrite (scopesComplete_sorted q_scope) by done.
  change (negb (scopesComplete (map Some APPLICATION_APPEND_QUOTA_SCOPES))) with false.
  cbn [throw_if mbind result_bind]. by apply inScopeOrder_sorted.
Qed.

(** ** Snapshots *)

Section Roundtrip.
Context `{SHA : Sha256}.

Lemma parseSnapshot_obj s :
  valid_rows s →
  parseLockedApplicationAppendSnapshot (snapshot_obj s)
  = (checkSnapshot (conversation s) (membership s) (policyHead s) (sendGrant s) (usage s)
       (quotaBindings s) (quotas s);; Ok s).
Proof.
  intros [H1 H2 H3 H4 H5 H6 [H7 H7'] [H8 H8']]. unfold parseLockedApplicationAppendSnapshot, snapshot_obj.
  rewrite expectExactRecord_obj; [|reflexivity|by apply (bool_decide_unpack _); vm_compute|by repeat constructor].
  cbn [mbind result_bind].
  remember (arr (map binding_obj (quotaBindings s))) as bv. remember (arr (map quota_obj (quotas s))) as qv.
  remember (conversation_obj (conversation s)) as cv. remember (membership_obj (membership s)) as mv.
  remember (policyHead_obj (policyHead s)) as pv. remember (sendGrant_obj (sendGrant s)) as gv.
  remember (usage_obj (usage s)) as uv. read_fields. subst.
  rewrite parseLockedConversationState_obj by done. cbn [mbind result_bind].
  rewrite parseLockedSenderMembership_obj by done. cbn [mbind result_bind].
  rewrite parseLockedWitnessedPolicyHead_obj by done. cbn [mbind result_bind].
  rewrite parseLockedConversationSendGrant_obj by done. cbn [mbind result_bind]. run_row_parsers.
  rewrite parseLockedConversationUsage_obj by done. cbn [mbind result_bind].
  rewrite parseExpectedQuotaIdentities_arr by done. cbn [mbind result_bind].
  rewrite parseLockedQuotaCounters_arr by done. cbn [mbind result_bind]. by destruct s.
Qed.

(** A snapshot that was parsed, handed on as the object the code builds from
    it, is parsed to the very same snapshot, every cross-check included. *)
Theorem snapshot_roundtrip v s :
  parseLockedApplicationAppendSnapshot v = Ok s →
  parseLockedApplicationAppendSnapshot (snapshot_obj s) = Ok s.
Proof.
  intros [HV HC]%parseLockedApplicationAppendSnapshot_inv. rewrite parseSnapshot_obj, HC by done. done.
Qed.
End Roundtrip.

#[local] Existing Instance fips_sha256.

(** The quota rows as a query without an order may return them. *)
Definition unordered_snapshot : unknown :=
  snapshot_obj {| conversation := sample_state; membership := sample_membership;
    policyHead := sample_policyHead; sendGrant := sample_grant; pendingRemovalCount := "0";
    usage := sample_usage; quotaBindings := bindings; quotas := rev rows |}.

Lemma snapshot_roundtrip_witness :
  unordered_snapshot ≠ snapshot_obj sample_snapshot ∧
  parseLockedApplicationAppendSnapshot (snapshot_obj sample_snapshot) = Ok sample_snapshot.
Proof.
  split; [discriminate|]. apply (snapshot_roundtrip unordered_snapshot). vm_compute. reflexivity.
Defined.
