(* ===== verification/Fanout.v ===== *)
(** * Fan-out plans ([src/production/delivery/state.ts])

    Which installations an appended envelope is delivered to: the routing rows
    and the MLS roster rows, their set hashes, the plan derived from them and
    the evidence that a plan was carried out. *)

From stdpp Require Import base list strings.
From Stdlib Require Import ZArith Lia Ascii.
From S2P Require Import Prelude Sha256 Base64Url JsTime JsValue ValueObjects Hashes Limits Quota AppendState SnapshotBinding AppendSamples.

Definition APPLICATION_APPEND_FANOUT_PLAN_DIGEST_DOMAIN : string :=
  "jb-msg-application-append-fanout-plan/v1".
Definition APPLICATION_APPEND_RECIPIENT_SET_DIGEST_DOMAIN : string :=
  "jb-msg-application-append-recipient-set/v1".
Definition APPLICATION_APPEND_MLS_ROSTER_DIGEST_DOMAIN : string :=
  "jb-msg-application-append-mls-roster/v1".
Definition APPLICATION_APPEND_FANOUT_EVIDENCE_DIGEST_DOMAIN : string :=
  "jb-msg-application-append-fanout-evidence/v1".
Definition APPLICATION_APPEND_MAILBOX_PROJECTION_DIGEST_DOMAIN : string :=
  "jb-msg-application-append-mailbox-projection/v1".
Definition APPLICATION_APPEND_OUTBOX_PROJECTION_DIGEST_DOMAIN : string :=
  "jb-msg-application-append-outbox-projection/v1".
Definition APPLICATION_APPEND_RECIPIENT_INSTALLATIONS_HARD_MAX : Z := 2500.

(** ** Rows, plan and evidence *)

Record ApplicationAppendRecipientProjection := {
  f_conversationId : ConversationId; f_conversationGeneration : Uint63String;
  f_recipientSetVersion : Uint63String; f_accountId : AccountId; f_installationId : InstallationId;
  f_credentialId : CredentialId; f_credentialFingerprint : Fingerprint32;
  f_credentialRevocationVersion : Uint63String; f_credentialState : CredentialState;
  f_credentialExpiresAt : Rfc3339Millis; f_joinedPosition : Uint63String;
  f_removedPosition : option Uint63String; f_installationState : InstallationState;
}.

Record ApplicationAppendMlsRosterProjection := {
  o_conversationId : ConversationId; o_conversationGeneration : Uint63String;
  o_rosterVersion : Uint63String; o_accountId : AccountId; o_installationId : InstallationId;
  o_credentialId : CredentialId; o_credentialFingerprint : Fingerprint32;
}.

Record ApplicationAppendFanoutPlan := {
  n_conversationId : ConversationId; n_conversationGeneration : Uint63String;
  n_rosterVersion : Uint63String; n_rosterHash : Hash32; n_recipientSetVersion : Uint63String;
  n_recipientSetHash : Hash32; n_position : Uint63String;
  n_recipientInstallationIds : list InstallationId; n_recipientCount : Uint63String;
  n_planDigest : Hash32;
}.

(** Profile and status have one value each. *)
Record ApplicationAppendFanoutEvidence := {
  v_conversationId : ConversationId; v_envelopeId : EnvelopeId; v_position : Uint63String;
  v_headHash : Hash32; v_rosterHash : Hash32; v_planDigest : Hash32;
  v_recipientCount : Uint63String; v_mailboxProjectionDigest : Hash32;
  v_outboxProjectionDigest : Hash32; v_evidenceDigest : Hash32;
}.

(** ** Row parsers *)

(** An intrinsic array within the caller's ceiling and the reviewed cap. *)
Definition boundedArray (nonempty : bool) (value : unknown) (maximum : Z) :
  result (list (option unknown)) :=
  match value with
  | VArray p elems extra =>
      let n := Z.of_nat (length elems) in
      throw_if ((p !== ArrayPrototype) || (nonempty && (n =? 0)) || (maximum <? n)
                || (APPLICATION_APPEND_RECIPIENT_INSTALLATIONS_HARD_MAX <? n)
                || negb (Nat.eqb (ownKeysCount elems extra) (length elems + 1)))
        DeliveryStateValidationError;;
      Ok elems
  | _ => invalidState
  end.

(** [[...xs].sort((l, r) => l.installationId.localeCompare(r.installationId))]:
    the keys are canonical UUIDs, on which the locale order is the code-unit
    order; a hole becomes [undefined], which sorts last uncompared. *)
Definition sortByInstallation {A} (installationId : A → string) (xs : list (option A)) :
  list (option A) :=
  map Some (sort_by (λ l r, sle (installationId l) (installationId r)) (omap id xs))
  ++ List.filter (λ o, negb (bool_decide (is_Some o))) xs.

Definition parseRecipientProjection (entry : unknown) : result ApplicationAppendRecipientProjection :=
  record ← expectExactRecord entry
    ["conversationId"; "conversationGeneration"; "recipientSetVersion"; "accountId";
     "installationId"; "credentialId"; "credentialFingerprint"; "credentialRevocationVersion";
     "credentialState"; "credentialExpiresAt"; "joinedPosition"; "removedPosition";
     "installationState"];
  removedPosition ← parseNullable parsePositiveUint63 record.["removedPosition"];
  joinedPosition ← parsePositiveUint63 record.["joinedPosition"];
  throw_if (match removedPosition with
            | Some removed => BigInt removed <? BigInt joinedPosition
            | None => false
            end) DeliveryStateValidationError;;
  conversationId ← parseConversationId record.["conversationId"];
  conversationGeneration ← parsePositiveUint63 record.["conversationGeneration"];
  recipientSetVersion ← parseUint63String record.["recipientSetVersion"];
  accountId ← parseAccountId record.["accountId"];
  installationId ← parseInstallationId record.["installationId"];
  credentialId ← parseCredentialId record.["credentialId"];
  credentialFingerprint ← parseFingerprint32 record.["credentialFingerprint"];
  credentialRevocationVersion ← parsePositiveUint63 record.["credentialRevocationVersion"];
  credentialState ← parseOneOf record.["credentialState"];
  credentialExpiresAt ← parseRfc3339Millis record.["credentialExpiresAt"];
  installationState ← parseOneOf record.["installationState"];
  Ok {| f_conversationId := conversationId; f_conversationGeneration := conversationGeneration;
        f_recipientSetVersion := recipientSetVersion; f_accountId := accountId;
        f_installationId := installationId; f_credentialId := credentialId;
        f_credentialFingerprint := credentialFingerprint;
        f_credentialRevocationVersion := credentialRevocationVersion;
        f_credentialState := credentialState; f_credentialExpiresAt := credentialExpiresAt;
        f_joinedPosition := joinedPosition; f_removedPosition := removedPosition;
        f_installationState := installationState |}.

(** Both arrays of rows are read the same way. *)
Definition parseRows {A} (parse : unknown → result A) (installationId credentialId : A → string)
    (value recipientInstallationsMax : unknown) : result (list (option A)) :=
  maximum ← BigInt <$> parsePositiveUint63 recipientInstallationsMax;
  elems ← boundedArray true value maximum;
  parsed ← mapArray parse elems;
  throw_if (hasDuplicates (map (fmap installationId) parsed)
            || hasDuplicates (map (fmap credentialId) parsed)) DeliveryStateValidationError;;
  Ok (sortByInstallation installationId parsed).

Definition parseApplicationAppendRecipientProjections :=
  parseRows parseRecipientProjection f_installationId f_credentialId.

Definition parseMlsRosterProjection (entry : unknown) : result ApplicationAppendMlsRosterProjection :=
  record ← expectExactRecord entry
    ["conversationId"; "conversationGeneration"; "rosterVersion"; "accountId"; "installationId";
     "credentialId"; "credentialFingerprint"];
  conversationId ← parseConversationId record.["conversationId"];
  conversationGeneration ← parsePositiveUint63 record.["conversationGeneration"];
  rosterVersion ← parseUint63String record.["rosterVersion"];
  accountId ← parseAccountId record.["accountId"];
  installationId ← parseInstallationId record.["installationId"];
  credentialId ← parseCredentialId record.["credentialId"];
  credentialFingerprint ← parseFingerprint32 record.["credentialFingerprint"];
  Ok {| o_conversationId := conversationId; o_conversationGeneration := conversationGeneration;
        o_rosterVersion := rosterVersion; o_accountId := accountId;
        o_installationId := installationId; o_credentialId := credentialId;
        o_credentialFingerprint := credentialFingerprint |}.

Definition parseApplicationAppendMlsRosterProjections :=
  parseRows parseMlsRosterProjection o_installationId o_credentialId.

(** The objects the digests parse again. *)
Definition recipient_obj (p : ApplicationAppendRecipientProjection) : unknown :=
  obj [("conversationId", VString (f_conversationId p));
       ("conversationGeneration", VString (f_conversationGeneration p));
       ("recipientSetVersion", VString (f_recipientSetVersion p));
       ("accountId", VString (f_accountId p)); ("installationId", VString (f_installationId p));
       ("credentialId", VString (f_credentialId p));
       ("credentialFingerprint", VString (f_credentialFingerprint p));
       ("credentialRevocationVersion", VString (f_credentialRevocationVersion p));
       ("credentialState", VString (lit (f_credentialState p)));
       ("credentialExpiresAt", VString (f_credentialExpiresAt p));
       ("joinedPosition", VString (f_joinedPosition p));
       ("removedPosition", nullable VString (f_removedPosition p));
       ("installationState", VString (lit (f_installationState p)))].
Definition roster_obj (p : ApplicationAppendMlsRosterProjection) : unknown :=
  obj [("conversationId", VString (o_conversationId p));
       ("conversationGeneration", VString (o_conversationGeneration p));
       ("rosterVersion", VString (o_rosterVersion p)); ("accountId", VString (o_accountId p));
       ("installationId", VString (o_installationId p)); ("credentialId", VString (o_credentialId p));
       ("credentialFingerprint", VString (o_credentialFingerprint p))].

(** Walking parsed rows: [undefined] has no properties. *)
Definition present {A} (rows : list (option A)) : result (list A) :=
  mapR (λ o, match o with Some a => Ok a | None => Throw TypeError end) rows.

Section Fanout.
Context `{SHA : Sha256}.

(** ** Digests *)

Definition recipientFields (p : ApplicationAppendRecipientProjection) : list (result bytes) :=
  [Ok (utf8 (f_conversationId p)); Ok (utf8 (f_conversationGeneration p));
   Ok (utf8 (f_recipientSetVersion p)); Ok (utf8 (f_accountId p)); Ok (utf8 (f_installationId p));
   Ok (utf8 (f_credentialId p)); decodeFingerprint32 (f_credentialFingerprint p);
   Ok (utf8 (f_credentialRevocationVersion p)); Ok (utf8 (lit (f_credentialState p)));
   Ok (utf8 (f_credentialExpiresAt p)); Ok (utf8 (f_joinedPosition p));
   encodeNullableText (f_removedPosition p); Ok (utf8 (lit (f_installationState p)))].

Definition computeApplicationAppendRecipientSetHash
    (projectionsValue : list ApplicationAppendRecipientProjection) : result Hash32 :=
  ceiling ← parseUint63String (VString (decimal (Z.of_nat (length projectionsValue))));
  rows ← parseApplicationAppendRecipientProjections (arr (map recipient_obj projectionsValue))
           (VString ceiling);
  projections ← present rows;
  fieldsDigest APPLICATION_APPEND_RECIPIENT_SET_DIGEST_DOMAIN (flat_map recipientFields projections).

Definition rosterFields (p : ApplicationAppendMlsRosterProjection) : list (result bytes) :=
  [Ok (utf8 (o_conversationId p)); Ok (utf8 (o_conversationGeneration p));
   Ok (utf8 (o_rosterVersion p)); Ok (utf8 (o_accountId p)); Ok (utf8 (o_installationId p));
   Ok (utf8 (o_credentialId p)); decodeFingerprint32 (o_credentialFingerprint p)].

Definition computeApplicationAppendMlsRosterHash
    (projectionsValue : list ApplicationAppendMlsRosterProjection) : result Hash32 :=
  ceiling ← parseUint63String (VString (decimal (Z.of_nat (length projectionsValue))));
  rows ← parseApplicationAppendMlsRosterProjections (arr (map roster_obj projectionsValue))
           (VString ceiling);
  projections ← present rows;
  fieldsDigest APPLICATION_APPEND_MLS_ROSTER_DIGEST_DOMAIN (flat_map rosterFields projections).

(** A hole among the identifiers reaches the length prefix as [undefined]. *)
Definition computeApplicationAppendFanoutPlanDigest (conversationId : ConversationId)
    (conversationGeneration rosterVersion : Uint63String) (rosterHash : Hash32)
    (recipientSetVersion : Uint63String) (recipientSetHash : Hash32) (position : Uint63String)
    (recipientInstallationIds : list (option InstallationId)) : result Hash32 :=
  fieldsDigest APPLICATION_APPEND_FANOUT_PLAN_DIGEST_DOMAIN
    ([Ok (utf8 conversationId); Ok (utf8 conversationGeneration); Ok (utf8 rosterVersion);
      decodeHash32 rosterHash; Ok (utf8 recipientSetVersion); decodeHash32 recipientSetHash;
      Ok (utf8 position)]
     ++ map (λ o, match o with
                  | Some installationId => utf8 <$> parseInstallationId (VString installationId)
                  | None => Throw DeliveryValidationError
                  end) recipientInstallationIds).

Definition computeApplicationAppendMailboxProjectionDigest (plan : ApplicationAppendFanoutPlan)
    (envelopeId : EnvelopeId) : result Hash32 :=
  fieldsDigest APPLICATION_APPEND_MAILBOX_PROJECTION_DIGEST_DOMAIN
    ([Ok (utf8 (n_conversationId plan)); Ok (utf8 envelopeId); Ok (utf8 (n_position plan));
      decodeHash32 (n_planDigest plan); Ok (utf8 (n_recipientCount plan))]
     ++ map (λ id, Ok (utf8 id)) (n_recipientInstallationIds plan)).

Definition computeApplicationAppendOutboxProjectionDigest (conversationId : ConversationId)
    (envelopeId : EnvelopeId) (position : Uint63String) (headHash : Hash32) : result Hash32 :=
  fieldsDigest APPLICATION_APPEND_OUTBOX_PROJECTION_DIGEST_DOMAIN
    [Ok (utf8 conversationId); Ok (utf8 envelopeId); Ok (utf8 position); decodeHash32 headHash].

(** The evidence's own digest, which is not among the fields. *)
Definition computeApplicationAppendFanoutEvidenceDigest (input : ApplicationAppendFanoutEvidence) :
  result Hash32 :=
  fieldsDigest APPLICATION_APPEND_FANOUT_EVIDENCE_DIGEST_DOMAIN
    [Ok (utf8 (v_conversationId input)); Ok (utf8 (v_envelopeId input)); Ok (utf8 (v_position input));
     decodeHash32 (v_headHash input); decodeHash32 (v_rosterHash input);
     decodeHash32 (v_planDigest input); Ok (utf8 (v_recipientCount input));
     decodeHash32 (v_mailboxProjectionDigest input); decodeHash32 (v_outboxProjectionDigest input);
     Ok (utf8 "committed")].

(** ** The plan *)

Definition sameRecipientIdentity (route : ApplicationAppendRecipientProjection)
    (roster : ApplicationAppendMlsRosterProjection) : bool :=
  (f_conversationId route === o_conversationId roster)
  && (f_conversationGeneration route === o_conversationGeneration roster)
  && (f_accountId route === o_accountId roster)
  && (f_installationId route === o_installationId roster)
  && (f_credentialId route === o_credentialId roster)
  && (f_credentialFingerprint route === o_credentialFingerprint roster).

(** The loop over one array: the rows are checked in order, and walking into
    [undefined] throws. *)
Definition checkRows {A} (foreign : A → bool) (rows : list (option A)) : result unit :=
  forEach (λ o, match o with
                | Some row => throw_if (foreign row) DeliveryStateValidationError
                | None => Throw TypeError
                end) rows.

Definition receives (mlsRoster : list ApplicationAppendMlsRosterProjection) (position : Uint63String)
    (authoritativeReceivedAt : Rfc3339Millis) (projection : ApplicationAppendRecipientProjection) :
  bool :=
  existsb (λ member, (o_installationId member === f_installationId projection)
                     && sameRecipientIdentity projection member) mlsRoster
  && (BigInt (f_joinedPosition projection) <=? BigInt position)
  && match f_removedPosition projection with
     | None => true
     | Some removed => BigInt position <=? BigInt removed
     end
  && (f_installationState projection === inst_active)
  && (f_credentialState projection === cred_active)
  && slt authoritativeReceivedAt (f_credentialExpiresAt projection).

Definition deriveApplicationAppendFanoutPlan (conversation senderMembership position
    authoritativeReceivedAt recipientInstallationsMax mlsRosterProjections recipientProjections : unknown) :
  result ApplicationAppendFanoutPlan :=
  conversation ← parseLockedConversationState conversation;
  membership ← parseLockedSenderMembership senderMembership;
  position ← parsePositiveUint63 position;
  authoritativeReceivedAt ← parseRfc3339Millis authoritativeReceivedAt;
  recipientInstallationsMax ← parsePositiveUint63 recipientInstallationsMax;
  throw_if (APPLICATION_APPEND_RECIPIENT_INSTALLATIONS_HARD_MAX <? BigInt recipientInstallationsMax)
    DeliveryStateValidationError;;
  recipientRows ← parseApplicationAppendRecipientProjections recipientProjections
                    (VString recipientInstallationsMax);
  rosterRows ← parseApplicationAppendMlsRosterProjections mlsRosterProjections
                 (VString recipientInstallationsMax);
  throw_if ((m_conversationId membership !== c_conversationId conversation)
            || negb (BigInt position =? BigInt (c_lastPosition conversation) + 1))
    DeliveryStateValidationError;;
  checkRows (λ projection, (f_conversationId projection !== c_conversationId conversation)
    || (f_conversationGeneration projection !== c_generation conversation)
    || (f_recipientSetVersion projection !== c_recipientSetVersion conversation)) recipientRows;;
  checkRows (λ projection, (o_conversationId projection !== c_conversationId conversation)
    || (o_conversationGeneration projection !== c_generation conversation)
    || (o_rosterVersion projection !== c_rosterVersion conversation)) rosterRows;;
  projections ← present recipientRows;
  mlsRoster ← present rosterRows;
  rosterHash ← computeApplicationAppendMlsRosterHash mlsRoster;
  throw_if (rosterHash !== c_rosterHash conversation) DeliveryStateValidationError;;
  recipientSetHash ← computeApplicationAppendRecipientSetHash projections;
  throw_if (recipientSetHash !== c_recipientSetHash conversation) DeliveryStateValidationError;;
  forEach (λ rosterMember,
    let route := List.find (λ p, f_installationId p === o_installationId rosterMember) projections in
    throw_if (match route with
              | None => true
              | Some route => negb (sameRecipientIdentity route rosterMember)
              end) DeliveryStateValidationError) mlsRoster;;
  let senderProjection :=
    List.find (λ p, f_installationId p === m_installationId membership) projections in
  throw_if (match senderProjection with
            | None => true
            | Some sender =>
                (f_accountId sender !== m_accountId membership)
                || (f_credentialId sender !== m_credentialId membership)
                || (f_credentialFingerprint sender !== m_credentialFingerprint membership)
                || (f_credentialRevocationVersion sender !== m_credentialRevocationVersion membership)
                || (f_credentialState sender !== m_credentialState membership)
                || (f_credentialExpiresAt sender !== m_credentialExpiresAt membership)
                || (f_joinedPosition sender !== m_joinedPosition membership)
                || bool_decide (m_removedPosition membership ≠ None)
                || (f_removedPosition sender !== m_removedPosition membership)
                || (f_installationState sender !== m_installationState membership)
            end) DeliveryStateValidationError;;
  let recipientInstallationIds :=
    sort_by sle (map f_installationId
      (List.filter (receives mlsRoster position authoritativeReceivedAt) projections)) in
  recipientCount ← parseUint63String
    (VString (decimal (Z.of_nat (length recipientInstallationIds))));
  planDigest ← computeApplicationAppendFanoutPlanDigest (c_conversationId conversation)
    (c_generation conversation) (c_rosterVersion conversation) (c_rosterHash conversation)
    (c_recipientSetVersion conversation) recipientSetHash position
    (map Some recipientInstallationIds);
  Ok {| n_conversationId := c_conversationId conversation;
        n_conversationGeneration := c_generation conversation;
        n_rosterVersion := c_rosterVersion conversation; n_rosterHash := c_rosterHash conversation;
        n_recipientSetVersion := c_recipientSetVersion conversation;
        n_recipientSetHash := recipientSetHash; n_position := position;
        n_recipientInstallationIds := recipientInstallationIds;
        n_recipientCount := recipientCount; n_planDigest := planDigest |}.

(** [ids.some((entry, index) => index > 0 && ids[index - 1] >= entry)]: holes
    are not visited, and compare false. *)
Fixpoint descends (previous : option InstallationId) (ids : list (option InstallationId)) : bool :=
  match ids with
  | [] => false
  | o :: rest =>
      match previous, o with Some p, Some entry => sle entry p | _, _ => false end || descends o rest
  end.

Definition parseApplicationAppendFanoutPlan (value recipientInstallationsMax : unknown) :
  result ApplicationAppendFanoutPlan :=
  record ← expectExactRecord value
    ["conversationId"; "conversationGeneration"; "rosterVersion"; "rosterHash";
     "recipientSetVersion"; "recipientSetHash"; "position"; "recipientInstallationIds";
     "recipientCount"; "planDigest"];
  maximum ← BigInt <$> parsePositiveUint63 recipientInstallationsMax;
  elems ← boundedArray false record.["recipientInstallationIds"] maximum;
  ids ← mapArray parseInstallationId elems;
  throw_if (hasDuplicates ids || descends None ids) DeliveryStateValidationError;;
  conversationId ← parseConversationId record.["conversationId"];
  conversationGeneration ← parsePositiveUint63 record.["conversationGeneration"];
  rosterVersion ← parseUint63String record.["rosterVersion"];
  rosterHash ← parseHash32 record.["rosterHash"];
  recipientSetVersion ← parseUint63String record.["recipientSetVersion"];
  recipientSetHash ← parseHash32 record.["recipientSetHash"];
  position ← parsePositiveUint63 record.["position"];
  recipientCount ← parseUint63String record.["recipientCount"];
  planDigest ← parseHash32 record.["planDigest"];
  throw_if (negb (BigInt recipientCount =? Z.of_nat (length ids))) DeliveryStateValidationError;;
  computed ← computeApplicationAppendFanoutPlanDigest conversationId conversationGeneration
    rosterVersion rosterHash recipientSetVersion recipientSetHash position ids;
  throw_if (planDigest !== computed) DeliveryStateValidationError;;
  Ok {| n_conversationId := conversationId; n_conversationGeneration := conversationGeneration;
        n_rosterVersion := rosterVersion; n_rosterHash := rosterHash;
        n_recipientSetVersion := recipientSetVersion; n_recipientSetHash := recipientSetHash;
        n_position := position; n_recipientInstallationIds := omap id ids;
        n_recipientCount := recipientCount; n_planDigest := planDigest |}.

(** ** The evidence *)

Definition parseApplicationAppendFanoutEvidence (value : unknown) (plan : ApplicationAppendFanoutPlan)
    (expectedEnvelopeId : EnvelopeId) (expectedHeadHash : Hash32) :
  result ApplicationAppendFanoutEvidence :=
  record ← expectExactRecord value
    ["profile"; "status"; "conversationId"; "envelopeId"; "position"; "headHash"; "rosterHash";
     "planDigest"; "recipientCount"; "mailboxProjectionDigest"; "outboxProjectionDigest";
     "evidenceDigest"];
  envelopeId ← parseEnvelopeId record.["envelopeId"];
  headHash ← parseHash32 record.["headHash"];
  mailbox ← computeApplicationAppendMailboxProjectionDigest plan envelopeId;
  outbox ← computeApplicationAppendOutboxProjectionDigest (n_conversationId plan) envelopeId
             (n_position plan) headHash;
  conversationId ← parseConversationId record.["conversationId"];
  position ← parsePositiveUint63 record.["position"];
  rosterHash ← parseHash32 record.["rosterHash"];
  planDigest ← parseHash32 record.["planDigest"];
  recipientCount ← parseUint63String record.["recipientCount"];
  mailboxProjectionDigest ← parseHash32 record.["mailboxProjectionDigest"];
  outboxProjectionDigest ← parseHash32 record.["outboxProjectionDigest"];
  evidenceDigest ← parseHash32 record.["evidenceDigest"];
  throw_if (negb (isString record.["profile"] "application-append-fanout.v1")
            || negb (isString record.["status"] "committed")
            || (conversationId !== n_conversationId plan) || (envelopeId !== expectedEnvelopeId)
            || (position !== n_position plan) || (headHash !== expectedHeadHash)
            || (rosterHash !== n_rosterHash plan) || (planDigest !== n_planDigest plan)
            || (recipientCount !== n_recipientCount plan) || (mailboxProjectionDigest !== mailbox)
            || (outboxProjectionDigest !== outbox)) DeliveryStateValidationError;;
  let parsed :=
    {| v_conversationId := conversationId; v_envelopeId := envelopeId; v_position := position;
       v_headHash := headHash; v_rosterHash := rosterHash; v_planDigest := planDigest;
       v_recipientCount := recipientCount; v_mailboxProjectionDigest := mailbox;
       v_outboxProjectionDigest := outbox; v_evidenceDigest := evidenceDigest |} in
  computed ← computeApplicationAppendFanoutEvidenceDigest parsed;
  throw_if (evidenceDigest !== computed) DeliveryStateValidationError;;
  Ok parsed.
End Fanout.

(** ** Rows that parse *)

Definition valid_recipient (p : ApplicationAppendRecipientProjection) : bool :=
  is_uuid4 (f_conversationId p) && is_positive_uint63 (f_conversationGeneration p)
  && is_uint63 (f_recipientSetVersion p) && is_uuid4 (f_accountId p) && is_uuid4 (f_installationId p)
  && is_uuid4 (f_credentialId p) && is_hash32 (f_credentialFingerprint p)
  && is_positive_uint63 (f_credentialRevocationVersion p) && canonicalInstant (f_credentialExpiresAt p)
  && is_positive_uint63 (f_joinedPosition p) && optionb is_positive_uint63 (f_removedPosition p)
  && optionb (λ removed, BigInt (f_joinedPosition p) <=? BigInt removed) (f_removedPosition p).
Definition valid_member (p : ApplicationAppendMlsRosterProjection) : bool :=
  is_uuid4 (o_conversationId p) && is_positive_uint63 (o_conversationGeneration p)
  && is_uint63 (o_rosterVersion p) && is_uuid4 (o_accountId p) && is_uuid4 (o_installationId p)
  && is_uuid4 (o_credentialId p) && is_hash32 (o_credentialFingerprint p).

Lemma parseRecipientProjection_valid v p : parseRecipientProjection v = Ok p → valid_recipient p = true.
Proof.
  unfold parseRecipientProjection. intros H. inv_result. subst. row_parsed.
  unfold valid_recipient; cbn.
  match goal with H : match ?r with _ => _ end = false |- _ => destruct r as [r0|] end; cbn in *; brands; try done.
  lia.
Qed.

Lemma parseMlsRosterProjection_valid v p : parseMlsRosterProjection v = Ok p → valid_member p = true.
Proof.
  unfold parseMlsRosterProjection. intros H. inv_result. subst. row_parsed. unfold valid_member; cbn. by brands.
Qed.

Lemma parseRecipientProjection_obj p :
  valid_recipient p = true → parseRecipientProjection (recipient_obj p) = Ok p.
Proof.
  unfold valid_recipient. intros H. bsimp. unfold parseRecipientProjection, recipient_obj.
  rewrite expectExactRecord_obj; [|reflexivity|by apply (bool_decide_unpack _); vm_compute|
    repeat constructor; by destruct (f_removedPosition p)].
  cbn [mbind result_bind]. read_fields. change parseFingerprint32 with parseHash32.
  rewrite parseOneOf_credential, parseOneOf_installation.
  rewrite (proj2 (parseNullable_Ok _ _ _ (f_removedPosition p) parsePositiveUint63_Ok)) by done.
  cbn [mbind result_bind]. run_row_parsers.
  match goal with |- context [throw_if ?b] => assert (b = false) as -> end.
  { destruct (f_removedPosition p); cbn in *; [lia|done]. }
  cbn [throw_if mbind result_bind]. run_row_parsers.
  rewrite (proj2 (parseRfc3339Millis_Ok (VString _) _)) by by split. cbn [mbind result_bind]. run_row_parsers. by destruct p.
Qed.

Lemma parseMlsRosterProjection_obj p :
  valid_member p = true → parseMlsRosterProjection (roster_obj p) = Ok p.
Proof.
  unfold valid_member. intros H. bsimp. unfold parseMlsRosterProjection, roster_obj.
  rewrite expectExactRecord_obj; [|reflexivity|by apply (bool_decide_unpack _); vm_compute|by repeat constructor].
  cbn [mbind result_bind]. read_fields. change parseFingerprint32 with parseHash32. run_row_parsers. by destruct p.
Qed.

Lemma present_Ok {A} (rows : list (option A)) xs : present rows = Ok xs ↔ rows = map Some xs.
Proof.
  unfold present. rewrite mapR_Ok. split.
  - induction 1 as [|o x rows xs Ho _ IH]; [done|]. destruct o; [|done]. cbn. by injection Ho as ->; rewrite IH.
  - intros ->. induction xs; cbn; by constructor.
Qed.

Lemma NoDup_Some (xs : list string) : NoDup (map Some xs) ↔ NoDup xs.
Proof.
  split; [apply NoDup_fmap_1|]. apply NoDup_fmap_2. by intros ?? [= ->].
Qed.

(** What a parsed array of rows without holes is. *)
Record wf_rows {A} (installationId credentialId : A → string) (valid : A → bool) (xs : list A) : Prop := {
  wr_sorted : StronglySorted (λ s t, slt s t = true) (map installationId xs);
  wr_credentials : NoDup (map credentialId xs);
  wr_valid : Forall (λ x, valid x = true) xs;
  wr_bound : 1 <= Z.of_nat (length xs) <= APPLICATION_APPEND_RECIPIENT_INSTALLATIONS_HARD_MAX;
}.

Lemma boundedArray_Ok nonempty v n elems :
  boundedArray nonempty v n = Ok elems →
  Z.of_nat (length elems) <= Z.min n APPLICATION_APPEND_RECIPIENT_INSTALLATIONS_HARD_MAX ∧
  (nonempty = true → elems ≠ []).
Proof.
  destruct v; try discriminate. unfold boundedArray. intros H. inv_result. subst. split_orb. split; [repeat match goal with H : (_ <? _) = false |- _ => apply Z.ltb_ge in H end; clear -Hx1 Hx2; lia|].
  intros ->. by destruct elems.
Qed.

Lemma boundedArray_arr nonempty vs n :
  Z.of_nat (length vs) <= Z.min n APPLICATION_APPEND_RECIPIENT_INSTALLATIONS_HARD_MAX →
  (nonempty = true → vs ≠ []) → boundedArray nonempty (arr vs) n = Ok (map Some vs).
Proof.
  intros HL HN. unfold boundedArray, arr. rewrite ownKeysCount_arr, Nat.eqb_refl, !length_map.
  rewrite bool_decide_eq_true_2 by done. cbn [negb orb].
  replace (nonempty && (Z.of_nat (length vs) =? 0)) with false.
  2:{ destruct nonempty; [|done]. destruct vs; [by destruct HN|]. symmetry. apply Z.eqb_neq. cbn [length]. lia. }
  cbn [orb]. by rewrite !(proj2 (Z.ltb_ge _ _)) by lia.
Qed.

Section Rows.
Context {A : Type} (parse : unknown → result A) (installationId credentialId : A → string).
Context (valid : A → bool) (to_obj : A → unknown).
Hypothesis parse_valid : ∀ v x, parse v = Ok x → valid x = true.
Hypothesis parse_obj : ∀ x, valid x = true → parse (to_obj x) = Ok x.

Lemma sorted_no_holes parsed xs :
  sortByInstallation installationId parsed = map Some xs →
  ∃ ys, parsed = map Some ys ∧ xs = sort_by (λ l r, sle (installationId l) (installationId r)) ys.
Proof.
  intros H. assert (HE : List.filter (λ o : option A, negb (bool_decide (is_Some o))) parsed = []).
  { destruct (List.filter _ parsed) as [|o os] eqn:E; [done|].
    assert (Ho : In o (List.filter (λ o : option A, negb (bool_decide (is_Some o))) parsed)) by (rewrite E; by left).
    apply filter_In in Ho as [_ Ho]. exfalso.
    assert (Hin : In o (map Some xs)). { rewrite <- H. unfold sortByInstallation. rewrite E, in_app_iff. right; by left. }
    apply in_map_iff in Hin as (x & <- & _). rewrite bool_decide_eq_true_2 in Ho by by eexists. done. }
  exists (omap id parsed). unfold sortByInstallation in H. rewrite HE, app_nil_r in H. split.
  - clear H. induction parsed as [|[x|] parsed IH]; [done|..]; cbn in *; [by rewrite <- IH|done].
  - apply (f_equal (omap id)) in H. revert H. generalize (omap id parsed). intros ys H.
    assert (HO : ∀ zs : list A, omap id (map Some zs) = zs).
    { intros zs. induction zs as [|z zs IH]; [done|]. cbn. by rewrite IH. }
    by rewrite !HO in H.
Qed.

Lemma parseRows_wf v max rows xs :
  parseRows parse installationId credentialId v max = Ok rows → present rows = Ok xs →
  wf_rows installationId credentialId valid xs.
Proof.
  unfold parseRows. intros H ->%present_Ok. inv_result. split_orb.
  apply sorted_no_holes in H as (ys & -> & ->).
  set (srt := sort_by _ ys). assert (HPm : srt ≡ₚ ys) by apply sort_by_perm.
  unfold hasDuplicates in *.
  repeat match goal with H : negb (bool_decide _) = false |- _ => apply negb_false_iff, bool_decide_eq_true in H end.
  rewrite !map_map in *.
  assert (HI : NoDup (map installationId ys)) by (apply NoDup_Some; by rewrite map_map).
  assert (HC : NoDup (map credentialId ys)) by (apply NoDup_Some; by rewrite map_map).
  apply mapR_Ok in Hx1. pose proof (Forall2_length _ _ _ Hx1) as HLen. rewrite length_map in HLen.
  apply boundedArray_Ok in Hx0 as [HB HN]. constructor.
  - by apply sort_by_strict.
  - by rewrite HPm.
  - rewrite HPm. rewrite Forall_forall. intros y Hy.
    assert (Hys : Some y ∈ map Some ys) by (apply list_elem_of_fmap; eauto).
    destruct (mapArray_in parse _ (map Some ys) y (proj2 (mapR_Ok _ _ _) Hx1) Hys) as (u & _ & Hu). eauto.
  - rewrite HPm, <- HLen. specialize (HN eq_refl). destruct x0; [done|]. cbn [length] in *. lia.
Qed.

Lemma parseRows_obj xs max :
  wf_rows installationId credentialId valid xs → is_positive_uint63 max = true →
  Z.of_nat (length xs) <= BigInt max →
  parseRows parse installationId credentialId (arr (map to_obj xs)) (VString max) = Ok (map Some xs).
Proof.
  intros [HS HC HV HB] HM HL. unfold parseRows.
  rewrite (proj2 (parsePositiveUint63_Ok (VString max) max)) by done. cbn [fmap result_fmap mbind result_bind].
  rewrite boundedArray_arr; [|rewrite length_map; lia|destruct xs; [cbn [length] in HB; lia|done]]. cbn [mbind result_bind].
  rewrite (mapArray_Some _ _ xs).
  2:{ clear -HV parse_obj. induction HV as [|x xs Hx _ IH]; cbn; constructor; [by apply parse_obj|done]. }
  cbn [mbind result_bind]. rewrite !map_map.
  unfold hasDuplicates. rewrite !bool_decide_eq_true_2; [cbn [negb orb throw_if mbind result_bind]|..].
  - f_equal. unfold sortByInstallation.
    assert (HO : omap id (map Some xs) = xs). { clear. induction xs as [|x xs IH]; [done|]. cbn. by rewrite IH. }
    rewrite HO, sort_by_id by done.
    assert (HF : List.filter (λ o : option A, negb (bool_decide (is_Some o))) (map Some xs) = []).
    { clear. induction xs as [|x xs IH]; [done|]. exact IH. }
    by rewrite HF, app_nil_r.
  - change (NoDup (map (λ x, Some (credentialId x)) xs)). rewrite <- (map_map credentialId Some).
    by apply NoDup_Some.
  - change (NoDup (map (λ x, Some (installationId x)) xs)). rewrite <- (map_map installationId Some).
    by apply NoDup_Some, strict_sorted_NoDup.
Qed.
End Rows.

(** ** Digests of fields *)

Section FieldDigests.
Context `{SHA : Sha256}.

Lemma fits_lps_bound m items :
  0 <= m → Forall (fits m) items → (m + 4) * Z.of_nat (length items) <= DEFAULT_MAX_BASE64URL_BYTES →
  fits DEFAULT_MAX_BASE64URL_BYTES (lps items).
Proof. intros Hm HF HL. unfold fits. pose proof (lps_length items m HF). lia. Qed.

(** Digests of that many fields of that size never throw. *)
Lemma fieldsDigest_ok domain m items :
  0 <= m <= 1024 → Forall (fits m) items → strlen domain <= 1024 →
  (m + 4) * Z.of_nat (length items) <= DEFAULT_MAX_BASE64URL_BYTES →
  fieldsDigest domain (map Ok items)
    = Ok (base64url_encode (sha256 (fieldsPreimage domain (map Ok items)))).
Proof.
  intros Hm HF HD HL. assert (HI : mapR id (map Ok items) = Ok items).
  { apply mapR_Ok. clear. induction items; cbn; by constructor. }
  unfold fieldsDigest, fieldsPreimage. rewrite HI. cbn [mbind result_bind].
  pose proof (fits_lps_bound m items ltac:(lia) HF HL) as HB.
  rewrite canonicalLengthPrefixed_eq.
  - cbn [mbind result_bind]. rewrite sha256Bytes_eq.
    + cbn [concat]. by rewrite app_nil_r.
    + constructor; [|by constructor]. pose proof (utf8_length domain).
      unfold fits, DEFAULT_MAX_BASE64URL_BYTES in *. lia.
  - eapply Forall_impl; [exact HF|]. intros x. apply fits_mono. unfold DEFAULT_MAX_BASE64URL_BYTES. lia.
  - eapply fits_mono, HB. unfold DEFAULT_MAX_BASE64URL_BYTES, U32_MAX. lia.
Qed.

(** A list of fields that all encode within a size. *)
Definition encodes (m : Z) (k : nat) (fs : list (result bytes)) : Prop :=
  ∃ items, fs = map Ok items ∧ Forall (fits m) items ∧ length items = k.

Lemma encodes_nil m : encodes m 0 [].
Proof. by exists []. Qed.
Lemma encodes_cons m k b fs : fits m b → encodes m k fs → encodes m (S k) (Ok b :: fs).
Proof. intros Hb (items & -> & HF & <-). exists (b :: items). by repeat split; constructor. Qed.
Lemma encodes_app m k j fs gs : encodes m k fs → encodes m j gs → encodes m (k + j) (fs ++ gs).
Proof.
  intros (items & -> & HF & <-) (items' & -> & HF' & <-). exists (items ++ items').
  by rewrite map_app, length_app, Forall_app.
Qed.
Lemma encodes_flat_map {A} m k (f : A → list (result bytes)) xs :
  Forall (λ x, encodes m k (f x)) xs → encodes m (length xs * k) (flat_map f xs).
Proof. induction 1; cbn; [apply encodes_nil|by apply encodes_app]. Qed.

Lemma fieldsPreimage_inj domain m k k' fs fs' :
  encodes m k fs → encodes m k' fs' → 0 <= m <= 1024 →
  fieldsPreimage domain fs = fieldsPreimage domain fs' → fs = fs'.
Proof.
  intros (xs & -> & HF & _) (ys & -> & HF' & _) Hm. unfold fieldsPreimage.
  assert (HI : ∀ items : list bytes, mapR id (map Ok items) = Ok items).
  { intros items. apply mapR_Ok. clear. induction items; cbn; by constructor. }
  rewrite !HI. intros [_ H]%app_inj_1; [|done]. f_equal. apply lps_inj; [| |done].
  - apply fits_1024_u32. eapply Forall_impl; [exact HF|]. intros x. apply fits_mono. lia.
  - apply fits_1024_u32. eapply Forall_impl; [exact HF'|]. intros x. apply fits_mono. lia.
Qed.

Lemma encodes_digest domain m k fs :
  encodes m k fs → 0 <= m <= 1024 → strlen domain <= 1024 →
  (m + 4) * Z.of_nat k <= DEFAULT_MAX_BASE64URL_BYTES →
  fieldsDigest domain fs = Ok (base64url_encode (sha256 (fieldsPreimage domain fs))).
Proof. intros (items & -> & HF & <-) Hm HD HL. by eapply fieldsDigest_ok. Qed.
End FieldDigests.

Lemma encodes_text m k s fs : 128 <= m → short s → encodes m k fs → encodes m (S k) (Ok (utf8 s) :: fs).
Proof. intros Hm Hs. apply encodes_cons. eapply fits_mono; [exact Hm|by apply short_utf8_fits]. Qed.
Lemma encodes_hash m k s fs :
  128 <= m → is_hash32 s = true → encodes m k fs → encodes m (S k) (decodeHash32 s :: fs).
Proof.
  intros Hm Hs. rewrite decodeHash32_Ok by done. apply encodes_cons.
  eapply fits_mono; [exact Hm|by apply is_hash32_fits].
Qed.
Lemma encodes_nullable m k o fs :
  200 <= m → optionb is_positive_uint63 o = true → encodes m k fs →
  encodes m (S k) (encodeNullableText o :: fs).
Proof.
  intros Hm Ho HE. destruct o as [s|]; cbn in Ho |- *.
  - assert (Hf : fits 128 (utf8 s)) by by apply short_utf8_fits, is_positive_uint63_short.
    assert (Hp : fits 128 (utf8 "present")) by by vm_compute.
    destruct (canonicalLengthPrefixed_small [utf8 "present"; utf8 s]) as [-> _].
    + repeat constructor; (eapply fits_mono; [|done]); lia.
    + cbn. lia.
    + apply encodes_cons; [|done]. eapply fits_mono; [exact Hm|].
      unfold lps, lp. cbn [concat map]. unfold fits in *. rewrite !byteLength_app. cbn.
      change (byteLength (utf8 "present")) with 7. change (byteLength []) with 0.
      assert (Hu : ∀ n, byteLength (u32be n) = 4) by done. rewrite !Hu. lia.
  - destruct (canonicalLengthPrefixed_small [utf8 "absent"]) as [-> _]; [|cbn; lia|].
    + repeat constructor. by vm_compute.
    + apply encodes_cons; [|done]. eapply fits_mono; [exact Hm|]. by vm_compute.
Qed.

(** ** The rows behind a set hash *)

Abbreviation wf_recipients := (wf_rows f_installationId f_credentialId valid_recipient).
Abbreviation wf_roster := (wf_rows o_installationId o_credentialId valid_member).

Lemma lit_credential_short (s : CredentialState) : short (lit s).
Proof. by destruct s; vm_compute. Qed.
Lemma lit_installation_short (s : InstallationState) : short (lit s).
Proof. by destruct s; vm_compute. Qed.
#[export] Hint Resolve lit_credential_short lit_installation_short : jb.

(** Encodes a literal list of fields. *)
Ltac encode_fields := repeat first
  [ apply encodes_nil | apply encodes_text; [lia|by eauto with jb|]
  | apply encodes_hash; [lia|done|] | apply encodes_nullable; [lia|done|] ].

Lemma decimal_positive n : 1 <= n <= UINT63_MAX → is_positive_uint63 (decimal n) = true.
Proof.
  intros H. unfold is_positive_uint63. rewrite is_uint63_decimal by lia. cbn [andb].
  apply negb_true_iff, bool_decide_eq_false. intros E. apply (f_equal BigInt) in E.
  rewrite (proj2 (decimal_spec n ltac:(lia))) in E. change (BigInt "0") with 0 in E. lia.
Qed.

Section SetHashes.
Context `{SHA : Sha256}.

Lemma recipientFields_encode p : valid_recipient p = true → encodes 200 13 (recipientFields p).
Proof.
  unfold valid_recipient, recipientFields. intros H. split_orb.
  change decodeFingerprint32 with decodeHash32. encode_fields.
Qed.
Lemma rosterFields_encode p : valid_member p = true → encodes 200 7 (rosterFields p).
Proof.
  unfold valid_member, rosterFields. intros H. split_orb.
  change decodeFingerprint32 with decodeHash32. encode_fields.
Qed.

Lemma rosterFields_inj p q :
  valid_member p = true → valid_member q = true → rosterFields p = rosterFields q → p = q.
Proof.
  unfold valid_member, rosterFields. intros Hp Hq H. bsimp. injection H. clear H. intros.
  fields_inj. destruct p, q; cbn in *; by subst.
Qed.
Lemma recipientFields_inj p q :
  valid_recipient p = true → valid_recipient q = true → recipientFields p = recipientFields q → p = q.
Proof.
  unfold valid_recipient, recipientFields. intros Hp Hq H. bsimp. injection H. clear H. intros.
  fields_inj. destruct p, q; cbn in *; by subst.
Qed.

Definition rosterPreimage (ros : list ApplicationAppendMlsRosterProjection) : bytes :=
  fieldsPreimage APPLICATION_APPEND_MLS_ROSTER_DIGEST_DOMAIN (flat_map rosterFields ros).
Definition recipientSetPreimage (recs : list ApplicationAppendRecipientProjection) : bytes :=
  fieldsPreimage APPLICATION_APPEND_RECIPIENT_SET_DIGEST_DOMAIN (flat_map recipientFields recs).

Lemma ceiling_ok {A} (xs : list A) :
  1 <= Z.of_nat (length xs) <= APPLICATION_APPEND_RECIPIENT_INSTALLATIONS_HARD_MAX →
  parseUint63String (VString (decimal (Z.of_nat (length xs)))) = Ok (decimal (Z.of_nat (length xs))) ∧
  is_positive_uint63 (decimal (Z.of_nat (length xs))) = true ∧
  Z.of_nat (length xs) <= BigInt (decimal (Z.of_nat (length xs))).
Proof.
  unfold APPLICATION_APPEND_RECIPIENT_INSTALLATIONS_HARD_MAX. intros H. split_and!.
  - apply parseUint63String_Ok. split; [done|]. apply is_uint63_decimal. unfold UINT63_MAX. lia.
  - apply decimal_positive. unfold UINT63_MAX. lia.
  - rewrite (proj2 (decimal_spec (Z.of_nat (length xs)) ltac:(lia))). lia.
Qed.

Lemma computeMlsRosterHash_eq ros : wf_roster ros →
  computeApplicationAppendMlsRosterHash ros = Ok (base64url_encode (sha256 (rosterPreimage ros))).
Proof.
  intros HW. pose proof HW as [_ _ HV HB]. destruct (ceiling_ok ros HB) as (H1 & H2 & H3).
  unfold computeApplicationAppendMlsRosterHash. rewrite H1. cbn [mbind result_bind].
  unfold parseApplicationAppendMlsRosterProjections.
  rewrite (parseRows_obj _ _ _ valid_member roster_obj parseMlsRosterProjection_obj) by done.
  cbn [mbind result_bind]. rewrite (proj2 (present_Ok _ ros) eq_refl). cbn [mbind result_bind].
  unfold APPLICATION_APPEND_RECIPIENT_INSTALLATIONS_HARD_MAX in HB.
  apply (encodes_digest _ 200 (length ros * 7)); [|lia|by vm_compute|unfold DEFAULT_MAX_BASE64URL_BYTES; lia].
  apply encodes_flat_map. eapply Forall_impl; [exact HV|]. apply rosterFields_encode.
Qed.

Lemma computeRecipientSetHash_eq recs : wf_recipients recs →
  computeApplicationAppendRecipientSetHash recs = Ok (base64url_encode (sha256 (recipientSetPreimage recs))).
Proof.
  intros HW. pose proof HW as [_ _ HV HB]. destruct (ceiling_ok recs HB) as (H1 & H2 & H3).
  unfold computeApplicationAppendRecipientSetHash. rewrite H1. cbn [mbind result_bind].
  unfold parseApplicationAppendRecipientProjections.
  rewrite (parseRows_obj _ _ _ valid_recipient recipient_obj parseRecipientProjection_obj) by done.
  cbn [mbind result_bind]. rewrite (proj2 (present_Ok _ recs) eq_refl). cbn [mbind result_bind].
  unfold APPLICATION_APPEND_RECIPIENT_INSTALLATIONS_HARD_MAX in HB.
  apply (encodes_digest _ 200 (length recs * 13)); [|lia|by vm_compute|unfold DEFAULT_MAX_BASE64URL_BYTES; lia].
  apply encodes_flat_map. eapply Forall_impl; [exact HV|]. apply recipientFields_encode.
Qed.

(** One roster hash, one roster; one recipient-set hash, one set of rows. *)
Lemma rosterHash_binding ros ros' h :
  wf_roster ros → wf_roster ros' → computeApplicationAppendMlsRosterHash ros = Ok h →
  computeApplicationAppendMlsRosterHash ros' = Ok h →
  ros = ros' ∨ collision [rosterPreimage ros] [rosterPreimage ros'].
Proof.
  intros HW HW' H H'. rewrite computeMlsRosterHash_eq in H, H' by done.
  assert (HE : base64url_encode (sha256 (rosterPreimage ros)) = base64url_encode (sha256 (rosterPreimage ros')))
    by congruence.
  apply digest_inj in HE as [HE|HE]; [left|by right].
  apply (flat_map_inj rosterFields 6 (λ x, valid_member x = true)); [done|apply rosterFields_inj|apply HW|apply HW'|].
  by eapply fieldsPreimage_inj; [eapply encodes_flat_map, Forall_impl; [apply HW|]; apply rosterFields_encode
    |eapply encodes_flat_map, Forall_impl; [apply HW'|]; apply rosterFields_encode|lia|].
Qed.

Lemma recipientSetHash_binding recs recs' h :
  wf_recipients recs → wf_recipients recs' → computeApplicationAppendRecipientSetHash recs = Ok h →
  computeApplicationAppendRecipientSetHash recs' = Ok h →
  recs = recs' ∨ collision [recipientSetPreimage recs] [recipientSetPreimage recs'].
Proof.
  intros HW HW' H H'. rewrite computeRecipientSetHash_eq in H, H' by done.
  assert (HE : base64url_encode (sha256 (recipientSetPreimage recs))
    = base64url_encode (sha256 (recipientSetPreimage recs'))) by congruence.
  apply digest_inj in HE as [HE|HE]; [left|by right].
  apply (flat_map_inj recipientFields 12 (λ x, valid_recipient x = true));
    [done|apply recipientFields_inj|apply HW|apply HW'|].
  by eapply fieldsPreimage_inj; [eapply encodes_flat_map, Forall_impl; [apply HW|]; apply recipientFields_encode
    |eapply encodes_flat_map, Forall_impl; [apply HW'|]; apply recipientFields_encode|lia|].
Qed.
End SetHashes.

(** ** What a derived plan is *)

Section Plans.
Context `{SHA : Sha256}.

Definition planIds (ros : list ApplicationAppendMlsRosterProjection)
    (recs : list ApplicationAppendRecipientProjection) (position : Uint63String) (t : Rfc3339Millis) :
  list InstallationId := sort_by sle (map f_installationId (List.filter (receives ros position t) recs)).

Definition planPreimage (n : ApplicationAppendFanoutPlan) : bytes :=
  fieldsPreimage APPLICATION_APPEND_FANOUT_PLAN_DIGEST_DOMAIN
    ([Ok (utf8 (n_conversationId n)); Ok (utf8 (n_conversationGeneration n)); Ok (utf8 (n_rosterVersion n));
      decodeHash32 (n_rosterHash n); Ok (utf8 (n_recipientSetVersion n));
      decodeHash32 (n_recipientSetHash n); Ok (utf8 (n_position n))]
     ++ map (λ s, Ok (utf8 s)) (n_recipientInstallationIds n)).

(** The plan with these identifiers, for a digest. *)
Definition planWith (C : LockedConversationState) (position : Uint63String) (ids : list InstallationId)
    (digest : Hash32) : ApplicationAppendFanoutPlan := {|
  n_conversationId := c_conversationId C; n_conversationGeneration := c_generation C;
  n_rosterVersion := c_rosterVersion C; n_rosterHash := c_rosterHash C;
  n_recipientSetVersion := c_recipientSetVersion C; n_recipientSetHash := c_recipientSetHash C;
  n_position := position; n_recipientInstallationIds := ids;
  n_recipientCount := decimal (Z.of_nat (length ids)); n_planDigest := digest |}.
Definition sealed (n : ApplicationAppendFanoutPlan) : Hash32 := base64url_encode (sha256 (planPreimage n)).
Definition thePlan (C : LockedConversationState) (position : Uint63String) (ids : list InstallationId) :
  ApplicationAppendFanoutPlan := planWith C position ids (sealed (planWith C position ids "")).

Definition isSender (M : LockedSenderMembership) (r : ApplicationAppendRecipientProjection) : Prop :=
  f_installationId r = m_installationId M ∧ f_accountId r = m_accountId M ∧
  f_credentialId r = m_credentialId M ∧ f_credentialFingerprint r = m_credentialFingerprint M ∧
  f_credentialRevocationVersion r = m_credentialRevocationVersion M ∧
  f_credentialState r = m_credentialState M ∧ f_credentialExpiresAt r = m_credentialExpiresAt M ∧
  f_joinedPosition r = m_joinedPosition M ∧ m_removedPosition M = None ∧ f_removedPosition r = None ∧
  f_installationState r = m_installationState M.

(** The conversation commits to exactly these rows, they are of its lane, every
    roster member is routed and the sender has its own row. *)
Record accepted (C : LockedConversationState) (M : LockedSenderMembership) (position : Uint63String)
    (ros : list ApplicationAppendMlsRosterProjection)
    (recs : list ApplicationAppendRecipientProjection) : Prop := {
  ac_lane : m_conversationId M = c_conversationId C;
  ac_next : BigInt position = BigInt (c_lastPosition C) + 1;
  ac_recipients : Forall (λ r, f_conversationId r = c_conversationId C ∧
    f_conversationGeneration r = c_generation C ∧ f_recipientSetVersion r = c_recipientSetVersion C) recs;
  ac_roster : Forall (λ o, o_conversationId o = c_conversationId C ∧
    o_conversationGeneration o = c_generation C ∧ o_rosterVersion o = c_rosterVersion C) ros;
  ac_rosterHash : c_rosterHash C = base64url_encode (sha256 (rosterPreimage ros));
  ac_recipientSetHash : c_recipientSetHash C = base64url_encode (sha256 (recipientSetPreimage recs));
  ac_routed : ∀ o, o ∈ ros → ∃ r, r ∈ recs ∧ sameRecipientIdentity r o = true;
  ac_sender : ∃ r, r ∈ recs ∧ isSender M r;
}.

Lemma sameRecipientIdentity_spec r o :
  sameRecipientIdentity r o = true ↔
  f_conversationId r = o_conversationId o ∧ f_conversationGeneration r = o_conversationGeneration o ∧
  f_accountId r = o_accountId o ∧ f_installationId r = o_installationId o ∧
  f_credentialId r = o_credentialId o ∧ f_credentialFingerprint r = o_credentialFingerprint o.
Proof. unfold sameRecipientIdentity. rewrite !andb_true_iff, !bool_decide_eq_true. tauto. Qed.

Lemma wf_unique {A} (inst cred : A → string) valid xs x y :
  wf_rows inst cred valid xs → x ∈ xs → y ∈ xs → inst x = inst y → x = y.
Proof.
  intros [HS _ _ _] Hx Hy E. apply strict_sorted_NoDup in HS. revert x y Hx Hy E HS.
  induction xs as [|z zs IH]; intros x y Hx Hy E HS; [by apply elem_of_nil in Hx|].
  cbn in HS. apply NoDup_cons in HS as [Hn HS].
  apply elem_of_cons in Hx as [->|Hx], Hy as [->|Hy]; [done| | |by apply IH].
  - exfalso. apply Hn. rewrite E. by apply list_elem_of_fmap_2.
  - exfalso. apply Hn. rewrite <- E. by apply list_elem_of_fmap_2.
Qed.

(** Looking a row up by its installation. *)
Lemma find_installation {A} (inst cred : A → string) valid xs k :
  wf_rows inst cred valid xs →
  match List.find (λ x, inst x === k) xs with
  | Some x => x ∈ xs ∧ inst x = k
  | None => ∀ x, x ∈ xs → inst x ≠ k
  end.
Proof.
  intros HW. destruct (List.find _ xs) as [x|] eqn:E.
  - apply List.find_some in E as [Hx%list_elem_of_In Hk%bool_decide_eq_true]. done.
  - intros x Hx%list_elem_of_In Hk. pose proof (List.find_none _ _ E x Hx) as HN. cbn in HN.
    by rewrite bool_decide_eq_true_2 in HN.
Qed.

Lemma checkRows_Ok {A} (foreign : A → bool) rows u :
  checkRows foreign rows = Ok u ↔ ∃ xs, rows = map Some xs ∧ Forall (λ x, foreign x = false) xs.
Proof.
  unfold checkRows, forEach. destruct u. split.
  - intros H. inv_result. apply mapR_Ok in Hx. clear H.
    induction Hx as [|o z rows zs Ho _ (xs & -> & HF)]; [by exists []|].
    destruct o as [y|]; [|done]. exists (y :: xs). apply throw_if_Ok in Ho. by repeat split; constructor.
  - intros (xs & -> & HF). assert (HE : mapR (λ o : option A, match o with
      | Some row => throw_if (foreign row) DeliveryStateValidationError | None => Throw TypeError end)
      (map Some xs) = Ok (map (λ _, ()) xs)).
    { apply mapR_Ok. induction HF as [|x xs Hx _ IH]; cbn; constructor; [by rewrite Hx|done]. }
    by rewrite HE.
Qed.

Lemma forEach_iff {A} (f : A → bool) (xs : list A) e u :
  forEach (λ x, throw_if (f x) e) xs = Ok u ↔ Forall (λ x, f x = false) xs.
Proof.
  unfold forEach. destruct u. split.
  - intros H. inv_result. apply mapR_Ok in Hx. clear H.
    induction Hx as [|y z ys zs Hy _ IH]; constructor; [by apply throw_if_Ok in Hy|done].
  - intros HF. assert (HE : mapR (λ x, throw_if (f x) e) xs = Ok (map (λ _, ()) xs)).
    { apply mapR_Ok. induction HF as [|x xs Hx _ IH]; cbn; constructor; [by rewrite Hx|done]. }
    by rewrite HE.
Qed.

(** The routing test of the code is [ac_routed]. *)
Lemma routed_iff ros recs : wf_recipients recs →
  Forall (λ o, match List.find (λ p, f_installationId p === o_installationId o) recs with
               | None => true | Some route => negb (sameRecipientIdentity route o) end = false) ros ↔
  ∀ o, o ∈ ros → ∃ r, r ∈ recs ∧ sameRecipientIdentity r o = true.
Proof.
  intros HW. rewrite Forall_forall. apply forall_proper. intros o. split; intros H Ho; specialize (H Ho);
    pose proof (find_installation _ _ _ recs (o_installationId o) HW) as HF; destruct (List.find _ _) as [r|].
  - exists r. split; [by apply HF|]. by apply negb_false_iff.
  - done.
  - destruct H as (r' & Hr' & Hs). destruct HF as [Hr E].
    pose proof (proj1 (sameRecipientIdentity_spec r' o) Hs) as (_ & _ & _ & E' & _).
    assert (r = r') as -> by (eapply (wf_unique _ _ _ _ _ _ HW); [done..|congruence]). by rewrite Hs.
  - destruct H as (r' & Hr' & Hs).
    pose proof (proj1 (sameRecipientIdentity_spec r' o) Hs) as (_ & _ & _ & E' & _). by destruct (HF r' Hr').
Qed.

Lemma senderTest_iff M recs : wf_recipients recs →
  match List.find (λ p, f_installationId p === m_installationId M) recs with
  | None => true
  | Some sender =>
      (f_accountId sender !== m_accountId M) || (f_credentialId sender !== m_credentialId M)
      || (f_credentialFingerprint sender !== m_credentialFingerprint M)
      || (f_credentialRevocationVersion sender !== m_credentialRevocationVersion M)
      || (f_credentialState sender !== m_credentialState M)
      || (f_credentialExpiresAt sender !== m_credentialExpiresAt M)
      || (f_joinedPosition sender !== m_joinedPosition M)
      || bool_decide (m_removedPosition M ≠ None)
      || (f_removedPosition sender !== m_removedPosition M)
      || (f_installationState sender !== m_installationState M)
  end = false ↔ ∃ r, r ∈ recs ∧ isSender M r.
Proof.
  intros HW. pose proof (find_installation _ _ _ recs (m_installationId M) HW) as HF.
  destruct (List.find _ _) as [s|].
  - destruct HF as [Hs E]. split.
    + intros H. exists s. split; [done|]. unfold isSender. bsimp.
      assert (Hr : m_removedPosition M = None).
      { destruct (m_removedPosition M); [|done]. exfalso.
        match goal with H : ¬ (Some _ ≠ None) |- _ => by apply H end. }
      by rewrite Hr in *.
    + intros (r & Hr & HS). assert (s = r) as ->.
      { eapply (wf_unique _ _ _ _ _ _ HW); [done..|]. destruct HS as [-> _]. done. }
      destruct HS as (_ & -> & -> & -> & -> & -> & -> & -> & HM & HR & ->). rewrite HM, HR.
      rewrite !(bool_decide_eq_true_2 (_ = _)) by done. by rewrite bool_decide_eq_false_2 by by intros [].
  - split; [done|]. intros (r & Hr & [E _]). by destruct (HF r Hr).
Qed.

Lemma filter_length_le {A} (p : A → bool) xs : (length (List.filter p xs) <= length xs)%nat.
Proof. induction xs as [|x xs IH]; cbn; [done|]. destruct (p x); cbn; lia. Qed.

Lemma planIds_length ros recs p t : (length (planIds ros recs p t) <= length recs)%nat.
Proof.
  unfold planIds. rewrite (Permutation_length (sort_by_perm _ _)), length_map. apply filter_length_le.
Qed.

Lemma planIds_uuid ros recs p t : wf_recipients recs →
  Forall (λ s, is_uuid4 s = true) (planIds ros recs p t).
Proof.
  intros HW. unfold planIds. rewrite (sort_by_perm sle _). apply Forall_map.
  rewrite Forall_forall. intros r Hr%list_elem_of_In. apply filter_In in Hr as [Hr%list_elem_of_In _].
  pose proof (wr_valid _ _ _ _ HW) as HV. rewrite Forall_forall in HV. specialize (HV r Hr).
  unfold valid_recipient in HV. split_orb. done.
Qed.

Lemma planDigest_eq n :
  is_uuid4 (n_conversationId n) = true → is_positive_uint63 (n_conversationGeneration n) = true →
  is_uint63 (n_rosterVersion n) = true → is_hash32 (n_rosterHash n) = true →
  is_uint63 (n_recipientSetVersion n) = true → is_hash32 (n_recipientSetHash n) = true →
  is_positive_uint63 (n_position n) = true →
  Forall (λ s, is_uuid4 s = true) (n_recipientInstallationIds n) →
  Z.of_nat (length (n_recipientInstallationIds n)) <= APPLICATION_APPEND_RECIPIENT_INSTALLATIONS_HARD_MAX →
  computeApplicationAppendFanoutPlanDigest (n_conversationId n) (n_conversationGeneration n)
    (n_rosterVersion n) (n_rosterHash n) (n_recipientSetVersion n) (n_recipientSetHash n) (n_position n)
    (map Some (n_recipientInstallationIds n)) = Ok (sealed n).
Proof.
  intros ? ? ? ? ? ? ? HI HL. unfold computeApplicationAppendFanoutPlanDigest, sealed, planPreimage.
  assert (HE : map (λ o, match o with
      | Some s => utf8 <$> parseInstallationId (VString s) | None => Throw DeliveryValidationError end)
      (map Some (n_recipientInstallationIds n)) = map (λ s, Ok (utf8 s)) (n_recipientInstallationIds n)).
  { rewrite map_map. induction HI as [|s ss Hs _ IH]; [done|]. cbn [map]. rewrite IH.
    - unfold parseInstallationId. by rewrite (proj2 (parseUuidV4_Ok (VString s) s)) by done.
    - cbn in HL. lia. }
  rewrite HE. eapply (encodes_digest _ 128 (7 + length (n_recipientInstallationIds n) * 1)).
  - apply encodes_app; [encode_fields|]. rewrite Nat.mul_1_r. clear HE HL.
    induction HI as [|s ss Hs _ IH]; cbn; encode_fields. done.
  - lia.
  - by vm_compute.
  - unfold APPLICATION_APPEND_RECIPIENT_INSTALLATIONS_HARD_MAX, DEFAULT_MAX_BASE64URL_BYTES in *. lia.
Qed.

(** A derived plan, from its parsed inputs. *)
Lemma deriveParsed C p t ros recs :
  valid_conversation C = true → is_positive_uint63 p = true → wf_roster ros → wf_recipients recs →
  computeApplicationAppendFanoutPlanDigest (c_conversationId C) (c_generation C) (c_rosterVersion C)
    (c_rosterHash C) (c_recipientSetVersion C) (c_recipientSetHash C) p (map Some (planIds ros recs p t))
  = Ok (sealed (planWith C p (planIds ros recs p t) "")).
Proof.
  intros HC Hp HWo HWr. unfold valid_conversation in HC. split_orb.
  apply (planDigest_eq (planWith C p (planIds ros recs p t) "")); cbn; try done.
  - by apply planIds_uuid.
  - pose proof (planIds_length ros recs p t). pose proof (wr_bound _ _ _ _ HWr). lia.
Qed.

(** The derivation of a fan-out plan succeeds exactly when the conversation row
    commits, by hash, to the roster and the routing rows it is given, those are
    of its lane, every roster member is routed and the sender has its row; and
    it then returns the plan of those rows and nothing else. *)
Lemma derive_iff vC vM vp vt vmax vros vrecs plan :
  deriveApplicationAppendFanoutPlan vC vM vp vt vmax vros vrecs = Ok plan ↔
  ∃ C M p t max ros recs,
    parseLockedConversationState vC = Ok C ∧ parseLockedSenderMembership vM = Ok M ∧
    parsePositiveUint63 vp = Ok p ∧ parseRfc3339Millis vt = Ok t ∧ parsePositiveUint63 vmax = Ok max ∧
    BigInt max <= APPLICATION_APPEND_RECIPIENT_INSTALLATIONS_HARD_MAX ∧
    parseApplicationAppendRecipientProjections vrecs (VString max) = Ok (map Some recs) ∧
    parseApplicationAppendMlsRosterProjections vros (VString max) = Ok (map Some ros) ∧
    accepted C M p ros recs ∧ plan = thePlan C p (planIds ros recs p t).
Proof.
  unfold deriveApplicationAppendFanoutPlan. split.
  - intros H. inv_result. bsimp.
    match goal with H1 : checkRows _ _ = Ok _, H2 : checkRows _ _ = Ok _ |- _ =>
      apply checkRows_Ok in H1 as (recs & -> & HR); apply checkRows_Ok in H2 as (ros & -> & HO) end.
    repeat match goal with H : present (map Some ?l) = Ok _ |- _ =>
      rewrite (proj2 (present_Ok _ l) eq_refl) in H; injection H as <- end.
    assert (HWr : wf_recipients recs) by (eapply parseRows_wf; [apply parseRecipientProjection_valid|done|by apply present_Ok]).
    assert (HWo : wf_roster ros) by (eapply parseRows_wf; [apply parseMlsRosterProjection_valid|done|by apply present_Ok]).
    pose proof (parseLockedConversationState_valid _ _ Hx) as HC.
    assert (Hp : is_positive_uint63 x1 = true) by by apply parsePositiveUint63_Ok in Hx1 as [_ ?].
    fold (planIds ros recs x1 x2) in *.
    rewrite computeMlsRosterHash_eq in Hx12 by done. rewrite computeRecipientSetHash_eq in Hx14 by done.
    assert (E14 : x14 = c_recipientSetHash x) by done. rewrite E14, (deriveParsed x x1 x2 ros recs) in Hx19 by done.
    apply parseUint63String_Ok in Hx18 as [[= Hx18] _].
    exists x, x0, x1, x2, x3, ros, recs. split_and!; try done; [lia| |].
    + constructor; try done; [lia|..].
      * eapply Forall_impl; [exact HR|]. cbn. intros r Hr. by bsimp.
      * eapply Forall_impl; [exact HO|]. cbn. intros o Ho. by bsimp.
      * congruence.
      * congruence.
      * apply (routed_iff ros recs HWr). by apply forEach_iff in Hx16.
      * by apply (senderTest_iff x0 recs HWr).
    + subst plan. rewrite E14. unfold thePlan, planWith at 1. injection Hx19 as <-. by rewrite <- Hx18.
  - intros (C & M & p & t & max & ros & recs & HCv & HMv & Hpv & Htv & Hmv & HL & HRv & HOv & HA & ->).
    rewrite HCv, HMv, Hpv, Htv, Hmv. cbn [mbind result_bind]. rewrite (proj2 (Z.ltb_ge _ _)) by done.
    cbn [throw_if mbind result_bind]. rewrite HRv, HOv. cbn [mbind result_bind].
    assert (HWr : wf_recipients recs) by (eapply parseRows_wf; [apply parseRecipientProjection_valid|done|by apply present_Ok]).
    assert (HWo : wf_roster ros) by (eapply parseRows_wf; [apply parseMlsRosterProjection_valid|done|by apply present_Ok]).
    pose proof (parseLockedConversationState_valid _ _ HCv) as HC.
    assert (Hp : is_positive_uint63 p = true) by by apply parsePositiveUint63_Ok in Hpv as [_ ?].
    destruct HA as [A1 A2 A3 A4 A5 A6 A7 A8].
    rewrite A1, A2, Z.eqb_refl, (bool_decide_eq_true_2 (c_conversationId C = _)) by done. cbn [negb orb throw_if mbind result_bind].
    rewrite (proj2 (checkRows_Ok _ (map Some recs) ())).
    2:{ exists recs. split; [done|]. eapply Forall_impl; [exact A3|]. cbn. intros r (-> & -> & ->).
        by rewrite !bool_decide_eq_true_2. }
    cbn [mbind result_bind]. rewrite (proj2 (checkRows_Ok _ (map Some ros) ())).
    2:{ exists ros. split; [done|]. eapply Forall_impl; [exact A4|]. cbn. intros r (-> & -> & ->).
        by rewrite !bool_decide_eq_true_2. }
    cbn [mbind result_bind]. rewrite !(proj2 (present_Ok _ _) eq_refl). cbn [mbind result_bind].
    rewrite computeMlsRosterHash_eq, computeRecipientSetHash_eq by done. cbn [mbind result_bind].
    rewrite <- A5, <- A6, (bool_decide_eq_true_2 (c_rosterHash C = _)), (bool_decide_eq_true_2 (c_recipientSetHash C = _)) by done.
    cbn [negb throw_if mbind result_bind].
    rewrite (proj2 (forEach_iff _ ros _ ())) by by apply routed_iff. cbn [mbind result_bind].
    rewrite (proj2 (senderTest_iff M recs HWr)) by done. cbn [throw_if mbind result_bind].
    fold (planIds ros recs p t). pose proof (planIds_length ros recs p t) as HLen.
    pose proof (wr_bound _ _ _ _ HWr) as HB. unfold APPLICATION_APPEND_RECIPIENT_INSTALLATIONS_HARD_MAX in HB.
    assert (HU : ∀ k, k = length (planIds ros recs p t) →
      parseUint63String (VString (decimal (Z.of_nat k))) = Ok (decimal (Z.of_nat k))).
    { intros k ->. apply parseUint63String_Ok. split; [done|]. apply is_uint63_decimal. unfold UINT63_MAX. lia. }
    rewrite HU by done.
    cbn [mbind result_bind]. by rewrite (deriveParsed C p t ros recs).
Qed.

Lemma parsed_rows_wf vrecs vros max recs ros :
  parseApplicationAppendRecipientProjections vrecs max = Ok (map Some recs) →
  parseApplicationAppendMlsRosterProjections vros max = Ok (map Some ros) →
  wf_recipients recs ∧ wf_roster ros.
Proof.
  intros HR HO. split; eapply parseRows_wf; try done; try (by apply present_Ok);
    [apply parseRecipientProjection_valid|apply parseMlsRosterProjection_valid].
Qed.

Lemma planIds_sorted ros recs p t : wf_recipients recs →
  StronglySorted (λ s t, slt s t = true) (planIds ros recs p t).
Proof.
  intros HW. unfold planIds. rewrite <- (map_id (sort_by _ _)).
  apply (sort_by_strict (λ s : string, s)). rewrite map_id.
  pose proof (strict_sorted_NoDup _ (wr_sorted _ _ _ _ HW)) as HN. revert HN. clear.
  induction recs as [|r recs IH]; [done|]. cbn. intros [Hn HN]%NoDup_cons.
  destruct (receives _ _ _ _); [|by apply IH]. cbn. apply NoDup_cons. split; [|by apply IH].
  intros (r' & E & Hr')%list_elem_of_fmap. apply Hn. apply list_elem_of_fmap. exists r'. split; [done|].
  apply list_elem_of_In in Hr'. apply filter_In in Hr' as [Hr' _]. by apply list_elem_of_In.
Qed.

Lemma parsed_rows_bound vrecs max recs :
  parseApplicationAppendRecipientProjections vrecs (VString max) = Ok (map Some recs) →
  Z.of_nat (length recs) <= BigInt max.
Proof.
  intros HR. unfold parseApplicationAppendRecipientProjections, parseRows in HR. inv_result.
  apply sorted_no_holes in HR as (ys & -> & ->). rewrite (Permutation_length (sort_by_perm _ _)).
  destruct (parsePositiveUint63 (VString max)) as [m|] eqn:Em; [|done]. injection Hx as <-.
  apply parsePositiveUint63_Ok in Em as [[= ->] _]. apply boundedArray_Ok in Hx0 as [Hb _].
  apply mapR_Ok, Forall2_length in Hx1. rewrite length_map in Hx1. lia.
Qed.

Lemma elem_planIds ros recs p t k :
  k ∈ planIds ros recs p t ↔ ∃ r, r ∈ recs ∧ receives ros p t r = true ∧ f_installationId r = k.
Proof.
  unfold planIds. rewrite (sort_by_perm sle _), list_elem_of_fmap. split.
  - intros (r & -> & Hr%list_elem_of_In). apply filter_In in Hr as [Hr%list_elem_of_In HR]. by exists r.
  - intros (r & Hr & HR & <-). exists r. split; [done|]. apply list_elem_of_In, filter_In. split; [|done].
    by apply list_elem_of_In.
Qed.

Lemma receives_spec ros p t r :
  valid_recipient r = true → canonicalInstant t = true →
  receives ros p t r = true ↔
  (∃ o, o ∈ ros ∧ sameRecipientIdentity r o = true) ∧ BigInt (f_joinedPosition r) <= BigInt p ∧
  (∀ removed, f_removedPosition r = Some removed → BigInt p <= BigInt removed) ∧
  f_installationState r = inst_active ∧ f_credentialState r = cred_active ∧
  Date_parse t < Date_parse (f_credentialExpiresAt r).
Proof.
  intros HV Ht. assert (He : canonicalInstant (f_credentialExpiresAt r) = true).
  { unfold valid_recipient in HV. by split_orb. }
  unfold receives. rewrite slt_canonicalInstant by done. rewrite !andb_true_iff, !bool_decide_eq_true, Z.leb_le, Z.ltb_lt.
  assert (HE : existsb (λ member, (o_installationId member === f_installationId r)
      && sameRecipientIdentity r member) ros = true ↔ ∃ o, o ∈ ros ∧ sameRecipientIdentity r o = true).
  { rewrite existsb_exists. apply exist_proper. intros o. rewrite andb_true_iff, list_elem_of_In, bool_decide_eq_true.
    split; [tauto|]. intros [Ho HI]. split_and!; try done. by apply sameRecipientIdentity_spec in HI as (_ & _ & _ & -> & _). }
  rewrite HE. destruct (f_removedPosition r) as [removed|].
  - rewrite Z.leb_le. split.
    + intros [[[[[? ?] ?] ?] ?] ?]. split_and!; try done. by intros ? [= <-].
    + intros (? & ? & HX & ? & ? & ?). split_and!; try done. by apply HX.
  - split; [intros [[[[[? ?] ?] ?] ?] ?]|intros (? & ? & _ & ? & ? & ?)]; by split_and!.
Qed.

(** C13: Who is delivered to: exactly the installations of the roster that had
    joined and were not yet removed at that position, with active installation
    and credential and a credential not expired at that time; each once, in
    order, and at most as many as the caller allowed. *)
Theorem fanout_recipients vC vM vp vt vmax vros vrecs plan :
  deriveApplicationAppendFanoutPlan vC vM vp vt vmax vros vrecs = Ok plan →
  ∃ max t ros recs,
    parsePositiveUint63 vmax = Ok max ∧ parseRfc3339Millis vt = Ok t ∧
    parseApplicationAppendMlsRosterProjections vros (VString max) = Ok (map Some ros) ∧
    parseApplicationAppendRecipientProjections vrecs (VString max) = Ok (map Some recs) ∧
    StronglySorted (λ s t, slt s t = true) (n_recipientInstallationIds plan) ∧
    Z.of_nat (length (n_recipientInstallationIds plan)) <= BigInt max ∧
    (∀ o, o ∈ ros →
      (o_installationId o ∈ n_recipientInstallationIds plan ↔
       ∃ r, r ∈ recs ∧ f_installationId r = o_installationId o ∧ f_credentialId r = o_credentialId o ∧
         BigInt (f_joinedPosition r) <= BigInt (n_position plan) ∧
         (∀ removed, f_removedPosition r = Some removed → BigInt (n_position plan) <= BigInt removed) ∧
         f_installationState r = inst_active ∧ f_credentialState r = cred_active ∧
         Date_parse t < Date_parse (f_credentialExpiresAt r))) ∧
    (∀ id, id ∈ n_recipientInstallationIds plan → ∃ o, o ∈ ros ∧ o_installationId o = id).
Proof.
  intros (C & M & p & t & max & ros & recs & HC & _ & Hp & Ht & Hmax & HL & HR & HO & HA & ->)%derive_iff.
  destruct (parsed_rows_wf _ _ _ _ _ HR HO) as [HWr HWo].
  pose proof (wr_bound _ _ _ _ HWr) as HB.
  pose proof (parsed_rows_bound _ _ _ HR) as HM.
  exists max, t, ros, recs. cbn. split_and!; try done.
  - by apply planIds_sorted.
  - pose proof (planIds_length ros recs p t). lia.
  - intros o Ho. rewrite elem_planIds. apply exist_proper. intros r. split.
    + intros (Hr & HRc & E). pose proof (ac_routed _ _ _ _ _ HA o Ho) as (r' & Hr' & HI).
      pose proof (proj1 (sameRecipientIdentity_spec r' o) HI) as (_ & _ & _ & E' & Ec & _).
      assert (r = r') as <- by (eapply (wf_unique _ _ _ _ _ _ HWr); [done..|congruence]).
      apply receives_spec in HRc as (_ & HRc); [done|by eapply Forall_forall in Hr; [exact Hr|apply HWr]|].
      by apply parseRfc3339Millis_Ok in Ht as [_ ?].
    + intros (Hr & E & _ & HRc). split_and!; [done| |done].
      apply receives_spec; [by eapply Forall_forall in Hr; [exact Hr|apply HWr]| |].
      * by apply parseRfc3339Millis_Ok in Ht as [_ ?].
      * split; [|done]. pose proof (ac_routed _ _ _ _ _ HA o Ho) as (r' & Hr' & HI).
        pose proof (proj1 (sameRecipientIdentity_spec r' o) HI) as (_ & _ & _ & E' & _).
        assert (r = r') as -> by (eapply (wf_unique _ _ _ _ _ _ HWr); [done..|congruence]). by exists o.
  - intros k (r & Hr & HRc & <-)%elem_planIds.
    apply receives_spec in HRc as ((o & Ho & HI) & _); [|by eapply Forall_forall in Hr; [exact Hr|apply HWr]|].
    + exists o. split; [done|]. by apply sameRecipientIdentity_spec in HI as (_ & _ & _ & -> & _).
    + by apply parseRfc3339Millis_Ok in Ht as [_ ?].
Qed.

(** Whoever assembles the rows, one conversation row, position and time have one
    plan: two derivations agree, unless a SHA-256 collision between the two
    rosters or the two sets of routing rows is exhibited. *)
Theorem fanout_determined vC vM vM' vp vt vmax vmax' vros vros' vrecs vrecs' plan plan' :
  deriveApplicationAppendFanoutPlan vC vM vp vt vmax vros vrecs = Ok plan →
  deriveApplicationAppendFanoutPlan vC vM' vp vt vmax' vros' vrecs' = Ok plan' →
  plan = plan' ∨
  ∃ max max' ros ros' recs recs',
    parseApplicationAppendMlsRosterProjections vros max = Ok (map Some ros) ∧
    parseApplicationAppendMlsRosterProjections vros' max' = Ok (map Some ros') ∧
    parseApplicationAppendRecipientProjections vrecs max = Ok (map Some recs) ∧
    parseApplicationAppendRecipientProjections vrecs' max' = Ok (map Some recs') ∧
    (collision [rosterPreimage ros] [rosterPreimage ros'] ∨
     collision [recipientSetPreimage recs] [recipientSetPreimage recs']).
Proof.
  intros (C & M & p & t & max & ros & recs & HC & _ & Hp & Ht & _ & _ & HR & HO & HA & ->)%derive_iff
    (C' & M' & p' & t' & max' & ros' & recs' & HC' & _ & Hp' & Ht' & _ & _ & HR' & HO' & HA' & ->)%derive_iff.
  assert (C' = C) as -> by congruence. assert (p' = p) as -> by congruence. assert (t' = t) as -> by congruence.
  destruct (parsed_rows_wf _ _ _ _ _ HR HO) as [HWr HWo], (parsed_rows_wf _ _ _ _ _ HR' HO') as [HWr' HWo'].
  pose proof (ac_rosterHash _ _ _ _ _ HA) as E1. pose proof (ac_rosterHash _ _ _ _ _ HA') as E1'.
  pose proof (ac_recipientSetHash _ _ _ _ _ HA) as E2. pose proof (ac_recipientSetHash _ _ _ _ _ HA') as E2'.
  destruct (rosterHash_binding ros ros' (c_rosterHash C)) as [->|HX]; try done;
    [by rewrite computeMlsRosterHash_eq, E1|by rewrite computeMlsRosterHash_eq, E1'| |].
  - destruct (recipientSetHash_binding recs recs' (c_recipientSetHash C)) as [->|HX]; try done;
      [by rewrite computeRecipientSetHash_eq, E2|by rewrite computeRecipientSetHash_eq, E2'|by left|].
    right. exists (VString max), (VString max'), ros', ros', recs, recs'. by split_and!; try right.
  - right. exists (VString max), (VString max'), ros, ros', recs, recs'. by split_and!; try left.
Qed.

(** ** Plans and evidence at rest *)

Definition plan_obj (n : ApplicationAppendFanoutPlan) : unknown :=
  obj [("conversationId", VString (n_conversationId n));
       ("conversationGeneration", VString (n_conversationGeneration n));
       ("rosterVersion", VString (n_rosterVersion n)); ("rosterHash", VString (n_rosterHash n));
       ("recipientSetVersion", VString (n_recipientSetVersion n));
       ("recipientSetHash", VString (n_recipientSetHash n)); ("position", VString (n_position n));
       ("recipientInstallationIds", arr (map VString (n_recipientInstallationIds n)));
       ("recipientCount", VString (n_recipientCount n)); ("planDigest", VString (n_planDigest n))].

Record valid_plan (max : Z) (n : ApplicationAppendFanoutPlan) : Prop := {
  vp_conversationId : is_uuid4 (n_conversationId n) = true;
  vp_generation : is_positive_uint63 (n_conversationGeneration n) = true;
  vp_rosterVersion : is_uint63 (n_rosterVersion n) = true;
  vp_rosterHash : is_hash32 (n_rosterHash n) = true;
  vp_recipientSetVersion : is_uint63 (n_recipientSetVersion n) = true;
  vp_recipientSetHash : is_hash32 (n_recipientSetHash n) = true;
  vp_position : is_positive_uint63 (n_position n) = true;
  vp_ids : Forall (λ s, is_uuid4 s = true) (n_recipientInstallationIds n);
  vp_sorted : StronglySorted (λ s t, slt s t = true) (n_recipientInstallationIds n);
  vp_bound : Z.of_nat (length (n_recipientInstallationIds n))
    <= Z.min max APPLICATION_APPEND_RECIPIENT_INSTALLATIONS_HARD_MAX;
  vp_count : n_recipientCount n = decimal (Z.of_nat (length (n_recipientInstallationIds n)));
  vp_digest : n_planDigest n = sealed n;
}.

Lemma descends_sorted ids : StronglySorted (λ s t, slt s t = true) ids →
  ∀ o, match o, ids with Some p, x :: _ => slt p x = true | _, _ => True end →
  descends o (map Some ids) = false.
Proof.
  induction 1 as [|x xs HS IH HF]; intros o Ho; [done|]. cbn. apply orb_false_iff. split.
  - destruct o as [p|]; [|done]. unfold sle. by rewrite Ho.
  - apply IH. destruct xs as [|y ys]; [done|]. by apply Forall_cons in HF as [HF _].
Qed.

Lemma descends_strict ids : descends None (map Some ids) = false → StronglySorted (λ s t, slt s t = true) ids.
Proof.
  assert (HT : ∀ s t u, slt s t = true → slt t u = true → slt s u = true).
  { intros s t u. apply str_ltb_trans. }
  intros H. apply Sorted_StronglySorted; [intros ? ? ?; apply HT|].
  revert H. generalize (None : option InstallationId). induction ids as [|x xs IH]; intros o H; [constructor|].
  cbn in H. apply orb_false_iff in H as [_ H]. constructor; [by eapply IH|].
  destruct xs as [|y ys]; constructor. cbn in H. apply orb_false_iff in H as [H _].
  unfold sle in H. by apply negb_false_iff in H.
Qed.

Lemma is_hash32_sealed n : is_hash32 (sealed n) = true.
Proof. apply is_hash32_encode, sha256_length. Qed.

Lemma valid_plan_digest max n : valid_plan max n →
  computeApplicationAppendFanoutPlanDigest (n_conversationId n) (n_conversationGeneration n)
    (n_rosterVersion n) (n_rosterHash n) (n_recipientSetVersion n) (n_recipientSetHash n) (n_position n)
    (map Some (n_recipientInstallationIds n)) = Ok (sealed n).
Proof. intros []. apply planDigest_eq; try done. lia. Qed.

Lemma parseFanoutPlan_obj max n : is_positive_uint63 max = true → valid_plan (BigInt max) n →
  parseApplicationAppendFanoutPlan (plan_obj n) (VString max) = Ok n.
Proof.
  intros Hm HV. pose proof (valid_plan_digest _ _ HV) as HD. pose proof HV as []. unfold parseApplicationAppendFanoutPlan, plan_obj.
  rewrite expectExactRecord_obj; [|reflexivity|by apply (bool_decide_unpack _); vm_compute|by repeat constructor].
  cbn [mbind result_bind]. remember (arr (map VString (n_recipientInstallationIds n))) as idv eqn:Ei.
  read_fields. run_row_parsers. cbn [fmap result_fmap mbind result_bind].
  assert (HL : length (map VString (n_recipientInstallationIds n)) = length (n_recipientInstallationIds n))
    by apply length_map.
  subst idv. rewrite boundedArray_arr; [|rewrite HL; lia|done]. cbn [mbind result_bind].
  rewrite (mapArray_Some _ _ (n_recipientInstallationIds n)).
  2:{ clear -vp_ids0. induction vp_ids0; cbn; constructor; [|done]. by apply parseUuidV4_Ok. }
  cbn [mbind result_bind]. rewrite (descends_sorted _ vp_sorted0 None) by done.
  unfold hasDuplicates. rewrite bool_decide_eq_true_2 by by apply NoDup_Some, strict_sorted_NoDup.
  cbn [negb orb throw_if mbind result_bind].
  assert (Hc : is_uint63 (n_recipientCount n) = true).
  { rewrite vp_count0. apply is_uint63_decimal. unfold UINT63_MAX, APPLICATION_APPEND_RECIPIENT_INSTALLATIONS_HARD_MAX in *. lia. }
  assert (Hd : is_hash32 (n_planDigest n) = true) by (rewrite vp_digest0; apply is_hash32_sealed).
  run_row_parsers. rewrite length_map, vp_count0, (proj2 (decimal_spec _ (Zle_0_nat _))), Z.eqb_refl.
  cbn [negb throw_if mbind result_bind]. rewrite HD. cbn [mbind result_bind].
  rewrite bool_decide_eq_true_2 by done. cbn [negb throw_if mbind result_bind].
  assert (HO : omap id (map Some (n_recipientInstallationIds n)) = n_recipientInstallationIds n).
  { generalize (n_recipientInstallationIds n). intros l. induction l as [|x l IH]; [done|]. cbn. by rewrite IH. }
  rewrite HO, <- vp_count0. by destruct n.
Qed.

Lemma derived_max vC vM vp vt vmax vros vrecs plan :
  deriveApplicationAppendFanoutPlan vC vM vp vt vmax vros vrecs = Ok plan →
  ∃ max, vmax = VString max ∧ is_positive_uint63 max = true ∧
    Z.of_nat (length (n_recipientInstallationIds plan)) <= BigInt max.
Proof.
  intros (C & M & p & t & max & ros & recs & _ & _ & _ & _ & Hmax & _ & HR & _ & _ & ->)%derive_iff.
  apply parsePositiveUint63_Ok in Hmax as [-> Hm]. exists max. split_and!; try done. cbn.
  pose proof (planIds_length ros recs p t). pose proof (parsed_rows_bound _ _ _ HR). lia.
Qed.

(** A derived plan, stored and read back under the same ceiling, is itself. *)
Theorem fanoutPlan_roundtrip vC vM vp vt vmax vros vrecs plan :
  deriveApplicationAppendFanoutPlan vC vM vp vt vmax vros vrecs = Ok plan →
  parseApplicationAppendFanoutPlan (plan_obj plan) vmax = Ok plan.
Proof.
  intros HD. pose proof (derived_max _ _ _ _ _ _ _ _ HD) as (max & -> & Hm & HLm).
  apply derive_iff in HD
    as (C & M & p & t & max' & ros & recs & HC & _ & Hp & Ht & Hmax & HL & HR & HO & HA & ->).
  destruct (parsed_rows_wf _ _ _ _ _ HR HO) as [HWr HWo].
  apply parsePositiveUint63_Ok in Hp as [_ Hp]. apply parseLockedConversationState_valid in HC.
  apply parseFanoutPlan_obj; [done|]. pose proof (planIds_length ros recs p t). pose proof (wr_bound _ _ _ _ HWr).
  unfold valid_conversation in HC. split_orb. constructor; cbn; try done.
  - by apply planIds_uuid.
  - by apply planIds_sorted.
  - cbn in HLm. lia.
Qed.

Definition evidence_obj (e : ApplicationAppendFanoutEvidence) : unknown :=
  obj [("profile", VString "application-append-fanout.v1"); ("status", VString "committed");
       ("conversationId", VString (v_conversationId e)); ("envelopeId", VString (v_envelopeId e));
       ("position", VString (v_position e)); ("headHash", VString (v_headHash e));
       ("rosterHash", VString (v_rosterHash e)); ("planDigest", VString (v_planDigest e));
       ("recipientCount", VString (v_recipientCount e));
       ("mailboxProjectionDigest", VString (v_mailboxProjectionDigest e));
       ("outboxProjectionDigest", VString (v_outboxProjectionDigest e));
       ("evidenceDigest", VString (v_evidenceDigest e))].

Lemma mailboxDigest_ok max n k : valid_plan max n → is_uuid4 k = true →
  ∃ h, computeApplicationAppendMailboxProjectionDigest n k = Ok h.
Proof.
  intros [] Hk. assert (Hd : is_hash32 (n_planDigest n) = true) by (rewrite vp_digest0; apply is_hash32_sealed).
  assert (Hc : short (n_recipientCount n)).
  { apply is_uint63_short. rewrite vp_count0. apply is_uint63_decimal.
    unfold UINT63_MAX, APPLICATION_APPEND_RECIPIENT_INSTALLATIONS_HARD_MAX in *. lia. }
  eexists. eapply (encodes_digest _ 128 (5 + length (n_recipientInstallationIds n) * 1)).
  - apply encodes_app; [encode_fields|]. rewrite Nat.mul_1_r. clear -vp_ids0.
    induction vp_ids0 as [|s ss Hs _ IH]; cbn; encode_fields. done.
  - lia.
  - by vm_compute.
  - unfold APPLICATION_APPEND_RECIPIENT_INSTALLATIONS_HARD_MAX, DEFAULT_MAX_BASE64URL_BYTES in *. lia.
Qed.

Lemma outboxDigest_ok c k p h : is_uuid4 c = true → is_uuid4 k = true → is_positive_uint63 p = true →
  is_hash32 h = true → ∃ d, computeApplicationAppendOutboxProjectionDigest c k p h = Ok d.
Proof.
  intros. eexists. eapply (encodes_digest _ 128 4); [encode_fields|lia|by vm_compute|].
  unfold DEFAULT_MAX_BASE64URL_BYTES. lia.
Qed.

(** For a plan, an envelope and a head there is exactly one evidence record:
    it is accepted, and whatever else is accepted is that record. *)
Theorem fanoutEvidence_exact max n k h :
  valid_plan max n → is_uuid4 k = true → is_hash32 h = true →
  ∃ e, parseApplicationAppendFanoutEvidence (evidence_obj e) n k h = Ok e ∧
    v_conversationId e = n_conversationId n ∧ v_envelopeId e = k ∧ v_headHash e = h ∧
    v_planDigest e = n_planDigest n ∧ v_recipientCount e = n_recipientCount n ∧
    ∀ v e', parseApplicationAppendFanoutEvidence v n k h = Ok e' → e' = e.
Proof.
  intros HV Hk Hh. destruct (mailboxDigest_ok max n k HV Hk) as (m & Em).
  pose proof HV as []. destruct (outboxDigest_ok (n_conversationId n) k (n_position n) h) as (o & Eo); try done.
  assert (Hd : is_hash32 (n_planDigest n) = true) by (rewrite vp_digest0; apply is_hash32_sealed).
  assert (Hc : is_uint63 (n_recipientCount n) = true).
  { rewrite vp_count0. apply is_uint63_decimal.
    unfold UINT63_MAX, APPLICATION_APPEND_RECIPIENT_INSTALLATIONS_HARD_MAX in *. lia. }
  pose proof (fieldsDigest_hash _ _ _ Em) as Hm. pose proof (fieldsDigest_hash _ _ _ Eo) as Ho.
  set (draft d := {| v_conversationId := n_conversationId n; v_envelopeId := k; v_position := n_position n;
    v_headHash := h; v_rosterHash := n_rosterHash n; v_planDigest := n_planDigest n;
    v_recipientCount := n_recipientCount n; v_mailboxProjectionDigest := m; v_outboxProjectionDigest := o;
    v_evidenceDigest := d |}).
  assert (ED : ∃ d, ∀ x, computeApplicationAppendFanoutEvidenceDigest (draft x) = Ok d).
  { assert (ED0 : ∃ d, computeApplicationAppendFanoutEvidenceDigest (draft "") = Ok d).
    { eexists. pose proof (is_uint63_short _ Hc).
      eapply (encodes_digest _ 128 10); [|lia|by vm_compute|unfold DEFAULT_MAX_BASE64URL_BYTES; lia].
      encode_fields. }
    destruct ED0 as [d Ed]. exists d. intros x. exact Ed. }
  destruct ED as [d Ed]. pose proof (fieldsDigest_hash _ _ _ (Ed "")) as HdD.
  exists (draft d). split_and!; try done.
  - unfold parseApplicationAppendFanoutEvidence, evidence_obj.
    rewrite expectExactRecord_obj; [|reflexivity|by apply (bool_decide_unpack _); vm_compute|by repeat constructor].
    cbn [mbind result_bind draft v_conversationId v_envelopeId v_position v_headHash v_rosterHash v_planDigest
      v_recipientCount v_mailboxProjectionDigest v_outboxProjectionDigest v_evidenceDigest].
    read_fields. unfold parseEnvelopeId. run_row_parsers. rewrite Em. cbn [mbind result_bind]. rewrite Eo.
    cbn [mbind result_bind]. run_row_parsers. cbn [isString].
    rewrite !(bool_decide_eq_true_2 (_ = _)) by done. cbn [negb orb throw_if mbind result_bind].
    fold (draft d). rewrite Ed. cbn [mbind result_bind]. by rewrite bool_decide_eq_true_2 by done.
  - intros v e' H. unfold parseApplicationAppendFanoutEvidence in H. inv_result. bsimp. subst e'.
    repeat match goal with H : parseEnvelopeId _ = Ok _ |- _ => clear H
      | H : parseHash32 _ = Ok _ |- _ => clear H end.
    subst. rewrite Em in *. rewrite Eo in *.
    repeat match goal with H : Ok _ = Ok _ |- _ => injection H as <- end.
    match goal with H : computeApplicationAppendFanoutEvidenceDigest _ = Ok _ |- _ =>
      change (computeApplicationAppendFanoutEvidenceDigest (draft x13) = Ok x13) in H; rewrite Ed in H;
      by injection H as <- end.
Qed.
End Plans.

(** ** A worked plan *)

#[local] Existing Instance fips_sha256.

Definition second_account : string := "a1b2c3d4-0000-4000-8000-000000000012".
Definition second_installation : string := "a1b2c3d4-0000-4000-8000-000000000013".
Definition second_credential : string := "a1b2c3d4-0000-4000-8000-000000000014".

Definition sender_row : ApplicationAppendRecipientProjection := {|
  f_conversationId := sample_conversation; f_conversationGeneration := "1";
  f_recipientSetVersion := "3"; f_accountId := account_id; f_installationId := installation_id;
  f_credentialId := credential_id; f_credentialFingerprint := sample_hash;
  f_credentialRevocationVersion := "3"; f_credentialState := cred_active;
  f_credentialExpiresAt := "2024-06-01T00:00:00.000Z"; f_joinedPosition := "5";
  f_removedPosition := None; f_installationState := inst_active |}.
Definition second_row (removed : option Uint63String) : ApplicationAppendRecipientProjection := {|
  f_conversationId := sample_conversation; f_conversationGeneration := "1";
  f_recipientSetVersion := "3"; f_accountId := second_account;
  f_installationId := second_installation; f_credentialId := second_credential;
  f_credentialFingerprint := sample_hash; f_credentialRevocationVersion := "1";
  f_credentialState := cred_active; f_credentialExpiresAt := "2024-06-01T00:00:00.000Z";
  f_joinedPosition := "7"; f_removedPosition := removed; f_installationState := inst_active |}.
Definition member_of (r : ApplicationAppendRecipientProjection) : ApplicationAppendMlsRosterProjection := {|
  o_conversationId := f_conversationId r; o_conversationGeneration := f_conversationGeneration r;
  o_rosterVersion := "3"; o_accountId := f_accountId r; o_installationId := f_installationId r;
  o_credentialId := f_credentialId r; o_credentialFingerprint := f_credentialFingerprint r |}.

(** The second device was removed at position 40, before the append at 42. *)
Definition sample_routes : list ApplicationAppendRecipientProjection :=
  [sender_row; second_row (Some "40")].
Definition sample_roster : list ApplicationAppendMlsRosterProjection := map member_of sample_routes.
Definition roster_hash : Hash32 :=
  Eval vm_compute in valueOf "" (computeApplicationAppendMlsRosterHash sample_roster).
Definition routes_hash : Hash32 :=
  Eval vm_compute in valueOf "" (computeApplicationAppendRecipientSetHash sample_routes).
Definition committed_state : LockedConversationState := {|
  c_realmId := c_realmId sample_state; c_conversationId := c_conversationId sample_state;
  c_projectScopeId := c_projectScopeId sample_state; c_tenantScopeId := c_tenantScopeId sample_state;
  c_kind := c_kind sample_state; c_generation := c_generation sample_state;
  c_releaseProfileId := c_releaseProfileId sample_state;
  c_deliveryLimitsDigest := c_deliveryLimitsDigest sample_state;
  c_releaseTrustRootDigest := c_releaseTrustRootDigest sample_state;
  c_quotaPolicyDigest := c_quotaPolicyDigest sample_state; c_groupIdHash := c_groupIdHash sample_state;
  c_state := c_state sample_state; c_etag := c_etag sample_state; c_epoch := c_epoch sample_state;
  c_rosterVersion := c_rosterVersion sample_state; c_rosterHash := roster_hash;
  c_recipientSetVersion := c_recipientSetVersion sample_state; c_recipientSetHash := routes_hash;
  c_confirmedTranscriptHash := c_confirmedTranscriptHash sample_state;
  c_lastPosition := c_lastPosition sample_state;
  c_currentLogHeadHash := c_currentLogHeadHash sample_state;
  c_currentPolicyHeadSequence := c_currentPolicyHeadSequence sample_state;
  c_currentPolicyHeadHash := c_currentPolicyHeadHash sample_state |}.

Definition sample_plan : ApplicationAppendFanoutPlan :=
  Eval vm_compute in valueOf (planWith sample_state "" [] "")
  (deriveApplicationAppendFanoutPlan (conversation_obj committed_state) (membership_obj sample_membership)
    (VString "42") (VString sample_now) (VString "10") (arr (map roster_obj sample_roster))
    (arr (map recipient_obj sample_routes))).
Lemma sample_derives :
  deriveApplicationAppendFanoutPlan (conversation_obj committed_state) (membership_obj sample_membership)
    (VString "42") (VString sample_now) (VString "10") (arr (map roster_obj sample_roster))
    (arr (map recipient_obj sample_routes)) = Ok sample_plan.
Proof. vm_compute. reflexivity. Qed.
Example sample_plan_ids : n_recipientInstallationIds sample_plan = [installation_id].
Proof. reflexivity. Qed.

Lemma sample_plan_valid : valid_plan 10 sample_plan.
Proof.
  constructor; [vm_compute; reflexivity..|repeat constructor|repeat constructor|vm_compute; discriminate
    |vm_compute; reflexivity|vm_compute; reflexivity].
Qed.

Lemma fanout_recipients_witness :
  StronglySorted (λ s t, slt s t = true) (n_recipientInstallationIds sample_plan) ∧
  ∀ id, id ∈ n_recipientInstallationIds sample_plan →
    ∃ max ros o, parseApplicationAppendMlsRosterProjections (arr (map roster_obj sample_roster)) (VString max)
        = Ok (map Some ros) ∧ o ∈ ros ∧ o_installationId o = id.
Proof.
  destruct (fanout_recipients _ _ _ _ _ _ _ _ sample_derives)
    as (max & t & ros & recs & _ & _ & HO & _ & HS & _ & _ & HI).
  split; [exact HS|]. intros id Hid. destruct (HI id Hid) as (o & Ho & E). exists max, ros, o.
  exact (conj HO (conj Ho E)).
Defined.

Lemma fanout_determined_witness :
  sample_plan = sample_plan ∨
  ∃ max max' ros ros' recs recs',
    parseApplicationAppendMlsRosterProjections (arr (map roster_obj sample_roster)) max = Ok (map Some ros) ∧
    parseApplicationAppendMlsRosterProjections (arr (map roster_obj sample_roster)) max' = Ok (map Some ros') ∧
    parseApplicationAppendRecipientProjections (arr (map recipient_obj sample_routes)) max = Ok (map Some recs) ∧
    parseApplicationAppendRecipientProjections (arr (map recipient_obj sample_routes)) max' = Ok (map Some recs') ∧
    (collision [rosterPreimage ros] [rosterPreimage ros'] ∨
     collision [recipientSetPreimage recs] [recipientSetPreimage recs']).
Proof. exact (fanout_determined _ _ _ _ _ _ _ _ _ _ _ _ _ sample_derives sample_derives). Defined.

Lemma fanoutPlan_roundtrip_witness :
  parseApplicationAppendFanoutPlan (plan_obj sample_plan) (VString "10") = Ok sample_plan.
Proof. exact (fanoutPlan_roundtrip _ _ _ _ _ _ _ _ sample_derives). Defined.

Lemma fanoutEvidence_exact_witness :
  ∃ e, parseApplicationAppendFanoutEvidence (evidence_obj e) sample_plan sample_conversation sample_head = Ok e ∧
    v_recipientCount e = "1".
Proof.
  destruct (fanoutEvidence_exact 10 sample_plan sample_conversation sample_head sample_plan_valid)
    as (e & He & _ & _ & _ & _ & Hc & _); [vm_compute; reflexivity|vm_compute; reflexivity|].
  exists e. exact (conj He Hc).
Defined.
