(* ===== verification/PolicyProof.v ===== *)
(** * Policy-head proofs ([src/production/delivery/state.ts])

    The parsed evidence that a conversation's policy head was signed,
    witnessed and current: what it is checked against, its validity window, its
    digest, and the refresh of a locked snapshot from a newer proof. *)

From stdpp Require Import base list strings.
From Stdlib Require Import ZArith Lia Ascii.
From S2P Require Import Prelude Sha256 Base64Url JsTime JsValue ValueObjects Hashes Limits Quota AppendState AppendEval SnapshotBinding AppendSamples SnapshotRows.

Definition parseRequiredLiteral (value : unknown) (expected : string) : result string :=
  throw_if (negb (isString value expected)) DeliveryStateValidationError;; Ok expected.

(** The fields expectation and evidence have in common are read in one order;
    the time of the verification comes later. *)
Definition parseProofAnchors (record : record) :
  result (Rfc3339Millis → PolicyHeadProofExpectation) :=
  realmId ← parsePolicyRealmId record.["realmId"];
  conversationGeneration ← parsePositiveUint63 record.["conversationGeneration"];
  releaseTrustRootDigest ← parseHash32 record.["releaseTrustRootDigest"];
  purpose ← parseOneOf record.["purpose"];
  releaseProfileId ← parseReleaseProfileId record.["releaseProfileId"];
  deliveryLimitsDigest ← parseHash32 record.["deliveryLimitsDigest"];
  conversationId ← parseConversationId record.["conversationId"];
  policyHeadId ← parsePolicyHeadId record.["policyHeadId"];
  policyHeadSequence ← parsePositiveUint63 record.["policyHeadSequence"];
  policyHeadHash ← parseNonZeroHash32 record.["policyHeadHash"];
  deliveryLogPosition ← parseUint63String record.["deliveryLogPosition"];
  deliveryLogHeadHash ← parseHash32 record.["deliveryLogHeadHash"];
  evaluationLogPosition ← parseUint63String record.["evaluationLogPosition"];
  evaluationLogHeadHash ← parseHash32 record.["evaluationLogHeadHash"];
  epoch ← parseUint63String record.["epoch"];
  rosterVersion ← parseUint63String record.["rosterVersion"];
  confirmedTranscriptHash ← parseHash32 record.["confirmedTranscriptHash"];
  policyRevision ← parsePositiveUint63 record.["policyRevision"];
  mandatoryProposalCount ← parseMandatoryProposalCount record.["mandatoryProposalCount"];
  mandatoryProposalSetHash ← parseHash32 record.["mandatoryProposalSetHash"];
  authorizedSendGrantSetHash ← parseHash32 record.["authorizedSendGrantSetHash"];
  selectedSendGrantEvidenceDigest ← parseHash32 record.["selectedSendGrantEvidenceDigest"];
  selectedSendGrantInclusionEvidenceDigest ← parseHash32 record.["selectedSendGrantInclusionEvidenceDigest"];
  authorizedQuotaPolicyDigest ← parseHash32 record.["authorizedQuotaPolicyDigest"];
  priorPolicyHeadSequence ← parseUint63String record.["priorPolicyHeadSequence"];
  priorPolicyHeadHash ← parseHash32 record.["priorPolicyHeadHash"];
  priorPolicyWitnessCheckpointId ← parseWitnessCheckpointId record.["priorPolicyWitnessCheckpointId"];
  priorPolicyWitnessEvidenceDigest ← parseHash32 record.["priorPolicyWitnessEvidenceDigest"];
  Ok (λ verifiedAt, {|
        x_realmId := realmId; x_conversationGeneration := conversationGeneration;
        x_releaseTrustRootDigest := releaseTrustRootDigest; x_purpose := purpose;
        x_releaseProfileId := releaseProfileId; x_deliveryLimitsDigest := deliveryLimitsDigest;
        x_conversationId := conversationId; x_policyHeadId := policyHeadId; x_policyHeadSequence
        := policyHeadSequence; x_policyHeadHash := policyHeadHash; x_deliveryLogPosition :=
        deliveryLogPosition; x_deliveryLogHeadHash := deliveryLogHeadHash;
        x_evaluationLogPosition := evaluationLogPosition; x_evaluationLogHeadHash :=
        evaluationLogHeadHash; x_epoch := epoch; x_rosterVersion := rosterVersion;
        x_confirmedTranscriptHash := confirmedTranscriptHash; x_policyRevision :=
        policyRevision; x_mandatoryProposalCount := mandatoryProposalCount;
        x_mandatoryProposalSetHash := mandatoryProposalSetHash; x_authorizedSendGrantSetHash :=
        authorizedSendGrantSetHash; x_selectedSendGrantEvidenceDigest :=
        selectedSendGrantEvidenceDigest; x_selectedSendGrantInclusionEvidenceDigest :=
        selectedSendGrantInclusionEvidenceDigest; x_authorizedQuotaPolicyDigest :=
        authorizedQuotaPolicyDigest; x_priorPolicyHeadSequence := priorPolicyHeadSequence;
        x_priorPolicyHeadHash := priorPolicyHeadHash; x_priorPolicyWitnessCheckpointId :=
        priorPolicyWitnessCheckpointId; x_priorPolicyWitnessEvidenceDigest :=
        priorPolicyWitnessEvidenceDigest; x_verifiedAt := verifiedAt |}).

Definition isNull_hash (h : Hash32) : bool := h === ZERO_HASH32.

Definition parsePolicyHeadProofExpectation (value : unknown) : result PolicyHeadProofExpectation :=
  record ← expectExactRecord value
    ["realmId"; "conversationGeneration"; "releaseTrustRootDigest"; "releaseProfileId";
     "deliveryLimitsDigest"; "purpose"; "conversationId"; "policyHeadId"; "policyHeadSequence";
     "policyHeadHash"; "deliveryLogPosition"; "deliveryLogHeadHash"; "evaluationLogPosition";
     "evaluationLogHeadHash"; "epoch"; "rosterVersion"; "confirmedTranscriptHash";
     "policyRevision"; "mandatoryProposalCount"; "mandatoryProposalSetHash";
     "authorizedSendGrantSetHash"; "selectedSendGrantEvidenceDigest";
     "selectedSendGrantInclusionEvidenceDigest"; "authorizedQuotaPolicyDigest";
     "priorPolicyHeadSequence"; "priorPolicyHeadHash"; "priorPolicyWitnessCheckpointId";
     "priorPolicyWitnessEvidenceDigest"; "verifiedAt"];
  anchors ← parseProofAnchors record;
  verifiedAt ← parseRfc3339Millis record.["verifiedAt"];
  let parsed := anchors verifiedAt in
  let grant := isNull_hash (x_selectedSendGrantEvidenceDigest parsed) in
  let inclusion := isNull_hash (x_selectedSendGrantInclusionEvidenceDigest parsed) in
  throw_if (anchorMismatch (x_priorPolicyHeadSequence parsed) (x_priorPolicyHeadHash parsed)
            || anchorMismatch (x_deliveryLogPosition parsed) (x_deliveryLogHeadHash parsed)
            || anchorMismatch (x_evaluationLogPosition parsed) (x_evaluationLogHeadHash parsed)
            || ((x_purpose parsed === append_authorization) && (grant || inclusion))
            || ((x_purpose parsed === historical_page) && (negb grant || negb inclusion)))
    DeliveryStateValidationError;;
  Ok parsed.

Section PolicyProof.
Context `{SHA : Sha256}.

(** The validity and binding test of a parsed proof. *)
Definition proofInconsistent (parsed : PolicyHeadProofBody) : bool :=
  let x := k_expectation parsed in
  (k_witnessedPolicyHeadHash parsed !== x_policyHeadHash x)
  || ((x_purpose x === append_authorization)
      && ((BigInt (x_policyHeadSequence x) <? BigInt (x_priorPolicyHeadSequence x))
          || ((x_policyHeadSequence x === x_priorPolicyHeadSequence x)
              && (x_policyHeadHash x !== x_priorPolicyHeadHash x))))
  || (BigInt (x_evaluationLogPosition x) <? BigInt (x_deliveryLogPosition x))
  || anchorMismatch (x_deliveryLogPosition x) (x_deliveryLogHeadHash x)
  || anchorMismatch (x_evaluationLogPosition x) (x_evaluationLogHeadHash x)
  || slt (x_verifiedAt x) (k_issuedAt parsed)
  || sle (k_expiresAt parsed) (k_issuedAt parsed)
  || (300000 <? Date_parse (k_expiresAt parsed) - Date_parse (k_issuedAt parsed)).

(** The statuses each purpose calls for. *)
Definition statusInvalid (parsed : PolicyHeadProofBody) : bool :=
  let x := k_expectation parsed in
  let grant := isNull_hash (x_selectedSendGrantEvidenceDigest x) in
  let inclusion := isNull_hash (x_selectedSendGrantInclusionEvidenceDigest x) in
  ((x_purpose x === append_authorization)
   && ((k_freshnessStatus parsed !== fresh_) || (k_currentStatus parsed !== current_)
       || (k_sendGrantInclusionStatus parsed !== inclusion_verified)
       || grant || inclusion || sle (k_expiresAt parsed) (x_verifiedAt x)))
  || ((x_purpose x === historical_page)
      && ((k_freshnessStatus parsed !== historical_) || (k_currentStatus parsed !== page_exact)
          || (k_sendGrantInclusionStatus parsed !== inclusion_not_requested)
          || negb grant || negb inclusion)).

Definition parsePolicyHeadProofEvidence (value expectedValue : unknown) :
  result PolicyHeadProofEvidence :=
  expected ← parsePolicyHeadProofExpectation expectedValue;
  record ← expectExactRecord value
    ["status"; "profile"; "realmId"; "conversationGeneration"; "releaseTrustRootDigest";
     "purpose"; "releaseProfileId"; "deliveryLimitsDigest"; "conversationId"; "policyHeadId";
     "policyHeadSequence"; "policyHeadHash"; "deliveryLogPosition"; "deliveryLogHeadHash";
     "evaluationLogPosition"; "evaluationLogHeadHash"; "epoch"; "rosterVersion";
     "confirmedTranscriptHash"; "policyRevision"; "mandatoryProposalCount";
     "mandatoryProposalSetHash"; "authorizedSendGrantSetHash";
     "selectedSendGrantEvidenceDigest"; "selectedSendGrantInclusionEvidenceDigest";
     "authorizedQuotaPolicyDigest"; "priorPolicyHeadSequence"; "priorPolicyHeadHash";
     "priorPolicyWitnessCheckpointId"; "priorPolicyWitnessEvidenceDigest"; "signedBodySha256";
     "signerKeyId"; "signatureSha256"; "witnessCheckpointId"; "witnessedPolicyHeadHash";
     "witnessEvidenceDigest"; "issuedAt"; "expiresAt"; "verifiedAt"; "signatureStatus";
     "keyStatus"; "witnessStatus"; "freshnessStatus"; "currentStatus";
     "policyConsistencyStatus"; "policyConsistencyEvidenceDigest"; "sendGrantInclusionStatus";
     "evidenceDigest"];
  throw_if (negb (isString record.["status"] "verified")
            || negb (isString record.["profile"] "conversation-policy-head-proof.v1"))
    DeliveryStateValidationError;;
  anchors ← parseProofAnchors record;
  signedBodySha256 ← parseHash32 record.["signedBodySha256"];
  signerKeyId ← parseSigningKeyId record.["signerKeyId"];
  signatureSha256 ← parseHash32 record.["signatureSha256"];
  witnessCheckpointId ← parseWitnessCheckpointId record.["witnessCheckpointId"];
  witnessedPolicyHeadHash ← parseHash32 record.["witnessedPolicyHeadHash"];
  witnessEvidenceDigest ← parseHash32 record.["witnessEvidenceDigest"];
  issuedAt ← parseRfc3339Millis record.["issuedAt"];
  expiresAt ← parseRfc3339Millis record.["expiresAt"];
  verifiedAt ← parseRfc3339Millis record.["verifiedAt"];
  parseRequiredLiteral record.["signatureStatus"] "verified";;
  parseRequiredLiteral record.["keyStatus"] "valid-for-checkpoint";;
  parseRequiredLiteral record.["witnessStatus"] "verified";;
  freshnessStatus ← parseOneOf record.["freshnessStatus"];
  currentStatus ← parseOneOf record.["currentStatus"];
  parseRequiredLiteral record.["policyConsistencyStatus"] "verified";;
  sendGrantInclusionStatus ← parseOneOf record.["sendGrantInclusionStatus"];
  policyConsistencyEvidenceDigest ← parseHash32 record.["policyConsistencyEvidenceDigest"];
  evidenceDigest ← parseHash32 record.["evidenceDigest"];
  let parsed := {|
    k_expectation := anchors verifiedAt; k_signedBodySha256 := signedBodySha256;
    k_signerKeyId := signerKeyId; k_signatureSha256 := signatureSha256;
    k_witnessCheckpointId := witnessCheckpointId;
    k_witnessedPolicyHeadHash := witnessedPolicyHeadHash;
    k_witnessEvidenceDigest := witnessEvidenceDigest; k_issuedAt := issuedAt;
    k_expiresAt := expiresAt; k_freshnessStatus := freshnessStatus;
    k_currentStatus := currentStatus; k_sendGrantInclusionStatus := sendGrantInclusionStatus;
    k_policyConsistencyEvidenceDigest := policyConsistencyEvidenceDigest |} in
  throw_if (k_expectation parsed !== expected) DeliveryStateValidationError;;
  throw_if (proofInconsistent parsed) DeliveryStateValidationError;;
  throw_if (statusInvalid parsed) DeliveryStateValidationError;;
  computed ← computePolicyHeadProofEvidenceDigest parsed;
  throw_if (evidenceDigest !== computed) DeliveryStateValidationError;;
  Ok {| ev_body := parsed; ev_evidenceDigest := evidenceDigest |}.

(** ** Refreshing a snapshot *)

Definition proofExpectation_obj (x : PolicyHeadProofExpectation) : unknown :=
  obj [("realmId", VString (x_realmId x)); ("conversationGeneration", VString
       (x_conversationGeneration x)); ("releaseTrustRootDigest", VString
       (x_releaseTrustRootDigest x)); ("releaseProfileId", VString (x_releaseProfileId x));
       ("deliveryLimitsDigest", VString (x_deliveryLimitsDigest x)); ("purpose", VString (lit
       (x_purpose x))); ("conversationId", VString (x_conversationId x)); ("policyHeadId",
       VString (x_policyHeadId x)); ("policyHeadSequence", VString (x_policyHeadSequence x));
       ("policyHeadHash", VString (x_policyHeadHash x)); ("deliveryLogPosition", VString
       (x_deliveryLogPosition x)); ("deliveryLogHeadHash", VString (x_deliveryLogHeadHash x));
       ("evaluationLogPosition", VString (x_evaluationLogPosition x)); ("evaluationLogHeadHash",
       VString (x_evaluationLogHeadHash x)); ("epoch", VString (x_epoch x)); ("rosterVersion",
       VString (x_rosterVersion x)); ("confirmedTranscriptHash", VString
       (x_confirmedTranscriptHash x)); ("policyRevision", VString (x_policyRevision x));
       ("mandatoryProposalCount", VString (x_mandatoryProposalCount x));
       ("mandatoryProposalSetHash", VString (x_mandatoryProposalSetHash x));
       ("authorizedSendGrantSetHash", VString (x_authorizedSendGrantSetHash x));
       ("selectedSendGrantEvidenceDigest", VString (x_selectedSendGrantEvidenceDigest x));
       ("selectedSendGrantInclusionEvidenceDigest", VString
       (x_selectedSendGrantInclusionEvidenceDigest x)); ("authorizedQuotaPolicyDigest", VString
       (x_authorizedQuotaPolicyDigest x)); ("priorPolicyHeadSequence", VString
       (x_priorPolicyHeadSequence x)); ("priorPolicyHeadHash", VString (x_priorPolicyHeadHash
       x)); ("priorPolicyWitnessCheckpointId", VString (x_priorPolicyWitnessCheckpointId x));
       ("priorPolicyWitnessEvidenceDigest", VString (x_priorPolicyWitnessEvidenceDigest x));
       ("verifiedAt", VString (x_verifiedAt x))].

(** [{ status: "verified", ...evidence }]. *)
Definition proofEvidence_obj (e : PolicyHeadProofEvidence) : unknown :=
  let b := ev_body e in
  let x := k_expectation b in
  obj [("status", VString "verified"); ("profile", VString "conversation-policy-head-proof.v1");
       ("realmId", VString (x_realmId x)); ("conversationGeneration", VString
       (x_conversationGeneration x)); ("releaseTrustRootDigest", VString
       (x_releaseTrustRootDigest x)); ("purpose", VString (lit (x_purpose x)));
       ("releaseProfileId", VString (x_releaseProfileId x)); ("deliveryLimitsDigest", VString
       (x_deliveryLimitsDigest x)); ("conversationId", VString (x_conversationId x));
       ("policyHeadId", VString (x_policyHeadId x)); ("policyHeadSequence", VString
       (x_policyHeadSequence x)); ("policyHeadHash", VString (x_policyHeadHash x));
       ("deliveryLogPosition", VString (x_deliveryLogPosition x)); ("deliveryLogHeadHash",
       VString (x_deliveryLogHeadHash x)); ("evaluationLogPosition", VString
       (x_evaluationLogPosition x)); ("evaluationLogHeadHash", VString (x_evaluationLogHeadHash
       x)); ("epoch", VString (x_epoch x)); ("rosterVersion", VString (x_rosterVersion x));
       ("confirmedTranscriptHash", VString (x_confirmedTranscriptHash x)); ("policyRevision",
       VString (x_policyRevision x)); ("mandatoryProposalCount", VString
       (x_mandatoryProposalCount x)); ("mandatoryProposalSetHash", VString
       (x_mandatoryProposalSetHash x)); ("authorizedSendGrantSetHash", VString
       (x_authorizedSendGrantSetHash x)); ("selectedSendGrantEvidenceDigest", VString
       (x_selectedSendGrantEvidenceDigest x)); ("selectedSendGrantInclusionEvidenceDigest",
       VString (x_selectedSendGrantInclusionEvidenceDigest x)); ("authorizedQuotaPolicyDigest",
       VString (x_authorizedQuotaPolicyDigest x)); ("priorPolicyHeadSequence", VString
       (x_priorPolicyHeadSequence x)); ("priorPolicyHeadHash", VString (x_priorPolicyHeadHash
       x)); ("priorPolicyWitnessCheckpointId", VString (x_priorPolicyWitnessCheckpointId x));
       ("priorPolicyWitnessEvidenceDigest", VString (x_priorPolicyWitnessEvidenceDigest x));
       ("signedBodySha256", VString (k_signedBodySha256 b)); ("signerKeyId", VString
       (k_signerKeyId b)); ("signatureSha256", VString (k_signatureSha256 b));
       ("witnessCheckpointId", VString (k_witnessCheckpointId b)); ("witnessedPolicyHeadHash",
       VString (k_witnessedPolicyHeadHash b)); ("witnessEvidenceDigest", VString
       (k_witnessEvidenceDigest b)); ("issuedAt", VString (k_issuedAt b)); ("expiresAt", VString
       (k_expiresAt b)); ("verifiedAt", VString (x_verifiedAt x)); ("signatureStatus", VString
       "verified"); ("keyStatus", VString "valid-for-checkpoint"); ("witnessStatus", VString
       "verified"); ("freshnessStatus", VString (lit (k_freshnessStatus b))); ("currentStatus",
       VString (lit (k_currentStatus b))); ("policyConsistencyStatus", VString "verified");
       ("policyConsistencyEvidenceDigest", VString (k_policyConsistencyEvidenceDigest b));
       ("sendGrantInclusionStatus", VString (lit (k_sendGrantInclusionStatus b)));
       ("evidenceDigest", VString (ev_evidenceDigest e))].

Definition refreshExpectation (s : LockedApplicationAppendSnapshot) (verifiedAt : Rfc3339Millis) :
  PolicyHeadProofExpectation :=
  let c := conversation s in
  let p := policyHead s in
  let g := sendGrant s in {|
  x_realmId := c_realmId c; x_conversationGeneration := c_generation c; x_releaseTrustRootDigest
  := c_releaseTrustRootDigest c; x_purpose := append_authorization; x_releaseProfileId :=
  c_releaseProfileId c; x_deliveryLimitsDigest := c_deliveryLimitsDigest c; x_conversationId :=
  c_conversationId c; x_policyHeadId := p_policyHeadId p; x_policyHeadSequence :=
  c_currentPolicyHeadSequence c; x_policyHeadHash := c_currentPolicyHeadHash c;
  x_deliveryLogPosition := p_deliveryLogPosition p; x_deliveryLogHeadHash :=
  p_deliveryLogHeadHash p; x_evaluationLogPosition := c_lastPosition c; x_evaluationLogHeadHash
  := c_currentLogHeadHash c; x_epoch := c_epoch c; x_rosterVersion := c_rosterVersion c;
  x_confirmedTranscriptHash := c_confirmedTranscriptHash c; x_policyRevision := p_policyRevision
  p; x_mandatoryProposalCount := p_mandatoryProposalCount p; x_mandatoryProposalSetHash :=
  p_mandatoryProposalSetHash p; x_authorizedSendGrantSetHash := p_authorizedSendGrantSetHash p;
  x_selectedSendGrantEvidenceDigest := g_grantEvidenceDigest g;
  x_selectedSendGrantInclusionEvidenceDigest := g_grantInclusionEvidenceDigest g;
  x_authorizedQuotaPolicyDigest := c_quotaPolicyDigest c; x_priorPolicyHeadSequence :=
  p_priorPolicyHeadSequence p; x_priorPolicyHeadHash := p_priorPolicyHeadHash p;
  x_priorPolicyWitnessCheckpointId := p_priorPolicyWitnessCheckpointId p;
  x_priorPolicyWitnessEvidenceDigest := p_priorPolicyWitnessEvidenceDigest p; x_verifiedAt :=
  verifiedAt |}.

(** [{ ...policyHead, ...fields of the proof }]. *)
Definition refreshedPolicyHead (p : LockedWitnessedPolicyHead) (proof : PolicyHeadProofEvidence) :
  LockedWitnessedPolicyHead :=
  let b := ev_body proof in
  let x := k_expectation b in {|
  p_policyHeadId := p_policyHeadId p; p_conversationId := p_conversationId p;
  p_policyHeadSequence := p_policyHeadSequence p; p_policyHeadHash := p_policyHeadHash p;
  p_deliveryLogPosition := x_deliveryLogPosition x; p_deliveryLogHeadHash :=
  x_deliveryLogHeadHash x; p_evaluationLogPosition := x_evaluationLogPosition x;
  p_evaluationLogHeadHash := x_evaluationLogHeadHash x; p_epoch := p_epoch p; p_rosterVersion :=
  p_rosterVersion p; p_confirmedTranscriptHash := p_confirmedTranscriptHash p; p_policyRevision
  := p_policyRevision p; p_signedBodySha256 := k_signedBodySha256 b; p_signerKeyId :=
  k_signerKeyId b; p_signatureSha256 := k_signatureSha256 b; p_witnessEvidenceDigest :=
  k_witnessEvidenceDigest b; p_proofEvidenceDigest := ev_evidenceDigest proof;
  p_policyConsistencyEvidenceDigest := k_policyConsistencyEvidenceDigest b; p_proofVerifiedAt :=
  x_verifiedAt x; p_issuedAt := k_issuedAt b; p_expiresAt := k_expiresAt b; p_witnessState :=
  ws_verified; p_witnessCheckpointId := Some (k_witnessCheckpointId b);
  p_witnessedPolicyHeadHash := Some (k_witnessedPolicyHeadHash b); p_mandatoryProposalCount :=
  p_mandatoryProposalCount p; p_mandatoryProposalSetHash := p_mandatoryProposalSetHash p;
  p_authorizedSendGrantSetHash := p_authorizedSendGrantSetHash p;
  p_selectedSendGrantEvidenceDigest := x_selectedSendGrantEvidenceDigest x;
  p_selectedSendGrantInclusionEvidenceDigest := x_selectedSendGrantInclusionEvidenceDigest x;
  p_authorizedQuotaPolicyDigest := x_authorizedQuotaPolicyDigest x; p_priorPolicyHeadSequence :=
  p_priorPolicyHeadSequence p; p_priorPolicyHeadHash := p_priorPolicyHeadHash p;
  p_priorPolicyWitnessCheckpointId := p_priorPolicyWitnessCheckpointId p;
  p_priorPolicyWitnessEvidenceDigest := p_priorPolicyWitnessEvidenceDigest p |}.

Definition refreshLockedApplicationAppendAuthorizationSnapshot (persistedSnapshot : unknown)
    (policyHeadProofEvidence : PolicyHeadProofEvidence) : result LockedApplicationAppendSnapshot :=
  snapshot ← parseLockedApplicationAppendSnapshot persistedSnapshot;
  proof ← parsePolicyHeadProofEvidence (proofEvidence_obj policyHeadProofEvidence)
    (proofExpectation_obj (refreshExpectation snapshot
       (x_verifiedAt (k_expectation (ev_body policyHeadProofEvidence)))));
  parseLockedApplicationAppendSnapshot (snapshot_obj
    {| conversation := conversation snapshot; membership := membership snapshot;
       policyHead := refreshedPolicyHead (policyHead snapshot) proof;
       sendGrant := sendGrant snapshot; pendingRemovalCount := pendingRemovalCount snapshot;
       usage := usage snapshot; quotaBindings := quotaBindings snapshot; quotas := quotas snapshot |}).
End PolicyProof.

(** ** Accepted proofs *)

Definition anchors_ok (x : PolicyHeadProofExpectation) : bool :=
  LABEL_64 (x_realmId x) && is_positive_uint63 (x_conversationGeneration x)
  && is_hash32 (x_releaseTrustRootDigest x) && LABEL_64 (x_releaseProfileId x)
  && is_hash32 (x_deliveryLimitsDigest x) && is_uuid4 (x_conversationId x)
  && is_uuid4 (x_policyHeadId x) && is_positive_uint63 (x_policyHeadSequence x)
  && is_nonzero_hash32 (x_policyHeadHash x) && is_uint63 (x_deliveryLogPosition x)
  && is_hash32 (x_deliveryLogHeadHash x) && is_uint63 (x_evaluationLogPosition x)
  && is_hash32 (x_evaluationLogHeadHash x) && is_uint63 (x_epoch x) && is_uint63 (x_rosterVersion x)
  && is_hash32 (x_confirmedTranscriptHash x) && is_positive_uint63 (x_policyRevision x)
  && is_mandatory_count (x_mandatoryProposalCount x) && is_hash32 (x_mandatoryProposalSetHash x)
  && is_hash32 (x_authorizedSendGrantSetHash x) && is_hash32 (x_selectedSendGrantEvidenceDigest x)
  && is_hash32 (x_selectedSendGrantInclusionEvidenceDigest x)
  && is_hash32 (x_authorizedQuotaPolicyDigest x) && is_uint63 (x_priorPolicyHeadSequence x)
  && is_hash32 (x_priorPolicyHeadHash x) && is_uuid4 (x_priorPolicyWitnessCheckpointId x)
  && is_hash32 (x_priorPolicyWitnessEvidenceDigest x).
Definition body_ok (b : PolicyHeadProofBody) : bool :=
  is_hash32 (k_signedBodySha256 b) && LABEL_64 (k_signerKeyId b) && is_hash32 (k_signatureSha256 b)
  && is_uuid4 (k_witnessCheckpointId b) && is_hash32 (k_witnessedPolicyHeadHash b)
  && is_hash32 (k_witnessEvidenceDigest b) && canonicalInstant (k_issuedAt b)
  && canonicalInstant (k_expiresAt b) && canonicalInstant (x_verifiedAt (k_expectation b))
  && is_hash32 (k_policyConsistencyEvidenceDigest b).

Lemma parseOneOf_purpose (s : ProofPurpose) : parseOneOf (VString (lit s)) = Ok s.
Proof. by destruct s. Qed.
Lemma parseOneOf_freshness (s : FreshnessStatus) : parseOneOf (VString (lit s)) = Ok s.
Proof. by destruct s. Qed.
Lemma parseOneOf_current (s : CurrentStatus) : parseOneOf (VString (lit s)) = Ok s.
Proof. by destruct s. Qed.
Lemma parseOneOf_inclusion (s : SendGrantInclusionStatus) : parseOneOf (VString (lit s)) = Ok s.
Proof. by destruct s. Qed.

Lemma parseProofAnchors_Ok r f t :
  parseProofAnchors r = Ok f → anchors_ok (f t) = true ∧ x_verifiedAt (f t) = t.
Proof.
  unfold parseProofAnchors. intros H. inv_result. subst. row_parsed. split; [|done].
  unfold anchors_ok; cbn. by brands.
Qed.

(** What a proof that is accepted says. *)
Record accepted_proof `{SHA : Sha256} (e : PolicyHeadProofEvidence) : Prop := {
  ap_anchors : anchors_ok (k_expectation (ev_body e)) = true;
  ap_body : body_ok (ev_body e) = true;
  (* the witness saw that very head *)
  ap_witness : k_witnessedPolicyHeadHash (ev_body e) = x_policyHeadHash (k_expectation (ev_body e));
  (* the head was delivered no later than it was evaluated, and an empty log has no head *)
  ap_positions : let x := k_expectation (ev_body e) in
    BigInt (x_deliveryLogPosition x) <= BigInt (x_evaluationLogPosition x) ∧
    (x_deliveryLogPosition x = "0" ↔ x_deliveryLogHeadHash x = ZERO_HASH32) ∧
    (x_evaluationLogPosition x = "0" ↔ x_evaluationLogHeadHash x = ZERO_HASH32) ∧
    (x_priorPolicyHeadSequence x = "0" ↔ x_priorPolicyHeadHash x = ZERO_HASH32);
  (* it is valid for at most five minutes and was verified after it was issued *)
  ap_window : let b := ev_body e in
    Date_parse (k_issuedAt b) < Date_parse (k_expiresAt b) <= Date_parse (k_issuedAt b) + 300000 ∧
    Date_parse (k_issuedAt b) <= Date_parse (x_verifiedAt (k_expectation b));
  (* a proof for an append is fresh, current, about one grant, and never goes back *)
  ap_purpose : let b := ev_body e in let x := k_expectation b in
    match x_purpose x with
    | append_authorization =>
        (k_freshnessStatus b, k_currentStatus b, k_sendGrantInclusionStatus b)
        = (fresh_, current_, inclusion_verified) ∧
        x_selectedSendGrantEvidenceDigest x ≠ ZERO_HASH32 ∧
        x_selectedSendGrantInclusionEvidenceDigest x ≠ ZERO_HASH32 ∧
        Date_parse (x_verifiedAt x) < Date_parse (k_expiresAt b) ∧
        BigInt (x_priorPolicyHeadSequence x) <= BigInt (x_policyHeadSequence x) ∧
        (x_priorPolicyHeadSequence x = x_policyHeadSequence x →
         x_priorPolicyHeadHash x = x_policyHeadHash x)
    | historical_page =>
        (k_freshnessStatus b, k_currentStatus b, k_sendGrantInclusionStatus b)
        = (historical_, page_exact, inclusion_not_requested) ∧
        x_selectedSendGrantEvidenceDigest x = ZERO_HASH32 ∧
        x_selectedSendGrantInclusionEvidenceDigest x = ZERO_HASH32
    end;
  ap_digest : computePolicyHeadProofEvidenceDigest (ev_body e) = Ok (ev_evidenceDigest e);
}.

Lemma proofInconsistent_iff b : body_ok b = true →
  proofInconsistent b = false ↔
  let x := k_expectation b in
  k_witnessedPolicyHeadHash b = x_policyHeadHash x ∧
  (x_purpose x = append_authorization →
    BigInt (x_priorPolicyHeadSequence x) <= BigInt (x_policyHeadSequence x) ∧
    (x_priorPolicyHeadSequence x = x_policyHeadSequence x →
     x_priorPolicyHeadHash x = x_policyHeadHash x)) ∧
  BigInt (x_deliveryLogPosition x) <= BigInt (x_evaluationLogPosition x) ∧
  (x_deliveryLogPosition x = "0" ↔ x_deliveryLogHeadHash x = ZERO_HASH32) ∧
  (x_evaluationLogPosition x = "0" ↔ x_evaluationLogHeadHash x = ZERO_HASH32) ∧
  Date_parse (k_issuedAt b) < Date_parse (k_expiresAt b) <= Date_parse (k_issuedAt b) + 300000 ∧
  Date_parse (k_issuedAt b) <= Date_parse (x_verifiedAt x).
Proof.
  unfold body_ok. intros H. bsimp. cbv zeta. unfold proofInconsistent.
  rewrite sle_canonicalInstant, slt_canonicalInstant by done.
  rewrite !orb_false_iff, !anchorMismatch_false, negb_false_iff, bool_decide_eq_true, !Z.ltb_ge, Z.leb_gt.
  assert (HP : (x_purpose (k_expectation b) === append_authorization)
      && ((BigInt (x_policyHeadSequence (k_expectation b)) <? BigInt (x_priorPolicyHeadSequence (k_expectation b)))
          || ((x_policyHeadSequence (k_expectation b) === x_priorPolicyHeadSequence (k_expectation b))
              && (x_policyHeadHash (k_expectation b) !== x_priorPolicyHeadHash (k_expectation b)))) = false ↔
    (x_purpose (k_expectation b) = append_authorization →
     BigInt (x_priorPolicyHeadSequence (k_expectation b)) <= BigInt (x_policyHeadSequence (k_expectation b)) ∧
     (x_priorPolicyHeadSequence (k_expectation b) = x_policyHeadSequence (k_expectation b) →
      x_priorPolicyHeadHash (k_expectation b) = x_policyHeadHash (k_expectation b)))).
  { rewrite andb_false_iff, orb_false_iff, andb_false_iff, negb_false_iff, Z.ltb_ge.
    rewrite !bool_decide_eq_false, bool_decide_eq_true.
    destruct (x_purpose _); [|split; [done|by left]]. split.
    - intros [[]|[? [?|?]]]; [done|split; [done|congruence]..].
    - intros H'. destruct (H' eq_refl) as [? E]. right. split; [done|].
      destruct (decide (x_policyHeadSequence (k_expectation b) = x_priorPolicyHeadSequence (k_expectation b)));
        [right; symmetry; by apply E|by left]. }
  rewrite HP. intuition lia.
Qed.

Lemma statusInvalid_iff b : body_ok b = true →
  statusInvalid b = false ↔
  let x := k_expectation b in
  match x_purpose x with
  | append_authorization =>
      (k_freshnessStatus b, k_currentStatus b, k_sendGrantInclusionStatus b)
      = (fresh_, current_, inclusion_verified) ∧
      x_selectedSendGrantEvidenceDigest x ≠ ZERO_HASH32 ∧
      x_selectedSendGrantInclusionEvidenceDigest x ≠ ZERO_HASH32 ∧
      Date_parse (x_verifiedAt x) < Date_parse (k_expiresAt b)
  | historical_page =>
      (k_freshnessStatus b, k_currentStatus b, k_sendGrantInclusionStatus b)
      = (historical_, page_exact, inclusion_not_requested) ∧
      x_selectedSendGrantEvidenceDigest x = ZERO_HASH32 ∧
      x_selectedSendGrantInclusionEvidenceDigest x = ZERO_HASH32
  end.
Proof.
  unfold body_ok. intros H. bsimp. cbv zeta. unfold statusInvalid, isNull_hash.
  rewrite sle_canonicalInstant by done. destruct (x_purpose _); cbn [andb orb].
  - change (append_authorization === append_authorization) with true.
    change (append_authorization === historical_page) with false. cbn [andb]. rewrite orb_false_r.
    rewrite !orb_false_iff, !negb_false_iff, !bool_decide_eq_true, !bool_decide_eq_false, Z.leb_gt.
    intuition congruence.
  - change (historical_page === append_authorization) with false.
    change (historical_page === historical_page) with true. cbn [andb orb].
    rewrite !orb_false_iff, !negb_false_iff, !bool_decide_eq_true. intuition congruence.
Qed.

Lemma parseExpectation_iff xv x :
  parsePolicyHeadProofExpectation xv = Ok x →
  anchors_ok x = true ∧ canonicalInstant (x_verifiedAt x) = true ∧
  (x_priorPolicyHeadSequence x = "0" ↔ x_priorPolicyHeadHash x = ZERO_HASH32).
Proof.
  unfold parsePolicyHeadProofExpectation. intros H. inv_result. subst. split_orb.
  rewrite !anchorMismatch_false in *.
  destruct (parseProofAnchors_Ok _ _ x2 Hx0) as [? E]. rewrite E. by apply parseRfc3339Millis_Ok in Hx1 as [_ ?].
Qed.

Section Accepted.
Context `{SHA : Sha256}.

Lemma parseEvidence_sound v xv e :
  parsePolicyHeadProofEvidence v xv = Ok e →
  accepted_proof e ∧ parsePolicyHeadProofExpectation xv = Ok (k_expectation (ev_body e)).
Proof.
  unfold parsePolicyHeadProofEvidence. intros H. inv_result. bsimp. subst e.
  match goal with H : parsePolicyHeadProofExpectation _ = Ok _ |- _ =>
    rename H into HX; pose proof (parseExpectation_iff _ _ HX) as (HA & HV & HPr) end.
  subst x x20. cbn [k_expectation] in HA, HV, HPr. row_parsed.
  match goal with H : proofInconsistent ?b = false, H' : statusInvalid _ = false |- _ =>
    assert (HB : body_ok b = true) by (unfold body_ok; cbn; by brands);
    apply (proofInconsistent_iff b HB) in H as (P1 & P2 & P3 & P4 & P5 & P6 & P7);
    apply (statusInvalid_iff b HB) in H'; rename H' into HS end.
  split; [|done]. constructor; cbn [ev_body ev_evidenceDigest k_expectation] in *; try done.
  cbv zeta in *. destruct (x_purpose _).
  - destruct HS as (? & ? & ? & ?), P2 as [? ?]; [done|]. by split_and!.
  - done.
Qed.

Lemma parseExpectation_obj x :
  anchors_ok x = true → canonicalInstant (x_verifiedAt x) = true →
  (x_priorPolicyHeadSequence x = "0" ↔ x_priorPolicyHeadHash x = ZERO_HASH32) →
  (x_deliveryLogPosition x = "0" ↔ x_deliveryLogHeadHash x = ZERO_HASH32) →
  (x_evaluationLogPosition x = "0" ↔ x_evaluationLogHeadHash x = ZERO_HASH32) →
  match x_purpose x with
  | append_authorization => x_selectedSendGrantEvidenceDigest x ≠ ZERO_HASH32 ∧
      x_selectedSendGrantInclusionEvidenceDigest x ≠ ZERO_HASH32
  | historical_page => x_selectedSendGrantEvidenceDigest x = ZERO_HASH32 ∧
      x_selectedSendGrantInclusionEvidenceDigest x = ZERO_HASH32
  end →
  parsePolicyHeadProofExpectation (proofExpectation_obj x) = Ok x.
Proof.
  intros HA HV H1 H2 H3 HP. apply anchorMismatch_false in H1, H2, H3.
  unfold anchors_ok in HA. bsimp. unfold parsePolicyHeadProofExpectation, proofExpectation_obj.
  rewrite expectExactRecord_obj; [|reflexivity|by apply (bool_decide_unpack _); vm_compute|by repeat constructor].
  cbn [mbind result_bind]. unfold parseProofAnchors. read_fields. rewrite parseOneOf_purpose.
  run_row_parsers.
  rewrite (proj2 (parseNonZero_Ok (VString _) (x_policyHeadHash x))) by done. run_row_parsers.
  rewrite (proj2 (parseMandatoryProposalCount_Ok (VString _) (x_mandatoryProposalCount x))) by done.
  run_row_parsers. cbn [mbind result_bind].
  rewrite (proj2 (parseRfc3339Millis_Ok (VString _) (x_verifiedAt x))) by done.
  cbn [mbind result_bind]. cbn -[anchorMismatch isNull_hash bool_decide throw_if]. rewrite H1, H2, H3. unfold isNull_hash.
  replace (throw_if _ _) with (Ok ()); [by destruct x|]. symmetry. destruct (x_purpose x), HP as [E1 E2].
  - by rewrite !(bool_decide_eq_false_2 (_ = ZERO_HASH32)) by done.
  - by rewrite !(bool_decide_eq_true_2 (_ = ZERO_HASH32)) by done.
Qed.

Lemma parseEvidence_complete e :
  accepted_proof e →
  parsePolicyHeadProofEvidence (proofEvidence_obj e) (proofExpectation_obj (k_expectation (ev_body e))) = Ok e.
Proof.
  intros [HA HB W HPos HW HPu HD]. cbv zeta in *. unfold parsePolicyHeadProofEvidence.
  rewrite parseExpectation_obj; [|done|by unfold body_ok in HB; bsimp|tauto..|destruct (x_purpose _); tauto].
  cbn [mbind result_bind].
  assert (HI : proofInconsistent (ev_body e) = false).
  { apply proofInconsistent_iff; [done|]. cbv zeta. split_and!; try tauto.
    intros E. rewrite E in HPu. tauto. }
  assert (HS : statusInvalid (ev_body e) = false).
  { apply statusInvalid_iff; [done|]. cbv zeta. destruct (x_purpose _); tauto. }
  unfold anchors_ok in HA. unfold body_ok in HB. bsimp. unfold proofEvidence_obj.
  rewrite expectExactRecord_obj; [|reflexivity|by apply (bool_decide_unpack _); vm_compute|by repeat constructor].
  cbn [mbind result_bind]. unfold parseProofAnchors. read_fields. rewrite parseOneOf_purpose.
  cbn [isString]. rewrite !(bool_decide_eq_true_2 (_ = _)) by done. cbn [negb orb throw_if mbind result_bind].
  run_row_parsers.
  rewrite (proj2 (parseNonZero_Ok (VString _) (x_policyHeadHash _))) by done. run_row_parsers.
  rewrite (proj2 (parseMandatoryProposalCount_Ok (VString _) (x_mandatoryProposalCount _))) by done.
  run_row_parsers. rewrite (proj2 (parseSigningKeyId_Ok (VString _) _)) by done. run_row_parsers.
  rewrite !(proj2 (parseRfc3339Millis_Ok (VString _) _)) by done. cbn [mbind result_bind].
  unfold parseRequiredLiteral. cbn [isString]. rewrite !(bool_decide_eq_true_2 (_ = _)) by done.
  cbn [negb throw_if mbind result_bind]. rewrite parseOneOf_freshness, parseOneOf_current, parseOneOf_inclusion.
  pose proof (fieldsDigest_hash _ _ _ HD) as Hd. run_row_parsers.
  destruct e as [[[] ] d]; cbn [ev_body ev_evidenceDigest] in *.
  match goal with |- context [?a !== ?b] => change (a !== b) with (a !== a); rewrite (bool_decide_eq_true_2 (a = a)) by done end.
  cbn [negb throw_if mbind result_bind].
  match goal with |- context [proofInconsistent ?b] => change (proofInconsistent b = false) in HI; rewrite HI;
    change (statusInvalid b = false) in HS; change (computePolicyHeadProofEvidenceDigest b = Ok d) in HD end.
  cbn [throw_if mbind result_bind]. rewrite HS. cbn [throw_if mbind result_bind]. rewrite HD.
  cbn [mbind result_bind]. by rewrite bool_decide_eq_true_2 by done.
Qed.

(** The evidence parser accepts exactly the accepted proofs, and only against
    an expectation that agrees with them in every field. *)
Theorem policyProof_accepts e :
  accepted_proof e ↔
  ∃ v xv, parsePolicyHeadProofEvidence v xv = Ok e ∧
    parsePolicyHeadProofExpectation xv = Ok (k_expectation (ev_body e)).
Proof.
  split.
  - intros H. pose proof (parseEvidence_complete e H) as HE. do 2 eexists. split; [exact HE|].
    by eapply parseEvidence_sound.
  - intros (v & xv & H & _). by eapply parseEvidence_sound.
Qed.

(** *** The digest *)

#[local] Instance purpose_inj : LiteralInj ProofPurpose. Proof. by intros [] []. Qed.
#[local] Instance freshness_inj : LiteralInj FreshnessStatus. Proof. by intros [] []. Qed.
#[local] Instance current_inj : LiteralInj CurrentStatus. Proof. by intros [] []. Qed.
#[local] Instance inclusion_inj : LiteralInj SendGrantInclusionStatus. Proof. by intros [] []. Qed.

(** The fields that are encoded as thirty-two bytes. *)
Definition proof_hashes (b : PolicyHeadProofBody) : bool :=
  let x := k_expectation b in
  is_hash32 (x_releaseTrustRootDigest x) && is_hash32 (x_deliveryLimitsDigest x)
  && is_hash32 (x_policyHeadHash x) && is_hash32 (x_deliveryLogHeadHash x)
  && is_hash32 (x_evaluationLogHeadHash x) && is_hash32 (x_confirmedTranscriptHash x)
  && is_hash32 (x_mandatoryProposalSetHash x) && is_hash32 (x_authorizedSendGrantSetHash x)
  && is_hash32 (x_selectedSendGrantEvidenceDigest x)
  && is_hash32 (x_selectedSendGrantInclusionEvidenceDigest x)
  && is_hash32 (x_authorizedQuotaPolicyDigest x) && is_hash32 (x_priorPolicyHeadHash x)
  && is_hash32 (x_priorPolicyWitnessEvidenceDigest x) && is_hash32 (k_signedBodySha256 b)
  && is_hash32 (k_signatureSha256 b) && is_hash32 (k_witnessedPolicyHeadHash b)
  && is_hash32 (k_witnessEvidenceDigest b) && is_hash32 (k_policyConsistencyEvidenceDigest b).

Lemma proofFields_inj b b' :
  proof_hashes b = true → proof_hashes b' = true → proofFields b = proofFields b' → b = b'.
Proof.
  destruct b as [[] ], b' as [[] ]. unfold proof_hashes, proofFields. cbn -[decodeHash32 utf8].
  intros Hx Hy H. bsimp. injection H. clear H. intros. fields_inj. by subst.
Qed.

Lemma accepted_hashes e : accepted_proof e → proof_hashes (ev_body e) = true.
Proof.
  intros [HA HB _ _ _ _ _]. unfold anchors_ok in HA. unfold body_ok in HB. unfold is_nonzero_hash32 in HA. bsimp.
  unfold proof_hashes. by brands.
Qed.

Lemma proofDigest_inj b b' h :
  proof_hashes b = true → proof_hashes b' = true →
  computePolicyHeadProofEvidenceDigest b = Ok h → computePolicyHeadProofEvidenceDigest b' = Ok h →
  b = b' ∨ collision [fieldsPreimage POLICY_HEAD_PROOF_EVIDENCE_DIGEST_DOMAIN (proofFields b)]
                     [fieldsPreimage POLICY_HEAD_PROOF_EVIDENCE_DIGEST_DOMAIN (proofFields b')].
Proof.
  intros Hb Hb' H H'. destruct (fieldsDigest_inj _ _ _ _ H H') as [E|E]; [left|by right].
  by apply proofFields_inj.
Qed.

(** The evidence digest names the proof: two accepted proofs with one digest
    are one proof, or their encodings are a SHA-256 collision. *)
Theorem policyProof_digest_binding e e' :
  accepted_proof e → accepted_proof e' → ev_evidenceDigest e = ev_evidenceDigest e' →
  e = e' ∨ collision [fieldsPreimage POLICY_HEAD_PROOF_EVIDENCE_DIGEST_DOMAIN (proofFields (ev_body e))]
                     [fieldsPreimage POLICY_HEAD_PROOF_EVIDENCE_DIGEST_DOMAIN (proofFields (ev_body e'))].
Proof.
  intros HA HA' E. pose proof (ap_digest _ HA') as H'. rewrite <- E in H'.
  destruct (proofDigest_inj _ _ _ (accepted_hashes _ HA) (accepted_hashes _ HA') (ap_digest _ HA) H') as [Eb|]; [left|by right].
  destruct e, e'; cbn in *; by subst.
Qed.

(** ** The refresh *)

Definition with_policyHead (p : LockedWitnessedPolicyHead) (s : LockedApplicationAppendSnapshot) :
  LockedApplicationAppendSnapshot :=
  {| conversation := conversation s; membership := membership s; policyHead := p;
     sendGrant := sendGrant s; pendingRemovalCount := pendingRemovalCount s;
     usage := usage s; quotaBindings := quotaBindings s; quotas := quotas s |}.

Lemma refreshedPolicyHead_valid p e :
  valid_policyHead p = true → accepted_proof e →
  x_purpose (k_expectation (ev_body e)) = append_authorization →
  valid_policyHead (refreshedPolicyHead p e) = true.
Proof.
  intros HP HA Hpu. pose proof (accepted_hashes _ HA) as HH. unfold proof_hashes in HH.
  pose proof (fieldsDigest_hash _ _ _ (ap_digest _ HA)) as Hd.
  destruct HA as [HA HB _ _ HW HPu _]. cbv zeta in HW, HPu. rewrite Hpu in HPu.
  unfold valid_policyHead in HP. unfold anchors_ok in HA. unfold body_ok in HB. bsimp.
  unfold valid_policyHead, refreshedPolicyHead, witness_complete; cbn.
  rewrite !slt_canonicalInstant, !sle_canonicalInstant by done. brands.
  rewrite !(proj2 (Z.ltb_lt _ _)), !(proj2 (Z.leb_le _ _)) by lia. done.
Qed.

(** A branded field is the string it was read from. *)
Ltac same_fields :=
  unfold parseConversationId, parsePolicyHeadId, parseWitnessCheckpointId in *;
  repeat match goal with
  | H : parseUint63String (VString _) = Ok _ |- _ => apply parseUint63String_Ok in H as [[= <-] _]
  | H : parsePositiveUint63 (VString _) = Ok _ |- _ => apply parsePositiveUint63_Ok in H as [[= <-] _]
  | H : parseHash32 (VString _) = Ok _ |- _ => apply parseHash32_Ok in H as [[= <-] _]
  | H : parseNonZeroHash32 (VString _) = Ok _ |- _ => apply parseNonZero_Ok in H as [[= <-] _]
  | H : parseUuidV4 (VString _) = Ok _ |- _ => apply parseUuidV4_Ok in H as [[= <-] _]
  | H : parseRfc3339Millis (VString _) = Ok _ |- _ => apply parseRfc3339Millis_Ok in H as [[= <-] _]
  | H : parsePolicyRealmId (VString _) = Ok _ |- _ => apply parsePolicyRealmId_Ok in H as [[= <-] _]
  | H : parseReleaseProfileId (VString _) = Ok _ |- _ => apply parseReleaseProfileId_Ok in H as [[= <-] _]
  | H : parseSigningKeyId (VString _) = Ok _ |- _ => apply parseSigningKeyId_Ok in H as [[= <-] _]
  | H : parseMandatoryProposalCount (VString _) = Ok _ |- _ =>
      apply parseMandatoryProposalCount_Ok in H as [[= <-] _]
  end.

Lemma parseExpectation_same x y : parsePolicyHeadProofExpectation (proofExpectation_obj x) = Ok y → y = x.
Proof.
  unfold parsePolicyHeadProofExpectation, proofExpectation_obj.
  rewrite expectExactRecord_obj; [|reflexivity|by apply (bool_decide_unpack _); vm_compute|by repeat constructor].
  cbn [mbind result_bind]. unfold parseProofAnchors. read_fields. rewrite parseOneOf_purpose.
  intros H. inv_result. same_fields. subst. by destruct x.
Qed.

Lemma parseEvidence_same e xv y : parsePolicyHeadProofEvidence (proofEvidence_obj e) xv = Ok y → y = e.
Proof.
  unfold parsePolicyHeadProofEvidence, proofEvidence_obj.
  rewrite expectExactRecord_obj; [|reflexivity|by apply (bool_decide_unpack _); vm_compute|by repeat constructor].
  cbn [mbind result_bind]. unfold parseProofAnchors. read_fields.
  rewrite parseOneOf_purpose, parseOneOf_freshness, parseOneOf_current, parseOneOf_inclusion.
  intros H. inv_result. same_fields. subst. destruct e as [[[] ] ]. cbn in *. done.
Qed.

(** A refresh takes one accepted append proof about the locked conversation and
    replaces the policy head's proof by it. *)
Lemma refresh_inv sv e s' :
  refreshLockedApplicationAppendAuthorizationSnapshot sv e = Ok s' →
  ∃ s, parseLockedApplicationAppendSnapshot sv = Ok s ∧ accepted_proof e ∧
    k_expectation (ev_body e) = refreshExpectation s (x_verifiedAt (k_expectation (ev_body e))) ∧
    s' = with_policyHead (refreshedPolicyHead (policyHead s) e) s ∧
    parseLockedApplicationAppendSnapshot (snapshot_obj s') = Ok s' ∧ valid_rows s' ∧ linked s'.
Proof.
  unfold refreshLockedApplicationAppendAuthorizationSnapshot. intros H. inv_result. exists x.
  destruct (parseEvidence_sound _ _ _ Hx0) as [HA HE]. pose proof (parseEvidence_same _ _ _ Hx0) as ->.
  apply parseExpectation_same in HE.
  destruct (parseLockedApplicationAppendSnapshot_inv _ _ Hx) as [HR _].
  fold (with_policyHead (refreshedPolicyHead (policyHead x) e) x) in H.
  assert (HV : valid_rows (with_policyHead (refreshedPolicyHead (policyHead x) e) x)).
  { destruct HR as [? ? HP ? ? ? ? ?]. constructor; try done. apply refreshedPolicyHead_valid; [done..|by rewrite HE]. }
  pose proof H as HS. rewrite parseSnapshot_obj in HS by done. inv_result. subst s'.
  split_and!; try done. by eapply parseLockedApplicationAppendSnapshot_linked.
Qed.


(** The digest check of the refreshed snapshot ties the stored policy head to
    the conversation's current one. *)
Lemma refresh_binds s e s' :
  parseLockedApplicationAppendSnapshot (snapshot_obj s') = Ok s' → accepted_proof e →
  k_expectation (ev_body e) = refreshExpectation s (x_verifiedAt (k_expectation (ev_body e))) →
  s' = with_policyHead (refreshedPolicyHead (policyHead s) e) s →
  let locked := lockedProofBody (conversation s') (policyHead s') (k_witnessCheckpointId (ev_body e))
                  (k_witnessedPolicyHeadHash (ev_body e)) in
  locked = ev_body e ∨
  collision [fieldsPreimage POLICY_HEAD_PROOF_EVIDENCE_DIGEST_DOMAIN (proofFields (ev_body e))]
            [fieldsPreimage POLICY_HEAD_PROOF_EVIDENCE_DIGEST_DOMAIN (proofFields locked)].
Proof.
  intros HP HA HE Es locked.
  pose proof (parseLockedApplicationAppendSnapshot_linked _ _ HP) as HL.
  destruct (parseLockedApplicationAppendSnapshot_inv _ _ HP) as [[HC _ HH _ _ _ _ _] _].
  destruct (lk_proof _ HL) as (ck & w & Eck & Ew & HD); [by subst s'|].
  assert (ck = k_witnessCheckpointId (ev_body e)) as -> by (subst s'; cbn in Eck; congruence).
  assert (w = k_witnessedPolicyHeadHash (ev_body e)) as -> by (subst s'; cbn in Ew; congruence).
  fold locked in HD. replace (p_proofEvidenceDigest (policyHead s')) with (ev_evidenceDigest e) in HD by by subst s'.
  destruct (proofDigest_inj (ev_body e) locked (ev_evidenceDigest e)) as [E|E];
    [by apply accepted_hashes| |by apply ap_digest|done|left; by symmetry|by right].
  pose proof (accepted_hashes _ HA) as HB. unfold proof_hashes in HB.
  unfold valid_conversation in HC. unfold valid_policyHead in HH. bsimp.
  unfold proof_hashes, locked, lockedProofBody; cbn. by brands.
Qed.

Lemma reserveQuotas_reason bs total now qs r :
  reserveQuotas bs total now qs = inl r → r = counter_exhausted ∨ r = quota_exceeded.
Proof.
  induction qs as [|q qs IH]; cbn; [done|]. destruct (reserveQuota bs total now q) as [r'|[d q']] eqn:E.
  - intros [= <-]. unfold reserveQuota in E. revert E.
    repeat match goal with |- context [match ?x with _ => _ end] => destruct x; try (intros [= <-]; tauto); try discriminate end.
  - destruct (reserveQuotas bs total now qs) as [r'|[ds qs']]; [|done]. intros [= <-]. by apply IH.
Qed.

(** What the refresh leaves in the policy head. *)
Lemma refreshed_current s e s' :
  accepted_proof e → valid_rows s' →
  k_expectation (ev_body e) = refreshExpectation s (x_verifiedAt (k_expectation (ev_body e))) →
  s' = with_policyHead (refreshedPolicyHead (policyHead s) e) s →
  lockedProofBody (conversation s') (policyHead s') (k_witnessCheckpointId (ev_body e))
    (k_witnessedPolicyHeadHash (ev_body e)) = ev_body e →
  let p := policyHead s' in let c := conversation s' in
  (p_conversationId p, p_policyHeadSequence p, p_policyHeadHash p, p_evaluationLogPosition p,
   p_evaluationLogHeadHash p, p_epoch p, p_rosterVersion p, p_confirmedTranscriptHash p)
  = (c_conversationId c, c_currentPolicyHeadSequence c, c_currentPolicyHeadHash c, c_lastPosition c,
     c_currentLogHeadHash c, c_epoch c, c_rosterVersion c, c_confirmedTranscriptHash c) ∧
  p_witnessState p = ws_verified ∧ p_witnessCheckpointId p = Some (k_witnessCheckpointId (ev_body e)) ∧
  p_witnessedPolicyHeadHash p = Some (p_policyHeadHash p) ∧
  p_issuedAt p = k_issuedAt (ev_body e) ∧ p_expiresAt p = k_expiresAt (ev_body e) ∧
  p_proofVerifiedAt p = x_verifiedAt (k_expectation (ev_body e)) ∧
  Date_parse (p_issuedAt p) <= Date_parse (p_proofVerifiedAt p) ∧
  Forall (λ i, canonicalInstant i = true) [p_issuedAt p; p_proofVerifiedAt p; p_expiresAt p].
Proof.
  intros HA [_ _ HV _ _ _ _ _] HE Es EB p c. pose proof (ap_witness _ HA) as HW. pose proof (ap_window _ HA) as [_ HD].
  assert (EX : k_expectation (lockedProofBody c p (k_witnessCheckpointId (ev_body e))
    (k_witnessedPolicyHeadHash (ev_body e))) = refreshExpectation s (x_verifiedAt (k_expectation (ev_body e)))).
  { unfold c, p. by rewrite EB. }
  assert (Ec : c = conversation s) by (unfold c; by rewrite Es). rewrite <- EB in HW at 2. cbn in HW. fold p in HW.
  unfold refreshExpectation in EX. cbv zeta in EX. cbn [k_expectation lockedProofBody] in EX. rewrite <- Ec in EX.
  injection EX. clear EX. intros. unfold valid_policyHead in HV. fold p in HV. bsimp.
  assert (E1 : p_witnessState p = ws_verified) by (unfold p; by rewrite Es).
  assert (E2 : p_witnessCheckpointId p = Some (k_witnessCheckpointId (ev_body e))) by (unfold p; by rewrite Es).
  assert (E3 : p_witnessedPolicyHeadHash p = Some (k_witnessedPolicyHeadHash (ev_body e))) by (unfold p; by rewrite Es).
  assert (E4 : p_issuedAt p = k_issuedAt (ev_body e)) by (unfold p; by rewrite Es).
  assert (E5 : p_expiresAt p = k_expiresAt (ev_body e)) by (unfold p; by rewrite Es).
  assert (E6 : p_proofVerifiedAt p = x_verifiedAt (k_expectation (ev_body e))) by (unfold p; by rewrite Es).
  split_and!; try done; try congruence. by repeat constructor.
Qed.

(** The reasons that concern the policy head. *)
Definition policy_reason (r : ApplicationAppendRejectionReason) : bool :=
  match r with policy_head_not_current | policy_head_not_witnessed | policy_head_expired => true
  | _ => false end.

Ltac pass_reason :=
  match goal with
  | H : (if ?b then reject _ else _) = Ok (rejected _) |- _ =>
      destruct b; [injection H as <-; reflexivity|]
  end.

(** C28: After a refresh, an append that names the conversation's current policy
    head, while the proof is valid, is never turned down for its policy head;
    otherwise the proof and the stored head are a SHA-256 collision. *)
Theorem refresh_admits sv e s' x now :
  refreshLockedApplicationAppendAuthorizationSnapshot sv e = Ok s' →
  canonicalInstant now = true →
  Date_parse (x_verifiedAt (k_expectation (ev_body e))) <= Date_parse now < Date_parse (k_expiresAt (ev_body e)) →
  (e_policyHeadId x, e_policyHeadSequence x, e_policyHeadHash x)
  = (p_policyHeadId (policyHead s'), c_currentPolicyHeadSequence (conversation s'),
     c_currentPolicyHeadHash (conversation s')) →
  (e_policyEvaluationLogPosition x, e_policyEvaluationLogHeadHash x)
  = (c_lastPosition (conversation s'), c_currentLogHeadHash (conversation s')) →
  (∀ r, evaluateLockedApplicationAppend s' x now = Ok (rejected r) → policy_reason r = false) ∨
  let locked := lockedProofBody (conversation s') (policyHead s') (k_witnessCheckpointId (ev_body e))
                  (k_witnessedPolicyHeadHash (ev_body e)) in
  collision [fieldsPreimage POLICY_HEAD_PROOF_EVIDENCE_DIGEST_DOMAIN (proofFields (ev_body e))]
            [fieldsPreimage POLICY_HEAD_PROOF_EVIDENCE_DIGEST_DOMAIN (proofFields locked)].
Proof.
  intros (s & Hs & HA & HE & Es & HP & HR & HL)%refresh_inv HN HT [= N1 N2 N3] [= N4 N5].
  destruct (refresh_binds s e s' HP HA HE Es) as [EB|EC]; [left|by right].
  pose proof (refreshed_current s e s' HA HR HE Es EB) as ([= F1 F2 F3 F4 F5 F6 F7 F8] & G1 & G2 & G3 & G4 & G5 & G6 & G7 & G8).
  rewrite !Forall_cons in G8. destruct G8 as (I1 & I2 & I3 & _).
  intros r H. unfold evaluateLockedApplicationAppend in H. cbv zeta in H. do 8 pass_reason.
  apply bind_Ok in H as (evidence & _ & H). pass_reason.
  match type of H with (if ?b then _ else _) = _ => assert (b = false) as E by (refute_test; congruence); rewrite E in H; clear E end.
  match type of H with (if ?b then _ else _) = _ => assert (b = false) as E by (refute_test; congruence); rewrite E in H; clear E end.
  rewrite !slt_canonicalInstant, !sle_canonicalInstant in H by done.
  match type of H with (if ?b then _ else _) = _ => assert (b = false) as E by (refute_test; lia || (rewrite ?G4, ?G5, ?G6 in *; lia)); rewrite E in H; clear E end.
  do 3 pass_reason.
  repeat match type of H with match addUint63 ?a ?b with _ => _ end = _ => destruct (addUint63 a b) end;
    try (injection H as <-; reflexivity).
  pass_reason. destruct (reserveQuotas _ _ _ _) as [r'|[ds qs']] eqn:ER; [|discriminate H].
  injection H as <-. by apply reserveQuotas_reason in ER as [-> | ->].
Qed.
End Accepted.

(** ** A worked refresh *)

#[local] Existing Instance fips_sha256.

Definition fresh_body : PolicyHeadProofBody := {|
  k_expectation := refreshExpectation sample_snapshot sample_now;
  k_signedBodySha256 := sample_head; k_signerKeyId := "key-2"; k_signatureSha256 := sample_head;
  k_witnessCheckpointId := policy_head_id; k_witnessedPolicyHeadHash := sample_hash;
  k_witnessEvidenceDigest := sample_head; k_issuedAt := "2024-01-01T11:59:58.000Z";
  k_expiresAt := "2024-01-01T12:04:58.000Z"; k_freshnessStatus := fresh_;
  k_currentStatus := current_; k_sendGrantInclusionStatus := inclusion_verified;
  k_policyConsistencyEvidenceDigest := sample_head |}.
Definition fresh_digest : Hash32 :=
  Eval vm_compute in valueOf "" (computePolicyHeadProofEvidenceDigest fresh_body).
Definition fresh_proof : PolicyHeadProofEvidence := {|
  ev_body := fresh_body; ev_evidenceDigest := fresh_digest |}.
Definition refreshed_snapshot : LockedApplicationAppendSnapshot :=
  with_policyHead (refreshedPolicyHead sample_policyHead fresh_proof) sample_snapshot.

Lemma sample_refreshes :
  refreshLockedApplicationAppendAuthorizationSnapshot (snapshot_obj sample_snapshot) fresh_proof
  = Ok refreshed_snapshot.
Proof. vm_compute. reflexivity. Qed.

Lemma fresh_accepted : accepted_proof fresh_proof.
Proof. destruct (refresh_inv _ _ _ sample_refreshes) as (s & _ & H & _). exact H. Qed.

(** Proofs of more than five minutes are refused. *)
Example stale_window :
  parsePolicyHeadProofEvidence
    (proofEvidence_obj {| ev_body := {|
       k_expectation := refreshExpectation sample_snapshot sample_now;
       k_signedBodySha256 := sample_head; k_signerKeyId := "key-2"; k_signatureSha256 := sample_head;
       k_witnessCheckpointId := policy_head_id; k_witnessedPolicyHeadHash := sample_hash;
       k_witnessEvidenceDigest := sample_head; k_issuedAt := "2024-01-01T11:59:58.000Z";
       k_expiresAt := "2024-01-01T12:04:58.001Z"; k_freshnessStatus := fresh_;
       k_currentStatus := current_; k_sendGrantInclusionStatus := inclusion_verified;
       k_policyConsistencyEvidenceDigest := sample_head |};
       ev_evidenceDigest := sample_hash |})
    (proofExpectation_obj (refreshExpectation sample_snapshot sample_now))
  = Throw DeliveryStateValidationError.
Proof. vm_compute. reflexivity. Qed.

Lemma policyProof_digest_binding_witness :
  fresh_proof = fresh_proof ∨
  collision [fieldsPreimage POLICY_HEAD_PROOF_EVIDENCE_DIGEST_DOMAIN (proofFields fresh_body)]
            [fieldsPreimage POLICY_HEAD_PROOF_EVIDENCE_DIGEST_DOMAIN (proofFields fresh_body)].
Proof. exact (policyProof_digest_binding fresh_proof fresh_proof fresh_accepted fresh_accepted eq_refl). Defined.

Lemma refresh_admits_witness :
  (∀ r, evaluateLockedApplicationAppend refreshed_snapshot sample_expectation sample_now = Ok (rejected r) →
        policy_reason r = false) ∨
  let locked := lockedProofBody (conversation refreshed_snapshot) (policyHead refreshed_snapshot)
                  policy_head_id sample_hash in
  collision [fieldsPreimage POLICY_HEAD_PROOF_EVIDENCE_DIGEST_DOMAIN (proofFields fresh_body)]
            [fieldsPreimage POLICY_HEAD_PROOF_EVIDENCE_DIGEST_DOMAIN (proofFields locked)].
Proof.
  apply (refresh_admits _ fresh_proof refreshed_snapshot sample_expectation sample_now sample_refreshes).
  - vm_compute. reflexivity.
  - split; [apply Z.leb_le; vm_compute; reflexivity|apply Z.ltb_lt; vm_compute; reflexivity].
  - reflexivity.
  - reflexivity.
Defined.
