(* ===== verification/CursorCodec.v ===== *)
(** * Conversation cursors ([src/production/delivery/conversationCursorCodec.ts])

    The sealed paging token of a conversation: its encoder and decoder, and the
    context and claims parsers of [production/delivery/sync.ts] that surround
    them.  AES-256-GCM is a class; its laws are those of deterministic
    authenticated encryption with a 128-bit tag. *)

From stdpp Require Import base list strings.
From Stdlib Require Import ZArith Lia Ascii.
From S2P Require Import Prelude Sha256 Base64Url JsTime JsValue ValueObjects Hashes Limits.

(** [createCipheriv] and [createDecipheriv] with ["aes-256-gcm"]: the
    ciphertext is as long as the plaintext, the tag has 16 bytes, and the
    decipher accepts exactly what the cipher produces. *)
Class AesGcm := {
  aes_seal : bytes → bytes → bytes → bytes → bytes * bytes;
  aes_open : bytes → bytes → bytes → bytes → bytes → option bytes;
  aes_tag_length : ∀ k n a m, length (snd (aes_seal k n a m)) = 16%nat;
  aes_text_length : ∀ k n a m, length (fst (aes_seal k n a m)) = length m;
  aes_open_iff : ∀ k n a c t m, aes_open k n a c t = Some m ↔ aes_seal k n a m = (c, t);
}.

(** ** Constants *)

Definition CONVERSATION_CURSOR_PREFIX : string := "cc1.".
Definition CONVERSATION_CURSOR_PROFILE : string := "conversation-cursor-aes-256-gcm.v1".
Definition CONVERSATION_EVENTS_ROUTE_TEMPLATE : string := "/v1/conversations/{conversationId}/events".
Definition CONVERSATION_CURSOR_MAX_LIFETIME_MILLISECONDS : Z := 30 * 24 * 60 * 60 * 1000.
Definition CURSOR_KIND : string := "conversation-cursor-claims.v1".
Definition CURSOR_AAD_DOMAIN : string := "jb-msg-conversation-cursor-aad/v1".
Definition CURSOR_PREFIX : string := "cc1.".
Definition CURSOR_MAX_CHARACTERS : Z := 1024.

Abbreviation DeliveryRealmId := string (only parsing).

(** ** Data: the route template is a constant of the type *)

Record ConversationCursorContext := {
  cc_realmId : DeliveryRealmId;
  cc_accountId : AccountId;
  cc_installationId : InstallationId;
  cc_conversationId : ConversationId;
}.

(** The encrypted fields; account and route are associated data only. *)
Record ConversationCursorPlaintext := {
  pt_realmId : DeliveryRealmId;
  pt_installationId : InstallationId;
  pt_conversationId : ConversationId;
  pt_lastReturnedPosition : Uint63String;
  pt_issuedAt : Rfc3339Millis;
  pt_expiresAt : Rfc3339Millis;
  pt_keyId : SigningKeyId;
}.

Record ConversationCursorClaims := {
  cl_encodedCursor : string;
  cl_realmId : DeliveryRealmId;
  cl_accountId : AccountId;
  cl_installationId : InstallationId;
  cl_conversationId : ConversationId;
  cl_lastReturnedPosition : Uint63String;
  cl_issuedAt : Rfc3339Millis;
  cl_expiresAt : Rfc3339Millis;
  cl_keyId : SigningKeyId;
}.

(** ** Context and claims ([sync.ts]) *)

Definition invalidSync {A} : result A := Throw ConversationSyncValidationError.

Definition parseDeliveryRealmId (value : unknown) : result DeliveryRealmId :=
  match value with
  | VString s => if LABEL_64 s then Ok s else invalidSync
  | _ => invalidSync
  end.

Definition parseConversationCursorContext (value : unknown) : result ConversationCursorContext :=
  record ← expectExactRecord value
    ["realmId"; "accountId"; "installationId"; "conversationId"; "routeTemplate"];
  throw_if (negb (isString record.["routeTemplate"] CONVERSATION_EVENTS_ROUTE_TEMPLATE))
    ConversationSyncValidationError;;
  realmId ← parseDeliveryRealmId record.["realmId"];
  accountId ← parseAccountId record.["accountId"];
  installationId ← parseInstallationId record.["installationId"];
  conversationId ← parseConversationId record.["conversationId"];
  Ok {| cc_realmId := realmId; cc_accountId := accountId; cc_installationId := installationId;
        cc_conversationId := conversationId |}.

(** [s.startsWith(prefix)]. *)
Definition startsWith (prefix s : string) : bool := String.prefix prefix s.

(** [s.slice(n)]. *)
Definition slice (n : nat) (s : string) : string :=
  String.string_of_list_ascii (drop n (chars s)).

Definition parseEncodedConversationCursor (value limits : unknown) : result string :=
  parsedLimits ← parseDeliveryLimits limits;
  let cursorMax := BigInt (cursorMaxCharacters parsedLimits) in
  match value with
  | VString s =>
      throw_if ((cursorMax <? strlen s) || negb (startsWith CONVERSATION_CURSOR_PREFIX s))
        ConversationSyncValidationError;;
      let blob := slice 4 s in
      throw_if (negb (BASE64URL (chars blob))) ConversationSyncValidationError;;
      parseCanonicalBase64UrlBytes (VString blob) 29 cursorMax;;
      Ok s
  | _ => invalidSync
  end.

(** The claims parser returns the claims, or raises the expiry with them. *)
Inductive ClaimsOutcome :=
| claimsAccepted (claims : ConversationCursorClaims)
| claimsExpired (claims : ConversationCursorClaims).

Definition parseConversationCursorClaims (value : unknown) (encodedCursor : unknown)
    (context now limits : unknown) : result ClaimsOutcome :=
  context ← parseConversationCursorContext context;
  now ← parseRfc3339Millis now;
  encodedCursor ← parseEncodedConversationCursor encodedCursor limits;
  record ← expectExactRecord value
    ["kind"; "profile"; "encodedCursor"; "realmId"; "accountId"; "installationId";
     "conversationId"; "routeTemplate"; "lastReturnedPosition"; "issuedAt"; "expiresAt"; "keyId";
     "authenticated"];
  throw_if (negb (isString record.["kind"] CURSOR_KIND)
            || negb (isString record.["profile"] CONVERSATION_CURSOR_PROFILE)
            || negb (isString record.["encodedCursor"] encodedCursor)
            || negb (isString record.["routeTemplate"] CONVERSATION_EVENTS_ROUTE_TEMPLATE)
            || negb (match record.["authenticated"] with VBool true => true | _ => false end))
    ConversationSyncValidationError;;
  realmId ← parseDeliveryRealmId record.["realmId"];
  accountId ← parseAccountId record.["accountId"];
  installationId ← parseInstallationId record.["installationId"];
  conversationId ← parseConversationId record.["conversationId"];
  lastReturnedPosition ← parseUint63String record.["lastReturnedPosition"];
  issuedAt ← parseRfc3339Millis record.["issuedAt"];
  expiresAt ← parseRfc3339Millis record.["expiresAt"];
  keyId ← parseSigningKeyId record.["keyId"];
  throw_if ((realmId !== cc_realmId context) || (accountId !== cc_accountId context)
            || (installationId !== cc_installationId context)
            || (conversationId !== cc_conversationId context))
    DecodedConversationCursorBindingError;;
  let issued := Date_parse issuedAt in
  let expires := Date_parse expiresAt in
  throw_if ((Date_parse now <? issued) || (expires <=? issued)
            || (CONVERSATION_CURSOR_MAX_LIFETIME_MILLISECONDS <? expires - issued))
    ConversationSyncValidationError;;
  let parsed := {| cl_encodedCursor := encodedCursor; cl_realmId := realmId;
                   cl_accountId := accountId; cl_installationId := installationId;
                   cl_conversationId := conversationId;
                   cl_lastReturnedPosition := lastReturnedPosition; cl_issuedAt := issuedAt;
                   cl_expiresAt := expiresAt; cl_keyId := keyId |} in
  if expires <=? Date_parse now then Ok (claimsExpired parsed) else Ok (claimsAccepted parsed).

(** ** Bytes *)

(** [Buffer.from(s, "ascii")] keeps the low byte of each code unit;
    [buffer.toString("ascii")] clears the high bit of each byte. *)
Definition ascii_bytes (s : string) : bytes := map (λ c, byte_of_Z (code c)) (chars s).
Definition ascii_string (bs : bytes) : string :=
  String.string_of_list_ascii (map (λ b, ascii_of_N (Z.to_N (Z.land (Z_of_byte b) 127))) bs).

Definition lengthPrefixed (value : string) : bytes := lp (ascii_bytes value).

Definition u64be (value : Z) : result bytes :=
  throw_if ((value <? 0) || (18446744073709551615 <? value)) TypeError;; Ok (Fips.be 8 value).

(** [bytes.subarray(from, to)]. *)
Definition subarray (from to : Z) (bs : bytes) : bytes :=
  take (Z.to_nat (to - from)) (drop (Z.to_nat from) bs).

(** *** [ByteReader]: reads move the offset *)

Definition reader A := Z → result (A * Z).

Section ByteReader.
Variable bs : bytes.

Definition short_read (n offset : Z) : result unit :=
  throw_if (byteLength bs <? offset + n) RangeError.

Definition u8 : reader Z := λ offset,
  short_read 1 offset;; Ok (be32 (subarray offset (offset + 1) bs), offset + 1).

Definition reader_u64be : reader Z := λ offset,
  short_read 8 offset;; Ok (be32 (subarray offset (offset + 8) bs), offset + 8).

Definition lengthPrefixedAscii : reader string := λ offset,
  short_read 4 offset;;
  let length := be32 (subarray offset (offset + 4) bs) in
  let offset := offset + 4 in
  short_read length offset;;
  Ok (ascii_string (subarray offset (offset + length) bs), offset + length).

Definition expectExhausted (offset : Z) : result unit :=
  throw_if (negb (offset =? byteLength bs)) RangeError.
End ByteReader.

(** ** The codec *)

Record Codec := { codec_keyId : string; codec_key : bytes }.

Inductive CursorDecodeResult :=
| AUTHENTICATION_FAILED
| decodedClaims (claims : ConversationCursorClaims).

Definition createKeyedConversationCursorCodec (keyId : string) (key : bytes) : result Codec :=
  throw_if (negb (LABEL_64 keyId)) TypeError;;
  throw_if (negb (byteLength key =? 32)) TypeError;;
  Ok {| codec_keyId := keyId; codec_key := key |}.

Definition aadFor (c : Codec) (cursorContext : ConversationCursorContext) : bytes :=
  ascii_bytes CURSOR_AAD_DOMAIN
  ++ lengthPrefixed (cc_realmId cursorContext)
  ++ lengthPrefixed (cc_accountId cursorContext)
  ++ lengthPrefixed (cc_installationId cursorContext)
  ++ lengthPrefixed (cc_conversationId cursorContext)
  ++ lengthPrefixed ("GET " +:+ CONVERSATION_EVENTS_ROUTE_TEMPLATE)
  ++ lengthPrefixed (codec_keyId c).

(** The encrypted body. *)
Definition cursorBody (plaintext : ConversationCursorPlaintext) : result bytes :=
  position ← u64be (BigInt (pt_lastReturnedPosition plaintext));
  issuedAt ← u64be (Date_parse (pt_issuedAt plaintext));
  expiresAt ← u64be (Date_parse (pt_expiresAt plaintext));
  Ok ([byte_of_Z 1] ++ lengthPrefixed (pt_realmId plaintext)
      ++ lengthPrefixed (pt_conversationId plaintext) ++ lengthPrefixed (pt_installationId plaintext)
      ++ position ++ issuedAt ++ expiresAt ++ lengthPrefixed (pt_keyId plaintext)).

(** [new Date(Number(ms)).toISOString()], which rejects instants outside the
    range of a Date. *)
Definition isoInstant (ms : Z) : result string :=
  throw_if (8640000000000000 <? ms) RangeError;; Ok (toISOString ms).

Section Cipher.
Context `{AesGcm}.

(** The sealed blob of a token. *)
Definition cursorBlob (c : Codec) (keyIdBytes nonce : bytes) (cursorContext : ConversationCursorContext)
    (body : bytes) : bytes :=
  let '(ciphertext, tag) := aes_seal (codec_key c) nonce (aadFor c cursorContext) body in
  [byte_of_Z 1] ++ [byte_of_Z (byteLength keyIdBytes)] ++ keyIdBytes ++ nonce ++ ciphertext ++ tag.

(** [encode]; [nonce] is what the allocator returned. *)
Definition encode (c : Codec) (plaintext : ConversationCursorPlaintext) (context : unknown)
    (nonce : bytes) : result string :=
  cursorContext ← parseConversationCursorContext context;
  throw_if ((pt_keyId plaintext !== codec_keyId c)
            || (pt_realmId plaintext !== cc_realmId cursorContext)
            || (pt_installationId plaintext !== cc_installationId cursorContext)
            || (pt_conversationId plaintext !== cc_conversationId cursorContext)) TypeError;;
  body ← cursorBody plaintext;
  throw_if (negb (byteLength nonce =? 12)) TypeError;;
  let blob := cursorBlob c (ascii_bytes (codec_keyId c)) nonce cursorContext body in
  let encodedCursor := CURSOR_PREFIX +:+ base64url_encode blob in
  throw_if (CURSOR_MAX_CHARACTERS <? strlen encodedCursor) TypeError;;
  Ok encodedCursor.

(** The body of the second [try] of [decode]. *)
Definition readClaims (cursorContext : ConversationCursorContext) (token clearKeyId : string)
    (body : bytes) : result CursorDecodeResult :=
  '(version, offset) ← u8 body 0;
  if negb (version =? 1) then Ok AUTHENTICATION_FAILED else
  '(realmId, offset) ← lengthPrefixedAscii body offset;
  '(conversationId, offset) ← lengthPrefixedAscii body offset;
  '(installationId, offset) ← lengthPrefixedAscii body offset;
  '(lastReturnedPosition, offset) ← reader_u64be body offset;
  '(issuedAtMilliseconds, offset) ← reader_u64be body offset;
  '(expiresAtMilliseconds, offset) ← reader_u64be body offset;
  '(encryptedKeyId, offset) ← lengthPrefixedAscii body offset;
  expectExhausted body offset;;
  if (realmId !== cc_realmId cursorContext) || (conversationId !== cc_conversationId cursorContext)
     || (installationId !== cc_installationId cursorContext) || (encryptedKeyId !== clearKeyId)
  then Ok AUTHENTICATION_FAILED else
  issuedAt ← isoInstant issuedAtMilliseconds;
  expiresAt ← isoInstant expiresAtMilliseconds;
  Ok (decodedClaims
    {| cl_encodedCursor := token; cl_realmId := realmId; cl_accountId := cc_accountId cursorContext;
       cl_installationId := installationId; cl_conversationId := conversationId;
       cl_lastReturnedPosition := decimal lastReturnedPosition; cl_issuedAt := issuedAt;
       cl_expiresAt := expiresAt; cl_keyId := encryptedKeyId |}).

Definition decodeBlob (c : Codec) (cursorContext : ConversationCursorContext) (token : string)
    (blob : bytes) : CursorDecodeResult :=
  let size := byteLength blob in
  if size <? 2 + 1 + 12 + 16 then AUTHENTICATION_FAILED else
  if negb (be32 (subarray 0 1 blob) =? 1) then AUTHENTICATION_FAILED else
  let keyIdLength := be32 (subarray 1 2 blob) in
  if (keyIdLength <? 1) || (64 <? keyIdLength) || (size <? 2 + keyIdLength + 12 + 16)
  then AUTHENTICATION_FAILED else
  let clearKeyId := ascii_string (subarray 2 (2 + keyIdLength) blob) in
  if clearKeyId !== codec_keyId c then AUTHENTICATION_FAILED else
  let nonce := subarray (2 + keyIdLength) (2 + keyIdLength + 12) blob in
  let tag := subarray (size - 16) size blob in
  let ciphertext := subarray (2 + keyIdLength + 12) (size - 16) blob in
  match aes_open (codec_key c) nonce (aadFor c cursorContext) ciphertext tag with
  | None => AUTHENTICATION_FAILED
  | Some body =>
      match readClaims cursorContext token clearKeyId body with
      | Ok r => r
      | Throw _ => AUTHENTICATION_FAILED
      end
  end.

Definition decode (c : Codec) (encodedCursor context : unknown) : result CursorDecodeResult :=
  cursorContext ← parseConversationCursorContext context;
  match encodedCursor with
  | VString token =>
      if (CURSOR_MAX_CHARACTERS <? strlen token) || negb (startsWith CURSOR_PREFIX token)
      then Ok AUTHENTICATION_FAILED else
      let encodedBlob := slice 4 token in
      if negb (BASE64URL (chars encodedBlob)) then Ok AUTHENTICATION_FAILED else
      let blob := base64url_decode encodedBlob in
      if base64url_encode blob !== encodedBlob then Ok AUTHENTICATION_FAILED else
      Ok (decodeBlob c cursorContext token blob)
  | _ => Ok AUTHENTICATION_FAILED
  end.
End Cipher.

(** *** The in-memory nonce allocator of the tests *)

(** [allocate] on the counter [next]: the nonce and the next counter. *)
Definition allocateNonce (next : Z) : result (bytes * Z) :=
  throw_if ((next <? 0) || (18446744073709551615 <? next)) RangeError;;
  Ok (repeat (byte_of_Z 0) 4 ++ Fips.be 8 next, next + 1).

(** ** Encodings are inverse *)

Lemma be32_app xs ys : be32 (xs ++ ys) = be32 xs * 256 ^ byteLength ys + be32 ys.
Proof.
  unfold be32, byteLength. revert xs. induction ys as [|y ys IH] using rev_ind; intros xs.
  - rewrite app_nil_r. cbn. lia.
  - rewrite app_assoc, foldl_app, IH, foldl_app, length_app. cbn [foldl length].
    rewrite Nat2Z.inj_add, Z.pow_add_r by lia. change (256 ^ Z.of_nat 1) with 256. lia.
Qed.

Lemma be32_be n z : 0 <= z < 256 ^ Z.of_nat n → be32 (Fips.be n z) = z.
Proof.
  revert z. induction n as [|n IH]; intros z Hz.
  - cbn in *. lia.
  - cbn [Fips.be]. rewrite Nat2Z.inj_succ, Z.pow_succ_r in Hz by lia.
    pose proof (Z.div_mod z 256 ltac:(lia)). pose proof (Z.mod_pos_bound z 256 ltac:(lia)).
    rewrite be32_app, Z.shiftr_div_pow2 by lia. change (2 ^ 8) with 256.
    rewrite IH by (split; [apply Z.div_pos; lia | apply Z.div_lt_upper_bound; lia]).
    change (256 ^ byteLength _) with 256. unfold be32. cbn. rewrite Z_of_byte_of_Z. lia.
Qed.

Lemma u64be_Ok z b : u64be z = Ok b ↔ 0 <= z < 2 ^ 64 ∧ b = Fips.be 8 z.
Proof.
  unfold u64be. rewrite bind_Ok. change (2 ^ 64) with 18446744073709551616. split.
  - intros (u & Hu%throw_if_Ok & [= <-]). split; [lia|done].
  - intros [Hz ->]. exists (). split; [apply throw_if_Ok|done]. lia.
Qed.

Lemma u64be_eq z : 0 <= z < 2 ^ 64 → u64be z = Ok (Fips.be 8 z).
Proof. intros. by apply u64be_Ok. Qed.

(** Seven-bit text. *)
Definition is_ascii (s : string) : bool := forallb (λ c, code c <? 128) (chars s).

Lemma land_127 z : Z.land z 127 = z mod 128.
Proof. by apply (land_ones_mod z 7). Qed.

Lemma ascii_string_bytes s : is_ascii s = true → ascii_string (ascii_bytes s) = s.
Proof.
  unfold is_ascii, ascii_string, ascii_bytes. intros HS. apply chars_inj. rewrite chars_of_list.
  rewrite map_map. induction (chars s) as [|c cs IH]; [done|]. cbn in *.
  apply andb_true_iff in HS as [Hc HS]. rewrite (IH HS). f_equal. pose proof (code_bound c).
  rewrite Z_of_byte_of_Z, land_127, Z.mod_small by (rewrite Z.mod_small; lia).
  rewrite Z.mod_small by lia. unfold code. by rewrite N2Z.id, ascii_N_embedding.
Qed.

Lemma ascii_bytes_length s : byteLength (ascii_bytes s) = strlen s.
Proof. unfold byteLength, ascii_bytes, strlen. by rewrite length_map, length_chars. Qed.

Lemma ascii_bytes_inj s t : ascii_bytes s = ascii_bytes t → s = t.
Proof.
  intros HE. apply chars_inj. unfold ascii_bytes in HE. revert HE. generalize (chars s) (chars t).
  intros l. induction l as [|c l IH]; intros [|d m] HE; try done. injection HE as Hc HE.
  f_equal; [|by apply IH]. apply code_inj. apply (f_equal Z_of_byte) in Hc.
  pose proof (code_bound c). pose proof (code_bound d).
  rewrite !Z_of_byte_of_Z, !Z.mod_small in Hc by lia. done.
Qed.

Lemma LABEL_64_ascii s : LABEL_64 s = true → is_ascii s = true.
Proof.
  unfold LABEL_64, is_ascii. destruct (chars s) as [|c cs]; [done|]. intros HL. bsimp.
  assert (HC : ∀ c, is_label_char c = true → (code c <? 128) = true).
  { intros x. unfold is_label_char, is_label_start, is_lower, is_digit, in_range, is_char.
    change (code "."%char) with 46. change (code "_"%char) with 95. change (code "-"%char) with 45.
    lia. }
  cbn. rewrite HC; cbn; [|unfold is_label_char; by rewrite HL].
  apply forallb_forall. intros x Hx. apply HC. by eapply forallb_forall in Hx; [|eassumption].
Qed.

Lemma match_classes_forall (P : ascii → Prop) ps cs :
  Forall (λ p : ascii → bool, ∀ c, p c = true → P c) ps → match_classes ps cs = true → Forall P cs.
Proof.
  intros HP. revert cs. induction HP as [|p ps Hp _ IH]; intros [|c cs]; cbn; try done.
  intros [Hc Hm]%andb_true_iff. constructor; [by apply Hp | by apply IH].
Qed.

Lemma is_uuid4_ascii s : is_uuid4 s = true → is_ascii s = true.
Proof.
  unfold is_uuid4, matches, is_ascii. intros HU.
  apply forallb_forall. intros c Hc. apply list_elem_of_In in Hc.
  eapply (match_classes_forall (λ c, (code c <? 128) = true)) in HU.
  - rewrite Forall_forall in HU. by apply HU.
  - unfold UUID_V4, uuid_pattern, hexes. cbn [repeat app].
    assert (∀ c, is_hex c = true → (code c <? 128) = true).
    { intros x. unfold is_hex, is_digit, in_range. lia. }
    assert (∀ d c, code d < 128 → is_char d c = true → (code c <? 128) = true).
    { intros d x. unfold is_char. lia. }
    assert (∀ c, is_variant c = true → (code c <? 128) = true) as HV.
    { intros x. unfold is_variant, is_char. change (code "8"%char) with 56.
      change (code "9"%char) with 57. change (code "a"%char) with 97.
      change (code "b"%char) with 98. lia. }
    repeat (apply Forall_cons; split); try exact (Forall_nil_2 _); try exact H; try exact HV;
      intros x; apply H0; done.
Qed.

(** ** Reading at an offset *)

(** The reader at [offset] has [rest] before it. *)
Definition at_rest (bs : bytes) (offset : Z) (rest : bytes) : Prop :=
  0 <= offset ∧ drop (Z.to_nat offset) bs = rest ∧ byteLength bs = offset + byteLength rest.

Lemma at_rest_start bs : at_rest bs 0 bs.
Proof. unfold at_rest. split; [lia|]. split; [done|lia]. Qed.

Lemma at_rest_step bs o x rest : at_rest bs o (x ++ rest) → at_rest bs (o + byteLength x) rest.
Proof.
  unfold at_rest. rewrite byteLength_app. intros (Ho & HD & HL).
  pose proof (byteLength_nonneg x). split; [lia|]. split; [|lia].
  rewrite Z2Nat.inj_add, <- drop_drop, HD by lia. unfold byteLength. by rewrite Nat2Z.id, drop_app_length.
Qed.

Lemma subarray_at bs o x rest n :
  at_rest bs o (x ++ rest) → n = byteLength x → subarray o (o + n) bs = x.
Proof.
  intros (Ho & HD & _) ->. unfold subarray. rewrite HD. unfold byteLength.
  by replace (Z.to_nat (o + Z.of_nat (length x) - o)) with (length x) by lia; rewrite take_app_length.
Qed.

Lemma short_read_at bs o x rest : at_rest bs o (x ++ rest) → short_read bs (byteLength x) o = Ok ().
Proof.
  intros (_ & _ & HL). unfold short_read. rewrite byteLength_app in HL. apply throw_if_Ok.
  pose proof (byteLength_nonneg rest). lia.
Qed.

(** [r] reads [x] as [a], wherever it stands. *)
Definition reads {A} (r : bytes → reader A) (x : bytes) (a : A) : Prop :=
  ∀ bs o rest, at_rest bs o (x ++ rest) → r bs o = Ok (a, o + byteLength x).

Lemma read_u8 z : reads u8 [byte_of_Z z] (z mod 256).
Proof.
  intros bs o rest HA. unfold u8. change 1 with (byteLength [byte_of_Z z]).
  rewrite (short_read_at _ _ _ _ HA). cbn [mbind result_bind].
  rewrite (subarray_at _ _ _ _ _ HA) by done. unfold be32. cbn. by rewrite Z_of_byte_of_Z.
Qed.

Lemma read_u64be z : 0 <= z < 2 ^ 64 → reads reader_u64be (Fips.be 8 z) z.
Proof.
  intros Hz bs o rest HA. unfold reader_u64be.
  assert (HL : byteLength (Fips.be 8 z) = 8) by (unfold byteLength; by rewrite Fips.length_be).
  pose proof (short_read_at _ _ _ _ HA) as HS. rewrite HL in HS. rewrite HS. cbn [mbind result_bind].
  rewrite (subarray_at _ _ _ _ _ HA), HL, be32_be by done. done.
Qed.

Lemma read_ascii bs_ : fits U32_MAX bs_ → reads lengthPrefixedAscii (lp bs_) (ascii_string bs_).
Proof.
  intros HF bs o rest HA. unfold lengthPrefixedAscii. unfold lp in HA. rewrite <- app_assoc in HA.
  pose proof (byteLength_nonneg bs_). unfold fits in HF.
  assert (HL : byteLength (u32be (byteLength bs_)) = 4) by done.
  pose proof (short_read_at _ _ _ _ HA) as HS. rewrite HL in HS. rewrite HS. cbn [mbind result_bind].
  rewrite (subarray_at _ _ _ _ _ HA) by done. rewrite be32_u32be by lia.
  apply at_rest_step in HA. rewrite HL in HA. rewrite (short_read_at _ _ _ _ HA).
  cbn [mbind result_bind]. rewrite (subarray_at _ _ _ _ _ HA) by done.
  unfold lp. rewrite byteLength_app, HL. by rewrite Z.add_assoc.
Qed.

Lemma read_exhausted bs o : at_rest bs o [] → expectExhausted bs o = Ok ().
Proof.
  intros (_ & _ & HL). unfold expectExhausted. apply throw_if_Ok. change (byteLength []) with 0 in HL. lia.
Qed.

(** Performs the first read of a call, knowing what is there. *)
Ltac read_next HA lem :=
  rewrite (lem _ _ _ HA); apply at_rest_step in HA; cbn [mbind result_bind].

(** ** Slices of a blob *)

Lemma subarray_split a b c bs :
  0 <= a <= b → b <= c → subarray a c bs = subarray a b bs ++ subarray b c bs.
Proof.
  intros Ha Hb. unfold subarray.
  replace (Z.to_nat (c - a)) with (Z.to_nat (b - a) + Z.to_nat (c - b))%nat by lia.
  replace (Z.to_nat b) with (Z.to_nat a + Z.to_nat (b - a))%nat by lia.
  rewrite <- drop_drop. by rewrite take_take_drop.
Qed.

Lemma subarray_whole bs : subarray 0 (byteLength bs) bs = bs.
Proof. unfold subarray, byteLength. rewrite take_ge; [done|]. rewrite length_drop. lia. Qed.

Lemma subarray_length a b bs :
  0 <= a <= b → b <= byteLength bs → byteLength (subarray a b bs) = b - a.
Proof. unfold subarray, byteLength. intros. rewrite length_take, length_drop. lia. Qed.

Lemma be32_single b z : be32 b = z → byteLength b = 1 → b = [byte_of_Z z].
Proof.
  unfold byteLength. destruct b as [|x [|]]; cbn; try lia. intros <- _.
  f_equal. symmetry. apply byte_of_Z_of_byte.
Qed.

(** ** What the decoder accepts *)

Lemma createCodec_Ok keyId key c :
  createKeyedConversationCursorCodec keyId key = Ok c →
  LABEL_64 keyId = true ∧ codec_keyId c = keyId ∧ codec_key c = key ∧ 1 <= strlen keyId <= 64.
Proof.
  unfold createKeyedConversationCursorCodec. intros HC. inv_result. subst. cbn. bsimp.
  split; [done|]. split; [done|]. split; [done|]. revert Hx. unfold LABEL_64, strlen. rewrite <- length_chars.
  destruct (chars keyId); [done|]. intros HL. bsimp. cbn. lia.
Qed.

Lemma startsWith_app p s : startsWith p (p +:+ s) = true.
Proof.
  unfold startsWith. induction p as [|c p IH]; [by destruct s|].
  change (String c p +:+ s) with (String c (p +:+ s)). cbn.
  destruct (ascii_dec c c); [exact IH | congruence].
Qed.

Lemma slice_prefix s : slice 4 (CURSOR_PREFIX +:+ s) = s.
Proof. apply chars_inj. unfold slice. by rewrite chars_of_list, chars_app. Qed.

Lemma startsWith_slice s : startsWith CURSOR_PREFIX s = true → s = CURSOR_PREFIX +:+ slice 4 s.
Proof.
  unfold startsWith, CURSOR_PREFIX.
  destruct s as [|a [|b [|c [|d s]]]]; cbn -[ascii_dec slice];
    repeat (match goal with |- context [ascii_dec ?x ?y] => destruct (ascii_dec x y) as [<-|] end); try done.
  intros _. apply chars_inj. rewrite chars_app. unfold slice. by rewrite chars_of_list.
Qed.

Lemma ascii_string_length bs : strlen (ascii_string bs) = byteLength bs.
Proof.
  unfold strlen, ascii_string, byteLength. by rewrite <- length_chars, chars_of_list, length_map.
Qed.

Section Decode.
Context `{AesGcm}.

(** The pieces of a blob of the right shape. *)
Lemma cursorBlob_shape c kid nonce x body :
  byteLength kid <= 64 → byteLength nonce = 12 →
  let blob := cursorBlob c kid nonce x body in
  let n := 2 + byteLength kid in
  byteLength blob = n + 12 + byteLength body + 16 ∧
  be32 (subarray 0 1 blob) = 1 ∧ be32 (subarray 1 2 blob) = byteLength kid ∧
  subarray 2 n blob = kid ∧ subarray n (n + 12) blob = nonce ∧
  (subarray (n + 12) (byteLength blob - 16) blob,
   subarray (byteLength blob - 16) (byteLength blob) blob)
  = aes_seal (codec_key c) nonce (aadFor c x) body.
Proof.
  intros HK HN. unfold cursorBlob.
  pose proof (aes_text_length (codec_key c) nonce (aadFor c x) body) as HT.
  pose proof (aes_tag_length (codec_key c) nonce (aadFor c x) body) as HG.
  destruct (aes_seal _ _ _ _) as [ct tag]. cbn [fst snd] in *. cbv zeta.
  pose proof (byteLength_nonneg kid). pose proof (byteLength_nonneg ct).
  assert (HTg : byteLength tag = 16) by (unfold byteLength; lia).
  assert (HCt : byteLength ct = byteLength body) by (unfold byteLength; lia).
  set (blob := _ ++ _ ++ _). assert (HA : at_rest blob 0 blob) by apply at_rest_start.
  assert (HS : byteLength blob = 2 + byteLength kid + 12 + byteLength body + 16).
  { subst blob. rewrite !byteLength_app, HN, HCt, HTg. change (byteLength [_]) with 1. lia. }
  rewrite HS. subst blob. pose proof HA as A0. apply at_rest_step in A0 as A1.
  apply at_rest_step in A1 as A2. apply at_rest_step in A2 as A3. apply at_rest_step in A3 as A4.
  rewrite <- (app_nil_r tag) in A4 at 2. apply at_rest_step in A4 as A5.
  change (0 + _) with 1 in A1. change (0 + _ + _) with 2 in A2, A3, A4, A5.
  rewrite HN in A4, A5.
  pose proof (subarray_at _ _ _ _ 1 A0 eq_refl) as E0. pose proof (subarray_at _ _ _ _ 1 A1 eq_refl) as E1.
  pose proof (subarray_at _ _ _ _ _ A2 eq_refl) as E2. pose proof (subarray_at _ _ _ _ 12 A3 (eq_sym HN)) as E3.
  pose proof (subarray_at _ _ _ _ _ A4 eq_refl) as E4. pose proof (subarray_at _ _ _ _ _ A5 eq_refl) as E5.
  rewrite HTg in E5. rewrite HCt in E4, E5. change (0 + 1) with 1 in E0. change (1 + 1) with 2 in E1.
  rewrite E0, E1. split_and!; [done|done| |exact E2|exact E3|].
  - unfold be32. cbn. rewrite Z_of_byte_of_Z, Z.mod_small by lia. lia.
  - replace (2 + byteLength kid + 12 + byteLength body + 16 - 16)
      with (2 + byteLength kid + 12 + byteLength body) by lia.
    by rewrite E4, E5.
Qed.
(** Cutting a blob at increasing offsets. *)
Lemma blob_cut blob k :
  1 <= k → 2 + k + 12 + 16 <= byteLength blob →
  be32 (subarray 0 1 blob) = 1 → be32 (subarray 1 2 blob) = k →
  blob = [byte_of_Z 1] ++ [byte_of_Z k] ++ subarray 2 (2 + k) blob
         ++ subarray (2 + k) (2 + k + 12) blob ++ subarray (2 + k + 12) (byteLength blob - 16) blob
         ++ subarray (byteLength blob - 16) (byteLength blob) blob.
Proof.
  intros Hk HS E1 E2. rewrite <- (be32_single _ _ E1), <- (be32_single _ _ E2)
    by (rewrite subarray_length; lia).
  rewrite <- subarray_split, <- subarray_split, <- subarray_split, <- subarray_split, <- subarray_split
    by lia. by rewrite subarray_whole.
Qed.

Lemma decodeBlob_spec c x token blob r :
  LABEL_64 (codec_keyId c) = true → 1 <= strlen (codec_keyId c) <= 64 →
  decodeBlob c x token blob = decodedClaims r ↔
  ∃ kid nonce body, blob = cursorBlob c kid nonce x body ∧ ascii_string kid = codec_keyId c ∧
    byteLength nonce = 12 ∧ readClaims x token (codec_keyId c) body = Ok (decodedClaims r).
Proof.
  intros HL HK. unfold decodeBlob. cbv zeta. split.
  - destruct (byteLength blob <? _) eqn:ES; [done|]. destruct (negb _) eqn:EV; [done|].
    set (k := be32 (subarray 1 2 blob)). destruct (_ || _ || _) eqn:EK; [done|].
    set (kid := subarray 2 (2 + k) blob). set (nonce := subarray (2 + k) (2 + k + 12) blob).
    set (tag := subarray _ (byteLength blob) blob). set (ct := subarray _ (byteLength blob - 16) blob).
    destruct (negb (bool_decide _)) eqn:EI; [done|].
    destruct (aes_open _ _ _ _ _) as [body|] eqn:EO; [|done].
    bsimp. rewrite EI. destruct (readClaims _ _ _ _) as [res|] eqn:ER; [|done]. intros ->.
    exists kid, nonce, body. apply aes_open_iff in EO. split_and!; [|done| |done].
    + unfold cursorBlob. rewrite EO. assert (byteLength kid = k) as ->.
      { subst kid. rewrite subarray_length; lia. }
      apply (blob_cut blob k); subst k; lia.
    + subst nonce. rewrite subarray_length; lia.
  - intros (kid & nonce & body & -> & HI & HN & HR).
    assert (HKL : byteLength kid = strlen (codec_keyId c)) by (by rewrite <- HI, ascii_string_length).
    destruct (cursorBlob_shape c kid nonce x body) as (ES & E1 & E2 & E3 & E4 & E5); [lia|done|].
    pose proof (byteLength_nonneg body).
    destruct (Z.ltb_spec (byteLength (cursorBlob c kid nonce x body)) (2 + 1 + 12 + 16)); [lia|].
    rewrite E1. cbn [Z.eqb negb]. rewrite E2.
    destruct (_ || _ || _) eqn:EK; [lia|]. rewrite E3, HI, bool_decide_eq_true_2 by done. cbn [negb].
    rewrite E4. symmetry in E5. rewrite (proj2 (aes_open_iff _ _ _ _ _ _) E5). by rewrite HR.
Qed.

(** C32: The decoder never throws past the context check, and it returns claims
    exactly for the bounded tokens that seal, under the codec's key and this
    context, a body that reads as those claims. *)
Theorem decode_spec keyId key c context x :
  createKeyedConversationCursorCodec keyId key = Ok c →
  parseConversationCursorContext context = Ok x →
  (∀ token, ∃ r, decode c token context = Ok r) ∧
  ∀ token r, decode c token context = Ok (decodedClaims r) ↔
    ∃ kid nonce body, let text := CURSOR_PREFIX +:+ base64url_encode (cursorBlob c kid nonce x body) in
      token = VString text ∧ strlen text <= CURSOR_MAX_CHARACTERS ∧
      ascii_string kid = keyId ∧ byteLength nonce = 12 ∧
      readClaims x text keyId body = Ok (decodedClaims r).
Proof.
  intros (HL & <- & _ & HK)%createCodec_Ok HX. unfold decode. rewrite HX. cbn [mbind result_bind].
  split.
  { intros []; eauto. by repeat (case_match; eauto). }
  intros token r. split.
  - destruct token as [| | | | |s| | | | |]; try done.
    destruct (_ || _) eqn:E1; [done|]. apply orb_false_iff in E1 as [E1 EP].
    destruct (negb (BASE64URL _)) eqn:E2; [done|].
    destruct (negb (bool_decide _)) eqn:E3; [done|]. bsimp.
    intros [= (kid & nonce & body & EB & HI & HN & HR)%decodeBlob_spec]; [|done..].
    apply startsWith_slice in EP. exists kid, nonce, body. cbv zeta.
    rewrite <- EB, E3, <- EP. split_and!; [done|lia|done..].
  - intros (kid & nonce & body & -> & HS & HI & HN & HR). rewrite startsWith_app, slice_prefix.
    destruct (Z.ltb_spec CURSOR_MAX_CHARACTERS (strlen (CURSOR_PREFIX +:+
      base64url_encode (cursorBlob c kid nonce x body)))); [lia|]. cbn [orb negb].
    rewrite (proj2 (BASE64URL_Forall _)); [|split; [|apply base64url_encode_alphabet]].
    + cbn [negb]. rewrite base64url_decode_encode, bool_decide_eq_true_2 by done. cbn [negb].
      f_equal. apply decodeBlob_spec; [done..|]. by exists kid, nonce, body.
    + intros HE. apply (f_equal length) in HE. rewrite length_chars in HE.
      pose proof (length_base64url_encode (cursorBlob c kid nonce x body)) as HB.
      unfold strlen in HB. rewrite HE in HB. 
      destruct (cursorBlob_shape c kid nonce x body) as (ES & _); [|done|].
      * rewrite <- ascii_string_length, HI. lia.
      * unfold byteLength in *. cbn in HB. lia.
Qed.
End Decode.

(** ** Issued cursors *)

Lemma parseDeliveryRealmId_Ok v s : parseDeliveryRealmId v = Ok s ↔ v = VString s ∧ LABEL_64 s = true.
Proof.
  unfold parseDeliveryRealmId. split.
  - destruct v; try done. destruct (LABEL_64 s0) eqn:E; [|done]. by intros [= <-].
  - intros [-> ->]. done.
Qed.

Definition valid_context (x : ConversationCursorContext) : bool :=
  LABEL_64 (cc_realmId x) && is_uuid4 (cc_accountId x) && is_uuid4 (cc_installationId x)
  && is_uuid4 (cc_conversationId x).

Lemma parseConversationCursorContext_valid v x :
  parseConversationCursorContext v = Ok x → valid_context x = true.
Proof.
  unfold parseConversationCursorContext, valid_context. intros HX. inv_result. subst. cbn.
  apply parseDeliveryRealmId_Ok in Hx1 as [_ ->]. apply parseUuidV4_Ok in Hx2 as [_ ->].
  apply parseUuidV4_Ok in Hx3 as [_ ->]. by apply parseUuidV4_Ok in Hx4 as [_ ->].
Qed.

(** A plaintext for a context: the service issues branded fields and instants
    of this era. *)
Definition issuable (x : ConversationCursorContext) (keyId : string) (p : ConversationCursorPlaintext) : bool :=
  (pt_realmId p === cc_realmId x) && (pt_installationId p === cc_installationId x)
  && (pt_conversationId p === cc_conversationId x) && (pt_keyId p === keyId)
  && is_uint63 (pt_lastReturnedPosition p)
  && canonicalInstant (pt_issuedAt p) && canonicalInstant (pt_expiresAt p)
  && (0 <=? Date_parse (pt_issuedAt p)) && (0 <=? Date_parse (pt_expiresAt p)).

(** The claims an issued cursor carries. *)
Definition claimsOf (token : string) (x : ConversationCursorContext) (p : ConversationCursorPlaintext) :
  ConversationCursorClaims :=
  {| cl_encodedCursor := token; cl_realmId := pt_realmId p; cl_accountId := cc_accountId x;
     cl_installationId := pt_installationId p; cl_conversationId := pt_conversationId p;
     cl_lastReturnedPosition := pt_lastReturnedPosition p; cl_issuedAt := pt_issuedAt p;
     cl_expiresAt := pt_expiresAt p; cl_keyId := pt_keyId p |}.

Lemma canonicalInstant_max s : canonicalInstant s = true → Date_parse s <= 253402300800000.
Proof.
  intros (f & [Hf Hy] & _ & HP)%canonicalInstant_fields. unfold Date_parse. rewrite HP. cbn.
  pose proof (MakeDate_lt f (fieldsOf 253402300800000) Hf (fieldsOf_valid _)) as HM.
  rewrite MakeDate_fieldsOf in HM. apply Z.lt_le_incl, HM. left.
  change (f_year (fieldsOf 253402300800000)) with 10000. lia.
Qed.

Lemma short_ascii_fits s : short s → fits U32_MAX (ascii_bytes s).
Proof. unfold short, fits, U32_MAX. rewrite ascii_bytes_length. lia. Qed.

Lemma isoInstant_canonical s :
  canonicalInstant s = true → isoInstant (Date_parse s) = Ok s.
Proof.
  intros HC. unfold isoInstant. pose proof (canonicalInstant_max s HC).
  destruct (Z.ltb_spec 8640000000000000 (Date_parse s)); [lia|]. cbn.
  by destruct (dateParse_canonical s HC) as [_ ->].
Qed.

Section Issue.
Context `{AesGcm}.

Lemma read_text s :
  is_ascii s = true → short s → reads lengthPrefixedAscii (lengthPrefixed s) s.
Proof.
  intros HA HS. rewrite <- (ascii_string_bytes s HA) at 2. apply read_ascii, short_ascii_fits, HS.
Qed.

Lemma readClaims_issued x keyId p token :
  valid_context x = true → LABEL_64 keyId = true → issuable x keyId p = true →
  ∃ body, cursorBody p = Ok body ∧ byteLength body <= 300 ∧
    readClaims x token keyId body = Ok (decodedClaims (claimsOf token x p)).
Proof.
  unfold valid_context, issuable. intros HX HK HP. bsimp. unfold cursorBody.
  pose proof (is_uint63_bound _ HP4) as HB. unfold UINT63_MAX in HB.
  pose proof (canonicalInstant_max _ HP3). pose proof (canonicalInstant_max _ HP2).
  pose proof (LABEL_64_short _ HK) as SK. pose proof (LABEL_64_short _ HX) as SR.
  pose proof (is_uuid4_short _ HX1) as SI. pose proof (is_uuid4_short _ HX0) as SC.
  rewrite !u64be_eq by lia.
  cbn [mbind result_bind]. rewrite HP, HP7, HP6, HP5. eexists. split; [reflexivity|].
  split.
  { rewrite !byteLength_app. unfold lengthPrefixed, lp. rewrite !byteLength_app, !ascii_bytes_length.
    change (byteLength [_]) with 1. change (byteLength (u32be _)) with 4.
    unfold byteLength. rewrite !Fips.length_be. unfold short in *. lia. }
  unfold readClaims. remember (_ ++ _) as body eqn:EB. pose proof (at_rest_start body) as HA.
  rewrite EB in HA at 2. clear EB.
  read_next HA (read_u8 1). cbn [Z.eqb negb].
  rewrite <- (app_nil_r (lengthPrefixed keyId)) in HA.
  read_next HA (read_text _ (LABEL_64_ascii _ HX) SR).
  read_next HA (read_text _ (is_uuid4_ascii _ HX0) SC).
  read_next HA (read_text _ (is_uuid4_ascii _ HX1) SI).
  read_next HA (read_u64be (BigInt (pt_lastReturnedPosition p)) ltac:(lia)).
  read_next HA (read_u64be (Date_parse (pt_issuedAt p)) ltac:(lia)).
  read_next HA (read_u64be (Date_parse (pt_expiresAt p)) ltac:(lia)).
  read_next HA (read_text _ (LABEL_64_ascii _ HK) SK).
  rewrite (read_exhausted _ _ HA). cbn [mbind result_bind].
  rewrite !bool_decide_eq_true_2 by done. cbn [negb orb].
  rewrite !isoInstant_canonical by done. cbn [mbind result_bind]. unfold claimsOf.
  rewrite decimal_BigInt, HP, HP7, HP6, HP5; [done|].
  unfold is_uint63 in HP4. by apply andb_true_iff in HP4 as [? _].
Qed.

Lemma cursorBlob_length c kid nonce x body :
  byteLength nonce = 12 → byteLength kid <= 64 →
  strlen (CURSOR_PREFIX +:+ base64url_encode (cursorBlob c kid nonce x body))
    <= 4 + ((byteLength kid + byteLength body + 30) * 4 + 2) / 3.
Proof.
  intros HN HK. destruct (cursorBlob_shape c kid nonce x body HK HN) as (ES & _).
  unfold strlen. rewrite <- length_chars, chars_app, length_app.
  pose proof (length_base64url_encode (cursorBlob c kid nonce x body)) as HB.
  unfold strlen in HB. rewrite <- length_chars in HB. unfold byteLength in *.
  rewrite Nat2Z.inj_add, HB, ES.
  change (Z.of_nat (length (chars CURSOR_PREFIX))) with 4. apply Z.add_le_mono_l.
  apply Z.div_le_mono; lia.
Qed.

(** C33: Round trip: a plaintext that binds its context encodes, and its token
    decodes under that context to exactly the claims it was issued with. *)
Theorem cursor_roundtrip keyId key c context x p nonce :
  createKeyedConversationCursorCodec keyId key = Ok c →
  parseConversationCursorContext context = Ok x →
  issuable x keyId p = true → byteLength nonce = 12 →
  ∃ token, encode c p context nonce = Ok token ∧
    decode c (VString token) context = Ok (decodedClaims (claimsOf token x p)).
Proof.
  intros HC HX HP HN. pose proof (createCodec_Ok _ _ _ HC) as (HL & HI & _ & HK).
  pose proof (parseConversationCursorContext_valid _ _ HX) as HV.
  destruct (readClaims_issued x keyId p "" HV HL HP) as (body & HB & HS & _).
  set (token := CURSOR_PREFIX +:+ base64url_encode
    (cursorBlob c (ascii_bytes keyId) nonce x body)).
  assert (HT : strlen token <= CURSOR_MAX_CHARACTERS).
  { pose proof (cursorBlob_length c (ascii_bytes keyId) nonce x body HN) as HT.
    rewrite ascii_bytes_length in HT. specialize (HT ltac:(lia)). fold token in HT.
    etrans; [exact HT|]. unfold CURSOR_MAX_CHARACTERS.
    transitivity (4 + (400 * 4 + 2) / 3); [|done].
    apply Z.add_le_mono_l, Z.div_le_mono; lia. }
  exists token. split.
  - unfold encode. rewrite HX. cbn [mbind result_bind]. rewrite HB, HI.
    unfold issuable in HP. bsimp. rewrite !bool_decide_eq_true_2 by done. cbn [negb orb throw_if mbind result_bind].
    rewrite HN. cbn [Z.eqb negb throw_if mbind result_bind]. fold token.
    destruct (Z.ltb_spec CURSOR_MAX_CHARACTERS (strlen token)); [lia|done].
  - apply (decode_spec keyId key c context x HC HX). exists (ascii_bytes keyId), nonce, body. fold token.
    cbv zeta. split_and!; [done|done| |done|].
    + by apply ascii_string_bytes, LABEL_64_ascii.
    + destruct (readClaims_issued x keyId p token HV HL HP) as (body' & HB' & _ & HR).
      congruence.
Qed.

(** *** Other contexts, other key bytes *)

Lemma encode_inv c p context nonce token x :
  encode c p context nonce = Ok token → parseConversationCursorContext context = Ok x →
  byteLength nonce = 12 ∧ ∃ body, cursorBody p = Ok body ∧
    token = CURSOR_PREFIX +:+ base64url_encode (cursorBlob c (ascii_bytes (codec_keyId c)) nonce x body).
Proof.
  unfold encode. intros HE HX. rewrite HX in HE. cbn [mbind result_bind] in HE. inv_result. subst.
  bsimp. split; [lia|]. eauto.
Qed.

Lemma aadFor_inj c x x' :
  valid_context x = true → valid_context x' = true → aadFor c x = aadFor c x' → x = x'.
Proof.
  unfold valid_context. intros HX HX' HE. bsimp. unfold aadFor, lengthPrefixed in HE.
  apply app_inv_head in HE.
  apply lp_app_inj in HE as [E1%ascii_bytes_inj HE]; [|by apply short_ascii_fits, LABEL_64_short..].
  apply lp_app_inj in HE as [E2%ascii_bytes_inj HE]; [|by apply short_ascii_fits, is_uuid4_short..].
  apply lp_app_inj in HE as [E3%ascii_bytes_inj HE]; [|by apply short_ascii_fits, is_uuid4_short..].
  apply lp_app_inj in HE as [E4%ascii_bytes_inj _]; [|by apply short_ascii_fits, is_uuid4_short..].
  destruct x, x'. cbn in *. by subst.
Qed.

(** Two sealings under different associated data with one result. *)
Definition aad_forgery (key : bytes) (a a' : bytes) : Prop :=
  a ≠ a' ∧ ∃ nonce m m', aes_seal key nonce a m = aes_seal key nonce a' m'.

(** C24: A cursor issued for one context decodes under no other: realm, account,
    installation and conversation are all bound, or the cipher seals two
    different associated data alike. *)
Theorem cursor_bound_to_context keyId key c context x context' x' p nonce token r :
  createKeyedConversationCursorCodec keyId key = Ok c →
  parseConversationCursorContext context = Ok x → parseConversationCursorContext context' = Ok x' →
  encode c p context nonce = Ok token → decode c (VString token) context' = Ok (decodedClaims r) →
  x = x' ∨ aad_forgery key (aadFor c x) (aadFor c x').
Proof.
  intros HC HX HX' HE HD. pose proof (createCodec_Ok _ _ _ HC) as (HL & HI & HKey & HK).
  destruct (encode_inv _ _ _ _ _ _ HE HX) as (HN & body & _ & HT).
  apply (decode_spec keyId key c context' x' HC HX') in HD as (kid & n' & m' & HT' & _ & HI' & HN' & _).
  injection HT' as HT'. rewrite HT in HT'. apply (f_equal (slice 4)) in HT'.
  rewrite !slice_prefix in HT'. apply base64url_encode_inj in HT'.
  assert (HKL : byteLength kid = strlen keyId) by (by rewrite <- HI', ascii_string_length).
  destruct (cursorBlob_shape c (ascii_bytes (codec_keyId c)) nonce x body)
    as (_ & _ & B2 & _ & B4 & B5); [rewrite ascii_bytes_length, HI; lia|done|].
  destruct (cursorBlob_shape c kid n' x' m') as (_ & _ & C2 & _ & C4 & C5); [lia|done|].
  rewrite HT' in B2, B4, B5. rewrite C2 in B2. rewrite <- B2 in B4, B5. rewrite C4 in B4. subst n'.
  rewrite C5, HKey in B5.
  destruct (decide (aadFor c x = aadFor c x')) as [EA|EA].
  - left. by apply (aadFor_inj c); [eapply parseConversationCursorContext_valid..|].
  - right. split; [done|]. eauto.
Qed.

(** The key id bytes with their high bit set. *)
Definition high_bytes (s : string) : bytes := map (λ c, byte_of_Z (code c + 128)) (chars s).

Lemma ascii_string_high s : is_ascii s = true → ascii_string (high_bytes s) = s.
Proof.
  unfold is_ascii, ascii_string, high_bytes. intros HS. apply chars_inj. rewrite chars_of_list.
  rewrite map_map. induction (chars s) as [|c cs IH]; [done|]. cbn in *.
  apply andb_true_iff in HS as [Hc HS]. rewrite (IH HS). f_equal. pose proof (code_bound c).
  rewrite Z_of_byte_of_Z, land_127, (Z.mod_small (code c + 128)) by lia.
  replace (code c + 128) with (code c + 1 * 128) by lia.
  rewrite Z.mod_add, Z.mod_small by lia. unfold code. by rewrite N2Z.id, ascii_N_embedding.
Qed.

(** The key id a token shows in clear is not authenticated: from every issued
    token one can write, without the key, another token that decodes to the
    same claims. *)
Theorem cursor_malleable keyId key c context x p nonce token :
  createKeyedConversationCursorCodec keyId key = Ok c →
  parseConversationCursorContext context = Ok x → issuable x keyId p = true →
  encode c p context nonce = Ok token →
  ∃ token', token' ≠ token ∧
    decode c (VString token') context = Ok (decodedClaims (claimsOf token' x p)).
Proof.
  intros HC HX HP HE. pose proof (createCodec_Ok _ _ _ HC) as (HL & HI & _ & HK).
  pose proof (parseConversationCursorContext_valid _ _ HX) as HV.
  destruct (encode_inv _ _ _ _ _ _ HE HX) as (HN & body & HB & HT).
  set (token' := CURSOR_PREFIX +:+ base64url_encode (cursorBlob c (high_bytes keyId) nonce x body)).
  destruct (readClaims_issued x keyId p token' HV HL HP) as (body' & HB' & HS & HR).
  assert (body' = body) as -> by congruence. exists token'.
  assert (HH : byteLength (high_bytes keyId) = strlen keyId).
  { unfold high_bytes, byteLength, strlen. by rewrite length_map, length_chars. }
  split.
  - intros ET. rewrite HT in ET. apply (f_equal (slice 4)) in ET. unfold token' in ET.
    rewrite !slice_prefix in ET. apply base64url_encode_inj in ET. rewrite HI in ET.
    destruct (cursorBlob_shape c (ascii_bytes keyId) nonce x body) as (_ & _ & _ & B3 & _);
      [rewrite ascii_bytes_length; lia|done|].
    destruct (cursorBlob_shape c (high_bytes keyId) nonce x body) as (_ & _ & _ & C3 & _); [lia|done|].
    rewrite ET, HH in C3. rewrite ascii_bytes_length, C3 in B3.
    unfold high_bytes, ascii_bytes in B3. pose proof (LABEL_64_ascii _ HL) as HAs. unfold is_ascii in HAs.
    unfold LABEL_64 in HL. destruct (chars keyId) as [|a l]; [done|].
    cbn in HAs. apply andb_true_iff in HAs as [HAs _]. injection B3 as B3 _.
    apply (f_equal Z_of_byte) in B3. rewrite !Z_of_byte_of_Z in B3. pose proof (code_bound a).
    rewrite !Z.mod_small in B3 by lia. lia.
  - apply (decode_spec keyId key c context x HC HX). exists (high_bytes keyId), nonce, body.
    cbv zeta. fold token'. split_and!; [done| |by apply ascii_string_high, LABEL_64_ascii|done|done].
    pose proof (cursorBlob_length c (high_bytes keyId) nonce x body HN) as HTL.
    rewrite HH in HTL. specialize (HTL ltac:(lia)). fold token' in HTL.
    etrans; [exact HTL|]. unfold CURSOR_MAX_CHARACTERS.
    transitivity (4 + (400 * 4 + 2) / 3); [|done]. apply Z.add_le_mono_l, Z.div_le_mono; lia.
Qed.
End Issue.

Lemma allocateNonce_Ok n a n' :
  allocateNonce n = Ok (a, n') →
  0 <= n < 2 ^ 64 ∧ a = repeat (byte_of_Z 0) 4 ++ Fips.be 8 n ∧ n' = n + 1.
Proof.
  unfold allocateNonce. change (2 ^ 64) with 18446744073709551616.
  intros (u & Hu%throw_if_Ok & HA)%bind_Ok. split; [lia|]. split; congruence.
Qed.

(** The allocator never repeats a nonce while its counter lasts. *)
Lemma allocateNonce_fresh n m a b n' m' :
  allocateNonce n = Ok (a, n') → allocateNonce m = Ok (b, m') → n ≠ m → a ≠ b.
Proof.
  intros (HN & -> & _)%allocateNonce_Ok (HM & -> & _)%allocateNonce_Ok Hne HE%app_inv_head.
  apply (f_equal be32) in HE. by rewrite !be32_be in HE by done.
Qed.

(** ** The claims parser on decoded claims *)

(** The frozen object [decode] returns. *)
Definition claims_obj (r : ConversationCursorClaims) : unknown :=
  obj [("kind", VString CURSOR_KIND); ("profile", VString CONVERSATION_CURSOR_PROFILE);
       ("encodedCursor", VString (cl_encodedCursor r)); ("realmId", VString (cl_realmId r));
       ("accountId", VString (cl_accountId r)); ("installationId", VString (cl_installationId r));
       ("conversationId", VString (cl_conversationId r));
       ("routeTemplate", VString CONVERSATION_EVENTS_ROUTE_TEMPLATE);
       ("lastReturnedPosition", VString (cl_lastReturnedPosition r));
       ("issuedAt", VString (cl_issuedAt r)); ("expiresAt", VString (cl_expiresAt r));
       ("keyId", VString (cl_keyId r)); ("authenticated", VBool true)].

Section Lifecycle.
Context `{AesGcm}.

Lemma cursorMaxCharacters_bound limits l :
  parseDeliveryLimits limits = Ok l → BigInt (cursorMaxCharacters l) <= 1024.
Proof.
  intros [HF _]%parseDeliveryLimits_valid. unfold limits_list, DELIVERY_LIMIT_KEYS in HF.
  apply (Forall2_lookup_lr _ _ _ 9 "cursorMaxCharacters" (cursorMaxCharacters l)) in HF as [_ HB];
    [exact HB|done..].
Qed.

Lemma parseEncodedConversationCursor_blob blob limits l :
  parseDeliveryLimits limits = Ok l → 29 <= byteLength blob →
  let token := CURSOR_PREFIX +:+ base64url_encode blob in
  strlen token <= BigInt (cursorMaxCharacters l) →
  parseEncodedConversationCursor (VString token) limits = Ok token.
Proof.
  intros HL HB token HS. unfold parseEncodedConversationCursor. rewrite HL. cbn [mbind result_bind].
  pose proof (cursorMaxCharacters_bound _ _ HL) as HM.
  subst token. rewrite startsWith_app, slice_prefix.
  set (cm := BigInt (cursorMaxCharacters l)) in *.
  assert (HLen : strlen (CURSOR_PREFIX +:+ base64url_encode blob) = 4 + (byteLength blob * 4 + 2) / 3).
  { unfold strlen. rewrite <- length_chars, chars_app, length_app, Nat2Z.inj_add.
    rewrite (length_chars (base64url_encode blob)).
    pose proof (length_base64url_encode blob) as HX. unfold strlen in HX. unfold byteLength. by rewrite HX. }
  destruct (Z.ltb_spec cm (strlen (CURSOR_PREFIX +:+ base64url_encode blob))); [lia|].
  cbn [orb negb throw_if mbind result_bind].
  assert (HE : is_base64url 29 cm (base64url_encode blob) = true).
  { apply is_base64url_encode; [unfold byteLength in *; lia|]. by intros ->. }
  assert (HE' := HE). unfold is_base64url in HE. bsimp. rewrite HE. cbn [negb throw_if mbind result_bind].
  unfold parseCanonicalBase64UrlBytes.
  rewrite (proj2 (parseCanonicalBase64Url_Ok _ 29 cm _ ltac:(lia) ltac:(unfold DEFAULT_MAX_BASE64URL_BYTES; lia))
    (conj eq_refl HE')). cbn [mbind result_bind]. rewrite base64url_decode_encode in *.
  unfold copyBytes. unfold MAX_INTRINSIC_COPY_BYTES.
  destruct ((cm <? 0) || (4294967295 <? cm)) eqn:E1; [lia|]. cbn [throw_if mbind result_bind].
  destruct (Z.ltb_spec cm (Z.of_nat (length blob))); [lia|done].
Qed.

(** The life of an issued cursor: the claims parser accepts it from its issue
    until its expiry, reports it expired afterwards, and refuses every window
    that starts in the future, is empty or is longer than thirty days. *)
Theorem cursor_lifecycle keyId key c context x p nonce token limits l now :
  createKeyedConversationCursorCodec keyId key = Ok c →
  parseConversationCursorContext context = Ok x → issuable x keyId p = true →
  encode c p context nonce = Ok token → parseDeliveryLimits limits = Ok l →
  strlen token <= BigInt (cursorMaxCharacters l) → canonicalInstant now = true →
  let issued := Date_parse (pt_issuedAt p) in
  let expires := Date_parse (pt_expiresAt p) in
  let claims := claimsOf token x p in
  parseConversationCursorClaims (claims_obj claims) (VString token) context (VString now) limits =
  if (Date_parse now <? issued) || (expires <=? issued) || (2592000000 <? expires - issued)
  then Throw ConversationSyncValidationError
  else if expires <=? Date_parse now then Ok (claimsExpired claims) else Ok (claimsAccepted claims).
Proof.
  intros HC HX HP HE HL HS HN issued expires claims.
  pose proof (createCodec_Ok _ _ _ HC) as (HLab & HI & _ & HK).
  pose proof (parseConversationCursorContext_valid _ _ HX) as HV.
  destruct (encode_inv _ _ _ _ _ _ HE HX) as (HNn & body & HB & HT).
  unfold parseConversationCursorClaims. rewrite HX. cbn [mbind result_bind].
  rewrite (proj2 (parseRfc3339Millis_Ok (VString now) now)) by done. cbn [mbind result_bind].
  rewrite HT at 1. rewrite (parseEncodedConversationCursor_blob _ _ _ HL); [|..|by rewrite <- HT].
  2:{ destruct (cursorBlob_shape c (ascii_bytes (codec_keyId c)) nonce x body) as (ES & _);
        [rewrite ascii_bytes_length, HI; lia|done|]. rewrite ES, ascii_bytes_length, HI.
      pose proof (byteLength_nonneg body). lia. }
  rewrite <- HT. cbn [mbind result_bind]. unfold claims_obj.
  rewrite expectExactRecord_obj; [|done|by apply nodup_keys|by repeat constructor].
  unfold valid_context, issuable in *. bsimp.
  cbn -[Date_parse parseUuidV4 Z.ltb Z.leb Z.sub CONVERSATION_CURSOR_MAX_LIFETIME_MILLISECONDS].
  rewrite !bool_decide_eq_true_2 by done. cbn [negb orb throw_if mbind result_bind].
  rewrite HP, HP7, HP6, HP5, HV. run_parsers.
  rewrite !bool_decide_eq_true_2 by done. cbn [negb orb throw_if mbind result_bind].
  fold issued expires. change CONVERSATION_CURSOR_MAX_LIFETIME_MILLISECONDS with 2592000000.
  destruct (_ || _ || _); [done|]. cbn [throw_if mbind result_bind].
  unfold claims, claimsOf. rewrite HP, HP7, HP6, HP5. done.
Qed.
End Lifecycle.

(** ** A worked cursor *)

Module Sample.
(** A cipher with the laws of [AesGcm], for evaluation: the text in clear under
    a keyed tag. *)
Definition tag (k n a m : bytes) : bytes := take 16 (Fips.hash (lps [k; n; a] ++ m)).

#[global] Instance cipher : AesGcm.
Proof.
  refine {| aes_seal k n a m := (m, tag k n a m);
            aes_open k n a c t := if bool_decide (t = tag k n a c) then Some c else None |}.
  - intros k n a m. change (length (tag k n a m) = 16%nat). unfold tag. by rewrite length_take, Fips.length_hash.
  - done.
  - intros k n a c t m. case_bool_decide; split; congruence.
Defined.

Definition keyId : string := "cursor-key.1".
Definition key : bytes := repeat (byte_of_Z 7) 32.
Definition codec : Codec := {| codec_keyId := keyId; codec_key := key |}.
Definition nonce : bytes := repeat (byte_of_Z 0) 11 ++ [byte_of_Z 1].
Definition ctx : ConversationCursorContext := {|
  cc_realmId := "realm.example"; cc_accountId := "11111111-1111-4111-8111-111111111111";
  cc_installationId := "22222222-2222-4222-8222-222222222222";
  cc_conversationId := "33333333-3333-4333-8333-333333333333" |}.
Definition context : unknown :=
  obj [("realmId", VString "realm.example");
       ("accountId", VString "11111111-1111-4111-8111-111111111111");
       ("installationId", VString "22222222-2222-4222-8222-222222222222");
       ("conversationId", VString "33333333-3333-4333-8333-333333333333");
       ("routeTemplate", VString CONVERSATION_EVENTS_ROUTE_TEMPLATE)].
Definition plaintext : ConversationCursorPlaintext := {|
  pt_realmId := cc_realmId ctx; pt_installationId := cc_installationId ctx;
  pt_conversationId := cc_conversationId ctx; pt_lastReturnedPosition := "41";
  pt_issuedAt := "2026-01-01T00:00:00.000Z"; pt_expiresAt := "2026-01-02T00:00:00.000Z";
  pt_keyId := keyId |}.
Definition token : string :=
  Eval vm_compute in match encode codec plaintext context nonce with Ok t => t | Throw _ => "" end.
Definition claims : ConversationCursorClaims := claimsOf token ctx plaintext.
Definition limits : unknown := limits_obj {|
  applicationCiphertextDecodedMaxBytes := "1024"; externalProposalDecodedMaxBytes := "1024";
  mlsCommitDecodedMaxBytes := "1024"; welcomeDecodedMaxBytes := "1024";
  pageDecodedArtifactsMaxBytes := "4096"; pageSerializedResponseMaxBytes := "2000000";
  conversationEventsMaxPerPage := "50"; mailboxEntriesMaxPerPage := "50";
  conversationRecipientInstallationsMax := "10"; cursorMaxCharacters := "1024";
  attachmentsMaxPerEnvelope := "4" |}.
Definition parsedLimits : DeliveryLimits := {|
  applicationCiphertextDecodedMaxBytes := "1024"; externalProposalDecodedMaxBytes := "1024";
  mlsCommitDecodedMaxBytes := "1024"; welcomeDecodedMaxBytes := "1024";
  pageDecodedArtifactsMaxBytes := "4096"; pageSerializedResponseMaxBytes := "2000000";
  conversationEventsMaxPerPage := "50"; mailboxEntriesMaxPerPage := "50";
  conversationRecipientInstallationsMax := "10"; cursorMaxCharacters := "1024";
  attachmentsMaxPerEnvelope := "4" |}.

Lemma codec_ok : createKeyedConversationCursorCodec keyId key = Ok codec.
Proof. vm_compute. reflexivity. Qed.
Lemma context_ok : parseConversationCursorContext context = Ok ctx.
Proof. vm_compute. reflexivity. Qed.
Lemma plaintext_ok : issuable ctx keyId plaintext = true.
Proof. vm_compute. reflexivity. Qed.
Lemma token_ok : encode codec plaintext context nonce = Ok token.
Proof. vm_compute. reflexivity. Qed.
Lemma decoded_ok : decode codec (VString token) context = Ok (decodedClaims claims).
Proof. vm_compute. reflexivity. Qed.
End Sample.

Lemma decode_spec_witness : ∃ r, decode Sample.codec VNull Sample.context = Ok r.
Proof.
  exact (proj1 (decode_spec Sample.keyId Sample.key Sample.codec Sample.context Sample.ctx
    Sample.codec_ok Sample.context_ok) VNull).
Defined.

Lemma cursor_roundtrip_witness :
  ∃ token, encode Sample.codec Sample.plaintext Sample.context Sample.nonce = Ok token ∧
    decode Sample.codec (VString token) Sample.context
      = Ok (decodedClaims (claimsOf token Sample.ctx Sample.plaintext)).
Proof.
  exact (cursor_roundtrip Sample.keyId Sample.key Sample.codec Sample.context Sample.ctx
    Sample.plaintext Sample.nonce Sample.codec_ok Sample.context_ok Sample.plaintext_ok eq_refl).
Defined.

Lemma cursor_bound_to_context_witness :
  Sample.ctx = Sample.ctx ∨
  aad_forgery Sample.key (aadFor Sample.codec Sample.ctx) (aadFor Sample.codec Sample.ctx).
Proof.
  exact (cursor_bound_to_context Sample.keyId Sample.key Sample.codec Sample.context Sample.ctx
    Sample.context Sample.ctx Sample.plaintext Sample.nonce Sample.token Sample.claims
    Sample.codec_ok Sample.context_ok Sample.context_ok Sample.token_ok Sample.decoded_ok).
Defined.

Lemma cursor_malleable_witness :
  ∃ token', token' ≠ Sample.token ∧ decode Sample.codec (VString token') Sample.context
    = Ok (decodedClaims (claimsOf token' Sample.ctx Sample.plaintext)).
Proof.
  exact (cursor_malleable Sample.keyId Sample.key Sample.codec Sample.context Sample.ctx
    Sample.plaintext Sample.nonce Sample.token
    Sample.codec_ok Sample.context_ok Sample.plaintext_ok Sample.token_ok).
Defined.

Lemma cursor_lifecycle_witness :
  parseConversationCursorClaims (claims_obj Sample.claims) (VString Sample.token) Sample.context
    (VString "2026-01-01T12:00:00.000Z") Sample.limits = Ok (claimsAccepted Sample.claims) ∧
  parseConversationCursorClaims (claims_obj Sample.claims) (VString Sample.token) Sample.context
    (VString "2026-02-01T12:00:00.000Z") Sample.limits = Ok (claimsExpired Sample.claims).
Proof.
  split.
  - refine (eq_trans (cursor_lifecycle Sample.keyId Sample.key Sample.codec Sample.context Sample.ctx
      Sample.plaintext Sample.nonce Sample.token Sample.limits Sample.parsedLimits
      "2026-01-01T12:00:00.000Z" Sample.codec_ok Sample.context_ok Sample.plaintext_ok
      Sample.token_ok _ _ _) _); vm_compute; congruence.
  - refine (eq_trans (cursor_lifecycle Sample.keyId Sample.key Sample.codec Sample.context Sample.ctx
      Sample.plaintext Sample.nonce Sample.token Sample.limits Sample.parsedLimits
      "2026-02-01T12:00:00.000Z" Sample.codec_ok Sample.context_ok Sample.plaintext_ok
      Sample.token_ok _ _ _) _); vm_compute; congruence.
Defined.
