(* ===== verification/CanonicalJson.v ===== *)
(** * Canonical JSON ([src/production/authority/digests.ts] and
    [src/production/delivery/policyHeadIssuance.ts])

    The two serializers behind the authority and policy-head commitments, and
    the digests computed from them.  Values of the model are trees, so the
    cycle check of [serialize] never fires; an accessor property is read as
    [undefined]. *)

From stdpp Require Import base list strings.
From Stdlib Require Import ZArith Lia Ascii.
From S2P Require Import Prelude Sha256 Base64Url JsTime JsValue ValueObjects Hashes.

Ltac Zify.zify_post_hook ::= Z.div_mod_to_equations.

(** ** [JSON.stringify] on strings and integers *)

Definition BACKSLASH : ascii := ascii_of_nat 92.
Definition hex_digit (z : Z) : ascii :=
  ascii_of_N (Z.to_N (if z <? 10 then 48 + z else 87 + z)).

Definition escape_char (c : ascii) : list ascii :=
  let z := code c in
  if z =? 34 then [BACKSLASH; DQUOTE]
  else if z =? 92 then [BACKSLASH; BACKSLASH]
  else if z =? 8 then [BACKSLASH; "b"%char]
  else if z =? 9 then [BACKSLASH; "t"%char]
  else if z =? 10 then [BACKSLASH; "n"%char]
  else if z =? 12 then [BACKSLASH; "f"%char]
  else if z =? 13 then [BACKSLASH; "r"%char]
  else if z <? 32
  then [BACKSLASH; "u"%char; "0"%char; "0"%char; hex_digit (z / 16); hex_digit (z mod 16)]
  else [c].

Definition stringifyChars (s : string) : list ascii :=
  DQUOTE :: flat_map escape_char (chars s) ++ [DQUOTE].

Definition text : list ascii → string := String.string_of_list_ascii.

(** [xs.join(",")]. *)
Fixpoint join (xs : list (list ascii)) : list ascii :=
  match xs with
  | [] => []
  | [x] => x
  | x :: xs => x ++ ","%char :: join xs
  end.

(** [keys.sort()]: by code units, stably. *)
Fixpoint insertKey {A} (m : string * A) (ms : list (string * A)) : list (string * A) :=
  match ms with
  | [] => [m]
  | m' :: ms' => if sle m.1 m'.1 then m :: ms else m' :: insertKey m ms'
  end.
Definition sortKeys {A} (members : list (string * A)) : list (string * A) :=
  foldr insertKey [] members.

(** The enumerable own string keys with what is computed of their values;
    [accessor] is what an accessor property gives. *)
Definition enumerable {A} (f : unknown → A) (accessor : A) (props : list (propkey * propdesc)) :
  list (string * A) :=
  omap (λ '(k, d),
    match k, d with
    | KString k, DData v true => Some (k, f v)
    | KString k, DAccessor true => Some (k, accessor)
    | _, _ => None
    end) props.

Definition memberChars (m : string * list ascii) : list ascii :=
  stringifyChars m.1 ++ ":"%char :: m.2.

(** [`${JSON.stringify(key)}:${value}`] for every key, first throw wins. *)
Definition members (ms : list (string * result (list ascii))) : result (list ascii) :=
  ms ← mapR (λ '(k, r), v ← r; Ok (memberChars (k, v))) (sortKeys ms);
  Ok ("{"%char :: join ms ++ ["}"%char]).

(** [`[${value.map(f).join(",")}]`]: a hole joins as the empty string. *)
Definition elements (es : list (option (result (list ascii)))) : result (list ascii) :=
  es ← mapR (λ o, match o with Some r => r | None => Ok [] end) es;
  Ok ("["%char :: join es ++ ["]"%char]).

(** ** Authority digests *)

Definition invalidAuthority {A} : result A := Throw AuthorityValidationError.

Fixpoint serialize (value : unknown) : result (list ascii) :=
  match value with
  | VNull => Ok (chars "null")
  | VString s => Ok (stringifyChars s)
  | VBool b => Ok (chars (if b then "true" else "false"))
  | VNumber n =>
      if isSafeInteger n
      then Ok (match n with NInt z => chars (decimal z) | NOther => [] end)
      else invalidAuthority
  | VArray _ elems _ => elements (map (option_map serialize) elems)
  | VObject p props =>
      if (p === ObjectPrototype) || (p === NullPrototype)
      then members (enumerable serialize invalidAuthority props)
      else invalidAuthority
  | _ => invalidAuthority
  end.

Definition canonicalAuthorityJson (value : unknown) : result string := text <$> serialize value.

Section AuthorityDigests.
Context `{Sha256}.

(** Lowercase hexadecimal. *)
Definition hex (bs : bytes) : string :=
  text (flat_map (λ b, [hex_digit (Z_of_byte b / 16); hex_digit (Z_of_byte b mod 16)]) bs).

Definition sha256AuthorityDigest (value : unknown) : result string :=
  json ← canonicalAuthorityJson value; Ok ("0x" +:+ hex (sha256 (utf8 json))).

Definition sha256AuthorityBase64Url (value : unknown) : result string :=
  json ← canonicalAuthorityJson value; Ok (base64url_encode (sha256 (utf8 json))).
End AuthorityDigests.

(** ** Policy-head bodies *)

(** An object that is not an array is its enumerable keys; those of a byte
    array are its indices, whose values are numbers. *)
Fixpoint jcs (value : unknown) : result (list ascii) :=
  match value with
  | VString s => Ok (stringifyChars s)
  | VArray _ elems _ => elements (map (option_map jcs) elems)
  | VObject _ props =>
      members (enumerable jcs (Throw TypeError) props)
  | VBytes [] => Ok (chars "{}")
  | _ => Throw TypeError
  end.

Definition canonicalJcs (value : unknown) : result string := text <$> jcs value.

Definition POLICY_HEAD_SIGNED_BODY_DOMAIN : string := "jb-msg-policy-head/v1".
Definition SEND_GRANT_SET_DOMAIN : string := "jb-msg-send-grant-set/v1".
Definition MANDATORY_PROPOSAL_SET_DOMAIN : string := "jb-msg-mandatory-proposal-set/v1".

Record MandatoryProposalEntry := { proposalId : string; proposalHash : string }.
Record SendGrantSetMemberEntry := {
  grantEvidenceDigest : string;
  grantInclusionEvidenceDigest : string;
  sg_installationId : string;
  sg_credentialId : string;
  sg_role : string;
}.

Definition proposalParts (p : MandatoryProposalEntry) : list bytes :=
  [utf8 (proposalId p); base64url_decode (proposalHash p)].
Definition grantParts (m : SendGrantSetMemberEntry) : list bytes :=
  [base64url_decode (grantEvidenceDigest m); base64url_decode (grantInclusionEvidenceDigest m);
   utf8 (sg_installationId m); utf8 (sg_credentialId m); utf8 (sg_role m)].

Section PolicyHashes.
Context `{Sha256}.

Definition computePolicyHeadHash (canonicalBody : bytes) : bytes :=
  sha256 (utf8 POLICY_HEAD_SIGNED_BODY_DOMAIN ++ [byte_of_Z 0] ++ canonicalBody).

Definition computeMandatoryProposalSetHash (proposals : list MandatoryProposalEntry) : bytes :=
  sha256 (utf8 MANDATORY_PROPOSAL_SET_DOMAIN ++ lps (flat_map proposalParts proposals)).

Definition computeSendGrantSetHash (members : list SendGrantSetMemberEntry) : bytes :=
  sha256 (utf8 SEND_GRANT_SET_DOMAIN ++ lps (flat_map grantParts members)).
End PolicyHashes.

(** ** JSON values and their canonical text *)

#[warnings="-register-all"]
Inductive json :=
| JNull
| JBool (b : bool)
| JNumber (z : Z)
| JString (s : string)
| JArray (js : list json)
| JObject (ms : list (string * json)).

Section JsonInd.
Variable P : json → Prop.
Hypothesis HNull : P JNull.
Hypothesis HBool : ∀ b, P (JBool b).
Hypothesis HNumber : ∀ z, P (JNumber z).
Hypothesis HString : ∀ s, P (JString s).
Hypothesis HArray : ∀ js, Forall P js → P (JArray js).
Hypothesis HObject : ∀ ms, Forall (λ m, P m.2) ms → P (JObject ms).

Fixpoint json_nested_ind (j : json) : P j :=
  match j with
  | JNull => HNull
  | JBool b => HBool b
  | JNumber z => HNumber z
  | JString s => HString s
  | JArray js => HArray js ((fix go js : Forall P js :=
      match js with
      | [] => Forall_nil_2 P
      | j :: js => Forall_cons_2 P j js (json_nested_ind j) (go js)
      end) js)
  | JObject ms => HObject ms ((fix go ms : Forall (λ m, P m.2) ms :=
      match ms with
      | [] => Forall_nil_2 _
      | m :: ms => Forall_cons_2 _ m ms (json_nested_ind m.2) (go ms)
      end) ms)
  end.
End JsonInd.

Fixpoint render (j : json) : list ascii :=
  match j with
  | JNull => chars "null"
  | JBool b => chars (if b then "true" else "false")
  | JNumber z => chars (decimal z)
  | JString s => stringifyChars s
  | JArray js => "["%char :: join (map render js) ++ ["]"%char]
  | JObject ms => "{"%char :: join (map (λ '(k, v), memberChars (k, render v)) ms) ++ ["}"%char]
  end.

(** What may follow a value inside a JSON text. *)
Definition is_delim (c : ascii) : bool := is_char c ","%char || is_char c "]"%char || is_char c "}"%char.
Definition delimited (r : list ascii) : Prop :=
  match r with [] => True | c :: _ => is_delim c = true end.

(** [f] is a prefix code on [x], before a delimiter. *)
Definition decodable {A} (f : A → list ascii) (x : A) : Prop :=
  ∀ y r r', delimited r → delimited r' → f x ++ r = f y ++ r' → x = y ∧ r = r'.

Lemma hex_digit_range z : 0 <= z < 16 → is_hex (hex_digit z) = true.
Proof.
  intros Hz. unfold hex_digit, is_hex, is_digit, in_range, code.
  destruct (Z.ltb_spec z 10); rewrite N_ascii_embedding, Z2N.id by lia; lia.
Qed.

(** *** Strings *)

(** The character an escape stands for, and what follows it. *)
Definition hex_value (c : ascii) : Z := if code c <? 58 then code c - 48 else code c - 87.
Definition unescape (cs : list ascii) : option (ascii * list ascii) :=
  match cs with
  | [] => None
  | c :: cs =>
      if negb (is_char c BACKSLASH) then Some (c, cs) else
      match cs with
      | [] => None
      | e :: cs =>
          if is_char e "u"%char then
            match cs with
            | _ :: _ :: h :: l :: cs => Some (ascii_of_N (Z.to_N (hex_value h * 16 + hex_value l)), cs)
            | _ => None
            end
          else Some (if is_char e "b"%char then ascii_of_nat 8
                     else if is_char e "t"%char then ascii_of_nat 9
                     else if is_char e "n"%char then ascii_of_nat 10
                     else if is_char e "f"%char then ascii_of_nat 12
                     else if is_char e "r"%char then ascii_of_nat 13 else e, cs)
      end
  end.

Lemma unescape_escape c s : unescape (escape_char c ++ s) = Some (c, s).
Proof. by destruct c as [[] [] [] [] [] [] [] []]. Qed.

Lemma escape_not_quote c s r : escape_char c ++ s ≠ DQUOTE :: r.
Proof. destruct c as [[] [] [] [] [] [] [] []]; intros [=]. Qed.

Lemma escaped_inj cs ds r r' :
  flat_map escape_char cs ++ DQUOTE :: r = flat_map escape_char ds ++ DQUOTE :: r' → cs = ds ∧ r = r'.
Proof.
  revert ds. induction cs as [|c cs IH]; intros [|d ds]; cbn [flat_map app].
  - intros HE. split; [done|congruence].
  - intros HE. exfalso. symmetry in HE. rewrite <- app_assoc in HE. by apply escape_not_quote in HE.
  - intros HE. exfalso. rewrite <- app_assoc in HE. by apply escape_not_quote in HE.
  - intros HE. rewrite <- !app_assoc in HE. apply (f_equal unescape) in HE.
    rewrite !unescape_escape in HE. injection HE as -> HE. by apply IH in HE as [-> ->].
Qed.

Lemma stringifyChars_inj s t r r' :
  stringifyChars s ++ r = stringifyChars t ++ r' → s = t ∧ r = r'.
Proof.
  unfold stringifyChars. cbn [app]. intros HE. injection HE as HE. rewrite <- !app_assoc in HE.
  cbn [app] in HE. apply escaped_inj in HE as [E ->]. by apply chars_inj in E as ->.
Qed.

(** *** Numbers *)

Definition is_number_char (c : ascii) : bool := is_digit c || is_char c "-"%char.

Lemma dec_digits f n : Forall (λ c, is_digit c = true) (dec f n).
Proof.
  revert n. induction f as [|f IH]; intros n; cbn; [constructor|].
  apply Forall_app. split; [destruct (n <? 10); [constructor|apply IH]|].
  constructor; [|constructor]. apply is_digit_char. lia.
Qed.

Lemma decimal_chars z : Forall (λ c, is_number_char c = true) (chars (decimal z)).
Proof.
  unfold decimal, is_number_char. rewrite chars_of_list.
  assert (HD : ∀ f n, Forall (λ c, is_digit c || is_char c "-"%char = true) (dec f n)).
  { intros f n. eapply Forall_impl; [apply dec_digits|]. by intros c ->. }
  destruct (z <? 0); [constructor; [done|]|]; apply HD.
Qed.

Lemma decimal_nonempty z : chars (decimal z) ≠ [].
Proof.
  unfold decimal. rewrite chars_of_list. destruct (z <? 0); [done|]. cbn. intros [_ HE]%app_nil. done.
Qed.

Lemma decimal_inj_Z z w : decimal z = decimal w → z = w.
Proof.
  intros HE. assert (HN : ∀ z, 0 <= z → ∀ w, w < 0 → decimal z ≠ decimal w).
  { clear. intros z Hz w Hw HE. destruct (decimal_spec z Hz) as [HU _].
    apply UINT63_digits in HU. rewrite HE in HU. unfold decimal in HU.
    destruct (Z.ltb_spec w 0); [|lia]. by rewrite chars_of_list in HU. }
  destruct (Z.leb_spec 0 z), (Z.leb_spec 0 w).
  - by apply decimal_inj.
  - exfalso. by eapply HN.
  - exfalso. by eapply (HN w).
  - enough (- z = - w) by lia. apply decimal_inj; [lia..|]. revert HE. unfold decimal.
    destruct (Z.ltb_spec z 0); [|lia]. destruct (Z.ltb_spec w 0); [|lia].
    destruct (Z.ltb_spec (- z) 0); [lia|]. destruct (Z.ltb_spec (- w) 0); [lia|].
    intros HE. apply (f_equal chars) in HE. rewrite !chars_of_list in HE.
    apply (f_equal (@tail ascii)) in HE. cbn [tail] in HE. by rewrite HE.
Qed.

(** A run of characters of a class, up to one outside of it. *)
Lemma span_inj (p : ascii → bool) xs ys r r' :
  Forall (λ c, p c = true) xs → Forall (λ c, p c = true) ys →
  (∀ c l, r = c :: l → p c = false) → (∀ c l, r' = c :: l → p c = false) →
  xs ++ r = ys ++ r' → xs = ys ∧ r = r'.
Proof.
  intros HX. revert ys. induction HX as [|x xs Hx _ IH]; intros ys HY Hr Hr' HE.
  - destruct HY as [|y ys Hy _]; [done|]. rewrite (Hr y (ys ++ r')) in Hy; done.
  - destruct HY as [|y ys Hy HY].
    + rewrite (Hr' x (xs ++ r)) in Hx; done.
    + injection HE as -> HE. by apply IH in HE as [-> ->].
Qed.

Lemma is_delim_cases c : is_delim c = true → c = ","%char ∨ c = "]"%char ∨ c = "}"%char.
Proof.
  unfold is_delim. rewrite !orb_true_iff, !is_char_eq. intuition.
Qed.

Lemma delim_not_number c : is_delim c = true → is_number_char c = false.
Proof. by intros [ -> | [ -> | -> ] ]%is_delim_cases. Qed.

Lemma decimal_decodable z w r r' :
  delimited r → delimited r' → chars (decimal z) ++ r = chars (decimal w) ++ r' → z = w ∧ r = r'.
Proof.
  intros Hr Hr' HE. apply (span_inj is_number_char) in HE as [E ->].
  - split; [|done]. by apply decimal_inj_Z, chars_inj.
  - apply decimal_chars.
  - apply decimal_chars.
  - intros c l ->. by apply delim_not_number.
  - intros c l ->. by apply delim_not_number.
Qed.

(** *** Lists *)

Definition tails (xs : list (list ascii)) : list ascii := flat_map (λ x, ","%char :: x) xs.

Lemma join_cons x xs : join (x :: xs) = x ++ tails xs.
Proof.
  revert x. induction xs as [|y xs IH]; intros x; [by rewrite app_nil_r|].
  change (join (x :: y :: xs)) with (x ++ ","%char :: join (y :: xs)). by rewrite IH.
Qed.

Lemma tails_delimited xs c r : is_delim c = true → delimited (tails xs ++ c :: r).
Proof. by destruct xs. Qed.

Section Join.
Context {A : Type} (f : A → list ascii) (close : ascii).
Hypothesis close_delim : is_delim close = true.
Hypothesis close_comma : close ≠ ","%char.
Hypothesis f_head : ∀ x, ∃ c l, f x = c :: l ∧ is_delim c = false.

Lemma tails_inj xs ys r r' :
  Forall (decodable f) xs →
  tails (map f xs) ++ close :: r = tails (map f ys) ++ close :: r' → xs = ys ∧ r = r'.
Proof.
  intros HX. revert ys. induction HX as [|x xs Hx _ IH]; intros [|y ys]; cbn.
  - by intros [= ->].
  - intros [= HE _]. done.
  - intros [= HE _]. by destruct close_comma.
  - intros [= HE]. rewrite <- !app_assoc in HE.
    apply Hx in HE as [-> HE]; [|by apply tails_delimited..]. by apply IH in HE as [-> ->].
Qed.

Lemma join_inj xs ys r r' :
  Forall (decodable f) xs →
  join (map f xs) ++ close :: r = join (map f ys) ++ close :: r' → xs = ys ∧ r = r'.
Proof.
  intros HX HE. destruct HX as [|x xs Hx HX], ys as [|y ys]; cbn [map] in HE; rewrite ?join_cons in HE.
  - by injection HE as ->.
  - destruct (f_head y) as (c & l & Hy & Hc). rewrite Hy in HE. injection HE as -> _. congruence.
  - destruct (f_head x) as (c & l & Hy & Hc). rewrite Hy in HE. injection HE as -> _. congruence.
  - rewrite <- !app_assoc in HE.
    apply Hx in HE as [-> HE]; [|by apply tails_delimited..]. by apply tails_inj in HE as [-> ->].
Qed.
End Join.

(** *** The canonical text determines the value *)

Definition classify (c : ascii) : nat :=
  if is_char c "n"%char then 0 else if is_char c "t"%char || is_char c "f"%char then 1
  else if is_char c DQUOTE then 3 else if is_char c "["%char then 4
  else if is_char c "{"%char then 5 else 2.
Definition kind (j : json) : nat :=
  match j with
  | JNull => 0 | JBool _ => 1 | JNumber _ => 2 | JString _ => 3 | JArray _ => 4 | JObject _ => 5
  end.

Lemma number_char_class c : is_number_char c = true → classify c = 2%nat ∧ is_delim c = false.
Proof. by destruct c as [[] [] [] [] [] [] [] []]. Qed.

Lemma render_head j : ∃ c l, render j = c :: l ∧ classify c = kind j ∧ is_delim c = false.
Proof.
  destruct j as [|b|z|s|js|ms]; cbn [render kind].
  - by eexists _, _.
  - destruct b; by eexists _, _.
  - pose proof (decimal_chars z) as HD. pose proof (decimal_nonempty z) as HN.
    destruct (chars (decimal z)) as [|c l]; [done|]. exists c, l. split; [done|].
    apply number_char_class. by inversion HD.
  - by eexists _, _.
  - by eexists _, _.
  - by eexists _, _.
Qed.

Lemma member_decodable m : decodable render m.2 → decodable (λ '(k, v), memberChars (k, render v)) m.
Proof.
  destruct m as [k v]. intros HV [k' v'] r r' Hr Hr' HE. unfold memberChars in HE. cbn [fst snd] in *.
  rewrite <- !app_assoc in HE. apply stringifyChars_inj in HE as [-> HE]. injection HE as HE.
  by apply HV in HE as [-> ->].
Qed.

Lemma render_kind j j' r r' : render j ++ r = render j' ++ r' → kind j = kind j'.
Proof.
  destruct (render_head j) as (c & l & -> & <- & _), (render_head j') as (c' & l' & -> & <- & _).
  by intros [= -> _].
Qed.

Lemma render_decodable j : decodable render j.
Proof.
  induction j as [|b|z|s|js IH|ms IH] using json_nested_ind; intros j' r r' Hr Hr' HE;
    pose proof (render_kind _ _ _ _ HE) as HK; destruct j' as [|b'|z'|s'|js'|ms']; try discriminate HK;
    cbn [render] in HE.
  - by injection HE as ->.
  - destruct b, b'; injection HE as HE; by subst.
  - by apply decimal_decodable in HE as [-> ->].
  - by apply stringifyChars_inj in HE as [-> ->].
  - injection HE as HE. rewrite <- !app_assoc in HE.
    apply join_inj in HE as [-> ->]; [done..| |done].
    intros x. destruct (render_head x) as (c & l & E & _ & Hc). eauto.
  - injection HE as HE. rewrite <- !app_assoc in HE.
    apply join_inj in HE as [-> ->]; [done..| |].
    + intros [k v]. by eexists _, _.
    + eapply Forall_impl; [exact IH|]. intros m. apply member_decodable.
Qed.

(** ** From values to JSON values *)

(** The JSON value a value denotes, its objects with sorted keys. *)
Fixpoint toJson (value : unknown) : option json :=
  match value with
  | VNull => Some JNull
  | VString s => Some (JString s)
  | VBool b => Some (JBool b)
  | VNumber (NInt z) => if isSafeInteger (NInt z) then Some (JNumber z) else None
  | VArray _ elems _ => JArray <$> mapM (λ o, o ≫= toJson) elems
  | VObject p props =>
      if (p === ObjectPrototype) || (p === NullPrototype)
      then JObject <$> mapM (λ '(k, o), pair k <$> o) (sortKeys (enumerable toJson None props))
      else None
  | _ => None
  end.

(** A predicate on the value and on everything a serializer visits below it. *)
Fixpoint everywhere (p : unknown → bool) (value : unknown) : bool :=
  p value &&
  match value with
  | VArray _ elems _ => forallb (λ o, match o with Some v => everywhere p v | None => true end) elems
  | VObject _ props => forallb (λ m, m.2) (enumerable (everywhere p) true props)
  | _ => true
  end.

(** No array with a hole. *)
Definition dense : unknown → bool := everywhere (λ v,
  match v with VArray _ elems _ => forallb (λ o, match o with Some _ => true | None => false end) elems | _ => true end).

(** Objects are plain records; byte arrays are not. *)
Definition plainRecords : unknown → bool := everywhere (λ v,
  match v with
  | VObject p _ => (p === ObjectPrototype) || (p === NullPrototype)
  | VBytes _ => false
  | _ => true
  end).

Section UnknownInd.
Variable P : unknown → Prop.
Hypothesis HLeaf : ∀ v,
  match v with VArray _ _ _ | VObject _ _ => False | _ => True end → P v.
Hypothesis HArr : ∀ p elems e, Forall (λ o, ∀ v, o = Some v → P v) elems → P (VArray p elems e).
Hypothesis HObj : ∀ p props,
  Forall (λ kd, ∀ v e, kd.2 = DData v e → P v) props → P (VObject p props).

Fixpoint unknown_nested_ind (v : unknown) : P v.
Proof.
  destruct v as [| | | | | | | | |p elems e|p props]; try (apply HLeaf; exact I).
  - apply HArr. induction elems as [|o elems IH]; constructor; [|exact IH].
    intros v E. destruct o as [w|]; [|discriminate E]. injection E as <-. apply unknown_nested_ind.
  - apply HObj. induction props as [|[k d] props IH]; constructor; [|exact IH].
    intros v e E. destruct d as [w e'|e']; [|discriminate E]. injection E as <- _. apply unknown_nested_ind.
Defined.
End UnknownInd.

(** *** Sorting *)

Lemma insertKey_map {A B} (f : A → B) m ms :
  insertKey (m.1, f m.2) (map (λ m, (m.1, f m.2)) ms) = map (λ m, (m.1, f m.2)) (insertKey m ms).
Proof.
  induction ms as [|m' ms IH]; [done|]. cbn. destruct (sle m.1 m'.1); [done|]. by rewrite IH.
Qed.

Lemma sortKeys_map {A B} (f : A → B) ms :
  sortKeys (map (λ m, (m.1, f m.2)) ms) = map (λ m, (m.1, f m.2)) (sortKeys ms).
Proof.
  unfold sortKeys. induction ms as [|m ms IH]; [done|]. cbn [map foldr]. rewrite IH. apply insertKey_map.
Qed.

Lemma enumerable_map {A B} (f : unknown → A) (g : A → B) d props :
  enumerable (λ v, g (f v)) (g d) props = map (λ m, (m.1, g m.2)) (enumerable f d props).
Proof.
  unfold enumerable. induction props as [|[[k|k] [v []|[]]] props IH]; cbn; rewrite ?IH; done.
Qed.

Lemma enumerable_ext {A} (f g : unknown → A) d props :
  Forall (λ kd, ∀ k v, kd = (KString k, DData v true) → f v = g v) props →
  enumerable f d props = enumerable g d props.
Proof.
  unfold enumerable. induction 1 as [|[[k|k] [v []|[]]] props Hv _ IH]; cbn; rewrite ?IH; try done.
  by rewrite (Hv k v).
Qed.

(** What holds everywhere holds of the values under enumerable keys. *)
Lemma everywhere_props p q props :
  everywhere p (VObject q props) = true →
  Forall (λ kd, ∀ k v, kd = (KString k, DData v true) → everywhere p v = true) props.
Proof.
  cbn [everywhere]. intros [_ HF]%andb_true_iff. rewrite forallb_forall in HF.
  apply Forall_forall. intros kd HI k v ->.
  apply (HF (k, everywhere p v)), list_elem_of_In. unfold enumerable. apply list_elem_of_omap.
  by exists (KString k, DData v true).
Qed.

Lemma everywhere_elems p q elems e :
  everywhere p (VArray q elems e) = true →
  Forall (λ o, ∀ v, o = Some v → everywhere p v = true) elems.
Proof.
  cbn [everywhere]. intros [_ HF]%andb_true_iff. rewrite forallb_forall in HF.
  apply Forall_forall. intros o HI v ->. apply (HF (Some v)). by apply list_elem_of_In.
Qed.

(** *** The serializer prints the JSON value *)

Definition printed (o : option json) : result (list ascii) :=
  match o with Some j => Ok (render j) | None => invalidAuthority end.

Lemma printed_elements elems :
  Forall (λ o, ∃ v, o = Some v ∧ serialize v = printed (toJson v)) elems →
  elements (map (option_map serialize) elems)
  = printed (JArray <$> mapM (λ o, o ≫= toJson) elems).
Proof.
  intros HF. unfold elements.
  assert (mapR (λ o, match o with Some r => r | None => Ok [] end) (map (option_map serialize) elems)
    = match mapM (λ o, o ≫= toJson) elems with
      | Some js => Ok (map render js) | None => invalidAuthority end) as ->.
  { induction HF as [|o elems (v & -> & Hv) _ IH]; [done|]. cbn. rewrite Hv, IH.
    destruct (toJson v); [|done]. cbn. by destruct (mapM _ elems). }
  by destruct (mapM _ elems).
Qed.

Lemma printed_members props :
  Forall (λ kd, ∀ k v, kd = (KString k, DData v true) → serialize v = printed (toJson v)) props →
  members (enumerable serialize invalidAuthority props)
  = printed (JObject <$> mapM (λ '(k, o), pair k <$> o) (sortKeys (enumerable toJson None props))).
Proof.
  intros HF. rewrite (enumerable_ext _ (λ v, printed (toJson v)) _ _ HF).
  change invalidAuthority with (printed None). rewrite enumerable_map. unfold members.
  rewrite sortKeys_map. generalize (sortKeys (enumerable toJson None props)). intros l.
  match goal with |- mapR ?f ?l' ≫= _ = _ => assert (mapR f l'
    = match mapM (λ '(k, o), pair k <$> o) l with
      | Some ms => Ok (map (λ '(k, v), memberChars (k, render v)) ms) | None => invalidAuthority end) as -> end.
  { induction l as [|[k o] l IH]; [done|]. cbn -[memberChars]. rewrite IH.
    destruct o; [|done]. cbn. by destruct (mapM _ l). }
  by destruct (mapM _ l).
Qed.

Lemma serialize_toJson v : dense v = true → serialize v = printed (toJson v).
Proof.
  induction v as [v Hv|p elems e IH|p props IH] using unknown_nested_ind; intros HD.
  - destruct v as [| | |[]| | | | | | |]; try done. cbn -[isSafeInteger decimal].
    by destruct (isSafeInteger (NInt z)).
  - cbn [serialize toJson]. apply printed_elements.
    pose proof (everywhere_elems _ _ _ _ HD) as HE. unfold dense in HD. cbn [everywhere] in HD.
    apply andb_true_iff in HD as [HH _]. rewrite forallb_forall in HH.
    apply Forall_forall. intros o HI. rewrite Forall_forall in IH, HE.
    specialize (HH o ltac:(by apply list_elem_of_In)). destruct o as [v|]; [|done].
    exists v. split; [done|]. by eapply IH, HE.
  - cbn [serialize toJson]. destruct (_ || _); [|done]. apply printed_members.
    pose proof (everywhere_props _ _ _ HD) as HE. rewrite Forall_forall in IH, HE.
    apply Forall_forall. intros kd HI k v ->. by eapply (IH _ HI v true), HE.
Qed.

Lemma text_inj l m : text l = text m → l = m.
Proof. intros HE. apply (f_equal chars) in HE. unfold text in HE. by rewrite !chars_of_list in HE. Qed.

(** The canonical text determines the value: two dense values have one text
    exactly when they denote the same JSON value, whatever their key order,
    prototypes and unenumerable properties. *)
Theorem canonicalAuthorityJson_injective v w s :
  dense v = true → dense w = true → canonicalAuthorityJson v = Ok s →
  canonicalAuthorityJson w = Ok s ↔ toJson v = toJson w.
Proof.
  intros HV HW. unfold canonicalAuthorityJson. rewrite !serialize_toJson by done.
  destruct (toJson v) as [j|]; [|done]. cbn. intros [= <-]. destruct (toJson w) as [j'|]; cbn.
  - split; [|by intros [= ->]]. intros [= HE%text_inj]. symmetry in HE.
    apply (f_equal (.++ [])) in HE. by apply render_decodable in HE as [-> _].
  - by split.
Qed.

(** *** Key order *)

Lemma insertKey_perm {A} (m : string * A) ms : insertKey m ms ≡ₚ m :: ms.
Proof.
  induction ms as [|m' ms IH]; [done|]. cbn. destruct (sle m.1 m'.1); [done|].
  rewrite IH. apply Permutation_swap.
Qed.

Lemma sortKeys_perm {A} (ms : list (string * A)) : sortKeys ms ≡ₚ ms.
Proof.
  unfold sortKeys. induction ms as [|m ms IH]; [done|]. cbn. by rewrite insertKey_perm, IH.
Qed.

Lemma insertKey_comm {A} (m n : string * A) ms :
  m.1 ≠ n.1 → insertKey m (insertKey n ms) = insertKey n (insertKey m ms).
Proof.
  intros Hne. induction ms as [|x ms IH]; cbn.
  - destruct (sle m.1 n.1) eqn:E, (sle n.1 m.1) eqn:E'; try done.
    + by destruct Hne; apply sle_antisym.
    + apply sle_false in E. congruence.
  - destruct (sle m.1 x.1) eqn:EM, (sle n.1 x.1) eqn:EN; cbn; rewrite ?EM, ?EN.
    + destruct (sle m.1 n.1) eqn:E, (sle n.1 m.1) eqn:E'; try done.
      * by destruct Hne; apply sle_antisym.
      * apply sle_false in E. congruence.
    + destruct (sle n.1 m.1) eqn:E; [|done].
      rewrite (sle_trans _ _ _ E EM) in EN. done.
    + destruct (sle m.1 n.1) eqn:E; [|done].
      rewrite (sle_trans _ _ _ E EN) in EM. done.
    + by rewrite IH.
Qed.

Lemma sortKeys_Permutation {A} (ms ns : list (string * A)) :
  NoDup (ms.*1) → ms ≡ₚ ns → sortKeys ms = sortKeys ns.
Proof.
  intros HN HP. unfold sortKeys. induction HP as [|m ms ns HP IH|m n ms|ms ns ls HP1 IH1 HP2 IH2]; cbn.
  - done.
  - apply NoDup_cons in HN as [_ HN]. by rewrite IH.
  - apply NoDup_cons in HN as [HI _]. apply insertKey_comm. intros E. apply HI. rewrite E. left.
  - rewrite IH1 by done. apply IH2. by rewrite <- HP1.
Qed.

Lemma enumerable_keys {A} (f : unknown → A) d props k :
  k ∈ (enumerable f d props).*1 → KString k ∈ props.*1.
Proof.
  rewrite !list_elem_of_fmap. intros ([k' a] & -> & HI). unfold enumerable in HI.
  apply list_elem_of_omap in HI as ([[s|s] dd] & HI & E); [|done].
  exists (KString s, dd). split; [|done].
  destruct dd as [v []|[]]; try done; injection E as -> _; done.
Qed.

Lemma enumerable_NoDup {A} (f : unknown → A) d props :
  NoDup (props.*1) → NoDup ((enumerable f d props).*1).
Proof.
  induction props as [|[k dd] props IH]; cbn; [constructor|]. intros [HI HN]%NoDup_cons.
  specialize (IH HN). change (NoDup ((enumerable f d ((k, dd) :: props)).*1)). unfold enumerable. cbn.
  destruct k as [k|k], dd as [v []|[]]; try exact IH; cbn; constructor; try exact IH;
    intros HK; apply HI; by eapply enumerable_keys.
Qed.

(** The order in which an object's properties were added does not show in its
    canonical text. *)
Theorem canonicalAuthorityJson_key_order p q props props' :
  NoDup (props.*1) → props ≡ₚ props' →
  (p === ObjectPrototype) || (p === NullPrototype) = (q === ObjectPrototype) || (q === NullPrototype) →
  canonicalAuthorityJson (VObject p props) = canonicalAuthorityJson (VObject q props').
Proof.
  intros HN HP HQ. unfold canonicalAuthorityJson. cbn [serialize]. rewrite <- HQ.
  destruct (_ || _); [|done]. f_equal. unfold members.
  rewrite (sortKeys_Permutation (enumerable serialize invalidAuthority props)
    (enumerable serialize invalidAuthority props')); [done| |by apply omap_Permutation].
  by apply enumerable_NoDup.
Qed.

(** *** The two serializers agree *)

Lemma jcs_elements elems s :
  Forall (λ o, ∀ v s, o = Some v → jcs v = Ok s → serialize v = Ok s) elems →
  elements (map (option_map jcs) elems) = Ok s → elements (map (option_map serialize) elems) = Ok s.
Proof.
  intros HF. unfold elements. rewrite !bind_Ok. intros (xs & HX & HS). exists xs. split; [|done].
  apply mapR_Ok in HX. apply mapR_Ok. clear HS. revert xs HX.
  induction HF as [|o elems Ho _ IH]; intros xs HX; inversion HX; subst; constructor; [|by apply IH].
  destruct o as [v|]; [|done]. by apply (Ho v).
Qed.

Lemma jcs_members props s :
  Forall (λ kd, ∀ k v s, kd = (KString k, DData v true) → jcs v = Ok s → serialize v = Ok s) props →
  members (enumerable jcs (Throw TypeError) props) = Ok s →
  members (enumerable serialize invalidAuthority props) = Ok s.
Proof.
  intros HF. unfold members. intros HM.
  assert (enumerable serialize invalidAuthority props = enumerable jcs (Throw TypeError) props) as ->; [|done].
  apply bind_Ok in HM as (xs & HX%mapR_Ok & _).
  assert (HA : Forall (λ m, ∃ a, m.2 = Ok a) (enumerable jcs (Throw TypeError) props)).
  { rewrite <- sortKeys_perm. clear HF. induction HX as [|[k r] y l l' Hy _ IH]; constructor; [|done].
    apply bind_Ok in Hy as (a & -> & _). eauto. }
  clear HX. unfold enumerable in *. induction HF as [|[[k|k] d] props Hkd _ IH]; cbn in *; [done| |by apply IH].
  destruct d as [v []|[]]; cbn in *; try (by apply IH).
  - apply Forall_cons in HA as [[a Ha] HA]. cbn in Ha. by rewrite IH, Ha, (Hkd k v a).
  - by apply Forall_cons in HA as [[a Ha] _].
Qed.

(** The policy-head serializer and the authority serializer agree: a body of
    plain records that the first accepts has the same text under the second. *)
Theorem canonicalJcs_canonicalAuthorityJson v s :
  plainRecords v = true → canonicalJcs v = Ok s → canonicalAuthorityJson v = Ok s.
Proof.
  unfold canonicalJcs, canonicalAuthorityJson. intros HP HS.
  destruct (jcs v) as [l|] eqn:EJ; [|done]. injection HS as <-.
  enough (serialize v = Ok l) as -> by done. revert l HP EJ.
  induction v as [v Hv|p elems e IH|p props IH] using unknown_nested_ind; intros l HP EJ.
  - by destruct v as [| | |[]| | | | |[]| |].
  - apply everywhere_elems in HP. cbn [jcs serialize] in *. eapply jcs_elements; [|exact EJ].
    rewrite Forall_forall in IH, HP. apply Forall_forall. intros o HI v s -> Hs.
    eapply IH; [exact HI|done| |exact Hs]. by eapply HP.
  - pose proof HP as HR. apply everywhere_props in HP. unfold plainRecords in HR.
    cbn [jcs serialize everywhere] in *. apply andb_true_iff in HR as [-> _].
    eapply jcs_members; [|exact EJ].
    rewrite Forall_forall in IH, HP. apply Forall_forall. intros kd HI k v s -> Hs.
    eapply (IH _ HI v true); [done| |exact Hs]. by eapply HP.
Qed.

(** An array with one hole has the text, hence the digest, of the empty array,
    although it is outside the JSON data model. *)
Theorem canonicalAuthorityJson_sparse `{Sha256} :
  canonicalAuthorityJson (VArray ArrayPrototype [None] 0) = Ok "[]" ∧
  canonicalAuthorityJson (VArray ArrayPrototype [] 0) = Ok "[]" ∧
  sha256AuthorityDigest (VArray ArrayPrototype [None] 0) = sha256AuthorityDigest (VArray ArrayPrototype [] 0).
Proof. done. Qed.

(** ** Digests *)

Section Binding.
Context `{Sha256}.

(** A commitment binds the JSON value: dense values with one authority digest
    denote the same JSON value, or their texts collide. *)
Theorem sha256AuthorityBase64Url_binding v w d :
  dense v = true → dense w = true →
  sha256AuthorityBase64Url v = Ok d → sha256AuthorityBase64Url w = Ok d →
  toJson v = toJson w ∨
  ∃ s t, canonicalAuthorityJson v = Ok s ∧ canonicalAuthorityJson w = Ok t ∧ collision [utf8 s] [utf8 t].
Proof.
  unfold sha256AuthorityBase64Url, canonicalAuthorityJson. intros HV HW.
  rewrite !serialize_toJson by done.
  destruct (toJson v) as [j|]; [|done]. destruct (toJson w) as [j'|]; [|done]. cbn.
  intros HD HE. injection HD as HD. injection HE as HE. rewrite <- HE in HD.
  apply digest_inj in HD as [HD|HD]; [left|by eauto 10].
  apply utf8_inj, text_inj in HD. apply (f_equal (.++ [])) in HD.
  by apply render_decodable in HD as [-> _].
Qed.

Definition committable_proposal (p : MandatoryProposalEntry) : Prop :=
  fits U32_MAX (utf8 (proposalId p)) ∧ is_hash32 (proposalHash p) = true.
Definition committable_grant (m : SendGrantSetMemberEntry) : Prop :=
  is_hash32 (grantEvidenceDigest m) = true ∧ is_hash32 (grantInclusionEvidenceDigest m) = true ∧
  fits U32_MAX (utf8 (sg_installationId m)) ∧ fits U32_MAX (utf8 (sg_credentialId m)) ∧
  fits U32_MAX (utf8 (sg_role m)).

Lemma hash32_decode_inj s t :
  is_hash32 s = true → is_hash32 t = true → base64url_decode s = base64url_decode t → s = t.
Proof.
  intros [HS _]%is_base64url_decode [HT _]%is_base64url_decode HE. by rewrite <- HS, <- HT, HE.
Qed.

Lemma hash32_u32 s : is_hash32 s = true → fits U32_MAX (base64url_decode s).
Proof. intros HS%is_hash32_fits. by eapply fits_mono; [|exact HS]. Qed.

Lemma lps_set_inj {A} domain (f : A → list bytes) n (P : A → Prop) xs ys :
  (∀ x, length (f x) = S n) → (∀ x y, P x → P y → f x = f y → x = y) →
  (∀ x, P x → Forall (fits U32_MAX) (f x)) → Forall P xs → Forall P ys →
  sha256 (domain ++ lps (flat_map f xs)) = sha256 (domain ++ lps (flat_map f ys)) →
  xs = ys ∨ collision [domain ++ lps (flat_map f xs)] [domain ++ lps (flat_map f ys)].
Proof.
  intros HL HI HF HX HY HE.
  assert (HU : ∀ l, Forall P l → Forall (fits U32_MAX) (flat_map f l)).
  { intros l. induction 1 as [|x l Hx _ IH]; [constructor|]. cbn. apply Forall_app. auto. }
  destruct (digest_inj (domain ++ lps (flat_map f xs)) (domain ++ lps (flat_map f ys))) as [E|E];
    [by rewrite HE|left|by right].
  apply app_inv_head in E. apply lps_inj in E; [|by apply HU..]. by eapply flat_map_inj.
Qed.

(** The mandatory-proposal set hash binds the ordered list of proposals. *)
Theorem computeMandatoryProposalSetHash_binding ps qs :
  Forall committable_proposal ps → Forall committable_proposal qs →
  computeMandatoryProposalSetHash ps = computeMandatoryProposalSetHash qs →
  ps = qs ∨ collision [utf8 MANDATORY_PROPOSAL_SET_DOMAIN ++ lps (flat_map proposalParts ps)]
                      [utf8 MANDATORY_PROPOSAL_SET_DOMAIN ++ lps (flat_map proposalParts qs)].
Proof.
  apply (lps_set_inj _ _ 1); [done| |].
  - intros [i h] [i' h'] [_ Hh] [_ Hh'] [= Hi HE]. cbn in *.
    apply hash32_decode_inj in HE as ->; [|done..]. by apply utf8_inj in Hi as ->.
  - intros p [Hi Hh]. repeat constructor; [done|]. by apply hash32_u32.
Qed.

(** The send-grant set hash binds the ordered list of grants: digests,
    installations, credentials and roles. *)
Theorem computeSendGrantSetHash_binding ms ns :
  Forall committable_grant ms → Forall committable_grant ns →
  computeSendGrantSetHash ms = computeSendGrantSetHash ns →
  ms = ns ∨ collision [utf8 SEND_GRANT_SET_DOMAIN ++ lps (flat_map grantParts ms)]
                      [utf8 SEND_GRANT_SET_DOMAIN ++ lps (flat_map grantParts ns)].
Proof.
  apply (lps_set_inj _ _ 4); [done| |].
  - intros [a b i c r] [a' b' i' c' r'] (Ha & Hb & _) (Ha' & Hb' & _) HE. unfold grantParts in HE.
    cbn [grantEvidenceDigest grantInclusionEvidenceDigest sg_installationId sg_credentialId sg_role] in *.
    pose proof (f_equal (λ l, l !! 0%nat) HE) as E0. pose proof (f_equal (λ l, l !! 1%nat) HE) as E1.
    pose proof (f_equal (λ l, l !! 2%nat) HE) as E2. pose proof (f_equal (λ l, l !! 3%nat) HE) as E3.
    pose proof (f_equal (λ l, l !! 4%nat) HE) as E4. cbn -[base64url_decode utf8] in *.
    assert (base64url_decode a = base64url_decode a') as ->%hash32_decode_inj by congruence; [|done..].
    assert (base64url_decode b = base64url_decode b') as ->%hash32_decode_inj by congruence; [|done..].
    assert (utf8 i = utf8 i') as ->%utf8_inj by congruence.
    assert (utf8 c = utf8 c') as ->%utf8_inj by congruence.
    assert (utf8 r = utf8 r') as ->%utf8_inj by congruence. done.
  - intros m (Ha & Hb & Hi & Hc & Hr). repeat constructor; try done; by apply hash32_u32.
Qed.
End Binding.

(** ** Instances *)

Definition sample_record : unknown :=
  obj [("roster", VNumber (NInt (-3))); ("id", VString "a"); ("members", arr [VString "x"; VString "y"])].
Definition sample_reordered : unknown :=
  obj [("members", arr [VString "x"; VString "y"]); ("roster", VNumber (NInt (-3))); ("id", VString "a")].
Definition sample_body : unknown := obj [("b", arr [VString "1"]); ("a", obj [("k", VString "v")])].
Definition sample_body_text : string := Eval vm_compute in
  match canonicalJcs sample_body with Ok s => s | Throw _ => "" end.
Definition sample_text : string := Eval vm_compute in
  match canonicalAuthorityJson sample_record with Ok s => s | Throw _ => "" end.
Definition sample_commitment : string := Eval vm_compute in
  match @sha256AuthorityBase64Url fips_sha256 sample_record with Ok s => s | Throw _ => "" end.
Definition sample_proposals : list MandatoryProposalEntry :=
  [{| proposalId := "p1"; proposalHash := ZERO_HASH32 |}].
Definition sample_grants : list SendGrantSetMemberEntry :=
  [{| grantEvidenceDigest := ZERO_HASH32; grantInclusionEvidenceDigest := ZERO_HASH32;
      sg_installationId := "i"; sg_credentialId := "c"; sg_role := "customer" |}].

Lemma canonicalAuthorityJson_injective_witness :
  canonicalAuthorityJson sample_reordered = Ok sample_text.
Proof.
  apply (canonicalAuthorityJson_injective sample_record sample_reordered sample_text);
    vm_compute; reflexivity.
Defined.

Lemma canonicalAuthorityJson_key_order_witness :
  canonicalAuthorityJson (VObject ObjectPrototype [(KString "b", DData VNull true); (KString "a", DData VNull true)])
  = canonicalAuthorityJson (VObject NullPrototype [(KString "a", DData VNull true); (KString "b", DData VNull true)]).
Proof.
  apply canonicalAuthorityJson_key_order; [|apply Permutation_swap|reflexivity].
  apply (bool_decide_unpack _). vm_compute. exact I.
Defined.

Lemma canonicalJcs_canonicalAuthorityJson_witness :
  canonicalAuthorityJson sample_body = Ok sample_body_text.
Proof. apply canonicalJcs_canonicalAuthorityJson; vm_compute; reflexivity. Defined.

Lemma sha256AuthorityBase64Url_binding_witness :
  toJson sample_record = toJson sample_reordered ∨
  ∃ s t, canonicalAuthorityJson sample_record = Ok s ∧ canonicalAuthorityJson sample_reordered = Ok t ∧
    @collision fips_sha256 [utf8 s] [utf8 t].
Proof.
  apply (@sha256AuthorityBase64Url_binding fips_sha256 _ _ sample_commitment); vm_compute; reflexivity.
Defined.

Lemma computeMandatoryProposalSetHash_binding_witness :
  sample_proposals = sample_proposals ∨
  @collision fips_sha256
    [utf8 MANDATORY_PROPOSAL_SET_DOMAIN ++ lps (flat_map proposalParts sample_proposals)]
    [utf8 MANDATORY_PROPOSAL_SET_DOMAIN ++ lps (flat_map proposalParts sample_proposals)].
Proof.
  apply (@computeMandatoryProposalSetHash_binding fips_sha256); [..|reflexivity];
    (constructor; [split; [vm_compute; discriminate|vm_compute; reflexivity]|constructor]).
Defined.

Lemma computeSendGrantSetHash_binding_witness :
  sample_grants = sample_grants ∨
  @collision fips_sha256
    [utf8 SEND_GRANT_SET_DOMAIN ++ lps (flat_map grantParts sample_grants)]
    [utf8 SEND_GRANT_SET_DOMAIN ++ lps (flat_map grantParts sample_grants)].
Proof.
  apply (@computeSendGrantSetHash_binding fips_sha256); [..|reflexivity];
    (constructor; [repeat split; vm_compute; (reflexivity || discriminate)|constructor]).
Defined.
