(* ===== verification/AuthorityValues.v ===== *)
(** * Authority value objects ([src/production/authority/valueObjects.ts])

    The branded strings of the authority layer, its exact records, and the
    reference of a Juicebox project.  URLs are parsed by the platform, a parameter
    of the model; there is no negative zero among its numbers. *)

From stdpp Require Import base list strings.
From Stdlib Require Import ZArith Lia Ascii.
From S2P Require Import Prelude Sha256 Base64Url JsTime JsValue ValueObjects CanonicalJson.

Definition invalid {A} : result A := Throw AuthorityValidationError.
Definition refuse_if (b : bool) : result unit := throw_if b AuthorityValidationError.

Definition UINT256_MAX : Z := 2 ^ 256 - 1.
Definition CHAIN_IDS : list Z := [1; 10; 8453; 42161; 11155111; 11155420; 84532; 421614].

(** ** Records *)

(** [Object.keys]. *)
Definition Object_keys (r : record) : list string := map fst (enumerable (λ _, ()) () r).
Definition hasOwn (r : record) (k : string) : bool := existsb (propkey_eqb (KString k)) (map fst r).

Definition expectExactRecord (value : unknown) (keys : list string) : result record :=
  match value with
  | VObject p r =>
      refuse_if (negb ((p === ObjectPrototype) || (p === NullPrototype)));;
      let actual := Object_keys r in
      refuse_if (negb (Nat.eqb (length actual) (length keys))
                 || existsb (λ key, negb (hasOwn r key)) keys
                 || existsb (λ key, negb (bool_decide (key ∈ keys)) || isUndefined r.[key]) actual);;
      Ok r
  | _ => invalid
  end.

(** [!value || typeof value !== "object" || Array.isArray(value)] rules out
    everything but objects; the properties of a byte array are its bytes. *)
Definition expectObject (value : unknown) : result record :=
  match value with
  | VObject _ r => Ok r
  | VBytes _ => Ok []
  | _ => invalid
  end.

Definition isTrue (v : unknown) : bool := match v with VBool true => true | _ => false end.
Definition isFalse (v : unknown) : bool := match v with VBool false => true | _ => false end.
Definition isNumber (v : unknown) (z : Z) : bool :=
  match v with VNumber (NInt z') => z' =? z | _ => false end.

(** ** Branded strings *)

Definition lower_char (c : ascii) : ascii :=
  if is_upper c then ascii_of_N (Z.to_N (code c + 32)) else c.
Definition toLowerCase (s : string) : string := text (map lower_char (chars s)).

(** [/^0x[0-9a-fA-F]*$/]: the digits. *)
Definition hex_digits (s : string) : option (list ascii) :=
  match chars s with
  | z :: x :: ds =>
      if is_char z "0"%char && is_char x "x"%char && forallb is_hex_ci ds then Some ds else None
  | _ => None
  end.

Definition parseHexOf (n : nat) (value : unknown) : result string :=
  match value with
  | VString s =>
      match hex_digits s with
      | Some ds => refuse_if (negb (Nat.eqb (length ds) n));; Ok (toLowerCase s)
      | None => invalid
      end
  | _ => invalid
  end.

Definition ZERO_ADDRESS : string := "0x0000000000000000000000000000000000000000".

Definition parseEthereumAddress (value : unknown) (allowZero : bool) : result string :=
  normalized ← parseHexOf 40 value;
  refuse_if (negb allowZero && (normalized === ZERO_ADDRESS));;
  Ok normalized.
Definition parseAddress (value : unknown) : result string := parseEthereumAddress value false.

Definition parseHash32 : unknown → result string := parseHexOf 64.

Definition parseHexBytes (value : unknown) (minBytes maxBytes : Z) : result string :=
  match value with
  | VString s =>
      match hex_digits s with
      | Some ds =>
          let n := Z.of_nat (length ds) in
          refuse_if (negb (n mod 2 =? 0) || (n / 2 <? minBytes) || (maxBytes <? n / 2));;
          Ok (toLowerCase s)
      | None => invalid
      end
  | _ => invalid
  end.

(** Zero, or digits that start with no zero. *)
Definition CANONICAL_DECIMAL (s : string) : bool :=
  match chars s with
  | [] => false
  | [c] => is_digit c
  | c :: cs => is_digit c && negb (is_char c "0"%char) && forallb is_digit cs
  end.

Definition parseUint256Decimal (value : unknown) : result string :=
  match value with
  | VString s =>
      refuse_if (negb (CANONICAL_DECIMAL s));;
      refuse_if ((78 <? strlen s) || (UINT256_MAX <? BigInt s));;
      Ok s
  | _ => invalid
  end.

Definition parseLogIndex (value : unknown) : result Z :=
  match value with
  | VNumber (NInt z) => refuse_if (negb (isSafeInteger (NInt z)) || (z <? 0));; Ok z
  | _ => invalid
  end.

Definition parseCanonicalInstant (value : unknown) : result string :=
  match value with
  | VString s =>
      refuse_if (negb (match_classes RFC3339_MILLISECONDS (chars s)));;
      match dateParse s with
      | None => invalid
      | Some parsed => refuse_if (toISOString parsed !== s);; Ok s
      end
  | _ => invalid
  end.

(** [/^[A-Za-z0-9][A-Za-z0-9._:-]{0,127}$/]. *)
Definition is_id_start (c : ascii) : bool := is_upper c || is_lower c || is_digit c.
Definition is_id_char (c : ascii) : bool :=
  is_id_start c || is_char c "."%char || is_char c "_"%char || is_char c ":"%char
  || is_char c "-"%char.
Definition AUTHORITY_ID (s : string) : bool :=
  match chars s with
  | [] => false
  | c :: cs => is_id_start c && forallb is_id_char cs && (Z.of_nat (length cs) <=? 127)
  end.

Definition parseAuthorityId (value : unknown) : result string :=
  match value with
  | VString s => refuse_if (negb (AUTHORITY_ID s));; Ok s
  | _ => invalid
  end.

(** [/^[A-Za-z0-9_-]+$/] and the tail bits of the last character. *)
Definition parseBase64Url (value : unknown) (minLength maxLength : Z) : result string :=
  match value with
  | VString s =>
      let n := strlen s in
      refuse_if ((n <? minLength) || (maxLength <? n) || (n =? 0)
                 || negb (forallb (λ c, 0 <=? alphabet_index c) (chars s)));;
      let remainder := n mod 4 in
      let lastValue := alphabet_index (List.last (chars s) "="%char) in
      refuse_if ((remainder =? 1) || ((remainder =? 2) && negb (Z.land lastValue 15 =? 0))
                 || ((remainder =? 3) && negb (Z.land lastValue 3 =? 0)));;
      Ok s
  | _ => invalid
  end.

Definition parseJuiceboxV6ChainId (value : unknown) : result Z :=
  match value with
  | VNumber (NInt z) => refuse_if (negb (bool_decide (z ∈ CHAIN_IDS)));; Ok z
  | _ => invalid
  end.

(** Protocol and version are constants. *)
Record JuiceboxV6ProjectRef := {
  j_chainId : Z; j_projectId : Z; j_deploymentManifestId : string; j_projectsContract : string }.
#[export] Instance ProjectRef_eq_dec : EqDecision JuiceboxV6ProjectRef.
Proof. solve_decision. Defined.

Definition parseJuiceboxV6ProjectRef (value : unknown) : result JuiceboxV6ProjectRef :=
  record ← expectExactRecord value
    ["protocol"; "chainId"; "projectId"; "version"; "deploymentManifestId"; "projectsContract"];
  refuse_if (negb (isString record.["protocol"] "juicebox-v6") || negb (isNumber record.["version"] 6));;
  match record.["projectId"] with
  | VNumber (NInt projectId) =>
      refuse_if (negb (isSafeInteger (NInt projectId)) || (projectId <? 1));;
      chainId ← parseJuiceboxV6ChainId record.["chainId"];
      deploymentManifestId ← parseAuthorityId record.["deploymentManifestId"];
      projectsContract ← parseAddress record.["projectsContract"];
      Ok {| j_chainId := chainId; j_projectId := projectId;
            j_deploymentManifestId := deploymentManifestId; j_projectsContract := projectsContract |}
  | _ => invalid
  end.

(** [instantMilliseconds] of a branded instant. *)
Definition instantMilliseconds (value : string) : Z := Date_parse value.

Definition sameJuiceboxV6ProjectRef (left right : JuiceboxV6ProjectRef) : bool :=
  (j_chainId left =? j_chainId right) && (j_projectId left =? j_projectId right)
  && (j_deploymentManifestId left === j_deploymentManifestId right)
  && (j_projectsContract left === j_projectsContract right).

(** [value === null ? null : parse(value)]. *)
Definition parseNullable {A} (parse : unknown → result A) (value : unknown) : result (option A) :=
  if isNull value then Ok None else Some <$> parse value.

Definition VInt (z : Z) : unknown := VNumber (NInt z).
Definition project_obj (p : JuiceboxV6ProjectRef) : unknown :=
  obj [("protocol", VString "juicebox-v6"); ("chainId", VInt (j_chainId p));
       ("projectId", VInt (j_projectId p)); ("version", VInt 6);
       ("deploymentManifestId", VString (j_deploymentManifestId p));
       ("projectsContract", VString (j_projectsContract p))].

(** [[...xs].sort().some((item, index) => item !== xs[index])]: by code units,
    [undefined] (a hole) last. *)
Definition sortStrings (xs : list (option string)) : list (option string) :=
  map Some (sort_by sle (omap id xs)) ++ List.filter (λ o, negb (bool_decide (is_Some o))) xs.
Definition isUnsorted (xs : list (option string)) : bool := sortStrings xs !== xs.

(** ** What the parsers accept *)

Lemma refuse_if_Ok b u : refuse_if b = Ok u ↔ b = false.
Proof. apply throw_if_Ok. Qed.

Ltac inv_auth := repeat (progress (inv_result; repeat match goal with
  | H : refuse_if _ = Ok _ |- _ => apply refuse_if_Ok in H
  end)).

Definition is_lower_hex (n : nat) (s : string) : bool :=
  match chars s with
  | z :: x :: ds => is_char z "0"%char && is_char x "x"%char && forallb is_hex ds && Nat.eqb (length ds) n
  | _ => false
  end.
Definition is_address (s : string) : bool := is_lower_hex 40 s && (s !== ZERO_ADDRESS).
Definition is_uint256 (s : string) : bool :=
  CANONICAL_DECIMAL s && (strlen s <=? 78) && (BigInt s <=? UINT256_MAX).

Lemma lower_hex_char c : is_hex_ci c = true → is_hex (lower_char c) = true.
Proof. by destruct c as [[] [] [] [] [] [] [] []]. Qed.
Lemma lower_hex_id c : is_hex c = true → lower_char c = c ∧ is_hex_ci c = true.
Proof. by destruct c as [[] [] [] [] [] [] [] []]. Qed.

Lemma toLowerCase_hex s ds :
  hex_digits s = Some ds → is_lower_hex (length ds) (toLowerCase s) = true.
Proof.
  unfold hex_digits, is_lower_hex, toLowerCase, text. rewrite chars_of_list.
  destruct (chars s) as [|z [|x es]]; try done. destruct (_ && _) eqn:E; [|done]. intros [= <-].
  apply andb_true_iff in E as [[Hz Hx]%andb_true_iff Hd]. apply is_char_eq in Hz as ->, Hx as ->.
  cbn [map]. change (lower_char "0"%char) with "0"%char. change (lower_char "x"%char) with "x"%char.
  change (is_char "0" "0") with true. change (is_char "x" "x") with true. cbn [andb].
  rewrite length_map, Nat.eqb_refl, andb_true_r.
  rewrite forallb_forall in Hd |- *. intros c (c' & <- & Hc)%in_map_iff. by apply lower_hex_char, Hd.
Qed.

Lemma lower_hex_fixed n s :
  is_lower_hex n s = true → toLowerCase s = s ∧ ∃ ds, hex_digits s = Some ds ∧ length ds = n.
Proof.
  unfold is_lower_hex, hex_digits, toLowerCase, text. intros H.
  destruct (chars s) as [|z [|x ds]] eqn:E; try done. split_orb. apply is_char_eq in H as ->, H2 as ->.
  assert (HF : Forall (λ c, lower_char c = c ∧ is_hex_ci c = true) ds).
  { apply Forall_forall. intros c Hc%list_elem_of_In. rewrite forallb_forall in H1. by apply lower_hex_id, H1. }
  split.
  - apply chars_inj. rewrite chars_of_list, E. cbn [map]. f_equal. f_equal.
    clear -HF. induction HF as [|c ds [Hc _] _ IH]; [done|]. cbn. by rewrite Hc, IH.
  - exists ds. change (is_char "0" "0") with true. change (is_char "x" "x") with true. cbn [andb].
    assert (forallb is_hex_ci ds = true) as ->.
    { apply forallb_forall. intros c Hc%list_elem_of_In. rewrite Forall_forall in HF. by apply HF. }
    split; [done|by apply Nat.eqb_eq].
Qed.

Lemma parseHexOf_Ok n v s : parseHexOf n v = Ok s → is_lower_hex n s = true.
Proof.
  destruct v; try discriminate. unfold parseHexOf. destruct (hex_digits s0) as [ds|] eqn:E; [|done].
  intros H. inv_auth. subst s. apply negb_false_iff, Nat.eqb_eq in Hx as <-. by apply toLowerCase_hex.
Qed.

Lemma parseHexOf_id n s : is_lower_hex n s = true → parseHexOf n (VString s) = Ok s.
Proof.
  intros (E & ds & Hd & HL)%lower_hex_fixed. unfold parseHexOf. by rewrite Hd, HL, Nat.eqb_refl, E.
Qed.

(** Hashes and addresses are read without regard to case, and kept in lower case. *)
Lemma authorityHash32_Ok v s : parseHash32 v = Ok s → is_lower_hex 64 s = true.
Proof. apply parseHexOf_Ok. Qed.
Lemma parseHash32_id s : is_lower_hex 64 s = true → parseHash32 (VString s) = Ok s.
Proof. apply parseHexOf_id. Qed.

Lemma parseAddress_Ok v s : parseAddress v = Ok s → is_address s = true.
Proof.
  unfold parseAddress, parseEthereumAddress. intros H. inv_auth. subst. apply parseHexOf_Ok in Hx.
  unfold is_address. rewrite Hx. by destruct (_ === _).
Qed.
Lemma parseAddress_id s : is_address s = true → parseAddress (VString s) = Ok s.
Proof.
  unfold is_address, parseAddress, parseEthereumAddress. intros [H Hz]%andb_true_iff.
  rewrite parseHexOf_id by done. cbn [mbind result_bind negb andb]. by destruct (s === ZERO_ADDRESS).
Qed.

Lemma parseUint256Decimal_Ok v s : parseUint256Decimal v = Ok s ↔ v = VString s ∧ is_uint256 s = true.
Proof.
  unfold is_uint256. split.
  - destruct v; try discriminate. unfold parseUint256Decimal. intros H. inv_auth. subst. split_orb.
    split; [done|]. rewrite Hx. cbn. lia.
  - intros [-> H]. split_orb. unfold parseUint256Decimal. rewrite H. cbn [negb refuse_if throw_if mbind result_bind].
    by rewrite !(proj2 (Z.ltb_ge _ _)) by lia.
Qed.

Lemma parseCanonicalInstant_Ok v s : parseCanonicalInstant v = Ok s ↔ v = VString s ∧ canonicalInstant s = true.
Proof.
  unfold canonicalInstant. split.
  - destruct v; try discriminate. unfold parseCanonicalInstant. intros H.
    apply bind_Ok in H as (u & Hm%refuse_if_Ok%negb_false_iff & H). destruct (dateParse s0) eqn:E; [|done].
    inv_auth. subst. bsimp. by rewrite Hm, E, bool_decide_eq_true_2.
  - intros [-> [H H']%andb_true_iff]. unfold parseCanonicalInstant. rewrite H. cbn [negb refuse_if throw_if mbind result_bind].
    destruct (dateParse s); [|done]. by rewrite H'.
Qed.

Lemma parseAuthorityId_Ok v s : parseAuthorityId v = Ok s ↔ v = VString s ∧ AUTHORITY_ID s = true.
Proof.
  split.
  - destruct v; try discriminate. unfold parseAuthorityId. intros H. inv_auth. subst. by split_orb.
  - intros [-> H]. unfold parseAuthorityId. by rewrite H.
Qed.

Lemma parseLogIndex_Ok v z : parseLogIndex v = Ok z ↔ v = VInt z ∧ 0 <= z <= MAX_SAFE_INTEGER.
Proof.
  unfold VInt. split.
  - destruct v as [| | |[z'|]| | | | | | |]; try discriminate. unfold parseLogIndex. cbn [isSafeInteger].
    intros H. inv_auth. subst. split_orb. split; [done|lia].
  - intros [-> H]. unfold parseLogIndex. cbn [isSafeInteger]. rewrite (proj2 (Z.leb_le _ _)) by lia.
    by rewrite (proj2 (Z.ltb_ge _ _)) by lia.
Qed.

Lemma parseNullable_None {A} (parse : unknown → result A) v : parseNullable parse v = Ok None ↔ v = VNull.
Proof.
  unfold parseNullable. split; [|by intros ->]. destruct v; cbn; try done; by destruct (parse _).
Qed.

Definition valid_project (p : JuiceboxV6ProjectRef) : bool :=
  bool_decide (j_chainId p ∈ CHAIN_IDS) && (1 <=? j_projectId p) && (j_projectId p <=? MAX_SAFE_INTEGER)
  && AUTHORITY_ID (j_deploymentManifestId p) && is_address (j_projectsContract p).

Lemma parseChainId_Ok v z : parseJuiceboxV6ChainId v = Ok z ↔ v = VInt z ∧ z ∈ CHAIN_IDS.
Proof.
  unfold VInt. split.
  - destruct v as [| | |[z'|]| | | | | | |]; try discriminate. unfold parseJuiceboxV6ChainId.
    intros H. inv_auth. subst. by bsimp.
  - intros [-> H]. unfold parseJuiceboxV6ChainId. by rewrite bool_decide_eq_true_2.
Qed.

Lemma parseProject_valid v p : parseJuiceboxV6ProjectRef v = Ok p → valid_project p = true.
Proof.
  unfold parseJuiceboxV6ProjectRef. intros H. inv_auth.
  destruct (x.["projectId"]) as [| | |[z|]| | | | | | |]; try discriminate. inv_auth. subst p.
  apply parseChainId_Ok in Hx2 as [_ H2]. apply parseAuthorityId_Ok in Hx3 as [_ H3].
  apply parseAddress_Ok in Hx4. unfold valid_project; cbn -[Z.leb MAX_SAFE_INTEGER]. rewrite bool_decide_eq_true_2, H3, Hx4 by done.
  cbn [isSafeInteger] in Hx1. split_orb. rewrite !(proj2 (Z.leb_le _ _)) by lia. done.
Qed.

Lemma sameProject_eq p q : sameJuiceboxV6ProjectRef p q = true ↔ p = q.
Proof.
  unfold sameJuiceboxV6ProjectRef. rewrite !andb_true_iff, !Z.eqb_eq, !bool_decide_eq_true.
  destruct p, q; cbn. split; [intros [[[-> ->] ->] ->]; done|by intros [= -> -> -> ->]].
Qed.

(** An exact record of the literal's own fields. *)
Lemma expectExactRecord_lit fields keys :
  map fst fields = keys → NoDup keys → Forall (λ v, isUndefined v = false) (map snd fields) →
  expectExactRecord (obj fields) keys = Ok (map (λ '(k, v), (KString k, DData v true)) fields).
Proof.
  intros <- HN HU. unfold expectExactRecord, obj. cbn [negb orb refuse_if throw_if mbind result_bind].
  rewrite bool_decide_eq_true_2 by done. cbn [negb orb refuse_if throw_if mbind result_bind].
  assert (HK : Object_keys (map (λ '(k, v), (KString k, DData v true)) fields) = map fst fields).
  { unfold Object_keys, enumerable. clear. induction fields as [|[k v] fields IH]; [done|]. cbn. by rewrite IH. }
  rewrite HK, length_map, Nat.eqb_refl. cbn [negb orb].
  match goal with |- context [refuse_if (?a || ?b)] => assert (a = false) as ->; [|assert (b = false) as ->; [|done]] end.
  - apply not_true_iff_false. rewrite existsb_exists. intros (k & Hk & Hn). apply negb_true_iff, not_true_iff_false in Hn.
    apply Hn. unfold hasOwn. apply existsb_exists. exists (KString k). split; [|by apply propkey_eqb_eq].
    apply in_map_iff in Hk as ([k' v] & <- & Hk). rewrite map_map.
    apply in_map_iff. by exists (k', v).
  - apply not_true_iff_false. rewrite existsb_exists. intros (k & Hk & Hn).
    rewrite bool_decide_eq_true_2 in Hn by by apply list_elem_of_In. cbn [negb orb] in Hn.
    apply list_elem_of_In, list_elem_of_lookup in Hk as [i Hi].
    change (map fst fields) with (fields.*1) in Hi. rewrite list_lookup_fmap in Hi.
    destruct (fields !! i) as [[k' v]|] eqn:E; [|done]. injection Hi as <-.
    rewrite (get_obj_nth fields k' v i) in Hn by done. rewrite Forall_forall in HU.
    rewrite HU in Hn; [done|]. apply list_elem_of_fmap. exists (k', v). split; [done|]. by eapply list_elem_of_lookup_2.
Qed.

(** Reads the fields of an object literal. *)
Ltac read_fields :=
  repeat match goal with |- context [get ?r ?k] =>
    let v := eval cbv [get descriptor map] in (get r k) in
    let v := eval cbn in v in change (get r k) with v end.
Ltac open_record :=
  rewrite expectExactRecord_lit; [|reflexivity|by apply (bool_decide_unpack _); vm_compute|by repeat constructor];
  cbn [mbind result_bind]; read_fields.

Lemma parseProject_obj p : valid_project p = true → parseJuiceboxV6ProjectRef (project_obj p) = Ok p.
Proof.
  unfold valid_project. intros H. bsimp. unfold parseJuiceboxV6ProjectRef, project_obj. open_record.
  cbn [isString isNumber VInt]. rewrite bool_decide_eq_true_2 by done. cbn [negb orb refuse_if throw_if mbind result_bind Z.eqb Pos.eqb].
  cbn [isSafeInteger]. rewrite (proj2 (Z.leb_le (Z.abs _) _)), (proj2 (Z.ltb_ge _ _)) by lia.
  cbn [negb orb refuse_if throw_if mbind result_bind].
  rewrite (proj2 (parseChainId_Ok _ (j_chainId p))) by done. cbn [mbind result_bind].
  rewrite (proj2 (parseAuthorityId_Ok _ (j_deploymentManifestId p))) by done. cbn [mbind result_bind].
  rewrite parseAddress_id by done. by destruct p.
Qed.

Lemma expectObject_obj fields :
  expectObject (obj fields) = Ok (map (λ '(k, v), (KString k, DData v true)) fields).
Proof. done. Qed.

(** Decides which literal a literal is. *)
Ltac read_literals :=
  repeat match goal with |- context [isString (VString ?s) ?t] =>
    let b := eval vm_compute in (isString (VString s) t) in
    change (isString (VString s) t) with b end;
  cbn [negb andb orb refuse_if throw_if mbind result_bind].

(** *** Unpadded base64url *)

Lemma last_map_nonempty {A B} (f : A → B) l d d' : l ≠ [] → List.last (map f l) d = f (List.last l d').
Proof.
  induction l as [|x [|y l] IH]; intros H; [done|done|].
  change (List.last (map f (y :: l)) d = f (List.last (y :: l) d')). by apply IH.
Qed.

Lemma tail_test_iff s : chars s ≠ [] →
  let remainder := strlen s mod 4 in
  let lastValue := alphabet_index (List.last (chars s) "="%char) in
  (remainder =? 1) || ((remainder =? 2) && negb (Z.land lastValue 15 =? 0))
  || ((remainder =? 3) && negb (Z.land lastValue 3 =? 0)) = false ↔
  tail_bits_zero (map alphabet_index (chars s)).
Proof.
  intros HN. cbv zeta. unfold tail_bits_zero. rewrite length_map, (last_map_nonempty _ _ _ "="%char) by done.
  assert (HM : ∀ k, (0 <= k < 4) → (strlen s mod 4 = k ↔ (length (chars s) mod 4 = Z.to_nat k)%nat)).
  { intros k Hk. unfold strlen. rewrite <- length_chars.
    assert (HZ : Z.of_nat (length (chars s) mod 4) = Z.of_nat (length (chars s)) mod 4) by apply Nat2Z.inj_mod.
    rewrite <- HZ. lia. }
  pose proof (HM 1 ltac:(lia)) as H1. pose proof (HM 2 ltac:(lia)) as H2. pose proof (HM 3 ltac:(lia)) as H3. clear HM.
  change (Z.to_nat 1) with 1%nat in H1. change (Z.to_nat 2) with 2%nat in H2. change (Z.to_nat 3) with 3%nat in H3.
  rewrite <- H1, <- H2, <- H3. generalize (strlen s mod 4). intros r.
  rewrite !orb_false_iff, !andb_false_iff, !negb_false_iff, !Z.eqb_neq, !Z.eqb_eq. intuition lia.
Qed.

(** The tests on the alphabet and on the last character accept exactly the
    canonical encodings: the strings of a length within the bounds that encode
    some bytes. *)
Theorem parseBase64Url_canonical v lo hi s :
  parseBase64Url v lo hi = Ok s ↔
  v = VString s ∧ lo <= strlen s <= hi ∧ ∃ bs, bs ≠ [] ∧ s = base64url_encode bs.
Proof.
  assert (HC : ∀ s, strlen s = 0 ↔ chars s = []).
  { intros t. unfold strlen. rewrite <- length_chars. destruct (chars t); cbn; split; [done|done|lia|done]. }
  split.
  - destruct v as [| | | | |t| | | | |]; try discriminate. unfold parseBase64Url. intros H. inv_auth. subst t.
    split_orb. assert (HN : chars s ≠ []) by (rewrite <- HC; by apply Z.eqb_neq).
    assert (HA : Forall (λ c, 0 <= alphabet_index c) (chars s)).
    { apply Forall_forall. intros c Hc%list_elem_of_In.
      match goal with H : forallb _ _ = true |- _ => rewrite forallb_forall in H; specialize (H c Hc) end. lia. }
    match goal with H1 : ?a = false, H2 : ?b = false, H3 : ?c = false |- _ =>
      assert (HT : tail_bits_zero (map alphabet_index (chars s))) by
        (apply tail_test_iff; [done|cbv zeta]; rewrite !orb_false_iff; by split_and!) end.
    pose proof (base64url_encode_decode s HA HT) as HE. split_and!; [done|lia|lia|].
    exists (base64url_decode s). split; [|done]. intros HD. rewrite HD in HE. by subst s.
  - intros (-> & HL & bs & Hbs & Hs). pose proof (base64url_encode_alphabet bs) as HA.
    pose proof (base64url_encode_tail_bits bs) as HT. rewrite <- Hs in HA, HT.
    assert (HN : chars s ≠ []).
    { intros E. apply Hbs. rewrite <- (base64url_decode_encode bs), <- Hs. apply (chars_inj s "") in E as ->. done. }
    unfold parseBase64Url. apply tail_test_iff in HT; [|done]. cbv zeta in HT. rewrite HT.
    rewrite !(proj2 (Z.ltb_ge _ _)) by lia. rewrite (proj2 (Z.eqb_neq _ _)) by by rewrite HC.
    assert (forallb (λ c, 0 <=? alphabet_index c) (chars s) = true) as ->; [|done].
    apply forallb_forall. intros c Hc. apply Z.leb_le. rewrite Forall_forall in HA. by apply HA, list_elem_of_In.
Qed.

(** ** What a parser accepted, it accepts again *)

Lemma parseAuthorityId_again v s : parseAuthorityId v = Ok s → parseAuthorityId (VString s) = Ok s.
Proof. by intros [-> HA]%parseAuthorityId_Ok; apply parseAuthorityId_Ok. Qed.
Lemma parseCanonicalInstant_again v s : parseCanonicalInstant v = Ok s → parseCanonicalInstant (VString s) = Ok s.
Proof. by intros [-> HA]%parseCanonicalInstant_Ok; apply parseCanonicalInstant_Ok. Qed.
Lemma parseUint256Decimal_again v s : parseUint256Decimal v = Ok s → parseUint256Decimal (VString s) = Ok s.
Proof. by intros [-> HA]%parseUint256Decimal_Ok; apply parseUint256Decimal_Ok. Qed.
Lemma parseLogIndex_again v z : parseLogIndex v = Ok z → parseLogIndex (VInt z) = Ok z.
Proof. by intros [-> HA]%parseLogIndex_Ok; apply parseLogIndex_Ok. Qed.
Lemma parseHash32_again v s : parseHash32 v = Ok s → parseHash32 (VString s) = Ok s.
Proof. by intros ?%authorityHash32_Ok%parseHash32_id. Qed.
Lemma parseAddress_again v s : parseAddress v = Ok s → parseAddress (VString s) = Ok s.
Proof. by intros ?%parseAddress_Ok%parseAddress_id. Qed.
Lemma parseProject_again v p : parseJuiceboxV6ProjectRef v = Ok p → parseJuiceboxV6ProjectRef (project_obj p) = Ok p.
Proof. by intros ?%parseProject_valid%parseProject_obj. Qed.
Lemma parseNullable_again {A} (parse : unknown → result A) (f : A → unknown) v o :
  (∀ w a, parse w = Ok a → parse (f a) = Ok a ∧ isNull (f a) = false) →
  parseNullable parse v = Ok o → parseNullable parse (nullable f o) = Ok o.
Proof.
  unfold parseNullable. intros HP. destruct (isNull v); [by intros [= <-]|].
  destruct (parse v) as [a|] eqn:E; [|done]. intros [= <-]. apply HP in E as [E HN]. cbn. by rewrite HN, E.
Qed.
#[export] Hint Resolve parseAuthorityId_again parseCanonicalInstant_again parseUint256Decimal_again
  parseLogIndex_again parseHash32_again parseAddress_again parseProject_again : jb.

(** ** URLs

    The platform's URL parser is a parameter: the components of the URL a string
    denotes, or nothing when it throws. *)

Record URL := {
  u_protocol : string; u_username : string; u_password : string; u_host : string;
  u_hostname : string; u_pathname : string; u_search : string; u_hash : string;
  u_origin : string; u_href : string }.
Class UrlParser := { newURL : string → option URL }.

(** [/^[\x20-\x7E]+$/] *)
Definition ASCII (s : string) : bool :=
  match chars s with [] => false | cs => forallb (in_range 32 126) cs end.
Definition endsWithDot (s : string) : bool := is_char (List.last (chars s) "-"%char) "."%char.
(** A string as a condition. *)
Definition truthy (s : string) : bool := s !== "".

Section Urls.
Context `{UrlParser}.

Definition parseHttpsOrigin (value : unknown) : result string :=
  match value with
  | VString s =>
      refuse_if ((255 <? strlen s) || negb (ASCII s) || endsWithDot s);;
      match newURL s with
      | None => invalid
      | Some url =>
          refuse_if ((u_protocol url !== "https:") || truthy (u_username url) || truthy (u_password url)
                     || (u_pathname url !== "/") || truthy (u_search url) || truthy (u_hash url)
                     || (u_origin url !== s) || endsWithDot (u_hostname url));;
          Ok s
      end
  | _ => invalid
  end.

Definition parseHttpsUrl (value : unknown) : result string :=
  match value with
  | VString s =>
      refuse_if ((2048 <? strlen s) || negb (ASCII s));;
      match newURL s with
      | None => invalid
      | Some url =>
          refuse_if ((u_protocol url !== "https:") || truthy (u_username url) || truthy (u_password url)
                     || truthy (u_hash url) || (u_href url !== s));;
          Ok s
      end
  | _ => invalid
  end.

Definition parseSiweDomain (value : unknown) : result string :=
  match value with
  | VString s =>
      refuse_if ((253 <? strlen s) || negb (ASCII s) || existsb (is_char "@"%char) (chars s));;
      match newURL ("https://" +:+ s) with
      | None => invalid
      | Some url =>
          refuse_if ((u_host url !== s) || endsWithDot (u_hostname url) || (u_pathname url !== "/")
                     || truthy (u_search url) || truthy (u_hash url));;
          Ok s
      end
  | _ => invalid
  end.

Lemma parseHttpsOrigin_Ok v s :
  parseHttpsOrigin v = Ok s → v = VString s ∧ ASCII s = true ∧ ∃ url, newURL s = Some url ∧ u_origin url = s.
Proof.
  destruct v; try discriminate. unfold parseHttpsOrigin. intros (u & HA%refuse_if_Ok & H0)%bind_Ok.
  destruct (newURL s0) as [url|] eqn:E; [|done]. inv_auth. subst. bsimp. eauto.
Qed.
Lemma parseHttpsOrigin_again v s : parseHttpsOrigin v = Ok s → parseHttpsOrigin (VString s) = Ok s.
Proof. intros HP. by destruct (parseHttpsOrigin_Ok _ _ HP) as [<- _]. Qed.

Lemma parseHttpsUrl_Ok v s :
  parseHttpsUrl v = Ok s → v = VString s ∧ ASCII s = true ∧ ∃ url, newURL s = Some url ∧ u_href url = s.
Proof.
  destruct v; try discriminate. unfold parseHttpsUrl. intros (u & HA%refuse_if_Ok & H0)%bind_Ok.
  destruct (newURL s0) as [url|] eqn:E; [|done]. inv_auth. subst. bsimp. eauto.
Qed.

Lemma parseSiweDomain_Ok v s : parseSiweDomain v = Ok s → v = VString s ∧ ASCII s = true.
Proof.
  destruct v; try discriminate. unfold parseSiweDomain. intros (u & HA%refuse_if_Ok & H0)%bind_Ok.
  destruct (newURL _) as [url|] eqn:E; [|done]. inv_auth. subst. by bsimp.
Qed.
End Urls.
