(* ===== verification/AuthorityFinality.v ===== *)
(** * Finality and wallet signatures ([src/production/authority/finality.ts],
    [signatures.ts])

    What the chain adapters and the signature verifier report, as the authority
    layer reads it: finalized block anchors with their provider quorum,
    canonicality of a receipt, and the outcome of a wallet signature. *)

From stdpp Require Import base list strings.
From Stdlib Require Import ZArith Lia Ascii.
From S2P Require Import Prelude Sha256 Base64Url JsTime JsValue ValueObjects Quota CanonicalJson AuthorityValues.

Definition parseLiteral {A} `{Literal A} (value : unknown) : result A :=
  match literal_of lit lits value with Some a => Ok a | None => invalid end.

(** ** Finality *)

(** The fields of a policy that are not constants. *)
Record FinalityPolicy := {
  fp_policyId : string; fp_chainId : Z; fp_minimumProviderQuorum : Z }.

Record FinalizedBlockAnchor := {
  ab_chainId : Z; ab_blockNumber : string; ab_blockHash : string; ab_finalizedAt : string;
  ab_providerIds : list (option string) }.
#[export] Instance Anchor_eq_dec : EqDecision FinalizedBlockAnchor.
Proof. solve_decision. Defined.

Inductive OrphanReason := block_hash_mismatch | receipt_disappeared.
#[export] Instance OrphanReason_eq_dec : EqDecision OrphanReason.
Proof. solve_decision. Defined.
#[export] Instance OrphanReason_literal : Literal OrphanReason := {|
  lit r := match r with block_hash_mismatch => "block-hash-mismatch"
           | receipt_disappeared => "receipt-disappeared" end;
  lits := [block_hash_mismatch; receipt_disappeared] |}.

Inductive CanonicalityUnavailable :=
| finality_not_configured | finality_rpc_unavailable | finality_provider_disagreement
| archive_unavailable.
#[export] Instance CanonicalityUnavailable_literal : Literal CanonicalityUnavailable := {|
  lit r := match r with finality_not_configured => "finality-verifier-not-configured"
           | finality_rpc_unavailable => "rpc-unavailable"
           | finality_provider_disagreement => "provider-disagreement"
           | archive_unavailable => "archive-state-unavailable" end;
  lits := [finality_not_configured; finality_rpc_unavailable; finality_provider_disagreement;
           archive_unavailable] |}.

Inductive CanonicalityResult :=
| verified_finalized (transactionHash : string) (anchor : FinalizedBlockAnchor)
| pending_finality (transactionHash : string) (chainId : Z)
    (candidateBlockNumber candidateBlockHash : string)
| orphaned (transactionHash : string) (chainId : Z) (formerBlockNumber formerBlockHash : string)
    (reasonCode : OrphanReason)
| unavailable_finality (transactionHash : string) (chainId : Z) (reasonCode : CanonicalityUnavailable).

Definition parseFinalityPolicy (value : unknown) : result FinalityPolicy :=
  record ← expectExactRecord value
    ["kind"; "policyId"; "chainId"; "blockTag"; "minimumProviderQuorum"; "requireBlockHashAgreement";
     "requireArchiveStateAtReceiptBlock"; "allowConfirmationFallback"; "safeHeadUse"; "onReorg"];
  refuse_if (negb (isString record.["kind"] "juicebox-finality-policy.v1")
             || negb (isString record.["blockTag"] "finalized")
             || negb (isTrue record.["requireBlockHashAgreement"])
             || negb (isTrue record.["requireArchiveStateAtReceiptBlock"])
             || negb (isFalse record.["allowConfirmationFallback"])
             || negb (isString record.["safeHeadUse"] "suspend-existing-authority-only")
             || negb (isString record.["onReorg"] "revoke-leases-and-rekey"));;
  match record.["minimumProviderQuorum"] with
  | VNumber (NInt quorum) =>
      refuse_if (negb (isSafeInteger (NInt quorum)) || (quorum <? 1) || (5 <? quorum));;
      policyId ← parseAuthorityId record.["policyId"];
      chainId ← parseJuiceboxV6ChainId record.["chainId"];
      Ok {| fp_policyId := policyId; fp_chainId := chainId; fp_minimumProviderQuorum := quorum |}
  | _ => invalid
  end.

Definition parseProviderIds (value : unknown) : result (list (option string)) :=
  match value with
  | VArray _ elems _ =>
      refuse_if ((Z.of_nat (length elems) <? 1) || (5 <? Z.of_nat (length elems)));;
      providerIds ← mapArray parseAuthorityId elems;
      refuse_if (hasDuplicates providerIds);;
      refuse_if (isUnsorted providerIds);;
      Ok providerIds
  | _ => invalid
  end.

Definition parseFinalizedBlockAnchor (value : unknown) (policy : FinalityPolicy) (now : string) :
  result FinalizedBlockAnchor :=
  record ← expectExactRecord value
    ["kind"; "chainId"; "blockNumber"; "blockHash"; "finalizedAt"; "providerIds"];
  refuse_if (negb (isString record.["kind"] "finalized-block.v1"));;
  chainId ← parseJuiceboxV6ChainId record.["chainId"];
  refuse_if (negb (chainId =? fp_chainId policy));;
  providerIds ← parseProviderIds record.["providerIds"];
  refuse_if (Z.of_nat (length providerIds) <? fp_minimumProviderQuorum policy);;
  finalizedAt ← parseCanonicalInstant record.["finalizedAt"];
  refuse_if (instantMilliseconds now <? instantMilliseconds finalizedAt);;
  blockNumber ← parseUint256Decimal record.["blockNumber"];
  blockHash ← parseHash32 record.["blockHash"];
  Ok {| ab_chainId := chainId; ab_blockNumber := blockNumber; ab_blockHash := blockHash;
        ab_finalizedAt := finalizedAt; ab_providerIds := providerIds |}.

Definition expectTransactionHash (value : unknown) (expected : string) : result string :=
  transactionHash ← parseHash32 value;
  refuse_if (transactionHash !== expected);;
  Ok transactionHash.

Definition expectPolicyChain (value : unknown) (policy : FinalityPolicy) : result Z :=
  chainId ← parseJuiceboxV6ChainId value;
  refuse_if (negb (chainId =? fp_chainId policy));;
  Ok chainId.

Definition parseCanonicalityResult (value : unknown) (policy : FinalityPolicy)
    (expectedTransactionHash now : string) : result CanonicalityResult :=
  r ← expectObject value;
  let status := r.["status"] in
  if isString status "verified-finalized" then
    record ← expectExactRecord value ["status"; "transactionHash"; "anchor"];
    transactionHash ← expectTransactionHash record.["transactionHash"] expectedTransactionHash;
    anchor ← parseFinalizedBlockAnchor record.["anchor"] policy now;
    Ok (verified_finalized transactionHash anchor)
  else if isString status "pending-finality" then
    record ← expectExactRecord value
      ["status"; "transactionHash"; "chainId"; "candidateBlockNumber"; "candidateBlockHash";
       "reasonCode"];
    refuse_if (negb (isString record.["reasonCode"] "receipt-above-finalized-head"));;
    transactionHash ← expectTransactionHash record.["transactionHash"] expectedTransactionHash;
    chainId ← expectPolicyChain record.["chainId"] policy;
    candidateBlockNumber ← parseUint256Decimal record.["candidateBlockNumber"];
    candidateBlockHash ← parseHash32 record.["candidateBlockHash"];
    Ok (pending_finality transactionHash chainId candidateBlockNumber candidateBlockHash)
  else if isString status "orphaned" then
    record ← expectExactRecord value
      ["status"; "transactionHash"; "chainId"; "formerBlockNumber"; "formerBlockHash"; "reasonCode";
       "requiredAction"];
    reasonCode ← parseLiteral record.["reasonCode"];
    refuse_if (negb (isString record.["requiredAction"] "revoke-leases-and-rekey"));;
    transactionHash ← expectTransactionHash record.["transactionHash"] expectedTransactionHash;
    chainId ← expectPolicyChain record.["chainId"] policy;
    formerBlockNumber ← parseUint256Decimal record.["formerBlockNumber"];
    formerBlockHash ← parseHash32 record.["formerBlockHash"];
    Ok (orphaned transactionHash chainId formerBlockNumber formerBlockHash reasonCode)
  else if isString status "unavailable" then
    record ← expectExactRecord value ["status"; "transactionHash"; "chainId"; "reasonCode"];
    reasonCode ← parseLiteral record.["reasonCode"];
    transactionHash ← expectTransactionHash record.["transactionHash"] expectedTransactionHash;
    chainId ← expectPolicyChain record.["chainId"] policy;
    Ok (unavailable_finality transactionHash chainId reasonCode)
  else invalid.

(** ** Wallet signatures *)

Definition ERC1271_MAGIC_VALUE : string := "0x1626ba7e".
Definition ERC1271_CANONICAL_ABI_RETURN : string :=
  "0x1626ba7e" +:+ text (repeat "0"%char 56).
Definition ERC6492_DETECTION_SUFFIX : string :=
  "0x6492649264926492649264926492649264926492649264926492649264926492".

Record WalletSignatureSubmission := { ws_challengeId : string; ws_signature : string }.

Record VerifiedSignatureBase := {
  vs_challengeId : string; vs_account : string; vs_chainId : Z; vs_digest : string;
  vs_verifiedAt : string }.

Inductive AttemptedMethod := attempted_eoa | attempted_erc1271 | attempted_erc6492 | not_dispatched.
#[export] Instance AttemptedMethod_eq_dec : EqDecision AttemptedMethod.
Proof. solve_decision. Defined.
#[export] Instance AttemptedMethod_literal : Literal AttemptedMethod := {|
  lit m := match m with attempted_eoa => "eoa" | attempted_erc1271 => "erc1271"
           | attempted_erc6492 => "erc6492" | not_dispatched => "not-dispatched" end;
  lits := [attempted_eoa; attempted_erc1271; attempted_erc6492; not_dispatched] |}.

Inductive InvalidSignatureReason :=
| signature_mismatch | wrong_magic_value | validation_returned_false | malformed_signature.
#[export] Instance InvalidSignatureReason_literal : Literal InvalidSignatureReason := {|
  lit r := match r with signature_mismatch => "signature-mismatch"
           | wrong_magic_value => "wrong-erc1271-magic-value"
           | validation_returned_false => "erc6492-validation-returned-false"
           | malformed_signature => "malformed-signature" end;
  lits := [signature_mismatch; wrong_magic_value; validation_returned_false; malformed_signature] |}.

Inductive SignatureUnavailable :=
| signature_not_configured | signature_rpc_unavailable | contract_call_reverted
| simulation_unavailable | signature_provider_disagreement | malformed_verifier_response.
#[export] Instance SignatureUnavailable_literal : Literal SignatureUnavailable := {|
  lit r := match r with signature_not_configured => "signature-verifier-not-configured"
           | signature_rpc_unavailable => "rpc-unavailable"
           | contract_call_reverted => "contract-call-reverted"
           | simulation_unavailable => "counterfactual-simulation-unavailable"
           | signature_provider_disagreement => "provider-disagreement"
           | malformed_verifier_response => "malformed-verifier-response" end;
  lits := [signature_not_configured; signature_rpc_unavailable; contract_call_reverted;
           simulation_unavailable; signature_provider_disagreement; malformed_verifier_response] |}.

(** Evidence of a contract signature: the finalized block it was checked at. *)
Inductive WalletSignatureVerificationResult :=
| verified_eoa (base : VerifiedSignatureBase)
| verified_erc1271 (base : VerifiedSignatureBase) (block : FinalizedBlockAnchor)
| verified_erc6492 (base : VerifiedSignatureBase) (simulationBlock : FinalizedBlockAnchor)
| signature_invalid (challengeId : string) (attemptedMethod : AttemptedMethod)
    (reasonCode : InvalidSignatureReason)
| signature_unavailable (challengeId : string) (attemptedMethod : AttemptedMethod)
    (reasonCode : SignatureUnavailable).

Record SignatureVerificationExpectations := {
  se_challengeId : string; se_account : string; se_chainId : Z; se_digest : string; se_now : string }.

Definition parseWalletSignatureSubmission (value : unknown) : result WalletSignatureSubmission :=
  record ← expectExactRecord value ["kind"; "challengeId"; "signature"];
  refuse_if (negb (isString record.["kind"] "wallet-signature-submission.v1"));;
  challengeId ← parseAuthorityId record.["challengeId"];
  signature ← parseHexBytes record.["signature"] 64 (16 * 1024);
  Ok {| ws_challengeId := challengeId; ws_signature := signature |}.

Definition parseAttemptedMethod (value : unknown) (allowUndispatched : bool) : result AttemptedMethod :=
  method ← parseLiteral value;
  refuse_if (negb allowUndispatched && (method === not_dispatched));;
  Ok method.

Definition parseVerified (value : unknown) (policy : FinalityPolicy)
    (expected : SignatureVerificationExpectations) : result WalletSignatureVerificationResult :=
  record ← expectExactRecord value
    ["status"; "method"; "challengeId"; "account"; "chainId"; "digest"; "verifiedAt";
     "chainEvidence"];
  challengeId ← parseAuthorityId record.["challengeId"];
  account ← parseAddress record.["account"];
  chainId ← parseJuiceboxV6ChainId record.["chainId"];
  digest ← parseHash32 record.["digest"];
  verifiedAt ← parseCanonicalInstant record.["verifiedAt"];
  let base := {| vs_challengeId := challengeId; vs_account := account; vs_chainId := chainId;
                 vs_digest := digest; vs_verifiedAt := verifiedAt |} in
  refuse_if (negb (vs_chainId base =? fp_chainId policy));;
  refuse_if ((vs_challengeId base !== se_challengeId expected)
             || (vs_account base !== se_account expected)
             || negb (vs_chainId base =? se_chainId expected)
             || (vs_digest base !== se_digest expected)
             || (instantMilliseconds (se_now expected) <? instantMilliseconds (vs_verifiedAt base)));;
  if isString record.["method"] "eoa" then
    refuse_if (negb (isNull record.["chainEvidence"]));;
    Ok (verified_eoa base)
  else if isString record.["method"] "erc1271" then
    evidence ← expectExactRecord record.["chainEvidence"]
      ["standard"; "returnedMagicValue"; "canonicalReturnData"; "block"];
    refuse_if (negb (isString evidence.["standard"] "erc1271")
               || negb (isString evidence.["returnedMagicValue"] ERC1271_MAGIC_VALUE)
               || negb (isString evidence.["canonicalReturnData"] ERC1271_CANONICAL_ABI_RETURN));;
    block ← parseFinalizedBlockAnchor evidence.["block"] policy (se_now expected);
    Ok (verified_erc1271 base block)
  else if isString record.["method"] "erc6492" then
    evidence ← expectExactRecord record.["chainEvidence"]
      ["standard"; "detectionSuffix"; "simulationBlock"; "sideEffectsPersisted"];
    refuse_if (negb (isString evidence.["standard"] "erc6492")
               || negb (isString evidence.["detectionSuffix"] ERC6492_DETECTION_SUFFIX)
               || negb (isFalse evidence.["sideEffectsPersisted"]));;
    simulationBlock ← parseFinalizedBlockAnchor evidence.["simulationBlock"] policy (se_now expected);
    Ok (verified_erc6492 base simulationBlock)
  else invalid.

Definition parseWalletSignatureVerificationResult (value : unknown) (policy : FinalityPolicy)
    (expected : SignatureVerificationExpectations) : result WalletSignatureVerificationResult :=
  r ← expectObject value;
  let status := r.["status"] in
  if isString status "verified" then parseVerified value policy expected
  else if isString status "invalid" then
    record ← expectExactRecord value ["status"; "challengeId"; "attemptedMethod"; "reasonCode"];
    attemptedMethod ← parseAttemptedMethod record.["attemptedMethod"] false;
    reasonCode ← parseLiteral record.["reasonCode"];
    challengeId ← parseAuthorityId record.["challengeId"];
    refuse_if (challengeId !== se_challengeId expected);;
    Ok (signature_invalid challengeId attemptedMethod reasonCode)
  else if isString status "unavailable" then
    record ← expectExactRecord value ["status"; "challengeId"; "attemptedMethod"; "reasonCode"];
    attemptedMethod ← parseAttemptedMethod record.["attemptedMethod"] true;
    reasonCode ← parseLiteral record.["reasonCode"];
    challengeId ← parseAuthorityId record.["challengeId"];
    refuse_if (challengeId !== se_challengeId expected);;
    Ok (signature_unavailable challengeId attemptedMethod reasonCode)
  else invalid.

Ltac zbool :=
  repeat match goal with
  | H : (_ <? _) = false |- _ => apply Z.ltb_ge in H
  | H : (_ <=? _) = true |- _ => apply Z.leb_le in H
  | H : (_ =? _) = true |- _ => apply Z.eqb_eq in H
  end.

(** ** Anchors *)

(** Named providers in code-unit order, and perhaps a hole behind them. *)
Lemma sorted_providers ids :
  hasDuplicates ids = false → isUnsorted ids = false →
  ∃ names, StronglySorted (λ s t, slt s t = true) names ∧ (ids = map Some names ∨ ids = map Some names ++ [None]).
Proof.
  unfold hasDuplicates, isUnsorted. intros HD%negb_false_iff%bool_decide_eq_true HS%negb_false_iff%bool_decide_eq_true.
  unfold sortStrings in HS. set (names := sort_by sle (omap id ids)) in HS. exists names.
  assert (HN : List.filter (λ o : option string, negb (bool_decide (is_Some o))) ids = [] ∨
               List.filter (λ o : option string, negb (bool_decide (is_Some o))) ids = [None]).
  { assert (HF : NoDup (List.filter (λ o : option string, negb (bool_decide (is_Some o))) ids)).
    { clear HS names. induction HD as [|o ids Hn _ IH]; cbn; [constructor|]. destruct (negb _); [|done].
      constructor; [|done]. intros Hin%list_elem_of_In. apply filter_In in Hin as [Hin%list_elem_of_In _]. done. }
    assert (HA : Forall (λ o, o = None) (List.filter (λ o : option string, negb (bool_decide (is_Some o))) ids)).
    { apply Forall_forall. intros o Ho%list_elem_of_In. apply filter_In in Ho as [_ Ho]. destruct o; [|done].
      by rewrite bool_decide_eq_true_2 in Ho. }
    revert HF HA. generalize (List.filter (λ o : option string, negb (bool_decide (is_Some o))) ids). intros l HF HA.
    destruct l as [|o [|o' l]]; [by left|right|exfalso].
    - apply Forall_cons in HA as [-> _]. done.
    - apply Forall_cons in HA as [-> HA]. apply Forall_cons in HA as [-> _].
      apply NoDup_cons in HF as [HF _]. apply HF. left. }
  split.
  - rewrite <- (map_id names). unfold names. apply (sort_by_strict (λ s : string, s)). rewrite map_id.
    clear HS HN names. induction HD as [|[s|] ids Hn _ IH]; cbn; [constructor| |done].
    constructor; [|done]. intros (o & Ho & E)%list_elem_of_omap. apply Hn. cbn in E. by rewrite <- E.
  - destruct HN as [HN|HN]; rewrite HN in HS; [left|right]; [by rewrite app_nil_r in HS|done].
Qed.

Definition valid_anchor (a : FinalizedBlockAnchor) : bool :=
  bool_decide (ab_chainId a ∈ CHAIN_IDS) && is_uint256 (ab_blockNumber a)
  && is_lower_hex 64 (ab_blockHash a) && canonicalInstant (ab_finalizedAt a)
  && forallb (λ o, match o with Some s => AUTHORITY_ID s | None => true end) (ab_providerIds a)
  && negb (hasDuplicates (ab_providerIds a)) && negb (isUnsorted (ab_providerIds a))
  && (1 <=? Z.of_nat (length (ab_providerIds a))) && (Z.of_nat (length (ab_providerIds a)) <=? 5).

Lemma mapArray_length {A} (f : unknown → result A) elems xs : mapArray f elems = Ok xs → length xs = length elems.
Proof. unfold mapArray. intros H%mapR_Ok%Forall2_length. done. Qed.

Lemma mapArray_ids elems xs :
  mapArray parseAuthorityId elems = Ok xs →
  forallb (λ o, match o with Some s => AUTHORITY_ID s | None => true end) xs = true.
Proof.
  unfold mapArray. rewrite mapR_Ok. intros H. apply forallb_forall. intros o Ho%list_elem_of_In.
  apply list_elem_of_lookup in Ho as [i Hi]. destruct (Forall2_lookup_r _ _ _ _ _ H Hi) as (o' & _ & E).
  destruct o' as [v|]; [|by injection E as <-]. destruct (parseAuthorityId v) as [s|] eqn:Es; [|done].
  injection E as <-. by apply parseAuthorityId_Ok in Es as [_ Es].
Qed.

Lemma parseAnchor_Ok v policy now a :
  parseFinalizedBlockAnchor v policy now = Ok a →
  valid_anchor a = true ∧ ab_chainId a = fp_chainId policy ∧
  fp_minimumProviderQuorum policy <= Z.of_nat (length (ab_providerIds a)) ∧
  Date_parse (ab_finalizedAt a) <= Date_parse now.
Proof.
  unfold parseFinalizedBlockAnchor. intros H. inv_auth. subst a. cbn.
  apply parseChainId_Ok in Hx1 as [_ H1]. apply parseCanonicalInstant_Ok in Hx5 as [_ H5].
  apply parseUint256Decimal_Ok in Hx7 as [_ H7]. apply authorityHash32_Ok in Hx8.
  destruct (x.["providerIds"]) as [| | | | | | | | |p elems e|]; try discriminate Hx3. cbn in Hx3. inv_auth. subst.
  apply Z.ltb_ge in Hx4, Hx6. apply negb_false_iff, Z.eqb_eq in Hx2. unfold instantMilliseconds in Hx6.
  split_and!; [|done|lia|done]. unfold valid_anchor; cbn [ab_chainId ab_blockNumber ab_blockHash ab_finalizedAt ab_providerIds].
  rewrite bool_decide_eq_true_2, H7, Hx8, H5 by done. cbn [andb].
  pose proof (mapArray_length _ _ _ Hx5) as HL. rewrite (mapArray_ids _ _ Hx5), Hx7, Hx9, HL. bsimp. zbool.
  cbn [negb andb]. rewrite !(proj2 (Z.leb_le _ _)) by lia. done.
Qed.

(** An anchor is of the policy's chain, not from the future, and backed by a
    quorum of distinct providers in canonical order; one hole behind the named
    providers may count as one of them. *)
Theorem anchor_quorum v policy now a :
  parseFinalizedBlockAnchor v policy now = Ok a →
  ab_chainId a = fp_chainId policy ∧ Date_parse (ab_finalizedAt a) <= Date_parse now ∧
  ∃ names, StronglySorted (λ s t, slt s t = true) names ∧
    (ab_providerIds a = map Some names ∧ fp_minimumProviderQuorum policy <= Z.of_nat (length names) <= 5 ∨
     ab_providerIds a = map Some names ++ [None] ∧
     fp_minimumProviderQuorum policy <= Z.of_nat (length names) + 1 <= 5).
Proof.
  intros (HV & HC & HQ & HT)%parseAnchor_Ok. split_and!; [done..|]. unfold valid_anchor in HV. split_orb.
  destruct (sorted_providers (ab_providerIds a)) as (names & HS & HE); [done..|]. exists names. split; [done|].
  destruct HE as [E|E]; [left|right]; rewrite E in *; (split; [done|]);
    rewrite ?length_app, ?length_map in *; cbn [length] in *; zbool; lia.
Qed.

Definition anchor_obj (a : FinalizedBlockAnchor) : unknown :=
  obj [("kind", VString "finalized-block.v1"); ("chainId", VInt (ab_chainId a));
       ("blockNumber", VString (ab_blockNumber a)); ("blockHash", VString (ab_blockHash a));
       ("finalizedAt", VString (ab_finalizedAt a));
       ("providerIds", VArray ArrayPrototype (map (fmap VString) (ab_providerIds a)) 0)].

Lemma mapArray_ids_id xs :
  forallb (λ o, match o with Some s => AUTHORITY_ID s | None => true end) xs = true →
  mapArray parseAuthorityId (map (fmap VString) xs) = Ok xs.
Proof.
  intros H. apply mapR_Ok. rewrite forallb_forall in H. induction xs as [|o xs IH]; cbn; constructor.
  - specialize (H o (or_introl eq_refl)). destruct o as [s|]; [|done]. cbn [fmap option_fmap option_map].
    by rewrite (proj2 (parseAuthorityId_Ok _ s)).
  - apply IH. intros o' Ho'. apply H. by right.
Qed.

Lemma parseAnchor_obj policy now a :
  valid_anchor a = true → ab_chainId a = fp_chainId policy →
  fp_minimumProviderQuorum policy <= Z.of_nat (length (ab_providerIds a)) →
  Date_parse (ab_finalizedAt a) <= Date_parse now →
  parseFinalizedBlockAnchor (anchor_obj a) policy now = Ok a.
Proof.
  unfold valid_anchor. intros HV HC HQ HT. bsimp. unfold parseFinalizedBlockAnchor, anchor_obj.
  remember (VArray ArrayPrototype (map (fmap VString) (ab_providerIds a)) 0) as ids eqn:Ei.
  assert (HU : isUndefined ids = false) by (by subst ids). open_record. subst ids. cbn [isString]. rewrite bool_decide_eq_true_2 by done.
  cbn [negb refuse_if throw_if mbind result_bind].
  rewrite (proj2 (parseChainId_Ok _ (ab_chainId a))) by done. cbn [mbind result_bind].
  rewrite HC, Z.eqb_refl. cbn [negb refuse_if throw_if mbind result_bind]. unfold parseProviderIds. rewrite length_map.
  rewrite !(proj2 (Z.ltb_ge _ _)) by lia. cbn [orb refuse_if throw_if mbind result_bind].
  rewrite mapArray_ids_id by done. cbn [mbind result_bind].
  repeat match goal with H : hasDuplicates _ = false |- _ => rewrite H; clear H | H : isUnsorted _ = false |- _ => rewrite H; clear H end.
  cbn [refuse_if throw_if mbind result_bind]. rewrite (proj2 (Z.ltb_ge _ _)) by lia.
  cbn [refuse_if throw_if mbind result_bind]. rewrite (proj2 (parseCanonicalInstant_Ok _ (ab_finalizedAt a))) by done.
  cbn [mbind result_bind]. unfold instantMilliseconds. rewrite (proj2 (Z.ltb_ge _ _)) by lia.
  cbn [refuse_if throw_if mbind result_bind]. rewrite (proj2 (parseUint256Decimal_Ok _ (ab_blockNumber a))) by done.
  cbn [mbind result_bind]. rewrite parseHash32_id by done. cbn [mbind result_bind]. rewrite <- HC. by destruct a.
Qed.

(** ** Signatures are about what was asked *)

Lemma parseAttemptedMethod_dispatched v m : parseAttemptedMethod v false = Ok m → m ≠ not_dispatched.
Proof. unfold parseAttemptedMethod. cbn [negb andb]. intros H. inv_auth. subst. by bsimp. Qed.

(** A verified signature is of the expected account, chain, digest and
    challenge and was not verified in the future; a contract's signature was
    checked at a finalized block of that chain; and no result, of whatever
    kind, belongs to another challenge. *)
Theorem signature_result_bound v policy expected r :
  parseWalletSignatureVerificationResult v policy expected = Ok r →
  let bound base :=
    base = {| vs_challengeId := se_challengeId expected; vs_account := se_account expected;
              vs_chainId := se_chainId expected; vs_digest := se_digest expected;
              vs_verifiedAt := vs_verifiedAt base |} ∧
    se_chainId expected = fp_chainId policy ∧
    Date_parse (vs_verifiedAt base) <= Date_parse (se_now expected) in
  let anchored block :=
    valid_anchor block = true ∧ ab_chainId block = se_chainId expected ∧
    Date_parse (ab_finalizedAt block) <= Date_parse (se_now expected) in
  match r with
  | verified_eoa base => bound base
  | verified_erc1271 base block | verified_erc6492 base block => bound base ∧ anchored block
  | signature_invalid challengeId method _ => challengeId = se_challengeId expected ∧ method ≠ not_dispatched
  | signature_unavailable challengeId _ _ => challengeId = se_challengeId expected
  end.
Proof.
  intros H bound anchored. unfold parseWalletSignatureVerificationResult in H. apply bind_Ok in H as (rec & _ & H). cbv zeta in H.
  destruct (isString _ "verified").
  - unfold parseVerified in H. cbv zeta in H.
    apply bind_Ok in H as (rc & _ & H). apply bind_Ok in H as (cid & _ & H). apply bind_Ok in H as (acc & _ & H).
    apply bind_Ok in H as (ch & _ & H). apply bind_Ok in H as (dg & _ & H). apply bind_Ok in H as (vat & _ & H).
    apply bind_Ok in H as (u1 & H1%refuse_if_Ok%negb_false_iff%Z.eqb_eq & H).
    apply bind_Ok in H as (u2 & H2%refuse_if_Ok & H). bsimp. cbn in *. apply Z.ltb_ge in H0.
    match goal with H : (_ =? _) = true |- _ => apply Z.eqb_eq in H end. subst cid acc ch dg.
    match type of H with context [verified_eoa ?b] => assert (HB : bound b) by (unfold bound; cbn; split_and!; [by rewrite <- H4|by rewrite H4|by unfold instantMilliseconds in *]) end.
    destruct (isString _ "eoa"); [inv_auth; by subst r|].
    destruct (isString _ "erc1271"); [|destruct (isString _ "erc6492"); [|done]]; inv_auth; subst r;
      (match goal with H : parseFinalizedBlockAnchor _ _ _ = Ok _ |- _ => apply parseAnchor_Ok in H as (? & ? & _ & ?) end);
      (split; [exact HB|]); unfold anchored; split_and!; congruence || done.
  - destruct (isString _ "invalid"); [|destruct (isString _ "unavailable"); [|done]]; inv_auth; bsimp; subst r.
    + split; [done|]. by eapply parseAttemptedMethod_dispatched.
    + done.
Qed.

(** ** Samples *)

Definition sample_hex (n : nat) (c : ascii) : string := "0x" +:+ text (repeat c n).

Definition sample_policy : FinalityPolicy :=
  {| fp_policyId := "policy"; fp_chainId := 8453; fp_minimumProviderQuorum := 2 |}.

Definition sample_anchor : FinalizedBlockAnchor :=
  {| ab_chainId := 8453; ab_blockNumber := "1024"; ab_blockHash := sample_hex 64 "b"%char;
     ab_finalizedAt := "2026-01-01T00:00:00.000Z"; ab_providerIds := [Some "alchemy"; Some "quicknode"] |}.

(** One provider and a hole. *)
Definition sparse_anchor : FinalizedBlockAnchor :=
  {| ab_chainId := 8453; ab_blockNumber := "1024"; ab_blockHash := sample_hex 64 "b"%char;
     ab_finalizedAt := "2026-01-01T00:00:00.000Z"; ab_providerIds := [Some "alchemy"; None] |}.

Definition sample_signature_expectation : SignatureVerificationExpectations :=
  {| se_challengeId := "challenge"; se_account := sample_hex 40 "a"%char; se_chainId := 8453;
     se_digest := sample_hex 64 "d"%char; se_now := "2026-01-01T00:05:00.000Z" |}.

Definition sample_signature_result : unknown :=
  obj [("status", VString "verified"); ("method", VString "erc1271");
       ("challengeId", VString "challenge"); ("account", VString (sample_hex 40 "A"%char));
       ("chainId", VInt 8453); ("digest", VString (sample_hex 64 "d"%char));
       ("verifiedAt", VString "2026-01-01T00:04:00.000Z");
       ("chainEvidence",
        obj [("standard", VString "erc1271"); ("returnedMagicValue", VString ERC1271_MAGIC_VALUE);
             ("canonicalReturnData", VString ERC1271_CANONICAL_ABI_RETURN);
             ("block", anchor_obj sample_anchor)])].

(** The quorum of two is met by one provider and a hole. *)
Lemma anchor_quorum_witness :
  (parseFinalizedBlockAnchor (anchor_obj sparse_anchor) sample_policy "2026-01-01T00:05:00.000Z"
   = Ok sparse_anchor) ∧
  fp_minimumProviderQuorum sample_policy = 2 ∧
  (ab_chainId sparse_anchor = fp_chainId sample_policy ∧
   Date_parse (ab_finalizedAt sparse_anchor) <= Date_parse "2026-01-01T00:05:00.000Z" ∧
   ∃ names, StronglySorted (λ s t, slt s t = true) names ∧
     (ab_providerIds sparse_anchor = map Some names ∧
      fp_minimumProviderQuorum sample_policy <= Z.of_nat (length names) <= 5 ∨
      ab_providerIds sparse_anchor = map Some names ++ [None] ∧
      fp_minimumProviderQuorum sample_policy <= Z.of_nat (length names) + 1 <= 5)).
Proof.
  assert (H : parseFinalizedBlockAnchor (anchor_obj sparse_anchor) sample_policy "2026-01-01T00:05:00.000Z"
              = Ok sparse_anchor) by (vm_compute; reflexivity).
  split; [exact H|]. split; [reflexivity|]. exact (anchor_quorum _ _ _ _ H).
Defined.

Lemma signature_result_bound_witness :
  ∃ base,
    (parseWalletSignatureVerificationResult sample_signature_result sample_policy sample_signature_expectation
     = Ok (verified_erc1271 base sample_anchor)) ∧
    vs_account base = se_account sample_signature_expectation ∧
    ab_chainId sample_anchor = se_chainId sample_signature_expectation.
Proof.
  set (base := {| vs_challengeId := "challenge"; vs_account := sample_hex 40 "a"%char; vs_chainId := 8453;
                  vs_digest := sample_hex 64 "d"%char; vs_verifiedAt := "2026-01-01T00:04:00.000Z" |}).
  exists base.
  assert (H : parseWalletSignatureVerificationResult sample_signature_result sample_policy sample_signature_expectation
              = Ok (verified_erc1271 base sample_anchor)) by (vm_compute; reflexivity).
  split; [exact H|].
  destruct (signature_result_bound _ _ _ _ H) as [(HB & _) (_ & HC & _)].
  split; [by rewrite HB|exact HC].
Defined.
