(* ===== verification/AuthorityDigests.v ===== *)
(** * What an authority digest determines

    Lemmas shared by the authority components: two dense values with one
    [sha256AuthorityDigest] denote one JSON value, or exhibit a SHA-256
    collision, and an object literal denotes what its fields do. *)

From stdpp Require Import base list strings.
From Stdlib Require Import ZArith Lia Ascii.
From S2P Require Import Prelude Sha256 Base64Url JsTime JsValue ValueObjects Hashes CanonicalJson AuthorityValues AuthorityFinality.

(** ** Objects *)

Lemma toJson_obj fields :
  toJson (obj fields)
  = JObject <$> mapM (λ '(k, o), pair k <$> o) (sortKeys (map (λ '(k, v), (k, toJson v)) fields)).
Proof.
  unfold obj. cbn [toJson]. rewrite bool_decide_eq_true_2 by done. cbn [orb].
  assert (enumerable toJson None (map (λ '(k, v), (KString k, DData v true)) fields)
          = map (λ '(k, v), (k, toJson v)) fields) as ->; [|done].
  induction fields as [|[k v] fields IH]; [done|]. cbn. by rewrite <- IH.
Qed.

Lemma members_Some ms js :
  mapM (λ '(k, o), pair k <$> o) ms = Some js → ms = map (λ '(k, j), (k, Some j)) (js : list (string * json)).
Proof.
  intros HF%mapM_Some. induction HF as [|[k [j|]] [k' j'] ms js E _ IH]; [done| |done].
  injection E as -> ->. by rewrite IH.
Qed.

(** Two associations with the same keys in the same order. *)
Lemma assoc_perm_eq {A} (xs ys : list (string * A)) :
  NoDup (map fst xs) → map fst xs = map fst ys → xs ≡ₚ ys → xs = ys.
Proof.
  intros HN HK HP. apply list_eq. intros i.
  destruct (xs !! i) as [[k x]|] eqn:EX.
  - assert (HL : (i < length ys)%nat).
    { rewrite <- (Permutation_length HP). by eapply lookup_lt_Some. }
    destruct (lookup_lt_is_Some_2 ys i HL) as [[k' y] EY]. rewrite EY.
    assert (k' = k) as ->.
    { apply (f_equal (.!! i)) in HK. change (xs.*1 !! i = ys.*1 !! i) in HK.
      rewrite !list_lookup_fmap, EX, EY in HK. by injection HK. }
    assert (HI : (k, y) ∈ xs) by (rewrite HP; by eapply list_elem_of_lookup_2).
    apply list_elem_of_lookup in HI as [j Ej].
    assert (i = j) as <-.
    { eapply NoDup_lookup; [exact HN| |]; change (map fst xs) with (xs.*1); rewrite list_lookup_fmap.
      - by rewrite EX.
      - by rewrite Ej. }
    congruence.
  - symmetry. apply lookup_ge_None in EX. apply lookup_ge_None. by rewrite <- (Permutation_length HP).
Qed.

Lemma toJson_obj_inj fields fields' j :
  NoDup (map fst fields) → map fst fields = map fst fields' →
  toJson (obj fields) = Some j → toJson (obj fields') = Some j →
  Forall2 (λ f g, toJson f.2 = toJson g.2 ∧ is_Some (toJson f.2)) fields fields'.
Proof.
  intros HN HK. rewrite !toJson_obj. intros H1 H2.
  destruct (mapM _ (sortKeys (map _ fields))) as [ms|] eqn:E1; [|done]. cbn in H1. injection H1 as <-.
  destruct (mapM _ (sortKeys (map _ fields'))) as [ms'|] eqn:E2; [|done]. cbn in H2. injection H2 as ->. 
  apply members_Some in E1, E2.
  assert (HM : ∀ fs : list (string * unknown), map fst (map (λ '(k, v), (k, toJson v)) fs) = map fst fs).
  { intros fs. rewrite map_map. apply map_ext. by intros []. }
  assert (HE : map (λ '(k, v), (k, toJson v)) fields = map (λ '(k, v), (k, toJson v)) fields').
  { apply assoc_perm_eq; [by rewrite HM|by rewrite !HM|].
    rewrite <- (sortKeys_perm (map _ fields)), E1, <- E2. apply sortKeys_perm. }
  assert (HS : Forall (λ m, is_Some m.2) (map (λ '(k, v), (k, toJson v)) fields)).
  { rewrite <- (sortKeys_perm (map _ fields)), E1. apply Forall_map, Forall_forall. intros [k j'] _. by eexists. }
  clear -HE HS. revert fields' HE HS.
  induction fields as [|[k v] fields IH]; intros [|[k' v'] fields'] HE HS; try done.
  cbn in HE, HS. injection HE as -> Ev HE. apply Forall_cons in HS as [Hv HS]. constructor; [done|]. by apply IH.
Qed.

Lemma toJson_obj_keys fields fields' j :
  toJson (obj fields) = Some j → toJson (obj fields') = Some j → map fst fields ≡ₚ map fst fields'.
Proof.
  rewrite !toJson_obj. intros H1 H2.
  destruct (mapM _ (sortKeys (map _ fields))) as [ms|] eqn:E1; [|done]. cbn in H1. injection H1 as <-.
  destruct (mapM _ (sortKeys (map _ fields'))) as [ms'|] eqn:E2; [|done]. cbn in H2. injection H2 as ->.
  apply members_Some in E1, E2.
  assert (HM : ∀ fs : list (string * unknown), map fst (map (λ '(k, v), (k, toJson v)) fs) = map fst fs).
  { intros fs. rewrite map_map. apply map_ext. by intros []. }
  rewrite <- (HM fields), <- (HM fields'), <- (sortKeys_perm (map _ fields)), <- (sortKeys_perm (map _ fields')).
  by rewrite E1, E2.
Qed.

(** Two values that denote one JSON value. *)
Definition same_json (v w : unknown) : Prop := ∃ j, toJson v = Some j ∧ toJson w = Some j.

Lemma same_json_string s t : same_json (VString s) (VString t) ↔ s = t.
Proof. split; [by intros (j & [= <-] & [= ->])|intros ->; by eexists]. Qed.
Lemma same_json_int a b : same_json (VInt a) (VInt b) → a = b.
Proof.
  intros (j & Ha & Hb). unfold VInt in *. cbn [toJson] in *.
  destruct (isSafeInteger (NInt a)), (isSafeInteger (NInt b)); congruence.
Qed.
Lemma same_json_sym v w : same_json v w → same_json w v.
Proof. intros (j & H1 & H2). by exists j. Qed.

Lemma same_json_fields fields fields' :
  NoDup (map fst fields) → map fst fields = map fst fields' → same_json (obj fields) (obj fields') →
  Forall2 (λ f g, same_json f.2 g.2) fields fields'.
Proof.
  intros HN HK (j & H1 & H2). eapply Forall2_impl; [by eapply toJson_obj_inj|].
  intros f g [E [k Hk]]. exists k. split; [done|]. by rewrite <- E.
Qed.

Lemma same_json_keys fields fields' :
  same_json (obj fields) (obj fields') → map fst fields ≡ₚ map fst fields'.
Proof. intros (j & H1 & H2). by eapply toJson_obj_keys. Qed.

(** The values under one key. *)
Lemma same_json_get fields fields' k v w :
  NoDup (map fst fields') → same_json (obj fields) (obj fields') →
  (k, v) ∈ fields → (k, w) ∈ fields' → same_json v w.
Proof.
  intros HN (j & H1 & H2) Hv Hw. rewrite toJson_obj in *.
  destruct (mapM _ (sortKeys (map _ fields))) as [ms|] eqn:E1; [|done]. cbn in H1. injection H1 as <-.
  destruct (mapM _ (sortKeys (map _ fields'))) as [ms'|] eqn:E2; [|done]. cbn in H2. injection H2 as ->.
  apply members_Some in E1, E2.
  assert (HM : ∀ fs u, (k, u) ∈ fs → sortKeys (map (λ '(k, v), (k, toJson v)) fs) = map (λ '(k, j), (k, Some j)) ms →
                 ∃ j, toJson u = Some j ∧ (k, j) ∈ ms).
  { intros fs u Hu E. assert (HI : (k, toJson u) ∈ map (λ '(k, v), (k, toJson v)) fs)
      by (apply list_elem_of_fmap; by exists (k, u)).
    rewrite <- (sortKeys_perm (map _ fs)), E in HI. apply list_elem_of_fmap in HI as ([k' j] & [= -> ->] & HI). eauto. }
  destruct (HM _ _ Hv E1) as (j & Ej & Hj), (HM _ _ Hw E2) as (j' & Ej' & Hj').
  exists j. split; [done|]. rewrite Ej'. f_equal.
  assert (HD : NoDup (map fst ms)).
  { assert (HP : map fst ms = map fst (sortKeys (map (λ '(k, v), (k, toJson v)) fields'))).
    { rewrite E2, map_map. apply map_ext. by intros []. }
    rewrite HP, sortKeys_perm, map_map. erewrite map_ext; [exact HN|]. by intros []. }
  apply list_elem_of_lookup in Hj as [a Ha], Hj' as [b Hb].
  assert (a = b) as ->; [|congruence].
  eapply NoDup_lookup; [exact HD| |]; change (map fst ms) with (ms.*1); rewrite list_lookup_fmap; [by rewrite Ha|by rewrite Hb].
Qed.

Lemma same_json_nullable {A} (f : A → unknown) a b :
  (∀ x, toJson (f x) ≠ Some JNull) → (∀ x y, same_json (f x) (f y) → x = y) →
  same_json (nullable f a) (nullable f b) → a = b.
Proof.
  intros HN HI HS. destruct a as [a|], b as [b|]; [|exfalso..|done].
  - f_equal. by apply HI.
  - destruct HS as (j & H1 & [= <-]). by apply (HN a).
  - destruct HS as (j & [= <-] & H2). by apply (HN b).
Qed.
Lemma same_json_nullable_string a b : same_json (nullable VString a) (nullable VString b) → a = b.
Proof. apply same_json_nullable; [done|]. intros x y. apply same_json_string. Qed.

Lemma obj_not_null fields : toJson (obj fields) ≠ Some JNull.
Proof. rewrite toJson_obj. by destruct (mapM _ _). Qed.

(** Arrays with no hole, and objects of dense values. *)
Lemma dense_obj fields : dense (obj fields) = forallb (λ f, dense f.2) fields.
Proof.
  unfold dense at 1, obj. cbn [everywhere andb]. fold dense. unfold enumerable.
  induction fields as [|[k v] fields IH]; [done|]. cbn. f_equal. exact IH.
Qed.
Lemma dense_arr vs : dense (arr vs) = forallb dense vs.
Proof.
  unfold dense at 1, arr. cbn [everywhere]. fold dense.
  assert (forallb (λ o : option unknown, match o with Some _ => true | None => false end) (map Some vs) = true) as ->
    by (induction vs; done).
  cbn [andb]. induction vs as [|v vs IH]; [done|]. cbn. f_equal. exact IH.
Qed.
Lemma dense_nullable {A} (f : A → unknown) o : (∀ a, dense (f a) = true) → dense (nullable f o) = true.
Proof. intros HF. destruct o; [apply HF|done]. Qed.

Lemma same_json_array vs ws : same_json (arr vs) (arr ws) → Forall2 same_json vs ws.
Proof.
  intros (j & H1 & H2). unfold arr in *. cbn [toJson] in *.
  destruct (mapM _ (map Some vs)) as [js|] eqn:E1; [|done]. cbn in H1. injection H1 as <-.
  destruct (mapM _ (map Some ws)) as [js'|] eqn:E2; [|done]. cbn in H2. injection H2 as ->.
  revert ws js E1 E2. induction vs as [|v vs IH]; intros [|w ws] js; cbn.
  - constructor.
  - intros [= <-]. destruct (toJson w); [|done]. cbn. by destruct (mapM _ _).
  - destruct (toJson v); [|done]. cbn. destruct (mapM _ _); [|done]. by intros [= <-].
  - destruct (toJson v) as [a|] eqn:Ea; [|done]. cbn. destruct (mapM _ (map Some vs)) as [as_|] eqn:Eas; [|done].
    intros [= <-]. destruct (toJson w) as [b|] eqn:Eb; [|done]. cbn. destruct (mapM _ (map Some ws)) as [bs|] eqn:Ebs; [|done].
    intros [= -> ->]. constructor; [by exists a|]. by eapply IH.
Qed.

(** Splits [same_json] of two literals with the same keys into their fields. *)
Ltac same_fields H :=
  apply same_json_fields in H; [|by apply (bool_decide_unpack _); vm_compute|reflexivity];
  repeat match type of H with Forall2 _ (_ :: _) (_ :: _) =>
    let H' := fresh H in apply Forall2_cons in H as [H' H]; cbn [fst snd] in H' end; clear H;
  repeat match goal with
  | H' : same_json (VString _) (VString _) |- _ => apply same_json_string in H'
  | H' : same_json (VInt _) (VInt _) |- _ => apply same_json_int in H'
  | H' : same_json (nullable VString _) (nullable VString _) |- _ => apply same_json_nullable_string in H'
  end.

Lemma project_inj p q : same_json (project_obj p) (project_obj q) → p = q.
Proof. unfold project_obj. intros HS. same_fields HS. destruct p, q; cbn in *. congruence. Qed.

(** ** Digests *)

Lemma hex_digit_inj a b : 0 <= a < 16 → 0 <= b < 16 → hex_digit a = hex_digit b → a = b.
Proof.
  intros Ha Hb HE. assert (HC : ∀ z, 0 <= z < 16 → hex_value (hex_digit z) = z).
  { clear. intros z Hz. unfold hex_digit, hex_value.
    destruct (Z.ltb_spec z 10); unfold code; rewrite N_ascii_embedding, Z2N.id by lia;
      match goal with |- context [?x <? ?y] => destruct (Z.ltb_spec x y) end; lia. }
  rewrite <- (HC a Ha), <- (HC b Hb). by rewrite HE.
Qed.

Lemma hex_inj xs ys : hex xs = hex ys → xs = ys.
Proof.
  unfold hex. intros HE%text_inj. revert ys HE.
  induction xs as [|x xs IH]; intros [|y ys]; cbn; try done. intros [= H1 H2 HE].
  pose proof (Z_of_byte_bound x). pose proof (Z_of_byte_bound y). f_equal; [|by apply IH].
  apply hex_digit_inj in H1; [|split; [apply Z.div_pos|apply Z.div_lt_upper_bound]; lia..].
  apply hex_digit_inj in H2; [|apply Z.mod_pos_bound; lia..].
  apply Z_of_byte_inj. rewrite (Z.div_mod (Z_of_byte x) 16), (Z.div_mod (Z_of_byte y) 16) by lia. congruence.
Qed.

Lemma serialize_inj v w s :
  dense v = true → dense w = true → serialize v = Ok s → serialize w = Ok s →
  ∃ j, toJson v = Some j ∧ toJson w = Some j.
Proof.
  intros HV HW. rewrite !serialize_toJson by done. destruct (toJson v) as [j|]; [|done].
  destruct (toJson w) as [j'|]; [|done]. cbn. intros [= <-] [= HE].
  apply (f_equal (.++ [])) in HE. apply render_decodable in HE as [-> _]; [|done..]. by exists j.
Qed.

(** The bytes an authority digest is taken of. *)
Definition authorityPreimage (v : unknown) : bytes :=
  match canonicalAuthorityJson v with Ok s => utf8 s | Throw _ => [] end.

Lemma hex_chars bs :
  forallb is_hex (chars (hex bs)) = true ∧ length (chars (hex bs)) = (2 * length bs)%nat.
Proof.
  unfold hex, text. rewrite chars_of_list. induction bs as [|b bs [IH1 IH2]]; [done|].
  pose proof (Z_of_byte_bound b). cbn [flat_map app forallb length]. rewrite IH1, IH2.
  rewrite !hex_digit_range; [split; [done|lia]|apply Z.mod_pos_bound; lia|].
  split; [apply Z.div_pos|apply Z.div_lt_upper_bound]; lia.
Qed.

Section Binding.
Context `{Sha256}.

(** A digest is what [parseHash32] keeps. *)
Lemma authorityDigest_hash v d : sha256AuthorityDigest v = Ok d → parseHash32 (VString d) = Ok d.
Proof.
  unfold sha256AuthorityDigest. intros (j & _ & [= <-])%bind_Ok. apply parseHash32_id. unfold is_lower_hex.
  change (chars ("0x" +:+ hex (sha256 (utf8 j)))) with ("0"%char :: "x"%char :: chars (hex (sha256 (utf8 j)))).
  destruct (hex_chars (sha256 (utf8 j))) as [H1 H2]. rewrite H1, H2, sha256_length. done.
Qed.

Lemma stringHash f d v h :
  sha256AuthorityDigest v = Ok d → isString f d = true → parseHash32 f = Ok h → h = d.
Proof.
  intros Hd%authorityDigest_hash HS HP. destruct f; try discriminate. cbn [isString] in HS. bsimp. congruence.
Qed.

Lemma authorityDigest_inj v w d :
  dense v = true → dense w = true →
  sha256AuthorityDigest v = Ok d → sha256AuthorityDigest w = Ok d →
  (∃ j, toJson v = Some j ∧ toJson w = Some j) ∨ collision [authorityPreimage v] [authorityPreimage w].
Proof.
  intros HV HW. unfold sha256AuthorityDigest, authorityPreimage.
  destruct (canonicalAuthorityJson v) as [s|] eqn:Ev; [|done]. destruct (canonicalAuthorityJson w) as [t|] eqn:Ew; [|done].
  cbn [mbind result_bind]. intros [= <-] [= HE].
  assert (HD : sha256 (utf8 s) = sha256 (utf8 t)).
  { apply hex_inj. symmetry. exact HE. }
  destruct (decide (s = t)) as [->|Hne].
  - left. unfold canonicalAuthorityJson in Ev, Ew.
    destruct (serialize v) as [a|] eqn:Ea; [|done]. destruct (serialize w) as [b|] eqn:Eb; [|done].
    cbn in Ev, Ew. injection Ev as E1. injection Ew as E2. rewrite <- E2 in E1. apply text_inj in E1 as ->.
    by eapply serialize_inj.
  - right. exists (utf8 s), (utf8 t). split_and!; [by left|by left| |done]. by intros ?%utf8_inj.
Qed.

(** [sha256AuthorityDigest(a) !== sha256AuthorityDigest(b)]. *)
Definition refuse_digests (a b : unknown) : result unit :=
  left ← sha256AuthorityDigest a;
  right ← sha256AuthorityDigest b;
  refuse_if (left !== right).

Lemma refuse_digests_Ok a b u :
  dense a = true → dense b = true → refuse_digests a b = Ok u →
  same_json a b ∨ collision [authorityPreimage a] [authorityPreimage b].
Proof.
  unfold refuse_digests. intros Ha Hb (s & Hs & (t & Ht & HE%refuse_if_Ok)%bind_Ok)%bind_Ok. bsimp. subst t.
  by eapply authorityDigest_inj.
Qed.
End Binding.

(** The value of an evaluated result, for the examples. *)
Definition ok_or {A} (d : A) (r : result A) : A := match r with Ok a => a | Throw _ => d end.
