(* ===== verification/AuthorityGenerations.v ===== *)
(** * Authority generations ([src/production/authority/delegations.ts])

    Who controls a project over time: generations ordered by finalized
    transition cursors, the gap-free scans that append to their history, the
    evidence behind a generation, and delegations to project staff.

    The generations of a scan and the capabilities of a delegation are lists
    with holes, as [Array.prototype.map] and [some] skip holes and [length]
    counts them.  [localeCompare] is the platform's collation. *)

From stdpp Require Import base list strings.
From Stdlib Require Import ZArith Lia Ascii.
From S2P Require Import Prelude Sha256 Base64Url JsTime JsValue ValueObjects Quota CanonicalJson AuthorityValues AuthorityFinality AuthorityDigests.

Definition MAX_DELEGATION_LIFETIME_MS : Z := 7 * 24 * 60 * 60 * 1000.

Definition PROJECT_STAFF_CAPABILITIES : list string :=
  ["support:read-messages"; "support:send-messages"; "fulfillment:request-address";
   "fulfillment:read-address"; "fulfillment:acknowledge-address"; "fulfillment:update-status";
   "fulfillment:set-tracking"].

Inductive AuthorityTransitionCause :=
| bootstrap | ordinary_owner_transfer | project_owner_burned | revnet_operator_replacement
| revnet_operator_relinquished | authority_mode_change | recovery_rotation
| canonical_authority_disabled.
#[export] Instance Cause_eq_dec : EqDecision AuthorityTransitionCause.
Proof. solve_decision. Defined.
#[export] Instance Cause_literal : Literal AuthorityTransitionCause := {|
  lit c := match c with bootstrap => "bootstrap"
           | ordinary_owner_transfer => "ordinary-owner-transfer"
           | project_owner_burned => "project-owner-burned"
           | revnet_operator_replacement => "revnet-operator-replacement"
           | revnet_operator_relinquished => "revnet-operator-relinquished"
           | authority_mode_change => "authority-mode-change"
           | recovery_rotation => "recovery-rotation"
           | canonical_authority_disabled => "canonical-authority-disabled" end;
  lits := [bootstrap; ordinary_owner_transfer; project_owner_burned; revnet_operator_replacement;
           revnet_operator_relinquished; authority_mode_change; recovery_rotation;
           canonical_authority_disabled] |}.

Inductive AuthorityStatus := authority_active | authority_disabled.
#[export] Instance AuthorityStatus_eq_dec : EqDecision AuthorityStatus.
Proof. solve_decision. Defined.
#[export] Instance AuthorityStatus_literal : Literal AuthorityStatus := {|
  lit s := match s with authority_active => "active" | authority_disabled => "disabled" end;
  lits := [authority_active; authority_disabled] |}.

Inductive RootKind := jbprojects_owner | revnet_operator_set | no_current_authority.
#[export] Instance RootKind_eq_dec : EqDecision RootKind.
Proof. solve_decision. Defined.
#[export] Instance RootKind_literal : Literal RootKind := {|
  lit k := match k with jbprojects_owner => "jbprojects-owner"
           | revnet_operator_set => "revnet-operator-set"
           | no_current_authority => "no-current-authority" end;
  lits := [jbprojects_owner; revnet_operator_set; no_current_authority] |}.

Record AuthorityTransitionCursor := {
  tc_deploymentManifestId : string; tc_adapterRevision : string; tc_sourceId : string;
  tc_blockNumber : string; tc_blockHash : string; tc_transactionHash : string;
  tc_transactionIndex : Z; tc_logIndex : Z; tc_emitter : string; tc_eventTopic0 : string }.
#[export] Instance Cursor_eq_dec : EqDecision AuthorityTransitionCursor.
Proof. solve_decision. Defined.

Record AuthorityTransitionSource := {
  ts_sourceId : string; ts_deploymentManifestId : string; ts_adapterRevision : string;
  ts_authorityMode : RootKind; ts_transitionCause : AuthorityTransitionCause;
  ts_emitter : string; ts_eventTopic0 : string }.

Record AuthorityGeneration := {
  g_generationId : string; g_project : JuiceboxV6ProjectRef; g_sequence : string;
  g_transitionCause : AuthorityTransitionCause; g_authorityStatus : AuthorityStatus;
  g_rootKind : RootKind; g_rootPrincipal : option string; g_rootEvidenceId : string;
  g_rootEvidenceDigest : string; g_activatedAtBlock : FinalizedBlockAnchor;
  g_transitionCursor : AuthorityTransitionCursor; g_predecessorGenerationId : option string }.

(** The checkpoint without its digest. *)
Record CheckpointBody := {
  cb_checkpointId : string; cb_project : JuiceboxV6ProjectRef; cb_deploymentManifestId : string;
  cb_adapterRevision : string; cb_sourceSetDigest : string;
  cb_previousCheckpointId : option string; cb_previousCheckpointDigest : option string;
  cb_rangeStartBlockNumber : string; cb_verifiedThroughBlock : FinalizedBlockAnchor;
  cb_rangeTransitionCount : Z; cb_cumulativeTransitionCount : string;
  cb_lastGenerationId : string; cb_lastGenerationSequence : string;
  cb_lastTransitionCursor : AuthorityTransitionCursor; cb_transitionsDigest : string }.

Record AuthorityTransitionScanCheckpoint := {
  cp_body : CheckpointBody; cp_checkpointDigest : string }.

Record FinalizedAuthorityTransitionScan := {
  fs_checkpoint : AuthorityTransitionScanCheckpoint;
  fs_generations : list (option AuthorityGeneration) }.

(** ** Digested values *)

Definition cursor_obj (c : AuthorityTransitionCursor) : unknown :=
  obj [("kind", VString "authority-transition-cursor.v1");
       ("deploymentManifestId", VString (tc_deploymentManifestId c));
       ("adapterRevision", VString (tc_adapterRevision c)); ("sourceId", VString (tc_sourceId c));
       ("blockNumber", VString (tc_blockNumber c)); ("blockHash", VString (tc_blockHash c));
       ("transactionHash", VString (tc_transactionHash c));
       ("transactionIndex", VInt (tc_transactionIndex c)); ("logIndex", VInt (tc_logIndex c));
       ("emitter", VString (tc_emitter c)); ("eventTopic0", VString (tc_eventTopic0 c))].

Definition source_obj (s : AuthorityTransitionSource) : unknown :=
  obj [("kind", VString "authority-transition-source.v1"); ("sourceId", VString (ts_sourceId s));
       ("deploymentManifestId", VString (ts_deploymentManifestId s));
       ("adapterRevision", VString (ts_adapterRevision s));
       ("authorityMode", VString (lit (ts_authorityMode s)));
       ("transitionCause", VString (lit (ts_transitionCause s)));
       ("emitter", VString (ts_emitter s)); ("eventTopic0", VString (ts_eventTopic0 s))].

Definition generation_obj (g : AuthorityGeneration) : unknown :=
  obj [("kind", VString "project-authority-generation.v1");
       ("generationId", VString (g_generationId g)); ("project", project_obj (g_project g));
       ("sequence", VString (g_sequence g));
       ("transitionCause", VString (lit (g_transitionCause g)));
       ("authorityStatus", VString (lit (g_authorityStatus g)));
       ("rootKind", VString (lit (g_rootKind g)));
       ("rootPrincipal", nullable VString (g_rootPrincipal g));
       ("rootEvidenceId", VString (g_rootEvidenceId g));
       ("rootEvidenceDigest", VString (g_rootEvidenceDigest g));
       ("activatedAtBlock", anchor_obj (g_activatedAtBlock g));
       ("transitionCursor", cursor_obj (g_transitionCursor g));
       ("predecessorGenerationId", nullable VString (g_predecessorGenerationId g))].

Definition body_fields (c : CheckpointBody) : list (string * unknown) :=
  [("kind", VString "authority-transition-scan-checkpoint.v1");
   ("checkpointId", VString (cb_checkpointId c)); ("project", project_obj (cb_project c));
   ("deploymentManifestId", VString (cb_deploymentManifestId c));
   ("adapterRevision", VString (cb_adapterRevision c));
   ("sourceSetDigest", VString (cb_sourceSetDigest c));
   ("previousCheckpointId", nullable VString (cb_previousCheckpointId c));
   ("previousCheckpointDigest", nullable VString (cb_previousCheckpointDigest c));
   ("rangeStartBlockNumber", VString (cb_rangeStartBlockNumber c));
   ("verifiedThroughBlock", anchor_obj (cb_verifiedThroughBlock c));
   ("rangeTransitionCount", VInt (cb_rangeTransitionCount c));
   ("cumulativeTransitionCount", VString (cb_cumulativeTransitionCount c));
   ("lastGenerationId", VString (cb_lastGenerationId c));
   ("lastGenerationSequence", VString (cb_lastGenerationSequence c));
   ("lastTransitionCursor", cursor_obj (cb_lastTransitionCursor c));
   ("transitionsDigest", VString (cb_transitionsDigest c))].

Definition generations_obj (gs : list (option AuthorityGeneration)) : unknown :=
  VArray ArrayPrototype (map (option_map generation_obj) gs) 0.

(** ** Cursors *)

Definition parseAuthorityTransitionCause : unknown → result AuthorityTransitionCause := parseLiteral.

Definition parseSafeCount (value : unknown) (maximum : Z) : result Z :=
  match value with
  | VNumber (NInt z) => refuse_if (negb (isSafeInteger (NInt z)) || (z <? 0) || (maximum <? z));; Ok z
  | _ => invalid
  end.

(** Every caller passes an expectation; the adapter revision may be left open. *)
Definition parseAuthorityTransitionCursor (value : unknown) (deploymentManifestId : string)
    (adapterRevision : option string) (block : FinalizedBlockAnchor) : result AuthorityTransitionCursor :=
  record ← expectExactRecord value
    ["kind"; "deploymentManifestId"; "adapterRevision"; "sourceId"; "blockNumber"; "blockHash";
     "transactionHash"; "transactionIndex"; "logIndex"; "emitter"; "eventTopic0"];
  refuse_if (negb (isString record.["kind"] "authority-transition-cursor.v1"));;
  manifest ← parseAuthorityId record.["deploymentManifestId"];
  revision ← parseAuthorityId record.["adapterRevision"];
  sourceId ← parseAuthorityId record.["sourceId"];
  blockNumber ← parseUint256Decimal record.["blockNumber"];
  blockHash ← parseHash32 record.["blockHash"];
  transactionHash ← parseHash32 record.["transactionHash"];
  transactionIndex ← parseLogIndex record.["transactionIndex"];
  logIndex ← parseLogIndex record.["logIndex"];
  emitter ← parseAddress record.["emitter"];
  eventTopic0 ← parseHash32 record.["eventTopic0"];
  refuse_if ((manifest !== deploymentManifestId)
             || match adapterRevision with Some expected => revision !== expected | None => false end
             || (blockNumber !== ab_blockNumber block) || (blockHash !== ab_blockHash block));;
  Ok {| tc_deploymentManifestId := manifest; tc_adapterRevision := revision; tc_sourceId := sourceId;
        tc_blockNumber := blockNumber; tc_blockHash := blockHash;
        tc_transactionHash := transactionHash; tc_transactionIndex := transactionIndex;
        tc_logIndex := logIndex; tc_emitter := emitter; tc_eventTopic0 := eventTopic0 |}.

Definition compareTransitionCursors (left right : AuthorityTransitionCursor) : Z :=
  if (tc_logIndex left =? tc_logIndex right)
     || ((tc_logIndex right <? tc_logIndex left)
         && (tc_transactionIndex left <? tc_transactionIndex right))
     || ((tc_logIndex left <? tc_logIndex right)
         && (tc_transactionIndex right <? tc_transactionIndex left))
  then 0 else tc_logIndex left - tc_logIndex right.

Definition compareBlockAndTransitionCursor
    (leftBlock : FinalizedBlockAnchor) (leftCursor : AuthorityTransitionCursor)
    (rightBlock : FinalizedBlockAnchor) (rightCursor : AuthorityTransitionCursor) : result Z :=
  let blockDifference := BigInt (ab_blockNumber leftBlock) - BigInt (ab_blockNumber rightBlock) in
  if negb (blockDifference =? 0) then Ok (if 0 <? blockDifference then 1 else -1)
  else
    refuse_if (ab_blockHash leftBlock !== ab_blockHash rightBlock);;
    Ok (compareTransitionCursors leftCursor rightCursor).

(** ** Generations *)

Definition parseAuthorityGeneration (value : unknown) (policy : FinalityPolicy) (now : string) :
  result AuthorityGeneration :=
  record ← expectExactRecord value
    ["kind"; "generationId"; "project"; "sequence"; "transitionCause"; "authorityStatus"; "rootKind";
     "rootPrincipal"; "rootEvidenceId"; "rootEvidenceDigest"; "activatedAtBlock"; "transitionCursor";
     "predecessorGenerationId"];
  refuse_if (negb (isString record.["kind"] "project-authority-generation.v1"));;
  transitionCause ← parseAuthorityTransitionCause record.["transitionCause"];
  authorityStatus ← parseLiteral (A := AuthorityStatus) record.["authorityStatus"];
  rootKind ← parseLiteral (A := RootKind) record.["rootKind"];
  let disabled := authorityStatus === authority_disabled in
  refuse_if (xorb disabled (rootKind === no_current_authority)
             || xorb disabled (isNull record.["rootPrincipal"]));;
  project ← parseJuiceboxV6ProjectRef record.["project"];
  refuse_if (negb (j_chainId project =? fp_chainId policy));;
  predecessorGenerationId ← parseNullable parseAuthorityId record.["predecessorGenerationId"];
  sequence ← parseUint256Decimal record.["sequence"];
  refuse_if ((sequence === "0")
             || ((sequence === "1") && ((predecessorGenerationId !== None)
                                        || (transitionCause !== bootstrap))));;
  refuse_if ((sequence !== "1") && ((predecessorGenerationId === None)
                                    || (transitionCause === bootstrap)));;
  activatedAtBlock ← parseFinalizedBlockAnchor record.["activatedAtBlock"] policy now;
  transitionCursor ← parseAuthorityTransitionCursor record.["transitionCursor"]
    (j_deploymentManifestId project) None activatedAtBlock;
  generationId ← parseAuthorityId record.["generationId"];
  rootPrincipal ← parseNullable parseAddress record.["rootPrincipal"];
  rootEvidenceId ← parseAuthorityId record.["rootEvidenceId"];
  rootEvidenceDigest ← parseHash32 record.["rootEvidenceDigest"];
  Ok {| g_generationId := generationId; g_project := project; g_sequence := sequence;
        g_transitionCause := transitionCause; g_authorityStatus := authorityStatus;
        g_rootKind := rootKind; g_rootPrincipal := rootPrincipal; g_rootEvidenceId := rootEvidenceId;
        g_rootEvidenceDigest := rootEvidenceDigest; g_activatedAtBlock := activatedAtBlock;
        g_transitionCursor := transitionCursor;
        g_predecessorGenerationId := predecessorGenerationId |}.

Definition assertTransitionCauseMatchesRoots (previous next : AuthorityGeneration) : result unit :=
  if g_authorityStatus next === authority_disabled then
    let expectedCause :=
      match g_rootKind previous with
      | jbprojects_owner => project_owner_burned
      | revnet_operator_set => revnet_operator_relinquished
      | no_current_authority => canonical_authority_disabled
      end in
    refuse_if ((g_transitionCause next !== expectedCause)
               && (g_transitionCause next !== canonical_authority_disabled))
  else
    let expectedCause :=
      if (g_authorityStatus previous === authority_disabled)
         || (g_rootKind previous !== g_rootKind next) then authority_mode_change
      else if g_rootPrincipal previous === g_rootPrincipal next then recovery_rotation
      else if g_rootKind next === jbprojects_owner then ordinary_owner_transfer
      else revnet_operator_replacement in
    refuse_if (g_transitionCause next !== expectedCause).

Definition assertSuccessorAuthorityGeneration (previous next : AuthorityGeneration) : result unit :=
  let previousBlock := BigInt (ab_blockNumber (g_activatedAtBlock previous)) in
  let nextBlock := BigInt (ab_blockNumber (g_activatedAtBlock next)) in
  refuse_if (negb (sameJuiceboxV6ProjectRef (g_project previous) (g_project next))
             || (g_generationId next === g_generationId previous)
             || (g_predecessorGenerationId next !== Some (g_generationId previous))
             || (g_rootEvidenceId next === g_rootEvidenceId previous)
             || (g_rootEvidenceDigest next === g_rootEvidenceDigest previous)
             || negb (BigInt (g_sequence next) =? BigInt (g_sequence previous) + 1)
             || (nextBlock <? previousBlock));;
  assertTransitionCauseMatchesRoots previous next;;
  refuse_if ((nextBlock =? previousBlock)
             && ((ab_blockHash (g_activatedAtBlock next) !== ab_blockHash (g_activatedAtBlock previous))
                 || (compareTransitionCursors (g_transitionCursor next) (g_transitionCursor previous)
                     <=? 0))).

(** ** Scans *)

Definition parseTransitionSource (deploymentManifestId adapterRevision : string) (item : unknown) :
  result AuthorityTransitionSource :=
  record ← expectExactRecord item
    ["kind"; "sourceId"; "deploymentManifestId"; "adapterRevision"; "authorityMode";
     "transitionCause"; "emitter"; "eventTopic0"];
  refuse_if (negb (isString record.["kind"] "authority-transition-source.v1"));;
  authorityMode ← parseLiteral (A := RootKind) record.["authorityMode"];
  refuse_if (authorityMode === no_current_authority);;
  manifest ← parseAuthorityId record.["deploymentManifestId"];
  revision ← parseAuthorityId record.["adapterRevision"];
  refuse_if ((manifest !== deploymentManifestId) || (revision !== adapterRevision));;
  sourceId ← parseAuthorityId record.["sourceId"];
  transitionCause ← parseAuthorityTransitionCause record.["transitionCause"];
  emitter ← parseAddress record.["emitter"];
  eventTopic0 ← parseHash32 record.["eventTopic0"];
  Ok {| ts_sourceId := sourceId; ts_deploymentManifestId := manifest; ts_adapterRevision := revision;
        ts_authorityMode := authorityMode; ts_transitionCause := transitionCause;
        ts_emitter := emitter; ts_eventTopic0 := eventTopic0 |}.

Section Sources.
(** The sign of [a.localeCompare(b)]. *)
Variable localeCompare : string → string → Z.

(** Destructuring the [undefined] of a hole throws. *)
Fixpoint noHoles {A} (xs : list (option A)) : result (list A) :=
  match xs with
  | [] => Ok []
  | Some x :: xs => xs' ← noHoles xs; Ok (x :: xs')
  | None :: _ => Throw TypeError
  end.

(** A hole sorts last, so [some] meets every difference before it. *)
Definition parseAuthorityTransitionSourceSet (value : unknown)
    (deploymentManifestId adapterRevision : string) : result (list AuthorityTransitionSource) :=
  match value with
  | VArray _ elems _ =>
      refuse_if ((Z.of_nat (length elems) <? 1) || (64 <? Z.of_nat (length elems)));;
      sources ← mapArray (parseTransitionSource deploymentManifestId adapterRevision) elems;
      refuse_if (hasDuplicates (map (option_map ts_sourceId) sources));;
      let sorted :=
        sort_by (λ left right, localeCompare (ts_sourceId left) (ts_sourceId right) <=? 0)
          (omap id sources) in
      refuse_if (existsb (λ '(s, o), Some (ts_sourceId s) !== (ts_sourceId <$> o)) (zip sorted sources));;
      noHoles sources
  | _ => invalid
  end.
End Sources.

(** What the server expects of a scan. *)
Record ScanExpectation := {
  x_project : JuiceboxV6ProjectRef; x_adapterRevision : string;
  x_sources : list AuthorityTransitionSource;
  x_previousCheckpoint : option AuthorityTransitionScanCheckpoint;
  x_previousGeneration : option AuthorityGeneration;
  x_initialRangeStartBlockNumber : string; x_verifiedThroughBlock : FinalizedBlockAnchor;
  x_now : string }.

(** [source === undefined || ...] of the scan. *)
Definition sourceMismatch (sources : list AuthorityTransitionSource) (prior : option AuthorityGeneration)
    (generation : AuthorityGeneration) : bool :=
  let cursor := g_transitionCursor generation in
  let expectedMode :=
    if g_authorityStatus generation === authority_active then Some (g_rootKind generation)
    else g_rootKind <$> prior in
  match List.find (λ s, ts_sourceId s === tc_sourceId cursor) sources with
  | None => true
  | Some source =>
      (ts_deploymentManifestId source !== tc_deploymentManifestId cursor)
      || (ts_adapterRevision source !== tc_adapterRevision cursor)
      || (ts_emitter source !== tc_emitter cursor)
      || (ts_eventTopic0 source !== tc_eventTopic0 cursor)
      || (ts_transitionCause source !== g_transitionCause generation)
      || (Some (ts_authorityMode source) !== expectedMode)
  end.

(** One element of [scanRecord.generations], after [priorGeneration]. *)
Definition scanGeneration (policy : FinalityPolicy) (expected : ScanExpectation)
    (rangeStart rangeEnd : Z) (prior : option AuthorityGeneration) (item : unknown) :
  result AuthorityGeneration :=
  generation ← parseAuthorityGeneration item policy (x_now expected);
  let blockNumber := BigInt (ab_blockNumber (g_activatedAtBlock generation)) in
  refuse_if ((blockNumber <? rangeStart) || (rangeEnd <? blockNumber));;
  match prior with
  | None => refuse_if ((g_sequence generation !== "1") || (g_predecessorGenerationId generation !== None))
  | Some prior => assertSuccessorAuthorityGeneration prior generation
  end;;
  refuse_if (sourceMismatch (x_sources expected) prior generation);;
  Ok generation.

Fixpoint scanGenerations (policy : FinalityPolicy) (expected : ScanExpectation)
    (rangeStart rangeEnd : Z) (prior : option AuthorityGeneration) (items : list (option unknown)) :
  result (list (option AuthorityGeneration) * option AuthorityGeneration) :=
  match items with
  | [] => Ok ([], prior)
  | None :: items =>
      rest ← scanGenerations policy expected rangeStart rangeEnd prior items;
      Ok (None :: rest.1, rest.2)
  | Some item :: items =>
      generation ← scanGeneration policy expected rangeStart rangeEnd prior item;
      rest ← scanGenerations policy expected rangeStart rangeEnd (Some generation) items;
      Ok (Some generation :: rest.1, rest.2)
  end.

(** The predecessor checkpoint, as the new range names it. *)
Definition checkpointGap (expected : ScanExpectation) (project : JuiceboxV6ProjectRef)
    (previousCheckpointId previousCheckpointDigest : option string)
    (sourceSetDigest rangeStartBlockNumber : string) : bool :=
  match x_previousCheckpoint expected with
  | None =>
      (previousCheckpointId !== None) || (previousCheckpointDigest !== None)
      || (rangeStartBlockNumber !== x_initialRangeStartBlockNumber expected)
  | Some cp =>
      (previousCheckpointId !== Some (cb_checkpointId (cp_body cp)))
      || (previousCheckpointDigest !== Some (cp_checkpointDigest cp))
      || (cb_sourceSetDigest (cp_body cp) !== sourceSetDigest)
      || negb (sameJuiceboxV6ProjectRef (cb_project (cp_body cp)) project)
      || (rangeStartBlockNumber
          !== decimal (BigInt (ab_blockNumber (cb_verifiedThroughBlock (cp_body cp))) + 1))
  end.

Section Scan.
Context `{Sha256}.

Definition computeAuthorityTransitionSourceSetDigest (sources : list AuthorityTransitionSource) :
  result string :=
  sha256AuthorityDigest (obj [("kind", VString "authority-transition-source-set.v1");
                              ("sources", arr (map source_obj sources))]).

(** The previous checkpoint and generation advance together. *)
Definition detachedPredecessor (expected : ScanExpectation) : result unit :=
  match x_previousCheckpoint expected, x_previousGeneration expected with
  | None, None => Ok ()
  | Some cp, Some g =>
      refuse_if (negb (sameJuiceboxV6ProjectRef (cb_project (cp_body cp)) (g_project g))
                 || (cb_deploymentManifestId (cp_body cp) !== j_deploymentManifestId (g_project g))
                 || (cb_lastGenerationId (cp_body cp) !== g_generationId g)
                 || (cb_lastGenerationSequence (cp_body cp) !== g_sequence g));;
      refuse_digests (cursor_obj (cb_lastTransitionCursor (cp_body cp))) (cursor_obj (g_transitionCursor g))
  | _, _ => invalid
  end.

Definition transitionsDigestOf (generations : list (option AuthorityGeneration)) : result string :=
  sha256AuthorityDigest (obj [("kind", VString "finalized-authority-transitions.v1");
                              ("generations", generations_obj generations)]).
Definition checkpointDigestOf (body : CheckpointBody) : result string :=
  sha256AuthorityDigest (obj [("kind", VString "authority-transition-scan-checkpoint-digest.v1");
                              ("checkpoint", obj (body_fields body))]).

Definition parseFinalizedAuthorityTransitionScan (value : unknown) (policy : FinalityPolicy)
    (expected : ScanExpectation) : result FinalizedAuthorityTransitionScan :=
  scanRecord ← expectExactRecord value ["kind"; "checkpoint"; "generations"];
  refuse_if (negb (isString scanRecord.["kind"] "finalized-authority-transition-scan.v1"));;
  match scanRecord.["generations"] with
  | VArray _ items _ =>
      refuse_if (10000 <? Z.of_nat (length items));;
      record ← expectExactRecord scanRecord.["checkpoint"]
        ["kind"; "checkpointId"; "project"; "deploymentManifestId"; "adapterRevision";
         "sourceSetDigest"; "previousCheckpointId"; "previousCheckpointDigest";
         "rangeStartBlockNumber"; "verifiedThroughBlock"; "rangeTransitionCount";
         "cumulativeTransitionCount"; "lastGenerationId"; "lastGenerationSequence";
         "lastTransitionCursor"; "transitionsDigest"; "checkpointDigest"];
      refuse_if (negb (isString record.["kind"] "authority-transition-scan-checkpoint.v1"));;
      project ← parseJuiceboxV6ProjectRef record.["project"];
      deploymentManifestId ← parseAuthorityId record.["deploymentManifestId"];
      adapterRevision ← parseAuthorityId record.["adapterRevision"];
      sourceSetDigest ← parseHash32 record.["sourceSetDigest"];
      refuse_if (negb (sameJuiceboxV6ProjectRef project (x_project expected))
                 || negb (j_chainId project =? fp_chainId policy)
                 || (deploymentManifestId !== j_deploymentManifestId project)
                 || (deploymentManifestId !== j_deploymentManifestId (x_project expected))
                 || (adapterRevision !== x_adapterRevision expected));;
      expectedSourceSet ← computeAuthorityTransitionSourceSetDigest (x_sources expected);
      refuse_if (sourceSetDigest !== expectedSourceSet);;
      previousCheckpointId ← parseNullable parseAuthorityId record.["previousCheckpointId"];
      previousCheckpointDigest ← parseNullable parseHash32 record.["previousCheckpointDigest"];
      rangeStartBlockNumber ← parseUint256Decimal record.["rangeStartBlockNumber"];
      refuse_if (checkpointGap expected project previousCheckpointId previousCheckpointDigest
                   sourceSetDigest rangeStartBlockNumber);;
      verifiedThroughBlock ←
        parseFinalizedBlockAnchor record.["verifiedThroughBlock"] policy (x_now expected);
      refuse_digests (anchor_obj verifiedThroughBlock) (anchor_obj (x_verifiedThroughBlock expected));;
      refuse_if (BigInt (ab_blockNumber verifiedThroughBlock) <? BigInt rangeStartBlockNumber);;
      detachedPredecessor expected;;
      scanned ← scanGenerations policy expected (BigInt rangeStartBlockNumber)
        (BigInt (ab_blockNumber verifiedThroughBlock)) (x_previousGeneration expected) items;
      let generations := scanned.1 in
      match scanned.2 with
      | None => invalid
      | Some lastGeneration =>
          rangeTransitionCount ← parseSafeCount record.["rangeTransitionCount"] 10000;
          cumulativeTransitionCount ← parseUint256Decimal record.["cumulativeTransitionCount"];
          let expectedCumulativeCount :=
            match x_previousCheckpoint expected with
            | Some cp => BigInt (cb_cumulativeTransitionCount (cp_body cp))
            | None => 0
            end + Z.of_nat (length generations) in
          transitionsDigest ← parseHash32 record.["transitionsDigest"];
          refuse_if (negb (rangeTransitionCount =? Z.of_nat (length generations))
                     || negb (BigInt cumulativeTransitionCount =? expectedCumulativeCount)
                     || negb (isString record.["lastGenerationId"] (g_generationId lastGeneration))
                     || negb (isString record.["lastGenerationSequence"] (g_sequence lastGeneration)));;
          expectedTransitions ← transitionsDigestOf generations;
          refuse_if (transitionsDigest !== expectedTransitions);;
          lastTransitionCursor ← parseAuthorityTransitionCursor record.["lastTransitionCursor"]
            deploymentManifestId None (g_activatedAtBlock lastGeneration);
          refuse_digests (cursor_obj lastTransitionCursor) (cursor_obj (g_transitionCursor lastGeneration));;
          checkpointId ← parseAuthorityId record.["checkpointId"];
          let parsedWithoutDigest :=
            {| cb_checkpointId := checkpointId; cb_project := project;
               cb_deploymentManifestId := deploymentManifestId;
               cb_adapterRevision := adapterRevision; cb_sourceSetDigest := sourceSetDigest;
               cb_previousCheckpointId := previousCheckpointId;
               cb_previousCheckpointDigest := previousCheckpointDigest;
               cb_rangeStartBlockNumber := rangeStartBlockNumber;
               cb_verifiedThroughBlock := verifiedThroughBlock;
               cb_rangeTransitionCount := rangeTransitionCount;
               cb_cumulativeTransitionCount := cumulativeTransitionCount;
               cb_lastGenerationId := g_generationId lastGeneration;
               cb_lastGenerationSequence := g_sequence lastGeneration;
               cb_lastTransitionCursor := lastTransitionCursor;
               cb_transitionsDigest := transitionsDigest |} in
          refuse_if match x_previousCheckpoint expected with
                    | Some cp => cb_checkpointId (cp_body cp) === checkpointId
                    | None => false
                    end;;
          checkpointDigest ← parseHash32 record.["checkpointDigest"];
          expectedDigest ← checkpointDigestOf parsedWithoutDigest;
          refuse_if (checkpointDigest !== expectedDigest);;
          Ok {| fs_checkpoint := {| cp_body := parsedWithoutDigest;
                                    cp_checkpointDigest := checkpointDigest |};
                fs_generations := generations |}
      end
  | _ => invalid
  end.
End Scan.

(** ** The order of transitions *)

Definition height (g : AuthorityGeneration) : Z := BigInt (ab_blockNumber (g_activatedAtBlock g)).

(** Later in the same transaction or in a later one, by block-global log index. *)
Definition cursor_before (c d : AuthorityTransitionCursor) : Prop :=
  tc_logIndex c < tc_logIndex d ∧ tc_transactionIndex c <= tc_transactionIndex d.

(** Finalized order: an earlier block, or an earlier event of the same block. *)
Definition before (g h : AuthorityGeneration) : Prop :=
  height g < height h ∨
  height g = height h ∧ ab_blockHash (g_activatedAtBlock g) = ab_blockHash (g_activatedAtBlock h) ∧
  cursor_before (g_transitionCursor g) (g_transitionCursor h).

(** The causes a change of root may have. *)
Definition caused (g h : AuthorityGeneration) : Prop :=
  match g_authorityStatus h with
  | authority_disabled =>
      match g_transitionCause h with
      | canonical_authority_disabled => True
      | project_owner_burned => g_rootKind g = jbprojects_owner
      | revnet_operator_relinquished => g_rootKind g = revnet_operator_set
      | _ => False
      end
  | authority_active =>
      let kept := g_authorityStatus g = authority_active ∧ g_rootKind g = g_rootKind h in
      match g_transitionCause h with
      | authority_mode_change => ¬ kept
      | recovery_rotation => kept ∧ g_rootPrincipal g = g_rootPrincipal h
      | ordinary_owner_transfer =>
          kept ∧ g_rootPrincipal g ≠ g_rootPrincipal h ∧ g_rootKind h = jbprojects_owner
      | revnet_operator_replacement =>
          kept ∧ g_rootPrincipal g ≠ g_rootPrincipal h ∧ g_rootKind h ≠ jbprojects_owner
      | _ => False
      end
  end.

Record succeeds (g h : AuthorityGeneration) : Prop := {
  succ_project : g_project h = g_project g;
  succ_id : g_generationId h ≠ g_generationId g;
  succ_predecessor : g_predecessorGenerationId h = Some (g_generationId g);
  succ_evidence : g_rootEvidenceId h ≠ g_rootEvidenceId g ∧ g_rootEvidenceDigest h ≠ g_rootEvidenceDigest g;
  succ_sequence : BigInt (g_sequence h) = BigInt (g_sequence g) + 1;
  succ_before : before g h;
  succ_caused : caused g h }.

Lemma compareTransitionCursors_pos c d : 0 < compareTransitionCursors d c ↔ cursor_before c d.
Proof.
  unfold compareTransitionCursors, cursor_before.
  repeat match goal with |- context [?a <? ?b] => destruct (Z.ltb_spec a b) | |- context [?a =? ?b] => destruct (Z.eqb_spec a b) end;
    cbn [orb andb]; lia.
Qed.

Lemma compareBlock_pos (b : FinalizedBlockAnchor) c (b' : FinalizedBlockAnchor) c' z :
  compareBlockAndTransitionCursor b c b' c' = Ok z → 0 < z →
  BigInt (ab_blockNumber b') < BigInt (ab_blockNumber b) ∨
  BigInt (ab_blockNumber b') = BigInt (ab_blockNumber b) ∧ ab_blockHash b = ab_blockHash b' ∧ cursor_before c' c.
Proof.
  unfold compareBlockAndTransitionCursor. cbv zeta. destruct (Z.eqb_spec (BigInt (ab_blockNumber b) - BigInt (ab_blockNumber b')) 0); cbn [negb].
  - intros H Hz. inv_auth. subst z. bsimp. right. split_and!; [lia|done|by apply compareTransitionCursors_pos].
  - destruct (Z.ltb_spec 0 (BigInt (ab_blockNumber b) - BigInt (ab_blockNumber b'))); intros [= <-] Hz; lia.
Qed.

Lemma transition_cause g h : assertTransitionCauseMatchesRoots g h = Ok () ↔ caused g h.
Proof.
  unfold assertTransitionCauseMatchesRoots, caused, refuse_if. cbv zeta.
  destruct (g_authorityStatus h).
  - change (authority_active === authority_disabled) with false. cbv iota.
    rewrite throw_if_Ok, negb_false_iff, bool_decide_eq_true.
    destruct (g_authorityStatus g).
    + change (authority_active === authority_disabled) with false. cbn [orb].
      destruct (decide (g_rootKind g = g_rootKind h)) as [E|E]; [rewrite (bool_decide_eq_true_2 _ E)|rewrite (bool_decide_eq_false_2 _ E)]; cbn [negb];
      [destruct (decide (g_rootPrincipal g = g_rootPrincipal h)) as [F|F]; [rewrite (bool_decide_eq_true_2 _ F)|rewrite (bool_decide_eq_false_2 _ F)]|];
      (destruct (decide (g_rootKind h = jbprojects_owner)) as [G|G];
       [rewrite ?(bool_decide_eq_true_2 _ G)|rewrite ?(bool_decide_eq_false_2 _ G)]);
      destruct (g_transitionCause h); intuition congruence.
    + change (authority_disabled === authority_disabled) with true. cbn [orb]. destruct (g_transitionCause h); intuition congruence.
  - change (authority_disabled === authority_disabled) with true. cbv iota.
    rewrite throw_if_Ok, andb_false_iff, !negb_false_iff, !bool_decide_eq_true.
    destruct (g_rootKind g), (g_transitionCause h); intuition congruence.
Qed.

Lemma successor_iff g h : assertSuccessorAuthorityGeneration g h = Ok () ↔ succeeds g h.
Proof.
  unfold assertSuccessorAuthorityGeneration. cbv zeta. fold (height g) (height h). split.
  - intros (u & H1%refuse_if_Ok & (u' & H2 & H3%refuse_if_Ok)%bind_Ok)%bind_Ok. destruct u'.
    apply transition_cause in H2. bsimp. apply sameProject_eq in H1. zbool. constructor; try done.
    unfold before. destruct (Z.eqb_spec (height h) (height g)) as [E|E]; [right|left; lia].
    cbn [andb] in H3. bsimp. zbool. split_and!; [done..|]. apply compareTransitionCursors_pos.
    match goal with H : (_ <=? 0) = false |- _ => apply Z.leb_gt in H end. done.
  - intros [E1 E2 E3 [E4 E4'] E5 E6 E7]. apply transition_cause in E7. apply bind_Ok. exists (). split.
    + apply refuse_if_Ok. rewrite (proj2 (sameProject_eq _ _)) by (by symmetry).
      rewrite (bool_decide_eq_false_2 _ E2), (bool_decide_eq_true_2 _ E3), (bool_decide_eq_false_2 _ E4), (bool_decide_eq_false_2 _ E4').
      rewrite (proj2 (Z.eqb_eq _ _)) by done. rewrite (proj2 (Z.ltb_ge _ _)) by (destruct E6; lia). done.
    + rewrite E7. cbn [mbind result_bind]. apply refuse_if_Ok.
      destruct (Z.eqb_spec (height h) (height g)) as [E|E]; [|done]. destruct E6 as [|(_ & E6 & E6'%compareTransitionCursors_pos)]; [lia|].
      cbn [andb]. rewrite bool_decide_eq_true_2 by done. cbn [negb orb]. by apply Z.leb_gt.
Qed.

(** ** What a scan appends *)

(** The first generation of all: it has no predecessor. *)
Definition initial (g : AuthorityGeneration) : Prop :=
  g_sequence g = "1" ∧ g_predecessorGenerationId g = None.

Definition follows (prior : option AuthorityGeneration) (g : AuthorityGeneration) : Prop :=
  match prior with Some p => succeeds p g | None => initial g end.

Fixpoint linked (prior : option AuthorityGeneration) (gs : list AuthorityGeneration) : Prop :=
  match gs with
  | [] => True
  | g :: gs => follows prior g ∧ linked (Some g) gs
  end.

Definition last_of (prior : option AuthorityGeneration) (gs : list AuthorityGeneration) :
  option AuthorityGeneration := match last gs with Some g => Some g | None => prior end.

Definition named (s : FinalizedAuthorityTransitionScan) : list AuthorityGeneration :=
  omap id (fs_generations s).

(** A source of the manifest stands behind a transition. *)
Definition pinned (sources : list AuthorityTransitionSource) (g : AuthorityGeneration) : Prop :=
  ∃ source, source ∈ sources ∧ ts_sourceId source = tc_sourceId (g_transitionCursor g) ∧
    ts_adapterRevision source = tc_adapterRevision (g_transitionCursor g) ∧
    ts_emitter source = tc_emitter (g_transitionCursor g) ∧
    ts_eventTopic0 source = tc_eventTopic0 (g_transitionCursor g) ∧
    ts_transitionCause source = g_transitionCause g ∧
    (g_authorityStatus g = authority_active → ts_authorityMode source = g_rootKind g).

Lemma last_of_cons prior g gs : last_of prior (g :: gs) = last_of (Some g) gs.
Proof. unfold last_of. rewrite last_cons. by destruct (last gs). Qed.

Lemma last_of_app prior gs hs : last_of prior (gs ++ hs) = last_of (last_of prior gs) hs.
Proof. unfold last_of. rewrite last_app. by destruct (last hs), (last gs). Qed.

Lemma linked_app prior gs hs : linked prior (gs ++ hs) ↔ linked prior gs ∧ linked (last_of prior gs) hs.
Proof.
  revert prior. induction gs as [|g gs IH]; intros prior; cbn [linked app].
  - unfold last_of. cbn. tauto.
  - rewrite last_of_cons, IH. tauto.
Qed.

Lemma scanGeneration_Ok policy x lo hi prior item g :
  scanGeneration policy x lo hi prior item = Ok g →
  follows prior g ∧ lo <= height g <= hi ∧ sourceMismatch (x_sources x) prior g = false ∧
  parseAuthorityGeneration item policy (x_now x) = Ok g.
Proof.
  unfold scanGeneration. intros (g' & Hg & (u & H1%refuse_if_Ok & (u' & H2 & (u'' & H3%refuse_if_Ok & [= ->])%bind_Ok)%bind_Ok)%bind_Ok)%bind_Ok.
  bsimp. zbool. split_and!; try done. destruct u', prior as [p|]; cbn [follows].
  - by apply successor_iff.
  - apply refuse_if_Ok in H2. by bsimp.
Qed.

Lemma sourceMismatch_pinned sources prior g : sourceMismatch sources prior g = false → pinned sources g.
Proof.
  unfold sourceMismatch. cbv zeta. destruct (List.find _ sources) as [s|] eqn:E; [|done]. intros H. bsimp.
  apply find_some in E as [E1 E2]. bsimp. exists s. split_and!; try done; [by apply list_elem_of_In|].
  intros HA. match goal with H : Some _ = _ |- _ => rewrite HA in H; by injection H end.
Qed.

Lemma scanGenerations_Ok policy x lo hi prior items gs l :
  scanGenerations policy x lo hi prior items = Ok (gs, l) →
  linked prior (omap id gs) ∧ l = last_of prior (omap id gs) ∧
  Forall (λ g, lo <= height g <= hi ∧ pinned (x_sources x) g) (omap id gs) ∧ length gs = length items.
Proof.
  revert prior gs. induction items as [|[item|] items IH]; intros prior gs; cbn [scanGenerations].
  - intros [= <- <-]. cbn. auto.
  - intros (g & (HF & HB & HS%sourceMismatch_pinned & _)%scanGeneration_Ok & ((gs' & l') & H & [= <- <-])%bind_Ok)%bind_Ok.
    apply IH in H as (H1 & H2 & H3 & H4). cbn. rewrite last_of_cons. split_and!; auto.
  - intros ((gs' & l') & H & [= <- <-])%bind_Ok. apply IH in H as (H1 & H2 & H3 & H4). cbn.
    split_and!; auto.
Qed.

Lemma canonical_UINT63 s : CANONICAL_DECIMAL s = true → UINT63 (chars s) = true.
Proof.
  unfold CANONICAL_DECIMAL, UINT63. destruct (chars s) as [|c [|d cs]]; [done| |].
  - intros ->. by destruct (code c =? 48).
  - intros H. split_orb. unfold is_char in H1. change (code "0"%char) with 48 in H1. by rewrite H, H0, H1.
Qed.

Lemma uint256_nonneg s : is_uint256 s = true → 0 <= BigInt s.
Proof. unfold is_uint256. intros H. split_orb. by apply BigInt_nonneg, canonical_UINT63. Qed.

Lemma anchor_height v policy now a :
  parseFinalizedBlockAnchor v policy now = Ok a → 0 <= BigInt (ab_blockNumber a).
Proof. intros [HV _]%parseAnchor_Ok. unfold valid_anchor in HV. split_orb. by apply uint256_nonneg. Qed.

Section ScanFacts.
Context `{Sha256}.
#[local] Opaque sha256AuthorityDigest.

(** The range a scan has to start at. *)
Definition range_start (x : ScanExpectation) : string :=
  match x_previousCheckpoint x with
  | Some cp => decimal (BigInt (ab_blockNumber (cb_verifiedThroughBlock (cp_body cp))) + 1)
  | None => x_initialRangeStartBlockNumber x
  end.
Definition counted (x : ScanExpectation) : Z :=
  match x_previousCheckpoint x with
  | Some cp => BigInt (cb_cumulativeTransitionCount (cp_body cp))
  | None => 0
  end.
Definition scanned_to (b : CheckpointBody) : Z := BigInt (ab_blockNumber (cb_verifiedThroughBlock b)).

Record appended (x : ScanExpectation) (s : FinalizedAuthorityTransitionScan) (l : AuthorityGeneration) : Prop := {
  app_linked : linked (x_previousGeneration x) (named s);
  app_last : last_of (x_previousGeneration x) (named s) = Some l;
  app_range : Forall (λ g, BigInt (range_start x) <= height g <= scanned_to (cp_body (fs_checkpoint s)) ∧
                             pinned (x_sources x) g) (named s);
  app_start : cb_rangeStartBlockNumber (cp_body (fs_checkpoint s)) = range_start x;
  app_forward : BigInt (range_start x) <= scanned_to (cp_body (fs_checkpoint s));
  app_count : BigInt (cb_cumulativeTransitionCount (cp_body (fs_checkpoint s)))
              = counted x + Z.of_nat (length (fs_generations s));
  app_scanned : 0 <= scanned_to (cp_body (fs_checkpoint s));
  app_names_last : cb_lastGenerationId (cp_body (fs_checkpoint s)) = g_generationId l ∧
                   cb_lastGenerationSequence (cp_body (fs_checkpoint s)) = g_sequence l;
  app_project : cb_project (cp_body (fs_checkpoint s)) = x_project x;
  app_same : ∀ cp, x_previousCheckpoint x = Some cp →
    cb_project (cp_body cp) = x_project x ∧ cb_sourceSetDigest (cp_body cp) = cb_sourceSetDigest (cp_body (fs_checkpoint s)) ∧
    cb_previousCheckpointId (cp_body (fs_checkpoint s)) = Some (cb_checkpointId (cp_body cp)) ∧
    cb_previousCheckpointDigest (cp_body (fs_checkpoint s)) = Some (cp_checkpointDigest cp) ∧
    cb_checkpointId (cp_body cp) ≠ cb_checkpointId (cp_body (fs_checkpoint s));
  app_together : x_previousCheckpoint x = None ↔ x_previousGeneration x = None;
  app_detached : detachedPredecessor x = Ok () }.

Lemma checkpointGap_false x p id d ss rs :
  checkpointGap x p id d ss rs = false →
  rs = range_start x ∧ ∀ cp, x_previousCheckpoint x = Some cp →
    id = Some (cb_checkpointId (cp_body cp)) ∧ d = Some (cp_checkpointDigest cp) ∧
    cb_sourceSetDigest (cp_body cp) = ss ∧ cb_project (cp_body cp) = p.
Proof.
  unfold checkpointGap, range_start. destruct (x_previousCheckpoint x) as [cp|]; intros H'; bsimp.
  - split; [done|]. intros ? [= <-]. by rewrite <- sameProject_eq.
  - by split.
Qed.

Lemma detached_together x :
  detachedPredecessor x = Ok () → x_previousCheckpoint x = None ↔ x_previousGeneration x = None.
Proof. unfold detachedPredecessor. by destruct (x_previousCheckpoint x), (x_previousGeneration x). Qed.

Lemma scan_Ok v policy x s :
  parseFinalizedAuthorityTransitionScan v policy x = Ok s → ∃ l, appended x s l.
Proof.
  unfold parseFinalizedAuthorityTransitionScan.
  intros (sr & _ & H0)%bind_Ok. apply bind_Ok in H0 as (u & _ & H0). cbv zeta in H0.
  destruct (sr.["generations"]) as [| | | | | | | | |p items e|]; try discriminate H0.
  inv_auth.
  match goal with H : match ?sc.2 with _ => _ end = Ok s |- _ => destruct sc as [gs [l|]]; cbn in H; [|discriminate H] end.
  inv_auth. subst s. bsimp. exists l.
  repeat match goal with
  | u : () |- _ => destruct u
  | H : sameJuiceboxV6ProjectRef _ _ = true |- _ => apply sameProject_eq in H
  | H : checkpointGap _ _ _ _ _ _ = false |- _ => apply checkpointGap_false in H as [? ?]
  | H : scanGenerations _ _ _ _ _ _ = Ok _ |- _ => apply scanGenerations_Ok in H as (? & ? & ? & ?)
  end. zbool. subst.
  constructor; cbn [fs_checkpoint fs_generations cp_body cb_rangeStartBlockNumber cb_cumulativeTransitionCount
    cb_lastGenerationId cb_lastGenerationSequence cb_project cb_checkpointId cb_previousCheckpointId cb_previousCheckpointDigest
    cb_sourceSetDigest]; try done.
  - by eapply anchor_height.
  - intros cp Hcp. match goal with H : ∀ _, _ → _ |- _ => destruct (H cp Hcp) as (-> & -> & -> & ->) end.
    split_and!; try done. rewrite Hcp in *. by bsimp.
  - by apply detached_together.
Qed.

(** ** The history of a project's authority *)

(** The checkpoint reached, the generations so far, the holes counted along the
    way and the scans it took: every scan continues from the checkpoint and the
    last generation of the one before. *)
Inductive ledger (policy : FinalityPolicy) :
  AuthorityTransitionScanCheckpoint → list AuthorityGeneration → nat → nat → Prop :=
| ledger_first v x s :
    x_previousCheckpoint x = None →
    parseFinalizedAuthorityTransitionScan v policy x = Ok s →
    ledger policy (fs_checkpoint s) (named s) (length (fs_generations s) - length (named s)) 1
| ledger_next cp history holes scans v x s :
    ledger policy cp history holes scans →
    x_previousCheckpoint x = Some cp → x_previousGeneration x = last history →
    parseFinalizedAuthorityTransitionScan v policy x = Ok s →
    ledger policy (fs_checkpoint s) (history ++ named s)
      (holes + (length (fs_generations s) - length (named s))) (S scans).

Lemma named_length s : (length (named s) <= length (fs_generations s))%nat.
Proof. unfold named. induction (fs_generations s) as [|[g|] gs IH]; cbn; lia. Qed.

Lemma before_trans : Transitive before.
Proof. unfold Transitive, before, cursor_before. intros g h k. intuition (congruence || lia). Qed.

Lemma linked_sorted prior gs : linked prior gs → Sorted before gs.
Proof.
  revert prior. induction gs as [|g gs IH]; intros prior; [constructor|]. intros [_ HL]. constructor; [by eapply IH|].
  destruct gs as [|h gs]; [constructor|]. constructor. by destruct HL as [[] _].
Qed.

Lemma linked_sequence prior gs i g :
  linked prior gs → gs !! i = Some g →
  BigInt (g_sequence g) = match prior with Some p => BigInt (g_sequence p) | None => 0 end + Z.of_nat i + 1.
Proof.
  revert prior i. induction gs as [|h gs IH]; intros prior [|i] HL; cbn; try discriminate; destruct HL as [HF HL].
  - intros [= ->]. destruct prior as [p|]; [destruct HF; lia|]. destruct HF as [-> _]. change (BigInt "1") with 1. lia.
  - intros HI. rewrite (IH _ _ HL HI). destruct prior as [p|]; [destruct HF; lia|].
    destruct HF as [-> _]. change (BigInt "1") with 1. lia.
Qed.

Lemma linked_predecessor prior gs i g h :
  linked prior gs → gs !! i = Some g → gs !! S i = Some h → succeeds g h.
Proof.
  revert prior i. induction gs as [|k gs IH]; intros prior [|i] HL; cbn; try discriminate; destruct HL as [HF HL].
  - intros [= ->]. destruct gs as [|h' gs]; [done|]. intros [= ->]. by destruct HL as [HF' _].
  - by eapply IH.
Qed.

Lemma linked_project prior gs g :
  linked prior gs → g ∈ gs → ∀ l, last_of prior gs = Some l → g_project g = g_project l.
Proof.
  revert prior g. induction gs as [|h gs IH]; intros prior g HL Hg l; [by apply not_elem_of_nil in Hg|].
  rewrite last_of_cons. destruct HL as [HF HL]. intros Hl. apply elem_of_cons in Hg as [->|Hg]; [|by eapply IH].
  destruct gs as [|k gs]; [by injection Hl as ->|]. destruct HL as [[Hp] HL]. rewrite <- Hp.
  apply (IH (Some h) k); [|by left|done]. cbn. split; [|done]. by constructor.
Qed.

(** What the ledger maintains. *)
Record history_ok (cp : AuthorityTransitionScanCheckpoint) (history : list AuthorityGeneration) (holes scans : nat) : Prop := {
  ho_linked : linked None history;
  ho_range : Forall (λ g, height g <= scanned_to (cp_body cp)) history;
  ho_scanned : 0 <= scanned_to (cp_body cp);
  ho_count : BigInt (cb_cumulativeTransitionCount (cp_body cp)) = Z.of_nat (length history + holes);
  ho_last : ∃ l, last history = Some l ∧ cb_lastGenerationId (cp_body cp) = g_generationId l ∧
              cb_lastGenerationSequence (cp_body cp) = g_sequence l;
  ho_project : (1 < scans)%nat → Forall (λ g, g_project g = cb_project (cp_body cp)) history }.

Lemma decimal_succ z : 0 <= z → BigInt (decimal (z + 1)) = z + 1.
Proof. intros Hz. apply (decimal_spec (z + 1)). lia. Qed.

Lemma ledger_ok policy cp history holes scans :
  ledger policy cp history holes scans → history_ok cp history holes scans.
Proof.
  induction 1 as [v x s HN (l & HA)%scan_Ok|cp history holes scans v x s HL IH HC HG (l & HA)%scan_Ok].
  - destruct HA as [A1 A2 A3 _ _ A6 A6' A7 _ _ A10 _]. rewrite (proj1 A10 HN) in *. pose proof (named_length s).
    constructor; [done| |done| | |lia].
    + eapply Forall_impl; [exact A3|]. cbn. lia.
    + rewrite A6. unfold counted. rewrite HN. lia.
    + exists l. split; [|done]. unfold last_of in A2. by destruct (last (named s)).
  - destruct HA as [A1 A2 A3 _ A5 A6 A6' A7 A8 A9 _ A11]. destruct IH as [I1 I2 I2' I3 (l' & I4 & _) _].
    rewrite HG in *. pose proof (named_length s). destruct (A9 cp HC) as (E1 & _ & _ & _ & _).
    assert (HLO : last_of None history = Some l') by (unfold last_of; by rewrite I4).
    assert (HL' : linked None (history ++ named s)).
    { apply linked_app. split; [done|]. by rewrite HLO, <- I4. }
    assert (HT : last_of None (history ++ named s) = Some l).
    { rewrite last_of_app, HLO, <- A2, I4. done. }
    constructor; [done| |done| | |].
    + apply Forall_app. split; [|eapply Forall_impl; [exact A3|cbn; lia]].
      eapply Forall_impl; [exact I2|]. cbn. intros g Hg. unfold range_start in A5. rewrite HC in A5.
      fold (scanned_to (cp_body cp)) in A5. rewrite decimal_succ in A5 by done. lia.
    + rewrite A6. unfold counted. rewrite HC, I3, length_app. lia.
    + exists l. split; [|done]. unfold last_of in HT. destruct (last (history ++ named s)); congruence.
    + intros _. rewrite A8, <- E1. apply Forall_forall. intros g Hg.
      rewrite (linked_project _ _ _ HL' Hg _ HT).
      unfold detachedPredecessor in A11. rewrite HC, HG, I4 in A11.
      apply bind_Ok in A11 as (u & A11%refuse_if_Ok & _). bsimp. apply sameProject_eq in A11. rewrite A11.
      symmetry. assert (Hl' : l' ∈ history ++ named s).
      { apply elem_of_app. left. by apply last_Some_elem_of. }
      exact (linked_project _ _ _ HL' Hl' _ HT).
Qed.
End ScanFacts.

(** ** Theorems *)

Section Theorems.
Context `{Sha256}.

(** C5: The history the scans build has no gaps and no rewrites: generations are
    numbered from one, every generation succeeds the one before it, finalized
    transitions appear in strict order, none is beyond the block scanned to, the
    checkpoint names the last one, and the cumulative count is their number plus
    the holes of sparse scan results.  From the second scan on they are all of
    the checkpoint's project. *)
Theorem authority_history policy cp history holes scans :
  ledger policy cp history holes scans →
  (∀ i g, history !! i = Some g → BigInt (g_sequence g) = Z.of_nat i + 1) ∧
  (∀ i g h, history !! i = Some g → history !! S i = Some h → succeeds g h) ∧
  StronglySorted before history ∧
  Forall (λ g, height g <= scanned_to (cp_body cp)) history ∧
  BigInt (cb_cumulativeTransitionCount (cp_body cp)) = Z.of_nat (length history + holes) ∧
  (∃ l, last history = Some l ∧ cb_lastGenerationId (cp_body cp) = g_generationId l ∧
    cb_lastGenerationSequence (cp_body cp) = g_sequence l) ∧
  ((1 < scans)%nat → Forall (λ g, g_project g = cb_project (cp_body cp)) history).
Proof.
  intros [HL HR _ HC HLast HP]%ledger_ok. split_and!; try done.
  - intros i g Hi. by rewrite (linked_sequence _ _ _ _ HL Hi).
  - intros i g h. by eapply linked_predecessor.
  - apply Sorted_StronglySorted; [exact before_trans|by eapply linked_sorted].
Qed.

(** C29: A scan that continues a checkpoint covers exactly the blocks after it: what
    it appends lies strictly behind everything scanned before and within the
    new range, succeeds the last known generation, and each transition was
    emitted by a source pinned in the manifest for its cause. *)
Theorem scan_continues v policy x cp s :
  x_previousCheckpoint x = Some cp → 0 <= scanned_to (cp_body cp) →
  parseFinalizedAuthorityTransitionScan v policy x = Ok s →
  let body := cp_body (fs_checkpoint s) in
  cb_previousCheckpointId body = Some (cb_checkpointId (cp_body cp)) ∧
  cb_previousCheckpointDigest body = Some (cp_checkpointDigest cp) ∧
  BigInt (cb_rangeStartBlockNumber body) = scanned_to (cp_body cp) + 1 ∧
  linked (x_previousGeneration x) (named s) ∧
  Forall (λ g, scanned_to (cp_body cp) < height g <= scanned_to body ∧ pinned (x_sources x) g) (named s) ∧
  BigInt (cb_cumulativeTransitionCount body)
    = BigInt (cb_cumulativeTransitionCount (cp_body cp)) + Z.of_nat (length (fs_generations s)).
Proof.
  intros HC HN (l & [A1 A2 A3 A4 A5 A6 _ _ _ A9 _ _])%scan_Ok body. destruct (A9 cp HC) as (_ & _ & E1 & E2 & _).
  unfold range_start, counted in *. rewrite HC in *. fold (scanned_to (cp_body cp)) in *.
  rewrite decimal_succ in * by done. split_and!; try done.
  - unfold body. rewrite A4. by apply decimal_succ.
  - eapply Forall_impl; [exact A3|]. cbn. intros g [Hg HP]. split; [unfold body; lia|done].
Qed.
End Theorems.

(** ** Samples *)

Module Samples.
#[local] Existing Instance checksum_digest.


Definition block (n : string) : FinalizedBlockAnchor :=
  {| ab_chainId := 8453; ab_blockNumber := n; ab_blockHash := sample_hex 64 "b"%char;
     ab_finalizedAt := "2026-01-01T00:00:00.000Z"; ab_providerIds := [Some "alchemy"; Some "quicknode"] |}.

Definition project (id : Z) : JuiceboxV6ProjectRef :=
  {| j_chainId := 8453; j_projectId := id; j_deploymentManifestId := "manifest";
     j_projectsContract := sample_hex 40 "c"%char |}.

Definition source (id : string) (cause : AuthorityTransitionCause) : AuthorityTransitionSource :=
  {| ts_sourceId := id; ts_deploymentManifestId := "manifest"; ts_adapterRevision := "adapter";
     ts_authorityMode := jbprojects_owner; ts_transitionCause := cause;
     ts_emitter := sample_hex 40 "c"%char; ts_eventTopic0 := sample_hex 64 "e"%char |}.
Definition sources : list AuthorityTransitionSource :=
  [source "mint" bootstrap; source "transfer" ordinary_owner_transfer].

Definition cursor (sourceId n : string) (log : Z) : AuthorityTransitionCursor :=
  {| tc_deploymentManifestId := "manifest"; tc_adapterRevision := "adapter"; tc_sourceId := sourceId;
     tc_blockNumber := n; tc_blockHash := sample_hex 64 "b"%char;
     tc_transactionHash := sample_hex 64 "f"%char; tc_transactionIndex := 3; tc_logIndex := log;
     tc_emitter := sample_hex 40 "c"%char; tc_eventTopic0 := sample_hex 64 "e"%char |}.

(** Generation one of a project, by its mint. *)
Definition minted (p : JuiceboxV6ProjectRef) : AuthorityGeneration :=
  {| g_generationId := "generation-1"; g_project := p; g_sequence := "1";
     g_transitionCause := bootstrap; g_authorityStatus := authority_active;
     g_rootKind := jbprojects_owner; g_rootPrincipal := Some (sample_hex 40 "1"%char);
     g_rootEvidenceId := "evidence-1"; g_rootEvidenceDigest := sample_hex 64 "1"%char;
     g_activatedAtBlock := block "100"; g_transitionCursor := cursor "mint" "100" 7;
     g_predecessorGenerationId := None |}.

Definition transferred : AuthorityGeneration :=
  {| g_generationId := "generation-2"; g_project := project 1; g_sequence := "2";
     g_transitionCause := ordinary_owner_transfer; g_authorityStatus := authority_active;
     g_rootKind := jbprojects_owner; g_rootPrincipal := Some (sample_hex 40 "2"%char);
     g_rootEvidenceId := "evidence-2"; g_rootEvidenceDigest := sample_hex 64 "2"%char;
     g_activatedAtBlock := block "150"; g_transitionCursor := cursor "transfer" "150" 2;
     g_predecessorGenerationId := Some "generation-1" |}.

(** A checkpoint of project 1, and its value. *)
Definition body (id : string) (previous : option AuthorityTransitionScanCheckpoint) (start end_ : string)
    (count : Z) (cumulative : string) (gs : list (option AuthorityGeneration)) (l : AuthorityGeneration) : CheckpointBody :=
  {| cb_checkpointId := id; cb_project := project 1; cb_deploymentManifestId := "manifest";
     cb_adapterRevision := "adapter";
     cb_sourceSetDigest := ok_or "" (computeAuthorityTransitionSourceSetDigest sources);
     cb_previousCheckpointId := cb_checkpointId ∘ cp_body <$> previous;
     cb_previousCheckpointDigest := cp_checkpointDigest <$> previous;
     cb_rangeStartBlockNumber := start; cb_verifiedThroughBlock := block end_;
     cb_rangeTransitionCount := count; cb_cumulativeTransitionCount := cumulative;
     cb_lastGenerationId := g_generationId l; cb_lastGenerationSequence := g_sequence l;
     cb_lastTransitionCursor := g_transitionCursor l;
     cb_transitionsDigest := ok_or "" (transitionsDigestOf gs) |}.

Definition checkpoint (b : CheckpointBody) : AuthorityTransitionScanCheckpoint :=
  {| cp_body := b; cp_checkpointDigest := ok_or "" (checkpointDigestOf b) |}.

Definition scan_obj (s : FinalizedAuthorityTransitionScan) : unknown :=
  obj [("kind", VString "finalized-authority-transition-scan.v1");
       ("checkpoint", obj (body_fields (cp_body (fs_checkpoint s)) ++
                           [("checkpointDigest", VString (cp_checkpointDigest (fs_checkpoint s)))]));
       ("generations", generations_obj (fs_generations s))].

Definition expectation (previous : option AuthorityTransitionScanCheckpoint) (g : option AuthorityGeneration)
    (end_ : string) : ScanExpectation :=
  {| x_project := project 1; x_adapterRevision := "adapter"; x_sources := sources;
     x_previousCheckpoint := previous; x_previousGeneration := g;
     x_initialRangeStartBlockNumber := "90"; x_verifiedThroughBlock := block end_;
     x_now := "2026-01-01T00:05:00.000Z" |}.

(** The mint of a project, and a transfer followed by a hole. *)
Definition first_scan (p : JuiceboxV6ProjectRef) : FinalizedAuthorityTransitionScan :=
  let gs := [Some (minted p)] in
  {| fs_checkpoint := checkpoint (body "checkpoint-1" None "90" "120" 1 "1" gs (minted p));
     fs_generations := gs |}.
Definition second_scan : FinalizedAuthorityTransitionScan :=
  let gs := [Some transferred; None] in
  {| fs_checkpoint := checkpoint (body "checkpoint-2" (Some (fs_checkpoint (first_scan (project 1)))) "121" "160"
                                    2 "3" gs transferred);
     fs_generations := gs |}.

Definition second_expectation : ScanExpectation :=
  expectation (Some (fs_checkpoint (first_scan (project 1)))) (Some (minted (project 1))) "160".

Lemma first_accepted p :
  p ∈ [project 1; project 2] →
  parseFinalizedAuthorityTransitionScan (scan_obj (first_scan p)) sample_policy (expectation None None "120")
  = Ok (first_scan p).
Proof.
  intros [->|[->|[]%elem_of_nil]%elem_of_cons]%elem_of_cons; vm_compute; reflexivity.
Defined.

Lemma second_accepted :
  parseFinalizedAuthorityTransitionScan (scan_obj second_scan) sample_policy second_expectation = Ok second_scan.
Proof. vm_compute. reflexivity. Defined.

(** The checkpoint of project 1 is accepted over a history of project 2: the
    first scan compares its generations with no project but each other's. *)
Theorem initial_scan_foreign_project :
  ∃ s g,
    parseFinalizedAuthorityTransitionScan (scan_obj s) sample_policy (expectation None None "120") = Ok s ∧
    named s = [g] ∧ cb_project (cp_body (fs_checkpoint s)) = project 1 ∧ g_project g = project 2.
Proof.
  exists (first_scan (project 2)), (minted (project 2)).
  split; [apply first_accepted; right; left|]. by repeat split.
Qed.

Lemma authority_history_witness :
  ledger sample_policy (fs_checkpoint second_scan) [minted (project 1); transferred] 1 2 ∧
  cb_cumulativeTransitionCount (cp_body (fs_checkpoint second_scan)) = "3" ∧
  succeeds (minted (project 1)) transferred ∧
  Forall (λ g, g_project g = project 1) [minted (project 1); transferred].
Proof.
  assert (HL : ledger sample_policy (fs_checkpoint second_scan) [minted (project 1); transferred] 1 2).
  { assert (H1 : ledger sample_policy (fs_checkpoint (first_scan (project 1))) [minted (project 1)] 0 1).
    { apply (ledger_first _ (scan_obj (first_scan (project 1))) (expectation None None "120") (first_scan (project 1)));
        [reflexivity|apply first_accepted; left]. }
    apply (ledger_next _ _ _ _ _ (scan_obj second_scan) second_expectation second_scan H1);
      [reflexivity|reflexivity|exact second_accepted]. }
  split; [exact HL|]. split; [reflexivity|].
  destruct (authority_history _ _ _ _ _ HL) as (_ & HS & _ & _ & _ & _ & HP).
  split; [exact (HS 0%nat _ _ eq_refl eq_refl)|]. apply HP. lia.
Defined.

Lemma scan_continues_witness :
  scanned_to (cp_body (fs_checkpoint (first_scan (project 1)))) = 120 ∧
  (parseFinalizedAuthorityTransitionScan (scan_obj second_scan) sample_policy second_expectation = Ok second_scan) ∧
  Forall (λ g, 120 < height g <= 160 ∧ pinned sources g) (named second_scan).
Proof.
  split; [vm_compute; reflexivity|]. split; [exact second_accepted|].
  destruct (scan_continues _ sample_policy second_expectation (fs_checkpoint (first_scan (project 1))) second_scan eq_refl ltac:(vm_compute; discriminate) second_accepted)
    as (_ & _ & _ & _ & H & _).
  eapply Forall_impl; [exact H|]. intros g [Hg HP]. split; [|exact HP].
  change (scanned_to (cp_body (fs_checkpoint (first_scan (project 1))))) with (BigInt "120") in Hg.
  change (scanned_to (cp_body (fs_checkpoint second_scan))) with (BigInt "160") in Hg. exact Hg.
Defined.
End Samples.
