(* ===== verification/AuthorityDecisions.v ===== *)
(** * Authority decisions ([src/production/authority/decisions.ts])

    The decision an authority service gives on a request (eligible with a
    lease, ineligible, pending finality, unavailable), the evidence it names,
    and the audit record that is persisted before it is released. *)

From stdpp Require Import base list strings.
From Stdlib Require Import ZArith Lia Ascii.
From S2P Require Import Prelude Sha256 Base64Url JsTime JsValue ValueObjects Quota CanonicalJson AuthorityValues AuthorityFinality AuthorityDigests AuthorityGenerations.

Definition MAX_AUTHORITY_LEASE_LIFETIME_MS : Z := 5 * 60 * 1000.

(** ** Unions of literals *)

Inductive AuthorityAction :=
| purchase_support_join | purchase_support_send | fulfillment_submit_address
| fulfillment_request_address | fulfillment_read_address | fulfillment_acknowledge_address
| fulfillment_update_status | fulfillment_set_tracking.
#[export] Instance AuthorityAction_eq_dec : EqDecision AuthorityAction.
Proof. solve_decision. Defined.
#[export] Instance AuthorityAction_literal : Literal AuthorityAction := {|
  lit a := match a with
           | purchase_support_join => "purchase-support:join"
           | purchase_support_send => "purchase-support:send"
           | fulfillment_submit_address => "fulfillment:submit-address"
           | fulfillment_request_address => "fulfillment:request-address"
           | fulfillment_read_address => "fulfillment:read-address"
           | fulfillment_acknowledge_address => "fulfillment:acknowledge-address"
           | fulfillment_update_status => "fulfillment:update-status"
           | fulfillment_set_tracking => "fulfillment:set-tracking" end;
  lits := [purchase_support_join; purchase_support_send; fulfillment_submit_address;
           fulfillment_request_address; fulfillment_read_address; fulfillment_acknowledge_address;
           fulfillment_update_status; fulfillment_set_tracking] |}.

Inductive AuthorityEvidenceKind :=
| wallet_signature | device_possession | device_credential | finalized_receipt
| purchase_beneficiary | tier_purchase | project_root | authority_generation | staff_delegation
| refund_ledger.
#[export] Instance EvidenceKind_eq_dec : EqDecision AuthorityEvidenceKind.
Proof. solve_decision. Defined.
#[export] Instance EvidenceKind_literal : Literal AuthorityEvidenceKind := {|
  lit k := match k with
           | wallet_signature => "wallet-signature" | device_possession => "device-possession"
           | device_credential => "device-credential" | finalized_receipt => "finalized-receipt"
           | purchase_beneficiary => "purchase-beneficiary" | tier_purchase => "tier-purchase"
           | project_root => "project-root" | authority_generation => "authority-generation"
           | staff_delegation => "staff-delegation" | refund_ledger => "refund-ledger" end;
  lits := [wallet_signature; device_possession; device_credential; finalized_receipt;
           purchase_beneficiary; tier_purchase; project_root; authority_generation;
           staff_delegation; refund_ledger] |}.

Inductive RefundStatus :=
| no_applicable_entry | purchase_upheld | refund_recorded | dispute_open | refund_resolved.
#[export] Instance RefundStatus_eq_dec : EqDecision RefundStatus.
Proof. solve_decision. Defined.
#[export] Instance RefundStatus_literal : Literal RefundStatus := {|
  lit s := match s with
           | no_applicable_entry => "no-applicable-entry" | purchase_upheld => "purchase-upheld"
           | refund_recorded => "refund-recorded" | dispute_open => "dispute-open"
           | refund_resolved => "refund-resolved" end;
  lits := [no_applicable_entry; purchase_upheld; refund_recorded; dispute_open; refund_resolved] |}.

Inductive IneligibleReason :=
| reason_signature_invalid | device_invalid_or_revoked | purchase_beneficiary_mismatch
| item_not_purchased | project_authority_invalid | staff_delegation_invalid_or_stale
| capability_not_delegated | refund_or_dispute_blocks_access | canonical_evidence_orphaned.
#[export] Instance IneligibleReason_eq_dec : EqDecision IneligibleReason.
Proof. solve_decision. Defined.
#[export] Instance IneligibleReason_literal : Literal IneligibleReason := {|
  lit r := match r with
           | reason_signature_invalid => "signature-invalid"
           | device_invalid_or_revoked => "device-invalid-or-revoked"
           | purchase_beneficiary_mismatch => "purchase-beneficiary-mismatch"
           | item_not_purchased => "item-not-purchased"
           | project_authority_invalid => "project-authority-invalid"
           | staff_delegation_invalid_or_stale => "staff-delegation-invalid-or-stale"
           | capability_not_delegated => "capability-not-delegated"
           | refund_or_dispute_blocks_access => "refund-or-dispute-blocks-access"
           | canonical_evidence_orphaned => "canonical-evidence-orphaned" end;
  lits := [reason_signature_invalid; device_invalid_or_revoked; purchase_beneficiary_mismatch;
           item_not_purchased; project_authority_invalid; staff_delegation_invalid_or_stale;
           capability_not_delegated; refund_or_dispute_blocks_access; canonical_evidence_orphaned] |}.

Inductive DecisionUnavailable :=
| authority_service_not_configured | required_verifier_unavailable | decision_rpc_unavailable
| decision_audit_store_unavailable | decision_malformed_verifier_response.
#[export] Instance DecisionUnavailable_eq_dec : EqDecision DecisionUnavailable.
Proof. solve_decision. Defined.
#[export] Instance DecisionUnavailable_literal : Literal DecisionUnavailable := {|
  lit r := match r with
           | authority_service_not_configured => "authority-service-not-configured"
           | required_verifier_unavailable => "required-verifier-unavailable"
           | decision_rpc_unavailable => "rpc-unavailable"
           | decision_audit_store_unavailable => "audit-store-unavailable"
           | decision_malformed_verifier_response => "malformed-verifier-response" end;
  lits := [authority_service_not_configured; required_verifier_unavailable;
           decision_rpc_unavailable; decision_audit_store_unavailable;
           decision_malformed_verifier_response] |}.

(** A status and its reason: the reasons of different statuses differ. *)
Inductive Verdict :=
| verdict_eligible | verdict_ineligible (reasonCode : IneligibleReason) | verdict_pending
| verdict_unavailable (reasonCode : DecisionUnavailable).
#[export] Instance Verdict_eq_dec : EqDecision Verdict.
Proof. solve_decision. Defined.

(** ** Data *)

Record AuthoritySubject := {
  as_account : string; as_participantId : string; as_installationId : string;
  as_deviceCredentialId : string }.

Inductive AuthorityResource :=
| purchase_support (project : JuiceboxV6ProjectRef) (purchaseEvidenceId transactionHash : string)
    (payLogIndex : Z)
| tier_fulfillment (project : JuiceboxV6ProjectRef) (purchaseEvidenceId tierId tokenId : string)
| project_staff (project : JuiceboxV6ProjectRef) (requiredCapability : string).

Definition resource_project (r : AuthorityResource) : JuiceboxV6ProjectRef :=
  match r with
  | purchase_support p _ _ _ | tier_fulfillment p _ _ _ | project_staff p _ => p
  end.

(** The eligibility effect is the one of the status. *)
Record RefundDecision := {
  rf_headId : string; rf_headSequence : string; rf_headDigest : string;
  rf_currentStatus : RefundStatus; rf_evaluatedAt : string; rf_freshUntil : string }.

Record AuthorityEvidenceReference := {
  ev_evidenceId : string; ev_evidenceKind : AuthorityEvidenceKind; ev_digest : string;
  ev_policyId : string; ev_policyRevision : string; ev_policyHash : string;
  ev_resourceDigest : option string; ev_refundDecision : option RefundDecision;
  ev_project : option JuiceboxV6ProjectRef; ev_subjectAccount : option string;
  ev_generationId : option string; ev_blockNumber : option string; ev_blockHash : option string;
  ev_expiresAt : option string }.

Record AuthorityGateRequest := {
  gr_requestId : string; gr_evaluatedAt : string; gr_policyId : string; gr_policyRevision : string;
  gr_policyHash : string; gr_subject : AuthoritySubject; gr_resource : AuthorityResource;
  gr_action : AuthorityAction; gr_inputDigest : string; gr_resourceDigest : string }.

Record PersistedDecisionAudit := {
  pa_auditRecordId : string; pa_auditRecordDigest : string; pa_decisionId : string;
  pa_decisionDigest : string; pa_idempotencyKey : string; pa_auditSignerKeyId : string;
  pa_auditHeadDigest : string }.

Record DecisionBase := {
  db_decisionId : string; db_requestId : string; db_evaluatedAt : string; db_policyId : string;
  db_policyRevision : string; db_policyHash : string; db_subject : AuthoritySubject;
  db_resource : AuthorityResource; db_action : AuthorityAction; db_inputDigest : string;
  db_resourceDigest : string; db_decisionDigest : string;
  db_evidence : list AuthorityEvidenceReference }.

Record AuthorityLease := {
  al_leaseId : string; al_issuedAt : string; al_expiresAt : string;
  al_authorityGenerationId : option string }.

(** [None] is the audit of a decision that could not be audited. *)
Inductive AuthorityDecision :=
| decision_eligible (base : DecisionBase) (lease : AuthorityLease) (audit : PersistedDecisionAudit)
| decision_ineligible (base : DecisionBase) (reasonCode : IneligibleReason)
    (audit : PersistedDecisionAudit)
| decision_pending (base : DecisionBase) (candidateBlockNumber candidateBlockHash : string)
    (retryAfter : string) (audit : PersistedDecisionAudit)
| decision_unavailable (base : DecisionBase) (reasonCode : DecisionUnavailable)
    (audit : option PersistedDecisionAudit).

Definition decision_base (d : AuthorityDecision) : DecisionBase :=
  match d with
  | decision_eligible b _ _ | decision_ineligible b _ _ | decision_pending b _ _ _ _
  | decision_unavailable b _ _ => b
  end.
Definition decision_audit (d : AuthorityDecision) : option PersistedDecisionAudit :=
  match d with
  | decision_eligible _ _ a | decision_ineligible _ _ a | decision_pending _ _ _ _ a => Some a
  | decision_unavailable _ _ a => a
  end.
Definition decision_verdict (d : AuthorityDecision) : Verdict :=
  match d with
  | decision_eligible _ _ _ => verdict_eligible
  | decision_ineligible _ r _ => verdict_ineligible r
  | decision_pending _ _ _ _ _ => verdict_pending
  | decision_unavailable _ r _ => verdict_unavailable r
  end.

(** The evidence of a record may have holes. *)
Record AuthorityAuditRecord := {
  ar_auditRecordId : string; ar_auditRecordDigest : string; ar_decisionId : string;
  ar_idempotencyKey : string; ar_auditSignerKeyId : string; ar_priorAuditHeadDigest : string;
  ar_auditHeadDigest : string; ar_recordedAt : string; ar_policyId : string;
  ar_policyRevision : string; ar_policyHash : string; ar_action : AuthorityAction;
  ar_subject : AuthoritySubject; ar_project : JuiceboxV6ProjectRef; ar_inputDigest : string;
  ar_resourceDigest : string; ar_verdict : Verdict;
  ar_evidence : list (option AuthorityEvidenceReference); ar_decisionDigest : string }.

(** ** As the values they are digested as *)

Definition subject_obj (s : AuthoritySubject) : unknown :=
  obj [("account", VString (as_account s)); ("participantId", VString (as_participantId s));
       ("installationId", VString (as_installationId s));
       ("deviceCredentialId", VString (as_deviceCredentialId s))].

Definition resource_obj (r : AuthorityResource) : unknown :=
  match r with
  | purchase_support p e h i =>
      obj [("kind", VString "purchase-support"); ("project", project_obj p);
           ("purchaseEvidenceId", VString e); ("transactionHash", VString h);
           ("payLogIndex", VInt i)]
  | tier_fulfillment p e t k =>
      obj [("kind", VString "tier-fulfillment"); ("project", project_obj p);
           ("purchaseEvidenceId", VString e); ("tierId", VString t); ("tokenId", VString k)]
  | project_staff p c =>
      obj [("kind", VString "project-staff"); ("project", project_obj p);
           ("requiredCapability", VString c)]
  end.

(** [shouldClear]. *)
Definition clears (s : RefundStatus) : bool :=
  match s with no_applicable_entry | purchase_upheld => true | _ => false end.
Definition eligibilityEffect (s : RefundStatus) : string := if clears s then "clear" else "block".

Definition refund_obj (d : RefundDecision) : unknown :=
  obj [("kind", VString "refund-eligibility-decision.v1"); ("headId", VString (rf_headId d));
       ("headSequence", VString (rf_headSequence d)); ("headDigest", VString (rf_headDigest d));
       ("currentStatus", VString (lit (rf_currentStatus d)));
       ("eligibilityEffect", VString (eligibilityEffect (rf_currentStatus d)));
       ("evaluatedAt", VString (rf_evaluatedAt d)); ("freshUntil", VString (rf_freshUntil d))].

Definition reference_obj (e : AuthorityEvidenceReference) : unknown :=
  obj [("kind", VString "authority-evidence-reference.v1"); ("evidenceId", VString (ev_evidenceId e));
       ("evidenceKind", VString (lit (ev_evidenceKind e))); ("digest", VString (ev_digest e));
       ("policyId", VString (ev_policyId e)); ("policyRevision", VString (ev_policyRevision e));
       ("policyHash", VString (ev_policyHash e));
       ("resourceDigest", nullable VString (ev_resourceDigest e));
       ("refundDecision", nullable refund_obj (ev_refundDecision e));
       ("project", nullable project_obj (ev_project e));
       ("subjectAccount", nullable VString (ev_subjectAccount e));
       ("generationId", nullable VString (ev_generationId e));
       ("blockNumber", nullable VString (ev_blockNumber e));
       ("blockHash", nullable VString (ev_blockHash e));
       ("expiresAt", nullable VString (ev_expiresAt e))].
Definition evidence_obj (es : list (option AuthorityEvidenceReference)) : unknown :=
  VArray ArrayPrototype (map (fmap reference_obj) es) 0.

(** A request without its input digest. *)
Definition request_fields (r : AuthorityGateRequest) : list (string * unknown) :=
  [("requestId", VString (gr_requestId r)); ("evaluatedAt", VString (gr_evaluatedAt r));
   ("policyId", VString (gr_policyId r)); ("policyRevision", VString (gr_policyRevision r));
   ("policyHash", VString (gr_policyHash r)); ("subject", subject_obj (gr_subject r));
   ("resource", resource_obj (gr_resource r)); ("action", VString (lit (gr_action r)));
   ("resourceDigest", VString (gr_resourceDigest r))].

Definition verdict_status (v : Verdict) : string :=
  match v with
  | verdict_eligible => "eligible" | verdict_ineligible _ => "ineligible"
  | verdict_pending => "pending-finality" | verdict_unavailable _ => "unavailable"
  end.
Definition verdict_reason (v : Verdict) : string :=
  match v with
  | verdict_eligible => "all-required-evidence-current" | verdict_ineligible r => lit r
  | verdict_pending => "receipt-above-finalized-head" | verdict_unavailable r => lit r
  end.

(** The base without its digest. *)
Definition base_fields (b : DecisionBase) : list (string * unknown) :=
  [("kind", VString "authority-decision.v1"); ("decisionId", VString (db_decisionId b));
   ("requestId", VString (db_requestId b)); ("evaluatedAt", VString (db_evaluatedAt b));
   ("policyId", VString (db_policyId b)); ("policyVersion", VString "1");
   ("policyRevision", VString (db_policyRevision b)); ("policyHash", VString (db_policyHash b));
   ("subject", subject_obj (db_subject b)); ("resource", resource_obj (db_resource b));
   ("action", VString (lit (db_action b))); ("inputDigest", VString (db_inputDigest b));
   ("resourceDigest", VString (db_resourceDigest b));
   ("evidence", evidence_obj (map Some (db_evidence b)))].

Definition lease_obj (l : AuthorityLease) : unknown :=
  obj [("leaseId", VString (al_leaseId l)); ("issuedAt", VString (al_issuedAt l));
       ("expiresAt", VString (al_expiresAt l));
       ("authorityGenerationId", nullable VString (al_authorityGenerationId l))].

(** The decision without its digest and its audit. *)
Definition committed_fields (d : AuthorityDecision) : list (string * unknown) :=
  base_fields (decision_base d)
  ++ [("status", VString (verdict_status (decision_verdict d)));
      ("reasonCode", VString (verdict_reason (decision_verdict d)))]
  ++ match d with
     | decision_eligible _ l _ => [("lease", lease_obj l)]
     | decision_pending _ n h t _ =>
         [("candidateBlockNumber", VString n); ("candidateBlockHash", VString h);
          ("retryAfter", VString t)]
     | _ => []
     end.

(** A record without its two digests. *)
Definition unsigned_fields (a : AuthorityAuditRecord) : list (string * unknown) :=
  [("kind", VString "authority-audit-record.v1"); ("auditRecordId", VString (ar_auditRecordId a));
   ("decisionId", VString (ar_decisionId a)); ("idempotencyKey", VString (ar_idempotencyKey a));
   ("auditSignerKeyId", VString (ar_auditSignerKeyId a));
   ("priorAuditHeadDigest", VString (ar_priorAuditHeadDigest a));
   ("recordedAt", VString (ar_recordedAt a)); ("policyId", VString (ar_policyId a));
   ("policyVersion", VString "1"); ("policyRevision", VString (ar_policyRevision a));
   ("policyHash", VString (ar_policyHash a)); ("action", VString (lit (ar_action a)));
   ("subject", subject_obj (ar_subject a)); ("project", project_obj (ar_project a));
   ("inputDigest", VString (ar_inputDigest a)); ("resourceDigest", VString (ar_resourceDigest a));
   ("outcome", VString (verdict_status (ar_verdict a)));
   ("reasonCode", VString (verdict_reason (ar_verdict a)));
   ("evidence", evidence_obj (ar_evidence a)); ("decisionDigest", VString (ar_decisionDigest a));
   ("rawSensitiveData", VString "not-recorded")].

(** ** Literals, subjects, resources *)

Definition parseAction : unknown → result AuthorityAction := parseLiteral.
Definition parseEvidenceKind : unknown → result AuthorityEvidenceKind := parseLiteral.

Definition parseStaffCapability (value : unknown) : result string :=
  match value with
  | VString s => refuse_if (negb (bool_decide (s ∈ PROJECT_STAFF_CAPABILITIES)));; Ok s
  | _ => invalid
  end.

(** A verdict whose status is known. *)
Definition parseReasonForStatus (status : string) (value : unknown) : result Verdict :=
  if status === "eligible" then
    refuse_if (negb (isString value "all-required-evidence-current"));; Ok verdict_eligible
  else if status === "pending-finality" then
    refuse_if (negb (isString value "receipt-above-finalized-head"));; Ok verdict_pending
  else if status === "ineligible" then verdict_ineligible <$> parseLiteral value
  else if status === "unavailable" then verdict_unavailable <$> parseLiteral value
  else invalid.

Definition staffCapabilityForAction (action : AuthorityAction) : option string :=
  match action with
  | purchase_support_join => Some "support:read-messages"
  | purchase_support_send => Some "support:send-messages"
  | fulfillment_request_address => Some "fulfillment:request-address"
  | fulfillment_read_address => Some "fulfillment:read-address"
  | fulfillment_acknowledge_address => Some "fulfillment:acknowledge-address"
  | fulfillment_update_status => Some "fulfillment:update-status"
  | fulfillment_set_tracking => Some "fulfillment:set-tracking"
  | fulfillment_submit_address => None
  end.

Definition actionApplies (action : AuthorityAction) (resource : AuthorityResource) : bool :=
  match resource with
  | purchase_support _ _ _ _ => (action === purchase_support_join) || (action === purchase_support_send)
  | tier_fulfillment _ _ _ _ => action === fulfillment_submit_address
  | project_staff _ capability => staffCapabilityForAction action === Some capability
  end.
Definition assertActionMatchesResource (action : AuthorityAction) (resource : AuthorityResource) :
  result unit :=
  refuse_if (negb (actionApplies action resource)).

Definition parseSubject (value : unknown) : result AuthoritySubject :=
  record ← expectExactRecord value ["account"; "participantId"; "installationId"; "deviceCredentialId"];
  account ← parseAddress record.["account"];
  participantId ← parseAuthorityId record.["participantId"];
  installationId ← parseAuthorityId record.["installationId"];
  deviceCredentialId ← parseAuthorityId record.["deviceCredentialId"];
  Ok {| as_account := account; as_participantId := participantId;
        as_installationId := installationId; as_deviceCredentialId := deviceCredentialId |}.

Definition parseResource (value : unknown) : result AuthorityResource :=
  r ← expectObject value;
  let kind := r.["kind"] in
  if isString kind "purchase-support" then
    record ← expectExactRecord value
      ["kind"; "project"; "purchaseEvidenceId"; "transactionHash"; "payLogIndex"];
    project ← parseJuiceboxV6ProjectRef record.["project"];
    purchaseEvidenceId ← parseAuthorityId record.["purchaseEvidenceId"];
    transactionHash ← parseHash32 record.["transactionHash"];
    payLogIndex ← parseLogIndex record.["payLogIndex"];
    Ok (purchase_support project purchaseEvidenceId transactionHash payLogIndex)
  else if isString kind "tier-fulfillment" then
    record ← expectExactRecord value ["kind"; "project"; "purchaseEvidenceId"; "tierId"; "tokenId"];
    project ← parseJuiceboxV6ProjectRef record.["project"];
    purchaseEvidenceId ← parseAuthorityId record.["purchaseEvidenceId"];
    tierId ← parseUint256Decimal record.["tierId"];
    tokenId ← parseUint256Decimal record.["tokenId"];
    Ok (tier_fulfillment project purchaseEvidenceId tierId tokenId)
  else if isString kind "project-staff" then
    record ← expectExactRecord value ["kind"; "project"; "requiredCapability"];
    project ← parseJuiceboxV6ProjectRef record.["project"];
    requiredCapability ← parseStaffCapability record.["requiredCapability"];
    Ok (project_staff project requiredCapability)
  else invalid.

(** ** Evidence *)

Definition parseRefundDecision (value : unknown) : result (option RefundDecision) :=
  if isNull value then Ok None else
  record ← expectExactRecord value
    ["kind"; "headId"; "headSequence"; "headDigest"; "currentStatus"; "eligibilityEffect";
     "evaluatedAt"; "freshUntil"];
  refuse_if (negb (isString record.["kind"] "refund-eligibility-decision.v1"));;
  currentStatus ← parseLiteral (A := RefundStatus) record.["currentStatus"];
  refuse_if (negb (isString record.["eligibilityEffect"] (eligibilityEffect currentStatus)));;
  headId ← parseAuthorityId record.["headId"];
  headSequence ← parseUint256Decimal record.["headSequence"];
  headDigest ← parseHash32 record.["headDigest"];
  evaluatedAt ← parseCanonicalInstant record.["evaluatedAt"];
  freshUntil ← parseCanonicalInstant record.["freshUntil"];
  Ok (Some {| rf_headId := headId; rf_headSequence := headSequence; rf_headDigest := headDigest;
              rf_currentStatus := currentStatus; rf_evaluatedAt := evaluatedAt;
              rf_freshUntil := freshUntil |}).

Definition parseReference (item : unknown) : result AuthorityEvidenceReference :=
  record ← expectExactRecord item
    ["kind"; "evidenceId"; "evidenceKind"; "digest"; "policyId"; "policyRevision"; "policyHash";
     "resourceDigest"; "refundDecision"; "project"; "subjectAccount"; "generationId"; "blockNumber";
     "blockHash"; "expiresAt"];
  refuse_if (negb (isString record.["kind"] "authority-evidence-reference.v1"));;
  blockNumber ← parseNullable parseUint256Decimal record.["blockNumber"];
  blockHash ← parseNullable parseHash32 record.["blockHash"];
  refuse_if (negb (Bool.eqb (blockNumber === None) (blockHash === None)));;
  evidenceId ← parseAuthorityId record.["evidenceId"];
  evidenceKind ← parseEvidenceKind record.["evidenceKind"];
  digest ← parseHash32 record.["digest"];
  policyId ← parseAuthorityId record.["policyId"];
  policyRevision ← parseUint256Decimal record.["policyRevision"];
  policyHash ← parseHash32 record.["policyHash"];
  resourceDigest ← parseNullable parseHash32 record.["resourceDigest"];
  refundDecision ← parseRefundDecision record.["refundDecision"];
  project ← parseNullable parseJuiceboxV6ProjectRef record.["project"];
  subjectAccount ← parseNullable parseAddress record.["subjectAccount"];
  generationId ← parseNullable parseAuthorityId record.["generationId"];
  expiresAt ← parseNullable parseCanonicalInstant record.["expiresAt"];
  Ok {| ev_evidenceId := evidenceId; ev_evidenceKind := evidenceKind; ev_digest := digest;
        ev_policyId := policyId; ev_policyRevision := policyRevision; ev_policyHash := policyHash;
        ev_resourceDigest := resourceDigest; ev_refundDecision := refundDecision;
        ev_project := project; ev_subjectAccount := subjectAccount; ev_generationId := generationId;
        ev_blockNumber := blockNumber; ev_blockHash := blockHash; ev_expiresAt := expiresAt |}.

Definition parseEvidence (value : unknown) : result (list (option AuthorityEvidenceReference)) :=
  match value with
  | VArray _ elems _ =>
      refuse_if (32 <? Z.of_nat (length elems));;
      result ← mapArray parseReference elems;
      let ids := map (fmap ev_evidenceId) result in
      let kinds := map (fmap (λ item, lit (ev_evidenceKind item))) result in
      refuse_if (hasDuplicates ids || isUnsorted ids);;
      refuse_if (hasDuplicates kinds);;
      Ok result
  | _ => invalid
  end.

Definition projectBound (kind : AuthorityEvidenceKind) : bool :=
  match kind with
  | finalized_receipt | purchase_beneficiary | tier_purchase | project_root | authority_generation
  | staff_delegation | refund_ledger => true
  | wallet_signature | device_possession | device_credential => false
  end.

(** The tests of one reference against its decision. *)
Definition incoherent (base : DecisionBase) (item : AuthorityEvidenceReference) : bool :=
  (ev_policyId item !== db_policyId base)
  || (ev_policyRevision item !== db_policyRevision base)
  || (ev_policyHash item !== db_policyHash base)
  || match ev_project item with
     | Some p => negb (sameJuiceboxV6ProjectRef p (resource_project (db_resource base)))
     | None => projectBound (ev_evidenceKind item)
     end
  || (projectBound (ev_evidenceKind item) && (ev_evidenceKind item !== project_root)
      && (ev_resourceDigest item !== Some (db_resourceDigest base)))
  || ((ev_evidenceKind item === finalized_receipt)
      && ((ev_blockNumber item === None) || (ev_blockHash item === None)))
  || match ev_refundDecision item with
     | None => ev_evidenceKind item === refund_ledger
     | Some d =>
         (ev_evidenceKind item !== refund_ledger)
         || (ev_evidenceId item !== rf_headId d) || (ev_digest item !== rf_headDigest d)
         || (ev_expiresAt item !== Some (rf_freshUntil d))
         || (instantMilliseconds (db_evaluatedAt base) <? instantMilliseconds (rf_evaluatedAt d))
         || (instantMilliseconds (rf_freshUntil d) <=? instantMilliseconds (rf_evaluatedAt d))
     end.

(** Reading a field of a hole is a [TypeError]. *)
Definition assertEvidenceCoherence (base : DecisionBase)
    (evidence : list (option AuthorityEvidenceReference)) : result (list unit) :=
  mapR (λ o, match o with
             | Some item => refuse_if (incoherent base item)
             | None => Throw TypeError
             end) evidence.

Definition findKind (kind : AuthorityEvidenceKind) (items : list AuthorityEvidenceReference) :
  option AuthorityEvidenceReference :=
  List.find (λ item, ev_evidenceKind item === kind) items.

Definition subjectBound (kind : AuthorityEvidenceKind) : bool :=
  match kind with
  | device_credential | purchase_beneficiary | tier_purchase | staff_delegation => true
  | _ => false
  end.

(** [required]. *)
Definition requiredKinds (resource : AuthorityResource) : list AuthorityEvidenceKind :=
  match resource with
  | purchase_support _ _ _ _ =>
      [device_credential; finalized_receipt; purchase_beneficiary; refund_ledger]
  | tier_fulfillment _ _ _ _ => [device_credential; finalized_receipt; tier_purchase; refund_ledger]
  | project_staff _ _ => [device_credential; project_root; authority_generation; staff_delegation]
  end.

(** The purchase a lease is given for, and the ledger head that clears it. *)
Definition assertPurchase (base : DecisionBase) (purchaseKind : AuthorityEvidenceKind)
    (purchaseEvidenceId : string) : result unit :=
  refuse_if ((ev_evidenceId <$> findKind purchaseKind (db_evidence base)) !== Some purchaseEvidenceId);;
  match findKind refund_ledger (db_evidence base) with
  | None => invalid
  | Some refundEvidence =>
      refuse_if ((ev_expiresAt refundEvidence === None)
                 || match ev_refundDecision refundEvidence with
                    | None => true
                    | Some d =>
                        negb (clears (rf_currentStatus d))
                        || (instantMilliseconds (db_evaluatedAt base)
                            <? instantMilliseconds (rf_evaluatedAt d))
                    end)
  end.

Definition assertEligibleEvidence (base : DecisionBase) : result unit :=
  refuse_if (existsb (λ item,
      match ev_expiresAt item with
      | Some t => instantMilliseconds t <=? instantMilliseconds (db_evaluatedAt base)
      | None => false
      end
      || (subjectBound (ev_evidenceKind item)
          && (ev_subjectAccount item !== Some (as_account (db_subject base))))) (db_evidence base));;
  match findKind device_credential (db_evidence base) with
  | None => invalid
  | Some deviceEvidence =>
      refuse_if ((ev_evidenceId deviceEvidence !== as_deviceCredentialId (db_subject base))
                 || (ev_expiresAt deviceEvidence === None))
  end;;
  match db_resource base with
  | purchase_support _ purchaseEvidenceId _ _ =>
      assertPurchase base purchase_beneficiary purchaseEvidenceId
  | tier_fulfillment _ purchaseEvidenceId _ _ => assertPurchase base tier_purchase purchaseEvidenceId
  | project_staff _ _ => Ok ()
  end;;
  refuse_if (existsb (λ kind, negb (bool_decide (kind ∈ map ev_evidenceKind (db_evidence base))))
               (requiredKinds (db_resource base))).

Section Decisions.
Context `{Sha256}.

(** ** Digests *)

Definition computeAuthorityResourceDigest (resource : AuthorityResource) : result string :=
  sha256AuthorityDigest (obj [("kind", VString "authority-resource-digest.v1");
                              ("resource", resource_obj resource)]).

Definition computeAuthorityGateInputDigest (request : AuthorityGateRequest) : result string :=
  sha256AuthorityDigest (obj [("kind", VString "authority-gate-input-digest.v1");
                              ("request", obj (request_fields request))]).

Definition committed_obj (decision : AuthorityDecision) : unknown :=
  obj [("kind", VString "authority-decision-digest.v1"); ("decision", obj (committed_fields decision))].
Definition computeAuthorityDecisionDigest (decision : AuthorityDecision) : result string :=
  sha256AuthorityDigest (committed_obj decision).

Definition unsigned_obj (auditRecord : AuthorityAuditRecord) : unknown :=
  obj [("kind", VString "authority-audit-record-digest.v1");
       ("auditRecord", obj (unsigned_fields auditRecord))].
Definition computeAuthorityAuditRecordDigest (auditRecord : AuthorityAuditRecord) : result string :=
  sha256AuthorityDigest (unsigned_obj auditRecord).

Definition head_obj (priorAuditHeadDigest auditRecordDigest auditSignerKeyId : string) : unknown :=
  obj [("kind", VString "authority-audit-head-digest.v1");
       ("priorAuditHeadDigest", VString priorAuditHeadDigest);
       ("auditRecordDigest", VString auditRecordDigest);
       ("auditSignerKeyId", VString auditSignerKeyId)].
Definition computeAuthorityAuditHeadDigest (priorAuditHeadDigest auditRecordDigest auditSignerKeyId : string) :
  result string :=
  sha256AuthorityDigest (head_obj priorAuditHeadDigest auditRecordDigest auditSignerKeyId).

Definition computeAuthorityAuditIdempotencyKey (decision : AuthorityDecision) : result string :=
  sha256AuthorityDigest (obj [("kind", VString "authority-audit-idempotency-key.v1");
                              ("decisionId", VString (db_decisionId (decision_base decision)));
                              ("inputDigest", VString (db_inputDigest (decision_base decision)))]).

(** ** Requests *)

Definition parseAuthorityGateRequest (value : unknown) : result AuthorityGateRequest :=
  record ← expectExactRecord value
    ["requestId"; "evaluatedAt"; "policyId"; "policyRevision"; "policyHash"; "subject"; "resource";
     "action"; "inputDigest"; "resourceDigest"];
  resource ← parseResource record.["resource"];
  action ← parseAction record.["action"];
  assertActionMatchesResource action resource;;
  requestId ← parseAuthorityId record.["requestId"];
  evaluatedAt ← parseCanonicalInstant record.["evaluatedAt"];
  policyId ← parseAuthorityId record.["policyId"];
  policyRevision ← parseUint256Decimal record.["policyRevision"];
  policyHash ← parseHash32 record.["policyHash"];
  subject ← parseSubject record.["subject"];
  resourceDigest ← parseHash32 record.["resourceDigest"];
  expectedResourceDigest ← computeAuthorityResourceDigest resource;
  refuse_if (resourceDigest !== expectedResourceDigest);;
  inputDigest ← parseHash32 record.["inputDigest"];
  let request :=
    {| gr_requestId := requestId; gr_evaluatedAt := evaluatedAt; gr_policyId := policyId;
       gr_policyRevision := policyRevision; gr_policyHash := policyHash; gr_subject := subject;
       gr_resource := resource; gr_action := action; gr_inputDigest := inputDigest;
       gr_resourceDigest := resourceDigest |} in
  expectedInputDigest ← computeAuthorityGateInputDigest request;
  refuse_if (inputDigest !== expectedInputDigest);;
  Ok request.

(** ** Decisions *)

Definition baseKeys : list string :=
  ["kind"; "decisionId"; "requestId"; "evaluatedAt"; "policyId"; "policyVersion"; "policyRevision";
   "policyHash"; "subject"; "resource"; "action"; "inputDigest"; "resourceDigest"; "decisionDigest";
   "evidence"].

Definition parseBase (record : record) : result DecisionBase :=
  refuse_if (negb (isString record.["kind"] "authority-decision.v1")
             || negb (isString record.["policyVersion"] "1"));;
  resource ← parseResource record.["resource"];
  action ← parseAction record.["action"];
  assertActionMatchesResource action resource;;
  decisionId ← parseAuthorityId record.["decisionId"];
  requestId ← parseAuthorityId record.["requestId"];
  evaluatedAt ← parseCanonicalInstant record.["evaluatedAt"];
  policyId ← parseAuthorityId record.["policyId"];
  policyRevision ← parseUint256Decimal record.["policyRevision"];
  policyHash ← parseHash32 record.["policyHash"];
  subject ← parseSubject record.["subject"];
  inputDigest ← parseHash32 record.["inputDigest"];
  resourceDigest ← parseHash32 record.["resourceDigest"];
  decisionDigest ← parseHash32 record.["decisionDigest"];
  evidence ← parseEvidence record.["evidence"];
  let base :=
    {| db_decisionId := decisionId; db_requestId := requestId; db_evaluatedAt := evaluatedAt;
       db_policyId := policyId; db_policyRevision := policyRevision; db_policyHash := policyHash;
       db_subject := subject; db_resource := resource; db_action := action;
       db_inputDigest := inputDigest; db_resourceDigest := resourceDigest;
       db_decisionDigest := decisionDigest; db_evidence := omap id evidence |} in
  assertEvidenceCoherence base evidence;;
  Ok base.

Definition parsePersistedAudit (value : unknown) (decision : DecisionBase) :
  result PersistedDecisionAudit :=
  record ← expectExactRecord value
    ["status"; "auditRecordId"; "auditRecordDigest"; "decisionId"; "decisionDigest";
     "idempotencyKey"; "auditSignerKeyId"; "auditHeadDigest"];
  refuse_if (negb (isString record.["status"] "persisted-before-release"));;
  decisionId ← parseAuthorityId record.["decisionId"];
  decisionDigest ← parseHash32 record.["decisionDigest"];
  refuse_if ((decisionId !== db_decisionId decision) || (decisionDigest !== db_decisionDigest decision));;
  auditRecordId ← parseAuthorityId record.["auditRecordId"];
  auditRecordDigest ← parseHash32 record.["auditRecordDigest"];
  idempotencyKey ← parseHash32 record.["idempotencyKey"];
  auditSignerKeyId ← parseAuthorityId record.["auditSignerKeyId"];
  auditHeadDigest ← parseHash32 record.["auditHeadDigest"];
  Ok {| pa_auditRecordId := auditRecordId; pa_auditRecordDigest := auditRecordDigest;
        pa_decisionId := decisionId; pa_decisionDigest := decisionDigest;
        pa_idempotencyKey := idempotencyKey; pa_auditSignerKeyId := auditSignerKeyId;
        pa_auditHeadDigest := auditHeadDigest |}.

Definition parseUnavailableAudit (value : unknown) : result unit :=
  record ← expectExactRecord value ["status"; "reasonCode"];
  refuse_if (negb (isString record.["status"] "not-persisted-audit-unavailable")
             || negb (isString record.["reasonCode"] "audit-store-unavailable")).

(** The earliest of the expiries. *)
Definition evidenceExpiry (items : list AuthorityEvidenceReference) : option Z :=
  fold_left (λ minimum t,
    Some match minimum with
         | None => instantMilliseconds t
         | Some m => Z.min m (instantMilliseconds t)
         end) (omap ev_expiresAt items) None.

Definition isStaff (resource : AuthorityResource) : bool :=
  match resource with project_staff _ _ => true | _ => false end.

(** Only staff leases name a generation, and all evidence is of that one. *)
Definition generationDetached (base : DecisionBase) (authorityGenerationId : option string) : bool :=
  negb (Bool.eqb (isStaff (db_resource base)) (bool_decide (is_Some authorityGenerationId)))
  || match authorityGenerationId with
     | None => false
     | Some _ =>
         existsb (λ item, (ev_generationId item !== None)
                          && (ev_generationId item !== authorityGenerationId)) (db_evidence base)
         || existsb (λ item, ((ev_evidenceKind item === authority_generation)
                              || (ev_evidenceKind item === staff_delegation))
                             && (ev_generationId item !== authorityGenerationId)) (db_evidence base)
     end.

Definition parseEligibleDecision (value : unknown) : result AuthorityDecision :=
  record ← expectExactRecord value (baseKeys ++ ["status"; "reasonCode"; "lease"; "audit"]);
  refuse_if (negb (isString record.["reasonCode"] "all-required-evidence-current"));;
  base ← parseBase record;
  refuse_if (Nat.eqb (length (db_evidence base)) 0);;
  assertEligibleEvidence base;;
  leaseRecord ← expectExactRecord record.["lease"]
    ["leaseId"; "issuedAt"; "expiresAt"; "authorityGenerationId"];
  issuedAt ← parseCanonicalInstant leaseRecord.["issuedAt"];
  expiresAt ← parseCanonicalInstant leaseRecord.["expiresAt"];
  refuse_if ((issuedAt !== db_evaluatedAt base)
             || (instantMilliseconds expiresAt <=? instantMilliseconds issuedAt)
             || (MAX_AUTHORITY_LEASE_LIFETIME_MS
                 <? instantMilliseconds expiresAt - instantMilliseconds issuedAt));;
  refuse_if match evidenceExpiry (db_evidence base) with
            | Some expiry => expiry <? instantMilliseconds expiresAt
            | None => false
            end;;
  authorityGenerationId ← parseNullable parseAuthorityId leaseRecord.["authorityGenerationId"];
  refuse_if (generationDetached base authorityGenerationId);;
  leaseId ← parseAuthorityId leaseRecord.["leaseId"];
  audit ← parsePersistedAudit record.["audit"] base;
  Ok (decision_eligible base
        {| al_leaseId := leaseId; al_issuedAt := issuedAt; al_expiresAt := expiresAt;
           al_authorityGenerationId := authorityGenerationId |} audit).

Definition parseIneligibleDecision (value : unknown) : result AuthorityDecision :=
  record ← expectExactRecord value (baseKeys ++ ["status"; "reasonCode"; "audit"]);
  base ← parseBase record;
  reasonCode ← parseLiteral (A := IneligibleReason) record.["reasonCode"];
  audit ← parsePersistedAudit record.["audit"] base;
  Ok (decision_ineligible base reasonCode audit).

Definition parsePendingDecision (value : unknown) : result AuthorityDecision :=
  record ← expectExactRecord value
    (baseKeys ++ ["status"; "reasonCode"; "candidateBlockNumber"; "candidateBlockHash";
                  "retryAfter"; "audit"]);
  refuse_if (negb (isString record.["reasonCode"] "receipt-above-finalized-head"));;
  base ← parseBase record;
  retryAfter ← parseCanonicalInstant record.["retryAfter"];
  refuse_if (instantMilliseconds retryAfter <=? instantMilliseconds (db_evaluatedAt base));;
  candidateBlockNumber ← parseUint256Decimal record.["candidateBlockNumber"];
  candidateBlockHash ← parseHash32 record.["candidateBlockHash"];
  audit ← parsePersistedAudit record.["audit"] base;
  Ok (decision_pending base candidateBlockNumber candidateBlockHash retryAfter audit).

Definition parseUnavailableDecision (value : unknown) : result AuthorityDecision :=
  record ← expectExactRecord value (baseKeys ++ ["status"; "reasonCode"; "audit"]);
  reasonCode ← parseLiteral (A := DecisionUnavailable) record.["reasonCode"];
  base ← parseBase record;
  audit ← (if reasonCode === decision_audit_store_unavailable
           then parseUnavailableAudit record.["audit"];; Ok None
           else Some <$> parsePersistedAudit record.["audit"] base);
  Ok (decision_unavailable base reasonCode audit).

Definition assertDecisionMatchesRequest (decision : AuthorityDecision) (request : AuthorityGateRequest) :
  result unit :=
  let base := decision_base decision in
  refuse_if ((db_requestId base !== gr_requestId request)
             || (db_evaluatedAt base !== gr_evaluatedAt request)
             || (db_policyId base !== gr_policyId request)
             || (db_policyRevision base !== gr_policyRevision request)
             || (db_policyHash base !== gr_policyHash request)
             || (db_action base !== gr_action request)
             || (db_inputDigest base !== gr_inputDigest request)
             || (db_resourceDigest base !== gr_resourceDigest request));;
  refuse_digests (subject_obj (db_subject base)) (subject_obj (gr_subject request));;
  refuse_digests (resource_obj (db_resource base)) (resource_obj (gr_resource request)).

(** ** Audit records *)

Definition parseAuditVerdict (outcome reasonCode : unknown) : result Verdict :=
  match outcome with
  | VString s => parseReasonForStatus s reasonCode
  | _ => invalid
  end.

Definition assertAuditMatchesDecision (audit : AuthorityAuditRecord) (decision : AuthorityDecision) :
  result unit :=
  let base := decision_base decision in
  expectedIdempotencyKey ← computeAuthorityAuditIdempotencyKey decision;
  refuse_if ((ar_decisionId audit !== db_decisionId base)
             || (ar_idempotencyKey audit !== expectedIdempotencyKey)
             || (ar_policyId audit !== db_policyId base)
             || (ar_policyRevision audit !== db_policyRevision base)
             || (ar_policyHash audit !== db_policyHash base)
             || (ar_action audit !== db_action base)
             || (ar_inputDigest audit !== db_inputDigest base)
             || (ar_resourceDigest audit !== db_resourceDigest base)
             || (ar_verdict audit !== decision_verdict decision)
             || (ar_decisionDigest audit !== db_decisionDigest base)
             || negb (sameJuiceboxV6ProjectRef (ar_project audit) (resource_project (db_resource base))));;
  refuse_digests (subject_obj (ar_subject audit)) (subject_obj (db_subject base));;
  refuse_digests (evidence_obj (ar_evidence audit)) (evidence_obj (map Some (db_evidence base)));;
  refuse_if (instantMilliseconds (ar_recordedAt audit) <? instantMilliseconds (db_evaluatedAt base)).

Definition parseAuthorityAuditRecord (value : unknown) (expectedDecision : AuthorityDecision)
    (auditSignerKeyId_expected priorAuditHeadDigest_expected : string) : result AuthorityAuditRecord :=
  record ← expectExactRecord value
    ["kind"; "auditRecordId"; "auditRecordDigest"; "decisionId"; "idempotencyKey";
     "auditSignerKeyId"; "priorAuditHeadDigest"; "auditHeadDigest"; "recordedAt"; "policyId";
     "policyVersion"; "policyRevision"; "policyHash"; "action"; "subject"; "project"; "inputDigest";
     "resourceDigest"; "outcome"; "reasonCode"; "evidence"; "decisionDigest"; "rawSensitiveData"];
  refuse_if (negb (isString record.["kind"] "authority-audit-record.v1")
             || negb (isString record.["policyVersion"] "1")
             || negb (isString record.["rawSensitiveData"] "not-recorded"));;
  verdict ← parseAuditVerdict record.["outcome"] record.["reasonCode"];
  auditRecordId ← parseAuthorityId record.["auditRecordId"];
  auditRecordDigest ← parseHash32 record.["auditRecordDigest"];
  decisionId ← parseAuthorityId record.["decisionId"];
  idempotencyKey ← parseHash32 record.["idempotencyKey"];
  auditSignerKeyId ← parseAuthorityId record.["auditSignerKeyId"];
  priorAuditHeadDigest ← parseHash32 record.["priorAuditHeadDigest"];
  auditHeadDigest ← parseHash32 record.["auditHeadDigest"];
  recordedAt ← parseCanonicalInstant record.["recordedAt"];
  policyId ← parseAuthorityId record.["policyId"];
  policyRevision ← parseUint256Decimal record.["policyRevision"];
  policyHash ← parseHash32 record.["policyHash"];
  action ← parseAction record.["action"];
  subject ← parseSubject record.["subject"];
  project ← parseJuiceboxV6ProjectRef record.["project"];
  inputDigest ← parseHash32 record.["inputDigest"];
  resourceDigest ← parseHash32 record.["resourceDigest"];
  evidence ← parseEvidence record.["evidence"];
  decisionDigest ← parseHash32 record.["decisionDigest"];
  let parsed :=
    {| ar_auditRecordId := auditRecordId; ar_auditRecordDigest := auditRecordDigest;
       ar_decisionId := decisionId; ar_idempotencyKey := idempotencyKey;
       ar_auditSignerKeyId := auditSignerKeyId; ar_priorAuditHeadDigest := priorAuditHeadDigest;
       ar_auditHeadDigest := auditHeadDigest; ar_recordedAt := recordedAt; ar_policyId := policyId;
       ar_policyRevision := policyRevision; ar_policyHash := policyHash; ar_action := action;
       ar_subject := subject; ar_project := project; ar_inputDigest := inputDigest;
       ar_resourceDigest := resourceDigest; ar_verdict := verdict; ar_evidence := evidence;
       ar_decisionDigest := decisionDigest |} in
  assertAuditMatchesDecision parsed expectedDecision;;
  refuse_if ((auditSignerKeyId !== auditSignerKeyId_expected)
             || (priorAuditHeadDigest !== priorAuditHeadDigest_expected));;
  recordDigest ← computeAuthorityAuditRecordDigest parsed;
  refuse_if (auditRecordDigest !== recordDigest);;
  headDigest ← computeAuthorityAuditHeadDigest priorAuditHeadDigest auditRecordDigest auditSignerKeyId;
  refuse_if (auditHeadDigest !== headDigest);;
  Ok parsed.

Record AuthorityDecisionValidationContext := {
  cx_request : unknown; cx_auditRecord : unknown; cx_expectedAuditSignerKeyId : string;
  cx_expectedPriorAuditHeadDigest : string }.

Definition assertDecisionAudit (decision : AuthorityDecision)
    (context : AuthorityDecisionValidationContext) : result unit :=
  match decision_audit decision with
  | None => refuse_if (negb (isNull (cx_auditRecord context)))
  | Some audit =>
      refuse_if (isNull (cx_auditRecord context));;
      auditRecord ← parseAuthorityAuditRecord (cx_auditRecord context) decision
        (cx_expectedAuditSignerKeyId context) (cx_expectedPriorAuditHeadDigest context);
      refuse_if ((pa_auditRecordId audit !== ar_auditRecordId auditRecord)
                 || (pa_auditRecordDigest audit !== ar_auditRecordDigest auditRecord)
                 || (pa_idempotencyKey audit !== ar_idempotencyKey auditRecord)
                 || (pa_auditSignerKeyId audit !== ar_auditSignerKeyId auditRecord)
                 || (pa_auditHeadDigest audit !== ar_auditHeadDigest auditRecord))
  end.

Definition parseAuthorityDecision (value : unknown) (context : AuthorityDecisionValidationContext) :
  result AuthorityDecision :=
  r ← expectObject value;
  expectedRequest ← parseAuthorityGateRequest (cx_request context);
  let status := r.["status"] in
  decision ← (if isString status "eligible" then parseEligibleDecision value
              else if isString status "ineligible" then parseIneligibleDecision value
              else if isString status "pending-finality" then parsePendingDecision value
              else if isString status "unavailable" then parseUnavailableDecision value
              else invalid);
  assertDecisionMatchesRequest decision expectedRequest;;
  decisionDigest ← computeAuthorityDecisionDigest decision;
  refuse_if (db_decisionDigest (decision_base decision) !== decisionDigest);;
  assertDecisionAudit decision context;;
  Ok decision.
End Decisions.

(** ** What a decision says *)

Lemma parseLiteral_Ok {A} `{Literal A} v (a : A) : parseLiteral v = Ok a → v = VString (lit a) ∧ a ∈ lits.
Proof.
  unfold parseLiteral, literal_of. destruct (List.find _ lits) as [a'|] eqn:E; [|done]. intros [= <-].
  apply find_some in E as [Hin Hs]. split; [|by apply list_elem_of_In].
  destruct v; try done. apply bool_decide_eq_true in Hs. by subst.
Qed.

Lemma coherence_Ok base evidence us :
  assertEvidenceCoherence base evidence = Ok us →
  evidence = map Some (omap id evidence) ∧ Forall (λ item, incoherent base item = false) (omap id evidence).
Proof.
  unfold assertEvidenceCoherence. intros HF%mapR_Ok.
  induction HF as [|[item|] u evidence us Hu _ [IH1 IH2]]; [done| |done]. apply refuse_if_Ok in Hu. cbn.
  split; [by f_equal|]. by constructor.
Qed.

Lemma NoDup_fmap_omap {A} {B} (f : A → B) (es : list (option A)) :
  NoDup (map (fmap f) es) → NoDup (map f (omap id es)).
Proof.
  induction es as [|[e|] es IH]; [constructor|..]; intros [HN HD]%NoDup_cons; [|by apply IH].
  constructor; [|by apply IH]. intros (e' & E & HI)%list_elem_of_fmap. apply HN, list_elem_of_fmap.
  exists (Some e'). split; [by cbn; rewrite E|]. apply list_elem_of_omap in HI as (o & HI & Eo); cbn in Eo; by subst o.
Qed.

(** The references of a decision: at most 32, their identifiers in strict
    order, one of each kind. *)
Lemma parseEvidence_Ok v es :
  parseEvidence v = Ok es →
  (length es <= 32)%nat ∧ hasDuplicates (map (fmap ev_evidenceId) es) = false ∧
  isUnsorted (map (fmap ev_evidenceId) es) = false ∧ NoDup (map ev_evidenceKind (omap id es)).
Proof.
  destruct v; try discriminate. unfold parseEvidence. intros H. inv_auth. subst es. split_orb.
  match goal with H : mapArray _ _ = Ok _ |- _ => pose proof (mapArray_length _ _ _ H) as HL end. zbool.
  split_and!; [lia|done|done|].
  match goal with |- NoDup (map _ (omap id ?rs)) =>
    assert (HD : hasDuplicates (map (fmap (λ item, lit (ev_evidenceKind item))) rs) = false) by done end.
  unfold hasDuplicates in HD. bsimp. apply NoDup_fmap_omap in HD.
  rewrite <- (map_map ev_evidenceKind lit) in HD. by apply NoDup_fmap_1 in HD.
Qed.

(** Decides equations between literals. *)
Ltac decide_literals :=
  repeat match goal with
  | H : context [bool_decide (?a = ?b)] |- _ =>
      is_constructor a; is_constructor b;
      let d := eval vm_compute in (bool_decide (a = b)) in
      change (bool_decide (a = b)) with d in H
  end; cbn [negb andb orb] in *.

Section Facts.
Context `{Sha256}.
#[local] Opaque sha256AuthorityDigest.

(** What every decision's base satisfies. *)
Record wellFormed (b : DecisionBase) : Prop := {
  wf_action : actionApplies (db_action b) (db_resource b) = true;
  wf_size : (length (db_evidence b) <= 32)%nat;
  wf_sorted : StronglySorted (λ s t, slt s t = true) (map ev_evidenceId (db_evidence b));
  wf_kinds : NoDup (map ev_evidenceKind (db_evidence b));
  wf_coherent : Forall (λ item, incoherent b item = false) (db_evidence b) }.

Lemma parseBase_Ok r b : parseBase r = Ok b → wellFormed b.
Proof.
  unfold parseBase, assertActionMatchesResource. intros H0. inv_auth. subst b. bsimp.
  match goal with H : assertEvidenceCoherence _ _ = Ok _ |- _ => apply coherence_Ok in H as [HE HF] end.
  cbn [db_evidence] in *.
  match goal with H : parseEvidence _ = Ok ?es |- _ => rename es into evidence; apply parseEvidence_Ok in H as (HL & HD & HS & HK) end.
  destruct (sorted_providers _ HD HS) as (names & HN & Hn).
  constructor; cbn [db_action db_resource db_evidence]; [done| | |done|done].
  - rewrite HE, length_map in HL. done.
  - rewrite HE, map_map in Hn. cbn in Hn. destruct Hn as [Hn|Hn].
    + rewrite <- (map_map ev_evidenceId Some) in Hn. apply (f_equal (omap id)) in Hn.
      assert (HO : ∀ l : list string, omap id (map Some l) = l) by (intros l; induction l; cbn; congruence).
      rewrite !HO in Hn. by rewrite Hn.
    + exfalso. assert (HI : None ∈ map (λ x, fmap ev_evidenceId (Some x)) (omap id evidence)).
      { cbn. rewrite Hn. apply elem_of_app. right. by left. }
      apply list_elem_of_fmap in HI as (y & E & _). done.
Qed.

(** *** What justifies a lease *)

Definition backs (b : DecisionBase) (k : AuthorityEvidenceKind) (e : AuthorityEvidenceReference) : Prop :=
  e ∈ db_evidence b ∧ ev_evidenceKind e = k ∧
  (projectBound k = true → ev_project e = Some (resource_project (db_resource b))) ∧
  (projectBound k = true → k ≠ project_root → ev_resourceDigest e = Some (db_resourceDigest b)) ∧
  (subjectBound k = true → ev_subjectAccount e = Some (as_account (db_subject b))).

(** The purchase itself, its receipt in a block, and a refund ledger that clears
    it until the lease ends. *)
Definition purchased (b : DecisionBase) (l : AuthorityLease) (k : AuthorityEvidenceKind) (id : string) : Prop :=
  (∃ e, backs b k e ∧ ev_evidenceId e = id) ∧
  (∃ e, backs b finalized_receipt e ∧ is_Some (ev_blockNumber e) ∧ is_Some (ev_blockHash e)) ∧
  (∃ e d, backs b refund_ledger e ∧ ev_refundDecision e = Some d ∧ clears (rf_currentStatus d) = true ∧
     ev_evidenceId e = rf_headId d ∧ ev_digest e = rf_headDigest d ∧
     Date_parse (rf_evaluatedAt d) <= Date_parse (db_evaluatedAt b) ∧
     Date_parse (al_expiresAt l) <= Date_parse (rf_freshUntil d)).

(** One generation, its root and a delegation to this account. *)
Definition staffed (b : DecisionBase) (l : AuthorityLease) (capability : string) : Prop :=
  staffCapabilityForAction (db_action b) = Some capability ∧
  ∃ generation, al_authorityGenerationId l = Some generation ∧
    (∃ e, backs b project_root e) ∧
    (∃ e, backs b authority_generation e ∧ ev_generationId e = Some generation) ∧
    (∃ e, backs b staff_delegation e ∧ ev_generationId e = Some generation) ∧
    Forall (λ e, ev_generationId e = None ∨ ev_generationId e = Some generation) (db_evidence b).

Record justified (b : DecisionBase) (l : AuthorityLease) : Prop := {
  ju_start : al_issuedAt l = db_evaluatedAt b;
  ju_window : Date_parse (al_issuedAt l) < Date_parse (al_expiresAt l) <= Date_parse (al_issuedAt l) + 300000;
  ju_covered : ∀ e t, e ∈ db_evidence b → ev_expiresAt e = Some t → Date_parse (al_expiresAt l) <= Date_parse t;
  ju_policy : Forall (λ e, (ev_policyId e, ev_policyRevision e, ev_policyHash e)
                           = (db_policyId b, db_policyRevision b, db_policyHash b)) (db_evidence b);
  ju_device : ∃ e t, backs b device_credential e ∧ ev_evidenceId e = as_deviceCredentialId (db_subject b) ∧
                     ev_expiresAt e = Some t;
  ju_resource : match db_resource b with
                | purchase_support _ id _ _ => purchased b l purchase_beneficiary id
                | tier_fulfillment _ id _ _ => purchased b l tier_purchase id
                | project_staff _ capability => staffed b l capability
                end }.

Lemma evidenceExpiry_min es m e t :
  evidenceExpiry es = m → e ∈ es → ev_expiresAt e = Some t →
  ∃ z, m = Some z ∧ z <= Date_parse t.
Proof.
  unfold evidenceExpiry. intros Hm He Ht. assert (HI : t ∈ omap ev_expiresAt es) by (apply list_elem_of_omap; eauto).
  clear He Ht. revert Hm HI. generalize (omap ev_expiresAt es) as ts. intros ts.
  set (f := λ (minimum : option Z) t, Some match minimum with None => instantMilliseconds t | Some m => Z.min m (instantMilliseconds t) end).
  assert (HL : ∀ ts a, ∃ z, fold_left f ts (Some a) = Some z ∧ z <= a ∧ ∀ t, t ∈ ts → z <= Date_parse t).
  { clear. induction ts as [|u ts IH]; intros a; cbn.
    - exists a. split_and!; [done|lia|]. by intros t ?%elem_of_nil.
    - destruct (IH (Z.min a (instantMilliseconds u))) as (z & E & Hz & HF). exists z.
      split_and!; [done|lia|]. unfold instantMilliseconds in *. intros t [->|Ht]%elem_of_cons; [lia|auto]. }
  intros Hm HI. destruct ts as [|u ts]; [by apply elem_of_nil in HI|].
  change (fold_left f ts (Some (instantMilliseconds u)) = m) in Hm.
  destruct (HL ts (instantMilliseconds u)) as (z & E & Hz & HF). rewrite E in Hm. exists z. split; [done|].
  apply elem_of_cons in HI as [->|HI]; [done|auto].
Qed.

Lemma incoherent_backs b e :
  incoherent b e = false → e ∈ db_evidence b →
  (subjectBound (ev_evidenceKind e) = true → ev_subjectAccount e = Some (as_account (db_subject b))) →
  backs b (ev_evidenceKind e) e.
Proof.
  unfold incoherent. intros HI He HS. bsimp. split_and!; [done|done| | |done]; intros HP.
  - destruct (ev_project e); [|congruence]. bsimp. f_equal.
    match goal with H : sameJuiceboxV6ProjectRef _ _ = true |- _ => by apply sameProject_eq in H end.
  - intros HR. rewrite HP, (bool_decide_eq_false_2 _ HR) in *. cbn in *. bsimp. done.
Qed.

Lemma findKind_Some k es e : findKind k es = Some e → e ∈ es ∧ ev_evidenceKind e = k.
Proof. intros [HI HK]%find_some. bsimp. split; [by apply list_elem_of_In|done]. Qed.

(** The tests every eligible decision passes. *)
Lemma assertPurchase_Ok b k id u :
  assertPurchase b k id = Ok u →
  (∃ e, e ∈ db_evidence b ∧ ev_evidenceKind e = k ∧ ev_evidenceId e = id) ∧
  (∃ e d, e ∈ db_evidence b ∧ ev_evidenceKind e = refund_ledger ∧ ev_refundDecision e = Some d ∧
     clears (rf_currentStatus d) = true ∧ Date_parse (rf_evaluatedAt d) <= Date_parse (db_evaluatedAt b)).
Proof.
  unfold assertPurchase. intros (u' & HP%refuse_if_Ok & HR)%bind_Ok. bsimp. split.
  - destruct (findKind k (db_evidence b)) as [e|] eqn:E; [|done]. injection HP as HP.
    apply findKind_Some in E as [? ?]. by exists e.
  - destruct (findKind refund_ledger (db_evidence b)) as [e|] eqn:E; [|done].
    apply findKind_Some in E as [? ?]. apply refuse_if_Ok in HR. bsimp.
    destruct (ev_refundDecision e) as [d|] eqn:Ed; [|done]. bsimp. zbool. by exists e, d.
Qed.

Lemma assertEligibleEvidence_Ok b u :
  wellFormed b → assertEligibleEvidence b = Ok u →
  (∀ e, e ∈ db_evidence b → backs b (ev_evidenceKind e) e) ∧
  (∃ e t, backs b device_credential e ∧ ev_evidenceId e = as_deviceCredentialId (db_subject b) ∧
          ev_expiresAt e = Some t) ∧
  match db_resource b with
  | purchase_support _ id _ _ => ∃ u, assertPurchase b purchase_beneficiary id = Ok u
  | tier_fulfillment _ id _ _ => ∃ u, assertPurchase b tier_purchase id = Ok u
  | project_staff _ _ => True
  end ∧
  (∀ k, k ∈ requiredKinds (db_resource b) → ∃ e, backs b k e).
Proof.
  intros [_ _ _ _ HC]. unfold assertEligibleEvidence.
  intros (u1 & H1%refuse_if_Ok & (u2 & H2 & (u3 & H3 & H4%refuse_if_Ok)%bind_Ok)%bind_Ok)%bind_Ok.
  assert (HB : ∀ e, e ∈ db_evidence b → backs b (ev_evidenceKind e) e).
  { intros e He. rewrite Forall_forall in HC. apply incoherent_backs; [by apply HC|done|]. intros HS.
    apply existsb_false in H1. rewrite Forall_forall in H1. specialize (H1 e He). rewrite HS in H1. bsimp.
    cbn in *. by bsimp. }
  split_and!; [done| | |].
  - destruct (findKind device_credential (db_evidence b)) as [e|] eqn:E; [|done]. apply refuse_if_Ok in H2. bsimp.
    apply findKind_Some in E as [He HK]. destruct (ev_expiresAt e) as [t|] eqn:Et; [|done].
    exists e, t. rewrite <- HK. auto.
  - destruct (db_resource b); eauto.
  - intros k Hk. apply existsb_false in H4. rewrite Forall_forall in H4. specialize (H4 k Hk). bsimp.
    match goal with H : k ∈ map ev_evidenceKind _ |- _ => apply list_elem_of_fmap in H as (e & -> & He) end.
    exists e. auto.
Qed.

Lemma purchased_intro b l k id u :
  wellFormed b → (∀ e, e ∈ db_evidence b → backs b (ev_evidenceKind e) e) →
  (∀ e t, e ∈ db_evidence b → ev_expiresAt e = Some t → Date_parse (al_expiresAt l) <= Date_parse t) →
  assertPurchase b k id = Ok u → (∃ e, backs b finalized_receipt e) → purchased b l k id.
Proof.
  intros [_ _ _ _ HC] HB HT ((e & He & HK & HI) & (e' & d & He' & HK' & Hd & HCl & HE))%assertPurchase_Ok (r & HR).
  rewrite Forall_forall in HC. split_and!.
  - exists e. rewrite <- HK. auto.
  - exists r. split; [done|]. destruct HR as (Hr & HKr & _). specialize (HC r Hr). unfold incoherent in HC.
    rewrite HKr in HC. bsimp. decide_literals. bsimp. split; by apply not_eq_None_Some.
  - exists e', d. rewrite <- HK'. specialize (HC e' He'). unfold incoherent in HC. rewrite Hd in HC. bsimp.
    specialize (HB e' He'). split_and!; eauto.
Qed.

Lemma staffed_intro b l c :
  wellFormed b → (∀ e, e ∈ db_evidence b → backs b (ev_evidenceKind e) e) →
  db_resource b = project_staff (resource_project (db_resource b)) c →
  (∀ k, k ∈ [project_root; authority_generation; staff_delegation] → ∃ e, backs b k e) →
  generationDetached b (al_authorityGenerationId l) = false → staffed b l c.
Proof.
  intros [HA _ _ _ _] HB ER HK HG. rewrite ER in HA. cbn in HA. bsimp. split; [done|].
  unfold generationDetached in HG. rewrite ER in HG. cbn [isStaff] in HG. bsimp.
  destruct (al_authorityGenerationId l) as [g|]; [|done]. bsimp.
  repeat match goal with H : existsb _ _ = false |- _ => apply existsb_false in H; rewrite Forall_forall in H end.
  assert (HX : ∀ k, k = authority_generation ∨ k = staff_delegation → ∃ e, backs b k e ∧ ev_generationId e = Some g).
  { intros k Hk. destruct (HK k) as [e HBk]; [rewrite !elem_of_cons; tauto|]. exists e. split; [done|]. destruct HBk as (He & Ek & _).
    match goal with H : ∀ x, _ → (_ || _) && _ = false |- _ => specialize (H e He); rewrite Ek in H; rename H into HE end.
    destruct Hk as [-> | ->]; decide_literals; by bsimp. }
  exists g. split_and!; [done|apply HK; rewrite !elem_of_cons; tauto|by apply HX; auto|by apply HX; auto|].
  apply Forall_forall. intros e He.
  match goal with H : ∀ x, _ → negb _ && _ = false |- _ => specialize (H e He) end.
  destruct (ev_generationId e) as [g'|]; [right|by left]. cbn in *. by bsimp.
Qed.

(** What [parseEligibleDecision] and the parsers below it establish. *)
Lemma eligible_Ok v b l a :
  parseEligibleDecision v = Ok (decision_eligible b l a) → wellFormed b ∧ justified b l.
Proof.
  unfold parseEligibleDecision, instantMilliseconds, MAX_AUTHORITY_LEASE_LIFETIME_MS. cbv zeta. intros H0. inv_auth. subst.
  match goal with H : parseBase _ = Ok _ |- _ => pose proof (parseBase_Ok _ _ H) as HW end.
  split; [done|].
  match goal with H : assertEligibleEvidence _ = Ok _ |- _ => apply assertEligibleEvidence_Ok in H as (HB & HD & HP & HK); [|done] end.
  match goal with |- justified _ ?l => set (lease := l) end.
  assert (HT : ∀ e t, e ∈ db_evidence b → ev_expiresAt e = Some t → Date_parse (al_expiresAt lease) <= Date_parse t).
  { intros e t He Ht. destruct (evidenceExpiry_min _ _ e t eq_refl He Ht) as (z & E & Hz).
    match goal with H : match evidenceExpiry _ with _ => _ end = false |- _ => rewrite E in H end. zbool. cbn. lia. }
  bsimp. zbool. constructor; [done|cbn; lia|done| |done|].
  - apply Forall_forall. intros e He. destruct HW as [_ _ _ _ HC]. rewrite Forall_forall in HC.
    specialize (HC e He). unfold incoherent in HC. bsimp. congruence.
  - destruct (db_resource b) as [p id h i|p id t k|p c] eqn:ER.
    + destruct HP as [u HP]. eapply purchased_intro; eauto. apply HK. cbn. rewrite !elem_of_cons in *. tauto.
    + destruct HP as [u HP]. eapply purchased_intro; eauto. apply HK. cbn. rewrite !elem_of_cons in *. tauto.
    + apply staffed_intro; [done|done|by rewrite ER| |done]. intros k Hk. apply HK. cbn. rewrite !elem_of_cons in *. tauto.
Qed.

(** *** What its digests commit to *)

Lemma subject_inj s t : same_json (subject_obj s) (subject_obj t) → s = t.
Proof. unfold subject_obj. intros HS. same_fields HS. destruct s, t; cbn in *. by subst. Qed.

Lemma resource_inj r s : same_json (resource_obj r) (resource_obj s) → r = s.
Proof.
  intros HS. assert (HK := HS).
  destruct r, s; (eapply (same_json_get _ _ "kind") in HK; [|by apply (bool_decide_unpack _); vm_compute|left|left];
    apply same_json_string in HK; try discriminate HK; clear HK);
    cbn in HS; same_fields HS;
    match goal with H : same_json (project_obj _) (project_obj _) |- _ => apply project_inj in H end; by subst.
Qed.

Lemma refund_inj d e : same_json (refund_obj d) (refund_obj e) → d = e.
Proof.
  unfold refund_obj. intros HS. same_fields HS. destruct d as [? ? ? [] ? ?], e as [? ? ? [] ? ?]; cbn in *; by subst.
Qed.

Lemma reference_inj e f : same_json (reference_obj e) (reference_obj f) → e = f.
Proof.
  unfold reference_obj. intros HS. same_fields HS.
  repeat match goal with
  | H : same_json (nullable refund_obj _) _ |- _ =>
      apply same_json_nullable in H; [|intros ?; apply obj_not_null|apply refund_inj]
  | H : same_json (nullable project_obj _) _ |- _ =>
      apply same_json_nullable in H; [|intros ?; apply obj_not_null|apply project_inj]
  end.
  assert (ev_evidenceKind e = ev_evidenceKind f) by (destruct (ev_evidenceKind e), (ev_evidenceKind f); done).
  destruct e, f; cbn in *. by subst.
Qed.

Lemma evidence_arr es : evidence_obj (map Some es) = arr (map reference_obj es).
Proof. unfold evidence_obj, arr. by rewrite !map_map. Qed.

Lemma evidence_inj es fs :
  same_json (evidence_obj (map Some es)) (evidence_obj (map Some fs)) → es = fs.
Proof.
  intros HS. rewrite !evidence_arr in HS. apply same_json_array in HS. revert fs HS.
  induction es as [|e es IH]; intros [|f fs] HS; [done|by inversion HS..|]. cbn in HS.
  apply Forall2_cons in HS as [HE HS]. f_equal; [by apply reference_inj|by apply IH].
Qed.

(** The lease, or the block that is waited for. *)
Definition decision_terms (d : AuthorityDecision) : option (AuthorityLease + string * string * string) :=
  match d with
  | decision_eligible _ l _ => Some (inl l)
  | decision_pending _ n h t _ => Some (inr (n, h, t))
  | _ => None
  end.

Lemma lease_inj l m : same_json (lease_obj l) (lease_obj m) → l = m.
Proof. unfold lease_obj. intros HS. same_fields HS. destruct l, m; cbn in *. by subst. Qed.

Lemma same_json_app fs fs' gs gs' :
  NoDup (map fst (fs' ++ gs')) → map fst fs = map fst fs' → map fst gs = map fst gs' →
  same_json (obj (fs ++ gs)) (obj (fs' ++ gs')) →
  Forall2 (λ f g, same_json f.2 g.2) fs fs' ∧ Forall2 (λ f g, same_json f.2 g.2) gs gs'.
Proof.
  intros HN HF HG HS. apply same_json_fields in HS; [|by rewrite map_app, HF, HG, <- map_app|by rewrite !map_app, HF, HG].
  apply Forall2_app_inv in HS; [done|]. by rewrite <- (length_map fst fs), HF, length_map.
Qed.

(** Reads the fields off a [Forall2 same_json] of two literals. *)
Ltac read_same H :=
  repeat match type of H with Forall2 _ (_ :: _) (_ :: _) =>
    let H' := fresh H in apply Forall2_cons in H as [H' H]; cbn [fst snd] in H' end; clear H;
  repeat match goal with
  | H' : same_json (VString _) (VString _) |- _ => apply same_json_string in H'
  end.

Lemma base_inj b b' :
  Forall2 (λ f g, same_json f.2 g.2) (base_fields b) (base_fields b') →
  db_decisionDigest b = db_decisionDigest b' → b = b'.
Proof.
  unfold base_fields. intros HS HD. read_same HS.
  repeat match goal with
  | H : same_json (subject_obj _) _ |- _ => apply subject_inj in H
  | H : same_json (resource_obj _) _ |- _ => apply resource_inj in H
  | H : same_json (evidence_obj _) _ |- _ => apply evidence_inj in H
  end.
  assert (db_action b = db_action b') by (destruct (db_action b), (db_action b'); done).
  destruct b, b'; cbn in *. by subst.
Qed.

Lemma committed_inj d d' :
  same_json (obj (committed_fields d)) (obj (committed_fields d')) →
  db_decisionDigest (decision_base d) = db_decisionDigest (decision_base d') →
  decision_base d = decision_base d' ∧ decision_verdict d = decision_verdict d' ∧
  decision_terms d = decision_terms d'.
Proof.
  intros HS HD. assert (HK := HS).
  eapply (same_json_get _ _ "status") in HK;
    [|destruct d'; by apply (bool_decide_unpack _); vm_compute|apply elem_of_app; right; left|apply elem_of_app; right; left].
  apply same_json_string in HK.
  destruct d, d'; try discriminate HK; clear HK; unfold committed_fields in HS;
    (apply same_json_app in HS as [HB HR]; [|by apply (bool_decide_unpack _); vm_compute|done|done]);
    apply base_inj in HB; [|done| |done| |done| |done];
    cbn [app] in HR; read_same HR; cbn [decision_base decision_verdict decision_terms];
    (split; [done|]); repeat match goal with H : same_json (lease_obj _) _ |- _ => apply lease_inj in H end; subst;
    try done.
  - destruct reasonCode, reasonCode0; done.
  - destruct reasonCode, reasonCode0; done.
Qed.

Lemma dense_evidence es : dense (evidence_obj (map Some es)) = true.
Proof.
  rewrite evidence_arr, dense_arr. apply forallb_forall. intros v (e & <- & _)%in_map_iff.
  unfold reference_obj. rewrite dense_obj. cbn [forallb snd].
  rewrite !dense_nullable by (intros []; done). done.
Qed.

Lemma dense_resource r : dense (resource_obj r) = true.
Proof. by destruct r. Qed.

Lemma dense_committed d : dense (committed_obj d) = true.
Proof.
  unfold committed_obj. rewrite dense_obj. cbn [forallb snd]. rewrite dense_obj.
  unfold committed_fields, base_fields. rewrite !forallb_app. cbn [forallb snd].
  rewrite dense_evidence, dense_resource. destruct d; cbn [forallb snd]; [|done..].
  destruct (al_authorityGenerationId lease) eqn:E; unfold lease_obj; by rewrite E.
Qed.

(** ** Decisions answer their request *)

Lemma matches_Ok d r u :
  assertDecisionMatchesRequest d r = Ok u →
  let b := decision_base d in
  db_requestId b = gr_requestId r ∧ db_evaluatedAt b = gr_evaluatedAt r ∧ db_policyId b = gr_policyId r ∧
  db_policyRevision b = gr_policyRevision r ∧ db_policyHash b = gr_policyHash r ∧
  db_action b = gr_action r ∧ db_inputDigest b = gr_inputDigest r ∧ db_resourceDigest b = gr_resourceDigest r ∧
  (db_subject b = gr_subject r ∨
   collision [authorityPreimage (subject_obj (db_subject b))] [authorityPreimage (subject_obj (gr_subject r))]) ∧
  (db_resource b = gr_resource r ∨
   collision [authorityPreimage (resource_obj (db_resource b))] [authorityPreimage (resource_obj (gr_resource r))]).
Proof.
  unfold assertDecisionMatchesRequest. cbv zeta. intros H0. inv_auth. bsimp. split_and!; try done.
  - match goal with H : refuse_digests (subject_obj _) _ = Ok _ |- _ => apply refuse_digests_Ok in H as [HS|]; [left|by right|done..] end.
    by apply subject_inj.
  - match goal with H : refuse_digests (resource_obj _) _ = Ok _ |- _ =>
      apply refuse_digests_Ok in H as [HS|]; [left|by right|apply dense_resource..] end.
    by apply resource_inj.
Qed.

(** The decision before its request, digest and audit are looked at. *)
Definition decisionOf (v : unknown) (d : AuthorityDecision) : Prop :=
  match d with
  | decision_eligible _ _ _ => parseEligibleDecision v = Ok d
  | decision_ineligible _ _ _ => parseIneligibleDecision v = Ok d
  | decision_pending _ _ _ _ _ => parsePendingDecision v = Ok d
  | decision_unavailable _ _ _ => parseUnavailableDecision v = Ok d
  end.

Lemma decision_Ok v cx d :
  parseAuthorityDecision v cx = Ok d →
  ∃ r, parseAuthorityGateRequest (cx_request cx) = Ok r ∧ decisionOf v d ∧
    assertDecisionMatchesRequest d r = Ok () ∧
    computeAuthorityDecisionDigest d = Ok (db_decisionDigest (decision_base d)) ∧
    assertDecisionAudit d cx = Ok ().
Proof.
  unfold parseAuthorityDecision. cbv zeta. intros (rec & _ & (r & Hr & (d' & HD & H0)%bind_Ok)%bind_Ok)%bind_Ok.
  inv_auth. subst d'. bsimp. repeat match goal with u : () |- _ => destruct u end. exists r. split_and!; try done; [|congruence].
  destruct (isString _ "eligible"); [|destruct (isString _ "ineligible"); [|destruct (isString _ "pending-finality");
    [|destruct (isString _ "unavailable"); [|done]]]].
  - assert (∃ b l a, d = decision_eligible b l a) as (b & l & a & ->); [|done].
    unfold parseEligibleDecision in HD. cbv zeta in HD. inv_auth. by subst; eauto.
  - assert (∃ b l a, d = decision_ineligible b l a) as (b & l & a & ->); [|done].
    unfold parseIneligibleDecision in HD. inv_auth. by subst; eauto.
  - assert (∃ b l a c e, d = decision_pending b l a c e) as (b & l & a & c & e & ->); [|done].
    unfold parsePendingDecision in HD. inv_auth. subst. by do 5 eexists.
  - assert (∃ b l a, d = decision_unavailable b l a) as (b & l & a & ->); [|done].
    unfold parseUnavailableDecision in HD. inv_auth. by subst; eauto.
Qed.

(** C6: An accepted eligible decision is justified by the evidence it names: the
    lease starts at the evaluation, lasts at most five minutes and ends no
    later than any of its evidence; the acting device is the named credential;
    a purchase lease rests on that very purchase of this account, its receipt
    in a block and a refund ledger that clears it; a staff lease on one
    generation, its root and a delegation to this account of the capability
    the action needs.  And it answers the request that was asked. *)
Theorem eligible_justified v cx b l a :
  parseAuthorityDecision v cx = Ok (decision_eligible b l a) →
  wellFormed b ∧ justified b l ∧
  ∃ r, parseAuthorityGateRequest (cx_request cx) = Ok r ∧
    db_requestId b = gr_requestId r ∧ db_action b = gr_action r ∧ db_inputDigest b = gr_inputDigest r ∧
    (db_subject b = gr_subject r ∨
     collision [authorityPreimage (subject_obj (db_subject b))] [authorityPreimage (subject_obj (gr_subject r))]) ∧
    (db_resource b = gr_resource r ∨
     collision [authorityPreimage (resource_obj (db_resource b))] [authorityPreimage (resource_obj (gr_resource r))]).
Proof.
  intros (r & Hr & [HW HJ]%eligible_Ok & HM%matches_Ok & _)%decision_Ok. cbn in HM.
  destruct HM as (? & _ & _ & _ & _ & ? & ? & _ & ? & ?). split_and!; [done..|]. exists r. by split_and!.
Qed.

(** ** Audit records *)

Lemma audit_Ok v d key prior a :
  parseAuthorityAuditRecord v d key prior = Ok a →
  assertAuditMatchesDecision a d = Ok () ∧ ar_auditSignerKeyId a = key ∧ ar_priorAuditHeadDigest a = prior ∧
  computeAuthorityAuditRecordDigest a = Ok (ar_auditRecordDigest a) ∧
  computeAuthorityAuditHeadDigest prior (ar_auditRecordDigest a) key = Ok (ar_auditHeadDigest a).
Proof.
  unfold parseAuthorityAuditRecord. cbv zeta. intros H0. inv_auth. subst a. bsimp.
  repeat match goal with u : () |- _ => destruct u end. cbn [ar_auditSignerKeyId ar_priorAuditHeadDigest ar_auditRecordDigest ar_auditHeadDigest].
  split_and!; try done; congruence.
Qed.

Lemma audit_matches a d :
  assertAuditMatchesDecision a d = Ok () →
  let b := decision_base d in
  ar_decisionId a = db_decisionId b ∧ ar_verdict a = decision_verdict d ∧
  ar_decisionDigest a = db_decisionDigest b ∧ ar_action a = db_action b ∧
  ar_project a = resource_project (db_resource b) ∧
  computeAuthorityAuditIdempotencyKey d = Ok (ar_idempotencyKey a) ∧
  Date_parse (db_evaluatedAt b) <= Date_parse (ar_recordedAt a) ∧
  (ar_subject a = db_subject b ∨
   collision [authorityPreimage (subject_obj (ar_subject a))] [authorityPreimage (subject_obj (db_subject b))]).
Proof.
  unfold assertAuditMatchesDecision, instantMilliseconds. cbv zeta. intros H0. inv_auth. bsimp. zbool.
  match goal with H : sameJuiceboxV6ProjectRef _ _ = true |- _ => apply sameProject_eq in H end.
  split_and!; try done; [congruence|].
  match goal with H : refuse_digests (subject_obj _) _ = Ok _ |- _ => apply refuse_digests_Ok in H as [HS|]; [left|by right|done..] end.
  by apply subject_inj.
Qed.

Lemma unavailable_Ok v b reason a :
  parseUnavailableDecision v = Ok (decision_unavailable b reason a) →
  wellFormed b ∧ (a = None ↔ reason = decision_audit_store_unavailable).
Proof.
  unfold parseUnavailableDecision. intros H0. apply bind_Ok in H0 as (r & _ & (reason' & _ & (b' & HB & (a' & HA & H0)%bind_Ok)%bind_Ok)%bind_Ok).
  injection H0 as -> -> ->. split; [by eapply parseBase_Ok|]. case_bool_decide.
  - apply bind_Ok in HA as (u & _ & [= <-]). done.
  - destruct (parsePersistedAudit _ _); [|done]. by injection HA as <-.
Qed.

(** C22: Nothing is released unaudited: an accepted decision either says that the
    audit store was down, grants nothing and comes with no record, or it comes
    with a record, made no earlier, that extends the trusted audit head under
    the trusted key and states this decision, its outcome and its digest. *)
Theorem released_is_audited v cx d :
  parseAuthorityDecision v cx = Ok d →
  match decision_audit d with
  | None => decision_verdict d = verdict_unavailable decision_audit_store_unavailable ∧ cx_auditRecord cx = VNull
  | Some audit =>
      decision_verdict d ≠ verdict_unavailable decision_audit_store_unavailable ∧
      ∃ a, parseAuthorityAuditRecord (cx_auditRecord cx) d (cx_expectedAuditSignerKeyId cx)
             (cx_expectedPriorAuditHeadDigest cx) = Ok a ∧
        computeAuthorityAuditHeadDigest (cx_expectedPriorAuditHeadDigest cx) (pa_auditRecordDigest audit)
          (cx_expectedAuditSignerKeyId cx) = Ok (pa_auditHeadDigest audit) ∧
        computeAuthorityAuditRecordDigest a = Ok (pa_auditRecordDigest audit) ∧
        computeAuthorityDecisionDigest d = Ok (ar_decisionDigest a) ∧
        ar_verdict a = decision_verdict d ∧ ar_action a = db_action (decision_base d) ∧
        ar_project a = resource_project (db_resource (decision_base d)) ∧
        Date_parse (db_evaluatedAt (decision_base d)) <= Date_parse (ar_recordedAt a) ∧
        (ar_subject a = db_subject (decision_base d) ∨
         collision [authorityPreimage (subject_obj (ar_subject a))]
                   [authorityPreimage (subject_obj (db_subject (decision_base d)))])
  end.
Proof.
  intros (r & _ & HD & _ & HC & HA)%decision_Ok. unfold assertDecisionAudit in HA.
  assert (HV : decision_audit d = None ↔ decision_verdict d = verdict_unavailable decision_audit_store_unavailable).
  { destruct d; cbn in *; try done. apply unavailable_Ok in HD as [_ HD]. rewrite HD. split; congruence. }
  destruct (decision_audit d) as [audit|].
  - split; [rewrite <- HV; done|]. inv_auth. bsimp.
    match goal with H : parseAuthorityAuditRecord _ _ _ _ = Ok ?x |- _ => rename x into a; rename H into HP end.
    exists a. split; [done|]. apply audit_Ok in HP as (HM & _ & _ & HR & HH). apply audit_matches in HM. cbv zeta in HM.
    destruct HM as (_ & ? & ? & ? & ? & _ & ? & ?). split_and!; try done; congruence.
  - split; [by apply HV|]. inv_auth. bsimp. destruct (cx_auditRecord cx); done.
Qed.

(** The decision digest commits to the whole decision: two accepted decisions
    with one digest, for whatever requests, are the same decision with the same
    evidence and terms, or the two digested texts collide. *)
Theorem decision_binding v v' cx cx' d d' :
  parseAuthorityDecision v cx = Ok d → parseAuthorityDecision v' cx' = Ok d' →
  db_decisionDigest (decision_base d) = db_decisionDigest (decision_base d') →
  (decision_base d = decision_base d' ∧ decision_verdict d = decision_verdict d' ∧
   decision_terms d = decision_terms d') ∨
  collision [authorityPreimage (committed_obj d)] [authorityPreimage (committed_obj d')].
Proof.
  intros (_ & _ & _ & _ & H1 & _)%decision_Ok (_ & _ & _ & _ & H2 & _)%decision_Ok HE.
  rewrite <- HE in H2.
  destruct (authorityDigest_inj _ _ _ (dense_committed d) (dense_committed d') H1 H2) as [HS|]; [left|by right].
  unfold committed_obj in HS. same_fields HS. by apply committed_inj.
Qed.

(** *** The audit log as a hash chain *)

(** A record read from JSON has no hole among its evidence. *)
Definition holeless (a : AuthorityAuditRecord) : Prop := ∃ es, ar_evidence a = map Some es.

(** The records accepted one after another, from one audit head to another. *)
Inductive audited : string → list AuthorityAuditRecord → string → Prop :=
| audited_start h : audited h [] h
| audited_next h l h' v d key a :
    audited h l h' → parseAuthorityAuditRecord v d key h' = Ok a → holeless a →
    audited h (l ++ [a]) (ar_auditHeadDigest a).

Lemma unsigned_inj a a' :
  holeless a → holeless a' → same_json (unsigned_obj a) (unsigned_obj a') →
  ar_auditRecordDigest a = ar_auditRecordDigest a' → ar_auditHeadDigest a = ar_auditHeadDigest a' → a = a'.
Proof.
  intros [es He] [es' He']. unfold unsigned_obj. intros HS HR HH. same_fields HS. unfold unsigned_fields in *.
  match goal with H : same_json _ _ |- _ => rename H into HU end. rewrite He, He' in HU. same_fields HU.
  repeat match goal with
  | H : same_json (subject_obj _) _ |- _ => apply subject_inj in H
  | H : same_json (project_obj _) _ |- _ => apply project_inj in H
  | H : same_json (evidence_obj _) _ |- _ => apply evidence_inj in H
  end.
  assert (ar_action a = ar_action a') by (destruct (ar_action a), (ar_action a'); done).
  assert (ar_verdict a = ar_verdict a').
  { destruct (ar_verdict a) as [|[]| |[]], (ar_verdict a') as [|[]| |[]]; done. }
  assert (ar_evidence a = ar_evidence a') by congruence.
  destruct a, a'; cbn in *. by subst.
Qed.

Lemma dense_unsigned a : holeless a → dense (unsigned_obj a) = true.
Proof.
  intros [es He]. unfold unsigned_obj. rewrite dense_obj. cbn [forallb snd]. rewrite dense_obj.
  unfold unsigned_fields. cbn [forallb snd]. rewrite He, dense_evidence. done.
Qed.

Definition headPreimage (prior : string) (a : AuthorityAuditRecord) : bytes :=
  authorityPreimage (head_obj prior (ar_auditRecordDigest a) (ar_auditSignerKeyId a)).
(** What the digests of the records are taken of. *)
Definition auditPreimages (l : list AuthorityAuditRecord) : list bytes :=
  flat_map (λ a, [headPreimage (ar_priorAuditHeadDigest a) a; authorityPreimage (unsigned_obj a)]) l.

Lemma auditPreimages_app l m : auditPreimages (l ++ m) = auditPreimages l ++ auditPreimages m.
Proof. apply flat_map_app. Qed.

(** One head has one record before it. *)
Lemma audit_head_inj v v' d d' key key' h h' a a' :
  parseAuthorityAuditRecord v d key h = Ok a → parseAuthorityAuditRecord v' d' key' h' = Ok a' →
  holeless a → holeless a' → ar_auditHeadDigest a = ar_auditHeadDigest a' →
  (h = h' ∧ a = a') ∨ collision (auditPreimages [a]) (auditPreimages [a']).
Proof.
  intros (_ & <- & <- & HR & HH)%audit_Ok (_ & <- & <- & HR' & HH')%audit_Ok HL HL' HE. cbn.
  rewrite <- HE in HH'. unfold computeAuthorityAuditHeadDigest in *.
  destruct (authorityDigest_inj (head_obj _ _ _) (head_obj _ _ _) _ eq_refl eq_refl HH HH') as [HS|HC].
  - unfold head_obj in HS. same_fields HS. unfold computeAuthorityAuditRecordDigest in *.
    match goal with H : ar_auditRecordDigest a = _ |- _ => rewrite <- H in HR'; rename H into HRD end.
    destruct (authorityDigest_inj _ _ _ (dense_unsigned a HL) (dense_unsigned a' HL') HR HR') as [HS|HC].
    + left. split; [done|]. by apply unsigned_inj.
    + right. eapply collision_mono; [| |exact HC]; intros x [->|[]%elem_of_nil]%elem_of_cons; right; left.
  - right. eapply collision_mono; [| |exact HC]; intros x [->|[]%elem_of_nil]%elem_of_cons; left.
Qed.

Lemma audited_snoc_inv h l a e :
  audited h (l ++ [a]) e →
  ∃ h' v d key, audited h l h' ∧ parseAuthorityAuditRecord v d key h' = Ok a ∧ holeless a ∧ e = ar_auditHeadDigest a.
Proof.
  intros HA. inversion HA.
  - match goal with E : [] = _ ++ _ |- _ => by apply app_cons_not_nil in E end.
  - match goal with E : _ ++ [_] = _ ++ [_] |- _ => apply app_inj_tail in E as [-> ->] end. by eexists _, _, _, _.
Qed.

(** C21: An audit head determines the log before it: of two logs that end in one
    head, the shorter is the end of the longer, record by record, or two
    digested texts collide.  No record behind a published head can be changed,
    dropped or reordered. *)
Theorem audit_chain_binding h h' l l' e :
  audited h l e → audited h' l' e → (length l' <= length l)%nat →
  (∃ earlier, l = earlier ++ l' ∧ audited h earlier h') ∨ collision (auditPreimages l) (auditPreimages l').
Proof.
  revert l e. induction l' as [|a' l' IH] using rev_ind; intros l e HA HA' HL.
  - left. exists l. rewrite app_nil_r. split; [done|]. inversion HA'; [by subst|].
    match goal with E : _ ++ _ = [] |- _ => by destruct (app_cons_not_nil _ _ _ (eq_sym E)) end.
  - destruct (exists_last (l := l)) as (m & a & ->); [intros ->; rewrite length_app in HL; cbn in HL; lia|].
    apply audited_snoc_inv in HA as (p & v & d & key & HA & HP & Hh & ->), HA' as (p' & v' & d' & key' & HA' & HP' & Hh' & HE).
    rewrite !length_app in HL. cbn in HL. rewrite !auditPreimages_app.
    destruct (audit_head_inj _ _ _ _ _ _ _ _ _ _ HP HP' Hh Hh' HE) as [[<- <-]|HC].
    + destruct (IH m p HA HA' ltac:(lia)) as [(x & -> & HX)|HC].
      * left. exists x. by rewrite app_assoc.
      * right. eapply collision_mono; [| |exact HC]; intros ? ?; apply elem_of_app; by left.
    + right. eapply collision_mono; [| |exact HC]; intros ? ?; apply elem_of_app; by right.
Qed.

(** ** Requests are read back *)

Definition request_obj (r : AuthorityGateRequest) : unknown :=
  obj [("requestId", VString (gr_requestId r)); ("evaluatedAt", VString (gr_evaluatedAt r));
       ("policyId", VString (gr_policyId r)); ("policyRevision", VString (gr_policyRevision r));
       ("policyHash", VString (gr_policyHash r)); ("subject", subject_obj (gr_subject r));
       ("resource", resource_obj (gr_resource r)); ("action", VString (lit (gr_action r)));
       ("inputDigest", VString (gr_inputDigest r)); ("resourceDigest", VString (gr_resourceDigest r))].

Lemma parseSubject_again v s : parseSubject v = Ok s → parseSubject (subject_obj s) = Ok s.
Proof.
  unfold parseSubject, subject_obj. intros H0. inv_auth. subst s. cbn [as_account as_participantId as_installationId as_deviceCredentialId].
  open_record. by erewrite parseAddress_again, !parseAuthorityId_again.
Qed.

Lemma parseLiteral_again {A} `{Literal A} v (a : A) : parseLiteral v = Ok a → parseLiteral (VString (lit a)) = Ok a.
Proof. intros HP. destruct (parseLiteral_Ok _ _ HP) as [<- _]. exact HP. Qed.

Lemma parseResource_again v r : parseResource v = Ok r → parseResource (resource_obj r) = Ok r.
Proof.
  intros H0. unfold parseResource in H0. apply bind_Ok in H0 as (rec & _ & H0). cbv zeta in H0.
  destruct (isString _ "purchase-support"); [|destruct (isString _ "tier-fulfillment"); [|destruct (isString _ "project-staff"); [|done]]];
    inv_auth; subst r; unfold parseResource, resource_obj; rewrite expectObject_obj; cbn [mbind result_bind]; read_fields; cbv zeta; read_literals; open_record.
  - erewrite parseProject_again; [cbn [mbind result_bind]|done]. erewrite parseAuthorityId_again; [cbn [mbind result_bind]|done].
    erewrite parseHash32_again; [cbn [mbind result_bind]|done]. by erewrite parseLogIndex_again.
  - erewrite parseProject_again; [cbn [mbind result_bind]|done]. erewrite parseAuthorityId_again; [cbn [mbind result_bind]|done].
    by erewrite !parseUint256Decimal_again.
  - erewrite parseProject_again; [cbn [mbind result_bind]|done].
    match goal with H : parseStaffCapability ?v = Ok _ |- _ => destruct v; try discriminate H; cbn in H; inv_auth; subst end.
    cbn. by match goal with H : _ = false |- _ => rewrite H end.
Qed.

(** A request that was accepted is accepted as the object it was read into, and
    is read as the same request: the callers that hand a parsed request on to
    the decision parser lose nothing. *)
Theorem gate_request_roundtrip v r :
  parseAuthorityGateRequest v = Ok r → parseAuthorityGateRequest (request_obj r) = Ok r.
Proof.
  unfold parseAuthorityGateRequest. cbv zeta. intros H0. inv_auth. subst r.
  unfold request_obj. cbn [gr_requestId gr_evaluatedAt gr_policyId gr_policyRevision gr_policyHash gr_subject
    gr_resource gr_action gr_inputDigest gr_resourceDigest] in *.
  match goal with |- context [subject_obj ?s] => remember (subject_obj s) as so eqn:Es end.
  match goal with |- context [resource_obj ?r] => remember (resource_obj r) as ro eqn:Er end.
  match goal with |- context [lit ?a] => remember (lit a) as la eqn:Ea end.
  assert (HUs : isUndefined so = false) by by subst so.
  assert (HUr : isUndefined ro = false) by (subst ro; by destruct x0).
  open_record. subst so ro la.
  erewrite parseResource_again by done. cbn [mbind result_bind]. unfold parseAction in *. erewrite parseLiteral_again by done.
  cbn [mbind result_bind].
  repeat match goal with H : assertActionMatchesResource _ _ = Ok _ |- _ => rewrite H; clear H end. cbn [mbind result_bind].
  repeat (first [erewrite parseAuthorityId_again by done|erewrite parseUint256Decimal_again by done|erewrite parseHash32_again by done|erewrite parseSubject_again by done|erewrite parseCanonicalInstant_again by done]; cbn [mbind result_bind]).
  repeat (match goal with
    | H : ?e = Ok _ |- context [?e] => rewrite H
    | H : ?b = false |- context [refuse_if ?b] => rewrite H
    end; cbn [refuse_if throw_if mbind result_bind]). done.
Qed.
End Facts.

(** ** Samples *)

Module DecisionSamples.
#[local] Existing Instance checksum_digest.
Import AuthorityGenerations.Samples.

Definition subject : AuthoritySubject :=
  {| as_account := sample_hex 40 "5"%char; as_participantId := "participant";
     as_installationId := "installation"; as_deviceCredentialId := "credential" |}.
Definition resource : AuthorityResource := purchase_support (project 1) "purchase" (sample_hex 64 "7"%char) 3.
Definition resourceDigest : string := ok_or "" (computeAuthorityResourceDigest resource).

Definition request_of (inputDigest : string) : AuthorityGateRequest :=
  {| gr_requestId := "request"; gr_evaluatedAt := "2026-01-01T00:05:00.000Z"; gr_policyId := "policy";
     gr_policyRevision := "4"; gr_policyHash := sample_hex 64 "8"%char; gr_subject := subject;
     gr_resource := resource; gr_action := purchase_support_send; gr_inputDigest := inputDigest;
     gr_resourceDigest := resourceDigest |}.
Definition gate_request : AuthorityGateRequest :=
  request_of (ok_or "" (computeAuthorityGateInputDigest (request_of ""))).

Definition reference (id : string) (kind : AuthorityEvidenceKind) (digest : string) (bound : bool)
    (refund : option RefundDecision) (account : option string) (expires : option string) : AuthorityEvidenceReference :=
  {| ev_evidenceId := id; ev_evidenceKind := kind; ev_digest := digest; ev_policyId := "policy";
     ev_policyRevision := "4"; ev_policyHash := sample_hex 64 "8"%char;
     ev_resourceDigest := if bound then Some resourceDigest else None; ev_refundDecision := refund;
     ev_project := if bound then Some (project 1) else None; ev_subjectAccount := account;
     ev_generationId := None; ev_blockNumber := if bound then Some "120" else None;
     ev_blockHash := if bound then Some (sample_hex 64 "b"%char) else None; ev_expiresAt := expires |}.

Definition refund : RefundDecision :=
  {| rf_headId := "refunds"; rf_headSequence := "9"; rf_headDigest := sample_hex 64 "9"%char;
     rf_currentStatus := no_applicable_entry; rf_evaluatedAt := "2026-01-01T00:04:00.000Z";
     rf_freshUntil := "2026-01-01T00:09:00.000Z" |}.

Definition evidence : list AuthorityEvidenceReference :=
  [reference "credential" device_credential (sample_hex 64 "1"%char) false None
     (Some (as_account subject)) (Some "2026-02-01T00:00:00.000Z");
   reference "purchase" purchase_beneficiary (sample_hex 64 "2"%char) true None (Some (as_account subject)) None;
   reference "receipt" finalized_receipt (sample_hex 64 "3"%char) true None None None;
   reference "refunds" refund_ledger (sample_hex 64 "9"%char) true (Some refund) None (Some "2026-01-01T00:09:00.000Z")].

Definition base (decisionDigest : string) : DecisionBase :=
  {| db_decisionId := "decision"; db_requestId := "request"; db_evaluatedAt := "2026-01-01T00:05:00.000Z";
     db_policyId := "policy"; db_policyRevision := "4"; db_policyHash := sample_hex 64 "8"%char;
     db_subject := subject; db_resource := resource; db_action := purchase_support_send;
     db_inputDigest := gr_inputDigest gate_request; db_resourceDigest := resourceDigest;
     db_decisionDigest := decisionDigest; db_evidence := evidence |}.
Definition lease : AuthorityLease :=
  {| al_leaseId := "lease"; al_issuedAt := "2026-01-01T00:05:00.000Z";
     al_expiresAt := "2026-01-01T00:09:00.000Z"; al_authorityGenerationId := None |}.
Definition no_audit : PersistedDecisionAudit :=
  {| pa_auditRecordId := ""; pa_auditRecordDigest := ""; pa_decisionId := ""; pa_decisionDigest := "";
     pa_idempotencyKey := ""; pa_auditSignerKeyId := ""; pa_auditHeadDigest := "" |}.
Definition decisionDigest : string :=
  ok_or "" (computeAuthorityDecisionDigest (decision_eligible (base "") lease no_audit)).

(** The audit record of the decision, behind a given head. *)
Definition genesis : string := sample_hex 64 "0"%char.
Definition record_of (prior recordDigest headDigest : string) : AuthorityAuditRecord :=
  {| ar_auditRecordId := "record"; ar_auditRecordDigest := recordDigest; ar_decisionId := "decision";
     ar_idempotencyKey :=
       ok_or "" (computeAuthorityAuditIdempotencyKey (decision_eligible (base decisionDigest) lease no_audit));
     ar_auditSignerKeyId := "audit-key"; ar_priorAuditHeadDigest := prior; ar_auditHeadDigest := headDigest;
     ar_recordedAt := "2026-01-01T00:05:01.000Z"; ar_policyId := "policy"; ar_policyRevision := "4";
     ar_policyHash := sample_hex 64 "8"%char; ar_action := purchase_support_send; ar_subject := subject;
     ar_project := project 1; ar_inputDigest := gr_inputDigest gate_request;
     ar_resourceDigest := resourceDigest; ar_verdict := verdict_eligible;
     ar_evidence := map Some evidence; ar_decisionDigest := decisionDigest |}.
Definition record_after (prior : string) : AuthorityAuditRecord :=
  let d := ok_or "" (computeAuthorityAuditRecordDigest (record_of prior "" "")) in
  record_of prior d (ok_or "" (computeAuthorityAuditHeadDigest prior d "audit-key")).
Definition first_record : AuthorityAuditRecord := record_after genesis.
Definition second_record : AuthorityAuditRecord := record_after (ar_auditHeadDigest first_record).
Definition record_obj (a : AuthorityAuditRecord) : unknown :=
  obj (unsigned_fields a ++ [("auditRecordDigest", VString (ar_auditRecordDigest a));
                             ("auditHeadDigest", VString (ar_auditHeadDigest a))]).

Definition audit : PersistedDecisionAudit :=
  {| pa_auditRecordId := "record"; pa_auditRecordDigest := ar_auditRecordDigest first_record;
     pa_decisionId := "decision"; pa_decisionDigest := decisionDigest;
     pa_idempotencyKey := ar_idempotencyKey first_record; pa_auditSignerKeyId := "audit-key";
     pa_auditHeadDigest := ar_auditHeadDigest first_record |}.
Definition audit_obj : unknown :=
  obj [("status", VString "persisted-before-release"); ("auditRecordId", VString (pa_auditRecordId audit));
       ("auditRecordDigest", VString (pa_auditRecordDigest audit)); ("decisionId", VString "decision");
       ("decisionDigest", VString decisionDigest); ("idempotencyKey", VString (pa_idempotencyKey audit));
       ("auditSignerKeyId", VString "audit-key"); ("auditHeadDigest", VString (pa_auditHeadDigest audit))].

Definition decision : AuthorityDecision := decision_eligible (base decisionDigest) lease audit.
Definition decision_obj : unknown :=
  obj (committed_fields decision ++ [("decisionDigest", VString decisionDigest); ("audit", audit_obj)]).
Definition context : AuthorityDecisionValidationContext :=
  {| cx_request := request_obj gate_request; cx_auditRecord := record_obj first_record;
     cx_expectedAuditSignerKeyId := "audit-key"; cx_expectedPriorAuditHeadDigest := genesis |}.

Lemma decision_accepted : parseAuthorityDecision decision_obj context = Ok decision.
Proof. vm_compute. reflexivity. Defined.

Lemma eligible_justified_witness :
  (parseAuthorityDecision decision_obj context = Ok decision) ∧ justified (base decisionDigest) lease.
Proof. split; [exact decision_accepted|]. exact (proj1 (proj2 (eligible_justified _ _ _ _ _ decision_accepted))). Defined.

Lemma released_is_audited_witness :
  (parseAuthorityDecision decision_obj context = Ok decision) ∧
  ∃ a, parseAuthorityAuditRecord (record_obj first_record) decision "audit-key" genesis = Ok a ∧
       ar_verdict a = verdict_eligible.
Proof.
  split; [exact decision_accepted|].
  destruct (released_is_audited _ _ _ decision_accepted) as (_ & a & HP & _ & _ & _ & HV & _). exists a. split; [exact HP|exact HV].
Defined.

Lemma two_records : audited genesis [first_record; second_record] (ar_auditHeadDigest second_record).
Proof.
  apply (audited_next _ [first_record] (ar_auditHeadDigest first_record) (record_obj second_record) decision "audit-key");
    [|vm_compute; reflexivity|by exists evidence].
  apply (audited_next _ [] genesis (record_obj first_record) decision "audit-key");
    [constructor|vm_compute; reflexivity|by exists evidence].
Defined.

Lemma one_record :
  audited (ar_auditHeadDigest first_record) [second_record] (ar_auditHeadDigest second_record).
Proof.
  apply (audited_next _ [] (ar_auditHeadDigest first_record) (record_obj second_record) decision "audit-key");
    [constructor|vm_compute; reflexivity|by exists evidence].
Defined.

Lemma audit_chain_binding_witness :
  (∃ earlier, [first_record; second_record] = earlier ++ [second_record] ∧
     audited genesis earlier (ar_auditHeadDigest first_record)) ∨
  collision (auditPreimages [first_record; second_record]) (auditPreimages [second_record]).
Proof. apply (audit_chain_binding _ _ _ _ _ two_records one_record). cbn. lia. Defined.

Lemma decision_binding_witness :
  (parseAuthorityDecision decision_obj context = Ok decision) ∧
  (decision_terms decision = decision_terms decision ∨
   collision [authorityPreimage (committed_obj decision)] [authorityPreimage (committed_obj decision)]).
Proof.
  split; [exact decision_accepted|].
  destruct (decision_binding _ _ _ _ _ _ decision_accepted decision_accepted eq_refl) as [(_ & _ & HT)|HC]; [by left|by right].
Defined.

Lemma gate_request_roundtrip_witness :
  (parseAuthorityGateRequest (request_obj gate_request) = Ok gate_request) ∧
  parseAuthorityGateRequest (request_obj gate_request) = Ok gate_request.
Proof.
  assert (HP : parseAuthorityGateRequest (request_obj gate_request) = Ok gate_request) by (vm_compute; reflexivity).
  split; [exact HP|exact (gate_request_roundtrip _ _ HP)].
Defined.
End DecisionSamples.
