(* ===== verification/AuthorityChallenges.v ===== *)
(** * Wallet challenges ([src/production/authority/challenges.ts])

    The challenge a wallet signs to enrol one device, as a Sign-In with Ethereum
    message or as EIP-712 typed data; the keys of the device it binds; and the
    claim that makes it usable once. *)

From stdpp Require Import base list strings.
From Stdlib Require Import ZArith Lia Ascii.
From S2P Require Import Prelude Sha256 Base64Url JsTime JsValue ValueObjects Quota CanonicalJson AuthorityValues AuthorityFinality AuthorityDigests.

Definition SIWE_VERSION : string := "1".
Definition SIWE_STATEMENT : string :=
  "Authorize this wallet to enroll one Juicebox Messaging device.".
Definition EIP712_DOMAIN_NAME : string := "Juicebox Messaging".
Definition EIP712_DOMAIN_VERSION : string := "1".
Definition EIP712_PRIMARY_TYPE : string := "JuiceboxMessagingDeviceEnrollmentV1".
Definition SIWE_ENROLLMENT_PROFILE : string := "siwe-erc4361-v1".
Definition EIP712_ENROLLMENT_PROFILE : string := "eip712-device-enrollment-v1".
Definition INSTALLATION_AUTH_PROFILE : string := "p256-es256-dpop.v1".
Definition MLS_CREDENTIAL_PROFILE : string := "mls-credential-ed25519-suite-0x0001.v1".
Definition MLS_CIPHERSUITE : string := "MLS_128_DHKEMX25519_AES128GCM_SHA256_Ed25519".
Definition DEVICE_ENROLLMENT_PROTOCOL_PROFILE : string := "device-enrollment.v1".
Definition ORDINARY_KEY_PACKAGE : string := "ordinary-mls-key-package.v1".
Definition DEVICE_ENROLLMENT : string := "device-enrollment".

Definition typed_field (name type : string) : unknown :=
  obj [("name", VString name); ("type", VString type)].
Definition EIP712_CHALLENGE_TYPES : unknown :=
  obj [("EIP712Domain",
        arr [typed_field "name" "string"; typed_field "version" "string";
             typed_field "chainId" "uint256"; typed_field "salt" "bytes32"]);
       ("JuiceboxMessagingDeviceEnrollmentV1",
        arr [typed_field "challengeId" "bytes16"; typed_field "possessionChallengeId" "bytes16";
             typed_field "audience" "string"; typed_field "clientId" "string";
             typed_field "origin" "string"; typed_field "purpose" "string";
             typed_field "action" "string"; typed_field "scopeDigest" "bytes32";
             typed_field "enrollmentId" "bytes16"; typed_field "accountId" "bytes16";
             typed_field "chainId" "uint256"; typed_field "installationId" "bytes16";
             typed_field "deviceCredentialId" "bytes16";
             typed_field "installationAuthProfile" "string";
             typed_field "installationAuthJkt" "bytes32";
             typed_field "mlsCredentialProfile" "string"; typed_field "mlsCiphersuite" "string";
             typed_field "mlsCredentialPublicKey" "bytes32";
             typed_field "mlsCredentialFingerprint" "bytes32";
             typed_field "keyPackageKind" "string"; typed_field "keyPackageRef" "bytes32";
             typed_field "keyPackageSha256" "bytes32"; typed_field "protocolProfile" "string";
             typed_field "nonce" "string"; typed_field "issuedAt" "uint64";
             typed_field "notBefore" "uint64"; typed_field "expiresAt" "uint64"])].

Definition MAX_CHALLENGE_LIFETIME_MS : Z := 5 * 60 * 1000.
Definition MAX_KEY_PACKAGE_BYTES : Z := 64 * 1024.

(** ** Data *)

(** Its action is a constant; a parsed scope names no project. *)
Record WalletChallengeScope := { wc_project : option JuiceboxV6ProjectRef }.

(** Profiles, algorithms and the kind of a key package are constants. *)
Record InstallationAuthKeyBinding := { ik_x : string; ik_y : string; ik_jwkThumbprint : string }.
Record InitialKeyPackage := {
  kp_keyPackageRef : string; kp_sha256 : string; kp_keyPackage : string; kp_expiresAt : string }.
Record MlsCredentialKeyBinding := {
  mk_publicKey : string; mk_credentialFingerprint : string; mk_initialKeyPackage : InitialKeyPackage }.
Record DeviceKeyBinding := {
  dk_installationId : string; dk_installationAuthKey : InstallationAuthKeyBinding;
  dk_mlsCredentialKey : MlsCredentialKeyBinding }.

Record ChallengeWindow := { cw_issuedAt : string; cw_notBefore : string; cw_expiresAt : string }.

(** The identifiers both kinds of challenge carry. *)
Record EnrollmentIds := {
  ei_challengeId : string; ei_possessionChallengeId : string; ei_enrollmentId : string;
  ei_accountId : string; ei_deviceCredentialId : string }.

Record SiweChallenge := {
  sc_ids : EnrollmentIds; sc_window : ChallengeWindow; sc_domain : string; sc_uri : string;
  sc_account : string; sc_chainId : Z; sc_nonce : string; sc_requestId : string;
  sc_audience : string; sc_clientId : string; sc_scope : WalletChallengeScope;
  sc_resources : list string; sc_device : DeviceKeyBinding }.

Record Eip712Message := {
  em_challengeId : string; em_possessionChallengeId : string; em_audience : string;
  em_clientId : string; em_origin : string; em_scopeDigest : string; em_enrollmentId : string;
  em_accountId : string; em_chainId : Z; em_installationId : string;
  em_deviceCredentialId : string; em_installationAuthJkt : string;
  em_mlsCredentialPublicKey : string; em_mlsCredentialFingerprint : string;
  em_keyPackageRef : string; em_keyPackageSha256 : string; em_nonce : string;
  em_issuedAt : Z; em_notBefore : Z; em_expiresAt : Z }.
Record Eip712Challenge := {
  ec_ids : EnrollmentIds; ec_window : ChallengeWindow; ec_account : string;
  ec_domainChainId : Z; ec_domainSalt : string; ec_message : Eip712Message;
  ec_scope : WalletChallengeScope; ec_device : DeviceKeyBinding }.

Inductive WalletChallenge := siwe (c : SiweChallenge) | eip712 (c : Eip712Challenge).

(** The binding of either kind; the purpose is a constant. *)
Record ChallengeBinding := {
  cb_ids : EnrollmentIds; cb_account : string; cb_chainId : Z; cb_origin : string;
  cb_audience : string; cb_clientId : string; cb_scope : WalletChallengeScope;
  cb_device : DeviceKeyBinding; cb_window : ChallengeWindow }.

Record WalletChallengeEnrollmentBinding := {
  wb_protocolProfile : string; wb_binding : ChallengeBinding; wb_scopeDigest : string;
  wb_walletPayloadDigest : string }.

(** The window of the expectations is not compared. *)
Record ChallengeExpectations := {
  ce_ids : EnrollmentIds; ce_account : string; ce_chainId : Z; ce_origin : string;
  ce_audience : string; ce_clientId : string; ce_scope : WalletChallengeScope;
  ce_device : DeviceKeyBinding; ce_eip712DomainSalt : option string }.

(** A claim's status and its terminality are constants. *)
Record WinningChallengeClaim := { wn_challengeId : string; wn_claimId : string; wn_claimedAt : string }.

#[export] Instance EnrollmentIds_eq_dec : EqDecision EnrollmentIds.
Proof. solve_decision. Defined.
#[export] Instance ChallengeWindow_eq_dec : EqDecision ChallengeWindow.
Proof. solve_decision. Defined.

(** ** As digested values *)

Definition scope_obj (s : WalletChallengeScope) : unknown :=
  obj [("kind", VString "wallet-challenge-scope.v1"); ("project", nullable project_obj (wc_project s));
       ("action", VString DEVICE_ENROLLMENT)].

Definition auth_key_obj (k : InstallationAuthKeyBinding) : unknown :=
  obj [("profile", VString INSTALLATION_AUTH_PROFILE); ("algorithm", VString "P-256");
       ("publicJwk", obj [("kty", VString "EC"); ("crv", VString "P-256"); ("x", VString (ik_x k));
                          ("y", VString (ik_y k)); ("use", VString "sig"); ("alg", VString "ES256")]);
       ("jwkThumbprint", VString (ik_jwkThumbprint k))].
Definition key_package_obj (p : InitialKeyPackage) : unknown :=
  obj [("kind", VString ORDINARY_KEY_PACKAGE); ("keyPackageRef", VString (kp_keyPackageRef p));
       ("sha256", VString (kp_sha256 p)); ("keyPackage", VString (kp_keyPackage p));
       ("expiresAt", VString (kp_expiresAt p))].
Definition credential_key_obj (k : MlsCredentialKeyBinding) : unknown :=
  obj [("profile", VString MLS_CREDENTIAL_PROFILE); ("algorithm", VString "Ed25519");
       ("ciphersuite", VString MLS_CIPHERSUITE); ("publicKey", VString (mk_publicKey k));
       ("credentialFingerprint", VString (mk_credentialFingerprint k));
       ("initialKeyPackage", key_package_obj (mk_initialKeyPackage k))].
Definition device_obj (d : DeviceKeyBinding) : unknown :=
  obj [("installationId", VString (dk_installationId d));
       ("installationAuthKey", auth_key_obj (dk_installationAuthKey d));
       ("mlsCredentialKey", credential_key_obj (dk_mlsCredentialKey d))].

(** What the thumbprint and the fingerprint are digests of. *)
Definition jwk_obj (x y : string) : unknown :=
  obj [("crv", VString "P-256"); ("kty", VString "EC"); ("x", VString x); ("y", VString y)].
Definition fingerprint_obj (publicKey : string) : unknown :=
  obj [("kind", VString "mls-credential-fingerprint.v1"); ("profile", VString MLS_CREDENTIAL_PROFILE);
       ("algorithm", VString "Ed25519"); ("ciphersuite", VString MLS_CIPHERSUITE);
       ("publicKey", VString publicKey)].

Definition message_obj (m : Eip712Message) : unknown :=
  obj [("challengeId", VString (em_challengeId m));
       ("possessionChallengeId", VString (em_possessionChallengeId m));
       ("audience", VString (em_audience m)); ("clientId", VString (em_clientId m));
       ("origin", VString (em_origin m)); ("purpose", VString DEVICE_ENROLLMENT);
       ("action", VString DEVICE_ENROLLMENT); ("scopeDigest", VString (em_scopeDigest m));
       ("enrollmentId", VString (em_enrollmentId m)); ("accountId", VString (em_accountId m));
       ("chainId", VInt (em_chainId m)); ("installationId", VString (em_installationId m));
       ("deviceCredentialId", VString (em_deviceCredentialId m));
       ("installationAuthProfile", VString INSTALLATION_AUTH_PROFILE);
       ("installationAuthJkt", VString (em_installationAuthJkt m));
       ("mlsCredentialProfile", VString MLS_CREDENTIAL_PROFILE);
       ("mlsCiphersuite", VString MLS_CIPHERSUITE);
       ("mlsCredentialPublicKey", VString (em_mlsCredentialPublicKey m));
       ("mlsCredentialFingerprint", VString (em_mlsCredentialFingerprint m));
       ("keyPackageKind", VString ORDINARY_KEY_PACKAGE);
       ("keyPackageRef", VString (em_keyPackageRef m));
       ("keyPackageSha256", VString (em_keyPackageSha256 m));
       ("protocolProfile", VString DEVICE_ENROLLMENT_PROTOCOL_PROFILE);
       ("nonce", VString (em_nonce m)); ("issuedAt", VInt (em_issuedAt m));
       ("notBefore", VInt (em_notBefore m)); ("expiresAt", VInt (em_expiresAt m))].

(** The fixed type graph over the domain and the message. *)
Definition canonicalEip712TypedData (challenge : Eip712Challenge) : unknown :=
  obj [("domain", obj [("name", VString EIP712_DOMAIN_NAME); ("version", VString EIP712_DOMAIN_VERSION);
                       ("chainId", VInt (ec_domainChainId challenge));
                       ("salt", VString (ec_domainSalt challenge))]);
       ("types", EIP712_CHALLENGE_TYPES); ("primaryType", VString EIP712_PRIMARY_TYPE);
       ("message", message_obj (ec_message challenge))].

(** ** Identifiers and encodings *)

Definition parseNamespacedUuid (value : unknown) (expression : list (ascii → bool)) : result string :=
  match value with
  | VString s => refuse_if (negb (matches expression s));; parseAuthorityId value
  | _ => invalid
  end.
Definition parseEnrollmentId (value : unknown) : result string := parseNamespacedUuid value UUID_V7.
Definition parseWalletChallengeId (value : unknown) : result string := parseNamespacedUuid value UUID_V7.
Definition parsePossessionChallengeId (value : unknown) : result string := parseNamespacedUuid value UUID_V7.
Definition parseAccountId (value : unknown) : result string := parseNamespacedUuid value UUID_V4.
Definition parseInstallationId (value : unknown) : result string := parseNamespacedUuid value UUID_V4.
Definition parseDeviceCredentialId (value : unknown) : result string := parseNamespacedUuid value UUID_V4.

(** [`0x${value.replaceAll("-", "")}`] *)
Definition uuidToBytes16 (value : string) : string :=
  "0x" +:+ text (List.filter (λ c, negb (is_char c "-"%char)) (chars value)).

(** [/^0x[0-9a-f]{32}$/] *)
Definition parseBytes16 (value : unknown) : result string :=
  match value with
  | VString s => refuse_if (negb (is_lower_hex 32 s));; Ok s
  | _ => invalid
  end.

Definition base64Url32ToHash32 (value : string) : string := "0x" +:+ hex (base64url_decode value).

(** [Math.ceil(bytes * 4 / 3)]. *)
Definition maximumBase64UrlLength (bytes : Z) : Z := (bytes * 4 + 2) / 3.

Definition parseUint64Seconds (value : unknown) : result Z :=
  match value with
  | VNumber (NInt z) => refuse_if (negb (isSafeInteger (NInt z)) || (z <? 0));; Ok z
  | _ => invalid
  end.

Definition instantSeconds (value : string) : result Z :=
  let milliseconds := instantMilliseconds value in
  refuse_if (negb (Z.rem milliseconds 1000 =? 0));;
  Ok (Z.quot milliseconds 1000).

(** [/^[A-Za-z0-9]{22,64}$/] *)
Definition parseNonce (value : unknown) : result string :=
  match value with
  | VString s =>
      refuse_if (negb (forallb is_id_start (chars s)) || (strlen s <? 22) || (64 <? strlen s));; Ok s
  | _ => invalid
  end.

Definition expectLiteral (value : unknown) (expected : string) : result unit :=
  refuse_if (negb (isString value expected)).

Definition parsePurpose (value : unknown) : result unit := expectLiteral value DEVICE_ENROLLMENT.

(** [encodeURIComponent]: unreserved characters stay, other bytes of the UTF-8
    become [%XX]. *)
Definition is_unreserved (c : ascii) : bool :=
  is_id_start c || existsb (is_char c) ["-"; "_"; "."; "!"; "~"; "*"; "'"; "("; ")"]%char.
Definition HEX_UPPER (z : Z) : ascii := ascii_of_N (Z.to_N (if z <? 10 then 48 + z else 55 + z)).
Definition percent (b : byte) : list ascii :=
  ["%"%char; HEX_UPPER (Z_of_byte b / 16); HEX_UPPER (Z_of_byte b mod 16)].
Definition encode_char (c : ascii) : list ascii :=
  if is_unreserved c then [c] else flat_map percent (utf8_char c).
Definition encodeURIComponent (s : string) : string := text (flat_map encode_char (chars s)).

Definition parseWindow (record : record) : result ChallengeWindow :=
  issuedAt ← parseCanonicalInstant record.["issuedAt"];
  notBefore ← parseCanonicalInstant record.["notBefore"];
  expiresAt ← parseCanonicalInstant record.["expiresAt"];
  let issuedMs := instantMilliseconds issuedAt in
  let notBeforeMs := instantMilliseconds notBefore in
  let expiresMs := instantMilliseconds expiresAt in
  refuse_if ((notBeforeMs <? issuedMs) || (expiresMs <=? notBeforeMs)
             || (MAX_CHALLENGE_LIFETIME_MS <? expiresMs - issuedMs));;
  Ok {| cw_issuedAt := issuedAt; cw_notBefore := notBefore; cw_expiresAt := expiresAt |}.

Definition parseWalletChallengeScope (value : unknown) : result WalletChallengeScope :=
  record ← expectExactRecord value ["kind"; "project"; "action"];
  refuse_if (negb (isString record.["kind"] "wallet-challenge-scope.v1")
             || negb (isString record.["action"] DEVICE_ENROLLMENT));;
  refuse_if (negb (isNull record.["project"]));;
  Ok {| wc_project := None |}.

Definition parseExactResource (resource : option unknown) : result string :=
  match resource with
  | Some (VString s) =>
      refuse_if ((strlen s <? 1) || (512 <? strlen s)
                 || existsb (λ c, in_range 0 31 c || in_range 127 127 c) (chars s));; Ok s
  | _ => invalid
  end.
Definition parseExactResources (value : unknown) : result (list string) :=
  match value with
  | VArray _ elems _ =>
      refuse_if (negb (Nat.eqb (length elems) 13));;
      mapR parseExactResource elems
  | _ => invalid
  end.

Definition parseIds (record : record) : result EnrollmentIds :=
  challengeId ← parseWalletChallengeId record.["challengeId"];
  possessionChallengeId ← parsePossessionChallengeId record.["possessionChallengeId"];
  enrollmentId ← parseEnrollmentId record.["enrollmentId"];
  accountId ← parseAccountId record.["accountId"];
  deviceCredentialId ← parseDeviceCredentialId record.["deviceCredentialId"];
  Ok {| ei_challengeId := challengeId; ei_possessionChallengeId := possessionChallengeId;
        ei_enrollmentId := enrollmentId; ei_accountId := accountId;
        ei_deviceCredentialId := deviceCredentialId |}.

Section Challenges.
Context `{Sha256} `{UrlParser}.

(** ** Keys *)

Definition sha256RawBase64Url (value : string) : string := base64url_encode (sha256 (base64url_decode value)).

Definition parseKey32 (value : unknown) : result string := parseBase64Url value 43 43.

Definition parseInstallationAuthKey (value : unknown) : result InstallationAuthKeyBinding :=
  record ← expectExactRecord value ["profile"; "algorithm"; "publicJwk"; "jwkThumbprint"];
  refuse_if (negb (isString record.["profile"] INSTALLATION_AUTH_PROFILE)
             || negb (isString record.["algorithm"] "P-256"));;
  jwkRecord ← expectExactRecord record.["publicJwk"] ["kty"; "crv"; "x"; "y"; "use"; "alg"];
  refuse_if (negb (isString jwkRecord.["kty"] "EC") || negb (isString jwkRecord.["crv"] "P-256")
             || negb (isString jwkRecord.["use"] "sig") || negb (isString jwkRecord.["alg"] "ES256"));;
  x ← parseKey32 jwkRecord.["x"];
  y ← parseKey32 jwkRecord.["y"];
  jwkThumbprint ← parseKey32 record.["jwkThumbprint"];
  canonicalJkt ← sha256AuthorityBase64Url (jwk_obj x y);
  refuse_if (jwkThumbprint !== canonicalJkt);;
  Ok {| ik_x := x; ik_y := y; ik_jwkThumbprint := jwkThumbprint |}.

Definition parseMlsCredentialKey (value : unknown) : result MlsCredentialKeyBinding :=
  record ← expectExactRecord value
    ["profile"; "algorithm"; "ciphersuite"; "publicKey"; "credentialFingerprint"; "initialKeyPackage"];
  refuse_if (negb (isString record.["profile"] MLS_CREDENTIAL_PROFILE)
             || negb (isString record.["algorithm"] "Ed25519")
             || negb (isString record.["ciphersuite"] MLS_CIPHERSUITE));;
  publicKey ← parseKey32 record.["publicKey"];
  credentialFingerprint ← parseKey32 record.["credentialFingerprint"];
  expectedFingerprint ← sha256AuthorityBase64Url (fingerprint_obj publicKey);
  refuse_if (credentialFingerprint !== expectedFingerprint);;
  keyPackage ← expectExactRecord record.["initialKeyPackage"]
    ["kind"; "keyPackageRef"; "sha256"; "keyPackage"; "expiresAt"];
  refuse_if (negb (isString keyPackage.["kind"] ORDINARY_KEY_PACKAGE));;
  keyPackageRef ← parseKey32 keyPackage.["keyPackageRef"];
  sha256 ← parseKey32 keyPackage.["sha256"];
  keyPackageBytes ← parseBase64Url keyPackage.["keyPackage"] 2 (maximumBase64UrlLength MAX_KEY_PACKAGE_BYTES);
  refuse_if (sha256RawBase64Url keyPackageBytes !== sha256);;
  expiresAt ← parseCanonicalInstant keyPackage.["expiresAt"];
  Ok {| mk_publicKey := publicKey; mk_credentialFingerprint := credentialFingerprint;
        mk_initialKeyPackage :=
          {| kp_keyPackageRef := keyPackageRef; kp_sha256 := sha256;
             kp_keyPackage := keyPackageBytes; kp_expiresAt := expiresAt |} |}.

Definition parseDeviceKeyBinding (value : unknown) : result DeviceKeyBinding :=
  record ← expectExactRecord value ["installationId"; "installationAuthKey"; "mlsCredentialKey"];
  installationId ← parseInstallationId record.["installationId"];
  installationAuthKey ← parseInstallationAuthKey record.["installationAuthKey"];
  mlsCredentialKey ← parseMlsCredentialKey record.["mlsCredentialKey"];
  Ok {| dk_installationId := installationId; dk_installationAuthKey := installationAuthKey;
        dk_mlsCredentialKey := mlsCredentialKey |}.

Definition assertKeyPackageCoversChallenge (device : DeviceKeyBinding) (challengeExpiresAt : string) : result unit :=
  refuse_if (instantMilliseconds (kp_expiresAt (mk_initialKeyPackage (dk_mlsCredentialKey device)))
             <=? instantMilliseconds challengeExpiresAt).

(** ** Sign-In with Ethereum *)

Definition siweResourcesFor (ids : EnrollmentIds) (device : DeviceKeyBinding)
    (audience clientId : string) (scope : WalletChallengeScope) : result (list string) :=
  let keyPackage := mk_initialKeyPackage (dk_mlsCredentialKey device) in
  scopeDigest ← sha256AuthorityDigest (scope_obj scope);
  Ok ["urn:juicebox:messaging:enrollment:v1:" +:+ ei_enrollmentId ids;
      "urn:juicebox:messaging:account:v1:" +:+ ei_accountId ids;
      "urn:juicebox:messaging:installation:v1:" +:+ dk_installationId device;
      "urn:juicebox:messaging:device-credential:v1:" +:+ ei_deviceCredentialId ids;
      "urn:juicebox:messaging:audience:v1:" +:+ encodeURIComponent audience;
      "urn:juicebox:messaging:client:v1:" +:+ clientId;
      "urn:juicebox:messaging:scope:v1:" +:+ text (drop 2 (chars scopeDigest));
      "urn:juicebox:messaging:installation-auth-jkt:v1:"
        +:+ ik_jwkThumbprint (dk_installationAuthKey device);
      "urn:juicebox:messaging:mls-credential:v1:"
        +:+ mk_credentialFingerprint (dk_mlsCredentialKey device);
      "urn:juicebox:messaging:mls-key-package:v1:" +:+ kp_keyPackageRef keyPackage;
      "urn:juicebox:messaging:mls-key-package-sha256:v1:" +:+ kp_sha256 keyPackage;
      "urn:juicebox:messaging:protocol-profile:v1:" +:+ DEVICE_ENROLLMENT_PROTOCOL_PROFILE;
      "urn:juicebox:messaging:possession-challenge:v1:" +:+ ei_possessionChallengeId ids].

Definition NEWLINE : ascii := ascii_of_N 10.
(** [lines.join("\n")] *)
Fixpoint joinLines (lines : list string) : string :=
  match lines with
  | [] => ""
  | [l] => l
  | l :: lines => l +:+ String NEWLINE (joinLines lines)
  end.

Definition siweLines (c : SiweChallenge) : list string :=
  ["https://" +:+ sc_domain c +:+ " wants you to sign in with your Ethereum account:";
   sc_account c; ""; SIWE_STATEMENT; ""; "URI: " +:+ sc_uri c; "Version: " +:+ SIWE_VERSION;
   "Chain ID: " +:+ decimal (sc_chainId c); "Nonce: " +:+ sc_nonce c;
   "Issued At: " +:+ cw_issuedAt (sc_window c);
   "Expiration Time: " +:+ cw_expiresAt (sc_window c);
   "Not Before: " +:+ cw_notBefore (sc_window c); "Request ID: " +:+ sc_requestId c; "Resources:"]
  ++ map (λ resource, "- " +:+ resource) (sc_resources c).
Definition serializeSiweMessage (challenge : SiweChallenge) : result string :=
  let message := joinLines (siweLines challenge) in
  refuse_if (8 * 1024 <? Z.of_nat (length (utf8 message)));;
  Ok message.

Definition originFromUri (value : unknown) : result string :=
  uri ← parseHttpsUrl value;
  match newURL uri with
  | None => Throw TypeError
  | Some url =>
      refuse_if ((u_pathname url !== "/auth/wallet") || truthy (u_search url));;
      parseHttpsOrigin (VString (u_origin url))
  end.

Definition parseSiweChallenge (value : unknown) : result SiweChallenge :=
  record ← expectExactRecord value
    ["kind"; "challengeId"; "possessionChallengeId"; "enrollmentId"; "accountId";
     "deviceCredentialId"; "scheme"; "domain"; "uri"; "version"; "account"; "chainId"; "nonce";
     "issuedAt"; "notBefore"; "expiresAt"; "requestId"; "statement"; "purpose"; "audience";
     "clientId"; "scope"; "resources"; "device"];
  refuse_if (negb (isString record.["kind"] SIWE_ENROLLMENT_PROFILE)
             || negb (isString record.["scheme"] "https")
             || negb (isString record.["version"] SIWE_VERSION)
             || negb (isString record.["statement"] SIWE_STATEMENT));;
  ids ← parseIds record;
  requestId ← parseWalletChallengeId record.["requestId"];
  refuse_if (requestId !== ei_challengeId ids);;
  parsePurpose record.["purpose"];;
  audience ← parseHttpsOrigin record.["audience"];
  clientId ← parseAuthorityId record.["clientId"];
  scope ← parseWalletChallengeScope record.["scope"];
  origin ← originFromUri record.["uri"];
  domain ← parseSiweDomain record.["domain"];
  match newURL origin with
  | None => Throw TypeError
  | Some url => refuse_if (domain !== u_host url)
  end;;
  device ← parseDeviceKeyBinding record.["device"];
  resources ← parseExactResources record.["resources"];
  expectedResources ← siweResourcesFor ids device audience clientId scope;
  refuse_if (resources !== expectedResources);;
  window ← parseWindow record;
  assertKeyPackageCoversChallenge device (cw_expiresAt window);;
  uri ← parseHttpsUrl record.["uri"];
  account ← parseAddress record.["account"];
  chainId ← parseJuiceboxV6ChainId record.["chainId"];
  nonce ← parseNonce record.["nonce"];
  Ok {| sc_ids := ids; sc_window := window; sc_domain := domain; sc_uri := uri; sc_account := account;
        sc_chainId := chainId; sc_nonce := nonce; sc_requestId := requestId; sc_audience := audience;
        sc_clientId := clientId; sc_scope := scope; sc_resources := resources; sc_device := device |}.

(** ** EIP-712 *)

(** The identifiers and key commitments of the message are those of the challenge. *)
Definition commitmentsDiffer (ids : EnrollmentIds) (device : DeviceKeyBinding) (m : Eip712Message)
    (domainChainId : Z) : bool :=
  negb (domainChainId =? em_chainId m)
  || (em_challengeId m !== uuidToBytes16 (ei_challengeId ids))
  || (em_possessionChallengeId m !== uuidToBytes16 (ei_possessionChallengeId ids))
  || (em_enrollmentId m !== uuidToBytes16 (ei_enrollmentId ids))
  || (em_accountId m !== uuidToBytes16 (ei_accountId ids))
  || (em_installationId m !== uuidToBytes16 (dk_installationId device))
  || (em_deviceCredentialId m !== uuidToBytes16 (ei_deviceCredentialId ids))
  || (em_installationAuthJkt m
      !== base64Url32ToHash32 (ik_jwkThumbprint (dk_installationAuthKey device)))
  || (em_mlsCredentialPublicKey m
      !== base64Url32ToHash32 (mk_publicKey (dk_mlsCredentialKey device)))
  || (em_mlsCredentialFingerprint m
      !== base64Url32ToHash32 (mk_credentialFingerprint (dk_mlsCredentialKey device)))
  || (em_keyPackageRef m
      !== base64Url32ToHash32 (kp_keyPackageRef (mk_initialKeyPackage (dk_mlsCredentialKey device))))
  || (em_keyPackageSha256 m
      !== base64Url32ToHash32 (kp_sha256 (mk_initialKeyPackage (dk_mlsCredentialKey device)))).

Definition parseEip712Challenge (value : unknown) : result Eip712Challenge :=
  record ← expectExactRecord value
    ["kind"; "challengeId"; "possessionChallengeId"; "enrollmentId"; "accountId";
     "deviceCredentialId"; "account"; "issuedAt"; "notBefore"; "expiresAt"; "domain"; "primaryType";
     "message"; "scope"; "device"];
  refuse_if (negb (isString record.["kind"] EIP712_ENROLLMENT_PROFILE)
             || negb (isString record.["primaryType"] EIP712_PRIMARY_TYPE));;
  domain ← expectExactRecord record.["domain"] ["name"; "version"; "chainId"; "salt"];
  refuse_if (negb (isString domain.["name"] EIP712_DOMAIN_NAME)
             || negb (isString domain.["version"] EIP712_DOMAIN_VERSION));;
  message ← expectExactRecord record.["message"]
    ["challengeId"; "possessionChallengeId"; "audience"; "clientId"; "origin"; "purpose"; "action";
     "scopeDigest"; "enrollmentId"; "accountId"; "chainId"; "installationId"; "deviceCredentialId";
     "installationAuthProfile"; "installationAuthJkt"; "mlsCredentialProfile"; "mlsCiphersuite";
     "mlsCredentialPublicKey"; "mlsCredentialFingerprint"; "keyPackageKind"; "keyPackageRef";
     "keyPackageSha256"; "protocolProfile"; "nonce"; "issuedAt"; "notBefore"; "expiresAt"];
  ids ← parseIds record;
  account ← parseAddress record.["account"];
  parsePurpose message.["purpose"];;
  refuse_if (negb (isString message.["action"] DEVICE_ENROLLMENT));;
  expectLiteral message.["protocolProfile"] DEVICE_ENROLLMENT_PROTOCOL_PROFILE;;
  scope ← parseWalletChallengeScope record.["scope"];
  device ← parseDeviceKeyBinding record.["device"];
  window ← parseWindow record;
  assertKeyPackageCoversChallenge device (cw_expiresAt window);;
  scopeDigest ← parseHash32 message.["scopeDigest"];
  expectedScopeDigest ← sha256AuthorityDigest (scope_obj scope);
  refuse_if (scopeDigest !== expectedScopeDigest);;
  domainChainId ← parseJuiceboxV6ChainId domain.["chainId"];
  messageChainId ← parseJuiceboxV6ChainId message.["chainId"];
  installationAuthJkt ← parseHash32 message.["installationAuthJkt"];
  mlsCredentialPublicKey ← parseHash32 message.["mlsCredentialPublicKey"];
  mlsCredentialFingerprint ← parseHash32 message.["mlsCredentialFingerprint"];
  keyPackageRef ← parseHash32 message.["keyPackageRef"];
  keyPackageSha256 ← parseHash32 message.["keyPackageSha256"];
  challengeId ← parseBytes16 message.["challengeId"];
  possessionChallengeId ← parseBytes16 message.["possessionChallengeId"];
  enrollmentId ← parseBytes16 message.["enrollmentId"];
  accountId ← parseBytes16 message.["accountId"];
  installationId ← parseBytes16 message.["installationId"];
  deviceCredentialId ← parseBytes16 message.["deviceCredentialId"];
  refuse_if (negb (isString message.["keyPackageKind"] ORDINARY_KEY_PACKAGE));;
  messageIssuedAt ← parseUint64Seconds message.["issuedAt"];
  messageNotBefore ← parseUint64Seconds message.["notBefore"];
  messageExpiresAt ← parseUint64Seconds message.["expiresAt"];
  issuedAt ← instantSeconds (cw_issuedAt window);
  notBefore ← instantSeconds (cw_notBefore window);
  expiresAt ← instantSeconds (cw_expiresAt window);
  refuse_if (negb (messageIssuedAt =? issuedAt) || negb (messageNotBefore =? notBefore)
             || negb (messageExpiresAt =? expiresAt));;
  salt ← parseHash32 domain.["salt"];
  audience ← parseHttpsOrigin message.["audience"];
  clientId ← parseAuthorityId message.["clientId"];
  origin ← parseHttpsOrigin message.["origin"];
  expectLiteral message.["installationAuthProfile"] INSTALLATION_AUTH_PROFILE;;
  expectLiteral message.["mlsCredentialProfile"] MLS_CREDENTIAL_PROFILE;;
  expectLiteral message.["mlsCiphersuite"] MLS_CIPHERSUITE;;
  nonce ← parseNonce message.["nonce"];
  let m :=
    {| em_challengeId := challengeId; em_possessionChallengeId := possessionChallengeId;
       em_audience := audience; em_clientId := clientId; em_origin := origin;
       em_scopeDigest := scopeDigest; em_enrollmentId := enrollmentId; em_accountId := accountId;
       em_chainId := messageChainId; em_installationId := installationId;
       em_deviceCredentialId := deviceCredentialId; em_installationAuthJkt := installationAuthJkt;
       em_mlsCredentialPublicKey := mlsCredentialPublicKey;
       em_mlsCredentialFingerprint := mlsCredentialFingerprint; em_keyPackageRef := keyPackageRef;
       em_keyPackageSha256 := keyPackageSha256; em_nonce := nonce; em_issuedAt := issuedAt;
       em_notBefore := notBefore; em_expiresAt := expiresAt |} in
  refuse_if (commitmentsDiffer ids device m domainChainId);;
  Ok {| ec_ids := ids; ec_window := window; ec_account := account; ec_domainChainId := domainChainId;
        ec_domainSalt := salt; ec_message := m; ec_scope := scope; ec_device := device |}.

(** ** Either kind *)

Definition parseWalletChallenge (value : unknown) : result WalletChallenge :=
  r ← expectObject value;
  let kind := r.["kind"] in
  if isString kind SIWE_ENROLLMENT_PROFILE then siwe <$> parseSiweChallenge value
  else if isString kind EIP712_ENROLLMENT_PROFILE then eip712 <$> parseEip712Challenge value
  else invalid.

Definition challenge_kind (challenge : WalletChallenge) : string :=
  match challenge with siwe _ => SIWE_ENROLLMENT_PROFILE | eip712 _ => EIP712_ENROLLMENT_PROFILE end.

Definition payload_obj (challenge : WalletChallenge) : result unknown :=
  match challenge with
  | siwe c =>
      utf8Message ← serializeSiweMessage c;
      Ok (obj [("kind", VString "siwe-enrollment-wallet-payload.v1");
               ("profile", VString SIWE_ENROLLMENT_PROFILE); ("utf8Message", VString utf8Message)])
  | eip712 c =>
      Ok (obj [("kind", VString "eip712-enrollment-wallet-payload.v1");
               ("profile", VString EIP712_ENROLLMENT_PROFILE);
               ("typedData", canonicalEip712TypedData c)])
  end.
Definition computeWalletChallengePayloadDigest (challenge : WalletChallenge) : result string :=
  payload ← payload_obj challenge;
  sha256AuthorityDigest payload.

Definition challengeBinding (challenge : WalletChallenge) : result ChallengeBinding :=
  match challenge with
  | siwe c =>
      origin ← match newURL (sc_uri c) with
               | None => Throw TypeError
               | Some url => parseHttpsOrigin (VString (u_origin url))
               end;
      Ok {| cb_ids := sc_ids c; cb_account := sc_account c; cb_chainId := sc_chainId c;
            cb_origin := origin; cb_audience := sc_audience c; cb_clientId := sc_clientId c;
            cb_scope := sc_scope c; cb_device := sc_device c; cb_window := sc_window c |}
  | eip712 c =>
      Ok {| cb_ids := ec_ids c; cb_account := ec_account c; cb_chainId := ec_domainChainId c;
            cb_origin := em_origin (ec_message c); cb_audience := em_audience (ec_message c);
            cb_clientId := em_clientId (ec_message c); cb_scope := ec_scope c;
            cb_device := ec_device c; cb_window := ec_window c |}
  end.

Definition walletChallengeEnrollmentBinding (challenge : WalletChallenge) :
  result WalletChallengeEnrollmentBinding :=
  binding ← challengeBinding challenge;
  scopeDigest ← sha256AuthorityDigest (scope_obj (cb_scope binding));
  walletPayloadDigest ← computeWalletChallengePayloadDigest challenge;
  Ok {| wb_protocolProfile := challenge_kind challenge; wb_binding := binding;
        wb_scopeDigest := scopeDigest; wb_walletPayloadDigest := walletPayloadDigest |}.

Definition challengeIdOf (challenge : WalletChallenge) : string :=
  ei_challengeId match challenge with siwe c => sc_ids c | eip712 c => ec_ids c end.
Definition challengeIssuedAt (challenge : WalletChallenge) : string :=
  cw_issuedAt match challenge with siwe c => sc_window c | eip712 c => ec_window c end.

(** ** Use *)

Definition parseWinningChallengeClaim (value : unknown) (challenge : WalletChallenge) :
  result WinningChallengeClaim :=
  record ← expectExactRecord value
    ["status"; "challengeId"; "claimId"; "claimedAt"; "terminalEvenIfVerificationFails"];
  refuse_if (negb (isString record.["status"] "claimed")
             || negb (isTrue record.["terminalEvenIfVerificationFails"]));;
  challengeId ← parseWalletChallengeId record.["challengeId"];
  refuse_if (challengeId !== challengeIdOf challenge);;
  claimId ← parseAuthorityId record.["claimId"];
  claimedAt ← parseCanonicalInstant record.["claimedAt"];
  Ok {| wn_challengeId := challengeId; wn_claimId := claimId; wn_claimedAt := claimedAt |}.

Definition assertChallengeUsable (challenge : WalletChallenge) (expectations : ChallengeExpectations)
    (now : string) (claim : unknown) : result unit :=
  winningClaim ← parseWinningChallengeClaim claim challenge;
  refuse_if (wn_challengeId winningClaim !== challengeIdOf challenge);;
  binding ← challengeBinding challenge;
  refuse_if ((cb_ids binding !== ce_ids expectations) || (cb_account binding !== ce_account expectations)
             || negb (cb_chainId binding =? ce_chainId expectations)
             || (cb_origin binding !== ce_origin expectations)
             || (cb_audience binding !== ce_audience expectations)
             || (cb_clientId binding !== ce_clientId expectations));;
  refuse_digests (scope_obj (cb_scope binding)) (scope_obj (ce_scope expectations));;
  refuse_digests (device_obj (cb_device binding)) (device_obj (ce_device expectations));;
  refuse_if match challenge with
            | siwe _ => false
            | eip712 c => Some (ec_domainSalt c) !== ce_eip712DomainSalt expectations
            end;;
  let nowMs := instantMilliseconds now in
  let claimedAtMs := instantMilliseconds (wn_claimedAt winningClaim) in
  refuse_if ((claimedAtMs <? instantMilliseconds (challengeIssuedAt challenge))
             || (claimedAtMs <? instantMilliseconds (cw_notBefore (cb_window binding)))
             || (nowMs <? claimedAtMs)
             || (instantMilliseconds (cw_expiresAt (cb_window binding)) <=? claimedAtMs));;
  refuse_if (nowMs <? instantMilliseconds (cw_notBefore (cb_window binding)));;
  refuse_if (instantMilliseconds (cw_expiresAt (cb_window binding)) <=? nowMs).
End Challenges.

(** ** Texts *)

Lemma length_hex bs : strlen (hex bs) = 2 * Z.of_nat (length bs).
Proof. unfold strlen. rewrite <- length_chars. destruct (hex_chars bs) as [_ ->]. lia. Qed.

Lemma string_app_inj p s t : p +:+ s = p +:+ t → s = t.
Proof.
  intros HE. apply chars_inj. apply (f_equal chars) in HE. rewrite !chars_app in HE. by apply app_inv_head in HE.
Qed.

Lemma string_tail_inj s t p : s +:+ p = t +:+ p → s = t.
Proof.
  intros HE. apply chars_inj. apply (f_equal chars) in HE. rewrite !chars_app in HE. by apply app_inv_tail in HE.
Qed.

(** *** Identifiers *)

Lemma dashes_inj ps s t :
  Forall (λ p : ascii → bool, (∀ c, p c = true → c = "-"%char) ∨ p "-"%char = false) ps →
  match_classes ps s = true → match_classes ps t = true →
  List.filter (λ c, negb (is_char c "-"%char)) s = List.filter (λ c, negb (is_char c "-"%char)) t → s = t.
Proof.
  intros HP. revert s t. induction HP as [|p ps HP _ IH]; intros [|c s] [|d t]; try done.
  cbn [match_classes List.filter]. intros [Hc Hs]%andb_true_iff [Hd Ht]%andb_true_iff HE.
  destruct HP as [HP|HP].
  - rewrite (HP c Hc), (HP d Hd) in *. cbn in HE. f_equal. by apply IH.
  - assert (HX : ∀ e, p e = true → is_char e "-"%char = false).
    { intros e He. apply not_true_iff_false. intros ->%is_char_eq. congruence. }
    rewrite (HX c Hc), (HX d Hd) in HE. cbn in HE. injection HE as -> HE. f_equal. by apply IH.
Qed.

Lemma uuid_dashes v :
  v ≠ "-"%char → Forall (λ p : ascii → bool, (∀ c, p c = true → c = "-"%char) ∨ p "-"%char = false) (uuid_pattern v).
Proof.
  intros Hv. unfold uuid_pattern, hexes. cbn [repeat app].
  repeat (apply Forall_cons; split; [first [by right | left; intros c Hc; by apply is_char_eq in Hc | idtac]|]); [|by apply Forall_nil].
  right. apply not_true_iff_false. intros HC%is_char_eq. congruence.
Qed.

Lemma uuidToBytes16_inj v s t :
  v ≠ "-"%char → matches (uuid_pattern v) s = true → matches (uuid_pattern v) t = true →
  uuidToBytes16 s = uuidToBytes16 t → s = t.
Proof.
  intros Hv Hs Ht HE%string_app_inj%text_inj. apply chars_inj. eapply dashes_inj; [by apply uuid_dashes|done..].
Qed.

Lemma base64Url32ToHash32_inj v w s t :
  parseBase64Url v 43 43 = Ok s → parseBase64Url w 43 43 = Ok t →
  base64Url32ToHash32 s = base64Url32ToHash32 t → s = t.
Proof.
  intros (_ & _ & a & _ & ->)%parseBase64Url_canonical (_ & _ & b & _ & ->)%parseBase64Url_canonical HE.
  apply string_app_inj, hex_inj in HE. rewrite !base64url_decode_encode in HE. by subst.
Qed.

(** *** [encodeURIComponent] *)

Definition hex_upper_value (c : ascii) : Z := if code c <? 58 then code c - 48 else code c - 55.
Definition decode_component (cs : list ascii) : option (ascii * list ascii) :=
  match cs with
  | "%"%char :: h :: l :: cs => Some (ascii_of_N (Z.to_N (hex_upper_value h * 16 + hex_upper_value l)), cs)
  | c :: cs => Some (c, cs)
  | [] => None
  end.

Lemma decode_component_char c r :
  in_range 32 126 c = true → decode_component (encode_char c ++ r) = Some (c, r).
Proof. destruct c as [[] [] [] [] [] [] [] []]; intros HC; first [discriminate HC|reflexivity]. Qed.

Lemma encodeURIComponent_inj s t :
  ASCII s = true → ASCII t = true → encodeURIComponent s = encodeURIComponent t → s = t.
Proof.
  intros Hs Ht HE%text_inj. apply chars_inj.
  assert (HA : ∀ s, ASCII s = true → forallb (in_range 32 126) (chars s) = true).
  { intros u. unfold ASCII. by destruct (chars u). }
  apply HA in Hs, Ht. revert Hs Ht HE. generalize (chars s) (chars t). clear. induction l as [|c l IH]; intros [|d m]; cbn [flat_map forallb].
  - done.
  - intros _ [Hd _]%andb_true_iff HE. apply (f_equal decode_component) in HE. by rewrite decode_component_char in HE.
  - intros [Hc _]%andb_true_iff _ HE. apply (f_equal decode_component) in HE. by rewrite decode_component_char in HE.
  - intros [Hc Hl]%andb_true_iff [Hd Hm]%andb_true_iff HE. apply (f_equal decode_component) in HE.
    rewrite !decode_component_char in HE by done. injection HE as -> HE. f_equal. by apply IH.
Qed.

(** *** Lines *)

Definition oneLine (s : string) : bool := forallb (λ c, negb (is_char c NEWLINE)) (chars s).

Lemma oneLine_app s t : oneLine (s +:+ t) = oneLine s && oneLine t.
Proof. unfold oneLine. by rewrite chars_app, forallb_app. Qed.

Lemma oneLine_forall (p : ascii → bool) s :
  p NEWLINE = false → forallb p (chars s) = true → oneLine s = true.
Proof.
  intros HP HF. unfold oneLine. rewrite forallb_forall in *. intros c Hc. apply negb_true_iff, not_true_iff_false.
  intros ->%is_char_eq. specialize (HF _ Hc). congruence.
Qed.

Lemma oneLine_classes ps s :
  Forall (λ p : ascii → bool, p NEWLINE = false) ps → match_classes ps (chars s) = true → oneLine s = true.
Proof.
  unfold oneLine. intros HP. generalize (chars s). induction HP as [|p ps Hp _ IH]; intros [|c cs]; try done.
  cbn [match_classes forallb]. intros [Hc Hs]%andb_true_iff. rewrite (IH _ Hs), andb_true_r.
  apply negb_true_iff, not_true_iff_false. intros ->%is_char_eq. congruence.
Qed.

Lemma joinLines_inj ls ms :
  length ls = length ms → Forall (λ l, oneLine l = true) ls → Forall (λ l, oneLine l = true) ms →
  joinLines ls = joinLines ms → ls = ms.
Proof.
  assert (HC : ∀ a b r r' : list ascii, forallb (λ c, negb (is_char c NEWLINE)) a = true →
            forallb (λ c, negb (is_char c NEWLINE)) b = true → a ++ NEWLINE :: r = b ++ NEWLINE :: r' → a = b ∧ r = r').
  { induction a as [|c a IH]; intros [|d b] r r'; cbn.
    - intros _ _ [= ->]. done.
    - intros _ [Hd _]%andb_true_iff [= <- _]. done.
    - intros [Hc _]%andb_true_iff _ [= -> _]. done.
    - intros [_ Ha]%andb_true_iff [_ Hb]%andb_true_iff [= -> HE]. apply IH in HE as [-> ->]; done. }
  revert ms. induction ls as [|l [|l' ls] IH]; intros [|m [|m' ms]] HL HF HG HE; try done.
  - cbn in HE. by subst.
  - change (l +:+ String NEWLINE (joinLines (l' :: ls)) = m +:+ String NEWLINE (joinLines (m' :: ms))) in HE.
    apply Forall_cons in HF as [Hl HF], HG as [Hm HG].
    apply (f_equal chars) in HE. rewrite !chars_app in HE. cbn [chars String.list_ascii_of_string] in HE.
    apply HC in HE as [E1 E2]; [|done|done]. apply chars_inj in E1 as ->. f_equal.
    apply IH; [cbn in *; lia|done|done|]. by apply chars_inj.
Qed.

Section Facts.
Context `{Sha256} `{UrlParser}.
#[local] Opaque sha256AuthorityDigest sha256AuthorityBase64Url.

(** ** What the parsers accept *)

Record valid_ids (i : EnrollmentIds) : Prop := {
  vi_challenge : matches UUID_V7 (ei_challengeId i) = true;
  vi_possession : matches UUID_V7 (ei_possessionChallengeId i) = true;
  vi_enrollment : matches UUID_V7 (ei_enrollmentId i) = true;
  vi_account : matches UUID_V4 (ei_accountId i) = true;
  vi_credential : matches UUID_V4 (ei_deviceCredentialId i) = true }.

Lemma parseNamespacedUuid_Ok v e s : parseNamespacedUuid v e = Ok s → v = VString s ∧ matches e s = true.
Proof.
  destruct v; try discriminate. unfold parseNamespacedUuid. intros (u & HM%refuse_if_Ok%negb_false_iff & HA)%bind_Ok.
  apply parseAuthorityId_Ok in HA as [[= ->] _]. done.
Qed.

Lemma parseIds_Ok r i : parseIds r = Ok i → valid_ids i.
Proof.
  unfold parseIds, parseWalletChallengeId, parsePossessionChallengeId, parseEnrollmentId, parseAccountId, parseDeviceCredentialId.
  intros H1. inv_auth. subst i.
  repeat match goal with H : parseNamespacedUuid _ _ = Ok _ |- _ => apply parseNamespacedUuid_Ok in H as [_ H] end.
  by constructor.
Qed.

(** A device whose thumbprint, fingerprint and package hash are those of its keys. *)
Record valid_device (d : DeviceKeyBinding) : Prop := {
  vd_installation : matches UUID_V4 (dk_installationId d) = true;
  vd_thumbprint : sha256AuthorityBase64Url (jwk_obj (ik_x (dk_installationAuthKey d)) (ik_y (dk_installationAuthKey d)))
                  = Ok (ik_jwkThumbprint (dk_installationAuthKey d));
  vd_fingerprint : sha256AuthorityBase64Url (fingerprint_obj (mk_publicKey (dk_mlsCredentialKey d)))
                   = Ok (mk_credentialFingerprint (dk_mlsCredentialKey d));
  vd_package : sha256RawBase64Url (kp_keyPackage (mk_initialKeyPackage (dk_mlsCredentialKey d)))
               = kp_sha256 (mk_initialKeyPackage (dk_mlsCredentialKey d));
  vd_jkt : parseKey32 (VString (ik_jwkThumbprint (dk_installationAuthKey d))) = Ok (ik_jwkThumbprint (dk_installationAuthKey d));
  vd_key : parseKey32 (VString (mk_publicKey (dk_mlsCredentialKey d))) = Ok (mk_publicKey (dk_mlsCredentialKey d));
  vd_print : parseKey32 (VString (mk_credentialFingerprint (dk_mlsCredentialKey d)))
             = Ok (mk_credentialFingerprint (dk_mlsCredentialKey d));
  vd_ref : parseKey32 (VString (kp_keyPackageRef (mk_initialKeyPackage (dk_mlsCredentialKey d))))
           = Ok (kp_keyPackageRef (mk_initialKeyPackage (dk_mlsCredentialKey d)));
  vd_hash : parseKey32 (VString (kp_sha256 (mk_initialKeyPackage (dk_mlsCredentialKey d))))
            = Ok (kp_sha256 (mk_initialKeyPackage (dk_mlsCredentialKey d)));
  vd_bytes : ∃ bs, kp_keyPackage (mk_initialKeyPackage (dk_mlsCredentialKey d)) = base64url_encode bs;
  vd_expiry : canonicalInstant (kp_expiresAt (mk_initialKeyPackage (dk_mlsCredentialKey d))) = true }.

Lemma parseBase64Url_again v lo hi s : parseBase64Url v lo hi = Ok s → parseBase64Url (VString s) lo hi = Ok s.
Proof. intros HP. by destruct (proj1 (parseBase64Url_canonical _ _ _ _) HP) as [<- _]. Qed.

Lemma parseDevice_Ok v d : parseDeviceKeyBinding v = Ok d → valid_device d.
Proof.
  unfold parseDeviceKeyBinding, parseInstallationId. intros H1. inv_auth. subst d.
  match goal with H : parseNamespacedUuid _ _ = Ok _ |- _ => apply parseNamespacedUuid_Ok in H as [_ HI] end.
  match goal with H : parseInstallationAuthKey _ = Ok _ |- _ => unfold parseInstallationAuthKey in H end.
  match goal with H : parseMlsCredentialKey _ = Ok _ |- _ => unfold parseMlsCredentialKey in H end.
  inv_auth. subst. bsimp. subst.
  match goal with H : parseBase64Url _ 2 _ = Ok _ |- _ => apply parseBase64Url_canonical in H as (_ & _ & bs & _ & Hbs) end.
  match goal with H : parseCanonicalInstant _ = Ok _ |- _ => apply parseCanonicalInstant_Ok in H as [_ HC] end.
  unfold parseKey32 in *.
  constructor; cbn; first [done|by eapply parseBase64Url_again|by eexists].
Qed.

Record valid_window (w : ChallengeWindow) : Prop := {
  vw_issued : canonicalInstant (cw_issuedAt w) = true;
  vw_notBefore : canonicalInstant (cw_notBefore w) = true;
  vw_expires : canonicalInstant (cw_expiresAt w) = true;
  vw_order : Date_parse (cw_issuedAt w) <= Date_parse (cw_notBefore w) < Date_parse (cw_expiresAt w);
  vw_bound : Date_parse (cw_expiresAt w) <= Date_parse (cw_issuedAt w) + 300000 }.

Lemma parseWindow_Ok r w : parseWindow r = Ok w → valid_window w.
Proof.
  unfold parseWindow, instantMilliseconds, MAX_CHALLENGE_LIFETIME_MS. cbv zeta. intros H1. inv_auth. subst w.
  repeat match goal with H : parseCanonicalInstant _ = Ok _ |- _ => apply parseCanonicalInstant_Ok in H as [_ H] end.
  bsimp. zbool. constructor; cbn; try done; lia.
Qed.

Lemma covers_Ok d t u :
  assertKeyPackageCoversChallenge d t = Ok u →
  Date_parse t < Date_parse (kp_expiresAt (mk_initialKeyPackage (dk_mlsCredentialKey d))).
Proof. unfold assertKeyPackageCoversChallenge, instantMilliseconds. intros H1%refuse_if_Ok. lia. Qed.

Lemma parseScope_Ok v s : parseWalletChallengeScope v = Ok s → s = {| wc_project := None |}.
Proof. unfold parseWalletChallengeScope. intros H1. by inv_auth. Qed.

(** The origin of the URI: that of the dedicated path. *)
Definition uri_origin (uri origin : string) : Prop :=
  ∃ url, newURL uri = Some url ∧ u_pathname url = "/auth/wallet" ∧ u_search url = "" ∧
    u_origin url = origin ∧ parseHttpsOrigin (VString origin) = Ok origin.

Record valid_siwe (c : SiweChallenge) : Prop := {
  vs_ids : valid_ids (sc_ids c); vs_device : valid_device (sc_device c); vs_window : valid_window (sc_window c);
  vs_request : sc_requestId c = ei_challengeId (sc_ids c);
  vs_uri : ASCII (sc_uri c) = true; vs_domain : ASCII (sc_domain c) = true;
  vs_origin : ∃ origin url, uri_origin (sc_uri c) origin ∧ newURL origin = Some url ∧ sc_domain c = u_host url;
  vs_account : is_address (sc_account c) = true; vs_chain : sc_chainId c ∈ CHAIN_IDS;
  vs_nonce : forallb is_id_start (chars (sc_nonce c)) = true;
  vs_audience : ASCII (sc_audience c) = true; vs_client : AUTHORITY_ID (sc_clientId c) = true;
  vs_scope : sc_scope c = {| wc_project := None |};
  vs_resources : siweResourcesFor (sc_ids c) (sc_device c) (sc_audience c) (sc_clientId c) (sc_scope c)
                 = Ok (sc_resources c);
  vs_lines : length (sc_resources c) = 13%nat ∧ Forall (λ l, oneLine l = true) (sc_resources c);
  vs_covers : Date_parse (cw_expiresAt (sc_window c))
              < Date_parse (kp_expiresAt (mk_initialKeyPackage (dk_mlsCredentialKey (sc_device c)))) }.

Lemma truthy_false s : truthy s = false → s = "".
Proof. unfold truthy. by intros E%negb_false_iff%bool_decide_eq_true. Qed.

Lemma originFromUri_Ok v o :
  originFromUri v = Ok o → ∃ uri, v = VString uri ∧ uri_origin uri o.
Proof.
  unfold originFromUri. intros (uri & (-> & _ & url & Hu & _)%parseHttpsUrl_Ok & H1)%bind_Ok. rewrite Hu in H1.
  apply bind_Ok in H1 as (u & HR%refuse_if_Ok & HO). exists uri. split; [done|]. bsimp.
  match goal with H : truthy _ = false |- _ => apply truthy_false in H end.
  pose proof HO as HO'. apply parseHttpsOrigin_Ok in HO' as ([= HO'] & _). exists url.
  split_and!; try done. by eapply parseHttpsOrigin_again.
Qed.

Lemma parseExactResources_Ok v ls :
  parseExactResources v = Ok ls → length ls = 13%nat ∧ Forall (λ l, oneLine l = true) ls.
Proof.
  destruct v; try discriminate. unfold parseExactResources. intros (u & HL%refuse_if_Ok & HF%mapR_Ok)%bind_Ok.
  apply negb_false_iff, Nat.eqb_eq in HL. split; [by rewrite <- (Forall2_length _ _ _ HF)|].
  clear HL. induction HF as [|o l elems ls Hl _ IH]; constructor; [|done].
  destruct o as [[]|]; try discriminate. unfold parseExactResource in Hl. inv_auth. subst l. bsimp.
  match goal with H : existsb _ _ = false |- _ => apply existsb_false in H; rename H into HC end.
  unfold oneLine. apply forallb_forall. intros c Hc%list_elem_of_In. rewrite Forall_forall in HC. specialize (HC c Hc).
  apply negb_true_iff, not_true_iff_false. intros ->%is_char_eq. done.
Qed.

Lemma parseSiwe_Ok v c : parseSiweChallenge v = Ok c → valid_siwe c.
Proof.
  unfold parseSiweChallenge. intros H1. inv_auth. subst c.
  match goal with H : originFromUri _ = Ok _ |- _ => apply originFromUri_Ok in H as (uri & Eu & HO) end.
  repeat match goal with
  | H : parseHttpsUrl _ = Ok _ |- _ => apply parseHttpsUrl_Ok in H as (Eu' & HA & _)
  | H : parseSiweDomain _ = Ok _ |- _ => apply parseSiweDomain_Ok in H as [_ H]
  | H : parseHttpsOrigin _ = Ok _ |- _ => apply parseHttpsOrigin_Ok in H as (_ & H & _)
  | H : parseAuthorityId _ = Ok _ |- _ => apply parseAuthorityId_Ok in H as [_ H]
  | H : parseAddress _ = Ok _ |- _ => apply parseAddress_Ok in H
  | H : parseJuiceboxV6ChainId _ = Ok _ |- _ => apply parseChainId_Ok in H as [_ H]
  | H : parseWalletChallengeScope _ = Ok _ |- _ => apply parseScope_Ok in H
  | H : parseIds _ = Ok _ |- _ => apply parseIds_Ok in H
  | H : parseDeviceKeyBinding _ = Ok _ |- _ => apply parseDevice_Ok in H
  | H : parseWindow _ = Ok _ |- _ => apply parseWindow_Ok in H
  | H : assertKeyPackageCoversChallenge _ _ = Ok _ |- _ => apply covers_Ok in H
  | H : parseExactResources _ = Ok _ |- _ => apply parseExactResources_Ok in H
  end.
  rewrite Eu in Eu'. injection Eu' as ->.
  constructor; cbn [sc_ids sc_window sc_domain sc_uri sc_account sc_chainId sc_nonce sc_requestId sc_audience
    sc_clientId sc_scope sc_resources sc_device]; try done.
  - by bsimp.
  - match goal with H : match newURL ?o with _ => _ end = Ok _ |- _ =>
      destruct (newURL o) as [url|] eqn:E; [|done]; apply refuse_if_Ok in H end. bsimp. eauto.
  - match goal with H : parseNonce ?w = Ok _ |- _ => destruct w; try discriminate H; unfold parseNonce in H end.
    inv_auth. subst. by bsimp.
  - bsimp. congruence.
Qed.

Record valid_eip712 (c : Eip712Challenge) : Prop := {
  ve_ids : valid_ids (ec_ids c); ve_device : valid_device (ec_device c); ve_window : valid_window (ec_window c);
  ve_scope : ec_scope c = {| wc_project := None |};
  ve_commitments : commitmentsDiffer (ec_ids c) (ec_device c) (ec_message c) (ec_domainChainId c) = false;
  ve_issued : instantSeconds (cw_issuedAt (ec_window c)) = Ok (em_issuedAt (ec_message c));
  ve_notBefore : instantSeconds (cw_notBefore (ec_window c)) = Ok (em_notBefore (ec_message c));
  ve_expires : instantSeconds (cw_expiresAt (ec_window c)) = Ok (em_expiresAt (ec_message c));
  ve_covers : Date_parse (cw_expiresAt (ec_window c))
              < Date_parse (kp_expiresAt (mk_initialKeyPackage (dk_mlsCredentialKey (ec_device c)))) }.

Lemma parseEip712_Ok v c : parseEip712Challenge v = Ok c → valid_eip712 c.
Proof.
  unfold parseEip712Challenge. cbv zeta. intros H1. inv_auth. subst c.
  repeat match goal with
  | H : parseWalletChallengeScope _ = Ok _ |- _ => apply parseScope_Ok in H
  | H : parseIds _ = Ok _ |- _ => apply parseIds_Ok in H
  | H : parseDeviceKeyBinding _ = Ok _ |- _ => apply parseDevice_Ok in H
  | H : parseWindow _ = Ok _ |- _ => apply parseWindow_Ok in H
  | H : assertKeyPackageCoversChallenge _ _ = Ok _ |- _ => apply covers_Ok in H
  end.
  by constructor.
Qed.

(** *** One digest, one key *)

(** What the thumbprint, fingerprint and hash of a device are digests of. *)
Definition devicePreimages (d : DeviceKeyBinding) : list bytes :=
  [authorityPreimage (jwk_obj (ik_x (dk_installationAuthKey d)) (ik_y (dk_installationAuthKey d)));
   authorityPreimage (fingerprint_obj (mk_publicKey (dk_mlsCredentialKey d)));
   base64url_decode (kp_keyPackage (mk_initialKeyPackage (dk_mlsCredentialKey d)))].

(** A device without the expiry its key package is said to have. *)
Definition undated (d : DeviceKeyBinding) : DeviceKeyBinding :=
  let m := dk_mlsCredentialKey d in let p := mk_initialKeyPackage m in
  {| dk_installationId := dk_installationId d; dk_installationAuthKey := dk_installationAuthKey d;
     dk_mlsCredentialKey :=
       {| mk_publicKey := mk_publicKey m; mk_credentialFingerprint := mk_credentialFingerprint m;
          mk_initialKeyPackage :=
            {| kp_keyPackageRef := kp_keyPackageRef p; kp_sha256 := kp_sha256 p;
               kp_keyPackage := kp_keyPackage p; kp_expiresAt := "" |} |} |}.

Lemma commitment_inj v w d :
  dense v = true → dense w = true →
  sha256AuthorityBase64Url v = Ok d → sha256AuthorityBase64Url w = Ok d →
  same_json v w ∨ collision [authorityPreimage v] [authorityPreimage w].
Proof.
  intros HV HW Hv Hw. destruct (sha256AuthorityBase64Url_binding _ _ _ HV HW Hv Hw) as [HJ|(s & t & Hs & Ht & HC)].
  - left. unfold same_json. rewrite <- HJ. destruct (toJson v) as [j|] eqn:E; [by exists j|]. exfalso.
    Transparent sha256AuthorityBase64Url. unfold sha256AuthorityBase64Url, canonicalAuthorityJson in Hv.
    rewrite serialize_toJson, E in Hv by done. done.
  - right. unfold authorityPreimage. by rewrite Hs, Ht.
Qed.
#[local] Opaque sha256AuthorityBase64Url.

(** The commitments determine the device, apart from that expiry. *)
Lemma device_commitments d e :
  valid_device d → valid_device e → dk_installationId d = dk_installationId e →
  ik_jwkThumbprint (dk_installationAuthKey d) = ik_jwkThumbprint (dk_installationAuthKey e) →
  mk_credentialFingerprint (dk_mlsCredentialKey d) = mk_credentialFingerprint (dk_mlsCredentialKey e) →
  kp_keyPackageRef (mk_initialKeyPackage (dk_mlsCredentialKey d))
    = kp_keyPackageRef (mk_initialKeyPackage (dk_mlsCredentialKey e)) →
  kp_sha256 (mk_initialKeyPackage (dk_mlsCredentialKey d))
    = kp_sha256 (mk_initialKeyPackage (dk_mlsCredentialKey e)) →
  undated d = undated e ∨ collision (devicePreimages d) (devicePreimages e).
Proof.
  intros Hd He E1 E2 E3 E4 E5. pose proof (vd_thumbprint _ Hd) as T. pose proof (vd_thumbprint _ He) as T'.
  pose proof (vd_fingerprint _ Hd) as F. pose proof (vd_fingerprint _ He) as F'.
  pose proof (vd_package _ Hd) as P. pose proof (vd_package _ He) as P'.
  destruct (vd_bytes _ Hd) as [bs Hbs], (vd_bytes _ He) as [cs Hcs].
  rewrite <- E2 in T'. rewrite <- E3 in F'. rewrite <- E5, <- P in P'. clear P. unfold sha256RawBase64Url in P'.
  apply base64url_encode_inj in P'.
  destruct (commitment_inj (jwk_obj _ _) (jwk_obj _ _) _ eq_refl eq_refl T T') as [HJ|HC];
    [|right; eapply collision_mono; [| |exact HC]; intros x [->|[]%elem_of_nil]%elem_of_cons; left].
  destruct (commitment_inj (fingerprint_obj _) (fingerprint_obj _) _ eq_refl eq_refl F F') as [HF|HC];
    [|right; eapply collision_mono; [| |exact HC]; intros x [->|[]%elem_of_nil]%elem_of_cons; right; left].
  set (a := base64url_decode (kp_keyPackage (mk_initialKeyPackage (dk_mlsCredentialKey d)))) in *.
  set (b := base64url_decode (kp_keyPackage (mk_initialKeyPackage (dk_mlsCredentialKey e)))) in *.
  destruct (decide (a = b)) as [Hab|Hne].
  - left. unfold jwk_obj in HJ. same_fields HJ. unfold fingerprint_obj in HF. same_fields HF.
    subst a b. rewrite Hbs, Hcs, !base64url_decode_encode in Hab. subst cs. rewrite <- Hbs in Hcs.
    destruct d as [? [? ? ?] [? ? [? ? ? ?]]], e as [? [? ? ?] [? ? [? ? ? ?]]]. unfold undated. cbn in *. by subst.
  - right. exists a, b. split_and!; [right; right; left|right; right; left|done|done].
Qed.

(** *** The Sign-In message *)

Lemma ASCII_oneLine s : ASCII s = true → oneLine s = true.
Proof. unfold ASCII. intros HA. apply (oneLine_forall (in_range 32 126)); [done|]. by destruct (chars s). Qed.

Lemma instant_oneLine s : canonicalInstant s = true → oneLine s = true.
Proof.
  unfold canonicalInstant. intros [HM _]%andb_true_iff. eapply oneLine_classes; [|exact HM].
  by repeat constructor.
Qed.

Lemma uuid7_oneLine s : matches UUID_V7 s = true → oneLine s = true.
Proof. intros HM. eapply oneLine_classes; [|exact HM]. by repeat constructor. Qed.

Lemma address_oneLine s : is_address s = true → oneLine s = true.
Proof.
  unfold is_address, is_lower_hex, oneLine. intros HA. bsimp. destruct (chars s) as [|z [|x ds]]; try done. bsimp.
  match goal with H : is_char z _ = true |- _ => apply is_char_eq in H as -> end.
  match goal with H : is_char x _ = true |- _ => apply is_char_eq in H as -> end.
  cbn [forallb]. change (negb (is_char "0"%char NEWLINE)) with true. change (negb (is_char "x"%char NEWLINE)) with true. cbn [andb].
  match goal with H : forallb is_hex ds = true |- _ => rewrite forallb_forall in H; rename H into HF end.
  apply forallb_forall. intros c Hc. apply negb_true_iff, not_true_iff_false. intros ->%is_char_eq. by specialize (HF _ Hc).
Qed.

Lemma decimal_oneLine z : oneLine (decimal z) = true.
Proof.
  apply (oneLine_forall is_number_char); [done|]. apply forallb_forall. intros c Hc.
  pose proof (decimal_chars z) as HF. rewrite Forall_forall in HF. by apply HF, list_elem_of_In.
Qed.

Lemma siweLines_oneLine c : valid_siwe c → Forall (λ l, oneLine l = true) (siweLines c).
Proof.
  intros [HI _ HW HR HU HD _ HA _ HN _ _ _ _ [_ HL] _]. unfold siweLines.
  repeat (apply Forall_cons; split; [rewrite ?oneLine_app|]).
  all: try (apply Forall_map; eapply Forall_impl; [exact HL|]; intros l Hl; cbn; by rewrite oneLine_app, Hl).
  all: rewrite ?(ASCII_oneLine _ HD), ?(ASCII_oneLine _ HU), ?(address_oneLine _ HA), ?decimal_oneLine; try done.
  - by rewrite (oneLine_forall is_id_start _ eq_refl HN).
  - by rewrite (instant_oneLine _ (vw_issued _ HW)).
  - by rewrite (instant_oneLine _ (vw_expires _ HW)).
  - by rewrite (instant_oneLine _ (vw_notBefore _ HW)).
  - by rewrite HR, (uuid7_oneLine _ (vi_challenge _ HI)).
Qed.

Lemma resources_inj i d a cl j e b cm s r :
  siweResourcesFor i d a cl s = Ok r → siweResourcesFor j e b cm s = Ok r →
  ei_enrollmentId i = ei_enrollmentId j ∧ ei_accountId i = ei_accountId j ∧
  ei_deviceCredentialId i = ei_deviceCredentialId j ∧ ei_possessionChallengeId i = ei_possessionChallengeId j ∧
  dk_installationId d = dk_installationId e ∧ encodeURIComponent a = encodeURIComponent b ∧ cl = cm ∧
  ik_jwkThumbprint (dk_installationAuthKey d) = ik_jwkThumbprint (dk_installationAuthKey e) ∧
  mk_credentialFingerprint (dk_mlsCredentialKey d) = mk_credentialFingerprint (dk_mlsCredentialKey e) ∧
  kp_keyPackageRef (mk_initialKeyPackage (dk_mlsCredentialKey d))
    = kp_keyPackageRef (mk_initialKeyPackage (dk_mlsCredentialKey e)) ∧
  kp_sha256 (mk_initialKeyPackage (dk_mlsCredentialKey d)) = kp_sha256 (mk_initialKeyPackage (dk_mlsCredentialKey e)).
Proof.
  unfold siweResourcesFor. cbv zeta. destruct (sha256AuthorityDigest (scope_obj s)) as [sd|]; [|done].
  cbn [mbind result_bind]. intros [= <-] HE. injection HE. intros.
  repeat match goal with H : ?p +:+ _ = ?p +:+ _ |- _ => apply string_app_inj in H end.
  by split_and!.
Qed.

(** A Sign-In challenge, its device undated. *)
Definition siwe_terms (c : SiweChallenge) : SiweChallenge :=
  {| sc_ids := sc_ids c; sc_window := sc_window c; sc_domain := sc_domain c; sc_uri := sc_uri c;
     sc_account := sc_account c; sc_chainId := sc_chainId c; sc_nonce := sc_nonce c;
     sc_requestId := sc_requestId c; sc_audience := sc_audience c; sc_clientId := sc_clientId c;
     sc_scope := sc_scope c; sc_resources := sc_resources c; sc_device := undated (sc_device c) |}.

Lemma serialize_Ok c m : serializeSiweMessage c = Ok m → joinLines (siweLines c) = m.
Proof. unfold serializeSiweMessage. generalize (joinLines (siweLines c)). intros s HS. cbv zeta in HS. by inv_auth. Qed.

Lemma siwe_message_inj c c' m :
  valid_siwe c → valid_siwe c' → serializeSiweMessage c = Ok m → serializeSiweMessage c' = Ok m →
  siwe_terms c = siwe_terms c' ∨ collision (devicePreimages (sc_device c)) (devicePreimages (sc_device c')).
Proof.
  intros HV HV' H1%serialize_Ok H2%serialize_Ok.
  assert (HE : siweLines c = siweLines c').
  { apply joinLines_inj; [|by apply siweLines_oneLine..|congruence].
    unfold siweLines. rewrite !length_app, !length_map. by rewrite (proj1 (vs_lines _ HV)), (proj1 (vs_lines _ HV')). }
  unfold siweLines in HE. cbn [app] in HE. injection HE. intros HR. intros.
  repeat match goal with H : ?p +:+ _ = ?p +:+ _ |- _ => apply string_app_inj in H end.
  assert (HRR : sc_resources c = sc_resources c').
  { revert HR. generalize (sc_resources c) (sc_resources c'). clear. induction l as [|x l IH]; intros [|y k] HR; try done.
    cbn in HR. injection HR as HX HR. f_equal; [by apply string_app_inj in HX|by apply IH]. }
  pose proof (vs_resources _ HV) as HA. pose proof (vs_resources _ HV') as HB. rewrite <- HRR in HB.
  rewrite (vs_scope _ HV) in HA. rewrite (vs_scope _ HV') in HB.
  destruct (resources_inj _ _ _ _ _ _ _ _ _ _ HA HB) as (R1 & R2 & R3 & R4 & R5 & R6 & R7 & R8 & R9 & R10 & R11).
  destruct (device_commitments _ _ (vs_device _ HV) (vs_device _ HV') R5 R8 R9 R10 R11) as [HD|]; [left|by right].
  assert (HI : sc_ids c = sc_ids c').
  { pose proof (vs_request _ HV) as Q1. pose proof (vs_request _ HV') as Q2.
    destruct (sc_ids c), (sc_ids c'). cbn in *. congruence. }
  assert (HW : sc_window c = sc_window c').
  { destruct (sc_window c), (sc_window c'). cbn in *. congruence. }
  assert (HU : sc_domain c = sc_domain c') by (by eapply string_tail_inj).
  assert (HC : sc_chainId c = sc_chainId c') by (by apply decimal_inj_Z).
  unfold siwe_terms. rewrite HI, HW, HU, HC, HRR, R7, HD, (vs_scope _ HV), (vs_scope _ HV').
  rewrite (encodeURIComponent_inj _ _ (vs_audience _ HV) (vs_audience _ HV') R6). congruence.
Qed.

(** *** The typed data *)

Lemma instantSeconds_Ok s n : instantSeconds s = Ok n → Date_parse s = 1000 * n.
Proof.
  unfold instantSeconds, instantMilliseconds. cbv zeta. intros (u & HR%refuse_if_Ok & [= <-])%bind_Ok.
  pose proof (Z.quot_rem' (Date_parse s) 1000). lia.
Qed.

(** The keys of the typed data, spelled as the message spells them. *)
Lemma commitments_Ok i d m z :
  commitmentsDiffer i d m z = false →
  z = em_chainId m ∧ em_challengeId m = uuidToBytes16 (ei_challengeId i) ∧
  em_possessionChallengeId m = uuidToBytes16 (ei_possessionChallengeId i) ∧
  em_enrollmentId m = uuidToBytes16 (ei_enrollmentId i) ∧ em_accountId m = uuidToBytes16 (ei_accountId i) ∧
  em_installationId m = uuidToBytes16 (dk_installationId d) ∧
  em_deviceCredentialId m = uuidToBytes16 (ei_deviceCredentialId i) ∧
  em_installationAuthJkt m = base64Url32ToHash32 (ik_jwkThumbprint (dk_installationAuthKey d)) ∧
  em_mlsCredentialFingerprint m = base64Url32ToHash32 (mk_credentialFingerprint (dk_mlsCredentialKey d)) ∧
  em_keyPackageRef m
    = base64Url32ToHash32 (kp_keyPackageRef (mk_initialKeyPackage (dk_mlsCredentialKey d))) ∧
  em_keyPackageSha256 m = base64Url32ToHash32 (kp_sha256 (mk_initialKeyPackage (dk_mlsCredentialKey d))).
Proof. unfold commitmentsDiffer. intros HC. bsimp. zbool. split_and!; done. Qed.

(** A typed-data challenge, its device undated and without the account, which the
    typed data do not hold: it is whoever signs them. *)
Definition eip712_terms (c : Eip712Challenge) : Eip712Challenge :=
  {| ec_ids := ec_ids c; ec_window := ec_window c; ec_account := "";
     ec_domainChainId := ec_domainChainId c; ec_domainSalt := ec_domainSalt c; ec_message := ec_message c;
     ec_scope := ec_scope c; ec_device := undated (ec_device c) |}.

Lemma message_inj m m' : same_json (message_obj m) (message_obj m') → m = m'.
Proof. unfold message_obj. intros HS. same_fields HS. destruct m, m'. cbn in *. by subst. Qed.

Lemma ids_inj i j :
  valid_ids i → valid_ids j →
  uuidToBytes16 (ei_challengeId i) = uuidToBytes16 (ei_challengeId j) →
  uuidToBytes16 (ei_possessionChallengeId i) = uuidToBytes16 (ei_possessionChallengeId j) →
  uuidToBytes16 (ei_enrollmentId i) = uuidToBytes16 (ei_enrollmentId j) →
  uuidToBytes16 (ei_accountId i) = uuidToBytes16 (ei_accountId j) →
  uuidToBytes16 (ei_deviceCredentialId i) = uuidToBytes16 (ei_deviceCredentialId j) → i = j.
Proof.
  intros [] [] E1 E2 E3 E4 E5. apply (uuidToBytes16_inj "7"%char) in E1, E2, E3; try done.
  apply (uuidToBytes16_inj "4"%char) in E4, E5; try done. destruct i, j; cbn in *. congruence.
Qed.

Lemma typed_data_inj c c' :
  valid_eip712 c → valid_eip712 c' → same_json (canonicalEip712TypedData c) (canonicalEip712TypedData c') →
  eip712_terms c = eip712_terms c' ∨ collision (devicePreimages (ec_device c)) (devicePreimages (ec_device c')).
Proof.
  intros HV HV' HS. unfold canonicalEip712TypedData in HS. same_fields HS. same_fields HS0.
  assert (HM : ec_message c = ec_message c') by by apply message_inj.
  clear HS3.
  destruct (commitments_Ok _ _ _ _ (ve_commitments _ HV)) as (A0 & A1 & A2 & A3 & A4 & A5 & A6 & A7 & A8 & A9 & A10).
  destruct (commitments_Ok _ _ _ _ (ve_commitments _ HV')) as (B0 & B1 & B2 & B3 & B4 & B5 & B6 & B7 & B8 & B9 & B10).
  rewrite <- HM in B0, B1, B2, B3, B4, B5, B6, B7, B8, B9, B10.
  pose proof (ve_device _ HV) as D. pose proof (ve_device _ HV') as D'.
  assert (HI : ec_ids c = ec_ids c').
  { apply ids_inj; [apply HV|apply HV'|congruence..]. }
  assert (HX : dk_installationId (ec_device c) = dk_installationId (ec_device c')).
  { apply (uuidToBytes16_inj "4"%char); [done|apply D|apply D'|congruence]. }
  destruct (device_commitments _ _ D D' HX) as [HD|];
    [apply (base64Url32ToHash32_inj _ _ _ _ (vd_jkt _ D) (vd_jkt _ D')); congruence
    |apply (base64Url32ToHash32_inj _ _ _ _ (vd_print _ D) (vd_print _ D')); congruence
    |apply (base64Url32ToHash32_inj _ _ _ _ (vd_ref _ D) (vd_ref _ D')); congruence
    |apply (base64Url32ToHash32_inj _ _ _ _ (vd_hash _ D) (vd_hash _ D')); congruence|left|by right].
  assert (HW : ec_window c = ec_window c').
  { pose proof (ve_window _ HV) as W. pose proof (ve_window _ HV') as W'.
    pose proof (instantSeconds_Ok _ _ (ve_issued _ HV)). pose proof (instantSeconds_Ok _ _ (ve_issued _ HV')).
    pose proof (instantSeconds_Ok _ _ (ve_notBefore _ HV)). pose proof (instantSeconds_Ok _ _ (ve_notBefore _ HV')).
    pose proof (instantSeconds_Ok _ _ (ve_expires _ HV)). pose proof (instantSeconds_Ok _ _ (ve_expires _ HV')).
    rewrite <- HM in *.
    assert (E1 : cw_issuedAt (ec_window c) = cw_issuedAt (ec_window c')) by (apply canonicalInstant_inj; [apply W|apply W'|lia]).
    assert (E2 : cw_notBefore (ec_window c) = cw_notBefore (ec_window c')) by (apply canonicalInstant_inj; [apply W|apply W'|lia]).
    assert (E3 : cw_expiresAt (ec_window c) = cw_expiresAt (ec_window c')) by (apply canonicalInstant_inj; [apply W|apply W'|lia]).
    destruct (ec_window c), (ec_window c'). cbn in *. congruence. }
  unfold eip712_terms. rewrite HI, HW, HD, HM, (ve_scope _ HV), (ve_scope _ HV'). f_equal; congruence.
Qed.

(** *** Either kind *)

Lemma scope_inj s t : same_json (scope_obj s) (scope_obj t) → s = t.
Proof.
  unfold scope_obj. intros HS. same_fields HS. destruct s as [p], t as [q]. f_equal. cbn in *.
  eapply (same_json_nullable project_obj); [intros x; apply obj_not_null|exact project_inj|done].
Qed.

Lemma scope_dense s : dense (scope_obj s) = true.
Proof. unfold scope_obj. rewrite dense_obj. cbn. by rewrite dense_nullable. Qed.

Lemma auth_key_inj k l : same_json (auth_key_obj k) (auth_key_obj l) → k = l.
Proof.
  unfold auth_key_obj. intros HS. same_fields HS. same_fields HS2. destruct k, l. cbn in *. congruence.
Qed.
Lemma key_package_inj p q : same_json (key_package_obj p) (key_package_obj q) → p = q.
Proof. unfold key_package_obj. intros HS. same_fields HS. destruct p, q. cbn in *. congruence. Qed.
Lemma credential_key_inj k l : same_json (credential_key_obj k) (credential_key_obj l) → k = l.
Proof.
  unfold credential_key_obj. intros HS. same_fields HS. apply key_package_inj in HS5. destruct k, l. cbn in *. congruence.
Qed.
Lemma device_inj d e : same_json (device_obj d) (device_obj e) → d = e.
Proof.
  unfold device_obj. intros HS. same_fields HS. apply auth_key_inj in HS1. apply credential_key_inj in HS2.
  destruct d, e. cbn in *. congruence.
Qed.

Definition valid_challenge (c : WalletChallenge) : Prop :=
  match c with siwe c => valid_siwe c | eip712 c => valid_eip712 c end.
Lemma parseWalletChallenge_Ok v c : parseWalletChallenge v = Ok c → valid_challenge c.
Proof.
  unfold parseWalletChallenge. intros (r & _ & HP)%bind_Ok. cbv zeta in HP.
  destruct (isString _ SIWE_ENROLLMENT_PROFILE); [|destruct (isString _ EIP712_ENROLLMENT_PROFILE); [|done]].
  - destruct (parseSiweChallenge v) as [x|] eqn:E; [|done]. injection HP as <-. by eapply parseSiwe_Ok.
  - destruct (parseEip712Challenge v) as [x|] eqn:E; [|done]. injection HP as <-. by eapply parseEip712_Ok.
Qed.

(** What the wallet is shown: the challenge but for what it does not sign. *)
Definition wallet_terms (c : WalletChallenge) : WalletChallenge :=
  match c with siwe c => siwe (siwe_terms c) | eip712 c => eip712 (eip712_terms c) end.
Definition challengeDevice (c : WalletChallenge) : DeviceKeyBinding :=
  match c with siwe c => sc_device c | eip712 c => ec_device c end.
Definition walletPreimages (c : WalletChallenge) : list bytes :=
  match payload_obj c with Ok v => [authorityPreimage v] | Throw _ => [] end ++ devicePreimages (challengeDevice c).

Lemma payload_binding c c' d :
  valid_challenge c → valid_challenge c' →
  computeWalletChallengePayloadDigest c = Ok d → computeWalletChallengePayloadDigest c' = Ok d →
  wallet_terms c = wallet_terms c' ∨ collision (walletPreimages c) (walletPreimages c').
Proof.
  intros HV HV'.
  unfold computeWalletChallengePayloadDigest. intros (p & Hp & Hd)%bind_Ok (p' & Hp' & Hd')%bind_Ok.
  unfold walletPreimages. rewrite Hp, Hp'.
  assert (HD : dense p = true ∧ dense p' = true).
  { split; [destruct c|destruct c']; unfold payload_obj in *; inv_auth; by subst. }
  destruct (authorityDigest_inj _ _ _ (proj1 HD) (proj2 HD) Hd Hd') as [HS|HC];
    [|right; eapply collision_mono; [| |exact HC]; intros x Hx; apply elem_of_app; by left].
  assert (HM : ∀ e e', collision (devicePreimages e) (devicePreimages e') →
    collision ([authorityPreimage p] ++ devicePreimages e) ([authorityPreimage p'] ++ devicePreimages e')).
  { intros e e' HC. eapply collision_mono; [| |exact HC]; intros x Hx; apply elem_of_app; by right. }
  destruct c as [c|c], c' as [c'|c']; cbn [payload_obj valid_challenge wallet_terms challengeDevice] in *; inv_auth; subst.
  - same_fields HS. subst. match goal with H : serializeSiweMessage c = Ok ?m |- _ =>
      destruct (siwe_message_inj c c' m HV HV') as [HE|HC]; [done|done| |] end.
    + left. by rewrite HE.
    + right. by apply HM.
  - apply same_json_keys, Permutation_sym in HS. exfalso.
    assert (HX : "utf8Message" ∈ ["kind"; "profile"; "typedData"]) by (rewrite HS; by apply (bool_decide_unpack _)).
    by apply (bool_decide_pack _) in HX.
  - apply same_json_keys in HS. exfalso.
    assert (HX : "utf8Message" ∈ ["kind"; "profile"; "typedData"]) by (rewrite HS; by apply (bool_decide_unpack _)).
    by apply (bool_decide_pack _) in HX.
  - same_fields HS. match goal with H : same_json (canonicalEip712TypedData _) _ |- _ =>
      destruct (typed_data_inj c c' HV HV' H) as [HE|HC] end.
    + left. by rewrite HE.
    + right. by apply HM.
Qed.

(** The payload says nothing but the terms. *)
Lemma payload_terms c : payload_obj (wallet_terms c) = payload_obj c.
Proof. by destruct c. Qed.

(** C18: What the wallet signs is exactly the terms of the challenge: every field,
    down to the keys of the device, except the expiry the initial key package is
    said to have and, as typed data, the account, which is the signer.  Two
    accepted challenges with the same terms have the same payload digest, whatever
    they say of the rest; and two that have the same payload digest have the same
    terms, or two distinct inputs of the hash collide. *)
Theorem wallet_payload_binding v v' c c' d d' :
  parseWalletChallenge v = Ok c → parseWalletChallenge v' = Ok c' →
  computeWalletChallengePayloadDigest c = Ok d → computeWalletChallengePayloadDigest c' = Ok d' →
  (wallet_terms c = wallet_terms c' → d = d') ∧
  (d = d' → wallet_terms c = wallet_terms c' ∨ collision (walletPreimages c) (walletPreimages c')).
Proof.
  intros HV%parseWalletChallenge_Ok HV'%parseWalletChallenge_Ok H1 H2. split.
  { intros HE. unfold computeWalletChallengePayloadDigest in *. rewrite <- payload_terms in H1, H2. congruence. }
  intros <-. by apply (payload_binding c c' d).
Qed.

(** ** Use *)

(** What a usable challenge has been checked against. *)
Record usable (c : WalletChallenge) (b : ChallengeBinding) (w : WinningChallengeClaim)
    (e : ChallengeExpectations) (now : string) : Prop := {
  us_ids : cb_ids b = ce_ids e;
  us_claimed : wn_challengeId w = ei_challengeId (ce_ids e);
  us_account : cb_account b = ce_account e;
  us_chain : cb_chainId b = ce_chainId e;
  us_origin : cb_origin b = ce_origin e;
  us_audience : cb_audience b = ce_audience e;
  us_client : cb_clientId b = ce_clientId e;
  us_salt : match c with siwe _ => True | eip712 c => ce_eip712DomainSalt e = Some (ec_domainSalt c) end;
  us_started : Date_parse (cw_issuedAt (cb_window b)) <= Date_parse (cw_notBefore (cb_window b))
               <= Date_parse (wn_claimedAt w);
  us_claim : Date_parse (wn_claimedAt w) <= Date_parse now;
  us_fresh : Date_parse now < Date_parse (cw_expiresAt (cb_window b))
             <= Date_parse (cw_issuedAt (cb_window b)) + 300000;
  us_package : Date_parse (cw_expiresAt (cb_window b))
               < Date_parse (kp_expiresAt (mk_initialKeyPackage (dk_mlsCredentialKey (cb_device b)))) }.

Lemma binding_Ok c b :
  valid_challenge c → challengeBinding c = Ok b →
  challengeIdOf c = ei_challengeId (cb_ids b) ∧ challengeIssuedAt c = cw_issuedAt (cb_window b) ∧
  valid_window (cb_window b) ∧ valid_device (cb_device b) ∧
  Date_parse (cw_expiresAt (cb_window b))
    < Date_parse (kp_expiresAt (mk_initialKeyPackage (dk_mlsCredentialKey (cb_device b)))).
Proof.
  intros HV HB. destruct c as [c|c]; cbn [challengeBinding valid_challenge] in *; inv_auth; subst; cbn.
  - split_and!; [done|done|apply (vs_window _ HV)|apply (vs_device _ HV)|apply (vs_covers _ HV)].
  - split_and!; [done|done|apply (ve_window _ HV)|apply (ve_device _ HV)|apply (ve_covers _ HV)].
Qed.

(** C19: A challenge is used only by its winning claim, made within the five minutes
    the challenge lives, for the account, chain, origin, audience, client, scope
    and device the enrolment expects, with a key package that outlives it. *)
Theorem challenge_usable v c e now claim :
  parseWalletChallenge v = Ok c → assertChallengeUsable c e now claim = Ok tt →
  ∃ b w, challengeBinding c = Ok b ∧ parseWinningChallengeClaim claim c = Ok w ∧ usable c b w e now ∧
    (cb_scope b = ce_scope e ∨
     collision [authorityPreimage (scope_obj (cb_scope b))] [authorityPreimage (scope_obj (ce_scope e))]) ∧
    (cb_device b = ce_device e ∨
     collision [authorityPreimage (device_obj (cb_device b))] [authorityPreimage (device_obj (ce_device e))]).
Proof.
  intros HV%parseWalletChallenge_Ok. unfold assertChallengeUsable. cbv zeta.
  intros H1. inv_auth.
  match goal with H : challengeBinding c = Ok ?x |- _ => rename H into Hb, x into b end.
  match goal with H : parseWinningChallengeClaim claim c = Ok ?x |- _ => rename H into Hw, x into w end.
  match goal with H : refuse_digests (scope_obj _) _ = _ |- _ => rename H into HS end.
  match goal with H : refuse_digests (device_obj _) _ = _ |- _ => rename H into HD end.
  destruct (binding_Ok _ _ HV Hb) as (B1 & B2 & B3 & B4 & B5). rewrite B1, B2 in *.
  unfold instantMilliseconds in *. exists b, w. split; [done|]. split; [done|]. bsimp. zbool.
  apply refuse_digests_Ok in HS; [|by apply scope_dense..].
  apply refuse_digests_Ok in HD; [|done|done].
  split; [|split; [destruct HS as [HS|HS]; [left; by apply scope_inj|by right]|destruct HD as [HD|HD]; [left; by apply device_inj|by right]]].
  destruct B3. constructor; try done; try lia; try congruence.
  destruct c; [done|]. bsimp. congruence.
Qed.
End Facts.

(** ** Examples *)

Module ChallengeSamples.
#[local] Existing Instance checksum_digest.

(** The URLs of one deployment. *)
Definition url_of (pathname href : string) : URL :=
  {| u_protocol := "https:"; u_username := ""; u_password := ""; u_host := "chat.juicebox.money";
     u_hostname := "chat.juicebox.money"; u_pathname := pathname; u_search := ""; u_hash := "";
     u_origin := "https://chat.juicebox.money"; u_href := href |}.
#[local] Instance deployment_urls : UrlParser := {|
  newURL s :=
    if s === "https://chat.juicebox.money" then Some (url_of "/" "https://chat.juicebox.money/")
    else if s === "https://chat.juicebox.money/auth/wallet"
         then Some (url_of "/auth/wallet" "https://chat.juicebox.money/auth/wallet") else None |}.

Definition byte_text (n : nat) (b : byte) : string := base64url_encode (repeat b n).
Definition x := byte_text 32 (byte_of_Z 1).
Definition y := byte_text 32 (byte_of_Z 2).
Definition publicKey := byte_text 32 (byte_of_Z 3).
Definition keyPackage := byte_text 40 (byte_of_Z 4).

Definition device (expiresAt : string) : DeviceKeyBinding :=
  {| dk_installationId := "33333333-3333-4333-8333-333333333333";
     dk_installationAuthKey :=
       {| ik_x := x; ik_y := y; ik_jwkThumbprint := ok_or "" (sha256AuthorityBase64Url (jwk_obj x y)) |};
     dk_mlsCredentialKey :=
       {| mk_publicKey := publicKey;
          mk_credentialFingerprint := ok_or "" (sha256AuthorityBase64Url (fingerprint_obj publicKey));
          mk_initialKeyPackage :=
            {| kp_keyPackageRef := byte_text 32 (byte_of_Z 5); kp_sha256 := sha256RawBase64Url keyPackage;
               kp_keyPackage := keyPackage; kp_expiresAt := expiresAt |} |} |}.

Definition ids : EnrollmentIds :=
  {| ei_challengeId := "01890000-0000-7000-8000-000000000001";
     ei_possessionChallengeId := "01890000-0000-7000-8000-000000000002";
     ei_enrollmentId := "01890000-0000-7000-8000-000000000003";
     ei_accountId := "44444444-4444-4444-8444-444444444444";
     ei_deviceCredentialId := "55555555-5555-4555-8555-555555555555" |}.
Definition window : ChallengeWindow :=
  {| cw_issuedAt := "2026-01-01T00:00:00.000Z"; cw_notBefore := "2026-01-01T00:00:00.000Z";
     cw_expiresAt := "2026-01-01T00:05:00.000Z" |}.
Definition origin : string := "https://chat.juicebox.money".
Definition scope : WalletChallengeScope := {| wc_project := None |}.
Definition nonce : string := "abcdefghijklmnopqrstuvwxyz".
Definition account : string := sample_hex 40 "5"%char.

Definition id_fields : list (string * unknown) :=
  [("challengeId", VString (ei_challengeId ids)); ("possessionChallengeId", VString (ei_possessionChallengeId ids));
   ("enrollmentId", VString (ei_enrollmentId ids)); ("accountId", VString (ei_accountId ids));
   ("deviceCredentialId", VString (ei_deviceCredentialId ids));
   ("issuedAt", VString (cw_issuedAt window)); ("notBefore", VString (cw_notBefore window));
   ("expiresAt", VString (cw_expiresAt window))].

Definition siwe_of (expiresAt : string) : SiweChallenge :=
  {| sc_ids := ids; sc_window := window; sc_domain := "chat.juicebox.money";
     sc_uri := "https://chat.juicebox.money/auth/wallet"; sc_account := account; sc_chainId := 8453;
     sc_nonce := nonce; sc_requestId := ei_challengeId ids; sc_audience := origin; sc_clientId := "web";
     sc_scope := scope;
     sc_resources := ok_or [] (siweResourcesFor ids (device expiresAt) origin "web" scope);
     sc_device := device expiresAt |}.
Definition siwe_obj (c : SiweChallenge) : unknown :=
  obj ([("kind", VString SIWE_ENROLLMENT_PROFILE)] ++ id_fields ++
       [("scheme", VString "https"); ("domain", VString (sc_domain c)); ("uri", VString (sc_uri c));
        ("version", VString SIWE_VERSION); ("account", VString (sc_account c));
        ("chainId", VInt (sc_chainId c)); ("nonce", VString (sc_nonce c));
        ("requestId", VString (sc_requestId c)); ("statement", VString SIWE_STATEMENT);
        ("purpose", VString DEVICE_ENROLLMENT); ("audience", VString (sc_audience c));
        ("clientId", VString (sc_clientId c)); ("scope", scope_obj (sc_scope c));
        ("resources", arr (map VString (sc_resources c))); ("device", device_obj (sc_device c))]).

Definition message : Eip712Message :=
  let d := device "2026-02-01T00:00:00.000Z" in
  {| em_challengeId := uuidToBytes16 (ei_challengeId ids);
     em_possessionChallengeId := uuidToBytes16 (ei_possessionChallengeId ids); em_audience := origin;
     em_clientId := "web"; em_origin := origin;
     em_scopeDigest := ok_or "" (sha256AuthorityDigest (scope_obj scope));
     em_enrollmentId := uuidToBytes16 (ei_enrollmentId ids); em_accountId := uuidToBytes16 (ei_accountId ids);
     em_chainId := 8453; em_installationId := uuidToBytes16 (dk_installationId d);
     em_deviceCredentialId := uuidToBytes16 (ei_deviceCredentialId ids);
     em_installationAuthJkt := base64Url32ToHash32 (ik_jwkThumbprint (dk_installationAuthKey d));
     em_mlsCredentialPublicKey := base64Url32ToHash32 publicKey;
     em_mlsCredentialFingerprint := base64Url32ToHash32 (mk_credentialFingerprint (dk_mlsCredentialKey d));
     em_keyPackageRef := base64Url32ToHash32 (byte_text 32 (byte_of_Z 5));
     em_keyPackageSha256 := base64Url32ToHash32 (sha256RawBase64Url keyPackage); em_nonce := nonce;
     em_issuedAt := 1767225600; em_notBefore := 1767225600; em_expiresAt := 1767225900 |}.
Definition eip712_challenge : Eip712Challenge :=
  {| ec_ids := ids; ec_window := window; ec_account := account; ec_domainChainId := 8453;
     ec_domainSalt := sample_hex 64 "6"%char; ec_message := message; ec_scope := scope;
     ec_device := device "2026-02-01T00:00:00.000Z" |}.
Definition eip712_obj (c : Eip712Challenge) : unknown :=
  obj ([("kind", VString EIP712_ENROLLMENT_PROFILE)] ++ id_fields ++
       [("account", VString (ec_account c));
        ("domain", obj [("name", VString EIP712_DOMAIN_NAME); ("version", VString EIP712_DOMAIN_VERSION);
                        ("chainId", VInt (ec_domainChainId c)); ("salt", VString (ec_domainSalt c))]);
        ("primaryType", VString EIP712_PRIMARY_TYPE); ("message", message_obj (ec_message c));
        ("scope", scope_obj (ec_scope c)); ("device", device_obj (ec_device c))]).

Definition february : SiweChallenge := siwe_of "2026-02-01T00:00:00.000Z".
Definition march : SiweChallenge := siwe_of "2026-03-01T00:00:00.000Z".

Lemma february_parsed : parseWalletChallenge (siwe_obj february) = Ok (siwe february).
Proof. vm_compute. reflexivity. Defined.
Lemma march_parsed : parseWalletChallenge (siwe_obj march) = Ok (siwe march).
Proof. vm_compute. reflexivity. Defined.
Lemma eip712_parsed : parseWalletChallenge (eip712_obj eip712_challenge) = Ok (eip712 eip712_challenge).
Proof. vm_compute. reflexivity. Defined.

Definition february_digest : string := Eval vm_compute in ok_or "" (computeWalletChallengePayloadDigest (siwe february)).
Definition march_digest : string := Eval vm_compute in ok_or "" (computeWalletChallengePayloadDigest (siwe march)).

(** Two challenges that differ only in the expiry of the key package are one
    message to the wallet. *)
Lemma wallet_payload_binding_witness :
  (february ≠ march ∧ february_digest = march_digest) ∧
  (wallet_terms (siwe february) = wallet_terms (siwe march) → february_digest = march_digest) ∧
  (february_digest = march_digest →
   wallet_terms (siwe february) = wallet_terms (siwe march) ∨
   collision (walletPreimages (siwe february)) (walletPreimages (siwe march))).
Proof.
  assert (HN : february ≠ march).
  { intros HE. apply (f_equal (λ c, kp_expiresAt (mk_initialKeyPackage (dk_mlsCredentialKey (sc_device c))))) in HE.
    cbn in HE. discriminate HE. }
  split; [split; [exact HN|vm_compute; reflexivity]|].
  refine (wallet_payload_binding _ _ _ _ february_digest march_digest february_parsed march_parsed _ _);
    vm_compute; reflexivity.
Defined.

(** The typed data do not name the account that is to sign them. *)
Definition eip712_other_account : Eip712Challenge :=
  {| ec_ids := ids; ec_window := window; ec_account := sample_hex 40 "7"%char; ec_domainChainId := 8453;
     ec_domainSalt := sample_hex 64 "6"%char; ec_message := message; ec_scope := scope;
     ec_device := device "2026-02-01T00:00:00.000Z" |}.
Example typed_data_names_no_account :
  parseWalletChallenge (eip712_obj eip712_other_account) = Ok (eip712 eip712_other_account) ∧
  eip712_other_account ≠ eip712_challenge ∧
  computeWalletChallengePayloadDigest (eip712 eip712_other_account)
    = computeWalletChallengePayloadDigest (eip712 eip712_challenge).
Proof.
  split; [vm_compute; reflexivity|]. split; [|vm_compute; reflexivity].
  intros HE. apply (f_equal ec_account) in HE. revert HE. vm_compute. discriminate.
Qed.

Definition expectations : ChallengeExpectations :=
  {| ce_ids := ids; ce_account := account; ce_chainId := 8453; ce_origin := origin; ce_audience := origin;
     ce_clientId := "web"; ce_scope := scope; ce_device := device "2026-02-01T00:00:00.000Z";
     ce_eip712DomainSalt := Some (sample_hex 64 "6"%char) |}.
Definition claim : unknown :=
  obj [("status", VString "claimed"); ("challengeId", VString (ei_challengeId ids)); ("claimId", VString "claim");
       ("claimedAt", VString "2026-01-01T00:01:00.000Z"); ("terminalEvenIfVerificationFails", VBool true)].

Lemma challenge_usable_witness :
  (assertChallengeUsable (eip712 eip712_challenge) expectations "2026-01-01T00:02:00.000Z" claim = Ok tt) ∧
  assertChallengeUsable (eip712 eip712_challenge) expectations "2026-01-01T00:05:00.000Z" claim ≠ Ok tt ∧
  ∃ b w, challengeBinding (eip712 eip712_challenge) = Ok b ∧
         usable (eip712 eip712_challenge) b w expectations "2026-01-01T00:02:00.000Z".
Proof.
  assert (HU : assertChallengeUsable (eip712 eip712_challenge) expectations "2026-01-01T00:02:00.000Z" claim = Ok tt)
    by (vm_compute; reflexivity).
  split; [exact HU|]. split; [vm_compute; discriminate|].
  destruct (challenge_usable _ _ _ _ _ eip712_parsed HU) as (b & w & Hb & _ & HX & _). exists b, w. split; [exact Hb|exact HX].
Defined.
End ChallengeSamples.
