(* ===== verification/AuthorityDevices.v ===== *)
(** * Device enrolment ([src/production/authority/devices.ts])

    The possession challenge an installation key signs beside the wallet, the
    claim of the pair, the enrolment request, the device credential and the
    results of the verifiers behind it, and the enrolment result itself. *)

From stdpp Require Import base list strings.
From Stdlib Require Import ZArith Lia Ascii.
From S2P Require Import Fulfillment Prelude Sha256 Base64Url JsTime JsValue ValueObjects Quota CanonicalJson AuthorityValues AuthorityFinality AuthorityDigests AuthorityChallenges.

Definition MAX_DEVICE_CREDENTIAL_LIFETIME_MS : Z := 30 * 24 * 60 * 60 * 1000.
Definition MAX_POSSESSION_CHALLENGE_LIFETIME_MS : Z := 5 * 60 * 1000.
Definition DEVICE_POSSESSION_DOMAIN : string := "jb-msg-device-possession/v1".

(** ** Reasons *)

Inductive PossessionInvalid := possession_signature_invalid | device_key_binding_mismatch | possession_replay.
#[export] Instance PossessionInvalid_literal : Literal PossessionInvalid := {|
  lit r := match r with
           | possession_signature_invalid => "signature-invalid"
           | device_key_binding_mismatch => "device-key-binding-mismatch"
           | possession_replay => "replay" end;
  lits := [possession_signature_invalid; device_key_binding_mismatch; possession_replay] |}.

Inductive PossessionUnavailable := possession_not_configured | possession_registry_unavailable.
#[export] Instance PossessionUnavailable_literal : Literal PossessionUnavailable := {|
  lit r := match r with
           | possession_not_configured => "not-configured"
           | possession_registry_unavailable => "device-registry-unavailable" end;
  lits := [possession_not_configured; possession_registry_unavailable] |}.

Inductive KeyPackageInvalid :=
| malformed_key_package | suite_mismatch | credential_mismatch | init_key_invalid
| package_signature_invalid | reference_mismatch | hash_mismatch | package_expired | last_resort
| already_used.
#[export] Instance KeyPackageInvalid_literal : Literal KeyPackageInvalid := {|
  lit r := match r with
           | malformed_key_package => "malformed-key-package" | suite_mismatch => "suite-mismatch"
           | credential_mismatch => "credential-mismatch" | init_key_invalid => "init-key-invalid"
           | package_signature_invalid => "signature-invalid"
           | reference_mismatch => "reference-mismatch" | hash_mismatch => "hash-mismatch"
           | package_expired => "expired" | last_resort => "last-resort"
           | already_used => "already-used" end;
  lits := [malformed_key_package; suite_mismatch; credential_mismatch; init_key_invalid;
           package_signature_invalid; reference_mismatch; hash_mismatch; package_expired;
           last_resort; already_used] |}.

Inductive KeyPackageUnavailable := package_not_configured | mls_parser_unavailable.
#[export] Instance KeyPackageUnavailable_literal : Literal KeyPackageUnavailable := {|
  lit r := match r with
           | package_not_configured => "not-configured"
           | mls_parser_unavailable => "mls-parser-unavailable" end;
  lits := [package_not_configured; mls_parser_unavailable] |}.

Inductive TransparencyInvalid :=
| inclusion_proof_invalid | consistency_proof_invalid | witness_receipt_invalid | split_view.
#[export] Instance TransparencyInvalid_literal : Literal TransparencyInvalid := {|
  lit r := match r with
           | inclusion_proof_invalid => "inclusion-proof-invalid"
           | consistency_proof_invalid => "consistency-proof-invalid"
           | witness_receipt_invalid => "witness-receipt-invalid" | split_view => "split-view" end;
  lits := [inclusion_proof_invalid; consistency_proof_invalid; witness_receipt_invalid; split_view] |}.

Inductive TransparencyUnavailable :=
| transparency_not_configured | directory_unavailable | witness_unavailable.
#[export] Instance TransparencyUnavailable_literal : Literal TransparencyUnavailable := {|
  lit r := match r with
           | transparency_not_configured => "not-configured"
           | directory_unavailable => "directory-unavailable"
           | witness_unavailable => "witness-unavailable" end;
  lits := [transparency_not_configured; directory_unavailable; witness_unavailable] |}.

Inductive CredentialSignatureInvalid := credential_signature_invalid | signer_key_mismatch.
#[export] Instance CredentialSignatureInvalid_literal : Literal CredentialSignatureInvalid := {|
  lit r := match r with
           | credential_signature_invalid => "signature-invalid"
           | signer_key_mismatch => "signer-key-mismatch" end;
  lits := [credential_signature_invalid; signer_key_mismatch] |}.

Inductive CredentialSignatureUnavailable := signature_verifier_not_configured | key_unavailable.
#[export] Instance CredentialSignatureUnavailable_literal : Literal CredentialSignatureUnavailable := {|
  lit r := match r with
           | signature_verifier_not_configured => "credential-signature-verifier-not-configured"
           | key_unavailable => "key-unavailable" end;
  lits := [signature_verifier_not_configured; key_unavailable] |}.

Inductive EnrollmentInvalid :=
| wallet_proof_invalid | device_possession_invalid | challenge_binding_mismatch | device_revoked
| device_limit_reached.
#[export] Instance EnrollmentInvalid_literal : Literal EnrollmentInvalid := {|
  lit r := match r with
           | wallet_proof_invalid => "wallet-proof-invalid"
           | device_possession_invalid => "device-possession-invalid"
           | challenge_binding_mismatch => "challenge-binding-mismatch"
           | device_revoked => "device-revoked" | device_limit_reached => "device-limit-reached" end;
  lits := [wallet_proof_invalid; device_possession_invalid; challenge_binding_mismatch;
           device_revoked; device_limit_reached] |}.

Inductive EnrollmentUnavailable :=
| enrollment_verifier_not_configured | wallet_verifier_unavailable | possession_verifier_unavailable
| key_package_verifier_unavailable | key_transparency_unavailable | device_registry_unavailable
| enrollment_audit_unavailable.
#[export] Instance EnrollmentUnavailable_literal : Literal EnrollmentUnavailable := {|
  lit r := match r with
           | enrollment_verifier_not_configured => "device-enrollment-verifier-not-configured"
           | wallet_verifier_unavailable => "wallet-verifier-unavailable"
           | possession_verifier_unavailable => "device-possession-verifier-unavailable"
           | key_package_verifier_unavailable => "mls-key-package-verifier-unavailable"
           | key_transparency_unavailable => "key-transparency-unavailable"
           | device_registry_unavailable => "device-registry-unavailable"
           | enrollment_audit_unavailable => "audit-store-unavailable" end;
  lits := [enrollment_verifier_not_configured; wallet_verifier_unavailable;
           possession_verifier_unavailable; key_package_verifier_unavailable;
           key_transparency_unavailable; device_registry_unavailable; enrollment_audit_unavailable] |}.

Inductive PairUnavailable :=
| pair_not_configured | pair_dependency_unavailable | pair_timeout | pair_malformed_response.
#[export] Instance PairUnavailable_literal : Literal PairUnavailable := {|
  lit r := match r with
           | pair_not_configured => "not-configured"
           | pair_dependency_unavailable => "dependency-unavailable"
           | pair_timeout => "timeout"
           | pair_malformed_response => "malformed-dependency-response" end;
  lits := [pair_not_configured; pair_dependency_unavailable; pair_timeout; pair_malformed_response] |}.

(** ** Data *)

(** Kinds and purposes are constants.  Of [dp_ids] the possession challenge is
    the challenge itself ([challengeId]) and the other one the wallet's. *)
Record DevicePossessionChallenge := {
  dp_ids : EnrollmentIds; dp_nonce : string; dp_walletPayloadDigest : string; dp_account : string;
  dp_chainId : Z; dp_origin : string; dp_audience : string; dp_clientId : string;
  dp_scope : WalletChallengeScope; dp_scopeDigest : string; dp_walletProtocolProfile : string;
  dp_device : DeviceKeyBinding; dp_challengeDigest : string; dp_window : ChallengeWindow }.

Record DevicePossessionProof := {
  pp_enrollmentId : string; pp_possessionChallengeId : string; pp_installationId : string;
  pp_challengeDigest : string; pp_signature : string }.

Record PossessionEvidence := {
  pe_enrollmentId : string; pe_walletChallengeId : string; pe_possessionChallengeId : string;
  pe_installationId : string; pe_deviceCredentialId : string; pe_challengeDigest : string;
  pe_proofDigest : string; pe_evidenceId : string; pe_evidenceDigest : string; pe_verifiedAt : string }.
Inductive DevicePossessionVerificationResult :=
| possession_verified (evidence : PossessionEvidence)
| possession_invalid (enrollmentId possessionChallengeId : string) (reasonCode : PossessionInvalid)
| possession_unavailable (enrollmentId : string) (possessionChallengeId : option string)
    (reasonCode : PossessionUnavailable).

(** The suite, the kind and the three flags are constants. *)
Record KeyPackageEvidence := {
  ke_installationId : string; ke_credentialFingerprint : string; ke_keyPackageRef : string;
  ke_keyPackageSha256 : string; ke_keyPackageExpiresAt : string; ke_evidenceId : string;
  ke_evidenceDigest : string; ke_verifiedAt : string }.
Inductive MlsKeyPackageSemanticVerificationResult :=
| package_verified (evidence : KeyPackageEvidence)
| package_invalid (installationId : string) (reasonCode : KeyPackageInvalid)
| package_unavailable (installationId : option string) (reasonCode : KeyPackageUnavailable).

Record DeviceDirectoryProofBundle := {
  db_entryId : string; db_credentialId : string; db_credentialPayloadDigest : string;
  db_checkpointId : string; db_inclusionProof : string; db_consistencyProof : string;
  db_witnessReceipt : string }.

Record TransparencyEvidence := {
  te_entryId : string; te_credentialId : string; te_checkpointId : string;
  te_inclusionProofDigest : string; te_consistencyProofDigest : string;
  te_witnessReceiptDigest : string; te_evidenceId : string; te_evidenceDigest : string;
  te_verifiedAt : string }.
Inductive DeviceKeyTransparencyVerificationResult :=
| transparency_verified (evidence : TransparencyEvidence)
| transparency_invalid (credentialId : string) (reasonCode : TransparencyInvalid)
| transparency_unavailable (credentialId : option string) (reasonCode : TransparencyUnavailable).

Record DeviceEnrollmentRequest := {
  er_ids : EnrollmentIds; er_account : string; er_chainId : Z; er_device : DeviceKeyBinding;
  er_possessionProof : DevicePossessionProof; er_requestedAt : string; er_displayLabel : string }.

Record DeviceCredential := {
  dc_credentialId : string; dc_enrollmentId : string; dc_accountId : string; dc_account : string;
  dc_chainId : Z; dc_device : DeviceKeyBinding; dc_walletVerificationEvidenceDigest : string;
  dc_possessionEvidenceDigest : string; dc_issuedAt : string; dc_expiresAt : string;
  dc_revocationVersion : string; dc_credentialSignerKeyId : string;
  dc_credentialPayloadDigest : string; dc_credentialSignature : string;
  dc_signatureVerificationEvidenceId : string; dc_signatureVerificationEvidenceDigest : string }.

Record CredentialSignatureEvidence := {
  se_credentialId : string; se_signerKeyId : string; se_payloadDigest : string;
  se_signatureDigest : string; se_evidenceId : string; se_evidenceDigest : string;
  se_verifiedAt : string }.
Inductive DeviceCredentialSignatureVerificationResult :=
| credential_verified (evidence : CredentialSignatureEvidence)
| credential_invalid (credentialId : string) (reasonCode : CredentialSignatureInvalid)
| credential_unavailable (credentialId : option string) (reasonCode : CredentialSignatureUnavailable).

Inductive DeviceEnrollmentResult :=
| enrolled (enrollmentId : string) (credential : DeviceCredential)
    (directoryEntry : DeviceDirectoryProofBundle)
| enrollment_invalid (enrollmentId : string) (reasonCode : EnrollmentInvalid)
| enrollment_unavailable (enrollmentId : string) (reasonCode : EnrollmentUnavailable).

Inductive ClaimEnrollmentChallengePairResult :=
| pair_claimed (claimId : string) (walletChallenge : WalletChallenge)
    (possessionChallenge : DevicePossessionChallenge) (claimedAt : string)
| pair_not_found
| pair_already_claimed_or_consumed
| pair_unavailable (reasonCode : PairUnavailable).

(** What a claim of the pair is compared with. *)
Record PairExpectations := {
  px_binding : ChallengeBinding; px_walletProtocolProfile : string; px_walletPayloadDigest : string;
  px_claimId : string; px_now : string }.

Record CredentialExpectations := {
  ce_enrollmentId : string; ce_accountId : string; ce_deviceCredentialId : string;
  ce_credentialAccount : string; ce_credentialChainId : Z; ce_credentialDevice : DeviceKeyBinding;
  ce_walletVerificationEvidenceDigest : string; ce_possessionEvidenceDigest : string;
  ce_signerKeyId : string; ce_now : string; ce_signatureVerification : unknown }.

Record EnrollmentExpectations := {
  ee_request : DeviceEnrollmentRequest; ee_possessionChallenge : DevicePossessionChallenge;
  ee_walletVerificationEvidenceDigest : string; ee_possessionVerification : unknown;
  ee_mlsKeyPackageVerification : unknown; ee_keyTransparencyVerification : unknown;
  ee_credentialSignerKeyId : string; ee_now : string; ee_credentialSignatureVerification : unknown }.

(** ** As digested values *)

Definition window_fields (w : ChallengeWindow) : list (string * unknown) :=
  [("issuedAt", VString (cw_issuedAt w)); ("notBefore", VString (cw_notBefore w));
   ("expiresAt", VString (cw_expiresAt w))].

(** All but the digest. *)
Definition possession_fields (c : DevicePossessionChallenge) : list (string * unknown) :=
  [("kind", VString "device-possession-challenge.v1");
   ("challengeId", VString (ei_possessionChallengeId (dp_ids c))); ("nonce", VString (dp_nonce c));
   ("walletChallengeId", VString (ei_challengeId (dp_ids c)));
   ("walletPayloadDigest", VString (dp_walletPayloadDigest c));
   ("enrollmentId", VString (ei_enrollmentId (dp_ids c)));
   ("accountId", VString (ei_accountId (dp_ids c)));
   ("deviceCredentialId", VString (ei_deviceCredentialId (dp_ids c)));
   ("account", VString (dp_account c)); ("chainId", VInt (dp_chainId c));
   ("origin", VString (dp_origin c)); ("audience", VString (dp_audience c));
   ("clientId", VString (dp_clientId c)); ("scope", scope_obj (dp_scope c));
   ("scopeDigest", VString (dp_scopeDigest c)); ("purpose", VString DEVICE_ENROLLMENT);
   ("walletProtocolProfile", VString (dp_walletProtocolProfile c));
   ("device", device_obj (dp_device c))] ++ window_fields (dp_window c).
Definition possession_obj (c : DevicePossessionChallenge) : unknown :=
  obj [("domain", VString DEVICE_POSSESSION_DOMAIN); ("challenge", obj (possession_fields c))].

Definition proof_obj (p : DevicePossessionProof) : unknown :=
  obj [("kind", VString "p256-es256-installation-possession.v1");
       ("enrollmentId", VString (pp_enrollmentId p));
       ("possessionChallengeId", VString (pp_possessionChallengeId p));
       ("installationId", VString (pp_installationId p));
       ("challengeDigest", VString (pp_challengeDigest p)); ("signature", VString (pp_signature p))].
Definition possession_proof_obj (p : DevicePossessionProof) : unknown :=
  obj [("kind", VString "device-possession-proof.v1"); ("proof", proof_obj p)].

(** The credential before it is committed to and signed. *)
Definition credential_fields (c : DeviceCredential) : list (string * unknown) :=
  [("kind", VString "device-credential.v1"); ("credentialId", VString (dc_credentialId c));
   ("enrollmentId", VString (dc_enrollmentId c)); ("accountId", VString (dc_accountId c));
   ("account", VString (dc_account c)); ("chainId", VInt (dc_chainId c));
   ("device", device_obj (dc_device c));
   ("walletVerificationEvidenceDigest", VString (dc_walletVerificationEvidenceDigest c));
   ("possessionEvidenceDigest", VString (dc_possessionEvidenceDigest c));
   ("issuedAt", VString (dc_issuedAt c)); ("expiresAt", VString (dc_expiresAt c));
   ("revocationVersion", VString (dc_revocationVersion c)); ("roleBinding", VNull);
   ("credentialSignerKeyId", VString (dc_credentialSignerKeyId c))].
Definition credential_obj (c : DeviceCredential) : unknown :=
  obj [("kind", VString "device-credential-payload.v1"); ("credential", obj (credential_fields c))].
Definition credential_signature_obj (signature : string) : unknown :=
  obj [("kind", VString "device-credential-signature.v1"); ("signature", VString signature)].
Definition directory_proof_obj (kind proof : string) : unknown :=
  obj [("kind", VString kind); ("proof", VString proof)].

(** ** Literals and labels *)

(** [expectDeviceEnrollment], [expectMlsCiphersuite], [expectOrdinaryKeyPackage]. *)
Definition expectDeviceEnrollment (value : unknown) : result unit := expectLiteral value DEVICE_ENROLLMENT.
Definition expectMlsCiphersuite (value : unknown) : result unit := expectLiteral value MLS_CIPHERSUITE.
Definition expectOrdinaryKeyPackage (value : unknown) : result unit :=
  expectLiteral value ORDINARY_KEY_PACKAGE.
Definition expectTrue (value : unknown) : result unit := refuse_if (negb (isTrue value)).
Definition expectFalse (value : unknown) : result unit := refuse_if (negb (isFalse value)).

Definition parseWalletProtocolProfile (value : unknown) : result string :=
  match value with
  | VString s =>
      refuse_if ((s !== SIWE_ENROLLMENT_PROFILE) && (s !== EIP712_ENROLLMENT_PROFILE));; Ok s
  | _ => invalid
  end.

Definition parseDisplayLabel (value : unknown) : result string :=
  match value with
  | VString s =>
      refuse_if ((strlen s <? 1) || (64 <? strlen s) || (s !== trim s)
                 || existsb (λ c, in_range 0 31 c || in_range 127 127 c) (chars s));;
      Ok s
  | _ => invalid
  end.

Definition parsePossessionProof (value : unknown) : result DevicePossessionProof :=
  record ← expectExactRecord value
    ["kind"; "enrollmentId"; "possessionChallengeId"; "installationId"; "challengeDigest"; "signature"];
  refuse_if (negb (isString record.["kind"] "p256-es256-installation-possession.v1"));;
  enrollmentId ← parseEnrollmentId record.["enrollmentId"];
  possessionChallengeId ← parsePossessionChallengeId record.["possessionChallengeId"];
  installationId ← parseInstallationId record.["installationId"];
  challengeDigest ← parseHash32 record.["challengeDigest"];
  signature ← parseBase64Url record.["signature"] 86 86;
  Ok {| pp_enrollmentId := enrollmentId; pp_possessionChallengeId := possessionChallengeId;
        pp_installationId := installationId; pp_challengeDigest := challengeDigest;
        pp_signature := signature |}.

Section Devices.
Context `{Sha256} `{UrlParser}.

(** ** Digests *)

Definition computeDevicePossessionChallengeDigest (challenge : DevicePossessionChallenge) : result string :=
  sha256AuthorityDigest (possession_obj challenge).
Definition proofDigest (kind proof : string) : result string :=
  sha256AuthorityDigest (directory_proof_obj kind proof).
Definition digestsEqual (left right : unknown) : result bool :=
  a ← sha256AuthorityDigest left;
  b ← sha256AuthorityDigest right;
  Ok (a === b).
Definition deviceBindingsEqual (left right : DeviceKeyBinding) : result bool :=
  digestsEqual (device_obj left) (device_obj right).

(** [a && b] where [b] may throw. *)
Definition and_then (a : bool) (b : result bool) : result bool := if a then b else Ok false.

Definition possessionChallengeMatchesWallet (possession : DevicePossessionChallenge)
    (wallet : WalletChallengeEnrollmentBinding) : result bool :=
  let b := wb_binding wallet in
  and_then ((dp_ids possession === cb_ids b)
            && (dp_walletPayloadDigest possession === wb_walletPayloadDigest wallet)
            && (dp_account possession === cb_account b) && (dp_chainId possession =? cb_chainId b)
            && (dp_origin possession === cb_origin b) && (dp_audience possession === cb_audience b)
            && (dp_clientId possession === cb_clientId b)
            && (dp_scopeDigest possession === wb_scopeDigest wallet))
    (scopes ← digestsEqual (scope_obj (dp_scope possession)) (scope_obj (cb_scope b));
     and_then (scopes && (dp_walletProtocolProfile possession === wb_protocolProfile wallet))
       (devices ← deviceBindingsEqual (dp_device possession) (cb_device b);
        Ok (devices && (dp_window possession === cb_window b)))).

(** ** The possession challenge *)

Definition parseDevicePossessionChallenge (value : unknown) : result DevicePossessionChallenge :=
  record ← expectExactRecord value
    ["kind"; "challengeId"; "nonce"; "walletChallengeId"; "walletPayloadDigest"; "enrollmentId";
     "accountId"; "deviceCredentialId"; "account"; "chainId"; "origin"; "audience"; "clientId";
     "scope"; "scopeDigest"; "purpose"; "walletProtocolProfile"; "device"; "challengeDigest";
     "issuedAt"; "notBefore"; "expiresAt"];
  refuse_if (negb (isString record.["kind"] "device-possession-challenge.v1"));;
  issuedAt ← parseCanonicalInstant record.["issuedAt"];
  notBefore ← parseCanonicalInstant record.["notBefore"];
  expiresAt ← parseCanonicalInstant record.["expiresAt"];
  refuse_if ((instantMilliseconds notBefore <? instantMilliseconds issuedAt)
             || (instantMilliseconds expiresAt <=? instantMilliseconds notBefore)
             || (MAX_POSSESSION_CHALLENGE_LIFETIME_MS
                 <? instantMilliseconds expiresAt - instantMilliseconds issuedAt));;
  scope ← parseWalletChallengeScope record.["scope"];
  challengeId ← parsePossessionChallengeId record.["challengeId"];
  nonce ← parseBase64Url record.["nonce"] 22 64;
  walletChallengeId ← parseWalletChallengeId record.["walletChallengeId"];
  walletPayloadDigest ← parseHash32 record.["walletPayloadDigest"];
  enrollmentId ← parseEnrollmentId record.["enrollmentId"];
  accountId ← parseAccountId record.["accountId"];
  deviceCredentialId ← parseDeviceCredentialId record.["deviceCredentialId"];
  account ← parseAddress record.["account"];
  chainId ← parseJuiceboxV6ChainId record.["chainId"];
  origin ← parseHttpsOrigin record.["origin"];
  audience ← parseHttpsOrigin record.["audience"];
  clientId ← parseAuthorityId record.["clientId"];
  scopeDigest ← parseHash32 record.["scopeDigest"];
  expectDeviceEnrollment record.["purpose"];;
  walletProtocolProfile ← parseWalletProtocolProfile record.["walletProtocolProfile"];
  device ← parseDeviceKeyBinding record.["device"];
  expectedScopeDigest ← sha256AuthorityDigest (scope_obj scope);
  refuse_if (scopeDigest !== expectedScopeDigest);;
  challengeDigest ← parseHash32 record.["challengeDigest"];
  let parsed :=
    {| dp_ids := {| ei_challengeId := walletChallengeId; ei_possessionChallengeId := challengeId;
                    ei_enrollmentId := enrollmentId; ei_accountId := accountId;
                    ei_deviceCredentialId := deviceCredentialId |};
       dp_nonce := nonce; dp_walletPayloadDigest := walletPayloadDigest; dp_account := account;
       dp_chainId := chainId; dp_origin := origin; dp_audience := audience; dp_clientId := clientId;
       dp_scope := scope; dp_scopeDigest := scopeDigest;
       dp_walletProtocolProfile := walletProtocolProfile; dp_device := device;
       dp_challengeDigest := challengeDigest;
       dp_window := {| cw_issuedAt := issuedAt; cw_notBefore := notBefore; cw_expiresAt := expiresAt |} |} in
  expectedDigest ← computeDevicePossessionChallengeDigest parsed;
  refuse_if (challengeDigest !== expectedDigest);;
  Ok parsed.

(** ** Verifiers *)

Definition parsePossessionEvidence (value : unknown) (request : DeviceEnrollmentRequest)
    (challenge : DevicePossessionChallenge) (now : string) : result PossessionEvidence :=
  record ← expectExactRecord value
    ["status"; "enrollmentId"; "walletChallengeId"; "possessionChallengeId"; "installationId";
     "deviceCredentialId"; "challengeDigest"; "proofDigest"; "evidenceId"; "evidenceDigest";
     "verifiedAt"];
  enrollmentId ← parseEnrollmentId record.["enrollmentId"];
  walletChallengeId ← parseWalletChallengeId record.["walletChallengeId"];
  possessionChallengeId ← parsePossessionChallengeId record.["possessionChallengeId"];
  installationId ← parseInstallationId record.["installationId"];
  deviceCredentialId ← parseDeviceCredentialId record.["deviceCredentialId"];
  challengeDigest ← parseHash32 record.["challengeDigest"];
  proofDigest ← parseHash32 record.["proofDigest"];
  evidenceId ← parseAuthorityId record.["evidenceId"];
  evidenceDigest ← parseHash32 record.["evidenceDigest"];
  verifiedAt ← parseCanonicalInstant record.["verifiedAt"];
  refuse_if ((enrollmentId !== ei_enrollmentId (er_ids request))
             || (walletChallengeId !== ei_challengeId (er_ids request))
             || (possessionChallengeId !== ei_possessionChallengeId (er_ids request))
             || (installationId !== dk_installationId (er_device request))
             || (deviceCredentialId !== ei_deviceCredentialId (er_ids request))
             || (challengeDigest !== dp_challengeDigest challenge));;
  expectedProof ← sha256AuthorityDigest (possession_proof_obj (er_possessionProof request));
  refuse_if ((proofDigest !== expectedProof)
             || (instantMilliseconds now <? instantMilliseconds verifiedAt)
             || (instantMilliseconds verifiedAt <? instantMilliseconds (cw_notBefore (dp_window challenge)))
             || (instantMilliseconds (cw_expiresAt (dp_window challenge)) <=? instantMilliseconds verifiedAt));;
  Ok {| pe_enrollmentId := enrollmentId; pe_walletChallengeId := walletChallengeId;
        pe_possessionChallengeId := possessionChallengeId; pe_installationId := installationId;
        pe_deviceCredentialId := deviceCredentialId; pe_challengeDigest := challengeDigest;
        pe_proofDigest := proofDigest; pe_evidenceId := evidenceId;
        pe_evidenceDigest := evidenceDigest; pe_verifiedAt := verifiedAt |}.

Definition parseDevicePossessionVerificationResult (value : unknown) (request : DeviceEnrollmentRequest)
    (challenge : DevicePossessionChallenge) (now : string) : result DevicePossessionVerificationResult :=
  r ← expectObject value;
  let status := r.["status"] in
  if isString status "verified" then
    possession_verified <$> parsePossessionEvidence value request challenge now
  else if isString status "invalid" then
    record ← expectExactRecord value ["status"; "enrollmentId"; "possessionChallengeId"; "reasonCode"];
    reasonCode ← parseLiteral record.["reasonCode"];
    enrollmentId ← parseEnrollmentId record.["enrollmentId"];
    possessionChallengeId ← parsePossessionChallengeId record.["possessionChallengeId"];
    Ok (possession_invalid enrollmentId possessionChallengeId reasonCode)
  else if isString status "unavailable" then
    record ← expectExactRecord value ["status"; "enrollmentId"; "possessionChallengeId"; "reasonCode"];
    reasonCode ← parseLiteral record.["reasonCode"];
    enrollmentId ← parseEnrollmentId record.["enrollmentId"];
    possessionChallengeId ← parseNullable parsePossessionChallengeId record.["possessionChallengeId"];
    Ok (possession_unavailable enrollmentId possessionChallengeId reasonCode)
  else invalid.

Definition parseKeyPackageEvidence (value : unknown) (device : DeviceKeyBinding) (now : string) :
  result KeyPackageEvidence :=
  record ← expectExactRecord value
    ["status"; "installationId"; "ciphersuite"; "credentialFingerprint"; "keyPackageKind";
     "keyPackageRef"; "keyPackageSha256"; "keyPackageExpiresAt"; "signatureVerified";
     "credentialAndInitKeyMatched"; "lastResort"; "evidenceId"; "evidenceDigest"; "verifiedAt"];
  let keyPackage := mk_initialKeyPackage (dk_mlsCredentialKey device) in
  installationId ← parseInstallationId record.["installationId"];
  expectMlsCiphersuite record.["ciphersuite"];;
  credentialFingerprint ← parseKey32 record.["credentialFingerprint"];
  expectOrdinaryKeyPackage record.["keyPackageKind"];;
  keyPackageRef ← parseKey32 record.["keyPackageRef"];
  keyPackageSha256 ← parseKey32 record.["keyPackageSha256"];
  keyPackageExpiresAt ← parseCanonicalInstant record.["keyPackageExpiresAt"];
  expectTrue record.["signatureVerified"];;
  expectTrue record.["credentialAndInitKeyMatched"];;
  expectFalse record.["lastResort"];;
  evidenceId ← parseAuthorityId record.["evidenceId"];
  evidenceDigest ← parseHash32 record.["evidenceDigest"];
  verifiedAt ← parseCanonicalInstant record.["verifiedAt"];
  refuse_if ((installationId !== dk_installationId device)
             || (credentialFingerprint !== mk_credentialFingerprint (dk_mlsCredentialKey device))
             || (keyPackageRef !== kp_keyPackageRef keyPackage)
             || (keyPackageSha256 !== kp_sha256 keyPackage)
             || (keyPackageExpiresAt !== kp_expiresAt keyPackage)
             || (instantMilliseconds now <? instantMilliseconds verifiedAt)
             || (instantMilliseconds (kp_expiresAt keyPackage) <=? instantMilliseconds verifiedAt)
             || (instantMilliseconds (kp_expiresAt keyPackage) <=? instantMilliseconds now));;
  Ok {| ke_installationId := installationId; ke_credentialFingerprint := credentialFingerprint;
        ke_keyPackageRef := keyPackageRef; ke_keyPackageSha256 := keyPackageSha256;
        ke_keyPackageExpiresAt := keyPackageExpiresAt; ke_evidenceId := evidenceId;
        ke_evidenceDigest := evidenceDigest; ke_verifiedAt := verifiedAt |}.

Definition parseMlsKeyPackageSemanticVerificationResult (value : unknown) (device : DeviceKeyBinding)
    (now : string) : result MlsKeyPackageSemanticVerificationResult :=
  r ← expectObject value;
  let status := r.["status"] in
  if isString status "verified" then package_verified <$> parseKeyPackageEvidence value device now
  else if isString status "invalid" then
    record ← expectExactRecord value ["status"; "installationId"; "reasonCode"];
    reasonCode ← parseLiteral record.["reasonCode"];
    installationId ← parseInstallationId record.["installationId"];
    Ok (package_invalid installationId reasonCode)
  else if isString status "unavailable" then
    record ← expectExactRecord value ["status"; "installationId"; "reasonCode"];
    reasonCode ← parseLiteral record.["reasonCode"];
    installationId ← parseNullable parseInstallationId record.["installationId"];
    Ok (package_unavailable installationId reasonCode)
  else invalid.

Definition parseDeviceCredentialSignatureVerificationResult (value : unknown) :
  result DeviceCredentialSignatureVerificationResult :=
  r ← expectObject value;
  let status := r.["status"] in
  if isString status "verified" then
    record ← expectExactRecord value
      ["status"; "credentialId"; "signerKeyId"; "payloadDigest"; "signatureDigest"; "evidenceId";
       "evidenceDigest"; "verifiedAt"];
    credentialId ← parseDeviceCredentialId record.["credentialId"];
    signerKeyId ← parseAuthorityId record.["signerKeyId"];
    payloadDigest ← parseHash32 record.["payloadDigest"];
    signatureDigest ← parseHash32 record.["signatureDigest"];
    evidenceId ← parseAuthorityId record.["evidenceId"];
    evidenceDigest ← parseHash32 record.["evidenceDigest"];
    verifiedAt ← parseCanonicalInstant record.["verifiedAt"];
    Ok (credential_verified
          {| se_credentialId := credentialId; se_signerKeyId := signerKeyId;
             se_payloadDigest := payloadDigest; se_signatureDigest := signatureDigest;
             se_evidenceId := evidenceId; se_evidenceDigest := evidenceDigest;
             se_verifiedAt := verifiedAt |})
  else if isString status "invalid" then
    record ← expectExactRecord value ["status"; "credentialId"; "reasonCode"];
    reasonCode ← parseLiteral record.["reasonCode"];
    credentialId ← parseDeviceCredentialId record.["credentialId"];
    Ok (credential_invalid credentialId reasonCode)
  else if isString status "unavailable" then
    record ← expectExactRecord value ["status"; "credentialId"; "reasonCode"];
    reasonCode ← parseLiteral record.["reasonCode"];
    credentialId ← parseNullable parseDeviceCredentialId record.["credentialId"];
    Ok (credential_unavailable credentialId reasonCode)
  else invalid.

Definition parseTransparencyEvidence (value : unknown) (directoryEntry : DeviceDirectoryProofBundle)
    (now : string) : result TransparencyEvidence :=
  record ← expectExactRecord value
    ["status"; "entryId"; "credentialId"; "checkpointId"; "inclusionProofDigest";
     "consistencyProofDigest"; "witnessReceiptDigest"; "evidenceId"; "evidenceDigest"; "verifiedAt"];
  entryId ← parseAuthorityId record.["entryId"];
  credentialId ← parseDeviceCredentialId record.["credentialId"];
  checkpointId ← parseAuthorityId record.["checkpointId"];
  inclusionProofDigest ← parseHash32 record.["inclusionProofDigest"];
  consistencyProofDigest ← parseHash32 record.["consistencyProofDigest"];
  witnessReceiptDigest ← parseHash32 record.["witnessReceiptDigest"];
  evidenceId ← parseAuthorityId record.["evidenceId"];
  evidenceDigest ← parseHash32 record.["evidenceDigest"];
  verifiedAt ← parseCanonicalInstant record.["verifiedAt"];
  refuse_if ((entryId !== db_entryId directoryEntry) || (credentialId !== db_credentialId directoryEntry)
             || (checkpointId !== db_checkpointId directoryEntry));;
  inclusion ← proofDigest "device-directory-inclusion-proof.v1" (db_inclusionProof directoryEntry);
  refuse_if (inclusionProofDigest !== inclusion);;
  consistency ← proofDigest "device-directory-consistency-proof.v1" (db_consistencyProof directoryEntry);
  refuse_if (consistencyProofDigest !== consistency);;
  receipt ← proofDigest "device-directory-witness-receipt.v1" (db_witnessReceipt directoryEntry);
  refuse_if ((witnessReceiptDigest !== receipt)
             || (instantMilliseconds now <? instantMilliseconds verifiedAt));;
  Ok {| te_entryId := entryId; te_credentialId := credentialId; te_checkpointId := checkpointId;
        te_inclusionProofDigest := inclusionProofDigest;
        te_consistencyProofDigest := consistencyProofDigest;
        te_witnessReceiptDigest := witnessReceiptDigest; te_evidenceId := evidenceId;
        te_evidenceDigest := evidenceDigest; te_verifiedAt := verifiedAt |}.

Definition parseDeviceKeyTransparencyVerificationResult (value : unknown)
    (directoryEntry : DeviceDirectoryProofBundle) (now : string) :
  result DeviceKeyTransparencyVerificationResult :=
  r ← expectObject value;
  let status := r.["status"] in
  if isString status "verified" then
    transparency_verified <$> parseTransparencyEvidence value directoryEntry now
  else if isString status "invalid" then
    record ← expectExactRecord value ["status"; "credentialId"; "reasonCode"];
    reasonCode ← parseLiteral record.["reasonCode"];
    credentialId ← parseDeviceCredentialId record.["credentialId"];
    Ok (transparency_invalid credentialId reasonCode)
  else if isString status "unavailable" then
    record ← expectExactRecord value ["status"; "credentialId"; "reasonCode"];
    reasonCode ← parseLiteral record.["reasonCode"];
    credentialId ← parseNullable parseDeviceCredentialId record.["credentialId"];
    Ok (transparency_unavailable credentialId reasonCode)
  else invalid.

(** ** Credential and directory entry *)

Definition parseDeviceCredential (value : unknown) (expected : CredentialExpectations) :
  result DeviceCredential :=
  record ← expectExactRecord value
    ["kind"; "credentialId"; "enrollmentId"; "accountId"; "account"; "chainId"; "device";
     "walletVerificationEvidenceDigest"; "possessionEvidenceDigest"; "issuedAt"; "expiresAt";
     "revocationVersion"; "roleBinding"; "credentialSignerKeyId"; "credentialPayloadDigest";
     "credentialSignature"; "signatureVerificationEvidenceId"; "signatureVerificationEvidenceDigest"];
  refuse_if (negb (isString record.["kind"] "device-credential.v1") || negb (isNull record.["roleBinding"]));;
  issuedAt ← parseCanonicalInstant record.["issuedAt"];
  expiresAt ← parseCanonicalInstant record.["expiresAt"];
  let lifetime := instantMilliseconds expiresAt - instantMilliseconds issuedAt in
  refuse_if ((lifetime <=? 0) || (MAX_DEVICE_CREDENTIAL_LIFETIME_MS <? lifetime));;
  credentialSignerKeyId ← parseAuthorityId record.["credentialSignerKeyId"];
  refuse_if (credentialSignerKeyId !== ce_signerKeyId expected);;
  refuse_if ((instantMilliseconds (ce_now expected) <? instantMilliseconds issuedAt)
             || (instantMilliseconds expiresAt <=? instantMilliseconds (ce_now expected)));;
  credentialId ← parseDeviceCredentialId record.["credentialId"];
  enrollmentId ← parseEnrollmentId record.["enrollmentId"];
  accountId ← parseAccountId record.["accountId"];
  account ← parseAddress record.["account"];
  chainId ← parseJuiceboxV6ChainId record.["chainId"];
  device ← parseDeviceKeyBinding record.["device"];
  walletVerificationEvidenceDigest ← parseHash32 record.["walletVerificationEvidenceDigest"];
  possessionEvidenceDigest ← parseHash32 record.["possessionEvidenceDigest"];
  revocationVersion ← parseUint256Decimal record.["revocationVersion"];
  refuse_if ((credentialId !== ce_deviceCredentialId expected)
             || (enrollmentId !== ce_enrollmentId expected)
             || (accountId !== ce_accountId expected) || (account !== ce_credentialAccount expected)
             || negb (chainId =? ce_credentialChainId expected));;
  devices ← deviceBindingsEqual device (ce_credentialDevice expected);
  refuse_if (negb devices
             || (walletVerificationEvidenceDigest !== ce_walletVerificationEvidenceDigest expected)
             || (possessionEvidenceDigest !== ce_possessionEvidenceDigest expected));;
  credentialPayloadDigest ← parseHash32 record.["credentialPayloadDigest"];
  let unsigned signature evidenceId evidenceDigest :=
    {| dc_credentialId := credentialId; dc_enrollmentId := enrollmentId; dc_accountId := accountId;
       dc_account := account; dc_chainId := chainId; dc_device := device;
       dc_walletVerificationEvidenceDigest := walletVerificationEvidenceDigest;
       dc_possessionEvidenceDigest := possessionEvidenceDigest; dc_issuedAt := issuedAt;
       dc_expiresAt := expiresAt; dc_revocationVersion := revocationVersion;
       dc_credentialSignerKeyId := credentialSignerKeyId;
       dc_credentialPayloadDigest := credentialPayloadDigest; dc_credentialSignature := signature;
       dc_signatureVerificationEvidenceId := evidenceId;
       dc_signatureVerificationEvidenceDigest := evidenceDigest |} in
  payloadDigest ← sha256AuthorityDigest (credential_obj (unsigned "" "" ""));
  refuse_if (credentialPayloadDigest !== payloadDigest);;
  credentialSignature ← parseBase64Url record.["credentialSignature"] 86 86;
  signatureVerification ←
    parseDeviceCredentialSignatureVerificationResult (ce_signatureVerification expected);
  match signatureVerification with
  | credential_verified evidence =>
      refuse_if ((se_credentialId evidence !== credentialId)
                 || (se_signerKeyId evidence !== credentialSignerKeyId)
                 || (se_payloadDigest evidence !== credentialPayloadDigest));;
      signatureDigest ← sha256AuthorityDigest (credential_signature_obj credentialSignature);
      refuse_if ((se_signatureDigest evidence !== signatureDigest)
                 || (instantMilliseconds (ce_now expected)
                     <? instantMilliseconds (se_verifiedAt evidence)));;
      signatureVerificationEvidenceId ← parseAuthorityId record.["signatureVerificationEvidenceId"];
      signatureVerificationEvidenceDigest ←
        parseHash32 record.["signatureVerificationEvidenceDigest"];
      refuse_if ((signatureVerificationEvidenceId !== se_evidenceId evidence)
                 || (signatureVerificationEvidenceDigest !== se_evidenceDigest evidence));;
      Ok (unsigned credentialSignature signatureVerificationEvidenceId
            signatureVerificationEvidenceDigest)
  | _ => invalid
  end.

Definition parseDeviceDirectoryProofBundle (value : unknown) (credentialId_expected : string)
    (credentialPayloadDigest_expected : string) : result DeviceDirectoryProofBundle :=
  record ← expectExactRecord value
    ["kind"; "entryId"; "credentialId"; "credentialPayloadDigest"; "checkpointId"; "inclusionProof";
     "consistencyProof"; "witnessReceipt"];
  refuse_if (negb (isString record.["kind"] "device-directory-proof-bundle.v1"));;
  entryId ← parseAuthorityId record.["entryId"];
  credentialId ← parseDeviceCredentialId record.["credentialId"];
  credentialPayloadDigest ← parseHash32 record.["credentialPayloadDigest"];
  checkpointId ← parseAuthorityId record.["checkpointId"];
  inclusionProof ← parseBase64Url record.["inclusionProof"] 2 (64 * 1024);
  consistencyProof ← parseBase64Url record.["consistencyProof"] 2 (64 * 1024);
  witnessReceipt ← parseBase64Url record.["witnessReceipt"] 2 (64 * 1024);
  refuse_if ((credentialId !== credentialId_expected)
             || (credentialPayloadDigest !== credentialPayloadDigest_expected));;
  Ok {| db_entryId := entryId; db_credentialId := credentialId;
        db_credentialPayloadDigest := credentialPayloadDigest; db_checkpointId := checkpointId;
        db_inclusionProof := inclusionProof; db_consistencyProof := consistencyProof;
        db_witnessReceipt := witnessReceipt |}.

(** ** The claim of the pair *)

(** The binding of the wallet challenge is the claimed one; the window included. *)
Definition walletMatchesClaim (walletChallenge : WalletChallengeEnrollmentBinding)
    (claimId : string) (expected : PairExpectations) : result bool :=
  let w := wb_binding walletChallenge in let e := px_binding expected in
  and_then ((claimId === px_claimId expected) && (cb_ids w === cb_ids e)
            && (cb_account w === cb_account e) && (cb_chainId w =? cb_chainId e)
            && (cb_origin w === cb_origin e) && (cb_audience w === cb_audience e)
            && (cb_clientId w === cb_clientId e))
    (scopes ← digestsEqual (scope_obj (cb_scope w)) (scope_obj (cb_scope e));
     and_then (scopes && (wb_protocolProfile walletChallenge === px_walletProtocolProfile expected))
       (devices ← deviceBindingsEqual (cb_device w) (cb_device e);
        Ok (devices && (wb_walletPayloadDigest walletChallenge === px_walletPayloadDigest expected)
            && (cb_window w === cb_window e)))).

(** So is that of the possession challenge, whose window is the wallet's by
    [possessionChallengeMatchesWallet]. *)
Definition possessionMatchesClaim (possession : DevicePossessionChallenge)
    (wallet : WalletChallengeEnrollmentBinding) (expected : PairExpectations) : result bool :=
  let e := px_binding expected in
  and_then ((ei_possessionChallengeId (dp_ids possession) === ei_possessionChallengeId (cb_ids e))
            && (ei_enrollmentId (dp_ids possession) === ei_enrollmentId (cb_ids e))
            && (ei_accountId (dp_ids possession) === ei_accountId (cb_ids e))
            && (ei_deviceCredentialId (dp_ids possession) === ei_deviceCredentialId (cb_ids e))
            && (dp_account possession === cb_account e) && (dp_chainId possession =? cb_chainId e)
            && (dp_origin possession === cb_origin e) && (dp_audience possession === cb_audience e)
            && (dp_clientId possession === cb_clientId e))
    (scopes ← digestsEqual (scope_obj (dp_scope possession)) (scope_obj (cb_scope e));
     and_then (scopes && (dp_walletProtocolProfile possession === px_walletProtocolProfile expected))
       (devices ← deviceBindingsEqual (dp_device possession) (cb_device e);
        and_then devices (possessionChallengeMatchesWallet possession wallet))).

(** Both windows are open at the claim and now. *)
Definition outsideWindows (wallet possession : ChallengeWindow) (claimedAt now : string) : bool :=
  let claimedAtMs := instantMilliseconds claimedAt in
  let nowMs := instantMilliseconds now in
  let walletNotBeforeMs := instantMilliseconds (cw_notBefore wallet) in
  let possessionNotBeforeMs := instantMilliseconds (cw_notBefore possession) in
  let walletExpiresMs := instantMilliseconds (cw_expiresAt wallet) in
  let possessionExpiresMs := instantMilliseconds (cw_expiresAt possession) in
  (claimedAtMs <? instantMilliseconds (cw_issuedAt wallet))
  || (claimedAtMs <? instantMilliseconds (cw_issuedAt possession))
  || (claimedAtMs <? walletNotBeforeMs) || (claimedAtMs <? possessionNotBeforeMs)
  || (walletExpiresMs <=? claimedAtMs) || (possessionExpiresMs <=? claimedAtMs)
  || (nowMs <? claimedAtMs) || (nowMs <? walletNotBeforeMs) || (nowMs <? possessionNotBeforeMs)
  || (walletExpiresMs <=? nowMs) || (possessionExpiresMs <=? nowMs).

Definition parseClaimEnrollmentChallengePairResult (value : unknown) (expected : PairExpectations) :
  result ClaimEnrollmentChallengePairResult :=
  r ← expectObject value;
  let status := r.["status"] in
  if isString status "claimed" then
    record ← expectExactRecord value
      ["status"; "claimId"; "walletChallenge"; "possessionChallenge"; "claimedAt";
       "bothClaimsTerminalEvenIfVerificationFails"];
    refuse_if (negb (isTrue record.["bothClaimsTerminalEvenIfVerificationFails"]));;
    claimId ← parseAuthorityId record.["claimId"];
    walletChallenge ← parseWalletChallenge record.["walletChallenge"];
    possessionChallenge ← parseDevicePossessionChallenge record.["possessionChallenge"];
    walletBinding ← walletChallengeEnrollmentBinding walletChallenge;
    claimedAt ← parseCanonicalInstant record.["claimedAt"];
    wallet ← walletMatchesClaim walletBinding claimId expected;
    refuse_if (negb wallet);;
    possession ← possessionMatchesClaim possessionChallenge walletBinding expected;
    refuse_if (negb possession
               || outsideWindows (cb_window (wb_binding walletBinding)) (dp_window possessionChallenge)
                    claimedAt (px_now expected));;
    Ok (pair_claimed claimId walletChallenge possessionChallenge claimedAt)
  else if isString status "not-found" then
    expectExactRecord value ["status"];; Ok pair_not_found
  else if isString status "already-claimed-or-consumed" then
    expectExactRecord value ["status"];; Ok pair_already_claimed_or_consumed
  else if isString status "unavailable" then
    record ← expectExactRecord value ["status"; "reasonCode"];
    reasonCode ← parseLiteral record.["reasonCode"];
    Ok (pair_unavailable reasonCode)
  else invalid.

(** ** The request and its result *)

Definition parseDeviceEnrollmentRequest (value : unknown) (challenge : WalletChallenge)
    (possessionChallenge : DevicePossessionChallenge) : result DeviceEnrollmentRequest :=
  record ← expectExactRecord value
    ["kind"; "enrollmentId"; "accountId"; "deviceCredentialId"; "account"; "chainId";
     "walletChallengeId"; "possessionChallengeId"; "device"; "possessionProof"; "requestedAt";
     "displayLabel"];
  refuse_if (negb (isString record.["kind"] "device-enrollment-request.v1"));;
  enrollmentId ← parseEnrollmentId record.["enrollmentId"];
  accountId ← parseAccountId record.["accountId"];
  deviceCredentialId ← parseDeviceCredentialId record.["deviceCredentialId"];
  account ← parseAddress record.["account"];
  chainId ← parseJuiceboxV6ChainId record.["chainId"];
  walletChallengeId ← parseWalletChallengeId record.["walletChallengeId"];
  possessionChallengeId ← parsePossessionChallengeId record.["possessionChallengeId"];
  device ← parseDeviceKeyBinding record.["device"];
  let ids := {| ei_challengeId := walletChallengeId; ei_possessionChallengeId := possessionChallengeId;
                ei_enrollmentId := enrollmentId; ei_accountId := accountId;
                ei_deviceCredentialId := deviceCredentialId |} in
  wallet ← walletChallengeEnrollmentBinding challenge;
  let binding := wb_binding wallet in
  refuse_if ((cb_ids binding !== ids) || (cb_account binding !== account)
             || negb (cb_chainId binding =? chainId));;
  devices ← deviceBindingsEqual (cb_device binding) device;
  refuse_if (negb devices);;
  possessionProof ← parsePossessionProof record.["possessionProof"];
  matches_ ← possessionChallengeMatchesWallet possessionChallenge wallet;
  refuse_if (negb matches_
             || (ei_possessionChallengeId (dp_ids possessionChallenge) !== possessionChallengeId)
             || (pp_enrollmentId possessionProof !== enrollmentId)
             || (pp_possessionChallengeId possessionProof !== possessionChallengeId)
             || (pp_installationId possessionProof !== dk_installationId device)
             || (pp_challengeDigest possessionProof !== dp_challengeDigest possessionChallenge));;
  requestedAt ← parseCanonicalInstant record.["requestedAt"];
  displayLabel ← parseDisplayLabel record.["displayLabel"];
  Ok {| er_ids := ids; er_account := account; er_chainId := chainId; er_device := device;
        er_possessionProof := possessionProof; er_requestedAt := requestedAt;
        er_displayLabel := displayLabel |}.

Definition parseEnrolled (value : unknown) (expected : EnrollmentExpectations) :
  result DeviceEnrollmentResult :=
  let request := ee_request expected in
  record ← expectExactRecord value ["status"; "enrollmentId"; "credential"; "directoryEntry"];
  enrollmentId ← parseEnrollmentId record.["enrollmentId"];
  refuse_if (enrollmentId !== ei_enrollmentId (er_ids request));;
  possessionVerification ←
    parseDevicePossessionVerificationResult (ee_possessionVerification expected) request
      (ee_possessionChallenge expected) (ee_now expected);
  mlsKeyPackageVerification ←
    parseMlsKeyPackageSemanticVerificationResult (ee_mlsKeyPackageVerification expected)
      (er_device request) (ee_now expected);
  match possessionVerification, mlsKeyPackageVerification with
  | possession_verified possession, package_verified _ =>
      credential ← parseDeviceCredential record.["credential"]
        {| ce_enrollmentId := enrollmentId; ce_accountId := ei_accountId (er_ids request);
           ce_deviceCredentialId := ei_deviceCredentialId (er_ids request);
           ce_credentialAccount := er_account request; ce_credentialChainId := er_chainId request;
           ce_credentialDevice := er_device request;
           ce_walletVerificationEvidenceDigest := ee_walletVerificationEvidenceDigest expected;
           ce_possessionEvidenceDigest := pe_evidenceDigest possession;
           ce_signerKeyId := ee_credentialSignerKeyId expected; ce_now := ee_now expected;
           ce_signatureVerification := ee_credentialSignatureVerification expected |};
      directoryEntry ← parseDeviceDirectoryProofBundle record.["directoryEntry"]
        (dc_credentialId credential) (dc_credentialPayloadDigest credential);
      keyTransparencyVerification ←
        parseDeviceKeyTransparencyVerificationResult (ee_keyTransparencyVerification expected)
          directoryEntry (ee_now expected);
      match keyTransparencyVerification with
      | transparency_verified _ => Ok (enrolled enrollmentId credential directoryEntry)
      | _ => invalid
      end
  | _, _ => invalid
  end.

Definition parseDeviceEnrollmentResult (value : unknown) (expected : EnrollmentExpectations) :
  result DeviceEnrollmentResult :=
  r ← expectObject value;
  let status := r.["status"] in
  let request := ee_request expected in
  if isString status "enrolled" then parseEnrolled value expected
  else if isString status "invalid" || isString status "unavailable" then
    record ← expectExactRecord value ["status"; "enrollmentId"; "reasonCode"];
    enrollmentId ← parseEnrollmentId record.["enrollmentId"];
    refuse_if (enrollmentId !== ei_enrollmentId (er_ids request));;
    if isString status "invalid" then
      reasonCode ← parseLiteral record.["reasonCode"];
      Ok (enrollment_invalid enrollmentId reasonCode)
    else
      reasonCode ← parseLiteral record.["reasonCode"];
      Ok (enrollment_unavailable enrollmentId reasonCode)
  else invalid.

(** ** What the comparisons mean *)

#[local] Opaque sha256AuthorityDigest sha256AuthorityBase64Url.

(** Equal, unless two inputs of the hash collide. *)
Definition agree {A} (f : A → unknown) (a b : A) : Prop :=
  a = b ∨ collision [authorityPreimage (f a)] [authorityPreimage (f b)].

Lemma digestsEqual_Ok {A} (f : A → unknown) a b :
  (∀ x, dense (f x) = true) → (∀ x y, same_json (f x) (f y) → x = y) →
  digestsEqual (f a) (f b) = Ok true → agree f a b.
Proof.
  unfold digestsEqual. intros HD HI (s & Hs & (t & Ht & [= HE%bool_decide_eq_true])%bind_Ok)%bind_Ok. subst t.
  destruct (authorityDigest_inj _ _ _ (HD a) (HD b) Hs Ht) as [HS|HC]; [left; by apply HI|by right].
Qed.

Lemma scopes_agree s t : digestsEqual (scope_obj s) (scope_obj t) = Ok true → agree scope_obj s t.
Proof. apply (digestsEqual_Ok scope_obj); [apply scope_dense|apply scope_inj]. Qed.
Lemma devices_agree d e : deviceBindingsEqual d e = Ok true → agree device_obj d e.
Proof. apply (digestsEqual_Ok device_obj); [done|apply device_inj]. Qed.

Lemma and_then_Ok a b : and_then a b = Ok true → a = true ∧ b = Ok true.
Proof. by destruct a. Qed.

(** A possession challenge issued with a wallet challenge. *)
Record paired (p : DevicePossessionChallenge) (w : WalletChallengeEnrollmentBinding) : Prop := {
  pr_ids : dp_ids p = cb_ids (wb_binding w);
  pr_payload : dp_walletPayloadDigest p = wb_walletPayloadDigest w;
  pr_account : dp_account p = cb_account (wb_binding w);
  pr_chain : dp_chainId p = cb_chainId (wb_binding w);
  pr_origin : dp_origin p = cb_origin (wb_binding w);
  pr_audience : dp_audience p = cb_audience (wb_binding w);
  pr_client : dp_clientId p = cb_clientId (wb_binding w);
  pr_scopeDigest : dp_scopeDigest p = wb_scopeDigest w;
  pr_scope : agree scope_obj (dp_scope p) (cb_scope (wb_binding w));
  pr_profile : dp_walletProtocolProfile p = wb_protocolProfile w;
  pr_device : agree device_obj (dp_device p) (cb_device (wb_binding w));
  pr_window : dp_window p = cb_window (wb_binding w) }.

(** Splits [a && b = true] and reads comparisons of strings and records. *)
Ltac all_equal :=
  repeat match goal with
  | H : _ && _ = true |- _ => apply andb_true_iff in H as [? H]
  | H : (_ === _) = true |- _ => apply bool_decide_eq_true in H
  | H : (_ =? _) = true |- _ => apply Z.eqb_eq in H
  end.

Lemma matches_paired p w : possessionChallengeMatchesWallet p w = Ok true → paired p w.
Proof.
  unfold possessionChallengeMatchesWallet. cbv zeta.
  intros [H1 (s & HS & [H2 (d & HD & [= H3])%bind_Ok]%and_then_Ok)%bind_Ok]%and_then_Ok.
  apply andb_true_iff in H2 as [-> H2], H3 as [-> H3]. apply scopes_agree in HS. apply devices_agree in HD.
  all_equal. by constructor.
Qed.

(** ** What is signed by the installation key *)

Lemma dense_possession c : dense (possession_obj c) = true.
Proof.
  unfold possession_obj. rewrite dense_obj. cbn [forallb snd andb dense]. unfold possession_fields. rewrite dense_obj, forallb_app.
  cbn [forallb snd andb dense]. by rewrite scope_dense.
Qed.

(** All that a possession challenge says, apart from its digest. *)
Definition possession_terms (c : DevicePossessionChallenge) :=
  (dp_ids c, dp_nonce c, dp_walletPayloadDigest c, dp_account c, dp_chainId c, dp_origin c, dp_audience c,
   dp_clientId c, dp_scope c, dp_scopeDigest c, dp_walletProtocolProfile c, dp_device c, dp_window c).

Lemma possession_inj c c' : same_json (possession_obj c) (possession_obj c') → possession_terms c = possession_terms c'.
Proof.
  unfold possession_obj. intros HS. same_fields HS. unfold possession_fields, window_fields in HS1. cbn [app] in HS1.
  same_fields HS1.
  repeat match goal with
  | H : same_json (scope_obj _) (scope_obj _) |- _ => apply scope_inj in H
  | H : same_json (device_obj _) (device_obj _) |- _ => apply device_inj in H
  end.
  destruct c as [[] ? ? ? ? ? ? ? ? ? ? ? ? []], c' as [[] ? ? ? ? ? ? ? ? ? ? ? ? []].
  unfold possession_terms. cbn in *. by subst.
Qed.

(** What an accepted possession challenge has been checked for. *)
Record valid_possession (c : DevicePossessionChallenge) : Prop := {
  vp_window : valid_window (dp_window c);
  vp_device : valid_device (dp_device c);
  vp_scope : sha256AuthorityDigest (scope_obj (dp_scope c)) = Ok (dp_scopeDigest c);
  vp_digest : computeDevicePossessionChallengeDigest c = Ok (dp_challengeDigest c) }.

Lemma parsePossession_Ok v c : parseDevicePossessionChallenge v = Ok c → valid_possession c.
Proof.
  unfold parseDevicePossessionChallenge, instantMilliseconds, MAX_POSSESSION_CHALLENGE_LIFETIME_MS. cbv zeta.
  intros H1. inv_auth. subst c.
  repeat match goal with
  | H : parseCanonicalInstant _ = Ok _ |- _ => apply parseCanonicalInstant_Ok in H as [_ H]
  | H : parseDeviceKeyBinding _ = Ok _ |- _ => apply parseDevice_Ok in H
  end.
  bsimp. zbool. subst. constructor; [constructor; cbn; try done; lia|done..].
Qed.

(** The challenge an installation key signs determines everything it says, the
    wallet payload and every key of the device included: what the wallet message
    leaves unsaid is signed here. *)
Theorem possession_digest_binding v v' c c' :
  parseDevicePossessionChallenge v = Ok c → parseDevicePossessionChallenge v' = Ok c' →
  dp_challengeDigest c = dp_challengeDigest c' →
  c = c' ∨ collision [authorityPreimage (possession_obj c)] [authorityPreimage (possession_obj c')].
Proof.
  intros H1%parsePossession_Ok H2%parsePossession_Ok HE. pose proof (vp_digest _ H1) as D1. pose proof (vp_digest _ H2) as D2.
  rewrite <- HE in D2.
  destruct (authorityDigest_inj _ _ _ (dense_possession c) (dense_possession c') D1 D2) as [HS|HC]; [left|by right].
  apply possession_inj in HS. unfold possession_terms in HS. destruct c, c'. cbn in *. by simplify_eq.
Qed.

(** ** The claim of the pair *)

(** Both challenges of a claimed pair are the expected ones, and open. *)
Record claimed_pair (c : WalletChallenge) (w : WalletChallengeEnrollmentBinding)
    (p : DevicePossessionChallenge) (claimedAt : string) (e : PairExpectations) : Prop := {
  cp_paired : paired p w;
  cp_ids : cb_ids (wb_binding w) = cb_ids (px_binding e);
  cp_account : cb_account (wb_binding w) = cb_account (px_binding e);
  cp_chain : cb_chainId (wb_binding w) = cb_chainId (px_binding e);
  cp_origin : cb_origin (wb_binding w) = cb_origin (px_binding e);
  cp_audience : cb_audience (wb_binding w) = cb_audience (px_binding e);
  cp_client : cb_clientId (wb_binding w) = cb_clientId (px_binding e);
  cp_profile : wb_protocolProfile w = px_walletProtocolProfile e;
  cp_payload : wb_walletPayloadDigest w = px_walletPayloadDigest e;
  cp_signed : computeWalletChallengePayloadDigest c = Ok (px_walletPayloadDigest e);
  cp_window : cb_window (wb_binding w) = cb_window (px_binding e);
  cp_scope : agree scope_obj (cb_scope (wb_binding w)) (cb_scope (px_binding e));
  cp_device : agree device_obj (cb_device (wb_binding w)) (cb_device (px_binding e));
  cp_started : Date_parse (cw_issuedAt (dp_window p)) <= Date_parse (cw_notBefore (dp_window p))
               <= Date_parse claimedAt;
  cp_now : Date_parse claimedAt <= Date_parse (px_now e) < Date_parse (cw_expiresAt (dp_window p));
  cp_lifetime : Date_parse (cw_expiresAt (dp_window p)) <= Date_parse (cw_issuedAt (dp_window p)) + 300000 }.

Lemma walletBinding_Ok c w :
  walletChallengeEnrollmentBinding c = Ok w →
  challengeBinding c = Ok (wb_binding w) ∧ wb_protocolProfile w = challenge_kind c ∧
  sha256AuthorityDigest (scope_obj (cb_scope (wb_binding w))) = Ok (wb_scopeDigest w) ∧
  computeWalletChallengePayloadDigest c = Ok (wb_walletPayloadDigest w).
Proof.
  unfold walletChallengeEnrollmentBinding. generalize (computeWalletChallengePayloadDigest c). intros r H1. inv_auth. by subst.
Qed.

(** C20: A pair that is reported as claimed is the expected pair: one enrolment, one
    account, one device, one payload, both challenges open when claimed and now. *)
Theorem claim_binds_pair v e claimId c p claimedAt :
  parseClaimEnrollmentChallengePairResult v e = Ok (pair_claimed claimId c p claimedAt) →
  claimId = px_claimId e ∧ valid_challenge c ∧ valid_possession p ∧
  ∃ w, walletChallengeEnrollmentBinding c = Ok w ∧ claimed_pair c w p claimedAt e.
Proof.
  unfold parseClaimEnrollmentChallengePairResult. intros (r & _ & H1)%bind_Ok. cbv zeta in H1.
  destruct (isString _ "claimed"); [|destruct (isString _ "not-found"); [by inv_auth|]; destruct (isString _ "already-claimed-or-consumed");
    [by inv_auth|]; destruct (isString _ "unavailable"); by inv_auth].
  inv_auth. subst.
  match goal with H : walletChallengeEnrollmentBinding c = Ok ?x |- _ => rename H into HB, x into w end.
  match goal with H : parseDevicePossessionChallenge _ = Ok _ |- _ => apply parsePossession_Ok in H; rename H into HP end.
  match goal with H : parseWalletChallenge _ = Ok _ |- _ => apply parseWalletChallenge_Ok in H; rename H into HW end.
  match goal with H : walletMatchesClaim _ _ _ = Ok ?b, H' : negb ?b = false |- _ =>
    apply negb_false_iff in H'; rewrite H' in H; rename H into HM end.
  match goal with H : _ || outsideWindows _ _ _ _ = false |- _ => apply orb_false_iff in H as [HN HO] end.
  match goal with H : possessionMatchesClaim _ _ _ = Ok ?b, H' : negb ?b = false |- _ =>
    apply negb_false_iff in H'; rewrite H' in H; rename H into HQ end.
  destruct (walletBinding_Ok _ _ HB) as (_ & _ & _ & HD).
  unfold walletMatchesClaim in HM. cbv zeta in HM.
  apply and_then_Ok in HM as [M1 (s & HS & [M2 (d & HV & [= M3])%bind_Ok]%and_then_Ok)%bind_Ok].
  apply andb_true_iff in M2 as [-> M2]. apply andb_true_iff in M3 as [[-> M3]%andb_true_iff M4].
  apply scopes_agree in HS. apply devices_agree in HV.
  unfold possessionMatchesClaim in HQ. cbv zeta in HQ.
  apply and_then_Ok in HQ as [_ (s' & _ & [_ (d' & _ & [_ HX]%and_then_Ok)%bind_Ok]%and_then_Ok)%bind_Ok].
  apply matches_paired in HX. unfold outsideWindows, instantMilliseconds in HO. cbv zeta in HO. bsimp. all_equal. zbool.
  split; [done|]. split; [done|]. split; [done|]. exists w. split; [done|].
  destruct (vp_window _ HP). constructor; try done; [congruence|lia..].
Qed.

(** ** The request *)

(** A request answers one wallet challenge and its possession challenge. *)
Record requested (r : DeviceEnrollmentRequest) (w : WalletChallengeEnrollmentBinding)
    (p : DevicePossessionChallenge) : Prop := {
  rq_paired : paired p w;
  rq_ids : er_ids r = cb_ids (wb_binding w);
  rq_account : er_account r = cb_account (wb_binding w);
  rq_chain : er_chainId r = cb_chainId (wb_binding w);
  rq_device : agree device_obj (cb_device (wb_binding w)) (er_device r);
  rq_keys : valid_device (er_device r);
  rq_enrollment : pp_enrollmentId (er_possessionProof r) = ei_enrollmentId (er_ids r);
  rq_challenge : pp_possessionChallengeId (er_possessionProof r) = ei_possessionChallengeId (er_ids r);
  rq_installation : pp_installationId (er_possessionProof r) = dk_installationId (er_device r);
  rq_digest : pp_challengeDigest (er_possessionProof r) = dp_challengeDigest p }.

Lemma parseRequest_Ok v c p r :
  parseDeviceEnrollmentRequest v c p = Ok r →
  ∃ w, walletChallengeEnrollmentBinding c = Ok w ∧ requested r w p.
Proof.
  unfold parseDeviceEnrollmentRequest. cbv zeta. intros H1. inv_auth. subst r.
  match goal with H : walletChallengeEnrollmentBinding c = Ok ?x |- _ => rename H into HB, x into w end.
  match goal with H : deviceBindingsEqual _ _ = Ok ?b, H' : negb ?b = false |- _ =>
    apply negb_false_iff in H'; rewrite H' in H; apply devices_agree in H end.
  match goal with H : parseDeviceKeyBinding _ = Ok _ |- _ => apply parseDevice_Ok in H end.
  bsimp. match goal with H : possessionChallengeMatchesWallet _ _ = Ok ?b, H' : ?b = true |- _ =>
    rewrite H' in H; apply matches_paired in H end.
  zbool. exists w. split; [done|]. by constructor.
Qed.

(** ** The credential *)

(** A credential for one enrolment, live and signed by the expected key. *)
Record valid_credential (c : DeviceCredential) (e : CredentialExpectations)
    (s : CredentialSignatureEvidence) : Prop := {
  vc_credential : dc_credentialId c = ce_deviceCredentialId e;
  vc_enrollment : dc_enrollmentId c = ce_enrollmentId e;
  vc_accountId : dc_accountId c = ce_accountId e;
  vc_account : dc_account c = ce_credentialAccount e;
  vc_chain : dc_chainId c = ce_credentialChainId e;
  vc_device : agree device_obj (dc_device c) (ce_credentialDevice e);
  vc_wallet : dc_walletVerificationEvidenceDigest c = ce_walletVerificationEvidenceDigest e;
  vc_possession : dc_possessionEvidenceDigest c = ce_possessionEvidenceDigest e;
  vc_live : Date_parse (dc_issuedAt c) <= Date_parse (ce_now e) < Date_parse (dc_expiresAt c);
  vc_lifetime : Date_parse (dc_expiresAt c) <= Date_parse (dc_issuedAt c) + 2592000000;
  vc_signer : dc_credentialSignerKeyId c = ce_signerKeyId e;
  vc_payload : sha256AuthorityDigest (credential_obj c) = Ok (dc_credentialPayloadDigest c);
  vc_result : parseDeviceCredentialSignatureVerificationResult (ce_signatureVerification e)
              = Ok (credential_verified s);
  vc_signed : se_credentialId s = dc_credentialId c ∧ se_signerKeyId s = ce_signerKeyId e ∧
              se_payloadDigest s = dc_credentialPayloadDigest c ∧
              sha256AuthorityDigest (credential_signature_obj (dc_credentialSignature c))
                = Ok (se_signatureDigest s);
  vc_evidence : dc_signatureVerificationEvidenceId c = se_evidenceId s ∧
                dc_signatureVerificationEvidenceDigest c = se_evidenceDigest s;
  vc_verified : Date_parse (se_verifiedAt s) <= Date_parse (ce_now e) }.

Lemma parseCredential_Ok v e c : parseDeviceCredential v e = Ok c → ∃ s, valid_credential c e s.
Proof.
  unfold parseDeviceCredential, instantMilliseconds, MAX_DEVICE_CREDENTIAL_LIFETIME_MS. cbv zeta. intros H1. inv_auth.
  match goal with H : deviceBindingsEqual _ _ = Ok ?b, H' : negb ?b || _ || _ = false |- _ =>
    rewrite !orb_false_iff in H'; destruct H' as [[E%negb_false_iff ?] ?]; rewrite E in H; apply devices_agree in H end.
  match goal with H : match ?o with _ => _ end = Ok _ |- _ => destruct o as [s| |]; try discriminate H end.
  inv_auth. subst. bsimp. zbool. subst. exists s. constructor; try done; cbn; lia.
Qed.

(** ** The result *)

Record possession_proved (e : PossessionEvidence) (r : DeviceEnrollmentRequest)
    (p : DevicePossessionChallenge) (now : string) : Prop := {
  po_enrollment : pe_enrollmentId e = ei_enrollmentId (er_ids r);
  po_installation : pe_installationId e = dk_installationId (er_device r);
  po_challenge : pe_challengeDigest e = dp_challengeDigest p;
  po_proof : sha256AuthorityDigest (possession_proof_obj (er_possessionProof r)) = Ok (pe_proofDigest e);
  po_time : Date_parse (cw_notBefore (dp_window p)) <= Date_parse (pe_verifiedAt e)
            < Date_parse (cw_expiresAt (dp_window p));
  po_now : Date_parse (pe_verifiedAt e) <= Date_parse now }.

Lemma parsePossessionResult_Ok v r p now e :
  parseDevicePossessionVerificationResult v r p now = Ok (possession_verified e) → possession_proved e r p now.
Proof.
  unfold parseDevicePossessionVerificationResult. intros (o & _ & H1)%bind_Ok. cbv zeta in H1.
  destruct (isString _ "verified"); [|destruct (isString _ "invalid"); [by inv_auth|]; destruct (isString _ "unavailable"); by inv_auth].
  destruct (parsePossessionEvidence _ _ _ _) as [x|] eqn:E; [|done]. injection H1 as ->.
  unfold parsePossessionEvidence, instantMilliseconds in E. inv_auth. subst. bsimp. zbool. subst.
  constructor; try done; cbn; lia.
Qed.

(** The key package that was checked is the one of the device. *)
Definition packaged (k : KeyPackageEvidence) (d : DeviceKeyBinding) (now : string) : Prop :=
  ke_installationId k = dk_installationId d ∧
  ke_keyPackageRef k = kp_keyPackageRef (mk_initialKeyPackage (dk_mlsCredentialKey d)) ∧
  ke_credentialFingerprint k = mk_credentialFingerprint (dk_mlsCredentialKey d) ∧
  ke_keyPackageSha256 k = kp_sha256 (mk_initialKeyPackage (dk_mlsCredentialKey d)) ∧
  Date_parse (ke_verifiedAt k) <= Date_parse now
    < Date_parse (kp_expiresAt (mk_initialKeyPackage (dk_mlsCredentialKey d))).

Lemma parsePackageResult_Ok v d now e :
  parseMlsKeyPackageSemanticVerificationResult v d now = Ok (package_verified e) →
  packaged e d now.
Proof.
  unfold parseMlsKeyPackageSemanticVerificationResult. intros (o & _ & H1)%bind_Ok. cbv zeta in H1.
  destruct (isString _ "verified"); [|destruct (isString _ "invalid"); [by inv_auth|]; destruct (isString _ "unavailable"); by inv_auth].
  destruct (parseKeyPackageEvidence _ _ _) as [x|] eqn:E; [|done]. injection H1 as ->.
  unfold parseKeyPackageEvidence, instantMilliseconds in E. cbv zeta in E. inv_auth. subst. bsimp. zbool. subst.
  unfold packaged. cbn. split_and!; try done; lia.
Qed.

(** The three proofs of a directory entry are those the verifier checked. *)
Definition transparent (t : TransparencyEvidence) (b : DeviceDirectoryProofBundle) (now : string) : Prop :=
  te_entryId t = db_entryId b ∧ te_credentialId t = db_credentialId b ∧ te_checkpointId t = db_checkpointId b ∧
  Date_parse (te_verifiedAt t) <= Date_parse now ∧
  proofDigest "device-directory-inclusion-proof.v1" (db_inclusionProof b) = Ok (te_inclusionProofDigest t) ∧
  proofDigest "device-directory-consistency-proof.v1" (db_consistencyProof b) = Ok (te_consistencyProofDigest t) ∧
  proofDigest "device-directory-witness-receipt.v1" (db_witnessReceipt b) = Ok (te_witnessReceiptDigest t).

Lemma parseTransparency_Ok v b now t :
  parseDeviceKeyTransparencyVerificationResult v b now = Ok (transparency_verified t) →
  transparent t b now.
Proof.
  unfold parseDeviceKeyTransparencyVerificationResult. intros (o & _ & H1)%bind_Ok. cbv zeta in H1.
  destruct (isString _ "verified"); [|destruct (isString _ "invalid"); [by inv_auth|]; destruct (isString _ "unavailable"); by inv_auth].
  destruct (parseTransparencyEvidence _ _ _) as [x|] eqn:E; [|done]. injection H1 as ->.
  unfold parseTransparencyEvidence, instantMilliseconds in E. inv_auth. subst. bsimp. zbool. subst.
  unfold transparent. cbn. by split_and!.
Qed.

Lemma parseBundle_Ok v i d b :
  parseDeviceDirectoryProofBundle v i d = Ok b → db_credentialId b = i ∧ db_credentialPayloadDigest b = d.
Proof. unfold parseDeviceDirectoryProofBundle. intros H1. inv_auth. subst b. by bsimp. Qed.

(** A verdict of a verifier that says "verified". *)
Definition says_verified (verdict : unknown) : Prop :=
  ∃ r, expectObject verdict = Ok r ∧ isString r.["status"] "verified" = true.

#[local] Ltac verdict H1 :=
  apply bind_Ok in H1 as (r & HR & H1); cbv zeta in H1; exists r; split; [done|];
  destruct (isString _ "verified"); [done|];
  destruct (isString _ "invalid"); [by inv_auth|]; destruct (isString _ "unavailable"); by inv_auth.
Lemma credential_says v s :
  parseDeviceCredentialSignatureVerificationResult v = Ok (credential_verified s) → says_verified v.
Proof. unfold parseDeviceCredentialSignatureVerificationResult. intros H1. verdict H1. Qed.
Lemma possession_says v request p now o :
  parseDevicePossessionVerificationResult v request p now = Ok (possession_verified o) → says_verified v.
Proof. unfold parseDevicePossessionVerificationResult. intros H1. verdict H1. Qed.
Lemma package_says v d now k :
  parseMlsKeyPackageSemanticVerificationResult v d now = Ok (package_verified k) → says_verified v.
Proof. unfold parseMlsKeyPackageSemanticVerificationResult. intros H1. verdict H1. Qed.
Lemma transparency_says v b now t :
  parseDeviceKeyTransparencyVerificationResult v b now = Ok (transparency_verified t) → says_verified v.
Proof. unfold parseDeviceKeyTransparencyVerificationResult. intros H1. verdict H1. Qed.

(** The four verdicts an enrolment is decided under say "verified", and the
    evidence they carry: of the credential signature, of possession, of the key
    package and of the directory entry. *)
Record verdicts (e : EnrollmentExpectations) (b : DeviceDirectoryProofBundle)
    (s : CredentialSignatureEvidence) (o : PossessionEvidence) (k : KeyPackageEvidence)
    (t : TransparencyEvidence) : Prop := {
  ve_says : Forall says_verified [ee_credentialSignatureVerification e; ee_possessionVerification e;
                                  ee_mlsKeyPackageVerification e; ee_keyTransparencyVerification e];
  ve_signature : parseDeviceCredentialSignatureVerificationResult (ee_credentialSignatureVerification e)
                 = Ok (credential_verified s);
  ve_possession : parseDevicePossessionVerificationResult (ee_possessionVerification e) (ee_request e)
                    (ee_possessionChallenge e) (ee_now e) = Ok (possession_verified o);
  ve_package : parseMlsKeyPackageSemanticVerificationResult (ee_mlsKeyPackageVerification e)
                 (er_device (ee_request e)) (ee_now e) = Ok (package_verified k);
  ve_transparency : parseDeviceKeyTransparencyVerificationResult (ee_keyTransparencyVerification e) b (ee_now e)
                    = Ok (transparency_verified t) }.

(** Why a device is enrolled: [w] is what the wallet signed and [s], [o], [k] and
    [t] the evidence in the four verdicts. *)
Record enrolled_from (cred : DeviceCredential) (b : DeviceDirectoryProofBundle) (e : EnrollmentExpectations)
    (w : WalletChallengeEnrollmentBinding) (s : CredentialSignatureEvidence) (o : PossessionEvidence)
    (k : KeyPackageEvidence) (t : TransparencyEvidence) : Prop := {
  ef_request : requested (ee_request e) w (ee_possessionChallenge e);
  ef_verdicts : verdicts e b s o k t;
  ef_ids : dc_credentialId cred = ei_deviceCredentialId (cb_ids (wb_binding w)) ∧
           dc_enrollmentId cred = ei_enrollmentId (cb_ids (wb_binding w)) ∧
           dc_accountId cred = ei_accountId (cb_ids (wb_binding w));
  ef_account : dc_account cred = cb_account (wb_binding w) ∧ dc_chainId cred = cb_chainId (wb_binding w);
  ef_device : dc_device cred = cb_device (wb_binding w) ∨
    collision (map (λ d, authorityPreimage (device_obj d)) [dc_device cred; cb_device (wb_binding w)])
              [authorityPreimage (device_obj (er_device (ee_request e)))];
  ef_live : Date_parse (dc_issuedAt cred) <= Date_parse (ee_now e) < Date_parse (dc_expiresAt cred);
  ef_lifetime : Date_parse (dc_expiresAt cred) <= Date_parse (dc_issuedAt cred) + 2592000000;
  ef_payload : sha256AuthorityDigest (credential_obj cred) = Ok (dc_credentialPayloadDigest cred);
  ef_signer : dc_credentialSignerKeyId cred = ee_credentialSignerKeyId e;
  ef_signed : se_credentialId s = dc_credentialId cred ∧
              se_signerKeyId s = ee_credentialSignerKeyId e ∧
              se_payloadDigest s = dc_credentialPayloadDigest cred ∧
              sha256AuthorityDigest (credential_signature_obj (dc_credentialSignature cred))
                = Ok (se_signatureDigest s) ∧
              Date_parse (se_verifiedAt s) <= Date_parse (ee_now e);
  ef_evidence : dc_signatureVerificationEvidenceId cred = se_evidenceId s ∧
                dc_signatureVerificationEvidenceDigest cred = se_evidenceDigest s;
  ef_possession : possession_proved o (ee_request e) (ee_possessionChallenge e) (ee_now e) ∧
                  dc_possessionEvidenceDigest cred = pe_evidenceDigest o;
  ef_package : packaged k (er_device (ee_request e)) (ee_now e);
  ef_wallet : dc_walletVerificationEvidenceDigest cred = ee_walletVerificationEvidenceDigest e;
  ef_entry : db_credentialId b = dc_credentialId cred ∧
             db_credentialPayloadDigest b = dc_credentialPayloadDigest cred ∧ transparent t b (ee_now e) }.

Lemma parseEnrolled_Ok v e i cred b :
  parseDeviceEnrollmentResult v e = Ok (enrolled i cred b) →
  ∃ x s o k t, valid_credential cred x s ∧
    x = {| ce_enrollmentId := i; ce_accountId := ei_accountId (er_ids (ee_request e));
           ce_deviceCredentialId := ei_deviceCredentialId (er_ids (ee_request e));
           ce_credentialAccount := er_account (ee_request e); ce_credentialChainId := er_chainId (ee_request e);
           ce_credentialDevice := er_device (ee_request e);
           ce_walletVerificationEvidenceDigest := ee_walletVerificationEvidenceDigest e;
           ce_possessionEvidenceDigest := pe_evidenceDigest o;
           ce_signerKeyId := ee_credentialSignerKeyId e; ce_now := ee_now e;
           ce_signatureVerification := ee_credentialSignatureVerification e |} ∧
    i = ei_enrollmentId (er_ids (ee_request e)) ∧
    verdicts e b s o k t ∧
    (db_credentialId b = dc_credentialId cred ∧ db_credentialPayloadDigest b = dc_credentialPayloadDigest cred).
Proof.
  unfold parseDeviceEnrollmentResult. intros (r & _ & H1)%bind_Ok. cbv zeta in H1.
  destruct (isString _ "enrolled"); [|destruct (_ || _); [|done]; apply bind_Ok in H1 as (? & _ & (? & _ & (? & _ & H1)%bind_Ok)%bind_Ok);
    destruct (isString _ "invalid"); by inv_auth].
  unfold parseEnrolled in H1. cbv zeta in H1. inv_auth.
  match goal with H : match ?a with _ => _ end = Ok _ |- _ => destruct a as [o| |]; try discriminate H end.
  match goal with H : match ?a with _ => _ end = Ok _ |- _ => destruct a as [k| |]; try discriminate H end.
  inv_auth.
  match goal with H : match ?a with _ => _ end = Ok _ |- _ => destruct a as [t| |]; try discriminate H end.
  inv_auth. subst.
  match goal with H : parseDeviceCredential _ ?y = Ok _ |- _ => apply parseCredential_Ok in H as [s HC]; exists y end.
  match goal with H : parseDeviceDirectoryProofBundle _ _ _ = Ok _ |- _ => apply parseBundle_Ok in H end.
  bsimp. exists s, o, k, t. pose proof (vc_result _ _ _ HC) as HS. cbn in HS.
  repeat (split; [assumption || reflexivity|]). split; [|assumption]. constructor; try assumption.
  repeat constructor; eauto using credential_says, possession_says, package_says, transparency_says.
Qed.

(** C10: A device is enrolled only for what its wallet and its installation key
    signed, under four verdicts that say "verified": the credential names the
    enrolment, account, chain and device of the wallet challenge and is live for
    at most thirty days; one verdict vouches for its signature, by the expected
    key over its recomputed payload, and is the one the credential refers to; one
    for the possession proof of the request, while its challenge was open; one
    for the key package of the device, which has not expired; and one for the
    inclusion, consistency and witness proofs of the directory entry, which is
    about this credential. *)
Theorem enrolled_device v c p rv e i cred b :
  parseDeviceEnrollmentRequest rv c p = Ok (ee_request e) → ee_possessionChallenge e = p →
  parseDeviceEnrollmentResult v e = Ok (enrolled i cred b) →
  ∃ w s o k t, walletChallengeEnrollmentBinding c = Ok w ∧ enrolled_from cred b e w s o k t.
Proof.
  intros (w & HB & HR)%parseRequest_Ok HP (x & s & o & k & t & HC & Hx & HI & HV & [HE1 HE2])%parseEnrolled_Ok.
  subst p. destruct HC as [A1 A2 A3 A4 A5 A6 A7 A8 A9 A10 A11 A12 A13 A14 A15 A16].
  pose proof (parsePossessionResult_Ok _ _ _ _ _ (ve_possession _ _ _ _ _ _ HV)) as HO.
  rewrite Hx in *. cbn [ce_enrollmentId ce_accountId ce_deviceCredentialId ce_credentialAccount ce_credentialChainId
    ce_credentialDevice ce_walletVerificationEvidenceDigest ce_possessionEvidenceDigest ce_signerKeyId ce_now] in *.
  rewrite (rq_ids _ _ _ HR) in *. exists w, s, o, k, t. split; [done|].
  constructor; try done.
  - split_and!; [done|congruence|done].
  - split; [rewrite A4; apply HR|rewrite A5; apply HR].
  - destruct A6 as [HD|HD]; [destruct (rq_device _ _ _ HR) as [HW|HW]; [left; congruence|right]|right];
      (eapply collision_mono; [| |exact HD]) || (eapply collision_mono; [| |exact HW]); intros y Hy; try done;
      apply list_elem_of_singleton in Hy as ->; [right; left|left].
  - tauto.
  - exact (parsePackageResult_Ok _ _ _ _ (ve_package _ _ _ _ _ _ HV)).
  - split_and!; [done|done|]. exact (parseTransparency_Ok _ _ _ _ (ve_transparency _ _ _ _ _ _ HV)).
Qed.
End Devices.

(** ** Examples *)

Module DeviceSamples.
Import AuthorityChallenges.ChallengeSamples.
#[local] Existing Instance checksum_digest.
#[local] Existing Instance deployment_urls.

Definition wallet : WalletChallenge := siwe february.
Definition keys : DeviceKeyBinding := sc_device february.
Definition payloadDigest : string := ok_or "" (computeWalletChallengePayloadDigest wallet).

Definition possession_of (challengeDigest : string) : DevicePossessionChallenge :=
  {| dp_ids := ids; dp_nonce := byte_text 24 (byte_of_Z 7); dp_walletPayloadDigest := payloadDigest;
     dp_account := account; dp_chainId := 8453; dp_origin := origin; dp_audience := origin;
     dp_clientId := "web"; dp_scope := scope;
     dp_scopeDigest := ok_or "" (sha256AuthorityDigest (scope_obj scope));
     dp_walletProtocolProfile := SIWE_ENROLLMENT_PROFILE; dp_device := keys;
     dp_challengeDigest := challengeDigest; dp_window := window |}.
Definition possession : DevicePossessionChallenge :=
  possession_of (ok_or "" (computeDevicePossessionChallengeDigest (possession_of ""))).
Definition possession_value : unknown :=
  obj (possession_fields possession ++ [("challengeDigest", VString (dp_challengeDigest possession))]).

Lemma possession_parsed : parseDevicePossessionChallenge possession_value = Ok possession.
Proof. vm_compute. reflexivity. Defined.

Lemma possession_digest_binding_witness :
  (parseDevicePossessionChallenge possession_value = Ok possession) ∧
  (possession = possession ∨
   collision [authorityPreimage (possession_obj possession)] [authorityPreimage (possession_obj possession)]).
Proof.
  split; [exact possession_parsed|].
  exact (possession_digest_binding _ _ _ _ possession_parsed possession_parsed eq_refl).
Defined.

(** *** The claim *)

Definition pair_expectations (now : string) : PairExpectations :=
  {| px_binding :=
       {| cb_ids := ids; cb_account := account; cb_chainId := 8453; cb_origin := origin;
          cb_audience := origin; cb_clientId := "web"; cb_scope := scope; cb_device := keys;
          cb_window := window |};
     px_walletProtocolProfile := SIWE_ENROLLMENT_PROFILE; px_walletPayloadDigest := payloadDigest;
     px_claimId := "claim"; px_now := now |}.
Definition claimed : unknown :=
  obj [("status", VString "claimed"); ("claimId", VString "claim"); ("walletChallenge", siwe_obj february);
       ("possessionChallenge", possession_value); ("claimedAt", VString "2026-01-01T00:01:00.000Z");
       ("bothClaimsTerminalEvenIfVerificationFails", VBool true)].

Lemma claim_binds_pair_witness :
  (parseClaimEnrollmentChallengePairResult claimed (pair_expectations "2026-01-01T00:05:00.000Z") = invalid) ∧
  ∃ w, walletChallengeEnrollmentBinding wallet = Ok w ∧
       claimed_pair wallet w possession "2026-01-01T00:01:00.000Z" (pair_expectations "2026-01-01T00:02:00.000Z").
Proof.
  split; [vm_compute; reflexivity|].
  refine (proj2 (proj2 (proj2 (claim_binds_pair claimed (pair_expectations "2026-01-01T00:02:00.000Z") "claim" _ _ _ _)))).
  vm_compute. reflexivity.
Defined.

(** *** The enrolment *)

Definition proof : DevicePossessionProof :=
  {| pp_enrollmentId := ei_enrollmentId ids; pp_possessionChallengeId := ei_possessionChallengeId ids;
     pp_installationId := dk_installationId keys; pp_challengeDigest := dp_challengeDigest possession;
     pp_signature := byte_text 64 (byte_of_Z 8) |}.
Definition request : DeviceEnrollmentRequest :=
  {| er_ids := ids; er_account := account; er_chainId := 8453; er_device := keys; er_possessionProof := proof;
     er_requestedAt := "2026-01-01T00:01:00.000Z"; er_displayLabel := "Work laptop" |}.
Definition request_value : unknown :=
  obj [("kind", VString "device-enrollment-request.v1"); ("enrollmentId", VString (ei_enrollmentId ids));
       ("accountId", VString (ei_accountId ids)); ("deviceCredentialId", VString (ei_deviceCredentialId ids));
       ("account", VString account); ("chainId", VInt 8453);
       ("walletChallengeId", VString (ei_challengeId ids));
       ("possessionChallengeId", VString (ei_possessionChallengeId ids)); ("device", device_obj keys);
       ("possessionProof", proof_obj proof); ("requestedAt", VString "2026-01-01T00:01:00.000Z");
       ("displayLabel", VString "Work laptop")].

Definition evidence_digest (c : ascii) : string := sample_hex 64 c.
Definition possession_evidence : unknown :=
  obj [("status", VString "verified"); ("enrollmentId", VString (ei_enrollmentId ids));
       ("walletChallengeId", VString (ei_challengeId ids));
       ("possessionChallengeId", VString (ei_possessionChallengeId ids));
       ("installationId", VString (dk_installationId keys));
       ("deviceCredentialId", VString (ei_deviceCredentialId ids));
       ("challengeDigest", VString (dp_challengeDigest possession));
       ("proofDigest", VString (ok_or "" (sha256AuthorityDigest (possession_proof_obj proof))));
       ("evidenceId", VString "possession"); ("evidenceDigest", VString (evidence_digest "1"));
       ("verifiedAt", VString "2026-01-01T00:02:00.000Z")].
Definition package_evidence : unknown :=
  let k := mk_initialKeyPackage (dk_mlsCredentialKey keys) in
  obj [("status", VString "verified"); ("installationId", VString (dk_installationId keys));
       ("ciphersuite", VString MLS_CIPHERSUITE);
       ("credentialFingerprint", VString (mk_credentialFingerprint (dk_mlsCredentialKey keys)));
       ("keyPackageKind", VString ORDINARY_KEY_PACKAGE); ("keyPackageRef", VString (kp_keyPackageRef k));
       ("keyPackageSha256", VString (kp_sha256 k)); ("keyPackageExpiresAt", VString (kp_expiresAt k));
       ("signatureVerified", VBool true); ("credentialAndInitKeyMatched", VBool true);
       ("lastResort", VBool false); ("evidenceId", VString "package");
       ("evidenceDigest", VString (evidence_digest "2")); ("verifiedAt", VString "2026-01-01T00:02:00.000Z")].

Definition credential_of (payload : string) : DeviceCredential :=
  {| dc_credentialId := ei_deviceCredentialId ids; dc_enrollmentId := ei_enrollmentId ids;
     dc_accountId := ei_accountId ids; dc_account := account; dc_chainId := 8453; dc_device := keys;
     dc_walletVerificationEvidenceDigest := evidence_digest "3"; dc_possessionEvidenceDigest := evidence_digest "1";
     dc_issuedAt := "2026-01-01T00:02:00.000Z"; dc_expiresAt := "2026-01-20T00:00:00.000Z";
     dc_revocationVersion := "0"; dc_credentialSignerKeyId := "signer"; dc_credentialPayloadDigest := payload;
     dc_credentialSignature := byte_text 64 (byte_of_Z 9); dc_signatureVerificationEvidenceId := "signature";
     dc_signatureVerificationEvidenceDigest := evidence_digest "4" |}.
Definition credential : DeviceCredential :=
  credential_of (ok_or "" (sha256AuthorityDigest (credential_obj (credential_of "")))).
Definition credential_value : unknown :=
  obj (credential_fields credential ++
       [("credentialPayloadDigest", VString (dc_credentialPayloadDigest credential));
        ("credentialSignature", VString (dc_credentialSignature credential));
        ("signatureVerificationEvidenceId", VString "signature");
        ("signatureVerificationEvidenceDigest", VString (evidence_digest "4"))]).
Definition signature_evidence : unknown :=
  obj [("status", VString "verified"); ("credentialId", VString (dc_credentialId credential));
       ("signerKeyId", VString "signer"); ("payloadDigest", VString (dc_credentialPayloadDigest credential));
       ("signatureDigest",
        VString (ok_or "" (sha256AuthorityDigest (credential_signature_obj (dc_credentialSignature credential)))));
       ("evidenceId", VString "signature"); ("evidenceDigest", VString (evidence_digest "4"));
       ("verifiedAt", VString "2026-01-01T00:02:30.000Z")].

Definition bundle : DeviceDirectoryProofBundle :=
  {| db_entryId := "entry"; db_credentialId := dc_credentialId credential;
     db_credentialPayloadDigest := dc_credentialPayloadDigest credential; db_checkpointId := "checkpoint";
     db_inclusionProof := byte_text 8 (byte_of_Z 10); db_consistencyProof := byte_text 8 (byte_of_Z 11);
     db_witnessReceipt := byte_text 8 (byte_of_Z 12) |}.
Definition bundle_value : unknown :=
  obj [("kind", VString "device-directory-proof-bundle.v1"); ("entryId", VString "entry");
       ("credentialId", VString (db_credentialId bundle));
       ("credentialPayloadDigest", VString (db_credentialPayloadDigest bundle));
       ("checkpointId", VString "checkpoint"); ("inclusionProof", VString (db_inclusionProof bundle));
       ("consistencyProof", VString (db_consistencyProof bundle));
       ("witnessReceipt", VString (db_witnessReceipt bundle))].
Definition transparency_evidence : unknown :=
  let d kind proof := VString (ok_or "" (proofDigest kind proof)) in
  obj [("status", VString "verified"); ("entryId", VString "entry");
       ("credentialId", VString (db_credentialId bundle)); ("checkpointId", VString "checkpoint");
       ("inclusionProofDigest", d "device-directory-inclusion-proof.v1" (db_inclusionProof bundle));
       ("consistencyProofDigest", d "device-directory-consistency-proof.v1" (db_consistencyProof bundle));
       ("witnessReceiptDigest", d "device-directory-witness-receipt.v1" (db_witnessReceipt bundle));
       ("evidenceId", VString "transparency"); ("evidenceDigest", VString (evidence_digest "5"));
       ("verifiedAt", VString "2026-01-01T00:02:30.000Z")].

Definition enrollment (now : string) : EnrollmentExpectations :=
  {| ee_request := request; ee_possessionChallenge := possession;
     ee_walletVerificationEvidenceDigest := evidence_digest "3"; ee_possessionVerification := possession_evidence;
     ee_mlsKeyPackageVerification := package_evidence; ee_keyTransparencyVerification := transparency_evidence;
     ee_credentialSignerKeyId := "signer"; ee_now := now; ee_credentialSignatureVerification := signature_evidence |}.
Definition enrolled_value : unknown :=
  obj [("status", VString "enrolled"); ("enrollmentId", VString (ei_enrollmentId ids));
       ("credential", credential_value); ("directoryEntry", bundle_value)].

Lemma enrolled_device_witness :
  (parseDeviceEnrollmentResult enrolled_value (enrollment "2026-01-20T00:00:00.000Z") = invalid) ∧
  ∃ w s o k t, walletChallengeEnrollmentBinding wallet = Ok w ∧
    enrolled_from credential bundle (enrollment "2026-01-01T00:03:00.000Z") w s o k t.
Proof.
  split; [vm_compute; reflexivity|].
  refine (enrolled_device enrolled_value wallet possession request_value (enrollment "2026-01-01T00:03:00.000Z")
    (ei_enrollmentId ids) credential bundle _ eq_refl _); vm_compute; reflexivity.
Defined.
End DeviceSamples.
