(* ===== verification/AuthorityPurchases.v ===== *)
(** * Purchase evidence ([src/production/authority/purchases.ts])

    What a finalized receipt says about a purchase: the claim the server issues,
    the deployment it trusts, the Pay, hook and Mint logs with the call trace
    that ties them together, and the results of the chain verifier.  The refund
    ledger of the same file is in [AuthorityRefunds]. *)

From stdpp Require Import base list strings.
From Stdlib Require Import ZArith Lia Ascii.
From S2P Require Import Prelude Sha256 Base64Url JsTime JsValue ValueObjects Quota CanonicalJson AuthorityValues AuthorityFinality AuthorityDigests AuthorityGenerations.

(** Of [JUICEBOX_V6_EVENT_TOPICS] the topics that evidence is read from. *)
Definition TOPIC_pay : string :=
  "0x133161f1c9161488f777ab9a26aae91d47c0d9a3fafb398960f138db02c73797".
Definition TOPIC_hookAfterRecordPay : string :=
  "0xb1ed2cd5f80d2005b57f16c4c1a1c8ee500b96725924cad83e44f32f05f400c0".
Definition TOPIC_tierMint : string :=
  "0x598baf7bf150ca2f42be9e9f8f55e81d45f5715c3ff22bf46d697fabec7f31d6".

Inductive IneligiblePurchase :=
| receipt_failed | receipt_or_log_not_found | wrong_event_or_emitter | beneficiary_mismatch
| project_or_ruleset_mismatch | terminal_not_canonical | tier_hook_not_canonical
| mint_not_payment_mint | ambiguous_log_correlation | canonical_evidence_orphaned.
#[export] Instance IneligiblePurchase_literal : Literal IneligiblePurchase := {|
  lit r := match r with
           | receipt_failed => "receipt-failed" | receipt_or_log_not_found => "receipt-or-log-not-found"
           | wrong_event_or_emitter => "wrong-event-or-emitter"
           | beneficiary_mismatch => "beneficiary-mismatch"
           | project_or_ruleset_mismatch => "project-or-ruleset-mismatch"
           | terminal_not_canonical => "terminal-not-canonical"
           | tier_hook_not_canonical => "tier-hook-not-canonical"
           | mint_not_payment_mint => "mint-not-payment-mint"
           | ambiguous_log_correlation => "ambiguous-log-correlation"
           | canonical_evidence_orphaned => "canonical-evidence-orphaned" end;
  lits := [receipt_failed; receipt_or_log_not_found; wrong_event_or_emitter; beneficiary_mismatch;
           project_or_ruleset_mismatch; terminal_not_canonical; tier_hook_not_canonical;
           mint_not_payment_mint; ambiguous_log_correlation; canonical_evidence_orphaned] |}.

Inductive UnavailablePurchase :=
| purchase_not_configured | purchase_rpc_unavailable | purchase_archive_unavailable
| deployment_allowlist_unavailable | malformed_chain_response.
#[export] Instance UnavailablePurchase_literal : Literal UnavailablePurchase := {|
  lit r := match r with
           | purchase_not_configured => "not-configured" | purchase_rpc_unavailable => "rpc-unavailable"
           | purchase_archive_unavailable => "archive-state-unavailable"
           | deployment_allowlist_unavailable => "deployment-allowlist-unavailable"
           | malformed_chain_response => "malformed-chain-response" end;
  lits := [purchase_not_configured; purchase_rpc_unavailable; purchase_archive_unavailable;
           deployment_allowlist_unavailable; malformed_chain_response] |}.

(** ** Data *)

(** Kinds, the receipt status, the fixed attributions and the flags of a trace
    are constants.  Lists of indices may have holes ([None]), which the code
    lets through; JSON has none. *)
Definition indices := list (option Z).

Record CanonicalReceiptProof := {
  rc_receiptEvidenceId : string; rc_chainId : Z; rc_transactionHash : string;
  rc_transactionIndex : Z; rc_block : FinalizedBlockAnchor; rc_receiptDigest : string;
  rc_finalityPolicyId : string; rc_deploymentManifestId : string; rc_adapterRevision : string;
  rc_canonicalityCheckedAt : string }.

Record CanonicalLogRef := {
  lg_receiptEvidenceId : string; lg_transactionHash : string; lg_blockHash : string;
  lg_logIndex : Z; lg_emitter : string; lg_topic0 : string; lg_abiDigest : string;
  lg_adapterRevision : string; lg_topicsDigest : string; lg_dataDigest : string }.

Record CanonicalPayLog := {
  py_log : CanonicalLogRef; py_project : JuiceboxV6ProjectRef; py_rulesetId : string;
  py_rulesetCycleNumber : string; py_payer : string; py_beneficiary : string; py_amount : string;
  py_newlyIssuedTokenCount : string; py_memoDigest : string; py_metadataDigest : string;
  py_caller : string }.

Record TokenAmountContext := {
  ta_token : string; ta_decimals : Z; ta_currency : string; ta_value : string }.

Record CanonicalHookAfterRecordPayLog := {
  hk_log : CanonicalLogRef; hk_hook : string; hk_project : JuiceboxV6ProjectRef;
  hk_rulesetId : string; hk_payer : string; hk_beneficiary : string; hk_amount : TokenAmountContext;
  hk_newlyIssuedTokenCount : string; hk_contextDigest : string; hk_specificationAmount : string;
  hk_caller : string }.

Record CanonicalTierMintLog := {
  mt_log : CanonicalLogRef; mt_tokenId : string; mt_tierId : string; mt_beneficiary : string;
  mt_totalAmountPaid : string; mt_caller : string }.

Record CanonicalTerminalEvidence := {
  tm_evidenceId : string; tm_project : JuiceboxV6ProjectRef; tm_terminal : string;
  tm_implementationCodeHash : string; tm_deploymentManifestId : string; tm_block : FinalizedBlockAnchor }.

Record CanonicalTierHookEvidence := {
  th_evidenceId : string; th_project : JuiceboxV6ProjectRef; th_hook : string;
  th_implementationCodeHash : string; th_deploymentManifestId : string; th_projectIdResult : Z;
  th_block : FinalizedBlockAnchor }.

Record CanonicalTraceFrameBinding := {
  tf_traceAddress : indices; tf_parentTraceAddress : option indices; tf_depth : Z; tf_from : string;
  tf_to : string; tf_relevantEmittedLogIndices : indices }.

Record CanonicalTierTraceCorrelationEvidence := {
  co_evidenceId : string; co_receiptEvidenceId : string; co_transactionHash : string;
  co_blockHash : string; co_adapterRevision : string; co_traceDigest : string;
  co_relevantLogInventoryDigest : string; co_receiptLogCount : Z; co_traceFrameCount : Z;
  co_allRelevantPayLogIndices : indices; co_allRelevantHookAfterRecordPayLogIndices : indices;
  co_allRelevantTierMintLogIndices : indices; co_terminalFrame : CanonicalTraceFrameBinding;
  co_tierHookFrame : CanonicalTraceFrameBinding }.

(** What [parsePurchaseCommon] returns. *)
Record PurchaseCommon := {
  pc_evidenceId : string; pc_receipt : CanonicalReceiptProof; pc_pay : CanonicalPayLog;
  pc_terminal : CanonicalTerminalEvidence; pc_project : JuiceboxV6ProjectRef;
  pc_customerAccount : string }.
Record TierPurchase := {
  tp_afterPayHook : CanonicalHookAfterRecordPayLog; tp_mints : list (option CanonicalTierMintLog);
  tp_tierHook : CanonicalTierHookEvidence;
  tp_correlationEvidence : CanonicalTierTraceCorrelationEvidence }.
(** Payment evidence has no tier part. *)
Record CanonicalPurchaseEvidence := {
  pu_claimId : string; pu_common : PurchaseCommon; pu_tier : option TierPurchase;
  pu_evidenceDigest : string }.

Record ClaimBase := {
  cl_claimId : string; cl_project : JuiceboxV6ProjectRef; cl_transactionHash : string;
  cl_payLogIndex : Z; cl_expectedBeneficiary : string }.
Inductive CanonicalPurchaseClaim :=
| payment_claim (base : ClaimBase)
| tier_claim (base : ClaimBase) (afterPayHookLogIndex : Z) (mintLogIndices : indices).
Definition claim_base (c : CanonicalPurchaseClaim) : ClaimBase :=
  match c with payment_claim b | tier_claim b _ _ => b end.

Record DeployedContract := { ct_address : string; ct_implementationCodeHash : string }.
Record CanonicalPurchaseDeploymentExpectation := {
  de_deploymentManifestId : string; de_projectsContract : string; de_adapterRevision : string;
  de_payAbi : string; de_hookAfterRecordPayAbi : string; de_tierMintAbi : string;
  de_terminal : DeployedContract; de_tierHook : option DeployedContract }.
Record CanonicalPurchaseVerificationExpectation := {
  pv_claim : CanonicalPurchaseClaim; pv_deployment : CanonicalPurchaseDeploymentExpectation;
  pv_now : string }.

Inductive ClaimBoundCanonicalPurchaseVerificationResult :=
| purchase_verified (claimId : string) (evidence : CanonicalPurchaseEvidence)
| purchase_ineligible (claimId : string) (reasonCode : IneligiblePurchase)
| purchase_pending_finality (claimId : string)
| purchase_unavailable (claimId : string) (reasonCode : UnavailablePurchase).

(** ** As values *)

Definition indices_obj (l : indices) : unknown := VArray ArrayPrototype (map (option_map VInt) l) 0.

Definition log_obj (l : CanonicalLogRef) : unknown :=
  obj [("receiptEvidenceId", VString (lg_receiptEvidenceId l));
       ("transactionHash", VString (lg_transactionHash l)); ("blockHash", VString (lg_blockHash l));
       ("logIndex", VInt (lg_logIndex l)); ("emitter", VString (lg_emitter l));
       ("topic0", VString (lg_topic0 l)); ("abiDigest", VString (lg_abiDigest l));
       ("adapterRevision", VString (lg_adapterRevision l));
       ("topicsDigest", VString (lg_topicsDigest l)); ("dataDigest", VString (lg_dataDigest l));
       ("removed", VBool false)].
Definition receipt_obj (r : CanonicalReceiptProof) : unknown :=
  obj [("kind", VString "canonical-finalized-receipt.v1");
       ("receiptEvidenceId", VString (rc_receiptEvidenceId r)); ("chainId", VInt (rc_chainId r));
       ("transactionHash", VString (rc_transactionHash r));
       ("transactionIndex", VInt (rc_transactionIndex r)); ("block", anchor_obj (rc_block r));
       ("status", VInt 1); ("receiptDigest", VString (rc_receiptDigest r));
       ("finalityPolicyId", VString (rc_finalityPolicyId r));
       ("deploymentManifestId", VString (rc_deploymentManifestId r));
       ("adapterRevision", VString (rc_adapterRevision r));
       ("canonicalityCheckedAt", VString (rc_canonicalityCheckedAt r))].
Definition pay_obj (p : CanonicalPayLog) : unknown :=
  obj [("kind", VString "juicebox-v6-pay-log.v1"); ("log", log_obj (py_log p));
       ("project", project_obj (py_project p)); ("rulesetId", VString (py_rulesetId p));
       ("rulesetCycleNumber", VString (py_rulesetCycleNumber p)); ("payer", VString (py_payer p));
       ("beneficiary", VString (py_beneficiary p)); ("amount", VString (py_amount p));
       ("newlyIssuedTokenCount", VString (py_newlyIssuedTokenCount p));
       ("memoDigest", VString (py_memoDigest p)); ("metadataDigest", VString (py_metadataDigest p));
       ("caller", VString (py_caller p));
       ("accountingContext", VString "not-contained-in-pay-event")].
Definition amount_obj (a : TokenAmountContext) : unknown :=
  obj [("token", VString (ta_token a)); ("decimals", VInt (ta_decimals a));
       ("currency", VString (ta_currency a)); ("value", VString (ta_value a))].
Definition hook_obj (h : CanonicalHookAfterRecordPayLog) : unknown :=
  obj [("kind", VString "juicebox-v6-hook-after-record-pay-log.v1"); ("log", log_obj (hk_log h));
       ("hook", VString (hk_hook h)); ("project", project_obj (hk_project h));
       ("rulesetId", VString (hk_rulesetId h)); ("payer", VString (hk_payer h));
       ("beneficiary", VString (hk_beneficiary h)); ("amount", amount_obj (hk_amount h));
       ("newlyIssuedTokenCount", VString (hk_newlyIssuedTokenCount h));
       ("contextDigest", VString (hk_contextDigest h));
       ("specificationAmount", VString (hk_specificationAmount h)); ("caller", VString (hk_caller h))].
Definition mint_obj (m : CanonicalTierMintLog) : unknown :=
  obj [("kind", VString "juicebox-v6-721-tier-mint-log.v1"); ("log", log_obj (mt_log m));
       ("tokenId", VString (mt_tokenId m)); ("tierId", VString (mt_tierId m));
       ("beneficiary", VString (mt_beneficiary m));
       ("totalAmountPaid", VString (mt_totalAmountPaid m)); ("caller", VString (mt_caller m));
       ("comparisonToPayAmount", VString "not-used-for-correlation")].
Definition terminal_obj (t : CanonicalTerminalEvidence) : unknown :=
  obj [("kind", VString "canonical-v6-terminal-at-block.v1"); ("evidenceId", VString (tm_evidenceId t));
       ("project", project_obj (tm_project t)); ("terminal", VString (tm_terminal t));
       ("implementationCodeHash", VString (tm_implementationCodeHash t));
       ("deploymentManifestId", VString (tm_deploymentManifestId t));
       ("isTerminalOfProject", VBool true); ("block", anchor_obj (tm_block t))].
Definition tierHook_obj (t : CanonicalTierHookEvidence) : unknown :=
  obj [("kind", VString "canonical-v6-721-hook-at-block.v1"); ("evidenceId", VString (th_evidenceId t));
       ("project", project_obj (th_project t)); ("hook", VString (th_hook t));
       ("implementationCodeHash", VString (th_implementationCodeHash t));
       ("deploymentManifestId", VString (th_deploymentManifestId t));
       ("projectIdResult", VInt (th_projectIdResult t)); ("block", anchor_obj (th_block t))].
Definition frame_obj (f : CanonicalTraceFrameBinding) : unknown :=
  obj [("traceAddress", indices_obj (tf_traceAddress f));
       ("parentTraceAddress", nullable indices_obj (tf_parentTraceAddress f));
       ("depth", VInt (tf_depth f)); ("from", VString (tf_from f)); ("to", VString (tf_to f));
       ("callType", VString "call"); ("success", VBool true);
       ("relevantEmittedLogIndices", indices_obj (tf_relevantEmittedLogIndices f))].
Definition correlation_obj (c : CanonicalTierTraceCorrelationEvidence) : unknown :=
  obj [("kind", VString "canonical-exclusive-receipt-call-trace-correlation.v1");
       ("evidenceId", VString (co_evidenceId c));
       ("receiptEvidenceId", VString (co_receiptEvidenceId c));
       ("transactionHash", VString (co_transactionHash c)); ("blockHash", VString (co_blockHash c));
       ("adapterRevision", VString (co_adapterRevision c)); ("traceDigest", VString (co_traceDigest c));
       ("relevantLogInventoryDigest", VString (co_relevantLogInventoryDigest c));
       ("receiptLogCount", VInt (co_receiptLogCount c)); ("traceFrameCount", VInt (co_traceFrameCount c));
       ("inventoryScope", VString "entire-receipt-expected-emitters"); ("traceComplete", VBool true);
       ("traceTruncated", VBool false);
       ("allRelevantPayLogIndices", indices_obj (co_allRelevantPayLogIndices c));
       ("allRelevantHookAfterRecordPayLogIndices",
        indices_obj (co_allRelevantHookAfterRecordPayLogIndices c));
       ("allRelevantTierMintLogIndices", indices_obj (co_allRelevantTierMintLogIndices c));
       ("terminalFrame", frame_obj (co_terminalFrame c)); ("tierHookFrame", frame_obj (co_tierHookFrame c))].

Definition claim_fields (b : ClaimBase) : list (string * unknown) :=
  [("claimId", VString (cl_claimId b)); ("project", project_obj (cl_project b));
   ("transactionHash", VString (cl_transactionHash b)); ("payLogIndex", VInt (cl_payLogIndex b));
   ("expectedBeneficiary", VString (cl_expectedBeneficiary b));
   ("customerSubjectSource", VString "pay-beneficiary")].
Definition claim_obj (c : CanonicalPurchaseClaim) : unknown :=
  match c with
  | payment_claim b => obj (("kind", VString "juicebox-v6-payment-beneficiary-claim.v1") :: claim_fields b)
  | tier_claim b afterPay mints =>
      obj (("kind", VString "juicebox-v6-tier-purchase-claim.v1") :: claim_fields b
           ++ [("afterPayHookLogIndex", VInt afterPay); ("mintLogIndices", indices_obj mints)])
  end.
Definition contract_obj (c : DeployedContract) : unknown :=
  obj [("address", VString (ct_address c));
       ("implementationCodeHash", VString (ct_implementationCodeHash c))].
Definition deployment_obj (d : CanonicalPurchaseDeploymentExpectation) : unknown :=
  obj [("deploymentManifestId", VString (de_deploymentManifestId d));
       ("projectsContract", VString (de_projectsContract d));
       ("adapterRevision", VString (de_adapterRevision d));
       ("abiDigests", obj [("pay", VString (de_payAbi d));
                           ("hookAfterRecordPay", VString (de_hookAfterRecordPayAbi d));
                           ("tierMint", VString (de_tierMintAbi d))]);
       ("terminal", contract_obj (de_terminal d)); ("tierHook", nullable contract_obj (de_tierHook d))].
Definition expectation_obj (e : CanonicalPurchaseVerificationExpectation) : unknown :=
  obj [("claim", claim_obj (pv_claim e)); ("deployment", deployment_obj (pv_deployment e));
       ("now", VString (pv_now e))].

(** The evidence that is digested; its digest comes after. *)
Definition common_fields (claimId : string) (c : PurchaseCommon) : list (string * unknown) :=
  [("claimId", VString claimId); ("evidenceId", VString (pc_evidenceId c));
   ("receipt", receipt_obj (pc_receipt c)); ("pay", pay_obj (pc_pay c));
   ("terminal", terminal_obj (pc_terminal c)); ("project", project_obj (pc_project c));
   ("customerAccount", VString (pc_customerAccount c));
   ("customerSubjectSource", VString "pay-beneficiary"); ("payerAttribution", VString "not-evaluated");
   ("transactionSenderAttribution", VString "never-inferred");
   ("callerAttribution", VString "never-inferred"); ("refundStatus", VString "not-evaluated")].
Definition evidence_obj (claimId : string) (c : PurchaseCommon) (t : option TierPurchase) : unknown :=
  match t with
  | None => obj (("kind", VString "juicebox-v6-payment-beneficiary-evidence.v1") :: common_fields claimId c)
  | Some t =>
      obj ([("kind", VString "juicebox-v6-tier-purchase-evidence.v1");
            ("afterPayHook", hook_obj (tp_afterPayHook t));
            ("mints", VArray ArrayPrototype (map (option_map mint_obj) (tp_mints t)) 0);
            ("tierHook", tierHook_obj (tp_tierHook t));
            ("correlationEvidence", correlation_obj (tp_correlationEvidence t))] ++ common_fields claimId c)
  end.

(** ** Lists of indices *)

(** [new Set(xs).size !== xs.length] *)
Definition hasDuplicateIndices (xs : indices) : bool := negb (bool_decide (NoDup xs)).
(** [[...xs].sort((a, b) => a - b).some((item, index) => item !== xs[index])]:
    [undefined] (a hole) last. *)
Definition sortIndices (xs : indices) : indices :=
  map Some (sort_by Z.leb (omap id xs)) ++ List.filter (λ o, negb (bool_decide (is_Some o))) xs.
Definition isUnsortedIndices (xs : indices) : bool := sortIndices xs !== xs.
(** [xs.some(p)]: holes are skipped. *)
Definition some_ {A} (p : A → bool) (xs : list (option A)) : bool := existsb p (omap id xs).
(** [left.length === right.length && left.every((item, i) => item === right[i])] *)
Definition sameNumberList (left right : indices) : bool :=
  Nat.eqb (length left) (length right)
  && forallb (λ '(l, r), match l with None => true | Some _ => l === r end) (zip left right).
(** [xs.slice(0, -1)] *)
Definition sliceInit (xs : indices) : indices := take (length xs - 1) xs.

Definition parseTraceAddress (value : unknown) : result indices :=
  match value with
  | VArray _ elems _ => refuse_if (64 <? Z.of_nat (length elems));; mapArray parseLogIndex elems
  | _ => invalid
  end.

Definition parseCanonicalIndexList (value : unknown) (minimumLength maximumLength : Z) : result indices :=
  match value with
  | VArray _ elems _ =>
      let length := Z.of_nat (length elems) in
      refuse_if ((length <? minimumLength) || (maximumLength <? length));;
      indices ← mapArray parseLogIndex elems;
      refuse_if (hasDuplicateIndices indices || isUnsortedIndices indices);;
      Ok indices
  | _ => invalid
  end.

Definition parseBoundedCount (value : unknown) (minimum maximum : Z) : result Z :=
  match value with
  | VNumber (NInt z) =>
      refuse_if (negb (isSafeInteger (NInt z)) || (z <? minimum) || (maximum <? z));; Ok z
  | _ => invalid
  end.

(** [!==] of a number and a parsed one. *)
Definition differs (value : unknown) (z : Z) : bool :=
  match value with VNumber (NInt n) => negb (n =? z) | _ => true end.

(** ** The claim and what it is checked against *)

Definition CLAIM_FIELDS : list string :=
  ["kind"; "claimId"; "project"; "transactionHash"; "payLogIndex"; "expectedBeneficiary";
   "customerSubjectSource"].

Definition parseClaimBase (record : record) (payLogIndex : Z) : result ClaimBase :=
  claimId ← parseAuthorityId record.["claimId"];
  project ← parseJuiceboxV6ProjectRef record.["project"];
  transactionHash ← parseHash32 record.["transactionHash"];
  expectedBeneficiary ← parseAddress record.["expectedBeneficiary"];
  Ok {| cl_claimId := claimId; cl_project := project; cl_transactionHash := transactionHash;
        cl_payLogIndex := payLogIndex; cl_expectedBeneficiary := expectedBeneficiary |}.

Definition parseMintLogIndices (value : unknown) : result indices :=
  match value with
  | VArray _ elems _ =>
      refuse_if ((Z.of_nat (length elems) <? 1) || (256 <? Z.of_nat (length elems)));;
      mapArray parseLogIndex elems
  | _ => invalid
  end.

Definition parseCanonicalPurchaseClaim (value : unknown) : result CanonicalPurchaseClaim :=
  r ← expectObject value;
  let kind := r.["kind"] in
  if isString kind "juicebox-v6-payment-beneficiary-claim.v1" then
    record ← expectExactRecord value CLAIM_FIELDS;
    refuse_if (negb (isString record.["customerSubjectSource"] "pay-beneficiary"));;
    payLogIndex ← parseLogIndex record.["payLogIndex"];
    base ← parseClaimBase record payLogIndex;
    Ok (payment_claim base)
  else if isString kind "juicebox-v6-tier-purchase-claim.v1" then
    record ← expectExactRecord value (CLAIM_FIELDS ++ ["afterPayHookLogIndex"; "mintLogIndices"]);
    refuse_if (negb (isString record.["customerSubjectSource"] "pay-beneficiary"));;
    mintLogIndices ← parseMintLogIndices record.["mintLogIndices"];
    payLogIndex ← parseLogIndex record.["payLogIndex"];
    afterPayHookLogIndex ← parseLogIndex record.["afterPayHookLogIndex"];
    let allIndices := Some payLogIndex :: Some afterPayHookLogIndex :: mintLogIndices in
    refuse_if (hasDuplicateIndices allIndices || isUnsortedIndices mintLogIndices
               || some_ (λ index, (index <=? payLogIndex) || (afterPayHookLogIndex <=? index))
                    mintLogIndices);;
    base ← parseClaimBase record payLogIndex;
    Ok (tier_claim base afterPayHookLogIndex mintLogIndices)
  else invalid.

Definition parseDeployedContract (value : unknown) : result DeployedContract :=
  record ← expectExactRecord value ["address"; "implementationCodeHash"];
  address ← parseAddress record.["address"];
  implementationCodeHash ← parseHash32 record.["implementationCodeHash"];
  Ok {| ct_address := address; ct_implementationCodeHash := implementationCodeHash |}.

Definition parseCanonicalPurchaseVerificationExpectation (value : unknown) :
  result CanonicalPurchaseVerificationExpectation :=
  record ← expectExactRecord value ["claim"; "deployment"; "now"];
  claim ← parseCanonicalPurchaseClaim record.["claim"];
  deploymentRecord ← expectExactRecord record.["deployment"]
    ["deploymentManifestId"; "projectsContract"; "adapterRevision"; "abiDigests"; "terminal"; "tierHook"];
  abiRecord ← expectExactRecord deploymentRecord.["abiDigests"] ["pay"; "hookAfterRecordPay"; "tierMint"];
  terminal ← parseDeployedContract deploymentRecord.["terminal"];
  tierHook ← parseNullable parseDeployedContract deploymentRecord.["tierHook"];
  deploymentManifestId ← parseAuthorityId deploymentRecord.["deploymentManifestId"];
  projectsContract ← parseAddress deploymentRecord.["projectsContract"];
  adapterRevision ← parseAuthorityId deploymentRecord.["adapterRevision"];
  payAbi ← parseHash32 abiRecord.["pay"];
  hookAfterRecordPayAbi ← parseHash32 abiRecord.["hookAfterRecordPay"];
  tierMintAbi ← parseHash32 abiRecord.["tierMint"];
  let project := cl_project (claim_base claim) in
  refuse_if ((deploymentManifestId !== j_deploymentManifestId project)
             || (projectsContract !== j_projectsContract project));;
  refuse_if match claim, tierHook with
            | payment_claim _, Some _ | tier_claim _ _ _, None => true
            | _, _ => false
            end;;
  now ← parseCanonicalInstant record.["now"];
  Ok {| pv_claim := claim;
        pv_deployment :=
          {| de_deploymentManifestId := deploymentManifestId; de_projectsContract := projectsContract;
             de_adapterRevision := adapterRevision; de_payAbi := payAbi;
             de_hookAfterRecordPayAbi := hookAfterRecordPayAbi; de_tierMintAbi := tierMintAbi;
             de_terminal := terminal; de_tierHook := tierHook |};
        pv_now := now |}.

Definition assertExpectationMatchesPolicy (expected : CanonicalPurchaseVerificationExpectation)
    (policy : FinalityPolicy) : result unit :=
  refuse_if (negb (j_chainId (cl_project (claim_base (pv_claim expected))) =? fp_chainId policy)).

(** ** Receipt and logs *)

Definition parseCanonicalReceiptProof (value : unknown) (policy : FinalityPolicy)
    (expectedDeployment : CanonicalPurchaseDeploymentExpectation) (now : string) :
  result CanonicalReceiptProof :=
  record ← expectExactRecord value
    ["kind"; "receiptEvidenceId"; "chainId"; "transactionHash"; "transactionIndex"; "block"; "status";
     "receiptDigest"; "finalityPolicyId"; "deploymentManifestId"; "adapterRevision";
     "canonicalityCheckedAt"];
  refuse_if (negb (isString record.["kind"] "canonical-finalized-receipt.v1")
             || differs record.["status"] 1);;
  chainId ← parseJuiceboxV6ChainId record.["chainId"];
  refuse_if (negb (chainId =? fp_chainId policy)
             || negb (isString record.["finalityPolicyId"] (fp_policyId policy))
             || negb (isString record.["deploymentManifestId"] (de_deploymentManifestId expectedDeployment))
             || negb (isString record.["adapterRevision"] (de_adapterRevision expectedDeployment)));;
  block ← parseFinalizedBlockAnchor record.["block"] policy now;
  canonicalityCheckedAt ← parseCanonicalInstant record.["canonicalityCheckedAt"];
  refuse_if ((instantMilliseconds canonicalityCheckedAt <? instantMilliseconds (ab_finalizedAt block))
             || (instantMilliseconds now <? instantMilliseconds canonicalityCheckedAt));;
  receiptEvidenceId ← parseAuthorityId record.["receiptEvidenceId"];
  transactionHash ← parseHash32 record.["transactionHash"];
  transactionIndex ← parseLogIndex record.["transactionIndex"];
  receiptDigest ← parseHash32 record.["receiptDigest"];
  finalityPolicyId ← parseAuthorityId record.["finalityPolicyId"];
  deploymentManifestId ← parseAuthorityId record.["deploymentManifestId"];
  adapterRevision ← parseAuthorityId record.["adapterRevision"];
  Ok {| rc_receiptEvidenceId := receiptEvidenceId; rc_chainId := chainId;
        rc_transactionHash := transactionHash; rc_transactionIndex := transactionIndex;
        rc_block := block; rc_receiptDigest := receiptDigest; rc_finalityPolicyId := finalityPolicyId;
        rc_deploymentManifestId := deploymentManifestId; rc_adapterRevision := adapterRevision;
        rc_canonicalityCheckedAt := canonicalityCheckedAt |}.

Definition expectManifestId (value : unknown) (receipt : CanonicalReceiptProof) : result string :=
  manifestId ← parseAuthorityId value;
  refuse_if (manifestId !== rc_deploymentManifestId receipt);;
  Ok manifestId.
Definition expectAdapterRevision (value : unknown) (receipt : CanonicalReceiptProof) : result string :=
  adapterRevision ← parseAuthorityId value;
  refuse_if (adapterRevision !== rc_adapterRevision receipt);;
  Ok adapterRevision.

Definition parseLogRef (value : unknown) (receipt : CanonicalReceiptProof)
    (expectedTopic0 expectedAbiDigest : string) : result CanonicalLogRef :=
  record ← expectExactRecord value
    ["receiptEvidenceId"; "transactionHash"; "blockHash"; "logIndex"; "emitter"; "topic0"; "abiDigest";
     "adapterRevision"; "topicsDigest"; "dataDigest"; "removed"];
  refuse_if (negb (isFalse record.["removed"]));;
  receiptEvidenceId ← parseAuthorityId record.["receiptEvidenceId"];
  transactionHash ← parseHash32 record.["transactionHash"];
  blockHash ← parseHash32 record.["blockHash"];
  topic0 ← parseHash32 record.["topic0"];
  abiDigest ← parseHash32 record.["abiDigest"];
  refuse_if ((receiptEvidenceId !== rc_receiptEvidenceId receipt)
             || (transactionHash !== rc_transactionHash receipt)
             || (blockHash !== ab_blockHash (rc_block receipt))
             || (topic0 !== expectedTopic0) || (abiDigest !== expectedAbiDigest));;
  logIndex ← parseLogIndex record.["logIndex"];
  emitter ← parseAddress record.["emitter"];
  adapterRevision ← expectAdapterRevision record.["adapterRevision"] receipt;
  topicsDigest ← parseHash32 record.["topicsDigest"];
  dataDigest ← parseHash32 record.["dataDigest"];
  Ok {| lg_receiptEvidenceId := receiptEvidenceId; lg_transactionHash := transactionHash;
        lg_blockHash := blockHash; lg_logIndex := logIndex; lg_emitter := emitter; lg_topic0 := topic0;
        lg_abiDigest := abiDigest; lg_adapterRevision := adapterRevision;
        lg_topicsDigest := topicsDigest; lg_dataDigest := dataDigest |}.

Definition parsePay (value : unknown) (receipt : CanonicalReceiptProof)
    (expectedDeployment : CanonicalPurchaseDeploymentExpectation) : result CanonicalPayLog :=
  record ← expectExactRecord value
    ["kind"; "log"; "project"; "rulesetId"; "rulesetCycleNumber"; "payer"; "beneficiary"; "amount";
     "newlyIssuedTokenCount"; "memoDigest"; "metadataDigest"; "caller"; "accountingContext"];
  refuse_if (negb (isString record.["kind"] "juicebox-v6-pay-log.v1")
             || negb (isString record.["accountingContext"] "not-contained-in-pay-event"));;
  project ← parseJuiceboxV6ProjectRef record.["project"];
  refuse_if (negb (j_chainId project =? rc_chainId receipt));;
  log ← parseLogRef record.["log"] receipt TOPIC_pay (de_payAbi expectedDeployment);
  rulesetId ← parseUint256Decimal record.["rulesetId"];
  rulesetCycleNumber ← parseUint256Decimal record.["rulesetCycleNumber"];
  payer ← parseAddress record.["payer"];
  beneficiary ← parseAddress record.["beneficiary"];
  amount ← parseUint256Decimal record.["amount"];
  newlyIssuedTokenCount ← parseUint256Decimal record.["newlyIssuedTokenCount"];
  memoDigest ← parseHash32 record.["memoDigest"];
  metadataDigest ← parseHash32 record.["metadataDigest"];
  caller ← parseAddress record.["caller"];
  Ok {| py_log := log; py_project := project; py_rulesetId := rulesetId;
        py_rulesetCycleNumber := rulesetCycleNumber; py_payer := payer; py_beneficiary := beneficiary;
        py_amount := amount; py_newlyIssuedTokenCount := newlyIssuedTokenCount;
        py_memoDigest := memoDigest; py_metadataDigest := metadataDigest; py_caller := caller |}.

(** A negative zero, which the code takes for the zero it prints, is no value
    of the model. *)
Definition parseTokenAmount (value : unknown) : result TokenAmountContext :=
  record ← expectExactRecord value ["token"; "decimals"; "currency"; "value"];
  decimals ← match record.["decimals"] with
             | VNumber (NInt z) => refuse_if ((z <? 0) || (255 <? z));; Ok z
             | _ => invalid
             end;
  currency ← parseUint256Decimal record.["currency"];
  refuse_if (4294967295 <? BigInt currency);;
  token ← parseAddress record.["token"];
  value ← parseUint256Decimal record.["value"];
  Ok {| ta_token := token; ta_decimals := decimals; ta_currency := currency; ta_value := value |}.

Definition parseHookAfterPay (value : unknown) (receipt : CanonicalReceiptProof)
    (expectedDeployment : CanonicalPurchaseDeploymentExpectation) :
  result CanonicalHookAfterRecordPayLog :=
  record ← expectExactRecord value
    ["kind"; "log"; "hook"; "project"; "rulesetId"; "payer"; "beneficiary"; "amount";
     "newlyIssuedTokenCount"; "contextDigest"; "specificationAmount"; "caller"];
  refuse_if (negb (isString record.["kind"] "juicebox-v6-hook-after-record-pay-log.v1"));;
  project ← parseJuiceboxV6ProjectRef record.["project"];
  refuse_if (negb (j_chainId project =? rc_chainId receipt));;
  log ← parseLogRef record.["log"] receipt TOPIC_hookAfterRecordPay
          (de_hookAfterRecordPayAbi expectedDeployment);
  hook ← parseAddress record.["hook"];
  rulesetId ← parseUint256Decimal record.["rulesetId"];
  payer ← parseAddress record.["payer"];
  beneficiary ← parseAddress record.["beneficiary"];
  amount ← parseTokenAmount record.["amount"];
  newlyIssuedTokenCount ← parseUint256Decimal record.["newlyIssuedTokenCount"];
  contextDigest ← parseHash32 record.["contextDigest"];
  specificationAmount ← parseUint256Decimal record.["specificationAmount"];
  caller ← parseAddress record.["caller"];
  Ok {| hk_log := log; hk_hook := hook; hk_project := project; hk_rulesetId := rulesetId;
        hk_payer := payer; hk_beneficiary := beneficiary; hk_amount := amount;
        hk_newlyIssuedTokenCount := newlyIssuedTokenCount; hk_contextDigest := contextDigest;
        hk_specificationAmount := specificationAmount; hk_caller := caller |}.

Definition parseMint (receipt : CanonicalReceiptProof) (expectedHook expectedTerminal : string)
    (expectedDeployment : CanonicalPurchaseDeploymentExpectation) (item : unknown) :
  result CanonicalTierMintLog :=
  record ← expectExactRecord item
    ["kind"; "log"; "tokenId"; "tierId"; "beneficiary"; "totalAmountPaid"; "caller";
     "comparisonToPayAmount"];
  refuse_if (negb (isString record.["kind"] "juicebox-v6-721-tier-mint-log.v1")
             || negb (isString record.["comparisonToPayAmount"] "not-used-for-correlation"));;
  log ← parseLogRef record.["log"] receipt TOPIC_tierMint (de_tierMintAbi expectedDeployment);
  refuse_if (lg_emitter log !== expectedHook);;
  caller ← parseAddress record.["caller"];
  refuse_if (caller !== expectedTerminal);;
  tokenId ← parseUint256Decimal record.["tokenId"];
  tierId ← parseUint256Decimal record.["tierId"];
  beneficiary ← parseAddress record.["beneficiary"];
  totalAmountPaid ← parseUint256Decimal record.["totalAmountPaid"];
  Ok {| mt_log := log; mt_tokenId := tokenId; mt_tierId := tierId; mt_beneficiary := beneficiary;
        mt_totalAmountPaid := totalAmountPaid; mt_caller := caller |}.

Definition parseMints (value : unknown) (receipt : CanonicalReceiptProof)
    (expectedHook expectedTerminal : string)
    (expectedDeployment : CanonicalPurchaseDeploymentExpectation) :
  result (list (option CanonicalTierMintLog)) :=
  match value with
  | VArray _ elems _ =>
      refuse_if ((Z.of_nat (length elems) <? 1) || (256 <? Z.of_nat (length elems)));;
      mapArray (parseMint receipt expectedHook expectedTerminal expectedDeployment) elems
  | _ => invalid
  end.

(** ** Historical relationships *)

Definition assertProjectAndBlock (evidenceProject project : JuiceboxV6ProjectRef)
    (block : FinalizedBlockAnchor) (receipt : CanonicalReceiptProof) : result unit :=
  refuse_if (negb (sameJuiceboxV6ProjectRef evidenceProject project)
             || (ab_blockHash block !== ab_blockHash (rc_block receipt))
             || (ab_blockNumber block !== ab_blockNumber (rc_block receipt))).

Definition parseTerminal (value : unknown) (project : JuiceboxV6ProjectRef)
    (receipt : CanonicalReceiptProof) (policy : FinalityPolicy)
    (expectedDeployment : CanonicalPurchaseDeploymentExpectation) (now : string) :
  result CanonicalTerminalEvidence :=
  record ← expectExactRecord value
    ["kind"; "evidenceId"; "project"; "terminal"; "implementationCodeHash"; "deploymentManifestId";
     "isTerminalOfProject"; "block"];
  refuse_if (negb (isString record.["kind"] "canonical-v6-terminal-at-block.v1")
             || negb (isTrue record.["isTerminalOfProject"]));;
  evidenceProject ← parseJuiceboxV6ProjectRef record.["project"];
  block ← parseFinalizedBlockAnchor record.["block"] policy now;
  assertProjectAndBlock evidenceProject project block receipt;;
  terminal ← parseAddress record.["terminal"];
  implementationCodeHash ← parseHash32 record.["implementationCodeHash"];
  refuse_if ((terminal !== ct_address (de_terminal expectedDeployment))
             || (implementationCodeHash
                 !== ct_implementationCodeHash (de_terminal expectedDeployment)));;
  evidenceId ← parseAuthorityId record.["evidenceId"];
  deploymentManifestId ← expectManifestId record.["deploymentManifestId"] receipt;
  Ok {| tm_evidenceId := evidenceId; tm_project := evidenceProject; tm_terminal := terminal;
        tm_implementationCodeHash := implementationCodeHash;
        tm_deploymentManifestId := deploymentManifestId; tm_block := block |}.

Definition parseTierHook (value : unknown) (project : JuiceboxV6ProjectRef)
    (receipt : CanonicalReceiptProof) (policy : FinalityPolicy)
    (expectedDeployment : CanonicalPurchaseDeploymentExpectation) (now : string) :
  result CanonicalTierHookEvidence :=
  record ← expectExactRecord value
    ["kind"; "evidenceId"; "project"; "hook"; "implementationCodeHash"; "deploymentManifestId";
     "projectIdResult"; "block"];
  refuse_if (negb (isString record.["kind"] "canonical-v6-721-hook-at-block.v1"));;
  evidenceProject ← parseJuiceboxV6ProjectRef record.["project"];
  block ← parseFinalizedBlockAnchor record.["block"] policy now;
  assertProjectAndBlock evidenceProject project block receipt;;
  refuse_if (differs record.["projectIdResult"] (j_projectId project));;
  match de_tierHook expectedDeployment with
  | None => invalid
  | Some expectedHook =>
      hook ← parseAddress record.["hook"];
      implementationCodeHash ← parseHash32 record.["implementationCodeHash"];
      refuse_if ((hook !== ct_address expectedHook)
                 || (implementationCodeHash !== ct_implementationCodeHash expectedHook));;
      evidenceId ← parseAuthorityId record.["evidenceId"];
      deploymentManifestId ← expectManifestId record.["deploymentManifestId"] receipt;
      Ok {| th_evidenceId := evidenceId; th_project := evidenceProject; th_hook := hook;
            th_implementationCodeHash := implementationCodeHash;
            th_deploymentManifestId := deploymentManifestId;
            th_projectIdResult := j_projectId project; th_block := block |}
  end.

(** ** The call trace *)

Definition badAncestry (traceAddress : indices) (parentTraceAddress : option indices) (depth : Z) : bool :=
  negb (depth =? Z.of_nat (length traceAddress))
  || ((depth =? 0) && (parentTraceAddress !== None))
  || ((0 <? depth)
      && match parentTraceAddress with
         | None => true
         | Some parent => negb (sameNumberList parent (sliceInit traceAddress))
         end).

Definition parseTraceFrameBinding (value : unknown) : result CanonicalTraceFrameBinding :=
  record ← expectExactRecord value
    ["traceAddress"; "parentTraceAddress"; "depth"; "from"; "to"; "callType"; "success";
     "relevantEmittedLogIndices"];
  refuse_if (negb (isString record.["callType"] "call") || negb (isTrue record.["success"]));;
  traceAddress ← parseTraceAddress record.["traceAddress"];
  parentTraceAddress ← parseNullable parseTraceAddress record.["parentTraceAddress"];
  depth ← parseBoundedCount record.["depth"] 0 64;
  refuse_if (badAncestry traceAddress parentTraceAddress depth);;
  relevantEmittedLogIndices ← parseCanonicalIndexList record.["relevantEmittedLogIndices"] 1 258;
  from ← parseAddress record.["from"];
  to ← parseAddress record.["to"];
  Ok {| tf_traceAddress := traceAddress; tf_parentTraceAddress := parentTraceAddress; tf_depth := depth;
        tf_from := from; tf_to := to; tf_relevantEmittedLogIndices := relevantEmittedLogIndices |}.

Definition mintIndicesOf (mints : list (option CanonicalTierMintLog)) : indices :=
  map (option_map (λ mint, lg_logIndex (mt_log mint))) mints.

(** [xs[0]] *)
Definition first (xs : indices) : option Z := match xs with o :: _ => o | [] => None end.

Definition detachedTerminalFrame (frame : CanonicalTraceFrameBinding) (terminal : CanonicalTerminalEvidence)
    (pay : CanonicalPayLog) (afterPayHook : CanonicalHookAfterRecordPayLog) : bool :=
  (tf_to frame !== tm_terminal terminal) || (tf_from frame !== py_caller pay)
  || negb (sameNumberList (tf_relevantEmittedLogIndices frame)
             [Some (lg_logIndex (py_log pay)); Some (lg_logIndex (hk_log afterPayHook))]).

Definition detachedHookFrame (frame terminalFrame : CanonicalTraceFrameBinding)
    (terminal : CanonicalTerminalEvidence) (tierHook : CanonicalTierHookEvidence) (mintIndices : indices) :
  bool :=
  (tf_from frame !== tm_terminal terminal) || (tf_to frame !== th_hook tierHook)
  || negb (sameNumberList (tf_relevantEmittedLogIndices frame) mintIndices)
  || negb (sameNumberList (default [] (tf_parentTraceAddress frame)) (tf_traceAddress terminalFrame))
  || negb (Nat.eqb (length (tf_traceAddress frame)) (length (tf_traceAddress terminalFrame) + 1))
  || negb (sameNumberList (sliceInit (tf_traceAddress frame)) (tf_traceAddress terminalFrame)).

Definition parseTierCorrelationEvidence (value : unknown) (receipt : CanonicalReceiptProof)
    (pay : CanonicalPayLog) (afterPayHook : CanonicalHookAfterRecordPayLog)
    (mints : list (option CanonicalTierMintLog)) (terminal : CanonicalTerminalEvidence)
    (tierHook : CanonicalTierHookEvidence) (expectedDeployment : CanonicalPurchaseDeploymentExpectation) :
  result CanonicalTierTraceCorrelationEvidence :=
  record ← expectExactRecord value
    ["kind"; "evidenceId"; "receiptEvidenceId"; "transactionHash"; "blockHash"; "adapterRevision";
     "traceDigest"; "relevantLogInventoryDigest"; "receiptLogCount"; "traceFrameCount";
     "inventoryScope"; "traceComplete"; "traceTruncated"; "allRelevantPayLogIndices";
     "allRelevantHookAfterRecordPayLogIndices"; "allRelevantTierMintLogIndices"; "terminalFrame";
     "tierHookFrame"];
  refuse_if (negb (isString record.["kind"] "canonical-exclusive-receipt-call-trace-correlation.v1")
             || negb (isString record.["inventoryScope"] "entire-receipt-expected-emitters")
             || negb (isTrue record.["traceComplete"]) || negb (isFalse record.["traceTruncated"]));;
  receiptEvidenceId ← parseAuthorityId record.["receiptEvidenceId"];
  transactionHash ← parseHash32 record.["transactionHash"];
  blockHash ← parseHash32 record.["blockHash"];
  adapterRevision ← parseAuthorityId record.["adapterRevision"];
  refuse_if ((receiptEvidenceId !== rc_receiptEvidenceId receipt)
             || (transactionHash !== rc_transactionHash receipt)
             || (blockHash !== ab_blockHash (rc_block receipt))
             || (adapterRevision !== de_adapterRevision expectedDeployment));;
  receiptLogCount ← parseBoundedCount record.["receiptLogCount"] 1 100000;
  traceFrameCount ← parseBoundedCount record.["traceFrameCount"] 2 65536;
  refuse_if (receiptLogCount <? Z.of_nat (length mints) + 2);;
  allRelevantPayLogIndices ← parseCanonicalIndexList record.["allRelevantPayLogIndices"] 1 1;
  allRelevantHookAfterRecordPayLogIndices ←
    parseCanonicalIndexList record.["allRelevantHookAfterRecordPayLogIndices"] 1 1;
  allRelevantTierMintLogIndices ←
    parseCanonicalIndexList record.["allRelevantTierMintLogIndices"] 1 256;
  let mintIndices := mintIndicesOf mints in
  refuse_if ((first allRelevantPayLogIndices !== Some (lg_logIndex (py_log pay)))
             || (first allRelevantHookAfterRecordPayLogIndices
                 !== Some (lg_logIndex (hk_log afterPayHook)))
             || negb (sameNumberList allRelevantTierMintLogIndices mintIndices));;
  terminalFrame ← parseTraceFrameBinding record.["terminalFrame"];
  tierHookFrame ← parseTraceFrameBinding record.["tierHookFrame"];
  refuse_if ((traceFrameCount <? tf_depth terminalFrame + 1)
             || (traceFrameCount <? tf_depth tierHookFrame + 1));;
  refuse_if (detachedTerminalFrame terminalFrame terminal pay afterPayHook);;
  refuse_if (detachedHookFrame tierHookFrame terminalFrame terminal tierHook mintIndices);;
  evidenceId ← parseAuthorityId record.["evidenceId"];
  traceDigest ← parseHash32 record.["traceDigest"];
  relevantLogInventoryDigest ← parseHash32 record.["relevantLogInventoryDigest"];
  Ok {| co_evidenceId := evidenceId; co_receiptEvidenceId := receiptEvidenceId;
        co_transactionHash := transactionHash; co_blockHash := blockHash;
        co_adapterRevision := adapterRevision; co_traceDigest := traceDigest;
        co_relevantLogInventoryDigest := relevantLogInventoryDigest;
        co_receiptLogCount := receiptLogCount; co_traceFrameCount := traceFrameCount;
        co_allRelevantPayLogIndices := allRelevantPayLogIndices;
        co_allRelevantHookAfterRecordPayLogIndices := allRelevantHookAfterRecordPayLogIndices;
        co_allRelevantTierMintLogIndices := allRelevantTierMintLogIndices;
        co_terminalFrame := terminalFrame; co_tierHookFrame := tierHookFrame |}.

Section Purchases.
Context `{Sha256}.

(** ** Evidence *)

Definition computeCanonicalPurchaseEvidenceId (claimValue : unknown) : result string :=
  claim ← parseCanonicalPurchaseClaim claimValue;
  digest ← sha256AuthorityDigest
    (obj [("kind", VString "canonical-purchase-evidence-id.v1"); ("claim", claim_obj claim)]);
  parseAuthorityId (VString ("purchase:" +:+ text (drop 2 (chars digest)))).

Definition evidence_binding (expected : CanonicalPurchaseVerificationExpectation) (c : PurchaseCommon)
    (t : option TierPurchase) : unknown :=
  obj [("claim", claim_obj (pv_claim expected)); ("deployment", deployment_obj (pv_deployment expected));
       ("evidence", evidence_obj (cl_claimId (claim_base (pv_claim expected))) c t)].
Definition computeCanonicalPurchaseEvidenceDigest (binding : unknown) : result string :=
  sha256AuthorityDigest
    (obj [("kind", VString "canonical-purchase-evidence-digest.v1"); ("binding", binding)]).

Definition parsePurchaseCommon (record : record) (policy : FinalityPolicy)
    (expected : CanonicalPurchaseVerificationExpectation) : result PurchaseCommon :=
  let claim := claim_base (pv_claim expected) in
  let deployment := pv_deployment expected in
  receipt ← parseCanonicalReceiptProof record.["receipt"] policy deployment (pv_now expected);
  project ← parseJuiceboxV6ProjectRef record.["project"];
  refuse_if (negb (j_chainId project =? fp_chainId policy));;
  refuse_if (rc_deploymentManifestId receipt !== j_deploymentManifestId project);;
  refuse_if (negb (sameJuiceboxV6ProjectRef project (cl_project claim)));;
  refuse_if (rc_transactionHash receipt !== cl_transactionHash claim);;
  pay ← parsePay record.["pay"] receipt deployment;
  terminal ← parseTerminal record.["terminal"] project receipt policy deployment (pv_now expected);
  customerAccount ← parseAddress record.["customerAccount"];
  refuse_if (negb (sameJuiceboxV6ProjectRef (py_project pay) project)
             || (py_beneficiary pay !== customerAccount)
             || (lg_emitter (py_log pay) !== tm_terminal terminal)
             || negb (lg_logIndex (py_log pay) =? cl_payLogIndex claim)
             || (customerAccount !== cl_expectedBeneficiary claim));;
  evidenceId ← parseAuthorityId record.["evidenceId"];
  expectedId ← computeCanonicalPurchaseEvidenceId (claim_obj (pv_claim expected));
  refuse_if (evidenceId !== expectedId);;
  Ok {| pc_evidenceId := evidenceId; pc_receipt := receipt; pc_pay := pay; pc_terminal := terminal;
        pc_project := project; pc_customerAccount := customerAccount |}.

Definition assertFixedSemantics (record : record) : result unit :=
  refuse_if (negb (isString record.["customerSubjectSource"] "pay-beneficiary")
             || negb (isString record.["payerAttribution"] "not-evaluated")
             || negb (isString record.["transactionSenderAttribution"] "never-inferred")
             || negb (isString record.["callerAttribution"] "never-inferred")
             || negb (isString record.["refundStatus"] "not-evaluated")).

(** The hook log repeats the Pay log. *)
Definition hookMismatch (hook : CanonicalHookAfterRecordPayLog) (tierHook : CanonicalTierHookEvidence)
    (common : PurchaseCommon) : bool :=
  let pay := pc_pay common in
  (hk_hook hook !== th_hook tierHook) || (lg_emitter (hk_log hook) !== tm_terminal (pc_terminal common))
  || negb (sameJuiceboxV6ProjectRef (hk_project hook) (pc_project common))
  || (hk_rulesetId hook !== py_rulesetId pay) || (hk_payer hook !== py_payer pay)
  || (hk_beneficiary hook !== pc_customerAccount common)
  || (ta_value (hk_amount hook) !== py_amount pay)
  || (hk_newlyIssuedTokenCount hook !== py_newlyIssuedTokenCount pay)
  || (hk_caller hook !== py_caller pay).

Definition parseTierPurchase (record : record) (policy : FinalityPolicy)
    (expected : CanonicalPurchaseVerificationExpectation) (common : PurchaseCommon)
    (claimedAfterPay : Z) (claimedMintLogIndices : indices) : result TierPurchase :=
  let deployment := pv_deployment expected in
  let receipt := pc_receipt common in
  afterPayHook ← parseHookAfterPay record.["afterPayHook"] receipt deployment;
  tierHook ← parseTierHook record.["tierHook"] (pc_project common) receipt policy deployment (pv_now expected);
  refuse_if (hookMismatch afterPayHook tierHook common);;
  mints ← parseMints record.["mints"] receipt (th_hook tierHook) (tm_terminal (pc_terminal common)) deployment;
  refuse_if (some_ (λ mint, mt_beneficiary mint !== pc_customerAccount common) mints);;
  let payIndex := lg_logIndex (py_log (pc_pay common)) in
  let hookIndex := lg_logIndex (hk_log afterPayHook) in
  refuse_if (some_ (λ mint, (lg_logIndex (mt_log mint) <=? payIndex)
                            || (hookIndex <=? lg_logIndex (mt_log mint))) mints);;
  let mintIndices := mintIndicesOf mints in
  refuse_if (hasDuplicateIndices (Some payIndex :: Some hookIndex :: mintIndices));;
  refuse_if (negb (hookIndex =? claimedAfterPay) || negb (sameNumberList mintIndices claimedMintLogIndices));;
  correlationEvidence ← parseTierCorrelationEvidence record.["correlationEvidence"] receipt
    (pc_pay common) afterPayHook mints (pc_terminal common) tierHook deployment;
  Ok {| tp_afterPayHook := afterPayHook; tp_mints := mints; tp_tierHook := tierHook;
        tp_correlationEvidence := correlationEvidence |}.

Definition withDigest (expected : CanonicalPurchaseVerificationExpectation) (common : PurchaseCommon)
    (tier : option TierPurchase) : result CanonicalPurchaseEvidence :=
  evidenceDigest ← computeCanonicalPurchaseEvidenceDigest (evidence_binding expected common tier);
  Ok {| pu_claimId := cl_claimId (claim_base (pv_claim expected)); pu_common := common; pu_tier := tier;
        pu_evidenceDigest := evidenceDigest |}.

Definition EVIDENCE_FIELDS : list string :=
  ["kind"; "evidenceId"; "receipt"; "pay"; "terminal"; "project"; "customerAccount";
   "customerSubjectSource"; "payerAttribution"; "transactionSenderAttribution"; "callerAttribution";
   "refundStatus"].

Definition parseCanonicalPurchaseEvidence (value : unknown) (policy : FinalityPolicy)
    (expectedValue : unknown) : result CanonicalPurchaseEvidence :=
  expected ← parseCanonicalPurchaseVerificationExpectation expectedValue;
  assertExpectationMatchesPolicy expected policy;;
  r ← expectObject value;
  let kind := r.["kind"] in
  if isString kind "juicebox-v6-payment-beneficiary-evidence.v1" then
    match pv_claim expected with
    | tier_claim _ _ _ => invalid
    | payment_claim _ =>
        record ← expectExactRecord value EVIDENCE_FIELDS;
        assertFixedSemantics record;;
        common ← parsePurchaseCommon record policy expected;
        refuse_if (py_amount (pc_pay common) === "0");;
        withDigest expected common None
    end
  else if isString kind "juicebox-v6-tier-purchase-evidence.v1" then
    record ← expectExactRecord value
      (EVIDENCE_FIELDS ++ ["afterPayHook"; "mints"; "tierHook"; "correlationEvidence"]);
    assertFixedSemantics record;;
    match pv_claim expected with
    | payment_claim _ => invalid
    | tier_claim _ afterPay mintLogIndices =>
        common ← parsePurchaseCommon record policy expected;
        tier ← parseTierPurchase record policy expected common afterPay mintLogIndices;
        withDigest expected common (Some tier)
    end
  else invalid.

(** ** The verifier's result *)

Definition parseExpectedClaimId (value : unknown) (expectedClaim : CanonicalPurchaseClaim) : result string :=
  claimId ← parseAuthorityId value;
  refuse_if (claimId !== cl_claimId (claim_base expectedClaim));;
  Ok claimId.

Definition parseCanonicalPurchaseVerificationResult (value : unknown) (policy : FinalityPolicy)
    (expectedValue : unknown) : result ClaimBoundCanonicalPurchaseVerificationResult :=
  expected ← parseCanonicalPurchaseVerificationExpectation expectedValue;
  assertExpectationMatchesPolicy expected policy;;
  r ← expectObject value;
  let status := r.["status"] in
  if isString status "verified" then
    record ← expectExactRecord value ["status"; "claimId"; "evidence"];
    claimId ← parseExpectedClaimId record.["claimId"] (pv_claim expected);
    evidence ← parseCanonicalPurchaseEvidence record.["evidence"] policy (expectation_obj expected);
    Ok (purchase_verified claimId evidence)
  else if isString status "ineligible" then
    record ← expectExactRecord value ["status"; "claimId"; "reasonCode"];
    reasonCode ← parseLiteral record.["reasonCode"];
    claimId ← parseExpectedClaimId record.["claimId"] (pv_claim expected);
    Ok (purchase_ineligible claimId reasonCode)
  else if isString status "pending-finality" then
    record ← expectExactRecord value ["status"; "claimId"; "reasonCode"];
    refuse_if (negb (isString record.["reasonCode"] "receipt-above-finalized-head"));;
    claimId ← parseExpectedClaimId record.["claimId"] (pv_claim expected);
    Ok (purchase_pending_finality claimId)
  else if isString status "unavailable" then
    record ← expectExactRecord value ["status"; "claimId"; "reasonCode"];
    reasonCode ← parseLiteral record.["reasonCode"];
    claimId ← parseExpectedClaimId record.["claimId"] (pv_claim expected);
    Ok (purchase_unavailable claimId reasonCode)
  else invalid.

(** ** Reading an expectation again *)

#[local] Opaque sha256AuthorityDigest.

Lemma mapArray_indices elems l :
  mapArray parseLogIndex elems = Ok l → mapArray parseLogIndex (map (option_map VInt) l) = Ok l.
Proof.
  unfold mapArray. intros HF%mapR_Ok. apply mapR_Ok. induction HF as [|o x elems l Ho _ IH]; cbn; constructor; [|done].
  destruct o as [v|]; cbn in Ho |- *.
  - destruct (parseLogIndex v) as [z|] eqn:E; [|done]. injection Ho as <-. change (Some <$> parseLogIndex (VInt z) = Ok (Some z)). by rewrite (parseLogIndex_again _ _ E).
  - by injection Ho as <-.
Qed.

Lemma parseMintLogIndices_again v l : parseMintLogIndices v = Ok l → parseMintLogIndices (indices_obj l) = Ok l.
Proof.
  destruct v; try discriminate. unfold parseMintLogIndices, indices_obj. intros (u & HR%refuse_if_Ok & HM)%bind_Ok.
  pose proof (mapArray_length _ _ _ HM) as HL. rewrite length_map, HL, HR. cbn [refuse_if throw_if mbind result_bind].
  by eapply mapArray_indices.
Qed.

Lemma parseClaimBase_again r z b fields :
  parseClaimBase r z = Ok b →
  get fields "claimId" = VString (cl_claimId b) → get fields "project" = project_obj (cl_project b) →
  get fields "transactionHash" = VString (cl_transactionHash b) →
  get fields "expectedBeneficiary" = VString (cl_expectedBeneficiary b) →
  parseClaimBase fields z = Ok b.
Proof.
  unfold parseClaimBase. intros H1 E1 E2 E3 E4. rewrite E1, E2, E3, E4. clear E1 E2 E3 E4. inv_auth. subst b.
  cbn [cl_claimId cl_project cl_transactionHash cl_expectedBeneficiary].
  erewrite parseAuthorityId_again by done. cbn [mbind result_bind]. erewrite parseProject_again by done. cbn [mbind result_bind].
  erewrite parseHash32_again by done. cbn [mbind result_bind]. by erewrite parseAddress_again by done.
Qed.

Lemma parseClaimBase_index r z b : parseClaimBase r z = Ok b → cl_payLogIndex b = z.
Proof. unfold parseClaimBase. intros H1. inv_auth. by subst. Qed.

Ltac steps :=
  repeat (match goal with
    | H : ?b = false |- context [refuse_if ?b] => rewrite H
    | H : ?e = Ok _ |- context [?e] => rewrite H
    end; cbn [refuse_if throw_if mbind result_bind]).

Lemma parseClaim_again v c : parseCanonicalPurchaseClaim v = Ok c → parseCanonicalPurchaseClaim (claim_obj c) = Ok c.
Proof.
  unfold parseCanonicalPurchaseClaim. intros (r & _ & H1)%bind_Ok. cbv zeta in H1.
  destruct (isString _ "juicebox-v6-payment-beneficiary-claim.v1"); [|destruct (isString _ "juicebox-v6-tier-purchase-claim.v1"); [|done]];
    inv_auth; subst c;
    match goal with H : parseClaimBase _ _ = Ok ?b |- _ => pose proof (parseClaimBase_index _ _ _ H) as HI; rename H into HB end;
    unfold claim_obj, claim_fields; rewrite expectObject_obj; cbn [mbind result_bind app]; read_fields; cbv zeta; read_literals;
    unfold CLAIM_FIELDS; cbn [app]; open_record; read_literals; rewrite HI.
  - erewrite parseLogIndex_again by done. cbn [mbind result_bind].
    by rewrite (parseClaimBase_again _ _ _ _ HB) by reflexivity.
  - erewrite parseMintLogIndices_again by done. cbn [mbind result_bind].
    erewrite parseLogIndex_again by done. cbn [mbind result_bind]. erewrite parseLogIndex_again by done. cbn [mbind result_bind].
    steps. by rewrite (parseClaimBase_again _ _ _ _ HB) by reflexivity.
Qed.

Lemma parseContract_again v c : parseDeployedContract v = Ok c → parseDeployedContract (contract_obj c) = Ok c.
Proof.
  unfold parseDeployedContract, contract_obj. intros H1. inv_auth. subst c. cbn [ct_address ct_implementationCodeHash]. open_record.
  erewrite parseAddress_again by done. cbn [mbind result_bind]. by erewrite parseHash32_again by done.
Qed.

Lemma claim_defined c : isUndefined (claim_obj c) = false.
Proof. by destruct c. Qed.

(** An accepted expectation is accepted as the object it was read into, and read
    as the same expectation: the evidence parser, which reads it again, checks
    against the same claim and deployment. *)
Lemma expectation_again v e :
  parseCanonicalPurchaseVerificationExpectation v = Ok e →
  parseCanonicalPurchaseVerificationExpectation (expectation_obj e) = Ok e.
Proof.
  unfold parseCanonicalPurchaseVerificationExpectation. cbv zeta. intros H1. inv_auth. subst e.
  unfold expectation_obj, deployment_obj. cbn [pv_claim pv_deployment pv_now de_deploymentManifestId de_projectsContract
    de_adapterRevision de_payAbi de_hookAfterRecordPayAbi de_tierMintAbi de_terminal de_tierHook].
  match goal with |- context [claim_obj ?c] => pose proof (claim_defined c) as HU; remember (claim_obj c) as co eqn:Eco end.
  match goal with |- context [nullable contract_obj ?c] => remember (nullable contract_obj c) as th eqn:Eth;
    assert (HT : isUndefined th = false) by (subst th; by destruct c) end.
  open_record. subst co. erewrite parseClaim_again by done. cbn [mbind result_bind]. open_record. open_record.
  erewrite parseContract_again by done. cbn [mbind result_bind]. subst th.
  match goal with H : parseNullable parseDeployedContract _ = Ok _ |- _ =>
    rewrite (parseNullable_again parseDeployedContract contract_obj _ _ (λ w a E, conj (parseContract_again w a E) eq_refl) H) end. cbn [mbind result_bind].
  repeat (first [erewrite parseAuthorityId_again by done|erewrite parseAddress_again by done|erewrite parseHash32_again by done]; cbn [mbind result_bind]).
  steps. by erewrite parseCanonicalInstant_again by done.
Qed.

(** ** What evidence rests on *)

(** A receipt of the policy's chain, final at the quorum, of this deployment. *)
Record final_receipt (r : CanonicalReceiptProof) (policy : FinalityPolicy)
    (d : CanonicalPurchaseDeploymentExpectation) (now : string) : Prop := {
  fr_chain : rc_chainId r = fp_chainId policy ∧ ab_chainId (rc_block r) = fp_chainId policy;
  fr_policy : rc_finalityPolicyId r = fp_policyId policy;
  fr_manifest : rc_deploymentManifestId r = de_deploymentManifestId d;
  fr_adapter : rc_adapterRevision r = de_adapterRevision d;
  fr_quorum : fp_minimumProviderQuorum policy <= Z.of_nat (length (ab_providerIds (rc_block r)));
  fr_checked : Date_parse (ab_finalizedAt (rc_block r)) <= Date_parse (rc_canonicalityCheckedAt r)
               <= Date_parse now }.

(** A log of the receipt, with the expected event and decoder. *)
Record logged (l : CanonicalLogRef) (r : CanonicalReceiptProof) (topic abi : string) : Prop := {
  lo_receipt : lg_receiptEvidenceId l = rc_receiptEvidenceId r;
  lo_transaction : lg_transactionHash l = rc_transactionHash r;
  lo_block : lg_blockHash l = ab_blockHash (rc_block r);
  lo_event : lg_topic0 l = topic ∧ lg_abiDigest l = abi ∧ lg_adapterRevision l = rc_adapterRevision r }.

Lemma differs_false v z : differs v z = false → v = VInt z.
Proof. destruct v as [| | |[n|]| | | | | | |]; try done. cbn. by intros ->%negb_false_iff%Z.eqb_eq. Qed.

Lemma parseReceipt_Ok v policy d now r :
  parseCanonicalReceiptProof v policy d now = Ok r → final_receipt r policy d now.
Proof.
  unfold parseCanonicalReceiptProof, instantMilliseconds. intros H1. inv_auth. subst r.
  match goal with H : parseFinalizedBlockAnchor _ _ _ = Ok _ |- _ => apply parseAnchor_Ok in H as (_ & HC & HQ & _) end.
  bsimp. repeat match goal with H : isString _ _ = true |- _ => apply isString_eq in H end.
  repeat match goal with H : parseAuthorityId (get _ ?k) = Ok _, H' : get _ ?k = VString _ |- _ =>
    rewrite H' in H; apply parseAuthorityId_Ok in H as [[= H] _]; clear H' end.
  zbool. subst. constructor; cbn; try done; lia.
Qed.

Lemma parseLogRef_Ok v r topic abi l : parseLogRef v r topic abi = Ok l → logged l r topic abi.
Proof.
  unfold parseLogRef, expectAdapterRevision. intros H1. inv_auth. subst l. bsimp. subst. by constructor.
Qed.

Lemma parsePay_Ok v r d p :
  parsePay v r d = Ok p → logged (py_log p) r TOPIC_pay (de_payAbi d) ∧ j_chainId (py_project p) = rc_chainId r.
Proof.
  unfold parsePay. intros H1. inv_auth. subst p.
  match goal with H : parseLogRef _ _ _ _ = Ok _ |- _ => apply parseLogRef_Ok in H end. bsimp. by zbool.
Qed.

Lemma parseHook_Ok v r d h :
  parseHookAfterPay v r d = Ok h → logged (hk_log h) r TOPIC_hookAfterRecordPay (de_hookAfterRecordPayAbi d).
Proof.
  unfold parseHookAfterPay. intros H1. inv_auth. subst h.
  match goal with H : parseLogRef _ _ _ _ = Ok _ |- _ => by apply parseLogRef_Ok in H end.
Qed.

Lemma parseMint_Ok r hook terminal d v m :
  parseMint r hook terminal d v = Ok m →
  logged (mt_log m) r TOPIC_tierMint (de_tierMintAbi d) ∧ lg_emitter (mt_log m) = hook ∧ mt_caller m = terminal.
Proof.
  unfold parseMint. intros H1. inv_auth. subst m.
  match goal with H : parseLogRef _ _ _ _ = Ok _ |- _ => apply parseLogRef_Ok in H end. by bsimp.
Qed.

Lemma parseMints_Ok v r hook terminal d ms m :
  parseMints v r hook terminal d = Ok ms → m ∈ omap id ms →
  logged (mt_log m) r TOPIC_tierMint (de_tierMintAbi d) ∧ lg_emitter (mt_log m) = hook ∧ mt_caller m = terminal.
Proof.
  destruct v; try discriminate. unfold parseMints, mapArray. intros (u & _ & HF%mapR_Ok)%bind_Ok Hm.
  apply list_elem_of_omap in Hm as (o & Ho & HE). cbn in HE. subst o.
  apply list_elem_of_lookup in Ho as [i Hi]. destruct (Forall2_lookup_r _ _ _ _ _ HF Hi) as (o & _ & HP).
  destruct o as [w|]; [|done]. destruct (parseMint _ _ _ _ w) as [m'|] eqn:E; [|done]. injection HP as ->.
  by eapply parseMint_Ok.
Qed.

Lemma assertProjectAndBlock_Ok p q b r u :
  assertProjectAndBlock p q b r = Ok u →
  p = q ∧ ab_blockHash b = ab_blockHash (rc_block r) ∧ ab_blockNumber b = ab_blockNumber (rc_block r).
Proof. unfold assertProjectAndBlock. intros H1%refuse_if_Ok. bsimp. split; [by apply sameProject_eq|done]. Qed.

Lemma parseTerminal_Ok v p r policy d now t :
  parseTerminal v p r policy d now = Ok t →
  tm_project t = p ∧ tm_terminal t = ct_address (de_terminal d) ∧
  tm_implementationCodeHash t = ct_implementationCodeHash (de_terminal d) ∧
  ab_blockHash (tm_block t) = ab_blockHash (rc_block r) ∧ tm_deploymentManifestId t = rc_deploymentManifestId r.
Proof.
  unfold parseTerminal, expectManifestId. intros H1. inv_auth. subst t.
  match goal with H : assertProjectAndBlock _ _ _ _ = Ok _ |- _ => apply assertProjectAndBlock_Ok in H as (-> & HB & _) end.
  bsimp. cbn. by repeat split; congruence.
Qed.

Lemma parseTierHook_Ok v p r policy d now t :
  parseTierHook v p r policy d now = Ok t →
  th_project t = p ∧ ab_blockHash (th_block t) = ab_blockHash (rc_block r) ∧
  de_tierHook d = Some {| ct_address := th_hook t; ct_implementationCodeHash := th_implementationCodeHash t |}.
Proof.
  unfold parseTierHook, expectManifestId. intros H1. inv_auth. destruct (de_tierHook d) as [[a h]|]; [|done]. inv_auth. subst t.
  match goal with H : assertProjectAndBlock _ _ _ _ = Ok _ |- _ => apply assertProjectAndBlock_Ok in H as (-> & HB & _) end.
  bsimp. cbn in *. by subst.
Qed.

(** *** The purchase *)

(** A Pay log of the claimed transaction, at the claimed index, emitted by the
    trusted terminal for the claimed project and beneficiary. *)
Record paid (c : PurchaseCommon) (e : CanonicalPurchaseVerificationExpectation) (policy : FinalityPolicy) : Prop := {
  pd_receipt : final_receipt (pc_receipt c) policy (pv_deployment e) (pv_now e);
  pd_transaction : rc_transactionHash (pc_receipt c) = cl_transactionHash (claim_base (pv_claim e));
  pd_project : pc_project c = cl_project (claim_base (pv_claim e)) ∧ py_project (pc_pay c) = pc_project c;
  pd_log : logged (py_log (pc_pay c)) (pc_receipt c) TOPIC_pay (de_payAbi (pv_deployment e));
  pd_index : lg_logIndex (py_log (pc_pay c)) = cl_payLogIndex (claim_base (pv_claim e));
  pd_terminal : lg_emitter (py_log (pc_pay c)) = ct_address (de_terminal (pv_deployment e)) ∧
                tm_terminal (pc_terminal c) = ct_address (de_terminal (pv_deployment e)) ∧
                tm_implementationCodeHash (pc_terminal c)
                  = ct_implementationCodeHash (de_terminal (pv_deployment e)) ∧
                tm_project (pc_terminal c) = pc_project c ∧
                ab_blockHash (tm_block (pc_terminal c)) = ab_blockHash (rc_block (pc_receipt c));
  pd_customer : pc_customerAccount c = cl_expectedBeneficiary (claim_base (pv_claim e)) ∧
                py_beneficiary (pc_pay c) = pc_customerAccount c;
  pd_id : computeCanonicalPurchaseEvidenceId (claim_obj (pv_claim e)) = Ok (pc_evidenceId c) }.

Lemma parseCommon_Ok r policy e c : parsePurchaseCommon r policy e = Ok c → paid c e policy.
Proof.
  unfold parsePurchaseCommon. cbv zeta. intros H1. inv_auth. subst c.
  match goal with H : parseCanonicalReceiptProof _ _ _ _ = Ok _ |- _ => apply parseReceipt_Ok in H end.
  match goal with H : parsePay _ _ _ = Ok _ |- _ => apply parsePay_Ok in H as [HL _] end.
  match goal with H : parseTerminal _ _ _ _ _ _ = Ok _ |- _ => apply parseTerminal_Ok in H as (T1 & T2 & T3 & T4 & _) end.
  bsimp. repeat match goal with H : sameJuiceboxV6ProjectRef _ _ = true |- _ => apply sameProject_eq in H end. zbool. subst.
  constructor; cbn; try done; repeat split; congruence.
Qed.

Lemma sameNumberList_named (l r : list (option Z)) i z :
  sameNumberList l r = true → l !! i = Some (Some z) → r !! i = Some (Some z).
Proof.
  unfold sameNumberList. intros [HL%Nat.eqb_eq HF]%andb_true_iff Hi. rewrite forallb_forall in HF.
  destruct (lookup_lt_is_Some_2 r i) as [o Ho]; [rewrite <- HL; by eapply lookup_lt_Some|].
  assert (HI : In (Some z, o) (zip l r)).
  { apply list_elem_of_In, (list_elem_of_lookup_2 _ i). rewrite lookup_zip_with, Hi. cbn. by rewrite Ho. }
  specialize (HF _ HI). cbn in HF. apply bool_decide_eq_true in HF. by subst.
Qed.

(** Without holes it is equality. *)
Lemma sameNumberList_eq (l r : list (option Z)) : None ∉ l → sameNumberList l r = true → l = r.
Proof.
  intros HN HS. pose proof HS as [HL%Nat.eqb_eq _]%andb_true_iff. apply list_eq_same_length with (n := length r); [done|done|].
  intros i x y _ Hx Hy. destruct x as [z|]; [|exfalso; apply HN; by eapply list_elem_of_lookup_2].
  rewrite (sameNumberList_named _ _ _ _ HS Hx) in Hy. congruence.
Qed.

(** The Mint logs of one purchase: in the receipt, from the trusted hook under
    the trusted terminal, for the customer, between the Pay and the hook log, at
    the claimed indices and in one child call of the call that paid. *)
Record minted (t : TierPurchase) (c : PurchaseCommon) (e : CanonicalPurchaseVerificationExpectation)
    (afterPay : Z) (claimed : indices) : Prop := {
  mi_hookLog : logged (hk_log (tp_afterPayHook t)) (pc_receipt c) TOPIC_hookAfterRecordPay
                 (de_hookAfterRecordPayAbi (pv_deployment e));
  mi_hook : de_tierHook (pv_deployment e) = Some
    {| ct_address := th_hook (tp_tierHook t); ct_implementationCodeHash := th_implementationCodeHash (tp_tierHook t) |}
    ∧ hk_hook (tp_afterPayHook t) = th_hook (tp_tierHook t);
  mi_amount : ta_value (hk_amount (tp_afterPayHook t)) = py_amount (pc_pay c) ∧
              hk_beneficiary (tp_afterPayHook t) = pc_customerAccount c ∧
              hk_payer (tp_afterPayHook t) = py_payer (pc_pay c);
  mi_after : lg_logIndex (hk_log (tp_afterPayHook t)) = afterPay;
  mi_mints : ∀ m, m ∈ omap id (tp_mints t) →
    logged (mt_log m) (pc_receipt c) TOPIC_tierMint (de_tierMintAbi (pv_deployment e)) ∧
    lg_emitter (mt_log m) = th_hook (tp_tierHook t) ∧ mt_caller m = tm_terminal (pc_terminal c) ∧
    mt_beneficiary m = pc_customerAccount c ∧
    lg_logIndex (py_log (pc_pay c)) < lg_logIndex (mt_log m) < afterPay;
  mi_distinct : NoDup (mintIndicesOf (tp_mints t));
  mi_claimed : sameNumberList (mintIndicesOf (tp_mints t)) claimed = true;
  mi_inventory : sameNumberList (co_allRelevantTierMintLogIndices (tp_correlationEvidence t)) (mintIndicesOf (tp_mints t)) = true ∧
    co_allRelevantPayLogIndices (tp_correlationEvidence t) = [Some (lg_logIndex (py_log (pc_pay c)))] ∧
    co_allRelevantHookAfterRecordPayLogIndices (tp_correlationEvidence t) = [Some afterPay];
  mi_frames : let terminal := co_terminalFrame (tp_correlationEvidence t) in
    let hook := co_tierHookFrame (tp_correlationEvidence t) in
    tf_from hook = tf_to terminal ∧ tf_to terminal = tm_terminal (pc_terminal c) ∧
    tf_to hook = th_hook (tp_tierHook t) ∧ tf_depth hook = tf_depth terminal + 1 ∧
    sameNumberList (tf_relevantEmittedLogIndices hook) (mintIndicesOf (tp_mints t)) = true }.

Lemma some_false {A} (p : A → bool) xs x : some_ p xs = false → x ∈ omap id xs → p x = false.
Proof. unfold some_. intros HF%existsb_false Hx. rewrite Forall_forall in HF. by apply HF. Qed.

Lemma parseFrame_Ok v f : parseTraceFrameBinding v = Ok f → tf_depth f = Z.of_nat (length (tf_traceAddress f)).
Proof.
  unfold parseTraceFrameBinding. intros H1. inv_auth. subst f. cbn.
  match goal with H : badAncestry _ _ _ = false |- _ => unfold badAncestry in H; rewrite !orb_false_iff in H; destruct H as [[H%negb_false_iff%Z.eqb_eq _] _]; exact H end.
Qed.

Lemma singleton_index v l z :
  parseCanonicalIndexList v 1 1 = Ok l → first l = Some z → l = [Some z].
Proof.
  destruct v; try discriminate. unfold parseCanonicalIndexList. cbv zeta. intros H1 H2. inv_auth. subst.
  match goal with H : mapArray _ _ = Ok ?y |- _ => pose proof (mapArray_length _ _ _ H) as HL; rename y into xs end.
  bsimp. zbool. destruct xs as [|o [|]]; cbn in *; [done|by subst|lia].
Qed.

Lemma parseTier_Ok r policy e c afterPay claimed t :
  parseTierPurchase r policy e c afterPay claimed = Ok t → minted t c e afterPay claimed.
Proof.
  unfold parseTierPurchase. cbv zeta. intros H1. inv_auth. subst t.
  match goal with H : parseHookAfterPay _ _ _ = Ok _ |- _ => apply parseHook_Ok in H end.
  match goal with H : parseTierHook _ _ _ _ _ _ = Ok _ |- _ => apply parseTierHook_Ok in H as (T1 & T2 & T3) end.
  match goal with H : hookMismatch _ _ _ = false |- _ => unfold hookMismatch in H; cbv zeta in H end.
  match goal with H : hasDuplicateIndices _ = false |- _ =>
    apply negb_false_iff, bool_decide_eq_true in H; apply NoDup_cons in H as [_ [_ HD]%NoDup_cons] end.
  match goal with H : parseTierCorrelationEvidence _ _ _ _ _ _ _ _ = Ok _ |- _ =>
    unfold parseTierCorrelationEvidence in H; cbv zeta in H; rename H into HC end.
  inv_auth. subst.
  match goal with H : detachedTerminalFrame _ _ _ _ = false |- _ => unfold detachedTerminalFrame in H end.
  match goal with H : detachedHookFrame _ _ _ _ _ = false |- _ => unfold detachedHookFrame in H end.
  repeat match goal with H : parseTraceFrameBinding _ = Ok _ |- _ => apply parseFrame_Ok in H end.
  bsimp. zbool.
  repeat match goal with H : Nat.eqb _ _ = true |- _ => apply Nat.eqb_eq in H end.
  constructor; cbn; try done.
  - intros m Hm. match goal with H : parseMints _ _ _ _ _ = Ok _ |- _ => destruct (parseMints_Ok _ _ _ _ _ _ _ H Hm) as (M1 & M2 & M3) end.
    repeat match goal with H : some_ _ _ = false |- _ => apply some_false with (2 := Hm) in H; cbn in H end. bsimp. zbool.
    subst. do 4 (split; [done|]). lia.
  - split; [done|]. split; [by eapply singleton_index|]. subst. by eapply singleton_index.
  - repeat (split; [congruence|]). split; [|done]. rewrite Hx19, Hx20, Hx28. lia.
Qed.

Lemma withDigest_Ok e c t p :
  withDigest e c t = Ok p →
  pu_claimId p = cl_claimId (claim_base (pv_claim e)) ∧ pu_common p = c ∧ pu_tier p = t ∧
  computeCanonicalPurchaseEvidenceDigest (evidence_binding e c t) = Ok (pu_evidenceDigest p).
Proof. unfold withDigest. intros (digest & HD & [= <-])%bind_Ok. done. Qed.

(** What the claim asks for. *)
Definition bought (e : CanonicalPurchaseVerificationExpectation) (p : CanonicalPurchaseEvidence) : Prop :=
  match pv_claim e, pu_tier p with
  | payment_claim _, None => py_amount (pc_pay (pu_common p)) ≠ "0"
  | tier_claim _ afterPay claimed, Some t => minted t (pu_common p) e afterPay claimed
  | _, _ => False
  end.

Lemma parsePurchaseEvidence_Ok v policy ev p :
  parseCanonicalPurchaseEvidence v policy ev = Ok p →
  ∃ e, parseCanonicalPurchaseVerificationExpectation ev = Ok e ∧
       pu_claimId p = cl_claimId (claim_base (pv_claim e)) ∧ paid (pu_common p) e policy ∧ bought e p ∧
       computeCanonicalPurchaseEvidenceDigest (evidence_binding e (pu_common p) (pu_tier p))
         = Ok (pu_evidenceDigest p).
Proof.
  unfold parseCanonicalPurchaseEvidence, bought. intros (e & HE & H1)%bind_Ok. exists e. split; [done|]. cbv zeta in H1. inv_auth.
  destruct (isString _ "juicebox-v6-payment-beneficiary-evidence.v1");
    [|destruct (isString _ "juicebox-v6-tier-purchase-evidence.v1"); [|done]]; destruct (pv_claim e) eqn:EC; inv_auth; try discriminate;
    match goal with H : withDigest _ _ _ = Ok _ |- _ => apply withDigest_Ok in H as (P1 & P2 & P3 & P4) end;
    rewrite P2, P3; rewrite EC in P1;
    match goal with H : parsePurchaseCommon _ _ _ = Ok _ |- _ => apply parseCommon_Ok in H end; do 2 (split; [done|]).
  - by bsimp.
  - split; [by eapply parseTier_Ok|done].
Qed.

Lemma verification_Ok value policy ev id p :
  parseCanonicalPurchaseVerificationResult value policy ev = Ok (purchase_verified id p) →
  ∃ e v, parseCanonicalPurchaseVerificationExpectation ev = Ok e ∧ id = cl_claimId (claim_base (pv_claim e)) ∧
         parseCanonicalPurchaseEvidence v policy (expectation_obj e) = Ok p.
Proof.
  unfold parseCanonicalPurchaseVerificationResult, parseExpectedClaimId. intros (e & HE & H1)%bind_Ok.
  exists e. cbv zeta in H1. inv_auth.
  destruct (isString _ "verified"); [|destruct (isString _ "ineligible"); [|destruct (isString _ "pending-finality");
    [|destruct (isString _ "unavailable"); [|done]]]]; inv_auth; try discriminate.
  bsimp. subst. by eexists.
Qed.

(** C7: [parseCanonicalPurchaseVerificationResult] releases a verified purchase only
    for the claim it was asked about, when a final receipt of the claimed
    transaction holds the Pay log at the claimed index, emitted by the trusted
    terminal for the claimed project and beneficiary; a payment is not zero; a
    tier purchase has its hook log and exactly the claimed Mint logs, between the
    two, from the trusted hook to the same customer, in the one child call of
    the paying call; and the digest commits to the claim, the deployment and all
    of it. *)
Theorem purchase_grounded value policy ev id p :
  parseCanonicalPurchaseVerificationResult value policy ev = Ok (purchase_verified id p) →
  ∃ e, parseCanonicalPurchaseVerificationExpectation ev = Ok e ∧
       id = cl_claimId (claim_base (pv_claim e)) ∧ pu_claimId p = id ∧
       paid (pu_common p) e policy ∧ bought e p ∧
       computeCanonicalPurchaseEvidenceDigest (evidence_binding e (pu_common p) (pu_tier p))
         = Ok (pu_evidenceDigest p).
Proof.
  intros (e & v & HE & -> & HP)%verification_Ok. exists e. split; [done|]. split; [done|].
  apply parsePurchaseEvidence_Ok in HP as (e' & HE' & P1 & P2). rewrite (expectation_again _ _ HE) in HE'. injection HE' as <-. done.
Qed.

End Purchases.

(** ** Samples *)

Module PurchaseSamples.
#[local] Existing Instance checksum_digest.
Import AuthorityGenerations.Samples.

Definition now : string := "2026-01-01T00:10:00.000Z".
Definition address (c : ascii) : string := sample_hex 40 c.
Definition hash (c : ascii) : string := sample_hex 64 c.

Definition receipt : CanonicalReceiptProof :=
  {| rc_receiptEvidenceId := "receipt"; rc_chainId := 8453; rc_transactionHash := hash "1";
     rc_transactionIndex := 2; rc_block := block "1024"; rc_receiptDigest := hash "2";
     rc_finalityPolicyId := "policy"; rc_deploymentManifestId := "manifest";
     rc_adapterRevision := "adapter"; rc_canonicalityCheckedAt := "2026-01-01T00:05:00.000Z" |}.
Definition log (index : Z) (emitter topic abi : string) : CanonicalLogRef :=
  {| lg_receiptEvidenceId := "receipt"; lg_transactionHash := hash "1"; lg_blockHash := hash "b";
     lg_logIndex := index; lg_emitter := emitter; lg_topic0 := topic; lg_abiDigest := abi;
     lg_adapterRevision := "adapter"; lg_topicsDigest := hash "3"; lg_dataDigest := hash "4" |}.
Definition pay (amount : string) : CanonicalPayLog :=
  {| py_log := log 10 (address "7") TOPIC_pay (hash "5"); py_project := project 1; py_rulesetId := "1";
     py_rulesetCycleNumber := "1"; py_payer := address "9"; py_beneficiary := address "a";
     py_amount := amount; py_newlyIssuedTokenCount := "0"; py_memoDigest := hash "6";
     py_metadataDigest := hash "7"; py_caller := address "9" |}.
Definition hookLog : CanonicalHookAfterRecordPayLog :=
  {| hk_log := log 14 (address "7") TOPIC_hookAfterRecordPay (hash "8"); hk_hook := address "8";
     hk_project := project 1; hk_rulesetId := "1"; hk_payer := address "9"; hk_beneficiary := address "a";
     hk_amount := {| ta_token := address "e"; ta_decimals := 18; ta_currency := "1"; ta_value := "0" |};
     hk_newlyIssuedTokenCount := "0"; hk_contextDigest := hash "9"; hk_specificationAmount := "0";
     hk_caller := address "9" |}.
Definition mint (index : Z) : CanonicalTierMintLog :=
  {| mt_log := log index (address "8") TOPIC_tierMint (hash "c"); mt_tokenId := "1000000001"; mt_tierId := "1";
     mt_beneficiary := address "a"; mt_totalAmountPaid := "5"; mt_caller := address "7" |}.
Definition terminal : CanonicalTerminalEvidence :=
  {| tm_evidenceId := "terminal"; tm_project := project 1; tm_terminal := address "7";
     tm_implementationCodeHash := hash "d"; tm_deploymentManifestId := "manifest"; tm_block := block "1024" |}.
Definition hook : CanonicalTierHookEvidence :=
  {| th_evidenceId := "hook"; th_project := project 1; th_hook := address "8";
     th_implementationCodeHash := hash "e"; th_deploymentManifestId := "manifest"; th_projectIdResult := 1;
     th_block := block "1024" |}.
Definition correlation : CanonicalTierTraceCorrelationEvidence :=
  {| co_evidenceId := "correlation"; co_receiptEvidenceId := "receipt"; co_transactionHash := hash "1";
     co_blockHash := hash "b"; co_adapterRevision := "adapter"; co_traceDigest := hash "1";
     co_relevantLogInventoryDigest := hash "2"; co_receiptLogCount := 20; co_traceFrameCount := 9;
     co_allRelevantPayLogIndices := [Some 10]; co_allRelevantHookAfterRecordPayLogIndices := [Some 14];
     co_allRelevantTierMintLogIndices := [Some 11; Some 12];
     co_terminalFrame :=
       {| tf_traceAddress := [Some 0]; tf_parentTraceAddress := Some []; tf_depth := 1;
          tf_from := address "9"; tf_to := address "7"; tf_relevantEmittedLogIndices := [Some 10; Some 14] |};
     co_tierHookFrame :=
       {| tf_traceAddress := [Some 0; Some 3]; tf_parentTraceAddress := Some [Some 0]; tf_depth := 2;
          tf_from := address "7"; tf_to := address "8"; tf_relevantEmittedLogIndices := [Some 11; Some 12] |} |}.

Definition base : ClaimBase :=
  {| cl_claimId := "claim"; cl_project := project 1; cl_transactionHash := hash "1"; cl_payLogIndex := 10;
     cl_expectedBeneficiary := address "a" |}.
Definition expectation (claim : CanonicalPurchaseClaim) (tierHook : option DeployedContract) :
  CanonicalPurchaseVerificationExpectation :=
  {| pv_claim := claim;
     pv_deployment :=
       {| de_deploymentManifestId := "manifest"; de_projectsContract := sample_hex 40 "c"; de_adapterRevision := "adapter";
          de_payAbi := hash "5"; de_hookAfterRecordPayAbi := hash "8"; de_tierMintAbi := hash "c";
          de_terminal := {| ct_address := address "7"; ct_implementationCodeHash := hash "d" |};
          de_tierHook := tierHook |};
     pv_now := now |}.
Definition paying : CanonicalPurchaseVerificationExpectation := expectation (payment_claim base) None.
Definition minting : CanonicalPurchaseVerificationExpectation :=
  expectation (tier_claim base 14 [Some 11; Some 12])
    (Some {| ct_address := address "8"; ct_implementationCodeHash := hash "e" |}).

Definition common (claim : CanonicalPurchaseClaim) (amount : string) : PurchaseCommon :=
  {| pc_evidenceId := ok_or "" (computeCanonicalPurchaseEvidenceId (claim_obj claim)); pc_receipt := receipt;
     pc_pay := pay amount; pc_terminal := terminal; pc_project := project 1; pc_customerAccount := address "a" |}.
Definition tier (mints : list Z) : TierPurchase :=
  {| tp_afterPayHook := hookLog; tp_mints := map (Some ∘ mint) mints; tp_tierHook := hook;
     tp_correlationEvidence := correlation |}.

(** What the verifier sends: the digested fields without the claim id. *)
Definition sent (kind : string) (c : PurchaseCommon) (more : list (string * unknown)) : unknown :=
  obj [("status", VString "verified"); ("claimId", VString "claim");
       ("evidence", obj (("kind", VString kind) :: tail (common_fields "" c) ++ more))].
Definition payment_value (amount : string) : unknown :=
  sent "juicebox-v6-payment-beneficiary-evidence.v1" (common (pv_claim paying) amount) [].
Definition tier_value (mints : list Z) : unknown :=
  let t := tier mints in
  sent "juicebox-v6-tier-purchase-evidence.v1" (common (pv_claim minting) "0")
    [("afterPayHook", hook_obj (tp_afterPayHook t)); ("mints", VArray ArrayPrototype (map (option_map mint_obj) (tp_mints t)) 0);
     ("tierHook", tierHook_obj (tp_tierHook t)); ("correlationEvidence", correlation_obj (tp_correlationEvidence t))].

Definition digest (e : CanonicalPurchaseVerificationExpectation) (c : PurchaseCommon) (t : option TierPurchase) : string :=
  ok_or "" (computeCanonicalPurchaseEvidenceDigest (evidence_binding e c t)).
Definition bought_tier : CanonicalPurchaseEvidence :=
  let c := common (pv_claim minting) "0" in let t := Some (tier [11; 12]) in
  {| pu_claimId := "claim"; pu_common := c; pu_tier := t; pu_evidenceDigest := digest minting c t |}.

Definition accepted (value : unknown) (e : CanonicalPurchaseVerificationExpectation) : bool :=
  match parseCanonicalPurchaseVerificationResult value sample_policy (expectation_obj e) with Ok _ => true | _ => false end.

(** A payment; nothing is not one; a mint less than the claim and the trace say
    is refused. *)
Example payments :
  (accepted (payment_value "1") paying, accepted (payment_value "0") paying, accepted (tier_value [11]) minting)
  = (true, false, false).
Proof. vm_compute. reflexivity. Qed.

Lemma purchase_grounded_witness :
  parseCanonicalPurchaseVerificationResult (tier_value [11; 12]) sample_policy (expectation_obj minting)
    = Ok (purchase_verified "claim" bought_tier) ∧
  ∃ e, parseCanonicalPurchaseVerificationExpectation (expectation_obj minting) = Ok e ∧
       "claim" = cl_claimId (claim_base (pv_claim e)) ∧ pu_claimId bought_tier = "claim" ∧
       paid (pu_common bought_tier) e sample_policy ∧ bought e bought_tier ∧
       computeCanonicalPurchaseEvidenceDigest (evidence_binding e (pu_common bought_tier) (pu_tier bought_tier))
         = Ok (pu_evidenceDigest bought_tier).
Proof.
  assert (H : parseCanonicalPurchaseVerificationResult (tier_value [11; 12]) sample_policy (expectation_obj minting)
              = Ok (purchase_verified "claim" bought_tier)) by (vm_compute; reflexivity).
  split; [exact H|]. exact (purchase_grounded _ _ _ _ _ H).
Defined.
End PurchaseSamples.
