(* ===== verification/AuthorityRefunds.v ===== *)
(** * The refund ledger ([src/production/authority/purchases.ts])

    Whether a purchase still counts: a business keeps a signed ledger of refunds
    and disputes outside the chain; a lookup is answered by its signed head.  The
    module trusts only objects it made itself: purchases it verified,
    expectations it derived from them, and results it prepared from those wait in
    registries for what an independent verifier says of their signatures. *)

From stdpp Require Import base list strings relations.
From Stdlib Require Import ZArith Lia Ascii.
From S2P Require Import Prelude Sha256 Base64Url JsTime JsValue ValueObjects Quota CanonicalJson AuthorityValues AuthorityFinality AuthorityDigests AuthorityGenerations AuthorityPurchases.

Definition MAXIMUM_REFUND_LEDGER_HEAD_AGE_MILLISECONDS : Z := 5 * 60 * 1000.
Definition REFUND_DOMAIN : string := "juicebox-messaging-refund-ledger-v1".

(** ** Data *)

Inductive AttestationKind := attest_record | attest_head.
#[export] Instance AttestationKind_eq_dec : EqDecision AttestationKind.
Proof. solve_decision. Defined.
#[export] Instance AttestationKind_literal : Literal AttestationKind := {|
  lit k := match k with attest_record => "record" | attest_head => "head" end;
  lits := [attest_record; attest_head] |}.
(** Both parsers pass a kind with its own type and binding. *)
Definition primaryType (k : AttestationKind) : string :=
  match k with attest_record => "JuiceboxRefundLedgerRecord" | attest_head => "JuiceboxRefundLedgerHead" end.
Definition payloadBinding (k : AttestationKind) : string :=
  match k with
  | attest_record => "canonical-record-payload"
  | attest_head => "canonical-head-payload-including-lookup-challenge"
  end.

Inductive VerificationMethod := eoa_ecrecover | method_erc1271 | method_erc6492.
#[export] Instance VerificationMethod_literal : Literal VerificationMethod := {|
  lit m := match m with eoa_ecrecover => "eoa-ecrecover" | method_erc1271 => "erc1271"
           | method_erc6492 => "erc6492" end;
  lits := [eoa_ecrecover; method_erc1271; method_erc6492] |}.

Inductive InvalidAttestation :=
| bad_signature | wrong_signer | wrong_domain | payload_digest_mismatch | authority_generation_stale
| device_credential_stale.
#[export] Instance InvalidAttestation_literal : Literal InvalidAttestation := {|
  lit r := match r with
           | bad_signature => "bad-signature" | wrong_signer => "wrong-signer"
           | wrong_domain => "wrong-domain" | payload_digest_mismatch => "payload-digest-mismatch"
           | authority_generation_stale => "authority-generation-stale"
           | device_credential_stale => "device-credential-stale" end;
  lits := [bad_signature; wrong_signer; wrong_domain; payload_digest_mismatch;
           authority_generation_stale; device_credential_stale] |}.
Inductive UnavailableAttestation :=
| attestation_not_configured | signature_verifier_unavailable | erc1271_rpc_unavailable
| erc6492_verifier_unavailable.
#[export] Instance UnavailableAttestation_literal : Literal UnavailableAttestation := {|
  lit r := match r with
           | attestation_not_configured => "not-configured"
           | signature_verifier_unavailable => "signature-verifier-unavailable"
           | erc1271_rpc_unavailable => "erc1271-rpc-unavailable"
           | erc6492_verifier_unavailable => "erc6492-verifier-unavailable" end;
  lits := [attestation_not_configured; signature_verifier_unavailable; erc1271_rpc_unavailable;
           erc6492_verifier_unavailable] |}.

Inductive CaseState := refund_recorded | dispute_open | dispute_resolved.
#[export] Instance CaseState_eq_dec : EqDecision CaseState.
Proof. solve_decision. Defined.
#[export] Instance CaseState_literal : Literal CaseState := {|
  lit s := match s with refund_recorded => "refund-recorded" | dispute_open => "dispute-open"
           | dispute_resolved => "dispute-resolved" end;
  lits := [refund_recorded; dispute_open; dispute_resolved] |}.
Inductive CaseResolution := resolved_refund | purchase_upheld.
#[export] Instance CaseResolution_eq_dec : EqDecision CaseResolution.
Proof. solve_decision. Defined.
#[export] Instance CaseResolution_literal : Literal CaseResolution := {|
  lit r := match r with resolved_refund => "refund" | purchase_upheld => "purchase-upheld" end;
  lits := [resolved_refund; purchase_upheld] |}.
Inductive EligibilityEffect := effect_clear | effect_block.
#[export] Instance EligibilityEffect_eq_dec : EqDecision EligibilityEffect.
Proof. solve_decision. Defined.
#[export] Instance EligibilityEffect_literal : Literal EligibilityEffect := {|
  lit e := match e with effect_clear => "clear" | effect_block => "block" end;
  lits := [effect_clear; effect_block] |}.
Inductive HeadStatus := head_recorded | head_no_applicable_entry.
#[export] Instance HeadStatus_eq_dec : EqDecision HeadStatus.
Proof. solve_decision. Defined.
#[export] Instance HeadStatus_literal : Literal HeadStatus := {|
  lit s := match s with head_recorded => "recorded" | head_no_applicable_entry => "no-applicable-entry" end;
  lits := [head_recorded; head_no_applicable_entry] |}.
Inductive LedgerUnavailable := refund_ledger_not_configured | refund_ledger_unavailable.
#[export] Instance LedgerUnavailable_literal : Literal LedgerUnavailable := {|
  lit r := match r with refund_ledger_not_configured => "refund-ledger-not-configured"
           | refund_ledger_unavailable => "refund-ledger-unavailable" end;
  lits := [refund_ledger_not_configured; refund_ledger_unavailable] |}.
Inductive AmountKind := amount_partial | amount_full.
#[export] Instance AmountKind_literal : Literal AmountKind := {|
  lit k := match k with amount_partial => "partial" | amount_full => "full" end;
  lits := [amount_partial; amount_full] |}.

Record TierItem := { ti_tierId : string; ti_tokenId : string }.
#[export] Instance TierItem_eq_dec : EqDecision TierItem.
Proof. solve_decision. Defined.
Inductive RefundScope := entire_purchase | exact_tier_items (items : list (option TierItem)).
Record RefundAmount := { ra_kind : AmountKind; ra_amount : TokenAmountContext }.

Inductive RefundEligibilityResource :=
| support_resource (transactionHash : string) (payLogIndex : Z)
| tier_resource (item : TierItem).

Record OrderCase := {
  oc_orderCaseRevision : string; oc_state : CaseState; oc_resolution : option CaseResolution;
  oc_scope : RefundScope }.

(** The root authority that must have signed, [actual] of
    [assertRefundSignerAndPolicy]. *)
Record RefundSigner := {
  rs_businessSigner : string; rs_issuerDeviceCredentialId : string;
  rs_issuerWalletVerificationEvidenceId : string; rs_rootAuthorityEvidenceId : string;
  rs_rootAuthorityEvidenceDigest : string; rs_rootSignerProofDigest : string; rs_policyId : string;
  rs_policyRevision : string }.

Record ObservedRefundLedgerHead := {
  oh_resourceDigest : string; oh_sequence : string; oh_headDigest : string;
  oh_ledgerRecordedAt : string; oh_currentStatus : HeadStatus; oh_currentRecordId : option string;
  oh_currentRecordDigest : option string; oh_eligibilityEffect : EligibilityEffect;
  oh_currentCase : option OrderCase }.

Record RefundLedgerExpectation := {
  rx_project : JuiceboxV6ProjectRef; rx_purchaseEvidenceId : string; rx_purchaseEvidenceDigest : string;
  rx_resource : RefundEligibilityResource; rx_resourceDigest : string;
  rx_authorityGenerationId : string; rx_authorityGenerationSequence : string;
  rx_signer : RefundSigner; rx_lookupRequestId : string; rx_lookupChallengeDigest : string;
  rx_now : string; rx_maximumHeadAgeMilliseconds : Z;
  rx_latestObservedHead : option ObservedRefundLedgerHead;
  rx_refundAttestationDomainSeparatorDigest : string; rx_attestationVerifierPolicyId : string;
  rx_attestationVerifierPolicyRevision : string; rx_attestationVerifierKeyId : string }.

Record RefundAttestationSignatureEnvelope := {
  en_attestationId : string; en_attestationKind : AttestationKind;
  en_attestationDomainSeparatorDigest : string; en_canonicalPayloadDigest : string;
  en_signature : string; en_signatureDigest : string; en_claimedSigner : string;
  en_issuerDeviceCredentialId : string; en_ledgerSequence : string; en_authorityGenerationId : string;
  en_authorityGenerationSequence : string; en_rootAuthorityEvidenceId : string;
  en_rootAuthorityEvidenceDigest : string }.

(** What an attestation is asked to be, and, verified, is. *)
Record AttestedClaim := {
  ac_attestationId : string; ac_attestationKind : AttestationKind;
  ac_attestationDomainSeparatorDigest : string; ac_canonicalPayloadDigest : string;
  ac_signatureDigest : string; ac_signer : string; ac_issuerDeviceCredentialId : string;
  ac_project : JuiceboxV6ProjectRef; ac_purchaseEvidenceId : string; ac_purchaseEvidenceDigest : string;
  ac_resourceDigest : string; ac_ledgerSequence : string; ac_lookupRequestId : option string;
  ac_authorityGenerationId : string; ac_authorityGenerationSequence : string;
  ac_rootAuthorityEvidenceId : string; ac_rootAuthorityEvidenceDigest : string;
  ac_refundPolicyId : string; ac_refundPolicyRevision : string; ac_verifierPolicyId : string;
  ac_verifierPolicyRevision : string; ac_verifierKeyId : string }.
Record RefundAttestationVerificationExpectation := {
  xa_claim : AttestedClaim; xa_notBefore : string; xa_now : string }.
Record VerifiedRefundAttestation := {
  va_claim : AttestedClaim; va_verificationEvidenceId : string; va_verificationEvidenceDigest : string;
  va_verificationMethod : VerificationMethod; va_verifiedAt : string }.
Inductive RefundAttestationVerificationResult :=
| attestation_verified (v : VerifiedRefundAttestation)
| attestation_invalid (attestationId : string) (reasonCode : InvalidAttestation)
| attestation_unavailable (attestationId : string) (reasonCode : UnavailableAttestation).

(** The payload of a record, and the record with its attestation; the source,
    and that no chain event is inferred, are constants. *)
Record RefundRecordPayload := {
  rr_refundRecordId : string; rr_project : JuiceboxV6ProjectRef; rr_purchaseEvidenceId : string;
  rr_purchaseEvidenceDigest : string; rr_ledgerSequence : string; rr_case : OrderCase;
  rr_priorLedgerHeadDigest : string; rr_eligibilityEffect : EligibilityEffect;
  rr_refundAmount : option RefundAmount; rr_signer : RefundSigner; rr_authorityGenerationId : string;
  rr_authorityGenerationSequence : string; rr_effectiveAt : string; rr_recordedAt : string;
  rr_auditRecordId : string }.
Record SignedRefundLedgerRecord := {
  sr_payload : RefundRecordPayload; sr_attestation : RefundAttestationSignatureEnvelope }.

(** What of a head does not depend on the lookup, its [stableHead]. *)
Record StableHead := {
  sh_headId : string; sh_project : JuiceboxV6ProjectRef; sh_purchaseEvidenceId : string;
  sh_purchaseEvidenceDigest : string; sh_resource : RefundEligibilityResource;
  sh_resourceDigest : string; sh_sequence : string; sh_priorHeadDigest : string;
  sh_currentStatus : HeadStatus; sh_currentRecordId : option string;
  sh_currentRecordDigest : option string; sh_eligibilityEffect : EligibilityEffect;
  sh_signer : RefundSigner; sh_authorityGenerationId : string; sh_authorityGenerationSequence : string;
  sh_ledgerRecordedAt : string; sh_auditRecordId : string }.
Record RefundLedgerHead := {
  hd_stable : StableHead; hd_headDigest : string; hd_lookupRequestId : string;
  hd_lookupChallengeDigest : string; hd_signedAt : string;
  hd_attestation : RefundAttestationSignatureEnvelope }.

Inductive RefundLedgerResult :=
| ledger_recorded (head : RefundLedgerHead) (record : SignedRefundLedgerRecord)
    (headVerification recordVerification : VerifiedRefundAttestation)
| ledger_no_entry (project : JuiceboxV6ProjectRef) (purchaseEvidenceId : string) (head : RefundLedgerHead)
    (headVerification : VerifiedRefundAttestation) (evaluatedAt : string)
| ledger_not_evaluated
| ledger_unavailable (reasonCode : LedgerUnavailable).
(** [eligibilityEffect] of a result. *)
Definition result_effect (r : RefundLedgerResult) : EligibilityEffect :=
  match r with
  | ledger_recorded _ record _ _ => rr_eligibilityEffect (sr_payload record)
  | ledger_no_entry _ _ _ _ _ => effect_clear
  | ledger_not_evaluated | ledger_unavailable _ => effect_block
  end.

Inductive PreparedRefundLedgerState :=
| prepared_not_evaluated
| prepared_unavailable (reasonCode : LedgerUnavailable)
| prepared_no_entry (project : JuiceboxV6ProjectRef) (purchaseEvidenceId : string)
    (head : RefundLedgerHead) (evaluatedAt : string)
    (headExpectation : RefundAttestationVerificationExpectation)
| prepared_recorded (head : RefundLedgerHead) (record : SignedRefundLedgerRecord)
    (headExpectation recordExpectation : RefundAttestationVerificationExpectation).

(** ** As values *)

Definition case_resolution (r : option CaseResolution) : unknown := nullable (λ x, VString (lit x)) r.
Definition item_obj (i : TierItem) : unknown :=
  obj [("tierId", VString (ti_tierId i)); ("tokenId", VString (ti_tokenId i))].
Definition scope_value (s : RefundScope) : unknown :=
  match s with
  | entire_purchase => obj [("kind", VString "entire-purchase")]
  | exact_tier_items items =>
      obj [("kind", VString "exact-tier-items");
           ("items", VArray ArrayPrototype (map (option_map item_obj) items) 0)]
  end.
Definition refund_amount_obj (a : RefundAmount) : unknown :=
  obj [("kind", VString (lit (ra_kind a))); ("amount", amount_obj (ra_amount a))].
Definition eligibility_obj (r : RefundEligibilityResource) : unknown :=
  match r with
  | support_resource transactionHash payLogIndex =>
      obj [("kind", VString "purchase-support"); ("transactionHash", VString transactionHash);
           ("payLogIndex", VInt payLogIndex)]
  | tier_resource i =>
      obj [("kind", VString "tier-fulfillment"); ("tierId", VString (ti_tierId i));
           ("tokenId", VString (ti_tokenId i))]
  end.
Definition signer_fields (s : RefundSigner) : list (string * unknown) :=
  [("businessSigner", VString (rs_businessSigner s));
   ("issuerDeviceCredentialId", VString (rs_issuerDeviceCredentialId s));
   ("issuerWalletVerificationEvidenceId", VString (rs_issuerWalletVerificationEvidenceId s));
   ("rootAuthorityEvidenceId", VString (rs_rootAuthorityEvidenceId s));
   ("rootAuthorityEvidenceDigest", VString (rs_rootAuthorityEvidenceDigest s));
   ("rootSignerProofDigest", VString (rs_rootSignerProofDigest s))].
Definition record_fields (r : RefundRecordPayload) : list (string * unknown) :=
  [("kind", VString "signed-business-refund-ledger-record.v1");
   ("refundRecordId", VString (rr_refundRecordId r)); ("project", project_obj (rr_project r));
   ("purchaseEvidenceId", VString (rr_purchaseEvidenceId r));
   ("purchaseEvidenceDigest", VString (rr_purchaseEvidenceDigest r));
   ("ledgerSequence", VString (rr_ledgerSequence r));
   ("orderCaseRevision", VString (oc_orderCaseRevision (rr_case r)));
   ("priorLedgerHeadDigest", VString (rr_priorLedgerHeadDigest r));
   ("state", VString (lit (oc_state (rr_case r))));
   ("resolution", case_resolution (oc_resolution (rr_case r)));
   ("eligibilityEffect", VString (lit (rr_eligibilityEffect r)));
   ("scope", scope_value (oc_scope (rr_case r)));
   ("refundAmount", nullable refund_amount_obj (rr_refundAmount r))]
  ++ signer_fields (rr_signer r)
  ++ [("authorityGenerationId", VString (rr_authorityGenerationId r));
      ("authorityGenerationSequence", VString (rr_authorityGenerationSequence r));
   ("effectiveAt", VString (rr_effectiveAt r)); ("recordedAt", VString (rr_recordedAt r));
   ("policyId", VString (rs_policyId (rr_signer r)));
   ("policyRevision", VString (rs_policyRevision (rr_signer r)));
   ("auditRecordId", VString (rr_auditRecordId r)); ("source", VString "offchain-business-ledger");
   ("chainEventInference", VString "forbidden")].
Definition record_obj (r : RefundRecordPayload) : unknown := obj (record_fields r).
Definition stable_fields (h : StableHead) : list (string * unknown) :=
  [("headId", VString (sh_headId h)); ("project", project_obj (sh_project h));
   ("purchaseEvidenceId", VString (sh_purchaseEvidenceId h));
   ("purchaseEvidenceDigest", VString (sh_purchaseEvidenceDigest h));
   ("resource", eligibility_obj (sh_resource h)); ("resourceDigest", VString (sh_resourceDigest h));
   ("sequence", VString (sh_sequence h)); ("priorHeadDigest", VString (sh_priorHeadDigest h));
   ("currentStatus", VString (lit (sh_currentStatus h)));
   ("currentRecordId", nullable VString (sh_currentRecordId h));
   ("currentRecordDigest", nullable VString (sh_currentRecordDigest h));
   ("eligibilityEffect", VString (lit (sh_eligibilityEffect h)))]
  ++ signer_fields (sh_signer h)
  ++ [("authorityGenerationId", VString (sh_authorityGenerationId h));
      ("authorityGenerationSequence", VString (sh_authorityGenerationSequence h));
      ("ledgerRecordedAt", VString (sh_ledgerRecordedAt h));
      ("policyId", VString (rs_policyId (sh_signer h)));
      ("policyRevision", VString (rs_policyRevision (sh_signer h)));
      ("auditRecordId", VString (sh_auditRecordId h))].
Definition stable_obj (h : StableHead) : unknown :=
  obj (("kind", VString "refund-ledger-stable-head.v1") :: stable_fields h).
Definition head_fields (h : StableHead)
    (headDigest lookupRequestId lookupChallengeDigest signedAt : string) : list (string * unknown) :=
  ("kind", VString "signed-business-refund-ledger-head.v1") :: stable_fields h
  ++ [("headDigest", VString headDigest); ("lookupRequestId", VString lookupRequestId);
      ("lookupChallengeDigest", VString lookupChallengeDigest); ("signedAt", VString signedAt)].
Definition head_obj (h : StableHead) (headDigest lookupRequestId lookupChallengeDigest signedAt : string) :
  unknown :=
  obj (head_fields h headDigest lookupRequestId lookupChallengeDigest signedAt).
Definition claim_fields_at (c : AttestedClaim) (evidenceId : string) (method : VerificationMethod)
    (verifiedAt : string) : list (string * unknown) :=
  [("attestationId", VString (ac_attestationId c));
   ("attestationKind", VString (lit (ac_attestationKind c)));
   ("verificationEvidenceId", VString evidenceId); ("attestationDomain", VString REFUND_DOMAIN);
   ("signatureScheme", VString "eip712-v4");
   ("primaryType", VString (primaryType (ac_attestationKind c)));
   ("attestationDomainSeparatorDigest", VString (ac_attestationDomainSeparatorDigest c));
   ("canonicalPayloadDigest", VString (ac_canonicalPayloadDigest c));
   ("signatureDigest", VString (ac_signatureDigest c)); ("signer", VString (ac_signer c));
   ("issuerDeviceCredentialId", VString (ac_issuerDeviceCredentialId c));
   ("project", project_obj (ac_project c));
   ("purchaseEvidenceId", VString (ac_purchaseEvidenceId c));
   ("purchaseEvidenceDigest", VString (ac_purchaseEvidenceDigest c));
   ("resourceDigest", VString (ac_resourceDigest c));
   ("ledgerSequence", VString (ac_ledgerSequence c));
   ("lookupRequestId", nullable VString (ac_lookupRequestId c));
   ("authorityGenerationId", VString (ac_authorityGenerationId c));
   ("authorityGenerationSequence", VString (ac_authorityGenerationSequence c));
   ("rootAuthorityEvidenceId", VString (ac_rootAuthorityEvidenceId c));
   ("rootAuthorityEvidenceDigest", VString (ac_rootAuthorityEvidenceDigest c));
   ("refundPolicyId", VString (ac_refundPolicyId c));
   ("refundPolicyRevision", VString (ac_refundPolicyRevision c));
   ("verifierPolicyId", VString (ac_verifierPolicyId c));
   ("verifierPolicyRevision", VString (ac_verifierPolicyRevision c));
   ("verifierKeyId", VString (ac_verifierKeyId c)); ("verificationMethod", VString (lit method));
   ("verifiedAt", VString verifiedAt)].
Definition claim_evidence_obj (c : AttestedClaim) (evidenceId : string) (method : VerificationMethod)
    (verifiedAt : string) : unknown :=
  obj (("kind", VString "verified-refund-attestation-evidence.v1")
       :: claim_fields_at c evidenceId method verifiedAt).

(** ** Cases, scopes and resources *)

Definition refundEligibilityEffect (state : CaseState) (resolution : option CaseResolution) :
  EligibilityEffect :=
  if (state === dispute_resolved) && (resolution === Some purchase_upheld) then effect_clear else effect_block.

(** The three inconsistent pairs. *)
Definition resolutionConflicts (state : CaseState) (resolution : option CaseResolution) : bool :=
  ((state === refund_recorded) && (resolution !== Some resolved_refund))
  || ((state === dispute_open) && (resolution !== None))
  || ((state === dispute_resolved) && (resolution !== Some resolved_refund)
      && (resolution !== Some purchase_upheld)).

Definition parseCaseState (state resolution : unknown) : result (CaseState * option CaseResolution) :=
  state ← parseLiteral state;
  resolution ← parseNullable parseLiteral resolution;
  refuse_if (resolutionConflicts state resolution);;
  Ok (state, resolution).

Definition itemKey (item : TierItem) : string := ti_tierId item +:+ ":" +:+ ti_tokenId item.
Definition parseTierItem (item : unknown) : result TierItem :=
  record ← expectExactRecord item ["tierId"; "tokenId"];
  tierId ← parseUint256Decimal record.["tierId"];
  tokenId ← parseUint256Decimal record.["tokenId"];
  Ok {| ti_tierId := tierId; ti_tokenId := tokenId |}.
Definition parseRefundScope (value : unknown) : result RefundScope :=
  r ← expectObject value;
  let kind := r.["kind"] in
  if isString kind "entire-purchase" then
    expectExactRecord value ["kind"];;
    Ok entire_purchase
  else if isString kind "exact-tier-items" then
    record ← expectExactRecord value ["kind"; "items"];
    match record.["items"] with
    | VArray _ elems _ =>
        refuse_if ((Z.of_nat (length elems) <? 1) || (256 <? Z.of_nat (length elems)));;
        items ← mapArray parseTierItem elems;
        let keys := map (option_map itemKey) items in
        refuse_if (hasDuplicates keys || isUnsorted keys);;
        Ok (exact_tier_items items)
    | _ => invalid
    end
  else invalid.

Definition parseRefundEligibilityResource (value : unknown) (purchase : CanonicalPurchaseEvidence) :
  result RefundEligibilityResource :=
  r ← expectObject value;
  let kind := r.["kind"] in
  if isString kind "purchase-support" then
    record ← expectExactRecord value ["kind"; "transactionHash"; "payLogIndex"];
    transactionHash ← parseHash32 record.["transactionHash"];
    payLogIndex ← parseLogIndex record.["payLogIndex"];
    refuse_if ((transactionHash !== rc_transactionHash (pc_receipt (pu_common purchase)))
               || negb (payLogIndex =? lg_logIndex (py_log (pc_pay (pu_common purchase)))));;
    Ok (support_resource transactionHash payLogIndex)
  else if isString kind "tier-fulfillment" then
    record ← expectExactRecord value ["kind"; "tierId"; "tokenId"];
    match pu_tier purchase with
    | None => invalid
    | Some tier =>
        tierId ← parseUint256Decimal record.["tierId"];
        tokenId ← parseUint256Decimal record.["tokenId"];
        refuse_if (negb (some_ (λ mint, (mt_tierId mint === tierId) && (mt_tokenId mint === tokenId))
                          (tp_mints tier)));;
        Ok (tier_resource {| ti_tierId := tierId; ti_tokenId := tokenId |})
    end
  else invalid.

Definition parseSignedRefundEligibilityResource (value : unknown) (expected : RefundEligibilityResource) :
  result RefundEligibilityResource :=
  match expected with
  | support_resource expectedHash expectedIndex =>
      record ← expectExactRecord value ["kind"; "transactionHash"; "payLogIndex"];
      transactionHash ← parseHash32 record.["transactionHash"];
      payLogIndex ← parseLogIndex record.["payLogIndex"];
      refuse_if (negb (isString record.["kind"] "purchase-support") || (transactionHash !== expectedHash)
                 || negb (payLogIndex =? expectedIndex));;
      Ok (support_resource transactionHash payLogIndex)
  | tier_resource item =>
      record ← expectExactRecord value ["kind"; "tierId"; "tokenId"];
      tierId ← parseUint256Decimal record.["tierId"];
      tokenId ← parseUint256Decimal record.["tokenId"];
      refuse_if (negb (isString record.["kind"] "tier-fulfillment") || (tierId !== ti_tierId item)
                 || (tokenId !== ti_tokenId item));;
      Ok (tier_resource {| ti_tierId := tierId; ti_tokenId := tokenId |})
  end.

Definition assertRefundScopeAppliesToResource (scope : RefundScope) (resource : RefundEligibilityResource) :
  result unit :=
  match scope with
  | entire_purchase => Ok tt
  | exact_tier_items items =>
      match resource with
      | support_resource _ _ => invalid
      | tier_resource item =>
          refuse_if (negb (some_ (λ i, (ti_tierId i === ti_tierId item) && (ti_tokenId i === ti_tokenId item))
                            items))
      end
  end.

Definition parseObservedRefundOrderCase (value : unknown) (resource : RefundEligibilityResource) :
  result (option OrderCase) :=
  if isNull value then Ok None
  else
    record ← expectExactRecord value ["orderCaseRevision"; "state"; "resolution"; "scope"];
    '(state, resolution) ← parseCaseState record.["state"] record.["resolution"];
    scope ← parseRefundScope record.["scope"];
    assertRefundScopeAppliesToResource scope resource;;
    orderCaseRevision ← parseUint256Decimal record.["orderCaseRevision"];
    Ok (Some {| oc_orderCaseRevision := orderCaseRevision; oc_state := state;
                oc_resolution := resolution; oc_scope := scope |}).

Definition parseRefundAmount (value : unknown) : result (option RefundAmount) :=
  if isNull value then Ok None
  else
    record ← expectExactRecord value ["kind"; "amount"];
    kind ← parseLiteral record.["kind"];
    amount ← parseTokenAmount record.["amount"];
    refuse_if (ta_value amount === "0");;
    Ok (Some {| ra_kind := kind; ra_amount := amount |}).

(** [left.items.every(...)] skips the holes of [left]. *)
Definition sameRefundScope (left right : RefundScope) : bool :=
  match left, right with
  | entire_purchase, entire_purchase => true
  | exact_tier_items ls, exact_tier_items rs =>
      Nat.eqb (length ls) (length rs)
      && forallb (λ '(l, r), match l with None => true | Some _ => l === r end) (zip ls rs)
  | _, _ => false
  end.

(** ** What is asserted of a head and a record *)

Definition assertRefundExpectation (project : JuiceboxV6ProjectRef) (purchaseEvidenceId : string)
    (expected : RefundLedgerExpectation) : result unit :=
  refuse_if (negb (sameJuiceboxV6ProjectRef project (rx_project expected))
             || (purchaseEvidenceId !== rx_purchaseEvidenceId expected)).

Definition assertRefundSignerAndPolicy (actual : RefundSigner) (expected : RefundLedgerExpectation) :
  result unit :=
  let e := rx_signer expected in
  refuse_if ((rs_businessSigner actual !== rs_businessSigner e)
             || (rs_issuerDeviceCredentialId actual !== rs_issuerDeviceCredentialId e)
             || (rs_issuerWalletVerificationEvidenceId actual !== rs_issuerWalletVerificationEvidenceId e)
             || (rs_rootAuthorityEvidenceId actual !== rs_rootAuthorityEvidenceId e)
             || (rs_rootAuthorityEvidenceDigest actual !== rs_rootAuthorityEvidenceDigest e)
             || (rs_rootSignerProofDigest actual !== rs_rootSignerProofDigest e)
             || (rs_policyId actual !== rs_policyId e) || (rs_policyRevision actual !== rs_policyRevision e)).

Definition assertRefundHeadFreshAndMonotonic
    (sequence priorHeadDigest headDigest ledgerRecordedAt signedAt : string)
    (expected : RefundLedgerExpectation) : result unit :=
  let now := instantMilliseconds (rx_now expected) in
  let recorded := instantMilliseconds ledgerRecordedAt in
  let signed := instantMilliseconds signedAt in
  refuse_if ((signed <? recorded) || (now <? signed)
             || (rx_maximumHeadAgeMilliseconds expected <? now - signed));;
  match rx_latestObservedHead expected with
  | None => Ok tt
  | Some observed =>
      let sequenceNumber := BigInt sequence in
      let observedSequence := BigInt (oh_sequence observed) in
      refuse_if
        ((sequenceNumber <? observedSequence) || (observedSequence + 1 <? sequenceNumber)
         || ((sequenceNumber =? observedSequence)
             && ((headDigest !== oh_headDigest observed)
                 || (ledgerRecordedAt !== oh_ledgerRecordedAt observed)))
         || ((sequenceNumber =? observedSequence + 1)
             && ((priorHeadDigest !== oh_headDigest observed)
                 || (recorded <? instantMilliseconds (oh_ledgerRecordedAt observed)))))
  end.

(** A case begins at revision one, not resolved. *)
Definition beginsCase (revision : Z) (state : CaseState) : result unit :=
  refuse_if (negb (revision =? 1) || (state === dispute_resolved)).

Definition assertRefundOrderCaseTransition (record : RefundRecordPayload) (recordDigest : string)
    (expected : RefundLedgerExpectation) : result unit :=
  let case := rr_case record in
  let revision := BigInt (oc_orderCaseRevision case) in
  match rx_latestObservedHead expected with
  | None => beginsCase revision (oc_state case)
  | Some observed =>
      let sequence := BigInt (rr_ledgerSequence record) in
      let observedSequence := BigInt (oh_sequence observed) in
      if sequence =? observedSequence then
        match oh_currentCase observed with
        | None => invalid
        | Some currentCase =>
            refuse_if
              ((oh_currentStatus observed !== head_recorded)
               || (oh_currentRecordId observed !== Some (rr_refundRecordId record))
               || (oh_currentRecordDigest observed !== Some recordDigest)
               || (oc_orderCaseRevision currentCase !== oc_orderCaseRevision case)
               || (oc_state currentCase !== oc_state case)
               || (oc_resolution currentCase !== oc_resolution case)
               || negb (sameRefundScope (oc_scope currentCase) (oc_scope case)))
        end
      else
        refuse_if (negb (sequence =? observedSequence + 1));;
        match oh_currentCase observed with
        | None => beginsCase revision (oc_state case)
        | Some currentCase =>
            refuse_if (negb (revision =? BigInt (oc_orderCaseRevision currentCase) + 1)
                       || negb (sameRefundScope (oc_scope currentCase) (oc_scope case)));;
            refuse_if ((oc_state currentCase !== dispute_open)
                       || ((oc_state case !== dispute_open) && (oc_state case !== dispute_resolved)))
        end
  end.

(** ** Attestations to ask for *)

Definition refundHeadAttestationExpectation (head : RefundLedgerHead) (expected : RefundLedgerExpectation) :
  RefundAttestationVerificationExpectation :=
  let h := hd_stable head in
  let a := hd_attestation head in
  {| xa_claim :=
       {| ac_attestationId := en_attestationId a; ac_attestationKind := attest_head;
          ac_attestationDomainSeparatorDigest := en_attestationDomainSeparatorDigest a;
          ac_canonicalPayloadDigest := en_canonicalPayloadDigest a;
          ac_signatureDigest := en_signatureDigest a; ac_signer := rs_businessSigner (sh_signer h);
          ac_issuerDeviceCredentialId := rs_issuerDeviceCredentialId (sh_signer h);
          ac_project := sh_project h; ac_purchaseEvidenceId := sh_purchaseEvidenceId h;
          ac_purchaseEvidenceDigest := sh_purchaseEvidenceDigest h;
          ac_resourceDigest := sh_resourceDigest h; ac_ledgerSequence := sh_sequence h;
          ac_lookupRequestId := Some (hd_lookupRequestId head);
          ac_authorityGenerationId := sh_authorityGenerationId h;
          ac_authorityGenerationSequence := sh_authorityGenerationSequence h;
          ac_rootAuthorityEvidenceId := rs_rootAuthorityEvidenceId (sh_signer h);
          ac_rootAuthorityEvidenceDigest := rs_rootAuthorityEvidenceDigest (sh_signer h);
          ac_refundPolicyId := rs_policyId (sh_signer h);
          ac_refundPolicyRevision := rs_policyRevision (sh_signer h);
          ac_verifierPolicyId := rx_attestationVerifierPolicyId expected;
          ac_verifierPolicyRevision := rx_attestationVerifierPolicyRevision expected;
          ac_verifierKeyId := rx_attestationVerifierKeyId expected |};
     xa_notBefore := hd_signedAt head; xa_now := rx_now expected |}.

Definition refundRecordAttestationExpectation (record : SignedRefundLedgerRecord)
    (expected : RefundLedgerExpectation) : RefundAttestationVerificationExpectation :=
  let r := sr_payload record in
  let a := sr_attestation record in
  {| xa_claim :=
       {| ac_attestationId := en_attestationId a; ac_attestationKind := attest_record;
          ac_attestationDomainSeparatorDigest := en_attestationDomainSeparatorDigest a;
          ac_canonicalPayloadDigest := en_canonicalPayloadDigest a;
          ac_signatureDigest := en_signatureDigest a; ac_signer := rs_businessSigner (rr_signer r);
          ac_issuerDeviceCredentialId := rs_issuerDeviceCredentialId (rr_signer r);
          ac_project := rr_project r; ac_purchaseEvidenceId := rr_purchaseEvidenceId r;
          ac_purchaseEvidenceDigest := rr_purchaseEvidenceDigest r;
          ac_resourceDigest := rx_resourceDigest expected; ac_ledgerSequence := rr_ledgerSequence r;
          ac_lookupRequestId := None; ac_authorityGenerationId := rr_authorityGenerationId r;
          ac_authorityGenerationSequence := rr_authorityGenerationSequence r;
          ac_rootAuthorityEvidenceId := rs_rootAuthorityEvidenceId (rr_signer r);
          ac_rootAuthorityEvidenceDigest := rs_rootAuthorityEvidenceDigest (rr_signer r);
          ac_refundPolicyId := rs_policyId (rr_signer r);
          ac_refundPolicyRevision := rs_policyRevision (rr_signer r);
          ac_verifierPolicyId := rx_attestationVerifierPolicyId expected;
          ac_verifierPolicyRevision := rx_attestationVerifierPolicyRevision expected;
          ac_verifierKeyId := rx_attestationVerifierKeyId expected |};
     xa_notBefore := rr_recordedAt r; xa_now := rx_now expected |}.

Section Refunds.
Context `{Sha256}.

(** ** Digests *)

Definition computeRefundRecordCanonicalPayloadDigest (payload : unknown) : result string :=
  sha256AuthorityDigest
    (obj [("kind", VString "refund-record-canonical-payload-digest.v1"); ("payload", payload)]).
Definition computeRefundEligibilityResourceDigest (binding : unknown) : result string :=
  sha256AuthorityDigest
    (obj [("kind", VString "refund-eligibility-resource-digest.v1"); ("binding", binding)]).
Definition computeRefundStableHeadDigest (stableHead : unknown) : result string :=
  sha256AuthorityDigest
    (obj [("kind", VString "refund-stable-head-digest.v1"); ("stableHead", stableHead)]).
Definition computeRefundHeadCanonicalPayloadDigest (payload : unknown) : result string :=
  sha256AuthorityDigest
    (obj [("kind", VString "refund-head-canonical-payload-digest.v1"); ("payload", payload)]).
Definition computeRefundSignatureDigest (signature : string) : result string :=
  sha256AuthorityDigest
    (obj [("kind", VString "refund-attestation-signature-digest.v1"); ("signature", VString signature)]).
Definition computeRefundVerificationEvidenceDigest (verification : unknown) : result string :=
  sha256AuthorityDigest
    (obj [("kind", VString "refund-attestation-verification-evidence-digest.v1");
          ("verification", verification)]).

(** ** What the verifier says *)

Definition parseExpectedAttestationId (value : unknown) (expected : AttestedClaim) : result string :=
  attestationId ← parseAuthorityId value;
  refuse_if (attestationId !== ac_attestationId expected);;
  Ok attestationId.

(** The claim fields of a result; its kind is the expected one, compared raw. *)
Definition parseAttestedClaim (record : record) (expected : AttestedClaim) : result AttestedClaim :=
  attestationId ← parseExpectedAttestationId record.["attestationId"] expected;
  project ← parseJuiceboxV6ProjectRef record.["project"];
  canonicalPayloadDigest ← parseHash32 record.["canonicalPayloadDigest"];
  attestationDomainSeparatorDigest ← parseHash32 record.["attestationDomainSeparatorDigest"];
  signatureDigest ← parseHash32 record.["signatureDigest"];
  signer ← parseAddress record.["signer"];
  issuerDeviceCredentialId ← parseAuthorityId record.["issuerDeviceCredentialId"];
  purchaseEvidenceId ← parseAuthorityId record.["purchaseEvidenceId"];
  purchaseEvidenceDigest ← parseHash32 record.["purchaseEvidenceDigest"];
  resourceDigest ← parseHash32 record.["resourceDigest"];
  ledgerSequence ← parseUint256Decimal record.["ledgerSequence"];
  lookupRequestId ← parseNullable parseAuthorityId record.["lookupRequestId"];
  authorityGenerationId ← parseAuthorityId record.["authorityGenerationId"];
  authorityGenerationSequence ← parseUint256Decimal record.["authorityGenerationSequence"];
  rootAuthorityEvidenceId ← parseAuthorityId record.["rootAuthorityEvidenceId"];
  rootAuthorityEvidenceDigest ← parseHash32 record.["rootAuthorityEvidenceDigest"];
  refundPolicyId ← parseAuthorityId record.["refundPolicyId"];
  refundPolicyRevision ← parseUint256Decimal record.["refundPolicyRevision"];
  verifierPolicyId ← parseAuthorityId record.["verifierPolicyId"];
  verifierPolicyRevision ← parseUint256Decimal record.["verifierPolicyRevision"];
  verifierKeyId ← parseAuthorityId record.["verifierKeyId"];
  Ok {| ac_attestationId := attestationId; ac_attestationKind := ac_attestationKind expected;
        ac_attestationDomainSeparatorDigest := attestationDomainSeparatorDigest;
        ac_canonicalPayloadDigest := canonicalPayloadDigest; ac_signatureDigest := signatureDigest;
        ac_signer := signer; ac_issuerDeviceCredentialId := issuerDeviceCredentialId;
        ac_project := project; ac_purchaseEvidenceId := purchaseEvidenceId;
        ac_purchaseEvidenceDigest := purchaseEvidenceDigest; ac_resourceDigest := resourceDigest;
        ac_ledgerSequence := ledgerSequence; ac_lookupRequestId := lookupRequestId;
        ac_authorityGenerationId := authorityGenerationId;
        ac_authorityGenerationSequence := authorityGenerationSequence;
        ac_rootAuthorityEvidenceId := rootAuthorityEvidenceId;
        ac_rootAuthorityEvidenceDigest := rootAuthorityEvidenceDigest;
        ac_refundPolicyId := refundPolicyId; ac_refundPolicyRevision := refundPolicyRevision;
        ac_verifierPolicyId := verifierPolicyId; ac_verifierPolicyRevision := verifierPolicyRevision;
        ac_verifierKeyId := verifierKeyId |}.

Definition claimsDiffer (c e : AttestedClaim) : bool :=
  (ac_attestationDomainSeparatorDigest c !== ac_attestationDomainSeparatorDigest e)
  || (ac_canonicalPayloadDigest c !== ac_canonicalPayloadDigest e)
  || (ac_signatureDigest c !== ac_signatureDigest e) || (ac_signer c !== ac_signer e)
  || (ac_issuerDeviceCredentialId c !== ac_issuerDeviceCredentialId e)
  || negb (sameJuiceboxV6ProjectRef (ac_project c) (ac_project e))
  || (ac_purchaseEvidenceId c !== ac_purchaseEvidenceId e)
  || (ac_purchaseEvidenceDigest c !== ac_purchaseEvidenceDigest e)
  || (ac_resourceDigest c !== ac_resourceDigest e) || (ac_ledgerSequence c !== ac_ledgerSequence e)
  || (ac_lookupRequestId c !== ac_lookupRequestId e)
  || (ac_authorityGenerationId c !== ac_authorityGenerationId e)
  || (ac_authorityGenerationSequence c !== ac_authorityGenerationSequence e)
  || (ac_rootAuthorityEvidenceId c !== ac_rootAuthorityEvidenceId e)
  || (ac_rootAuthorityEvidenceDigest c !== ac_rootAuthorityEvidenceDigest e)
  || (ac_refundPolicyId c !== ac_refundPolicyId e)
  || (ac_refundPolicyRevision c !== ac_refundPolicyRevision e)
  || (ac_verifierPolicyId c !== ac_verifierPolicyId e)
  || (ac_verifierPolicyRevision c !== ac_verifierPolicyRevision e)
  || (ac_verifierKeyId c !== ac_verifierKeyId e).

Definition VERIFIED_FIELDS : list string :=
  ["status"; "attestationId"; "attestationKind"; "verificationEvidenceId"; "verificationEvidenceDigest";
   "attestationDomain"; "signatureScheme"; "primaryType"; "attestationDomainSeparatorDigest";
   "canonicalPayloadDigest"; "signatureDigest"; "signer"; "issuerDeviceCredentialId"; "project";
   "purchaseEvidenceId"; "purchaseEvidenceDigest"; "resourceDigest"; "ledgerSequence";
   "lookupRequestId"; "authorityGenerationId"; "authorityGenerationSequence";
   "rootAuthorityEvidenceId"; "rootAuthorityEvidenceDigest"; "refundPolicyId"; "refundPolicyRevision";
   "verifierPolicyId"; "verifierPolicyRevision"; "verifierKeyId"; "verificationMethod"; "verifiedAt"].

Definition parseVerifiedAttestation (value : unknown) (expected : RefundAttestationVerificationExpectation) :
  result VerifiedRefundAttestation :=
  let claimed := xa_claim expected in
  record ← expectExactRecord value VERIFIED_FIELDS;
  claim ← parseAttestedClaim record claimed;
  verifiedAt ← parseCanonicalInstant record.["verifiedAt"];
  refuse_if (negb (isString record.["attestationKind"] (lit (ac_attestationKind claimed)))
             || negb (isString record.["attestationDomain"] REFUND_DOMAIN)
             || negb (isString record.["signatureScheme"] "eip712-v4")
             || negb (isString record.["primaryType"] (primaryType (ac_attestationKind claimed)))
             || claimsDiffer claim claimed
             || (instantMilliseconds verifiedAt <? instantMilliseconds (xa_notBefore expected))
             || (instantMilliseconds (xa_now expected) <? instantMilliseconds verifiedAt));;
  verificationMethod ← parseLiteral record.["verificationMethod"];
  verificationEvidenceId ← parseAuthorityId record.["verificationEvidenceId"];
  verificationEvidenceDigest ← parseHash32 record.["verificationEvidenceDigest"];
  expectedDigest ← computeRefundVerificationEvidenceDigest
    (claim_evidence_obj claim verificationEvidenceId verificationMethod verifiedAt);
  refuse_if (verificationEvidenceDigest !== expectedDigest);;
  Ok {| va_claim := claim; va_verificationEvidenceId := verificationEvidenceId;
        va_verificationEvidenceDigest := verificationEvidenceDigest;
        va_verificationMethod := verificationMethod; va_verifiedAt := verifiedAt |}.

Definition parseRefundAttestationVerificationResult (value : unknown)
    (expected : RefundAttestationVerificationExpectation) : result RefundAttestationVerificationResult :=
  r ← expectObject value;
  let status := r.["status"] in
  if isString status "invalid" then
    record ← expectExactRecord value ["status"; "attestationId"; "reasonCode"];
    attestationId ← parseExpectedAttestationId record.["attestationId"] (xa_claim expected);
    reasonCode ← parseLiteral record.["reasonCode"];
    Ok (attestation_invalid attestationId reasonCode)
  else if isString status "unavailable" then
    record ← expectExactRecord value ["status"; "attestationId"; "reasonCode"];
    attestationId ← parseExpectedAttestationId record.["attestationId"] (xa_claim expected);
    reasonCode ← parseLiteral record.["reasonCode"];
    Ok (attestation_unavailable attestationId reasonCode)
  else
    refuse_if (negb (isString status "verified"));;
    attestation_verified <$> parseVerifiedAttestation value expected.

Definition requireVerifiedRefundAttestation (value : unknown)
    (expected : RefundAttestationVerificationExpectation) : result VerifiedRefundAttestation :=
  verdict ← parseRefundAttestationVerificationResult value expected;
  match verdict with attestation_verified v => Ok v | _ => invalid end.

(** ** The expectation *)

Definition parseObservedHead (value : unknown) (resource : RefundEligibilityResource) (resourceDigest : string) :
  result ObservedRefundLedgerHead :=
  observed ← expectExactRecord value
    ["resourceDigest"; "sequence"; "headDigest"; "ledgerRecordedAt"; "currentStatus"; "currentRecordId";
     "currentRecordDigest"; "eligibilityEffect"; "currentCase"];
  observedResourceDigest ← parseHash32 observed.["resourceDigest"];
  refuse_if (observedResourceDigest !== resourceDigest);;
  currentStatus ← parseLiteral observed.["currentStatus"];
  eligibilityEffect ← parseLiteral observed.["eligibilityEffect"];
  currentRecordId ← parseNullable parseAuthorityId observed.["currentRecordId"];
  currentRecordDigest ← parseNullable parseHash32 observed.["currentRecordDigest"];
  currentCase ← parseObservedRefundOrderCase observed.["currentCase"] resource;
  refuse_if match currentStatus with
            | head_recorded => (currentRecordId === None) || (currentRecordDigest === None)
                               || negb (bool_decide (is_Some currentCase))
            | head_no_applicable_entry =>
                (currentRecordId !== None) || (currentRecordDigest !== None)
                || bool_decide (is_Some currentCase) || (eligibilityEffect !== effect_clear)
            end;;
  refuse_if match currentCase with
            | None => false
            | Some c => eligibilityEffect !== refundEligibilityEffect (oc_state c) (oc_resolution c)
            end;;
  sequence ← parseUint256Decimal observed.["sequence"];
  headDigest ← parseHash32 observed.["headDigest"];
  ledgerRecordedAt ← parseCanonicalInstant observed.["ledgerRecordedAt"];
  Ok {| oh_resourceDigest := observedResourceDigest; oh_sequence := sequence; oh_headDigest := headDigest;
        oh_ledgerRecordedAt := ledgerRecordedAt; oh_currentStatus := currentStatus;
        oh_currentRecordId := currentRecordId; oh_currentRecordDigest := currentRecordDigest;
        oh_eligibilityEffect := eligibilityEffect; oh_currentCase := currentCase |}.

Definition resource_binding (purchase : CanonicalPurchaseEvidence) (resource : RefundEligibilityResource) :
  unknown :=
  obj [("project", project_obj (pc_project (pu_common purchase)));
       ("purchaseEvidenceId", VString (pc_evidenceId (pu_common purchase)));
       ("purchaseEvidenceDigest", VString (pu_evidenceDigest purchase));
       ("resource", eligibility_obj resource)].

Definition parseSigner (record : record) (signerKey : string) : result RefundSigner :=
  businessSigner ← parseAddress record.[signerKey];
  issuerDeviceCredentialId ← parseAuthorityId record.["issuerDeviceCredentialId"];
  issuerWalletVerificationEvidenceId ← parseAuthorityId record.["issuerWalletVerificationEvidenceId"];
  rootAuthorityEvidenceId ← parseAuthorityId record.["rootAuthorityEvidenceId"];
  rootAuthorityEvidenceDigest ← parseHash32 record.["rootAuthorityEvidenceDigest"];
  rootSignerProofDigest ← parseHash32 record.["rootSignerProofDigest"];
  policyId ← parseAuthorityId record.["policyId"];
  policyRevision ← parseUint256Decimal record.["policyRevision"];
  Ok {| rs_businessSigner := businessSigner; rs_issuerDeviceCredentialId := issuerDeviceCredentialId;
        rs_issuerWalletVerificationEvidenceId := issuerWalletVerificationEvidenceId;
        rs_rootAuthorityEvidenceId := rootAuthorityEvidenceId;
        rs_rootAuthorityEvidenceDigest := rootAuthorityEvidenceDigest;
        rs_rootSignerProofDigest := rootSignerProofDigest; rs_policyId := policyId;
        rs_policyRevision := policyRevision |}.

(** For a purchase that is in the registry. *)
Definition expectationOf (value : unknown) (purchase : CanonicalPurchaseEvidence) :
  result RefundLedgerExpectation :=
  record ← expectExactRecord value
    ["resource"; "authorityGenerationId"; "authorityGenerationSequence"; "rootAuthorityEvidenceId";
     "rootAuthorityEvidenceDigest"; "rootSigner"; "rootSignerProofDigest"; "issuerDeviceCredentialId";
     "issuerWalletVerificationEvidenceId"; "policyId"; "policyRevision"; "lookupRequestId";
     "lookupChallengeDigest"; "now"; "maximumHeadAgeMilliseconds"; "latestObservedHead";
     "refundAttestationDomainSeparatorDigest"; "attestationVerifierPolicyId";
     "attestationVerifierPolicyRevision"; "attestationVerifierKeyId"];
  resource ← parseRefundEligibilityResource record.["resource"] purchase;
  resourceDigest ← computeRefundEligibilityResourceDigest (resource_binding purchase resource);
  maximumHeadAgeMilliseconds ← parseBoundedCount record.["maximumHeadAgeMilliseconds"] 1
    MAXIMUM_REFUND_LEDGER_HEAD_AGE_MILLISECONDS;
  latestObservedHead ←
    parseNullable (λ head, parseObservedHead head resource resourceDigest) record.["latestObservedHead"];
  now ← parseCanonicalInstant record.["now"];
  refuse_if match latestObservedHead with
            | None => false
            | Some head => instantMilliseconds now <? instantMilliseconds (oh_ledgerRecordedAt head)
            end;;
  authorityGenerationId ← parseAuthorityId record.["authorityGenerationId"];
  authorityGenerationSequence ← parseUint256Decimal record.["authorityGenerationSequence"];
  signer ← parseSigner record "rootSigner";
  lookupRequestId ← parseAuthorityId record.["lookupRequestId"];
  lookupChallengeDigest ← parseHash32 record.["lookupChallengeDigest"];
  domainSeparator ← parseHash32 record.["refundAttestationDomainSeparatorDigest"];
  verifierPolicyId ← parseAuthorityId record.["attestationVerifierPolicyId"];
  verifierPolicyRevision ← parseUint256Decimal record.["attestationVerifierPolicyRevision"];
  verifierKeyId ← parseAuthorityId record.["attestationVerifierKeyId"];
  Ok {| rx_project := pc_project (pu_common purchase);
        rx_purchaseEvidenceId := pc_evidenceId (pu_common purchase);
        rx_purchaseEvidenceDigest := pu_evidenceDigest purchase; rx_resource := resource;
        rx_resourceDigest := resourceDigest; rx_authorityGenerationId := authorityGenerationId;
        rx_authorityGenerationSequence := authorityGenerationSequence; rx_signer := signer;
        rx_lookupRequestId := lookupRequestId; rx_lookupChallengeDigest := lookupChallengeDigest;
        rx_now := now; rx_maximumHeadAgeMilliseconds := maximumHeadAgeMilliseconds;
        rx_latestObservedHead := latestObservedHead;
        rx_refundAttestationDomainSeparatorDigest := domainSeparator;
        rx_attestationVerifierPolicyId := verifierPolicyId;
        rx_attestationVerifierPolicyRevision := verifierPolicyRevision;
        rx_attestationVerifierKeyId := verifierKeyId |}.

(** ** Envelope, record and head *)

Definition envelopeDetached (a : RefundAttestationSignatureEnvelope) (computedSignatureDigest : string)
    (canonicalPayloadDigest ledgerSequence : string) (expected : RefundLedgerExpectation) : bool :=
  let signer := rx_signer expected in
  (en_attestationDomainSeparatorDigest a !== rx_refundAttestationDomainSeparatorDigest expected)
  || (en_canonicalPayloadDigest a !== canonicalPayloadDigest)
  || (en_signatureDigest a !== computedSignatureDigest)
  || (en_claimedSigner a !== rs_businessSigner signer)
  || (en_issuerDeviceCredentialId a !== rs_issuerDeviceCredentialId signer)
  || (en_ledgerSequence a !== ledgerSequence)
  || (en_authorityGenerationId a !== rx_authorityGenerationId expected)
  || (en_authorityGenerationSequence a !== rx_authorityGenerationSequence expected)
  || (en_rootAuthorityEvidenceId a !== rs_rootAuthorityEvidenceId signer)
  || (en_rootAuthorityEvidenceDigest a !== rs_rootAuthorityEvidenceDigest signer).

Definition parseRefundAttestationEnvelope (value : unknown) (kind : AttestationKind)
    (payloadDigest sequence : string) (expected : RefundLedgerExpectation) :
  result RefundAttestationSignatureEnvelope :=
  record ← expectExactRecord value
    ["kind"; "attestationId"; "attestationKind"; "attestationDomain"; "signatureScheme"; "primaryType";
     "payloadBinding"; "attestationDomainSeparatorDigest"; "canonicalPayloadDigest"; "signature";
     "signatureDigest"; "claimedSigner"; "issuerDeviceCredentialId"; "ledgerSequence";
     "authorityGenerationId"; "authorityGenerationSequence"; "rootAuthorityEvidenceId";
     "rootAuthorityEvidenceDigest"];
  refuse_if (negb (isString record.["kind"] "refund-attestation-signature-envelope.v1")
             || negb (isString record.["attestationKind"] (lit kind))
             || negb (isString record.["attestationDomain"] REFUND_DOMAIN)
             || negb (isString record.["signatureScheme"] "eip712-v4")
             || negb (isString record.["primaryType"] (primaryType kind))
             || negb (isString record.["payloadBinding"] (payloadBinding kind)));;
  attestationDomainSeparatorDigest ← parseHash32 record.["attestationDomainSeparatorDigest"];
  canonicalPayloadDigest ← parseHash32 record.["canonicalPayloadDigest"];
  signature ← parseHexBytes record.["signature"] 1 16384;
  signatureDigest ← parseHash32 record.["signatureDigest"];
  claimedSigner ← parseAddress record.["claimedSigner"];
  issuerDeviceCredentialId ← parseAuthorityId record.["issuerDeviceCredentialId"];
  authorityGenerationId ← parseAuthorityId record.["authorityGenerationId"];
  ledgerSequence ← parseUint256Decimal record.["ledgerSequence"];
  authorityGenerationSequence ← parseUint256Decimal record.["authorityGenerationSequence"];
  rootAuthorityEvidenceId ← parseAuthorityId record.["rootAuthorityEvidenceId"];
  rootAuthorityEvidenceDigest ← parseHash32 record.["rootAuthorityEvidenceDigest"];
  computedSignatureDigest ← computeRefundSignatureDigest signature;
  attestationId ← parseAuthorityId record.["attestationId"];
  let envelope :=
    {| en_attestationId := attestationId; en_attestationKind := kind;
       en_attestationDomainSeparatorDigest := attestationDomainSeparatorDigest;
       en_canonicalPayloadDigest := canonicalPayloadDigest; en_signature := signature;
       en_signatureDigest := signatureDigest; en_claimedSigner := claimedSigner;
       en_issuerDeviceCredentialId := issuerDeviceCredentialId; en_ledgerSequence := ledgerSequence;
       en_authorityGenerationId := authorityGenerationId;
       en_authorityGenerationSequence := authorityGenerationSequence;
       en_rootAuthorityEvidenceId := rootAuthorityEvidenceId;
       en_rootAuthorityEvidenceDigest := rootAuthorityEvidenceDigest |} in
  refuse_if (envelopeDetached envelope computedSignatureDigest payloadDigest sequence expected);;
  Ok envelope.

(** The checks a record and a head share: project, purchase, generation and
    signer. *)
Definition parseScopedPurchase (record : record) (expected : RefundLedgerExpectation) :
  result (JuiceboxV6ProjectRef * string * string) :=
  project ← parseJuiceboxV6ProjectRef record.["project"];
  purchaseEvidenceId ← parseAuthorityId record.["purchaseEvidenceId"];
  assertRefundExpectation project purchaseEvidenceId expected;;
  purchaseEvidenceDigest ← parseHash32 record.["purchaseEvidenceDigest"];
  refuse_if (purchaseEvidenceDigest !== rx_purchaseEvidenceDigest expected);;
  Ok (project, purchaseEvidenceId, purchaseEvidenceDigest).
Definition parseCurrentGeneration (record : record) (expected : RefundLedgerExpectation) :
  result (string * string) :=
  authorityGenerationId ← parseAuthorityId record.["authorityGenerationId"];
  authorityGenerationSequence ← parseUint256Decimal record.["authorityGenerationSequence"];
  refuse_if ((authorityGenerationId !== rx_authorityGenerationId expected)
             || (authorityGenerationSequence !== rx_authorityGenerationSequence expected));;
  Ok (authorityGenerationId, authorityGenerationSequence).
Definition parseCurrentSigner (record : record) (expected : RefundLedgerExpectation) : result RefundSigner :=
  signer ← parseSigner record "businessSigner";
  assertRefundSignerAndPolicy signer expected;;
  Ok signer.

Definition parseRefundRecord (value : unknown) (expected : RefundLedgerExpectation) :
  result SignedRefundLedgerRecord :=
  record ← expectExactRecord value
    ["kind"; "refundRecordId"; "project"; "purchaseEvidenceId"; "purchaseEvidenceDigest";
     "ledgerSequence"; "orderCaseRevision"; "priorLedgerHeadDigest"; "state"; "resolution";
     "eligibilityEffect"; "scope"; "refundAmount"; "businessSigner"; "issuerDeviceCredentialId";
     "issuerWalletVerificationEvidenceId"; "rootAuthorityEvidenceId"; "rootAuthorityEvidenceDigest";
     "rootSignerProofDigest"; "authorityGenerationId"; "authorityGenerationSequence"; "effectiveAt";
     "recordedAt"; "policyId"; "policyRevision"; "auditRecordId"; "source"; "chainEventInference";
     "attestation"];
  refuse_if (negb (isString record.["kind"] "signed-business-refund-ledger-record.v1")
             || negb (isString record.["source"] "offchain-business-ledger")
             || negb (isString record.["chainEventInference"] "forbidden"));;
  '(state, resolution) ← parseCaseState record.["state"] record.["resolution"];
  let eligibilityEffect := refundEligibilityEffect state resolution in
  refuse_if (negb (isString record.["eligibilityEffect"] (lit eligibilityEffect)));;
  refundAmount ← parseRefundAmount record.["refundAmount"];
  refuse_if (if decide (resolution = Some resolved_refund) then negb (bool_decide (is_Some refundAmount))
             else bool_decide (is_Some refundAmount));;
  '(project, purchaseEvidenceId, purchaseEvidenceDigest) ← parseScopedPurchase record expected;
  '(authorityGenerationId, authorityGenerationSequence) ← parseCurrentGeneration record expected;
  signer ← parseCurrentSigner record expected;
  effectiveAt ← parseCanonicalInstant record.["effectiveAt"];
  recordedAt ← parseCanonicalInstant record.["recordedAt"];
  refuse_if (instantMilliseconds recordedAt <? instantMilliseconds effectiveAt);;
  ledgerSequence ← parseUint256Decimal record.["ledgerSequence"];
  priorLedgerHeadDigest ← parseHash32 record.["priorLedgerHeadDigest"];
  refuse_if match rx_latestObservedHead expected with
            | None => false
            | Some observed =>
                (BigInt ledgerSequence =? BigInt (oh_sequence observed) + 1)
                && (priorLedgerHeadDigest !== oh_headDigest observed)
            end;;
  scope ← parseRefundScope record.["scope"];
  assertRefundScopeAppliesToResource scope (rx_resource expected);;
  refundRecordId ← parseAuthorityId record.["refundRecordId"];
  orderCaseRevision ← parseUint256Decimal record.["orderCaseRevision"];
  auditRecordId ← parseAuthorityId record.["auditRecordId"];
  let payload :=
    {| rr_refundRecordId := refundRecordId; rr_project := project;
       rr_purchaseEvidenceId := purchaseEvidenceId; rr_purchaseEvidenceDigest := purchaseEvidenceDigest;
       rr_ledgerSequence := ledgerSequence;
       rr_case := {| oc_orderCaseRevision := orderCaseRevision; oc_state := state;
                     oc_resolution := resolution; oc_scope := scope |};
       rr_priorLedgerHeadDigest := priorLedgerHeadDigest; rr_eligibilityEffect := eligibilityEffect;
       rr_refundAmount := refundAmount; rr_signer := signer;
       rr_authorityGenerationId := authorityGenerationId;
       rr_authorityGenerationSequence := authorityGenerationSequence; rr_effectiveAt := effectiveAt;
       rr_recordedAt := recordedAt; rr_auditRecordId := auditRecordId |} in
  canonicalPayloadDigest ← computeRefundRecordCanonicalPayloadDigest (record_obj payload);
  assertRefundOrderCaseTransition payload canonicalPayloadDigest expected;;
  attestation ← parseRefundAttestationEnvelope record.["attestation"] attest_record canonicalPayloadDigest
    ledgerSequence expected;
  Ok {| sr_payload := payload; sr_attestation := attestation |}.

Definition parseRefundLedgerHead (value : unknown) (expected : RefundLedgerExpectation) :
  result RefundLedgerHead :=
  record ← expectExactRecord value
    ["kind"; "headId"; "project"; "purchaseEvidenceId"; "purchaseEvidenceDigest"; "resource";
     "resourceDigest"; "sequence"; "priorHeadDigest"; "headDigest"; "lookupRequestId";
     "lookupChallengeDigest"; "currentStatus"; "currentRecordId"; "currentRecordDigest";
     "eligibilityEffect"; "businessSigner"; "issuerDeviceCredentialId";
     "issuerWalletVerificationEvidenceId"; "rootAuthorityEvidenceId"; "rootAuthorityEvidenceDigest";
     "rootSignerProofDigest"; "authorityGenerationId"; "authorityGenerationSequence";
     "ledgerRecordedAt"; "signedAt"; "policyId"; "policyRevision"; "auditRecordId"; "attestation"];
  refuse_if (negb (isString record.["kind"] "signed-business-refund-ledger-head.v1"));;
  '(project, purchaseEvidenceId, purchaseEvidenceDigest) ← parseScopedPurchase record expected;
  resource ← parseSignedRefundEligibilityResource record.["resource"] (rx_resource expected);
  resourceDigest ← parseHash32 record.["resourceDigest"];
  refuse_if (resourceDigest !== rx_resourceDigest expected);;
  '(authorityGenerationId, authorityGenerationSequence) ← parseCurrentGeneration record expected;
  currentStatus ← parseLiteral record.["currentStatus"];
  eligibilityEffect ← parseLiteral record.["eligibilityEffect"];
  currentRecordId ← parseNullable parseAuthorityId record.["currentRecordId"];
  currentRecordDigest ← parseNullable parseHash32 record.["currentRecordDigest"];
  refuse_if match currentStatus with
            | head_recorded => (currentRecordId === None) || (currentRecordDigest === None)
            | head_no_applicable_entry =>
                (currentRecordId !== None) || (currentRecordDigest !== None)
                || (eligibilityEffect !== effect_clear)
            end;;
  signer ← parseCurrentSigner record expected;
  sequence ← parseUint256Decimal record.["sequence"];
  priorHeadDigest ← parseHash32 record.["priorHeadDigest"];
  headDigest ← parseHash32 record.["headDigest"];
  headId ← parseAuthorityId record.["headId"];
  lookupRequestId ← parseAuthorityId record.["lookupRequestId"];
  lookupChallengeDigest ← parseHash32 record.["lookupChallengeDigest"];
  refuse_if ((lookupRequestId !== rx_lookupRequestId expected)
             || (lookupChallengeDigest !== rx_lookupChallengeDigest expected));;
  ledgerRecordedAt ← parseCanonicalInstant record.["ledgerRecordedAt"];
  signedAt ← parseCanonicalInstant record.["signedAt"];
  auditRecordId ← parseAuthorityId record.["auditRecordId"];
  let stableHead :=
    {| sh_headId := headId; sh_project := project; sh_purchaseEvidenceId := purchaseEvidenceId;
       sh_purchaseEvidenceDigest := purchaseEvidenceDigest; sh_resource := resource;
       sh_resourceDigest := resourceDigest; sh_sequence := sequence;
       sh_priorHeadDigest := priorHeadDigest; sh_currentStatus := currentStatus;
       sh_currentRecordId := currentRecordId; sh_currentRecordDigest := currentRecordDigest;
       sh_eligibilityEffect := eligibilityEffect; sh_signer := signer;
       sh_authorityGenerationId := authorityGenerationId;
       sh_authorityGenerationSequence := authorityGenerationSequence;
       sh_ledgerRecordedAt := ledgerRecordedAt; sh_auditRecordId := auditRecordId |} in
  stableDigest ← computeRefundStableHeadDigest (stable_obj stableHead);
  refuse_if (headDigest !== stableDigest);;
  assertRefundHeadFreshAndMonotonic sequence priorHeadDigest headDigest ledgerRecordedAt signedAt expected;;
  refuse_if match rx_latestObservedHead expected with
            | None => false
            | Some observed =>
                (BigInt sequence =? BigInt (oh_sequence observed) + 1)
                && (oh_currentStatus observed === head_recorded)
                && (currentStatus === head_no_applicable_entry)
            end;;
  canonicalPayloadDigest ← computeRefundHeadCanonicalPayloadDigest
    (head_obj stableHead headDigest lookupRequestId lookupChallengeDigest signedAt);
  attestation ← parseRefundAttestationEnvelope record.["attestation"] attest_head canonicalPayloadDigest
    sequence expected;
  Ok {| hd_stable := stableHead; hd_headDigest := headDigest; hd_lookupRequestId := lookupRequestId;
        hd_lookupChallengeDigest := lookupChallengeDigest; hd_signedAt := signedAt;
        hd_attestation := attestation |}.

(** ** Preparing and finalizing *)

Definition recordDetached (head : RefundLedgerHead) (record : SignedRefundLedgerRecord) : bool :=
  let h := hd_stable head in
  let r := sr_payload record in
  (rr_ledgerSequence r !== sh_sequence h) || (rr_priorLedgerHeadDigest r !== sh_priorHeadDigest h)
  || (rr_recordedAt r !== sh_ledgerRecordedAt h) || (sh_currentStatus h !== head_recorded)
  || (sh_currentRecordId h !== Some (rr_refundRecordId r))
  || (sh_currentRecordDigest h !== Some (en_canonicalPayloadDigest (sr_attestation record)))
  || (sh_eligibilityEffect h !== rr_eligibilityEffect r).

(** For an expectation that is in the registry. *)
Definition preparedOf (value : unknown) (expected : RefundLedgerExpectation) :
  result PreparedRefundLedgerState :=
  r ← expectObject value;
  let status := r.["status"] in
  if isString status "not-evaluated" then
    record ← expectExactRecord value ["status"; "eligibilityEffect"];
    refuse_if (negb (isString record.["eligibilityEffect"] "block"));;
    Ok prepared_not_evaluated
  else if isString status "unavailable" then
    record ← expectExactRecord value ["status"; "eligibilityEffect"; "reasonCode"];
    reasonCode ← parseLiteral record.["reasonCode"];
    refuse_if (negb (isString record.["eligibilityEffect"] "block"));;
    Ok (prepared_unavailable reasonCode)
  else if isString status "evaluated-no-applicable-entry" then
    record ← expectExactRecord value
      ["status"; "eligibilityEffect"; "project"; "purchaseEvidenceId"; "head"; "evaluatedAt"];
    refuse_if (negb (isString record.["eligibilityEffect"] "clear"));;
    project ← parseJuiceboxV6ProjectRef record.["project"];
    purchaseEvidenceId ← parseAuthorityId record.["purchaseEvidenceId"];
    assertRefundExpectation project purchaseEvidenceId expected;;
    head ← parseRefundLedgerHead record.["head"] expected;
    let h := hd_stable head in
    refuse_if ((sh_currentStatus h !== head_no_applicable_entry) || (sh_currentRecordId h !== None)
               || (sh_currentRecordDigest h !== None) || (sh_eligibilityEffect h !== effect_clear));;
    evaluatedAt ← parseCanonicalInstant record.["evaluatedAt"];
    refuse_if ((instantMilliseconds evaluatedAt <? instantMilliseconds (hd_signedAt head))
               || (instantMilliseconds (rx_now expected) <? instantMilliseconds evaluatedAt));;
    Ok (prepared_no_entry project purchaseEvidenceId head evaluatedAt
          (refundHeadAttestationExpectation head expected))
  else if isString status "recorded" then
    outer ← expectExactRecord value ["status"; "eligibilityEffect"; "head"; "record"];
    head ← parseRefundLedgerHead outer.["head"] expected;
    record ← parseRefundRecord outer.["record"] expected;
    refuse_if (recordDetached head record
               || negb (isString outer.["eligibilityEffect"] (lit (rr_eligibilityEffect (sr_payload record)))));;
    Ok (prepared_recorded head record (refundHeadAttestationExpectation head expected)
          (refundRecordAttestationExpectation record expected))
  else invalid.

(** For a state that is in the registry. *)
Definition finalized (state : PreparedRefundLedgerState) (bundle : unknown) : result RefundLedgerResult :=
  bundle ← expectExactRecord bundle ["head"; "currentRecord"];
  let noVerifications := refuse_if (negb (isNull bundle.["head"]) || negb (isNull bundle.["currentRecord"])) in
  match state with
  | prepared_not_evaluated => noVerifications;; Ok ledger_not_evaluated
  | prepared_unavailable reasonCode => noVerifications;; Ok (ledger_unavailable reasonCode)
  | prepared_no_entry project purchaseEvidenceId head evaluatedAt headExpectation =>
      refuse_if (negb (isNull bundle.["currentRecord"]));;
      headVerification ← requireVerifiedRefundAttestation bundle.["head"] headExpectation;
      Ok (ledger_no_entry project purchaseEvidenceId head headVerification evaluatedAt)
  | prepared_recorded head record headExpectation recordExpectation =>
      refuse_if (isNull bundle.["currentRecord"]);;
      headVerification ← requireVerifiedRefundAttestation bundle.["head"] headExpectation;
      recordVerification ← requireVerifiedRefundAttestation bundle.["currentRecord"] recordExpectation;
      Ok (ledger_recorded head record headVerification recordVerification)
  end.

(** ** The registries

    The two [WeakSet]s and the [WeakMap] of the module, as the objects put there
    in order.  Objects are frozen, so an object is its value and its position;
    an object from elsewhere, however it looks, is a position that is not
    there. *)
Record Registry := {
  verifiedCanonicalPurchaseResults : list CanonicalPurchaseEvidence;
  validatedRefundLedgerExpectations : list RefundLedgerExpectation;
  preparedRefundLedgerStates : list PreparedRefundLedgerState }.
Definition emptyRegistry : Registry :=
  {| verifiedCanonicalPurchaseResults := []; validatedRefundLedgerExpectations := [];
     preparedRefundLedgerStates := [] |}.

(** [parseCanonicalPurchaseVerificationResult] registers what it verified. *)
Definition registerPurchase (g : Registry) (value : unknown) (policy : FinalityPolicy) (expected : unknown) :
  result (ClaimBoundCanonicalPurchaseVerificationResult * Registry) :=
  verdict ← parseCanonicalPurchaseVerificationResult value policy expected;
  Ok (verdict, match verdict with
               | purchase_verified _ evidence =>
                   {| verifiedCanonicalPurchaseResults := verifiedCanonicalPurchaseResults g ++ [evidence];
                      validatedRefundLedgerExpectations := validatedRefundLedgerExpectations g;
                      preparedRefundLedgerStates := preparedRefundLedgerStates g |}
               | _ => g
               end).

Definition parseRefundLedgerExpectation (g : Registry) (value : unknown) (verifiedPurchase : nat) :
  result (nat * Registry) :=
  match verifiedCanonicalPurchaseResults g !! verifiedPurchase with
  | None => invalid
  | Some purchase =>
      expectation ← expectationOf value purchase;
      Ok (length (validatedRefundLedgerExpectations g),
          {| verifiedCanonicalPurchaseResults := verifiedCanonicalPurchaseResults g;
             validatedRefundLedgerExpectations := validatedRefundLedgerExpectations g ++ [expectation];
             preparedRefundLedgerStates := preparedRefundLedgerStates g |})
  end.

Definition prepareRefundLedgerResult (g : Registry) (value : unknown) (expectedValue : nat) :
  result (nat * Registry) :=
  match validatedRefundLedgerExpectations g !! expectedValue with
  | None => invalid
  | Some expected =>
      state ← preparedOf value expected;
      Ok (length (preparedRefundLedgerStates g),
          {| verifiedCanonicalPurchaseResults := verifiedCanonicalPurchaseResults g;
             validatedRefundLedgerExpectations := validatedRefundLedgerExpectations g;
             preparedRefundLedgerStates := preparedRefundLedgerStates g ++ [state] |})
  end.

(** What the caller may see of a prepared state: the work for the verifier. *)
Definition verificationRequests (state : PreparedRefundLedgerState) :
  option (RefundAttestationSignatureEnvelope * RefundAttestationVerificationExpectation)
  * option (RefundAttestationSignatureEnvelope * RefundAttestationVerificationExpectation) :=
  match state with
  | prepared_not_evaluated | prepared_unavailable _ => (None, None)
  | prepared_no_entry _ _ head _ headExpectation => (Some (hd_attestation head, headExpectation), None)
  | prepared_recorded head record headExpectation recordExpectation =>
      (Some (hd_attestation head, headExpectation), Some (sr_attestation record, recordExpectation))
  end.

Definition finalizeRefundLedgerResult (g : Registry) (prepared : nat) (bundle : unknown) :
  result RefundLedgerResult :=
  match preparedRefundLedgerStates g !! prepared with
  | None => invalid
  | Some state => finalized state bundle
  end.

Definition parseRefundLedgerResult (g : Registry) (value : unknown) (expected : nat) (bundle : unknown) :
  result (RefundLedgerResult * Registry) :=
  '(prepared, g') ← prepareRefundLedgerResult g value expected;
  released ← finalizeRefundLedgerResult g' prepared bundle;
  Ok (released, g').

(** One call; a call that throws changes nothing. *)
Inductive step : Registry → Registry → Prop :=
| step_verify g value policy expected verdict g' :
    registerPurchase g value policy expected = Ok (verdict, g') → step g g'
| step_expect g value purchase handle g' :
    parseRefundLedgerExpectation g value purchase = Ok (handle, g') → step g g'
| step_prepare g value expected handle g' :
    prepareRefundLedgerResult g value expected = Ok (handle, g') → step g g'.
Definition reachable (g : Registry) : Prop := rtc step emptyRegistry g.

(** ** What a state is backed by *)

#[local] Opaque sha256AuthorityDigest.

(** A purchase the module verified, see [AuthorityPurchases.parsePurchaseEvidence_Ok]. *)
Definition grounded (p : CanonicalPurchaseEvidence) : Prop :=
  ∃ policy e, pu_claimId p = cl_claimId (claim_base (pv_claim e)) ∧ paid (pu_common p) e policy ∧ bought e p ∧
    computeCanonicalPurchaseEvidenceDigest (evidence_binding e (pu_common p) (pu_tier p))
      = Ok (pu_evidenceDigest p).

Definition resource_of (r : RefundEligibilityResource) (p : CanonicalPurchaseEvidence) : Prop :=
  match r with
  | support_resource transactionHash payLogIndex =>
      transactionHash = rc_transactionHash (pc_receipt (pu_common p)) ∧
      payLogIndex = lg_logIndex (py_log (pc_pay (pu_common p)))
  | tier_resource item =>
      ∃ t m, pu_tier p = Some t ∧ m ∈ omap id (tp_mints t) ∧
             item = {| ti_tierId := mt_tierId m; ti_tokenId := mt_tokenId m |}
  end.

(** An expectation about a purchase. *)
Record about (x : RefundLedgerExpectation) (p : CanonicalPurchaseEvidence) : Prop := {
  ab_purchase : rx_project x = pc_project (pu_common p) ∧
                rx_purchaseEvidenceId x = pc_evidenceId (pu_common p) ∧
                rx_purchaseEvidenceDigest x = pu_evidenceDigest p;
  ab_resource : resource_of (rx_resource x) p;
  ab_resourceDigest : computeRefundEligibilityResourceDigest (resource_binding p (rx_resource x))
                      = Ok (rx_resourceDigest x);
  ab_observed : ∀ o, rx_latestObservedHead x = Some o → (oh_currentStatus o = head_recorded ↔ is_Some (oh_currentCase o));
  ab_age : 1 <= rx_maximumHeadAgeMilliseconds x <= MAXIMUM_REFUND_LEDGER_HEAD_AGE_MILLISECONDS }.

(** The head is the observed one or extends it by one. *)
Definition follows (h : StableHead) (digest : string) (o : ObservedRefundLedgerHead) : Prop :=
  (BigInt (sh_sequence h) = BigInt (oh_sequence o) ∧ digest = oh_headDigest o ∧
   sh_ledgerRecordedAt h = oh_ledgerRecordedAt o) ∨
  (BigInt (sh_sequence h) = BigInt (oh_sequence o) + 1 ∧ sh_priorHeadDigest h = oh_headDigest o ∧
   Date_parse (oh_ledgerRecordedAt o) <= Date_parse (sh_ledgerRecordedAt h) ∧
   (oh_currentStatus o = head_recorded → sh_currentStatus h = head_recorded)).

(** A head that answers this lookup, now. *)
Record current (head : RefundLedgerHead) (x : RefundLedgerExpectation) : Prop := {
  cu_lookup : hd_lookupRequestId head = rx_lookupRequestId x ∧
              hd_lookupChallengeDigest head = rx_lookupChallengeDigest x;
  cu_purchase : sh_project (hd_stable head) = rx_project x ∧
                sh_purchaseEvidenceId (hd_stable head) = rx_purchaseEvidenceId x ∧
                sh_purchaseEvidenceDigest (hd_stable head) = rx_purchaseEvidenceDigest x ∧
                sh_resource (hd_stable head) = rx_resource x ∧
                sh_resourceDigest (hd_stable head) = rx_resourceDigest x;
  cu_signer : sh_signer (hd_stable head) = rx_signer x ∧
              sh_authorityGenerationId (hd_stable head) = rx_authorityGenerationId x ∧
              sh_authorityGenerationSequence (hd_stable head) = rx_authorityGenerationSequence x;
  cu_fresh : Date_parse (sh_ledgerRecordedAt (hd_stable head)) <= Date_parse (hd_signedAt head)
             <= Date_parse (rx_now x) ∧
             Date_parse (rx_now x) - Date_parse (hd_signedAt head) <= rx_maximumHeadAgeMilliseconds x;
  cu_history : ∀ o, rx_latestObservedHead x = Some o → follows (hd_stable head) (hd_headDigest head) o;
  cu_digest : computeRefundStableHeadDigest (stable_obj (hd_stable head)) = Ok (hd_headDigest head);
  cu_payload : computeRefundHeadCanonicalPayloadDigest
      (head_obj (hd_stable head) (hd_headDigest head) (hd_lookupRequestId head)
         (hd_lookupChallengeDigest head) (hd_signedAt head))
    = Ok (en_canonicalPayloadDigest (hd_attestation head));
  cu_claimed : en_claimedSigner (hd_attestation head) = rs_businessSigner (rx_signer x) }.

(** The state machine of a case. *)
Definition opens (c : OrderCase) : Prop := BigInt (oc_orderCaseRevision c) = 1 ∧ oc_state c ≠ dispute_resolved.
Definition continues (c d : OrderCase) : Prop :=
  BigInt (oc_orderCaseRevision d) = BigInt (oc_orderCaseRevision c) + 1 ∧
  sameRefundScope (oc_scope c) (oc_scope d) = true ∧ oc_state c = dispute_open ∧
  (oc_state d = dispute_open ∨ oc_state d = dispute_resolved).
Definition unchanged (c d : OrderCase) : Prop :=
  oc_orderCaseRevision c = oc_orderCaseRevision d ∧ oc_state c = oc_state d ∧
  oc_resolution c = oc_resolution d ∧ sameRefundScope (oc_scope c) (oc_scope d) = true.
Definition legal (d : OrderCase) (sequence : string) (x : RefundLedgerExpectation) : Prop :=
  match rx_latestObservedHead x with
  | None => opens d
  | Some o =>
      (BigInt sequence = BigInt (oh_sequence o) ∧ ∃ c, oh_currentCase o = Some c ∧ unchanged c d) ∨
      (BigInt sequence = BigInt (oh_sequence o) + 1 ∧
       match oh_currentCase o with None => opens d | Some c => continues c d end)
  end.

Definition consistent (c : OrderCase) : Prop :=
  match oc_state c with
  | refund_recorded => oc_resolution c = Some resolved_refund
  | dispute_open => oc_resolution c = None
  | dispute_resolved => is_Some (oc_resolution c)
  end.

(** A record of the purchase, in a legal state. *)
Record entry (r : SignedRefundLedgerRecord) (x : RefundLedgerExpectation) : Prop := {
  et_purchase : rr_project (sr_payload r) = rx_project x ∧
                rr_purchaseEvidenceId (sr_payload r) = rx_purchaseEvidenceId x ∧
                rr_purchaseEvidenceDigest (sr_payload r) = rx_purchaseEvidenceDigest x;
  et_signer : rr_signer (sr_payload r) = rx_signer x;
  et_case : consistent (rr_case (sr_payload r)) ∧ legal (rr_case (sr_payload r)) (rr_ledgerSequence (sr_payload r)) x;
  et_effect : rr_eligibilityEffect (sr_payload r)
              = refundEligibilityEffect (oc_state (rr_case (sr_payload r))) (oc_resolution (rr_case (sr_payload r)));
  et_amount : is_Some (rr_refundAmount (sr_payload r)) ↔ oc_resolution (rr_case (sr_payload r)) = Some resolved_refund;
  et_payload : computeRefundRecordCanonicalPayloadDigest (record_obj (sr_payload r))
               = Ok (en_canonicalPayloadDigest (sr_attestation r)) }.

Definition backed (s : PreparedRefundLedgerState) (x : RefundLedgerExpectation) : Prop :=
  match s with
  | prepared_not_evaluated | prepared_unavailable _ => True
  | prepared_no_entry project purchaseEvidenceId head evaluatedAt headExpectation =>
      project = rx_project x ∧ purchaseEvidenceId = rx_purchaseEvidenceId x ∧ current head x ∧
      sh_currentStatus (hd_stable head) = head_no_applicable_entry ∧
      headExpectation = refundHeadAttestationExpectation head x
  | prepared_recorded head record headExpectation recordExpectation =>
      current head x ∧ entry record x ∧ recordDetached head record = false ∧
      headExpectation = refundHeadAttestationExpectation head x ∧
      recordExpectation = refundRecordAttestationExpectation record x
  end.

(** The verifier's word for exactly what was asked, in its window. *)
Definition attested (v : VerifiedRefundAttestation) (e : RefundAttestationVerificationExpectation) : Prop :=
  va_claim v = xa_claim e ∧
  Date_parse (xa_notBefore e) <= Date_parse (va_verifiedAt v) <= Date_parse (xa_now e) ∧
  computeRefundVerificationEvidenceDigest
    (claim_evidence_obj (va_claim v) (va_verificationEvidenceId v) (va_verificationMethod v) (va_verifiedAt v))
    = Ok (va_verificationEvidenceDigest v).

(** ** Reading *)

Lemma parseExpectedAttestation_Ok v e s : parseExpectedAttestationId v e = Ok s → s = ac_attestationId e.
Proof. unfold parseExpectedAttestationId. intros H1. inv_auth. bsimp. congruence. Qed.

Lemma claimsDiffer_false r c e : parseAttestedClaim r e = Ok c → claimsDiffer c e = false → c = e.
Proof.
  unfold parseAttestedClaim, claimsDiffer. intros H1 H2. inv_auth.
  match goal with H : parseExpectedAttestationId _ _ = Ok _ |- _ => apply parseExpectedAttestation_Ok in H end.
  subst c. bsimp. cbn in *.
  match goal with H : sameJuiceboxV6ProjectRef _ _ = true |- _ => apply sameProject_eq in H end. destruct e. cbn in *. by subst.
Qed.

Lemma parseVerified_Ok v e a : parseVerifiedAttestation v e = Ok a → attested a e.
Proof.
  unfold parseVerifiedAttestation. cbv zeta. intros H1. inv_auth. subst a. bsimp. zbool.
  match goal with H : claimsDiffer _ _ = false |- _ => eapply claimsDiffer_false in H; [|done] end. subst.
  unfold attested, instantMilliseconds in *. cbn. done.
Qed.

(** The bundle's answer in a slot: a verdict whose status is "verified", read as
    [v], with everything asked of it. *)
Definition vouched (bundle : unknown) (slot : string) (e : RefundAttestationVerificationExpectation)
    (v : VerifiedRefundAttestation) : Prop :=
  ∃ slots verdict, expectExactRecord bundle ["head"; "currentRecord"] = Ok slots ∧
    expectObject slots.[slot] = Ok verdict ∧ isString verdict.["status"] "verified" = true ∧
    parseRefundAttestationVerificationResult slots.[slot] e = Ok (attestation_verified v) ∧ attested v e.

Lemma requireVerified_Ok bundle slots slot e v :
  expectExactRecord bundle ["head"; "currentRecord"] = Ok slots →
  requireVerifiedRefundAttestation slots.[slot] e = Ok v → vouched bundle slot e v.
Proof.
  unfold requireVerifiedRefundAttestation. intros HB (verdict & H1 & H2)%bind_Ok.
  destruct verdict as [w| |]; [|done..]. injection H2 as ->.
  pose proof H1 as H2. unfold parseRefundAttestationVerificationResult in H1.
  apply bind_Ok in H1 as (r & HR & H1). cbv zeta in H1. exists slots, r.
  destruct (isString _ "invalid"); [by inv_auth|]. destruct (isString _ "unavailable"); [by inv_auth|].
  inv_auth. bsimp. destruct (parseVerifiedAttestation _ e) as [a|] eqn:E; [|done]. injection H1 as ->.
  by apply parseVerified_Ok in E.
Qed.

Lemma parseSignedResource_Ok v e r : parseSignedRefundEligibilityResource v e = Ok r → r = e.
Proof.
  destruct e as [h i|[t k]]; cbn [parseSignedRefundEligibilityResource]; intros H1; inv_auth; subst r; bsimp; zbool; cbn in *; by subst.
Qed.

Lemma scopedPurchase_Ok r x p i d :
  parseScopedPurchase r x = Ok (p, i, d) →
  p = rx_project x ∧ i = rx_purchaseEvidenceId x ∧ d = rx_purchaseEvidenceDigest x.
Proof.
  unfold parseScopedPurchase, assertRefundExpectation. intros H1. inv_auth. bsimp.
  match goal with H : sameJuiceboxV6ProjectRef _ _ = true |- _ => apply sameProject_eq in H end. by simplify_eq.
Qed.

Lemma currentGeneration_Ok r x i s :
  parseCurrentGeneration r x = Ok (i, s) → i = rx_authorityGenerationId x ∧ s = rx_authorityGenerationSequence x.
Proof. unfold parseCurrentGeneration. intros H1. inv_auth. bsimp. by simplify_eq. Qed.

Lemma currentSigner_Ok r x s : parseCurrentSigner r x = Ok s → s = rx_signer x.
Proof.
  unfold parseCurrentSigner, assertRefundSignerAndPolicy. cbv zeta. intros H1. inv_auth. subst. bsimp.
  destruct s, (rx_signer x). cbn in *. by subst.
Qed.

Lemma freshAndMonotonic_Ok sequence prior digest recorded signed x u :
  assertRefundHeadFreshAndMonotonic sequence prior digest recorded signed x = Ok u →
  (Date_parse recorded <= Date_parse signed <= Date_parse (rx_now x) ∧
   Date_parse (rx_now x) - Date_parse signed <= rx_maximumHeadAgeMilliseconds x) ∧
  ∀ o, rx_latestObservedHead x = Some o →
    (BigInt sequence = BigInt (oh_sequence o) ∧ digest = oh_headDigest o ∧ recorded = oh_ledgerRecordedAt o) ∨
    (BigInt sequence = BigInt (oh_sequence o) + 1 ∧ prior = oh_headDigest o ∧
     Date_parse (oh_ledgerRecordedAt o) <= Date_parse recorded).
Proof.
  unfold assertRefundHeadFreshAndMonotonic, instantMilliseconds. cbv zeta. intros (u' & HF%refuse_if_Ok & H1)%bind_Ok.
  bsimp. zbool. split; [lia|]. intros o Ho. rewrite Ho in H1. apply refuse_if_Ok in H1. rewrite !orb_false_iff in H1.
  destruct H1 as [[[E1 E2] E3] E4]. zbool.
  destruct (Z.eq_dec (BigInt sequence) (BigInt (oh_sequence o))) as [E|E].
  - left. rewrite (proj2 (Z.eqb_eq _ _) E) in E3. cbn in E3. bsimp. done.
  - right. assert (E5 : BigInt sequence = BigInt (oh_sequence o) + 1) by lia. split; [done|].
    rewrite (proj2 (Z.eqb_eq _ _) E5) in E4. cbn in E4. bsimp. zbool. done.
Qed.

Lemma parseEnvelope_Ok v k payload sequence x a :
  parseRefundAttestationEnvelope v k payload sequence x = Ok a →
  en_canonicalPayloadDigest a = payload ∧ en_claimedSigner a = rs_businessSigner (rx_signer x).
Proof.
  unfold parseRefundAttestationEnvelope. cbv zeta. intros H1. inv_auth. subst a.
  match goal with H : envelopeDetached _ _ _ _ _ = false |- _ => unfold envelopeDetached in H; cbv zeta in H; cbn in H end. by bsimp.
Qed.

Lemma parseHead_Ok v x head : parseRefundLedgerHead v x = Ok head → current head x.
Proof.
  unfold parseRefundLedgerHead. intros H1. cbv zeta in H1.
  repeat (progress (inv_auth; repeat match goal with p : _ * _ |- _ => destruct p end)). subst head.
  repeat match goal with
  | H : parseScopedPurchase _ _ = Ok _ |- _ => apply scopedPurchase_Ok in H as (? & ? & ?)
  | H : parseCurrentGeneration _ _ = Ok _ |- _ => apply currentGeneration_Ok in H as [? ?]
  | H : parseCurrentSigner _ _ = Ok _ |- _ => apply currentSigner_Ok in H
  | H : parseSignedRefundEligibilityResource _ _ = Ok _ |- _ => apply parseSignedResource_Ok in H
  | H : parseRefundAttestationEnvelope _ _ _ _ _ = Ok _ |- _ => apply parseEnvelope_Ok in H as [? ?]
  | H : assertRefundHeadFreshAndMonotonic _ _ _ _ _ _ = Ok _ |- _ => apply freshAndMonotonic_Ok in H as [? HH]
  end.
  bsimp. subst. constructor; cbn; try done.
  intros o Ho. match goal with H : match rx_latestObservedHead x with Some _ => _ | None => _ end = false |- _ => rewrite Ho in H; rename H into HC end.
  unfold follows. cbn. destruct (HH _ Ho) as [?|(E1 & E2 & E3)]; [by left|right]. split_and!; try done.
  intros ES. rewrite (proj2 (Z.eqb_eq _ _) E1), ES in HC. rewrite bool_decide_eq_true_2 in HC by done. cbn in HC.
  apply bool_decide_eq_false in HC. match type of HC with ?s ≠ _ => by destruct s end.
Qed.

Lemma begins_Ok n s u : beginsCase n s = Ok u → n = 1 ∧ s ≠ dispute_resolved.
Proof. unfold beginsCase. intros H1%refuse_if_Ok. bsimp. by zbool. Qed.

Lemma orderCase_Ok r digest x u :
  assertRefundOrderCaseTransition r digest x = Ok u → legal (rr_case r) (rr_ledgerSequence r) x.
Proof.
  unfold assertRefundOrderCaseTransition, legal. cbv zeta. destruct (rx_latestObservedHead x) as [o|]; [|by intros ?%begins_Ok].
  destruct (BigInt (rr_ledgerSequence r) =? BigInt (oh_sequence o)) eqn:E.
  - apply Z.eqb_eq in E. destruct (oh_currentCase o) as [c|]; [|done]. intros H1%refuse_if_Ok. bsimp.
    left. split; [done|]. exists c. split; [done|]. unfold unchanged. by split_and!.
  - intros (u' & H1%refuse_if_Ok & H2)%bind_Ok. bsimp. zbool. right. split; [done|].
    destruct (oh_currentCase o) as [c|]; [|by apply begins_Ok in H2].
    apply bind_Ok in H2 as (u'' & H2%refuse_if_Ok & H3%refuse_if_Ok). bsimp. zbool. unfold continues. split_and!; try done.
    match goal with H : (_ !== _) && (_ !== _) = false |- _ => apply andb_false_iff in H as [H|H] end; bsimp; tauto.
Qed.

Lemma caseState_Ok v w s r : parseCaseState v w = Ok (s, r) → resolutionConflicts s r = false.
Proof. unfold parseCaseState. intros H1. inv_auth. by simplify_eq. Qed.

Lemma conflicts_false s r scope n :
  resolutionConflicts s r = false →
  consistent {| oc_orderCaseRevision := n; oc_state := s; oc_resolution := r; oc_scope := scope |}.
Proof. destruct s, r as [[]|]; first [done|by eexists]. Qed.

Lemma parseRecord_Ok v x r : parseRefundRecord v x = Ok r → entry r x.
Proof.
  unfold parseRefundRecord. intros H1. cbv zeta in H1.
  repeat (progress (inv_auth; repeat match goal with p : _ * _ |- _ => destruct p end)). subst r.
  repeat match goal with
  | H : parseScopedPurchase _ _ = Ok _ |- _ => apply scopedPurchase_Ok in H as (? & ? & ?)
  | H : parseCurrentSigner _ _ = Ok _ |- _ => apply currentSigner_Ok in H
  | H : parseCaseState _ _ = Ok _ |- _ => apply caseState_Ok in H; rename H into HR
  | H : parseRefundAttestationEnvelope _ _ _ _ _ = Ok _ |- _ => apply parseEnvelope_Ok in H as [? ?]
  | H : assertRefundOrderCaseTransition _ _ _ = Ok _ |- _ => apply orderCase_Ok in H
  end.
  subst. constructor; cbn; try done.
  - split; [by apply conflicts_false|done].
  - match goal with H : (if decide _ then _ else _) = false |- _ => destruct (decide _) in H; bsimp; tauto end.
Qed.

Lemma prepared_Ok v x s : preparedOf v x = Ok s → backed s x.
Proof.
  unfold preparedOf, assertRefundExpectation. intros H1. cbv zeta in H1. inv_auth.
  destruct (isString _ "not-evaluated"); [inv_auth; by subst|]. destruct (isString _ "unavailable"); [inv_auth; by subst|].
  destruct (isString _ "evaluated-no-applicable-entry"); [|destruct (isString _ "recorded"); [|done]]; inv_auth; subst s;
    repeat match goal with
    | H : parseRefundLedgerHead _ _ = Ok _ |- _ => apply parseHead_Ok in H
    | H : parseRefundRecord _ _ = Ok _ |- _ => apply parseRecord_Ok in H
    end; bsimp; unfold backed.
  - match goal with H : sameJuiceboxV6ProjectRef _ _ = true |- _ => apply sameProject_eq in H end. done.
  - done.
Qed.

Lemma resource_Ok v p r : parseRefundEligibilityResource v p = Ok r → resource_of r p.
Proof.
  unfold parseRefundEligibilityResource. intros H1. cbv zeta in H1. inv_auth.
  destruct (isString _ "purchase-support"); [|destruct (isString _ "tier-fulfillment"); [|done]]; inv_auth.
  - subst r. bsimp. by zbool.
  - destruct (pu_tier p) as [t|] eqn:ET; [|done]. inv_auth. subst r. bsimp.
    match goal with H : some_ _ _ = true |- _ => apply existsb_exists in H as (m & Hm & HE) end.
    bsimp. exists t, m. rewrite list_elem_of_In. by simplify_eq.
Qed.

Lemma parseObservedHead_Ok v resource d o :
  parseObservedHead v resource d = Ok o → oh_currentStatus o = head_recorded ↔ is_Some (oh_currentCase o).
Proof.
  unfold parseObservedHead. intros H1. inv_auth. subst o. cbn. destruct (_ : HeadStatus); bsimp; [tauto|].
  split; [done|tauto].
Qed.

Lemma expectation_Ok v p x : expectationOf v p = Ok x → about x p.
Proof.
  unfold expectationOf. intros H1. inv_auth. subst x.
  match goal with H : parseRefundEligibilityResource _ _ = Ok _ |- _ => apply resource_Ok in H end.
  match goal with H : parseBoundedCount _ _ _ = Ok _ |- _ => rename H into HB end.
  constructor; cbn; try done.
  { match goal with H : parseNullable _ _ = Ok _ |- _ => revert H end. unfold parseNullable. destruct (isNull _); [by intros [= <-]|].
    destruct (parseObservedHead _ _ _) as [o|] eqn:EO; [|done]. intros [= <-] o' [= <-]. by eapply parseObservedHead_Ok. }
  revert HB. unfold parseBoundedCount.
  destruct (get _ "maximumHeadAgeMilliseconds") as [| | |[z|]| | | | | | |]; try done. intros (u & H2%refuse_if_Ok & [= <-])%bind_Ok. bsimp. zbool. lia.
Qed.

(** ** What the registries hold *)

Record sound (g : Registry) : Prop := {
  so_verified : Forall grounded (verifiedCanonicalPurchaseResults g);
  so_validated : Forall (λ x, ∃ p, p ∈ verifiedCanonicalPurchaseResults g ∧ about x p)
                   (validatedRefundLedgerExpectations g);
  so_prepared : Forall (λ s, ∃ x, x ∈ validatedRefundLedgerExpectations g ∧ backed s x)
                  (preparedRefundLedgerStates g) }.

Lemma registerPurchase_sound g v policy ev verdict g' :
  registerPurchase g v policy ev = Ok (verdict, g') → sound g → sound g'.
Proof.
  unfold registerPurchase. intros (verdict' & HV & [= <- <-])%bind_Ok [S1 S2 S3].
  destruct verdict' as [id p| | |]; try done. apply verification_Ok in HV as (_ & w & _ & _ & (e & _ & HG)%parsePurchaseEvidence_Ok).
  constructor; cbn; try done.
  - apply Forall_app. split; [done|]. constructor; [|done]. by exists policy, e.
  - eapply Forall_impl; [exact S2|]. intros x (p' & Hp & HA). exists p'. split; [apply elem_of_app; by left|done].
Qed.

Lemma expect_sound g v i h g' : parseRefundLedgerExpectation g v i = Ok (h, g') → sound g → sound g'.
Proof.
  unfold parseRefundLedgerExpectation. destruct (_ !! i) as [p|] eqn:EP; [|done]. apply list_elem_of_lookup_2 in EP.
  intros (x & HX%expectation_Ok & [= <- <-])%bind_Ok [S1 S2 S3]. constructor; cbn; try done.
  - apply Forall_app. split; [done|]. constructor; [|done]. by exists p.
  - eapply Forall_impl; [exact S3|]. intros s (x' & Hx & HB). exists x'. split; [apply elem_of_app; by left|done].
Qed.

Lemma prepare_sound g v i h g' : prepareRefundLedgerResult g v i = Ok (h, g') → sound g → sound g'.
Proof.
  unfold prepareRefundLedgerResult. destruct (_ !! i) as [x|] eqn:EX; [|done]. apply list_elem_of_lookup_2 in EX.
  intros (s & HS%prepared_Ok & [= <- <-])%bind_Ok [S1 S2 S3]. constructor; cbn; try done.
  apply Forall_app. split; [done|]. constructor; [|done]. by exists x.
Qed.

(** Whatever sequence of calls led there: every registered purchase was verified
    on chain evidence, every registered expectation is about one of them and a
    resource it contains, and every prepared result answers a registered
    expectation: a fresh head of the expected signer for this very lookup that
    is the observed head or extends it by one, with, if one is recorded, a record
    in a legal state that the head names by digest. *)
Lemma reachable_sound g : reachable g → sound g.
Proof.
  assert (HS : ∀ a b, rtc step a b → sound a → sound b).
  { induction 1 as [|a b c HAB _ IH]; [done|]. intros HA. apply IH.
    destruct HAB; [by eapply registerPurchase_sound|by eapply expect_sound|by eapply prepare_sound]. }
  intros HR. apply (HS _ _ HR). by constructor.
Qed.

(** ** What a head digest determines *)

Lemma eligibility_inj r s : same_json (eligibility_obj r) (eligibility_obj s) → r = s.
Proof.
  assert (HK : ∀ h i t k, ¬ same_json (eligibility_obj (support_resource h i)) (eligibility_obj (tier_resource {| ti_tierId := t; ti_tokenId := k |}))).
  { intros h i t k HS%(same_json_get _ _ "kind" (VString "purchase-support") (VString "tier-fulfillment"));
      [by apply same_json_string in HS|by apply (bool_decide_unpack _); vm_compute|left..]. }
  destruct r as [h i|[t k]], s as [h' i'|[t' k']]; intros HS.
  - cbn [eligibility_obj] in HS. same_fields HS. by subst.
  - by apply HK in HS.
  - by apply same_json_sym, HK in HS.
  - cbn [eligibility_obj ti_tierId ti_tokenId] in HS. same_fields HS. by subst.
Qed.
Lemma dense_eligibility r : dense (eligibility_obj r) = true.
Proof. by destruct r. Qed.

Lemma stable_inj h k : same_json (stable_obj h) (stable_obj k) → h = k.
Proof.
  unfold stable_obj, stable_fields, signer_fields. cbn [app]. intros HS. same_fields HS.
  repeat match goal with
  | H : same_json (project_obj _) _ |- _ => apply project_inj in H
  | H : same_json (eligibility_obj _) _ |- _ => apply eligibility_inj in H
  end.
  assert (sh_currentStatus h = sh_currentStatus k) by (destruct (sh_currentStatus h), (sh_currentStatus k); done).
  assert (sh_eligibilityEffect h = sh_eligibilityEffect k) by (destruct (sh_eligibilityEffect h), (sh_eligibilityEffect k); done).
  destruct h as [? ? ? ? ? ? ? ? ? ? ? ? [] ? ? ? ?], k as [? ? ? ? ? ? ? ? ? ? ? ? [] ? ? ? ?]. cbn in *. by subst.
Qed.

Definition stable_digested (h : StableHead) : unknown :=
  obj [("kind", VString "refund-stable-head-digest.v1"); ("stableHead", stable_obj h)].
Lemma dense_stable h : dense (stable_digested h) = true.
Proof.
  unfold stable_digested. rewrite dense_obj. cbn [forallb snd andb]. unfold stable_obj, stable_fields, signer_fields. cbn [app].
  rewrite dense_obj. cbn [forallb snd]. rewrite !dense_nullable, dense_eligibility by done. done.
Qed.

Lemma stable_digest_inj h k d :
  computeRefundStableHeadDigest (stable_obj h) = Ok d → computeRefundStableHeadDigest (stable_obj k) = Ok d →
  h = k ∨ collision [authorityPreimage (stable_digested h)] [authorityPreimage (stable_digested k)].
Proof.
  intros H1 H2. destruct (authorityDigest_inj _ _ _ (dense_stable h) (dense_stable k) H1 H2) as [HS|HC]; [left|by right].
  unfold stable_digested in HS. same_fields HS. by apply stable_inj.
Qed.

(** ** What is released *)

(** Why a released result clears the purchase, given the bundle of verdicts it was
    finalized with: no entry in the ledger, or a dispute that was open when last
    seen and was resolved for the purchase.  The attestations it carries are those
    the bundle holds, for the head and, if there is one, for the record. *)
Definition cleared (bundle : unknown) (r : RefundLedgerResult) (head : RefundLedgerHead)
    (x : RefundLedgerExpectation) : Prop :=
  match r with
  | ledger_no_entry project purchaseEvidenceId head' headVerification _ =>
      head' = head ∧ project = rx_project x ∧ purchaseEvidenceId = rx_purchaseEvidenceId x ∧
      sh_currentStatus (hd_stable head) = head_no_applicable_entry ∧
      vouched bundle "head" (refundHeadAttestationExpectation head x) headVerification
  | ledger_recorded head' record headVerification recordVerification =>
      head' = head ∧
      vouched bundle "head" (refundHeadAttestationExpectation head x) headVerification ∧
      vouched bundle "currentRecord" (refundRecordAttestationExpectation record x) recordVerification ∧
      sh_currentRecordDigest (hd_stable head) = Some (en_canonicalPayloadDigest (sr_attestation record)) ∧
      computeRefundRecordCanonicalPayloadDigest (record_obj (sr_payload record))
        = Ok (en_canonicalPayloadDigest (sr_attestation record)) ∧
      let case := rr_case (sr_payload record) in
      oc_state case = dispute_resolved ∧ oc_resolution case = Some purchase_upheld ∧
      ∃ o c, rx_latestObservedHead x = Some o ∧ oh_currentCase o = Some c ∧ (unchanged c case ∨ continues c case)
  | _ => False
  end.

Lemma finalized_backed s x b r :
  backed s x → finalized s b = Ok r → result_effect r = effect_clear →
  ∃ head, current head x ∧ cleared b r head x.
Proof.
  intros HB HF HE. unfold finalized in HF. apply bind_Ok in HF as (slots & HX & HF). cbv zeta in HF.
  destruct s as [|reason|project id head at_ he|head record he hr]; [by inv_auth; subst|by inv_auth; subst| |].
  - destruct HB as (-> & -> & HC & HS & ->). inv_auth. subst r.
    match goal with H : requireVerifiedRefundAttestation _ _ = Ok _ |- _ => apply (requireVerified_Ok _ _ _ _ _ HX) in H end.
    by exists head.
  - destruct HB as (HC & HR & HD & -> & ->). inv_auth. subst r.
    repeat match goal with H : requireVerifiedRefundAttestation _ _ = Ok _ |- _ => apply (requireVerified_Ok _ _ _ _ _ HX) in H end.
    exists head. split; [done|]. unfold recordDetached in HD. cbv zeta in HD. bsimp. destruct HR.
    assert (HS : oc_state (rr_case (sr_payload record)) = dispute_resolved ∧ oc_resolution (rr_case (sr_payload record)) = Some purchase_upheld).
    { cbn in HE. rewrite et_effect0 in HE. unfold refundEligibilityEffect in HE.
      destruct (_ && _) eqn:E in HE; [|done]. apply andb_true_iff in E as [E1 E2]. by bsimp. }
    cbn. destruct HS as [S1 S2], et_case0 as [_ HL]. do 5 (split; [done|]). split; [done|]. split; [done|]. revert HL. unfold legal, opens.
    destruct (rx_latestObservedHead x) as [o|]; [|tauto].
    intros [(_ & c & E & HU)|[_ HU]]; [exists o, c; by eauto|]. destruct (oh_currentCase o) as [c|] eqn:EC; [|tauto]. exists o, c; by eauto.
Qed.

(** C8: A result that clears a purchase comes from a prepared state about a purchase
    verified on chain evidence and a resource it contains: the head answers this
    very lookup, is no older than allowed and extends what was observed; the
    bundle it was finalized with holds a "verified" verdict for exactly that head,
    signed by the expected root signer, and it is the one the result carries; and
    either there is no entry, or an open dispute was resolved for the purchase in
    a record the head names, for which the bundle holds a "verified" verdict
    too. *)
Theorem refund_released g i bundle r :
  reachable g → finalizeRefundLedgerResult g i bundle = Ok r → result_effect r = effect_clear →
  ∃ p x head, p ∈ verifiedCanonicalPurchaseResults g ∧ grounded p ∧
    x ∈ validatedRefundLedgerExpectations g ∧ about x p ∧
    current head x ∧ cleared bundle r head x.
Proof.
  unfold finalizeRefundLedgerResult. intros [S1 S2 S3]%reachable_sound HF HE.
  destruct (_ !! i) as [s|] eqn:ES; [|done]. apply list_elem_of_lookup_2 in ES. rewrite Forall_forall in S1. rewrite Forall_forall in S2. rewrite Forall_forall in S3.
  destruct (S3 _ ES) as (x & Hx & HB). destruct (S2 _ Hx) as (p & Hp & HA).
  destruct (finalized_backed _ _ _ _ HB HF HE) as (head & HC). exists p, x, head. naive_solver.
Qed.

(** C9: Once a case is closed against the purchase (a recorded refund, or a dispute
    resolved as one), no later lookup that knows the head clears it: a head that
    is the observed one or its successor blocks, up to a collision. *)
Theorem refund_is_final g v i b r g' x o c h :
  reachable g → validatedRefundLedgerExpectations g !! i = Some x →
  rx_latestObservedHead x = Some o → oh_currentCase o = Some c → oc_state c ≠ dispute_open →
  refundEligibilityEffect (oc_state c) (oc_resolution c) = effect_block →
  sh_currentStatus h = head_recorded → computeRefundStableHeadDigest (stable_obj h) = Ok (oh_headDigest o) →
  parseRefundLedgerResult g v i b = Ok (r, g') →
  result_effect r = effect_block ∨
  ∃ k, collision [authorityPreimage (stable_digested h)] [authorityPreimage (stable_digested k)].
Proof.
  intros [_ S2 _]%reachable_sound HX HO HC HN HE HS HH HR. unfold parseRefundLedgerResult, prepareRefundLedgerResult, finalizeRefundLedgerResult in HR.
  rewrite HX in HR. apply bind_Ok in HR as ([j g''] & (s & HP%prepared_Ok & [= <- <-])%bind_Ok & HR). cbn in HR.
  rewrite lookup_app_r, Nat.sub_diag in HR by done. cbn in HR. apply bind_Ok in HR as (r' & HF & [= -> <-]).
  destruct (result_effect r) eqn:ER; [|by left]. right.
  destruct (finalized_backed _ _ _ _ HP HF ER) as (head & HD & HL).
  destruct r as [head' rec hv rv|pr id head' hv at_| |]; [| |done..]; cbn in HL.
  - exfalso. destruct HL as (_ & _ & _ & _ & _ & E1 & E2 & o' & c' & EO & EC & HT). simplify_eq.
    destruct HT as [(_ & T1 & T2 & _)|(_ & _ & T & _)]; [|done]. rewrite T1, T2, E1, E2 in HE. done.
  - destruct HL as (_ & _ & _ & EH & _). exists (hd_stable head). destruct (cu_history _ _ HD _ HO) as [(_ & ED & _)|(_ & _ & _ & EX)].
    + destruct (stable_digest_inj h (hd_stable head) (oh_headDigest o)) as [->|]; [done|rewrite <- ED; apply HD|congruence|done].
    + exfalso. rewrite Forall_forall in S2. destruct (S2 x) as (p & _ & HA); [by eapply list_elem_of_lookup_2|].
      rewrite EX in EH; [done|]. apply (ab_observed _ _ HA _ HO). by exists c.
Qed.
End Refunds.

(** ** Samples *)

Module RefundSamples.
#[local] Existing Instance checksum_digest.
Import AuthorityPurchases.PurchaseSamples.

(** A tier purchase, and a dispute about one of its two items. *)
Definition item : TierItem := {| ti_tierId := "1"; ti_tokenId := "1000000001" |}.
Definition resource : RefundEligibilityResource := tier_resource item.
Definition resourceDigest : string :=
  ok_or "" (computeRefundEligibilityResourceDigest (resource_binding bought_tier resource)).
Definition signer : RefundSigner :=
  {| rs_businessSigner := address "6"; rs_issuerDeviceCredentialId := "device";
     rs_issuerWalletVerificationEvidenceId := "wallet"; rs_rootAuthorityEvidenceId := "root";
     rs_rootAuthorityEvidenceDigest := hash "1"; rs_rootSignerProofDigest := hash "2"; rs_policyId := "refunds";
     rs_policyRevision := "1" |}.

Definition case (revision : string) (state : CaseState) (resolution : option CaseResolution) : OrderCase :=
  {| oc_orderCaseRevision := revision; oc_state := state; oc_resolution := resolution;
     oc_scope := exact_tier_items [Some item] |}.
Definition refunded : option RefundAmount :=
  Some {| ra_kind := amount_full;
          ra_amount := {| ta_token := address "e"; ta_decimals := 18; ta_currency := "1"; ta_value := "5" |} |}.
Definition payload (sequence prior : string) (c : OrderCase) (amount : option RefundAmount) : RefundRecordPayload :=
  {| rr_refundRecordId := "record"; rr_project := pc_project (pu_common bought_tier);
     rr_purchaseEvidenceId := pc_evidenceId (pu_common bought_tier);
     rr_purchaseEvidenceDigest := pu_evidenceDigest bought_tier; rr_ledgerSequence := sequence; rr_case := c;
     rr_priorLedgerHeadDigest := prior;
     rr_eligibilityEffect := refundEligibilityEffect (oc_state c) (oc_resolution c);
     rr_refundAmount := amount; rr_signer := signer; rr_authorityGenerationId := "generation";
     rr_authorityGenerationSequence := "3"; rr_effectiveAt := "2026-01-01T00:06:00.000Z";
     rr_recordedAt := "2026-01-01T00:07:00.000Z"; rr_auditRecordId := "audit" |}.
Definition payloadDigest (r : RefundRecordPayload) : string :=
  ok_or "" (computeRefundRecordCanonicalPayloadDigest (record_obj r)).
(** The head that names the record. *)
Definition stable (r : RefundRecordPayload) : StableHead :=
  {| sh_headId := "head"; sh_project := rr_project r; sh_purchaseEvidenceId := rr_purchaseEvidenceId r;
     sh_purchaseEvidenceDigest := rr_purchaseEvidenceDigest r; sh_resource := resource;
     sh_resourceDigest := resourceDigest; sh_sequence := rr_ledgerSequence r;
     sh_priorHeadDigest := rr_priorLedgerHeadDigest r; sh_currentStatus := head_recorded;
     sh_currentRecordId := Some (rr_refundRecordId r); sh_currentRecordDigest := Some (payloadDigest r);
     sh_eligibilityEffect := rr_eligibilityEffect r; sh_signer := signer; sh_authorityGenerationId := "generation";
     sh_authorityGenerationSequence := "3"; sh_ledgerRecordedAt := rr_recordedAt r; sh_auditRecordId := "audit" |}.
Definition headDigest (h : StableHead) : string := ok_or "" (computeRefundStableHeadDigest (stable_obj h)).

(** Known so far: a dispute that was opened, or a refund. *)
Definition opened : RefundRecordPayload := payload "4" (hash "a") (case "1" dispute_open None) None.
Definition closed : RefundRecordPayload :=
  payload "4" (hash "a") (case "1" refund_recorded (Some resolved_refund)) refunded.
(** The dispute is resolved for the purchase. *)
Definition upheld (known : RefundRecordPayload) : RefundRecordPayload :=
  payload "5" (headDigest (stable known)) (case "2" dispute_resolved (Some purchase_upheld)) None.

Definition case_obj (c : OrderCase) : unknown :=
  obj [("orderCaseRevision", VString (oc_orderCaseRevision c)); ("state", VString (lit (oc_state c)));
       ("resolution", case_resolution (oc_resolution c)); ("scope", scope_value (oc_scope c))].
Definition observed_obj (r : RefundRecordPayload) : unknown :=
  obj [("resourceDigest", VString resourceDigest); ("sequence", VString (rr_ledgerSequence r));
       ("headDigest", VString (headDigest (stable r))); ("ledgerRecordedAt", VString (rr_recordedAt r));
       ("currentStatus", VString "recorded"); ("currentRecordId", VString (rr_refundRecordId r));
       ("currentRecordDigest", VString (payloadDigest r));
       ("eligibilityEffect", VString (lit (rr_eligibilityEffect r))); ("currentCase", case_obj (rr_case r))].
Definition lookup_value (known : unknown) : unknown :=
  obj [("resource", eligibility_obj resource); ("authorityGenerationId", VString "generation");
       ("authorityGenerationSequence", VString "3"); ("rootAuthorityEvidenceId", VString "root");
       ("rootAuthorityEvidenceDigest", VString (hash "1")); ("rootSigner", VString (address "6"));
       ("rootSignerProofDigest", VString (hash "2")); ("issuerDeviceCredentialId", VString "device");
       ("issuerWalletVerificationEvidenceId", VString "wallet"); ("policyId", VString "refunds");
       ("policyRevision", VString "1"); ("lookupRequestId", VString "lookup");
       ("lookupChallengeDigest", VString (hash "3")); ("now", VString "2026-01-01T00:12:00.000Z");
       ("maximumHeadAgeMilliseconds", VInt 300000); ("latestObservedHead", known);
       ("refundAttestationDomainSeparatorDigest", VString (hash "4"));
       ("attestationVerifierPolicyId", VString "verifier"); ("attestationVerifierPolicyRevision", VString "1");
       ("attestationVerifierKeyId", VString "key")].

Definition signature : string := "0x0102".
Definition envelope_obj (k : AttestationKind) (digest sequence : string) : unknown :=
  obj [("kind", VString "refund-attestation-signature-envelope.v1"); ("attestationId", VString (lit k));
       ("attestationKind", VString (lit k)); ("attestationDomain", VString REFUND_DOMAIN);
       ("signatureScheme", VString "eip712-v4"); ("primaryType", VString (primaryType k));
       ("payloadBinding", VString (payloadBinding k));
       ("attestationDomainSeparatorDigest", VString (hash "4")); ("canonicalPayloadDigest", VString digest);
       ("signature", VString signature);
       ("signatureDigest", VString (ok_or "" (computeRefundSignatureDigest signature)));
       ("claimedSigner", VString (address "6")); ("issuerDeviceCredentialId", VString "device");
       ("ledgerSequence", VString sequence); ("authorityGenerationId", VString "generation");
       ("authorityGenerationSequence", VString "3"); ("rootAuthorityEvidenceId", VString "root");
       ("rootAuthorityEvidenceDigest", VString (hash "1"))].
Definition signedAt : string := "2026-01-01T00:10:00.000Z".
Definition answer (r : RefundRecordPayload) : unknown :=
  let h := stable r in
  let fields := head_fields h (headDigest h) "lookup" (hash "3") signedAt in
  obj [("status", VString "recorded"); ("eligibilityEffect", VString (lit (rr_eligibilityEffect r)));
       ("head", obj (fields ++ [("attestation",
          envelope_obj attest_head (ok_or "" (computeRefundHeadCanonicalPayloadDigest (obj fields))) (rr_ledgerSequence r))]));
       ("record", obj (record_fields r ++ [("attestation",
          envelope_obj attest_record (payloadDigest r) (rr_ledgerSequence r))]))].

(** What an honest verifier answers to a request. *)
Definition verdict (e : RefundAttestationVerificationExpectation) : unknown :=
  obj ([("status", VString "verified");
        ("verificationEvidenceDigest", VString (ok_or "" (computeRefundVerificationEvidenceDigest
           (claim_evidence_obj (xa_claim e) "checked" eoa_ecrecover (xa_now e)))))]
       ++ claim_fields_at (xa_claim e) "checked" eoa_ecrecover (xa_now e)).
Definition verdicts (g : Registry) (i : nat) : unknown :=
  match verificationRequests <$> preparedRefundLedgerStates g !! i with
  | Some (Some (_, head), Some (_, record)) => obj [("head", verdict head); ("currentRecord", verdict record)]
  | _ => VNull
  end.

(** The registries of two lookups of the purchase, evaluated step by step. *)
Definition next {A} (o : result (A * Registry)) : Registry := match o with Ok (_, g) => g | _ => emptyRegistry end.
Definition purchased : Registry := Eval vm_compute in
  next (registerPurchase emptyRegistry (tier_value [11; 12]) sample_policy (expectation_obj minting)).

Definition open_lookup : unknown := Eval vm_compute in lookup_value (observed_obj opened).
Definition open_expecting : Registry := Eval vm_compute in next (parseRefundLedgerExpectation purchased open_lookup 0).
Definition upheld_answer : unknown := Eval vm_compute in answer (upheld opened).
Definition upheld_prepared : Registry := Eval vm_compute in
  next (prepareRefundLedgerResult open_expecting upheld_answer 0).
Definition upheld_verdicts : unknown := Eval vm_compute in verdicts upheld_prepared 0.
Definition upheld_result : RefundLedgerResult := Eval vm_compute in
  ok_or ledger_not_evaluated (finalizeRefundLedgerResult upheld_prepared 0 upheld_verdicts).

Definition closed_lookup : unknown := Eval vm_compute in lookup_value (observed_obj closed).
Definition closed_expecting : Registry := Eval vm_compute in next (parseRefundLedgerExpectation purchased closed_lookup 0).
Definition closed_answer : unknown := Eval vm_compute in answer closed.
Definition closed_prepared : Registry := Eval vm_compute in
  next (prepareRefundLedgerResult closed_expecting closed_answer 0).
Definition closed_verdicts : unknown := Eval vm_compute in verdicts closed_prepared 0.
Definition closed_result : RefundLedgerResult := Eval vm_compute in
  ok_or ledger_not_evaluated (finalizeRefundLedgerResult closed_prepared 0 closed_verdicts).

(** A refund cannot be turned into an upheld purchase. *)
Example closed_stays_closed : prepareRefundLedgerResult closed_expecting (answer (upheld closed)) 0 = invalid.
Proof. vm_compute. reflexivity. Qed.

Lemma purchased_step : step emptyRegistry purchased.
Proof.
  apply (step_verify _ (tier_value [11; 12]) sample_policy (expectation_obj minting) (purchase_verified "claim" bought_tier)).
  vm_compute. reflexivity.
Defined.

Lemma upheld_reachable : reachable upheld_prepared.
Proof.
  refine (rtc_l _ _ _ _ purchased_step (rtc_l _ _ _ _ (step_expect purchased open_lookup 0 0 open_expecting _)
    (rtc_once _ _ (step_prepare open_expecting upheld_answer 0 0 upheld_prepared _)))); vm_compute; reflexivity.
Defined.

Lemma refund_released_witness :
  finalizeRefundLedgerResult upheld_prepared 0 upheld_verdicts = Ok upheld_result ∧
  ∃ p x head, p ∈ verifiedCanonicalPurchaseResults upheld_prepared ∧ grounded p ∧
    x ∈ validatedRefundLedgerExpectations upheld_prepared ∧ about x p ∧
    current head x ∧ cleared upheld_verdicts upheld_result head x.
Proof.
  assert (HF : finalizeRefundLedgerResult upheld_prepared 0 upheld_verdicts = Ok upheld_result) by (vm_compute; reflexivity).
  split; [exact HF|]. apply (refund_released upheld_prepared 0 upheld_verdicts upheld_result upheld_reachable HF). reflexivity.
Defined.

(** The refund, asked for again. *)
Definition closed_expectation : RefundLedgerExpectation := Eval vm_compute in
  hd {| rx_project := AuthorityGenerations.Samples.project 1; rx_purchaseEvidenceId := ""; rx_purchaseEvidenceDigest := "";
        rx_resource := resource; rx_resourceDigest := ""; rx_authorityGenerationId := "";
        rx_authorityGenerationSequence := ""; rx_signer := signer; rx_lookupRequestId := "";
        rx_lookupChallengeDigest := ""; rx_now := ""; rx_maximumHeadAgeMilliseconds := 0;
        rx_latestObservedHead := None; rx_refundAttestationDomainSeparatorDigest := "";
        rx_attestationVerifierPolicyId := ""; rx_attestationVerifierPolicyRevision := "";
        rx_attestationVerifierKeyId := "" |} (validatedRefundLedgerExpectations closed_expecting).
Definition closed_stable : StableHead := Eval vm_compute in stable closed.

Lemma refund_is_final_witness :
  parseRefundLedgerResult closed_expecting closed_answer 0 closed_verdicts = Ok (closed_result, closed_prepared) ∧
  (result_effect closed_result = effect_block ∨
   ∃ k, collision [authorityPreimage (stable_digested closed_stable)] [authorityPreimage (stable_digested k)]).
Proof.
  assert (HR : parseRefundLedgerResult closed_expecting closed_answer 0 closed_verdicts = Ok (closed_result, closed_prepared))
    by (vm_compute; reflexivity).
  split; [exact HR|].
  refine (refund_is_final closed_expecting closed_answer 0 closed_verdicts closed_result closed_prepared closed_expectation
    _ _ closed_stable _ eq_refl eq_refl eq_refl _ eq_refl eq_refl _ HR).
  - refine (rtc_l _ _ _ _ purchased_step (rtc_once _ _ (step_expect purchased closed_lookup 0 0 closed_expecting _))).
    vm_compute. reflexivity.
  - done.
  - vm_compute. reflexivity.
Defined.
End RefundSamples.
