(* ===== verification/AuthorityEvidence.v ===== *)
(** * Evidence behind the authority ([src/production/authority/delegations.ts])

    The verified roots and the losses a generation is activated by, and the
    delegations its root gives to project staff. *)

From stdpp Require Import base list strings.
From Stdlib Require Import ZArith Lia Ascii.
From S2P Require Import Prelude Sha256 Base64Url JsTime JsValue ValueObjects Quota CanonicalJson AuthorityValues AuthorityFinality AuthorityDigests AuthorityGenerations.

(** ** Loss of authority *)

(** The tombstone's other fields are constants and the evidence's cause. *)
Record LossEvidence := {
  le_evidenceId : string; le_evidenceDigest : string; le_project : JuiceboxV6ProjectRef;
  le_predecessorGenerationId : string; le_predecessorGenerationSequence : string;
  le_predecessorPrincipal : string; le_predecessorRootKind : RootKind;
  le_transitionCause : AuthorityTransitionCause; le_block : FinalizedBlockAnchor;
  le_transitionCursor : AuthorityTransitionCursor; le_successorGenerationId : string;
  le_successorSequence : string; le_scannerCheckpointId : string;
  le_scannerCheckpointDigest : string }.

Definition loss_fields (e : LossEvidence) : list (string * unknown) :=
  [("kind", VString "finalized-project-authority-loss.v1");
   ("evidenceId", VString (le_evidenceId e)); ("project", project_obj (le_project e));
   ("predecessorGenerationId", VString (le_predecessorGenerationId e));
   ("predecessorGenerationSequence", VString (le_predecessorGenerationSequence e));
   ("predecessorPrincipal", VString (le_predecessorPrincipal e));
   ("predecessorRootKind", VString (lit (le_predecessorRootKind e)));
   ("transitionCause", VString (lit (le_transitionCause e)));
   ("block", anchor_obj (le_block e)); ("transitionCursor", cursor_obj (le_transitionCursor e));
   ("successorTombstone",
    obj [("generationId", VString (le_successorGenerationId e));
         ("sequence", VString (le_successorSequence e));
         ("transitionCause", VString (lit (le_transitionCause e)));
         ("authorityStatus", VString "disabled"); ("rootKind", VString "no-current-authority");
         ("rootPrincipal", VNull)]);
   ("scannerCheckpointId", VString (le_scannerCheckpointId e));
   ("scannerCheckpointDigest", VString (le_scannerCheckpointDigest e));
   ("requiredAction", VString "revoke-leases-delegations-and-rekey")].

Definition lossCause (cause : AuthorityTransitionCause) : bool :=
  match cause with
  | revnet_operator_relinquished | project_owner_burned | canonical_authority_disabled => true
  | _ => false
  end.

Section Loss.
Context `{Sha256}.

Definition lossDigestOf (e : LossEvidence) : result string :=
  sha256AuthorityDigest (obj [("kind", VString "finalized-project-authority-loss-evidence.v1");
                              ("evidence", obj (loss_fields e))]).

Definition parseFinalizedAuthorityLossEvidence (value : unknown) (policy : FinalityPolicy)
    (predecessor : AuthorityGeneration) (expectedCheckpointId expectedCheckpointDigest now : string) :
  result LossEvidence :=
  record ← expectExactRecord value
    ["kind"; "evidenceId"; "evidenceDigest"; "project"; "predecessorGenerationId";
     "predecessorGenerationSequence"; "predecessorPrincipal"; "predecessorRootKind";
     "transitionCause"; "block"; "transitionCursor"; "successorTombstone"; "scannerCheckpointId";
     "scannerCheckpointDigest"; "requiredAction"];
  refuse_if (negb (isString record.["kind"] "finalized-project-authority-loss.v1"));;
  transitionCause ← parseLiteral (A := AuthorityTransitionCause) record.["transitionCause"];
  refuse_if (negb (lossCause transitionCause)
             || negb (isString record.["requiredAction"] "revoke-leases-delegations-and-rekey"));;
  project ← parseJuiceboxV6ProjectRef record.["project"];
  predecessorGenerationId ← parseAuthorityId record.["predecessorGenerationId"];
  predecessorGenerationSequence ← parseUint256Decimal record.["predecessorGenerationSequence"];
  predecessorPrincipal ← parseAddress record.["predecessorPrincipal"];
  refuse_if (negb (j_chainId project =? fp_chainId policy)
             || negb (sameJuiceboxV6ProjectRef project (g_project predecessor))
             || (g_authorityStatus predecessor !== authority_active)
             || (g_rootPrincipal predecessor === None)
             || (predecessorGenerationId !== g_generationId predecessor)
             || (predecessorGenerationSequence !== g_sequence predecessor)
             || (Some predecessorPrincipal !== g_rootPrincipal predecessor)
             || negb (isString record.["predecessorRootKind"] (lit (g_rootKind predecessor)))
             || (g_rootKind predecessor === no_current_authority));;
  let predecessorRootKind := g_rootKind predecessor in
  refuse_if (((transitionCause === revnet_operator_relinquished)
              && (predecessorRootKind !== revnet_operator_set))
             || ((transitionCause === project_owner_burned)
                 && (predecessorRootKind !== jbprojects_owner)));;
  block ← parseFinalizedBlockAnchor record.["block"] policy now;
  transitionCursor ← parseAuthorityTransitionCursor record.["transitionCursor"]
    (j_deploymentManifestId project) None block;
  successor ← expectExactRecord record.["successorTombstone"]
    ["generationId"; "sequence"; "transitionCause"; "authorityStatus"; "rootKind"; "rootPrincipal"];
  refuse_if (negb (isString successor.["authorityStatus"] "disabled")
             || negb (isString successor.["rootKind"] "no-current-authority")
             || negb (isNull successor.["rootPrincipal"])
             || negb (isString successor.["transitionCause"] (lit transitionCause)));;
  generationId ← parseAuthorityId successor.["generationId"];
  sequence ← parseUint256Decimal successor.["sequence"];
  refuse_if ((generationId === predecessorGenerationId)
             || negb (BigInt sequence =? BigInt predecessorGenerationSequence + 1));;
  order ← compareBlockAndTransitionCursor block transitionCursor
    (g_activatedAtBlock predecessor) (g_transitionCursor predecessor);
  refuse_if (order <=? 0);;
  scannerCheckpointId ← parseAuthorityId record.["scannerCheckpointId"];
  scannerCheckpointDigest ← parseHash32 record.["scannerCheckpointDigest"];
  refuse_if ((scannerCheckpointId !== expectedCheckpointId)
             || (scannerCheckpointDigest !== expectedCheckpointDigest));;
  evidenceId ← parseAuthorityId record.["evidenceId"];
  evidenceDigest ← parseHash32 record.["evidenceDigest"];
  let evidence :=
    {| le_evidenceId := evidenceId; le_evidenceDigest := evidenceDigest; le_project := project;
       le_predecessorGenerationId := predecessorGenerationId;
       le_predecessorGenerationSequence := predecessorGenerationSequence;
       le_predecessorPrincipal := predecessorPrincipal;
       le_predecessorRootKind := predecessorRootKind; le_transitionCause := transitionCause;
       le_block := block; le_transitionCursor := transitionCursor;
       le_successorGenerationId := generationId; le_successorSequence := sequence;
       le_scannerCheckpointId := scannerCheckpointId;
       le_scannerCheckpointDigest := scannerCheckpointDigest |} in
  expectedDigest ← lossDigestOf evidence;
  refuse_if (evidenceDigest !== expectedDigest);;
  Ok evidence.
End Loss.

(** ** Root authority *)

Record RootCommon := {
  rc_evidenceId : string; rc_evidenceDigest : string; rc_project : JuiceboxV6ProjectRef;
  rc_principal : string; rc_deploymentManifestId : string; rc_adapterRevision : string;
  rc_block : FinalizedBlockAnchor; rc_transitionCursor : AuthorityTransitionCursor }.

Record RevnetDeployment := {
  rd_deployRevnetEvidenceId : string; rd_deployRevnetLogDigest : string;
  rd_transactionHash : string; rd_logIndex : Z; rd_emitter : string;
  rd_configurationHash : string; rd_revDeployerProjectsResult : string;
  rd_revDeployerOwnerResult : string; rd_revOwnerProjectsResult : string;
  rd_revOwnerDeployerResult : string }.

Inductive RootIneligible :=
| not_project_owner | not_revnet_operator | not_canonical_revnet | authority_generation_stale.
#[export] Instance RootIneligible_literal : Literal RootIneligible := {|
  lit r := match r with not_project_owner => "not-project-owner"
           | not_revnet_operator => "not-revnet-operator"
           | not_canonical_revnet => "not-canonical-revnet"
           | authority_generation_stale => "authority-generation-stale" end;
  lits := [not_project_owner; not_revnet_operator; not_canonical_revnet; authority_generation_stale] |}.

Inductive RootUnavailable :=
| root_not_configured | root_rpc_unavailable | root_archive_unavailable
| deployment_configuration_missing | malformed_chain_response.
#[export] Instance RootUnavailable_eq_dec : EqDecision RootUnavailable.
Proof. solve_decision. Defined.
#[export] Instance RootUnavailable_literal : Literal RootUnavailable := {|
  lit r := match r with root_not_configured => "root-authority-verifier-not-configured"
           | root_rpc_unavailable => "rpc-unavailable"
           | root_archive_unavailable => "archive-state-unavailable"
           | deployment_configuration_missing => "canonical-deployment-configuration-missing"
           | malformed_chain_response => "malformed-chain-response" end;
  lits := [root_not_configured; root_rpc_unavailable; root_archive_unavailable;
           deployment_configuration_missing; malformed_chain_response] |}.

Inductive RootAuthorityVerificationResult :=
| root_project_owner (common : RootCommon)
    (projectsContract projectsCodeHash ownerOfResult classificationId classificationDigest : string)
| root_revnet_operator (common : RootCommon)
    (revDeployer revDeployerCodeHash revOwner revOwnerCodeHash configurationHash
     ownerOfResult : string) (deployment : RevnetDeployment)
| root_ineligible (project : JuiceboxV6ProjectRef) (principal : string) (reasonCode : RootIneligible)
| root_unavailable (project : option JuiceboxV6ProjectRef) (principal : option string)
    (reasonCode : RootUnavailable).

Record RevnetExpectation := {
  re_revDeployer : string; re_revDeployerCodeHash : string; re_revOwner : string;
  re_revOwnerCodeHash : string }.
Record RootExpectation := {
  ro_project : JuiceboxV6ProjectRef; ro_principal : string; ro_deploymentManifestId : string;
  ro_adapterRevision : string; ro_projectsCodeHash : string; ro_now : string;
  ro_revnet : option RevnetExpectation }.

Definition parseRevnetDeploymentEvidence (value : unknown) : result RevnetDeployment :=
  record ← expectExactRecord value
    ["kind"; "deployRevnetEvidenceId"; "deployRevnetLogDigest"; "transactionHash"; "logIndex";
     "emitter"; "configurationHash"; "revDeployerProjectsResult"; "revDeployerOwnerResult";
     "revOwnerProjectsResult"; "revOwnerDeployerResult"];
  refuse_if (negb (isString record.["kind"] "canonical-revnet-deployment.v1"));;
  deployRevnetEvidenceId ← parseAuthorityId record.["deployRevnetEvidenceId"];
  deployRevnetLogDigest ← parseHash32 record.["deployRevnetLogDigest"];
  transactionHash ← parseHash32 record.["transactionHash"];
  logIndex ← parseLogIndex record.["logIndex"];
  emitter ← parseAddress record.["emitter"];
  configurationHash ← parseHash32 record.["configurationHash"];
  revDeployerProjectsResult ← parseAddress record.["revDeployerProjectsResult"];
  revDeployerOwnerResult ← parseAddress record.["revDeployerOwnerResult"];
  revOwnerProjectsResult ← parseAddress record.["revOwnerProjectsResult"];
  revOwnerDeployerResult ← parseAddress record.["revOwnerDeployerResult"];
  Ok {| rd_deployRevnetEvidenceId := deployRevnetEvidenceId;
        rd_deployRevnetLogDigest := deployRevnetLogDigest;
        rd_transactionHash := transactionHash; rd_logIndex := logIndex; rd_emitter := emitter;
        rd_configurationHash := configurationHash;
        rd_revDeployerProjectsResult := revDeployerProjectsResult;
        rd_revDeployerOwnerResult := revDeployerOwnerResult;
        rd_revOwnerProjectsResult := revOwnerProjectsResult;
        rd_revOwnerDeployerResult := revOwnerDeployerResult |}.

Definition parseVerifiedRootCommon (record : record) (policy : FinalityPolicy)
    (expected : RootExpectation) : result RootCommon :=
  project ← parseJuiceboxV6ProjectRef record.["project"];
  refuse_if (negb (j_chainId project =? fp_chainId policy));;
  deploymentManifestId ← parseAuthorityId record.["deploymentManifestId"];
  refuse_if (deploymentManifestId !== j_deploymentManifestId project);;
  principal ← parseAddress record.["principal"];
  adapterRevision ← parseAuthorityId record.["adapterRevision"];
  refuse_if (negb (sameJuiceboxV6ProjectRef project (ro_project expected))
             || (principal !== ro_principal expected)
             || (deploymentManifestId !== ro_deploymentManifestId expected)
             || (adapterRevision !== ro_adapterRevision expected));;
  block ← parseFinalizedBlockAnchor record.["block"] policy (ro_now expected);
  evidenceId ← parseAuthorityId record.["evidenceId"];
  evidenceDigest ← parseHash32 record.["evidenceDigest"];
  transitionCursor ← parseAuthorityTransitionCursor record.["transitionCursor"]
    deploymentManifestId (Some adapterRevision) block;
  Ok {| rc_evidenceId := evidenceId; rc_evidenceDigest := evidenceDigest; rc_project := project;
        rc_principal := principal; rc_deploymentManifestId := deploymentManifestId;
        rc_adapterRevision := adapterRevision; rc_block := block;
        rc_transitionCursor := transitionCursor |}.

Definition parseVerifiedRoot (value : unknown) (policy : FinalityPolicy) (expected : RootExpectation) :
  result RootAuthorityVerificationResult :=
  r ← expectObject value;
  let role := r.["role"] in
  if isString role "project-owner" then
    record ← expectExactRecord value
      ["status"; "role"; "evidenceId"; "evidenceDigest"; "project"; "principal";
       "deploymentManifestId"; "adapterRevision"; "projectsContract"; "projectsCodeHash"; "block";
       "transitionCursor"; "ownerOfResult"; "canonicalRevnetClassification"];
    common ← parseVerifiedRootCommon record policy expected;
    ownerOfResult ← parseAddress record.["ownerOfResult"];
    projectsContract ← parseAddress record.["projectsContract"];
    refuse_if (ownerOfResult !== rc_principal common);;
    refuse_if (projectsContract !== j_projectsContract (rc_project common));;
    refuse_if (bool_decide (is_Some (ro_revnet expected)));;
    projectsCodeHash ← parseHash32 record.["projectsCodeHash"];
    refuse_if (projectsCodeHash !== ro_projectsCodeHash expected);;
    classification ← expectExactRecord record.["canonicalRevnetClassification"]
      ["kind"; "result"; "evidenceId"; "evidenceDigest"];
    refuse_if (negb (isString classification.["kind"] "ordinary-project-classification.v1")
               || negb (isString classification.["result"] "not-canonical-revnet"));;
    classificationId ← parseAuthorityId classification.["evidenceId"];
    classificationDigest ← parseHash32 classification.["evidenceDigest"];
    Ok (root_project_owner common projectsContract projectsCodeHash ownerOfResult
          classificationId classificationDigest)
  else if isString role "revnet-operator" then
    record ← expectExactRecord value
      ["status"; "role"; "evidenceId"; "evidenceDigest"; "project"; "principal";
       "deploymentManifestId"; "adapterRevision"; "revDeployer"; "revDeployerCodeHash"; "revOwner";
       "revOwnerCodeHash"; "revnetConfigurationHash"; "block"; "transitionCursor"; "ownerOfResult";
       "isOperatorResult"; "deploymentEvidence"];
    refuse_if (negb (isTrue record.["isOperatorResult"]));;
    common ← parseVerifiedRootCommon record policy expected;
    revOwner ← parseAddress record.["revOwner"];
    revDeployer ← parseAddress record.["revDeployer"];
    ownerOfResult ← parseAddress record.["ownerOfResult"];
    refuse_if (ownerOfResult !== revOwner);;
    configurationHash ← parseHash32 record.["revnetConfigurationHash"];
    deployment ← parseRevnetDeploymentEvidence record.["deploymentEvidence"];
    match ro_revnet expected with
    | None => invalid
    | Some revnet =>
        revDeployerCodeHash ← parseHash32 record.["revDeployerCodeHash"];
        revOwnerCodeHash ← parseHash32 record.["revOwnerCodeHash"];
        refuse_if ((revDeployer !== re_revDeployer revnet)
                   || (revDeployerCodeHash !== re_revDeployerCodeHash revnet)
                   || (revOwner !== re_revOwner revnet)
                   || (revOwnerCodeHash !== re_revOwnerCodeHash revnet)
                   || (rd_emitter deployment !== revDeployer)
                   || (rd_configurationHash deployment !== configurationHash)
                   || (rd_revDeployerProjectsResult deployment !== j_projectsContract (rc_project common))
                   || (rd_revDeployerOwnerResult deployment !== revOwner)
                   || (rd_revOwnerProjectsResult deployment !== j_projectsContract (rc_project common))
                   || (rd_revOwnerDeployerResult deployment !== revDeployer));;
        Ok (root_revnet_operator common revDeployer revDeployerCodeHash revOwner revOwnerCodeHash
              configurationHash ownerOfResult deployment)
    end
  else invalid.

Definition parseRootAuthorityVerificationResult (value : unknown) (policy : FinalityPolicy)
    (expected : RootExpectation) : result RootAuthorityVerificationResult :=
  r ← expectObject value;
  let status := r.["status"] in
  if isString status "verified" then parseVerifiedRoot value policy expected
  else if isString status "ineligible" then
    record ← expectExactRecord value ["status"; "project"; "principal"; "reasonCode"];
    project ← parseJuiceboxV6ProjectRef record.["project"];
    refuse_if (negb (j_chainId project =? fp_chainId policy));;
    principal ← parseAddress record.["principal"];
    refuse_if (negb (sameJuiceboxV6ProjectRef project (ro_project expected))
               || (principal !== ro_principal expected));;
    reasonCode ← parseLiteral record.["reasonCode"];
    Ok (root_ineligible project principal reasonCode)
  else if isString status "unavailable" then
    record ← expectExactRecord value ["status"; "project"; "principal"; "reasonCode"];
    reasonCode ← parseLiteral (A := RootUnavailable) record.["reasonCode"];
    project ← parseNullable parseJuiceboxV6ProjectRef record.["project"];
    principal ← parseNullable parseAddress record.["principal"];
    refuse_if ((reasonCode !== root_not_configured)
               && ((project === None) || (principal === None)));;
    refuse_if match project with
              | Some project => negb (j_chainId project =? fp_chainId policy)
              | None => false
              end;;
    Ok (root_unavailable project principal reasonCode)
  else invalid.

(** The evidence a generation is activated by: the role and the common part of a
    verified root, or a loss. *)
Inductive TransitionEvidence :=
| verified_owner (common : RootCommon)
| verified_operator (common : RootCommon)
| authority_loss (loss : LossEvidence).

Section Evidence.
Context `{Sha256}.

Definition assertAuthorityGenerationTransitionEvidence (generation : AuthorityGeneration)
    (evidence : TransitionEvidence) : result unit :=
  let '(project, evidenceId, evidenceDigest, block, cursor) :=
    match evidence with
    | verified_owner c | verified_operator c =>
        (rc_project c, rc_evidenceId c, rc_evidenceDigest c, rc_block c, rc_transitionCursor c)
    | authority_loss e =>
        (le_project e, le_evidenceId e, le_evidenceDigest e, le_block e, le_transitionCursor e)
    end in
  refuse_if (negb (sameJuiceboxV6ProjectRef (g_project generation) project)
             || (g_rootEvidenceId generation !== evidenceId)
             || (g_rootEvidenceDigest generation !== evidenceDigest)
             || (ab_blockNumber (g_activatedAtBlock generation) !== ab_blockNumber block)
             || (ab_blockHash (g_activatedAtBlock generation) !== ab_blockHash block));;
  refuse_digests (cursor_obj (g_transitionCursor generation)) (cursor_obj cursor);;
  match evidence with
  | authority_loss e =>
      refuse_if ((g_authorityStatus generation !== authority_disabled)
                 || (g_rootKind generation !== no_current_authority)
                 || (g_rootPrincipal generation !== None)
                 || (g_generationId generation !== le_successorGenerationId e)
                 || (g_sequence generation !== le_successorSequence e)
                 || (g_transitionCause generation !== le_transitionCause e)
                 || (g_predecessorGenerationId generation !== Some (le_predecessorGenerationId e)))
  | verified_owner c =>
      refuse_if ((g_authorityStatus generation !== authority_active)
                 || (g_rootKind generation !== jbprojects_owner)
                 || (g_rootPrincipal generation !== Some (rc_principal c)))
  | verified_operator c =>
      refuse_if ((g_authorityStatus generation !== authority_active)
                 || (g_rootKind generation !== revnet_operator_set)
                 || (g_rootPrincipal generation !== Some (rc_principal c)))
  end.
End Evidence.

(** ** Staff delegations *)

(** What a delegation reads of a device credential. *)
Record DelegatedDevice := {
  dd_account : string; dd_installationId : string; dd_credentialId : string;
  dd_jwkThumbprint : string; dd_credentialFingerprint : string; dd_revocationVersion : string }.

(** The delegation without its payload digest. *)
Record ProjectStaffDelegation := {
  sd_delegationId : string; sd_project : JuiceboxV6ProjectRef; sd_staffAccount : string;
  sd_installationId : string; sd_deviceCredentialId : string; sd_installationAuthJkt : string;
  sd_mlsCredentialFingerprint : string; sd_deviceRevocationVersion : string;
  sd_deviceDirectoryEntryDigest : string; sd_deviceTransparencyCheckpointDigest : string;
  sd_issuerAccount : string; sd_authorityGenerationId : string;
  sd_authorityGenerationSequence : string; sd_capabilities : list (option string);
  sd_issuedAt : string; sd_notBefore : string; sd_expiresAt : string; sd_revision : string;
  sd_issuerWalletVerificationEvidenceId : string; sd_delegationSignatureEvidenceId : string;
  sd_delegationSignatureEvidenceDigest : string; sd_auditRecordId : string;
  sd_revokedAt : option string }.

Definition delegation_fields (d : ProjectStaffDelegation) : list (string * unknown) :=
  [("kind", VString "project-staff-delegation.v1");
   ("delegationId", VString (sd_delegationId d)); ("project", project_obj (sd_project d));
   ("staffAccount", VString (sd_staffAccount d)); ("installationId", VString (sd_installationId d));
   ("deviceCredentialId", VString (sd_deviceCredentialId d));
   ("installationAuthJkt", VString (sd_installationAuthJkt d));
   ("mlsCredentialFingerprint", VString (sd_mlsCredentialFingerprint d));
   ("deviceRevocationVersion", VString (sd_deviceRevocationVersion d));
   ("deviceDirectoryEntryDigest", VString (sd_deviceDirectoryEntryDigest d));
   ("deviceTransparencyCheckpointDigest", VString (sd_deviceTransparencyCheckpointDigest d));
   ("issuerAccount", VString (sd_issuerAccount d));
   ("authorityGenerationId", VString (sd_authorityGenerationId d));
   ("authorityGenerationSequence", VString (sd_authorityGenerationSequence d));
   ("capabilities", VArray ArrayPrototype (map (fmap VString) (sd_capabilities d)) 0);
   ("delegationAllowed", VBool false); ("issuedAt", VString (sd_issuedAt d));
   ("notBefore", VString (sd_notBefore d)); ("expiresAt", VString (sd_expiresAt d));
   ("revision", VString (sd_revision d));
   ("issuerWalletVerificationEvidenceId", VString (sd_issuerWalletVerificationEvidenceId d));
   ("delegationSignatureEvidenceId", VString (sd_delegationSignatureEvidenceId d));
   ("delegationSignatureEvidenceDigest", VString (sd_delegationSignatureEvidenceDigest d));
   ("auditRecordId", VString (sd_auditRecordId d)); ("revokedAt", nullable VString (sd_revokedAt d))].

Definition parseCapability (item : unknown) : result string :=
  match item with
  | VString s => refuse_if (negb (bool_decide (s ∈ PROJECT_STAFF_CAPABILITIES)));; Ok s
  | _ => invalid
  end.

(** The array itself is returned. *)
Definition parseCapabilities (value : unknown) : result (list (option string)) :=
  match value with
  | VArray _ elems _ =>
      refuse_if ((Z.of_nat (length elems) <? 1) || (7 <? Z.of_nat (length elems)));;
      capabilities ← mapArray parseCapability elems;
      refuse_if (hasDuplicates capabilities || isUnsorted capabilities);;
      Ok capabilities
  | _ => invalid
  end.

(** The window of a delegation, and the revocation that has to be absent. *)
Definition lifetimeInvalid (issuedMs notBeforeMs expiresMs : Z) : bool :=
  (notBeforeMs <? issuedMs) || (expiresMs <=? notBeforeMs)
  || (MAX_DELEGATION_LIFETIME_MS <? expiresMs - issuedMs).

Section Delegation.
Context `{Sha256}.

Definition delegationDigestOf (d : ProjectStaffDelegation) : result string :=
  sha256AuthorityDigest (obj [("kind", VString "project-staff-delegation-payload.v1");
                              ("delegation", obj (delegation_fields d))]).

Definition parseProjectStaffDelegation (value : unknown) (generation : AuthorityGeneration)
    (device : DelegatedDevice) (signatureEvidenceId signatureEvidenceDigest now : string) :
  result (ProjectStaffDelegation * string) :=
  record ← expectExactRecord value
    ["kind"; "delegationId"; "project"; "staffAccount"; "installationId"; "deviceCredentialId";
     "installationAuthJkt"; "mlsCredentialFingerprint"; "deviceRevocationVersion";
     "deviceDirectoryEntryDigest"; "deviceTransparencyCheckpointDigest"; "issuerAccount";
     "authorityGenerationId"; "authorityGenerationSequence"; "capabilities"; "delegationAllowed";
     "issuedAt"; "notBefore"; "expiresAt"; "revision"; "issuerWalletVerificationEvidenceId";
     "delegationPayloadDigest"; "delegationSignatureEvidenceId";
     "delegationSignatureEvidenceDigest"; "auditRecordId"; "revokedAt"];
  refuse_if (negb (isString record.["kind"] "project-staff-delegation.v1")
             || negb (isFalse record.["delegationAllowed"]));;
  project ← parseJuiceboxV6ProjectRef record.["project"];
  authorityGenerationId ← parseAuthorityId record.["authorityGenerationId"];
  authorityGenerationSequence ← parseUint256Decimal record.["authorityGenerationSequence"];
  issuerAccount ← parseAddress record.["issuerAccount"];
  staffAccount ← parseAddress record.["staffAccount"];
  installationId ← parseAuthorityId record.["installationId"];
  deviceCredentialId ← parseAuthorityId record.["deviceCredentialId"];
  deviceRevocationVersion ← parseUint256Decimal record.["deviceRevocationVersion"];
  installationAuthJkt ← parseBase64Url record.["installationAuthJkt"] 43 43;
  refuse_if ((g_authorityStatus generation !== authority_active)
             || (g_rootPrincipal generation === None)
             || negb (sameJuiceboxV6ProjectRef project (g_project generation))
             || (authorityGenerationId !== g_generationId generation)
             || (authorityGenerationSequence !== g_sequence generation)
             || (Some issuerAccount !== g_rootPrincipal generation)
             || (staffAccount !== dd_account device)
             || (installationId !== dd_installationId device)
             || (deviceCredentialId !== dd_credentialId device)
             || (installationAuthJkt !== dd_jwkThumbprint device)
             || negb (isString record.["mlsCredentialFingerprint"] (dd_credentialFingerprint device))
             || (deviceRevocationVersion !== dd_revocationVersion device));;
  issuedAt ← parseCanonicalInstant record.["issuedAt"];
  notBefore ← parseCanonicalInstant record.["notBefore"];
  expiresAt ← parseCanonicalInstant record.["expiresAt"];
  let issuedMs := instantMilliseconds issuedAt in
  let notBeforeMs := instantMilliseconds notBefore in
  let expiresMs := instantMilliseconds expiresAt in
  let nowMs := instantMilliseconds now in
  refuse_if (lifetimeInvalid issuedMs notBeforeMs expiresMs);;
  revokedAt ← parseNullable parseCanonicalInstant record.["revokedAt"];
  refuse_if match revokedAt with Some t => instantMilliseconds t <? issuedMs | None => false end;;
  refuse_if ((revokedAt !== None) || (nowMs <? notBeforeMs) || (expiresMs <=? nowMs));;
  delegationSignatureEvidenceId ← parseAuthorityId record.["delegationSignatureEvidenceId"];
  delegationSignatureEvidenceDigest ← parseHash32 record.["delegationSignatureEvidenceDigest"];
  refuse_if ((delegationSignatureEvidenceId !== signatureEvidenceId)
             || (delegationSignatureEvidenceDigest !== signatureEvidenceDigest));;
  delegationId ← parseAuthorityId record.["delegationId"];
  mlsCredentialFingerprint ← parseBase64Url record.["mlsCredentialFingerprint"] 43 43;
  deviceDirectoryEntryDigest ← parseHash32 record.["deviceDirectoryEntryDigest"];
  deviceTransparencyCheckpointDigest ← parseHash32 record.["deviceTransparencyCheckpointDigest"];
  capabilities ← parseCapabilities record.["capabilities"];
  revision ← parseUint256Decimal record.["revision"];
  issuerWalletVerificationEvidenceId ← parseAuthorityId record.["issuerWalletVerificationEvidenceId"];
  auditRecordId ← parseAuthorityId record.["auditRecordId"];
  let delegation :=
    {| sd_delegationId := delegationId; sd_project := project; sd_staffAccount := staffAccount;
       sd_installationId := installationId; sd_deviceCredentialId := deviceCredentialId;
       sd_installationAuthJkt := installationAuthJkt;
       sd_mlsCredentialFingerprint := mlsCredentialFingerprint;
       sd_deviceRevocationVersion := deviceRevocationVersion;
       sd_deviceDirectoryEntryDigest := deviceDirectoryEntryDigest;
       sd_deviceTransparencyCheckpointDigest := deviceTransparencyCheckpointDigest;
       sd_issuerAccount := issuerAccount; sd_authorityGenerationId := authorityGenerationId;
       sd_authorityGenerationSequence := authorityGenerationSequence;
       sd_capabilities := capabilities; sd_issuedAt := issuedAt; sd_notBefore := notBefore;
       sd_expiresAt := expiresAt; sd_revision := revision;
       sd_issuerWalletVerificationEvidenceId := issuerWalletVerificationEvidenceId;
       sd_delegationSignatureEvidenceId := delegationSignatureEvidenceId;
       sd_delegationSignatureEvidenceDigest := delegationSignatureEvidenceDigest;
       sd_auditRecordId := auditRecordId; sd_revokedAt := revokedAt |} in
  delegationPayloadDigest ← parseHash32 record.["delegationPayloadDigest"];
  expectedDigest ← delegationDigestOf delegation;
  refuse_if (delegationPayloadDigest !== expectedDigest);;
  Ok (delegation, delegationPayloadDigest).
End Delegation.

(** ** Losses *)

Lemma cursor_inj c d : same_json (cursor_obj c) (cursor_obj d) → c = d.
Proof. unfold cursor_obj. intros HS. same_fields HS. destruct c, d; cbn in *. congruence. Qed.

Section LossFacts.
Context `{Sha256}.
#[local] Opaque sha256AuthorityDigest.

Lemma refuse_cursors c d :
  refuse_digests (cursor_obj c) (cursor_obj d) = Ok () →
  c = d ∨ collision [authorityPreimage (cursor_obj c)] [authorityPreimage (cursor_obj d)].
Proof.
  intros [HS|]%refuse_digests_Ok; [left|by right|done..]. by apply cursor_inj.
Qed.

(** What an accepted loss says of the generation that is lost. *)
Lemma loss_Ok v policy p cpId cpDigest now e :
  parseFinalizedAuthorityLossEvidence v policy p cpId cpDigest now = Ok e →
  le_project e = g_project p ∧ g_authorityStatus p = authority_active ∧
  g_rootPrincipal p = Some (le_predecessorPrincipal e) ∧
  le_predecessorGenerationId e = g_generationId p ∧
  le_successorGenerationId e ≠ g_generationId p ∧
  BigInt (le_successorSequence e) = BigInt (g_sequence p) + 1 ∧
  lossCause (le_transitionCause e) = true ∧
  (le_transitionCause e = revnet_operator_relinquished → g_rootKind p = revnet_operator_set) ∧
  (le_transitionCause e = project_owner_burned → g_rootKind p = jbprojects_owner) ∧
  (height p < BigInt (ab_blockNumber (le_block e)) ∨
   height p = BigInt (ab_blockNumber (le_block e)) ∧
   ab_blockHash (g_activatedAtBlock p) = ab_blockHash (le_block e) ∧
   cursor_before (g_transitionCursor p) (le_transitionCursor e)) ∧
  le_scannerCheckpointId e = cpId ∧ le_scannerCheckpointDigest e = cpDigest ∧
  lossDigestOf e = Ok (le_evidenceDigest e).
Proof.
  unfold parseFinalizedAuthorityLossEvidence. cbv zeta. intros H0. inv_auth. subst e. bsimp. zbool.
  repeat match goal with H : sameJuiceboxV6ProjectRef _ _ = true |- _ => apply sameProject_eq in H end.
  repeat match goal with u : () |- _ => destruct u end.
  match goal with H : (?o <=? 0) = false, HC : compareBlockAndTransitionCursor _ _ _ _ = Ok ?o |- _ =>
    apply Z.leb_gt in H; pose proof (compareBlock_pos _ _ _ _ _ HC H) as HO end.
  cbn [le_project le_predecessorPrincipal le_predecessorGenerationId le_successorGenerationId le_successorSequence
    le_transitionCause le_block le_transitionCursor le_scannerCheckpointId le_scannerCheckpointDigest le_evidenceDigest].
  split_and!; try done; try congruence.
  - intros ->. by destruct (g_rootKind p).
  - intros ->. by destruct (g_rootKind p).
  - destruct HO as [HO|(E & F & HO)]; [by left|right]. by rewrite F.
Qed.

(** C30: A generation that accepted loss evidence activates is the disabled
    successor of the generation that was lost, and the ledger accepts the
    transition exactly when the evidence is new: neither its id nor its digest is
    the root evidence of the lost generation, which the loss check itself does not
    compare. *)
Theorem loss_activates_successor v policy p cpId cpDigest now e g :
  parseFinalizedAuthorityLossEvidence v policy p cpId cpDigest now = Ok e →
  assertAuthorityGenerationTransitionEvidence g (authority_loss e) = Ok () →
  g_authorityStatus g = authority_disabled ∧ g_rootPrincipal g = None ∧
  g_predecessorGenerationId g = Some (g_generationId p) ∧ BigInt (g_sequence g) = BigInt (g_sequence p) + 1 ∧
  (g_rootEvidenceId g = le_evidenceId e ∧ g_rootEvidenceDigest g = le_evidenceDigest e) ∧
  ((assertSuccessorAuthorityGeneration p g = Ok () ↔
    le_evidenceId e ≠ g_rootEvidenceId p ∧ le_evidenceDigest e ≠ g_rootEvidenceDigest p) ∨
   collision [authorityPreimage (cursor_obj (g_transitionCursor g))]
             [authorityPreimage (cursor_obj (le_transitionCursor e))]).
Proof.
  intros (L1 & L2 & _ & L4 & L5 & L6 & L7 & L8 & L9 & L10 & _)%loss_Ok HA.
  apply bind_Ok in HA as (u & HA%refuse_if_Ok & (u' & HC & HG%refuse_if_Ok)%bind_Ok). bsimp.
  apply sameProject_eq in HA. destruct u'.
  split_and!; try congruence. apply refuse_cursors in HC as [HC|]; [left|by right].
  rewrite successor_iff. split; [intros [_ _ _ [N1 N2] _ _ _]; split; congruence|intros [HI HD]].
  constructor; try congruence.
  - split; congruence.
  - unfold before, height in *. repeat match goal with H : ab_blockNumber _ = _ |- _ => rewrite H end.
    destruct L10 as [L|(L & F & LC)]; [by left|right]. split_and!; congruence.
  - unfold caused. match goal with H : g_authorityStatus g = _ |- _ => rewrite H end.
    match goal with H : g_transitionCause g = _ |- _ => rewrite H end. destruct (le_transitionCause e); try discriminate L7; auto.
Qed.
End LossFacts.

(** ** Roots *)

Lemma parseVerifiedRootCommon_Ok r policy x c :
  parseVerifiedRootCommon r policy x = Ok c →
  rc_project c = ro_project x ∧ rc_principal c = ro_principal x ∧
  rc_deploymentManifestId c = ro_deploymentManifestId x ∧ rc_adapterRevision c = ro_adapterRevision x ∧
  j_chainId (rc_project c) = fp_chainId policy ∧ valid_anchor (rc_block c) = true ∧
  Date_parse (ab_finalizedAt (rc_block c)) <= Date_parse (ro_now x) ∧
  tc_blockHash (rc_transitionCursor c) = ab_blockHash (rc_block c).
Proof.
  unfold parseVerifiedRootCommon. intros H0. inv_auth. subst c. bsimp. zbool.
  repeat match goal with H : sameJuiceboxV6ProjectRef _ _ = true |- _ => apply sameProject_eq in H end.
  match goal with H : parseFinalizedBlockAnchor _ _ _ = Ok _ |- _ => apply parseAnchor_Ok in H as (? & ? & _ & ?) end.
  match goal with H : parseAuthorityTransitionCursor _ _ _ _ = Ok _ |- _ => unfold parseAuthorityTransitionCursor in H end.
  inv_auth. subst. bsimp. split_and!; done.
Qed.

(** A verified root is the one asked for, on the approved deployment: an
    ordinary owner is what [ownerOf] of the project's own contract returned; an
    operator's project is held by the canonical REVOwner, whose deployer, owner
    and projects contract refer to each other.  An ineligible result is about
    the request; only an unconfigured verifier may leave the scope out. *)
Theorem verified_root_canonical v policy x r :
  parseRootAuthorityVerificationResult v policy x = Ok r →
  let bound c := rc_project c = ro_project x ∧ rc_principal c = ro_principal x ∧
    rc_deploymentManifestId c = ro_deploymentManifestId x ∧ rc_adapterRevision c = ro_adapterRevision x ∧
    j_chainId (rc_project c) = fp_chainId policy ∧ valid_anchor (rc_block c) = true ∧
    Date_parse (ab_finalizedAt (rc_block c)) <= Date_parse (ro_now x) ∧
    tc_blockHash (rc_transitionCursor c) = ab_blockHash (rc_block c) in
  match r with
  | root_project_owner c projects codeHash owner _ _ =>
      bound c ∧ owner = ro_principal x ∧ projects = j_projectsContract (ro_project x) ∧
      codeHash = ro_projectsCodeHash x ∧ ro_revnet x = None
  | root_revnet_operator c deployer deployerCode owner ownerCode configuration ownerOf d =>
      bound c ∧ ownerOf = owner ∧
      ro_revnet x = Some {| re_revDeployer := deployer; re_revDeployerCodeHash := deployerCode;
                            re_revOwner := owner; re_revOwnerCodeHash := ownerCode |} ∧
      rd_emitter d = deployer ∧ rd_configurationHash d = configuration ∧
      rd_revDeployerProjectsResult d = j_projectsContract (ro_project x) ∧ rd_revDeployerOwnerResult d = owner ∧
      rd_revOwnerProjectsResult d = j_projectsContract (ro_project x) ∧ rd_revOwnerDeployerResult d = deployer
  | root_ineligible project principal _ => project = ro_project x ∧ principal = ro_principal x
  | root_unavailable project principal reason =>
      reason ≠ root_not_configured → is_Some project ∧ is_Some principal
  end.
Proof.
  intros H0 bound. unfold parseRootAuthorityVerificationResult in H0. apply bind_Ok in H0 as (rec & _ & H0). cbv zeta in H0.
  destruct (isString _ "verified").
  - unfold parseVerifiedRoot in H0. apply bind_Ok in H0 as (rec' & _ & H0). cbv zeta in H0.
    destruct (isString _ "project-owner"); [|destruct (isString _ "revnet-operator"); [|done]].
    + inv_auth. subst r. bsimp.
      match goal with H : parseVerifiedRootCommon _ _ _ = Ok _ |- _ => apply parseVerifiedRootCommon_Ok in H end.
      split; [done|]. subst. unfold bound in *. split_and!; try (intuition congruence).
      destruct (ro_revnet x); [|done]. exfalso. eauto.
    + apply bind_Ok in H0 as (rc & _ & H0). apply bind_Ok in H0 as (u & _ & H0).
      destruct (ro_revnet x) as [[d dc o oc]|] eqn:ER; inv_auth; [|done]. subst r. bsimp.
      match goal with H : parseVerifiedRootCommon _ _ _ = Ok _ |- _ => apply parseVerifiedRootCommon_Ok in H end.
      split; [done|]. cbn [re_revDeployer re_revDeployerCodeHash re_revOwner re_revOwnerCodeHash] in *. subst.
      split_and!; intuition congruence.
  - destruct (isString _ "ineligible"); [|destruct (isString _ "unavailable"); [|done]]; inv_auth; subst r; bsimp.
    + match goal with H : sameJuiceboxV6ProjectRef _ _ = true |- _ => apply sameProject_eq in H end. done.
    + intros HR. match goal with H : _ && _ = false |- _ => rewrite (bool_decide_eq_false_2 _ HR) in H; cbn in H end. bsimp.
      split; by apply not_eq_None_Some.
Qed.

(** ** Delegations *)

Section DelegationFacts.
Context `{Sha256}.
#[local] Opaque sha256AuthorityDigest.

Lemma parseCapabilities_Ok v caps :
  parseCapabilities v = Ok caps →
  ∃ names, StronglySorted (λ s t, slt s t = true) names ∧ names ⊆ PROJECT_STAFF_CAPABILITIES ∧
    (caps = map Some names ∨ caps = map Some names ++ [None]).
Proof.
  destruct v; try discriminate. unfold parseCapabilities. intros H0. inv_auth. subst. bsimp.
  destruct (sorted_providers caps) as (names & HS & HE); [done..|]. exists names. split_and!; [done| |done].
  intros s Hs. assert (Hin : Some s ∈ caps).
  { destruct HE as [-> | ->]; [|apply elem_of_app; left]; apply list_elem_of_In, in_map, list_elem_of_In, Hs. }
  match goal with H : mapArray _ _ = Ok _ |- _ => apply mapR_Ok in H; rename H into HM end.
  apply list_elem_of_lookup in Hin as [i Hi]. destruct (Forall2_lookup_r _ _ _ _ _ HM Hi) as (o & _ & E).
  destruct o as [w|]; [|done]. destruct (parseCapability w) as [t|] eqn:Et; [|done]. injection E as ->.
  destruct w; try discriminate. unfold parseCapability in Et. inv_auth. subst. by bsimp.
Qed.

Lemma parseBase64Url_string v lo hi s : parseBase64Url v lo hi = Ok s → v = VString s.
Proof. destruct v; try discriminate. unfold parseBase64Url. intros H0. inv_auth. by subst. Qed.

(** C27: An accepted delegation is alive: it is issued by the principal of the active
    generation to the very device, its window is open now and ends within seven
    days of its issue, it is not revoked, its capabilities are distinct, sorted
    and among the seven, and its digest is the canonical one. *)
Theorem staff_delegation_bounds v g device evidenceId evidenceDigest now d digest :
  parseProjectStaffDelegation v g device evidenceId evidenceDigest now = Ok (d, digest) →
  (g_authorityStatus g = authority_active ∧ g_rootPrincipal g = Some (sd_issuerAccount d) ∧
   sd_project d = g_project g ∧ sd_authorityGenerationId d = g_generationId g ∧
   sd_authorityGenerationSequence d = g_sequence g) ∧
  device = {| dd_account := sd_staffAccount d; dd_installationId := sd_installationId d;
              dd_credentialId := sd_deviceCredentialId d; dd_jwkThumbprint := sd_installationAuthJkt d;
              dd_credentialFingerprint := sd_mlsCredentialFingerprint d;
              dd_revocationVersion := sd_deviceRevocationVersion d |} ∧
  (Date_parse (sd_issuedAt d) <= Date_parse (sd_notBefore d) <= Date_parse now ∧
   Date_parse now < Date_parse (sd_expiresAt d) <= Date_parse (sd_issuedAt d) + 7 * 86400000 ∧
   sd_revokedAt d = None) ∧
  (∃ names, StronglySorted (λ s t, slt s t = true) names ∧ names ⊆ PROJECT_STAFF_CAPABILITIES ∧
    (sd_capabilities d = map Some names ∨ sd_capabilities d = map Some names ++ [None])) ∧
  (sd_delegationSignatureEvidenceId d, sd_delegationSignatureEvidenceDigest d) = (evidenceId, evidenceDigest) ∧
  delegationDigestOf d = Ok digest.
Proof.
  unfold parseProjectStaffDelegation, lifetimeInvalid, instantMilliseconds, MAX_DELEGATION_LIFETIME_MS. cbv zeta. intros H0. inv_auth. subst.
  bsimp. zbool. repeat match goal with H : sameJuiceboxV6ProjectRef _ _ = true |- _ => apply sameProject_eq in H end.
  repeat match goal with H : _ <= _ |- _ => progress cbn in H end.
  match goal with H : parseCapabilities _ = Ok _ |- _ => apply parseCapabilities_Ok in H end.
  repeat match goal with H : parseBase64Url _ _ _ = Ok _ |- _ => apply parseBase64Url_string in H end.
  match goal with H : ?f = VString ?s, H' : isString ?f ?t = true |- _ => rewrite H in H'; cbn [isString] in H' end. bsimp.
  cbn [sd_issuerAccount sd_project sd_authorityGenerationId sd_authorityGenerationSequence sd_staffAccount sd_installationId
    sd_deviceCredentialId sd_installationAuthJkt sd_mlsCredentialFingerprint sd_deviceRevocationVersion sd_issuedAt
    sd_notBefore sd_expiresAt sd_revokedAt sd_capabilities sd_delegationSignatureEvidenceId sd_delegationSignatureEvidenceDigest].
  repeat match goal with H : (_ <=? _) = false |- _ => apply Z.leb_gt in H end.
  split; [by split_and!|]. split; [destruct device; simpl in *; congruence|].
  split; [split_and!; try done; lia|]. split; [done|]. split; [congruence|congruence].
Qed.
End DelegationFacts.

(** ** Samples *)

Module EvidenceSamples.
#[local] Existing Instance checksum_digest.
Import AuthorityGenerations.Samples.

(** The transfer's generation loses its authority later in the same block. *)
Definition loss : LossEvidence :=
  let e d :=
    {| le_evidenceId := "evidence-3"; le_evidenceDigest := d; le_project := project 1;
       le_predecessorGenerationId := "generation-2"; le_predecessorGenerationSequence := "2";
       le_predecessorPrincipal := sample_hex 40 "2"%char; le_predecessorRootKind := jbprojects_owner;
       le_transitionCause := project_owner_burned; le_block := block "150";
       le_transitionCursor := cursor "burn" "150" 9; le_successorGenerationId := "generation-3";
       le_successorSequence := "3"; le_scannerCheckpointId := "checkpoint-2";
       le_scannerCheckpointDigest := cp_checkpointDigest (fs_checkpoint second_scan) |} in
  e (ok_or "" (lossDigestOf (e ""))).
Definition loss_obj (e : LossEvidence) : unknown :=
  obj (loss_fields e ++ [("evidenceDigest", VString (le_evidenceDigest e))]).

Definition burned : AuthorityGeneration :=
  {| g_generationId := "generation-3"; g_project := project 1; g_sequence := "3";
     g_transitionCause := project_owner_burned; g_authorityStatus := authority_disabled;
     g_rootKind := no_current_authority; g_rootPrincipal := None;
     g_rootEvidenceId := "evidence-3"; g_rootEvidenceDigest := le_evidenceDigest loss;
     g_activatedAtBlock := block "150"; g_transitionCursor := cursor "burn" "150" 9;
     g_predecessorGenerationId := Some "generation-2" |}.

Definition staff_device : DelegatedDevice :=
  {| dd_account := sample_hex 40 "5"%char; dd_installationId := "installation"; dd_credentialId := "credential";
     dd_jwkThumbprint := text (repeat "A"%char 43); dd_credentialFingerprint := text (repeat "A"%char 43);
     dd_revocationVersion := "0" |}.

Definition staff_delegation : ProjectStaffDelegation :=
  {| sd_delegationId := "delegation"; sd_project := project 1; sd_staffAccount := sample_hex 40 "5"%char;
     sd_installationId := "installation"; sd_deviceCredentialId := "credential";
     sd_installationAuthJkt := text (repeat "A"%char 43); sd_mlsCredentialFingerprint := text (repeat "A"%char 43);
     sd_deviceRevocationVersion := "0"; sd_deviceDirectoryEntryDigest := sample_hex 64 "6"%char;
     sd_deviceTransparencyCheckpointDigest := sample_hex 64 "7"%char;
     sd_issuerAccount := sample_hex 40 "2"%char; sd_authorityGenerationId := "generation-2";
     sd_authorityGenerationSequence := "2";
     sd_capabilities := [Some "support:read-messages"; Some "support:send-messages"];
     sd_issuedAt := "2026-01-01T00:00:00.000Z"; sd_notBefore := "2026-01-01T00:00:00.000Z";
     sd_expiresAt := "2026-01-08T00:00:00.000Z"; sd_revision := "1";
     sd_issuerWalletVerificationEvidenceId := "wallet"; sd_delegationSignatureEvidenceId := "signature";
     sd_delegationSignatureEvidenceDigest := sample_hex 64 "8"%char; sd_auditRecordId := "audit";
     sd_revokedAt := None |}.
Definition staff_digest : string := ok_or "" (delegationDigestOf staff_delegation).
Definition delegation_obj (d : ProjectStaffDelegation) (digest : string) : unknown :=
  obj (delegation_fields d ++ [("delegationPayloadDigest", VString digest)]).

Definition root_expectation : RootExpectation :=
  {| ro_project := project 1; ro_principal := sample_hex 40 "2"%char; ro_deploymentManifestId := "manifest";
     ro_adapterRevision := "adapter"; ro_projectsCodeHash := sample_hex 64 "9"%char;
     ro_now := "2026-01-01T00:05:00.000Z"; ro_revnet := None |}.
Definition root_obj : unknown :=
  obj [("status", VString "verified"); ("role", VString "project-owner"); ("evidenceId", VString "evidence-2");
       ("evidenceDigest", VString (sample_hex 64 "2"%char)); ("project", project_obj (project 1));
       ("principal", VString (sample_hex 40 "2"%char)); ("deploymentManifestId", VString "manifest");
       ("adapterRevision", VString "adapter"); ("projectsContract", VString (sample_hex 40 "c"%char));
       ("projectsCodeHash", VString (sample_hex 64 "9"%char)); ("block", anchor_obj (block "150"));
       ("transitionCursor", cursor_obj (cursor "transfer" "150" 2));
       ("ownerOfResult", VString (sample_hex 40 "2"%char));
       ("canonicalRevnetClassification",
        obj [("kind", VString "ordinary-project-classification.v1"); ("result", VString "not-canonical-revnet");
             ("evidenceId", VString "classification"); ("evidenceDigest", VString (sample_hex 64 "0"%char))])].

Lemma loss_activates_successor_witness :
  (parseFinalizedAuthorityLossEvidence (loss_obj loss) sample_policy transferred "checkpoint-2"
     (cp_checkpointDigest (fs_checkpoint second_scan)) "2026-01-01T00:05:00.000Z" = Ok loss) ∧
  (assertAuthorityGenerationTransitionEvidence burned (authority_loss loss) = Ok ()) ∧
  (assertSuccessorAuthorityGeneration transferred burned = Ok ()) ∧
  g_predecessorGenerationId burned = Some (g_generationId transferred) ∧
  ((assertSuccessorAuthorityGeneration transferred burned = Ok () ↔
    le_evidenceId loss ≠ g_rootEvidenceId transferred ∧ le_evidenceDigest loss ≠ g_rootEvidenceDigest transferred) ∨
   collision [authorityPreimage (cursor_obj (g_transitionCursor burned))]
             [authorityPreimage (cursor_obj (le_transitionCursor loss))]).
Proof.
  assert (H1 : parseFinalizedAuthorityLossEvidence (loss_obj loss) sample_policy transferred "checkpoint-2"
     (cp_checkpointDigest (fs_checkpoint second_scan)) "2026-01-01T00:05:00.000Z" = Ok loss) by (vm_compute; reflexivity).
  assert (H2 : assertAuthorityGenerationTransitionEvidence burned (authority_loss loss) = Ok ()) by (vm_compute; reflexivity).
  split; [exact H1|]. split; [exact H2|]. split; [vm_compute; reflexivity|].
  destruct (loss_activates_successor _ _ _ _ _ _ _ _ H1 H2) as (_ & _ & HP & _ & _ & HS). split; [exact HP|exact HS].
Defined.

Lemma staff_delegation_bounds_witness :
  (parseProjectStaffDelegation (delegation_obj staff_delegation staff_digest) transferred staff_device "signature"
     (sample_hex 64 "8"%char) "2026-01-07T23:59:59.999Z" = Ok (staff_delegation, staff_digest)) ∧
  Date_parse (sd_expiresAt staff_delegation) <= Date_parse (sd_issuedAt staff_delegation) + 7 * 86400000.
Proof.
  assert (H1 : parseProjectStaffDelegation (delegation_obj staff_delegation staff_digest) transferred staff_device "signature"
     (sample_hex 64 "8"%char) "2026-01-07T23:59:59.999Z" = Ok (staff_delegation, staff_digest)) by (vm_compute; reflexivity).
  split; [exact H1|]. apply (staff_delegation_bounds _ _ _ _ _ _ _ _ H1).
Defined.

Lemma verified_root_canonical_witness :
  ∃ c contract codeHash owner i d,
    (parseRootAuthorityVerificationResult root_obj sample_policy root_expectation
     = Ok (root_project_owner c contract codeHash owner i d)) ∧
    owner = sample_hex 40 "2"%char ∧ rc_project c = project 1 ∧ ro_revnet root_expectation = None.
Proof.
  destruct (parseRootAuthorityVerificationResult root_obj sample_policy root_expectation) as [r|] eqn:E; [|by vm_compute in E].
  pose proof (verified_root_canonical _ _ _ _ E) as HR. assert (E' := E). vm_compute in E'.
  injection E' as <-. do 6 eexists. split; [reflexivity|]. cbv zeta in HR. destruct HR as ((HP & _) & HO & _ & _ & HN).
  split; [exact HO|]. split; [exact HP|exact HN].
Defined.
End EvidenceSamples.
