(* ===== verification/AuthorityRevocations.v ===== *)
(** * Authority revocations ([src/production/authority/revocations.ts])

    A revocation request retires exactly the generation its cause is about; a
    commit result either repeats the request in its digests, or says that
    nothing was committed and sends stay frozen. *)

From stdpp Require Import base list strings.
From Stdlib Require Import ZArith Lia Ascii.
From S2P Require Import Prelude Sha256 Base64Url JsTime JsValue ValueObjects Quota CanonicalJson AuthorityValues AuthorityFinality AuthorityDigests AuthorityGenerations AuthorityEvidence.

(** An orphaned canonicality result, or a finalized loss. *)
Inductive RevocationCause :=
| cause_orphaned (transactionHash : string) (chainId : Z) (formerBlockNumber formerBlockHash : string)
    (reasonCode : OrphanReason)
| cause_loss (loss : LossEvidence).

Record AuthorityRevocationRequest := {
  rq_requestId : string; rq_project : JuiceboxV6ProjectRef;
  rq_affectedAuthorityGeneration : AuthorityGeneration; rq_cause : RevocationCause;
  rq_derivedEvidenceIds : list (option string); rq_observedAt : string }.

Inductive RevocationUnavailable :=
| coordinator_not_configured | lease_index_unavailable | revocation_audit_unavailable
| outbox_unavailable.
#[export] Instance RevocationUnavailable_eq_dec : EqDecision RevocationUnavailable.
Proof. solve_decision. Defined.
#[export] Instance RevocationUnavailable_literal : Literal RevocationUnavailable := {|
  lit r := match r with coordinator_not_configured => "revocation-coordinator-not-configured"
           | lease_index_unavailable => "lease-index-unavailable"
           | revocation_audit_unavailable => "audit-store-unavailable"
           | outbox_unavailable => "outbox-unavailable" end;
  lits := [coordinator_not_configured; lease_index_unavailable; revocation_audit_unavailable;
           outbox_unavailable] |}.

(** A commit without its digest; its states and actions are constants. *)
Record RevocationCommit := {
  cm_requestId : string; cm_causeDigest : string; cm_derivedEvidenceSetDigest : string;
  cm_revocationCommitId : string; cm_retiredAuthorityGenerationId : string;
  cm_retiredAuthorityGenerationSequence : string; cm_retiredAuthorityGenerationDigest : string;
  cm_generationRetirementId : string; cm_generationRetirementDigest : string;
  cm_affectedLeaseCount : Z; cm_revokedLeaseIdsDigest : string;
  cm_revokedDelegationIdsDigest : string; cm_policyHeadDigest : string; cm_auditRecordId : string;
  cm_outboxRecordId : string; cm_freezeRecordId : string; cm_freezeRecordDigest : string;
  cm_mlsRekeyRequestDigest : string; cm_committedAt : string }.

(** Request, cause and generation are named unless nothing is configured. *)
Inductive AuthorityRevocationCommitResult :=
| revocation_committed (commit : RevocationCommit) (atomicCommitDigest : string)
| revocation_unavailable (request : option (string * string * string)) (reasonCode : RevocationUnavailable).

Definition cause_obj (cause : RevocationCause) : unknown :=
  match cause with
  | cause_orphaned transactionHash chainId number hash reason =>
      obj [("status", VString "orphaned"); ("transactionHash", VString transactionHash);
           ("chainId", VInt chainId); ("formerBlockNumber", VString number);
           ("formerBlockHash", VString hash); ("reasonCode", VString (lit reason));
           ("requiredAction", VString "revoke-leases-and-rekey")]
  | cause_loss e => obj (loss_fields e ++ [("evidenceDigest", VString (le_evidenceDigest e))])
  end.

Definition commit_fields (c : RevocationCommit) : list (string * unknown) :=
  [("status", VString "committed"); ("requestId", VString (cm_requestId c));
   ("causeDigest", VString (cm_causeDigest c));
   ("derivedEvidenceSetDigest", VString (cm_derivedEvidenceSetDigest c));
   ("revocationCommitId", VString (cm_revocationCommitId c));
   ("retiredAuthorityGenerationId", VString (cm_retiredAuthorityGenerationId c));
   ("retiredAuthorityGenerationSequence", VString (cm_retiredAuthorityGenerationSequence c));
   ("retiredAuthorityGenerationDigest", VString (cm_retiredAuthorityGenerationDigest c));
   ("generationRetirementId", VString (cm_generationRetirementId c));
   ("generationRetirementDigest", VString (cm_generationRetirementDigest c));
   ("authorityGenerationState", VString "retired");
   ("affectedLeaseCount", VInt (cm_affectedLeaseCount c));
   ("revokedLeaseIdsDigest", VString (cm_revokedLeaseIdsDigest c));
   ("revokedDelegationIdsDigest", VString (cm_revokedDelegationIdsDigest c));
   ("policyHeadDigest", VString (cm_policyHeadDigest c));
   ("auditRecordId", VString (cm_auditRecordId c)); ("outboxRecordId", VString (cm_outboxRecordId c));
   ("freezeRecordId", VString (cm_freezeRecordId c));
   ("freezeRecordDigest", VString (cm_freezeRecordDigest c)); ("admissionState", VString "frozen");
   ("sendState", VString "frozen-pending-rekey");
   ("mlsRekeyRequestDigest", VString (cm_mlsRekeyRequestDigest c));
   ("mlsAction", VString "remove-and-rekey-enqueued"); ("sendsPausedUntilRekey", VBool true);
   ("committedAt", VString (cm_committedAt c))].

Definition atomic_obj (commit : RevocationCommit) : unknown :=
  obj [("kind", VString "authority-revocation-atomic-commit.v1"); ("commit", obj (commit_fields commit))].

Section Revocations.
Context `{Sha256}.

(** ** Digests *)

Definition computeAuthorityRevocationCauseDigest (cause : RevocationCause) : result string :=
  sha256AuthorityDigest (obj [("kind", VString "authority-revocation-cause-digest.v1");
                              ("cause", cause_obj cause)]).

Definition computeDerivedEvidenceSetDigest (evidenceIds : list (option string)) : result string :=
  sha256AuthorityDigest (obj [("kind", VString "authority-derived-evidence-set.v1");
                              ("evidenceIds", VArray ArrayPrototype (map (fmap VString) evidenceIds) 0)]).

Definition computeRetiredAuthorityGenerationDigest (generation : AuthorityGeneration) : result string :=
  sha256AuthorityDigest (obj [("kind", VString "retired-authority-generation.v1");
                              ("generation", generation_obj generation)]).

Definition computeAuthorityGenerationRetirementDigest (request : AuthorityRevocationRequest)
    (generationRetirementId : string) : result string :=
  let generation := rq_affectedAuthorityGeneration request in
  causeDigest ← computeAuthorityRevocationCauseDigest (rq_cause request);
  generationDigest ← computeRetiredAuthorityGenerationDigest generation;
  sha256AuthorityDigest
    (obj [("kind", VString "authority-generation-retirement.v1");
          ("requestId", VString (rq_requestId request)); ("causeDigest", VString causeDigest);
          ("generationRetirementId", VString generationRetirementId);
          ("retiredAuthorityGenerationId", VString (g_generationId generation));
          ("retiredAuthorityGenerationSequence", VString (g_sequence generation));
          ("retiredAuthorityGenerationDigest", VString generationDigest);
          ("authorityGenerationState", VString "retired")]).

Definition computeAuthorityFreezeRecordDigest (request : AuthorityRevocationRequest)
    (freezeRecordId : string) : result string :=
  causeDigest ← computeAuthorityRevocationCauseDigest (rq_cause request);
  sha256AuthorityDigest
    (obj [("kind", VString "authority-generation-freeze.v1");
          ("requestId", VString (rq_requestId request)); ("causeDigest", VString causeDigest);
          ("retiredAuthorityGenerationId",
           VString (g_generationId (rq_affectedAuthorityGeneration request)));
          ("freezeRecordId", VString freezeRecordId); ("admissionState", VString "frozen");
          ("sendState", VString "frozen-pending-rekey")]).

Definition atomicCommitDigestOf (commit : RevocationCommit) : result string :=
  sha256AuthorityDigest (atomic_obj commit).

(** ** Requests *)

(** The cause is about the project, and retires the exact generation. *)
Definition causeDetached (cause : RevocationCause) (g : AuthorityGeneration)
    (project : JuiceboxV6ProjectRef) : bool :=
  match cause with
  | cause_orphaned transactionHash chainId number hash _ =>
      negb (chainId =? j_chainId project)
      || (transactionHash !== tc_transactionHash (g_transitionCursor g))
      || (number !== ab_blockNumber (g_activatedAtBlock g))
      || (hash !== ab_blockHash (g_activatedAtBlock g))
  | cause_loss e =>
      negb (sameJuiceboxV6ProjectRef (le_project e) project)
      || (le_predecessorGenerationId e !== g_generationId g)
      || (le_predecessorGenerationSequence e !== g_sequence g)
      || (Some (le_predecessorPrincipal e) !== g_rootPrincipal g)
      || (le_predecessorRootKind e !== g_rootKind g)
  end.

Definition parseAuthorityRevocationRequest (value : unknown) (expectedProject : JuiceboxV6ProjectRef)
    (cause : RevocationCause) (generation : AuthorityGeneration) (now : string) :
  result AuthorityRevocationRequest :=
  record ← expectExactRecord value
    ["requestId"; "project"; "affectedAuthorityGeneration"; "requiredGenerationAction"; "cause";
     "derivedEvidenceIds"; "observedAt"];
  project ← parseJuiceboxV6ProjectRef record.["project"];
  refuse_if (negb (sameJuiceboxV6ProjectRef project expectedProject));;
  refuse_digests record.["cause"] (cause_obj cause);;
  refuse_digests record.["affectedAuthorityGeneration"] (generation_obj generation);;
  refuse_if (negb (isString record.["requiredGenerationAction"] "retire-exact-generation-and-freeze"));;
  refuse_if (causeDetached cause generation project
             || negb (sameJuiceboxV6ProjectRef (g_project generation) project));;
  match record.["derivedEvidenceIds"] with
  | VArray _ elems _ =>
      refuse_if ((Z.of_nat (length elems) <? 1) || (10000 <? Z.of_nat (length elems)));;
      derivedEvidenceIds ← mapArray parseAuthorityId elems;
      refuse_if (hasDuplicates derivedEvidenceIds || isUnsorted derivedEvidenceIds);;
      refuse_if (negb (bool_decide (Some (g_rootEvidenceId generation) ∈ derivedEvidenceIds)));;
      observedAt ← parseCanonicalInstant record.["observedAt"];
      refuse_if (instantMilliseconds now <? instantMilliseconds observedAt);;
      refuse_if match cause with
                | cause_loss e =>
                    instantMilliseconds observedAt <? instantMilliseconds (ab_finalizedAt (le_block e))
                | cause_orphaned _ _ _ _ _ => false
                end;;
      requestId ← parseAuthorityId record.["requestId"];
      Ok {| rq_requestId := requestId; rq_project := project;
            rq_affectedAuthorityGeneration := generation; rq_cause := cause;
            rq_derivedEvidenceIds := derivedEvidenceIds; rq_observedAt := observedAt |}
  | _ => invalid
  end.

(** ** Commits *)

Definition parseUnavailableRevocation (value : unknown) (request : AuthorityRevocationRequest)
    (causeDigest : string) : result AuthorityRevocationCommitResult :=
  record ← expectExactRecord value
    ["status"; "requestId"; "causeDigest"; "affectedAuthorityGenerationId";
     "generationRetirementCommitted"; "reasonCode"; "authorityRemainsSuspended"; "sendsRemainFrozen"];
  reasonCode ← parseLiteral (A := RevocationUnavailable) record.["reasonCode"];
  let notConfigured := reasonCode === coordinator_not_configured in
  let generationId := g_generationId (rq_affectedAuthorityGeneration request) in
  refuse_if (((negb notConfigured || negb (isNull record.["requestId"])
               || negb (isNull record.["causeDigest"]))
              && (negb (isString record.["requestId"] (rq_requestId request))
                  || negb (isString record.["causeDigest"] causeDigest)))
             || (if notConfigured then negb (isNull record.["affectedAuthorityGenerationId"])
                 else negb (isString record.["affectedAuthorityGenerationId"] generationId))
             || negb (isFalse record.["generationRetirementCommitted"])
             || negb (isTrue record.["authorityRemainsSuspended"])
             || negb (isTrue record.["sendsRemainFrozen"]));;
  Ok (revocation_unavailable
        (if notConfigured then None else Some (rq_requestId request, causeDigest, generationId))
        reasonCode).

Definition parseAuthorityRevocationCommitResult (value : unknown)
    (request : AuthorityRevocationRequest) (now : string) : result AuthorityRevocationCommitResult :=
  r ← expectObject value;
  let status := r.["status"] in
  causeDigest ← computeAuthorityRevocationCauseDigest (rq_cause request);
  if isString status "unavailable" then parseUnavailableRevocation value request causeDigest
  else if negb (isString status "committed") then invalid
  else
    record ← expectExactRecord value
      ["status"; "requestId"; "causeDigest"; "derivedEvidenceSetDigest"; "revocationCommitId";
       "retiredAuthorityGenerationId"; "retiredAuthorityGenerationSequence";
       "retiredAuthorityGenerationDigest"; "generationRetirementId"; "generationRetirementDigest";
       "authorityGenerationState"; "affectedLeaseCount"; "revokedLeaseIdsDigest";
       "revokedDelegationIdsDigest"; "policyHeadDigest"; "auditRecordId"; "outboxRecordId";
       "freezeRecordId"; "freezeRecordDigest"; "admissionState"; "sendState";
       "mlsRekeyRequestDigest"; "mlsAction"; "sendsPausedUntilRekey"; "committedAt";
       "atomicCommitDigest"];
    let generation := rq_affectedAuthorityGeneration request in
    derivedEvidenceSetDigest ← computeDerivedEvidenceSetDigest (rq_derivedEvidenceIds request);
    retiredDigest ← computeRetiredAuthorityGenerationDigest generation;
    generationRetirementId ← parseAuthorityId record.["generationRetirementId"];
    freezeRecordId ← parseAuthorityId record.["freezeRecordId"];
    retirementDigest ← computeAuthorityGenerationRetirementDigest request generationRetirementId;
    freezeDigest ← computeAuthorityFreezeRecordDigest request freezeRecordId;
    refuse_if (negb (isString record.["requestId"] (rq_requestId request))
               || negb (isString record.["causeDigest"] causeDigest)
               || negb (isString record.["derivedEvidenceSetDigest"] derivedEvidenceSetDigest)
               || negb (isString record.["retiredAuthorityGenerationId"] (g_generationId generation))
               || negb (isString record.["retiredAuthorityGenerationSequence"] (g_sequence generation))
               || negb (isString record.["retiredAuthorityGenerationDigest"] retiredDigest)
               || negb (isString record.["generationRetirementDigest"] retirementDigest)
               || negb (isString record.["authorityGenerationState"] "retired")
               || negb (isString record.["freezeRecordDigest"] freezeDigest)
               || negb (isString record.["admissionState"] "frozen")
               || negb (isString record.["sendState"] "frozen-pending-rekey")
               || negb (isString record.["mlsAction"] "remove-and-rekey-enqueued")
               || negb (isTrue record.["sendsPausedUntilRekey"]));;
    affectedLeaseCount ← parseSafeCount record.["affectedLeaseCount"] 1000000;
    committedAt ← parseCanonicalInstant record.["committedAt"];
    refuse_if ((instantMilliseconds committedAt <? instantMilliseconds (rq_observedAt request))
               || (instantMilliseconds now <? instantMilliseconds committedAt));;
    revocationCommitId ← parseAuthorityId record.["revocationCommitId"];
    generationRetirementDigest ← parseHash32 record.["generationRetirementDigest"];
    revokedLeaseIdsDigest ← parseHash32 record.["revokedLeaseIdsDigest"];
    revokedDelegationIdsDigest ← parseHash32 record.["revokedDelegationIdsDigest"];
    policyHeadDigest ← parseHash32 record.["policyHeadDigest"];
    auditRecordId ← parseAuthorityId record.["auditRecordId"];
    outboxRecordId ← parseAuthorityId record.["outboxRecordId"];
    freezeRecordDigest ← parseHash32 record.["freezeRecordDigest"];
    mlsRekeyRequestDigest ← parseHash32 record.["mlsRekeyRequestDigest"];
    let commit :=
      {| cm_requestId := rq_requestId request; cm_causeDigest := causeDigest;
         cm_derivedEvidenceSetDigest := derivedEvidenceSetDigest;
         cm_revocationCommitId := revocationCommitId;
         cm_retiredAuthorityGenerationId := g_generationId generation;
         cm_retiredAuthorityGenerationSequence := g_sequence generation;
         cm_retiredAuthorityGenerationDigest := retiredDigest;
         cm_generationRetirementId := generationRetirementId;
         cm_generationRetirementDigest := generationRetirementDigest;
         cm_affectedLeaseCount := affectedLeaseCount;
         cm_revokedLeaseIdsDigest := revokedLeaseIdsDigest;
         cm_revokedDelegationIdsDigest := revokedDelegationIdsDigest;
         cm_policyHeadDigest := policyHeadDigest; cm_auditRecordId := auditRecordId;
         cm_outboxRecordId := outboxRecordId; cm_freezeRecordId := freezeRecordId;
         cm_freezeRecordDigest := freezeRecordDigest;
         cm_mlsRekeyRequestDigest := mlsRekeyRequestDigest; cm_committedAt := committedAt |} in
    atomicCommitDigest ← parseHash32 record.["atomicCommitDigest"];
    expectedDigest ← atomicCommitDigestOf commit;
    refuse_if (atomicCommitDigest !== expectedDigest);;
    Ok (revocation_committed commit atomicCommitDigest).
End Revocations.

(** ** What requests and commits promise *)

Section RevocationFacts.
Context `{Sha256}.
#[local] Opaque sha256AuthorityDigest.

(** When the cause was final, if that is known. *)
Definition finalized_by (cause : RevocationCause) (t : Z) : Prop :=
  match cause with
  | cause_orphaned _ _ _ _ _ => True
  | cause_loss e => Date_parse (ab_finalizedAt (le_block e)) <= t
  end.

(** The generation a cause is about. *)
Definition retires (cause : RevocationCause) (g : AuthorityGeneration) : Prop :=
  match cause with
  | cause_orphaned transactionHash chainId number hash _ =>
      chainId = j_chainId (g_project g) ∧ transactionHash = tc_transactionHash (g_transitionCursor g) ∧
      number = ab_blockNumber (g_activatedAtBlock g) ∧ hash = ab_blockHash (g_activatedAtBlock g)
  | cause_loss e =>
      le_project e = g_project g ∧ le_predecessorGenerationId e = g_generationId g ∧
      le_predecessorGenerationSequence e = g_sequence g ∧
      g_rootPrincipal g = Some (le_predecessorPrincipal e) ∧ le_predecessorRootKind e = g_rootKind g
  end.

Lemma request_Ok v p cause g now rq :
  parseAuthorityRevocationRequest v p cause g now = Ok rq →
  rq_project rq = p ∧ g_project g = p ∧ rq_affectedAuthorityGeneration rq = g ∧ rq_cause rq = cause ∧
  retires cause g ∧ finalized_by cause (Date_parse (rq_observedAt rq)) ∧
  Date_parse (rq_observedAt rq) <= Date_parse now ∧
  Some (g_rootEvidenceId g) ∈ rq_derivedEvidenceIds rq ∧
  hasDuplicates (rq_derivedEvidenceIds rq) = false ∧ isUnsorted (rq_derivedEvidenceIds rq) = false.
Proof.
  unfold parseAuthorityRevocationRequest, instantMilliseconds. intros H0.
  apply bind_Ok in H0 as (rec & _ & H0). apply bind_Ok in H0 as (p' & _ & H0).
  do 5 (apply bind_Ok in H0 as (? & ? & H0)).
  destruct (rec.["derivedEvidenceIds"]) as [| | | | | | | | |pr elems e|]; try discriminate H0.
  inv_auth. subst rq. bsimp. zbool.
  repeat match goal with H : refuse_if _ = Ok _ |- _ => apply refuse_if_Ok in H end. bsimp.
  repeat match goal with H : sameJuiceboxV6ProjectRef _ _ = true |- _ => apply sameProject_eq in H end. subst.
  cbn [rq_project rq_affectedAuthorityGeneration rq_cause rq_observedAt rq_derivedEvidenceIds].
  split_and!; try done.
  - unfold causeDetached, retires in *. destruct cause as [th ci n h r|le]; bsimp; zbool.
    + split_and!; congruence.
    + match goal with H : sameJuiceboxV6ProjectRef _ _ = true |- _ => apply sameProject_eq in H end.
      split_and!; congruence.
  - unfold finalized_by. destruct cause; [done|]. by zbool.
Qed.

Lemma retirementHash f rq i d h :
  computeAuthorityGenerationRetirementDigest rq i = Ok d → isString f d = true → parseHash32 f = Ok h → h = d.
Proof.
  unfold computeAuthorityGenerationRetirementDigest. cbv zeta. intros (? & _ & (? & _ & Hd)%bind_Ok)%bind_Ok.
  by eapply stringHash.
Qed.
Lemma freezeHash f rq i d h :
  computeAuthorityFreezeRecordDigest rq i = Ok d → isString f d = true → parseHash32 f = Ok h → h = d.
Proof. unfold computeAuthorityFreezeRecordDigest. intros (? & _ & Hd)%bind_Ok. by eapply stringHash. Qed.

(** What a commit repeats of its request. *)
Lemma commit_Ok v rq now r :
  parseAuthorityRevocationCommitResult v rq now = Ok r →
  ∃ causeDigest, computeAuthorityRevocationCauseDigest (rq_cause rq) = Ok causeDigest ∧
  match r with
  | revocation_committed c d =>
      cm_requestId c = rq_requestId rq ∧ cm_causeDigest c = causeDigest ∧
      computeDerivedEvidenceSetDigest (rq_derivedEvidenceIds rq) = Ok (cm_derivedEvidenceSetDigest c) ∧
      cm_retiredAuthorityGenerationId c = g_generationId (rq_affectedAuthorityGeneration rq) ∧
      cm_retiredAuthorityGenerationSequence c = g_sequence (rq_affectedAuthorityGeneration rq) ∧
      computeRetiredAuthorityGenerationDigest (rq_affectedAuthorityGeneration rq)
        = Ok (cm_retiredAuthorityGenerationDigest c) ∧
      computeAuthorityGenerationRetirementDigest rq (cm_generationRetirementId c)
        = Ok (cm_generationRetirementDigest c) ∧
      computeAuthorityFreezeRecordDigest rq (cm_freezeRecordId c) = Ok (cm_freezeRecordDigest c) ∧
      0 <= cm_affectedLeaseCount c <= 1000000 ∧
      Date_parse (rq_observedAt rq) <= Date_parse (cm_committedAt c) <= Date_parse now ∧
      atomicCommitDigestOf c = Ok d
  | revocation_unavailable named reason =>
      (reason = coordinator_not_configured ∧ named = None) ∨
      (reason ≠ coordinator_not_configured ∧
       named = Some (rq_requestId rq, causeDigest, g_generationId (rq_affectedAuthorityGeneration rq)))
  end.
Proof.
  unfold parseAuthorityRevocationCommitResult, instantMilliseconds. intros H0.
  apply bind_Ok in H0 as (rec & _ & H0). cbv zeta in H0. apply bind_Ok in H0 as (cd & HC & H0).
  exists cd. split; [done|]. destruct (isString _ "unavailable").
  - unfold parseUnavailableRevocation in H0. cbv zeta in H0. inv_auth. subst r.
    match goal with |- (?x = _ ∧ _) ∨ _ => destruct (decide (x = coordinator_not_configured)) as [E|E] end.
    + left. split; [done|]. by rewrite (bool_decide_eq_true_2 _ E).
    + right. split; [done|]. by rewrite (bool_decide_eq_false_2 _ E).
  - destruct (isString _ "committed"); [|discriminate H0]. cbn [negb] in H0.
    unfold parseSafeCount in H0.
    apply bind_Ok in H0 as (rec' & _ & H0).
    do 7 (apply bind_Ok in H0 as (? & ? & H0)).
    match goal with H : refuse_if _ = Ok _ |- _ => apply refuse_if_Ok in H end. bsimp.
    apply bind_Ok in H0 as (n & HN & H0). 
    destruct (rec'.["affectedLeaseCount"]) as [| | |[z|]| | | | | | |]; try discriminate HN.
    inv_auth. subst r. bsimp. zbool.
    subst. repeat match goal with
    | HD : computeAuthorityGenerationRetirementDigest _ _ = Ok ?d, HS : isString ?f ?d = true, HP : parseHash32 ?f = Ok _ |- _ =>
        rewrite (retirementHash _ _ _ _ _ HD HS HP) in *; clear HS HP
    | HD : computeAuthorityFreezeRecordDigest _ _ = Ok ?d, HS : isString ?f ?d = true, HP : parseHash32 ?f = Ok _ |- _ =>
        rewrite (freezeHash _ _ _ _ _ HD HS HP) in *; clear HS HP
    end.
    by repeat split.
Qed.

(** A request retires the generation its cause is about and no other: the
    orphaned receipt is the one that activated it, the loss names it as
    predecessor; its own root evidence is among the derived evidence, and it was
    observed after the loss was final and not in the future. *)
Theorem revocation_request_exact v p cause g now rq :
  parseAuthorityRevocationRequest v p cause g now = Ok rq →
  rq_project rq = p ∧ g_project g = p ∧ rq_affectedAuthorityGeneration rq = g ∧ rq_cause rq = cause ∧
  retires cause g ∧ finalized_by cause (Date_parse (rq_observedAt rq)) ∧
  Date_parse (rq_observedAt rq) <= Date_parse now ∧
  ∃ names, StronglySorted (λ s t, slt s t = true) names ∧ g_rootEvidenceId g ∈ names ∧
    (rq_derivedEvidenceIds rq = map Some names ∨ rq_derivedEvidenceIds rq = map Some names ++ [None]).
Proof.
  intros (H1 & H2 & H3 & H4 & H5 & H6 & H7 & H8 & H9 & H10)%request_Ok. split_and!; try done.
  destruct (sorted_providers _ H9 H10) as (names & HS & HE). exists names. split_and!; [done| |done].
  destruct HE as [E|E]; rewrite E in H8; [|apply elem_of_app in H8 as [H8|H8]].
  - apply list_elem_of_fmap in H8 as (s & [= ->] & Hs). done.
  - apply list_elem_of_fmap in H8 as (s & [= ->] & Hs). done.
  - by apply list_elem_of_singleton in H8.
Qed.

(** C17: A result of an accepted request either commits exactly that retirement, in
    causal order (final, observed, committed, now), under the digests of the
    request's own cause, evidence and generation and of its freeze, or commits
    nothing and names the request, unless no coordinator is configured. *)
Theorem revocation_commit_bound v p cause g t rq v' now r :
  parseAuthorityRevocationRequest v p cause g t = Ok rq →
  parseAuthorityRevocationCommitResult v' rq now = Ok r →
  match r with
  | revocation_committed c d =>
      cm_requestId c = rq_requestId rq ∧
      computeAuthorityRevocationCauseDigest cause = Ok (cm_causeDigest c) ∧
      computeDerivedEvidenceSetDigest (rq_derivedEvidenceIds rq) = Ok (cm_derivedEvidenceSetDigest c) ∧
      cm_retiredAuthorityGenerationId c = g_generationId g ∧
      cm_retiredAuthorityGenerationSequence c = g_sequence g ∧
      computeRetiredAuthorityGenerationDigest g = Ok (cm_retiredAuthorityGenerationDigest c) ∧
      computeAuthorityGenerationRetirementDigest rq (cm_generationRetirementId c) = Ok (cm_generationRetirementDigest c) ∧
      computeAuthorityFreezeRecordDigest rq (cm_freezeRecordId c) = Ok (cm_freezeRecordDigest c) ∧
      finalized_by cause (Date_parse (cm_committedAt c)) ∧
      Date_parse (rq_observedAt rq) <= Date_parse (cm_committedAt c) <= Date_parse now ∧
      0 <= cm_affectedLeaseCount c <= 1000000 ∧
      atomicCommitDigestOf c = Ok d
  | revocation_unavailable named reason =>
      match named with
      | None => reason = coordinator_not_configured
      | Some (requestId, causeDigest, generationId) =>
          reason ≠ coordinator_not_configured ∧ requestId = rq_requestId rq ∧
          computeAuthorityRevocationCauseDigest cause = Ok causeDigest ∧ generationId = g_generationId g
      end
  end.
Proof.
  intros (_ & _ & E1 & E2 & _ & HF & _)%request_Ok (cd & HC & H0)%commit_Ok. rewrite E1, E2 in *.
  destruct r as [c d|named reason].
  - destruct H0 as (H1 & H2 & H3 & H4 & H5 & H6 & H7 & H8 & H9 & H10 & H11). split_and!; try done; try lia.
    + congruence.
    + unfold finalized_by in *. destruct cause; [done|lia].
  - by destruct H0 as [[-> ->]|[? ->]].
Qed.

Lemma commit_inj c d : same_json (obj (commit_fields c)) (obj (commit_fields d)) → c = d.
Proof. unfold commit_fields. intros HS. same_fields HS. destruct c, d; cbn in *. by subst. Qed.

(** The atomic digest commits to everything the result says: two accepted
    commits with one atomic digest, whatever their requests, are one commit, or
    the two digested texts are a SHA-256 collision. *)
Theorem revocation_commit_binding v v' rq rq' now now' c c' d :
  parseAuthorityRevocationCommitResult v rq now = Ok (revocation_committed c d) →
  parseAuthorityRevocationCommitResult v' rq' now' = Ok (revocation_committed c' d) →
  c = c' ∨ collision [authorityPreimage (atomic_obj c)] [authorityPreimage (atomic_obj c')].
Proof.
  intros (? & _ & H1)%commit_Ok (? & _ & H2)%commit_Ok.
  destruct H1 as (_ & _ & _ & _ & _ & _ & _ & _ & _ & _ & H1).
  destruct H2 as (_ & _ & _ & _ & _ & _ & _ & _ & _ & _ & H2).
  unfold atomicCommitDigestOf in *.
  destruct (authorityDigest_inj (atomic_obj c) (atomic_obj c') d eq_refl eq_refl H1 H2) as [HS|]; [left|by right].
  unfold atomic_obj in HS. same_fields HS. by apply commit_inj.
Qed.
End RevocationFacts.

(** ** Samples *)

Module RevocationSamples.
#[local] Existing Instance checksum_digest.
Import AuthorityGenerations.Samples AuthorityEvidence.EvidenceSamples.

(** The burn retires generation two. *)
Definition request : AuthorityRevocationRequest :=
  {| rq_requestId := "request"; rq_project := project 1; rq_affectedAuthorityGeneration := transferred;
     rq_cause := cause_loss loss; rq_derivedEvidenceIds := [Some "evidence-2"; Some "lease-7"];
     rq_observedAt := "2026-01-01T00:06:00.000Z" |}.
Definition request_obj : unknown :=
  obj [("requestId", VString "request"); ("project", project_obj (project 1));
       ("affectedAuthorityGeneration", generation_obj transferred);
       ("requiredGenerationAction", VString "retire-exact-generation-and-freeze");
       ("cause", cause_obj (cause_loss loss));
       ("derivedEvidenceIds", arr [VString "evidence-2"; VString "lease-7"]);
       ("observedAt", VString "2026-01-01T00:06:00.000Z")].

Definition commit : RevocationCommit :=
  {| cm_requestId := "request";
     cm_causeDigest := ok_or "" (computeAuthorityRevocationCauseDigest (cause_loss loss));
     cm_derivedEvidenceSetDigest := ok_or "" (computeDerivedEvidenceSetDigest [Some "evidence-2"; Some "lease-7"]);
     cm_revocationCommitId := "commit"; cm_retiredAuthorityGenerationId := "generation-2";
     cm_retiredAuthorityGenerationSequence := "2";
     cm_retiredAuthorityGenerationDigest := ok_or "" (computeRetiredAuthorityGenerationDigest transferred);
     cm_generationRetirementId := "retirement";
     cm_generationRetirementDigest := ok_or "" (computeAuthorityGenerationRetirementDigest request "retirement");
     cm_affectedLeaseCount := 3; cm_revokedLeaseIdsDigest := sample_hex 64 "1"%char;
     cm_revokedDelegationIdsDigest := sample_hex 64 "2"%char; cm_policyHeadDigest := sample_hex 64 "3"%char;
     cm_auditRecordId := "audit"; cm_outboxRecordId := "outbox"; cm_freezeRecordId := "freeze";
     cm_freezeRecordDigest := ok_or "" (computeAuthorityFreezeRecordDigest request "freeze");
     cm_mlsRekeyRequestDigest := sample_hex 64 "4"%char; cm_committedAt := "2026-01-01T00:07:00.000Z" |}.
Definition commit_digest : string := ok_or "" (atomicCommitDigestOf commit).
Definition commit_obj : unknown :=
  obj (commit_fields commit ++ [("atomicCommitDigest", VString commit_digest)]).

Lemma request_accepted :
  parseAuthorityRevocationRequest request_obj (project 1) (cause_loss loss) transferred "2026-01-01T00:06:30.000Z"
  = Ok request.
Proof. vm_compute. reflexivity. Defined.
Lemma commit_accepted :
  parseAuthorityRevocationCommitResult commit_obj request "2026-01-01T00:08:00.000Z"
  = Ok (revocation_committed commit commit_digest).
Proof. vm_compute. reflexivity. Defined.

Lemma revocation_request_exact_witness :
  (parseAuthorityRevocationRequest request_obj (project 1) (cause_loss loss) transferred "2026-01-01T00:06:30.000Z"
   = Ok request) ∧
  retires (cause_loss loss) transferred.
Proof.
  split; [exact request_accepted|].
  destruct (revocation_request_exact _ _ _ _ _ _ request_accepted) as (_ & _ & _ & _ & HR & _). exact HR.
Defined.

Lemma revocation_commit_bound_witness :
  (parseAuthorityRevocationCommitResult commit_obj request "2026-01-01T00:08:00.000Z"
   = Ok (revocation_committed commit commit_digest)) ∧
  cm_retiredAuthorityGenerationId commit = "generation-2" ∧
  finalized_by (cause_loss loss) (Date_parse (cm_committedAt commit)).
Proof.
  split; [exact commit_accepted|]. split; [reflexivity|].
  destruct (revocation_commit_bound _ _ _ _ _ _ _ _ _ request_accepted commit_accepted)
    as (_ & _ & _ & _ & _ & _ & _ & _ & HF & _). exact HF.
Defined.

Lemma revocation_commit_binding_witness :
  ∃ c, (parseAuthorityRevocationCommitResult commit_obj request "2026-01-01T00:09:00.000Z"
        = Ok (revocation_committed c commit_digest)) ∧
    (c = commit ∨ collision [authorityPreimage (atomic_obj c)] [authorityPreimage (atomic_obj commit)]).
Proof.
  exists commit.
  assert (H1 : parseAuthorityRevocationCommitResult commit_obj request "2026-01-01T00:09:00.000Z"
        = Ok (revocation_committed commit commit_digest)) by (vm_compute; reflexivity).
  split; [exact H1|]. exact (revocation_commit_binding _ _ _ _ _ _ _ _ _ H1 commit_accepted).
Defined.
End RevocationSamples.
