(* ===== verification/StrictJson.v ===== *)
(** * Strict JSON ([parseJsonWithoutDuplicateObjectKeys] of
    [src/production/delivery/envelopes.ts], [parseStrictJsonBytes] of
    [src/production/delivery/sync.ts])

    The bounded JSON parser of the delivery boundary, which refuses duplicate
    keys, deep nesting and large trees.  Text is a list of UTF-16 code units
    ([Z]); the offset of the source is the list of units not yet read; both
    copies of the parser are one function of their bounds and error. *)

From stdpp Require Import base list strings.
From Stdlib Require Import ZArith Lia Ascii.
From S2P Require Import Prelude JsTime JsValue ValueObjects CanonicalJson.

Ltac Zify.zify_post_hook ::= Z.div_mod_to_equations.

Abbreviation units := (list Z).

Definition units_of (cs : list ascii) : units := map code cs.
Definition u (c : ascii) : Z := code c.
Arguments u : simpl never.

(** ** Numbers: [Number(text)] of a decimal literal *)

(** The double nearest to [m * 10^e], ties to even, as [q * 2^k]; [None] is an
    infinity. *)
Definition nearestDouble (m e : Z) : option (Z * Z) :=
  if m =? 0 then Some (0, 0) else
  let n := if 0 <=? e then m * 10 ^ e else m in
  let d := if 0 <=? e then 1 else 10 ^ (- e) in
  let k := Z.max (-1074) (Z.log2 (n * 2 ^ 1100 / d) - 1100 - 52) in
  let n := if 0 <=? k then n else n * 2 ^ (- k) in
  let d := if 0 <=? k then d * 2 ^ k else d in
  let q := n / d in
  let r := n mod d in
  let q := if (d <? 2 * r) || ((2 * r =? d) && Z.odd q) then q + 1 else q in
  if (2 ^ 1024 <=? if 0 <=? k then q * 2 ^ k else q / 2 ^ (- k)) then None else Some (q, k).

(** The JavaScript number of a literal. *)
Definition literalNumber (negative : bool) (m e : Z) : option jsnum :=
  match nearestDouble m e with
  | None => None
  | Some (q, k) =>
      let sign z := if negative then - z else z in
      Some (if 0 <=? k then NInt (sign (q * 2 ^ k))
            else if q mod 2 ^ (- k) =? 0 then NInt (sign (q / 2 ^ (- k))) else NOther)
  end.

Definition is_digit_unit (z : Z) : bool := (48 <=? z) && (z <=? 57).

(** The longest prefix of digits, as a number and its length, and the rest. *)
Fixpoint spanDigits (cs : units) (acc : Z) (n : nat) : Z * nat * units :=
  match cs with
  | c :: rest => if is_digit_unit c then spanDigits rest (acc * 10 + (c - 48)) (S n) else (acc, n, cs)
  | [] => (acc, n, [])
  end.

(** [(?:\.\d+)?]. *)
Definition fraction (cs : units) (m : Z) : Z * Z * units :=
  match cs with
  | c :: rest =>
      if c =? u "."%char then
        let '(m', n, rest) := spanDigits rest m 0 in
        match n with O => (m, 0, cs) | _ => (m', - Z.of_nat n, rest) end
      else (m, 0, cs)
  | [] => (m, 0, [])
  end.

(** [(?:[eE][+-]?\d+)?]. *)
Definition exponent (cs : units) : Z * units :=
  match cs with
  | c :: rest =>
      if (c =? u "e"%char) || (c =? u "E"%char) then
        let '(negative, digits) :=
          match rest with
          | s :: rest' => if s =? u "+"%char then (false, rest')
                          else if s =? u "-"%char then (true, rest') else (false, rest)
          | [] => (false, [])
          end in
        let '(x, n, after) := spanDigits digits 0 0 in
        match n with O => (0, cs) | _ => (if negative then - x else x, after) end
      else (0, cs)
  | [] => (0, [])
  end.

(** [parseNumber]: the longest match of the number pattern, and its value. *)
Definition parseNumber (cs : units) : option (jsnum * units) :=
  let '(negative, cs) :=
    match cs with
    | c :: rest => if c =? u "-"%char then (true, rest) else (false, cs)
    | [] => (false, [])
    end in
  let int :=
    match cs with
    | c :: rest => if c =? u "0"%char then Some (0, rest)
                   else if is_digit_unit c then let '(m, _, rest) := spanDigits cs 0 0 in Some (m, rest)
                   else None
    | [] => None
    end in
  match int with
  | None => None
  | Some (m, cs) =>
      let '(m, e, cs) := fraction cs m in
      let '(x, cs) := exponent cs in
      match literalNumber negative m (e + x) with Some n => Some (n, cs) | None => None end
  end.

(** ** Strings *)

Definition hexUnit (c : Z) : option Z :=
  if is_digit_unit c then Some (c - 48)
  else if (97 <=? c) && (c <=? 102) then Some (c - 87)
  else if (65 <=? c) && (c <=? 70) then Some (c - 55) else None.

(** The unit a one-letter escape denotes. *)
Definition simpleEscape (c : Z) : option Z :=
  if (c =? 34) || (c =? 92) || (c =? 47) then Some c
  else if c =? u "b"%char then Some 8 else if c =? u "f"%char then Some 12
  else if c =? u "n"%char then Some 10 else if c =? u "r"%char then Some 13
  else if c =? u "t"%char then Some 9 else None.

(** The body of a string up to its closing quote: its value, which
    [JSON.parse] reads from the checked slice, and the rest. *)
Fixpoint scanString (cs : units) : option (units * units) :=
  match cs with
  | [] => None
  | c :: rest =>
      if c =? 34 then Some ([], rest)
      else if c <? 32 then None
      else if c =? 92 then
        match rest with
        | [] => None
        | e :: rest' =>
            if e =? u "u"%char then
              match rest' with
              | a :: b :: c :: d :: rest'' =>
                  match hexUnit a, hexUnit b, hexUnit c, hexUnit d with
                  | Some a, Some b, Some c, Some d =>
                      match scanString rest'' with
                      | Some (s, r) => Some (((a * 16 + b) * 16 + c) * 16 + d :: s, r)
                      | None => None
                      end
                  | _, _, _, _ => None
                  end
              | _ => None
              end
            else match simpleEscape e with
                 | Some x => match scanString rest' with Some (s, r) => Some (x :: s, r) | None => None end
                 | None => None
                 end
        end
      else match scanString rest with Some (s, r) => Some (c :: s, r) | None => None end
  end.

Definition parseString (cs : units) : option (units * units) :=
  match cs with c :: rest => if c =? 34 then scanString rest else None | [] => None end.

Definition is_space (c : Z) : bool := (c =? 32) || (c =? 10) || (c =? 13) || (c =? 9).

Fixpoint skipWhitespace (cs : units) : units :=
  match cs with c :: rest => if is_space c then skipWhitespace rest else cs | [] => [] end.

(** [source.startsWith(word, offset)], and what follows. *)
Fixpoint stripWord (word cs : units) : option units :=
  match word, cs with
  | [], _ => Some cs
  | w :: word, c :: cs => if w =? c then stripWord word cs else None
  | _, [] => None
  end.

(** ** Values *)

#[warnings="-register-all"]
Inductive tree :=
| TNull
| TBool (b : bool)
| TNumber (n : jsnum)
| TString (s : units)
| TArray (ts : list tree)
| TObject (ms : list (units * tree)).

(** The text left and the number of nodes visited. *)
Abbreviation pstate := (units * Z)%type.

(** A step of the parser: [None] when the fuel of the model runs out, else a
    result, the only exception being the failure of the parser. *)
Definition parsed A := option (result (A * pstate)).

Section Parser.
Variables (maxDepth maxNodes : Z) (failure : exn).

Definition fail {A} : parsed A := Some (Throw failure).
Definition continue {A B} (p : parsed A) (k : A → pstate → parsed B) : parsed B :=
  match p with
  | Some (Ok (a, st)) => k a st
  | Some (Throw e) => Some (Throw e)
  | None => None
  end.

Fixpoint parseValue (fuel : nat) (depth : Z) (st : pstate) {struct fuel} : parsed tree :=
  match fuel with
  | O => None
  | S fuel =>
      let '(cs, nodes) := st in
      if maxDepth <? depth then fail else
      let nodes := nodes + 1 in
      if maxNodes <? nodes then fail else
      let cs := skipWhitespace cs in
      match cs with
      | [] => fail
      | c :: rest =>
          if c =? 34 then
            match parseString cs with
            | Some (s, rest) => Some (Ok (TString s, (rest, nodes)))
            | None => fail
            end
          else if c =? u "{"%char then
            match skipWhitespace rest with
            | c' :: rest' =>
                if c' =? u "}"%char then Some (Ok (TObject [], (rest', nodes)))
                else continue (parseMembers fuel (depth + 1) [] (c' :: rest', nodes))
                       (λ ms st, Some (Ok (TObject ms, st)))
            | [] => fail
            end
          else if c =? u "["%char then
            match skipWhitespace rest with
            | c' :: rest' =>
                if c' =? u "]"%char then Some (Ok (TArray [], (rest', nodes)))
                else continue (parseElements fuel (depth + 1) (c' :: rest', nodes))
                       (λ ts st, Some (Ok (TArray ts, st)))
            | [] => fail
            end
          else match stripWord (units_of (chars "true")) cs with
          | Some rest => Some (Ok (TBool true, (rest, nodes)))
          | None =>
          match stripWord (units_of (chars "false")) cs with
          | Some rest => Some (Ok (TBool false, (rest, nodes)))
          | None =>
          match stripWord (units_of (chars "null")) cs with
          | Some rest => Some (Ok (TNull, (rest, nodes)))
          | None =>
          match parseNumber cs with
          | Some (n, rest) => Some (Ok (TNumber n, (rest, nodes)))
          | None => fail
          end end end end
      end
  end
(** The loop of [parseObject]; [keys] are the names already read. *)
with parseMembers (fuel : nat) (depth : Z) (keys : list units) (st : pstate) {struct fuel} :
  parsed (list (units * tree)) :=
  match fuel with
  | O => None
  | S fuel =>
      let '(cs, nodes) := st in
      match parseString (skipWhitespace cs) with
      | None => fail
      | Some (key, cs) =>
          if bool_decide (key ∈ keys) then fail else
          match skipWhitespace cs with
          | [] => fail
          | c :: cs =>
              if negb (c =? u ":"%char) then fail else
              continue (parseValue fuel depth (cs, nodes)) (λ value '(cs, nodes),
                match skipWhitespace cs with
                | [] => fail
                | c :: cs =>
                    if c =? u "}"%char then Some (Ok ([(key, value)], (cs, nodes)))
                    else if negb (c =? u ","%char) then fail
                    else continue (parseMembers fuel depth (key :: keys) (cs, nodes))
                           (λ ms st, Some (Ok ((key, value) :: ms, st)))
                end)
          end
      end
  end
(** The loop of [parseArray]. *)
with parseElements (fuel : nat) (depth : Z) (st : pstate) {struct fuel} : parsed (list tree) :=
  match fuel with
  | O => None
  | S fuel =>
      continue (parseValue fuel depth st) (λ value '(cs, nodes),
        match skipWhitespace cs with
        | [] => fail
        | c :: cs =>
            if c =? u "]"%char then Some (Ok ([value], (cs, nodes)))
            else if negb (c =? u ","%char) then fail
            else continue (parseElements fuel depth (cs, nodes))
                   (λ ts st, Some (Ok (value :: ts, st)))
        end)
  end.

(** Enough fuel for a text of this length. *)
Definition jsonFuel (source : units) : nat := 2 * length source + 2.

(** The whole document; running out of fuel is reported as the failure, and
    [parse_terminates] shows that it does not happen. *)
Definition parseDocument (fuel : nat) (source : units) : option (result tree) :=
  match parseValue fuel 0 (source, 0) with
  | None => None
  | Some (Throw e) => Some (Throw e)
  | Some (Ok (t, (rest, _))) =>
      match skipWhitespace rest with
      | [] => Some (Ok t)
      | _ => Some (Throw failure)
      end
  end.

Definition parseStrict (source : units) : result tree :=
  match parseDocument (jsonFuel source) source with Some r => r | None => Throw failure end.
End Parser.

(** ** Termination *)

Lemma spanDigits_length cs acc n : (length (snd (spanDigits cs acc n)) <= length cs)%nat.
Proof.
  revert acc n. induction cs as [|c cs IH]; intros acc n; cbn; [lia|].
  destruct (is_digit_unit c); cbn; [|lia]. specialize (IH (acc * 10 + (c - 48)) (S n)). lia.
Qed.

Lemma fraction_length cs m : (length (snd (fraction cs m)) <= length cs)%nat.
Proof.
  unfold fraction. destruct cs as [|c cs]; [done|]. destruct (c =? _); [|done].
  pose proof (spanDigits_length cs m 0). destruct (spanDigits cs m 0) as [[x [|n]] r]; cbn in *; lia.
Qed.

Lemma exponent_length cs : (length (snd (exponent cs)) <= length cs)%nat.
Proof.
  unfold exponent. destruct cs as [|c cs]; [done|]. destruct (_ || _); [|done].
  destruct cs as [|s cs]; cbn; [lia|].
  destruct (s =? u "+"%char), (s =? u "-"%char);
    match goal with |- context [spanDigits ?l 0 0] => pose proof (spanDigits_length l 0 0) as HS;
      destruct (spanDigits l 0 0) as [[x [|n]] r] end; cbn in *; lia.
Qed.

Lemma parseNumber_length cs n r : parseNumber cs = Some (n, r) → (length r < length cs)%nat.
Proof.
  unfold parseNumber.
  assert (HI : ∀ cs m rest, match cs with
    | c :: rest => if c =? u "0"%char then Some (0, rest)
                   else if is_digit_unit c then let '(m, _, rest) := spanDigits cs 0 0 in Some (m, rest)
                   else None
    | [] => None end = Some (m, rest) → (length rest < length cs)%nat).
  { intros [|c l] m rest; [done|]. destruct (c =? _); [intros [= _ <-]; cbn; lia|].
    destruct (is_digit_unit c) eqn:E; [|done]. cbn [spanDigits]. rewrite E.
    pose proof (spanDigits_length l (0 * 10 + (c - 48)) 1) as HL.
    destruct (spanDigits l _ 1) as [[x k] r']. intros [= _ <-]. cbn in *. lia. }
  destruct (match cs with c :: rest => _ | [] => _ end) as [negative cs0] eqn:EN.
  assert (HN : (length cs0 <= length cs)%nat).
  { destruct cs as [|c l]; [by injection EN as _ <-|].
    destruct (c =? _); injection EN as _ <-; cbn; lia. }
  destruct (match cs0 with c :: rest => _ | [] => _ end) as [[m cs1]|] eqn:EI; [|done].
  apply HI in EI. pose proof (fraction_length cs1 m) as HF. destruct (fraction cs1 m) as [[m' e] cs2].
  pose proof (exponent_length cs2) as HX. destruct (exponent cs2) as [x cs3].
  destruct (literalNumber _ _ _); [|done]. intros [= _ <-]. cbn in *. lia.
Qed.

Lemma scanString_length cs s r : scanString cs = Some (s, r) → (length r < length cs)%nat.
Proof.
  revert s r. induction cs as [cs IH] using (well_founded_induction (well_founded_ltof _ length)).
  unfold ltof in IH. intros s r. destruct cs as [|c cs]; [done|]. cbn.
  destruct (c =? 34); [intros [= _ <-]; lia|]. destruct (c <? 32); [done|]. destruct (c =? 92).
  - destruct cs as [|e cs]; [done|]. destruct (e =? _).
    + destruct cs as [|x0 [|x1 [|x2 [|x3 cs]]]]; try done.
      destruct (hexUnit x0), (hexUnit x1), (hexUnit x2), (hexUnit x3); try done.
      destruct (scanString cs) as [[s' r']|] eqn:E; [|done]. intros [= _ <-].
      apply IH in E; cbn in *; lia.
    + destruct (simpleEscape e); [|done]. destruct (scanString cs) as [[s' r']|] eqn:E; [|done].
      intros [= _ <-]. apply IH in E; cbn in *; lia.
  - destruct (scanString cs) as [[s' r']|] eqn:E; [|done]. intros [= _ <-]. apply IH in E; cbn in *; lia.
Qed.

Lemma parseString_length cs s r : parseString cs = Some (s, r) → (S (length r) < length cs)%nat.
Proof.
  destruct cs as [|c cs]; [done|]. cbn. destruct (c =? 34); [|done]. intros HS%scanString_length. lia.
Qed.

Lemma skipWhitespace_length cs : (length (skipWhitespace cs) <= length cs)%nat.
Proof. induction cs as [|c cs IH]; cbn; [lia|]. destruct (is_space c); cbn; lia. Qed.

Lemma stripWord_length w cs r :
  stripWord w cs = Some r → (length cs = length w + length r)%nat.
Proof.
  revert cs. induction w as [|x w IH]; intros cs; cbn; [by intros [= ->]|].
  destruct cs as [|c cs]; [done|]. destruct (x =? c); [|done]. intros HS%IH. cbn. lia.
Qed.

Section Termination.
Variables (maxDepth maxNodes : Z) (failure : exn).

(** A call with enough fuel answers, and leaves less text than it was given. *)
Definition answers {A} (p : parsed A) (cs : units) : Prop :=
  ∃ r, p = Some r ∧ ∀ a cs' n, r = Ok (a, (cs', n)) → (length cs' < length cs)%nat.

Lemma answers_fail {A} cs : @answers A (fail failure) cs.
Proof. by eexists. Qed.

Lemma answers_ok {A} (a : A) cs' n cs : (length cs' < length cs)%nat → answers (Some (Ok (a, (cs', n)))) cs.
Proof. intros HL. eexists. split; [done|]. by intros a' cs'' n' [= _ <- _]. Qed.

Lemma answers_continue {A B} (p : parsed A) (k : A → pstate → parsed B) cs0 cs :
  answers p cs0 → (∀ a cs' n, (length cs' < length cs0)%nat → answers (k a (cs', n)) cs) →
  answers (continue p k) cs.
Proof.
  intros (r & -> & HR) HK. destruct r as [[a [cs' n]]|e]; cbn.
  - eapply HK, HR. done.
  - by eexists.
Qed.

#[local] Hint Resolve answers_fail : jb.

Lemma parser_answers fuel :
  (∀ d cs n, (2 * length cs < fuel)%nat → answers (parseValue maxDepth maxNodes failure fuel d (cs, n)) cs) ∧
  (∀ d keys cs n, (2 * length cs + 1 < fuel)%nat →
    answers (parseMembers maxDepth maxNodes failure fuel d keys (cs, n)) cs) ∧
  (∀ d cs n, (2 * length cs + 1 < fuel)%nat →
    answers (parseElements maxDepth maxNodes failure fuel d (cs, n)) cs).
Proof.
  induction fuel as [|fuel (IHv & IHm & IHe)]; [split_and!; intros; lia|]. split_and!.
  - intros d cs n HF. cbn [parseValue]. destruct (maxDepth <? d); [auto with jb|].
    destruct (maxNodes <? n + 1); [auto with jb|].
    pose proof (skipWhitespace_length cs) as HW.
    destruct (skipWhitespace cs) as [|c rest]; [auto with jb|].
    pose proof (skipWhitespace_length rest) as HW'. cbn [length] in HW.
    destruct (c =? 34).
    { destruct (parseString (c :: rest)) as [[s r]|] eqn:E; [|auto with jb].
      apply parseString_length in E. cbn in E. apply answers_ok. lia. }
    destruct (c =? u "{"%char).
    { destruct (skipWhitespace rest) as [|c' rest']; [auto with jb|]. cbn [length] in HW'.
      destruct (c' =? _); [apply answers_ok; lia|].
      eapply answers_continue; [apply IHm; cbn; lia|]. intros. apply answers_ok. cbn in *. lia. }
    destruct (c =? u "["%char).
    { destruct (skipWhitespace rest) as [|c' rest']; [auto with jb|]. cbn [length] in HW'.
      destruct (c' =? _); [apply answers_ok; lia|].
      eapply answers_continue; [apply IHe; cbn; lia|]. intros. apply answers_ok. cbn in *. lia. }
    destruct (stripWord (units_of (chars "true")) (c :: rest)) as [r|] eqn:E1.
    { apply stripWord_length in E1. cbn in E1. apply answers_ok. lia. }
    destruct (stripWord (units_of (chars "false")) (c :: rest)) as [r|] eqn:E2.
    { apply stripWord_length in E2. cbn in E2. apply answers_ok. lia. }
    destruct (stripWord (units_of (chars "null")) (c :: rest)) as [r|] eqn:E3.
    { apply stripWord_length in E3. cbn in E3. apply answers_ok. lia. }
    destruct (parseNumber (c :: rest)) as [[m r]|] eqn:E4; [|auto with jb].
    apply parseNumber_length in E4. cbn in E4. apply answers_ok. lia.
  - intros d keys cs n HF. cbn [parseMembers]. pose proof (skipWhitespace_length cs) as HW.
    destruct (parseString (skipWhitespace cs)) as [[key r]|] eqn:E; [|auto with jb].
    apply parseString_length in E. case_bool_decide; [auto with jb|].
    pose proof (skipWhitespace_length r) as HW'.
    destruct (skipWhitespace r) as [|c r']; [auto with jb|]. cbn in HW'.
    destruct (negb _); [auto with jb|]. eapply answers_continue; [apply IHv; lia|].
    intros v cs' n' HL. pose proof (skipWhitespace_length cs') as HW2.
    destruct (skipWhitespace cs') as [|c2 cs2]; [auto with jb|]. cbn in HW2.
    destruct (c2 =? _); [apply answers_ok; lia|]. destruct (negb _); [auto with jb|].
    eapply answers_continue; [apply IHm; lia|]. intros. apply answers_ok. lia.
  - intros d cs n HF. cbn [parseElements]. eapply answers_continue; [apply IHv; lia|].
    intros v cs' n' HL. pose proof (skipWhitespace_length cs') as HW2.
    destruct (skipWhitespace cs') as [|c2 cs2]; [auto with jb|]. cbn in HW2.
    destruct (c2 =? _); [apply answers_ok; lia|]. destruct (negb _); [auto with jb|].
    eapply answers_continue; [apply IHe; lia|]. intros. apply answers_ok. lia.
Qed.

(** [p'] answers whatever [p] answers. *)
Definition extends {A} (p p' : option A) : Prop := ∀ r, p = Some r → p' = Some r.

Lemma extends_refl {A} (p : option A) : extends p p.
Proof. by intros r. Qed.

Lemma extends_continue {A B} (p p' : parsed A) (k k' : A → pstate → parsed B) :
  extends p p' → (∀ a st, extends (k a st) (k' a st)) → extends (continue p k) (continue p' k').
Proof.
  intros HP HK r. destruct p as [[[a st]|e]|]; [|by intros [= <-]; rewrite (HP _ eq_refl)|done].
  rewrite (HP _ eq_refl). apply HK.
Qed.

#[local] Hint Resolve extends_refl : jb.

Lemma parser_extends fuel fuel' :
  (fuel <= fuel')%nat →
  (∀ d st, extends (parseValue maxDepth maxNodes failure fuel d st)
             (parseValue maxDepth maxNodes failure fuel' d st)) ∧
  (∀ d keys st, extends (parseMembers maxDepth maxNodes failure fuel d keys st)
             (parseMembers maxDepth maxNodes failure fuel' d keys st)) ∧
  (∀ d st, extends (parseElements maxDepth maxNodes failure fuel d st)
             (parseElements maxDepth maxNodes failure fuel' d st)).
Proof.
  revert fuel'. induction fuel as [|fuel IH]; intros [|fuel'] HL; try (by split_and!); [lia|].
  destruct (IH fuel') as (IHv & IHm & IHe); [lia|]. split_and!.
  - intros d [cs n]. cbn [parseValue]. destruct (maxDepth <? d); [auto with jb|].
    destruct (maxNodes <? n + 1); [auto with jb|].
    destruct (skipWhitespace cs) as [|c rest]; [auto with jb|].
    destruct (c =? 34); [auto with jb|].
    destruct (c =? u "{"%char).
    { destruct (skipWhitespace rest) as [|c' rest']; [auto with jb|].
      destruct (c' =? _); [auto with jb|]. apply extends_continue; auto with jb. }
    destruct (c =? u "["%char); [|auto with jb].
    destruct (skipWhitespace rest) as [|c' rest']; [auto with jb|].
    destruct (c' =? _); [auto with jb|]. apply extends_continue; auto with jb.
  - intros d keys [cs n]. cbn [parseMembers].
    destruct (parseString _) as [[key r]|]; [|auto with jb]. case_bool_decide; [auto with jb|].
    destruct (skipWhitespace r) as [|c r']; [auto with jb|]. destruct (negb _); [auto with jb|].
    apply extends_continue; [auto|]. intros v [cs' n'].
    destruct (skipWhitespace cs') as [|c2 cs2]; [auto with jb|]. destruct (c2 =? _); [auto with jb|].
    destruct (negb _); [auto with jb|]. apply extends_continue; auto with jb.
  - intros d [cs n]. cbn [parseElements]. apply extends_continue; [auto|]. intros v [cs' n'].
    destruct (skipWhitespace cs') as [|c2 cs2]; [auto with jb|]. destruct (c2 =? _); [auto with jb|].
    destruct (negb _); [auto with jb|]. apply extends_continue; auto with jb.
Qed.

(** C26: The parser terminates on every text: fuel linear in its length is enough,
    and more fuel than that never changes the answer. *)
Theorem parse_terminates source fuel :
  (jsonFuel source <= fuel)%nat →
  parseDocument maxDepth maxNodes failure fuel source
    = Some (parseStrict maxDepth maxNodes failure source).
Proof.
  intros HL. unfold parseStrict, parseDocument.
  destruct (parser_answers (jsonFuel source)) as (HA & _ & _).
  destruct (HA 0 source 0) as (r & HR & _); [unfold jsonFuel; lia|].
  destruct (parser_extends _ _ HL) as (HE & _ & _).
  rewrite HR, (HE _ _ _ HR). destruct r as [[t [cs n]]|e]; [|done].
  by destruct (skipWhitespace cs).
Qed.
End Termination.

(** ** What the parser accepts *)

Fixpoint treeCount (t : tree) : Z :=
  1 + match t with
      | TArray ts => foldr (λ t n, treeCount t + n) 0 ts
      | TObject ms => foldr (λ m n, treeCount m.2 + n) 0 ms
      | _ => 0
      end.

(** Levels below a value; an empty container has none. *)
Fixpoint treeHeight (t : tree) : Z :=
  match t with
  | TArray ((_ :: _) as ts) => 1 + foldr (λ t n, Z.max (treeHeight t) n) 0 ts
  | TObject ((_ :: _) as ms) => 1 + foldr (λ m n, Z.max (treeHeight m.2) n) 0 ms
  | _ => 0
  end.

Lemma foldr_max_nonneg {A} (f : A → Z) xs : 0 <= foldr (λ x n, Z.max (f x) n) 0 xs.
Proof. induction xs; cbn; lia. Qed.

Lemma treeHeight_nonneg t : 0 <= treeHeight t.
Proof.
  destruct t as [| | | |[|t ts]|[|m ms]]; cbn; try done.
  - pose proof (foldr_max_nonneg treeHeight ts). lia.
  - pose proof (foldr_max_nonneg (λ m, treeHeight m.2) ms). lia.
Qed.

(** No object has a key twice. *)
Fixpoint uniqueKeys (t : tree) : bool :=
  match t with
  | TArray ts => forallb uniqueKeys ts
  | TObject ms => bool_decide (NoDup (ms.*1)) && forallb (λ m, uniqueKeys m.2) ms
  | _ => true
  end.

Section Soundness.
Variables (maxDepth maxNodes : Z) (failure : exn).

Lemma continue_Ok {A B} (p : parsed A) (k : A → pstate → parsed B) x :
  continue p k = Some (Ok x) → ∃ a st, p = Some (Ok (a, st)) ∧ k a st = Some (Ok x).
Proof. destruct p as [[[a st]|e]|]; cbn; [eauto|done|done]. Qed.

(** Reads off the next decision of a successful call. *)
Definition sound_value (d n : Z) (t : tree) (n' : Z) : Prop :=
  uniqueKeys t = true ∧ n' = n + treeCount t ∧ n' <= maxNodes ∧ d + treeHeight t <= maxDepth.

Definition sound_elements (d n : Z) (ts : list tree) (n' : Z) : Prop :=
  ts ≠ [] ∧ forallb uniqueKeys ts = true ∧ n' = n + foldr (λ t n, treeCount t + n) 0 ts ∧
  n' <= maxNodes ∧ d + foldr (λ t n, Z.max (treeHeight t) n) 0 ts <= maxDepth.

Definition sound_members (d : Z) (keys : list units) (n : Z) (ms : list (units * tree)) (n' : Z) : Prop :=
  ms ≠ [] ∧ NoDup (ms.*1) ∧ Forall (λ m, m.1 ∉ keys) ms ∧ forallb (λ m, uniqueKeys m.2) ms = true ∧
  n' = n + foldr (λ m n, treeCount m.2 + n) 0 ms ∧ n' <= maxNodes ∧
  d + foldr (λ m n, Z.max (treeHeight m.2) n) 0 ms <= maxDepth.

Lemma sound_leaf d n t :
  (maxDepth <? d) = false → (maxNodes <? n + 1) = false →
  match t with TArray (_ :: _) | TObject (_ :: _) => False | _ => True end →
  sound_value d n t (n + 1).
Proof.
  intros HD HN HT. unfold sound_value.
  assert (uniqueKeys t = true ∧ treeCount t = 1 ∧ treeHeight t = 0) as (-> & -> & ->)
    by by destruct t as [| | | |[]|[]].
  lia.
Qed.

Lemma parser_sound fuel :
  (∀ d cs n t cs' n', parseValue maxDepth maxNodes failure fuel d (cs, n) = Some (Ok (t, (cs', n'))) →
    sound_value d n t n') ∧
  (∀ d keys cs n ms cs' n',
    parseMembers maxDepth maxNodes failure fuel d keys (cs, n) = Some (Ok (ms, (cs', n'))) →
    sound_members d keys n ms n') ∧
  (∀ d cs n ts cs' n',
    parseElements maxDepth maxNodes failure fuel d (cs, n) = Some (Ok (ts, (cs', n'))) →
    sound_elements d n ts n').
Proof.
  induction fuel as [|fuel (IHv & IHm & IHe)]; [by split_and!|]. split_and!.
  - intros d cs n t cs' n' HP. cbn [parseValue] in HP.
    destruct (maxDepth <? d) eqn:ED; [done|]. destruct (maxNodes <? n + 1) eqn:EN; [done|].
    destruct (skipWhitespace cs) as [|c rest]; [done|]. destruct (c =? 34).
    { destruct (parseString _) as [[s r]|]; [|done]. injection HP as <- _ <-. by apply sound_leaf. }
    destruct (c =? u "{"%char).
    { destruct (skipWhitespace rest) as [|c' rest']; [done|].
      destruct (c' =? _); [injection HP as <- _ <-; by apply sound_leaf|].
      apply continue_Ok in HP as (ms & [cs2 n2] & HM & [= <- <- <-]).
      apply IHm in HM as (Hne & HN & _ & HU & -> & HB & HH). destruct ms as [|m ms]; [done|].
      split_and!; [|cbn; lia|done|cbn in *; lia].
      cbn [uniqueKeys]. by rewrite bool_decide_eq_true_2. }
    destruct (c =? u "["%char).
    { destruct (skipWhitespace rest) as [|c' rest']; [done|].
      destruct (c' =? _); [injection HP as <- _ <-; by apply sound_leaf|].
      apply continue_Ok in HP as (ts & [cs2 n2] & HM & [= <- <- <-]).
      apply IHe in HM as (Hne & HU & -> & HB & HH). destruct ts as [|t ts]; [done|].
      split_and!; [done|cbn; lia|done|cbn in *; lia]. }
    destruct (stripWord _ (c :: rest)); [injection HP as <- _ <-; by apply sound_leaf|].
    destruct (stripWord _ (c :: rest)); [injection HP as <- _ <-; by apply sound_leaf|].
    destruct (stripWord _ (c :: rest)); [injection HP as <- _ <-; by apply sound_leaf|].
    destruct (parseNumber _) as [[m r]|]; [|done]. injection HP as <- _ <-. by apply sound_leaf.
  - intros d keys cs n ms cs' n' HP. cbn [parseMembers] in HP.
    destruct (parseString _) as [[key r]|]; [|done]. case_bool_decide as HK; [done|].
    destruct (skipWhitespace r) as [|c r']; [done|]. destruct (negb _); [done|].
    apply continue_Ok in HP as (v & [cs2 n2] & HV & HP). apply IHv in HV as (HU & -> & HB & HH).
    pose proof (treeHeight_nonneg v).
    destruct (skipWhitespace cs2) as [|c2 cs3]; [done|]. destruct (c2 =? _).
    { injection HP as <- _ <-. split_and!; cbn; rewrite ?HU; try done; try lia;
        [apply NoDup_singleton | by apply Forall_singleton]. }
    destruct (negb _); [done|]. apply continue_Ok in HP as (ms' & [cs4 n4] & HM & [= <- _ <-]).
    apply IHm in HM as (_ & HN & HF & HU' & -> & HB' & HH').
    rewrite Forall_forall in HF. split_and!; cbn; try done; try lia.
    + constructor; [|done]. intros (m & -> & HI)%list_elem_of_fmap. by destruct (HF m HI); left.
    + constructor; [done|]. apply Forall_forall. intros m HI HX. destruct (HF m HI). by right.
    + by rewrite HU.
  - intros d cs n ts cs' n' HP. cbn [parseElements] in HP.
    apply continue_Ok in HP as (v & [cs2 n2] & HV & HP). apply IHv in HV as (HU & -> & HB & HH).
    pose proof (treeHeight_nonneg v).
    destruct (skipWhitespace cs2) as [|c2 cs3]; [done|]. destruct (c2 =? _).
    { injection HP as <- _ <-. split_and!; cbn; try done; try lia. by rewrite HU. }
    destruct (negb _); [done|]. apply continue_Ok in HP as (ts' & [cs4 n4] & HM & [= <- _ <-]).
    apply IHe in HM as (_ & HU' & -> & HB' & HH').
    split_and!; cbn; try done; try lia. by rewrite HU.
Qed.

(** Every accepted document is bounded and unambiguous: no object anywhere in
    it repeats a key, its nesting is within the depth bound and its size within
    the node bound. *)
Theorem parse_sound source t :
  parseStrict maxDepth maxNodes failure source = Ok t →
  uniqueKeys t = true ∧ treeHeight t <= maxDepth ∧ treeCount t <= maxNodes.
Proof.
  unfold parseStrict, parseDocument.
  destruct (parseValue _ _ _ _ _ _) as [[[t' [cs n]]|e]|] eqn:E; [|done|done].
  apply parser_sound in E as (HU & -> & HB & HH).
  destruct (skipWhitespace cs); [|done]. intros [= ->]. split_and!; [done|lia|lia].
Qed.
End Soundness.

(** ** Round trip with the canonical serializer *)

Fixpoint treeOf (j : json) : tree :=
  match j with
  | JNull => TNull
  | JBool b => TBool b
  | JNumber z => TNumber (NInt z)
  | JString s => TString (units_of (chars s))
  | JArray js => TArray (map treeOf js)
  | JObject ms => TObject (map (λ m, (units_of (chars m.1), treeOf m.2)) ms)
  end.

(** A JSON value the serializer can have printed. *)
Fixpoint printable (j : json) : bool :=
  match j with
  | JNumber z => isSafeInteger (NInt z)
  | JArray js => forallb printable js
  | JObject ms => bool_decide (NoDup (ms.*1)) && forallb (λ m, printable m.2) ms
  | _ => true
  end.

(** What may follow a value: the end, a comma or a closing bracket. *)
Definition ends (r : units) : Prop :=
  match r with [] => True | c :: _ => c = 44 ∨ c = 93 ∨ c = 125 end.

Lemma units_of_app a b : units_of (a ++ b) = units_of a ++ units_of b.
Proof. apply map_app. Qed.

Lemma units_of_inj a b : units_of a = units_of b → a = b.
Proof.
  revert b. induction a as [|x a IH]; intros [|y b]; cbn; try done.
  intros [= E%code_inj HE%IH]. by subst.
Qed.

Lemma skip_no_space c l : is_space c = false → skipWhitespace (c :: l) = c :: l.
Proof. cbn. by intros ->. Qed.

(** *** Numbers *)

Lemma nearestDouble_exact m :
  0 < m <= MAX_SAFE_INTEGER →
  ∃ k, k <= 0 ∧ nearestDouble m 0 = Some (m * 2 ^ (- k), k).
Proof.
  unfold MAX_SAFE_INTEGER. intros Hm. unfold nearestDouble.
  destruct (Z.eqb_spec m 0); [lia|]. change (0 <=? 0) with true. cbv iota.
  change (10 ^ 0) with 1. rewrite Z.mul_1_r, Z.div_1_r, Z.log2_mul_pow2 by lia.
  assert (HL : 0 <= Z.log2 m <= 52).
  { split; [apply Z.log2_nonneg|]. change 52 with (Z.log2 (2 ^ 53 - 1)). apply Z.log2_le_mono. lia. }
  replace (Z.max (-1074) (1100 + Z.log2 m - 1100 - 52)) with (Z.log2 m - 52) by lia.
  set (k := Z.log2 m - 52) in *. exists k. split; [lia|]. assert (HK : k <= 0) by lia. clearbody k.
  assert (HP : 0 < 2 ^ (- k)) by (apply Z.pow_pos_nonneg; lia).
  destruct (Z.leb_spec 0 k).
  - assert (k = 0) as -> by lia. change (2 ^ (- 0)) with 1. change (1 * 2 ^ 0) with 1.
    rewrite Z.div_1_r, Z.mod_1_r. change (1 <? 2 * 0) with false. change (2 * 0 =? 1) with false.
    cbn [orb andb]. change (2 ^ 0) with 1. rewrite !Z.mul_1_r.
    destruct (Z.leb_spec (2 ^ 1024) m); [|done]. exfalso.
    assert (2 ^ 53 < 2 ^ 1024) by (apply Z.pow_lt_mono_r; lia). lia.
  - rewrite Z.div_1_r, Z.mod_1_r. change (1 <? 2 * 0) with false. change (2 * 0 =? 1) with false.
    cbn [orb andb]. rewrite Z.div_mul by lia.
    destruct (Z.leb_spec (2 ^ 1024) m); [|done]. exfalso.
    assert (2 ^ 53 < 2 ^ 1024) by (apply Z.pow_lt_mono_r; lia). lia.
Qed.

Lemma literalNumber_exact negative m :
  0 <= m <= MAX_SAFE_INTEGER →
  literalNumber negative m 0 = Some (NInt (if negative then - m else m)).
Proof.
  intros Hm. unfold literalNumber. destruct (Z.eq_dec m 0) as [->|].
  { by destruct negative. }
  destruct (nearestDouble_exact m) as (k & Hk & ->); [lia|].
  assert (HP : 0 < 2 ^ (- k)) by (apply Z.pow_pos_nonneg; lia).
  destruct (Z.leb_spec 0 k).
  - assert (k = 0) as -> by lia. change (2 ^ 0) with 1. change (2 ^ (- 0)) with 1. by rewrite !Z.mul_1_r.
  - rewrite Z.mod_mul, Z.eqb_refl, Z.div_mul by lia. done.
Qed.

Lemma spanDigits_units ds r acc n :
  Forall (λ c, is_digit c = true) ds → ends r →
  spanDigits (units_of ds ++ r) acc n
    = (fold_left (λ a c, a * 10 + digit_val c) ds acc, (n + length ds)%nat, r).
Proof.
  intros HD HR. revert acc n. induction HD as [|c ds Hc _ IH]; intros acc n; cbn.
  - rewrite Nat.add_0_r. destruct r as [|c r]; [done|]. by destruct HR as [ -> | [ -> | -> ] ].
  - unfold is_digit, in_range in Hc. unfold is_digit_unit at 1. rewrite Hc, IH.
    unfold digit_val at 2. by rewrite Nat.add_succ_r.
Qed.

Lemma fraction_ends r m : ends r → fraction r m = (m, 0, r).
Proof. destruct r as [|c r]; [done|]. by intros [ -> | [ -> | -> ] ]. Qed.
Lemma exponent_ends r : ends r → exponent r = (0, r).
Proof. destruct r as [|c r]; [done|]. by intros [ -> | [ -> | -> ] ]. Qed.

Lemma parseNumber_decimal z r :
  isSafeInteger (NInt z) = true → ends r →
  parseNumber (units_of (chars (decimal z)) ++ r) = Some (NInt z, r).
Proof.
  cbn [isSafeInteger]. intros HS%Z.leb_le HR. set (m := Z.abs z) in *.
  destruct (decimal_spec m) as [HU HB]; [lia|]. pose proof (UINT63_digits _ HU) as HD.
  assert (HF : Forall (λ c, is_digit c = true) (chars (decimal m))).
  { apply Forall_forall. intros c Hc%list_elem_of_In. by eapply forallb_forall in HD; [|exact Hc]. }
  assert (HZ : units_of (chars (decimal z)) =
    (if z <? 0 then [45] else []) ++ units_of (chars (decimal m))).
  { unfold decimal. destruct (Z.ltb_spec m 0); [lia|]. subst m. rewrite chars_of_list.
    destruct (Z.ltb_spec z 0); rewrite chars_of_list.
    - by rewrite Z.abs_neq by lia.
    - by rewrite Z.abs_eq by lia. }
  rewrite HZ, <- app_assoc. unfold BigInt in HB. destruct (chars (decimal m)) as [|c ds]; [done|].
  apply Forall_cons in HF as [Hc HF]. change (units_of (c :: ds) ++ r) with (code c :: units_of ds ++ r).
  assert (HC : 48 <= code c <= 57) by (unfold is_digit, in_range in Hc; lia).
  unfold parseNumber.
  assert ((match (if z <? 0 then [45] else []) ++ code c :: units_of ds ++ r with
    | [] => (false, []) | c0 :: rest => if c0 =? u "-"%char then (true, rest)
      else (false, (if z <? 0 then [45] else []) ++ code c :: units_of ds ++ r) end)
    = (z <? 0, code c :: units_of ds ++ r)) as EN.
  { destruct (z <? 0); [done|]. cbn. change (u "-"%char) with 45.
    by destruct (Z.eqb_spec (code c) 45); [lia|]. }
  rewrite EN. change (u "0"%char) with 48. cbn [UINT63] in HU.
  assert (HI : (if code c =? 48 then Some (0, units_of ds ++ r)
    else if is_digit_unit (code c)
         then let '(m0, _, rest) := spanDigits (code c :: units_of ds ++ r) 0 0 in Some (m0, rest)
         else None) = Some (m, r)).
  { destruct (Z.eqb_spec (code c) 48) as [E|E].
    - bsimp. rewrite E in *. destruct ds as [|d ds]; [|done]. cbn. f_equal. rewrite <- HB.
      unfold num. cbn. unfold digit_val. rewrite E. done.
    - unfold is_digit_unit. rewrite (proj2 (Z.leb_le _ _)), (proj2 (Z.leb_le _ _)) by lia. cbn [andb].
      pose proof (spanDigits_units (c :: ds) r 0 0) as HX.
      change (units_of (c :: ds) ++ r) with (code c :: units_of ds ++ r) in HX. rewrite HX by (try done; by constructor). f_equal. f_equal. exact HB. }
  rewrite HI, fraction_ends, exponent_ends by done. cbn [Z.add].
  rewrite literalNumber_exact by lia. f_equal. f_equal. f_equal. subst m.
  destruct (Z.ltb_spec z 0); lia.
Qed.

(** *** Strings *)

Lemma scanString_escape c l :
  scanString (units_of (escape_char c) ++ l)
  = match scanString l with Some (s, r) => Some (code c :: s, r) | None => None end.
Proof. destruct c as [[] [] [] [] [] [] [] []]; reflexivity. Qed.

Lemma scanString_escaped cs r :
  scanString (units_of (flat_map escape_char cs ++ [DQUOTE]) ++ r) = Some (units_of cs, r).
Proof.
  induction cs as [|c cs IH]; [done|]. cbn [flat_map]. rewrite <- app_assoc, units_of_app, <- app_assoc.
  by rewrite scanString_escape, IH.
Qed.

Lemma parseString_stringify s r :
  parseString (units_of (stringifyChars s) ++ r) = Some (units_of (chars s), r).
Proof.
  unfold stringifyChars. change (units_of (DQUOTE :: ?l) ++ r) with (34 :: units_of l ++ r).
  unfold parseString. change (34 =? 34) with true. cbv iota. apply scanString_escaped.
Qed.

(** *** Values *)

Section RoundTrip.
Variables (maxDepth maxNodes : Z) (failure : exn).

Abbreviation value := (parseValue maxDepth maxNodes failure).
Abbreviation elements' := (parseElements maxDepth maxNodes failure).
Abbreviation members' := (parseMembers maxDepth maxNodes failure).

Definition reads_back (j : json) : Prop := ∀ fuel d r n,
  ends r → (2 * length (units_of (render j) ++ r) < fuel)%nat →
  d + treeHeight (treeOf j) <= maxDepth → n + treeCount (treeOf j) <= maxNodes →
  value fuel d (units_of (render j) ++ r, n) = Some (Ok (treeOf j, (r, n + treeCount (treeOf j)))).

Definition sumCounts (ts : list tree) : Z := foldr (λ t n, treeCount t + n) 0 ts.
Definition maxHeights (ts : list tree) : Z := foldr (λ t n, Z.max (treeHeight t) n) 0 ts.

Lemma treeCount_pos t : 1 <= treeCount t.
Proof.
  revert t. fix IH 1. intros [| | | |ts|ms]; cbn; try lia.
  - enough (0 <= foldr (λ t n, treeCount t + n) 0 ts) by lia.
    induction ts as [|t ts IHt]; cbn; [lia|]. specialize (IH t). lia.
  - enough (0 <= foldr (λ m n, treeCount m.2 + n) 0 ms) by lia.
    induction ms as [|[k t] ms IHt]; cbn; [lia|]. specialize (IH t). lia.
Qed.

Lemma sumCounts_nonneg ts : 0 <= sumCounts ts.
Proof. induction ts as [|t ts IH]; cbn; [lia|]. pose proof (treeCount_pos t). unfold sumCounts in IH. lia. Qed.

Lemma render_units_head j : ∃ c l, units_of (render j) = c :: l ∧ is_space c = false ∧ c ≠ 93.
Proof.
  destruct j as [|b|z|s|js|ms]; cbn [render]; try (by eexists _, _).
  - destruct b; by eexists _, _.
  - pose proof (decimal_chars z) as HD. pose proof (decimal_nonempty z) as HN.
    destruct (chars (decimal z)) as [|c l]; [done|]. exists (code c), (units_of l). split; [done|].
    apply Forall_cons in HD as [HD _]. revert HD. clear. unfold is_number_char, is_digit, in_range, is_char.
    change (code "-"%char) with 45. unfold is_space. lia.
Qed.

Lemma read_elements js fuel d r n :
  js ≠ [] → Forall reads_back js →
  (2 * length (units_of (join (map render js)) ++ 93%Z :: r) + 1 < fuel)%nat →
  d + maxHeights (map treeOf js) <= maxDepth → n + sumCounts (map treeOf js) <= maxNodes →
  elements' fuel d (units_of (join (map render js)) ++ 93 :: r, n)
  = Some (Ok (map treeOf js, (r, n + sumCounts (map treeOf js)))).
Proof.
  intros Hne HF. revert fuel n. induction HF as [|x xs Hx HF IH]; intros fuel n HL HH HN; [done|].
  destruct fuel as [|fuel]; [lia|]. cbn [parseElements].
  pose proof (sumCounts_nonneg (map treeOf xs)). cbn [map sumCounts maxHeights foldr] in HH, HN.
  fold (sumCounts (map treeOf xs)) (maxHeights (map treeOf xs)) in *.
  destruct xs as [|y xs].
  - cbn [map join] in *. rewrite Hx; [|by right; left|lia|lia|lia]. cbn [continue].
    rewrite skip_no_space by done. change (93 =? u "]"%char) with true. cbv iota.
    unfold sumCounts. cbn. by rewrite Z.add_0_r.
  - assert (HJ : units_of (join (map render (x :: y :: xs))) ++ 93 :: r
      = units_of (render x) ++ 44 :: (units_of (join (map render (y :: xs))) ++ 93 :: r)).
    { change (join (map render (x :: y :: xs))) with (render x ++ ","%char :: join (map render (y :: xs))).
      rewrite units_of_app, <- app_assoc. done. }
    rewrite HJ in HL |- *. rewrite length_app in HL. cbn [length] in HL.
    rewrite Hx; [|by left|rewrite length_app; cbn [length]; lia|lia|lia]. cbn [continue].
    rewrite skip_no_space by done. change (44 =? u "]"%char) with false.
    change (44 =? u ","%char) with true. cbn [negb].
    rewrite IH; [|done|lia|lia|lia]. cbn [continue]. unfold sumCounts at 2. cbn [foldr map].
    fold (sumCounts (map treeOf (y :: xs))). by rewrite Z.add_assoc.
Qed.

Definition printMember (m : string * json) : list ascii := memberChars (m.1, render m.2).
Definition treeMember (m : string * json) : units * tree := (units_of (chars m.1), treeOf m.2).

Lemma read_members ms keys fuel d r n :
  ms ≠ [] → Forall (λ m, reads_back m.2) ms → NoDup (ms.*1) →
  Forall (λ m, units_of (chars m.1) ∉ keys) ms →
  (2 * length (units_of (join (map printMember ms)) ++ 125%Z :: r) + 1 < fuel)%nat →
  d + maxHeights (map (treeOf ∘ snd) ms) <= maxDepth →
  n + sumCounts (map (treeOf ∘ snd) ms) <= maxNodes →
  members' fuel d keys (units_of (join (map printMember ms)) ++ 125 :: r, n)
  = Some (Ok (map treeMember ms, (r, n + sumCounts (map (treeOf ∘ snd) ms)))).
Proof.
  intros Hne HF. revert fuel keys n.
  induction HF as [|[k x] xs Hx HF IH]; intros fuel keys n HN HK HL HH HC; [done|].
  destruct fuel as [|fuel]; [lia|]. cbn [parseMembers snd fst] in *.
  apply NoDup_cons in HN as [Hk HN]. apply Forall_cons in HK as [Hkk HK]. cbn [fst] in Hkk.
  pose proof (sumCounts_nonneg (map (treeOf ∘ snd) xs)).
  cbn [map sumCounts maxHeights foldr compose snd] in HH, HC.
  fold (sumCounts (map (treeOf ∘ snd) xs)) (maxHeights (map (treeOf ∘ snd) xs)) in *.
  set (tl := match xs with [] => 125 :: r | _ => 44 :: units_of (join (map printMember xs)) ++ 125 :: r end).
  assert (HJ : units_of (join (map printMember ((k, x) :: xs))) ++ 125 :: r
    = units_of (stringifyChars k) ++ 58 :: units_of (render x) ++ tl).
  { subst tl. destruct xs as [|y xs].
    - cbn [map join]. unfold printMember, memberChars. cbn [fst snd].
      by rewrite units_of_app, <- app_assoc.
    - change (join (map printMember ((k, x) :: y :: xs)))
        with (printMember (k, x) ++ ","%char :: join (map printMember (y :: xs))).
      unfold printMember at 1, memberChars. cbn [fst snd]. rewrite !units_of_app, <- !app_assoc.
      reflexivity. }
  rewrite HJ in HL |- *. rewrite length_app in HL. cbn [length] in HL. rewrite length_app in HL.
  assert (HQ : ∃ l, units_of (stringifyChars k) = 34 :: l) by by eexists.
  destruct HQ as [l HQ]. rewrite HQ. cbn [app]. rewrite skip_no_space by done.
  change (34 :: l ++ ?t) with ((34 :: l) ++ t). rewrite <- HQ, parseString_stringify.
  rewrite bool_decide_eq_false_2 by done. rewrite skip_no_space by done.
  change (58 =? u ":"%char) with true. cbn [negb].
  assert (ends tl) by (subst tl; destruct xs; [right; by right|by left]).
  rewrite Hx; [|done|rewrite length_app; lia|lia|lia]. cbn [continue]. subst tl.
  destruct xs as [|y xs].
  - rewrite skip_no_space by done. change (125 =? u "}"%char) with true. cbv iota.
    unfold sumCounts. cbn. by rewrite Z.add_0_r.
  - rewrite skip_no_space by done. change (44 =? u "}"%char) with false.
    change (44 =? u ","%char) with true. cbn [negb]. cbn [length] in HL. 
    rewrite IH; [|done|done| |lia|lia|lia].
    + cbn [continue]. unfold sumCounts at 2. cbn [foldr map compose snd].
      fold (sumCounts (map (treeOf ∘ snd) (y :: xs))). by rewrite Z.add_assoc.
    + rewrite Forall_forall in HK. apply Forall_forall. intros m Hm [HE|HE]%elem_of_cons; [|by apply (HK m)].
      apply Hk. apply units_of_inj, chars_inj in HE. rewrite <- HE.
      exact (list_elem_of_fmap_2 fst _ _ Hm).
Qed.

Lemma read_array js : Forall reads_back js → reads_back (JArray js).
Proof.
  intros IH fuel d r n HR HL HH HC. destruct fuel as [|fuel]; [lia|].
  pose proof (treeHeight_nonneg (treeOf (JArray js))). pose proof (treeCount_pos (treeOf (JArray js))).
  cbn [parseValue]. destruct (Z.ltb_spec maxDepth d); try lia.
  destruct (Z.ltb_spec maxNodes (n + 1)); try lia.
  assert (HB : units_of (render (JArray js)) ++ r
    = 91 :: units_of (join (map render js)) ++ 93 :: r).
  { cbn [render]. change (units_of ("["%char :: ?l)) with (91 :: units_of l).
    cbn [app]. by rewrite units_of_app, <- app_assoc. }
  rewrite HB in HL |- *. rewrite skip_no_space by done. change (91 =? 34) with false.
  change (91 =? u "{"%char) with false. change (91 =? u "["%char) with true. cbv iota.
  destruct js as [|x js]; [reflexivity|].
  assert (HJ : ∃ c' l', units_of (join (map render (x :: js))) = c' :: l' ∧ is_space c' = false ∧ c' ≠ 93).
  { cbn [map]. rewrite join_cons, units_of_app.
    destruct (render_units_head x) as (c' & l' & -> & ? & ?). by eexists _, _. }
  destruct HJ as (c' & l' & HJ & HS' & Hne). rewrite HJ. cbn [app]. rewrite skip_no_space by done.
  change (u "]"%char) with 93. rewrite (proj2 (Z.eqb_neq c' 93)) by done.
  change (c' :: l' ++ 93 :: r) with ((c' :: l') ++ 93 :: r). rewrite <- HJ.
  cbn [treeOf treeHeight treeCount map] in HH, HC. cbn [length] in HL.
  change (treeOf (JArray (x :: js))) with (TArray (map treeOf (x :: js))).
  pose proof (read_elements (x :: js) fuel (d + 1) r (n + 1)) as HE.
  match goal with |- continue _ ?kk = ?R => change (continue (elements' fuel (d + 1)
    (units_of (join (map render (x :: js))) ++ 93 :: r, n + 1)) kk = R) end.
  rewrite HE; clear HE; [|done|done|lia| |].
  + cbn [continue treeCount]. fold (sumCounts (map treeOf (x :: js))). by rewrite Z.add_assoc.
  + unfold maxHeights. cbn [foldr map] in *. lia.
  + unfold sumCounts. cbn [foldr map] in *. lia.
Qed.

Lemma read_object ms :
  NoDup (ms.*1) → Forall (λ m, reads_back m.2) ms → reads_back (JObject ms).
Proof.
  intros HD IH fuel d r n HR HL HH HC. destruct fuel as [|fuel]; [lia|].
  pose proof (treeHeight_nonneg (treeOf (JObject ms))). pose proof (treeCount_pos (treeOf (JObject ms))).
  cbn [parseValue]. destruct (Z.ltb_spec maxDepth d); try lia.
  destruct (Z.ltb_spec maxNodes (n + 1)); try lia.
  assert (HB : units_of (render (JObject ms)) ++ r
    = 123 :: units_of (join (map printMember ms)) ++ 125 :: r).
  { cbn [render]. change (units_of ("{"%char :: ?l)) with (123 :: units_of l).
    cbn [app]. rewrite units_of_app, <- app_assoc. f_equal. f_equal. f_equal. f_equal.
    apply map_ext. by intros []. }
  rewrite HB in HL |- *. rewrite skip_no_space by done. change (123 =? 34) with false.
  change (123 =? u "{"%char) with true. cbv iota.
  destruct ms as [|[k x] ms]; [reflexivity|].
  assert (HJ : ∃ l', units_of (join (map printMember ((k, x) :: ms))) = 34 :: l').
  { cbn [map]. rewrite join_cons, units_of_app. by eexists. }
  destruct HJ as (l' & HJ). rewrite HJ. cbn [app]. rewrite skip_no_space by done.
  change (34 =? u "}"%char) with false. cbv iota.
  change (34 :: l' ++ 125 :: r) with ((34 :: l') ++ 125 :: r). rewrite <- HJ.
  assert (HM : ∀ (f : Z → Z → Z) (g : tree → Z) a, foldr (λ m n, f (g m.2) n) a (map treeMember ((k, x) :: ms))
    = foldr (λ t n, f (g t) n) a (map (treeOf ∘ snd) ((k, x) :: ms))).
  { intros f g a. clear. generalize ((k, x) :: ms). intros l. induction l as [|m l IHl]; [done|].
    cbn. by rewrite IHl. }
  change (treeOf (JObject ((k, x) :: ms))) with (TObject (map treeMember ((k, x) :: ms))) in *.
  assert (HH' : d + 1 + maxHeights (map (treeOf ∘ snd) ((k, x) :: ms)) <= maxDepth).
  { unfold maxHeights. rewrite <- (HM Z.max). revert HH. cbn [treeHeight map]. lia. }
  assert (HC' : treeCount (TObject (map treeMember ((k, x) :: ms)))
    = 1 + sumCounts (map (treeOf ∘ snd) ((k, x) :: ms))).
  { unfold sumCounts. rewrite <- (HM Z.add). done. }
  rewrite HC' in HC |- *. cbn [length] in HL.
  pose proof (read_members ((k, x) :: ms) [] fuel (d + 1) r (n + 1)) as HE.
  match goal with |- continue _ ?kk = ?R => change (continue (members' fuel (d + 1) []
    (units_of (join (map printMember ((k, x) :: ms))) ++ 125 :: r, n + 1)) kk = R) end.
  rewrite HE; clear HE; [|done|done|done| |lia|lia|lia].
  + cbn [continue]. by rewrite Z.add_assoc.
  + apply Forall_forall. intros m _ HI. by apply not_elem_of_nil in HI.
Qed.

Lemma read_leaf j :
  match j with JArray _ | JObject _ => False | _ => True end → printable j = true → reads_back j.
Proof.
  intros HJ HP fuel d r n HR HL HH HC. destruct fuel as [|fuel]; [lia|].
  pose proof (treeHeight_nonneg (treeOf j)). pose proof (treeCount_pos (treeOf j)).
  destruct (render_units_head j) as (c & l & HU & HS & _).
  cbn [parseValue]. destruct (Z.ltb_spec maxDepth d); try lia.
  destruct (Z.ltb_spec maxNodes (n + 1)); try lia.
  destruct j as [|b|z|s|js|ms]; [| | | |done|done].
  - done.
  - by destruct b.
  - rewrite HU. cbn [app]. rewrite skip_no_space by done.
    assert (HN : c = 45 ∨ 48 <= c <= 57).
    { cbn [render] in HU. pose proof (decimal_chars z) as HD.
      destruct (chars (decimal z)) as [|a cs]; [done|]. injection HU as <- _.
      apply Forall_cons in HD as [HD _]. unfold is_number_char, is_digit, in_range, is_char in HD.
      change (code "-"%char) with 45 in HD. lia. }
    change (u "{"%char) with 123. change (u "["%char) with 91.
    rewrite (proj2 (Z.eqb_neq c 34)), (proj2 (Z.eqb_neq c 123)), (proj2 (Z.eqb_neq c 91)) by lia.
    assert (HW : ∀ w ws, w ≠ c → stripWord (w :: ws) (c :: l ++ r) = None).
    { intros w ws Hw. cbn. by rewrite (proj2 (Z.eqb_neq w c)). }
    change (units_of (chars "true")) with [116; 114; 117; 101]. rewrite HW by lia.
    change (units_of (chars "false")) with [102; 97; 108; 115; 101]. rewrite HW by lia.
    change (units_of (chars "null")) with [110; 117; 108; 108]. rewrite HW by lia.
    change (c :: l ++ r) with ((c :: l) ++ r). rewrite <- HU. cbn [render].
    by rewrite parseNumber_decimal.
  - rewrite HU. cbn [app]. rewrite skip_no_space by done.
    assert (c = 34) as -> by (by injection HU as <- _). change (34 =? 34) with true. cbv iota.
    change (34 :: l ++ r) with ((34 :: l) ++ r). rewrite <- HU. cbn [render].
    by rewrite parseString_stringify.
Qed.

Lemma render_reads_back j : printable j = true → reads_back j.
Proof.
  induction j as [|b|z|s|js IH|ms IH] using json_nested_ind; intros HP; try by apply read_leaf.
  - apply read_array. cbn [printable] in HP. rewrite forallb_forall in HP.
    rewrite Forall_forall in IH. apply Forall_forall. intros y Hy. by apply IH, HP, list_elem_of_In.
  - cbn [printable] in HP. apply andb_true_iff in HP as [HD%bool_decide_eq_true HP].
    apply read_object; [done|]. rewrite forallb_forall in HP.
    rewrite Forall_forall in IH. apply Forall_forall. intros y Hy. by apply IH, HP, list_elem_of_In.
Qed.
End RoundTrip.

(** The strict parser reads the canonical text of a value back as that value,
    whenever it fits the depth and node bounds. *)
Lemma parse_canonical maxDepth maxNodes failure v j s :
  dense v = true → toJson v = Some j → canonicalAuthorityJson v = Ok s → printable j = true →
  treeHeight (treeOf j) <= maxDepth → treeCount (treeOf j) <= maxNodes →
  parseStrict maxDepth maxNodes failure (units_of (chars s)) = Ok (treeOf j).
Proof.
  intros HD HJ HS HP HH HC. unfold canonicalAuthorityJson in HS.
  rewrite serialize_toJson, HJ in HS by done. injection HS as <-. unfold text. rewrite chars_of_list.
  unfold parseStrict, parseDocument.
  pose proof (render_reads_back maxDepth maxNodes failure j HP) as HR.
  specialize (HR (jsonFuel (units_of (render j))) 0 [] 0 I). rewrite app_nil_r in HR.
  rewrite HR by (unfold jsonFuel; lia). done.
Qed.

(** ** Bytes to values *)

Definition continuation (lo hi : Z) (b : byte) : option Z :=
  let z := Z_of_byte b in if (lo <=? z) && (z <=? hi) then Some (Z.land z 63) else None.

(** The UTF-16 units of a code point. *)
Definition utf16 (cp : Z) : units :=
  if cp <? 65536 then [cp] else [55296 + (cp - 65536) / 1024; 56320 + (cp - 65536) mod 1024].

(** [new TextDecoder("utf-8", { fatal: true }).decode(bytes)] on bytes without
    a byte-order mark. *)
Fixpoint utf8Decode (bs : bytes) : option units :=
  match bs with
  | [] => Some []
  | a :: bs =>
      let z := Z_of_byte a in
      if z <? 128 then (λ l, z :: l) <$> utf8Decode bs
      else if (194 <=? z) && (z <=? 223) then
        match bs with
        | b :: bs => b ← continuation 128 191 b; (λ l, Z.lor (Z.shiftl (Z.land z 31) 6) b :: l) <$> utf8Decode bs
        | _ => None
        end
      else if (224 <=? z) && (z <=? 239) then
        match bs with
        | b :: c :: bs =>
            b ← continuation (if z =? 224 then 160 else 128) (if z =? 237 then 159 else 191) b;
            c ← continuation 128 191 c;
            (λ l, Z.lor (Z.lor (Z.shiftl (Z.land z 15) 12) (Z.shiftl b 6)) c :: l) <$> utf8Decode bs
        | _ => None
        end
      else if (240 <=? z) && (z <=? 244) then
        match bs with
        | b :: c :: d :: bs =>
            b ← continuation (if z =? 240 then 144 else 128) (if z =? 244 then 143 else 191) b;
            c ← continuation 128 191 c; d ← continuation 128 191 d;
            (λ l, utf16 (Z.lor (Z.lor (Z.lor (Z.shiftl (Z.land z 7) 18) (Z.shiftl b 12)) (Z.shiftl c 6)) d) ++ l)
              <$> utf8Decode bs
        | _ => None
        end
      else None
  end.

Lemma utf8Decode_char c bs :
  utf8Decode (utf8_char c ++ bs) = (λ l, code c :: l) <$> utf8Decode bs.
Proof. destruct c as [[] [] [] [] [] [] [] []]; reflexivity. Qed.

Lemma utf8Decode_utf8 s : utf8Decode (utf8 s) = Some (units_of (chars s)).
Proof.
  unfold utf8. induction (chars s) as [|c cs IH]; [done|]. cbn [flat_map].
  by rewrite utf8Decode_char, IH.
Qed.

(** A string of the model has units below 256; any other string is a symbol,
    which every validator of the wire format refuses in the same way. *)
Definition latin1 (s : units) : option string :=
  if forallb (λ z, (0 <=? z) && (z <? 256)) s
  then Some (String.string_of_list_ascii (map (λ z, ascii_of_N (Z.to_N z)) s)) else None.

(** The object a tree denotes, its keys in the order of the text.  JavaScript
    enumerates the keys that spell an array index first and in numeric order;
    no parser of the wire format depends on the order of the keys. *)
Fixpoint toUnknown (t : tree) : unknown :=
  match t with
  | TNull => VNull
  | TBool b => VBool b
  | TNumber n => VNumber n
  | TString s => match latin1 s with Some s => VString s | None => VSymbol 0 end
  | TArray ts => VArray ArrayPrototype (map (λ t, Some (toUnknown t)) ts) 0
  | TObject ms =>
      VObject ObjectPrototype
        (map (λ m, (match latin1 m.1 with Some s => KString s | None => KSymbol 0 end,
                    DData (toUnknown m.2) true)) ms)
  end.

Definition startsWithBom (bs : bytes) : bool :=
  match map Z_of_byte (take 3 bs) with [a; b; c] => (a =? 239) && (b =? 187) && (c =? 191) | _ => false end.

Definition decodeDocument (failure : exn) (bs : bytes) : result units :=
  throw_if (startsWithBom bs) failure;;
  match utf8Decode bs with Some s => Ok s | None => Throw failure end.

(** The copy of [envelopes.ts]. *)
Definition parseJsonWithoutDuplicateObjectKeys (source : units) : result unknown :=
  toUnknown <$> parseStrict 16 256 DeliveryEnvelopeValidationError source.

(** The copy of [sync.ts], with its decoding. *)
Definition MAX_STRICT_JSON_DEPTH : Z := 20.
Definition MAX_STRICT_JSON_NODES : Z := 50000.
Definition parseStrictJsonBytes (bs : bytes) : result unknown :=
  source ← decodeDocument ConversationSyncValidationError bs;
  toUnknown <$> parseStrict MAX_STRICT_JSON_DEPTH MAX_STRICT_JSON_NODES
    ConversationSyncValidationError source.

(** ** Values printed and read back *)

(** The value a JSON value denotes. *)
Fixpoint ofJson (j : json) : unknown :=
  match j with
  | JNull => VNull
  | JBool b => VBool b
  | JNumber z => VNumber (NInt z)
  | JString s => VString s
  | JArray js => arr (map ofJson js)
  | JObject ms => obj (map (λ m, (m.1, ofJson m.2)) ms)
  end.

Lemma latin1_units s : latin1 (units_of (chars s)) = Some s.
Proof.
  unfold latin1. rewrite (proj2 (forallb_forall _ _)).
  - f_equal. apply chars_inj. rewrite chars_of_list. unfold units_of. rewrite map_map.
    rewrite <- (map_id (chars s)) at 2. apply map_ext. intros c. unfold code.
    by rewrite N2Z.id, ascii_N_embedding.
  - intros z (c & <- & _)%in_map_iff. pose proof (code_bound c). lia.
Qed.

Lemma toUnknown_treeOf j : toUnknown (treeOf j) = ofJson j.
Proof.
  induction j as [|b|z|s|js IH|ms IH] using json_nested_ind; cbn [treeOf toUnknown ofJson]; try done.
  - by rewrite latin1_units.
  - unfold arr. f_equal. rewrite !map_map. induction IH as [|j js E _ IH]; [done|]. cbn. by rewrite E, IH.
  - unfold obj. f_equal. rewrite !map_map. apply map_ext_in. intros [k x] Hm.
    apply list_elem_of_In in Hm. rewrite Forall_forall in IH. specialize (IH _ Hm). cbn in *.
    by rewrite latin1_units, IH.
Qed.

(** Printable ASCII that JSON does not escape. *)
Definition plain_char (c : ascii) : bool :=
  (32 <=? code c) && (code c <? 127) && negb (code c =? 34) && negb (code c =? 92).
Definition plain (s : string) : bool := forallb plain_char (chars s).

(** A value all of whose strings are plain, and the size of its text. *)
Fixpoint plainJson (j : json) : bool :=
  match j with
  | JNumber _ => false
  | JString s => plain s
  | JArray js => forallb plainJson js
  | JObject ms => forallb (λ m, plain m.1 && plainJson m.2) ms
  | _ => true
  end.
Fixpoint jsonSize (j : json) : Z :=
  match j with
  | JNull => 4
  | JBool _ => 5
  | JNumber _ => 0
  | JString s => strlen s + 2
  | JArray js => foldr (λ j n, jsonSize j + 1 + n) 2 js
  | JObject ms => foldr (λ m n, strlen m.1 + 3 + jsonSize m.2 + 1 + n) 2 ms
  end.

Definition is_ascii_char (c : ascii) : bool := code c <? 128.
Definition sized (n : Z) (cs : list ascii) : Prop :=
  forallb is_ascii_char cs = true ∧ Z.of_nat (length cs) <= n.

Lemma sized_app m n xs ys : sized m xs → sized n ys → sized (m + n) (xs ++ ys).
Proof. intros [Hx Lx] [Hy Ly]. split; [by rewrite forallb_app, Hx, Hy|]. rewrite length_app. lia. Qed.

Lemma sized_one c : is_ascii_char c = true → sized 1 [c].
Proof. intros H. split; [cbn; by rewrite H|cbn; lia]. Qed.

Lemma sized_mono m n xs : m <= n → sized m xs → sized n xs.
Proof. intros H [Hx Lx]. split; [done|lia]. Qed.

Lemma escape_plain c : plain_char c = true → escape_char c = [c].
Proof.
  unfold plain_char, escape_char. intros H. split_orb.
  repeat match goal with |- (if ?b then _ else _) = _ => destruct b eqn:?; [lia|] end. done.
Qed.

Lemma sized_string s : plain s = true → sized (strlen s + 2) (stringifyChars s).
Proof.
  unfold plain, stringifyChars, strlen. rewrite <- length_chars. intros H.
  assert (HE : flat_map escape_char (chars s) = chars s).
  { induction (chars s) as [|c cs IH]; [done|]. cbn in *. split_orb. by rewrite escape_plain, IH. }
  rewrite HE. eapply (sized_mono (1 + (Z.of_nat (length (chars s)) + 1))); [lia|].
  apply (sized_app _ _ [_]); [by apply sized_one|]. apply sized_app; [|by apply sized_one].
  split; [|lia]. apply forallb_forall. intros c Hc. rewrite forallb_forall in H. specialize (H c Hc).
  unfold plain_char, is_ascii_char in *. split_orb. lia.
Qed.

Lemma sized_join {A} (f : A → list ascii) (size : A → Z) xs :
  Forall (λ x, sized (size x) (f x)) xs → sized (foldr (λ x n, size x + 1 + n) 0 xs) (join (map f xs)).
Proof.
  induction 1 as [|x xs Hx _ IH]; [by split|]. destruct xs as [|y ys].
  - cbn. eapply sized_mono, Hx. lia.
  - change (join (map f (x :: y :: ys))) with (f x ++ ","%char :: join (map f (y :: ys))).
    cbn [foldr]. rewrite <- Z.add_assoc. apply sized_app; [done|].
    change (1 + _) with (1 + foldr (λ x n, size x + 1 + n) 0 (y :: ys)).
    apply (sized_app _ _ [_]); [by apply sized_one|done].
Qed.

Lemma foldr_shift {A} (f : A → Z) k xs :
  foldr (λ x n, f x + n) k xs = foldr (λ x n, f x + n) 0 xs + k.
Proof. induction xs as [|x xs IH]; cbn; [lia|]. rewrite IH. lia. Qed.

Lemma render_sized j : plainJson j = true → sized (jsonSize j) (render j).
Proof.
  induction j as [|b|z|s|js IH|ms IH] using json_nested_ind; intros HP; try done.
  - by destruct b.
  - by apply sized_string.
  - cbn [render jsonSize plainJson] in *. rewrite forallb_forall in HP.
    rewrite (foldr_shift (λ j, jsonSize j + 1)).
    eapply (sized_mono (1 + (foldr (λ j n, jsonSize j + 1 + n) 0 js + 1))); [lia|].
    apply (sized_app _ _ [_]); [by apply sized_one|]. apply sized_app; [|by apply sized_one].
    apply sized_join. rewrite Forall_forall in IH |- *. intros j Hj. apply IH; [done|].
    by apply HP, list_elem_of_In.
  - cbn [render jsonSize plainJson] in *. rewrite forallb_forall in HP.
    rewrite (foldr_shift (λ m, strlen m.1 + 3 + jsonSize m.2 + 1)).
    eapply (sized_mono (1 + (foldr (λ m n, (strlen m.1 + 3 + jsonSize m.2) + 1 + n) 0 ms + 1))); [lia|].
    apply (sized_app _ _ [_]); [by apply sized_one|]. apply sized_app; [|by apply sized_one].
    apply sized_join. rewrite Forall_forall in IH |- *. intros [k v] Hm.
    change (sized (strlen k + 3 + jsonSize v) (stringifyChars k ++ ":"%char :: render v)).
    specialize (HP (k, v) (proj1 (list_elem_of_In _ _) Hm)). cbn -[plain] in HP. split_orb.
    eapply (sized_mono ((strlen k + 2) + (1 + jsonSize v))); [lia|].
    apply sized_app; [by apply sized_string|]. apply (sized_app _ _ [_]); [by apply sized_one|].
    by apply (IH (k, v)).
Qed.

(** UTF-8 of ASCII text has its length. *)
Lemma utf8_ascii_length cs n :
  sized n cs → Z.of_nat (length (utf8 (text cs))) <= n.
Proof.
  intros [HA HL]. unfold utf8, text. rewrite chars_of_list.
  enough (length (flat_map utf8_char cs) = length cs) by lia. clear HL.
  induction cs as [|c cs IH]; [done|]. cbn in HA |- *. split_orb. rewrite length_app, IH by done.
  unfold utf8_char, is_ascii_char in *. by rewrite HA.
Qed.

(** The strict parser reads back, as a value, the UTF-8 of a canonical text
    that starts an object. *)
Lemma strict_roundtrip maxDepth maxNodes failure v ms s :
  dense v = true → toJson v = Some (JObject ms) → canonicalAuthorityJson v = Ok s →
  printable (JObject ms) = true →
  treeHeight (treeOf (JObject ms)) <= maxDepth → treeCount (treeOf (JObject ms)) <= maxNodes →
  (source ← decodeDocument failure (utf8 s);
   toUnknown <$> parseStrict maxDepth maxNodes failure source) = Ok (ofJson (JObject ms)).
Proof.
  intros HD HJ HS HP HH HN. unfold decodeDocument.
  assert (HB : startsWithBom (utf8 s) = false).
  { unfold canonicalAuthorityJson in HS. rewrite serialize_toJson, HJ in HS by done.
    change (Ok (text (render (JObject ms))) = Ok s) in HS.
    assert (text (render (JObject ms)) = s) as <- by congruence.
    unfold utf8, text. rewrite chars_of_list. cbn [render flat_map app].
    unfold startsWithBom. change (utf8_char "{"%char) with [Byte.x7b]. cbn [app take].
    destruct (flat_map _ _) as [|b [|c l]]; reflexivity. }
  rewrite HB, utf8Decode_utf8. cbn [throw_if mbind result_bind].
  rewrite (parse_canonical maxDepth maxNodes failure v (JObject ms) s) by done.
  change (Ok (toUnknown (treeOf (JObject ms))) = Ok (ofJson (JObject ms))). by rewrite toUnknown_treeOf.
Qed.

(** C40: Round trip: the strict parser of the synchronisation layer reads the UTF-8 of
    the canonical text of an object back as that object, with its keys sorted,
    whenever the object fits the depth and node bounds. *)
Theorem parseStrictJsonBytes_canonical v ms s :
  dense v = true → toJson v = Some (JObject ms) → canonicalAuthorityJson v = Ok s →
  printable (JObject ms) = true →
  treeHeight (treeOf (JObject ms)) <= MAX_STRICT_JSON_DEPTH →
  treeCount (treeOf (JObject ms)) <= MAX_STRICT_JSON_NODES →
  parseStrictJsonBytes (utf8 s) = Ok (ofJson (JObject ms)).
Proof. intros HD HJ HS HP HH HC. by eapply strict_roundtrip. Qed.

(** ** Instances *)

Definition sample_json : json := JObject [("a", JArray [JNumber (-7); JNull]); ("b", JString "x y")].
Definition sample_json_text : string := text (render sample_json).
Definition sample_value : unknown :=
  obj [("b", VString "x y"); ("a", arr [VNumber (NInt (-7)); VNull])].

Definition units_text (s : string) : units := units_of (chars s).

Example parse_duplicate :
  parseStrict 16 256 SyntaxError (units_of ("{"%char :: stringifyChars "a" ++ chars ":1, "
    ++ stringifyChars "a" ++ chars ":1}")) = Throw SyntaxError.
Proof. vm_compute. reflexivity. Qed.

Example parse_fraction :
  parseStrict 16 256 SyntaxError (units_text " [1.5e1, 0.25,9007199254740993] ")
    = Ok (TArray [TNumber (NInt 15); TNumber NOther; TNumber (NInt 9007199254740992)]).
Proof. vm_compute. reflexivity. Qed.

Lemma parse_terminates_witness :
  parseDocument 16 256 SyntaxError 1000 (units_text "[[1],[]]")
    = Some (Ok (TArray [TArray [TNumber (NInt 1)]; TArray []])).
Proof.
  refine (eq_trans (parse_terminates 16 256 SyntaxError (units_text "[[1],[]]") 1000 _) _);
    [vm_compute; lia | vm_compute; reflexivity].
Defined.

Lemma parse_sound_witness :
  uniqueKeys (TArray [TNull]) = true ∧ treeHeight (TArray [TNull]) <= 16 ∧ treeCount (TArray [TNull]) <= 256.
Proof. apply (parse_sound 16 256 SyntaxError (units_text "[null]")). vm_compute. reflexivity. Defined.

Lemma parseStrictJsonBytes_canonical_witness :
  parseStrictJsonBytes (utf8 sample_json_text) = Ok (ofJson sample_json).
Proof. apply (parseStrictJsonBytes_canonical sample_value); vm_compute; done. Defined.
