(* ===== verification/Envelopes.v ===== *)
(** * Envelopes ([src/production/delivery/envelopes.ts])

    The append body a caller sends, its strict JSON, the stored envelope of the
    transcript with its recomputed digests, the admission limits, and the
    classification of replays of an accepted envelope. *)

From stdpp Require Import base list strings gmap.
From Stdlib Require Import ZArith Lia Ascii.
From S2P Require Import Prelude Sha256 Base64Url JsTime JsValue ValueObjects Hashes Limits CanonicalJson StrictJson.

Definition MAX_APPLICATION_ENVELOPE_BYTES : Z := 64 * 1024.
Definition MAX_EXTERNAL_PROPOSAL_ENVELOPE_BYTES : Z := 256 * 1024.
Definition MAX_MLS_COMMIT_ENVELOPE_BYTES : Z := 512 * 1024.
Definition MAX_APPLICATION_ATTACHMENTS : Z := 10.
Definition MAX_APPLICATION_APPEND_JSON_BYTES : Z := 96 * 1024.

Definition APPLICATION_APPEND_KEYS : list string :=
  ["envelopeId"; "policyHeadId"; "policyHeadSequence"; "policyHeadHash"; "expectedEpoch";
   "expectedRosterVersion"; "expectedConfirmedTranscriptHash"; "contentType"; "ciphertext";
   "envelopeSha256"; "attachmentIds"].
Definition STORED_ENVELOPE_COMMON_KEYS : list string :=
  ["conversationId"; "position"; "envelopeId"; "envelopeClass"; "contentType"; "envelopeBytes";
   "envelopeSha256"; "epoch"; "rosterVersion"; "sender"; "receivedAt"; "leafHash";
   "previousHeadHash"; "headHash"; "logSigningKeyId"; "logCheckpointDigest"; "logHeadSignature"].
Definition COMMIT_TRANSCRIPT_KEYS : list string :=
  STORED_ENVELOPE_COMMON_KEYS ++ ["baseConfirmedTranscriptHash"; "resultingConfirmedTranscriptHash"].

(** The content type of a body is one literal and has no field. *)
Record ApplicationAppendBody := {
  b_envelopeId : EnvelopeId;
  b_policyHeadId : PolicyHeadId;
  b_policyHeadSequence : Uint63String;
  b_policyHeadHash : Hash32;
  b_expectedEpoch : Uint63String;
  b_expectedRosterVersion : Uint63String;
  b_expectedConfirmedTranscriptHash : Hash32;
  b_ciphertext : string;
  b_envelopeSha256 : Hash32;
  b_attachmentIds : list AttachmentId;
}.

Record ParsedApplicationAppendJson := {
  rawBodyBytes : bytes;
  body : ApplicationAppendBody;
}.

Record StoredEnvelopeCommon := {
  s_conversationId : ConversationId;
  s_position : Uint63String;
  s_envelopeId : EnvelopeId;
  s_envelopeClass : EnvelopeClass;
  s_contentType : EnvelopeContentType;
  s_envelopeBytes : string;
  s_envelopeSha256 : Hash32;
  s_epoch : Uint63String;
  s_rosterVersion : Uint63String;
  s_sender : EnvelopeSender;
  s_receivedAt : Rfc3339Millis;
  s_leafHash : Hash32;
  s_previousHeadHash : Hash32;
  s_headHash : Hash32;
  s_logSigningKeyId : SigningKeyId;
  s_logCheckpointDigest : Hash32;
  s_logHeadSignature : string;
}.

Inductive StoredEnvelope :=
| StoredExternalProposalEnvelope (common : StoredEnvelopeCommon)
| StoredMlsCommitEnvelope (common : StoredEnvelopeCommon)
    (baseConfirmedTranscriptHash resultingConfirmedTranscriptHash : Hash32)
| StoredApplicationEnvelope (common : StoredEnvelopeCommon).

Definition storedCommon (e : StoredEnvelope) : StoredEnvelopeCommon :=
  match e with
  | StoredExternalProposalEnvelope c | StoredMlsCommitEnvelope c _ _
  | StoredApplicationEnvelope c => c
  end.

Record ApplicationEnvelopeSemanticIdentity := {
  id_conversationId : ConversationId;
  id_ifMatch : ConversationEtag;
  id_accountId : AccountId;
  id_installationId : InstallationId;
  id_append : ApplicationAppendBody;
}.

(** The identity is parsed again, so it is the object that was stored. *)
Record AcceptedApplicationEnvelope (Receipt : Type) := {
  identity : unknown;
  receipt : Receipt;
}.
Arguments identity {Receipt} _.
Arguments receipt {Receipt} _.

Inductive ApplicationEnvelopeReplayClassification (Receipt : Type) :=
| replay_new
| replay_exact (receipt : Receipt)
| replay_conflict.
Arguments replay_new {Receipt}.
Arguments replay_exact {Receipt} _.
Arguments replay_conflict {Receipt}.

(** ** Structure checks *)

Definition invalidEnvelope {A} : result A := Throw DeliveryEnvelopeValidationError.

(** [throw invalid(...)] of this file when [b] holds. *)
Definition refuse (b : bool) : result unit := throw_if b DeliveryEnvelopeValidationError.

(** The own keys of an array are its indices, then [length], then the extra
    keys, so [length] is last exactly when there are none. *)
Definition expectExactArray (value : unknown) (maximumLength : Z) : result (list unknown) :=
  match value with
  | VArray p elems extra =>
      refuse (p !== ArrayPrototype);;
      refuse (maximumLength <? Z.of_nat (length elems));;
      refuse (negb (Nat.eqb (ownKeysCount elems extra) (length elems + 1)) || negb (Nat.eqb extra 0));;
      mapR (λ o, match o with Some v => Ok v | None => invalidEnvelope end) elems
  | _ => invalidEnvelope
  end.

Definition readDataDiscriminator (value : unknown) (key : string) : result unknown :=
  match value with
  | VObject p r =>
      refuse ((p !== ObjectPrototype) && (p !== NullPrototype));;
      match descriptor r key with
      | Some (DData v true) => Ok v
      | _ => invalidEnvelope
      end
  | _ => invalidEnvelope
  end.

(** [new Set(xs).size]. *)
Definition setSize (xs : list string) : nat := size (list_to_set xs : gset string).

Definition sameOrderedStrings (left right : list string) : bool :=
  Nat.eqb (length left) (length right) && forallb (λ '(l, r), l === r) (zip left right).

Section Envelopes.
Context `{SHA : Sha256}.

(** ** The append body *)

Definition parseApplicationAppendBody (value : unknown) : result ApplicationAppendBody :=
  record ← expectExactRecord value APPLICATION_APPEND_KEYS;
  attachmentValues ← expectExactArray record.["attachmentIds"] MAX_APPLICATION_ATTACHMENTS;
  attachmentIds ← mapR parseAttachmentId attachmentValues;
  refuse (negb (Nat.eqb (setSize attachmentIds) (length attachmentIds)));;
  refuse (negb (isString record.["contentType"] MLS_PRIVATE_MESSAGE_MEDIA_TYPE));;
  ciphertextBytes ←
    parseCanonicalBase64UrlBytes record.["ciphertext"] 1 MAX_APPLICATION_ENVELOPE_BYTES;
  envelopeSha256 ← parseHash32 record.["envelopeSha256"];
  computed ← computeEnvelopeSha256 ciphertextBytes;
  refuse (computed !== envelopeSha256);;
  envelopeId ← parseEnvelopeId record.["envelopeId"];
  policyHeadId ← parsePolicyHeadId record.["policyHeadId"];
  policyHeadSequence ← parsePositiveUint63String record.["policyHeadSequence"];
  policyHeadHash ← parseHash32 record.["policyHeadHash"];
  expectedEpoch ← parseUint63String record.["expectedEpoch"];
  expectedRosterVersion ← parseUint63String record.["expectedRosterVersion"];
  expectedConfirmedTranscriptHash ← parseHash32 record.["expectedConfirmedTranscriptHash"];
  ciphertext ← parseCanonicalBase64Url record.["ciphertext"] 1 MAX_APPLICATION_ENVELOPE_BYTES;
  Ok {| b_envelopeId := envelopeId; b_policyHeadId := policyHeadId;
        b_policyHeadSequence := policyHeadSequence; b_policyHeadHash := policyHeadHash;
        b_expectedEpoch := expectedEpoch; b_expectedRosterVersion := expectedRosterVersion;
        b_expectedConfirmedTranscriptHash := expectedConfirmedTranscriptHash;
        b_ciphertext := ciphertext; b_envelopeSha256 := envelopeSha256;
        b_attachmentIds := attachmentIds |}.

Definition enforceApplicationAppendDeliveryLimits (value limits : unknown) :
  result ApplicationAppendBody :=
  parsed ← parseApplicationAppendBody value;
  parsedLimits ← parseDeliveryLimits limits;
  ciphertextBytes ←
    parseCanonicalBase64UrlBytes (VString (b_ciphertext parsed)) 1 MAX_APPLICATION_ENVELOPE_BYTES;
  refuse (BigInt (applicationCiphertextDecodedMaxBytes parsedLimits) <? byteLength ciphertextBytes);;
  refuse (BigInt (attachmentsMaxPerEnvelope parsedLimits)
          <? Z.of_nat (length (b_attachmentIds parsed)));;
  Ok parsed.

Definition parseApplicationAppendJson (rawBody : unknown) : result ParsedApplicationAppendJson :=
  rawBodyBytes ← copyBytes rawBody MAX_APPLICATION_APPEND_JSON_BYTES;
  json ← decodeDocument DeliveryEnvelopeValidationError rawBodyBytes;
  decoded ← parseJsonWithoutDuplicateObjectKeys json;
  body ← parseApplicationAppendBody decoded;
  Ok {| rawBodyBytes := rawBodyBytes; body := body |}.

(** ** The stored envelope *)

Definition maximumBytes (envelopeClass : EnvelopeClass) : Z :=
  if envelopeClass === application then MAX_APPLICATION_ENVELOPE_BYTES
  else if envelopeClass === external_proposal then MAX_EXTERNAL_PROPOSAL_ENVELOPE_BYTES
  else MAX_MLS_COMMIT_ENVELOPE_BYTES.

(** The argument of [computeEnvelopeLeafHash] and that of
    [computeDeliveryLogCheckpointDigest]. *)
Definition storedLeaf (c : StoredEnvelopeCommon) : EnvelopeLeafInput := {|
  leaf_conversationId := s_conversationId c; leaf_position := s_position c;
  leaf_envelopeId := s_envelopeId c; leaf_envelopeClass := s_envelopeClass c;
  leaf_sender := s_sender c; leaf_epoch := s_epoch c; leaf_rosterVersion := s_rosterVersion c;
  leaf_contentType := s_contentType c; leaf_envelopeSha256 := s_envelopeSha256 c;
  leaf_receivedAt := s_receivedAt c |}.
Definition storedCheckpoint (c : StoredEnvelopeCommon) : unknown :=
  obj [("conversationId", VString (s_conversationId c)); ("position", VString (s_position c));
       ("previousHeadHash", VString (s_previousHeadHash c)); ("headHash", VString (s_headHash c));
       ("signingKeyId", VString (s_logSigningKeyId c))].

(** The checks of [parseStoredCommon] on its parsed fields. *)
Definition checkStoredDigests (parsed : StoredEnvelopeCommon) : result unit :=
  refuse (negb (Bool.eqb (s_position parsed === "1") (s_previousHeadHash parsed === ZERO_HASH32)));;
  expectedLeafHash ← computeEnvelopeLeafHash (leaf_obj (storedLeaf parsed));
  refuse (s_leafHash parsed !== expectedLeafHash);;
  head ← computeLogHeadHash (s_previousHeadHash parsed) (s_leafHash parsed);
  refuse (s_headHash parsed !== head);;
  digest ← computeDeliveryLogCheckpointDigest (storedCheckpoint parsed);
  refuse (s_logCheckpointDigest parsed !== digest).

Definition parseStoredCommon (record : record) (envelopeClass : EnvelopeClass) :
  result StoredEnvelopeCommon :=
  envelopeBytes ←
    parseCanonicalBase64UrlBytes record.["envelopeBytes"] 1 (maximumBytes envelopeClass);
  envelopeSha256 ← parseHash32 record.["envelopeSha256"];
  computed ← computeEnvelopeSha256 envelopeBytes;
  refuse (computed !== envelopeSha256);;
  conversationId ← parseConversationId record.["conversationId"];
  position ← parsePositiveUint63String record.["position"];
  envelopeId ← parseEnvelopeId record.["envelopeId"];
  contentType ← parseEnvelopeContentType record.["contentType"];
  encodedBytes ←
    parseCanonicalBase64Url record.["envelopeBytes"] 1 (maximumBytes envelopeClass);
  epoch ← parseUint63String record.["epoch"];
  rosterVersion ← parseUint63String record.["rosterVersion"];
  sender ← parseEnvelopeSender record.["sender"];
  receivedAt ← parseRfc3339Millis record.["receivedAt"];
  leafHash ← parseHash32 record.["leafHash"];
  previousHeadHash ← parseHash32 record.["previousHeadHash"];
  headHash ← parseHash32 record.["headHash"];
  logSigningKeyId ← parseSigningKeyId record.["logSigningKeyId"];
  logCheckpointDigest ← parseHash32 record.["logCheckpointDigest"];
  logHeadSignature ← parseEd25519Signature record.["logHeadSignature"];
  let parsed := {|
    s_conversationId := conversationId; s_position := position; s_envelopeId := envelopeId;
    s_envelopeClass := envelopeClass; s_contentType := contentType;
    s_envelopeBytes := encodedBytes; s_envelopeSha256 := envelopeSha256; s_epoch := epoch;
    s_rosterVersion := rosterVersion; s_sender := sender; s_receivedAt := receivedAt;
    s_leafHash := leafHash; s_previousHeadHash := previousHeadHash; s_headHash := headHash;
    s_logSigningKeyId := logSigningKeyId; s_logCheckpointDigest := logCheckpointDigest;
    s_logHeadSignature := logHeadSignature |} in
  checkStoredDigests parsed;;
  Ok parsed.

Definition parseStoredEnvelope (value : unknown) : result StoredEnvelope :=
  discriminator ← readDataDiscriminator value "envelopeClass";
  match literal_of envelopeClass_string [external_proposal; mls_commit; application] discriminator with
  | None => invalidEnvelope
  | Some envelopeClass =>
      record ← expectExactRecord value
        (if envelopeClass === mls_commit then COMMIT_TRANSCRIPT_KEYS else STORED_ENVELOPE_COMMON_KEYS);
      parsed ← parseStoredCommon record envelopeClass;
      match envelopeClass with
      | external_proposal =>
          refuse ((s_contentType parsed !== mls_public_message)
                  || (sender_type (s_sender parsed) !== "entitlement_signer"));;
          Ok (StoredExternalProposalEnvelope parsed)
      | mls_commit =>
          refuse ((s_contentType parsed !== mls_public_message)
                  || (sender_type (s_sender parsed) !== "installation"));;
          base ← parseHash32 record.["baseConfirmedTranscriptHash"];
          resulting ← parseHash32 record.["resultingConfirmedTranscriptHash"];
          Ok (StoredMlsCommitEnvelope parsed base resulting)
      | application =>
          refuse ((s_contentType parsed !== mls_private_message)
                  || (sender_type (s_sender parsed) !== "installation"));;
          Ok (StoredApplicationEnvelope parsed)
      end
  end.

Definition enforceStoredEnvelopeDeliveryLimits (value limits : unknown) : result StoredEnvelope :=
  parsed ← parseStoredEnvelope value;
  parsedLimits ← parseDeliveryLimits limits;
  let '(configuredMaximum, hardMaximum) :=
    match parsed with
    | StoredApplicationEnvelope _ =>
        (applicationCiphertextDecodedMaxBytes parsedLimits, MAX_APPLICATION_ENVELOPE_BYTES)
    | StoredExternalProposalEnvelope _ =>
        (externalProposalDecodedMaxBytes parsedLimits, MAX_EXTERNAL_PROPOSAL_ENVELOPE_BYTES)
    | StoredMlsCommitEnvelope _ _ _ =>
        (mlsCommitDecodedMaxBytes parsedLimits, MAX_MLS_COMMIT_ENVELOPE_BYTES)
    end in
  envelopeBytes ←
    parseCanonicalBase64UrlBytes (VString (s_envelopeBytes (storedCommon parsed))) 1 hardMaximum;
  refuse (BigInt configuredMaximum <? byteLength envelopeBytes);;
  Ok parsed.

(** ** Replays *)

Definition parseApplicationEnvelopeSemanticIdentity (value : unknown) :
  result ApplicationEnvelopeSemanticIdentity :=
  record ← expectExactRecord value ["conversationId"; "ifMatch"; "authenticatedSender"; "append"];
  sender ← parseEnvelopeSender record.["authenticatedSender"];
  match sender with
  | InstallationSender accountId installationId =>
      conversationId ← parseConversationId record.["conversationId"];
      ifMatch ← parseConversationEtag record.["ifMatch"];
      append ← parseApplicationAppendBody record.["append"];
      Ok {| id_conversationId := conversationId; id_ifMatch := ifMatch; id_accountId := accountId;
            id_installationId := installationId; id_append := append |}
  | EntitlementSignerSender _ _ _ => invalidEnvelope
  end.

(** The comparisons of the sender's type and of the content type are of equal
    literals. *)
Definition sameParsedApplicationIdentity (left right : ApplicationEnvelopeSemanticIdentity) : bool :=
  let a := id_append left in
  let b := id_append right in
  (id_conversationId left === id_conversationId right)
  && (id_ifMatch left === id_ifMatch right)
  && (id_accountId left === id_accountId right)
  && (id_installationId left === id_installationId right)
  && (b_envelopeId a === b_envelopeId b)
  && (b_policyHeadId a === b_policyHeadId b)
  && (b_policyHeadSequence a === b_policyHeadSequence b)
  && (b_policyHeadHash a === b_policyHeadHash b)
  && (b_expectedEpoch a === b_expectedEpoch b)
  && (b_expectedRosterVersion a === b_expectedRosterVersion b)
  && (b_expectedConfirmedTranscriptHash a === b_expectedConfirmedTranscriptHash b)
  && (b_ciphertext a === b_ciphertext b)
  && (b_envelopeSha256 a === b_envelopeSha256 b)
  && sameOrderedStrings (b_attachmentIds a) (b_attachmentIds b).

Definition classifyImmutableApplicationEnvelopeReplay {Receipt}
    (accepted : option (AcceptedApplicationEnvelope Receipt)) (candidate : unknown) :
  result (ApplicationEnvelopeReplayClassification Receipt) :=
  parsedCandidate ← parseApplicationEnvelopeSemanticIdentity candidate;
  match accepted with
  | None => Ok replay_new
  | Some accepted =>
      parsedAccepted ← parseApplicationEnvelopeSemanticIdentity (identity accepted);
      if negb (sameParsedApplicationIdentity parsedAccepted parsedCandidate)
      then Ok replay_conflict else Ok (replay_exact (receipt accepted))
  end.

Definition applicationEnvelopeSemanticallyEqual (left right : unknown) : result bool :=
  l ← parseApplicationEnvelopeSemanticIdentity left;
  r ← parseApplicationEnvelopeSemanticIdentity right;
  Ok (sameParsedApplicationIdentity l r).
End Envelopes.

(** ** The checks as propositions *)

Lemma refuse_Ok b u : refuse b = Ok u ↔ b = false.
Proof. apply throw_if_Ok. Qed.

Lemma expectExactArray_Ok v m vs :
  expectExactArray v m = Ok vs ↔ v = arr vs ∧ Z.of_nat (length vs) <= m.
Proof.
  unfold expectExactArray, arr, ownKeysCount. split.
  - destruct v as [| | | | | | | | |p elems extra|]; try discriminate.
    intros H. inv_result. apply refuse_Ok in Hx, Hx0, Hx1. bsimp. subst.
    apply Nat.eqb_eq in Hx2 as ->. clear Hx1.
    assert (elems = map Some vs) as ->.
    { apply mapR_Ok in H. clear Hx0. induction H as [|[e|] y es ys E _ IH]; cbn; [done| |done].
      injection E as ->. by rewrite IH. }
    rewrite length_map in Hx0. split; [done|lia].
  - intros [-> Hl]. rewrite bool_decide_eq_true_2 by done. cbn [negb].
    rewrite !length_map, (proj2 (Z.ltb_ge _ _)) by lia.
    assert (omap id (map Some vs) = vs) as -> by (induction vs as [|x vs IH]; cbn; congruence || (f_equal; apply IH; cbn in Hl; lia)).
    rewrite (proj2 (Nat.eqb_eq (length vs + 1 + 0) (length vs + 1))) by lia. cbn.
    apply mapR_Ok. induction vs; constructor; [done|]. apply IHvs. cbn in Hl; lia.
Qed.

Lemma setSize_cons x xs :
  setSize (x :: xs) = if decide (x ∈ xs) then setSize xs else S (setSize xs).
Proof.
  unfold setSize. cbn [list_to_set]. destruct (decide (x ∈ xs)) as [Hx|Hx].
  - by rewrite subseteq_union_1_L by set_solver.
  - rewrite size_union by set_solver. by rewrite size_singleton.
Qed.

Lemma setSize_le xs : (setSize xs <= length xs)%nat.
Proof. induction xs as [|x xs IH]; [done|]. rewrite setSize_cons. cbn. case_decide; lia. Qed.

Lemma setSize_NoDup xs : setSize xs = length xs ↔ NoDup xs.
Proof.
  induction xs as [|x xs IH]; [split; [constructor|done]|].
  rewrite setSize_cons, NoDup_cons, <- IH. pose proof (setSize_le xs). cbn.
  case_decide; [split; [lia|by intros [? _]]|]. split; [intros [= ->]; done|by intros [_ ->]].
Qed.

Lemma parseAttachmentIds_Ok vs ids :
  mapR parseAttachmentId vs = Ok ids ↔ vs = map VString ids ∧ forallb is_uuid4 ids = true.
Proof.
  rewrite mapR_Ok. split.
  - induction 1 as [|v id vs ids [-> Hid]%parseUuidV4_Ok _ [-> IH]]; [done|]. cbn. by rewrite Hid, IH.
  - intros [-> H]. induction ids as [|id ids IH]; [constructor|].
    cbn in H. bsimp. constructor; [by apply parseUuidV4_Ok|by apply IH].
Qed.

Lemma sameOrderedStrings_eq xs ys : sameOrderedStrings xs ys = true ↔ xs = ys.
Proof.
  unfold sameOrderedStrings. rewrite andb_true_iff, Nat.eqb_eq. split.
  - intros [HL HF]. revert ys HL HF. induction xs as [|x xs IH]; intros [|y ys] HL HF; try done.
    cbn in *. bsimp. subst. f_equal. apply IH; [lia|done].
  - intros <-. split; [done|]. induction xs as [|x xs IH]; [done|]. cbn. by rewrite bool_decide_eq_true_2.
Qed.

Lemma sender_obj_inv v s : parseEnvelopeSender v = Ok s → parseEnvelopeSender (sender_obj s) = Ok s.
Proof. intros H%parseEnvelopeSender_valid. by apply parseEnvelopeSender_obj. Qed.

(** Proves a conjunction of brands. *)
Ltac brands := repeat match goal with H : ?b = true |- _ => rewrite H; clear H end.

(** Rewrites with the fields a record reads. *)
Ltac read_record H :=
  unfold reads in H; repeat (apply Forall_cons in H as [?HF H]);
  repeat match goal with E : get _ _ = _ |- _ => rewrite E; clear E end; clear H.

Section Bodies.
Context `{SHA : Sha256}.

(** The digest of the bytes a base64url text denotes. *)
Definition digestOf (encoded : string) : Hash32 := base64url_encode (sha256 (base64url_decode encoded)).

Lemma is_hash32_digestOf s : is_hash32 (digestOf s) = true.
Proof. apply is_hash32_encode, sha256_length. Qed.

Lemma computeEnvelopeSha256_eq a b s :
  b <= DEFAULT_MAX_BASE64URL_BYTES → is_base64url a b s = true →
  computeEnvelopeSha256 (base64url_decode s) = Ok (digestOf s).
Proof.
  intros Hb [_ HL]%is_base64url_decode. unfold computeEnvelopeSha256.
  assert (fits DEFAULT_MAX_BASE64URL_BYTES (base64url_decode s)) by (unfold fits, byteLength; lia).
  rewrite ownBytes_eq by done. cbn [mbind result_bind]. rewrite sha256Bytes_eq by (by apply Forall_singleton).
  cbn [concat]. by rewrite app_nil_r.
Qed.

(** What an append body must satisfy, and the fields it is read from. *)
Definition valid_body (b : ApplicationAppendBody) : bool :=
  is_uuid4 (b_envelopeId b) && is_uuid4 (b_policyHeadId b)
  && is_positive_uint63 (b_policyHeadSequence b) && is_hash32 (b_policyHeadHash b)
  && is_uint63 (b_expectedEpoch b) && is_uint63 (b_expectedRosterVersion b)
  && is_hash32 (b_expectedConfirmedTranscriptHash b)
  && is_base64url 1 MAX_APPLICATION_ENVELOPE_BYTES (b_ciphertext b)
  && (b_envelopeSha256 b === digestOf (b_ciphertext b))
  && (Z.of_nat (length (b_attachmentIds b)) <=? MAX_APPLICATION_ATTACHMENTS)
  && bool_decide (NoDup (b_attachmentIds b)) && forallb is_uuid4 (b_attachmentIds b).
Definition body_fields (b : ApplicationAppendBody) : list (string * unknown) :=
  [("envelopeId", VString (b_envelopeId b)); ("policyHeadId", VString (b_policyHeadId b));
   ("policyHeadSequence", VString (b_policyHeadSequence b));
   ("policyHeadHash", VString (b_policyHeadHash b));
   ("expectedEpoch", VString (b_expectedEpoch b));
   ("expectedRosterVersion", VString (b_expectedRosterVersion b));
   ("expectedConfirmedTranscriptHash", VString (b_expectedConfirmedTranscriptHash b));
   ("contentType", VString MLS_PRIVATE_MESSAGE_MEDIA_TYPE);
   ("ciphertext", VString (b_ciphertext b)); ("envelopeSha256", VString (b_envelopeSha256 b));
   ("attachmentIds", arr (map VString (b_attachmentIds b)))].
Definition body_obj (b : ApplicationAppendBody) : unknown := obj (body_fields b).

Lemma parseApplicationAppendBody_Ok v b :
  parseApplicationAppendBody v = Ok b ↔
  valid_body b = true ∧ ∃ r, expectExactRecord v APPLICATION_APPEND_KEYS = Ok r ∧ reads r (body_fields b).
Proof.
  unfold parseApplicationAppendBody, valid_body. split.
  - intros H. inv_result. subst. cbn.
    apply expectExactArray_Ok in Hx0 as [HA HL]. apply parseAttachmentIds_Ok in Hx1 as [-> HU].
    apply refuse_Ok, negb_false_iff, Nat.eqb_eq, setSize_NoDup in Hx2.
    apply refuse_Ok, negb_false_iff in Hx3.
    apply parseCanonicalBase64UrlBytes_Ok in Hx4 as (s & Hc & Hs & ->); [|by vm_compute..].
    apply isString_eq in Hx3. rewrite Hc in *.
    apply parseCanonicalBase64Url_Ok in Hx15 as [[= <-] _]; [|by vm_compute..].
    rewrite (computeEnvelopeSha256_eq 1 MAX_APPLICATION_ENVELOPE_BYTES) in Hx6 by first [exact Hs | by vm_compute].
    injection Hx6 as <-. apply refuse_Ok, negb_false_iff, bool_decide_eq_true in Hx7 as <-.
    read_brands. rewrite length_map in HL. apply Z.leb_le in HL.
    split; [rewrite !andb_true_iff, !bool_decide_eq_true; split_and!; done|].
    exists x. split; [done|]. repeat (constructor; [done|]). constructor.
  - intros [HV (r & -> & HR)]. cbn [mbind result_bind]. read_record HR. bsimp.
    rewrite (proj2 (expectExactArray_Ok _ _ (map VString (b_attachmentIds b)))) by (rewrite length_map; split; [done|lia]).
    cbn [mbind result_bind]. rewrite (proj2 (parseAttachmentIds_Ok _ (b_attachmentIds b))) by done.
    cbn [mbind result_bind]. rewrite (proj2 (setSize_NoDup _)), Nat.eqb_refl by done.
    rewrite (proj2 (parseCanonicalBase64UrlBytes_Ok (VString (b_ciphertext b)) 1 MAX_APPLICATION_ENVELOPE_BYTES
      (base64url_decode (b_ciphertext b)) ltac:(by vm_compute) ltac:(by vm_compute))) by eauto.
    cbn -[is_uuid4]. accept_brands.
    rewrite (computeEnvelopeSha256_eq 1 MAX_APPLICATION_ENVELOPE_BYTES) by first [exact HV4 | by vm_compute].
    rewrite (bool_decide_eq_true_2 (MLS_PRIVATE_MESSAGE_MEDIA_TYPE = _)) by done.
    cbn [negb refuse throw_if mbind result_bind].
    pose proof (is_hash32_digestOf (b_ciphertext b)) as HD. rewrite <- HV3 in HD |- *. accept_brands.
    rewrite bool_decide_eq_true_2 by done. cbn [negb refuse throw_if mbind result_bind].
    rewrite (proj2 (parseCanonicalBase64Url_Ok _ 1 MAX_APPLICATION_ENVELOPE_BYTES _
      ltac:(by vm_compute) ltac:(by vm_compute)) (conj eq_refl HV4)).
    by destruct b.
Qed.

Lemma parseApplicationAppendBody_obj b : valid_body b = true → parseApplicationAppendBody (body_obj b) = Ok b.
Proof.
  intros HV. apply parseApplicationAppendBody_Ok. split; [done|].
  apply expectExactRecord_reads; [done|by apply nodup_keys|by repeat constructor].
Qed.

(** ** Stored envelopes *)

(** What the common part of a stored envelope must satisfy. *)
Definition valid_common (c : StoredEnvelopeCommon) : bool :=
  is_base64url 1 (maximumBytes (s_envelopeClass c)) (s_envelopeBytes c)
  && (s_envelopeSha256 c === digestOf (s_envelopeBytes c))
  && is_uuid4 (s_conversationId c) && is_positive_uint63 (s_position c) && is_uuid4 (s_envelopeId c)
  && is_uint63 (s_epoch c) && is_uint63 (s_rosterVersion c) && valid_sender (s_sender c)
  && coherent (s_envelopeClass c) (s_sender c) (s_contentType c)
  && canonicalInstant (s_receivedAt c) && is_hash32 (s_previousHeadHash c)
  && LABEL_64 (s_logSigningKeyId c) && is_base64url 64 64 (s_logHeadSignature c)
  && Bool.eqb (s_position c === "1") (s_previousHeadHash c === ZERO_HASH32).

(** The chain of digests of an envelope. *)
Definition checkpointOf (c : StoredEnvelopeCommon) : DeliveryLogCheckpointInput := {|
  ckpt_conversationId := s_conversationId c; ckpt_position := s_position c;
  ckpt_previousHeadHash := s_previousHeadHash c; ckpt_headHash := s_headHash c;
  ckpt_signingKeyId := s_logSigningKeyId c |}.
Definition chained (c : StoredEnvelopeCommon) : Prop :=
  s_leafHash c = base64url_encode (sha256 (leafPreimage (storedLeaf c))) ∧
  s_headHash c = base64url_encode (sha256 (logHeadPreimage (s_previousHeadHash c) (s_leafHash c))) ∧
  s_logCheckpointDigest c = base64url_encode (sha256 (checkpointPreimage (checkpointOf c))).

Definition common_fields (c : StoredEnvelopeCommon) (sender : unknown) : list (string * unknown) :=
  [("conversationId", VString (s_conversationId c)); ("position", VString (s_position c));
   ("envelopeId", VString (s_envelopeId c));
   ("contentType", VString (contentType_string (s_contentType c)));
   ("envelopeBytes", VString (s_envelopeBytes c)); ("envelopeSha256", VString (s_envelopeSha256 c));
   ("epoch", VString (s_epoch c)); ("rosterVersion", VString (s_rosterVersion c)); ("sender", sender);
   ("receivedAt", VString (s_receivedAt c)); ("leafHash", VString (s_leafHash c));
   ("previousHeadHash", VString (s_previousHeadHash c)); ("headHash", VString (s_headHash c));
   ("logSigningKeyId", VString (s_logSigningKeyId c));
   ("logCheckpointDigest", VString (s_logCheckpointDigest c));
   ("logHeadSignature", VString (s_logHeadSignature c))].

Lemma valid_hashes (x : bytes) : is_hash32 (base64url_encode (sha256 x)) = true.
Proof. apply is_hash32_encode, sha256_length. Qed.

Lemma parse_storedCheckpoint c :
  is_uuid4 (s_conversationId c) = true → is_positive_uint63 (s_position c) = true →
  is_hash32 (s_previousHeadHash c) = true → is_hash32 (s_headHash c) = true →
  LABEL_64 (s_logSigningKeyId c) = true →
  Bool.eqb (s_position c === "1") (s_previousHeadHash c === ZERO_HASH32) = true →
  parseDeliveryLogCheckpointInput (storedCheckpoint c) = Ok (checkpointOf c).
Proof.
  intros. unfold parseDeliveryLogCheckpointInput, storedCheckpoint.
  rewrite expectExactRecord_obj; [|done|by apply nodup_keys|by repeat constructor].
  cbn -[ZERO_HASH32]. accept_brands.
  destruct (_ === "1"), (_ === ZERO_HASH32); try done.
Qed.

(** The digest checks hold exactly on a chained envelope. *)
Lemma checkStoredDigests_Ok c u :
  valid_leaf (storedLeaf c) = true → is_hash32 (s_leafHash c) = true →
  is_hash32 (s_previousHeadHash c) = true → is_hash32 (s_headHash c) = true →
  LABEL_64 (s_logSigningKeyId c) = true →
  checkStoredDigests c = Ok u ↔
  Bool.eqb (s_position c === "1") (s_previousHeadHash c === ZERO_HASH32) = true ∧ chained c.
Proof.
  intros HV HL HP HH HK. unfold checkStoredDigests, chained.
  rewrite (computeEnvelopeLeafHash_eq _ (storedLeaf c)) by by apply parseEnvelopeLeafInput_obj.
  rewrite computeLogHeadHash_eq by done. cbn [mbind result_bind].
  unfold valid_leaf in HV. cbn in HV. bsimp.
  destruct (Bool.eqb _ _) eqn:E; cbn [negb refuse throw_if mbind result_bind];
    [|split; [done|by intros [? _]]].
  rewrite (computeDeliveryLogCheckpointDigest_eq _ (checkpointOf c)) by by apply parse_storedCheckpoint.
  cbn [mbind result_bind].
  destruct (bool_decide_reflect (s_leafHash c = base64url_encode (sha256 (leafPreimage (storedLeaf c))))) as [EL|EL];
    cbn [negb refuse throw_if mbind result_bind]; [|split; [done|by intros (_ & ? & _)]].
  destruct (bool_decide_reflect (s_headHash c
    = base64url_encode (sha256 (logHeadPreimage (s_previousHeadHash c) (s_leafHash c))))) as [EH|EH];
    cbn [negb refuse throw_if mbind result_bind]; [|split; [done|by intros (_ & _ & ? & _)]].
  unfold refuse. rewrite throw_if_Ok, negb_false_iff, bool_decide_eq_true. tauto.
Qed.

Lemma leafHash_coherent l h :
  valid_sender (leaf_sender l) = true → computeEnvelopeLeafHash (leaf_obj l) = Ok h →
  coherent (leaf_envelopeClass l) (leaf_sender l) (leaf_contentType l) = true.
Proof.
  intros HS H. unfold computeEnvelopeLeafHash in H. apply bind_Ok in H as (l' & H & _).
  unfold parseEnvelopeLeafInput, leaf_obj in H.
  rewrite expectExactRecord_obj in H;
    [|done|by apply nodup_keys|by repeat constructor; destruct (leaf_sender l)].
  cbn in H. rewrite parseEnvelopeClass_string, parseEnvelopeContentType_string in H. cbn in H.
  rewrite parseEnvelopeSender_obj in H by done. cbn [mbind result_bind] in H.
  rewrite requireClassSenderAndMediaType_spec in H. by destruct (coherent _ _ _).
Qed.

(** The bound of a class, as the parsers need it. *)
Lemma maximumBytes_bound c : 0 <= 1 <= maximumBytes c ∧ maximumBytes c <= DEFAULT_MAX_BASE64URL_BYTES.
Proof. by destruct c; vm_compute. Qed.

Lemma parseStoredCommon_Ok r k c :
  parseStoredCommon r k = Ok c ↔
  s_envelopeClass c = k ∧ valid_common c = true ∧ chained c ∧
  parseEnvelopeSender r.["sender"] = Ok (s_sender c) ∧ reads r (common_fields c r.["sender"]).
Proof.
  destruct (maximumBytes_bound k) as [HB HB']. unfold parseStoredCommon. split.
  - intros H. apply bind_Ok in H as (bs & HBs & H). apply parseCanonicalBase64UrlBytes_Ok in HBs as (s & Hs & HsV & ->); [|done..].
    inv_result. read_brands. rewrite Hs in *.
    repeat match goal with H : parseCanonicalBase64Url _ _ _ = Ok _ |- _ =>
      apply parseCanonicalBase64Url_Ok in H as [[= <-] _]; [|done..] end.
    rewrite (computeEnvelopeSha256_eq 1 (maximumBytes k)) in Hx0 by done. injection Hx0 as <-.
    apply refuse_Ok, negb_false_iff, bool_decide_eq_true in Hx1.
    match goal with H : checkStoredDigests ?x = _, E : ?x = c |- _ => rewrite E in H; rename H into HD end.
    assert (HV : valid_sender (s_sender c) = true) by (subst c; by eapply parseEnvelopeSender_valid).
    assert (HC : coherent (s_envelopeClass c) (s_sender c) (s_contentType c) = true).
    { unfold checkStoredDigests in HD. inv_result. by eapply (leafHash_coherent (storedLeaf c)). }
    assert (HL : valid_leaf (storedLeaf c) = true).
    { unfold valid_leaf. cbn. rewrite HC, HV. subst c; cbn.  brands. done. }
    apply checkStoredDigests_Ok in HD as [HZ HD]; [|done|subst c; done..].
    unfold valid_common. rewrite HZ, HC, HV.
    split_and!; [by subst c| |done|by subst c|].
    + subst c. cbn. rewrite (bool_decide_eq_true_2 (x = digestOf s)) by done. brands. done.
    + subst c. cbn. repeat (constructor; [done|]). constructor.
  - intros (<- & HV & HD & HS & HR). read_record HR. unfold valid_common in HV. bsimp.
    assert (HHs : is_hash32 (s_leafHash c) = true ∧ is_hash32 (s_headHash c) = true
      ∧ is_hash32 (s_logCheckpointDigest c) = true ∧ is_hash32 (s_envelopeSha256 c) = true).
    { rewrite HV12. destruct HD as (-> & -> & ->). split_and!; first [apply valid_hashes | apply is_hash32_digestOf]. }
    destruct HHs as (HLh & HHh & HDh & HSh).
    rewrite (proj2 (parseCanonicalBase64UrlBytes_Ok _ _ _ _ HB HB')) by eauto. cbn [mbind result_bind].
    accept_brands. rewrite (computeEnvelopeSha256_eq 1 (maximumBytes (s_envelopeClass c))) by done.
    cbn [mbind result_bind]. rewrite bool_decide_eq_true_2 by done. cbn [negb refuse throw_if mbind result_bind].
    accept_brands. rewrite (proj2 (parseCanonicalBase64Url_Ok _ _ _ _ HB HB') (conj eq_refl HV)).
    cbn [mbind result_bind]. accept_brands. rewrite HS. cbn [mbind result_bind]. accept_brands.
    match goal with |- context [checkStoredDigests ?x] => replace x with c by by destruct c end.
    rewrite (proj2 (checkStoredDigests_Ok c () ltac:(unfold valid_leaf; cbn; rewrite HSh; by brands)
      HLh HV3 HHh HV2)) by done. done.
Qed.

Definition valid_stored (e : StoredEnvelope) : bool :=
  valid_common (storedCommon e) &&
  match e with
  | StoredExternalProposalEnvelope c => s_envelopeClass c === external_proposal
  | StoredMlsCommitEnvelope c base resulting =>
      (s_envelopeClass c === mls_commit) && is_hash32 base && is_hash32 resulting
  | StoredApplicationEnvelope c => s_envelopeClass c === application
  end.
Definition stored_keys (e : StoredEnvelope) : list string :=
  match e with StoredMlsCommitEnvelope _ _ _ => COMMIT_TRANSCRIPT_KEYS | _ => STORED_ENVELOPE_COMMON_KEYS end.
Definition stored_fields (e : StoredEnvelope) (sender : unknown) : list (string * unknown) :=
  ("envelopeClass", VString (envelopeClass_string (s_envelopeClass (storedCommon e))))
  :: common_fields (storedCommon e) sender ++
  match e with
  | StoredMlsCommitEnvelope _ base resulting =>
      [("baseConfirmedTranscriptHash", VString base); ("resultingConfirmedTranscriptHash", VString resulting)]
  | _ => []
  end.

Lemma coherent_content c s t : coherent c s t = true →
  t = (if c === application then mls_private_message else mls_public_message) ∧
  sender_type s = (if c === external_proposal then "entitlement_signer" else "installation").
Proof. by destruct c, s, t. Qed.

Lemma discriminator_Ok v r keys k :
  expectExactRecord v keys = Ok r → In k keys → readDataDiscriminator v k = Ok r.[k].
Proof.
  intros (p & -> & Hp & _ & _ & HD)%expectExactRecord_Ok Hin. unfold readDataDiscriminator.
  destruct (HD k Hin) as (x & Hx & _). unfold get. rewrite Hx. by destruct Hp as [-> | ->].
Qed.

Lemma discriminator_get v r keys k x :
  readDataDiscriminator v k = Ok x → expectExactRecord v keys = Ok r → r.[k] = x.
Proof.
  intros H (p & -> & Hp & _)%expectExactRecord_Ok. unfold readDataDiscriminator in H. inv_result.
  unfold get. destruct (descriptor r k) as [[y []|]|]; try done. by inv_result.
Qed.

Lemma literal_of_class x k :
  literal_of envelopeClass_string [external_proposal; mls_commit; application] x = Some k ↔
  x = VString (envelopeClass_string k).
Proof.
  split; [|intros ->; by destruct k]. intros [_ E]%List.find_some. by apply isString_eq in E.
Qed.

(** The stored-envelope parser, exactly. *)
Lemma parseStoredEnvelope_Ok v e :
  parseStoredEnvelope v = Ok e ↔
  valid_stored e = true ∧ chained (storedCommon e) ∧
  ∃ r, expectExactRecord v (stored_keys e) = Ok r ∧
    parseEnvelopeSender r.["sender"] = Ok (s_sender (storedCommon e)) ∧
    reads r (stored_fields e r.["sender"]).
Proof.
  unfold parseStoredEnvelope, valid_stored. split.
  - intros H. apply bind_Ok in H as (x & HX & H). destruct (literal_of _ _ x) as [k|] eqn:E; [|done].
    apply literal_of_class in E. apply bind_Ok in H as (r & HR & H).
    pose proof (discriminator_get _ _ _ _ _ HX HR) as HC. rewrite E in HC.
    apply bind_Ok in H as (c & HP & H). apply parseStoredCommon_Ok in HP as (HK & HV & HD & HS & HF).
    destruct k; inv_result; subst e; cbn [storedCommon stored_fields].
    + rewrite HV, HK. split_and!; [done..|]. exists r. split_and!; [done..|].
      constructor; [cbn; by rewrite HK|]. by apply Forall_app.
    + read_brands. rewrite HV, HK. brands. split_and!; [done..|]. exists r. split_and!; [done..|].
      constructor; [cbn; by rewrite HK|]. apply Forall_app. split; [done|]. by repeat constructor.
    + rewrite HV, HK. split_and!; [done..|]. exists r. split_and!; [done..|].
      constructor; [cbn; by rewrite HK|]. by apply Forall_app.
  - intros (HV & HD & r & HR & HS & HF). apply andb_true_iff in HV as [HV HK].
    apply Forall_cons in HF as [HC HF]. apply Forall_app in HF as [HF HF'].
    rewrite (discriminator_Ok _ _ _ "envelopeClass" HR).
    2:{ destruct e; cbn; tauto. }
    cbn [mbind result_bind]. rewrite HC, (proj2 (literal_of_class _ _) eq_refl).
    assert (HCo := HV). unfold valid_common in HCo. bsimp. apply coherent_content in HCo5 as [HT HY].
    assert (HP := proj2 (parseStoredCommon_Ok r _ _) (conj eq_refl (conj HV (conj HD (conj HS HF))))).
    assert (HR' : expectExactRecord v (if s_envelopeClass (storedCommon e) === mls_commit
      then COMMIT_TRANSCRIPT_KEYS else STORED_ENVELOPE_COMMON_KEYS) = Ok r).
    { rewrite <- HR. destruct e; cbn in HK |- *; bsimp; by rewrite HK. }
    rewrite HR'. cbn [mbind result_bind]. rewrite HP. cbn [mbind result_bind]. rewrite HT, HY.
    destruct e as [c|c base res|c]; cbn [storedCommon] in *; bsimp; rewrite HK; try done.
    apply Forall_cons in HF' as [HF1 [HF2 _]%Forall_cons]. rewrite HF1, HF2.
    cbn -[parseHash32]. by accept_brands.
Qed.
End Bodies.

Section Theorems.
Context `{SHA : Sha256}.

(** *** Stored envelopes *)

Definition stored_obj (e : StoredEnvelope) : unknown :=
  obj (stored_fields e (sender_obj (s_sender (storedCommon e)))).

Lemma sender_obj_defined s : isUndefined (sender_obj s) = false.
Proof. by destruct s. Qed.

Lemma parseStoredEnvelope_obj e :
  valid_stored e = true → chained (storedCommon e) → parseStoredEnvelope (stored_obj e) = Ok e.
Proof.
  intros HV HD. apply parseStoredEnvelope_Ok. split_and!; [done..|].
  destruct (expectExactRecord_reads (stored_fields e (sender_obj (s_sender (storedCommon e))))
    (stored_keys e)) as (r & HR & HF).
  - destruct e; cbn; solve_Permutation.
  - destruct e; by apply nodup_keys.
  - unfold stored_fields, common_fields.
    repeat (constructor; [first [apply sender_obj_defined | done]|]). destruct e; repeat constructor.
  - assert (HS : r.["sender"] = sender_obj (s_sender (storedCommon e))).
    { unfold reads in HF. rewrite Forall_forall in HF.
      apply (HF ("sender", _)). cbn. do 9 (apply elem_of_cons; right). apply elem_of_cons. by left. }
    exists r. split; [done|]. rewrite HS. split; [|done].
    apply parseEnvelopeSender_obj. unfold valid_stored, valid_common in HV. by bsimp.
Qed.

(** The stored-envelope parser accepts an envelope exactly when its fields are
    well formed, its class, sender and media type fit together, only position
    one starts from the zero head, its bytes have the recorded digest, and its
    leaf hash, head hash and checkpoint digest are those of its own fields. *)
Theorem parseStoredEnvelope_spec e :
  (∃ v, parseStoredEnvelope v = Ok e) ↔ valid_stored e = true ∧ chained (storedCommon e).
Proof.
  split; [intros [v (HV & HD & _)%parseStoredEnvelope_Ok]; done|].
  intros [HV HD]. exists (stored_obj e). by apply parseStoredEnvelope_obj.
Qed.

(** A transcript of one conversation from a position and a head on. *)
Fixpoint transcript (conversation : ConversationId) (position : Z) (previous : Hash32)
    (es : list StoredEnvelope) : Prop :=
  match es with
  | [] => True
  | e :: es =>
      let c := storedCommon e in
      s_conversationId c = conversation ∧ s_position c = decimal position ∧
      s_previousHeadHash c = previous ∧ transcript conversation (position + 1) (s_headHash c) es
  end.
Fixpoint finalHead (previous : Hash32) (es : list StoredEnvelope) : Hash32 :=
  match es with [] => previous | e :: es => finalHead (s_headHash (storedCommon e)) es end.

(** What the head hash covers of an envelope, and what is hashed for it. *)
Definition recorded (e : StoredEnvelope) : EnvelopeLeafInput * string :=
  (storedLeaf (storedCommon e), s_envelopeBytes (storedCommon e)).
Definition hashed (e : StoredEnvelope) : list bytes :=
  let c := storedCommon e in
  [base64url_decode (s_envelopeBytes c); leafPreimage (storedLeaf c);
   logHeadPreimage (s_previousHeadHash c) (s_leafHash c)].

Lemma valid_common_leaf c : valid_common c = true → valid_leaf (storedLeaf c) = true.
Proof.
  unfold valid_common, valid_leaf. cbn. intros H. bsimp.
  rewrite H12, is_hash32_digestOf. by brands.
Qed.

Lemma valid_stored_common e : valid_stored e = true → valid_common (storedCommon e) = true.
Proof. unfold valid_stored. by intros [? _]%andb_true_iff. Qed.

(** One step back: equal heads mean equal envelopes and equal previous heads. *)
Lemma head_binding e e' :
  valid_stored e = true → valid_stored e' = true →
  chained (storedCommon e) → chained (storedCommon e') →
  s_headHash (storedCommon e) = s_headHash (storedCommon e') →
  (recorded e = recorded e' ∧ s_previousHeadHash (storedCommon e) = s_previousHeadHash (storedCommon e'))
  ∨ collision (hashed e) (hashed e').
Proof.
  intros HV%valid_stored_common HV'%valid_stored_common (HL & HH & _) (HL' & HH' & _) HE. unfold recorded, hashed.
  set (c := storedCommon e) in *. set (c' := storedCommon e') in *.
  assert (Hleaf := valid_common_leaf _ HV). assert (Hleaf' := valid_common_leaf _ HV').
  unfold valid_common in HV, HV'. bsimp.
  rewrite HH, HH' in HE. apply digest_inj in HE as [HE|HC].
  2:{ right. eapply collision_mono, HC; intros ? ->%list_elem_of_singleton; set_solver. }
  apply logHeadPreimage_inj in HE as [HP HE]; [|done|rewrite HL; apply valid_hashes|done|rewrite HL'; apply valid_hashes].
  rewrite HL, HL' in HE. apply digest_inj in HE as [HE|HC].
  2:{ right. eapply collision_mono, HC; intros ? ->%list_elem_of_singleton; set_solver. }
  apply leafPreimage_inj in HE; [|done..].
  assert (HS : digestOf (s_envelopeBytes c) = digestOf (s_envelopeBytes c')).
  { rewrite <- HV12, <- HV'12. by injection HE. }
  apply digest_inj in HS as [HS|HC].
  2:{ right. eapply collision_mono, HC; intros ? ->%list_elem_of_singleton; set_solver. }
  left. split; [|done]. f_equal; [done|].
  apply is_base64url_decode in HV as [HV _], HV' as [HV' _]. by rewrite <- HV, <- HV', HS.
Qed.

Lemma finalHead_app p es es' : finalHead p (es ++ es') = finalHead (finalHead p es) es'.
Proof. revert p. by induction es as [|e es IH]; intros p; cbn. Qed.
Lemma transcript_app k n p es es' :
  transcript k n p (es ++ es') ↔
  transcript k n p es ∧ transcript k (n + Z.of_nat (length es)) (finalHead p es) es'.
Proof.
  revert n p. induction es as [|e es IH]; intros n p; cbn [app transcript finalHead length].
  - rewrite Z.add_0_r. tauto.
  - rewrite IH. replace (n + 1 + Z.of_nat (length es)) with (n + Z.of_nat (S (length es))) by lia. tauto.
Qed.

Definition accepted (e : StoredEnvelope) : Prop := valid_stored e = true ∧ chained (storedCommon e).
Lemma accepted_parsed vs es : mapR parseStoredEnvelope vs = Ok es → Forall accepted es.
Proof. intros H%mapR_Ok. induction H as [|?? ?? (? & ? & _)%parseStoredEnvelope_Ok]; by constructor. Qed.

Lemma transcript_binding_length k k' n p p' es es' :
  Forall accepted es → Forall accepted es' → transcript k n p es → transcript k' n p' es' →
  length es = length es' → finalHead p es = finalHead p' es' →
  (map recorded es = map recorded es') ∨ collision (flat_map hashed es) (flat_map hashed es').
Proof.
  revert es'. induction es as [|e es IH] using rev_ind; intros es' HP HP' HT HT' HL HH.
  { destruct es'; [by left|done]. }
  destruct es' as [|e' es' _] using rev_ind; [rewrite length_app in HL; cbn in HL; lia|].
  rewrite !length_app in HL. cbn in HL. rewrite !finalHead_app in HH. cbn in HH.
  apply transcript_app in HT as [HT (_ & _ & HB & _)], HT' as [HT' (_ & _ & HB' & _)].
  apply Forall_app in HP as [HP [[HV HD] _]%Forall_cons], HP' as [HP' [[HV' HD'] _]%Forall_cons].
  rewrite !map_app, !flat_map_app. cbn [map flat_map].
  destruct (head_binding e e') as [[HR HE]|HC]; try done.
  2:{ right. eapply collision_mono, HC; rewrite app_nil_r; intros x Hx; apply elem_of_app; by right. }
  destruct (IH es' HP HP' HT HT') as [->|HC]; [lia|congruence| |].
  - left. by rewrite HR.
  - right. eapply collision_mono, HC; intros x Hx; apply elem_of_app; by left.
Qed.

(** C25: A head hash authenticates a whole transcript: two accepted transcripts from
    position one with the same final head have the same length, the same leaves
    and the same envelope bytes, or exhibit a SHA-256 collision. *)
Theorem transcript_binding k k' p p' es es' vs vs' :
  mapR parseStoredEnvelope vs = Ok es → mapR parseStoredEnvelope vs' = Ok es' →
  transcript k 1 p es → transcript k' 1 p' es' → es ≠ [] → es' ≠ [] →
  finalHead p es = finalHead p' es' →
  (map recorded es = map recorded es') ∨ collision (flat_map hashed es) (flat_map hashed es').
Proof.
  intros HP%accepted_parsed HP'%accepted_parsed HT HT' HN HN' HH.
  destruct (decide (length es = length es')) as [HL|HL]; [by eapply transcript_binding_length|].
  right.
  destruct es as [|e es _] using rev_ind; [done|]. destruct es' as [|e' es' _] using rev_ind; [done|].
  rewrite !length_app in HL. cbn in HL. rewrite !finalHead_app in HH. cbn in HH.
  apply transcript_app in HT as [_ (_ & HPos & _)], HT' as [_ (_ & HPos' & _)].
  apply Forall_app in HP as [_ [[HV HD] _]%Forall_cons], HP' as [_ [[HV' HD'] _]%Forall_cons].
  rewrite !flat_map_app. cbn [flat_map].
  destruct (head_binding e e') as [[HR _]|HC]; try done.
  2:{ eapply collision_mono, HC; rewrite app_nil_r; intros x Hx; apply elem_of_app; by right. }
  exfalso. injection HR as _ HR _. rewrite HPos, HPos' in HR. apply decimal_inj in HR; lia.
Qed.

(** *** Append bodies *)

(** The admission limits refuse exactly the bodies that are malformed or larger
    than the authenticated manifest allows, and change nothing. *)
Theorem enforceApplicationAppendDeliveryLimits_spec v limits b :
  enforceApplicationAppendDeliveryLimits v limits = Ok b ↔
  parseApplicationAppendBody v = Ok b ∧
  ∃ l, parseDeliveryLimits limits = Ok l ∧
    byteLength (base64url_decode (b_ciphertext b)) <= BigInt (applicationCiphertextDecodedMaxBytes l) ∧
    Z.of_nat (length (b_attachmentIds b)) <= BigInt (attachmentsMaxPerEnvelope l).
Proof.
  unfold enforceApplicationAppendDeliveryLimits, refuse. split.
  - intros H. inv_result. subst.
    apply parseCanonicalBase64UrlBytes_Ok in Hx1 as (s & [= <-] & _ & ->); [|by vm_compute..].
    split; [done|]. exists x0. split_and!; [done|lia..].
  - intros (HP & l & HL & HB & HA). rewrite HP, HL. cbn [mbind result_bind].
    apply parseApplicationAppendBody_Ok in HP as [HV _]. unfold valid_body in HV. bsimp.
    rewrite (proj2 (parseCanonicalBase64UrlBytes_Ok (VString (b_ciphertext b)) 1 MAX_APPLICATION_ENVELOPE_BYTES
      (base64url_decode (b_ciphertext b)) ltac:(by vm_compute) ltac:(by vm_compute))) by eauto.
    cbn [mbind result_bind]. rewrite (proj2 (Z.ltb_ge _ _) HB), (proj2 (Z.ltb_ge _ _) HA). done.
Qed.

(** The hard class bound never exceeds what was parsed, so admission of a stored
    envelope only compares its size with the manifest. *)
Definition classLimit (e : StoredEnvelope) (l : DeliveryLimits) : Z :=
  BigInt match e with
  | StoredExternalProposalEnvelope _ => externalProposalDecodedMaxBytes l
  | StoredMlsCommitEnvelope _ _ _ => mlsCommitDecodedMaxBytes l
  | StoredApplicationEnvelope _ => applicationCiphertextDecodedMaxBytes l
  end.
Lemma parse_bounded k s m :
  is_base64url 1 (maximumBytes k) s = true → maximumBytes k = m →
  parseCanonicalBase64UrlBytes (VString s) 1 m = Ok (base64url_decode s).
Proof.
  intros HS <-. destruct (maximumBytes_bound k).
  apply parseCanonicalBase64UrlBytes_Ok; eauto.
Qed.

Lemma enforceStoredEnvelopeDeliveryLimits_Ok v limits e :
  enforceStoredEnvelopeDeliveryLimits v limits = Ok e ↔
  parseStoredEnvelope v = Ok e ∧
  ∃ l, parseDeliveryLimits limits = Ok l ∧
    byteLength (base64url_decode (s_envelopeBytes (storedCommon e))) <= classLimit e l.
Proof.
  unfold enforceStoredEnvelopeDeliveryLimits, refuse. split.
  - intros H. apply bind_Ok in H as (x & HX & H). apply bind_Ok in H as (l & HL & H).
    destruct x; inv_result; subst e; (split; [done|]); exists l; (split; [done|]); cbn [storedCommon classLimit] in *;
      apply parseCanonicalBase64UrlBytes_Ok in Hx as (s & [= <-] & _ & ->);
      unfold classLimit, DEFAULT_MAX_BASE64URL_BYTES, MAX_APPLICATION_ENVELOPE_BYTES,
        MAX_EXTERNAL_PROPOSAL_ENVELOPE_BYTES, MAX_MLS_COMMIT_ENVELOPE_BYTES in *; lia.
  - intros (HP & l & HL & HB). rewrite HP, HL. cbn [mbind result_bind].
    apply parseStoredEnvelope_Ok in HP as [HV _]. unfold valid_stored, valid_common in HV. bsimp.
    destruct e; cbn [storedCommon classLimit] in *; bsimp;  rewrite (parse_bounded _ _ _ HV) by (by rewrite ?HV0, ?HV1, ?HV2); cbn [mbind result_bind];
      unfold classLimit in HB; rewrite (proj2 (Z.ltb_ge _ _) HB); done.
Qed.

(** *** Replays *)

Lemma sameParsedApplicationIdentity_eq i j : sameParsedApplicationIdentity i j = true ↔ i = j.
Proof.
  unfold sameParsedApplicationIdentity. split.
  - intros H. bsimp. apply sameOrderedStrings_eq in H0.
    destruct i as [? ? ? ? a], j as [? ? ? ? b]. cbn in *. destruct a, b. cbn in *. congruence.
  - intros <-. rewrite !bool_decide_eq_true_2 by done. by apply sameOrderedStrings_eq.
Qed.

(** An accepted envelope replays exactly: whatever it is accepted with, a later
    candidate that parses is a replay of the original receipt when every field,
    attachment order included, is the same, and a permanent conflict otherwise;
    a candidate that does not parse throws before anything is compared. *)
Theorem replay_classification {Receipt} (stored : AcceptedApplicationEnvelope Receipt) i candidate :
  parseApplicationEnvelopeSemanticIdentity (identity stored) = Ok i →
  (∀ j, parseApplicationEnvelopeSemanticIdentity candidate = Ok j →
     classifyImmutableApplicationEnvelopeReplay (Receipt:=Receipt) None candidate = Ok replay_new ∧
     (i = j → classifyImmutableApplicationEnvelopeReplay (Some stored) candidate = Ok (replay_exact (receipt stored))) ∧
     (i ≠ j → classifyImmutableApplicationEnvelopeReplay (Some stored) candidate = Ok replay_conflict) ∧
     applicationEnvelopeSemanticallyEqual (identity stored) candidate = Ok (sameParsedApplicationIdentity i j)) ∧
  (∀ e, parseApplicationEnvelopeSemanticIdentity candidate = Throw e →
     classifyImmutableApplicationEnvelopeReplay (Some stored) candidate = Throw e).
Proof.
  intros HI. unfold classifyImmutableApplicationEnvelopeReplay, applicationEnvelopeSemanticallyEqual.
  split; [|by intros e ->]. intros j ->. rewrite HI. cbn [mbind result_bind].
  split_and!; [done| | |done].
  - intros E. by rewrite (proj2 (sameParsedApplicationIdentity_eq i j) E).
  - intros HN. destruct (sameParsedApplicationIdentity i j) eqn:E; [|done].
    by apply sameParsedApplicationIdentity_eq in E.
Qed.

End Theorems.

(** ** The body on the wire *)

(** Branded text is plain. *)
Lemma match_classes_forallb (q : ascii → bool) ps cs :
  match_classes ps cs = true → Forall (λ p, ∀ c, p c = true → q c = true) ps → forallb q cs = true.
Proof.
  revert cs. induction ps as [|p ps IH]; intros [|c cs] H HF; try done.
  cbn in H |- *. split_orb. apply Forall_cons in HF as [Hp HF]. by rewrite (Hp c), IH.
Qed.

Lemma plain_hex c : is_hex c = true → plain_char c = true.
Proof. unfold is_hex, is_digit, in_range, plain_char. lia. Qed.
Lemma plain_char_of d c : plain_char d = true → is_char d c = true → plain_char c = true.
Proof. by intros H <-%is_char_eq. Qed.
Lemma plain_variant c : is_variant c = true → plain_char c = true.
Proof.
  unfold is_variant. rewrite !orb_true_iff, !is_char_eq. by intros [[[-> | ->]| ->]| ->].
Qed.

Lemma plain_uuid s : is_uuid4 s = true → plain s = true ∧ strlen s = 36.
Proof.
  unfold is_uuid4, matches. intros H. split.
  - eapply match_classes_forallb; [exact H|]. unfold UUID_V4, uuid_pattern, hexes. cbn [repeat app].
    repeat (constructor; [first [exact plain_hex | exact plain_variant | intros c; by apply plain_char_of]|]).
    constructor.
  - apply match_classes_length in H. unfold strlen. rewrite <- length_chars, H. by vm_compute.
Qed.

Lemma plain_uint63 s : is_uint63 s = true → plain s = true ∧ strlen s <= 19.
Proof.
  intros H. assert (HU := H). unfold is_uint63 in HU. split_orb. split.
  - apply UINT63_digits in HU. unfold plain. rewrite forallb_forall in HU |- *. intros c Hc.
    specialize (HU c Hc). unfold is_digit, in_range, plain_char in *. lia.
  - pose proof (is_uint63_bound s H) as HB. unfold strlen. rewrite <- length_chars.
    destruct (Z.le_gt_cases (Z.of_nat (length (chars s))) 19) as [|HL]; [done|].
    pose proof (UINT63_long (chars s) HU ltac:(lia)) as HX. fold (BigInt s) in HX.
    assert (10 ^ 19 <= 10 ^ Z.of_nat (length (chars s) - 1)) by (apply Z.pow_le_mono_r; lia).
    unfold UINT63_MAX in *. lia.
Qed.

Lemma plain_base64url a b s : is_base64url a b s = true → plain s = true ∧ strlen s <= (b * 4 + 2) / 3.
Proof.
  intros H. pose proof (is_base64url_decode _ _ _ H) as [HE HL]. split.
  - unfold is_base64url in H. split_orb. apply BASE64URL_Forall in H as [_ H].
    unfold plain. apply forallb_forall. intros c Hc. apply list_elem_of_In in Hc.
    rewrite Forall_forall in H. specialize (H c Hc).
    unfold alphabet_index, is_upper, is_lower, is_digit, in_range, plain_char in *.
    repeat match type of H with _ <= (if ?b then _ else _) => destruct b eqn:? end; lia.
  - rewrite <- HE, length_base64url_encode. apply Z.div_le_mono; lia.
Qed.

Section Wire.
Context `{SHA : Sha256}.

(** The members of the canonical text of a body, in key order. *)
Definition body_members (b : ApplicationAppendBody) : list (string * json) :=
  [("attachmentIds", JArray (map JString (b_attachmentIds b))); ("ciphertext", JString (b_ciphertext b));
   ("contentType", JString MLS_PRIVATE_MESSAGE_MEDIA_TYPE); ("envelopeId", JString (b_envelopeId b));
   ("envelopeSha256", JString (b_envelopeSha256 b));
   ("expectedConfirmedTranscriptHash", JString (b_expectedConfirmedTranscriptHash b));
   ("expectedEpoch", JString (b_expectedEpoch b));
   ("expectedRosterVersion", JString (b_expectedRosterVersion b));
   ("policyHeadHash", JString (b_policyHeadHash b)); ("policyHeadId", JString (b_policyHeadId b));
   ("policyHeadSequence", JString (b_policyHeadSequence b))].

Lemma toJson_strings ss : mapM (λ o, o ≫= toJson) (map Some (map VString ss)) = Some (map JString ss).
Proof. induction ss as [|s ss IH]; [done|]. cbn in *. by rewrite IH. Qed.

Lemma toJson_body b : toJson (body_obj b) = Some (JObject (body_members b)).
Proof.
  unfold body_obj, body_fields, obj, arr.
  cbn -[mapM sle]. rewrite toJson_strings. by vm_compute.
Qed.

Lemma dense_body b : dense (body_obj b) = true.
Proof.
  unfold body_obj, body_fields, obj, arr, dense. cbn. rewrite andb_true_r, andb_true_iff.
  split; by induction (b_attachmentIds b).
Qed.

Lemma strlen_nonneg s : 0 <= strlen s.
Proof. unfold strlen. lia. Qed.

Lemma attachments_size ids n :
  forallb is_uuid4 ids = true →
  forallb plainJson (map JString ids) = true ∧
  foldr (λ j n, jsonSize j + 1 + n) n (map JString ids) = n + 39 * Z.of_nat (length ids).
Proof.
  induction ids as [|id ids IH]; intros H; [cbn; split; [done|lia]|].
  cbn [forallb map foldr] in *. split_orb. destruct (IH H0) as [HP HS], (plain_uuid id H) as [HI HL].
  cbn [plainJson jsonSize]. rewrite HS, HI, HL. cbn [length]. split; [done|lia].
Qed.

Lemma body_size b : valid_body b = true →
  plainJson (JObject (body_members b)) = true ∧
  jsonSize (JObject (body_members b)) <= MAX_APPLICATION_APPEND_JSON_BYTES.
Proof.
  unfold valid_body. intros H. bsimp.
  pose proof (is_hash32_digestOf (b_ciphertext b)) as HD. rewrite <- H3 in HD.
  repeat match goal with
  | H : is_uuid4 _ = true |- _ => apply plain_uuid in H as [? ?]
  | H : is_uint63 _ = true |- _ => apply plain_uint63 in H as [? ?]
  | H : is_positive_uint63 _ = true |- _ => apply is_positive_uint63_bound in H as [? _]
  | H : is_hash32 _ = true |- _ => apply plain_base64url in H as [? ?]
  | H : is_base64url _ _ _ = true |- _ => apply plain_base64url in H as [? ?]
  | H : forallb is_uuid4 _ = true |- _ => apply (attachments_size _ 2) in H as [? ?]
  end.
  split.
  - cbn [plainJson body_members forallb fst snd]. brands. by vm_compute.
  - unfold body_members. cbn [jsonSize foldr fst snd].
    match goal with H : foldr _ _ _ = _ |- _ => rewrite H end.
    repeat match goal with
    | |- context [strlen (String ?a ?t)] =>
        let n := eval vm_compute in (strlen (String a t)) in change (strlen (String a t)) with n
    | |- context [strlen MLS_PRIVATE_MESSAGE_MEDIA_TYPE] =>
        let n := eval vm_compute in (strlen MLS_PRIVATE_MESSAGE_MEDIA_TYPE) in
        change (strlen MLS_PRIVATE_MESSAGE_MEDIA_TYPE) with n
    end.
    unfold MAX_APPLICATION_ENVELOPE_BYTES, MAX_APPLICATION_ATTACHMENTS, MAX_APPLICATION_APPEND_JSON_BYTES in *.
    change ((64 * 1024 * 4 + 2) / 3) with 87382 in *. change ((32 * 4 + 2) / 3) with 43 in *. lia.
Qed.

Lemma strings_tree ss :
  treeCount (treeOf (JArray (map JString ss))) = 1 + Z.of_nat (length ss) ∧
  treeHeight (treeOf (JArray (map JString ss))) <= 1.
Proof.
  cbn [treeOf treeCount]. rewrite map_map. split.
  - f_equal. induction ss as [|s ss IH]; [done|]. cbn in *. lia.
  - destruct ss as [|s ss]; [done|]. cbn. induction ss; cbn in *; lia.
Qed.

Lemma body_tree b : valid_body b = true →
  printable (JObject (body_members b)) = true ∧
  treeHeight (treeOf (JObject (body_members b))) <= 16 ∧
  treeCount (treeOf (JObject (body_members b))) <= 256.
Proof.
  unfold valid_body. intros H. bsimp. unfold MAX_APPLICATION_ATTACHMENTS in *.
  destruct (strings_tree (b_attachmentIds b)) as [HC HH]. unfold body_members. split_and!.
  - cbn [printable forallb snd]. rewrite (bool_decide_eq_true_2 (NoDup _)) by by apply nodup_keys.
    rewrite !andb_true_r. clear. by induction (b_attachmentIds b).
  - change (treeOf (JObject _)) with (TObject ((units_of (chars "attachmentIds"), treeOf (JArray (map JString (b_attachmentIds b))))
      :: map (λ m, (units_of (chars m.1), treeOf m.2)) (tail (body_members b)))).
    cbn [treeHeight foldr map snd tail body_members]. generalize dependent (treeOf (JArray (map JString (b_attachmentIds b)))).
    intros t _ HH. cbn. lia.
  - cbn [treeOf treeCount map foldr snd]. cbn [treeOf treeCount] in HC. rewrite HC. cbn. lia.
Qed.

(** Every admissible body fits on the wire: its canonical JSON is within the
    96 KiB bound, and the strict parser reads it back as the same body together
    with its exact bytes. *)
Theorem parseApplicationAppendJson_canonical b s :
  valid_body b = true → canonicalAuthorityJson (body_obj b) = Ok s →
  parseApplicationAppendJson (VBytes (utf8 s)) = Ok {| rawBodyBytes := utf8 s; body := b |}.
Proof.
  intros HV HS. destruct (body_size b HV) as [HP HL], (body_tree b HV) as (HPr & HH & HC).
  assert (HSz : byteLength (utf8 s) <= MAX_APPLICATION_APPEND_JSON_BYTES).
  { unfold canonicalAuthorityJson in HS. rewrite serialize_toJson, toJson_body in HS by apply dense_body.
    change (Ok (text (render (JObject (body_members b)))) = Ok s) in HS.
    assert (text (render (JObject (body_members b))) = s) as <- by congruence.
    apply utf8_ascii_length. eapply sized_mono, render_sized; done. }
  unfold parseApplicationAppendJson, copyBytes.
  change ((_ <? 0) || (_ <? MAX_APPLICATION_APPEND_JSON_BYTES)) with false. cbn [throw_if mbind result_bind].
  unfold byteLength in HSz. rewrite (proj2 (Z.ltb_ge _ _) HSz). cbn [throw_if mbind result_bind].
  pose proof (strict_roundtrip 16 256 DeliveryEnvelopeValidationError _ _ _ (dense_body b) (toJson_body b) HS HPr HH HC) as HR.
  apply bind_Ok in HR as (src & HD & HR). rewrite HD. cbn [mbind result_bind].
  unfold parseJsonWithoutDuplicateObjectKeys. rewrite HR. cbn [mbind result_bind].
  rewrite (proj2 (parseApplicationAppendBody_Ok _ b)); [done|]. split; [done|].
  destruct (expectExactRecord_reads (map (λ m, (m.1, ofJson m.2)) (body_members b)) APPLICATION_APPEND_KEYS)
    as (r & HE & HRd); [cbn; solve_Permutation|by apply nodup_keys|by repeat constructor|].
  exists r. split; [exact HE|]. unfold reads, body_members in HRd. cbn in HRd.
  rewrite !Forall_cons in HRd. rewrite map_map in HRd. cbn in HRd.
  unfold reads, body_fields. rewrite !Forall_cons. tauto.
Qed.
End Wire.

(** ** Evaluations *)

Module Sample.
#[local] Existing Instance fips_sha256.

Definition ciphertext : string := Eval vm_compute in base64url_encode (utf8 "sealed").
Definition ciphertext_digest : Hash32 := Eval vm_compute in digestOf ciphertext.
Definition append : ApplicationAppendBody := {|
  b_envelopeId := "a1b2c3d4-0000-4000-8000-000000000002";
  b_policyHeadId := "a1b2c3d4-0000-4000-8000-000000000005"; b_policyHeadSequence := "3";
  b_policyHeadHash := sample_hash; b_expectedEpoch := "0"; b_expectedRosterVersion := "1";
  b_expectedConfirmedTranscriptHash := sample_hash; b_ciphertext := ciphertext;
  b_envelopeSha256 := ciphertext_digest;
  b_attachmentIds := ["a1b2c3d4-0000-4000-8000-000000000009"; "a1b2c3d4-0000-4000-8000-000000000008"] |}.
Definition append_text : string :=
  Eval vm_compute in valueOf "" (canonicalAuthorityJson (body_obj append)).

(** The envelope at a position of the sample conversation. *)
Definition sample_sender : EnvelopeSender :=
  InstallationSender "a1b2c3d4-0000-4000-8000-000000000003" "a1b2c3d4-0000-4000-8000-000000000004".
Definition draft (position : Z) (previous leaf head digest : Hash32) : StoredEnvelopeCommon := {|
  s_conversationId := sample_conversation; s_position := decimal position;
  s_envelopeId := "a1b2c3d4-0000-4000-8000-000000000002"; s_envelopeClass := application;
  s_contentType := mls_private_message; s_envelopeBytes := ciphertext;
  s_envelopeSha256 := b_envelopeSha256 append; s_epoch := "0"; s_rosterVersion := "1";
  s_sender := sample_sender; s_receivedAt := "2026-07-19T00:00:00.000Z"; s_leafHash := leaf;
  s_previousHeadHash := previous; s_headHash := head; s_logSigningKeyId := "key-1";
  s_logCheckpointDigest := digest;
  s_logHeadSignature := base64url_encode (repeat Byte.x01 64) |}.
Definition envelope_at (position : Z) (previous : Hash32) : StoredEnvelope :=
  let leaf := valueOf "" (computeEnvelopeLeafHash
    (leaf_obj (storedLeaf (draft position previous "" "" "")))) in
  let head := valueOf "" (computeLogHeadHash previous leaf) in
  let digest := valueOf "" (computeDeliveryLogCheckpointDigest
    (storedCheckpoint (draft position previous leaf head ""))) in
  StoredApplicationEnvelope (draft position previous leaf head digest).

Definition first : StoredEnvelope := Eval vm_compute in envelope_at 1 ZERO_HASH32.
Definition second : StoredEnvelope :=
  Eval vm_compute in envelope_at 2 (s_headHash (storedCommon first)).

Definition identity_obj (b : ApplicationAppendBody) : unknown :=
  obj [("conversationId", VString sample_conversation);
       ("ifMatch", VString (etag_text (chars "0") (chars "1")));
       ("authenticatedSender", sender_obj sample_sender); ("append", body_obj b)].
Definition stored : AcceptedApplicationEnvelope Z := {| identity := identity_obj append; receipt := 7 |}.
Definition semantic : ApplicationEnvelopeSemanticIdentity := {|
  id_conversationId := sample_conversation; id_ifMatch := etag_text (chars "0") (chars "1");
  id_accountId := "a1b2c3d4-0000-4000-8000-000000000003";
  id_installationId := "a1b2c3d4-0000-4000-8000-000000000004"; id_append := append |}.
End Sample.

Example transcript_evaluates :
  @mapR _ _ (@parseStoredEnvelope fips_sha256) (map stored_obj [Sample.first; Sample.second])
    = Ok [Sample.first; Sample.second].
Proof. vm_compute. reflexivity. Qed.

(** The same attachments in another order are another envelope. *)
Example reordered_attachments_conflict :
  @classifyImmutableApplicationEnvelopeReplay fips_sha256 Z (Some Sample.stored)
    (Sample.identity_obj (Build_ApplicationAppendBody
      (b_envelopeId Sample.append) (b_policyHeadId Sample.append) (b_policyHeadSequence Sample.append)
      (b_policyHeadHash Sample.append) (b_expectedEpoch Sample.append)
      (b_expectedRosterVersion Sample.append) (b_expectedConfirmedTranscriptHash Sample.append)
      (b_ciphertext Sample.append) (b_envelopeSha256 Sample.append)
      (reverse (b_attachmentIds Sample.append)))) = Ok replay_conflict.
Proof. vm_compute. reflexivity. Qed.

Lemma transcript_binding_witness :
  map recorded [Sample.first; Sample.second] = map recorded [Sample.first; Sample.second] ∨
  @collision fips_sha256 (flat_map hashed [Sample.first; Sample.second])
    (flat_map hashed [Sample.first; Sample.second]).
Proof.
  apply (@transcript_binding fips_sha256 sample_conversation sample_conversation ZERO_HASH32 ZERO_HASH32
    [Sample.first; Sample.second] [Sample.first; Sample.second]
    (map stored_obj [Sample.first; Sample.second]) (map stored_obj [Sample.first; Sample.second]));
    try (vm_compute; reflexivity); try discriminate; vm_compute; repeat split.
Defined.

Lemma replay_classification_witness :
  @classifyImmutableApplicationEnvelopeReplay fips_sha256 Z (Some Sample.stored)
    (Sample.identity_obj Sample.append) = Ok (replay_exact 7).
Proof.
  refine (proj1 (proj2 (proj1 (@replay_classification fips_sha256 Z Sample.stored Sample.semantic
    (Sample.identity_obj Sample.append) _) Sample.semantic _)) eq_refl);
    vm_compute; reflexivity.
Defined.

Lemma parseApplicationAppendJson_canonical_witness :
  @parseApplicationAppendJson fips_sha256 (VBytes (utf8 Sample.append_text))
    = Ok {| rawBodyBytes := utf8 Sample.append_text; body := Sample.append |}.
Proof. apply (@parseApplicationAppendJson_canonical fips_sha256); vm_compute; reflexivity. Defined.
