(* ===== verification/SyncPage.v ===== *)
(** * Pages of a conversation ([src/production/delivery/sync.ts])

    The structural verification of a page of events: the page, its snapshot,
    the signed log head and the witness receipt are parsed, and the events must
    extend the caller's head anchor, one by one, up to the signed head. *)

From stdpp Require Import base list strings gmap.
From Stdlib Require Import ZArith Lia Ascii.
From S2P Require Import Prelude Sha256 Base64Url JsTime JsValue ValueObjects Hashes Limits StrictJson Envelopes CursorCodec.

Definition DELIVERY_MANDATORY_PROPOSALS_MAX : Z := 100.
Definition CONVERSATION_PAGE_HARD_MAX_EVENTS : Z := 500.
Definition CONVERSATION_PAGE_HARD_MAX_DECODED_ARTIFACT_BYTES : Z := 4 * 1024 * 1024.
Definition CONVERSATION_PAGE_HARD_MAX_SERIALIZED_BYTES : Z := 8 * 1024 * 1024.
Definition CONVERSATION_PAGE_HARD_MAX_FIRST_ITEM_BYTES : Z := 768 * 1024.
Definition CONVERSATION_WELCOME_HARD_MAX_BYTES : Z := 256 * 1024.
Definition POLICY_MANDATORY_PROPOSAL_SET_HASH_DOMAIN : string :=
  "jb-msg-policy-mandatory-proposal-set/v1".
Definition UINT63_MAX_STRING : string := "9223372036854775807".

(** The keys of a stored commit, as this file lists them. *)
Definition STORED_COMMIT_KEYS : list string :=
  STORED_ENVELOPE_COMMON_KEYS ++ ["baseConfirmedTranscriptHash"; "resultingConfirmedTranscriptHash"].

(** ** Data *)

Inductive BootstrapMode := creator | welcome_mode.
#[export] Instance BootstrapMode_eq_dec : EqDecision BootstrapMode.
Proof. solve_decision. Defined.
Definition bootstrapMode_string (m : BootstrapMode) : string :=
  match m with creator => "creator" | welcome_mode => "welcome" end.

Record ConversationMembershipWindow := {
  mw_bootstrapMode : BootstrapMode;
  mw_credentialId : CredentialId;
  mw_credentialFingerprint : Fingerprint32;
  mw_joinedPosition : Uint63String;
  mw_removedPosition : option Uint63String;
}.

Record ConversationHeadAnchor := {
  ha_position : Uint63String;
  ha_previousHeadHash : Hash32;
  ha_headHash : Hash32;
  ha_checkpointReceivedAt : option Rfc3339Millis;
}.

Record TargetWelcome := {
  tw_targetInstallationId : InstallationId;
  tw_welcome : string;
  tw_welcomeSha256 : Hash32;
}.

Record ConversationEventItem := {
  envelope : StoredEnvelope;
  welcome : option TargetWelcome;
}.

Record SignedDeliveryLogHead := {
  lh_position : Uint63String;
  lh_previousHeadHash : Hash32;
  lh_headHash : Hash32;
  lh_signingKeyId : SigningKeyId;
  lh_checkpointDigest : Hash32;
  lh_signature : string;
  lh_checkpointReceivedAt : Rfc3339Millis;
}.

Record DeliveryLogWitnessReceipt := {
  wr_conversationId : ConversationId;
  wr_position : Uint63String;
  wr_headHash : Hash32;
  wr_witnessCheckpointId : WitnessCheckpointId;
  wr_witnessTreeSize : Uint63String;
  wr_witnessRootHash : Hash32;
  wr_witnessKeyId : SigningKeyId;
  wr_witnessSignature : string;
  wr_witnessedAt : Rfc3339Millis;
}.

Record PolicyMandatoryProposalBinding := {
  mp_proposalId : string;
  mp_proposalHash : Hash32;
}.
#[export] Instance PolicyMandatoryProposalBinding_eq_dec : EqDecision PolicyMandatoryProposalBinding.
Proof. solve_decision. Defined.

(** What a snapshot and a projection say of the policy head. *)
Record ConversationPolicyProjection := {
  pp_etag : ConversationEtag;
  pp_policyHeadId : PolicyHeadId;
  pp_policyRevision : Uint63String;
  pp_policyMandatoryProposalCount : Uint63String;
  pp_policyMandatoryProposalSetHash : Hash32;
  pp_policyMandatoryProposals : list PolicyMandatoryProposalBinding;
  pp_policyAuthorizedSendGrantSetHash : Hash32;
  pp_policyAuthorizedQuotaPolicyDigest : Hash32;
  pp_policyHeadSequence : Uint63String;
  pp_policyHeadHash : Hash32;
  pp_policyDeliveryLogPosition : Uint63String;
  pp_policyDeliveryLogHeadHash : Hash32;
  pp_policyWitnessCheckpointId : WitnessCheckpointId;
  pp_policyWitnessEvidenceDigest : Hash32;
}.

Record ConversationPageSnapshot := {
  sn_conversationId : ConversationId;
  sn_generation : Uint63String;
  sn_releaseProfileId : ReleaseProfileId;
  sn_deliveryLimitsDigest : Hash32;
  sn_etag : ConversationEtag;
  sn_epoch : Uint63String;
  sn_rosterVersion : Uint63String;
  sn_confirmedTranscriptHash : Hash32;
  sn_policyHeadId : PolicyHeadId;
  sn_policyRevision : Uint63String;
  sn_policyMandatoryProposalCount : Uint63String;
  sn_policyMandatoryProposalSetHash : Hash32;
  sn_policyMandatoryProposals : list PolicyMandatoryProposalBinding;
  sn_policyAuthorizedSendGrantSetHash : Hash32;
  sn_policyAuthorizedQuotaPolicyDigest : Hash32;
  sn_policyHeadSequence : Uint63String;
  sn_policyHeadHash : Hash32;
  sn_policyDeliveryLogPosition : Uint63String;
  sn_policyDeliveryLogHeadHash : Hash32;
  sn_policyWitnessCheckpointId : WitnessCheckpointId;
  sn_policyWitnessEvidenceDigest : Hash32;
  sn_logHead : SignedDeliveryLogHead;
  sn_witnessReceipt : DeliveryLogWitnessReceipt;
}.

(** The parameters of one page.  The context, the requested limit, the window,
    the retained floor, the anchor and the projection are parsed by the
    verifier itself. *)
Record PageVerificationInput := {
  in_cursorContext : unknown;
  in_requestedLimit : unknown;
  in_limits : DeliveryLimits;
  in_membership : unknown;
  in_retainedFloor : unknown;
  in_anchor : unknown;
  in_requestedCursor : option string;
  in_requestedCursorClaims : option ConversationCursorClaims;
  in_conversationGeneration : Uint63String;
  in_releaseProfileId : ReleaseProfileId;
  in_deliveryLimitsDigest : Hash32;
  in_policyProjectionAtAnchor : unknown;
  in_serializedBytes : Z;
}.

Record StructurallyVerifiedConversationPage := {
  pg_events : list ConversationEventItem;
  pg_nextCursor : string;
  pg_hasMore : bool;
  pg_snapshot : ConversationPageSnapshot;
  pg_decodedArtifactBytes : Uint63String;
  pg_serializedBytes : Uint63String;
}.

(** ** Structure checks *)

(** [throw invalid(...)] of this file when [b] holds. *)
Definition reject (b : bool) : result unit := throw_if b ConversationSyncValidationError.

Definition parsePositive (value : unknown) : result Uint63String :=
  parsed ← parseUint63String value; reject (parsed === "0");; Ok parsed.

Definition parseNonZeroHash32 (value : unknown) : result Hash32 :=
  parsed ← parseHash32 value; reject (parsed === ZERO_HASH32);; Ok parsed.

Definition decrementPositive (value : Uint63String) : Uint63String := decimal (BigInt value - 1).

Definition increment (value : Uint63String) : result Uint63String :=
  let next := BigInt value + 1 in reject (9223372036854775807 <? next);; Ok (decimal next).

Definition minimum (left right : Z) : Z := if left <? right then left else right.

(** The own keys of an array are its indices, then [length], then the extra
    keys, so [length] is last exactly when there are none. *)
Definition expectDenseArray (value : unknown) (maximum : Z) : result (list unknown) :=
  match value with
  | VArray p elems extra =>
      reject (p !== ArrayPrototype);;
      reject (maximum <? Z.of_nat (length elems));;
      reject (negb (Nat.eqb (ownKeysCount elems extra) (length elems + 1)) || negb (Nat.eqb extra 0));;
      mapR (λ o, match o with Some v => Ok v | None => invalidSync end) elems
  | _ => invalidSync
  end.

Definition hasOwnDataField (value : unknown) (key : string) : bool :=
  match value with
  | VObject _ r => match descriptor r key with Some (DData _ true) => true | _ => false end
  | _ => false
  end.

Definition readDataField (value : unknown) (key : string) : result unknown :=
  match value with
  | VObject _ r => match descriptor r key with Some (DData v true) => Ok v | _ => invalidSync end
  | _ => invalidSync
  end.

(** [Object.keys] lists the enumerable string keys; the copy has no prototype. *)
Definition copyRecordWithout (record : record) (omitted : string) : unknown :=
  VObject NullPrototype (omap (λ '(k, d),
    match k, d with
    | KString key, (DData _ true | DAccessor true) =>
        if key !== omitted then Some (KString key, DData record.[key] true) else None
    | _, _ => None
    end) record).

(** A parser applied to every value that is not [null]. *)
Definition orNull {A} (parse : unknown → result A) (value : unknown) : result (option A) :=
  if isNull value then Ok None else Some <$> parse value.

(** ** Windows and anchors *)

Definition parseMembershipWindow (value : unknown) : result ConversationMembershipWindow :=
  record ← expectExactRecord value
    ["bootstrapMode"; "credentialId"; "credentialFingerprint"; "joinedPosition"; "removedPosition"];
  joinedPosition ← parsePositive record.["joinedPosition"];
  removedPosition ← orNull parsePositive record.["removedPosition"];
  reject match removedPosition with
         | Some removed => BigInt removed <? BigInt joinedPosition
         | None => false
         end;;
  match literal_of bootstrapMode_string [creator; welcome_mode] record.["bootstrapMode"] with
  | None => invalidSync
  | Some bootstrapMode =>
      credentialId ← parseCredentialId record.["credentialId"];
      credentialFingerprint ← parseFingerprint32 record.["credentialFingerprint"];
      Ok {| mw_bootstrapMode := bootstrapMode; mw_credentialId := credentialId;
            mw_credentialFingerprint := credentialFingerprint;
            mw_joinedPosition := joinedPosition; mw_removedPosition := removedPosition |}
  end.

Definition parseHeadAnchor (value : unknown) : result ConversationHeadAnchor :=
  record ← expectExactRecord value
    ["position"; "previousHeadHash"; "headHash"; "checkpointReceivedAt"];
  position ← parseUint63String record.["position"];
  previousHeadHash ← parseHash32 record.["previousHeadHash"];
  headHash ← parseHash32 record.["headHash"];
  checkpointReceivedAt ← orNull parseRfc3339Millis record.["checkpointReceivedAt"];
  Ok {| ha_position := position; ha_previousHeadHash := previousHeadHash;
        ha_headHash := headHash; ha_checkpointReceivedAt := checkpointReceivedAt |}.

Definition validateAnchor (anchor : ConversationHeadAnchor) : result unit :=
  if ha_position anchor === "0" then
    reject ((ha_previousHeadHash anchor !== ZERO_HASH32) || (ha_headHash anchor !== ZERO_HASH32)
            || (ha_checkpointReceivedAt anchor !== None))
  else
    reject ((ha_headHash anchor === ZERO_HASH32) || (ha_checkpointReceivedAt anchor === None));;
    reject (negb (Bool.eqb (ha_position anchor === "1") (ha_previousHeadHash anchor === ZERO_HASH32))).

Section SyncPage.
Context `{SHA : Sha256}.

(** ** Mandatory proposals *)

Definition computePolicyMandatoryProposalSetHash (proposals : list PolicyMandatoryProposalBinding) :
  result Hash32 :=
  reject (DELIVERY_MANDATORY_PROPOSALS_MAX <? Z.of_nat (length proposals));;
  match proposals with
  | [] => Ok ZERO_HASH32
  | _ =>
      fields ← mapR (λ p, hash ← decodeHash32 (mp_proposalHash p); Ok [utf8 (mp_proposalId p); hash])
        proposals;
      body ← canonicalLengthPrefixed (concat fields);
      sha256Bytes [utf8 POLICY_MANDATORY_PROPOSAL_SET_HASH_DOMAIN; body]
  end.

(** The entries, with the ids and the hashes seen so far. *)
Fixpoint parseMandatoryEntries (ids hashes : list string) (entries : list unknown) :
  result (list PolicyMandatoryProposalBinding) :=
  match entries with
  | [] => Ok []
  | entry :: entries =>
      record ← expectExactRecord entry ["proposalId"; "proposalHash"];
      proposalId ← parseProposalId record.["proposalId"];
      proposalHash ← parseHash32 record.["proposalHash"];
      reject (bool_decide (proposalId ∈ ids) || bool_decide (proposalHash ∈ hashes));;
      rest ← parseMandatoryEntries (proposalId :: ids) (proposalHash :: hashes) entries;
      Ok ({| mp_proposalId := proposalId; mp_proposalHash := proposalHash |} :: rest)
  end.

Definition parsePolicyMandatoryProposals (value : unknown) :
  result (list PolicyMandatoryProposalBinding) :=
  entries ← expectDenseArray value DELIVERY_MANDATORY_PROPOSALS_MAX;
  parseMandatoryEntries [] [] entries.

Definition validatePolicyMandatoryProposalProjection (count : Uint63String) (setHash : Hash32)
    (proposals : list PolicyMandatoryProposalBinding) : result unit :=
  reject (negb (BigInt count =? Z.of_nat (length proposals)));;
  computed ← computePolicyMandatoryProposalSetHash proposals;
  reject (setHash !== computed).

Definition samePolicyMandatoryProposals (left right : list PolicyMandatoryProposalBinding) : bool :=
  Nat.eqb (length left) (length right)
  && forallb (λ '(l, r), (mp_proposalId l === mp_proposalId r)
                         && (mp_proposalHash l === mp_proposalHash r)) (zip left right).

Definition parseConversationPolicyProjection (value : unknown) : result ConversationPolicyProjection :=
  record ← expectExactRecord value
    ["etag"; "policyHeadId"; "policyRevision"; "policyMandatoryProposalCount";
     "policyMandatoryProposalSetHash"; "policyMandatoryProposals";
     "policyAuthorizedSendGrantSetHash"; "policyAuthorizedQuotaPolicyDigest";
     "policyHeadSequence"; "policyHeadHash"; "policyDeliveryLogPosition";
     "policyDeliveryLogHeadHash"; "policyWitnessCheckpointId"; "policyWitnessEvidenceDigest"];
  policyDeliveryLogPosition ← parseUint63String record.["policyDeliveryLogPosition"];
  policyDeliveryLogHeadHash ← parseHash32 record.["policyDeliveryLogHeadHash"];
  reject (negb (Bool.eqb (policyDeliveryLogPosition === "0")
                         (policyDeliveryLogHeadHash === ZERO_HASH32)));;
  policyMandatoryProposalCount ← parseUint63String record.["policyMandatoryProposalCount"];
  policyMandatoryProposalSetHash ← parseHash32 record.["policyMandatoryProposalSetHash"];
  policyMandatoryProposals ← parsePolicyMandatoryProposals record.["policyMandatoryProposals"];
  validatePolicyMandatoryProposalProjection policyMandatoryProposalCount
    policyMandatoryProposalSetHash policyMandatoryProposals;;
  etag ← parseConversationEtag record.["etag"];
  policyHeadId ← parsePolicyHeadId record.["policyHeadId"];
  policyRevision ← parsePositive record.["policyRevision"];
  policyAuthorizedSendGrantSetHash ← parseHash32 record.["policyAuthorizedSendGrantSetHash"];
  policyAuthorizedQuotaPolicyDigest ← parseHash32 record.["policyAuthorizedQuotaPolicyDigest"];
  policyHeadSequence ← parsePositive record.["policyHeadSequence"];
  policyHeadHash ← parseNonZeroHash32 record.["policyHeadHash"];
  policyWitnessCheckpointId ← parseWitnessCheckpointId record.["policyWitnessCheckpointId"];
  policyWitnessEvidenceDigest ← parseHash32 record.["policyWitnessEvidenceDigest"];
  Ok {| pp_etag := etag; pp_policyHeadId := policyHeadId; pp_policyRevision := policyRevision;
        pp_policyMandatoryProposalCount := policyMandatoryProposalCount;
        pp_policyMandatoryProposalSetHash := policyMandatoryProposalSetHash;
        pp_policyMandatoryProposals := policyMandatoryProposals;
        pp_policyAuthorizedSendGrantSetHash := policyAuthorizedSendGrantSetHash;
        pp_policyAuthorizedQuotaPolicyDigest := policyAuthorizedQuotaPolicyDigest;
        pp_policyHeadSequence := policyHeadSequence; pp_policyHeadHash := policyHeadHash;
        pp_policyDeliveryLogPosition := policyDeliveryLogPosition;
        pp_policyDeliveryLogHeadHash := policyDeliveryLogHeadHash;
        pp_policyWitnessCheckpointId := policyWitnessCheckpointId;
        pp_policyWitnessEvidenceDigest := policyWitnessEvidenceDigest |}.

(** ** The snapshot *)

Definition logHeadCheckpoint (conversationId : ConversationId) (position : Uint63String)
    (previousHeadHash headHash : Hash32) (signingKeyId : SigningKeyId) : unknown :=
  obj [("conversationId", VString conversationId); ("position", VString position);
       ("previousHeadHash", VString previousHeadHash); ("headHash", VString headHash);
       ("signingKeyId", VString signingKeyId)].

Definition parseSignedDeliveryLogHead (value : unknown) (conversationId : ConversationId) :
  result SignedDeliveryLogHead :=
  record ← expectExactRecord value
    ["position"; "previousHeadHash"; "headHash"; "signingKeyId"; "checkpointDigest"; "signature";
     "checkpointReceivedAt"];
  position ← parsePositive record.["position"];
  previousHeadHash ← parseHash32 record.["previousHeadHash"];
  headHash ← parseNonZeroHash32 record.["headHash"];
  signingKeyId ← parseSigningKeyId record.["signingKeyId"];
  checkpointDigest ← parseHash32 record.["checkpointDigest"];
  reject (negb (Bool.eqb (position === "1") (previousHeadHash === ZERO_HASH32)));;
  computed ← computeDeliveryLogCheckpointDigest
    (logHeadCheckpoint conversationId position previousHeadHash headHash signingKeyId);
  reject (computed !== checkpointDigest);;
  signature ← parseEd25519Signature record.["signature"];
  checkpointReceivedAt ← parseRfc3339Millis record.["checkpointReceivedAt"];
  Ok {| lh_position := position; lh_previousHeadHash := previousHeadHash; lh_headHash := headHash;
        lh_signingKeyId := signingKeyId; lh_checkpointDigest := checkpointDigest;
        lh_signature := signature; lh_checkpointReceivedAt := checkpointReceivedAt |}.

Definition parseWitnessReceipt (value : unknown) : result DeliveryLogWitnessReceipt :=
  record ← expectExactRecord value
    ["conversationId"; "position"; "headHash"; "witnessCheckpointId"; "witnessTreeSize";
     "witnessRootHash"; "witnessKeyId"; "witnessSignature"; "witnessedAt"];
  conversationId ← parseConversationId record.["conversationId"];
  position ← parsePositive record.["position"];
  headHash ← parseNonZeroHash32 record.["headHash"];
  witnessCheckpointId ← parseWitnessCheckpointId record.["witnessCheckpointId"];
  witnessTreeSize ← parseUint63String record.["witnessTreeSize"];
  witnessRootHash ← parseHash32 record.["witnessRootHash"];
  witnessKeyId ← parseSigningKeyId record.["witnessKeyId"];
  witnessSignature ← parseEd25519Signature record.["witnessSignature"];
  witnessedAt ← parseRfc3339Millis record.["witnessedAt"];
  Ok {| wr_conversationId := conversationId; wr_position := position; wr_headHash := headHash;
        wr_witnessCheckpointId := witnessCheckpointId; wr_witnessTreeSize := witnessTreeSize;
        wr_witnessRootHash := witnessRootHash; wr_witnessKeyId := witnessKeyId;
        wr_witnessSignature := witnessSignature; wr_witnessedAt := witnessedAt |}.

Definition parseConversationPageSnapshot (value : unknown) : result ConversationPageSnapshot :=
  record ← expectExactRecord value
    ["conversationId"; "generation"; "releaseProfileId"; "deliveryLimitsDigest"; "etag"; "epoch";
     "rosterVersion"; "confirmedTranscriptHash"; "policyHeadId"; "policyRevision";
     "policyMandatoryProposalCount"; "policyMandatoryProposalSetHash"; "policyMandatoryProposals";
     "policyAuthorizedSendGrantSetHash"; "policyAuthorizedQuotaPolicyDigest";
     "policyHeadSequence"; "policyHeadHash"; "policyDeliveryLogPosition";
     "policyDeliveryLogHeadHash"; "policyWitnessCheckpointId"; "policyWitnessEvidenceDigest";
     "logHead"; "witnessReceipt"];
  epoch ← parseUint63String record.["epoch"];
  rosterVersion ← parseUint63String record.["rosterVersion"];
  etag ← parseConversationEtag record.["etag"];
  reject (etag !== etag_text (chars epoch) (chars rosterVersion));;
  conversationId ← parseConversationId record.["conversationId"];
  logHead ← parseSignedDeliveryLogHead record.["logHead"] conversationId;
  policyDeliveryLogPosition ← parseUint63String record.["policyDeliveryLogPosition"];
  policyDeliveryLogHeadHash ← parseHash32 record.["policyDeliveryLogHeadHash"];
  reject ((BigInt (lh_position logHead) <? BigInt policyDeliveryLogPosition)
          || negb (Bool.eqb (policyDeliveryLogPosition === "0")
                            (policyDeliveryLogHeadHash === ZERO_HASH32))
          || ((policyDeliveryLogPosition === lh_position logHead)
              && (policyDeliveryLogHeadHash !== lh_headHash logHead)));;
  witnessReceipt ← parseWitnessReceipt record.["witnessReceipt"];
  reject ((wr_conversationId witnessReceipt !== conversationId)
          || (wr_position witnessReceipt !== lh_position logHead)
          || (wr_headHash witnessReceipt !== lh_headHash logHead));;
  policyMandatoryProposalCount ← parseUint63String record.["policyMandatoryProposalCount"];
  policyMandatoryProposalSetHash ← parseHash32 record.["policyMandatoryProposalSetHash"];
  policyMandatoryProposals ← parsePolicyMandatoryProposals record.["policyMandatoryProposals"];
  validatePolicyMandatoryProposalProjection policyMandatoryProposalCount
    policyMandatoryProposalSetHash policyMandatoryProposals;;
  generation ← parsePositive record.["generation"];
  releaseProfileId ← parseReleaseProfileId record.["releaseProfileId"];
  deliveryLimitsDigest ← parseHash32 record.["deliveryLimitsDigest"];
  confirmedTranscriptHash ← parseHash32 record.["confirmedTranscriptHash"];
  policyHeadId ← parsePolicyHeadId record.["policyHeadId"];
  policyRevision ← parsePositive record.["policyRevision"];
  policyAuthorizedSendGrantSetHash ← parseHash32 record.["policyAuthorizedSendGrantSetHash"];
  policyAuthorizedQuotaPolicyDigest ← parseHash32 record.["policyAuthorizedQuotaPolicyDigest"];
  policyHeadSequence ← parsePositive record.["policyHeadSequence"];
  policyHeadHash ← parseNonZeroHash32 record.["policyHeadHash"];
  policyWitnessCheckpointId ← parseWitnessCheckpointId record.["policyWitnessCheckpointId"];
  policyWitnessEvidenceDigest ← parseHash32 record.["policyWitnessEvidenceDigest"];
  Ok {| sn_conversationId := conversationId; sn_generation := generation;
        sn_releaseProfileId := releaseProfileId; sn_deliveryLimitsDigest := deliveryLimitsDigest;
        sn_etag := etag; sn_epoch := epoch; sn_rosterVersion := rosterVersion;
        sn_confirmedTranscriptHash := confirmedTranscriptHash; sn_policyHeadId := policyHeadId;
        sn_policyRevision := policyRevision;
        sn_policyMandatoryProposalCount := policyMandatoryProposalCount;
        sn_policyMandatoryProposalSetHash := policyMandatoryProposalSetHash;
        sn_policyMandatoryProposals := policyMandatoryProposals;
        sn_policyAuthorizedSendGrantSetHash := policyAuthorizedSendGrantSetHash;
        sn_policyAuthorizedQuotaPolicyDigest := policyAuthorizedQuotaPolicyDigest;
        sn_policyHeadSequence := policyHeadSequence; sn_policyHeadHash := policyHeadHash;
        sn_policyDeliveryLogPosition := policyDeliveryLogPosition;
        sn_policyDeliveryLogHeadHash := policyDeliveryLogHeadHash;
        sn_policyWitnessCheckpointId := policyWitnessCheckpointId;
        sn_policyWitnessEvidenceDigest := policyWitnessEvidenceDigest; sn_logHead := logHead;
        sn_witnessReceipt := witnessReceipt |}.

Definition snapshotMatchesPolicyProjection (snapshot : ConversationPageSnapshot)
    (projection : ConversationPolicyProjection) : bool :=
  (sn_etag snapshot === pp_etag projection)
  && (sn_policyHeadId snapshot === pp_policyHeadId projection)
  && (sn_policyRevision snapshot === pp_policyRevision projection)
  && (sn_policyMandatoryProposalCount snapshot === pp_policyMandatoryProposalCount projection)
  && (sn_policyMandatoryProposalSetHash snapshot === pp_policyMandatoryProposalSetHash projection)
  && samePolicyMandatoryProposals (sn_policyMandatoryProposals snapshot)
       (pp_policyMandatoryProposals projection)
  && (sn_policyAuthorizedSendGrantSetHash snapshot
      === pp_policyAuthorizedSendGrantSetHash projection)
  && (sn_policyAuthorizedQuotaPolicyDigest snapshot
      === pp_policyAuthorizedQuotaPolicyDigest projection)
  && (sn_policyHeadSequence snapshot === pp_policyHeadSequence projection)
  && (sn_policyHeadHash snapshot === pp_policyHeadHash projection)
  && (sn_policyDeliveryLogPosition snapshot === pp_policyDeliveryLogPosition projection)
  && (sn_policyDeliveryLogHeadHash snapshot === pp_policyDeliveryLogHeadHash projection)
  && (sn_policyWitnessCheckpointId snapshot === pp_policyWitnessCheckpointId projection)
  && (sn_policyWitnessEvidenceDigest snapshot === pp_policyWitnessEvidenceDigest projection).

(** ** Events *)

Definition parseTargetWelcome (value : unknown) (expectedInstallationId : InstallationId)
    (limits : DeliveryLimits) : result TargetWelcome :=
  record ← expectExactRecord value ["targetInstallationId"; "welcome"; "welcomeSha256"];
  targetInstallationId ← parseInstallationId record.["targetInstallationId"];
  reject (targetInstallationId !== expectedInstallationId);;
  let configuredMaximum := BigInt (welcomeDecodedMaxBytes limits) in
  reject (configuredMaximum =? 0);;
  let maximum := minimum configuredMaximum CONVERSATION_WELCOME_HARD_MAX_BYTES in
  welcomeBytes ← parseCanonicalBase64UrlBytes record.["welcome"] 1 maximum;
  welcomeSha256 ← parseHash32 record.["welcomeSha256"];
  computed ← computeEnvelopeSha256 welcomeBytes;
  reject (computed !== welcomeSha256);;
  welcome ← parseCanonicalBase64Url record.["welcome"] 1 maximum;
  Ok {| tw_targetInstallationId := targetInstallationId; tw_welcome := welcome;
        tw_welcomeSha256 := welcomeSha256 |}.

Definition verifyStoredEnvelopeHashes (envelope : StoredEnvelope) : result unit :=
  let c := storedCommon envelope in
  leafHash ← computeEnvelopeLeafHash (leaf_obj (storedLeaf c));
  reject (leafHash !== s_leafHash c);;
  headHash ← computeLogHeadHash (s_previousHeadHash c) leafHash;
  reject (headHash !== s_headHash c);;
  checkpointDigest ← computeDeliveryLogCheckpointDigest (storedCheckpoint c);
  reject (checkpointDigest !== s_logCheckpointDigest c).

Definition decodedEnvelopeLength (envelope : StoredEnvelope) (limits : DeliveryLimits) : result Z :=
  let c := storedCommon envelope in
  let hardMaximum :=
    if s_envelopeClass c === application then MAX_APPLICATION_ENVELOPE_BYTES
    else if s_envelopeClass c === external_proposal then MAX_EXTERNAL_PROPOSAL_ENVELOPE_BYTES
    else MAX_MLS_COMMIT_ENVELOPE_BYTES in
  let configuredMaximum := BigInt
    (if s_envelopeClass c === application then applicationCiphertextDecodedMaxBytes limits
     else if s_envelopeClass c === external_proposal then externalProposalDecodedMaxBytes limits
     else mlsCommitDecodedMaxBytes limits) in
  reject (configuredMaximum =? 0);;
  let maxBytes := minimum configuredMaximum hardMaximum in
  bytes ← parseCanonicalBase64UrlBytes (VString (s_envelopeBytes c)) 1 maxBytes;
  Ok (byteLength bytes).

Definition parseConversationEventItem (value : unknown) (targetInstallationId : InstallationId)
    (limits : DeliveryLimits) : result ConversationEventItem :=
  envelopeClass ← readDataField value "envelopeClass";
  let hasWelcome := hasOwnDataField value "welcome" in
  let isCommit := isString envelopeClass "mls_commit" in
  reject (negb isCommit && hasWelcome);;
  let expectedKeys :=
    if isCommit then (if hasWelcome then STORED_COMMIT_KEYS ++ ["welcome"] else STORED_COMMIT_KEYS)
    else STORED_ENVELOPE_COMMON_KEYS in
  record ← expectExactRecord value expectedKeys;
  let envelopeRecord := copyRecordWithout record "welcome" in
  envelope ← parseStoredEnvelope envelopeRecord;
  decodedEnvelopeLength envelope limits;;
  welcome ← (if hasWelcome
             then Some <$> parseTargetWelcome record.["welcome"] targetInstallationId limits
             else Ok None);
  reject match welcome with
         | Some _ => s_envelopeClass (storedCommon envelope) !== mls_commit
         | None => false
         end;;
  Ok {| envelope := envelope; welcome := welcome |}.

(** ** The page *)

(** The variables of the loop over the events. *)
Record PageLoop := {
  previousPosition : Z;
  previousHeadHash : Hash32;
  decodedArtifactBytes : Z;
  welcomeCount : Z;
  envelopeIds : gset string;
  headHashes : gset string;
  events : list ConversationEventItem;
}.

(** [position > BigInt(removedPosition)] when there is one. *)
Definition beyondRemoval (membership : ConversationMembershipWindow) (position : Z) : bool :=
  match mw_removedPosition membership with
  | Some removed => BigInt removed <? position
  | None => false
  end.

(** The Welcome of an item: the new count and the size of the item. *)
Definition pageWelcome (limits : DeliveryLimits) (expectedWelcomeCommitPosition : option Uint63String)
    (item : ConversationEventItem) (welcomeCount envelopeBytes : Z) : result (Z * Z) :=
  match welcome item with
  | None => Ok (welcomeCount, envelopeBytes)
  | Some w =>
      welcomeBytes ← parseCanonicalBase64UrlBytes (VString (tw_welcome w)) 1
        (minimum (BigInt (welcomeDecodedMaxBytes limits)) CONVERSATION_WELCOME_HARD_MAX_BYTES);
      reject match expectedWelcomeCommitPosition with
             | None => true
             | Some expected => s_position (storedCommon (envelope item)) !== expected
             end;;
      Ok (welcomeCount + 1, envelopeBytes + byteLength welcomeBytes)
  end.

Definition pageStep (context : ConversationCursorContext) (limits : DeliveryLimits)
    (membership : ConversationMembershipWindow)
    (expectedWelcomeCommitPosition : option Uint63String) (st : PageLoop) (raw : unknown) :
  result PageLoop :=
  item ← parseConversationEventItem raw (cc_installationId context) limits;
  let c := storedCommon (envelope item) in
  let position := BigInt (s_position c) in
  reject ((s_conversationId c !== cc_conversationId context)
          || negb (position =? previousPosition st + 1)
          || (s_previousHeadHash c !== previousHeadHash st));;
  reject ((position <? BigInt (mw_joinedPosition membership)) || beyondRemoval membership position);;
  reject (bool_decide (s_envelopeId c ∈ envelopeIds st) || bool_decide (s_headHash c ∈ headHashes st));;
  verifyStoredEnvelopeHashes (envelope item);;
  envelopeBytes ← decodedEnvelopeLength (envelope item) limits;
  '(welcomeCount, itemBytes) ←
    pageWelcome limits expectedWelcomeCommitPosition item (welcomeCount st) envelopeBytes;
  reject (CONVERSATION_PAGE_HARD_MAX_FIRST_ITEM_BYTES <? itemBytes);;
  let decodedArtifactBytes := decodedArtifactBytes st + itemBytes in
  reject ((BigInt (pageDecodedArtifactsMaxBytes limits) <? decodedArtifactBytes)
          || (CONVERSATION_PAGE_HARD_MAX_DECODED_ARTIFACT_BYTES <? decodedArtifactBytes));;
  Ok {| previousPosition := position; previousHeadHash := s_headHash c;
        decodedArtifactBytes := decodedArtifactBytes; welcomeCount := welcomeCount;
        envelopeIds := {[ s_envelopeId c ]} ∪ envelopeIds st;
        headHashes := {[ s_headHash c ]} ∪ headHashes st; events := events st ++ [item] |}.

Fixpoint pageLoop (step : PageLoop → unknown → result PageLoop) (st : PageLoop)
    (rawEvents : list unknown) : result PageLoop :=
  match rawEvents with
  | [] => Ok st
  | raw :: rawEvents => st ← step st raw; pageLoop step st rawEvents
  end.

(** The heads the page has verified, by position; later entries win. *)
Definition verifiedHeads (anchor : ConversationHeadAnchor) (events : list ConversationEventItem) :
  gmap string ConversationHeadAnchor :=
  foldl (λ heads e,
    let c := storedCommon (envelope e) in
    <[ s_position c := {| ha_position := s_position c; ha_previousHeadHash := s_previousHeadHash c;
                          ha_headHash := s_headHash c;
                          ha_checkpointReceivedAt := Some (s_receivedAt c) |} ]> heads)
    {[ ha_position anchor := anchor ]} events.

Definition verifySnapshotHead (snapshot : ConversationPageSnapshot) (anchor : ConversationHeadAnchor)
    (events : list ConversationEventItem) : result unit :=
  let heads := verifiedHeads anchor events in
  let logHead := sn_logHead snapshot in
  let receipt := sn_witnessReceipt snapshot in
  reject match heads !! lh_position logHead with
         | None => true
         | Some entry =>
             (ha_previousHeadHash entry !== lh_previousHeadHash logHead)
             || (ha_headHash entry !== lh_headHash logHead)
             || (ha_checkpointReceivedAt entry !== Some (lh_checkpointReceivedAt logHead))
         end;;
  let witnessMatchesSnapshot :=
    (wr_position receipt === lh_position logHead) && (wr_headHash receipt === lh_headHash logHead) in
  reject (match heads !! wr_position receipt with
          | None => true
          | Some entry => ha_headHash entry !== wr_headHash receipt
          end && negb witnessMatchesSnapshot).

Definition verifySnapshotPolicyDeliveryAnchor (snapshot : ConversationPageSnapshot)
    (anchor : ConversationHeadAnchor) (events : list ConversationEventItem) : result unit :=
  let position := BigInt (sn_policyDeliveryLogPosition snapshot) in
  if position =? BigInt (ha_position anchor) then
    reject (sn_policyDeliveryLogHeadHash snapshot !== ha_headHash anchor)
  else if position <? BigInt (ha_position anchor) then Ok ()
  else
    reject match List.find (λ e, s_position (storedCommon (envelope e))
                                 === sn_policyDeliveryLogPosition snapshot) events with
           | None => true
           | Some e => s_headHash (storedCommon (envelope e)) !== sn_policyDeliveryLogHeadHash snapshot
           end.

(** Where the page starts: the position asked for, and whether it is the
    boundary before the join. *)
Definition requestedPosition (input : PageVerificationInput) (boundaryBeforeJoin : Uint63String) :
  result Uint63String :=
  match in_requestedCursor input, in_requestedCursorClaims input with
  | None, Some _ => invalidSync
  | None, None => Ok boundaryBeforeJoin
  | Some _, None => invalidSync
  | Some _, Some claims => Ok (cl_lastReturnedPosition claims)
  end.

(** The retained history must reach the next event the member may see. *)
Definition checkRetention (membership : ConversationMembershipWindow)
    (retainedFloor requestedAfterPosition : Uint63String) : result unit :=
  let mayHaveVisibleNext :=
    (requestedAfterPosition !== UINT63_MAX_STRING)
    && match mw_removedPosition membership with
       | None => true
       | Some removed => BigInt requestedAfterPosition <? BigInt removed
       end in
  if mayHaveVisibleNext then
    nextRequired ← increment requestedAfterPosition;
    throw_if (BigInt nextRequired <? BigInt retainedFloor) ConversationHistoryRetentionError
  else Ok ().

(** The first page starts with the commit that adds the member, and carries
    its Welcome if one is expected. *)
Definition checkJoin (membership : ConversationMembershipWindow) (requiresJoinCommit : bool)
    (expectedWelcomeCommitPosition : option Uint63String) (st : PageLoop) : result unit :=
  reject (1 <? welcomeCount st);;
  reject (requiresJoinCommit &&
          match events st with
          | [] => true
          | e :: _ => (s_position (storedCommon (envelope e)) !== mw_joinedPosition membership)
                      || (s_envelopeClass (storedCommon (envelope e)) !== mls_commit)
          end);;
  reject match expectedWelcomeCommitPosition with
         | Some _ => negb (welcomeCount st =? 1)
         | None => false
         end.

(** The snapshot must be the one of the page's last head. *)
Definition checkPageEnd (input : PageVerificationInput) (membership : ConversationMembershipWindow)
    (requestedAfterPosition : Uint63String) (hasMore : bool) (snapshot : ConversationPageSnapshot)
    (st : PageLoop) : result unit :=
  let snapshotPosition := BigInt (lh_position (sn_logHead snapshot)) in
  match events st with
  | [] =>
      reject (hasMore || negb (snapshotPosition =? BigInt requestedAfterPosition));;
      projection ← parseConversationPolicyProjection (in_policyProjectionAtAnchor input);
      reject (negb (snapshotMatchesPolicyProjection snapshot projection))
  | _ => reject (negb (snapshotPosition =? previousPosition st))
  end;;
  reject (beyondRemoval membership snapshotPosition);;
  reject match mw_removedPosition membership with
         | Some removed => (lh_position (sn_logHead snapshot) === removed) && hasMore
         | None => false
         end.

Definition verifyConversationPage (value : unknown) (input : PageVerificationInput) :
  result StructurallyVerifiedConversationPage :=
  let limits := in_limits input in
  context ← parseConversationCursorContext (in_cursorContext input);
  requestedLimit ← parseUint63String (in_requestedLimit input);
  reject ((requestedLimit === "0")
          || (BigInt (conversationEventsMaxPerPage limits) <? BigInt requestedLimit)
          || (CONVERSATION_PAGE_HARD_MAX_EVENTS <? BigInt requestedLimit));;
  membership ← parseMembershipWindow (in_membership input);
  retainedFloor ← parsePositive (in_retainedFloor input);
  anchor ← parseHeadAnchor (in_anchor input);
  let boundaryBeforeJoin := decrementPositive (mw_joinedPosition membership) in
  requestedAfterPosition ← requestedPosition input boundaryBeforeJoin;
  reject ((BigInt requestedAfterPosition <? BigInt boundaryBeforeJoin)
          || beyondRemoval membership (BigInt requestedAfterPosition));;
  reject (ha_position anchor !== requestedAfterPosition);;
  validateAnchor anchor;;
  let requiresJoinCommit := requestedAfterPosition === boundaryBeforeJoin in
  let expectedWelcomeCommitPosition :=
    if requiresJoinCommit && (mw_bootstrapMode membership === welcome_mode)
    then Some (mw_joinedPosition membership) else None in
  checkRetention membership retainedFloor requestedAfterPosition;;
  record ← expectExactRecord value ["events"; "nextCursor"; "hasMore"; "snapshot"];
  rawEvents ← expectDenseArray record.["events"] (BigInt requestedLimit);
  match record.["hasMore"] with
  | VBool hasMore =>
      nextCursor ← parseEncodedConversationCursor record.["nextCursor"] (limits_obj limits);
      snapshot ← parseConversationPageSnapshot record.["snapshot"];
      reject ((sn_conversationId snapshot !== cc_conversationId context)
              || (sn_generation snapshot !== in_conversationGeneration input)
              || (sn_releaseProfileId snapshot !== in_releaseProfileId input)
              || (sn_deliveryLimitsDigest snapshot !== in_deliveryLimitsDigest input));;
      st ← pageLoop (pageStep context limits membership expectedWelcomeCommitPosition)
        {| previousPosition := BigInt requestedAfterPosition; previousHeadHash := ha_headHash anchor;
           decodedArtifactBytes := 0; welcomeCount := 0; envelopeIds := ∅; headHashes := ∅;
           events := [] |} rawEvents;
      checkJoin membership requiresJoinCommit expectedWelcomeCommitPosition st;;
      verifySnapshotHead snapshot anchor (events st);;
      verifySnapshotPolicyDeliveryAnchor snapshot anchor (events st);;
      checkPageEnd input membership requestedAfterPosition hasMore snapshot st;;
      Ok {| pg_events := events st; pg_nextCursor := nextCursor; pg_hasMore := hasMore;
            pg_snapshot := snapshot; pg_decodedArtifactBytes := decimal (decodedArtifactBytes st);
            pg_serializedBytes := decimal (in_serializedBytes input) |}
  | _ => invalidSync
  end.
End SyncPage.

(** ** The checks as propositions *)

Lemma reject_Ok b u : reject b = Ok u ↔ b = false.
Proof. apply throw_if_Ok. Qed.

(** [inv_result] through [reject]. *)
Ltac inv_page := unfold reject in *; inv_result.

Lemma parsePositive_Ok v s : parsePositive v = Ok s ↔ v = VString s ∧ is_positive_uint63 s = true.
Proof.
  unfold parsePositive, is_positive_uint63. split.
  - intros H. inv_page. subst. apply parseUint63String_Ok in Hx as [-> HU]. rewrite HU. by rewrite Hx0.
  - intros [-> [HU HN%negb_true_iff]%andb_true_iff].
    rewrite (proj2 (parseUint63String_Ok (VString s) s)) by done. cbn. by rewrite HN.
Qed.

Lemma decrementPositive_spec s : is_positive_uint63 s = true →
  is_uint63 (decrementPositive s) = true ∧ BigInt (decrementPositive s) = BigInt s - 1.
Proof.
  intros H%is_positive_uint63_bound. unfold decrementPositive.
  split; [apply is_uint63_decimal; lia|]. apply decimal_spec. lia.
Qed.

Lemma orNull_Ok {A} (parse : unknown → result A) v o :
  orNull parse v = Ok o → match o with Some a => parse v = Ok a | None => v = VNull end.
Proof.
  unfold orNull. destruct (isNull v) eqn:E; intros H; [|destruct (parse v) eqn:P]; try discriminate.
  - injection H as <-. by destruct v.
  - by injection H as <-.
Qed.

Lemma parseHeadAnchor_uint63 v a : parseHeadAnchor v = Ok a → is_uint63 (ha_position a) = true.
Proof. unfold parseHeadAnchor. intros H. inv_page. subst. cbn. by read_brands. Qed.

(** A window is not empty. *)
Lemma parseMembershipWindow_valid v m : parseMembershipWindow v = Ok m →
  is_positive_uint63 (mw_joinedPosition m) = true ∧
  (∀ removed, mw_removedPosition m = Some removed →
    is_positive_uint63 removed = true ∧ BigInt (mw_joinedPosition m) <= BigInt removed).
Proof.
  unfold parseMembershipWindow. intros H. inv_page. destruct (literal_of _ _ _); [|done]. inv_page. subst. cbn.
  apply parsePositive_Ok in Hx0 as [_ ?]. split; [done|]. intros removed ->.
  apply orNull_Ok in Hx1. apply parsePositive_Ok in Hx1 as [_ ?]. split; [done|lia].
Qed.

Section Pages.
Context `{SHA : Sha256}.

(** What a snapshot promises of its head: the receipt is for that head. *)
Lemma parseConversationPageSnapshot_head v s : parseConversationPageSnapshot v = Ok s →
  is_positive_uint63 (lh_position (sn_logHead s)) = true ∧
  is_uint63 (sn_policyDeliveryLogPosition s) = true ∧
  wr_conversationId (sn_witnessReceipt s) = sn_conversationId s ∧
  wr_position (sn_witnessReceipt s) = lh_position (sn_logHead s) ∧
  wr_headHash (sn_witnessReceipt s) = lh_headHash (sn_logHead s).
Proof.
  unfold parseConversationPageSnapshot. intros H. inv_page. subst. cbn. bsimp. split_and!; try done; [|by apply parseUint63String_Ok in Hx6 as [_ ?]].
  clear -Hx5. unfold parseSignedDeliveryLogHead in Hx5. inv_page. subst. cbn.
  by apply parsePositive_Ok in Hx0 as [_ ?].
Qed.

(** An item is an accepted envelope; a Welcome comes with a commit, for the
    installation, with its digest. *)
Definition itemWelcome (installationId : InstallationId) (item : ConversationEventItem) : Prop :=
  ∀ w, welcome item = Some w →
    s_envelopeClass (storedCommon (envelope item)) = mls_commit ∧
    tw_targetInstallationId w = installationId ∧ tw_welcomeSha256 w = digestOf (tw_welcome w).

(** Bytes that parsed had sensible bounds. *)
Lemma base64_bounds v a b bs : parseCanonicalBase64UrlBytes v a b = Ok bs →
  0 <= a <= b ∧ b <= DEFAULT_MAX_BASE64URL_BYTES.
Proof.
  unfold parseCanonicalBase64UrlBytes, parseCanonicalBase64Url, validateByteBounds. intros H. inv_result. lia.
Qed.

Lemma base64_bytes s a b bs : parseCanonicalBase64UrlBytes (VString s) a b = Ok bs → bs = base64url_decode s.
Proof.
  intros H. destruct (base64_bounds _ _ _ _ H). by apply parseCanonicalBase64UrlBytes_Ok in H as (? & [= <-] & _ & ->).
Qed.

Lemma parseTargetWelcome_spec v i l w : parseTargetWelcome v i l = Ok w →
  tw_targetInstallationId w = i ∧ tw_welcomeSha256 w = digestOf (tw_welcome w).
Proof.
  unfold parseTargetWelcome. intros H. inv_page. subst. cbn. bsimp. split; [done|].
  set (m := minimum _ _) in *.
  destruct (base64_bounds _ _ _ _ Hx3) as [HB HB'].
  apply parseCanonicalBase64UrlBytes_Ok in Hx3 as (s & Hs & HV & ->); [|done..]. rewrite Hs in *.
  match goal with H : parseCanonicalBase64Url (VString _) _ _ = Ok _ |- _ =>
    apply parseCanonicalBase64Url_Ok in H as [[= <-] _]; [|done..] end.
  match goal with H : computeEnvelopeSha256 _ = Ok _ |- _ =>
    rewrite (computeEnvelopeSha256_eq 1 m) in H by done; injection H as <- end.
  done.
Qed.

Lemma parseConversationEventItem_spec v i l item : parseConversationEventItem v i l = Ok item →
  accepted (envelope item) ∧ itemWelcome i item.
Proof.
  unfold parseConversationEventItem, itemWelcome. intros H. inv_page. subst item. cbn.
  match goal with H : parseStoredEnvelope _ = Ok _ |- _ => apply parseStoredEnvelope_Ok in H as (HV & HD & _) end.
  split; [done|]. intros w ->. bsimp. split; [done|].
  destruct (hasOwnDataField v "welcome"); [|discriminate].
  destruct (parseTargetWelcome _ _ _) as [w'|] eqn:E; [|discriminate].
  match goal with H : Some <$> _ = Ok _ |- _ => injection H as -> end. by eapply parseTargetWelcome_spec.
Qed.

(** The bytes an item counts for. *)
Definition artifactBytes (item : ConversationEventItem) : Z :=
  byteLength (base64url_decode (s_envelopeBytes (storedCommon (envelope item))))
  + match welcome item with Some w => byteLength (base64url_decode (tw_welcome w)) | None => 0 end.
Definition totalBytes (items : list ConversationEventItem) : Z :=
  foldr (λ e n, artifactBytes e + n) 0 items.
Definition envelopeId (item : ConversationEventItem) : EnvelopeId :=
  s_envelopeId (storedCommon (envelope item)).

(** The loop appends items that extend the transcript, inside the window,
    with distinct identifiers and within the byte bounds. *)
Record extends (context : ConversationCursorContext) (limits : DeliveryLimits)
    (membership : ConversationMembershipWindow) (expected : option Uint63String)
    (st : PageLoop) (items : list ConversationEventItem) (st' : PageLoop) : Prop := {
  ext_events : events st' = events st ++ items;
  ext_accepted : Forall accepted (map envelope items);
  ext_transcript : transcript (cc_conversationId context) (previousPosition st + 1)
    (previousHeadHash st) (map envelope items);
  ext_position : previousPosition st' = previousPosition st + Z.of_nat (length items);
  ext_head : previousHeadHash st' = finalHead (previousHeadHash st) (map envelope items);
  ext_window : Forall (λ e, let p := BigInt (s_position (storedCommon e)) in
    BigInt (mw_joinedPosition membership) <= p ∧ beyondRemoval membership p = false) (map envelope items);
  ext_ids : NoDup (map envelopeId items) ∧ Forall (λ k, k ∉ envelopeIds st) (map envelopeId items) ∧
    envelopeIds st' = list_to_set (map envelopeId items) ∪ envelopeIds st;
  ext_welcomes : Forall (λ e, itemWelcome (cc_installationId context) e ∧
      (is_Some (welcome e) → expected = Some (s_position (storedCommon (envelope e))))) items;
  ext_count : welcomeCount st' = welcomeCount st + Z.of_nat (length (omap welcome items));
  ext_total : decodedArtifactBytes st' = decodedArtifactBytes st + totalBytes items;
  ext_bytes : items ≠ [] →
    decodedArtifactBytes st' <= Z.min 4194304 (BigInt (pageDecodedArtifactsMaxBytes limits));
}.

Lemma decodedEnvelopeLength_spec e l n : decodedEnvelopeLength e l = Ok n →
  n = byteLength (base64url_decode (s_envelopeBytes (storedCommon e))).
Proof. unfold decodedEnvelopeLength. intros H. inv_page. by apply base64_bytes in Hx0 as ->. Qed.

Lemma pageWelcome_spec l expected item n bytes n' bytes' :
  pageWelcome l expected item n bytes = Ok (n', bytes') →
  n' = n + Z.of_nat (length (omap welcome [item])) ∧
  (bytes = byteLength (base64url_decode (s_envelopeBytes (storedCommon (envelope item)))) →
   bytes' = artifactBytes item) ∧
  (is_Some (welcome item) → expected = Some (s_position (storedCommon (envelope item)))).
Proof.
  unfold pageWelcome, artifactBytes. cbn. destruct (welcome item) as [w|].
  - intros (bs & HB%base64_bytes & (u & HE%reject_Ok & [= <- <-])%bind_Ok)%bind_Ok. subst bs. cbn.
    split_and!; [lia|intros ->; lia|]. intros _. destruct expected; [|done]. bsimp. by f_equal.
  - intros [= <- <-]. cbn. split_and!; [lia|lia|]. by intros [? [=]].
Qed.

Lemma pageStep_extends context limits membership expected st raw st' :
  pageStep context limits membership expected st raw = Ok st' →
  ∃ item, extends context limits membership expected st [item] st'.
Proof.
  unfold pageStep. intros H. inv_page.
  match goal with H : parseConversationEventItem _ _ _ = Ok ?i |- _ => rename i into item;
    apply parseConversationEventItem_spec in H as [HA HW] end.
  exists item. destruct x5 as [n bytes]. apply decodedEnvelopeLength_spec in Hx4.
  apply pageWelcome_spec in Hx5 as (Hn & Hb & He). specialize (Hb Hx4). inv_page. subst st'. bsimp.
  assert (HP : s_position (storedCommon (envelope item)) = decimal (previousPosition st + 1)).
  { destruct HA as [HV%valid_stored_common _]. unfold valid_common in HV. bsimp.
    match goal with H : is_positive_uint63 _ = true |- _ => apply is_positive_uint63_bound in H as [HU _] end.
    unfold is_uint63 in HU. bsimp. rewrite <- (decimal_BigInt _ HU). f_equal. lia. }
  split; cbn; try done.
  - by constructor.
  - lia.
  - constructor; [|done]. split; [lia|done].
  - split_and!; [apply NoDup_singleton|by repeat constructor|set_solver].
  - constructor; [by split|constructor].
  - unfold totalBytes. cbn. lia.
  - intros _. unfold CONVERSATION_PAGE_HARD_MAX_DECODED_ARTIFACT_BYTES in *. lia.
Qed.

Lemma extends_none context limits membership expected st : extends context limits membership expected st [] st.
Proof.
  split; cbn; try done; try (by rewrite ?app_nil_r); try lia.
  split_and!; [constructor|constructor|set_solver].
Qed.

Lemma totalBytes_app xs ys : totalBytes (xs ++ ys) = totalBytes xs + totalBytes ys.
Proof. unfold totalBytes. induction xs as [|x xs IH]; cbn; [done|]. rewrite IH. lia. Qed.

Lemma extends_trans context limits membership expected st st1 st2 xs ys :
  extends context limits membership expected st xs st1 →
  extends context limits membership expected st1 ys st2 →
  extends context limits membership expected st (xs ++ ys) st2.
Proof.
  intros [] []. split; rewrite ?map_app.
  - by rewrite ext_events1, ext_events0, app_assoc.
  - by apply Forall_app.
  - apply transcript_app. split; [done|]. rewrite length_map, <- ext_head0.
    replace (previousPosition st + 1 + Z.of_nat (length xs)) with (previousPosition st1 + 1) by lia. done.
  - rewrite length_app. lia.
  - by rewrite finalHead_app, ext_head1, ext_head0.
  - by apply Forall_app.
  - destruct ext_ids0 as (HN & HF & HE), ext_ids1 as (HN' & HF' & HE'). rewrite Forall_forall in HF'.
    split_and!.
    + apply NoDup_app. split_and!; [done| |done]. intros k Hk Hk'. apply (HF' k Hk'). set_solver.
    + apply Forall_app. split; [done|]. apply Forall_forall. intros k Hk Hin. apply (HF' k Hk). set_solver.
    + rewrite HE', HE. rewrite list_to_set_app_L. set_solver.
  - by apply Forall_app.
  - rewrite omap_app, length_app. lia.
  - rewrite totalBytes_app. lia.
  - intros HX. destruct ys as [|y ys]; [|by apply ext_bytes1].
    rewrite app_nil_r in HX. rewrite ext_total1. unfold totalBytes at 1. cbn. specialize (ext_bytes0 HX). lia.
Qed.

Lemma pageLoop_extends context limits membership expected raws st st' :
  pageLoop (pageStep context limits membership expected) st raws = Ok st' →
  ∃ items, length items = length raws ∧ extends context limits membership expected st items st'.
Proof.
  revert st. induction raws as [|raw raws IH]; intros st H; cbn in H.
  - inv_page. subst. exists []. split; [done|]. apply extends_none.
  - inv_page. apply pageStep_extends in Hx as [item HX]. apply IH in H as (items & HL & HX').
    exists (item :: items). split; [cbn; by rewrite HL|]. by eapply (extends_trans _ _ _ _ _ _ _ [item]).
Qed.

Definition envelopes (page : StructurallyVerifiedConversationPage) : list StoredEnvelope :=
  map envelope (pg_events page).
Definition pageHead (page : StructurallyVerifiedConversationPage) : SignedDeliveryLogHead :=
  sn_logHead (pg_snapshot page).
Definition pageReceipt (page : StructurallyVerifiedConversationPage) : DeliveryLogWitnessReceipt :=
  sn_witnessReceipt (pg_snapshot page).

(** What a verified page is, relative to the anchor it was asked from. *)
Record page_of (context : ConversationCursorContext) (limits : DeliveryLimits)
    (membership : ConversationMembershipWindow) (anchor : ConversationHeadAnchor)
    (page : StructurallyVerifiedConversationPage) : Prop := {
  pg_accepted : Forall accepted (envelopes page);
  pg_transcript : transcript (cc_conversationId context) (BigInt (ha_position anchor) + 1)
    (ha_headHash anchor) (envelopes page);
  pg_head : lh_headHash (pageHead page) = finalHead (ha_headHash anchor) (envelopes page);
  pg_position : BigInt (lh_position (pageHead page))
    = BigInt (ha_position anchor) + Z.of_nat (length (pg_events page));
  pg_receipt : wr_conversationId (pageReceipt page) = cc_conversationId context ∧
    wr_position (pageReceipt page) = lh_position (pageHead page) ∧
    wr_headHash (pageReceipt page) = lh_headHash (pageHead page);
  pg_window : BigInt (mw_joinedPosition membership) - 1 <= BigInt (ha_position anchor) ∧
    ∀ removed, mw_removedPosition membership = Some removed →
      BigInt (lh_position (pageHead page)) <= BigInt removed;
  pg_join : BigInt (ha_position anchor) = BigInt (mw_joinedPosition membership) - 1 →
    ∃ e es, pg_events page = e :: es ∧ s_envelopeClass (storedCommon (envelope e)) = mls_commit ∧
      (mw_bootstrapMode membership = welcome_mode → is_Some (welcome e));
  pg_welcomes : Forall (λ e, itemWelcome (cc_installationId context) e ∧
    (is_Some (welcome e) → mw_bootstrapMode membership = welcome_mode ∧
      s_position (storedCommon (envelope e)) = mw_joinedPosition membership)) (pg_events page);
  pg_policy : BigInt (ha_position anchor) <= BigInt (sn_policyDeliveryLogPosition (pg_snapshot page)) →
    BigInt (sn_policyDeliveryLogPosition (pg_snapshot page)) <= BigInt (lh_position (pageHead page)) ∧
    sn_policyDeliveryLogHeadHash (pg_snapshot page)
    = finalHead (ha_headHash anchor)
        (take (Z.to_nat (BigInt (sn_policyDeliveryLogPosition (pg_snapshot page))
                         - BigInt (ha_position anchor))) (envelopes page));
  pg_ids : NoDup (map envelopeId (pg_events page));
  pg_length : Z.of_nat (length (pg_events page))
    <= Z.min 500 (BigInt (conversationEventsMaxPerPage limits));
  pg_bytes : pg_events page ≠ [] →
    totalBytes (pg_events page) <= Z.min 4194304 (BigInt (pageDecodedArtifactsMaxBytes limits));
}.

Lemma expectDenseArray_length v m vs : expectDenseArray v m = Ok vs → Z.of_nat (length vs) <= m.
Proof.
  unfold expectDenseArray. destruct v as [| | | | | | | | |p elems extra|]; try discriminate. intros H. inv_page.
  apply mapR_Ok, Forall2_length in H. lia.
Qed.

Lemma transcript_lookup k n p es i e : transcript k n p es → es !! i = Some e →
  s_position (storedCommon e) = decimal (n + Z.of_nat i) ∧
  s_headHash (storedCommon e) = finalHead p (take (S i) es).
Proof.
  revert n p i. induction es as [|e' es IH]; intros n p i HT HE; [done|].
  destruct HT as (_ & HP & _ & HT). destruct i as [|i]; cbn in HE |- *.
  - injection HE as ->. rewrite Z.add_0_r. done.
  - destruct (IH _ _ _ HT HE) as [-> ->]. split; [f_equal; lia|done].
Qed.

(** The map of heads knows the anchor, or the last event. *)
Lemma verifiedHeads_nil a : verifiedHeads a [] !! ha_position a = Some a.
Proof. apply lookup_singleton_eq. Qed.
Lemma verifiedHeads_last a es e :
  ha_headHash <$> verifiedHeads a (es ++ [e]) !! s_position (storedCommon (envelope e))
  = Some (s_headHash (storedCommon (envelope e))).
Proof. unfold verifiedHeads. rewrite foldl_app. cbn. by rewrite lookup_insert_eq. Qed.

(** The signed head of the snapshot is the last head of the page. *)
Lemma verifySnapshotHead_last k snapshot anchor items p u :
  is_uint63 (ha_position anchor) = true → is_uint63 (lh_position (sn_logHead snapshot)) = true →
  verifySnapshotHead snapshot anchor items = Ok u →
  p = BigInt (ha_position anchor) + 1 → transcript k p (ha_headHash anchor) (map envelope items) →
  BigInt (lh_position (sn_logHead snapshot)) = BigInt (ha_position anchor) + Z.of_nat (length items) →
  lh_headHash (sn_logHead snapshot) = finalHead (ha_headHash anchor) (map envelope items).
Proof.
  intros HA HL H -> HT HE. unfold verifySnapshotHead in H. inv_page. clear H.
  pose proof (is_uint63_bound _ HL) as HB. pose proof (is_uint63_bound _ HA) as HB'.
  destruct items as [|e es _] using rev_ind; cbn [map finalHead length] in *.
  - rewrite Z.add_0_r in HE. apply is_uint63_inj in HE as HE'; [|done..].
    rewrite HE', verifiedHeads_nil in Hx. by bsimp.
  - pose proof (verifiedHeads_last anchor es e) as HV. rewrite map_app in HT |- *. cbn [map] in *.
    rewrite length_app in HE. cbn in HE.
    destruct (transcript_lookup _ _ _ _ (length (map envelope es)) (envelope e) HT) as [HP _].
    { by rewrite lookup_app_r, Nat.sub_diag by done. }
    assert (HS : lh_position (sn_logHead snapshot) = s_position (storedCommon (envelope e))).
    { rewrite HP, length_map. unfold is_uint63 in HL. bsimp. rewrite <- (decimal_BigInt _ HL). f_equal. lia. }
    rewrite HS in Hx. destruct (verifiedHeads _ _ !! _) as [entry|]; [|done]. injection HV as HV. bsimp.
    rewrite finalHead_app. cbn. congruence.
Qed.

(** The policy head is anchored at a head the page has verified. *)
Lemma verifySnapshotPolicy_anchored k snapshot anchor items u :
  is_uint63 (ha_position anchor) = true →
  verifySnapshotPolicyDeliveryAnchor snapshot anchor items = Ok u →
  transcript k (BigInt (ha_position anchor) + 1) (ha_headHash anchor) (map envelope items) →
  BigInt (ha_position anchor) <= BigInt (sn_policyDeliveryLogPosition snapshot) →
  BigInt (sn_policyDeliveryLogPosition snapshot) <= BigInt (ha_position anchor) + Z.of_nat (length items) ∧
  sn_policyDeliveryLogHeadHash snapshot = finalHead (ha_headHash anchor)
    (take (Z.to_nat (BigInt (sn_policyDeliveryLogPosition snapshot) - BigInt (ha_position anchor)))
      (map envelope items)).
Proof.
  intros HA H HT HL. pose proof (is_uint63_bound _ HA). unfold verifySnapshotPolicyDeliveryAnchor in H.
  destruct (Z.eqb_spec (BigInt (sn_policyDeliveryLogPosition snapshot)) (BigInt (ha_position anchor))) as [E|E].
  - inv_page. bsimp. rewrite E, Z.sub_diag. cbn. rewrite take_0. split; [lia|done].
  - rewrite (proj2 (Z.ltb_ge _ _)) in H by lia. inv_page. destruct (List.find _ _) as [e|] eqn:HF; [|done].
    apply List.find_some in HF as [Hin HP]. bsimp. apply list_elem_of_In, list_elem_of_lookup_1 in Hin as [i Hi].
    destruct (transcript_lookup _ _ _ _ i (envelope e) HT) as [HP' HH]; [by rewrite list_lookup_fmap, Hi|].
    destruct (decimal_spec (BigInt (ha_position anchor) + 1 + Z.of_nat i)) as [_ HD]; [lia|].
    apply lookup_lt_Some in Hi. rewrite <- HP, HP', HD. split; [lia|].
    replace (Z.to_nat _) with (S i) by lia. congruence.
Qed.

(** Only the first event can be at the join. *)
Lemma welcome_first k joined p items e :
  transcript k joined p (map envelope items) → 0 <= joined →
  Forall (λ e, is_Some (welcome e) → s_position (storedCommon (envelope e)) = decimal joined) items →
  e ∈ items → is_Some (welcome e) → ∃ rest, items = e :: rest.
Proof.
  intros HT HJ HF Hin HS. rewrite Forall_forall in HF. specialize (HF e Hin HS).
  apply list_elem_of_lookup_1 in Hin as [[|i] Hi].
  - destruct items as [|e' rest]; [done|]. injection Hi as ->. by exists rest.
  - destruct (transcript_lookup _ _ _ _ (S i) (envelope e) HT) as [HP _]; [by rewrite list_lookup_fmap, Hi|].
    rewrite HF in HP. apply decimal_inj in HP; lia.
Qed.

(** What is asked for is at or behind the boundary before the join. *)
Lemma checkJoin_spec m joinBoundary expected st u items :
  checkJoin m joinBoundary expected st = Ok u → events st = items → joinBoundary = true →
  welcomeCount st = Z.of_nat (length (omap welcome items)) →
  ∃ e es, items = e :: es ∧ s_position (storedCommon (envelope e)) = mw_joinedPosition m ∧
    s_envelopeClass (storedCommon (envelope e)) = mls_commit ∧
    (is_Some expected → ∃ w, w ∈ items ∧ is_Some (welcome w)).
Proof.
  intros H HE -> HC. unfold checkJoin in H. inv_page. rewrite HE in Hx0. destruct items as [|e es]; [done|].
  cbn [andb] in Hx0. bsimp. exists e, es. split_and!; try done. intros [p ->]. bsimp.
  apply Z.eqb_eq in H. rewrite HC in H. clear -H.
  assert (HN : omap welcome (e :: es) ≠ []) by (intros E; rewrite E in H; done).
  destruct (omap welcome (e :: es)) as [|w ws] eqn:E; [done|].
  assert (Hw : w ∈ omap welcome (e :: es)) by (rewrite E; constructor).
  apply list_elem_of_omap in Hw as (x & Hx & Hw). exists x. split; [done|]. by rewrite Hw.
Qed.

(** A verified page, opened: its parts and the checks they passed. *)
Lemma verifyConversationPage_open value input page :
  verifyConversationPage value input = Ok page →
  ∃ context membership anchor requestedLimit requested expected raws st,
    parseConversationCursorContext (in_cursorContext input) = Ok context ∧
    parseMembershipWindow (in_membership input) = Ok membership ∧
    parseHeadAnchor (in_anchor input) = Ok anchor ∧
    requestedPosition input (decrementPositive (mw_joinedPosition membership)) = Ok requested ∧
    ha_position anchor = requested ∧
    BigInt (decrementPositive (mw_joinedPosition membership)) <= BigInt requested ∧
    beyondRemoval membership (BigInt requested) = false ∧
    expected = (if (requested === decrementPositive (mw_joinedPosition membership))
                   && (mw_bootstrapMode membership === welcome_mode)
                then Some (mw_joinedPosition membership) else None) ∧
    BigInt requestedLimit <= Z.min 500 (BigInt (conversationEventsMaxPerPage (in_limits input))) ∧
    Z.of_nat (length raws) <= BigInt requestedLimit ∧
    pageLoop (pageStep context (in_limits input) membership expected)
      {| previousPosition := BigInt requested; previousHeadHash := ha_headHash anchor;
         decodedArtifactBytes := 0; welcomeCount := 0; envelopeIds := ∅; headHashes := ∅;
         events := [] |} raws = Ok st ∧
    pg_events page = events st ∧ pg_decodedArtifactBytes page = decimal (decodedArtifactBytes st) ∧
    sn_conversationId (pg_snapshot page) = cc_conversationId context ∧
    (∃ v, parseConversationPageSnapshot v = Ok (pg_snapshot page)) ∧
    checkJoin membership (requested === decrementPositive (mw_joinedPosition membership)) expected st = Ok () ∧
    verifySnapshotHead (pg_snapshot page) anchor (events st) = Ok () ∧
    verifySnapshotPolicyDeliveryAnchor (pg_snapshot page) anchor (events st) = Ok () ∧
    checkPageEnd input membership requested (pg_hasMore page) (pg_snapshot page) st = Ok ().
Proof.
  unfold verifyConversationPage. intros H.
  apply bind_Ok in H as (context & HC & H). apply bind_Ok in H as (limit & HL & H).
  apply bind_Ok in H as (u & HLim%reject_Ok & H). apply bind_Ok in H as (membership & HM & H).
  apply bind_Ok in H as (floor & _ & H). apply bind_Ok in H as (anchor & HA & H).
  apply bind_Ok in H as (requested & HReq & H). apply bind_Ok in H as (u1 & HB%reject_Ok & H).
  apply bind_Ok in H as (u2 & HR%reject_Ok & H). apply bind_Ok in H as (u3 & _ & H).
  apply bind_Ok in H as (u4 & _ & H). apply bind_Ok in H as (r & _ & H).
  apply bind_Ok in H as (raws & HD%expectDenseArray_length & H). destruct (r.["hasMore"]); try discriminate.
  apply bind_Ok in H as (cursor & _ & H). apply bind_Ok in H as (snapshot & HS & H).
  apply bind_Ok in H as (u5 & HSn%reject_Ok & H). apply bind_Ok in H as (st & HLoop & H).
  apply bind_Ok in H as ([] & HJ & H). apply bind_Ok in H as ([] & HH & H).
  apply bind_Ok in H as ([] & HP & H). apply bind_Ok in H as ([] & HE & H). injection H as <-. bsimp.
  unfold CONVERSATION_PAGE_HARD_MAX_EVENTS in *.
  eexists context, membership, anchor, limit, requested, _, raws, st. cbn. split_and!; eauto; lia.
Qed.

Lemma checkPageEnd_spec input m requested more snapshot st u :
  checkPageEnd input m requested more snapshot st = Ok u →
  previousPosition st = BigInt requested + Z.of_nat (length (events st)) →
  BigInt (lh_position (sn_logHead snapshot)) = BigInt requested + Z.of_nat (length (events st)) ∧
  beyondRemoval m (BigInt (lh_position (sn_logHead snapshot))) = false.
Proof.
  unfold checkPageEnd. intros H HP. inv_page. split; [|done].
  destruct (events st) as [|e es]; cbn [length] in *; inv_page; split_orb; lia.
Qed.

(** The Welcome of a first page is on its first event, and only there. *)
Lemma page_join context limits m anchor st items expected u :
  extends context limits m expected
    {| previousPosition := BigInt (ha_position anchor); previousHeadHash := ha_headHash anchor;
       decodedArtifactBytes := 0; welcomeCount := 0; envelopeIds := ∅; headHashes := ∅;
       events := [] |} items st →
  is_positive_uint63 (mw_joinedPosition m) = true → is_uint63 (ha_position anchor) = true →
  expected = (if (ha_position anchor === decrementPositive (mw_joinedPosition m))
                 && (mw_bootstrapMode m === welcome_mode)
              then Some (mw_joinedPosition m) else None) →
  checkJoin m (ha_position anchor === decrementPositive (mw_joinedPosition m)) expected st = Ok u →
  BigInt (ha_position anchor) = BigInt (mw_joinedPosition m) - 1 →
  ∃ e es, items = e :: es ∧ s_envelopeClass (storedCommon (envelope e)) = mls_commit ∧
    (mw_bootstrapMode m = welcome_mode → is_Some (welcome e)).
Proof.
  intros HX HJ HA HE HC HB. destruct (decrementPositive_spec _ HJ) as [HU HD].
  assert (HR : ha_position anchor = decrementPositive (mw_joinedPosition m)) by (apply is_uint63_inj; [done..|lia]).
  rewrite bool_decide_eq_true_2 in * by done. cbn [andb] in HE.
  pose proof (ext_count _ _ _ _ _ _ _ HX) as HN. cbn in HN.
  destruct (checkJoin_spec _ _ _ _ _ items HC) as (e & es & -> & HP & HM & HW); [|done|lia|].
  { pose proof (ext_events _ _ _ _ _ _ _ HX) as E. done. }
  exists e, es. split_and!; [done..|]. intros HMode. rewrite bool_decide_eq_true_2 in HE by done.
  destruct HW as (w & Hin & HS); [by rewrite HE|].
  destruct (welcome_first (cc_conversationId context) (BigInt (mw_joinedPosition m)) (ha_headHash anchor) (e :: es) w)
    as (rest & [= -> ->]); try done.
  - pose proof (ext_transcript _ _ _ _ _ _ _ HX) as HT. cbn [previousPosition previousHeadHash] in HT.
    by replace (BigInt (mw_joinedPosition m)) with (BigInt (ha_position anchor) + 1) by lia.
  - pose proof (is_positive_uint63_bound _ HJ). lia.
  - eapply Forall_impl; [apply (ext_welcomes _ _ _ _ _ _ _ HX)|]. cbn. intros x [_ HS'] HX'.
    specialize (HS' HX'). rewrite HE in HS'. injection HS' as <-.
    unfold is_positive_uint63, is_uint63 in HJ. bsimp. by rewrite decimal_BigInt.
Qed.

Lemma verified_page value input page :
  verifyConversationPage value input = Ok page →
  ∃ context membership anchor,
    parseConversationCursorContext (in_cursorContext input) = Ok context ∧
    parseMembershipWindow (in_membership input) = Ok membership ∧
    parseHeadAnchor (in_anchor input) = Ok anchor ∧
    page_of context (in_limits input) membership anchor page.
Proof.
  intros (context & m & anchor & limit & requested & expected & raws & st & HC & HM & HA & _ & <- & HB & HR & HE
    & HLim & HLen & HLoop & HPg & _ & HConv & (v & HS) & HJ & HH & HP & HEnd)%verifyConversationPage_open.
  exists context, m, anchor. split_and!; [done..|].
  destruct (parseMembershipWindow_valid _ _ HM) as [HJo HRe]. destruct (decrementPositive_spec _ HJo) as [HU HD].
  pose proof (parseHeadAnchor_uint63 _ _ HA) as HAp. pose proof (is_uint63_bound _ HAp).
  destruct (parseConversationPageSnapshot_head _ _ HS) as (HHp & HPp & HWc & HWp & HWh).
  apply is_positive_uint63_bound in HHp as [HHp _].
  destruct (pageLoop_extends _ _ _ _ _ _ _ HLoop) as (items & HIL & HX). assert (HX' := HX). destruct HX'.
  cbn [events previousPosition previousHeadHash decodedArtifactBytes app] in *.
  destruct (checkPageEnd_spec _ _ _ _ _ _ _ HEnd) as [HPos HRem]; [by rewrite ext_events0|].
  rewrite ext_events0 in *.
  split; unfold envelopes, pageHead, pageReceipt; rewrite ?HPg; try done.
  - by eapply verifySnapshotHead_last.
  - by rewrite <- HConv.
  - split; [lia|]. intros removed Hr. unfold beyondRemoval in HRem. rewrite Hr in HRem. lia.
  - by eapply page_join.
  - eapply Forall_impl; [done|]. cbn. intros e [HW He]. split; [done|]. intros HSome. specialize (He HSome).
    rewrite HE in He. destruct (ha_position anchor === _); [|done]. destruct (bool_decide_reflect (mw_bootstrapMode m = welcome_mode)); [|done].
    by injection He as ->.
  - intros HL. rewrite HPos. by eapply verifySnapshotPolicy_anchored.
  - by destruct ext_ids0.
  - rewrite HIL. lia.
  - rewrite <- (Z.add_0_l (totalBytes _)), <- ext_total0. done.
Qed.

(** *** The answer it was made from *)

Lemma expectDenseArray_Ok v m vs : expectDenseArray v m = Ok vs → v = VArray ArrayPrototype (map Some vs) 0.
Proof.
  unfold expectDenseArray. destruct v as [| | | | | | | | |p elems extra|]; try done. intros H. inv_page. split_orb. bsimp.
  match goal with H : Nat.eqb extra 0 = true |- _ => apply Nat.eqb_eq in H as -> end. subst p. f_equal.
  apply mapR_Ok in H. clear -H. induction H as [|o x os xs Hx _ IH]; [done|]. cbn. destruct o; [|done]. congruence.
Qed.

(** The page holds exactly what the answer says: every event of it, parsed, in
    order, and its snapshot, cursor and flag. *)
Record answered (value : unknown) (context : ConversationCursorContext) (limits : DeliveryLimits)
    (membership : ConversationMembershipWindow) (page : StructurallyVerifiedConversationPage) : Prop := {
  an_record : ∃ r raws, expectExactRecord value ["events"; "nextCursor"; "hasMore"; "snapshot"] = Ok r ∧
    r.["events"] = VArray ArrayPrototype (map Some raws) 0 ∧
    Forall2 (λ raw item, parseConversationEventItem raw (cc_installationId context) limits = Ok item)
      raws (pg_events page) ∧
    parseConversationPageSnapshot r.["snapshot"] = Ok (pg_snapshot page) ∧
    r.["nextCursor"] = VString (pg_nextCursor page) ∧ r.["hasMore"] = VBool (pg_hasMore page);
  an_more : pg_hasMore page = true → pg_events page ≠ [] ∧
    mw_removedPosition membership ≠ Some (lh_position (pageHead page)) }.

Lemma pageLoop_items context limits m expected raws st st' :
  pageLoop (pageStep context limits m expected) st raws = Ok st' →
  ∃ items, events st' = events st ++ items ∧
    Forall2 (λ raw item, parseConversationEventItem raw (cc_installationId context) limits = Ok item) raws items.
Proof.
  revert st. induction raws as [|raw raws IH]; intros st H; cbn in H.
  - injection H as <-. exists []. split; [by rewrite app_nil_r|constructor].
  - apply bind_Ok in H as (st1 & H1 & H). apply IH in H as (items & -> & HF).
    unfold pageStep in H1. apply bind_Ok in H1 as (item & HI & H1). cbv zeta in H1. inv_page.
    match goal with p : (Z * Z)%type |- _ => destruct p end. inv_page. subst st1. exists (item :: items). cbn. rewrite <- app_assoc.
    split; [done|]. by constructor.
Qed.

Lemma parseEncodedConversationCursor_Ok v limits s :
  parseEncodedConversationCursor v limits = Ok s → v = VString s.
Proof. unfold parseEncodedConversationCursor. intros (l & _ & H)%bind_Ok. destruct v; try done. cbv zeta in H. by inv_page; subst. Qed.

Lemma checkPageEnd_more input m requested snapshot st u :
  checkPageEnd input m requested true snapshot st = Ok u →
  events st ≠ [] ∧ mw_removedPosition m ≠ Some (lh_position (sn_logHead snapshot)).
Proof.
  unfold checkPageEnd. intros H. inv_page. split; [by destruct (events st); inv_page|].
  intros HR. rewrite HR in H. by rewrite bool_decide_eq_true_2 in H.
Qed.

Lemma verified_answer value input page context m :
  verifyConversationPage value input = Ok page →
  parseConversationCursorContext (in_cursorContext input) = Ok context →
  parseMembershipWindow (in_membership input) = Ok m →
  answered value context (in_limits input) m page.
Proof.
  unfold verifyConversationPage. intros H HC HM. rewrite HC, HM in H. cbn [mbind result_bind] in H.
  apply bind_Ok in H as (limit & _ & H). apply bind_Ok in H as (u & _ & H). apply bind_Ok in H as (floor & _ & H).
  apply bind_Ok in H as (anchor & _ & H). apply bind_Ok in H as (requested & _ & H). do 4 (apply bind_Ok in H as (? & _ & H)).
  apply bind_Ok in H as (r & HR & H). apply bind_Ok in H as (raws & HD%expectDenseArray_Ok & H).
  destruct (r.["hasMore"]) as [| |more| | | | | | | |] eqn:EM; try discriminate.
  apply bind_Ok in H as (cursor & HCu & H). apply bind_Ok in H as (snapshot & HS & H).
  apply bind_Ok in H as (u5 & _ & H). apply bind_Ok in H as (st & HLoop%pageLoop_items & H).
  do 3 (apply bind_Ok in H as (? & _ & H)). apply bind_Ok in H as (u6 & HE & H). injection H as <-.
  destruct HLoop as (items & HI & HF). cbn in HI. split; unfold pageHead; cbn.
  - exists r, raws. rewrite HI. split_and!; try done. by eapply parseEncodedConversationCursor_Ok.
  - intros ->. by eapply checkPageEnd_more.
Qed.

(** C39: A page that verifies extends the anchor it was asked from.  It holds every
    event of the answer, parsed, in order; they are accepted envelopes of the
    conversation that follow the anchor without a gap, each chained to the one
    before, the signed head of the snapshot is the last of them and the witness
    receipt is for that head; the events lie inside the membership window, have
    distinct identifiers and respect the bounds of the manifest; a first page
    starts with the commit that adds the member, and a Welcome appears on that
    commit alone, for this installation; a policy head that is not behind the
    anchor is anchored at the anchor or at an event of the page, under the head
    hash there; and a page that claims more data has events and does not end at the
    removal. *)
Theorem page_extends_anchor value input page :
  verifyConversationPage value input = Ok page →
  ∃ context membership anchor,
    parseConversationCursorContext (in_cursorContext input) = Ok context ∧
    parseMembershipWindow (in_membership input) = Ok membership ∧
    parseHeadAnchor (in_anchor input) = Ok anchor ∧
    BigInt (ha_position anchor) = match in_requestedCursorClaims input with
                                  | Some claims => BigInt (cl_lastReturnedPosition claims)
                                  | None => BigInt (mw_joinedPosition membership) - 1
                                  end ∧
    pg_decodedArtifactBytes page = decimal (totalBytes (pg_events page)) ∧
    answered value context (in_limits input) membership page ∧
    page_of context (in_limits input) membership anchor page.
Proof.
  intros H. destruct (verified_page _ _ _ H) as (context & m & anchor & HC & HM & HA & HP).
  exists context, m, anchor. split_and!; try done; [| |by eapply verified_answer];
    destruct (verifyConversationPage_open _ _ _ H) as (? & m' & a' & ? & requested & ? & ? & st & _ & HM' & HA'
      & HReq & HEq & _ & _ & _ & _ & _ & HLoop & HPg & HD & _); rewrite HM in HM'; rewrite HA in HA';
    injection HM' as <-; injection HA' as <-.
  - destruct (parseMembershipWindow_valid _ _ HM) as [[_ HJ]%decrementPositive_spec _]. rewrite HEq.
    unfold requestedPosition in HReq. destruct (in_requestedCursor input), (in_requestedCursorClaims input);
      try discriminate; by injection HReq as <-.
  - destruct (pageLoop_extends _ _ _ _ _ _ _ HLoop) as (items & _ & HX). rewrite HPg, HD.
    rewrite (ext_events _ _ _ _ _ _ _ HX), (ext_total _ _ _ _ _ _ _ HX). done.
Qed.
End Pages.

(** ** Reading page by page *)

Section Reading.
Context `{SHA : Sha256}.

(** A page of a conversation verified from the head of a position. *)
Definition pageFrom (conversation : ConversationId) (position : Z) (head : Hash32)
    (page : StructurallyVerifiedConversationPage) : Prop :=
  ∃ value input context anchor,
    verifyConversationPage value input = Ok page ∧
    parseConversationCursorContext (in_cursorContext input) = Ok context ∧
    cc_conversationId context = conversation ∧
    parseHeadAnchor (in_anchor input) = Ok anchor ∧
    BigInt (ha_position anchor) = position ∧ ha_headHash anchor = head.

(** A client that takes the signed head of each page as the anchor of the next. *)
Inductive paged_read (conversation : ConversationId) :
  Z → Hash32 → list StructurallyVerifiedConversationPage → Z → Hash32 → Prop :=
| paged_done position head : paged_read conversation position head [] position head
| paged_next position head page pages position' head' :
    pageFrom conversation position head page →
    paged_read conversation (BigInt (lh_position (pageHead page))) (lh_headHash (pageHead page))
      pages position' head' →
    paged_read conversation position head (page :: pages) position' head'.

Lemma paged_read_transcript k p h pages q h' : paged_read k p h pages q h' →
  let es := concat (map envelopes pages) in
  Forall accepted es ∧ transcript k (p + 1) h es ∧ q = p + Z.of_nat (length es) ∧ h' = finalHead h es.
Proof.
  induction 1 as [p h|p h page pages q h' HP _ (HA & HT & HQ & HH)]; cbn -[envelopes].
  { split_and!; [constructor|done|lia|done]. }
  destruct HP as (value & input & context & anchor & HV & HC & HK & HAn & HPos & HHead).
  destruct (verified_page _ _ _ HV) as (context' & m & anchor' & HC' & _ & HAn' & []).
  rewrite HC in HC'. rewrite HAn in HAn'. injection HC' as <-. injection HAn' as <-.
  rewrite HPos, HHead, HK in *.
  assert (HL : length (envelopes page) = length (pg_events page)) by apply length_map.
  rewrite length_app, finalHead_app, transcript_app, <- pg_head0. split_and!; [by apply Forall_app|done| |lia|done].
  by replace (p + 1 + Z.of_nat (length (envelopes page))) with (BigInt (lh_position (pageHead page)) + 1) by lia.
Qed.

(** The signed head decides what a client has read, whatever the pages: two
    reads of a conversation, or of two, that start at the same position and end
    with the same signed head contain the same leaves and the same envelope
    bytes in the same order, or exhibit a SHA-256 collision. *)
Theorem paged_reads_agree k k' p h h' pages pages' q head :
  paged_read k p h pages q head → paged_read k' p h' pages' q head →
  map recorded (concat (map envelopes pages)) = map recorded (concat (map envelopes pages')) ∨
  collision (flat_map hashed (concat (map envelopes pages)))
    (flat_map hashed (concat (map envelopes pages'))).
Proof.
  intros (HA & HT & HQ & HH)%paged_read_transcript (HA' & HT' & HQ' & HH')%paged_read_transcript.
  eapply transcript_binding_length; [done..|lia|congruence].
Qed.
End Reading.

(** ** Evaluations *)

Module PageSample.
#[local] Existing Instance fips_sha256.

Definition context : unknown :=
  obj [("realmId", VString "realm-1"); ("accountId", VString "a1b2c3d4-0000-4000-8000-000000000003");
       ("installationId", VString "a1b2c3d4-0000-4000-8000-000000000004");
       ("conversationId", VString sample_conversation);
       ("routeTemplate", VString CONVERSATION_EVENTS_ROUTE_TEMPLATE)].

(** The commit that adds the member, with its Welcome, and the message that
    follows it. *)
Definition draft (position previous leaf head digest : string) (k : EnvelopeClass)
    (id : EnvelopeId) : StoredEnvelopeCommon := {|
  s_conversationId := sample_conversation; s_position := position; s_envelopeId := id;
  s_envelopeClass := k;
  s_contentType := if k === application then mls_private_message else mls_public_message;
  s_envelopeBytes := Envelopes.Sample.ciphertext;
  s_envelopeSha256 := Envelopes.Sample.ciphertext_digest; s_epoch := "0"; s_rosterVersion := "1";
  s_sender := Envelopes.Sample.sample_sender; s_receivedAt := "2026-07-19T00:00:00.000Z";
  s_leafHash := leaf; s_previousHeadHash := previous; s_headHash := head;
  s_logSigningKeyId := "key-1"; s_logCheckpointDigest := digest;
  s_logHeadSignature := base64url_encode (repeat Byte.x01 64) |}.
Definition signed (position previous : string) (k : EnvelopeClass) (id : EnvelopeId) :
  StoredEnvelopeCommon :=
  let leaf := valueOf "" (computeEnvelopeLeafHash
    (leaf_obj (storedLeaf (draft position previous "" "" "" k id)))) in
  let head := valueOf "" (computeLogHeadHash previous leaf) in
  let digest := valueOf "" (computeDeliveryLogCheckpointDigest
    (storedCheckpoint (draft position previous leaf head "" k id))) in
  draft position previous leaf head digest k id.
Definition join : StoredEnvelopeCommon := Eval vm_compute in
  signed "1" ZERO_HASH32 mls_commit "a1b2c3d4-0000-4000-8000-0000000000a1".
Definition message : StoredEnvelopeCommon := Eval vm_compute in
  signed "2" (s_headHash join) application "a1b2c3d4-0000-4000-8000-0000000000a2".

Definition welcome_obj : unknown :=
  obj [("targetInstallationId", VString "a1b2c3d4-0000-4000-8000-000000000004");
       ("welcome", VString Envelopes.Sample.ciphertext);
       ("welcomeSha256", VString Envelopes.Sample.ciphertext_digest)].
Definition join_obj : unknown :=
  obj (stored_fields (StoredMlsCommitEnvelope join ZERO_HASH32 sample_hash) (sender_obj (s_sender join))
       ++ [("welcome", welcome_obj)]).
Definition message_obj : unknown := stored_obj (StoredApplicationEnvelope message).

Definition proposals_obj : unknown := arr [].
Definition policy_fields : list (string * unknown) :=
  [("etag", VString (etag_text (chars "0") (chars "1")));
   ("policyHeadId", VString "a1b2c3d4-0000-4000-8000-000000000005");
   ("policyRevision", VString "1"); ("policyMandatoryProposalCount", VString "0");
   ("policyMandatoryProposalSetHash", VString ZERO_HASH32); ("policyMandatoryProposals", proposals_obj);
   ("policyAuthorizedSendGrantSetHash", VString sample_hash);
   ("policyAuthorizedQuotaPolicyDigest", VString sample_hash); ("policyHeadSequence", VString "3");
   ("policyHeadHash", VString sample_hash); ("policyDeliveryLogPosition", VString "1");
   ("policyDeliveryLogHeadHash", VString (s_headHash join));
   ("policyWitnessCheckpointId", VString "a1b2c3d4-0000-4000-8000-000000000006");
   ("policyWitnessEvidenceDigest", VString sample_hash)].
Definition head_obj (c : StoredEnvelopeCommon) : unknown :=
  obj [("position", VString (s_position c)); ("previousHeadHash", VString (s_previousHeadHash c));
       ("headHash", VString (s_headHash c)); ("signingKeyId", VString (s_logSigningKeyId c));
       ("checkpointDigest", VString (s_logCheckpointDigest c));
       ("signature", VString (s_logHeadSignature c));
       ("checkpointReceivedAt", VString (s_receivedAt c))].
Definition receipt_obj (c : StoredEnvelopeCommon) : unknown :=
  obj [("conversationId", VString (s_conversationId c)); ("position", VString (s_position c));
       ("headHash", VString (s_headHash c));
       ("witnessCheckpointId", VString "a1b2c3d4-0000-4000-8000-000000000007");
       ("witnessTreeSize", VString "2"); ("witnessRootHash", VString sample_hash);
       ("witnessKeyId", VString "witness-1");
       ("witnessSignature", VString (base64url_encode (repeat Byte.x02 64)));
       ("witnessedAt", VString "2026-07-19T00:00:01.000Z")].
Definition snapshot_obj (c : StoredEnvelopeCommon) : unknown :=
  obj (policy_fields ++
    [("conversationId", VString sample_conversation); ("generation", VString "1");
     ("releaseProfileId", VString "profile-1"); ("deliveryLimitsDigest", VString sample_hash);
     ("epoch", VString "0"); ("rosterVersion", VString "1");
     ("confirmedTranscriptHash", VString sample_hash); ("logHead", head_obj c);
     ("witnessReceipt", receipt_obj c)]).
Definition cursor : string := "cc1." +:+ base64url_encode (repeat Byte.x03 32).
Definition page_obj (items : list unknown) (hasMore : bool) (last : StoredEnvelopeCommon) : unknown :=
  obj [("events", arr items); ("nextCursor", VString cursor); ("hasMore", VBool hasMore);
       ("snapshot", snapshot_obj last)].

Definition anchor_obj (position previous head : string) (receivedAt : option string) : unknown :=
  obj [("position", VString position); ("previousHeadHash", VString previous);
       ("headHash", VString head); ("checkpointReceivedAt", nullable VString receivedAt)].
Definition join_anchor : unknown := anchor_obj "0" ZERO_HASH32 ZERO_HASH32 None.
Definition next_anchor : unknown :=
  anchor_obj "1" ZERO_HASH32 (s_headHash join) (Some "2026-07-19T00:00:00.000Z").
Definition membership_obj : unknown :=
  obj [("bootstrapMode", VString "welcome");
       ("credentialId", VString "a1b2c3d4-0000-4000-8000-000000000008");
       ("credentialFingerprint", VString sample_hash); ("joinedPosition", VString "1");
       ("removedPosition", VNull)].
Definition claims : ConversationCursorClaims := {|
  cl_encodedCursor := cursor; cl_realmId := "realm-1";
  cl_accountId := "a1b2c3d4-0000-4000-8000-000000000003";
  cl_installationId := "a1b2c3d4-0000-4000-8000-000000000004";
  cl_conversationId := sample_conversation; cl_lastReturnedPosition := "1";
  cl_issuedAt := "2026-07-19T00:00:00.000Z"; cl_expiresAt := "2026-07-20T00:00:00.000Z";
  cl_keyId := "cursor-1" |}.
Definition input (anchor : unknown) (from : option ConversationCursorClaims) : PageVerificationInput := {|
  in_cursorContext := context; in_requestedLimit := VString "10"; in_limits := reviewed_limits;
  in_membership := membership_obj; in_retainedFloor := VString "1"; in_anchor := anchor;
  in_requestedCursor := cl_encodedCursor <$> from; in_requestedCursorClaims := from;
  in_conversationGeneration := "1"; in_releaseProfileId := "profile-1";
  in_deliveryLimitsDigest := sample_hash; in_policyProjectionAtAnchor := obj policy_fields;
  in_serializedBytes := 4096 |}.

Definition default_page : StructurallyVerifiedConversationPage := {|
  pg_events := []; pg_nextCursor := ""; pg_hasMore := false;
  pg_snapshot := {|
    sn_conversationId := ""; sn_generation := ""; sn_releaseProfileId := "";
    sn_deliveryLimitsDigest := ""; sn_etag := ""; sn_epoch := ""; sn_rosterVersion := "";
    sn_confirmedTranscriptHash := ""; sn_policyHeadId := ""; sn_policyRevision := "";
    sn_policyMandatoryProposalCount := ""; sn_policyMandatoryProposalSetHash := "";
    sn_policyMandatoryProposals := []; sn_policyAuthorizedSendGrantSetHash := "";
    sn_policyAuthorizedQuotaPolicyDigest := ""; sn_policyHeadSequence := ""; sn_policyHeadHash := "";
    sn_policyDeliveryLogPosition := ""; sn_policyDeliveryLogHeadHash := "";
    sn_policyWitnessCheckpointId := ""; sn_policyWitnessEvidenceDigest := "";
    sn_logHead := {| lh_position := ""; lh_previousHeadHash := ""; lh_headHash := "";
                     lh_signingKeyId := ""; lh_checkpointDigest := ""; lh_signature := "";
                     lh_checkpointReceivedAt := "" |};
    sn_witnessReceipt := {| wr_conversationId := ""; wr_position := ""; wr_headHash := "";
                            wr_witnessCheckpointId := ""; wr_witnessTreeSize := "";
                            wr_witnessRootHash := ""; wr_witnessKeyId := ""; wr_witnessSignature := "";
                            wr_witnessedAt := "" |} |};
  pg_decodedArtifactBytes := ""; pg_serializedBytes := "" |}.

(** Both events at once, or one page each. *)
Definition both : StructurallyVerifiedConversationPage := Eval vm_compute in
  valueOf default_page (verifyConversationPage (page_obj [join_obj; message_obj] false message)
    (input join_anchor None)).
Definition page1 : StructurallyVerifiedConversationPage := Eval vm_compute in
  valueOf default_page (verifyConversationPage (page_obj [join_obj] true join) (input join_anchor None)).
Definition page2 : StructurallyVerifiedConversationPage := Eval vm_compute in
  valueOf default_page (verifyConversationPage (page_obj [message_obj] false message)
    (input next_anchor (Some claims))).
End PageSample.

(** A first page that leaves out the commit, and one that leaves out its
    Welcome, are refused. *)
Example page_without_join :
  @verifyConversationPage fips_sha256 (PageSample.page_obj [PageSample.message_obj] false PageSample.message)
    (PageSample.input PageSample.join_anchor None) = Throw ConversationSyncValidationError.
Proof. vm_compute. reflexivity. Qed.
Example page_without_welcome :
  @verifyConversationPage fips_sha256
    (PageSample.page_obj
       [stored_obj (StoredMlsCommitEnvelope PageSample.join ZERO_HASH32 sample_hash)] true PageSample.join)
    (PageSample.input PageSample.join_anchor None) = Throw ConversationSyncValidationError.
Proof. vm_compute. reflexivity. Qed.

Lemma page_extends_anchor_witness :
  @verifyConversationPage fips_sha256
    (PageSample.page_obj [PageSample.join_obj; PageSample.message_obj] false PageSample.message)
    (PageSample.input PageSample.join_anchor None) = Ok PageSample.both ∧
  length (pg_events PageSample.both) = 2%nat ∧
  ∃ context membership anchor,
    @answered fips_sha256 (PageSample.page_obj [PageSample.join_obj; PageSample.message_obj] false PageSample.message)
      context reviewed_limits membership PageSample.both ∧
    @page_of fips_sha256 context reviewed_limits membership anchor PageSample.both.
Proof.
  split; [vm_compute; reflexivity|]. split; [reflexivity|].
  destruct (@page_extends_anchor fips_sha256
    (PageSample.page_obj [PageSample.join_obj; PageSample.message_obj] false PageSample.message)
    (PageSample.input PageSample.join_anchor None) PageSample.both)
    as (c & m & a & _ & _ & _ & _ & _ & H); [vm_compute; reflexivity|]. exists c, m, a. exact H.
Defined.

(** A sample page is verified from its anchor. *)
Ltac sample_page v i := exists v, i; do 2 eexists; split_and!; vm_compute; reflexivity.

Lemma sample_read_both :
  @paged_read fips_sha256 sample_conversation 0 ZERO_HASH32 [PageSample.both] 2 (s_headHash PageSample.message).
Proof.
  apply paged_next; [|exact (paged_done _ 2 _)].
  sample_page (PageSample.page_obj [PageSample.join_obj; PageSample.message_obj] false PageSample.message)
    (PageSample.input PageSample.join_anchor None).
Qed.

Lemma sample_read_singly :
  @paged_read fips_sha256 sample_conversation 0 ZERO_HASH32 [PageSample.page1; PageSample.page2] 2
    (s_headHash PageSample.message).
Proof.
  apply paged_next; [|apply paged_next; [|exact (paged_done _ 2 _)]].
  - sample_page (PageSample.page_obj [PageSample.join_obj] true PageSample.join)
      (PageSample.input PageSample.join_anchor None).
  - sample_page (PageSample.page_obj [PageSample.message_obj] false PageSample.message)
      (PageSample.input PageSample.next_anchor (Some PageSample.claims)).
Qed.

Lemma paged_reads_agree_witness :
  map recorded (concat (map envelopes [PageSample.both]))
    = map recorded (concat (map envelopes [PageSample.page1; PageSample.page2])) ∨
  @collision fips_sha256 (flat_map hashed (concat (map envelopes [PageSample.both])))
    (flat_map hashed (concat (map envelopes [PageSample.page1; PageSample.page2]))).
Proof.
  eapply (@paged_reads_agree fips_sha256); [exact sample_read_both | exact sample_read_singly].
Defined.
