(* ===== verification/SyncReplay.v ===== *)
(** * Policy replay of a page ([src/production/delivery/sync.ts])

    The evidence that no application traffic passed a policy cutoff inside a
    page: its request, its parser, the check of the interval and its digest. *)

From stdpp Require Import base list strings gmap sorting.
From Stdlib Require Import ZArith Lia Ascii.
From S2P Require Import Prelude Sha256 Base64Url JsTime JsValue ValueObjects Hashes Limits Envelopes CursorCodec SyncPage.

Definition CONVERSATION_POLICY_REPLAY_MAX_COALESCED_TRANSITIONS : Z :=
  CONVERSATION_PAGE_HARD_MAX_EVENTS + 1.
Definition CONVERSATION_POLICY_REPLAY_EVIDENCE_DIGEST_DOMAIN : string :=
  "jb-msg-conversation-policy-replay-evidence/v1".
Definition POLICY_REPLAY_PROFILE : string := "conversation-policy-replay.v1".

(** ** Data *)

Record ConversationPolicyReplayProjection := {
  rp_policyHeadId : PolicyHeadId;
  rp_policyHeadSequence : Uint63String;
  rp_policyHeadHash : Hash32;
  rp_deliveryLogPosition : Uint63String;
  rp_deliveryLogHeadHash : Hash32;
  rp_mandatoryProposals : list PolicyMandatoryProposalBinding;
  rp_witnessCheckpointId : WitnessCheckpointId;
  rp_witnessEvidenceDigest : Hash32;
}.

Record ConversationPolicyReplayEventBinding := {
  re_position : Uint63String;
  re_envelopeId : EnvelopeId;
  re_envelopeClass : EnvelopeClass;
  re_envelopeSha256 : Hash32;
  re_headHash : Hash32;
}.

Record ConversationPolicyReplayVerificationRequest := {
  rq_realmId : DeliveryRealmId;
  rq_conversationGeneration : Uint63String;
  rq_releaseProfileId : ReleaseProfileId;
  rq_deliveryLimitsDigest : Hash32;
  rq_releaseTrustRootDigest : Hash32;
  rq_conversationId : ConversationId;
  rq_pageStartPosition : Uint63String;
  rq_pageStartHeadHash : Hash32;
  rq_pageStartPolicy : ConversationPolicyReplayProjection;
  rq_pageEndPosition : Uint63String;
  rq_pageEndHeadHash : Hash32;
  rq_pageEndPolicy : ConversationPolicyReplayProjection;
  rq_policyLogHighWaterSequence : Uint63String;
  rq_policyLogHighWaterHash : Hash32;
  rq_policyLogHighWaterWitnessCheckpointId : WitnessCheckpointId;
  rq_policyLogHighWaterWitnessEvidenceDigest : Hash32;
  rq_events : list ConversationPolicyReplayEventBinding;
  rq_verifiedAt : Rfc3339Millis;
}.

(** The evidence answers a request, field by field; the profile and the
    statuses are single literals. *)
Record ConversationPolicyReplayEvidence := {
  ev_request : ConversationPolicyReplayVerificationRequest;
  ev_transitions : list ConversationPolicyReplayProjection;
  ev_transitionRangeProofDigest : Hash32;
  ev_policyConsistencyEvidenceDigest : Hash32;
  ev_evidenceDigest : Hash32;
}.

(** [parsePolicyConsistencyAnchor]'s result. *)
Record ConversationPolicyConsistencyAnchor := {
  ca_policyHeadSequence : Uint63String;
  ca_policyHeadHash : Hash32;
  ca_witnessCheckpointId : WitnessCheckpointId;
  ca_witnessEvidenceDigest : Hash32;
}.

Definition parsePolicyConsistencyAnchor (value : unknown) :
  result ConversationPolicyConsistencyAnchor :=
  record ← expectExactRecord value
    ["policyHeadSequence"; "policyHeadHash"; "witnessCheckpointId"; "witnessEvidenceDigest"];
  policyHeadSequence ← parseUint63String record.["policyHeadSequence"];
  policyHeadHash ← parseHash32 record.["policyHeadHash"];
  witnessCheckpointId ← parseWitnessCheckpointId record.["witnessCheckpointId"];
  witnessEvidenceDigest ← parseHash32 record.["witnessEvidenceDigest"];
  reject (negb (Bool.eqb (policyHeadSequence === "0") (policyHeadHash === ZERO_HASH32)));;
  Ok {| ca_policyHeadSequence := policyHeadSequence; ca_policyHeadHash := policyHeadHash;
        ca_witnessCheckpointId := witnessCheckpointId;
        ca_witnessEvidenceDigest := witnessEvidenceDigest |}.

(** ** The request *)

Definition toPolicyReplayProjection (projection : ConversationPolicyProjection) :
  ConversationPolicyReplayProjection := {|
  rp_policyHeadId := pp_policyHeadId projection;
  rp_policyHeadSequence := pp_policyHeadSequence projection;
  rp_policyHeadHash := pp_policyHeadHash projection;
  rp_deliveryLogPosition := pp_policyDeliveryLogPosition projection;
  rp_deliveryLogHeadHash := pp_policyDeliveryLogHeadHash projection;
  rp_mandatoryProposals := pp_policyMandatoryProposals projection;
  rp_witnessCheckpointId := pp_policyWitnessCheckpointId projection;
  rp_witnessEvidenceDigest := pp_policyWitnessEvidenceDigest projection |}.

Definition snapshotPolicyReplayProjection (snapshot : ConversationPageSnapshot) :
  ConversationPolicyReplayProjection := {|
  rp_policyHeadId := sn_policyHeadId snapshot;
  rp_policyHeadSequence := sn_policyHeadSequence snapshot;
  rp_policyHeadHash := sn_policyHeadHash snapshot;
  rp_deliveryLogPosition := sn_policyDeliveryLogPosition snapshot;
  rp_deliveryLogHeadHash := sn_policyDeliveryLogHeadHash snapshot;
  rp_mandatoryProposals := sn_policyMandatoryProposals snapshot;
  rp_witnessCheckpointId := sn_policyWitnessCheckpointId snapshot;
  rp_witnessEvidenceDigest := sn_policyWitnessEvidenceDigest snapshot |}.

Definition eventBinding (e : StoredEnvelope) : ConversationPolicyReplayEventBinding :=
  let c := storedCommon e in
  {| re_position := s_position c; re_envelopeId := s_envelopeId c;
     re_envelopeClass := s_envelopeClass c; re_envelopeSha256 := s_envelopeSha256 c;
     re_headHash := s_headHash c |}.

(** The request that [verifyConversationPolicyReplay] sends for a page. *)
Definition policyReplayRequest (page : StructurallyVerifiedConversationPage)
    (anchor : ConversationHeadAnchor) (pageStartPolicy : ConversationPolicyProjection)
    (policyLogHighWater : ConversationPolicyConsistencyAnchor) (verifiedAt : Rfc3339Millis)
    (realmId : DeliveryRealmId) (conversationGeneration : Uint63String)
    (releaseProfileId : ReleaseProfileId) (deliveryLimitsDigest releaseTrustRootDigest : Hash32) :
  ConversationPolicyReplayVerificationRequest := {|
  rq_realmId := realmId; rq_conversationGeneration := conversationGeneration;
  rq_releaseProfileId := releaseProfileId; rq_deliveryLimitsDigest := deliveryLimitsDigest;
  rq_releaseTrustRootDigest := releaseTrustRootDigest;
  rq_conversationId := sn_conversationId (pg_snapshot page);
  rq_pageStartPosition := ha_position anchor; rq_pageStartHeadHash := ha_headHash anchor;
  rq_pageStartPolicy := toPolicyReplayProjection pageStartPolicy;
  rq_pageEndPosition := lh_position (sn_logHead (pg_snapshot page));
  rq_pageEndHeadHash := lh_headHash (sn_logHead (pg_snapshot page));
  rq_pageEndPolicy := snapshotPolicyReplayProjection (pg_snapshot page);
  rq_policyLogHighWaterSequence := ca_policyHeadSequence policyLogHighWater;
  rq_policyLogHighWaterHash := ca_policyHeadHash policyLogHighWater;
  rq_policyLogHighWaterWitnessCheckpointId := ca_witnessCheckpointId policyLogHighWater;
  rq_policyLogHighWaterWitnessEvidenceDigest := ca_witnessEvidenceDigest policyLogHighWater;
  rq_events := map (λ item, eventBinding (envelope item)) (pg_events page);
  rq_verifiedAt := verifiedAt |}.

(** ** Parsers *)

Definition parsePolicyReplayProjection (value : unknown) :
  result ConversationPolicyReplayProjection :=
  record ← expectExactRecord value
    ["policyHeadId"; "policyHeadSequence"; "policyHeadHash"; "deliveryLogPosition";
     "deliveryLogHeadHash"; "mandatoryProposals"; "witnessCheckpointId"; "witnessEvidenceDigest"];
  deliveryLogPosition ← parseUint63String record.["deliveryLogPosition"];
  deliveryLogHeadHash ← parseHash32 record.["deliveryLogHeadHash"];
  reject (negb (Bool.eqb (deliveryLogPosition === "0") (deliveryLogHeadHash === ZERO_HASH32)));;
  policyHeadId ← parsePolicyHeadId record.["policyHeadId"];
  policyHeadSequence ← parsePositive record.["policyHeadSequence"];
  policyHeadHash ← parseNonZeroHash32 record.["policyHeadHash"];
  mandatoryProposals ← parsePolicyMandatoryProposals record.["mandatoryProposals"];
  witnessCheckpointId ← parseWitnessCheckpointId record.["witnessCheckpointId"];
  witnessEvidenceDigest ← parseHash32 record.["witnessEvidenceDigest"];
  Ok {| rp_policyHeadId := policyHeadId; rp_policyHeadSequence := policyHeadSequence;
        rp_policyHeadHash := policyHeadHash; rp_deliveryLogPosition := deliveryLogPosition;
        rp_deliveryLogHeadHash := deliveryLogHeadHash; rp_mandatoryProposals := mandatoryProposals;
        rp_witnessCheckpointId := witnessCheckpointId;
        rp_witnessEvidenceDigest := witnessEvidenceDigest |}.

(** One entry of the events, behind the position of the one before. *)
Fixpoint parseReplayEntries (priorPosition : Z) (entries : list unknown) :
  result (list ConversationPolicyReplayEventBinding) :=
  match entries with
  | [] => Ok []
  | entry :: entries =>
      record ← expectExactRecord entry
        ["position"; "envelopeId"; "envelopeClass"; "envelopeSha256"; "headHash"];
      position ← parsePositive record.["position"];
      envelopeId ← parseEnvelopeId record.["envelopeId"];
      match literal_of envelopeClass_string [application; external_proposal; mls_commit]
              record.["envelopeClass"] with
      | None => invalidSync
      | Some envelopeClass =>
          envelopeSha256 ← parseHash32 record.["envelopeSha256"];
          headHash ← parseHash32 record.["headHash"];
          reject (BigInt position <=? priorPosition);;
          rest ← parseReplayEntries (BigInt position) entries;
          Ok ({| re_position := position; re_envelopeId := envelopeId;
                 re_envelopeClass := envelopeClass; re_envelopeSha256 := envelopeSha256;
                 re_headHash := headHash |} :: rest)
      end
  end.

Definition parsePolicyReplayEvents (value : unknown) :
  result (list ConversationPolicyReplayEventBinding) :=
  entries ← expectDenseArray value CONVERSATION_PAGE_HARD_MAX_EVENTS;
  parseReplayEntries 0 entries.

Definition parsePolicyReplayTransitions (value : unknown) :
  result (list ConversationPolicyReplayProjection) :=
  entries ← expectDenseArray value CONVERSATION_POLICY_REPLAY_MAX_COALESCED_TRANSITIONS;
  mapR parsePolicyReplayProjection entries.

Definition parseExactLiteral (value : unknown) (expected : string) : result unit :=
  reject (negb (isString value expected)).

(** ** The checks *)

Definition samePolicyReplayProjection (left right : ConversationPolicyReplayProjection) : bool :=
  (rp_policyHeadId left === rp_policyHeadId right)
  && (rp_policyHeadSequence left === rp_policyHeadSequence right)
  && (rp_policyHeadHash left === rp_policyHeadHash right)
  && (rp_deliveryLogPosition left === rp_deliveryLogPosition right)
  && (rp_deliveryLogHeadHash left === rp_deliveryLogHeadHash right)
  && samePolicyMandatoryProposals (rp_mandatoryProposals left) (rp_mandatoryProposals right)
  && (rp_witnessCheckpointId left === rp_witnessCheckpointId right)
  && (rp_witnessEvidenceDigest left === rp_witnessEvidenceDigest right).

Definition eventDiffers (event expected : ConversationPolicyReplayEventBinding) : bool :=
  (re_position event !== re_position expected)
  || (re_envelopeId event !== re_envelopeId expected)
  || (re_envelopeClass event !== re_envelopeClass expected)
  || (re_envelopeSha256 event !== re_envelopeSha256 expected)
  || (re_headHash event !== re_headHash expected).

Definition assertPolicyReplayMatchesRequest
    (parsed expected : ConversationPolicyReplayVerificationRequest) : result unit :=
  reject ((rq_realmId parsed !== rq_realmId expected)
    || (rq_conversationGeneration parsed !== rq_conversationGeneration expected)
    || (rq_releaseProfileId parsed !== rq_releaseProfileId expected)
    || (rq_deliveryLimitsDigest parsed !== rq_deliveryLimitsDigest expected)
    || (rq_releaseTrustRootDigest parsed !== rq_releaseTrustRootDigest expected)
    || (rq_conversationId parsed !== rq_conversationId expected)
    || (rq_pageStartPosition parsed !== rq_pageStartPosition expected)
    || (rq_pageStartHeadHash parsed !== rq_pageStartHeadHash expected)
    || negb (samePolicyReplayProjection (rq_pageStartPolicy parsed) (rq_pageStartPolicy expected))
    || (rq_pageEndPosition parsed !== rq_pageEndPosition expected)
    || (rq_pageEndHeadHash parsed !== rq_pageEndHeadHash expected)
    || negb (samePolicyReplayProjection (rq_pageEndPolicy parsed) (rq_pageEndPolicy expected))
    || (rq_policyLogHighWaterSequence parsed !== rq_policyLogHighWaterSequence expected)
    || (rq_policyLogHighWaterHash parsed !== rq_policyLogHighWaterHash expected)
    || (rq_policyLogHighWaterWitnessCheckpointId parsed
        !== rq_policyLogHighWaterWitnessCheckpointId expected)
    || (rq_policyLogHighWaterWitnessEvidenceDigest parsed
        !== rq_policyLogHighWaterWitnessEvidenceDigest expected)
    || (rq_verifiedAt parsed !== rq_verifiedAt expected)
    || negb (Nat.eqb (length (rq_events parsed)) (length (rq_events expected)))
    || existsb (λ '(event, expectedEvent), eventDiffers event expectedEvent)
         (zip (rq_events parsed) (rq_events expected))).

Definition policyReplayHeadMatchesPage (request : ConversationPolicyReplayVerificationRequest)
    (projection : ConversationPolicyReplayProjection) : bool :=
  if rp_deliveryLogPosition projection === rq_pageStartPosition request then
    rp_deliveryLogHeadHash projection === rq_pageStartHeadHash request
  else
    existsb (λ event, (re_position event === rp_deliveryLogPosition projection)
                      && (re_headHash event === rp_deliveryLogHeadHash projection))
      (rq_events request).

(** The first check: neither the page nor the policy log goes back. *)
Definition rollsBack (evidence : ConversationPolicyReplayEvidence) : bool :=
  let r := ev_request evidence in
  let start := rq_pageStartPolicy r in
  let end_ := rq_pageEndPolicy r in
  (BigInt (rq_pageEndPosition r) <? BigInt (rq_pageStartPosition r))
  || (ev_transitionRangeProofDigest evidence === ZERO_HASH32)
  || (BigInt (rp_policyHeadSequence end_) <? BigInt (rp_policyHeadSequence start))
  || ((rp_policyHeadSequence end_ === rp_policyHeadSequence start)
      && negb (samePolicyReplayProjection end_ start))
  || (BigInt (rp_deliveryLogPosition end_) <? BigInt (rp_deliveryLogPosition start))
  || (BigInt (rq_policyLogHighWaterSequence r) <? BigInt (rp_policyHeadSequence end_))
  || ((rq_policyLogHighWaterSequence r === rp_policyHeadSequence end_)
      && (rq_policyLogHighWaterHash r !== rp_policyHeadHash end_)).

(** The loop over the transitions, each against the one before; it returns the
    last. *)
Fixpoint checkTransitions (request : ConversationPolicyReplayVerificationRequest)
    (prior : ConversationPolicyReplayProjection)
    (transitions : list ConversationPolicyReplayProjection) :
  result ConversationPolicyReplayProjection :=
  match transitions with
  | [] => Ok prior
  | transition :: transitions =>
      reject ((BigInt (rp_policyHeadSequence transition) <=? BigInt (rp_policyHeadSequence prior))
        || (BigInt (rp_policyHeadSequence (rq_pageEndPolicy request))
            <? BigInt (rp_policyHeadSequence transition))
        || (BigInt (rp_deliveryLogPosition transition) <? BigInt (rq_pageStartPosition request))
        || (BigInt (rq_pageEndPosition request) <? BigInt (rp_deliveryLogPosition transition))
        || (BigInt (rp_deliveryLogPosition transition) <? BigInt (rp_deliveryLogPosition prior))
        || samePolicyMandatoryProposals (rp_mandatoryProposals transition)
             (rp_mandatoryProposals prior)
        || negb (policyReplayHeadMatchesPage request transition));;
      checkTransitions request transition transitions
  end.

(** [active.some(required => !next.some(...))]. *)
Definition clearsRequirement (active next : list PolicyMandatoryProposalBinding) : bool :=
  existsb (λ required, negb (existsb (λ n, (mp_proposalId n === mp_proposalId required)
                                           && (mp_proposalHash n === mp_proposalHash required)) next))
    active.

(** The two inner loops: the active set and the transitions still ahead. *)
Fixpoint passTransitions (position : Uint63String) (active : list PolicyMandatoryProposalBinding)
    (transitions : list ConversationPolicyReplayProjection) :
  list PolicyMandatoryProposalBinding * list ConversationPolicyReplayProjection :=
  match transitions with
  | t :: rest =>
      if BigInt (rp_deliveryLogPosition t) <? BigInt position
      then passTransitions position (rp_mandatoryProposals t) rest else (active, transitions)
  | [] => (active, [])
  end.

Fixpoint applyTransitions (event : ConversationPolicyReplayEventBinding)
    (active : list PolicyMandatoryProposalBinding)
    (transitions : list ConversationPolicyReplayProjection) :
  result (list PolicyMandatoryProposalBinding * list ConversationPolicyReplayProjection) :=
  match transitions with
  | t :: rest =>
      if rp_deliveryLogPosition t === re_position event then
        reject (clearsRequirement active (rp_mandatoryProposals t)
                && (re_envelopeClass event !== mls_commit));;
        applyTransitions event (rp_mandatoryProposals t) rest
      else Ok (active, transitions)
  | [] => Ok (active, [])
  end.

(** The loop over the events. *)
Fixpoint checkCutoffs (active : list PolicyMandatoryProposalBinding)
    (transitions : list ConversationPolicyReplayProjection)
    (events : list ConversationPolicyReplayEventBinding) : result unit :=
  match events with
  | [] => Ok ()
  | event :: events =>
      let '(active, transitions) := passTransitions (re_position event) active transitions in
      reject ((re_envelopeClass event === application) && (0 <? Z.of_nat (length active)));;
      '(active, transitions) ← applyTransitions event active transitions;
      checkCutoffs active transitions events
  end.

Definition validatePolicyReplayInterval (evidence : ConversationPolicyReplayEvidence) : result unit :=
  let r := ev_request evidence in
  reject (rollsBack evidence);;
  prior ← checkTransitions r (rq_pageStartPolicy r) (ev_transitions evidence);
  reject (negb (samePolicyMandatoryProposals (rp_mandatoryProposals prior)
                  (rp_mandatoryProposals (rq_pageEndPolicy r))));;
  checkCutoffs (rp_mandatoryProposals (rq_pageStartPolicy r)) (ev_transitions evidence) (rq_events r).

Section SyncReplay.
Context `{SHA : Sha256}.

(** ** The digest *)

Definition encodeProposal (p : PolicyMandatoryProposalBinding) : result (list bytes) :=
  hash ← decodeHash32 (mp_proposalHash p); Ok [utf8 (mp_proposalId p); hash].

Definition encodePolicyMandatoryProposals (proposals : list PolicyMandatoryProposalBinding) :
  result (list bytes) :=
  entries ← mapR encodeProposal proposals;
  Ok (utf8 (decimal (Z.of_nat (length proposals))) :: concat entries).

Definition encodePolicyReplayProjection (projection : ConversationPolicyReplayProjection) :
  result (list bytes) :=
  headHash ← decodeHash32 (rp_policyHeadHash projection);
  logHeadHash ← decodeHash32 (rp_deliveryLogHeadHash projection);
  proposals ← encodePolicyMandatoryProposals (rp_mandatoryProposals projection);
  evidence ← decodeHash32 (rp_witnessEvidenceDigest projection);
  Ok ([utf8 (rp_policyHeadId projection); utf8 (rp_policyHeadSequence projection); headHash;
       utf8 (rp_deliveryLogPosition projection); logHeadHash] ++ proposals
      ++ [utf8 (rp_witnessCheckpointId projection); evidence]).

Definition encodeReplayEvent (event : ConversationPolicyReplayEventBinding) : result (list bytes) :=
  sha ← decodeHash32 (re_envelopeSha256 event);
  head ← decodeHash32 (re_headHash event);
  Ok [utf8 (re_position event); utf8 (re_envelopeId event);
      utf8 (envelopeClass_string (re_envelopeClass event)); sha; head].

Definition computeConversationPolicyReplayEvidenceDigest
    (input : ConversationPolicyReplayEvidence) : result Hash32 :=
  let r := ev_request input in
  limits ← decodeHash32 (rq_deliveryLimitsDigest r);
  trustRoot ← decodeHash32 (rq_releaseTrustRootDigest r);
  startHead ← decodeHash32 (rq_pageStartHeadHash r);
  startPolicy ← encodePolicyReplayProjection (rq_pageStartPolicy r);
  endHead ← decodeHash32 (rq_pageEndHeadHash r);
  endPolicy ← encodePolicyReplayProjection (rq_pageEndPolicy r);
  highWater ← decodeHash32 (rq_policyLogHighWaterHash r);
  highWaterEvidence ← decodeHash32 (rq_policyLogHighWaterWitnessEvidenceDigest r);
  events ← mapR encodeReplayEvent (rq_events r);
  transitions ← mapR encodePolicyReplayProjection (ev_transitions input);
  range ← decodeHash32 (ev_transitionRangeProofDigest input);
  consistency ← decodeHash32 (ev_policyConsistencyEvidenceDigest input);
  body ← canonicalLengthPrefixed
    ([utf8 (rq_realmId r); utf8 (rq_conversationGeneration r); utf8 (rq_releaseProfileId r); limits;
      trustRoot; utf8 (rq_conversationId r); utf8 (rq_pageStartPosition r); startHead] ++ startPolicy
     ++ [utf8 (rq_pageEndPosition r); endHead] ++ endPolicy
     ++ [utf8 (rq_policyLogHighWaterSequence r); highWater;
         utf8 (rq_policyLogHighWaterWitnessCheckpointId r); highWaterEvidence;
         utf8 (decimal (Z.of_nat (length (rq_events r))))] ++ concat events
     ++ [utf8 (decimal (Z.of_nat (length (ev_transitions input))))] ++ concat transitions
     ++ [utf8 "verified-complete"; range; utf8 "verified"; utf8 "verified"; utf8 "verified";
         consistency; utf8 (rq_verifiedAt r)]);
  sha256Bytes [utf8 CONVERSATION_POLICY_REPLAY_EVIDENCE_DIGEST_DOMAIN; body].

(** ** The parser *)

Definition parseConversationPolicyReplayEvidence (value : unknown)
    (expected : ConversationPolicyReplayVerificationRequest) :
  result ConversationPolicyReplayEvidence :=
  record ← expectExactRecord value
    ["status"; "profile"; "realmId"; "conversationGeneration"; "releaseProfileId";
     "deliveryLimitsDigest"; "releaseTrustRootDigest"; "conversationId"; "pageStartPosition";
     "pageStartHeadHash"; "pageStartPolicy"; "pageEndPosition"; "pageEndHeadHash"; "pageEndPolicy";
     "policyLogHighWaterSequence"; "policyLogHighWaterHash";
     "policyLogHighWaterWitnessCheckpointId"; "policyLogHighWaterWitnessEvidenceDigest"; "events";
     "transitions"; "transitionCompactionStatus"; "transitionRangeProofDigest";
     "historicalIntervalStatus"; "applicationCutoffStatus"; "policyConsistencyStatus";
     "policyConsistencyEvidenceDigest"; "verifiedAt"; "evidenceDigest"];
  reject (negb (isString record.["status"] "verified")
          || negb (isString record.["profile"] POLICY_REPLAY_PROFILE));;
  realmId ← parseDeliveryRealmId record.["realmId"];
  conversationGeneration ← parsePositive record.["conversationGeneration"];
  releaseProfileId ← parseReleaseProfileId record.["releaseProfileId"];
  deliveryLimitsDigest ← parseHash32 record.["deliveryLimitsDigest"];
  releaseTrustRootDigest ← parseHash32 record.["releaseTrustRootDigest"];
  conversationId ← parseConversationId record.["conversationId"];
  pageStartPosition ← parseUint63String record.["pageStartPosition"];
  pageStartHeadHash ← parseHash32 record.["pageStartHeadHash"];
  pageStartPolicy ← parsePolicyReplayProjection record.["pageStartPolicy"];
  pageEndPosition ← parsePositive record.["pageEndPosition"];
  pageEndHeadHash ← parseHash32 record.["pageEndHeadHash"];
  pageEndPolicy ← parsePolicyReplayProjection record.["pageEndPolicy"];
  highWaterSequence ← parseUint63String record.["policyLogHighWaterSequence"];
  highWaterHash ← parseHash32 record.["policyLogHighWaterHash"];
  highWaterCheckpoint ←
    parseWitnessCheckpointId record.["policyLogHighWaterWitnessCheckpointId"];
  highWaterDigest ← parseHash32 record.["policyLogHighWaterWitnessEvidenceDigest"];
  events ← parsePolicyReplayEvents record.["events"];
  transitions ← parsePolicyReplayTransitions record.["transitions"];
  parseExactLiteral record.["transitionCompactionStatus"] "verified-complete";;
  transitionRangeProofDigest ← parseHash32 record.["transitionRangeProofDigest"];
  parseExactLiteral record.["historicalIntervalStatus"] "verified";;
  parseExactLiteral record.["applicationCutoffStatus"] "verified";;
  parseExactLiteral record.["policyConsistencyStatus"] "verified";;
  policyConsistencyEvidenceDigest ← parseHash32 record.["policyConsistencyEvidenceDigest"];
  verifiedAt ← parseRfc3339Millis record.["verifiedAt"];
  evidenceDigest ← parseHash32 record.["evidenceDigest"];
  let parsed := {|
    ev_request := {|
      rq_realmId := realmId; rq_conversationGeneration := conversationGeneration;
      rq_releaseProfileId := releaseProfileId; rq_deliveryLimitsDigest := deliveryLimitsDigest;
      rq_releaseTrustRootDigest := releaseTrustRootDigest; rq_conversationId := conversationId;
      rq_pageStartPosition := pageStartPosition; rq_pageStartHeadHash := pageStartHeadHash;
      rq_pageStartPolicy := pageStartPolicy; rq_pageEndPosition := pageEndPosition;
      rq_pageEndHeadHash := pageEndHeadHash; rq_pageEndPolicy := pageEndPolicy;
      rq_policyLogHighWaterSequence := highWaterSequence; rq_policyLogHighWaterHash := highWaterHash;
      rq_policyLogHighWaterWitnessCheckpointId := highWaterCheckpoint;
      rq_policyLogHighWaterWitnessEvidenceDigest := highWaterDigest; rq_events := events;
      rq_verifiedAt := verifiedAt |};
    ev_transitions := transitions; ev_transitionRangeProofDigest := transitionRangeProofDigest;
    ev_policyConsistencyEvidenceDigest := policyConsistencyEvidenceDigest;
    ev_evidenceDigest := evidenceDigest |} in
  assertPolicyReplayMatchesRequest (ev_request parsed) expected;;
  validatePolicyReplayInterval parsed;;
  digest ← computeConversationPolicyReplayEvidenceDigest parsed;
  reject (evidenceDigest !== digest);;
  Ok parsed.
End SyncReplay.

(** ** The checks as propositions *)

Abbreviation at_ t := (BigInt (rp_deliveryLogPosition t)) (only parsing).
Abbreviation event_at e := (BigInt (re_position e)) (only parsing).

(** The mandatory proposals in force after some transitions. *)
Definition reached (start : ConversationPolicyReplayProjection)
    (transitions : list ConversationPolicyReplayProjection) : list PolicyMandatoryProposalBinding :=
  rp_mandatoryProposals (default start (last transitions)).

(** Those in force just before a position of the log. *)
Definition inForce (start : ConversationPolicyReplayProjection)
    (transitions : list ConversationPolicyReplayProjection) (position : Z) :
  list PolicyMandatoryProposalBinding :=
  reached start (filter (λ t, at_ t < position) transitions).

Lemma reached_snoc start ts t : reached start (ts ++ [t]) = rp_mandatoryProposals t.
Proof. unfold reached. by rewrite last_snoc. Qed.

Lemma passTransitions_spec start p before rest :
  ∃ mid rest', rest = mid ++ rest' ∧ Forall (λ t, at_ t < BigInt p) mid ∧
    (∀ t, head rest' = Some t → BigInt p <= at_ t) ∧
    passTransitions p (reached start before) rest = (reached start (before ++ mid), rest').
Proof.
  revert before. induction rest as [|t rest IH]; intros before; cbn.
  - exists [], []. rewrite (app_nil_r before). split_and!; [done|by apply Forall_nil|done|done].
  - destruct (Z.ltb_spec (at_ t) (BigInt p)) as [HL|HL].
    + destruct (IH (before ++ [t])) as (mid & rest' & -> & HF & HH & HE).
      exists (t :: mid), rest'. rewrite reached_snoc in HE. rewrite HE, <- app_assoc.
      split_and!; [done|by constructor|done|done].
    + exists [], (t :: rest). rewrite (app_nil_r before). split_and!; [done|by apply Forall_nil| |done]. by intros ? [= <-].
Qed.

(** A cleared requirement at an event. *)
Definition clears_at (start : ConversationPolicyReplayProjection)
    (transitions : list ConversationPolicyReplayProjection)
    (event : ConversationPolicyReplayEventBinding) : Prop :=
  ∃ xs t ys, transitions = xs ++ t :: ys ∧ rp_deliveryLogPosition t = re_position event ∧
    clearsRequirement (reached start xs) (rp_mandatoryProposals t) = true.

Lemma applyTransitions_spec start event before rest active rest' :
  applyTransitions event (reached start before) rest = Ok (active, rest') →
  ∃ mid, rest = mid ++ rest' ∧ Forall (λ t, rp_deliveryLogPosition t = re_position event) mid ∧
    (∀ t, head rest' = Some t → rp_deliveryLogPosition t ≠ re_position event) ∧
    active = reached start (before ++ mid) ∧
    (∀ xs t ys, mid = xs ++ t :: ys →
      clearsRequirement (reached start (before ++ xs)) (rp_mandatoryProposals t) = true →
      re_envelopeClass event = mls_commit).
Proof.
  revert before. induction rest as [|t rest IH]; intros before H; cbn in H.
  - injection H as <- <-. exists []. rewrite (app_nil_r before). split_and!; [done|by apply Forall_nil|done|done|].
    intros xs t ys HX. by destruct xs.
  - destruct (bool_decide_reflect (rp_deliveryLogPosition t = re_position event)) as [HE|HE].
    + inv_page. rewrite <- (reached_snoc start before t) in H. apply IH in H as (mid & -> & HF & HH & -> & HC).
      exists (t :: mid). rewrite <- app_assoc in *. split_and!; [done|by constructor|done|done|].
      intros [|y zs] t' ys [= <- HM] HCl.
      * rewrite app_nil_r in HCl. rewrite HCl in Hx. cbn in Hx. by bsimp.
      * apply (HC zs t' ys); [done|]. by rewrite <- app_assoc.
    + injection H as <- <-. exists []. rewrite (app_nil_r before). split_and!; [done|by apply Forall_nil| |done|].
      * by intros ? [= <-].
      * intros xs t' ys HX. by destruct xs.
Qed.

(** Transitions in the order of the log. *)
Definition ordered (transitions : list ConversationPolicyReplayProjection) : Prop :=
  StronglySorted (λ s t, at_ s <= at_ t) transitions.

Lemma ordered_above ts p : ordered ts → (∀ t, head ts = Some t → p <= at_ t) → Forall (λ t, p <= at_ t) ts.
Proof.
  intros HO HH. destruct HO as [|t ts _ HF]; constructor; [by apply HH|].
  specialize (HH t eq_refl). eapply Forall_impl; [exact HF|]. cbn. lia.
Qed.

Lemma filter_below start ts us p :
  Forall (λ t, at_ t < p) ts → Forall (λ t, p <= at_ t) us → inForce start (ts ++ us) p = reached start ts.
Proof.
  intros HT HU. unfold inForce. rewrite filter_app. f_equal.
  assert (filter (λ t, at_ t < p) us = []) as ->.
  { induction HU as [|t us Ht _ IH]; [done|]. rewrite filter_cons_False by lia. done. }
  rewrite app_nil_r. induction HT as [|t ts Ht _ IH]; [done|]. by rewrite filter_cons_True, IH.
Qed.

(** The loop over the events sees, at each, the requirements in force before
    it, and a requirement is cleared only at a commit. *)
Lemma checkCutoffs_spec start before rest events p u :
  checkCutoffs (reached start before) rest events = Ok u →
  ordered (before ++ rest) → Forall (λ t, at_ t <= p) before →
  StronglySorted (λ e f, event_at e < event_at f) events → Forall (λ e, p < event_at e) events →
  Forall (λ t, is_uint63 (rp_deliveryLogPosition t) = true) rest →
  Forall (λ e, is_uint63 (re_position e) = true) events →
  Forall (λ e, (re_envelopeClass e = application → inForce start (before ++ rest) (event_at e) = []) ∧
    (clears_at start (before ++ rest) e → re_envelopeClass e = mls_commit)) events.
Proof.
  revert before rest p. induction events as [|e events IH]; intros before rest p H HO HB HS HP HU HE; [constructor|].
  cbn in H. destruct (passTransitions_spec start (re_position e) before rest) as (mid & rest' & -> & HM & HH & HPass).
  rewrite HPass in H. inv_page. destruct x0 as [active rest''].
  apply applyTransitions_spec in Hx0 as (mid' & -> & HM' & HH' & -> & HC).
  apply StronglySorted_inv in HS as [HS HSe]. apply Forall_cons in HP as [HPe HP], HE as [HUe HE].
  apply Forall_app in HU as [_ HU]. assert (HU' := HU). apply Forall_app in HU' as [_ HU''].
  assert (HBe : Forall (λ t, at_ t < event_at e) (before ++ mid)).
  { apply Forall_app. split; [|done]. eapply Forall_impl; [exact HB|]. cbn. lia. }
  rewrite (app_assoc before mid) in HO |- *.
  pose proof (StronglySorted_app_1_r _ _ _ HO) as HO'.
  assert (HA : Forall (λ t, event_at e <= at_ t) (mid' ++ rest'')) by by apply ordered_above.
  assert (HA' : Forall (λ t, event_at e < at_ t) rest'').
  { apply Forall_app in HA as [_ HA].
    pose proof (StronglySorted_app_1_r _ _ _ HO') as HO''.
    destruct HO'' as [|t ts HTs HF]; constructor.
    - apply Forall_cons in HA as [HA _], HU'' as [HUt _]. specialize (HH' t eq_refl).
      destruct (Z.eq_dec (at_ t) (event_at e)) as [E|]; [|lia]. by apply is_uint63_inj in E.
    - apply Forall_cons in HA as [HA _], HU'' as [HUt _]. specialize (HH' t eq_refl).
      destruct (Z.eq_dec (at_ t) (event_at e)) as [E|]; [by apply is_uint63_inj in E|].
      eapply Forall_impl; [exact HF|]. cbn. lia. }
  constructor.
  - split.
    + intros HApp. rewrite filter_below by done. rewrite bool_decide_eq_true_2 in Hx by done.
      cbn [andb] in Hx.
      apply length_zero_iff_nil. lia.
    + intros (xs & t & ys & HX & HT & HCl). assert (HTe : at_ t = event_at e) by congruence.
      apply app_eq_inv in HX as [(k & HX & HY)|(k & -> & HX)].
      * destruct k as [|t' k]; cbn in HY.
        -- rewrite app_nil_r in HX. subst xs. destruct mid' as [|t' mid']; cbn in HY.
           ++ subst rest''. apply Forall_cons in HA' as [HA' _]. lia.
           ++ injection HY as <- HY. apply (HC [] t mid'); [done|]. by rewrite app_nil_r.
        -- injection HY as <- _. assert (Hin : t ∈ before ++ mid) by (rewrite HX; set_solver).
           rewrite Forall_forall in HBe. specialize (HBe t Hin). lia.
      * apply app_eq_inv in HX as [(k' & HX & HY)|(k' & -> & HX)].
        -- destruct k' as [|t' k']; cbn in HY.
           ++ subst rest''. apply Forall_cons in HA' as [HA' _]. lia.
           ++ injection HY as <- HY. by eapply HC.
        -- assert (Hin : t ∈ rest'') by (rewrite HX; set_solver).
           rewrite Forall_forall in HA'. specialize (HA' t Hin). lia.
  - assert (HB' : Forall (λ t, at_ t <= event_at e) ((before ++ mid) ++ mid')).
    { apply Forall_app. split; [eapply Forall_impl; [exact HBe|]; cbn; lia|].
      eapply Forall_impl; [exact HM'|]. cbn. intros t ->. lia. }
    rewrite app_assoc in HO |- *. by eapply IH.
Qed.

Lemma checkTransitions_spec r prior ts final : checkTransitions r prior ts = Ok final →
  final = default prior (last ts) ∧
  StronglySorted (λ s t, BigInt (rp_policyHeadSequence s) < BigInt (rp_policyHeadSequence t)) (prior :: ts) ∧
  ordered (prior :: ts) ∧
  Forall (λ t, BigInt (rq_pageStartPosition r) <= at_ t <= BigInt (rq_pageEndPosition r) ∧
    policyReplayHeadMatchesPage r t = true ∧
    BigInt (rp_policyHeadSequence t) <= BigInt (rp_policyHeadSequence (rq_pageEndPolicy r))) ts.
Proof.
  revert prior. induction ts as [|t ts IH]; intros prior H; cbn in H.
  - injection H as <-. split_and!; [done|by repeat constructor|by repeat constructor|by apply Forall_nil].
  - inv_page. split_orb. apply IH in H as (-> & HS & HO & HF). split_and!.
    + by destruct ts using rev_ind; [|rewrite app_comm_cons, !last_snoc].
    + constructor; [done|]. apply StronglySorted_inv in HS as [_ HS].
      constructor; [lia|]. eapply Forall_impl; [exact HS|]. cbn. lia.
    + constructor; [done|]. apply StronglySorted_inv in HO as [_ HO].
      constructor; [lia|]. eapply Forall_impl; [exact HO|]. cbn. lia.
    + constructor; [|done]. split_and!; [lia..|done|lia].
Qed.

Lemma samePolicyMandatoryProposals_eq xs ys : samePolicyMandatoryProposals xs ys = true ↔ xs = ys.
Proof.
  unfold samePolicyMandatoryProposals. split.
  - revert ys. induction xs as [|[i h] xs IH]; intros [|[i' h'] ys] H; try done. cbn in *. bsimp. subst. f_equal.
    apply IH. by apply andb_true_iff.
  - intros <-. rewrite Nat.eqb_refl. induction xs as [|x xs IH]; [done|]. cbn in *.
    by rewrite !bool_decide_eq_true_2 by done.
Qed.

Lemma samePolicyReplayProjection_eq p q : samePolicyReplayProjection p q = true → p = q.
Proof.
  unfold samePolicyReplayProjection. intros H. split_orb.
  repeat match goal with H : samePolicyMandatoryProposals _ _ = true |- _ =>
    apply samePolicyMandatoryProposals_eq in H end. bsimp. destruct p, q; cbn in *. by subst.
Qed.

Lemma eventDiffers_eq e f : eventDiffers e f = false → e = f.
Proof. unfold eventDiffers. intros H. bsimp. destruct e, f; cbn in *. by subst. Qed.

(** The evidence answers the request that was sent, in every field. *)
Lemma assertPolicyReplayMatchesRequest_eq r r' u : assertPolicyReplayMatchesRequest r r' = Ok u → r = r'.
Proof.
  unfold assertPolicyReplayMatchesRequest. intros H. inv_page. split_orb.
  repeat match goal with H : samePolicyReplayProjection _ _ = true |- _ =>
    apply samePolicyReplayProjection_eq in H end.
  match goal with H : Nat.eqb _ _ = true |- _ => apply Nat.eqb_eq in H; rename H into HL end.
  match goal with H : existsb _ (zip _ _) = false |- _ => rename H into HE end.
  assert (HEv : rq_events r = rq_events r').
  { revert HL HE. generalize (rq_events r), (rq_events r'). intros xs. induction xs as [|x xs IH];
      intros [|y ys] HL HE; try done. cbn in *. split_orb. apply eventDiffers_eq in HE as ->.
    f_equal. apply IH; [lia|done]. }
  bsimp. destruct r, r'; cbn in *. by subst.
Qed.

Lemma parseReplayEntries_spec p entries events : parseReplayEntries p entries = Ok events →
  StronglySorted (λ e f, event_at e < event_at f) events ∧ Forall (λ e, p < event_at e) events ∧
  Forall (λ e, is_uint63 (re_position e) = true) events.
Proof.
  revert p events. induction entries as [|v entries IH]; intros p events H; cbn -[literal_of] in H.
  { injection H as <-. split_and!; [constructor|by apply Forall_nil..]. }
  inv_page. destruct (literal_of _ _ _); [|done]. inv_page. subst. cbn.
  match goal with H : parseReplayEntries _ _ = Ok _ |- _ => apply IH in H as (HS & HP & HU) end.
  match goal with H : parsePositive _ = Ok _ |- _ => apply parsePositive_Ok in H as [_ HN] end.
  apply is_positive_uint63_bound in HN as [HN _].
  split_and!; constructor; cbn; try done; [lia|]. eapply Forall_impl; [exact HP|]. cbn. lia.
Qed.

Lemma parsePolicyReplayProjection_at v t :
  parsePolicyReplayProjection v = Ok t → is_uint63 (rp_deliveryLogPosition t) = true.
Proof. unfold parsePolicyReplayProjection. intros H. inv_page. subst. cbn. by apply parseUint63String_Ok in Hx0 as [_ ?]. Qed.

Section Replay.
Context `{SHA : Sha256}.

(** Evidence that parses answers its request, and its interval was checked. *)
Lemma parseReplay_open v expected ev : parseConversationPolicyReplayEvidence v expected = Ok ev →
  ev_request ev = expected ∧ validatePolicyReplayInterval ev = Ok () ∧
  computeConversationPolicyReplayEvidenceDigest ev = Ok (ev_evidenceDigest ev) ∧
  StronglySorted (λ e f, event_at e < event_at f) (rq_events expected) ∧
  Forall (λ e, 0 < event_at e ∧ is_uint63 (re_position e) = true) (rq_events expected) ∧
  Forall (λ t, is_uint63 (rp_deliveryLogPosition t) = true) (ev_transitions ev).
Proof.
  unfold parseConversationPolicyReplayEvidence. intros H. inv_page.
  match goal with H : assertPolicyReplayMatchesRequest _ _ = Ok _ |- _ =>
    apply assertPolicyReplayMatchesRequest_eq in H; cbn [ev_request] in H; rename H into HQ end.
  match goal with H : validatePolicyReplayInterval _ = Ok ?u |- _ => destruct u end.
  bsimp. subst ev. cbn [ev_request ev_transitions ev_evidenceDigest]. split_and!; try done; [congruence|..].
  - rewrite <- HQ. cbn. unfold parsePolicyReplayEvents in *. inv_page.
    by match goal with H : parseReplayEntries _ _ = Ok _ |- _ => apply parseReplayEntries_spec in H as (? & _) end.
  - rewrite <- HQ. cbn. unfold parsePolicyReplayEvents in *. inv_page.
    match goal with H : parseReplayEntries _ _ = Ok _ |- _ => apply parseReplayEntries_spec in H as (_ & HP & HU) end.
    by apply Forall_and.
  - match goal with H : parsePolicyReplayTransitions _ = Ok _ |- _ => unfold parsePolicyReplayTransitions in H end.
    inv_page. match goal with H : mapR parsePolicyReplayProjection _ = Ok _ |- _ => apply mapR_Ok in H; rename H into HM end.
    clear -HM. induction HM as [|x t xs ts Ht _ IH]; constructor; [by eapply parsePolicyReplayProjection_at|done].
Qed.
End Replay.

Section Cutoffs.
Context `{SHA : Sha256}.

(** Where a policy transition of a page happens: at the anchor the page was asked
    from, or at one of its events, under the head hash the log has there. *)
Definition located (anchor : ConversationHeadAnchor) (items : list ConversationEventItem)
    (t : ConversationPolicyReplayProjection) : Prop :=
  (rp_deliveryLogPosition t = ha_position anchor ∧ rp_deliveryLogHeadHash t = ha_headHash anchor) ∨
  Exists (λ item, s_position (storedCommon (envelope item)) = rp_deliveryLogPosition t ∧
                  s_headHash (storedCommon (envelope item)) = rp_deliveryLogHeadHash t) items.

Lemma policyReplayHeadMatchesPage_located page anchor start hw at_ realm gen profile ld tr t :
  policyReplayHeadMatchesPage (policyReplayRequest page anchor start hw at_ realm gen profile ld tr) t = true →
  located anchor (pg_events page) t.
Proof.
  unfold policyReplayHeadMatchesPage, located. cbn. destruct (bool_decide_reflect (rp_deliveryLogPosition t = ha_position anchor)).
  - intros H. left. by bsimp.
  - intros (e & (item & <- & Hi)%in_map_iff & H)%existsb_exists. right. apply Exists_exists.
    exists item. split; [by apply list_elem_of_In|]. cbn in H. by bsimp.
Qed.

(** Replay evidence that is accepted for a page shows that no application traffic
    passed a policy cutoff in it: an application envelope follows only when no
    mandatory proposal is in force, and one is cleared at an event only if that is
    a commit; the transitions run forward, by policy sequence and position of the
    log, from the policy the page was asked under to the mandatory set of its
    snapshot, each at the anchor or at an event of the page with the head hash of
    the log there; and the evidence digest covers all of it. *)
Theorem replay_cutoffs v page anchor start hw now realm gen profile limits root ev :
  parseConversationPolicyReplayEvidence v
    (policyReplayRequest page anchor start hw now realm gen profile limits root) = Ok ev →
  let from := toPolicyReplayProjection start in let transitions := ev_transitions ev in
  Forall (λ item, let e := envelope item in
    (s_envelopeClass (storedCommon e) = application →
     inForce from transitions (BigInt (s_position (storedCommon e))) = []) ∧
    (clears_at from transitions (eventBinding e) → s_envelopeClass (storedCommon e) = mls_commit)) (pg_events page) ∧
  reached from transitions = sn_policyMandatoryProposals (pg_snapshot page) ∧
  StronglySorted (λ s t, BigInt (rp_policyHeadSequence s) < BigInt (rp_policyHeadSequence t)) (from :: transitions) ∧
  ordered (from :: transitions) ∧
  Forall (λ t, located anchor (pg_events page) t ∧
    BigInt (rp_policyHeadSequence t) <= BigInt (sn_policyHeadSequence (pg_snapshot page))) transitions ∧
  computeConversationPolicyReplayEvidenceDigest ev = Ok (ev_evidenceDigest ev).
Proof.
  intros (HQ & HV & HD & HS & HE & HT)%parseReplay_open from transitions.
  unfold validatePolicyReplayInterval in HV. rewrite HQ in HV. inv_page.
  match goal with H : checkTransitions _ _ _ = Ok ?p |- _ => apply checkTransitions_spec in H as (-> & HSq & HO & HL) end.
  split_orb. apply samePolicyMandatoryProposals_eq in Hx1. apply Forall_and in HE as [HE HU].
  split_and!; try done.
  - assert (HC := checkCutoffs_spec from [] transitions _ 0 () HV). apply StronglySorted_inv in HO as [HO' _].
    specialize (HC HO' (Forall_nil_2 _) HS HE HT HU). cbn in HC. by apply Forall_fmap in HC.
  - eapply Forall_impl; [exact HL|]. intros t (_ & HM & HB). split; [by eapply policyReplayHeadMatchesPage_located|exact HB].
Qed.
End Cutoffs.

(** ** Evaluations *)

Module ReplaySample.
#[local] Existing Instance fips_sha256.
Import PageSample.

(** The page of the commit and the message, asked for while the addition was
    still a mandatory proposal. *)
Definition addition : PolicyMandatoryProposalBinding :=
  {| mp_proposalId := "01890000-0000-7000-8000-000000000009"; mp_proposalHash := sample_hash |}.
Definition origin : ConversationHeadAnchor := {|
  ha_position := "0"; ha_previousHeadHash := ZERO_HASH32; ha_headHash := ZERO_HASH32;
  ha_checkpointReceivedAt := None |}.
Definition startPolicy : ConversationPolicyProjection := {|
  pp_etag := etag_text (chars "0") (chars "1"); pp_policyHeadId := "a1b2c3d4-0000-4000-8000-000000000004";
  pp_policyRevision := "1"; pp_policyMandatoryProposalCount := "1";
  pp_policyMandatoryProposalSetHash := sample_hash; pp_policyMandatoryProposals := [addition];
  pp_policyAuthorizedSendGrantSetHash := sample_hash; pp_policyAuthorizedQuotaPolicyDigest := sample_hash;
  pp_policyHeadSequence := "2"; pp_policyHeadHash := sample_hash; pp_policyDeliveryLogPosition := "0";
  pp_policyDeliveryLogHeadHash := ZERO_HASH32;
  pp_policyWitnessCheckpointId := "a1b2c3d4-0000-4000-8000-000000000006";
  pp_policyWitnessEvidenceDigest := sample_hash |}.
Definition highWater : ConversationPolicyConsistencyAnchor := {|
  ca_policyHeadSequence := "3"; ca_policyHeadHash := sample_hash;
  ca_witnessCheckpointId := "a1b2c3d4-0000-4000-8000-000000000006";
  ca_witnessEvidenceDigest := sample_hash |}.
Definition request : ConversationPolicyReplayVerificationRequest := Eval vm_compute in
  policyReplayRequest both origin startPolicy highWater "2026-07-19T00:00:02.000Z" "realm-1" "1"
    "profile-1" sample_hash sample_hash.

(** The same projection at another position of the log. *)
Definition moved (t : ConversationPolicyReplayProjection) (c : StoredEnvelopeCommon) :
  ConversationPolicyReplayProjection := {|
  rp_policyHeadId := rp_policyHeadId t; rp_policyHeadSequence := rp_policyHeadSequence t;
  rp_policyHeadHash := rp_policyHeadHash t; rp_deliveryLogPosition := s_position c;
  rp_deliveryLogHeadHash := s_headHash c; rp_mandatoryProposals := rp_mandatoryProposals t;
  rp_witnessCheckpointId := rp_witnessCheckpointId t;
  rp_witnessEvidenceDigest := rp_witnessEvidenceDigest t |}.

Definition binding_obj (p : PolicyMandatoryProposalBinding) : unknown :=
  obj [("proposalId", VString (mp_proposalId p)); ("proposalHash", VString (mp_proposalHash p))].
Definition projection_obj (t : ConversationPolicyReplayProjection) : unknown :=
  obj [("policyHeadId", VString (rp_policyHeadId t));
       ("policyHeadSequence", VString (rp_policyHeadSequence t));
       ("policyHeadHash", VString (rp_policyHeadHash t));
       ("deliveryLogPosition", VString (rp_deliveryLogPosition t));
       ("deliveryLogHeadHash", VString (rp_deliveryLogHeadHash t));
       ("mandatoryProposals", arr (map binding_obj (rp_mandatoryProposals t)));
       ("witnessCheckpointId", VString (rp_witnessCheckpointId t));
       ("witnessEvidenceDigest", VString (rp_witnessEvidenceDigest t))].
Definition event_obj (e : ConversationPolicyReplayEventBinding) : unknown :=
  obj [("position", VString (re_position e)); ("envelopeId", VString (re_envelopeId e));
       ("envelopeClass", VString (envelopeClass_string (re_envelopeClass e)));
       ("envelopeSha256", VString (re_envelopeSha256 e)); ("headHash", VString (re_headHash e))].
Definition evidence_of (transitions : list ConversationPolicyReplayProjection) :
  ConversationPolicyReplayEvidence :=
  let draft digest := {|
    ev_request := request; ev_transitions := transitions; ev_transitionRangeProofDigest := sample_hash;
    ev_policyConsistencyEvidenceDigest := sample_hash; ev_evidenceDigest := digest |} in
  draft (valueOf "" (computeConversationPolicyReplayEvidenceDigest (draft ""))).
Definition evidence_obj (ev : ConversationPolicyReplayEvidence) : unknown :=
  let r := ev_request ev in
  obj [("status", VString "verified"); ("profile", VString POLICY_REPLAY_PROFILE);
       ("realmId", VString (rq_realmId r)); ("conversationGeneration", VString (rq_conversationGeneration r));
       ("releaseProfileId", VString (rq_releaseProfileId r));
       ("deliveryLimitsDigest", VString (rq_deliveryLimitsDigest r));
       ("releaseTrustRootDigest", VString (rq_releaseTrustRootDigest r));
       ("conversationId", VString (rq_conversationId r));
       ("pageStartPosition", VString (rq_pageStartPosition r));
       ("pageStartHeadHash", VString (rq_pageStartHeadHash r));
       ("pageStartPolicy", projection_obj (rq_pageStartPolicy r));
       ("pageEndPosition", VString (rq_pageEndPosition r));
       ("pageEndHeadHash", VString (rq_pageEndHeadHash r));
       ("pageEndPolicy", projection_obj (rq_pageEndPolicy r));
       ("policyLogHighWaterSequence", VString (rq_policyLogHighWaterSequence r));
       ("policyLogHighWaterHash", VString (rq_policyLogHighWaterHash r));
       ("policyLogHighWaterWitnessCheckpointId", VString (rq_policyLogHighWaterWitnessCheckpointId r));
       ("policyLogHighWaterWitnessEvidenceDigest", VString (rq_policyLogHighWaterWitnessEvidenceDigest r));
       ("events", arr (map event_obj (rq_events r)));
       ("transitions", arr (map projection_obj (ev_transitions ev)));
       ("transitionCompactionStatus", VString "verified-complete");
       ("transitionRangeProofDigest", VString (ev_transitionRangeProofDigest ev));
       ("historicalIntervalStatus", VString "verified"); ("applicationCutoffStatus", VString "verified");
       ("policyConsistencyStatus", VString "verified");
       ("policyConsistencyEvidenceDigest", VString (ev_policyConsistencyEvidenceDigest ev));
       ("verifiedAt", VString (rq_verifiedAt r)); ("evidenceDigest", VString (ev_evidenceDigest ev))].

(** The commit clears the requirement, or the message does. *)
Definition cleared_by (c : StoredEnvelopeCommon) : ConversationPolicyReplayEvidence :=
  evidence_of [moved (rq_pageEndPolicy request) c].
Definition replayed : ConversationPolicyReplayEvidence := Eval vm_compute in cleared_by join.
End ReplaySample.

(** A message before the requirement is cleared is refused, and so is evidence
    that leaves the transition out. *)
Example message_past_cutoff :
  @parseConversationPolicyReplayEvidence fips_sha256
    (ReplaySample.evidence_obj (ReplaySample.cleared_by PageSample.message)) ReplaySample.request
  = Throw ConversationSyncValidationError.
Proof. vm_compute. reflexivity. Qed.
Example transition_left_out :
  @parseConversationPolicyReplayEvidence fips_sha256
    (ReplaySample.evidence_obj (@ReplaySample.evidence_of [])) ReplaySample.request
  = Throw ConversationSyncValidationError.
Proof. vm_compute. reflexivity. Qed.

Lemma replay_cutoffs_witness :
  @parseConversationPolicyReplayEvidence fips_sha256 (ReplaySample.evidence_obj ReplaySample.replayed)
    ReplaySample.request = Ok ReplaySample.replayed ∧
  reached (toPolicyReplayProjection ReplaySample.startPolicy) [] = [ReplaySample.addition] ∧
  reached (toPolicyReplayProjection ReplaySample.startPolicy) (ev_transitions ReplaySample.replayed) = [].
Proof.
  assert (H : @parseConversationPolicyReplayEvidence fips_sha256 (ReplaySample.evidence_obj ReplaySample.replayed)
    ReplaySample.request = Ok ReplaySample.replayed) by (vm_compute; reflexivity).
  split; [exact H|]. split; [reflexivity|].
  destruct (@replay_cutoffs fips_sha256 (ReplaySample.evidence_obj ReplaySample.replayed) PageSample.both
    ReplaySample.origin ReplaySample.startPolicy ReplaySample.highWater "2026-07-19T00:00:02.000Z" "realm-1" "1"
    "profile-1" sample_hash sample_hash ReplaySample.replayed H) as (_ & HR & _). exact HR.
Defined.
