(* ===== verification/Idempotency.v ===== *)
(** * HTTP idempotency ([src/production/delivery/idempotency.ts])

    The normalized request a mutation commits to, its commitment digest, and
    the classification of a repeated idempotency key. *)

From stdpp Require Import base list strings.
From Stdlib Require Import ZArith Lia Ascii.
From S2P Require Import Prelude Sha256 Base64Url JsTime JsValue ValueObjects Hashes.

Definition IDEMPOTENCY_REQUEST_COMMITMENT_DOMAIN : string := "jb-msg-idempotency-request/v1".
Definition SERVICE_JSON_MEDIA_TYPE : string := API_V1_MEDIA_TYPE.
Definition MAX_IDEMPOTENCY_RAW_BODY_BYTES : Z := 1024 * 1024.

(** ** Patterns *)

Definition SLASH : ascii := "/"%char.

(** The parts of a text between slashes. *)
Fixpoint splitSlash (cs : list ascii) : list (list ascii) :=
  match cs with
  | [] => [[]]
  | c :: cs =>
      if is_char c SLASH then [] :: splitSlash cs
      else match splitSlash cs with [] => [[c]] | s :: ss => (c :: s) :: ss end
  end.

(** [[a-z0-9][a-z0-9-]*] and [\{[a-z][A-Za-z0-9]*\}]. *)
Definition literalSegment (cs : list ascii) : bool :=
  match cs with
  | [] => false
  | c :: rest =>
      (is_lower c || is_digit c) && forallb (λ c, is_lower c || is_digit c || is_char c "-"%char) rest
  end.
Definition parameterSegment (cs : list ascii) : bool :=
  match cs with
  | o :: c :: rest =>
      match rev rest with
      | e :: inner =>
          is_char o "{"%char && is_lower c
          && forallb (λ c, is_lower c || is_upper c || is_digit c) inner && is_char e "}"%char
      | [] => false
      end
  | _ => false
  end.
Definition ROUTE_TEMPLATE (cs : list ascii) : bool :=
  match cs with
  | a :: b :: c :: rest =>
      is_char a SLASH && is_char b "v"%char && is_char c "1"%char &&
      match rest with
      | [] => true
      | d :: rest =>
          is_char d SLASH && forallb (λ s, literalSegment s || parameterSegment s) (splitSlash rest)
      end
  | _ => false
  end.

(** ** The request *)

Inductive MutationMethod := POST | PUT | PATCH | DELETE.
#[export] Instance MutationMethod_eq_dec : EqDecision MutationMethod.
Proof. solve_decision. Defined.
Definition method_string (m : MutationMethod) : string :=
  match m with POST => "POST" | PUT => "PUT" | PATCH => "PATCH" | DELETE => "DELETE" end.

(** The media type, the empty query string and the absent content encoding
    have one value each. *)
Record ParsedIdempotencyRequestCommitmentInput := {
  r_method : MutationMethod;
  r_routeTemplate : string;
  r_resourceId : string;
  r_ifMatch : string;
  r_rawBodyBytes : bytes;
}.

Inductive HttpIdempotencyClassification := http_miss | http_exact_replay | http_conflict.

Definition refuseInput (b : bool) : result unit := throw_if b IdempotencyValidationError.

Definition parseMutationMethod (value : unknown) : result MutationMethod :=
  match literal_of method_string [POST; PUT; PATCH; DELETE] value with
  | Some m => Ok m
  | None => Throw IdempotencyValidationError
  end.

Definition parseRouteTemplate (value : unknown) : result string :=
  match value with
  | VString s =>
      refuseInput ((strlen s <? 4) || (256 <? strlen s) || negb (ROUTE_TEMPLATE (chars s)));; Ok s
  | _ => Throw IdempotencyValidationError
  end.

(** [CANONICAL_UUID] is the two versions' patterns as one. *)
Definition parseCanonicalResourceId (value : unknown) : result string :=
  match value with
  | VString s => refuseInput ((s !== "") && negb (matches UUID_V4 s || matches UUID_V7 s));; Ok s
  | _ => Throw IdempotencyValidationError
  end.

Definition parseIdempotencyRequestCommitmentInput (value : unknown) :
  result ParsedIdempotencyRequestCommitmentInput :=
  record ← expectExactRecord value
    ["method"; "routeTemplate"; "resourceId"; "mediaType"; "ifMatch"; "rawBodyBytes"; "queryString";
     "contentEncoding"];
  method ← parseMutationMethod record.["method"];
  routeTemplate ← parseRouteTemplate record.["routeTemplate"];
  resourceId ← parseCanonicalResourceId record.["resourceId"];
  refuseInput (negb (isString record.["mediaType"] SERVICE_JSON_MEDIA_TYPE));;
  ifMatch ← if isString record.["ifMatch"] "" then Ok "" else parseConversationEtag record.["ifMatch"];
  refuseInput (negb (isString record.["queryString"] ""));;
  refuseInput (negb (isNull record.["contentEncoding"]));;
  rawBodyBytes ← copyBytes record.["rawBodyBytes"] MAX_IDEMPOTENCY_RAW_BODY_BYTES;
  Ok {| r_method := method; r_routeTemplate := routeTemplate; r_resourceId := resourceId;
        r_ifMatch := ifMatch; r_rawBodyBytes := rawBodyBytes |}.

(** What is length-prefixed, in order. *)
Definition commitmentItems (r : ParsedIdempotencyRequestCommitmentInput) : list bytes :=
  [utf8 (method_string (r_method r)); utf8 (r_routeTemplate r); utf8 (r_resourceId r);
   utf8 SERVICE_JSON_MEDIA_TYPE; utf8 (r_ifMatch r); r_rawBodyBytes r].

Definition computeIdempotencyRequestCommitment `{Sha256} (value : unknown) : result Hash32 :=
  parsed ← parseIdempotencyRequestCommitmentInput value;
  body ← canonicalLengthPrefixed (commitmentItems parsed);
  sha256Bytes [utf8 IDEMPOTENCY_REQUEST_COMMITMENT_DOMAIN; body].

(** [VUndefined] stands for a key that was never stored. *)
Definition classifyHttpIdempotencyCommitment (storedCommitment candidateCommitment : unknown) :
  result HttpIdempotencyClassification :=
  candidate ← parseHash32 candidateCommitment;
  if isUndefined storedCommitment then Ok http_miss else
  stored ← parseHash32 storedCommitment;
  Ok (if stored === candidate then http_exact_replay else http_conflict).

(** ** What is accepted *)

Definition valid_request (r : ParsedIdempotencyRequestCommitmentInput) : bool :=
  (4 <=? strlen (r_routeTemplate r)) && (strlen (r_routeTemplate r) <=? 256)
  && ROUTE_TEMPLATE (chars (r_routeTemplate r))
  && ((r_resourceId r === "") || matches UUID_V4 (r_resourceId r) || matches UUID_V7 (r_resourceId r))
  && ((r_ifMatch r === "") || is_etag (r_ifMatch r))
  && (byteLength (r_rawBodyBytes r) <=? MAX_IDEMPOTENCY_RAW_BODY_BYTES).
Definition request_fields (r : ParsedIdempotencyRequestCommitmentInput) : list (string * unknown) :=
  [("method", VString (method_string (r_method r))); ("routeTemplate", VString (r_routeTemplate r));
   ("resourceId", VString (r_resourceId r)); ("mediaType", VString SERVICE_JSON_MEDIA_TYPE);
   ("ifMatch", VString (r_ifMatch r)); ("rawBodyBytes", VBytes (r_rawBodyBytes r));
   ("queryString", VString ""); ("contentEncoding", VNull)].
Definition request_obj (r : ParsedIdempotencyRequestCommitmentInput) : unknown := obj (request_fields r).

Lemma parseMutationMethod_Ok v m : parseMutationMethod v = Ok m ↔ v = VString (method_string m).
Proof.
  split; [|intros ->; by destruct m]. unfold parseMutationMethod.
  destruct (literal_of _ _ _) as [m'|] eqn:E; [|done]. intros [= ->].
  by apply List.find_some in E as [_ E%isString_eq].
Qed.

Lemma parseRouteTemplate_Ok v s :
  parseRouteTemplate v = Ok s ↔
  v = VString s ∧ (4 <=? strlen s) && (strlen s <=? 256) && ROUTE_TEMPLATE (chars s) = true.
Proof.
  unfold parseRouteTemplate, refuseInput. split.
  - destruct v; try discriminate. intros H. inv_result. bsimp. subst. split; [done|].
    rewrite Hx0. lia.
  - intros [-> H]. bsimp. rewrite H0. destruct (_ || _ || _) eqn:E; [lia|done].
Qed.

Lemma parseCanonicalResourceId_Ok v s :
  parseCanonicalResourceId v = Ok s ↔
  v = VString s ∧ (s === "") || matches UUID_V4 s || matches UUID_V7 s = true.
Proof.
  unfold parseCanonicalResourceId, refuseInput. split.
  - destruct v; try discriminate. intros H. inv_result. subst. split; [done|].
    by destruct (s === ""), (matches UUID_V4 s), (matches UUID_V7 s).
  - intros [-> H]. by destruct (s === ""), (matches UUID_V4 s), (matches UUID_V7 s).
Qed.

Lemma is_etag_nonempty s : is_etag s = true → s ≠ "".
Proof. by intros H ->. Qed.

Lemma ifMatch_Ok v s :
  (if isString v "" then Ok "" else parseConversationEtag v) = Ok s ↔
  v = VString s ∧ (s === "") || is_etag s = true.
Proof.
  destruct (isString v "") eqn:E.
  - apply isString_eq in E as ->. split; [by intros [= <-]|by intros [[= <-] _]].
  - rewrite parseConversationEtag_Ok. split.
    + intros [-> ->]. by rewrite orb_true_r.
    + intros [-> [H|H]%orb_true_iff]; [|done]. exfalso. apply bool_decide_eq_true in H as ->. discriminate E.
Qed.

Lemma parseIdempotencyRequestCommitmentInput_Ok v r :
  parseIdempotencyRequestCommitmentInput v = Ok r ↔
  valid_request r = true ∧
  ∃ rec, expectExactRecord v (request_fields r).*1 = Ok rec ∧ reads rec (request_fields r).
Proof.
  unfold parseIdempotencyRequestCommitmentInput, valid_request, refuseInput. split.
  - intros H. inv_result. subst.
    cbn [r_method r_routeTemplate r_resourceId r_ifMatch r_rawBodyBytes].
    apply parseMutationMethod_Ok in Hx0. apply parseRouteTemplate_Ok in Hx1 as [? Hr].
    apply parseCanonicalResourceId_Ok in Hx2 as [? Hi]. apply ifMatch_Ok in Hx4 as [? He].
    apply negb_false_iff, isString_eq in Hx3, Hx5. apply negb_false_iff in Hx6.
    unfold copyBytes in Hx7. inv_result. destruct (x.["rawBodyBytes"]) eqn:EB; try done. inv_result. subst.
    rewrite Hr, Hi, He. unfold byteLength.
    match goal with H : (_ <? _) = false |- _ => apply Z.ltb_ge, Z.leb_le in H as HB end.
    split; [by rewrite HB|]. exists x. split; [done|].
    repeat (constructor; [done|]). constructor; [by destruct (x.["contentEncoding"])|constructor].
  - intros [HV (rec & HR & HF)]. unfold reads, request_fields in HF. rewrite !Forall_cons in HF.
    change ((request_fields r).*1) with ["method"; "routeTemplate"; "resourceId"; "mediaType"; "ifMatch";
      "rawBodyBytes"; "queryString"; "contentEncoding"] in HR.
    rewrite HR. cbn [mbind result_bind].
    destruct HF as (HF1 & HF2 & HF3 & HF4 & HF5 & HF6 & HF7 & HF8 & _).
    rewrite HF1, HF2, HF3, HF4, HF5, HF6, HF7, HF8.
    rewrite !andb_true_iff in HV. destruct HV as (((((H4 & H256) & HT) & HI) & HE) & HB).
    rewrite (proj2 (parseMutationMethod_Ok _ (r_method r))) by done. cbn [mbind result_bind].
    rewrite (proj2 (parseRouteTemplate_Ok _ (r_routeTemplate r))) by (by rewrite H4, H256, HT).
    cbn [mbind result_bind]. rewrite (proj2 (parseCanonicalResourceId_Ok _ (r_resourceId r))) by done.
    cbn [mbind result_bind]. rewrite (proj2 (isString_eq _ SERVICE_JSON_MEDIA_TYPE)) by done.
    cbn [negb throw_if mbind result_bind]. rewrite (proj2 (ifMatch_Ok (VString (r_ifMatch r)) (r_ifMatch r))) by done.
    cbn [mbind result_bind isString isNull negb throw_if]. rewrite bool_decide_eq_true_2 by done.
    cbn [mbind result_bind negb throw_if]. unfold copyBytes.
    change ((_ <? 0) || (_ <? MAX_IDEMPOTENCY_RAW_BODY_BYTES)) with false. cbn [throw_if mbind result_bind].
    unfold byteLength in HB. apply Z.leb_le, Z.ltb_ge in HB. rewrite HB. by destruct r.
Qed.

Section Commitments.
Context `{SHA : Sha256}.

Definition commitmentPreimage (r : ParsedIdempotencyRequestCommitmentInput) : bytes :=
  utf8 IDEMPOTENCY_REQUEST_COMMITMENT_DOMAIN ++ lps (commitmentItems r).

Lemma etag_short s : is_etag s = true → strlen s <= 64.
Proof.
  unfold is_etag. destruct (matchConversationEtag _) as [[e r]|] eqn:E; [|done].
  apply matchConversationEtag_spec in E as (HE & He & Hr). intros H. bsimp.
  assert (HL : ∀ cs, UINT63 cs = true → num cs <= UINT63_MAX → (length cs <= 19)%nat).
  { intros cs HU HN. destruct (Nat.le_gt_cases (length cs) 19) as [|HL]; [done|].
    pose proof (UINT63_long cs HU ltac:(lia)).
    assert (10 ^ 19 <= 10 ^ Z.of_nat (length cs - 1)) by (apply Z.pow_le_mono_r; lia).
    unfold UINT63_MAX in *. lia. }
  pose proof (HL e He ltac:(lia)). pose proof (HL r Hr ltac:(lia)).
  unfold strlen. rewrite <- length_chars, HE. cbn [length]. rewrite length_app. cbn [length].
  rewrite length_app. cbn [length]. lia.
Qed.

Lemma items_fit r : valid_request r = true → Forall (fits 1048576) (commitmentItems r).
Proof.
  unfold valid_request. rewrite !andb_true_iff. intros (((((H4 & H256) & HT) & HI) & HE) & HB).
  assert (HS : ∀ s, strlen s <= 256 → fits 1048576 (utf8 s)).
  { intros s HL. unfold fits. pose proof (utf8_length s). lia. }
  assert (HU : ∀ p s, length p = 36%nat → matches p s = true → strlen s <= 256).
  { intros p s HL HM%match_classes_length. unfold strlen. rewrite <- length_chars. lia. }
  unfold commitmentItems. repeat constructor.
  - destruct (r_method r); by vm_compute.
  - apply HS. lia.
  - apply HS. apply orb_true_iff in HI as [[HI|HI]%orb_true_iff|HI].
    + apply bool_decide_eq_true in HI as ->. by vm_compute.
    + by eapply HU; [|exact HI].
    + by eapply HU; [|exact HI].
  - by vm_compute.
  - apply HS. apply orb_true_iff in HE as [HE|HE].
    + apply bool_decide_eq_true in HE as ->. by vm_compute.
    + apply etag_short in HE. lia.
  - unfold fits, MAX_IDEMPOTENCY_RAW_BODY_BYTES in *. lia.
Qed.

(** Every accepted request has a commitment, the digest of its preimage. *)
Lemma computeIdempotencyRequestCommitment_eq v r :
  parseIdempotencyRequestCommitmentInput v = Ok r →
  computeIdempotencyRequestCommitment v = Ok (base64url_encode (sha256 (commitmentPreimage r))).
Proof.
  intros HP. assert (HV := HP). apply parseIdempotencyRequestCommitmentInput_Ok in HV as [HV _].
  pose proof (items_fit r HV) as HF. pose proof (lps_length _ _ HF) as HL. simpl length in HL.
  unfold computeIdempotencyRequestCommitment. rewrite HP. cbn [mbind result_bind].
  rewrite canonicalLengthPrefixed_eq; [|eapply Forall_impl; [exact HF|intros x; by apply fits_mono]
    |unfold fits, U32_MAX; lia].
  cbn [mbind result_bind]. rewrite sha256Bytes_eq; [by cbn; rewrite app_nil_r|].
  repeat constructor; [by vm_compute|]. unfold fits, DEFAULT_MAX_BASE64URL_BYTES. lia.
Qed.

Lemma method_string_inj m m' : method_string m = method_string m' → m = m'.
Proof. by destruct m, m'. Qed.

Lemma commitmentPreimage_inj r r' :
  valid_request r = true → valid_request r' = true →
  commitmentPreimage r = commitmentPreimage r' → r = r'.
Proof.
  intros HV HV' H%app_inj_1; [|done]. destruct H as [_ H].
  apply lps_inj in H; [|eapply Forall_impl; [by apply items_fit|intros x; by apply fits_mono]..].
  injection H as HM HT HI HE HB. apply utf8_inj in HM, HT, HI, HE. apply method_string_inj in HM.
  destruct r, r'; cbn in *. congruence.
Qed.

(** Idempotency is exact: against the commitment stored for a key, a request is
    answered as a replay when it is the stored request in method, route,
    resource, If-Match and raw body bytes, and as a conflict when it is any
    other request, unless the two requests exhibit a SHA-256 collision. *)
Theorem idempotency_classification v w r r' h h' :
  parseIdempotencyRequestCommitmentInput v = Ok r → parseIdempotencyRequestCommitmentInput w = Ok r' →
  computeIdempotencyRequestCommitment v = Ok h → computeIdempotencyRequestCommitment w = Ok h' →
  classifyHttpIdempotencyCommitment VUndefined (VString h') = Ok http_miss ∧
  (r = r' → classifyHttpIdempotencyCommitment (VString h) (VString h') = Ok http_exact_replay) ∧
  (r ≠ r' → classifyHttpIdempotencyCommitment (VString h) (VString h') = Ok http_conflict ∨
            collision [commitmentPreimage r] [commitmentPreimage r']).
Proof.
  intros HP HP' HC HC'. rewrite (computeIdempotencyRequestCommitment_eq _ _ HP) in HC.
  rewrite (computeIdempotencyRequestCommitment_eq _ _ HP') in HC'. injection HC as <-. injection HC' as <-.
  apply parseIdempotencyRequestCommitmentInput_Ok in HP as [HV _], HP' as [HV' _].
  assert (HH : ∀ x, parseHash32 (VString (base64url_encode (sha256 x))) = Ok (base64url_encode (sha256 x))).
  { intros x. apply parseHash32_Ok. split; [done|]. apply is_hash32_encode, sha256_length. }
  unfold classifyHttpIdempotencyCommitment. rewrite !HH. cbn [mbind result_bind isUndefined].
  split_and!; [done| |].
  - intros <-. by rewrite bool_decide_eq_true_2.
  - intros HN. destruct (bool_decide_reflect (base64url_encode (sha256 (commitmentPreimage r))
      = base64url_encode (sha256 (commitmentPreimage r')))) as [E|_]; [|by left].
    apply digest_inj in E as [E|HC]; [|by right]. exfalso. by apply HN, commitmentPreimage_inj.
Qed.
End Commitments.

(** The parser accepts exactly the well-formed requests: an allowlisted method,
    a canonical bounded route template, an empty or UUID resource, an exact
    If-Match or none, the service media type, no query string and no content
    encoding, and a body of at most one mebibyte. *)
Theorem parseIdempotencyRequestCommitmentInput_spec r :
  (∃ v, parseIdempotencyRequestCommitmentInput v = Ok r) ↔ valid_request r = true.
Proof.
  split; [by intros [v [HV _]%parseIdempotencyRequestCommitmentInput_Ok]|].
  intros HV. exists (request_obj r). apply parseIdempotencyRequestCommitmentInput_Ok. split; [done|].
  apply expectExactRecord_reads; [done|by apply nodup_keys|by repeat constructor].
Qed.

(** ** Evaluations *)

Definition sample_request (body : string) : ParsedIdempotencyRequestCommitmentInput := {|
  r_method := POST; r_routeTemplate := "/v1/conversations/{conversationId}/envelopes";
  r_resourceId := sample_conversation; r_ifMatch := etag_text (chars "3") (chars "3");
  r_rawBodyBytes := utf8 body |}.
Definition sample_commitment_of (body : string) : Hash32 :=
  valueOf "" (@computeIdempotencyRequestCommitment fips_sha256 (request_obj (sample_request body))).

Example route_templates :
  map (λ s, ROUTE_TEMPLATE (chars s))
    ["/v1"; "/v1/a-b/{cD}"; "/v1/"; "/v1/{C}"; "/v1/-a"; "/v2/a"; "/v1/a?b=c"]
  = [true; true; false; false; false; false; false].
Proof. vm_compute. reflexivity. Qed.

Lemma idempotency_classification_witness :
  classifyHttpIdempotencyCommitment (VString (sample_commitment_of "a")) (VString (sample_commitment_of "b"))
    = Ok http_conflict ∨
  @collision fips_sha256 [commitmentPreimage (sample_request "a")] [commitmentPreimage (sample_request "b")].
Proof.
  refine (proj2 (proj2 (@idempotency_classification fips_sha256 (request_obj (sample_request "a"))
    (request_obj (sample_request "b")) (sample_request "a") (sample_request "b")
    (sample_commitment_of "a") (sample_commitment_of "b") _ _ _ _)) _);
    [vm_compute; reflexivity..|discriminate].
Defined.
