(* ===== verification/Relay.v ===== *)
(** * Relay routing ([src/production/relay/relayFormat.ts])

    The text a member sees in a flat channel, and the conversation a reply is
    sent to.  Text is a list of UTF-16 code units. *)

From stdpp Require Import base list strings.
From Stdlib Require Import ZArith Lia Ascii.
From S2P Require Import Prelude Base64Url JsTime JsValue ValueObjects CanonicalJson StrictJson.

(** A literal of the source as code units. *)
Definition lit_units (s : string) : units := units_of (chars s).

Record RelayEnvelopeContext := {
  projectName : option units;
  projectId : units;
  senderRole : units;
  tag : units;
}.

(** A relayed conversation: its identifier and its context. *)
Record RelayedConversation := {
  conversationId : units;
  context : RelayEnvelopeContext;
}.

Inductive InboundRoute :=
| route_send (conversationId : units) (text : units)
| route_prompt (options : list RelayEnvelopeContext)
| route_ignore.

Definition EM_DASH : Z := 8212.

Definition projectLabel (c : RelayEnvelopeContext) : units :=
  default (lit_units "Project #" ++ projectId c) (projectName c).

Definition renderOutbound (context : RelayEnvelopeContext) (text : units) : units :=
  let project := projectLabel context in
  let who := if bool_decide (senderRole context = lit_units "customer")
             then lit_units "Customer" else lit_units "Team" in
  lit_units "[" ++ tag context ++ lit_units "] " ++ project ++ lit_units " " ++ [EM_DASH]
    ++ lit_units " " ++ who ++ lit_units ":" ++ [10] ++ text.

Definition conversationTag (conversationId : units) : units :=
  take 4 (List.filter (λ z, negb (z =? 45)) conversationId).

(** The characters [trim] and [\s] remove. *)
Definition is_white (z : Z) : bool :=
  ((9 <=? z) && (z <=? 13)) || (z =? 32) || (z =? 160) || (z =? 5760)
  || ((8192 <=? z) && (z <=? 8202)) || (z =? 8232) || (z =? 8233) || (z =? 8239)
  || (z =? 8287) || (z =? 12288) || (z =? 65279).

Fixpoint trimStart (cs : units) : units :=
  match cs with
  | c :: rest => if is_white c then trimStart rest else cs
  | [] => []
  end.
Definition trim (cs : units) : units := rev (trimStart (rev (trimStart cs))).

Definition is_hex_unit (z : Z) : bool :=
  ((48 <=? z) && (z <=? 57)) || ((65 <=? z) && (z <=? 70)) || ((97 <=? z) && (z <=? 102)).
Definition lowerUnit (z : Z) : Z := if (65 <=? z) && (z <=? 90) then z + 32 else z.

(** The groups of [/^\[([0-9a-f]{4})\]\s*([\s\S]+)$/i]: white space is skipped,
    but the second group keeps one character. *)
Definition matchTagged (cs : units) : option (units * units) :=
  match cs with
  | o :: a :: b :: c :: d :: e :: rest =>
      if (o =? 91) && is_hex_unit a && is_hex_unit b && is_hex_unit c && is_hex_unit d && (e =? 93)
      then match trimStart rest, rev rest with
           | _, [] => None
           | [], l :: _ => Some ([a; b; c; d], [l])
           | r, _ => Some ([a; b; c; d], r)
           end
      else None
  | _ => None
  end.

(** [trimmed.startsWith("/")]. *)
Definition startsWithSlash (cs : units) : bool := match cs with c :: _ => c =? 47 | [] => false end.

Definition routeInbound (text : units) (conversations : list RelayedConversation) : InboundRoute :=
  let trimmed := trim text in
  if Nat.eqb (length trimmed) 0 || startsWithSlash trimmed then route_ignore else
  let tagged :=
    match matchTagged trimmed with
    | None => None
    | Some (t, rest) =>
        (λ c, (c, rest)) <$>
        List.find (λ c, bool_decide (conversationTag (conversationId c) = map lowerUnit t)) conversations
    end in
  match tagged with
  | Some (c, rest) => route_send (conversationId c) (trim rest)
  | None =>
      match conversations with
      | [c] => route_send (conversationId c) trimmed
      | [] => route_ignore
      | _ => route_prompt (map context conversations)
      end
  end.

(** [lines.join("\n")]. *)
Fixpoint joinLines (ls : list units) : units :=
  match ls with
  | [] => []
  | [l] => l
  | l :: ls => l ++ 10 :: joinLines ls
  end.

(** With no option the source throws on [options[0].tag]. *)
Definition renderPrompt (options : list RelayEnvelopeContext) : result units :=
  match options with
  | [] => Throw TypeError
  | o :: _ =>
      Ok (joinLines
        (lit_units "You have several relayed chats. Start your reply with the tag:"
         :: map (λ option, lit_units "[" ++ tag option ++ lit_units "] " ++ projectLabel option) options
         ++ [lit_units "e.g. " ++ [34] ++ lit_units "[" ++ tag o ++ lit_units "] on my way" ++ [34]]))
  end.

(** ** Trimming *)

Definition ends_solid (cs : units) : Prop :=
  match rev cs with [] => True | c :: _ => is_white c = false end.

Lemma trimStart_suffix cs : ∃ w, cs = w ++ trimStart cs ∧ forallb is_white w = true.
Proof.
  induction cs as [|c cs (w & Hw & HF)]; [by exists []|]. cbn. destruct (is_white c) eqn:E.
  - exists (c :: w). cbn. by rewrite E, HF, <- Hw.
  - by exists [].
Qed.

Lemma trimStart_head cs c r : trimStart cs = c :: r → is_white c = false.
Proof. induction cs as [|x cs IH]; [done|]. cbn. destruct (is_white x) eqn:E; [done|]. by intros [= -> _]. Qed.

Lemma trimStart_solid c cs : is_white c = false → trimStart (c :: cs) = c :: cs.
Proof. cbn. by intros ->. Qed.

Lemma trimStart_white w cs : forallb is_white w = true → trimStart (w ++ cs) = trimStart cs.
Proof. induction w as [|c w IH]; [done|]. cbn. intros [-> HF]%andb_true_iff. by apply IH. Qed.

Lemma trimStart_idem cs : trimStart (trimStart cs) = trimStart cs.
Proof. destruct (trimStart cs) as [|c r] eqn:E; [done|]. by apply trimStart_solid, (trimStart_head cs c r). Qed.

Lemma trim_ends cs : ends_solid (trim cs).
Proof.
  unfold ends_solid, trim. rewrite rev_involutive.
  destruct (trimStart (rev _)) as [|c r] eqn:E; [done|]. by eapply trimStart_head.
Qed.

(** Text without white space at either end is its own trim. *)
Lemma trim_solid cs :
  match cs with [] => True | c :: _ => is_white c = false end → ends_solid cs → trim cs = cs.
Proof.
  intros Hs He. unfold trim, ends_solid in *.
  assert (HS : trimStart cs = cs) by (destruct cs; [done|by apply trimStart_solid]). rewrite HS.
  destruct (rev cs) as [|c r] eqn:E; [by rewrite <- (rev_involutive cs), E|].
  rewrite trimStart_solid by done. by rewrite <- E, rev_involutive.
Qed.

Lemma trim_cons c cs :
  is_white c = false → trim (c :: cs) = c :: rev (trimStart (rev cs)).
Proof.
  intros Hc. unfold trim. rewrite trimStart_solid by done. cbn [rev].
  destruct (trimStart_suffix (rev cs)) as (w & Hw & HF).
  rewrite Hw at 1. rewrite <- app_assoc, trimStart_white by done.
  destruct (trimStart (rev cs)) as [|x r] eqn:E.
  - cbn [app]. by rewrite trimStart_solid.
  - rewrite <- app_comm_cons, trimStart_solid by by eapply trimStart_head.
    rewrite app_comm_cons, rev_app_distr. done.
Qed.

Definition trimEnd (cs : units) : units := rev (trimStart (rev cs)).

Lemma trimStart_app xs ys : trimStart xs ≠ [] → trimStart (xs ++ ys) = trimStart xs ++ ys.
Proof. induction xs as [|x xs IH]; [done|]. cbn. by destruct (is_white x). Qed.

Lemma trimEnd_app xs ys : trimEnd ys ≠ [] → trimEnd (xs ++ ys) = xs ++ trimEnd ys.
Proof.
  unfold trimEnd. intros HN. rewrite rev_app_distr, trimStart_app.
  - by rewrite rev_app_distr, rev_involutive.
  - by intros E; rewrite E in HN.
Qed.

Lemma trimEnd_cons c cs : is_white c = false → ∃ r, trimEnd (c :: cs) = c :: r.
Proof.
  intros Hc. pose proof (trim_cons c cs Hc) as HT. unfold trim in HT.
  rewrite trimStart_solid in HT by done. unfold trimEnd. eauto.
Qed.

Lemma trimEnd_white w : forallb is_white w = true → trimEnd w = [].
Proof.
  intros H. unfold trimEnd. rewrite <- (app_nil_r (rev w)), trimStart_white; [done|].
  rewrite forallb_forall in H |- *. intros x Hx. apply H. by apply in_rev.
Qed.

Lemma trimStart_trimEnd cs : trimStart (trimEnd cs) = trim cs.
Proof.
  unfold trim. fold (trimEnd (trimStart cs)).
  destruct (trimStart_suffix cs) as (w & Hw & HF). destruct (trimStart cs) as [|c r] eqn:E.
  - rewrite app_nil_r in Hw. subst. by rewrite trimEnd_white.
  - pose proof (trimStart_head cs c r E) as Hc. rewrite Hw.
    destruct (trimEnd_cons c r Hc) as (r' & Hr). rewrite trimEnd_app by by rewrite Hr.
    rewrite Hr, trimStart_white by done. by apply trimStart_solid.
Qed.

Lemma trim_trim cs : trim (trim cs) = trim cs.
Proof.
  apply trim_solid; [|apply trim_ends]. rewrite <- trimStart_trimEnd.
  destruct (trimStart (trimEnd cs)) as [|c r] eqn:E; [done|]. by eapply trimStart_head.
Qed.

(** ** Routing *)

(** A tag in the form [conversationTag] gives for a UUID. *)
Definition is_tag (t : units) : Prop :=
  length t = 4%nat ∧ Forall (λ z, is_hex_unit z = true ∧ lowerUnit z = z) t.

Lemma is_tag_spec t :
  Nat.eqb (length t) 4 && forallb (λ z, is_hex_unit z && (lowerUnit z =? z)) t = true → is_tag t.
Proof.
  intros [HL%Nat.eqb_eq HF]%andb_true_iff. split; [done|]. apply Forall_forall. intros z Hz.
  rewrite forallb_forall in HF. specialize (HF z (proj1 (list_elem_of_In _ _) Hz)). split_orb. split; [done|lia].
Qed.

Lemma find_first {A} (p : A → bool) xs y ys :
  Forall (λ x, p x = false) xs → p y = true → List.find p (xs ++ y :: ys) = Some y.
Proof. intros HF Hy. induction HF as [|x xs Hx _ IH]; cbn; [by rewrite Hy|by rewrite Hx]. Qed.

(** A tagged reply goes to the first conversation with the tag. *)
Lemma routeInbound_tagged before c after t text :
  is_tag t → conversationTag (conversationId c) = t →
  Forall (λ c', conversationTag (conversationId c') ≠ t) before → trim text ≠ [] →
  routeInbound (lit_units "[" ++ t ++ lit_units "] " ++ text) (before ++ c :: after)
    = route_send (conversationId c) (trim text).
Proof.
  intros [HL HF] Hc Hb HT. destruct t as [|h1 [|h2 [|h3 [|h4 [|]]]]]; try done.
  rewrite !Forall_cons in HF. destruct HF as ([X1 L1] & [X2 L2] & [X3 L3] & [X4 L4] & _).
  assert (HE : trimEnd text ≠ []).
  { intros E. apply HT. by rewrite <- trimStart_trimEnd, E. }
  assert (HTr : trim (lit_units "[" ++ [h1; h2; h3; h4] ++ lit_units "] " ++ text)
    = 91 :: h1 :: h2 :: h3 :: h4 :: 93 :: 32 :: trimEnd text).
  { change (lit_units "[" ++ _) with (91 :: ([h1; h2; h3; h4; 93; 32] ++ text)).
    rewrite trim_cons by done. fold (trimEnd ([h1; h2; h3; h4; 93; 32] ++ text)).
    by rewrite trimEnd_app. }
  unfold routeInbound. rewrite HTr. cbn [length Nat.eqb orb startsWithSlash]. change (91 =? 47) with false. cbv iota.
  assert (HM : matchTagged (91 :: h1 :: h2 :: h3 :: h4 :: 93 :: 32 :: trimEnd text)
    = Some ([h1; h2; h3; h4], trim text)).
  { unfold matchTagged. rewrite X1, X2, X3, X4. change ((91 =? 91) && _ && _ && _ && _ && (93 =? 93)) with true.
    cbv iota. cbn [trimStart]. change (is_white 32) with true. cbv iota. rewrite trimStart_trimEnd.
    destruct (trim text) as [|x r] eqn:E; [done|]. cbn [rev].
    destruct (rev (trimEnd text) ++ [32]) as [|y l] eqn:E'; [by destruct (rev (trimEnd text))|done]. }
  rewrite HM. cbv beta iota. cbn [map]. rewrite L1, L2, L3, L4, (find_first _ before c after).
  - cbn. by rewrite trim_trim.
  - eapply Forall_impl; [exact Hb|]. intros x Hx. cbn in Hx. by apply bool_decide_eq_false.
  - by apply bool_decide_eq_true.
Qed.

(** With distinct tags, every conversation is reached by its tag, with exactly
    the trimmed text that follows it. *)
Theorem reply_reaches_conversation cs c text :
  NoDup (map (λ c, conversationTag (conversationId c)) cs) → c ∈ cs →
  is_tag (conversationTag (conversationId c)) → trim text ≠ [] →
  routeInbound (lit_units "[" ++ conversationTag (conversationId c) ++ lit_units "] " ++ text) cs
    = route_send (conversationId c) (trim text).
Proof.
  intros HN (before & after & ->)%list_elem_of_split Ht HT.
  apply routeInbound_tagged; [done|done| |done].
  rewrite map_app in HN. apply NoDup_app in HN as (_ & HN & _).
  apply Forall_forall. intros c' Hc' E. apply (HN (conversationTag (conversationId c))).
  - apply list_elem_of_In, in_map_iff. exists c'. split; [done|by apply list_elem_of_In].
  - cbn. by left.
Qed.

(** A tag shared by two conversations is not disambiguated: the reply is sent
    to the first of them, and never prompts. *)
Theorem shared_tag_is_guessed before c middle c' after text :
  Forall (λ x, conversationTag (conversationId x) ≠ conversationTag (conversationId c)) before →
  conversationId c ≠ conversationId c' →
  conversationTag (conversationId c) = conversationTag (conversationId c') →
  is_tag (conversationTag (conversationId c)) → trim text ≠ [] →
  routeInbound (lit_units "[" ++ conversationTag (conversationId c') ++ lit_units "] " ++ text)
    (before ++ c :: middle ++ c' :: after) = route_send (conversationId c) (trim text).
Proof. intros HB _ <- Ht HT. by apply routeInbound_tagged. Qed.

(** What every answer means: a message is only ever sent to a relayed
    conversation, either the first one whose tag it names or the only one
    there is; several untagged conversations prompt with all of them; only
    empty text, commands and an empty relay are ignored. *)
Theorem routeInbound_sound text cs :
  match routeInbound text cs with
  | route_send id t =>
      ∃ c, c ∈ cs ∧ id = conversationId c ∧
        ((∃ h rest, matchTagged (trim text) = Some (h, rest) ∧ t = trim rest ∧
            conversationTag id = map lowerUnit h) ∨ (cs = [c] ∧ t = trim text))
  | route_prompt os =>
      os = map context cs ∧ (2 <= length cs)%nat ∧
      ∀ h rest, matchTagged (trim text) = Some (h, rest) →
        Forall (λ c, conversationTag (conversationId c) ≠ map lowerUnit h) cs
  | route_ignore => cs = [] ∨ trim text = [] ∨ ∃ r, trim text = 47 :: r
  end.
Proof.
  unfold routeInbound. destruct (trim text) as [|z r] eqn:ET; [by right; left|].
  cbn [length Nat.eqb orb startsWithSlash].
  destruct (Z.eqb_spec z 47) as [->|_]; [right; right; by exists r|].
  destruct (matchTagged (z :: r)) as [[h rest]|] eqn:EM.
  - destruct (List.find _ cs) as [c|] eqn:EF; cbn [fmap option_fmap option_map].
    + apply List.find_some in EF as [Hin HE]. apply bool_decide_eq_true in HE.
      exists c. split; [by apply list_elem_of_In|]. split; [done|]. left. eauto.
    + assert (HF : Forall (λ c, conversationTag (conversationId c) ≠ map lowerUnit h) cs).
      { apply Forall_forall. intros c Hc. apply list_elem_of_In in Hc.
        pose proof (List.find_none _ _ EF c Hc) as HX. by apply bool_decide_eq_false in HX. }
      destruct cs as [|c [|c' cs]]; [by left| |].
      * exists c. split; [by left|]. split; [done|by right].
      * split; [done|]. split; [cbn; lia|]. by intros ?? [= <- <-].
  - destruct cs as [|c [|c' cs]]; [by left| |].
    + exists c. split; [by left|]. split; [done|by right].
    + split; [done|]. split; [cbn; lia|]. done.
Qed.

(** ** Evaluations *)

Definition relayed (id : string) : RelayedConversation := {|
  conversationId := lit_units id;
  context := {| projectName := None; projectId := lit_units "7"; senderRole := lit_units "customer";
                tag := conversationTag (lit_units id) |} |}.
Definition inbox : list RelayedConversation :=
  [relayed "a1b2c3d4-0000-4000-8000-000000000001"; relayed "ffff0000-0000-4000-8000-000000000001"].
Definition twins : list RelayedConversation :=
  [relayed "a1b2c3d4-0000-4000-8000-000000000001"; relayed "a1b2ffff-0000-4000-8000-000000000001"].

Example routes :
  (routeInbound (lit_units " [FFFF]  on my way ") inbox, routeInbound (lit_units "hello") (take 1 inbox),
   routeInbound (lit_units "/start") inbox, routeInbound (lit_units "[dead] x") (take 1 inbox))
  = (route_send (lit_units "ffff0000-0000-4000-8000-000000000001") (lit_units "on my way"),
     route_send (lit_units "a1b2c3d4-0000-4000-8000-000000000001") (lit_units "hello"),
     route_ignore,
     route_send (lit_units "a1b2c3d4-0000-4000-8000-000000000001") (lit_units "[dead] x")).
Proof. vm_compute. reflexivity. Qed.

Lemma reply_reaches_conversation_witness :
  routeInbound (lit_units "[ffff] hi ") inbox
    = route_send (lit_units "ffff0000-0000-4000-8000-000000000001") (lit_units "hi").
Proof.
  refine (reply_reaches_conversation inbox (relayed "ffff0000-0000-4000-8000-000000000001")
    (lit_units "hi ") _ _ _ _).
  - apply (bool_decide_unpack _). vm_compute. exact I.
  - right. left.
  - by apply is_tag_spec.
  - discriminate.
Defined.

Lemma shared_tag_is_guessed_witness :
  routeInbound (lit_units "[a1b2] hi") twins
    = route_send (lit_units "a1b2c3d4-0000-4000-8000-000000000001") (lit_units "hi").
Proof.
  refine (shared_tag_is_guessed [] (relayed "a1b2c3d4-0000-4000-8000-000000000001") []
    (relayed "a1b2ffff-0000-4000-8000-000000000001") [] (lit_units "hi") _ _ _ _ _).
  - constructor.
  - vm_compute. discriminate.
  - vm_compute. reflexivity.
  - by apply is_tag_spec.
  - vm_compute. discriminate.
Defined.
