(* ===== verification/DevStore.v ===== *)
(** * The development messaging store ([src/server/dev-messaging/store.ts],
    [limits.ts], [types.ts])

    The SQLite store of the messaging lab: rooms with one customer and one
    project-staff seat, single-use invitations, sessions, and opaque envelopes.
    The database is a record of row lists with the keys, foreign keys and
    cascades of the schema; every operation is a state transformer that may
    throw.  Clock readings, random tokens and UUIDs are arguments, one per call
    of the source. *)

From stdpp Require Import base list strings sorting sets.
From Stdlib Require Import ZArith Lia Ascii.
From S2P Require Import Prelude Sha256 Base64Url JsTime JsValue ValueObjects CanonicalJson.

Definition ROOM_TTL_MS : Z := 24 * 60 * 60 * 1000.
Definition MAX_ENCODED_ENVELOPE_CHARS : Z := 32 * 1024.
Definition MAX_ENVELOPES_PER_ROOM : Z := 1000.
Definition MAX_ENCODED_CIPHERTEXT_CHARS_PER_ROOM : Z := 8 * 1024 * 1024.
Definition INVITATION_LIFETIME_MS : Z := 30 * 60 * 1000.
Definition SESSION_LIFETIME_MS : Z := 24 * 60 * 60 * 1000.

(** ** Rows *)

Inductive MessagingRole := customer | project_staff.
#[export] Instance MessagingRole_eq_dec : EqDecision MessagingRole.
Proof. solve_decision. Defined.

Record ConversationRow := {
  cv_id : string;
  cv_projectRef : string;
  cv_rosterVersion : Z;
  cv_epoch : Z;
  cv_createdAt : Z;
}.
Record MembershipRow := {
  mb_conversationId : string;
  mb_participantId : string;
  mb_role : MessagingRole;
  mb_joinedAt : Z;
}.
Record InvitationRow := {
  iv_tokenHash : string;
  iv_conversationId : string;
  iv_participantId : string;
  iv_role : MessagingRole;
  iv_createdBy : option string;
  iv_createdAt : Z;
  iv_expiresAt : Z;
  iv_consumedAt : option Z;
}.
Record SessionRow := {
  se_tokenHash : string;
  se_participantId : string;
  se_role : MessagingRole;
  se_csrfHash : string;
  se_createdAt : Z;
  se_expiresAt : Z;
}.
(** Encoding and content type have one value each. *)
Record EnvelopeRow := {
  en_sequence : Z;
  en_conversationId : string;
  en_clientEnvelopeId : string;
  en_senderParticipantId : string;
  en_senderRole : MessagingRole;
  en_rosterVersion : Z;
  en_epoch : Z;
  en_ciphertext : string;
  en_createdAt : Z;
}.

(** [lastSequence] is the [AUTOINCREMENT] counter of the envelopes table. *)
Record Db := {
  conversations : list ConversationRow;
  memberships : list MembershipRow;
  invitations : list InvitationRow;
  sessions : list SessionRow;
  envelopes : list EnvelopeRow;
  lastSequence : Z;
}.

Definition emptyDb : Db := {|
  conversations := []; memberships := []; invitations := []; sessions := []; envelopes := [];
  lastSequence := 0 |}.

(** ** Results *)

Record SessionActor := {
  ac_participantId : string;
  ac_role : MessagingRole;
  ac_expiresAt : Z;
}.
Record RosterMember := {
  rm_participantId : string;
  rm_role : MessagingRole;
  rm_joinedAt : Z;
}.
Record ConversationSummary := {
  cs_conversationId : string;
  cs_projectRef : string;
  cs_rosterVersion : string;
  cs_epoch : Z;
  cs_createdAt : Z;
}.
Record ConversationDetail := {
  cd_summary : ConversationSummary;
  cd_roster : list RosterMember;
}.
Record StoredEnvelope := {
  cursor : Z;
  e_conversationId : string;
  e_clientEnvelopeId : string;
  e_senderParticipantId : string;
  e_senderRole : MessagingRole;
  e_rosterVersion : string;
  e_epoch : Z;
  e_ciphertext : string;
  e_createdAt : Z;
}.
Record InvitationResult := {
  ir_invitationToken : string;
  ir_participantId : string;
  ir_role : MessagingRole;
  ir_expiresAt : Z;
}.
Record BootstrapResult := {
  bs_conversation : ConversationDetail;
  bs_customer : InvitationResult;
  bs_projectStaff : InvitationResult;
}.
Record ExchangeResult := {
  xr_sessionToken : string;
  xr_csrfToken : string;
  xr_actor : SessionActor;
  xr_conversation : ConversationDetail;
}.
Record AuthenticatedSession := {
  as_actor : SessionActor;
  as_tokenHash : string;
  as_csrfHash : string;
}.
Record SubmitEnvelopeInput := {
  in_clientEnvelopeId : string;
  in_rosterVersion : string;
  in_epoch : Z;
  in_ciphertext : string;
}.
Record SyncPage := {
  pg_envelopes : list StoredEnvelope;
  pg_nextCursor : Z;
  pg_hasMore : bool;
}.

(** ** Operations that read and change the database and may throw *)

Definition op (A : Type) : Type := Db → Db * result A.
#[export] Instance op_ret : MRet op := λ A a db, (db, Ok a).
#[export] Instance op_bind : MBind op := λ A B f m db,
  match m db with (db', Ok a) => f a db' | (db', Throw e) => (db', Throw e) end.

Definition lift {A} (r : result A) : op A := λ db, (db, r).
Definition query {A} (f : Db → A) : op A := λ db, (db, Ok (f db)).
Definition modify (f : Db → Db) : op unit := λ db, (f db, Ok ()).
Definition raise {A} (e : exn) : op A := lift (Throw e).
Definition raiseIf (b : bool) (e : exn) : op unit := lift (throw_if b e).

(** [BEGIN IMMEDIATE; ...; COMMIT], with [ROLLBACK] when the body throws. *)
Definition transaction {A} (body : op A) : op A := λ db,
  match body db with (db', Ok a) => (db', Ok a) | (_, Throw e) => (db, Throw e) end.

Definition invalid_invitation : exn := DevMessagingError "invalid_invitation" 401.
Definition unauthenticated : exn := DevMessagingError "unauthenticated" 401.
Definition invalid_csrf : exn := DevMessagingError "invalid_csrf" 403.
Definition roster_changed : exn := DevMessagingError "roster_changed" 409.
Definition roster_incomplete : exn := DevMessagingError "roster_incomplete" 409.
Definition idempotency_conflict : exn := DevMessagingError "idempotency_conflict" 409.
Definition room_quota_exceeded : exn := DevMessagingError "room_quota_exceeded" 429.
Definition conversation_not_found : exn := DevMessagingError "conversation_not_found" 404.

(** Setters. *)
Definition set_conversations (f : list ConversationRow → list ConversationRow) (db : Db) : Db := {|
  conversations := f (conversations db); memberships := memberships db; invitations := invitations db;
  sessions := sessions db; envelopes := envelopes db; lastSequence := lastSequence db |}.
Definition set_memberships (f : list MembershipRow → list MembershipRow) (db : Db) : Db := {|
  conversations := conversations db; memberships := f (memberships db); invitations := invitations db;
  sessions := sessions db; envelopes := envelopes db; lastSequence := lastSequence db |}.
Definition set_invitations (f : list InvitationRow → list InvitationRow) (db : Db) : Db := {|
  conversations := conversations db; memberships := memberships db; invitations := f (invitations db);
  sessions := sessions db; envelopes := envelopes db; lastSequence := lastSequence db |}.
Definition set_sessions (f : list SessionRow → list SessionRow) (db : Db) : Db := {|
  conversations := conversations db; memberships := memberships db; invitations := invitations db;
  sessions := f (sessions db); envelopes := envelopes db; lastSequence := lastSequence db |}.

(** ** Reading rows *)

Definition asNumber (value : Z) : result Z :=
  if isSafeInteger (NInt value) then Ok value else Throw GenericError.

Definition mapConversation (row : ConversationRow) : result ConversationSummary :=
  rosterVersion ← asNumber (cv_rosterVersion row);
  epoch ← asNumber (cv_epoch row);
  createdAt ← asNumber (cv_createdAt row);
  Ok {| cs_conversationId := cv_id row; cs_projectRef := cv_projectRef row;
        cs_rosterVersion := decimal rosterVersion; cs_epoch := epoch; cs_createdAt := createdAt |}.

Definition mapRosterMember (row : MembershipRow) : result RosterMember :=
  joinedAt ← asNumber (mb_joinedAt row);
  Ok {| rm_participantId := mb_participantId row; rm_role := mb_role row; rm_joinedAt := joinedAt |}.

Definition mapEnvelope (row : EnvelopeRow) : result StoredEnvelope :=
  sequence ← asNumber (en_sequence row);
  rosterVersion ← asNumber (en_rosterVersion row);
  epoch ← asNumber (en_epoch row);
  createdAt ← asNumber (en_createdAt row);
  Ok {| cursor := sequence; e_conversationId := en_conversationId row;
        e_clientEnvelopeId := en_clientEnvelopeId row;
        e_senderParticipantId := en_senderParticipantId row; e_senderRole := en_senderRole row;
        e_rosterVersion := decimal rosterVersion; e_epoch := epoch;
        e_ciphertext := en_ciphertext row; e_createdAt := createdAt |}.

Definition inRoom (conversationId : string) (m : MembershipRow) : bool :=
  mb_conversationId m === conversationId.
Definition roomMembers (conversationId : string) (db : Db) : list MembershipRow :=
  List.filter (inRoom conversationId) (memberships db).
Definition roomEnvelopes (conversationId : string) (db : Db) : list EnvelopeRow :=
  List.filter (λ e, en_conversationId e === conversationId) (envelopes db).

(** [ORDER BY a ASC, b ASC] on an integer and a text column. *)
Definition ordered_by {A} (a : A → Z) (b : A → string) (x y : A) : bool :=
  (a x <? a y) || ((a x =? a y) && sle (b x) (b y)).
Definition getConversationUnscoped (conversationId : string) : op ConversationDetail :=
  row ← query (λ db, List.find (λ c, cv_id c === conversationId) (conversations db));
  match row with
  | None => raise conversation_not_found
  | Some row =>
      rosterRows ← query (λ db,
        sort_by (ordered_by mb_joinedAt mb_participantId) (roomMembers conversationId db));
      summary ← lift (mapConversation row);
      roster ← lift (mapR mapRosterMember rosterRows);
      mret {| cd_summary := summary; cd_roster := roster |}
  end.

Definition findEnvelope (conversationId clientEnvelopeId : string) : op (option StoredEnvelope) :=
  row ← query (λ db, List.find (λ e, (en_conversationId e === conversationId)
                               && (en_clientEnvelopeId e === clientEnvelopeId)) (envelopes db));
  match row with
  | None => mret None
  | Some row => e ← lift (mapEnvelope row); mret (Some e)
  end.

Definition assertMembership (session : SessionActor) (conversationId : string) : op unit :=
  present ← query (λ db, existsb (λ m, (mb_conversationId m === conversationId)
    && (mb_participantId m === ac_participantId session) && (mb_role m === ac_role session)) (memberships db));
  raiseIf (negb present) conversation_not_found.

(** ** Expiry *)

(** Deleting rooms cascades to every table that references them. *)
Definition deleteRooms (expired : ConversationRow → bool) (db : Db) : Db :=
  let kept := List.filter (λ c, negb (expired c)) (conversations db) in
  let gone id := existsb (λ c, expired c && (cv_id c === id)) (conversations db) in
  {| conversations := kept;
     memberships := List.filter (λ m, negb (gone (mb_conversationId m))) (memberships db);
     invitations := List.filter (λ i, negb (gone (iv_conversationId i))) (invitations db);
     sessions := sessions db;
     envelopes := List.filter (λ e, negb (gone (en_conversationId e))) (envelopes db);
     lastSequence := lastSequence db |}.

Definition dropSessions (db : Db) : Db :=
  set_sessions (List.filter (λ s,
    existsb (λ m, mb_participantId m === se_participantId s) (memberships db))) db.

Definition cleanupExpiredRooms (now : Z) : op unit :=
  modify (deleteRooms (λ c, cv_createdAt c <=? now - ROOM_TTL_MS));;
  modify dropSessions.

(** ** Inserts, which fail on a key that is taken or a missing room *)

Definition roomExists (conversationId : string) (db : Db) : bool :=
  existsb (λ c, cv_id c === conversationId) (conversations db).

Definition insertConversation (row : ConversationRow) : op unit :=
  taken ← query (roomExists (cv_id row));
  raiseIf taken GenericError;;
  modify (set_conversations (λ cs, cs ++ [row])).

Definition insertInvitation (row : InvitationRow) : op unit :=
  taken ← query (λ db, existsb (λ i, iv_tokenHash i === iv_tokenHash row) (invitations db));
  present ← query (roomExists (iv_conversationId row));
  raiseIf (taken || negb present) GenericError;;
  modify (set_invitations (λ ivs, ivs ++ [row])).

(** [ON CONFLICT DO NOTHING]: the number of rows inserted. *)
Definition insertMembership (row : MembershipRow) : op Z :=
  taken ← query (λ db, existsb (λ m, (mb_conversationId m === mb_conversationId row)
                                && (mb_participantId m === mb_participantId row)) (memberships db));
  present ← query (roomExists (mb_conversationId row));
  if (taken : bool) then mret 0 else
  raiseIf (negb present) GenericError;;
  modify (set_memberships (λ ms, ms ++ [row]));;
  mret 1.

Definition insertSession (row : SessionRow) : op unit :=
  taken ← query (λ db, existsb (λ s, se_tokenHash s === se_tokenHash row) (sessions db));
  raiseIf taken GenericError;;
  modify (set_sessions (λ ss, ss ++ [row])).

Definition insertEnvelope (row : Z → EnvelopeRow) : op unit :=
  n ← query (λ db, lastSequence db + 1);
  taken ← query (λ db, existsb (λ e, (en_conversationId e === en_conversationId (row n))
                                && (en_clientEnvelopeId e === en_clientEnvelopeId (row n))) (envelopes db));
  present ← query (roomExists (en_conversationId (row n)));
  raiseIf (taken || negb present) GenericError;;
  modify (λ db, {|
    conversations := conversations db; memberships := memberships db; invitations := invitations db;
    sessions := sessions db; envelopes := envelopes db ++ [row n]; lastSequence := n |}).

Section Operations.
Context `{SHA : Sha256}.

Definition hashSecret (value : string) : string := hex (sha256 (utf8 value)).

(** ** Rooms and invitations *)

Record PreparedInvitation := {
  pi_public : InvitationResult;
  pi_tokenHash : string;
}.

(** [token] and [uuid] are the random values drawn. *)
Definition prepareInvitation (token uuid : string) (role : MessagingRole) (createdAt : Z) :
  PreparedInvitation := {|
  pi_public := {|
    ir_invitationToken := token;
    ir_participantId := (match role with customer => "customer" | project_staff => "staff" end)
                        +:+ "_" +:+ uuid;
    ir_role := role; ir_expiresAt := createdAt + INVITATION_LIFETIME_MS |};
  pi_tokenHash := hashSecret token |}.

Definition invitationRow (conversationId : string) (p : PreparedInvitation)
    (createdBy : option string) (createdAt : Z) : InvitationRow := {|
  iv_tokenHash := pi_tokenHash p; iv_conversationId := conversationId;
  iv_participantId := ir_participantId (pi_public p); iv_role := ir_role (pi_public p);
  iv_createdBy := createdBy; iv_createdAt := createdAt;
  iv_expiresAt := ir_expiresAt (pi_public p); iv_consumedAt := None |}.

Record BootstrapRandom := {
  br_conversationId : string;
  br_customerToken : string;
  br_customerUuid : string;
  br_staffToken : string;
  br_staffUuid : string;
}.

(** The transaction of [bootstrap]. *)
Definition createRoom (projectRef : string) (rnd : BootstrapRandom) (cust staff : PreparedInvitation)
    (createdAt : Z) : op unit :=
  let conversationId := br_conversationId rnd in
  insertConversation {| cv_id := conversationId; cv_projectRef := projectRef;
                        cv_rosterVersion := 0; cv_epoch := 0; cv_createdAt := createdAt |};;
  insertInvitation (invitationRow conversationId cust None createdAt);;
  insertInvitation (invitationRow conversationId staff None createdAt).

Definition bootstrap (projectRef : string) (rnd : BootstrapRandom) (cleanupNow createdAt : Z) :
  op BootstrapResult :=
  cleanupExpiredRooms cleanupNow;;
  let cust := prepareInvitation (br_customerToken rnd) (br_customerUuid rnd) customer createdAt in
  let staff := prepareInvitation (br_staffToken rnd) (br_staffUuid rnd) project_staff createdAt in
  transaction (createRoom projectRef rnd cust staff createdAt);;
  conversation ← getConversationUnscoped (br_conversationId rnd);
  mret {| bs_conversation := conversation; bs_customer := pi_public cust;
          bs_projectStaff := pi_public staff |}.

Definition consume (now : Z) (i : InvitationRow) : InvitationRow := {|
  iv_tokenHash := iv_tokenHash i; iv_conversationId := iv_conversationId i;
  iv_participantId := iv_participantId i; iv_role := iv_role i; iv_createdBy := iv_createdBy i;
  iv_createdAt := iv_createdAt i; iv_expiresAt := iv_expiresAt i; iv_consumedAt := Some now |}.

(** [UPDATE invitations SET consumed_at ...]: the number of rows changed. *)
Definition consumeInvitation (tokenHash : string) (now : Z) : op Z :=
  let live i := (iv_tokenHash i === tokenHash) && bool_decide (iv_consumedAt i = None)
                && (now <? iv_expiresAt i) in
  changes ← query (λ db, Z.of_nat (length (List.filter live (invitations db))));
  modify (set_invitations (map (λ i, if live i then consume now i else i)));;
  mret changes.

Definition bumpRoster (c : ConversationRow) : ConversationRow := {|
  cv_id := cv_id c; cv_projectRef := cv_projectRef c; cv_rosterVersion := cv_rosterVersion c + 1;
  cv_epoch := cv_epoch c + 1; cv_createdAt := cv_createdAt c |}.

(** The transaction of [exchangeInvitation]. *)
Definition redeem (tokenHash sessionToken csrfToken : string) (now : Z) : op ExchangeResult :=
  invitation ← query (λ db, List.find (λ i, iv_tokenHash i === tokenHash) (invitations db));
  match invitation with
  | None => raise invalid_invitation
  | Some i =>
      raiseIf (negb (bool_decide (iv_consumedAt i = None))) invalid_invitation;;
      invitationExpiresAt ← lift (asNumber (iv_expiresAt i));
      raiseIf (invitationExpiresAt <=? now) invalid_invitation;;
      let conversationId := iv_conversationId i in
      let participantId := iv_participantId i in
      let role := iv_role i in
      consumed ← consumeInvitation tokenHash now;
      raiseIf (negb (consumed =? 1)) invalid_invitation;;
      membership ← insertMembership {| mb_conversationId := conversationId;
        mb_participantId := participantId; mb_role := role; mb_joinedAt := now |};
      (if membership =? 1
       then modify (set_conversations (map (λ c, if cv_id c === conversationId then bumpRoster c else c)))
       else mret ());;
      let expiresAt := now + SESSION_LIFETIME_MS in
      insertSession {| se_tokenHash := hashSecret sessionToken; se_participantId := participantId;
        se_role := role; se_csrfHash := hashSecret csrfToken; se_createdAt := now;
        se_expiresAt := expiresAt |};;
      conversation ← getConversationUnscoped conversationId;
      mret {| xr_sessionToken := sessionToken; xr_csrfToken := csrfToken;
              xr_actor := {| ac_participantId := participantId; ac_role := role;
                             ac_expiresAt := expiresAt |};
              xr_conversation := conversation |}
  end.

Definition exchangeInvitation (invitationToken sessionToken csrfToken : string) (cleanupNow now : Z) :
  op ExchangeResult :=
  cleanupExpiredRooms cleanupNow;;
  transaction (redeem (hashSecret invitationToken) sessionToken csrfToken now).

(** ** Sessions *)

Definition authenticate (sessionToken : string) (cleanupNow now : Z) : op AuthenticatedSession :=
  cleanupExpiredRooms cleanupNow;;
  let tokenHash := hashSecret sessionToken in
  row ← query (λ db, List.find (λ s, (se_tokenHash s === tokenHash) && (now <? se_expiresAt s)) (sessions db));
  match row with
  | None => raise unauthenticated
  | Some row =>
      expiresAt ← lift (asNumber (se_expiresAt row));
      mret {| as_tokenHash := se_tokenHash row; as_csrfHash := se_csrfHash row;
              as_actor := {| ac_participantId := se_participantId row; ac_role := se_role row;
                             ac_expiresAt := expiresAt |} |}
  end.

Definition verifyCsrf (session : AuthenticatedSession) (csrfToken : string) : result unit :=
  throw_if (hashSecret csrfToken !== as_csrfHash session) invalid_csrf.

Definition logout (sessionToken : string) : op unit :=
  modify (set_sessions (List.filter (λ s, se_tokenHash s !== hashSecret sessionToken))).

(** ** Reading rooms *)

(** [JOIN memberships]: one row per matching membership. *)
Definition listConversations (session : SessionActor) (cleanupNow : Z) : op (list ConversationSummary) :=
  cleanupExpiredRooms cleanupNow;;
  rows ← query (λ db, sort_by (ordered_by cv_createdAt cv_id)
    (flat_map (λ c, map (λ _, c) (List.filter (λ m, (mb_conversationId m === cv_id c)
      && (mb_participantId m === ac_participantId session) && (mb_role m === ac_role session)) (memberships db)))
      (conversations db)));
  lift (mapR mapConversation rows).

Definition getConversation (session : SessionActor) (conversationId : string) (cleanupNow : Z) :
  op ConversationDetail :=
  cleanupExpiredRooms cleanupNow;;
  assertMembership session conversationId;;
  getConversationUnscoped conversationId.

(** [LIMIT ?] of SQLite, where a negative limit is none, and [rows.slice(0, end)],
    where a negative end counts from the last row. *)
Definition sqlLimit {A} (n : Z) (rows : list A) : list A :=
  if n <? 0 then rows else take (Z.to_nat n) rows.
Definition sliceTo {A} (end_ : Z) (rows : list A) : list A :=
  take (Z.to_nat (if end_ <? 0 then Z.of_nat (length rows) + end_ else end_)) rows.

Definition syncEnvelopes (session : SessionActor) (conversationId : string) (afterCursor limit : Z)
    (cleanupNow : Z) : op SyncPage :=
  cleanupExpiredRooms cleanupNow;;
  assertMembership session conversationId;;
  rows ← query (λ db, sqlLimit (limit + 1)
    (sort_by (λ x y, en_sequence x <=? en_sequence y)
      (List.filter (λ e, afterCursor <? en_sequence e) (roomEnvelopes conversationId db))));
  let hasMore := limit <? Z.of_nat (length rows) in
  es ← lift (mapR mapEnvelope (sliceTo limit rows));
  mret {| pg_envelopes := es; pg_nextCursor := default afterCursor (cursor <$> last es);
          pg_hasMore := hasMore |}.

(** ** Sending *)

Definition assertFixedRoster (conversationId : string) : op unit :=
  members ← query (roomMembers conversationId);
  let count r := Z.of_nat (length (List.filter (λ m, mb_role m === r) members)) in
  raiseIf (negb (Z.of_nat (length members) =? 2) || negb (count customer =? 1)
           || negb (count project_staff =? 1)) roster_incomplete.

(** [SUM(length(ciphertext))]: SQLite counts the characters before the first NUL.
    A ciphertext that reaches the store through the handlers is base64url, which
    has none; of any other this counts the bytes. *)
Definition ciphertextChars (es : list EnvelopeRow) : Z :=
  foldr (λ e n, strlen (en_ciphertext e) + n) 0 es.

Definition assertRoomQuota (conversationId : string) (addedChars : Z) : op unit :=
  es ← query (roomEnvelopes conversationId);
  envelopeCount ← lift (asNumber (Z.of_nat (length es)));
  chars ← lift (asNumber (ciphertextChars es));
  raiseIf ((MAX_ENVELOPES_PER_ROOM <=? envelopeCount)
           || (MAX_ENCODED_CIPHERTEXT_CHARS_PER_ROOM <? chars + addedChars)) room_quota_exceeded.

Definition envelopeRow (session : SessionActor) (conversationId : string) (input : SubmitEnvelopeInput)
    (createdAt sequence : Z) : EnvelopeRow := {|
  en_sequence := sequence; en_conversationId := conversationId;
  en_clientEnvelopeId := in_clientEnvelopeId input;
  en_senderParticipantId := ac_participantId session; en_senderRole := ac_role session;
  en_rosterVersion := BigInt (in_rosterVersion input); en_epoch := in_epoch input;
  en_ciphertext := in_ciphertext input; en_createdAt := createdAt |}.

Definition matchesStored (session : SessionActor) (input : SubmitEnvelopeInput) (existing : StoredEnvelope) :
  bool :=
  (e_senderParticipantId existing === ac_participantId session)
  && (e_senderRole existing === ac_role session)
  && (e_rosterVersion existing === in_rosterVersion input)
  && (e_epoch existing =? in_epoch input)
  && (e_ciphertext existing === in_ciphertext input).

Definition submitEnvelopeInTransaction (session : SessionActor) (conversationId : string)
    (input : SubmitEnvelopeInput) (cleanupNow createdAt : Z) : op (StoredEnvelope * bool) :=
  conversation ← getConversation session conversationId cleanupNow;
  assertFixedRoster conversationId;;
  raiseIf ((cs_rosterVersion (cd_summary conversation) !== in_rosterVersion input)
           || negb (cs_epoch (cd_summary conversation) =? in_epoch input)) roster_changed;;
  existing ← findEnvelope conversationId (in_clientEnvelopeId input);
  match existing with
  | Some existing =>
      if matchesStored session input existing then mret (existing, true) else raise idempotency_conflict
  | None =>
      assertRoomQuota conversationId (strlen (in_ciphertext input));;
      insertEnvelope (envelopeRow session conversationId input createdAt);;
      envelope ← findEnvelope conversationId (in_clientEnvelopeId input);
      match envelope with
      | None => raise GenericError
      | Some envelope => mret (envelope, false)
      end
  end.

Definition submitEnvelope (session : SessionActor) (conversationId : string)
    (input : SubmitEnvelopeInput) (outerNow cleanupNow createdAt : Z) : op (StoredEnvelope * bool) :=
  cleanupExpiredRooms outerNow;;
  transaction (submitEnvelopeInTransaction session conversationId input cleanupNow createdAt).
End Operations.

(** ** The invariant *)

Definition roomInvitations (conversationId : string) (db : Db) : list InvitationRow :=
  List.filter (λ i, iv_conversationId i === conversationId) (invitations db).
Definition seat (m : MembershipRow) : string * MessagingRole := (mb_participantId m, mb_role m).
Definition invitedSeat (i : InvitationRow) : string * MessagingRole := (iv_participantId i, iv_role i).
Definition is_consumed (i : InvitationRow) : bool := negb (bool_decide (iv_consumedAt i = None)).

(** One room: two invitations for two seats, members exactly for the consumed
    invitations, a roster version and an epoch that count the members,
    envelopes only of a full room and within its quota. *)
Record room_ok (c : ConversationRow) (ivs : list InvitationRow) (ms : list MembershipRow)
    (es : list EnvelopeRow) : Prop := {
  ro_seats : ∃ i j, ivs = [i; j] ∧ iv_role i = customer ∧ iv_role j = project_staff ∧
                    iv_participantId i ≠ iv_participantId j;
  ro_members : map seat ms ≡ₚ map invitedSeat (List.filter is_consumed ivs);
  ro_version : cv_rosterVersion c = Z.of_nat (length ms);
  ro_epoch : cv_epoch c = Z.of_nat (length ms);
  ro_envelopes : Forall (λ e, length ms = 2%nat ∧ en_rosterVersion e = 2 ∧ en_epoch e = 2 ∧
                   (en_senderParticipantId e, en_senderRole e) ∈ map seat ms) es;
  ro_keys : NoDup (map en_clientEnvelopeId es);
  ro_count : Z.of_nat (length es) <= MAX_ENVELOPES_PER_ROOM;
  ro_chars : ciphertextChars es <= MAX_ENCODED_CIPHERTEXT_CHARS_PER_ROOM;
}.

Record inv (db : Db) : Prop := {
  inv_rooms : NoDup (map cv_id (conversations db));
  inv_tokens : NoDup (map iv_tokenHash (invitations db));
  inv_sessions : NoDup (map se_tokenHash (sessions db));
  inv_fk_members : Forall (λ m, roomExists (mb_conversationId m) db = true) (memberships db);
  inv_fk_invitations : Forall (λ i, roomExists (iv_conversationId i) db = true) (invitations db);
  inv_fk_envelopes : Forall (λ e, roomExists (en_conversationId e) db = true) (envelopes db);
  inv_room : Forall (λ c, room_ok c (roomInvitations (cv_id c) db) (roomMembers (cv_id c) db)
                            (roomEnvelopes (cv_id c) db)) (conversations db);
  inv_sequence : StronglySorted Z.lt (map en_sequence (envelopes db));
  inv_last : 0 <= lastSequence db ∧ Forall (λ e, 0 < en_sequence e <= lastSequence db) (envelopes db);
}.

Lemma roomExists_In id db : roomExists id db = true ↔ In id (map cv_id (conversations db)).
Proof.
  unfold roomExists. rewrite existsb_exists, in_map_iff. split.
  - intros (c & Hc & E%bool_decide_eq_true). eauto.
  - intros (c & E & Hc). exists c. split; [done|by apply bool_decide_eq_true].
Qed.

Lemma filter_none {A} (p : A → bool) xs : Forall (λ x, p x = false) xs → List.filter p xs = [].
Proof. induction 1 as [|x xs Hx _ IH]; cbn; [done|by rewrite Hx]. Qed.

Lemma filter_filter {A} (p q : A → bool) xs :
  Forall (λ x, p x = true → q x = true) xs → List.filter p (List.filter q xs) = List.filter p xs.
Proof.
  induction 1 as [|x xs Hx _ IH]; [done|]. cbn. destruct (q x) eqn:E; cbn; [by rewrite IH|].
  destruct (p x); [by specialize (Hx eq_refl)|done].
Qed.

Lemma Forall_filter' {A} (P : A → Prop) p xs : Forall P xs → Forall P (List.filter p xs).
Proof. induction 1; cbn; [done|]. destruct (p x); by auto. Qed.

Lemma Forall_filter_impl {A} (P Q : A → Prop) (p : A → bool) xs :
  (∀ x, p x = true → P x → Q x) → Forall P xs → Forall Q (List.filter p xs).
Proof. intros HI. induction 1; cbn; [done|]. destruct (p x) eqn:E; auto. Qed.

Lemma NoDup_map_filter {A B} (f : A → B) p xs : NoDup (map f xs) → NoDup (map f (List.filter p xs)).
Proof.
  induction xs as [|x xs IH]; [done|]. cbn. intros [Hn Hd]%NoDup_cons. destruct (p x); [|by apply IH].
  cbn. apply NoDup_cons. split; [|by apply IH]. intros Hin. apply Hn.
  apply list_elem_of_In, in_map_iff in Hin as (y & <- & [Hy _]%filter_In).
  by apply list_elem_of_In, in_map.
Qed.

Lemma StronglySorted_map_filter {A} (f : A → Z) p xs :
  StronglySorted Z.lt (map f xs) → StronglySorted Z.lt (map f (List.filter p xs)).
Proof.
  induction xs as [|x xs IH]; [done|]. cbn. inversion 1 as [|? ? HS HF]; subst.
  destruct (p x); [|by apply IH]. cbn. constructor; [by apply IH|].
  rewrite List.Forall_forall in HF |- *. intros z (y & <- & [Hy _]%filter_In)%in_map_iff.
  by apply HF, in_map.
Qed.

(** Two rooms with one identifier are one room. *)
Lemma room_unique db c c' :
  NoDup (map cv_id (conversations db)) → In c (conversations db) → In c' (conversations db) →
  cv_id c = cv_id c' → c = c'.
Proof.
  induction (conversations db) as [|x xs IH]; [done|]. cbn. intros [Hn Hd]%NoDup_cons.
  intros [->|Hc] [->|Hc'] E; try done; [| |by apply IH].
  - exfalso. apply Hn. rewrite E. by apply list_elem_of_In, in_map.
  - exfalso. apply Hn. rewrite <- E. by apply list_elem_of_In, in_map.
Qed.

(** *** Expiry *)

Section Expiry.
Variables (p : ConversationRow → bool) (db : Db).
Hypothesis Hinv : inv db.

Let gone (id : string) : bool := existsb (λ c, p c && (cv_id c === id)) (conversations db).

Lemma gone_kept c : In c (conversations db) → gone (cv_id c) = p c.
Proof.
  intros Hc. destruct (p c) eqn:E.
  - apply existsb_exists. exists c. split; [done|]. rewrite E. by apply bool_decide_eq_true.
  - apply not_true_iff_false. intros (c' & Hc' & [Hp E'%bool_decide_eq_true]%andb_true_iff)%existsb_exists.
    rewrite (room_unique db c c') in E; [congruence|apply Hinv|done|done|done].
Qed.

Lemma roomExists_delete id :
  roomExists id db = true → negb (gone id) = true → roomExists id (deleteRooms p db) = true.
Proof.
  rewrite !roomExists_In, !in_map_iff. intros (c & <- & Hc) Hg. rewrite gone_kept in Hg by done.
  exists c. split; [done|]. by apply filter_In.
Qed.

Lemma delete_inv : inv (deleteRooms p db).
Proof.
  destruct Hinv as [HR HT HS HM HI HE HO HQ [HL HL']]. constructor; cbn.
  - by apply NoDup_map_filter.
  - by apply NoDup_map_filter.
  - done.
  - eapply Forall_filter_impl; [|exact HM]. intros m Hm HX. by apply roomExists_delete.
  - eapply Forall_filter_impl; [|exact HI]. intros m Hm HX. by apply roomExists_delete.
  - eapply Forall_filter_impl; [|exact HE]. intros m Hm HX. by apply roomExists_delete.
  - rewrite List.Forall_forall in HO |- *. intros c [Hc Hp]%filter_In. specialize (HO c Hc).
    pose proof (gone_kept c Hc) as HG. apply negb_true_iff in Hp. rewrite Hp in HG.
    unfold roomInvitations, roomMembers, roomEnvelopes in *. cbn. fold gone.
    rewrite !filter_filter; [done|..]; apply Forall_forall; intros x _; unfold inRoom;
      intros E%bool_decide_eq_true; rewrite E; change (negb (gone (cv_id c)) = true); by rewrite HG.
  - by apply StronglySorted_map_filter.
  - split; [done|]. by apply Forall_filter'.
Qed.
End Expiry.

Lemma set_sessions_inv f db :
  NoDup (map se_tokenHash (f (sessions db))) → inv db → inv (set_sessions f db).
Proof. intros HN [HR HT HS HM HI HE HO HQ HL]. by constructor. Qed.

Lemma cleanup_eq now db :
  cleanupExpiredRooms now db
    = (dropSessions (deleteRooms (λ c, cv_createdAt c <=? now - ROOM_TTL_MS) db), Ok ()).
Proof. done. Qed.

Definition cleaned (now : Z) (db : Db) : Db :=
  dropSessions (deleteRooms (λ c, cv_createdAt c <=? now - ROOM_TTL_MS) db).

Lemma cleaned_inv now db : inv db → inv (cleaned now db).
Proof.
  intros HI. apply set_sessions_inv; [|by apply delete_inv].
  apply NoDup_map_filter. cbn. apply HI.
Qed.

(** *** Operations that only read *)

Definition reading {A} (m : op A) : Prop := ∀ db, (m db).1 = db.

Lemma reading_bind {A B} (m : op A) (f : A → op B) :
  reading m → (∀ a, reading (f a)) → reading (m ≫= f).
Proof.
  intros Hm Hf db. unfold mbind, op_bind. specialize (Hm db). destruct (m db) as [db' [a|e]]; cbn in *;
    subst; [apply Hf|done].
Qed.
Lemma reading_query {A} (f : Db → A) : reading (query f). Proof. done. Qed.
Lemma reading_lift {A} (r : result A) : reading (lift r). Proof. done. Qed.
Lemma reading_ret {A} (a : A) : reading (mret a : op A). Proof. done. Qed.
Create HintDb reading.
#[export] Hint Resolve reading_query reading_lift reading_ret : reading.
Ltac reading :=
  repeat first [ apply reading_bind; [|intros ?] | solve [eauto with reading]
               | match goal with |- reading (match ?x with _ => _ end) => destruct x end ].

Lemma reading_unscoped id : reading (getConversationUnscoped id).
Proof. unfold getConversationUnscoped. reading. Qed.
Lemma reading_find id k : reading (findEnvelope id k).
Proof. unfold findEnvelope. reading. Qed.
Lemma reading_membership s id : reading (assertMembership s id).
Proof. unfold assertMembership. reading. Qed.
Lemma reading_roster id : reading (assertFixedRoster id).
Proof. unfold assertFixedRoster. reading. Qed.
Lemma reading_quota id n : reading (assertRoomQuota id n).
Proof. unfold assertRoomQuota. reading. Qed.
#[export] Hint Resolve reading_unscoped reading_find reading_membership reading_roster reading_quota : reading.

(** Running one step of an operation. *)
Lemma bind_reading {A B} (m : op A) (f : A → op B) db :
  reading m → (m ≫= f) db = match (m db).2 with Ok a => f a db | Throw e => (db, Throw e) end.
Proof.
  intros Hm. unfold mbind, op_bind. specialize (Hm db). destruct (m db) as [db' [a|e]]; cbn in *; by subst.
Qed.
Lemma bind_modify {B} g (f : unit → op B) db : (modify g ≫= f) db = f () (g db).
Proof. done. Qed.
Lemma bind_query {A B} (g : Db → A) (f : A → op B) db : (query g ≫= f) db = f (g db) db.
Proof. done. Qed.
Lemma bind_ret {A B} (a : A) (f : A → op B) db : (mret a ≫= f) db = f a db.
Proof. done. Qed.
Lemma bind_raiseIf {B} b e (f : unit → op B) db :
  (raiseIf b e ≫= f) db = if b then (db, Throw e) else f () db.
Proof. by destruct b. Qed.
Lemma bind_cleanup {B} now (f : unit → op B) db : (cleanupExpiredRooms now ≫= f) db = f () (cleaned now db).
Proof. done. Qed.
Lemma bind_assoc {A B C} (m : op A) (f : A → op B) (g : B → op C) db :
  ((m ≫= f) ≫= g) db = (m ≫= (λ a, f a ≫= g)) db.
Proof. unfold mbind, op_bind. by destruct (m db) as [db' [a|e]]. Qed.

(** Runs an operation up to its next test. *)
Ltac run_op := repeat first
  [ rewrite bind_assoc | rewrite bind_query | rewrite bind_ret | rewrite bind_modify | rewrite bind_raiseIf | rewrite bind_cleanup ].

Section Preservation.
Context `{SHA : Sha256}.

(** *** Bootstrap *)

Definition newRoom (projectRef : string) (rnd : BootstrapRandom) (createdAt : Z) (db : Db) : Db :=
  set_invitations (λ ivs, ivs ++
    [invitationRow (br_conversationId rnd)
       (prepareInvitation (br_customerToken rnd) (br_customerUuid rnd) customer createdAt) None createdAt;
     invitationRow (br_conversationId rnd)
       (prepareInvitation (br_staffToken rnd) (br_staffUuid rnd) project_staff createdAt) None createdAt])
  (set_conversations (λ cs, cs ++
    [{| cv_id := br_conversationId rnd; cv_projectRef := projectRef; cv_rosterVersion := 0;
        cv_epoch := 0; cv_createdAt := createdAt |}]) db).

Lemma Forall_not_in {A} (f : A → string) k xs :
  Forall (λ x, (f x === k) = false) xs → k ∉ map f xs.
Proof.
  intros HF Hin. apply list_elem_of_In, in_map_iff in Hin as (x & <- & Hx).
  rewrite List.Forall_forall in HF. specialize (HF x Hx). by apply bool_decide_eq_false in HF.
Qed.

Lemma createRoom_eval projectRef rnd createdAt db :
  NoDup (map iv_tokenHash (invitations db)) →
  let cust := prepareInvitation (br_customerToken rnd) (br_customerUuid rnd) customer createdAt in
  let staff := prepareInvitation (br_staffToken rnd) (br_staffUuid rnd) project_staff createdAt in
  let h := hashSecret (br_customerToken rnd) in
  let k := hashSecret (br_staffToken rnd) in
  (createRoom projectRef rnd cust staff createdAt db).2 = Throw GenericError ∨
  (roomExists (br_conversationId rnd) db = false ∧ NoDup (h :: k :: map iv_tokenHash (invitations db)) ∧
   createRoom projectRef rnd cust staff createdAt db = (newRoom projectRef rnd createdAt db, Ok ())).
Proof.
  intros HN cust staff h k. unfold createRoom, insertConversation, insertInvitation.
  run_op. cbn [cv_id]. destruct (roomExists (br_conversationId rnd) db) eqn:ER; [by left|]. run_op.
  match goal with |- context [if ?b then _ else _] => destruct b eqn:E1 end; [by left|]. run_op.
  match goal with |- context [if ?b then _ else _] => destruct b eqn:E2 end; [by left|].
  apply orb_false_iff in E1 as [E1 _], E2 as [E2 _]. apply existsb_false in E1, E2.
  cbn in E1, E2. right. split; [done|]. split.
  - apply Forall_app in E2 as [E2 [E3 _]%Forall_cons]. cbn in E3. apply bool_decide_eq_false in E3.
    apply NoDup_cons. split; [|apply NoDup_cons; split; [|done]].
    + intros [E|Hin]%elem_of_cons; [by apply E3|]. by apply (Forall_not_in iv_tokenHash h _ E1).
    + by apply (Forall_not_in iv_tokenHash k).
  - unfold newRoom, set_invitations, modify. cbn. by rewrite <- app_assoc.
Qed.

Lemma roomExists_app id c db :
  roomExists id (set_conversations (λ cs, cs ++ [c]) db) = roomExists id db || (cv_id c === id).
Proof. unfold roomExists. cbn. rewrite existsb_app. cbn. by rewrite orb_false_r. Qed.

(** Rows that reference existing rooms do not belong to a room that is new. *)
Lemma fk_absent {A} (f : A → string) id db xs :
  roomExists id db = false → Forall (λ x, roomExists (f x) db = true) xs →
  List.filter (λ x, f x === id) xs = [].
Proof.
  intros HR HF. apply filter_none. eapply Forall_impl; [exact HF|]. intros x Hx.
  apply bool_decide_eq_false. intros E. cbn in Hx. rewrite E in Hx. congruence.
Qed.

Lemma newRoom_inv projectRef rnd createdAt db :
  inv db → roomExists (br_conversationId rnd) db = false →
  NoDup (hashSecret (br_customerToken rnd) :: hashSecret (br_staffToken rnd) :: map iv_tokenHash (invitations db)) →
  inv (newRoom projectRef rnd createdAt db).
Proof.
  intros [HR HT HS HM HI HE HO HQ HL] HX HN. unfold newRoom.
  set (c := {| cv_id := br_conversationId rnd; cv_projectRef := projectRef; cv_rosterVersion := 0;
               cv_epoch := 0; cv_createdAt := createdAt |}).
  assert (HMono : ∀ id, roomExists id db = true →
    roomExists id (set_conversations (λ cs, cs ++ [c]) db) = true).
  { intros id H. by rewrite roomExists_app, H. }
  assert (HNew : ∀ id, id = br_conversationId rnd → roomExists id (set_conversations (λ cs, cs ++ [c]) db) = true).
  { intros id ->. rewrite roomExists_app. apply orb_true_iff. right. by apply bool_decide_eq_true. }
  constructor; cbn [conversations memberships invitations sessions envelopes lastSequence set_invitations set_conversations].
  - rewrite map_app. apply NoDup_app. split_and!; [done| |by apply NoDup_singleton].
    intros id Hin ->%list_elem_of_singleton. cbn in Hin. apply list_elem_of_In, roomExists_In in Hin. congruence.
  - rewrite map_app. cbn [map]. by rewrite <- Permutation_app_comm.
  - done.
  - eapply Forall_impl; [exact HM|]. intros m. apply HMono.
  - apply Forall_app. split; [eapply Forall_impl; [exact HI|]; intros m; apply HMono|].
    repeat constructor; by apply HNew.
  - eapply Forall_impl; [exact HE|]. intros m. apply HMono.
  - apply Forall_app. split.
    + rewrite List.Forall_forall in HO |- *. intros x Hx. specialize (HO x Hx).
      assert (HXne : br_conversationId rnd ≠ cv_id x).
      { intros E. apply not_true_iff_false in HX. apply HX. rewrite E. by apply roomExists_In, in_map. }
      unfold roomInvitations, roomMembers, roomEnvelopes in *.
      cbn [conversations memberships invitations sessions envelopes set_invitations set_conversations].
      rewrite List.filter_app. cbn [List.filter iv_conversationId invitationRow].
      rewrite !bool_decide_eq_false_2 by done. by rewrite app_nil_r.
    + constructor; [|constructor]. unfold roomInvitations, roomMembers, roomEnvelopes.
      cbn [conversations memberships invitations sessions envelopes set_invitations set_conversations c cv_id].
      unfold inRoom. rewrite List.filter_app, (fk_absent _ _ _ _ HX HM), (fk_absent _ _ _ _ HX HI), (fk_absent _ _ _ _ HX HE).
      cbn [List.filter iv_conversationId invitationRow app]. rewrite !bool_decide_eq_true_2 by done.
      constructor; cbn; try done.
      * eexists _, _. split; [done|]. cbn. done.
      * by constructor.
  - done.
  - done.
Qed.

Lemma bootstrap_inv projectRef rnd t createdAt db :
  inv db → inv (bootstrap projectRef rnd t createdAt db).1.
Proof.
  intros HI%(cleaned_inv t). unfold bootstrap. rewrite bind_cleanup.
  set (db1 := cleaned t db) in *. unfold transaction, mbind at 1, op_bind at 1.
  destruct (createRoom_eval projectRef rnd createdAt db1) as [HT|(HR & HN & HE)]; [apply HI| |].
  - destruct (createRoom _ _ _ _ _ db1) as [db2 r]. cbn in HT. by subst.
  - rewrite HE, bind_reading by apply reading_unscoped.
    destruct (getConversationUnscoped _ _).2; cbn; by apply newRoom_inv.
Qed.
End Preservation.

Section Redemption.
Context `{SHA : Sha256}.

(** *** Redeeming an invitation *)

Definition live (tokenHash : string) (now : Z) (i : InvitationRow) : bool :=
  (iv_tokenHash i === tokenHash) && bool_decide (iv_consumedAt i = None) && (now <? iv_expiresAt i).

Definition redeemed (i : InvitationRow) (tokenHash sessionToken csrfToken : string) (now : Z) (db : Db) : Db :=
  set_sessions (λ ss, ss ++ [{| se_tokenHash := hashSecret sessionToken; se_participantId := iv_participantId i;
      se_role := iv_role i; se_csrfHash := hashSecret csrfToken; se_createdAt := now;
      se_expiresAt := now + SESSION_LIFETIME_MS |}])
  (set_conversations (map (λ c, if cv_id c === iv_conversationId i then bumpRoster c else c))
  (set_memberships (λ ms, ms ++ [{| mb_conversationId := iv_conversationId i;
      mb_participantId := iv_participantId i; mb_role := iv_role i; mb_joinedAt := now |}])
  (set_invitations (map (λ i, if live tokenHash now i then consume now i else i)) db))).

(** The room of an unconsumed invitation has a free seat for it. *)
Lemma free_seat i c ivs ms es :
  room_ok c ivs ms es → In i ivs → iv_consumedAt i = None →
  (iv_participantId i ∉ map mb_participantId ms) ∧ (length ms < 2)%nat ∧ es = [].
Proof.
  intros [(a & b & -> & Ha & Hb & Hab) HM HV HE HEs _ _ _] Hi HN.
  assert (HL : (length ms < 2)%nat).
  { apply Permutation_length in HM. rewrite !length_map in HM. rewrite HM. cbn.
    destruct Hi as [<-|[<-|[]]]; unfold is_consumed at 1 2 3; rewrite HN; cbn;
      repeat match goal with |- context [if ?b then _ else _] => destruct b end; cbn; lia. }
  split_and!; [|done|].
  - intros Hin. apply list_elem_of_In, in_map_iff in Hin as (m & E & Hm).
    assert (Hs : In (seat m) (map seat ms)) by by apply in_map.
    apply list_elem_of_In in Hs. rewrite HM in Hs. apply list_elem_of_In, in_map_iff in Hs as (x & Ex & Hx).
    apply filter_In in Hx as [Hx Hc]. injection Ex as Ex _. rewrite E in Ex.
    unfold is_consumed in Hc. destruct Hi as [<-|[<-|[]]], Hx as [<-|[<-|[]]]; try done;
      rewrite HN in Hc; done.
  - destruct es as [|e es]; [done|]. apply Forall_cons in HEs as [[HL2 _] _]. lia.
Qed.

Lemma inv_room_of db c : inv db → In c (conversations db) →
  room_ok c (roomInvitations (cv_id c) db) (roomMembers (cv_id c) db) (roomEnvelopes (cv_id c) db).
Proof. intros [_ _ _ _ _ _ HO _ _] Hc. rewrite List.Forall_forall in HO. by apply HO. Qed.

Lemma room_of_invitation db i : inv db → In i (invitations db) →
  ∃ c, In c (conversations db) ∧ cv_id c = iv_conversationId i ∧ In i (roomInvitations (cv_id c) db).
Proof.
  intros HI Hi. pose proof (inv_fk_invitations db HI) as HF. rewrite List.Forall_forall in HF.
  specialize (HF i Hi). apply roomExists_In, in_map_iff in HF as (c & Hc & Hin).
  exists c. split_and!; [done|done|]. apply filter_In. split; [done|]. by apply bool_decide_eq_true.
Qed.

Lemma redeem_eval tokenHash sessionToken csrfToken now db :
  inv db →
  (∃ e, (redeem tokenHash sessionToken csrfToken now db).2 = Throw e) ∨
  (∃ i, In i (invitations db) ∧ live tokenHash now i = true ∧
     (hashSecret sessionToken ∉ map se_tokenHash (sessions db)) ∧
     (redeem tokenHash sessionToken csrfToken now db).1 = redeemed i tokenHash sessionToken csrfToken now db).
Proof.
  intros HI. unfold redeem. rewrite bind_query.
  destruct (List.find _ _) as [i|] eqn:EF; [|left; by eexists].
  apply List.find_some in EF as [Hi Ht]. run_op.
  destruct (bool_decide_reflect (iv_consumedAt i = None)) as [HN|HN]; cbn [negb]; [|left; by eexists].
  rewrite bind_reading by apply reading_lift. cbn [lift snd].
  unfold asNumber. destruct (isSafeInteger _); [|left; by eexists]. run_op.
  destruct (Z.leb_spec (iv_expiresAt i) now) as [HX|HX]; [left; by eexists|].
  unfold consumeInvitation. run_op.
  match goal with |- context [if negb (?n =? 1) then _ else _] => destruct (n =? 1); [|left; by eexists] end.
  cbn [negb]. unfold insertMembership. run_op. cbn [mb_conversationId mb_participantId].
  destruct (room_of_invitation db i HI Hi) as (c & Hc & Hid & Hri).
  destruct (free_seat i c _ _ _ (inv_room_of db c HI Hc) Hri HN) as (HFree & _ & _).
  match goal with |- context [if ?b then mret 0 else _] => assert (HT : b = false) end.
  { apply existsb_false, Forall_forall. intros m Hm. apply andb_false_iff.
    destruct (bool_decide_reflect (mb_conversationId m = iv_conversationId i)) as [Em|]; [right|by left].
    apply bool_decide_eq_false. intros Ep. apply HFree. apply list_elem_of_In, in_map_iff.
    exists m. split; [done|]. apply filter_In. split; [by apply list_elem_of_In|].
    apply bool_decide_eq_true. congruence. }
  cbn [memberships set_invitations] in HT |- *. rewrite HT. run_op.
  match goal with |- context [negb (roomExists ?id ?d)] => destruct (roomExists id d); [|left; by eexists] end.
  cbn [negb]. change (1 =? 1) with true. cbv iota. run_op. unfold insertSession. run_op.
  cbn [se_tokenHash]. match goal with |- context [if ?b then _ else _] => destruct b eqn:ES end.
  { left; by eexists. }
  run_op. rewrite bind_reading by apply reading_unscoped.
  destruct (getConversationUnscoped _ _).2 as [r|e]; [|left; by eexists]. right. exists i.
  split_and!; [done| | |done].
  - unfold live. rewrite Ht, (bool_decide_eq_true_2 _ HN), (proj2 (Z.ltb_lt _ _) HX). done.
  - apply existsb_false in ES. by apply (Forall_not_in se_tokenHash).
Qed.

(** Applying a change to the rows a test selects, inside one room. *)
Lemma filter_map_room {A} (f : A → string) (g : A → A) id xs :
  (∀ x, f (g x) = f x) →
  List.filter (λ x, f x === id) (map g xs) = map g (List.filter (λ x, f x === id) xs).
Proof.
  intros Hg. induction xs as [|x xs IH]; [done|]. cbn. rewrite Hg. destruct (f x === id); cbn; by rewrite IH.
Qed.

Lemma roomExists_bump id (p : ConversationRow → bool) db :
  roomExists id (set_conversations (map (λ c, if p c then bumpRoster c else c)) db) = roomExists id db.
Proof.
  unfold roomExists. cbn. induction (conversations db) as [|c cs IH]; [done|]. cbn. rewrite IH. by destruct (p c).
Qed.

Lemma token_unique db i j : NoDup (map iv_tokenHash (invitations db)) →
  In i (invitations db) → In j (invitations db) → iv_tokenHash i = iv_tokenHash j → i = j.
Proof.
  induction (invitations db) as [|x xs IH]; [done|]. cbn. intros [Hn Hd]%NoDup_cons.
  intros [->|Hi] [->|Hj] E; try done; [| |by apply IH].
  - exfalso. apply Hn. rewrite E. by apply list_elem_of_In, in_map.
  - exfalso. apply Hn. rewrite <- E. by apply list_elem_of_In, in_map.
Qed.

(** The room of the invitation after it is redeemed. *)
Lemma redeemed_room i c ivs ms h now m :
  room_ok c ivs ms [] → In i ivs → NoDup (map iv_tokenHash ivs) → live h now i = true →
  seat m = invitedSeat i →
  room_ok (bumpRoster c) (map (λ x, if live h now x then consume now x else x) ivs) (ms ++ [m]) [].
Proof.
  intros [(a & b & -> & Ha & Hb & Hab) HM HV HE _ HK HC HS] Hi HN Hl Hm.
  assert (HLi : ∀ x, live h now x = true → iv_tokenHash x = h ∧ iv_consumedAt x = None).
  { intros x Hx. unfold live in Hx. bsimp. done. }
  destruct (HLi i Hl) as [Hih Hin].
  cbn in HN. apply NoDup_cons in HN as [HN _].
  assert (HD : ∀ x y, live h now x = true → live h now y = true → iv_tokenHash x = iv_tokenHash y).
  { intros x y Hx Hy. destruct (HLi x Hx), (HLi y Hy). congruence. }
  assert (Hone : (live h now a = true ∧ live h now b = false ∧ i = a) ∨
                 (live h now b = true ∧ live h now a = false ∧ i = b)).
  { destruct (live h now a) eqn:La, (live h now b) eqn:Lb.
    - exfalso. apply HN, list_elem_of_singleton. by apply HD.
    - left. destruct Hi as [<-|[<-|[]]]; [done|congruence].
    - right. destruct Hi as [<-|[<-|[]]]; [congruence|done].
    - exfalso. destruct Hi as [<-|[<-|[]]]; congruence. }
  cbn [map]. constructor; try done.
  - destruct Hone as [(-> & -> & _)|(-> & -> & _)]; eexists _, _; (split; [done|]); cbn; done.
  - assert (HNc : is_consumed i = false) by (unfold is_consumed; by rewrite Hin).
    rewrite map_app, HM. cbn [map]. rewrite Hm. destruct Hone as [(-> & -> & ->)|(-> & -> & ->)];
      cbn [List.filter]; change (is_consumed (consume now _)) with true; rewrite HNc; cbv iota.
    + destruct (is_consumed b); cbn; [apply Permutation_swap|done].
    + by destruct (is_consumed a).
  - cbn. rewrite HV, length_app. cbn. lia.
  - cbn. rewrite HE, length_app. cbn. lia.
Qed.

Lemma redeemed_inv i tokenHash sessionToken csrfToken now db :
  inv db → In i (invitations db) → live tokenHash now i = true →
  hashSecret sessionToken ∉ map se_tokenHash (sessions db) →
  inv (redeemed i tokenHash sessionToken csrfToken now db).
Proof.
  intros HI Hi Hl Hses.
  destruct (room_of_invitation db i HI Hi) as (c & Hc & Hid & Hri).
  assert (HLi : iv_consumedAt i = None) by (unfold live in Hl; by bsimp).
  pose proof (inv_room_of db c HI Hc) as HRc.
  destruct (free_seat i c _ _ _ HRc Hri HLi) as (_ & _ & HEs).
  destruct HI as [HR HT HS HM HIv HE HO HQ HL]. unfold redeemed.
  set (g := λ x, if live tokenHash now x then consume now x else x).
  assert (Hgt : ∀ x, iv_tokenHash (g x) = iv_tokenHash x) by (intros x; unfold g; by destruct (live tokenHash now x)).
  assert (Hgc : ∀ x, iv_conversationId (g x) = iv_conversationId x) by (intros x; unfold g; by destruct (live tokenHash now x)).
  assert (HRE : ∀ id s d, roomExists id (set_sessions s (set_conversations
    (map (λ c, if cv_id c === iv_conversationId i then bumpRoster c else c)) d)) = roomExists id d).
  { intros id s d. apply (roomExists_bump id (λ c, cv_id c === iv_conversationId i)). }
  constructor; cbn [conversations memberships invitations sessions envelopes lastSequence
    set_sessions set_invitations set_conversations set_memberships]; try done.
  - rewrite map_map. erewrite map_ext; [exact HR|]. intros x. by destruct (_ === _).
  - rewrite map_map. erewrite map_ext; [exact HT|]. exact Hgt.
  - rewrite map_app. apply NoDup_app. split_and!; [done| |by apply NoDup_singleton].
    by intros x Hx ->%list_elem_of_singleton.
  - apply Forall_app. split; [eapply Forall_impl; [exact HM|]; intros m Hm; by rewrite HRE|].
    constructor; [|constructor]. rewrite HRE. rewrite List.Forall_forall in HIv. by apply HIv.
  - rewrite List.Forall_forall in HIv |- *. intros x (y & <- & Hy)%in_map_iff. rewrite HRE, Hgc. by apply HIv.
  - eapply Forall_impl; [exact HE|]. intros m Hm. by rewrite HRE.
  - rewrite List.Forall_forall in HO |- *. intros x (y & <- & Hy)%in_map_iff. specialize (HO y Hy).
    unfold roomInvitations, roomMembers, roomEnvelopes, inRoom in *.
    cbn [conversations memberships invitations sessions envelopes set_sessions set_invitations set_conversations set_memberships].
    rewrite (filter_map_room iv_conversationId g _ _ Hgc), List.filter_app. cbn [List.filter mb_conversationId].
    destruct (bool_decide_reflect (cv_id y = iv_conversationId i)) as [E|E].
    + assert (y = c) as -> by (eapply room_unique; [done..|congruence]). cbn [cv_id bumpRoster].
      rewrite HEs in *. rewrite bool_decide_eq_true_2 by done.
      apply (redeemed_room i); [done|done|by apply NoDup_map_filter|done|done].
    + rewrite bool_decide_eq_false_2 by congruence. rewrite app_nil_r.
      assert (HG : map g (List.filter (λ x, iv_conversationId x === cv_id y) (invitations db))
        = List.filter (λ x, iv_conversationId x === cv_id y) (invitations db)).
      { rewrite <- (map_id (List.filter _ _)) at 2. apply map_ext_in. intros x [Hx Hxc%bool_decide_eq_true]%filter_In.
        unfold g. destruct (live tokenHash now x) eqn:Lx; [|done]. exfalso. apply E. rewrite <- Hxc. f_equal.
        apply (token_unique db); [done..|]. unfold live in Lx, Hl. bsimp. congruence. }
      by rewrite HG.
Qed.

Lemma exchange_inv invitationToken sessionToken csrfToken t now db :
  inv db → inv (exchangeInvitation invitationToken sessionToken csrfToken t now db).1.
Proof.
  intros HI%(cleaned_inv t). unfold exchangeInvitation. rewrite bind_cleanup. unfold transaction.
  destruct (redeem_eval (hashSecret invitationToken) sessionToken csrfToken now (cleaned t db) HI)
    as [[e He]|(i & Hi & Hl & Hs & HE)].
  - destruct (redeem _ _ _ _ _) as [db2 r]. cbn in He. by subst.
  - destruct (redeem _ _ _ _ _) as [db2 [r|e]]; cbn in *; [|done]. subst. by apply redeemed_inv.
Qed.
End Redemption.

Section Sending.
Context `{SHA : Sha256}.

(** *** Sending an envelope *)

Definition withEnvelope (row : EnvelopeRow) (db : Db) : Db := {|
  conversations := conversations db; memberships := memberships db; invitations := invitations db;
  sessions := sessions db; envelopes := envelopes db ++ [row]; lastSequence := en_sequence row |}.

Definition is_member (session : SessionActor) (conversationId : string) (db : Db) : bool :=
  existsb (λ m, (mb_conversationId m === conversationId)
    && (mb_participantId m === ac_participantId session) && (mb_role m === ac_role session)) (memberships db).

Lemma unscoped_Ok id db d :
  (getConversationUnscoped id db).2 = Ok d →
  ∃ c, In c (conversations db) ∧ cv_id c = id ∧ mapConversation c = Ok (cd_summary d) ∧
    mapR mapRosterMember (sort_by (ordered_by mb_joinedAt mb_participantId) (roomMembers id db)) = Ok (cd_roster d).
Proof.
  unfold getConversationUnscoped. rewrite bind_query.
  destruct (List.find _ _) as [c|] eqn:EF; [|done]. apply List.find_some in EF as [Hc E%bool_decide_eq_true].
  run_op. rewrite bind_reading by done. cbn [lift snd].
  destruct (mapConversation c) as [s|] eqn:Es; [|done]. rewrite bind_reading by done. cbn [lift snd].
  destruct (mapR _ _) as [r|] eqn:Er; [|done]. intros [= <-]. by exists c.
Qed.

Lemma mapConversation_Ok c s : mapConversation c = Ok s →
  s = {| cs_conversationId := cv_id c; cs_projectRef := cv_projectRef c;
         cs_rosterVersion := decimal (cv_rosterVersion c); cs_epoch := cv_epoch c; cs_createdAt := cv_createdAt c |}.
Proof.
  unfold mapConversation, asNumber. intros H. inv_result.
  repeat match goal with H : (if ?b then _ else _) = Ok _ |- _ => destruct b; inv_result end. by subst.
Qed.

Lemma getConversation_eval s id t db :
  (getConversation s id t db).1 = cleaned t db ∧
  ∀ d, (getConversation s id t db).2 = Ok d →
    is_member s id (cleaned t db) = true ∧ (getConversationUnscoped id (cleaned t db)).2 = Ok d.
Proof.
  unfold getConversation, assertMembership. run_op. fold (is_member s id (cleaned t db)).
  destruct (is_member s id (cleaned t db)); cbn [negb]; [|done].
  split; [apply reading_unscoped|]. done.
Qed.

Definition countRole (r : MessagingRole) (ms : list MembershipRow) : Z :=
  Z.of_nat (length (List.filter (λ m, mb_role m === r) ms)).

(** What the checks before an insert establish. *)
Record sendable (s : SessionActor) (id : string) (input : SubmitEnvelopeInput) (db : Db)
    (c : ConversationRow) : Prop := {
  sd_room : In c (conversations db);
  sd_id : cv_id c = id;
  sd_member : is_member s id db = true;
  sd_full : length (roomMembers id db) = 2%nat;
  sd_customer : countRole customer (roomMembers id db) = 1;
  sd_staff : countRole project_staff (roomMembers id db) = 1;
  sd_version : in_rosterVersion input = decimal (cv_rosterVersion c);
  sd_epoch : in_epoch input = cv_epoch c;
  sd_read : ∃ d, (getConversationUnscoped id db).2 = Ok d;
}.

Lemma bind_eta {A B} (m : op A) (f : A → op B) db :
  (m ≫= f) db = match m db with (db', Ok a) => f a db' | (db', Throw e) => (db', Throw e) end.
Proof. done. Qed.

Lemma submit_eval s id input t createdAt db :
  let db1 := cleaned t db in
  let n := lastSequence db1 + 1 in
  let row := envelopeRow s id input createdAt n in
  let r := submitEnvelopeInTransaction s id input t createdAt db in
  (∃ e, r.2 = Throw e) ∨
  (∃ c existing, sendable s id input db1 c ∧ (findEnvelope id (in_clientEnvelopeId input) db1).2 = Ok (Some existing) ∧
     matchesStored s input existing = true ∧ r = (db1, Ok (existing, true))) ∨
  (∃ c e, sendable s id input db1 c ∧ (findEnvelope id (in_clientEnvelopeId input) db1).2 = Ok None ∧
     Z.of_nat (length (roomEnvelopes id db1)) < MAX_ENVELOPES_PER_ROOM ∧
     ciphertextChars (roomEnvelopes id db1) + strlen (in_ciphertext input) <= MAX_ENCODED_CIPHERTEXT_CHARS_PER_ROOM ∧
     existsb (λ e, (en_conversationId e === id) && (en_clientEnvelopeId e === in_clientEnvelopeId input))
       (envelopes db1) = false ∧ roomExists id db1 = true ∧
     (findEnvelope id (in_clientEnvelopeId input) (withEnvelope row db1)).2 = Ok (Some e) ∧
     r = (withEnvelope row db1, Ok (e, false))).
Proof.
  intros db1 n row r. subst r. unfold submitEnvelopeInTransaction. rewrite bind_eta.
  destruct (getConversation_eval s id t db) as [HS HG]. fold db1 in HS, HG.
  destruct (getConversation s id t db) as [db2 [d|e]]; cbn in HS; subst db2; [|left; by eexists].
  destruct (HG d eq_refl) as [HM HU].
  assert (HR : ∃ d, (getConversationUnscoped id db1).2 = Ok d) by by exists d.
  apply unscoped_Ok in HU as (c & Hc & Hid & HmC & _). apply mapConversation_Ok in HmC. rewrite HmC. cbn [cs_rosterVersion cs_epoch].
  unfold assertFixedRoster. run_op. fold (countRole customer (roomMembers id db1)).
  fold (countRole project_staff (roomMembers id db1)).
  match goal with |- context [if ?b then _ else _] => destruct b eqn:EF; [left; by eexists|] end.
  run_op. match goal with |- context [if ?b then _ else _] => destruct b eqn:EV; [left; by eexists|] end.
  assert (HSd : sendable s id input db1 c).
  { bsimp. constructor; done || lia. }
  rewrite bind_reading by apply reading_find.
  destruct (findEnvelope id (in_clientEnvelopeId input) db1).2 as [[existing|]|e] eqn:EE; [| |left; by eexists].
  - destruct (matchesStored s input existing) eqn:EM; [|left; by eexists]. right; left. by exists c, existing.
  - unfold assertRoomQuota. run_op. rewrite !bind_reading by done. cbn [lift snd].
    unfold asNumber. destruct (isSafeInteger (NInt (Z.of_nat _))); [|left; by eexists].
    run_op. rewrite bind_reading by done. cbn [lift snd].
    destruct (isSafeInteger _); [|left; by eexists]. run_op.
    match goal with |- context [if ?b then _ else _] => destruct b eqn:EQ; [left; by eexists|] end.
    unfold insertEnvelope. run_op. cbn [en_conversationId en_clientEnvelopeId envelopeRow].
    match goal with |- context [if ?b then _ else _] => destruct b eqn:EK; [left; by eexists|] end.
    apply orb_false_iff in EK as [EK ER]. run_op.
    change {| conversations := conversations db1; memberships := memberships db1;
              invitations := invitations db1; sessions := sessions db1;
              envelopes := envelopes db1 ++ [envelopeRow s id input createdAt (lastSequence db1 + 1)];
              lastSequence := lastSequence db1 + 1 |} with (withEnvelope row db1).
    rewrite bind_reading by apply reading_find.
    destruct (findEnvelope id (in_clientEnvelopeId input) (withEnvelope row db1)).2 as [[e|]|e] eqn:EN;
      [|left; by eexists..].
    right; right. exists c, e. apply orb_false_iff in EQ as [EQ1 EQ2]. apply negb_false_iff in ER.
    split_and!; try done; lia.
Qed.

Lemma ciphertextChars_app xs ys : ciphertextChars (xs ++ ys) = ciphertextChars xs + ciphertextChars ys.
Proof. unfold ciphertextChars. induction xs as [|x xs IH]; [done|]. cbn [app foldr]. lia. Qed.

Lemma is_member_seat s id db :
  is_member s id db = true → (ac_participantId s, ac_role s) ∈ map seat (roomMembers id db).
Proof.
  unfold is_member. intros (m & Hm & H)%existsb_exists. bsimp. apply list_elem_of_In, in_map_iff.
  exists m. split; [unfold seat; congruence|]. apply filter_In. split; [done|by apply bool_decide_eq_true].
Qed.

Lemma StronglySorted_snoc xs (x : Z) :
  StronglySorted Z.lt xs → Forall (λ y, y < x) xs → StronglySorted Z.lt (xs ++ [x]).
Proof.
  induction 1 as [|y ys HS IH HF]; intros H; cbn; [by repeat constructor|].
  apply Forall_cons in H as [Hy H]. constructor; [by apply IH|].
  apply List.Forall_app. split; [done|by repeat constructor].
Qed.

Lemma withEnvelope_inv s id input createdAt db c :
  let row := envelopeRow s id input createdAt (lastSequence db + 1) in
  inv db → sendable s id input db c →
  Z.of_nat (length (roomEnvelopes id db)) < MAX_ENVELOPES_PER_ROOM →
  ciphertextChars (roomEnvelopes id db) + strlen (in_ciphertext input) <= MAX_ENCODED_CIPHERTEXT_CHARS_PER_ROOM →
  existsb (λ e, (en_conversationId e === id) && (en_clientEnvelopeId e === in_clientEnvelopeId input))
    (envelopes db) = false →
  inv (withEnvelope row db).
Proof.
  intros row HI [Hc Hid HM HF _ _ HV HEp _] HC HCh HK. pose proof (inv_room_of db c HI Hc) as HRc.
  destruct HI as [HR HT HS HMs HIv HE HO HQ [HL HL']]. unfold withEnvelope.
  constructor; cbn [conversations memberships invitations sessions envelopes lastSequence]; try done.
  - apply Forall_app. split; [done|]. constructor; [|constructor]. cbn. rewrite <- Hid.
    by apply roomExists_In, in_map.
  - rewrite List.Forall_forall in HO |- *. intros x Hx. specialize (HO x Hx).
    unfold roomInvitations, roomMembers, roomEnvelopes in *.
    cbn [conversations memberships invitations sessions envelopes].
    rewrite List.filter_app. cbn [List.filter en_conversationId row envelopeRow].
    destruct (bool_decide_reflect (id = cv_id x)) as [E|E]; [|by rewrite app_nil_r].
    assert (x = c) as -> by (eapply room_unique; [done..|congruence]). rewrite Hid in *. clear E.
    destruct HO as [H1 H2 H3 H4 H5 H6 H7 H8]. constructor; try done.
    + apply Forall_app. split; [done|]. constructor; [|constructor]. unfold row. cbn [en_rosterVersion en_epoch
        en_senderParticipantId en_senderRole envelopeRow]. unfold inRoom in HF. split_and!.
      * exact HF.
      * rewrite HV, H3. unfold inRoom. by rewrite HF.
      * rewrite HEp, H4. unfold inRoom. by rewrite HF.
      * by apply is_member_seat.
    + rewrite map_app. apply NoDup_app. split_and!; [done| |by apply NoDup_singleton].
      intros k Hk ->%list_elem_of_singleton. cbn in Hk.
      apply list_elem_of_In, in_map_iff in Hk as (e & Ek & [He Hee]%filter_In).
      apply not_true_iff_false in HK. apply HK, existsb_exists. exists e. split; [done|].
      rewrite Hee. by apply bool_decide_eq_true.
    + rewrite length_app. cbn. lia.
    + rewrite ciphertextChars_app. cbn. lia.
  - rewrite map_app. apply StronglySorted_snoc; [done|]. apply List.Forall_forall.
    intros z (e & <- & He)%in_map_iff. rewrite List.Forall_forall in HL'. specialize (HL' e He). cbn. lia.
  - cbn. split; [lia|]. apply Forall_app. split; [|repeat constructor; cbn; lia].
    eapply Forall_impl; [exact HL'|]. cbn. lia.
Qed.

Lemma submit_inv s id input t0 t createdAt db :
  inv db → inv (submitEnvelope s id input t0 t createdAt db).1.
Proof.
  intros HI%(cleaned_inv t0). unfold submitEnvelope. rewrite bind_cleanup. unfold transaction.
  destruct (submit_eval s id input t createdAt (cleaned t0 db)) as [[e He]|[(c & x & _ & _ & _ & HE)|
    (c & e & HSd & _ & HC & HCh & HK & _ & _ & HE)]].
  - destruct (submitEnvelopeInTransaction _ _ _ _ _ _) as [db2 r]. cbn in He. by subst.
  - rewrite HE. by apply cleaned_inv.
  - rewrite HE. apply (cleaned_inv t) in HI. by eapply withEnvelope_inv.
Qed.
End Sending.

(** ** Histories *)

Section Histories.
Context `{SHA : Sha256}.

(** One call of the store, with the random values and clock readings it draws. *)
Inductive command :=
| Bootstrap (projectRef : string) (rnd : BootstrapRandom) (t now : Z)
| Exchange (invitationToken sessionToken csrfToken : string) (t now : Z)
| Authenticate (sessionToken : string) (t now : Z)
| Logout (sessionToken : string)
| ListConversations (session : SessionActor) (t : Z)
| GetConversation (session : SessionActor) (conversationId : string) (t : Z)
| SyncEnvelopes (session : SessionActor) (conversationId : string) (afterCursor limit t : Z)
| SubmitEnvelope (session : SessionActor) (conversationId : string) (input : SubmitEnvelopeInput)
    (t t' now : Z).

Definition run (c : command) (db : Db) : Db :=
  match c with
  | Bootstrap p rnd t now => (bootstrap p rnd t now db).1
  | Exchange i s c t now => (exchangeInvitation i s c t now db).1
  | Authenticate s t now => (authenticate s t now db).1
  | Logout s => (logout s db).1
  | ListConversations s t => (listConversations s t db).1
  | GetConversation s id t => (getConversation s id t db).1
  | SyncEnvelopes s id after limit t => (syncEnvelopes s id after limit t db).1
  | SubmitEnvelope s id input t t' now => (submitEnvelope s id input t t' now db).1
  end.
Definition runAll (cs : list command) (db : Db) : Db := foldl (λ db c, run c db) db cs.
Definition reachable (db : Db) : Prop := ∃ cs, db = runAll cs emptyDb.

Lemma authenticate_state s t now db : (authenticate s t now db).1 = cleaned t db.
Proof.
  unfold authenticate. run_op. destruct (List.find _ _) as [x|]; [|done].
  rewrite bind_reading by done. cbn [lift snd]. by destruct (asNumber _).
Qed.
Lemma list_state s t db : (listConversations s t db).1 = cleaned t db.
Proof. done. Qed.

(** The answer of a sync, given the room's rows. *)
Lemma sync_eval s id after limit t db :
  (syncEnvelopes s id after limit t db).1 = cleaned t db ∧
  (is_member s id (cleaned t db) = false →
     (syncEnvelopes s id after limit t db).2 = Throw conversation_not_found) ∧
  (is_member s id (cleaned t db) = true →
     let rows := sqlLimit (limit + 1) (sort_by (λ x y, en_sequence x <=? en_sequence y)
       (List.filter (λ e, after <? en_sequence e) (roomEnvelopes id (cleaned t db)))) in
     (syncEnvelopes s id after limit t db).2 =
       (es ← mapR mapEnvelope (sliceTo limit rows);
        Ok {| pg_envelopes := es; pg_nextCursor := default after (cursor <$> last es);
              pg_hasMore := limit <? Z.of_nat (length rows) |})).
Proof.
  unfold syncEnvelopes, assertMembership. run_op. fold (is_member s id (cleaned t db)).
  destruct (is_member s id (cleaned t db)); cbn [negb]; [|done]. run_op.
  rewrite bind_reading by done. cbn [lift snd].
  destruct (mapR _ _); by split_and!.
Qed.

Lemma run_inv c db : inv db → inv (run c db).
Proof.
  intros HI. destruct c; cbn [run].
  - by apply bootstrap_inv.
  - by apply exchange_inv.
  - rewrite authenticate_state. by apply cleaned_inv.
  - cbn. apply set_sessions_inv; [|done]. apply NoDup_map_filter, HI.
  - by apply cleaned_inv.
  - rewrite (proj1 (getConversation_eval _ _ _ _)). by apply cleaned_inv.
  - rewrite (proj1 (sync_eval _ _ _ _ _ _)). by apply cleaned_inv.
  - by apply submit_inv.
Qed.

Lemma emptyDb_inv : inv emptyDb.
Proof. constructor; cbn; by constructor. Qed.

Lemma devstore_reachable_inv db : reachable db → inv db.
Proof.
  intros [cs ->]. unfold runAll. generalize emptyDb_inv. generalize emptyDb.
  induction cs as [|c cs IH]; intros db HI; [done|]. cbn. by apply IH, run_inv.
Qed.

(** C23: In every history, every room has two seats with one role each; its roster
    version and its epoch count the seats taken; it holds envelopes only once
    both seats are taken, all sent by its members in the final epoch, with
    distinct client identifiers and within the quota; and sequences increase. *)
Theorem devstore_room_contract db c :
  reachable db → In c (conversations db) →
  let ms := roomMembers (cv_id c) db in
  let es := roomEnvelopes (cv_id c) db in
  (length ms <= 2)%nat ∧ NoDup (map mb_role ms) ∧ NoDup (map mb_participantId ms) ∧
  cv_rosterVersion c = Z.of_nat (length ms) ∧ cv_epoch c = Z.of_nat (length ms) ∧
  Forall (λ e, length ms = 2%nat ∧ en_epoch e = cv_epoch c ∧ en_rosterVersion e = cv_rosterVersion c ∧
    (en_senderParticipantId e, en_senderRole e) ∈ map seat ms) es ∧
  NoDup (map en_clientEnvelopeId es) ∧ Z.of_nat (length es) <= MAX_ENVELOPES_PER_ROOM ∧
  ciphertextChars es <= MAX_ENCODED_CIPHERTEXT_CHARS_PER_ROOM ∧
  StronglySorted Z.lt (map en_sequence es).
Proof.
  intros HI%devstore_reachable_inv Hc ms es. pose proof (inv_room_of db c HI Hc) as HR. fold ms es in HR.
  destruct HR as [(i & j & HS & Hi & Hj & Hij) HM HV HE HEs HK HC HCh]. rewrite HS in HM.
  assert (HRoles : map mb_role ms ≡ₚ map iv_role (List.filter is_consumed [i; j])).
  { replace (map mb_role ms) with (map snd (map seat ms)) by by rewrite map_map.
    rewrite HM, map_map. done. }
  assert (HParts : map mb_participantId ms ≡ₚ map iv_participantId (List.filter is_consumed [i; j])).
  { replace (map mb_participantId ms) with (map fst (map seat ms)) by by rewrite map_map.
    rewrite HM, map_map. done. }
  assert (HL : (length ms <= 2)%nat).
  { apply Permutation_length in HRoles. rewrite !length_map in HRoles. rewrite HRoles. cbn.
    destruct (is_consumed i), (is_consumed j); cbn; lia. }
  split_and!; try done.
  - rewrite HRoles. cbn. destruct (is_consumed i), (is_consumed j); cbn; rewrite ?Hi, ?Hj;
      by apply (bool_decide_unpack _).
  - rewrite HParts. cbn. destruct (is_consumed i), (is_consumed j); cbn; repeat (apply NoDup_cons; split);
      try apply NoDup_nil; set_solver.
  - eapply Forall_impl; [exact HEs|]. intros e (H2 & Hv & He & Hs). cbn. rewrite HV, HE, H2. done.
  - apply StronglySorted_map_filter, HI.
Qed.

(** *** Invitations *)

Definition spent (h : string) (db : Db) : Prop :=
  ∀ i, In i (invitations db) → iv_tokenHash i = h → iv_consumedAt i ≠ None.
(** A bootstrap that draws the token again. *)
Definition issues (h : string) (c : command) : Prop :=
  match c with
  | Bootstrap _ rnd _ _ => hashSecret (br_customerToken rnd) = h ∨ hashSecret (br_staffToken rnd) = h
  | _ => False
  end.

Lemma spent_cleaned h t db : spent h db → spent h (cleaned t db).
Proof. intros HS i [Hi _]%filter_In. by apply HS. Qed.

Lemma spent_redeemed h i k st ct now db : spent h db → spent h (redeemed i k st ct now db).
Proof.
  intros HS x (y & <- & Hy)%in_map_iff. destruct (live k now y); [by cbn|]. by apply HS.
Qed.

Lemma spent_run h c db : inv db → ¬ issues h c → spent h db → spent h (run c db).
Proof.
  intros HI HN HS. destruct c as [p rnd t now|k st ct t now|st t now|st|s t|s id t|s id a l t|s id inp t t' now];
    cbn [run].
  - unfold bootstrap. rewrite bind_cleanup. pose proof (cleaned_inv t db HI) as HC.
    apply (spent_cleaned h t) in HS. set (db1 := cleaned t db) in *.
    unfold transaction, mbind at 1, op_bind at 1.
    destruct (createRoom_eval p rnd now db1 (inv_tokens db1 HC)) as [HT|(_ & _ & HE)].
    + destruct (createRoom _ _ _ _ _ db1) as [db2 r]. cbn in HT. by subst.
    + rewrite HE, bind_reading by apply reading_unscoped.
      assert (HX : spent h (newRoom p rnd now db1)).
      { intros i [Hi|Hi]%in_app_iff; [by apply HS|]. cbn in HN.
        destruct Hi as [<-|[<-|[]]]; cbn; intros E; exfalso; apply HN; [by left|by right]. }
      by destruct (getConversationUnscoped _ _).2.
  - unfold exchangeInvitation. rewrite bind_cleanup. unfold transaction.
    pose proof (cleaned_inv t db HI) as HC. apply (spent_cleaned h t) in HS.
    destruct (redeem_eval (hashSecret k) st ct now (cleaned t db) HC) as [[e He]|(i & _ & _ & _ & HE)];
      destruct (redeem _ _ _ _ _) as [db2 [r|e']]; cbn in *; try done; subst. by apply spent_redeemed.
  - rewrite authenticate_state. by apply spent_cleaned.
  - done.
  - by apply spent_cleaned.
  - rewrite (proj1 (getConversation_eval _ _ _ _)). by apply spent_cleaned.
  - rewrite (proj1 (sync_eval _ _ _ _ _ _)). by apply spent_cleaned.
  - unfold submitEnvelope. rewrite bind_cleanup. unfold transaction.
    apply (spent_cleaned h t) in HS.
    destruct (submit_eval s id inp t' now (cleaned t db)) as [[e He]|[(c & x & _ & _ & _ & HE)|
      (c & e & _ & _ & _ & _ & _ & _ & _ & HE)]].
    + destruct (submitEnvelopeInTransaction _ _ _ _ _ _) as [db2 r]. cbn in He. by subst.
    + rewrite HE. by apply spent_cleaned.
    + rewrite HE. by apply (spent_cleaned h t') in HS.
Qed.

Lemma redeem_spent h st ct now db : spent h db →
  redeem h st ct now db = (db, Throw invalid_invitation).
Proof.
  intros HS. unfold redeem. rewrite bind_query. destruct (List.find _ _) as [i|] eqn:EF; [|done].
  apply List.find_some in EF as [Hi E%bool_decide_eq_true]. run_op.
  by rewrite bool_decide_eq_false_2 by by apply HS.
Qed.

(** C31: An invitation is redeemed at most once: after a successful exchange the
    token is refused in every later history, unless a later bootstrap draws the
    same token again. *)
Theorem invitation_single_use db k st ct t now db' r cs st' ct' t' now' :
  reachable db → exchangeInvitation k st ct t now db = (db', Ok r) →
  Forall (λ c, ¬ issues (hashSecret k) c) cs →
  (exchangeInvitation k st' ct' t' now' (runAll cs db')).2 = Throw invalid_invitation.
Proof.
  intros HI%devstore_reachable_inv HX HF. assert (HI' : inv db').
  { pose proof (exchange_inv k st ct t now db HI) as H. by rewrite HX in H. }
  assert (HS : spent (hashSecret k) db').
  { unfold exchangeInvitation in HX. rewrite bind_cleanup in HX. unfold transaction in HX.
    pose proof (cleaned_inv t db HI) as HC.
    destruct (redeem_eval (hashSecret k) st ct now (cleaned t db) HC) as [[e He]|(i & Hi & Hl & _ & HE)];
      destruct (redeem _ _ _ _ _) as [db2 [r'|e']]; cbn in *; try done.
    injection HX as <- _. subst. intros x (y & <- & Hy)%in_map_iff.
    destruct (live (hashSecret k) now y) eqn:Ly; [by cbn|]. intros Ey.
    assert (y = i) as ->; [|congruence]. apply (token_unique (cleaned t db)); [apply HC|done|done|].
    unfold live in Hl. bsimp. congruence. }
  assert (HR : spent (hashSecret k) (runAll cs db')).
  { unfold runAll. clear HX. revert db' HI' HS. induction cs as [|c cs IH]; intros db' HI' HS; [done|].
    apply Forall_cons in HF as [Hc HF]. cbn. apply IH; [done|by apply run_inv|by apply spent_run]. }
  unfold exchangeInvitation. rewrite bind_cleanup. unfold transaction.
  by rewrite redeem_spent by by apply spent_cleaned.
Qed.
End Histories.

Section Access.
Context `{SHA : Sha256}.

Lemma roomExists_cleaned id t db :
  inv db → roomExists id (cleaned t db) = true →
  ∃ c, In c (conversations db) ∧ cv_id c = id ∧ t - ROOM_TTL_MS < cv_createdAt c.
Proof.
  intros HI (c & Hid & [Hc Ht]%filter_In)%roomExists_In%in_map_iff. exists c. split_and!; [done|done|lia].
Qed.

Lemma cleaned_idem t db : inv db → cleaned t (cleaned t db) = cleaned t db.
Proof.
  intros HI. unfold cleaned at 1. pose proof (cleaned_inv t db HI) as HC.
  assert (HG : ∀ id, existsb (λ c, (cv_createdAt c <=? t - ROOM_TTL_MS) && (cv_id c === id))
    (conversations (cleaned t db)) = false).
  { intros id. apply existsb_false, Forall_forall. intros c Hc.
    apply list_elem_of_In, filter_In in Hc as [_ Hc]. apply negb_true_iff in Hc. by rewrite Hc. }
  assert (HF : ∀ {A} (f : A → string) (xs : list A), List.filter (λ x, negb
    (existsb (λ c, (cv_createdAt c <=? t - ROOM_TTL_MS) && (cv_id c === f x)) (conversations (cleaned t db)))) xs = xs).
  { intros A f xs. induction xs as [|x xs IH]; [done|]. cbn [List.filter]. rewrite HG. cbn [negb]. by rewrite IH. }
  assert (HD : deleteRooms (λ c, cv_createdAt c <=? t - ROOM_TTL_MS) (cleaned t db) = cleaned t db).
  { unfold deleteRooms. rewrite (HF _ mb_conversationId), (HF _ iv_conversationId), (HF _ en_conversationId).
    assert (HK : List.filter (λ c, negb (cv_createdAt c <=? t - ROOM_TTL_MS)) (conversations (cleaned t db))
      = conversations (cleaned t db)).
    { cbn. apply filter_filter, Forall_forall. done. }
    rewrite HK. by destruct (cleaned t db). }
  rewrite HD. unfold dropSessions, set_sessions. 
  assert (HK : List.filter (λ s, existsb (λ m, mb_participantId m === se_participantId s) (memberships (cleaned t db)))
    (sessions (cleaned t db)) = sessions (cleaned t db)).
  { cbn. apply filter_filter, Forall_forall. done. }
  rewrite HK. by destruct (cleaned t db).
Qed.

(** Nobody reaches a room without a membership in it that is not expired: every
    operation on the room answers as if it did not exist, and changes nothing
    beyond the expiry of old rooms. *)
Theorem devstore_isolation db s id t :
  (∀ m, In m (memberships (cleaned t db)) → mb_conversationId m = id →
     mb_participantId m = ac_participantId s → mb_role m ≠ ac_role s) →
  getConversation s id t db = (cleaned t db, Throw conversation_not_found) ∧
  (∀ after limit, syncEnvelopes s id after limit t db = (cleaned t db, Throw conversation_not_found)) ∧
  (∀ input now, inv db →
     submitEnvelope s id input t t now db = (cleaned t db, Throw conversation_not_found)).
Proof.
  intros HN. assert (HM : is_member s id (cleaned t db) = false).
  { apply existsb_false, Forall_forall. intros m Hm%list_elem_of_In. specialize (HN m Hm).
    destruct (bool_decide_reflect (mb_conversationId m = id)) as [E1|]; [|done].
    destruct (bool_decide_reflect (mb_participantId m = ac_participantId s)) as [E2|]; [|done].
    apply bool_decide_eq_false. by apply HN. }
  assert (HG : ∀ db', cleaned t db' = cleaned t db →
    getConversation s id t db' = (cleaned t db, Throw conversation_not_found)).
  { intros db' E. unfold getConversation, assertMembership. run_op. rewrite E.
    fold (is_member s id (cleaned t db)). by rewrite HM. }
  split_and!.
  - by apply HG.
  - intros after limit. destruct (sync_eval s id after limit t db) as (H1 & H2 & _).
    specialize (H2 HM). destruct (syncEnvelopes _ _ _ _ _ _). cbn in *. by subst.
  - intros input now HI. unfold submitEnvelope. rewrite bind_cleanup. unfold transaction, submitEnvelopeInTransaction.
    rewrite bind_eta, HG; [done|by apply cleaned_idem].
Qed.

(** Expiry is enforced on every read: a session that authenticates has a seat in
    a room younger than a day and is itself unexpired, and a conversation that
    is returned is younger than a day. *)
Theorem devstore_freshness db token t now db' s :
  reachable db → authenticate token t now db = (db', Ok s) →
  now < ac_expiresAt (as_actor s) ∧
  (∃ m c, In m (memberships db') ∧ mb_participantId m = ac_participantId (as_actor s) ∧
     In c (conversations db') ∧ cv_id c = mb_conversationId m ∧ t - ROOM_TTL_MS < cv_createdAt c) ∧
  ∀ actor id u d, (getConversation actor id u db').2 = Ok d → u - ROOM_TTL_MS < cs_createdAt (cd_summary d).
Proof.
  intros HI%devstore_reachable_inv HA. pose proof (authenticate_state token t now db) as HS. rewrite HA in HS. cbn in HS. subst db'.
  pose proof (cleaned_inv t db HI) as HC.
  unfold authenticate in HA. rewrite bind_cleanup in HA. cbv zeta in HA. rewrite bind_query in HA.
  destruct (List.find _ _) as [x|] eqn:EF; [|done]. rewrite bind_reading in HA by done. cbn [lift snd] in HA.
  unfold asNumber in HA. destruct (isSafeInteger _); [|done]. injection HA as <-. cbn [as_actor ac_expiresAt ac_participantId].
  apply List.find_some in EF as [Hx Hb]. bsimp. split_and!; [lia| |].
  - assert (Hse : existsb (λ m, mb_participantId m === se_participantId x) (memberships (cleaned t db)) = true).
    { apply filter_In in Hx as [_ Hx]. exact Hx. }
    apply existsb_exists in Hse as (m & Hm & E%bool_decide_eq_true).
    pose proof (inv_fk_members _ HC) as HF. rewrite List.Forall_forall in HF. specialize (HF m Hm).
    apply roomExists_In, in_map_iff in HF as (c & Hid & Hc). exists m, c. split_and!; [done..|].
    apply filter_In in Hc as [_ Hc]. lia.
  - intros actor id u d HG. apply (getConversation_eval actor id u (cleaned t db)) in HG as [_ HU].
    apply unscoped_Ok in HU as (c & Hc & _ & HmC & _). apply mapConversation_Ok in HmC as ->.
    apply filter_In in Hc as [_ Hc]. cbn. lia.
Qed.

(** *** Sending is idempotent *)

Lemma find_appended s id input createdAt n db :
  existsb (λ e, (en_conversationId e === id) && (en_clientEnvelopeId e === in_clientEnvelopeId input))
    (envelopes db) = false →
  List.find (λ e, (en_conversationId e === id) && (en_clientEnvelopeId e === in_clientEnvelopeId input))
    (envelopes (withEnvelope (envelopeRow s id input createdAt n) db)) = Some (envelopeRow s id input createdAt n).
Proof.
  unfold withEnvelope. cbn [envelopes]. intros HF%existsb_false.
  induction HF as [|e es He _ IH]; cbn [List.find app]; [|by rewrite He].
  cbn [en_conversationId en_clientEnvelopeId envelopeRow]. by rewrite !bool_decide_eq_true_2.
Qed.

Lemma unscoped_frame id db db' :
  conversations db = conversations db' → memberships db = memberships db' →
  (getConversationUnscoped id db).2 = (getConversationUnscoped id db').2.
Proof.
  intros Hc Hm. unfold getConversationUnscoped, roomMembers. run_op. rewrite Hc.
  destruct (List.find _ _) as [c|]; [|done]. run_op. rewrite Hm. rewrite !bind_reading by done. cbn [lift snd].
  destruct (mapConversation c); [|done]. rewrite !bind_reading by done. cbn [lift snd]. by destruct (mapR _ _).
Qed.

Lemma mapEnvelope_Ok row e : mapEnvelope row = Ok e →
  e = {| e_conversationId := en_conversationId row; cursor := en_sequence row;
         e_clientEnvelopeId := en_clientEnvelopeId row; e_senderParticipantId := en_senderParticipantId row;
         e_senderRole := en_senderRole row; e_rosterVersion := decimal (en_rosterVersion row);
         e_epoch := en_epoch row; e_ciphertext := en_ciphertext row; e_createdAt := en_createdAt row |}.
Proof.
  unfold mapEnvelope, asNumber. intros H. inv_result.
  repeat match goal with H : (if ?b then _ else _) = Ok _ |- _ => destruct b; inv_result end. by subst.
Qed.

(** Submitting again while the room lives changes nothing: the same envelope is
    answered with the stored one and [duplicate], and the same identifier with
    other ciphertext is refused. *)
Theorem submit_idempotent db s id input t0 t now db' e :
  reachable db → submitEnvelope s id input t0 t now db = (db', Ok (e, false)) →
  ∀ t1 t2 now', cleaned t1 db' = db' → cleaned t2 db' = db' →
  submitEnvelope s id input t1 t2 now' db' = (db', Ok (e, true)) ∧
  ∀ c, c ≠ in_ciphertext input →
    submitEnvelope s id {| in_clientEnvelopeId := in_clientEnvelopeId input;
      in_rosterVersion := in_rosterVersion input; in_epoch := in_epoch input; in_ciphertext := c |} t1 t2 now' db'
    = (db', Throw idempotency_conflict).
Proof.
  intros HI%devstore_reachable_inv HX t1 t2 now' H1 H2.
  unfold submitEnvelope in HX. rewrite bind_cleanup in HX. unfold transaction in HX.
  destruct (submit_eval s id input t now (cleaned t0 db)) as [[x Hx]|[(c & x & _ & _ & _ & HE)|
    (c & x & HSd & _ & _ & _ & HK & _ & HFd & HE)]].
  { destruct (submitEnvelopeInTransaction _ _ _ _ _ _) as [d [r|y]]; cbn in *; done. }
  { rewrite HE in HX. done. }
  rewrite HE in HX. set (db1 := cleaned t (cleaned t0 db)) in *.
  set (row := envelopeRow s id input now (lastSequence db1 + 1)) in *.
  assert (x = e) as -> by congruence. assert (Edb : db' = withEnvelope row db1) by congruence. clear HX HE.
  pose proof (find_appended s id input now (lastSequence db1 + 1) db1 HK) as HRow. fold row in HRow.
  rewrite <- Edb in HRow, HFd.
  assert (HMap : mapEnvelope row = Ok e).
  { unfold findEnvelope in HFd. rewrite bind_query, HRow in HFd. rewrite bind_reading in HFd by done.
    cbn [lift snd] in HFd. destruct (mapEnvelope row); [|done]. by injection HFd as ->. }
  apply (cleaned_inv t0), (cleaned_inv t) in HI. fold db1 in HI.
  destruct HSd as [Sc Sid Sm Sf Scu Sst Sv Sep [d Sd]].
  pose proof (inv_room_of db1 c HI Sc) as HO. rewrite Sid in HO. pose proof (ro_version _ _ _ _ HO) as HV.
  pose proof (ro_epoch _ _ _ _ HO) as HEp. rewrite Sf in HV, HEp. rewrite HV in Sv. rewrite HEp in Sep.
  assert (HM : ∀ input', in_rosterVersion input' = in_rosterVersion input → in_epoch input' = in_epoch input →
    matchesStored s input' e = bool_decide (in_ciphertext input = in_ciphertext input')).
  { intros input' E1 E2. apply mapEnvelope_Ok in HMap as ->. unfold matchesStored, row.
    rewrite E1, E2, Sv, Sep. cbn [envelopeRow e_senderParticipantId e_senderRole e_rosterVersion e_epoch
      e_ciphertext en_senderParticipantId en_senderRole en_rosterVersion en_epoch en_ciphertext].
    rewrite Sv, Sep, Z.eqb_refl. by rewrite !(bool_decide_eq_true_2 (_ = _)) by done. }
  assert (HG : ∀ input', in_rosterVersion input' = in_rosterVersion input → in_epoch input' = in_epoch input →
    in_clientEnvelopeId input' = in_clientEnvelopeId input →
    submitEnvelope s id input' t1 t2 now' db'
      = (db', if matchesStored s input' e then Ok (e, true) else Throw idempotency_conflict)).
  { intros input' Ev Ep Ek. unfold submitEnvelope. rewrite bind_cleanup, H1. unfold transaction.
    unfold submitEnvelopeInTransaction, getConversation, assertMembership. run_op. rewrite H2.
    assert (Sm' : is_member s id db' = true) by by rewrite Edb.
    fold (is_member s id db'). rewrite Sm'. cbn [negb].
    rewrite bind_reading by apply reading_unscoped.
    assert (Sd' : (getConversationUnscoped id db').2 = Ok d) by (by rewrite Edb, (unscoped_frame id _ db1)).
    rewrite Sd'. unfold assertFixedRoster. run_op.
    assert (Sr' : roomMembers id db' = roomMembers id db1) by by rewrite Edb.
    rewrite Sr'. fold (countRole customer (roomMembers id db1)). fold (countRole project_staff (roomMembers id db1)).
    rewrite Sf, Scu, Sst. cbn [Z.of_nat Z.eqb negb orb Pos.of_succ_nat Pos.succ Pos.eqb].
    apply unscoped_Ok in Sd as (c' & Hc' & Hid' & HmC & _).
    assert (c' = c) as -> by (apply (room_unique db1); [apply HI|done..|congruence]).
    apply mapConversation_Ok in HmC. rewrite HmC. cbn [cs_rosterVersion cs_epoch]. run_op.
    rewrite Ev, Ep, Sv, Sep, HV, HEp, Z.eqb_refl, bool_decide_eq_true_2 by done. cbn [negb orb].
    rewrite bind_reading by apply reading_find. rewrite Ek, HFd. by destruct (matchesStored s input' e). }
  split.
  - rewrite HG, HM by done. by rewrite bool_decide_eq_true_2.
  - intros ct Hne. rewrite HG, HM by done. by rewrite bool_decide_eq_false_2 by (cbn; congruence).
Qed.
End Access.

(** ** Synchronisation *)

Section Sync.
Context `{SHA : Sha256}.

(** A client that reads a room page by page, at one moment. *)
Fixpoint readAll (fuel : nat) (session : SessionActor) (conversationId : string) (afterCursor limit t : Z) :
    op (list StoredEnvelope) :=
  match fuel with
  | O => raise GenericError
  | S fuel =>
      page ← syncEnvelopes session conversationId afterCursor limit t;
      if pg_hasMore page
      then rest ← readAll fuel session conversationId (pg_nextCursor page) limit t;
           mret (pg_envelopes page ++ rest)
      else mret (pg_envelopes page)
  end.

Definition after (a : Z) (rows : list EnvelopeRow) : list EnvelopeRow :=
  List.filter (λ e, a <? en_sequence e) rows.

Lemma last_take_In {A} k (rows : list A) x : last (take k rows) = Some x → In x rows.
Proof.
  intros HL%last_Some_elem_of%list_elem_of_In. rewrite <- (take_drop k rows). apply in_app_iff. by left.
Qed.

Lemma sort_sorted rows :
  StronglySorted Z.lt (map en_sequence rows) → sort_by (λ x y, en_sequence x <=? en_sequence y) rows = rows.
Proof.
  induction rows as [|x rows IH]; [done|]. cbn. inversion 1 as [|? ? HS HF]; subst. rewrite IH by done.
  destruct rows as [|y rows]; [done|]. cbn. apply Forall_cons in HF as [Hx _].
  by replace (en_sequence x <=? en_sequence y) with true by lia.
Qed.

Lemma after_above a rows :
  StronglySorted Z.lt (map en_sequence rows) → Forall (λ e, a < en_sequence e) rows → after a rows = rows.
Proof.
  intros _. induction 1 as [|x rows Hx _ IH]; [done|]. unfold after in *. cbn.
  replace (a <? en_sequence x) with true by lia. by rewrite IH.
Qed.

(** Skipping what the cursor has passed leaves the rows behind it. *)
Lemma after_last rows k x :
  StronglySorted Z.lt (map en_sequence rows) → last (take k rows) = Some x →
  after (en_sequence x) rows = drop k rows.
Proof.
  revert k. induction rows as [|y rows IH]; intros [|k]; try done. cbn [map take drop].
  inversion 1 as [|? ? HS HF]; subst. destruct (take k rows) as [|z zs] eqn:ET.
  - cbn [last]. intros [= ->]. unfold after at 1. cbn [List.filter]. rewrite Z.ltb_irrefl. fold (after (en_sequence x) rows).
    assert (HD : drop k rows = rows) by (destruct k, rows; try done; discriminate). rewrite HD.
    apply after_above; [done|]. by apply (proj1 (List.Forall_map en_sequence _ rows)) in HF.
  - intros HL. rewrite last_cons_cons in HL. rewrite <- ET in HL.
    assert (HX : en_sequence y < en_sequence x).
    { rewrite List.Forall_forall in HF. apply HF, in_map. by apply last_take_In in HL. }
    unfold after. cbn [List.filter]. replace (en_sequence x <? en_sequence y) with false by lia. by apply IH.
Qed.

Lemma after_after a b rows : a <= b → after b (after a rows) = after b rows.
Proof. intros H. apply filter_filter, Forall_forall. intros x _. lia. Qed.

Lemma bind_run {A B} (m : op A) (f : A → op B) db db' a : m db = (db', Ok a) → (m ≫= f) db = f a db'.
Proof. intros E. by rewrite bind_eta, E. Qed.

Lemma readAll_from s id t db limit (HI : inv db) (HM : is_member s id (cleaned t db) = true) (HL : 1 <= limit) :
  ∀ fuel a log db', cleaned t db' = cleaned t db →
  (length log < fuel)%nat →
  mapR mapEnvelope (after a (roomEnvelopes id (cleaned t db))) = Ok log →
  readAll fuel s id a limit t db' = (cleaned t db, Ok log).
Proof.
  pose proof (cleaned_idem t db HI) as HC.
  assert (HS : StronglySorted Z.lt (map en_sequence (roomEnvelopes id (cleaned t db)))).
  { apply StronglySorted_map_filter, (inv_sequence _ (cleaned_inv t db HI)). }
  set (R := roomEnvelopes id (cleaned t db)) in *.
  induction fuel as [|fuel IH]; intros a log db' HD HF HR; [lia|]. cbn [readAll].
  destruct (sync_eval s id a limit t db') as (E1 & _ & E2). rewrite HD in E1, E2. specialize (E2 HM).
  cbv zeta in E2. fold R in E2. fold (after a R) in E2.
  assert (HSa : StronglySorted Z.lt (map en_sequence (after a R))) by by apply StronglySorted_map_filter.
  unfold sqlLimit, sliceTo in E2. rewrite !(proj2 (Z.ltb_ge _ 0)) in E2 by lia.
  rewrite sort_sorted in E2 by done. rewrite take_take, length_take, (Nat.min_l (Z.to_nat limit)) in E2 by lia.
  pose proof HR as HR'. apply mapR_Ok in HR'. pose proof (Forall2_length _ _ _ HR') as HLen.
  pose proof (Forall2_take _ _ _ (Z.to_nat limit) HR') as HT. apply mapR_Ok in HT. rewrite HT in E2. cbn [mbind result_bind] in E2.
  set (page := {| pg_envelopes := _; pg_nextCursor := _; pg_hasMore := _ |}) in E2.
  assert (E : syncEnvelopes s id a limit t db' = (cleaned t db, Ok page)).
  { destruct (syncEnvelopes _ _ _ _ _ _). cbn in *. congruence. }
  rewrite (bind_run _ _ _ _ _ E). subst page. cbn [pg_hasMore pg_envelopes pg_nextCursor].
  destruct (Z.ltb_spec limit (Z.of_nat (Nat.min (Z.to_nat (limit + 1)) (length (after a R))))).
  - destruct (last (take (Z.to_nat limit) (after a R))) as [x|] eqn:EL; last first.
    { apply last_None in EL. apply (f_equal length) in EL. rewrite length_take in EL. cbn [length] in EL. lia. }
    assert (EX : ∃ y, last (take (Z.to_nat limit) log) = Some y ∧ mapEnvelope x = Ok y).
    { apply mapR_Ok in HT. rewrite last_lookup in EL. rewrite last_lookup.
      rewrite <- (Forall2_length _ _ _ HT). by apply (Forall2_lookup_l _ _ _ _ _ HT) in EL. }
    destruct EX as (y & EY & Ey%mapEnvelope_Ok). rewrite EY. change (default a (cursor <$> Some y)) with (cursor y).
    assert (Hxa : a <= en_sequence x).
    { pose proof (last_take_In _ _ _ EL) as [_ HE]%filter_In. lia. }
    erewrite (bind_run _ _ _ (cleaned t db) (drop (Z.to_nat limit) log)).
    + unfold mret, op_ret. by rewrite take_drop.
    + apply IH; [done| |].
      * rewrite length_drop. lia.
      * subst y. cbn [cursor]. rewrite <- (after_after a), (after_last _ _ _ HSa EL) by done.
        by apply mapR_Ok, Forall2_drop.
  - by rewrite take_ge by lia.
Qed.

(** C35: Reading a room page by page terminates and misses nothing: from cursor 0,
    whatever the page size, a member obtains the whole log of the room, in
    order and without repetition, in at most one page more than envelopes. *)
Theorem devstore_sync_complete db s id t limit log :
  reachable db → is_member s id (cleaned t db) = true → 1 <= limit →
  mapR mapEnvelope (roomEnvelopes id (cleaned t db)) = Ok log →
  readAll (S (length log)) s id 0 limit t db = (cleaned t db, Ok log) ∧
  StronglySorted Z.lt (map cursor log).
Proof.
  intros HI%devstore_reachable_inv HM HL HR. pose proof (cleaned_inv t db HI) as HC. split.
  - apply readAll_from; try done; [lia|]. rewrite after_above; [done| |].
    + apply StronglySorted_map_filter, HC.
    + destruct (inv_last _ HC) as [_ HP]. eapply Forall_filter_impl; [|exact HP]. cbn. lia.
  - apply mapR_Ok in HR. assert (E : map cursor log = map en_sequence (roomEnvelopes id (cleaned t db))).
    { induction HR as [|x y xs ys Hy _ IH]; [done|]. cbn. apply mapEnvelope_Ok in Hy as ->. by rewrite IH. }
    rewrite E. apply StronglySorted_map_filter, HC.
Qed.
End Sync.

(** ** A concrete room *)

Section Witnesses.
#[local] Existing Instance fips_sha256.

Definition sample_random : BootstrapRandom := {|
  br_conversationId := "room"; br_customerToken := "ct"; br_customerUuid := "1";
  br_staffToken := "st"; br_staffUuid := "2" |}.
Definition sample_customer : SessionActor := {|
  ac_participantId := "customer_1"; ac_role := customer; ac_expiresAt := 1200 + SESSION_LIFETIME_MS |}.
Definition sample_staff : SessionActor := {|
  ac_participantId := "staff_2"; ac_role := project_staff; ac_expiresAt := 1300 + SESSION_LIFETIME_MS |}.
Definition sample_input (k : string) : SubmitEnvelopeInput := {|
  in_clientEnvelopeId := k; in_rosterVersion := "2"; in_epoch := 2; in_ciphertext := "AAAAAAAAAAAAAAAA" |}.
Definition sample_opened : list command := [Bootstrap "project" sample_random 1000 1100].
Definition sample_joined : list command :=
  sample_opened ++ [Exchange "ct" "cs" "cx" 1200 1200; Exchange "st" "ss" "sx" 1300 1300].
Definition sample_sent : list command :=
  sample_joined ++ [SubmitEnvelope sample_customer "room" (sample_input "a") 1400 1400 1400;
                    SubmitEnvelope sample_staff "room" (sample_input "b") 1500 1500 1500].
Definition sample_db (cs : list command) : Db := runAll cs emptyDb.

Lemma sample_reachable cs : reachable (sample_db cs).
Proof. by exists cs. Qed.

Lemma devstore_room_contract_witness :
  let db := sample_db sample_sent in
  ∃ c, In c (conversations db) ∧ cv_epoch c = 2 ∧ length (roomEnvelopes (cv_id c) db) = 2%nat ∧
    NoDup (map mb_role (roomMembers (cv_id c) db)).
Proof.
  intros db. eexists. split; [vm_compute; left; reflexivity|]. split; [reflexivity|].
  split; [vm_compute; reflexivity|].
  refine (proj1 (proj2 (devstore_room_contract db _ _ _))); [apply sample_reachable|].
  vm_compute. left. reflexivity.
Defined.

Lemma invitation_single_use_witness :
  (exchangeInvitation "ct" "zs" "zx" 1600 1600 (runAll [SubmitEnvelope sample_customer "room"
      (sample_input "a") 1400 1400 1400] (exchangeInvitation "ct" "cs" "cx" 1200 1200 (sample_db sample_opened)).1)).2
  = Throw invalid_invitation.
Proof.
  eapply (invitation_single_use (sample_db sample_opened) "ct" "cs" "cx" 1200 1200).
  - apply sample_reachable.
  - vm_compute. reflexivity.
  - repeat constructor. intros [].
Defined.

Lemma devstore_isolation_witness :
  let stranger := {| ac_participantId := "staff_2"; ac_role := customer; ac_expiresAt := 1 |} in
  (submitEnvelope stranger "room" (sample_input "z") 1600 1600 1600 (sample_db sample_sent)).2
  = Throw conversation_not_found.
Proof.
  intros stranger.
  assert (HF : forallb (λ m, negb ((mb_participantId m === "staff_2") && (mb_role m === customer)))
    (memberships (cleaned 1600 (sample_db sample_sent))) = true) by (vm_compute; reflexivity).
  rewrite forallb_forall in HF.
  destruct (devstore_isolation (sample_db sample_sent) stranger "room" 1600) as (_ & _ & H).
  - intros m Hm%HF _ E1 E2. rewrite E1, E2 in Hm. discriminate Hm.
  - rewrite H; [reflexivity|]. apply devstore_reachable_inv, sample_reachable.
Defined.

Lemma devstore_freshness_witness :
  ∃ s db', authenticate "cs" 1600 1600 (sample_db sample_sent) = (db', Ok s) ∧ 1600 < ac_expiresAt (as_actor s).
Proof.
  eexists _, _. split; [vm_compute; reflexivity|].
  eapply (devstore_freshness (sample_db sample_sent) "cs" 1600 1600); [apply sample_reachable|].
  vm_compute. reflexivity.
Defined.

Lemma submit_idempotent_witness :
  ∃ e db', submitEnvelope sample_staff "room" (sample_input "c") 1600 1600 1600 (sample_db sample_sent)
      = (db', Ok (e, false)) ∧
    submitEnvelope sample_staff "room" (sample_input "c") 1700 1700 1700 db' = (db', Ok (e, true)).
Proof.
  eexists _, _. split; [vm_compute; reflexivity|].
  refine (proj1 (submit_idempotent (sample_db sample_sent) sample_staff "room" (sample_input "c")
    1600 1600 1600 _ _ _ _ 1700 1700 1700 _ _)).
  - apply sample_reachable.
  - vm_compute. reflexivity.
  - vm_compute. reflexivity.
  - vm_compute. reflexivity.
Defined.

Lemma devstore_sync_complete_witness :
  ∃ log, length log = 2%nat ∧
    readAll 3 sample_customer "room" 0 1 1600 (sample_db sample_sent) = (cleaned 1600 (sample_db sample_sent), Ok log).
Proof.
  assert (H : match mapR mapEnvelope (roomEnvelopes "room" (cleaned 1600 (sample_db sample_sent))) with
    Ok log => length log = 2%nat | Throw _ => False end) by (vm_compute; reflexivity).
  destruct (mapR _ _) as [log|] eqn:E; [|destruct H]. exists log. split; [exact H|].
  destruct (devstore_sync_complete (sample_db sample_sent) sample_customer "room" 1600 1 log) as [HS _].
  - apply sample_reachable.
  - vm_compute. reflexivity.
  - lia.
  - exact E.
  - rewrite H in HS. exact HS.
Defined.
End Witnesses.
